(* ===== verification/_CoqProject ===== *)
-Q . S2P
Prelude.v
PyStr.v
PyVal.v
PyFloat.v
Effects.v
PyTime.v
CircuitBreaker.v
CircuitBreakerFacts.v
SupervisorData.v
Supervisor.v
SupervisorDataFacts.v
SupervisorSteps.v
SupervisorHelpers.v
SupervisorEnv.v
SupervisorStore.v
SupervisorStoreFacts.v
SupervisorManager.v
SupervisorFacts.v
SupervisorDurable.v
SupervisorProgress.v
PermissionManager.v
PermissionFacts.v
ToolBudget.v
ToolBudgetFacts.v
SessionStore.v
FlowSession.v
FlowSessionFacts.v
VoiceSession.v
VoiceSessionFacts.v
Schedule.v
ScheduleFacts.v
MissionPolicy.v
MissionPolicyFacts.v
PyRegex.v
PluginPolicy.v
AutonomyPolicy.v
AutonomyFacts.v
ToolRegistry.v
ToolRegistryFacts.v
IsolationPolicy.v
IsolationFacts.v
ToolExecutor.v
ToolExecutorFacts.v
ToolCallFacts.v
PyFloatOps.v
IsoOrder.v
RunPolicy.v
RunStore.v
Threads.v
RunValues.v
RunManager.v
RunLeases.v
RunLeaseFacts.v
RunRaces.v
RunProgress.v
QoSGovernor.v
QoSFacts.v
AutomationStore.v
Automations.v
AutomationFacts.v
AutomationLimits.v
AutomationWatch.v
AutomationHealth.v
AutomationRaces.v
PyFloatFacts.v
ModelRouting.v
ProviderGuards.v
ModelManager.v
ProviderGuardFacts.v
ModelFailoverFacts.v
ModelRouteFacts.v
ModelRaces.v
ProviderSessions.v
Entitlements.v
EntitlementFacts.v
MissionPlanner.v
MissionPlannerFacts.v
MemoryStore.v
MemoryManager.v
MemoryFacts.v
