(* ===== verification/Prelude.v ===== *)
(** * Amaryllis: a verification development of the autonomy runtime

    Amaryllis runs agents on a user's machine.  This library models the parts
    of it that decide what may run and when, and proves what they promise.

    ** The parts of the program

    - The supervisor (supervisor/task_graph_manager.py) keeps graphs of
      dependent nodes, starts an agent run for each node whose dependencies
      succeeded, follows the runs, and checks the objective at the end.  It
      calls the agent manager, and stores every graph in a table of
      storage/database.py.
    - The circuit breaker (runtime/autonomy_circuit_breaker.py) stops run
      creation globally, per user or per agent, and survives restarts in a
      state file.  The supervisor meets it as the exception that run creation
      raises.
    - The tool executor (tools/tool_executor.py) leads a tool call through the
      registry (tools/tool_registry.py), the circuit breaker, the autonomy
      policy (tools/autonomy_policy.py with its packs), the isolation policy
      (tools/policy.py), permission prompts (tools/permission_manager.py) and
      the call budget (tools/tool_budget.py) to its handler.
    - Conversations live in unified sessions (flow/session_manager.py) and
      voice sessions (voice/session_manager.py).
    - The run manager (agents/agent_run_manager.py) executes agent runs: a
      queue and a pool of workers, leases in the run table with heartbeats
      that renew them, retries (agents/run_policy.py on the error classes of
      models/provider_errors.py), budgets, cancellation, a kill switch,
      resumption and recovery after a restart.  Everything durable is in the
      agent_run tables of storage/database.py.
    - Automations (automation/automation_scheduler.py) run on schedules
      (automation/schedule.py) under mission policies
      (automation/mission_policy.py): the scheduler claims due automations
      under leases, dispatches each slot as an agent run, watches files, counts
      failures and writes to the inbox, in tables of storage/database.py.
    - The quality-of-service governor (runtime/qos_governor.py) chooses between
      quality and power saving from measurements and the thermal state.
    - The model manager (models/model_manager.py with models/routing.py) chooses
      a model for each request, calls its provider behind a circuit, retries,
      entitlements and limits for cloud providers, and fails over to others.
      Entitlements (runtime/entitlements.py) follow from the sessions a user
      holds with a provider (runtime/provider_sessions.py) and from server keys.
    - The mission planner (automation/mission_planner.py) turns a template or a
      request into a plan with a schedule and a review checklist.
    - Memory (memory/) records turns, mines them for facts, preferences and
      tasks, resolves contradictions by confidence and consolidates duplicates.

    ** The files

    - [Prelude]: automation, Python dictionaries (insertion-ordered
      association lists) and Python's stable sort.
    - [PyStr], [PyVal], [PyFloat], [PyTime]: Python strings over Latin-1 code
      points, dynamic values with truthiness, [str], [int] and [float], binary64
      floats, datetimes and ISO texts.  [Effects]: methods as computations over
      an explicit state that keep their mutations when they raise, with a small
      Hoare logic.
    - [CircuitBreaker] models runtime/autonomy_circuit_breaker.py function by
      function (state record [breaker], operations [arm], [disarm],
      [evaluate_run_creation], [init]); [CircuitBreakerFacts] proves the
      invariant, the refinement of an abstract set of stopped targets, rollback
      of failed writes, durability and the fail-safe start.
    - [SupervisorData] (graphs, validation, cycle check, loading) and
      [Supervisor] (every method of [SupervisorTaskGraphManager]) model
      supervisor/task_graph_manager.py over two interfaces, the classes
      [AgentManager] and [GraphStore]; [SupervisorStore] implements the second
      as storage/database.py does.  [SupervisorDataFacts] shows the cycle check
      exact; [SupervisorSteps] gives the step relation of a graph and its
      invariant; [SupervisorHelpers], [SupervisorEnv] and [SupervisorManager]
      show that the methods only make such steps; [SupervisorFacts],
      [SupervisorDurable] and [SupervisorProgress] state the theorems about the
      reachable managers: dependency order, node life cycle, exact counters,
      derived status, bounds, ownership, restart, refinement and progress.
    - [PermissionManager]/[PermissionFacts] and [ToolBudget]/[ToolBudgetFacts]:
      what a prompt lets through and how often; the windows of the budget over
      all histories of calls.
    - [PyRegex]: the regular expressions of the policies, with a matcher that
      finds exactly the matches of a declarative semantics.
    - [PluginPolicy] (plugin_capabilities.py, plugin_compat.py) and
      [ToolRegistry]/[ToolRegistryFacts]: which tools discovery can register,
      and that it accounts for every plugin.  [AutonomyPolicy]/[AutonomyFacts]:
      a pack that loads decides every call.  [IsolationPolicy]/[IsolationFacts]:
      what an allowed call satisfies, and the published tier table.
    - [ToolExecutor]/[ToolExecutorFacts] compose these parts: a handler runs
      only for a call every gate let through, the runs of gated tools are
      covered by approvals and all runs by the budget, and an admitted call is
      not refused.  The theorems reduce histories of the executor to histories
      of the permission manager and of the budget.  [ToolCallFacts]: the parser
      of tool calls is exact.
    - [SessionStore] holds what the two session managers share (listing,
      eviction) over the class [SessionRow]; [FlowSession]/[FlowSessionFacts]
      and [VoiceSession]/[VoiceSessionFacts] model the managers and prove their
      state machines, bookkeeping, retention and the outcome of every call.
    - [Schedule]/[ScheduleFacts]: normal forms, idempotence and the first slot
      after now, over the class [TimeZones] of zone rules.
      [MissionPolicy]/[MissionPolicyFacts]: well-formed objectives for any
      overrides, and stability of resolved policies.
    - [PyFloatOps]: float arithmetic, rounding and printing.  [IsoOrder]: the
      order of ISO texts is the order of the times they name, which lets the
      database compare lease expiries as text.  [Threads]: threads that
      interleave at every action, with a logic for pools of them.
    - [RunPolicy] (run_policy.py, provider_errors.py), [RunStore] (the
      agent_run tables of database.py with [write_transaction]), [RunValues]
      (budgets, metrics and the records derived from checkpoints) and
      [RunManager] (every method of [AgentRunManager] that changes state)
      model agent runs.  [RunLeases] and [RunLeaseFacts] show over all
      interleavings that a live lease stays with its holder and that a lost one
      does not come back; [RunProgress] shows that a worker drains its queue
      whatever the executor does, and how, from any pool of threads, a worker
      without its lease revives a finished run and a scheduled retry is lost;
      [RunRaces] executes concrete schedules.
    - [AutomationStore] adds the tables of automations to those of runs, on one
      connection; [Automations] and [AutomationHealth] model every method of
      [AutomationScheduler] over them, the run manager, the class [FileSystem]
      and the breaker.  [AutomationFacts] shows over all interleavings of
      schedulers, operators and workers that a slot with a run is not dispatched
      again, [AutomationLimits] that an enabled automation is below its limit of
      failures, [AutomationWatch] that a watcher reports no change twice and
      that those reported under an open circuit breaker are lost;
      [AutomationRaces] exhibits a pause that is lost.
    - [QoSGovernor] models runtime/qos_governor.py; [QoSFacts] shows that it
      settles and promotes only when every measurement is healthy.
    - [ModelRouting] models models/routing.py; [ProviderGuards] and
      [ModelManager] model routing, guarded calls and failover of
      models/model_manager.py over the class [ModelProviders].
      [ProviderGuardFacts] shows over all interleavings of requests that the
      cloud limits hold and that circuits open for a reason and a bounded time;
      [ModelFailoverFacts] that every eligible target is tried before a request
      fails, that a healthy local provider saves it, that the refusals of one
      user open the circuit of a provider for all, and that a stream which fails
      while it is read counts as a success; [ModelRouteFacts], on the order of
      floats in [PyFloatFacts], that a route selects a best admissible
      candidate.  [ModelRaces] executes requests on concrete providers.
    - [ProviderSessions] models runtime/provider_sessions.py with its table, and
      [Entitlements] every method of runtime/entitlements.py, the diagnostics
      included.  [EntitlementFacts] shows who has access to a cloud provider,
      that a revoked user stays denied, what the diagnostics report, and that
      the time at which a session expires has no influence on any of it.
    - [MissionPlanner] models automation/mission_planner.py;
      [MissionPlannerFacts] shows that every template can be planned and that
      the scheduler takes a plan as it is.
    - [MemoryStore] (the memory tables of database.py) and [MemoryManager]
      (extraction_service.py in a module of its own, memory_manager.py, the [add]
      of semantic_memory.py and a tick of consolidation_worker.py) model memory;
      [MemoryFacts] shows over all histories that consolidation keeps one fact
      per group and accounts for the others, how contradicting preferences are
      resolved, and that answers which begin alike are taken for duplicates.

    ** Conventions

    Where threads share state ([RunManager], [Automations], [ModelManager]),
    each database call, transaction, queue operation, provider call, access
    under a lock and clock reading is one action; threads interleave between
    actions.  The task executor is a script that meets the manager only through
    its checkpoint callback and ends by returning or raising.

    Clock readings, UUIDs, hashes and time-zone rules are parameters; what a
    theorem needs of them (a monotonic clock, distinct identifiers, dates
    within the years Python supports) is a hypothesis of that theorem.  Calls
    run under the lock of their object, so a history is a sequence of calls.
    The calls made to telemetry callbacks are recorded in the state.
    [ProviderGuards] keeps times and durations as exact numbers of nanoseconds.

    ** Fuel

    [SupervisorData.dfs] runs with one more unit of fuel than there are nodes:
    a path of distinct nodes is no longer, and [cycle_check_exact] shows that
    the result is never out of fuel.  [Schedule.hour_loop] runs with 24 units,
    an hour of the day occurring within 24 hours; [next_run_first_slot] shows
    that it returns.  [IsolationPolicy.scan_loop] runs with as many units as the
    arguments hold values, each value being taken from the queue once;
    [IsolationFacts.scan_loop_total] shows that it returns.  The repetitions of
    [PyRegex.ends] run with the length of the remaining text, a repetition
    consuming at least one character ([ends_spec]).  [RunManager.call_executor]
    runs with as many units as there are optional arguments, each retry
    dropping one.  [PyFloatOps.shortest] runs with 17 digits, which determine
    a binary64 number.

    ** Not modelled

    The reports of the run manager (replay, diagnostics, audit, health)
    only read, as do the context, search and debug views of the memory manager;
    similarity of texts is the business of the vector store.  Listings and
    their caches, downloads, onboarding, packages and adapters of the model
    manager are not modelled, and the task executor, whose steps follow the
    output of a model, is a script of the run manager whose results are JSON
    values ([json.dumps] does not raise on them).  The methods of the
    memory manager are sequences of database calls that other threads may
    interleave with; the model runs them one after the other.  The text form of
    JSON columns is not modelled: a column holds the value.  Tool handlers, the
    sandbox worker and the code of plugins are parameters of the executor and
    of the registry.  The network clients of model providers, HTTP routing, the
    keyword tables that guess an agent from free text, sandboxes, desktop and
    browser actions, backups and tracing are input and output around this
    core.  Python text outside Latin-1 is outside the model. *)

From stdpp Require Import prelude strings list.
From Stdlib Require Import Lia ZArith Sorted.

#[global] Set Default Proof Using "Type".
#[global] Open Scope string_scope.
#[global] Open Scope list_scope.
#[global] Open Scope Z_scope.

(** * Automation shared by the development *)

Create HintDb py discriminated.
Create Rewrite HintDb py.

(** Case analysis on every [match]/[if] scrutinee of the goal or of a
    hypothesis, keeping the equation. *)
Ltac split_match :=
  repeat match goal with
  | |- context [match ?x with _ => _ end] => destruct x eqn:?
  | H : context [match ?x with _ => _ end] |- _ => destruct x eqn:?
  end.

Ltac bool_prop :=
  repeat match goal with
  | H : _ && _ = true |- _ => apply andb_true_iff in H as [??]
  | H : _ || _ = false |- _ => apply orb_false_iff in H as [??]
  | H : negb _ = true |- _ => apply negb_true_iff in H
  | H : negb _ = false |- _ => apply negb_false_iff in H
  | H : String.eqb _ _ = true |- _ => apply String.eqb_eq in H
  | H : String.eqb _ _ = false |- _ => apply String.eqb_neq in H
  | H : Z.eqb _ _ = true |- _ => apply Z.eqb_eq in H
  | H : Z.eqb _ _ = false |- _ => apply Z.eqb_neq in H
  | H : Z.leb _ _ = true |- _ => apply Z.leb_le in H
  | H : Z.leb _ _ = false |- _ => apply Z.leb_gt in H
  | H : Z.ltb _ _ = true |- _ => apply Z.ltb_lt in H
  | H : Z.ltb _ _ = false |- _ => apply Z.ltb_ge in H
  end.

(** * Membership of a string in a Python set or tuple literal *)

Definition str_in (s : string) (l : list string) : bool :=
  existsb (String.eqb s) l.

Lemma str_in_spec s l : str_in s l = true <-> s ∈ l.
Proof.
  unfold str_in. rewrite existsb_exists, list_elem_of_In. split.
  - intros (x & Hx & ->%String.eqb_eq). done.
  - intros H. exists s. split; [done | apply String.eqb_refl].
Qed.

Lemma str_in_false s l : str_in s l = false <-> s ∉ l.
Proof. rewrite <- str_in_spec. destruct (str_in s l); naive_solver. Qed.

Lemma str_in_app s l k : str_in s (l ++ k) = str_in s l || str_in s k.
Proof. apply existsb_app. Qed.

(** * Python dictionaries with string keys

    A Python [dict] iterates in insertion order: assigning to a present key
    keeps its place, a new key goes to the end. *)

Abbreviation dict A := (list (string * A)).

Fixpoint d_get {A} (k : string) (d : dict A) : option A :=
  match d with
  | [] => None
  | (k', v) :: d' => if String.eqb k k' then Some v else d_get k d'
  end.

Fixpoint d_set {A} (k : string) (v : A) (d : dict A) : dict A :=
  match d with
  | [] => [(k, v)]
  | (k', v') :: d' => if String.eqb k k' then (k, v) :: d' else (k', v') :: d_set k v d'
  end.

(** [d.pop(k, None)] *)
Fixpoint d_pop {A} (k : string) (d : dict A) : dict A :=
  match d with
  | [] => []
  | (k', v') :: d' => if String.eqb k k' then d' else (k', v') :: d_pop k d'
  end.

Definition d_mem {A} (k : string) (d : dict A) : bool :=
  match d_get k d with Some _ => true | None => false end.

Definition d_keys {A} (d : dict A) : list string := d.*1.
Definition d_values {A} (d : dict A) : list A := d.*2.

Section dict_lemmas.
Context {A : Type}.
Implicit Types (d : dict A) (k : string) (v : A).

Lemma d_get_set_eq k v d : d_get k (d_set k v d) = Some v.
Proof.
  induction d as [|[k' v'] d IH]; simpl.
  - by rewrite String.eqb_refl.
  - destruct (String.eqb k k') eqn:E; simpl; [by rewrite String.eqb_refl | by rewrite E].
Qed.

Lemma d_get_set_ne k k' v d : k <> k' -> d_get k' (d_set k v d) = d_get k' d.
Proof.
  intros Hne. apply not_eq_sym, String.eqb_neq in Hne.
  induction d as [|[k0 v0] d IH]; simpl; [by rewrite Hne|].
  destruct (String.eqb_spec k k0) as [->|]; simpl.
  - by rewrite Hne.
  - by rewrite IH.
Qed.

Lemma d_get_set k k' v d :
  d_get k' (d_set k v d) = if String.eqb k k' then Some v else d_get k' d.
Proof.
  destruct (String.eqb_spec k k') as [->|].
  - apply d_get_set_eq.
  - by apply d_get_set_ne.
Qed.

Lemma d_keys_set_in k v d : d_mem k d = true -> d_keys (d_set k v d) = d_keys d.
Proof.
  unfold d_mem, d_keys. induction d as [|[k' v'] d IH]; simpl; [done|].
  destruct (String.eqb_spec k k') as [->|]; simpl; [done|].
  intros H. f_equal. auto.
Qed.

Lemma d_set_new k v d : d_mem k d = false -> d_set k v d = d ++ [(k, v)].
Proof.
  unfold d_mem. induction d as [|[k' v'] d IH]; simpl; [done|].
  destruct (String.eqb_spec k k') as [->|]; simpl; [done|].
  intros H. by rewrite IH.
Qed.

Lemma d_get_elem k v d : d_get k d = Some v -> (k, v) ∈ d.
Proof.
  induction d as [|[k' v'] d IH]; simpl; [done|].
  destruct (String.eqb_spec k k') as [->|]; intros H; simplify_eq.
  - left.
  - right. auto.
Qed.

Lemma d_elem_get k v d : NoDup (d_keys d) -> (k, v) ∈ d -> d_get k d = Some v.
Proof.
  unfold d_keys. induction d as [|[k' v'] d IH]; simpl; [by intros _ ?%elem_of_nil|].
  intros [Hn Hd]%NoDup_cons [Heq|Hin]%elem_of_cons; simplify_eq.
  - by rewrite String.eqb_refl.
  - destruct (String.eqb_spec k k') as [->|]; [|auto].
    destruct Hn. apply list_elem_of_fmap. by exists (k', v).
Qed.

Lemma d_mem_keys k d : d_mem k d = true <-> k ∈ d_keys d.
Proof.
  unfold d_mem, d_keys. induction d as [|[k' v'] d IH]; simpl.
  - split; [done | by intros ?%elem_of_nil].
  - rewrite elem_of_cons. destruct (String.eqb_spec k k') as [->|Hne]; [tauto|].
    rewrite IH. tauto.
Qed.

Lemma d_mem_false k d : d_mem k d = false <-> d_get k d = None.
Proof. unfold d_mem. destruct (d_get k d); naive_solver. Qed.

Lemma d_get_Some_mem k v d : d_get k d = Some v -> d_mem k d = true.
Proof. unfold d_mem. by intros ->. Qed.

Lemma d_get_None_keys k d : d_get k d = None <-> k ∉ d_keys d.
Proof. rewrite <- d_mem_keys, <- d_mem_false. destruct (d_mem k d); naive_solver. Qed.

Lemma d_set_NoDup k v d : NoDup (d_keys d) -> NoDup (d_keys (d_set k v d)).
Proof.
  intros H. destruct (d_mem k d) eqn:E.
  - by rewrite d_keys_set_in.
  - rewrite d_set_new by done. unfold d_keys in *. rewrite fmap_app. simpl.
    apply NoDup_app. repeat split; [done| |apply NoDup_singleton].
    intros x Hx ->%list_elem_of_singleton. apply d_mem_keys in Hx. congruence.
Qed.

Lemma d_pop_sublist k d : d_pop k d `sublist_of` d.
Proof.
  induction d as [|[k' v'] d IH]; simpl; [done|].
  destruct (String.eqb k k'); [by apply sublist_cons | by apply sublist_skip].
Qed.

Lemma d_pop_NoDup k d : NoDup (d_keys d) -> NoDup (d_keys (d_pop k d)).
Proof. intros H. eapply sublist_NoDup; [done|]. apply fmap_sublist, d_pop_sublist. Qed.

Lemma d_get_pop_eq k d : NoDup (d_keys d) -> d_get k (d_pop k d) = None.
Proof.
  unfold d_keys. induction d as [|[k' v'] d IH]; simpl; [done|].
  intros [Hn Hd]%NoDup_cons. destruct (String.eqb_spec k k') as [->|Hne]; simpl.
  - by apply d_get_None_keys.
  - apply String.eqb_neq in Hne as ->. auto.
Qed.

Lemma d_get_pop_ne k k' d : k <> k' -> d_get k' (d_pop k d) = d_get k' d.
Proof.
  intros Hne. induction d as [|[k0 v0] d IH]; simpl; [done|].
  destruct (String.eqb_spec k k0) as [->|]; simpl.
  - destruct (String.eqb_spec k' k0); congruence.
  - by rewrite IH.
Qed.

Lemma d_pop_length k d :
  d_mem k d = true -> length d = S (length (d_pop k d)).
Proof.
  unfold d_mem. induction d as [|[k' v'] d IH]; simpl; [done|].
  destruct (String.eqb k k'); simpl; [done|]. intros H. by rewrite IH.
Qed.

Lemma d_pop_id k d : d_mem k d = false -> d_pop k d = d.
Proof.
  unfold d_mem. induction d as [|[k' v'] d IH]; simpl; [done|].
  destruct (String.eqb k k'); [done|]. intros H. by rewrite IH.
Qed.

Lemma d_set_length_new k v d : d_mem k d = false -> length (d_set k v d) = S (length d).
Proof. intros H. rewrite d_set_new by done. rewrite length_app. simpl. lia. Qed.

Lemma d_set_length_old k v d : d_mem k d = true -> length (d_set k v d) = length d.
Proof.
  intros H. rewrite <- (length_fmap fst (d_set k v d)), <- (length_fmap fst d).
  f_equal. by apply d_keys_set_in.
Qed.

Lemma d_set_same k v d : d_get k d = Some v -> d_set k v d = d.
Proof.
  induction d as [|[k' v'] d IH]; simpl; [done|].
  destruct (String.eqb_spec k k') as [->|]; intros; simplify_eq; [done|].
  by rewrite IH.
Qed.

Lemma d_set_set k v v' d : d_set k v (d_set k v' d) = d_set k v d.
Proof.
  induction d as [|[k' v0] d IH]; simpl.
  - by rewrite String.eqb_refl.
  - destruct (String.eqb k k') eqn:E; simpl.
    + by rewrite String.eqb_refl.
    + by rewrite E, IH.
Qed.

(** A property of every entry survives an update that has it. *)
Lemma d_set_Forall (P : string * A -> Prop) k v d :
  Forall P d -> P (k, v) -> Forall P (d_set k v d).
Proof.
  intros H Hk. induction H as [|[k' v'] d Hp H IH]; simpl; [by constructor|].
  destruct (String.eqb_spec k k') as [->|]; constructor; auto.
Qed.

Lemma d_pop_Forall (P : string * A -> Prop) k d : Forall P d -> Forall P (d_pop k d).
Proof.
  intros H. induction H as [|[k' v'] d Hp H IH]; simpl; [done|].
  destruct (String.eqb k k'); [done | by constructor].
Qed.
End dict_lemmas.

#[export] Hint Resolve d_set_NoDup d_pop_NoDup d_set_Forall d_pop_Forall : py.

(** * Python's stable [list.sort] with a key

    [le] compares the keys; [reverse=True] is the same sort under the
    converse comparison, which keeps equal elements in place too. *)

Fixpoint insert_by {A} (le : A -> A -> bool) (x : A) (l : list A) : list A :=
  match l with
  | [] => [x]
  | y :: l' => if le x y then x :: l else y :: insert_by le x l'
  end.

Fixpoint sort_by {A} (le : A -> A -> bool) (l : list A) : list A :=
  match l with
  | [] => []
  | x :: l' => insert_by le x (sort_by le l')
  end.

Section sort_lemmas.
Context {A : Type} (le : A -> A -> bool).

Lemma insert_by_perm x l : insert_by le x l ≡ₚ x :: l.
Proof.
  induction l as [|y l IH]; simpl; [done|].
  destruct (le x y); [done|]. rewrite IH. apply Permutation_swap.
Qed.

Lemma sort_by_perm l : sort_by le l ≡ₚ l.
Proof. induction l as [|x l IH]; simpl; [done|]. by rewrite insert_by_perm, IH. Qed.

Lemma sort_by_elem x l : x ∈ sort_by le l <-> x ∈ l.
Proof. by rewrite sort_by_perm. Qed.

Lemma sort_by_length l : length (sort_by le l) = length l.
Proof. by rewrite sort_by_perm. Qed.

Hypothesis le_total : forall x y, le x y = true \/ le y x = true.
Hypothesis le_trans : forall x y z, le x y = true -> le y z = true -> le x z = true.

Lemma insert_by_sorted x l :
  StronglySorted (fun a b => le a b = true) l ->
  StronglySorted (fun a b => le a b = true) (insert_by le x l).
Proof using le_total le_trans.
  induction 1 as [|y l Hs IH Hall]; simpl; [by repeat constructor|].
  destruct (le x y) eqn:E.
  - constructor; [by constructor|]. constructor; [done|].
    eapply Forall_impl; [done|]. eauto.
  - constructor; [done|]. rewrite insert_by_perm. constructor; [|done].
    destruct (le_total x y); congruence.
Qed.

Lemma sort_by_sorted l : StronglySorted (fun a b => le a b = true) (sort_by le l).
Proof using le_total le_trans.
  induction l; simpl; [constructor | by apply insert_by_sorted].
Qed.
End sort_lemmas.

(** Sorting a list that is already strictly in order changes nothing. *)
Lemma sort_by_id {A} (le : A -> A -> bool) l :
  StronglySorted (fun a b => le a b = true) l -> sort_by le l = l.
Proof.
  induction 1 as [|x l Hs IH Hall]; simpl; [done|]. rewrite IH.
  destruct l as [|y l]; simpl; [done|].
  apply Forall_cons in Hall as [-> _]. done.
Qed.

(** [s1 <= s2] on Python strings is lexicographic on code points. *)
Lemma string_leb_total s t : String.leb s t = true \/ String.leb t s = true.
Proof. destruct (String.leb_total s t); auto. Qed.

Lemma string_leb_trans s t u :
  String.leb s t = true -> String.leb t u = true -> String.leb s u = true.
Proof.
  intros H1 H2. apply Is_true_true. trans t; by apply Is_true_true.
Qed.

Definition sort_strings (l : list string) : list string := sort_by String.leb l.
