(* ===== verification/PyStr.v ===== *)
(** Python [str] over the code points U+0000 to U+00FF, one [ascii] per code
    point: stripping, case, splitting, joining, substring search, decimal
    printing and the parser of [int(text)], with the lemmas the components
    use.  Inside this range the functions agree with Python's Unicode tables;
    text outside it is outside the model. *)

From stdpp Require Import prelude strings list.
From Stdlib Require Import Lia ZArith Ascii DecimalString DecimalZ.
From S2P Require Import Prelude.

(** Conversion from a character to its code point. *)
Definition code (c : ascii) : N := N_of_ascii c.

Definition in_range (lo hi : N) (c : ascii) : bool :=
  (N.leb lo (code c) && N.leb (code c) hi)%bool.

(** [str.isspace] *)
Definition is_space (c : ascii) : bool :=
  in_range 9 13 c || in_range 28 32 c || in_range 133 133 c || in_range 160 160 c.

Definition is_digit (c : ascii) : bool := in_range 48 57 c.

(** [str.isalnum]: letters, decimal digits and the numeric signs of Latin-1. *)
Definition is_alnum (c : ascii) : bool :=
  is_digit c || in_range 65 90 c || in_range 97 122 c || in_range 170 170 c
  || in_range 178 179 c || in_range 181 181 c || in_range 185 186 c
  || in_range 188 190 c || in_range 192 214 c || in_range 216 246 c
  || in_range 248 255 c.

(** [str.lower], one code point at a time (no Latin-1 letter changes length
    when lowered). *)
Definition lower_c (c : ascii) : ascii :=
  if in_range 65 90 c || in_range 192 214 c || in_range 216 222 c
  then ascii_of_N (code c + 32) else c.

(** [str.upper] of one code point.  Two letters of the range have their
    capital outside it (U+00B5 and U+00FF) and are left as they are. *)
Definition upper_c (c : ascii) : string :=
  if in_range 97 122 c || in_range 224 246 c || in_range 248 254 c
  then String (ascii_of_N (code c - 32)) ""
  else if in_range 223 223 c then "SS" else String c "".

Fixpoint str_map (f : ascii -> ascii) (s : string) : string :=
  match s with
  | EmptyString => EmptyString
  | String c s' => String (f c) (str_map f s')
  end.

Definition lower : string -> string := str_map lower_c.

Fixpoint upper (s : string) : string :=
  match s with
  | EmptyString => ""
  | String c s' => upper_c c +:+ upper s'
  end.

(** [s.strip(chars)] for a set of characters given by its test. *)
Fixpoint lstrip_by (p : ascii -> bool) (s : string) : string :=
  match s with
  | EmptyString => EmptyString
  | String c s' => if p c then lstrip_by p s' else s
  end.

Fixpoint rstrip_by (p : ascii -> bool) (s : string) : string :=
  match s with
  | EmptyString => EmptyString
  | String c s' =>
      match rstrip_by p s' with
      | EmptyString => if p c then EmptyString else String c EmptyString
      | r => String c r
      end
  end.

Definition strip_by (p : ascii -> bool) (s : string) : string := lstrip_by p (rstrip_by p s).
Definition strip : string -> string := strip_by is_space.

Definition stripped (s : string) : Prop := strip s = s.

Definition is_empty (s : string) : bool :=
  match s with EmptyString => true | _ => false end.

(** [s or d] on strings *)
Definition str_or (s d : string) : string := if is_empty s then d else s.

(** [s or None] on strings *)
Definition str_or_none (s : string) : option string := if is_empty s then None else Some s.

(** [str(value or "")] for a parameter of type [str | None] *)
Definition opt_str (o : option string) : string := match o with Some s => s | None => "" end.

(** Keep the characters that satisfy a test: ["".join(ch for ch in s if ...)] *)
Fixpoint str_filter (p : ascii -> bool) (s : string) : string :=
  match s with
  | EmptyString => EmptyString
  | String c s' => if p c then String c (str_filter p s') else str_filter p s'
  end.

Fixpoint all_chars (p : ascii -> bool) (s : string) : bool :=
  match s with
  | EmptyString => true
  | String c s' => p c && all_chars p s'
  end.

(** [len(s)] *)
Definition str_len (s : string) : Z := Z.of_nat (String.length s).

(** [s.split()]: maximal runs of non-space characters. *)
Fixpoint split_go (cur : string) (s : string) : list string :=
  match s with
  | EmptyString => if is_empty cur then [] else [cur]
  | String c s' =>
      if is_space c
      then (if is_empty cur then split_go "" s' else cur :: split_go "" s')
      else split_go (cur +:+ String c "") s'
  end.
Definition split_ws (s : string) : list string := split_go "" s.

(** [s.split(sep)] for a one-character separator. *)
Fixpoint split_on_go (sep : ascii) (cur : string) (s : string) : list string :=
  match s with
  | EmptyString => [cur]
  | String c s' =>
      if Ascii.eqb c sep then cur :: split_on_go sep "" s'
      else split_on_go sep (cur +:+ String c "") s'
  end.
Definition split_on (sep : ascii) (s : string) : list string := split_on_go sep "" s.

(** [sep.join(items)] *)
Fixpoint join (sep : string) (l : list string) : string :=
  match l with
  | [] => ""
  | [x] => x
  | x :: l' => x +:+ sep +:+ join sep l'
  end.

Fixpoint starts_with (p s : string) : bool :=
  match p, s with
  | EmptyString, _ => true
  | String a p', String b s' => Ascii.eqb a b && starts_with p' s'
  | _, EmptyString => false
  end.

(** [needle in haystack] on strings *)
Fixpoint substr_in (p s : string) : bool :=
  starts_with p s || match s with EmptyString => false | String _ s' => substr_in p s' end.

(** [s.replace(c, r)] for a one-character pattern *)
Fixpoint replace_c (c : ascii) (r : string) (s : string) : string :=
  match s with
  | EmptyString => EmptyString
  | String a s' => if Ascii.eqb a c then r +:+ replace_c c r s' else String a (replace_c c r s')
  end.

(** [str(n)] on integers *)
Definition str_of_Z (z : Z) : string := NilZero.string_of_int (Z.to_int z).

(** [int(text)]: surrounding space, an optional sign, decimal digits with
    single underscores between digits, at most 4300 digits. *)
Definition digit_val (c : ascii) : Z := Z.of_N (code c) - 48.

Fixpoint parse_digits (acc : Z) (n : nat) (after_digit : bool) (s : string) : option Z :=
  match s with
  | EmptyString => if after_digit && (n <=? 4300)%nat then Some acc else None
  | String c s' =>
      if is_digit c then parse_digits (acc * 10 + digit_val c) (S n) true s'
      else if Ascii.eqb c "_" && after_digit then parse_digits acc n false s'
      else None
  end.

Definition parse_int (s : string) : option Z :=
  match strip s with
  | EmptyString => None
  | String c s' =>
      if Ascii.eqb c "-" then option_map Z.opp (parse_digits 0 0 false s')
      else if Ascii.eqb c "+" then parse_digits 0 0 false s'
      else parse_digits 0 0 false (String c s')
  end.

(** ** Lemmas *)

Lemma is_space_lower c : is_space (lower_c c) = is_space c.
Proof. by destruct c as [[] [] [] [] [] [] [] []]. Qed.

Lemma lower_c_idemp c : lower_c (lower_c c) = lower_c c.
Proof. by destruct c as [[] [] [] [] [] [] [] []]. Qed.

Lemma alnum_not_space c : is_alnum c = true -> is_space c = false.
Proof. by destruct c as [[] [] [] [] [] [] [] []]. Qed.

Lemma str_map_idemp f s : (forall c, f (f c) = f c) -> str_map f (str_map f s) = str_map f s.
Proof. intros H. induction s as [|c s IH]; simpl; [done|]. by rewrite H, IH. Qed.

Lemma lower_idemp s : lower (lower s) = lower s.
Proof. apply str_map_idemp, lower_c_idemp. Qed.

Section strip_lemmas.
Context (p : ascii -> bool).

Lemma rstrip_by_idemp s : rstrip_by p (rstrip_by p s) = rstrip_by p s.
Proof.
  induction s as [|c s IH]; simpl; [done|].
  destruct (rstrip_by p s) as [|c' s'] eqn:E.
  - destruct (p c) eqn:Hc; simpl; [done|]. by rewrite Hc.
  - cbn [rstrip_by] in *. by rewrite IH.
Qed.

Lemma lstrip_by_idemp s : lstrip_by p (lstrip_by p s) = lstrip_by p s.
Proof. induction s as [|c s IH]; simpl; [done|]. destruct (p c) eqn:E; [done|]. simpl. by rewrite E. Qed.

Lemma rstrip_lstrip_fix s : rstrip_by p s = s -> rstrip_by p (lstrip_by p s) = lstrip_by p s.
Proof.
  induction s as [|c s IH]; simpl; [done|]. intros H.
  destruct (p c) eqn:E; [|cbn [rstrip_by]; by rewrite E].
  apply IH. destruct (rstrip_by p s) eqn:Er; congruence.
Qed.

Lemma strip_by_idemp s : strip_by p (strip_by p s) = strip_by p s.
Proof.
  unfold strip_by. rewrite rstrip_lstrip_fix by apply rstrip_by_idemp.
  apply lstrip_by_idemp.
Qed.

Lemma rstrip_by_none s : all_chars (fun c => negb (p c)) s = true -> rstrip_by p s = s.
Proof.
  induction s as [|c s IH]; simpl; [done|]. intros [Hc Hs]%andb_true_iff.
  rewrite (IH Hs). destruct s; [|done]. by apply negb_true_iff in Hc as ->.
Qed.

Lemma lstrip_by_none s : all_chars (fun c => negb (p c)) s = true -> lstrip_by p s = s.
Proof. destruct s as [|c s]; simpl; [done|]. by intros [->%negb_true_iff _]%andb_true_iff. Qed.

Lemma strip_by_none s : all_chars (fun c => negb (p c)) s = true -> strip_by p s = s.
Proof. intros H. unfold strip_by. rewrite rstrip_by_none by done. by apply lstrip_by_none. Qed.

(** What is left of a string after stripping satisfies any test the string
    satisfied. *)
Lemma strip_by_all q s : all_chars q s = true -> all_chars q (strip_by p s) = true.
Proof.
  intros H. unfold strip_by.
  assert (all_chars q (rstrip_by p s) = true) as H2.
  { induction s as [|c s IH]; simpl in *; [done|].
    apply andb_true_iff in H as [Hc Hs]. specialize (IH Hs).
    destruct (rstrip_by p s) eqn:E; [destruct (p c); simpl; by rewrite ?Hc|].
    cbn [all_chars] in *. by rewrite Hc, IH. }
  clear H. induction (rstrip_by p s) as [|c s' IH]; simpl in *; [done|].
  destruct (p c); [|done]. apply andb_true_iff in H2 as [_ ?]. auto.
Qed.
End strip_lemmas.

Lemma strip_idemp s : strip (strip s) = strip s.
Proof. apply strip_by_idemp. Qed.

Lemma strip_stripped s : stripped (strip s).
Proof. apply strip_idemp. Qed.

Lemma lstrip_lower s : lstrip_by is_space (lower s) = lower (lstrip_by is_space s).
Proof.
  induction s as [|c s IH]; simpl; [done|]. rewrite is_space_lower.
  by destruct (is_space c).
Qed.

Lemma rstrip_lower s : rstrip_by is_space (lower s) = lower (rstrip_by is_space s).
Proof.
  induction s as [|c s IH]; simpl; [done|]. unfold lower in IH. rewrite IH.
  destruct (rstrip_by is_space s); simpl; [|done]. rewrite is_space_lower.
  by destruct (is_space c).
Qed.

Lemma strip_lower s : strip (lower s) = lower (strip s).
Proof. unfold strip, strip_by. by rewrite rstrip_lower, lstrip_lower. Qed.

(** [x.strip().lower()] is a normal form of [strip] and of [lower]. *)
Lemma stripped_lower s : stripped s -> stripped (lower s).
Proof. unfold stripped. intros H. by rewrite strip_lower, H. Qed.

Lemma stripped_nil : stripped "".
Proof. done. Qed.

#[export] Hint Resolve strip_stripped stripped_lower stripped_nil : py.
#[export] Hint Rewrite strip_idemp lower_idemp : py.

Lemma str_or_none_some s : s <> "" -> str_or_none s = Some s.
Proof. by destruct s. Qed.

Lemma is_empty_true s : is_empty s = true <-> s = "".
Proof. by destruct s. Qed.

Lemma is_empty_false s : is_empty s = false <-> s <> "".
Proof. by destruct s. Qed.

Lemma str_or_ne s d : s <> "" -> str_or s d = s.
Proof. by destruct s. Qed.

Lemma str_app_cons c s t : String c s +:+ t = String c (s +:+ t).
Proof. done. Qed.

Lemma str_app_assoc s t u : s +:+ (t +:+ u) = (s +:+ t) +:+ u.
Proof. induction s as [|c s IH]; [done|]. by rewrite !str_app_cons, IH. Qed.

Lemma str_app_nil_r s : s +:+ "" = s.
Proof. induction s as [|c s IH]; [done|]. by rewrite str_app_cons, IH. Qed.

Lemma all_chars_app p s t : all_chars p (s +:+ t) = all_chars p s && all_chars p t.
Proof. induction s as [|c s IH]; [done|]. rewrite str_app_cons. simpl. by rewrite IH, andb_assoc. Qed.

Lemma all_chars_impl p q s :
  (forall c, p c = true -> q c = true) -> all_chars p s = true -> all_chars q s = true.
Proof.
  intros H. induction s as [|c s IH]; simpl; [done|].
  intros [Hc Hs]%andb_true_iff. by rewrite (H _ Hc), IH.
Qed.

Lemma str_filter_all p s : all_chars p (str_filter p s) = true.
Proof.
  induction s as [|c s IH]; simpl; [done|]. destruct (p c) eqn:E; simpl; [by rewrite E|done].
Qed.

(** Text without a space character is its own [strip]. *)
Lemma stripped_no_space s : all_chars (fun c => negb (is_space c)) s = true -> stripped s.
Proof. apply strip_by_none. Qed.

(** A string that starts and ends with a visible character is its own
    [strip]. *)
Lemma rstrip_snoc p s c : p c = false -> rstrip_by p (s +:+ String c "") = s +:+ String c "".
Proof.
  intros Hc. induction s as [|a s IH]; [simpl; by rewrite Hc|].
  rewrite str_app_cons. simpl. rewrite IH. by destruct s.
Qed.

Lemma stripped_ends a s c :
  is_space a = false -> is_space c = false -> stripped (String a (s +:+ String c "")).
Proof.
  intros Ha Hc. unfold stripped, strip, strip_by.
  rewrite <- str_app_cons, rstrip_snoc by done. rewrite str_app_cons. simpl. by rewrite Ha.
Qed.

Lemma rstrip_app p s t : rstrip_by p t = t -> t <> "" -> rstrip_by p (s +:+ t) = s +:+ t.
Proof.
  intros Ht Hne. induction s as [|c s IH]; [done|]. rewrite str_app_cons. simpl. rewrite IH.
  destruct (s +:+ t) eqn:E; [|done]. destruct s; [by destruct (Hne E) | done].
Qed.

(** A message that starts with a visible character and ends in a text without
    trailing space. *)
Lemma stripped_app a s t :
  is_space a = false -> rstrip_by is_space t = t -> t <> "" -> stripped (String a (s +:+ t)).
Proof.
  intros Ha Ht Hne. unfold stripped, strip, strip_by. rewrite <- str_app_cons, rstrip_app by done.
  rewrite str_app_cons. simpl. by rewrite Ha.
Qed.
