(* ===== verification/PyVal.v ===== *)
(** Python's dynamic values as they come out of a JSON document, with the
    operations the code applies to them without knowing their type:
    truthiness and [or], [str], [repr], [int], [dict.get]. *)

From stdpp Require Import prelude strings list.
From Stdlib Require Import Lia ZArith Ascii.
From S2P Require Import Prelude PyStr.

(** A float object: its value ([m * 2 ^ e], an infinity or not-a-number) and
    the text [repr] prints for it. *)
Inductive fvalue : Type :=
  | FFinite (m e : Z)
  | FInfinite (negative : bool)
  | FNan.

Record pyfloat : Type := PyFloat { fl_value : fvalue; fl_repr : string }.

#[warnings="-register-all"]
Inductive pyval : Type :=
  | PNone
  | PBool (b : bool)
  | PInt (z : Z)
  | PFloat (f : pyfloat)
  | PStr (s : string)
  | PList (l : list pyval)
  | PDict (d : dict pyval).

Abbreviation pydict := (dict pyval).

(** ** Exceptions

    The classes the code raises or tells apart, with [str(exc)]. *)

(** [models.provider_errors.ProviderErrorInfo] *)
Record ProviderErrorInfo : Type := ErrorInfo {
  ei_provider : string;
  ei_operation : string;
  ei_error_class : string;
  ei_message : string;
  ei_raw_message : string;
  ei_retryable : bool;
  ei_status_code : option Z }.

(** The exceptions of agent runs: [TaskGuardrailError] and its subclasses, and
    [TaskTimeoutError], which is none of them. *)
Inductive task_error : Type :=
  | TaskGuardrailError
  | TaskBudgetError
  | RunBudgetExceededError
  | RunLeaseLostError
  | TaskTimeoutError.

Inductive exn : Type :=
  | ValueError (msg : string)
  | TypeError (msg : string)
  | KeyError (msg : string)
  | OverflowError (msg : string)
  | ZeroDivisionError (msg : string)
  | RuntimeError (msg : string)
  | OtherError (cls msg : string)
  | AssertionError (msg : string)
  | TaskError (cls : task_error) (msg : string)
  (** [models.provider_errors.ProviderOperationError] *)
  | ProviderOperationError (info : ProviderErrorInfo)
  (** [tools.tool_executor.PermissionRequiredError] *)
  | PermissionRequiredError (msg prompt_id : string)
  (** [agents.agent_run_manager.AutonomyCircuitBreakerBlockedError] *)
  | BreakerBlockedError (msg : string) (decision : pydict)
      (matched_scopes : list pydict) (snapshot : pydict).

Definition exn_str (e : exn) : string :=
  match e with
  | ValueError m | TypeError m | KeyError m | OverflowError m | ZeroDivisionError m
  | RuntimeError m | OtherError _ m | AssertionError m | TaskError _ m
  | PermissionRequiredError m _ | BreakerBlockedError m _ _ _ => m
  | ProviderOperationError i =>
      "Provider '" +:+ ei_provider i +:+ "' " +:+ ei_operation i +:+ " failed ["
      +:+ ei_error_class i +:+ "]: " +:+ ei_message i
  end.

Inductive res (A : Type) : Type :=
  | Ok (a : A)
  | Err (e : exn).
Arguments Ok {A} a.
Arguments Err {A} e.

Definition is_ok {A} (r : res A) : bool := match r with Ok _ => true | Err _ => false end.

Definition res_bind {A B} (r : res A) (f : A -> res B) : res B :=
  match r with Ok a => f a | Err e => Err e end.

(** ** Truthiness: [bool(v)] and [v or d] *)
Definition truthy (v : pyval) : bool :=
  match v with
  | PNone => false
  | PBool b => b
  | PInt z => negb (z =? 0)
  | PFloat f => match fl_value f with FFinite m _ => negb (m =? 0) | _ => true end
  | PStr s => negb (is_empty s)
  | PList l => match l with [] => false | _ => true end
  | PDict d => match d with [] => false | _ => true end
  end.

Definition py_or (v d : pyval) : pyval := if truthy v then v else d.

(** ** [repr] and [str] *)
Definition printable (c : ascii) : bool :=
  in_range 32 126 c || in_range 161 172 c || in_range 174 255 c.

Definition hex_digit (n : N) : ascii :=
  if N.ltb n 10 then ascii_of_N (48 + n) else ascii_of_N (87 + n).

Definition repr_char (quote c : ascii) : string :=
  if Ascii.eqb c quote || Ascii.eqb c "\" then String "\" (String c "")
  else if N.eqb (code c) 9 then "\t"
  else if N.eqb (code c) 10 then "\n"
  else if N.eqb (code c) 13 then "\r"
  else if printable c then String c ""
  else "\x" +:+ String (hex_digit (code c / 16)) (String (hex_digit (code c mod 16)) "").

Fixpoint repr_chars (quote : ascii) (s : string) : string :=
  match s with
  | EmptyString => ""
  | String c s' => repr_char quote c +:+ repr_chars quote s'
  end.

Definition squote : ascii := "'"%char.
Definition dquote : ascii := ascii_of_N 34.

Fixpoint has_char (c : ascii) (s : string) : bool :=
  match s with
  | EmptyString => false
  | String a s' => Ascii.eqb a c || has_char c s'
  end.

Definition py_repr_str (s : string) : string :=
  let q := if has_char squote s && negb (has_char dquote s) then dquote else squote in
  String q (repr_chars q s +:+ String q "").

Fixpoint py_repr (v : pyval) : string :=
  match v with
  | PNone => "None"
  | PBool b => if b then "True" else "False"
  | PInt z => str_of_Z z
  | PFloat f => fl_repr f
  | PStr s => py_repr_str s
  | PList l => "[" +:+ join ", " (map py_repr l) +:+ "]"
  | PDict d =>
      "{" +:+ join ", " (map (fun kv => py_repr_str (fst kv) +:+ ": " +:+ py_repr (snd kv)) d)
      +:+ "}"
  end.

Definition py_str (v : pyval) : string :=
  match v with PStr s => s | _ => py_repr v end.

(** ** [int(v)] *)
Definition trunc_float (m e : Z) : Z :=
  if 0 <=? e then m * 2 ^ e else Z.quot m (2 ^ (- e)).

Definition type_name (v : pyval) : string :=
  match v with
  | PNone => "NoneType" | PBool _ => "bool" | PInt _ => "int" | PFloat _ => "float"
  | PStr _ => "str" | PList _ => "list" | PDict _ => "dict"
  end.

Definition py_int (v : pyval) : res Z :=
  match v with
  | PBool b => Ok (if b then 1 else 0)
  | PInt z => Ok z
  | PFloat f =>
      match fl_value f with
      | FFinite m e => Ok (trunc_float m e)
      | FInfinite _ => Err (OverflowError "cannot convert float infinity to integer")
      | FNan => Err (ValueError "cannot convert float NaN to integer")
      end
  | PStr s =>
      match parse_int s with
      | Some z => Ok z
      | None =>
          Err (ValueError ("invalid literal for int() with base 10: " +:+ py_repr_str s))
      end
  | _ =>
      Err (TypeError ("int() argument must be a string, a bytes-like object or a real number, not '"
                      +:+ type_name v +:+ "'"))
  end.

(** ** [dict] payloads *)

(** [d.get(k)] *)
Definition get (k : string) (d : pydict) : pyval :=
  match d_get k d with Some v => v | None => PNone end.

(** [d.get(k, default)] *)
Definition get_or (k : string) (default : pyval) (d : pydict) : pyval :=
  match d_get k d with Some v => v | None => default end.

(** [v if isinstance(v, dict) else {}] *)
Definition as_dict (v : pyval) : pydict := match v with PDict d => d | _ => [] end.

Definition is_dict (v : pyval) : bool := match v with PDict _ => true | _ => false end.

(** [v if isinstance(v, list) else []] *)
Definition as_list (v : pyval) : list pyval := match v with PList l => l | _ => [] end.

(** [str(v or "").strip()], the code's usual normalization of a text field. *)
Definition norm (v : pyval) : string := strip (py_str (py_or v (PStr ""))).

(** [str(v or default).strip().lower() or default] *)
Definition norm_lower_or (default : string) (v : pyval) : string :=
  str_or (lower (strip (py_str (py_or v (PStr default))))) default.

Definition pnone_or_str (o : option string) : pyval :=
  match o with Some s => PStr s | None => PNone end.

(** ** Lemmas *)

Lemma norm_stripped v : stripped (norm v).
Proof. apply strip_stripped. Qed.

Lemma norm_str s : stripped s -> norm (PStr s) = s.
Proof. intros H. unfold norm, py_or. simpl. destruct s; [done|]. exact H. Qed.

Lemma norm_pnone_or_str o : norm (pnone_or_str o) = strip (opt_str o).
Proof. destruct o as [[|c s]|]; done. Qed.

Lemma norm_lower_or_str default s :
  stripped s -> lower s = s -> s <> "" -> norm_lower_or default (PStr s) = s.
Proof.
  intros Hs Hl Hn. unfold norm_lower_or, py_or. simpl.
  destruct s as [|c s]; [done|]. cbn [is_empty negb py_str].
  rewrite Hs, Hl. done.
Qed.

Lemma py_int_bool b : py_int (PBool b) = Ok (if b then 1 else 0).
Proof. done. Qed.

#[export] Hint Resolve norm_stripped norm_str : py.
