(* ===== verification/PyFloat.v ===== *)
(** Python floats: comparison, [max], and the conversions of [float(v)], with
    values rounded to IEEE 754 binary64 by the Standard Library's [SpecFloat]. *)

From stdpp Require Import prelude strings list.
From Stdlib Require Import Lia ZArith Ascii SpecFloat.
From S2P Require Import Prelude PyStr PyVal.

Definition of_spec (f : spec_float) : fvalue :=
  match f with
  | S754_zero _ => FFinite 0 0
  | S754_infinity s => FInfinite s
  | S754_nan => FNan
  | S754_finite s m e => FFinite (if s then Z.neg m else Z.pos m) e
  end.

(** An integer, rounded to nearest even. *)
Definition round_int (z : Z) : spec_float := binary_normalize 53 1024 z 0 false.

(** The quotient of two integers, rounded once. *)
Definition exact (z : Z) : spec_float :=
  match z with Z0 => S754_zero false | Zpos p => S754_finite false p 0 | Zneg p => S754_finite true p 0 end.
Definition round_quot (a b : Z) : spec_float := SFdiv 53 1024 (exact a) (exact b).

(** [m * 10 ^ e] rounded *)
Definition round_decimal (m e : Z) : spec_float :=
  if 0 <=? e then round_int (m * 10 ^ e) else round_quot m (10 ^ (- e)).

(** ** [float(text)] *)

(** Digits with single underscores between them: value, count and rest. *)
Fixpoint scan_digits (acc : Z) (n : nat) (after_digit : bool) (s : string) : option (Z * nat * string) :=
  match s with
  | String c s' =>
      if is_digit c then scan_digits (acc * 10 + digit_val c) (S n) true s'
      else if Ascii.eqb c "_" then (if after_digit then match s' with
                                                        | String d _ => if is_digit d then scan_digits acc n false s' else None
                                                        | EmptyString => None
                                                        end
                                    else None)
      else Some (acc, n, s)
  | EmptyString => Some (acc, n, s)
  end.

Definition scan_exponent (s : string) : option Z :=
  let unsigned s := match scan_digits 0 0 false s with
                    | Some (z, S _, EmptyString) => Some z
                    | _ => None
                    end in
  match s with
  | String "-" s' => option_map Z.opp (unsigned s')
  | String "+" s' => unsigned s'
  | _ => unsigned s
  end.

Definition scan_tail (m : Z) (scale : Z) (s : string) : option spec_float :=
  match s with
  | EmptyString => Some (round_decimal m scale)
  | String c s' =>
      if Ascii.eqb c "e" || Ascii.eqb c "E"
      then option_map (fun e => round_decimal m (e + scale)) (scan_exponent s')
      else None
  end.

Definition scan_number (s : string) : option spec_float :=
  match scan_digits 0 0 false s with
  | Some (m, n, String "." s') =>
      match scan_digits m 0 false s' with
      | Some (m', k, rest) => if (0 <? n)%nat || (0 <? k)%nat then scan_tail m' (- Z.of_nat k) rest else None
      | None => None
      end
  | Some (m, S _, rest) => scan_tail m 0 rest
  | _ => None
  end.

Definition scan_unsigned (s : string) : option spec_float :=
  if str_in (lower s) ["inf"; "infinity"] then Some (S754_infinity false)
  else if String.eqb (lower s) "nan" then Some S754_nan
  else scan_number s.

Definition parse_float (s : string) : option fvalue :=
  match strip s with
  | String "-" s' => option_map (fun f => of_spec (SFopp f)) (scan_unsigned s')
  | String "+" s' => option_map of_spec (scan_unsigned s')
  | s' => option_map of_spec (scan_unsigned s')
  end.

(** ** [float(v)] *)
Definition py_float (v : pyval) : res fvalue :=
  match v with
  | PBool b => Ok (FFinite (if b then 1 else 0) 0)
  | PInt z =>
      match round_int z with
      | S754_infinity _ => Err (OverflowError "int too large to convert to float")
      | f => Ok (of_spec f)
      end
  | PFloat f => Ok (fl_value f)
  | PStr s =>
      match parse_float s with
      | Some f => Ok f
      | None => Err (ValueError ("could not convert string to float: " +:+ py_repr_str s))
      end
  | _ => Err (TypeError ("float() argument must be a string or a real number, not '" +:+ type_name v +:+ "'"))
  end.

(** ** Comparison *)
Definition f_lt (a b : fvalue) : bool :=
  match a, b with
  | FNan, _ | _, FNan => false
  | FInfinite na, FInfinite nb => na && negb nb
  | FInfinite na, _ => na
  | _, FInfinite nb => negb nb
  | FFinite m1 e1, FFinite m2 e2 =>
      let e := Z.min e1 e2 in m1 * 2 ^ (e1 - e) <? m2 * 2 ^ (e2 - e)
  end.

Definition f_le (a b : fvalue) : bool :=
  match a, b with
  | FNan, _ | _, FNan => false
  | _, _ => negb (f_lt b a)
  end.

(** [max(a, b)]: the first argument unless the second compares greater. *)
Definition f_max (a b : fvalue) : fvalue := if f_lt a b then b else a.

(** ** Lemmas *)

Definition is_nan (a : fvalue) : bool := match a with FNan => true | _ => false end.

Lemma f_lt_irrefl a : f_lt a a = false.
Proof. destruct a as [m e|[]|]; try done. apply Z.ltb_irrefl. Qed.

Lemma f_lt_asym a b : f_lt a b = true -> f_lt b a = false.
Proof.
  destruct a as [m1 e1|[]|], b as [m2 e2|[]|]; try done. simpl. rewrite (Z.min_comm e2 e1). intros.
  bool_prop. apply Z.ltb_ge. lia.
Qed.

(** [max] with a bound is at least the bound and never NaN. *)
Lemma f_max_bound a b : is_nan a = false -> f_le a (f_max a b) = true /\ is_nan (f_max a b) = false.
Proof.
  intros Ha. unfold f_max. destruct (f_lt a b) eqn:E.
  - pose proof (f_lt_asym _ _ E) as E'. assert (is_nan b = false) as Hb by (by destruct a, b). split; [|done].
    unfold f_le. rewrite E'. by destruct a, b.
  - split; [|done]. unfold f_le. rewrite f_lt_irrefl. by destruct a.
Qed.

(** Applying the same bound twice changes nothing. *)
Lemma f_max_idemp a b : f_max a (f_max a b) = f_max a b.
Proof. unfold f_max. destruct (f_lt a b) eqn:E; [by rewrite E | by rewrite f_lt_irrefl]. Qed.

Lemma f_le_not_nan a b : f_le a b = true -> is_nan a = false /\ is_nan b = false.
Proof. by destruct a, b. Qed.
