(* ===== verification/Effects.v ===== *)
(** Python methods as computations over an explicit state: an exception ends
    the computation but keeps the mutations made before it.  A small Hoare
    logic over these computations carries the invariant proofs. *)

From stdpp Require Import prelude strings list.
From S2P Require Import Prelude PyStr PyVal.

Definition M (S A : Type) : Type := S -> res A * S.

Definition ret {S A} (a : A) : M S A := fun s => (Ok a, s).
Definition raise {S A} (e : exn) : M S A := fun s => (Err e, s).
Definition bind {S A B} (m : M S A) (f : A -> M S B) : M S B :=
  fun s => match m s with
           | (Ok a, s') => f a s'
           | (Err e, s') => (Err e, s')
           end.

(** [try: m except Exception as exc: h(exc)] *)
Definition try_except {S A} (m : M S A) (h : exn -> M S A) : M S A :=
  fun s => match m s with
           | (Ok a, s') => (Ok a, s')
           | (Err e, s') => h e s'
           end.

Definition gets {S A} (f : S -> A) : M S A := fun s => (Ok (f s), s).
Definition modify {S} (f : S -> S) : M S unit := fun s => (Ok tt, f s).
Definition lift {S A} (r : res A) : M S A := fun s => (r, s).

(** [if b: raise e] *)
Definition raise_if {S} (b : bool) (e : exn) : M S unit := if b then raise e else ret tt.

(** [if b: m] *)
Definition when {S} (b : bool) (m : M S unit) : M S unit := if b then m else ret tt.

Declare Scope py_scope.
Delimit Scope py_scope with py.
Notation "'let*' x := m 'in' k" := (bind m (fun x => k))
  (at level 10, x pattern, m at level 100, k at level 200) : py_scope.
Notation "m ;;; k" := (bind m (fun _ => k))
  (at level 199, k at level 200, right associativity) : py_scope.
#[global] Open Scope py_scope.

(** [for x in l: f(x)] *)
Fixpoint for_each {S A} (l : list A) (f : A -> M S unit) : M S unit :=
  match l with
  | [] => ret tt
  | x :: l' => f x ;;; for_each l' f
  end.

(** A loop that threads an accumulator and may raise. *)
Fixpoint fold_res {A B} (f : A -> B -> res A) (l : list B) (a : A) : res A :=
  match l with
  | [] => Ok a
  | x :: l' => res_bind (f a x) (fold_res f l')
  end.

(** ** Hoare triples: from a state in [P] the computation ends in [Q], with
    its value, or in [E] when it raises. *)
Definition triple {S A} (P : S -> Prop) (m : M S A) (Q : A -> S -> Prop) (E : exn -> S -> Prop) :
    Prop :=
  forall s, P s -> match m s with (Ok a, s') => Q a s' | (Err e, s') => E e s' end.

(** [m] keeps [I], whether it returns or raises. *)
Definition preserves {S A} (I : S -> Prop) (m : M S A) : Prop :=
  triple I m (fun _ => I) (fun _ => I).

Section rules.
Context {S : Type}.
Implicit Types (P I : S -> Prop) (E : exn -> S -> Prop).

Lemma triple_bind {A B} P (m : M S A) (f : A -> M S B) Q R E :
  triple P m Q E -> (forall a, triple (Q a) (f a) R E) -> triple P (bind m f) R E.
Proof.
  intros Hm Hf s Hs. specialize (Hm s Hs). unfold bind.
  destruct (m s) as [[a|e] s']; [by apply Hf | done].
Qed.

Lemma triple_conseq {A} P P' (m : M S A) Q Q' E E' :
  triple P' m Q' E' -> (forall s, P s -> P' s) -> (forall a s, Q' a s -> Q a s) ->
  (forall e s, E' e s -> E e s) -> triple P m Q E.
Proof.
  intros Hm HP HQ HE s Hs. specialize (Hm s (HP s Hs)).
  destruct (m s) as [[a|e] s']; auto.
Qed.

Lemma triple_for_each {A} I (l : list A) (f : A -> M S unit) E :
  (forall x, x ∈ l -> triple I (f x) (fun _ => I) E) ->
  triple I (for_each l f) (fun _ => I) E.
Proof.
  induction l as [|x l IH]; intros H; [by intros s|].
  simpl. eapply triple_bind; [apply H; left|].
  intros []. apply IH. intros y Hy. apply H. by right.
Qed.

Lemma preserves_ret {A} I (a : A) : preserves I (ret a).
Proof. by intros s Hs. Qed.
Lemma preserves_raise {A} I e : preserves I (@raise S A e).
Proof. by intros s Hs. Qed.
Lemma preserves_lift {A} I (r : res A) : preserves I (lift r).
Proof. intros s Hs. by destruct r. Qed.
Lemma preserves_gets {A} I (f : S -> A) : preserves I (gets f).
Proof. by intros s Hs. Qed.
Lemma preserves_modify I f : (forall s, I s -> I (f s)) -> preserves I (modify f).
Proof. intros H s Hs. by apply H. Qed.
Lemma preserves_bind {A B} I (m : M S A) (f : A -> M S B) :
  preserves I m -> (forall a, preserves I (f a)) -> preserves I (bind m f).
Proof. intros. by eapply triple_bind. Qed.
Lemma preserves_try {A} I (m : M S A) h :
  preserves I m -> (forall e, preserves I (h e)) -> preserves I (try_except m h).
Proof.
  intros Hm Hh s Hs. specialize (Hm s Hs). unfold try_except.
  destruct (m s) as [[a|e] s']; [done | by apply Hh].
Qed.
Lemma preserves_raise_if I b e : preserves I (@raise_if S b e).
Proof. by destruct b; intros s Hs. Qed.
Lemma preserves_when I b (m : M S unit) : preserves I m -> preserves I (when b m).
Proof. intros H. by destruct b; [|intros s Hs]. Qed.
Lemma preserves_if {A} I (b : bool) (m n : M S A) :
  preserves I m -> preserves I n -> preserves I (if b then m else n).
Proof. by destruct b. Qed.
Lemma preserves_for_each {A} I (l : list A) f :
  (forall x, preserves I (f x)) -> preserves I (for_each l f).
Proof. intros H. apply triple_for_each. intros x _. apply H. Qed.

(** Reading the triple at a run of the computation. *)
Lemma preserves_run {A} I (m : M S A) s : preserves I m -> I s -> I (snd (m s)).
Proof. intros H Hs. specialize (H s Hs). by destruct (m s) as [[] ?]. Qed.
End rules.

#[export] Hint Resolve preserves_ret preserves_raise preserves_lift preserves_gets
  preserves_bind preserves_try preserves_raise_if preserves_when preserves_if
  preserves_for_each : py.

(** Peels the monadic structure of a [preserves] goal and leaves the state
    updates. *)
Ltac preserve :=
  repeat first
    [ apply preserves_bind; [|intros ?]
    | apply preserves_try; [|intros ?]
    | apply preserves_ret | apply preserves_raise | apply preserves_lift
    | apply preserves_gets | apply preserves_raise_if
    | apply preserves_when | apply preserves_for_each; intros ?
    | apply preserves_modify; intros ??
    | match goal with
      | |- preserves _ (if ?b then _ else _) => destruct b eqn:?
      | |- preserves _ (match ?x with _ => _ end) => destruct x eqn:?
      end ].
