(* ===== verification/PyTime.v ===== *)
(** Python datetimes.  An aware UTC [datetime] is the number of microseconds
    since 1970-01-01T00:00:00Z, a naive or local one the same count on its
    wall clock.  [isoformat] prints the text the code stores, the proleptic
    Gregorian calendar included; [fromisoformat] reads that text back. *)

From stdpp Require Import prelude strings list.
From Stdlib Require Import Lia ZArith Ascii.
From S2P Require Import Prelude PyStr.

Definition us_per_sec : Z := 1000000.
Definition us_per_min : Z := 60 * us_per_sec.
Definition us_per_hour : Z := 60 * us_per_min.
Definition us_per_day : Z := 24 * us_per_hour.

(** Fields of a wall-clock datetime. *)
Definition dt_day (t : Z) : Z := t / us_per_day.
Definition dt_time (t : Z) : Z := t mod us_per_day.
Definition dt_hour (t : Z) : Z := dt_time t / us_per_hour.
Definition dt_minute (t : Z) : Z := (dt_time t / us_per_min) mod 60.
Definition dt_second (t : Z) : Z := (dt_time t / us_per_sec) mod 60.
Definition dt_micro (t : Z) : Z := dt_time t mod us_per_sec.

(** [date.weekday()]: Monday is 0; 1970-01-01 was a Thursday. *)
Definition weekday (day : Z) : Z := (day + 3) mod 7.

(** ** The calendar: day number to year, month, day and back *)
Definition day_of_era (doe : Z) : Z * Z * Z :=
  let yoe := (doe - doe / 1460 + doe / 36524 - doe / 146096) / 365 in
  let doy := doe - (365 * yoe + yoe / 4 - yoe / 100) in
  let mp := (5 * doy + 2) / 153 in
  let d := doy - (153 * mp + 2) / 5 + 1 in
  (yoe, mp, d).

Definition civil_from_days (z : Z) : Z * Z * Z :=
  let z' := z + 719468 in
  let era := z' / 146097 in
  let '(yoe, mp, d) := day_of_era (z' mod 146097) in
  let m := if mp <? 10 then mp + 3 else mp - 9 in
  let y := yoe + era * 400 in
  (if m <=? 2 then y + 1 else y, m, d).

Definition days_from_civil (y m d : Z) : Z :=
  let y' := if m <=? 2 then y - 1 else y in
  let era := y' / 400 in
  let yoe := y' mod 400 in
  let mp := if 2 <? m then m - 3 else m + 9 in
  let doy := (153 * mp + 2) / 5 + d - 1 in
  let doe := yoe * 365 + yoe / 4 - yoe / 100 + doy in
  era * 146097 + doe - 719468.

(** ** Printing *)
Definition digit (z : Z) : ascii := ascii_of_N (48 + Z.to_N z).

(** The [w] low decimal digits of [z], most significant first. *)
Fixpoint pad (w : nat) (z : Z) : string :=
  match w with
  | O => ""
  | S w' => pad w' (z / 10) +:+ String (digit (z mod 10)) ""
  end.

Definition iso_micro (us : Z) : string := if us =? 0 then "" else "." +:+ pad 6 us.

(** [datetime.isoformat()] of an aware UTC datetime *)
Definition isoformat (t : Z) : string :=
  let '(y, m, d) := civil_from_days (dt_day t) in
  pad 4 y +:+ "-" +:+ pad 2 m +:+ "-" +:+ pad 2 d +:+ "T"
  +:+ pad 2 (dt_hour t) +:+ ":" +:+ pad 2 (dt_minute t) +:+ ":" +:+ pad 2 (dt_second t)
  +:+ iso_micro (dt_micro t) +:+ "+00:00".

(** ** Reading *)
Fixpoint take_digits (n : nat) (acc : Z) (s : string) : option (Z * string) :=
  match n with
  | O => Some (acc, s)
  | S n' =>
      match s with
      | String c s' => if is_digit c then take_digits n' (acc * 10 + digit_val c) s' else None
      | EmptyString => None
      end
  end.

Definition expect (c : ascii) (s : string) : option string :=
  match s with
  | String a s' => if Ascii.eqb a c then Some s' else None
  | EmptyString => None
  end.

Definition read_micro (s : string) : option (Z * string) :=
  match s with
  | String "."%char s' => take_digits 6 0 s'
  | _ => Some (0, s)
  end.

(** A date of the calendar within the years Python supports. *)
Definition valid_date (y m d : Z) : bool :=
  (1 <=? y) && (y <=? 9999) && bool_decide (civil_from_days (days_from_civil y m d) = (y, m, d)).

(** [datetime.fromisoformat] on the extended UTC format that [isoformat]
    prints. *)
Definition fromisoformat (s : string) : option Z :=
  '(y, s) ← take_digits 4 0 s; s ← expect "-" s;
  '(m, s) ← take_digits 2 0 s; s ← expect "-" s;
  '(d, s) ← take_digits 2 0 s; s ← expect "T" s;
  '(hh, s) ← take_digits 2 0 s; s ← expect ":" s;
  '(mi, s) ← take_digits 2 0 s; s ← expect ":" s;
  '(ss, s) ← take_digits 2 0 s;
  '(us, s) ← read_micro s;
  if String.eqb s "+00:00" && valid_date y m d && (hh <? 24) && (mi <? 60) && (ss <? 60)
  then Some (days_from_civil y m d * us_per_day + hh * us_per_hour + mi * us_per_min
             + ss * us_per_sec + us)
  else None.

(** The years Python's [datetime] supports. *)
Definition dt_in_range (t : Z) : Prop :=
  let '(y, _, _) := civil_from_days (dt_day t) in 1 <= y <= 9999.

(** ** Lemmas *)

Fixpoint check_upto (n : nat) (z : Z) (f : Z -> bool) : bool :=
  match n with
  | O => true
  | S n' => f z && check_upto n' (z + 1) f
  end.

Lemma check_upto_spec n f z x :
  check_upto n z f = true -> z <= x < z + Z.of_nat n -> f x = true.
Proof.
  revert z. induction n as [|n IH]; intros z; [lia|]. simpl.
  intros [Hf Hr]%andb_true_iff Hx. destruct (decide (x = z)) as [->|]; [done|].
  apply (IH (z + 1)); [done | lia].
Qed.

Definition era_ok (doe : Z) : bool :=
  let '(yoe, mp, d) := day_of_era doe in
  (0 <=? yoe) && (yoe <? 400) && (0 <=? mp) && (mp <? 12) && (1 <=? d) && (d <=? 31)
  && (yoe * 365 + yoe / 4 - yoe / 100 + (153 * mp + 2) / 5 + d - 1 =? doe).

(** The year of an era a day falls in, its first and its last day. *)
Definition year_of (doe : Z) : Z := (doe - doe / 1460 + doe / 36524 - doe / 146096) / 365.
Definition year_start (y : Z) : Z := 365 * y + y / 4 - y / 100.
Definition year_end (y : Z) : Z := if y =? 399 then 146096 else year_start (y + 1) - 1.

Lemma year_mono a b : 0 <= a <= b -> b < 146097 -> year_of a <= year_of b.
Proof.
  intros [Ha Hab]. pattern b. apply Zlt_lower_bound_ind with (z := a); [|done]. clear b Hab. intros b IH Hab Hb.
  destruct (decide (a = b)) as [->|]; [lia|]. transitivity (year_of (b - 1)); [apply IH; lia|].
  apply Z.div_le_mono; [lia|]. Z.div_mod_to_equations. lia.
Qed.

Definition year_ok (y : Z) : bool :=
  (year_of (year_start y) =? y) && (year_of (year_end y) =? y) && (0 <=? year_start y) && (year_end y <? 146097)
  && (year_end y - year_start y <=? 365).

Lemma year_ok_all y : 0 <= y < 400 -> year_ok y = true.
Proof. intros H. apply (check_upto_spec 400 year_ok 0); [|lia]. vm_compute. reflexivity. Qed.

Definition doy_ok (doy : Z) : bool :=
  let mp := (5 * doy + 2) / 153 in
  let d := doy - (153 * mp + 2) / 5 + 1 in
  (0 <=? mp) && (mp <? 12) && (1 <=? d) && (d <=? 31).

Lemma doy_ok_all doy : 0 <= doy <= 365 -> doy_ok doy = true.
Proof. intros H. apply (check_upto_spec 366 doy_ok 0); [|lia]. vm_compute. reflexivity. Qed.

(** The years cover the era. *)
Lemma year_cover doe : 0 <= doe < 146097 -> exists y, 0 <= y < 400 /\ year_start y <= doe <= year_end y.
Proof.
  intros H. assert (forall n : nat, (n < 400)%nat -> doe <= year_end (Z.of_nat n) ->
    exists y, 0 <= y < 400 /\ year_start y <= doe <= year_end y) as Hn.
  { induction n as [|n IH]; intros Hlt Hd.
    - exists 0. split; [lia|]. split; [|done]. change (year_start 0) with 0. lia.
    - destruct (decide (year_start (Z.of_nat (S n)) <= doe)); [exists (Z.of_nat (S n)); lia|].
      apply IH; [lia|]. unfold year_end. rewrite (proj2 (Z.eqb_neq _ _)) by lia.
      replace (Z.of_nat n + 1) with (Z.of_nat (S n)) by lia. lia. }
  apply (Hn 399%nat); [lia|]. change (year_end (Z.of_nat 399)) with 146096. lia.
Qed.

Lemma era_ok_all doe : 0 <= doe < 146097 -> era_ok doe = true.
Proof.
  intros H. destruct (year_cover doe H) as (y & Hy & Hd). pose proof (year_ok_all y Hy) as Hok.
  unfold year_ok in Hok. bool_prop.
  assert (year_of doe = y) as Ey.
  { pose proof (year_mono (year_start y) doe ltac:(lia) ltac:(lia)).
    pose proof (year_mono doe (year_end y) ltac:(lia) ltac:(lia)). lia. }
  unfold era_ok, day_of_era. fold (year_of doe). rewrite Ey. fold (year_start y).
  pose proof (doy_ok_all (doe - year_start y) ltac:(lia)) as Hdoy. unfold doy_ok in Hdoy. bool_prop.
  unfold year_start in *. repeat (apply andb_true_iff; split); lia.
Qed.

(** What the calendar guarantees of a day number's date. *)
Lemma civil_spec z y m d :
  civil_from_days z = (y, m, d) ->
  1 <= m <= 12 /\ 1 <= d <= 31 /\ days_from_civil y m d = z.
Proof.
  unfold civil_from_days. intros H.
  pose proof (era_ok_all ((z + 719468) mod 146097)) as Hok.
  specialize (Hok ltac:(apply Z.mod_pos_bound; lia)). unfold era_ok in Hok.
  destruct (day_of_era _) as [[yoe mp] d0]. bool_prop. simplify_eq.
  pose proof (Z.div_mod (z + 719468) 146097 ltac:(lia)) as Hdm.
  unfold days_from_civil.
  assert (forall k, (yoe + k * 400) / 400 = k /\ (yoe + k * 400) mod 400 = yoe) as Hk.
  { intros k. rewrite Z.div_add, Z.mod_add, Z.div_small, Z.mod_small by lia. lia. }
  specialize (Hk ((z + 719468) / 146097)) as [Hk1 Hk2].
  destruct (mp <? 10) eqn:E; bool_prop.
  - replace (mp + 3 <=? 2) with false by (symmetry; apply Z.leb_gt; lia).
    replace (2 <? mp + 3) with true by (symmetry; apply Z.ltb_lt; lia).
    replace (mp + 3 - 3) with mp by lia. rewrite Hk1, Hk2. lia.
  - replace (mp - 9 <=? 2) with true by (symmetry; apply Z.leb_le; lia).
    replace (2 <? mp - 9) with false by (symmetry; apply Z.ltb_ge; lia).
    replace (mp - 9 + 9) with mp by lia.
    replace (yoe + (z + 719468) / 146097 * 400 + 1 - 1)
      with (yoe + (z + 719468) / 146097 * 400) by lia.
    rewrite Hk1, Hk2. lia.
Qed.

Lemma dt_time_bound t : 0 <= dt_time t < us_per_day.
Proof. apply Z.mod_pos_bound. done. Qed.

(** The fields of a datetime rebuild it. *)
Lemma dt_rebuild t :
  dt_day t * us_per_day + dt_hour t * us_per_hour + dt_minute t * us_per_min
  + dt_second t * us_per_sec + dt_micro t = t.
Proof.
  unfold dt_hour, dt_minute, dt_second, dt_micro, dt_day.
  pose proof (Z.div_mod t us_per_day ltac:(done)) as H. fold (dt_time t) in H.
  unfold us_per_day, us_per_hour, us_per_min, us_per_sec in *.
  pose proof (dt_time_bound t) as Hb. unfold us_per_day, us_per_hour, us_per_min, us_per_sec in Hb.
  generalize dependent (dt_time t). intros u H Hb. Z.div_mod_to_equations. lia.
Qed.

Lemma dt_fields_bound t :
  0 <= dt_hour t < 24 /\ 0 <= dt_minute t < 60 /\ 0 <= dt_second t < 60 /\ 0 <= dt_micro t < 1000000.
Proof.
  pose proof (dt_time_bound t) as Hb.
  unfold dt_hour, dt_minute, dt_second, dt_micro.
  unfold us_per_day, us_per_hour, us_per_min, us_per_sec in *.
  generalize dependent (dt_time t). intros u Hb.
  repeat split; Z.div_mod_to_equations; lia.
Qed.

Lemma digit_spec z : 0 <= z < 10 -> is_digit (digit z) = true /\ digit_val (digit z) = z.
Proof.
  intros H. assert (z = 0 \/ z = 1 \/ z = 2 \/ z = 3 \/ z = 4 \/ z = 5 \/ z = 6 \/ z = 7
                    \/ z = 8 \/ z = 9) as Hz by lia.
  by destruct_or! Hz; subst.
Qed.

Lemma take_digits_snoc n acc s c :
  is_digit c = true ->
  take_digits (S n) acc s = (take_digits n acc s ≫= fun '(a, r) =>
    match r with
    | String c' r' => if is_digit c' then Some (a * 10 + digit_val c', r') else None
    | EmptyString => None
    end).
Proof.
  intros _. revert acc s. induction n as [|n IH]; intros acc s.
  - simpl. by destruct s as [|c' s]; simpl; [|destruct (is_digit c')].
  - destruct s as [|c' s]; [done|]. change (take_digits (S (S n)) acc (String c' s)) with
      (if is_digit c' then take_digits (S n) (acc * 10 + digit_val c') s else None).
    simpl take_digits at 2. destruct (is_digit c'); [apply IH | done].
Qed.

Lemma take_digits_pad w z acc rest :
  0 <= z < 10 ^ Z.of_nat w ->
  take_digits w acc (pad w z +:+ rest) = Some (acc * 10 ^ Z.of_nat w + z, rest).
Proof.
  revert z rest. induction w as [|w IH]; intros z rest Hz.
  - simpl in *. do 2 f_equal. lia.
  - replace (Z.of_nat (S w)) with (Z.of_nat w + 1) in * by lia.
    rewrite Z.pow_add_r in * by lia. change (10 ^ 1) with 10 in *.
    rewrite (take_digits_snoc _ _ _ "0") by done. simpl pad.
    rewrite <- str_app_assoc, str_app_cons, IH by (Z.div_mod_to_equations; lia).
    cbn [mbind option_bind].
    destruct (digit_spec (z mod 10)) as [Hd Hv]; [apply Z.mod_pos_bound; lia|].
    rewrite Hd, Hv. do 2 f_equal. Z.div_mod_to_equations. nia.
Qed.

Lemma read_micro_iso us rest :
  0 <= us < 1000000 -> (forall s, rest <> String "." s) ->
  read_micro (iso_micro us +:+ rest) = Some (us, rest).
Proof.
  intros Hus Hrest. unfold iso_micro. destruct (us =? 0) eqn:E; bool_prop.
  - subst. change ("" +:+ rest) with rest. unfold read_micro. destruct rest as [|c s]; [done|].
    destruct c as [[] [] [] [] [] [] [] []]; try done. by destruct (Hrest s).
  - change (("." +:+ pad 6 us) +:+ rest) with (String "." (pad 6 us +:+ rest)).
    cbn [read_micro]. rewrite take_digits_pad by done. done.
Qed.

Lemma expect_cons c s : expect c (String c "" +:+ s) = Some s.
Proof. rewrite str_app_cons. unfold expect. by rewrite Ascii.eqb_refl. Qed.

Lemma isoformat_roundtrip t : dt_in_range t -> fromisoformat (isoformat t) = Some t.
Proof.
  unfold dt_in_range, isoformat, fromisoformat. intros Hr.
  destruct (civil_from_days (dt_day t)) as [[y m] d] eqn:E.
  pose proof E as (Hm & Hd & Hz)%civil_spec.
  pose proof (dt_fields_bound t) as (Hh & Hmi & Hs & Hus).
  repeat first [ rewrite take_digits_pad by (simpl; lia); cbn [mbind option_bind]
               | rewrite expect_cons; cbn [mbind option_bind]
               | rewrite read_micro_iso by (done || lia); cbn [mbind option_bind] ].
  rewrite !Z.mul_0_l, !Z.add_0_l. unfold valid_date.
  rewrite Hz, String.eqb_refl, bool_decide_eq_true_2 by done.
  replace (_ && _)%bool with true by (symmetry; rewrite !andb_true_iff; lia).
  f_equal. apply dt_rebuild.
Qed.

Lemma take_digits_bound n acc s z r :
  0 <= acc -> take_digits n acc s = Some (z, r) ->
  acc * 10 ^ Z.of_nat n <= z < (acc + 1) * 10 ^ Z.of_nat n.
Proof.
  revert acc s. induction n as [|n IH]; intros acc s Ha H; simpl in H.
  - simplify_eq. simpl. lia.
  - destruct s as [|c s]; [done|]. destruct (is_digit c) eqn:Ec; [|done].
    assert (0 <= digit_val c < 10) as Hc.
    { unfold is_digit, in_range, digit_val in *. apply andb_true_iff in Ec as [H1 H2].
      apply N.leb_le in H1, H2. lia. }
    apply IH in H; [|lia].
    replace (Z.of_nat (S n)) with (1 + Z.of_nat n) by lia.
    rewrite Z.pow_add_r by lia. nia.
Qed.

Lemma read_micro_bound s us r : read_micro s = Some (us, r) -> 0 <= us < 1000000.
Proof.
  assert (read_micro s = Some (0, s) \/ exists s', read_micro s = take_digits 6 0 s') as [-> | (s' & ->)].
  { destruct s as [|[[] [] [] [] [] [] [] []] s]; simpl; eauto. }
  - intros. simplify_eq. lia.
  - intros H%take_digits_bound; lia.
Qed.

Lemma dt_day_compose day hh mi ss us :
  0 <= hh < 24 -> 0 <= mi < 60 -> 0 <= ss < 60 -> 0 <= us < 1000000 ->
  dt_day (day * us_per_day + hh * us_per_hour + mi * us_per_min + ss * us_per_sec + us) = day.
Proof.
  intros. unfold dt_day, us_per_day, us_per_hour, us_per_min, us_per_sec.
  symmetry. eapply Z.div_unique_pos with (r := hh * 3600000000 + mi * 60000000 + ss * 1000000 + us); lia.
Qed.
(** The code turns a trailing [Z] into an offset before parsing: an
    [isoformat] text has none. *)
Lemma replace_c_none c r s : all_chars (fun a => negb (Ascii.eqb a c)) s = true -> replace_c c r s = s.
Proof.
  induction s as [|a s IH]; simpl; [done|]. intros [->%negb_true_iff Hs]%andb_true_iff.
  by rewrite IH.
Qed.

Lemma pad_all p w z : (forall c, is_digit c = true -> p c = true) -> all_chars p (pad w z) = true.
Proof.
  intros Hp. revert z. induction w as [|w IH]; intros z; [done|]. simpl pad.
  rewrite all_chars_app, IH. simpl. rewrite andb_true_r.
  apply Hp, digit_spec, Z.mod_pos_bound. lia.
Qed.

Lemma isoformat_all p t :
  (forall c, is_digit c = true -> p c = true) -> all_chars p "-T:.+" = true ->
  all_chars p (isoformat t) = true.
Proof.
  intros Hd Hp. unfold isoformat, iso_micro. destruct (civil_from_days _) as [[y m] d].
  simpl in Hp. bool_prop.
  destruct (_ =? 0); rewrite !all_chars_app, !pad_all by done; simpl;
    repeat match goal with H : p _ = true |- _ => rewrite H end;
    by rewrite (Hd "0"%char).
Qed.

Lemma isoformat_no_Z t : replace_c "Z" "+00:00" (isoformat t) = isoformat t.
Proof.
  apply replace_c_none, isoformat_all; [|done].
  by intros [[] [] [] [] [] [] [] []].
Qed.

(** A timestamp is visible text: nothing for [strip] to remove, never empty. *)
Lemma isoformat_visible t : all_chars (fun c => negb (is_space c)) (isoformat t) = true.
Proof. apply isoformat_all; [|done]. by intros [[] [] [] [] [] [] [] []]. Qed.

Lemma isoformat_stripped t : stripped (isoformat t).
Proof. apply stripped_no_space, isoformat_visible. Qed.

Lemma isoformat_ne t : isoformat t <> "".
Proof.
  intros H. pose proof (f_equal String.length H) as Hl. revert Hl.
  unfold isoformat. destruct (civil_from_days _) as [[y m] d].
  by destruct (pad 4 y).
Qed.

#[export] Hint Resolve isoformat_stripped isoformat_ne : py.
