(* ===== verification/CircuitBreaker.v ===== *)
(** The emergency brake on autonomous run creation
    (runtime/autonomy_circuit_breaker.py): arming and disarming scopes, the
    run-creation verdict, the state file with its fail-safe restore.

    The environment is three section variables: the wall clock (the [n]-th
    reading), the faults of the state-file write, and the reader of foreign
    ISO timestamps. *)

From stdpp Require Import prelude strings list gmap.
From Stdlib Require Import Lia ZArith Ascii.
From S2P Require Import Prelude PyStr PyVal Effects PyTime.

Module CircuitBreaker.

Definition SUPPORTED_CIRCUIT_BREAKER_SCOPE_TYPES : list string := ["global"; "user"; "agent"].
Definition CIRCUIT_BREAKER_STATE_SCHEMA_VERSION : Z := 1.
Definition FAIL_SAFE_RECOVERY_REASON : string := "state_recovery_failed".
Definition FAIL_SAFE_RECOVERY_REQUEST_ID : string := "startup-state-recovery".
Definition FAIL_SAFE_RECOVERY_ACTOR : string := "svc-runtime".

Record AutonomyCircuitScope : Type := Scope {
  sc_key : string;
  sc_scope_type : string;
  sc_scope_user_id : option string;
  sc_scope_agent_id : option string;
  sc_armed_at : string;
  sc_armed_by : option string;
  sc_reason : option string;
  sc_request_id : option string;
  sc_revision : Z }.

(** The state file: absent, holding a JSON document, or unreadable (the
    exception of reading or parsing it). *)
Abbreviation file_content := (option (res pyval)).

(** The attributes of [AutonomyCircuitBreaker], the state file it owns and
    the positions of the clock and of the file writes. *)
Record breaker : Type := Breaker {
  state_path : option string;
  restore_status : string;
  restore_error : option string;
  active_scopes : dict AutonomyCircuitScope;
  revision : Z;
  updated_at : string;
  armed_by : option string;
  disarmed_at : option string;
  disarmed_by : option string;
  reason : option string;
  request_id : option string;
  state_file : file_content;
  clock_reads : nat;
  file_writes : nat }.

(** [_normalize_optional] on a parameter of type [str | None] *)
Definition normalize_opt (v : option string) : option string := str_or_none (strip (opt_str v)).

(** [_normalize_optional] on a value out of the state file *)
Definition normalize_optional (v : pyval) : option string := str_or_none (norm v).

Definition normalize_circuit_breaker_scope (scope_type scope_user_id scope_agent_id : option string) :
    res (string * option string * option string) :=
  let normalized_scope_type :=
    str_or (lower (strip (match scope_type with
                          | Some t => str_or t "global" | None => "global" end))) "global" in
  let user := normalize_opt scope_user_id in
  let agent := normalize_opt scope_agent_id in
  if negb (str_in normalized_scope_type SUPPORTED_CIRCUIT_BREAKER_SCOPE_TYPES) then
    Err (ValueError ("scope_type must be one of: "
                     +:+ join ", " SUPPORTED_CIRCUIT_BREAKER_SCOPE_TYPES))
  else if String.eqb normalized_scope_type "global" then
    match user, agent with
    | None, None => Ok ("global", None, None)
    | _, _ => Err (ValueError "scope_user_id/scope_agent_id are not allowed when scope_type=global")
    end
  else if String.eqb normalized_scope_type "user" then
    match user, agent with
    | None, _ => Err (ValueError "scope_user_id is required when scope_type=user")
    | _, Some _ => Err (ValueError "scope_agent_id is not allowed when scope_type=user")
    | Some u, None => Ok ("user", Some u, None)
    end
  else
    match agent, user with
    | None, _ => Err (ValueError "scope_agent_id is required when scope_type=agent")
    | _, Some _ => Err (ValueError "scope_user_id is not allowed when scope_type=agent")
    | Some a, None => Ok ("agent", None, Some a)
    end.

Definition circuit_breaker_scope_key (scope_type scope_user_id scope_agent_id : option string) :
    res string :=
  res_bind (normalize_circuit_breaker_scope scope_type scope_user_id scope_agent_id)
    (fun '(t, u, a) =>
       if String.eqb t "global" then Ok "global"
       else if String.eqb t "user" then Ok ("user:" +:+ opt_str u)
       else Ok ("agent:" +:+ opt_str a)).

Definition scope_to_payload (sc : AutonomyCircuitScope) : pydict :=
  [("key", PStr (sc_key sc));
   ("scope_type", PStr (sc_scope_type sc));
   ("scope_user_id", pnone_or_str (sc_scope_user_id sc));
   ("scope_agent_id", pnone_or_str (sc_scope_agent_id sc));
   ("armed_at", PStr (sc_armed_at sc));
   ("armed_by", pnone_or_str (sc_armed_by sc));
   ("reason", pnone_or_str (sc_reason sc));
   ("request_id", pnone_or_str (sc_request_id sc));
   ("revision", PInt (sc_revision sc))].

Definition coerce_non_negative_int (v : pyval) (fallback : Z) : Z :=
  match py_int v with Ok z => Z.max 0 z | Err _ => Z.max 0 fallback end.

(** The scopes in the order of [sorted(self._active_scopes)]. *)
Definition sorted_scopes (d : dict AutonomyCircuitScope) : list AutonomyCircuitScope :=
  omap (fun k => d_get k d) (sort_strings (d_keys d)).

Definition matched_scopes_unlocked (b : breaker) (user_id agent_id : option string) :
    list AutonomyCircuitScope :=
  filter (fun sc =>
    String.eqb (sc_scope_type sc) "global"
    || (String.eqb (sc_scope_type sc) "user" && bool_decide (sc_scope_user_id sc = user_id))
    || (String.eqb (sc_scope_type sc) "agent" && bool_decide (sc_scope_agent_id sc = agent_id)))
    (sorted_scopes (active_scopes b)).

Definition is_armed (b : breaker) : bool :=
  match active_scopes b with [] => false | _ => true end.

(** The verdict of [evaluate_run_creation]. *)
Record verdict : Type := Verdict {
  blocked : bool;
  matched_scope_count : Z;
  matched_scopes : list AutonomyCircuitScope;
  active_scope_count : Z;
  v_revision : Z;
  v_updated_at : string }.

Definition evaluate_run_creation (user_id agent_id : option string) (b : breaker) : verdict :=
  let matched := matched_scopes_unlocked b (normalize_opt user_id) (normalize_opt agent_id) in
  {| blocked := match matched with [] => false | _ => true end;
     matched_scope_count := Z.of_nat (length matched);
     matched_scopes := matched;
     active_scope_count := Z.of_nat (length (active_scopes b));
     v_revision := revision b;
     v_updated_at := updated_at b |}.

(** [min(...)] of strings; the builtin raises on an empty sequence. *)
Definition py_min_str (l : list string) : res string :=
  match l with
  | [] => Err (ValueError "min() arg is an empty sequence")
  | x :: l' => Ok (foldl (fun m y => if String.ltb y m then y else m) x l')
  end.

Definition snapshot_unlocked (b : breaker) : res pydict :=
  let scopes := sorted_scopes (active_scopes b) in
  let armed := match scopes with [] => false | _ => true end in
  res_bind
    (if armed
     then res_bind (py_min_str (filter (fun s => negb (is_empty s)) (map sc_armed_at scopes)))
            (fun t => Ok (PStr t))
     else Ok PNone)
    (fun armed_at => Ok
      [("status", PStr (if armed then "armed" else "disarmed"));
       ("armed", PBool armed);
       ("revision", PInt (revision b));
       ("updated_at", PStr (updated_at b));
       ("armed_at", armed_at);
       ("armed_by", pnone_or_str (armed_by b));
       ("disarmed_at", pnone_or_str (disarmed_at b));
       ("disarmed_by", pnone_or_str (disarmed_by b));
       ("reason", pnone_or_str (reason b));
       ("request_id", pnone_or_str (request_id b));
       ("active_scope_count", PInt (Z.of_nat (length scopes)));
       ("active_scopes", PList (map (fun s => PDict (scope_to_payload s)) scopes));
       ("persistence", PDict
          [("enabled", PBool (match state_path b with Some _ => true | None => false end));
           ("state_path", pnone_or_str (state_path b));
           ("schema_version", PInt CIRCUIT_BREAKER_STATE_SCHEMA_VERSION);
           ("restore_status", PStr (restore_status b));
           ("restore_error", pnone_or_str (restore_error b))])]).

Section env.
(** The [n]-th reading of the clock, in microseconds since the epoch. *)
Variable clock : nat -> Z.
(** The exception the [n]-th write of the state file raises, if any. *)
Variable write_fault : nat -> option exn.
(** [datetime.fromisoformat]: the instant of a timestamp, a naive one being
    read as UTC; none when it raises. *)
Variable parse_utc : string -> option Z.

(** [_utc_now_iso()] *)
Definition utc_now_iso : M breaker string := fun b =>
  (Ok (isoformat (clock (clock_reads b))),
   Breaker (state_path b) (restore_status b) (restore_error b) (active_scopes b) (revision b)
     (updated_at b) (armed_by b) (disarmed_at b) (disarmed_by b) (reason b) (request_id b)
     (state_file b) (S (clock_reads b)) (file_writes b)).

(** [_normalize_timestamp]; the conversion to UTC may leave the years that
    [datetime] supports, and that exception is not caught. *)
Definition normalize_timestamp (v : pyval) (fallback : option string) : res (option string) :=
  let raw := norm v in
  if is_empty raw then Ok fallback
  else match parse_utc (replace_c "Z" "+00:00" raw) with
       | None => Ok fallback
       | Some t => let '(y, _, _) := civil_from_days (dt_day t) in
                   if (1 <=? y) && (y <=? 9999) then Ok (Some (isoformat t))
                   else Err (OverflowError "date value out of range")
       end.

Definition scope_from_payload (payload : pydict) (fallback_revision : Z)
    (fallback_armed_at : string) : res AutonomyCircuitScope :=
  let ty := Some (py_str (py_or (get "scope_type" payload) (PStr "global"))) in
  let u := normalize_optional (get "scope_user_id" payload) in
  let a := normalize_optional (get "scope_agent_id" payload) in
  res_bind (normalize_circuit_breaker_scope ty u a) (fun '(t, u', a') =>
  res_bind (circuit_breaker_scope_key (Some t) u' a') (fun key =>
  res_bind (normalize_timestamp (get "armed_at" payload) (Some fallback_armed_at)) (fun armed_at =>
    Ok (Scope key t u' a'
          (match armed_at with Some s => str_or s fallback_armed_at | None => fallback_armed_at end)
          (normalize_optional (get "armed_by" payload))
          (normalize_optional (get "reason" payload))
          (normalize_optional (get "request_id" payload))
          (coerce_non_negative_int (get "revision" payload) fallback_revision))))).

(** The document [_persist_state_unlocked] writes. *)
Definition state_payload (b : breaker) (saved_at : string) : pydict :=
  [("schema_version", PInt CIRCUIT_BREAKER_STATE_SCHEMA_VERSION);
   ("saved_at", PStr saved_at);
   ("revision", PInt (revision b));
   ("updated_at", PStr (updated_at b));
   ("armed_by", pnone_or_str (armed_by b));
   ("disarmed_at", pnone_or_str (disarmed_at b));
   ("disarmed_by", pnone_or_str (disarmed_by b));
   ("reason", pnone_or_str (reason b));
   ("request_id", pnone_or_str (request_id b));
   ("active_scopes",
      PList (map (fun s => PDict (scope_to_payload s)) (sorted_scopes (active_scopes b))))].

(** The write goes to a temporary file that replaces the state file, so a
    fault leaves the previous document in place. *)
Definition write_state_file (doc : pydict) : M breaker unit := fun b =>
  let b' f := Breaker (state_path b) (restore_status b) (restore_error b) (active_scopes b)
    (revision b) (updated_at b) (armed_by b) (disarmed_at b) (disarmed_by b) (reason b)
    (request_id b) f (clock_reads b) (S (file_writes b)) in
  match write_fault (file_writes b) with
  | Some e => (Err e, b' (state_file b))
  | None => (Ok tt, b' (Some (Ok (PDict doc))))
  end.

Definition persist_state_unlocked : M breaker unit :=
  let* path := gets state_path in
  match path with
  | None => ret tt
  | Some _ =>
      let* saved_at := utc_now_iso in
      let* b := gets (fun b => b) in
      write_state_file (state_payload b saved_at)
  end.

(** [_restore_state_unlocked] of what [_capture_state_unlocked] saved. *)
Definition restore_state_unlocked (saved : breaker) : M breaker unit :=
  let* now := (if is_empty (updated_at saved) then utc_now_iso else ret (updated_at saved)) in
  modify (fun b =>
    Breaker (state_path b)
      (str_or (restore_status saved) (restore_status b))
      (normalize_opt (restore_error saved))
      (active_scopes saved)
      (revision saved)
      now
      (normalize_opt (armed_by saved))
      (normalize_opt (disarmed_at saved))
      (normalize_opt (disarmed_by saved))
      (normalize_opt (reason saved))
      (normalize_opt (request_id saved))
      (state_file b) (clock_reads b) (file_writes b)).

Definition persist_or_revert_unlocked (previous_state : breaker) : M breaker unit :=
  try_except persist_state_unlocked (fun exc =>
    restore_state_unlocked previous_state ;;;
    raise (RuntimeError ("Failed to persist autonomy circuit breaker state: " +:+ exn_str exc))).

Definition snapshot_m : M breaker pydict := fun b => (snapshot_unlocked b, b).

Definition arm (actor arm_reason req scope_type scope_user_id scope_agent_id : option string) :
    M breaker pydict :=
  let* p := lift (normalize_circuit_breaker_scope scope_type scope_user_id scope_agent_id) in
  let '(t, u, a) := p in
  let* key := lift (circuit_breaker_scope_key (Some t) u a) in
  let* now := utc_now_iso in
  let* previous_state := gets (fun b => b) in
  let armed_at := match d_get key (active_scopes previous_state) with
                  | Some sc => sc_armed_at sc | None => now end in
  let rev := revision previous_state + 1 in
  let scope := Scope key t u a armed_at (normalize_opt actor) (normalize_opt arm_reason)
                 (normalize_opt req) rev in
  modify (fun b =>
    Breaker (state_path b) (restore_status b) (restore_error b)
      (d_set key scope (active_scopes b)) rev now (normalize_opt actor)
      (disarmed_at b) (disarmed_by b) (normalize_opt arm_reason) (normalize_opt req)
      (state_file b) (clock_reads b) (file_writes b)) ;;;
  persist_or_revert_unlocked previous_state ;;;
  let* snapshot := snapshot_m in
  ret (d_set "target_scope" (PDict
         [("action", PStr "arm"); ("exists", PBool true);
          ("scope", PDict (scope_to_payload scope))]) snapshot).

Definition disarm (actor disarm_reason req scope_type scope_user_id scope_agent_id : option string) :
    M breaker pydict :=
  let* p := lift (normalize_circuit_breaker_scope scope_type scope_user_id scope_agent_id) in
  let '(t, u, a) := p in
  let* key := lift (circuit_breaker_scope_key (Some t) u a) in
  let* now := utc_now_iso in
  let* previous_state := gets (fun b => b) in
  let removed := d_get key (active_scopes previous_state) in
  modify (fun b =>
    Breaker (state_path b) (restore_status b) (restore_error b)
      (d_pop key (active_scopes b)) (revision b + 1) now (armed_by b)
      (Some now) (normalize_opt actor) (normalize_opt disarm_reason) (normalize_opt req)
      (state_file b) (clock_reads b) (file_writes b)) ;;;
  persist_or_revert_unlocked previous_state ;;;
  let* snapshot := snapshot_m in
  ret (d_set "target_scope" (PDict
         [("action", PStr "disarm");
          ("exists", PBool (match removed with Some _ => true | None => false end));
          ("scope", PDict (match removed with
                           | Some sc => scope_to_payload sc
                           | None => [("key", PStr key); ("scope_type", PStr t);
                                      ("scope_user_id", pnone_or_str u);
                                      ("scope_agent_id", pnone_or_str a)]
                           end))]) snapshot).

Definition restore_scope (rev : Z) (upd : string) (acc : dict AutonomyCircuitScope) (item : pyval) :
    res (dict AutonomyCircuitScope) :=
  match item with
  | PDict p => res_bind (scope_from_payload p rev upd) (fun sc => Ok (d_set (sc_key sc) sc acc))
  | _ => Ok acc
  end.

Definition max_scope_revision (d : dict AutonomyCircuitScope) (default : Z) : Z :=
  match d_values d with
  | [] => default
  | sc :: l => foldl (fun m s => Z.max m (sc_revision s)) (sc_revision sc) l
  end.

Definition restore_from_payload_unlocked (payload : pyval) (fallback_now : string) (b : breaker) :
    res breaker :=
  match payload with
  | PDict p =>
      res_bind (py_int (get_or "schema_version" (PInt CIRCUIT_BREAKER_STATE_SCHEMA_VERSION) p))
      (fun schema_version =>
      if negb (schema_version =? CIRCUIT_BREAKER_STATE_SCHEMA_VERSION) then
        Err (ValueError ("unsupported state schema version: " +:+ str_of_Z schema_version
             +:+ " (expected " +:+ str_of_Z CIRCUIT_BREAKER_STATE_SCHEMA_VERSION +:+ ")"))
      else
      let rev := coerce_non_negative_int (get "revision" p) 0 in
      res_bind (normalize_timestamp (get "updated_at" p) (Some fallback_now)) (fun updated =>
      res_bind (normalize_timestamp (get "disarmed_at" p) None) (fun disarmed =>
      let upd := default fallback_now updated in
      let raw_scopes := match get "active_scopes" p with PNone => PList [] | v => v end in
      match raw_scopes with
      | PList items =>
          res_bind (fold_res (restore_scope rev upd) items []) (fun scopes =>
          Ok (Breaker (state_path b) (restore_status b) (restore_error b) scopes
                (Z.max rev (max_scope_revision scopes rev)) upd
                (normalize_optional (get "armed_by" p))
                disarmed
                (normalize_optional (get "disarmed_by" p))
                (normalize_optional (get "reason" p))
                (normalize_optional (get "request_id" p))
                (state_file b) (clock_reads b) (file_writes b)))
      | _ => Err (ValueError "active_scopes must be an array")
      end)))
  | _ => Err (ValueError "state payload must be an object")
  end.

Definition exn_class (e : exn) : string :=
  match e with
  | ValueError _ => "ValueError" | TypeError _ => "TypeError" | KeyError _ => "KeyError"
  | OverflowError _ => "OverflowError" | ZeroDivisionError _ => "ZeroDivisionError"
  | RuntimeError _ => "RuntimeError" | OtherError c _ => c | AssertionError _ => "AssertionError"
  | TaskError TaskGuardrailError _ => "TaskGuardrailError" | TaskError TaskBudgetError _ => "TaskBudgetError"
  | TaskError RunBudgetExceededError _ => "RunBudgetExceededError"
  | TaskError RunLeaseLostError _ => "RunLeaseLostError" | TaskError TaskTimeoutError _ => "TaskTimeoutError"
  | ProviderOperationError _ => "ProviderOperationError"
  | PermissionRequiredError _ _ => "PermissionRequiredError"
  | BreakerBlockedError _ _ _ _ => "AutonomyCircuitBreakerBlockedError"
  end.

(** The state a failed restore leaves: one armed global scope. *)
Definition fail_safe (now : string) (exc : exn) (b : breaker) : breaker :=
  let rev := Z.max 1 (revision b + 1) in
  Breaker (state_path b) "fail_safe_armed" (Some (exn_class exc +:+ ": " +:+ exn_str exc))
    [("global", Scope "global" "global" None None now (Some FAIL_SAFE_RECOVERY_ACTOR)
        (Some FAIL_SAFE_RECOVERY_REASON) (Some FAIL_SAFE_RECOVERY_REQUEST_ID) rev)]
    rev now (Some FAIL_SAFE_RECOVERY_ACTOR) None None
    (Some FAIL_SAFE_RECOVERY_REASON) (Some FAIL_SAFE_RECOVERY_REQUEST_ID)
    (state_file b) (clock_reads b) (file_writes b).

Definition set_restore (status : string) (b : breaker) : breaker :=
  Breaker (state_path b) status None (active_scopes b) (revision b) (updated_at b) (armed_by b)
    (disarmed_at b) (disarmed_by b) (reason b) (request_id b) (state_file b) (clock_reads b)
    (file_writes b).

Definition restore_from_state_file : M breaker unit :=
  let* content := gets state_file in
  match content with
  | None => modify (set_restore "empty")
  | Some doc =>
      let* now := utc_now_iso in
      let* b := gets (fun b => b) in
      match res_bind doc (fun raw => restore_from_payload_unlocked raw now b) with
      | Ok b' => modify (fun _ => set_restore "restored" b')
      | Err exc =>
          modify (fail_safe now exc) ;;;
          try_except persist_state_unlocked (fun _ => ret tt)
      end
  end.

(** [AutonomyCircuitBreaker.__init__]: the clock and the state file are
    what the process finds when it starts. *)
Definition init (path : option string) (file : file_content) (reads writes : nat) : breaker :=
  let now := isoformat (clock reads) in
  let b0 := Breaker path (match path with None => "disabled" | Some _ => "empty" end) None [] 0 now
              None (Some now) None None None file (S reads) writes in
  match path with
  | None => b0
  | Some _ => snd (restore_from_state_file b0)
  end.
End env.

(** ** What a scope stands for *)

Inductive target : Type := TGlobal | TUser (u : string) | TAgent (a : string).

#[export] Instance target_eq_dec : EqDecision target.
Proof. solve_decision. Defined.

#[export] Instance target_countable : Countable target.
Proof.
  refine (inj_countable'
    (fun t => match t with TGlobal => inl tt | TUser u => inr (inl u) | TAgent a => inr (inr a) end)
    (fun x => match x with inl _ => TGlobal | inr (inl u) => TUser u | inr (inr a) => TAgent a end) _).
  by intros [].
Defined.

Definition key_of (tg : target) : string :=
  match tg with TGlobal => "global" | TUser u => "user:" +:+ u | TAgent a => "agent:" +:+ a end.

(** The normal form in which a target is stored. *)
Definition scope_shape (t : string) (u a : option string) (tg : target) : Prop :=
  match tg with
  | TGlobal => t = "global" /\ u = None /\ a = None
  | TUser x => t = "user" /\ u = Some x /\ a = None /\ stripped x /\ x <> ""
  | TAgent x => t = "agent" /\ u = None /\ a = Some x /\ stripped x /\ x <> ""
  end.

Definition target_of (sc : AutonomyCircuitScope) : target :=
  if String.eqb (sc_scope_type sc) "global" then TGlobal
  else if String.eqb (sc_scope_type sc) "user" then TUser (opt_str (sc_scope_user_id sc))
  else TAgent (opt_str (sc_scope_agent_id sc)).

(** The abstract state: the set of armed targets. *)
Definition targets (b : breaker) : gset target := list_to_set (target_of <$> d_values (active_scopes b)).

(** A run is stopped when its user, its agent or everything is armed. *)
Definition stops (S : gset target) (user agent : option string) : Prop :=
  TGlobal ∈ S \/ (exists u, user = Some u /\ TUser u ∈ S) \/ (exists a, agent = Some a /\ TAgent a ∈ S).

(** ** Well-formedness *)

Definition is_ts (s : string) : Prop := exists t, dt_in_range t /\ s = isoformat t.
Definition opt_normal (o : option string) : Prop := normalize_opt o = o.

Record scope_wf (rev : Z) (k : string) (sc : AutonomyCircuitScope) : Prop := {
  swf_shape : scope_shape (sc_scope_type sc) (sc_scope_user_id sc) (sc_scope_agent_id sc) (target_of sc);
  swf_key : sc_key sc = key_of (target_of sc);
  swf_entry : k = sc_key sc;
  swf_armed_at : is_ts (sc_armed_at sc);
  swf_armed_by : opt_normal (sc_armed_by sc);
  swf_reason : opt_normal (sc_reason sc);
  swf_request_id : opt_normal (sc_request_id sc);
  swf_revision : 0 <= sc_revision sc <= rev }.

Record breaker_wf (b : breaker) : Prop := {
  bwf_keys : NoDup (d_keys (active_scopes b));
  bwf_scopes : Forall (fun e => scope_wf (revision b) (fst e) (snd e)) (active_scopes b);
  bwf_revision : 0 <= revision b;
  bwf_updated_at : is_ts (updated_at b);
  bwf_armed_by : opt_normal (armed_by b);
  bwf_disarmed_at : match disarmed_at b with Some t => is_ts t | None => True end;
  bwf_disarmed_by : opt_normal (disarmed_by b);
  bwf_reason : opt_normal (reason b);
  bwf_request_id : opt_normal (request_id b);
  bwf_status : restore_status b <> "" }.

(** ** Lemmas on normalization *)

Lemma normalize_opt_normal o : opt_normal (normalize_opt o).
Proof.
  unfold opt_normal, normalize_opt, str_or_none.
  destruct (is_empty (strip (opt_str o))) eqn:E; [done|]. cbn [opt_str].
  rewrite strip_idemp, E. done.
Qed.

Lemma normalize_opt_some o x : normalize_opt o = Some x -> stripped x /\ x <> "".
Proof.
  unfold normalize_opt, str_or_none. destruct (is_empty _) eqn:E; [done|].
  intros [= <-]. apply is_empty_false in E. auto with py.
Qed.

Lemma normalize_opt_id x : stripped x -> x <> "" -> normalize_opt (Some x) = Some x.
Proof. intros Hs Hx. unfold normalize_opt. cbn [opt_str]. rewrite Hs. by apply str_or_none_some. Qed.

Lemma normalize_optional_pnone o : normalize_optional (pnone_or_str o) = normalize_opt o.
Proof. unfold normalize_optional, normalize_opt. by rewrite norm_pnone_or_str. Qed.

Lemma normalize_optional_normal v : opt_normal (normalize_optional v).
Proof.
  assert (normalize_optional v = normalize_opt (Some (py_str (py_or v (PStr ""))))) as -> by done.
  apply normalize_opt_normal.
Qed.

Lemma is_ts_normal s : is_ts s -> opt_normal (Some s).
Proof. intros (t & _ & ->). apply normalize_opt_id; auto with py. Qed.

Lemma is_ts_ne s : is_ts s -> s <> "".
Proof. intros (t & _ & ->). apply isoformat_ne. Qed.

#[export] Hint Resolve normalize_opt_normal normalize_optional_normal is_ts_normal is_ts_ne : py.

Lemma normalize_shape ty u a t u' a' :
  normalize_circuit_breaker_scope ty u a = Ok (t, u', a') -> exists tg, scope_shape t u' a' tg.
Proof.
  unfold normalize_circuit_breaker_scope. generalize (str_or (lower (strip
    match ty with Some t => str_or t "global" | None => "global" end)) "global").
  intros nt H. destruct (normalize_opt u) as [x|] eqn:Eu, (normalize_opt a) as [y|] eqn:Ea;
    repeat case_match; simplify_eq.
  - exists (TUser x). apply normalize_opt_some in Eu as []. repeat split; done.
  - exists (TAgent y). apply normalize_opt_some in Ea as []. repeat split; done.
  - by exists TGlobal.
Qed.

Lemma shape_normalize t u a tg :
  scope_shape t u a tg -> normalize_circuit_breaker_scope (Some t) u a = Ok (t, u, a).
Proof.
  destruct tg as [|x|x]; simpl.
  - by intros (-> & -> & ->).
  - intros (-> & -> & -> & Hs & Hx). unfold normalize_circuit_breaker_scope.
    by rewrite normalize_opt_id.
  - intros (-> & -> & -> & Hs & Hx). unfold normalize_circuit_breaker_scope.
    by rewrite (normalize_opt_id x).
Qed.

Lemma shape_key t u a tg :
  scope_shape t u a tg -> circuit_breaker_scope_key (Some t) u a = Ok (key_of tg).
Proof.
  intros H. unfold circuit_breaker_scope_key. rewrite (shape_normalize _ _ _ _ H).
  destruct tg; simpl in H; naive_solver.
Qed.

Lemma key_of_inj tg tg' : key_of tg = key_of tg' -> tg = tg'.
Proof. destruct tg, tg'; try done; intros H; f_equal; by injection H. Qed.

Lemma target_of_shape k t u a tg aa ab r q rev :
  scope_shape t u a tg -> target_of (Scope k t u a aa ab r q rev) = tg.
Proof. unfold target_of. destruct tg; simpl; intros; destruct_and!; by subst. Qed.

End CircuitBreaker.
