(* ===== verification/CircuitBreakerFacts.v ===== *)
(** Correctness of the autonomy circuit breaker: the well-formedness
    invariant of every reachable state, the refinement to a set of armed
    targets, atomicity of a failed write, durability across a restart and the
    fail-safe start. *)

From stdpp Require Import prelude strings list gmap.
From Stdlib Require Import Lia ZArith Ascii.
From S2P Require Import Prelude PyStr PyVal Effects PyTime CircuitBreaker.
Import CircuitBreaker.

Module CircuitBreakerFacts.

(** ** The verdict against the set of armed targets *)

Lemma sorted_scopes_elem d sc :
  NoDup (d_keys d) -> sc ∈ sorted_scopes d <-> sc ∈ d_values d.
Proof.
  intros Hd. unfold sorted_scopes, sort_strings, d_values.
  rewrite list_elem_of_omap, list_elem_of_fmap. split.
  - intros (k & _ & Hk). exists (k, sc). split; [done | by apply d_get_elem].
  - intros ([k v] & -> & Hin). exists k. split.
    + apply sort_by_elem, list_elem_of_fmap. by exists (k, v).
    + by apply d_elem_get.
Qed.

Lemma sorted_scopes_nil d : NoDup (d_keys d) -> sorted_scopes d = [] <-> d = [].
Proof.
  intros Hd. split; [|by intros ->]. intros H. destruct d as [|[k v] d]; [done|].
  assert (v ∈ sorted_scopes ((k, v) :: d)) as Hin.
  { apply sorted_scopes_elem; [done|]. left. }
  rewrite H in Hin. by apply elem_of_nil in Hin.
Qed.

Lemma targets_elem b tg :
  tg ∈ targets b <-> exists sc, sc ∈ d_values (active_scopes b) /\ tg = target_of sc.
Proof.
  unfold targets. rewrite elem_of_list_to_set, list_elem_of_fmap. naive_solver.
Qed.

Lemma wf_entry b sc :
  breaker_wf b -> sc ∈ d_values (active_scopes b) -> scope_wf (revision b) (sc_key sc) sc.
Proof.
  intros Hb Hin. apply list_elem_of_fmap in Hin as ([k v] & -> & Hin).
  pose proof (proj1 (Forall_forall _ _) (bwf_scopes _ Hb) _ Hin) as Hwf. simpl in Hwf.
  simpl. by rewrite <- (swf_entry _ _ _ Hwf).
Qed.

(** A stored scope concerns a run exactly when its target does. *)
Lemma scope_matches rev k sc user agent :
  scope_wf rev k sc ->
  (String.eqb (sc_scope_type sc) "global"
   || (String.eqb (sc_scope_type sc) "user" && bool_decide (sc_scope_user_id sc = user))
   || (String.eqb (sc_scope_type sc) "agent" && bool_decide (sc_scope_agent_id sc = agent))) = true
  <-> stops {[ target_of sc ]} user agent.
Proof.
  intros Hwf. pose proof (swf_shape _ _ _ Hwf) as Hs. unfold stops.
  destruct (target_of sc) as [|x|x] eqn:E; simpl in Hs; destruct_and!;
    match goal with H : sc_scope_type sc = _ |- _ => rewrite H end; simpl.
  - split; [left; set_solver | done].
  - rewrite orb_false_r, bool_decide_eq_true. split.
    + intros <-. right. left. exists x. split; [done | set_solver].
    + intros [?|[(u & -> & Hu)|(a & _ & Ha)]]; set_solver.
  - rewrite bool_decide_eq_true. split.
    + intros <-. right. right. exists x. split; [done | set_solver].
    + intros [?|[(u & _ & Hu)|(a & -> & Ha)]]; set_solver.
Qed.

Lemma stops_union S T user agent :
  stops (S ∪ T) user agent <-> stops S user agent \/ stops T user agent.
Proof. unfold stops. set_solver. Qed.

Lemma blocked_stops b user agent :
  breaker_wf b ->
  blocked (evaluate_run_creation user agent b) = true
  <-> stops (targets b) (normalize_opt user) (normalize_opt agent).
Proof.
  intros Hb. unfold evaluate_run_creation. simpl.
  set (m := matched_scopes_unlocked b _ _).
  assert ((exists sc, sc ∈ m) <-> stops (targets b) (normalize_opt user) (normalize_opt agent)) as <-.
  { unfold m, matched_scopes_unlocked. split.
    - intros (sc & Hsc). apply list_elem_of_filter in Hsc as [Hm Hin].
      apply sorted_scopes_elem in Hin; [|apply Hb].
      apply Is_true_true, (scope_matches _ _ _ _ _ (wf_entry _ _ Hb Hin)) in Hm.
      assert (target_of sc ∈ targets b) by (apply targets_elem; eauto).
      unfold stops in *. set_solver.
    - intros Hs.
      assert (exists sc, sc ∈ d_values (active_scopes b)
              /\ stops {[ target_of sc ]} (normalize_opt user) (normalize_opt agent)) as (sc & Hin & Hsc).
      { unfold stops in Hs. setoid_rewrite targets_elem in Hs. unfold stops.
        destruct Hs as [(sc & ? & E)|[(u & Hu & sc & ? & E)|(a & Ha & sc & ? & E)]];
          exists sc; rewrite <- E; set_solver. }
      exists sc. apply list_elem_of_filter. split.
      + apply Is_true_true. by eapply scope_matches; [apply wf_entry|].
      + apply sorted_scopes_elem; [apply Hb | done]. }
  destruct m as [|sc m].
  - split; [done|]. intros (sc & Hsc). by apply elem_of_nil in Hsc.
  - split; [|done]. intros _. exists sc. left.
Qed.

(** ** Updating the active scopes *)

Lemma scope_wf_mono rev rev' k sc : rev <= rev' -> scope_wf rev k sc -> scope_wf rev' k sc.
Proof. intros Hr []. constructor; auto; lia. Qed.

Lemma targets_of_set S k sc rev :
  NoDup (d_keys S) -> Forall (fun e => scope_wf rev (fst e) (snd e)) S -> scope_wf rev k sc ->
  list_to_set (target_of <$> d_values (d_set k sc S))
  = ({[ target_of sc ]} ∪ list_to_set (target_of <$> d_values S) : gset target).
Proof.
  intros Hd HS Hsc. apply set_eq. intros tg.
  rewrite elem_of_union, elem_of_singleton, !elem_of_list_to_set, !list_elem_of_fmap.
  assert (forall (D : dict AutonomyCircuitScope) v,
    NoDup (d_keys D) -> v ∈ d_values D <-> exists k', d_get k' D = Some v) as Hval.
  { intros D v HD. unfold d_values. rewrite list_elem_of_fmap. split.
    - intros ([k' v'] & -> & Hin). exists k'. by apply d_elem_get.
    - intros (k' & Hk). exists (k', v). split; [done | by apply d_get_elem]. }
  split.
  - intros (v & -> & Hv). apply Hval in Hv as (k' & Hk'); [|auto with py].
    rewrite d_get_set in Hk'. destruct (String.eqb_spec k k'); simplify_eq; [by left|].
    right. exists v. split; [done|]. apply Hval; eauto.
  - intros [->|(v & -> & Hv)].
    + exists sc. split; [done|]. apply Hval; [auto with py|]. exists k. apply d_get_set_eq.
    + apply Hval in Hv as (k' & Hk'); [|done].
      destruct (decide (k = k')) as [<-|Hne].
      * exists sc. split; [|apply Hval; [auto with py|]; exists k; apply d_get_set_eq].
        apply d_get_elem in Hk'. apply (proj1 (Forall_forall _ _) HS) in Hk'. simpl in Hk'.
        apply key_of_inj. rewrite <- (swf_key _ _ _ Hsc), <- (swf_key _ _ _ Hk').
        by rewrite <- (swf_entry _ _ _ Hsc), <- (swf_entry _ _ _ Hk').
      * exists v. split; [done|]. apply Hval; [auto with py|]. exists k'. by rewrite d_get_set_ne.
Qed.

Lemma targets_of_pop S tg rev :
  NoDup (d_keys S) -> Forall (fun e => scope_wf rev (fst e) (snd e)) S ->
  list_to_set (target_of <$> d_values (d_pop (key_of tg) S))
  = (list_to_set (target_of <$> d_values S) ∖ {[ tg ]} : gset target).
Proof.
  intros Hd HS. apply set_eq. intros x.
  rewrite elem_of_difference, elem_of_singleton, !elem_of_list_to_set, !list_elem_of_fmap.
  unfold d_values. setoid_rewrite list_elem_of_fmap.
  assert (forall k v, (k, v) ∈ S -> k = key_of (target_of v)) as Hkey.
  { intros k v Hin. apply (proj1 (Forall_forall _ _) HS) in Hin. simpl in Hin.
    rewrite (swf_entry _ _ _ Hin). apply (swf_key _ _ _ Hin). }
  split.
  - intros (v & -> & [k v'] & -> & Hin). simpl.
    pose proof (elem_of_sublist _ _ _ Hin (d_pop_sublist _ _)) as Hin'.
    split; [exists v'; split; [done|]; by exists (k, v')|]. intros E. apply Hkey in Hin' as Hk. rewrite E in Hk. subst k.
    apply d_elem_get in Hin; [|auto with py]. by rewrite d_get_pop_eq in Hin.
  - intros [(v & -> & [k v'] & -> & Hin) Hne]. simpl in *.
    exists v'. split; [done|]. exists (k, v'). split; [done|].
    apply d_get_elem. rewrite d_get_pop_ne.
    + by apply d_elem_get.
    + rewrite (Hkey _ _ Hin). intros E%key_of_inj. by apply Hne.
Qed.

(** ** The attributes of the breaker, without its file and clock *)

Definition attrs (b : breaker) :=
  (state_path b, restore_status b, restore_error b, active_scopes b, revision b, updated_at b,
   armed_by b, disarmed_at b, disarmed_by b, reason b, request_id b).

Lemma wf_attrs b b' : attrs b = attrs b' -> breaker_wf b -> breaker_wf b'.
Proof. destruct b, b'. unfold attrs. simpl. intros E []. simplify_eq. by constructor. Qed.

Lemma targets_attrs b b' : attrs b = attrs b' -> targets b = targets b'.
Proof. destruct b, b'. unfold attrs, targets. simpl. intros. by simplify_eq. Qed.

Section ops.
Context (clock : nat -> Z) (write_fault : nat -> option exn) (parse_utc : string -> option Z).

Abbreviation persist_or_revert := (persist_or_revert_unlocked clock write_fault).

(** [_persist_or_revert_unlocked]: the new state is kept and on disk, or the
    captured state is back and the file untouched.  Only the text of an
    earlier restore error may lose surrounding space. *)
Lemma persist_or_revert_spec prev b :
  breaker_wf prev -> state_path prev = state_path b ->
  let '(r, b') := persist_or_revert prev b in
  (r = Ok tt /\ (state_path b = None \/ write_fault (file_writes b) = None) /\ attrs b' = attrs b
   /\ state_file b' = match state_path b with
                      | None => state_file b
                      | Some _ => Some (Ok (PDict (state_payload b (isoformat (clock (clock_reads b))))))
                      end)
  \/ (exists e, write_fault (file_writes b) = Some e /\ state_path b <> None
      /\ r = Err (RuntimeError ("Failed to persist autonomy circuit breaker state: " +:+ exn_str e))
      /\ attrs b' = attrs (Breaker (state_path prev) (restore_status prev)
            (normalize_opt (restore_error prev)) (active_scopes prev) (revision prev)
            (updated_at prev) (armed_by prev) (disarmed_at prev) (disarmed_by prev) (reason prev)
            (request_id prev) (state_file b) (clock_reads b) (file_writes b))
      /\ state_file b' = state_file b).
Proof.
  intros Hwf Hpath. destruct Hwf.
  unfold persist_or_revert_unlocked, try_except, persist_state_unlocked, bind, gets.
  destruct (state_path b) as [path|] eqn:Ep;
    [|left; split; [done|]; split; [by left|]; by destruct b].
  unfold utc_now_iso, write_state_file, restore_state_unlocked, bind, gets. simpl.
  destruct (write_fault (file_writes b)) as [e|] eqn:Ew;
    [|left; split; [done|]; split; [by right|]; destruct b; simpl in *; by subst].
  destruct (is_empty (updated_at prev)) eqn:Eu; [by apply is_empty_true, is_ts_ne in Eu|].
  right. exists e. unfold ret, modify, raise, attrs. simpl.
  rewrite str_or_ne by done. unfold opt_normal in *.
  assert (normalize_opt (disarmed_at prev) = disarmed_at prev) as ->.
  { destruct (disarmed_at prev); [by apply is_ts_normal | done]. }
  repeat split; congruence.
Qed.

(** ** [arm] and [disarm] *)

Definition arm_state (b : breaker) (t : string) (u a : option string) (key : string)
    (actor rsn req : option string) : breaker :=
  let now := isoformat (clock (clock_reads b)) in
  let rev := revision b + 1 in
  Breaker (state_path b) (restore_status b) (restore_error b)
    (d_set key (Scope key t u a
       (match d_get key (active_scopes b) with Some sc => sc_armed_at sc | None => now end)
       (normalize_opt actor) (normalize_opt rsn) (normalize_opt req) rev) (active_scopes b))
    rev now (normalize_opt actor) (disarmed_at b) (disarmed_by b) (normalize_opt rsn)
    (normalize_opt req) (state_file b) (S (clock_reads b)) (file_writes b).

Definition disarm_state (b : breaker) (key : string) (actor rsn req : option string) : breaker :=
  let now := isoformat (clock (clock_reads b)) in
  Breaker (state_path b) (restore_status b) (restore_error b) (d_pop key (active_scopes b))
    (revision b + 1) now (armed_by b) (Some now) (normalize_opt actor) (normalize_opt rsn)
    (normalize_opt req) (state_file b) (S (clock_reads b)) (file_writes b).

Hypothesis clock_range : forall n, dt_in_range (clock n).

Lemma now_ts n : is_ts (isoformat (clock n)).
Proof using clock_range. by exists (clock n). Qed.

Lemma arm_state_wf b t u a tg actor rsn req :
  breaker_wf b -> scope_shape t u a tg ->
  breaker_wf (arm_state b t u a (key_of tg) actor rsn req)
  /\ targets (arm_state b t u a (key_of tg) actor rsn req) = {[ tg ]} ∪ targets b.
Proof using clock_range.
  intros Hb Hs. pose proof Hb as []. unfold arm_state.
  set (sc := Scope (key_of tg) t u a _ _ _ _ _).
  assert (scope_wf (revision b + 1) (key_of tg) sc) as Hsc.
  { assert (target_of sc = tg) as Htg by (by apply target_of_shape).
    constructor; simpl; rewrite ?Htg; auto with py; [|lia].
    destruct (d_get (key_of tg) (active_scopes b)) as [sc'|] eqn:E; [|apply now_ts].
    apply d_get_elem in E. apply (proj1 (Forall_forall _ _) bwf_scopes0) in E.
    apply (swf_armed_at _ _ _ E). }
  assert (Forall (fun e => scope_wf (revision b + 1) (fst e) (snd e)) (active_scopes b)) as HS.
  { eapply Forall_impl; [done|]. intros e He. apply (scope_wf_mono (revision b)); [lia | exact He]. }
  split.
  - constructor; simpl; auto using now_ts with py. lia.
  - unfold targets. simpl. rewrite (targets_of_set _ _ _ (revision b + 1)) by done.
    do 2 f_equal. by apply target_of_shape.
Qed.

Lemma disarm_state_wf b tg actor rsn req :
  breaker_wf b ->
  breaker_wf (disarm_state b (key_of tg) actor rsn req)
  /\ targets (disarm_state b (key_of tg) actor rsn req) = targets b ∖ {[ tg ]}.
Proof using clock_range.
  intros Hb. pose proof Hb as []. unfold disarm_state. split.
  - constructor; simpl; auto using now_ts with py; [|lia].
    apply Forall_forall. intros e He. apply (scope_wf_mono (revision b)); [lia|].
    by eapply (proj1 (Forall_forall _ _) bwf_scopes0), elem_of_sublist, d_pop_sublist.
  - unfold targets. simpl. by eapply targets_of_pop.
Qed.

Definition tick (b : breaker) : breaker :=
  Breaker (state_path b) (restore_status b) (restore_error b) (active_scopes b) (revision b)
    (updated_at b) (armed_by b) (disarmed_at b) (disarmed_by b) (reason b) (request_id b)
    (state_file b) (S (clock_reads b)) (file_writes b).

Lemma arm_run b actor rsn req ty su sa t u a tg :
  normalize_circuit_breaker_scope ty su sa = Ok (t, u, a) -> scope_shape t u a tg ->
  exists payload, arm clock write_fault actor rsn req ty su sa b =
    bind (persist_or_revert (tick b)) (fun _ => bind snapshot_m (fun snapshot =>
      ret (d_set "target_scope" (PDict payload) snapshot)))
    (arm_state b t u a (key_of tg) actor rsn req).
Proof.
  intros Hn Hs. eexists. unfold arm, bind, lift, gets, modify, utc_now_iso. rewrite Hn.
  rewrite (shape_key _ _ _ _ Hs). done.
Qed.

Lemma disarm_run b actor rsn req ty su sa t u a tg :
  normalize_circuit_breaker_scope ty su sa = Ok (t, u, a) -> scope_shape t u a tg ->
  exists payload, disarm clock write_fault actor rsn req ty su sa b =
    bind (persist_or_revert (tick b)) (fun _ => bind snapshot_m (fun snapshot =>
      ret (d_set "target_scope" (PDict payload) snapshot)))
    (disarm_state b (key_of tg) actor rsn req).
Proof.
  intros Hn Hs. eexists. unfold disarm, bind, lift, gets, modify, utc_now_iso. rewrite Hn.
  rewrite (shape_key _ _ _ _ Hs). done.
Qed.

(** A well-formed breaker always has a snapshot: the earliest [armed_at] of
    an armed breaker exists. *)
Lemma snapshot_ok b : breaker_wf b -> exists d, snapshot_unlocked b = Ok d.
Proof.
  intros Hb. unfold snapshot_unlocked. destruct (sorted_scopes (active_scopes b)) as [|sc l] eqn:E.
  - eexists. reflexivity.
  - assert (is_ts (sc_armed_at sc)) as Hts.
    { eapply swf_armed_at, (wf_entry b); [done|].
      apply sorted_scopes_elem; [apply Hb|]. rewrite E. left. }
    assert (negb (is_empty (sc_armed_at sc)) = true) as Hne
      by (apply negb_true_iff, is_empty_false; auto with py).
    simpl. rewrite filter_cons_True by (by rewrite Hne). eexists. reflexivity.
Qed.

(** ** Restoring from the state file *)

Lemma max_scope_revision_ge d default sc :
  sc ∈ d_values d -> sc_revision sc <= max_scope_revision d default.
Proof.
  unfold max_scope_revision. destruct (d_values d) as [|sc0 l]; [by intros ?%elem_of_nil|].
  assert (forall (m : Z) (k : list AutonomyCircuitScope),
    m <= foldl (fun m s => Z.max m (sc_revision s)) m k
    /\ forall s, s ∈ k -> sc_revision s <= foldl (fun m s => Z.max m (sc_revision s)) m k) as H.
  { intros m k. revert m. induction k as [|s0 k IH]; intros m; simpl.
    - split; [lia | by intros ? ?%elem_of_nil].
    - destruct (IH (Z.max m (sc_revision s0))) as [H1 H2]. split; [lia|].
      intros s [->|Hs]%elem_of_cons; [lia | auto]. }
  intros [->|Hs]%elem_of_cons; [apply (proj1 (H _ _)) | by apply (proj2 (H _ _))].
Qed.

Lemma normalize_timestamp_ts v f t :
  (forall x, f = Some x -> is_ts x) -> normalize_timestamp parse_utc v f = Ok (Some t) -> is_ts t.
Proof.
  intros Hf. unfold normalize_timestamp. destruct (is_empty (norm v)); [intros [= E]; by apply Hf|].
  destruct (parse_utc _) as [z|] eqn:E; [|intros [= E']; by apply Hf].
  destruct (civil_from_days (dt_day z)) as [[y mo] d] eqn:Ez. destruct (_ && _) eqn:Ey; [|done].
  intros [= <-]. exists z. split; [|done]. unfold dt_in_range. rewrite Ez. bool_prop. lia.
Qed.

Lemma scope_from_payload_wf p rev upd sc :
  0 <= rev -> is_ts upd -> scope_from_payload parse_utc p rev upd = Ok sc ->
  scope_wf (sc_revision sc) (sc_key sc) sc.
Proof.
  intros Hrev Hupd. unfold scope_from_payload.
  destruct (normalize_circuit_breaker_scope _ _ _) as [[[t u] a]|] eqn:En; [|done]. simpl.
  destruct (normalize_shape _ _ _ _ _ _ En) as [tg Hs]. rewrite (shape_key _ _ _ _ Hs). simpl.
  destruct (normalize_timestamp _ _ _) as [armed|] eqn:E; [|done]. simpl. intros [= <-].
  constructor; simpl; auto with py.
  - by rewrite (target_of_shape _ _ _ _ tg).
  - by rewrite (target_of_shape _ _ _ _ tg).
  - destruct armed as [x|]; [|done].
    apply normalize_timestamp_ts in E; [|by intros ? [= <-]].
    rewrite str_or_ne; auto with py.
  - split; [|lia]. unfold coerce_non_negative_int. destruct (py_int _); lia.
Qed.

Lemma restore_scopes_wf rev upd items acc scopes :
  0 <= rev -> is_ts upd ->
  NoDup (d_keys acc) -> Forall (fun e => scope_wf (sc_revision (snd e)) (fst e) (snd e)) acc ->
  fold_res (restore_scope parse_utc rev upd) items acc = Ok scopes ->
  NoDup (d_keys scopes)
  /\ Forall (fun e => scope_wf (sc_revision (snd e)) (fst e) (snd e)) scopes.
Proof.
  intros Hrev Hupd. revert acc. induction items as [|item items IH]; intros acc Hd HS H.
  - simpl in H. by simplify_eq.
  - simpl in H. destruct (restore_scope parse_utc rev upd acc item) as [acc'|] eqn:E; [|done].
    simpl in H. apply (IH acc'); [..|done]; unfold restore_scope in E;
      destruct item; simplify_eq; try done;
      (destruct (scope_from_payload _ _ _ _) as [sc|] eqn:Esc; [|done]); simpl in E; simplify_eq;
      apply scope_from_payload_wf in Esc; auto with py.
Qed.

Lemma restore_from_payload_wf payload now b b' :
  is_ts now -> breaker_wf b -> restore_from_payload_unlocked parse_utc payload now b = Ok b' ->
  breaker_wf b'.
Proof.
  intros Hnow Hb. unfold restore_from_payload_unlocked. destruct payload; try done.
  destruct (py_int _) as [v|]; [|done]. simpl. case_match; [done|].
  set (rev := coerce_non_negative_int _ _). 
  destruct (normalize_timestamp _ (get "updated_at" d) _) as [updated|] eqn:Eu; [|done].
  destruct (normalize_timestamp _ (get "disarmed_at" d) _) as [disarmed|] eqn:Ed; [|done]. cbn [res_bind].
  set (upd := default now updated).
  assert (0 <= rev) as Hrev by (unfold rev, coerce_non_negative_int; destruct (py_int _); lia).
  assert (is_ts upd) as Hupd.
  { unfold upd. destruct updated; [|done]. eapply normalize_timestamp_ts; [|done]. by intros ? [= <-]. }
  clearbody rev upd.
  assert (forall items, res_bind (fold_res (restore_scope parse_utc rev upd) items []) (fun scopes =>
     Ok (Breaker (state_path b) (restore_status b) (restore_error b) scopes
           (Z.max rev (max_scope_revision scopes rev)) upd
           (normalize_optional (get "armed_by" d))
           disarmed
           (normalize_optional (get "disarmed_by" d)) (normalize_optional (get "reason" d))
           (normalize_optional (get "request_id" d))
           (state_file b) (clock_reads b) (file_writes b))) = Ok b' -> breaker_wf b') as Hitems.
  { intros items Hit. destruct (fold_res _ _ _) as [scopes|] eqn:E; [|done]. simpl in Hit. simplify_eq.
    apply restore_scopes_wf in E as [Hd HS]; [|done|done|constructor|constructor].
    constructor; simpl; auto with py; [|lia| |apply Hb].
    - apply Forall_forall. intros e He. apply (scope_wf_mono (sc_revision (snd e))).
      + etrans; [|apply Z.le_max_r]. apply max_scope_revision_ge, list_elem_of_fmap. eauto.
      + by apply (proj1 (Forall_forall _ _) HS).
    - destruct disarmed; [|done].
      by apply (normalize_timestamp_ts (get "disarmed_at" d) None). }
  destruct (get "active_scopes" d); try done; apply Hitems.
Qed.

Lemma fail_safe_wf now exc b :
  is_ts now -> breaker_wf (fail_safe now exc b) /\ targets (fail_safe now exc b) = {[ TGlobal ]}.
Proof.
  intros Hnow. split; [|unfold targets; simpl; set_solver].
  constructor; simpl; try done; [apply NoDup_singleton| |lia].
  apply Forall_singleton. constructor; simpl; try done. lia.
Qed.

(** *** A scope and a whole document survive the state file *)

Hypothesis parse_iso : forall t, dt_in_range t -> parse_utc (isoformat t) = Some t.

Lemma normalize_timestamp_id s f : is_ts s -> normalize_timestamp parse_utc (PStr s) f = Ok (Some s).
Proof using parse_iso.
  intros (t & Ht & ->). unfold normalize_timestamp. rewrite norm_str by auto with py.
  destruct (is_empty (isoformat t)) eqn:E; [by apply is_empty_true, isoformat_ne in E|].
  rewrite isoformat_no_Z, parse_iso by done. unfold dt_in_range in Ht. destruct (civil_from_days (dt_day t)) as [[y m] d].
  by rewrite (proj2 (Z.leb_le 1 y)), (proj2 (Z.leb_le y 9999)) by lia.
Qed.

Lemma scope_payload_roundtrip r k sc rev upd :
  scope_wf r k sc -> scope_from_payload parse_utc (scope_to_payload sc) rev upd = Ok sc.
Proof using parse_iso.
  intros []. unfold scope_from_payload.
  change (get "scope_type" (scope_to_payload sc)) with (PStr (sc_scope_type sc)).
  change (get "scope_user_id" (scope_to_payload sc)) with (pnone_or_str (sc_scope_user_id sc)).
  change (get "scope_agent_id" (scope_to_payload sc)) with (pnone_or_str (sc_scope_agent_id sc)).
  change (get "armed_at" (scope_to_payload sc)) with (PStr (sc_armed_at sc)).
  change (get "armed_by" (scope_to_payload sc)) with (pnone_or_str (sc_armed_by sc)).
  change (get "reason" (scope_to_payload sc)) with (pnone_or_str (sc_reason sc)).
  change (get "request_id" (scope_to_payload sc)) with (pnone_or_str (sc_request_id sc)).
  change (get "revision" (scope_to_payload sc)) with (PInt (sc_revision sc)).
  rewrite !normalize_optional_pnone, normalize_timestamp_id by done.
  assert (py_str (py_or (PStr (sc_scope_type sc)) (PStr "global")) = sc_scope_type sc) as ->.
  { unfold scope_shape in *. destruct (target_of sc); destruct_and!;
      by match goal with H : sc_scope_type sc = _ |- _ => rewrite H end. }
  assert (normalize_opt (sc_scope_user_id sc) = sc_scope_user_id sc
          /\ normalize_opt (sc_scope_agent_id sc) = sc_scope_agent_id sc) as [-> ->].
  { unfold scope_shape in *. destruct (target_of sc); destruct_and!;
      repeat match goal with H : _ sc = _ |- _ => rewrite H end;
      rewrite ?normalize_opt_id by done; done. }
  rewrite (shape_normalize _ _ _ _ swf_shape0). simpl.
  rewrite (shape_key _ _ _ _ swf_shape0). simpl.
  rewrite str_or_ne by auto with py. unfold opt_normal in *.
  rewrite swf_armed_by0, swf_reason0, swf_request_id0, <- swf_key0.
  unfold coerce_non_negative_int. simpl. rewrite Z.max_r by lia. by destruct sc.
Qed.

Lemma restore_scopes_roundtrip rev upd r l acc :
  Forall (fun sc => scope_wf r (sc_key sc) sc) l -> NoDup (d_keys acc ++ map sc_key l) ->
  fold_res (restore_scope parse_utc rev upd) (map (fun s => PDict (scope_to_payload s)) l) acc
  = Ok (acc ++ map (fun s => (sc_key s, s)) l).
Proof using parse_iso.
  intros Hl. revert acc. induction Hl as [|sc l Hsc Hl IH]; intros acc Hd; simpl in *.
  - by rewrite app_nil_r.
  - rewrite (scope_payload_roundtrip r (sc_key sc)) by done. simpl.
    apply NoDup_app in Hd as (Hd1 & Hd2 & Hd3). apply NoDup_cons in Hd3 as [Hd3 Hd4].
    assert (d_mem (sc_key sc) acc = false) as Hm.
    { apply not_true_is_false. intros Hm%d_mem_keys. apply (Hd2 _ Hm). left. }
    rewrite d_set_new by done. rewrite IH, <- app_assoc; [done|].
    unfold d_keys in *. rewrite fmap_app, <- app_assoc. simpl.
    apply NoDup_app. repeat split; [done|set_solver|]. by apply NoDup_cons.
Qed.

Lemma sorted_scopes_keys b :
  breaker_wf b ->
  map sc_key (sorted_scopes (active_scopes b)) = sort_strings (d_keys (active_scopes b))
  /\ Forall (fun sc => scope_wf (revision b) (sc_key sc) sc) (sorted_scopes (active_scopes b)).
Proof.
  intros Hb. split.
  - unfold sorted_scopes.
    assert (forall k, k ∈ sort_strings (d_keys (active_scopes b)) ->
      exists sc, d_get k (active_scopes b) = Some sc /\ sc_key sc = k) as H.
    { intros k Hk. apply sort_by_elem, d_mem_keys in Hk. unfold d_mem in Hk.
      destruct (d_get k (active_scopes b)) as [sc|] eqn:E; [|done]. exists sc. split; [done|].
      apply d_get_elem in E. apply (proj1 (Forall_forall _ _) (bwf_scopes _ Hb)) in E.
      symmetry. apply (swf_entry _ _ _ E). }
    induction (sort_strings _) as [|k l IH]; [done|]. simpl.
    destruct (H k) as (sc & -> & Hk); [left|]. simpl. f_equal; [done|].
    apply IH. intros k' Hk'. apply H. by right.
  - apply Forall_forall. intros sc Hsc. apply wf_entry; [done|].
    apply sorted_scopes_elem in Hsc; [done | apply Hb].
Qed.

(** *** A whole operation: update, persist or revert, snapshot *)

Lemma op_outcome b b1 payload :
  breaker_wf b -> breaker_wf b1 -> state_path b1 = state_path b -> file_writes b1 = file_writes b ->
  let '(r, b') := bind (persist_or_revert (tick b)) (fun _ => bind snapshot_m (fun snapshot =>
      ret (d_set "target_scope" (PDict payload) snapshot))) b1 in
  (is_ok r = true /\ (state_path b = None \/ write_fault (file_writes b) = None) /\ attrs b' = attrs b1
   /\ state_file b' = match state_path b with
                      | None => state_file b1
                      | Some _ => Some (Ok (PDict (state_payload b1 (isoformat (clock (clock_reads b1))))))
                      end)
  \/ (exists e, write_fault (file_writes b) = Some e /\ state_path b <> None
      /\ r = Err (RuntimeError ("Failed to persist autonomy circuit breaker state: " +:+ exn_str e))
      /\ attrs b' = attrs (Breaker (state_path b) (restore_status b)
            (normalize_opt (restore_error b)) (active_scopes b) (revision b)
            (updated_at b) (armed_by b) (disarmed_at b) (disarmed_by b) (reason b)
            (request_id b) (state_file b) (clock_reads b) (file_writes b))
      /\ state_file b' = state_file b1).
Proof.
  intros Hb Hb1 Hp Hw.
  assert (breaker_wf (tick b)) as Ht by (by apply (wf_attrs b)).
  pose proof (persist_or_revert_spec (tick b) b1 Ht ltac:(done)) as H.
  unfold bind at 1. destruct (persist_or_revert (tick b) b1) as [r b2].
  rewrite Hp, Hw in H. destruct H as [(-> & Hok & Ha & Hf)|(e & He & Hn & -> & Ha & Hf)].
  - unfold bind, snapshot_m.
    destruct (snapshot_ok b2) as [d ->]; [by apply (wf_attrs b1)|]. by left.
  - simpl. right. by exists e.
Qed.

Lemma op_refines b b1 payload :
  breaker_wf b -> breaker_wf b1 -> state_path b1 = state_path b -> file_writes b1 = file_writes b ->
  let '(r, b') := bind (persist_or_revert (tick b)) (fun _ => bind snapshot_m (fun snapshot =>
      ret (d_set "target_scope" (PDict payload) snapshot))) b1 in
  (is_ok r = true <-> state_path b = None \/ write_fault (file_writes b) = None)
  /\ match r with
     | Ok _ => targets b' = targets b1 /\ revision b' = revision b1
     | Err _ => targets b' = targets b /\ revision b' = revision b
     end.
Proof.
  intros Hb Hb1 Hp Hw. pose proof (op_outcome b b1 payload Hb Hb1 Hp Hw) as H.
  destruct (bind _ _ b1) as [r b'].
  destruct H as [(Hr & Hok & Ha & _)|(e & He & Hn & -> & Ha & _)];
    pose proof (targets_attrs _ _ Ha) as Ht; unfold attrs in Ha; simpl in Ha; simplify_eq.
  - destruct r; [|done]. done.
  - split; [|done]. split; [done|]. intros []; congruence.
Qed.

Inductive reachable : breaker -> Prop :=
  | reach_init path file reads writes :
      reachable (init clock write_fault parse_utc path file reads writes)
  | reach_arm b actor rsn req ty su sa :
      reachable b -> reachable (snd (arm clock write_fault actor rsn req ty su sa b))
  | reach_disarm b actor rsn req ty su sa :
      reachable b -> reachable (snd (disarm clock write_fault actor rsn req ty su sa b)).

Lemma normalize_err_stays {A} b ty su sa e (k : string * option string * option string -> M breaker A) :
  normalize_circuit_breaker_scope ty su sa = Err e ->
  bind (lift (normalize_circuit_breaker_scope ty su sa)) k b = (Err e, b).
Proof. intros H. unfold bind, lift. by rewrite H. Qed.

Definition reverted (b : breaker) : breaker :=
  Breaker (state_path b) (restore_status b) (normalize_opt (restore_error b)) (active_scopes b)
    (revision b) (updated_at b) (armed_by b) (disarmed_at b) (disarmed_by b) (reason b)
    (request_id b) (state_file b) (clock_reads b) (file_writes b).

Lemma reverted_wf b : breaker_wf b -> breaker_wf (reverted b).
Proof. intros []. by constructor. Qed.

Lemma op_wf b b1 payload :
  breaker_wf b -> breaker_wf b1 -> state_path b1 = state_path b -> file_writes b1 = file_writes b ->
  breaker_wf (snd (bind (persist_or_revert (tick b)) (fun _ => bind snapshot_m (fun snapshot =>
      ret (d_set "target_scope" (PDict payload) snapshot))) b1)).
Proof.
  intros Hb Hb1 Hp Hw. pose proof (op_outcome b b1 payload Hb Hb1 Hp Hw) as H.
  destruct (bind _ _ b1) as [r b']. simpl.
  destruct H as [(_ & _ & Ha & _)|(e & _ & _ & _ & Ha & _)]; symmetry in Ha.
  - by apply (wf_attrs _ _ Ha).
  - apply (wf_attrs _ _ Ha). by apply reverted_wf.
Qed.

Lemma arm_wf b actor rsn req ty su sa :
  breaker_wf b -> breaker_wf (snd (arm clock write_fault actor rsn req ty su sa b)).
Proof using clock_range.
  intros Hb. destruct (normalize_circuit_breaker_scope ty su sa) as [[[t u] a]|e] eqn:En.
  - destruct (normalize_shape _ _ _ _ _ _ En) as [tg Hs].
    destruct (arm_run b actor rsn req _ _ _ _ _ _ _ En Hs) as [payload ->].
    apply op_wf; [done| |done..]. by apply arm_state_wf.
  - unfold arm. by rewrite (normalize_err_stays _ _ _ _ _ _ En).
Qed.

Lemma disarm_wf b actor rsn req ty su sa :
  breaker_wf b -> breaker_wf (snd (disarm clock write_fault actor rsn req ty su sa b)).
Proof using clock_range.
  intros Hb. destruct (normalize_circuit_breaker_scope ty su sa) as [[[t u] a]|e] eqn:En.
  - destruct (normalize_shape _ _ _ _ _ _ En) as [tg Hs].
    destruct (disarm_run b actor rsn req _ _ _ _ _ _ _ En Hs) as [payload ->].
    apply op_wf; [done| |done..]. by apply disarm_state_wf.
  - unfold disarm. by rewrite (normalize_err_stays _ _ _ _ _ _ En).
Qed.

(** The breaker a process starts with, before it looks at the file. *)
Definition blank (path : option string) (status : string) (file : file_content) (n w : nat) : breaker :=
  Breaker path status None [] 0 (isoformat (clock n)) None (Some (isoformat (clock n))) None None None
    file (S n) w.

Lemma blank_wf path status file n w : status <> "" -> breaker_wf (blank path status file n w).
Proof using clock_range.
  intros Hs. constructor; simpl; try done; try apply now_ts. apply NoDup_nil_2.
Qed.

Lemma persist_attrs b : attrs (snd (try_except (persist_state_unlocked clock write_fault) (fun _ => ret tt) b)) = attrs b.
Proof.
  unfold try_except, persist_state_unlocked, bind, gets, utc_now_iso, write_state_file.
  destruct (state_path b) eqn:E; [|done]. simpl. by destruct (write_fault _).
Qed.

Lemma restore_from_state_file_wf b :
  breaker_wf b -> breaker_wf (snd (restore_from_state_file clock write_fault parse_utc b)).
Proof using clock_range.
  intros Hb. unfold restore_from_state_file, bind at 1, gets at 1.
  assert (forall b' st, breaker_wf b' -> st <> "" -> breaker_wf (set_restore st b')) as Hset.
  { intros b' st [] Hst. by constructor. }
  destruct (state_file b) as [doc|]; [|by apply Hset].
  unfold bind, gets, utc_now_iso. fold (tick b).
  assert (breaker_wf (tick b)) as Ht by (by apply (wf_attrs b)).
  destruct (res_bind doc _) as [b'|exc] eqn:E; simpl.
  - apply Hset; [|done]. destruct doc as [raw|]; [|done]. simpl in E.
    by eapply restore_from_payload_wf; [apply now_ts| |done].
  - eapply wf_attrs; [symmetry; apply persist_attrs|].
    apply fail_safe_wf, now_ts.
Qed.

Lemma init_wf path file n w : breaker_wf (init clock write_fault parse_utc path file n w).
Proof using clock_range.
  unfold init. destruct path as [path|]; [|by apply blank_wf].
  apply restore_from_state_file_wf. by apply blank_wf.
Qed.

Lemma reachable_wf b : reachable b -> breaker_wf b.
Proof using clock_range. induction 1; auto using init_wf, arm_wf, disarm_wf. Qed.

(** *** Restart *)

Lemma restored_scopes b :
  breaker_wf b ->
  let d := map (fun sc => (sc_key sc, sc)) (sorted_scopes (active_scopes b)) in
  sorted_scopes d = sorted_scopes (active_scopes b)
  /\ length d = length (active_scopes b)
  /\ (forall k, d_get k d = d_get k (active_scopes b)).
Proof.
  intros Hb d. destruct (sorted_scopes_keys b Hb) as [Hk _].
  assert (d_keys d = sort_strings (d_keys (active_scopes b))) as Hkeys.
  { unfold d_keys at 1, d. rewrite <- Hk. unfold fmap. by rewrite map_map. }
  assert (NoDup (d_keys d)) as Hd.
  { rewrite Hkeys. unfold sort_strings. rewrite sort_by_perm. apply Hb. }
  assert (forall k, d_get k d = d_get k (active_scopes b)) as Hget.
  { intros k. apply option_eq. intros sc. split; intros H.
    - apply d_get_elem in H. unfold d in H. apply list_elem_of_fmap in H as (sc' & E & H).
      simplify_eq. apply sorted_scopes_elem in H; [|apply Hb].
      apply list_elem_of_fmap in H as ([k v] & -> & H). simpl.
      pose proof (proj1 (Forall_forall _ _) (bwf_scopes _ Hb) _ H) as Hw.
      simpl in Hw. rewrite <- (swf_entry _ _ _ Hw). apply d_elem_get; [apply Hb | done].
    - apply d_elem_get; [done|]. unfold d. apply list_elem_of_fmap. exists sc.
      apply d_get_elem in H. pose proof (proj1 (Forall_forall _ _) (bwf_scopes _ Hb) _ H) as Hw.
      split; [f_equal; apply (swf_entry _ _ _ Hw)|].
      apply sorted_scopes_elem; [apply Hb|]. apply list_elem_of_fmap. by exists (k, sc). }
  split; [|split; [|done]].
  - unfold sorted_scopes at 1. rewrite Hkeys. unfold sort_strings at 1.
    rewrite sort_by_id by (apply sort_by_sorted; eauto using string_leb_total, string_leb_trans).
    unfold sorted_scopes. apply list_omap_ext.
    apply Forall_Forall2_diag, Forall_forall. auto.
  - rewrite <- (length_fmap fst d), <- (length_fmap fst (active_scopes b)).
    change (length (d_keys d) = length (d_keys (active_scopes b))).
    rewrite Hkeys. apply sort_by_length.
Qed.
Lemma max_scope_revision_le d rev :
  Forall (fun e => sc_revision (snd e) <= rev) d -> max_scope_revision d rev <= rev.
Proof.
  intros H. unfold max_scope_revision, d_values.
  destruct H as [|e d He H]; simpl; [lia|]. revert He. generalize (sc_revision e.2).
  induction H as [|e' d He' H IH]; intros m Hm; simpl; [done|]. apply IH. lia.
Qed.

Lemma restore_payload_roundtrip b b0 ts now :
  breaker_wf b ->
  restore_from_payload_unlocked parse_utc (PDict (state_payload b ts)) now b0
  = Ok (Breaker (state_path b0) (restore_status b0) (restore_error b0)
          (map (fun sc => (sc_key sc, sc)) (sorted_scopes (active_scopes b)))
          (revision b) (updated_at b) (armed_by b) (disarmed_at b) (disarmed_by b) (reason b)
          (request_id b) (state_file b0) (clock_reads b0) (file_writes b0)).
Proof using parse_iso.
  intros Hb. unfold restore_from_payload_unlocked.
  change (get_or "schema_version" _ _) with (PInt 1).
  change (get "revision" (state_payload b ts)) with (PInt (revision b)).
  change (get "updated_at" (state_payload b ts)) with (PStr (updated_at b)).
  change (get "armed_by" (state_payload b ts)) with (pnone_or_str (armed_by b)).
  change (get "disarmed_at" (state_payload b ts)) with (pnone_or_str (disarmed_at b)).
  change (get "disarmed_by" (state_payload b ts)) with (pnone_or_str (disarmed_by b)).
  change (get "reason" (state_payload b ts)) with (pnone_or_str (reason b)).
  change (get "request_id" (state_payload b ts)) with (pnone_or_str (request_id b)).
  change (get "active_scopes" (state_payload b ts)) with
    (PList (map (fun s => PDict (scope_to_payload s)) (sorted_scopes (active_scopes b)))).
  cbn [py_int res_bind]. rewrite Z.eqb_refl. cbn [negb].
  rewrite normalize_timestamp_id by apply Hb. cbn [res_bind default].
  assert (normalize_timestamp parse_utc (pnone_or_str (disarmed_at b)) None = Ok (disarmed_at b)) as ->.
  { pose proof (bwf_disarmed_at _ Hb). destruct (disarmed_at b); [by apply normalize_timestamp_id | done]. }
  cbn [res_bind default].
  destruct (sorted_scopes_keys b Hb) as [Hk Hwf].
  rewrite (restore_scopes_roundtrip _ _ (revision b)); [|done|].
  2: { simpl. rewrite Hk. unfold sort_strings. rewrite sort_by_perm. apply Hb. }
  cbn [app res_bind]. rewrite !normalize_optional_pnone.
  pose proof (bwf_revision _ Hb).
  assert (coerce_non_negative_int (PInt (revision b)) 0 = revision b) as ->
    by (unfold coerce_non_negative_int; simpl; lia).
  rewrite (bwf_armed_by _ Hb), (bwf_disarmed_by _ Hb), (bwf_reason _ Hb), (bwf_request_id _ Hb).
  rewrite Z.max_l; [done|]. apply max_scope_revision_le, Forall_fmap.
  eapply Forall_impl; [done|]. intros sc Hsc. apply Hsc.
Qed.

(** What a restart from the document of [b] recovers. *)
Lemma restart b path ts n w :
  breaker_wf b ->
  let b2 := init clock write_fault parse_utc (Some path) (Some (Ok (PDict (state_payload b ts)))) n w in
  restore_status b2 = "restored" /\ revision b2 = revision b
  /\ (forall k, d_get k (active_scopes b2) = d_get k (active_scopes b))
  /\ (forall user agent, evaluate_run_creation user agent b2 = evaluate_run_creation user agent b).
Proof using parse_iso.
  intros Hb b2. subst b2.
  unfold init, restore_from_state_file, bind, gets, utc_now_iso. cbn [state_file res_bind].
  rewrite restore_payload_roundtrip by done. unfold modify. cbn [snd].
  destruct (restored_scopes b Hb) as (Hs & Hl & Hg).
  split; [done|]. split; [done|]. split; [done|]. intros user agent.
  unfold evaluate_run_creation, matched_scopes_unlocked. simpl. by rewrite Hs, Hl.
Qed.

Lemma restart_after b b1 payload path n w :
  breaker_wf b -> breaker_wf b1 -> state_path b1 = state_path b -> file_writes b1 = file_writes b ->
  state_path b = Some path ->
  let '(r, b') := bind (persist_or_revert (tick b)) (fun _ => bind snapshot_m (fun snapshot =>
      ret (d_set "target_scope" (PDict payload) snapshot))) b1 in
  is_ok r = true ->
  let b2 := init clock write_fault parse_utc (Some path) (state_file b') n w in
  restore_status b2 = "restored" /\ revision b2 = revision b'
  /\ (forall k, d_get k (active_scopes b2) = d_get k (active_scopes b'))
  /\ (forall user agent, evaluate_run_creation user agent b2 = evaluate_run_creation user agent b').
Proof using parse_iso.
  intros Hb Hb1 Hp Hw Hpath. pose proof (op_outcome b b1 payload Hb Hb1 Hp Hw) as H.
  destruct (bind _ _ b1) as [r b']. intros Hr.
  destruct H as [(_ & _ & Ha & Hf)|(e & _ & _ & -> & _)]; [|done].
  rewrite Hpath in Hf. rewrite Hf.
  pose proof (restart b1 path (isoformat (clock (clock_reads b1))) n w Hb1) as (H1 & H2 & H3 & H4).
  destruct b', b1. unfold attrs in Ha. simpl in *. simplify_eq. done.
Qed.

(** ** The properties *)


(** C29. In every state the breaker can reach, from any state file and through
    any sequence of arm and disarm calls, with or without write faults, the
    stored scopes are well formed (normalized target, key of the target,
    real timestamps, revisions at most the global one) and [snapshot()]
    does not raise. *)
Theorem breaker_reachable_wf b :
  reachable b -> breaker_wf b /\ exists d, snapshot_unlocked b = Ok d.
Proof using clock_range.
  intros H. split; [by apply reachable_wf | by apply snapshot_ok, reachable_wf].
Qed.

(** C6. The run-creation verdict refines the set of armed targets: a run is
    blocked exactly when the global target, its user or its agent is armed. *)
Theorem breaker_blocked_iff b user agent :
  reachable b ->
  blocked (evaluate_run_creation user agent b) = true
  <-> stops (targets b) (normalize_opt user) (normalize_opt agent).
Proof using clock_range. intros H. by apply blocked_stops, reachable_wf. Qed.

(** [arm] succeeds exactly when its scope is valid and the state file can
    be written; it then adds that one target to the armed set and increments
    the revision, and on any error it leaves both as they were. *)
Theorem breaker_arm_refines b actor rsn req ty su sa :
  reachable b ->
  let '(r, b') := arm clock write_fault actor rsn req ty su sa b in
  (is_ok r = true <-> is_ok (normalize_circuit_breaker_scope ty su sa) = true
                      /\ (state_path b = None \/ write_fault (file_writes b) = None))
  /\ match r with
     | Ok _ => exists t u a tg, normalize_circuit_breaker_scope ty su sa = Ok (t, u, a)
                 /\ scope_shape t u a tg /\ targets b' = {[ tg ]} ∪ targets b
                 /\ revision b' = revision b + 1
     | Err _ => targets b' = targets b /\ revision b' = revision b
     end.
Proof using clock_range.
  intros Hb%reachable_wf.
  destruct (normalize_circuit_breaker_scope ty su sa) as [[[t u] a]|e] eqn:En.
  - destruct (normalize_shape _ _ _ _ _ _ En) as [tg Hs].
    destruct (arm_run b actor rsn req _ _ _ _ _ _ _ En Hs) as [payload ->].
    destruct (arm_state_wf b t u a tg actor rsn req Hb Hs) as [Hb1 Ht].
    pose proof (op_refines b _ payload Hb Hb1 eq_refl eq_refl) as H.
    destruct (bind _ _ _) as [r b']. destruct H as [Hr H]. split; [naive_solver|].
    destruct r; [|done]. destruct H as [H1 H2]. exists t, u, a, tg.
    by rewrite H1, H2.
  - unfold arm. rewrite (normalize_err_stays _ _ _ _ _ _ En). split; [naive_solver|done].
Qed.

(** [disarm] likewise removes exactly that target from the armed set (it
    may not have been armed) and increments the revision, or changes
    nothing. *)
Theorem breaker_disarm_refines b actor rsn req ty su sa :
  reachable b ->
  let '(r, b') := disarm clock write_fault actor rsn req ty su sa b in
  (is_ok r = true <-> is_ok (normalize_circuit_breaker_scope ty su sa) = true
                      /\ (state_path b = None \/ write_fault (file_writes b) = None))
  /\ match r with
     | Ok _ => exists t u a tg, normalize_circuit_breaker_scope ty su sa = Ok (t, u, a)
                 /\ scope_shape t u a tg /\ targets b' = targets b ∖ {[ tg ]}
                 /\ revision b' = revision b + 1
     | Err _ => targets b' = targets b /\ revision b' = revision b
     end.
Proof using clock_range.
  intros Hb%reachable_wf.
  destruct (normalize_circuit_breaker_scope ty su sa) as [[[t u] a]|e] eqn:En.
  - destruct (normalize_shape _ _ _ _ _ _ En) as [tg Hs].
    destruct (disarm_run b actor rsn req _ _ _ _ _ _ _ En Hs) as [payload ->].
    destruct (disarm_state_wf b tg actor rsn req Hb) as [Hb1 Ht].
    pose proof (op_refines b _ payload Hb Hb1 eq_refl eq_refl) as H.
    destruct (bind _ _ _) as [r b']. destruct H as [Hr H]. split; [naive_solver|].
    destruct r; [|done]. destruct H as [H1 H2]. exists t, u, a, tg.
    by rewrite H1, H2.
  - unfold disarm. rewrite (normalize_err_stays _ _ _ _ _ _ En). split; [naive_solver|done].
Qed.

(** A failed [arm] or [disarm] is atomic: when the state file cannot be
    written (or the scope is invalid) every attribute and the file are what
    they were before the call, except that the text of a startup restore
    error may lose surrounding space. *)
Theorem breaker_failed_update_reverts (op : bool) b actor rsn req ty su sa e b' :
  reachable b ->
  (if op then arm else disarm) clock write_fault actor rsn req ty su sa b = (Err e, b') ->
  (attrs b' = attrs b \/ attrs b' = attrs (reverted b)) /\ state_file b' = state_file b.
Proof using clock_range.
  intros Hb%reachable_wf Hop.
  destruct (normalize_circuit_breaker_scope ty su sa) as [[[t u] a]|e'] eqn:En.
  - destruct (normalize_shape _ _ _ _ _ _ En) as [tg Hs].
    assert (exists b1 payload, breaker_wf b1 /\ state_path b1 = state_path b
      /\ file_writes b1 = file_writes b /\ state_file b1 = state_file b
      /\ bind (persist_or_revert (tick b)) (fun _ => bind snapshot_m (fun snapshot =>
           ret (d_set "target_scope" (PDict payload) snapshot))) b1 = (Err e, b'))
      as (b1 & payload & Hb1 & Hp & Hw & Hf1 & Hrun).
    { destruct op.
      - destruct (arm_run b actor rsn req _ _ _ _ _ _ _ En Hs) as [payload Hr]. rewrite Hr in Hop.
        eexists _, payload. split; [by apply arm_state_wf|]. done.
      - destruct (disarm_run b actor rsn req _ _ _ _ _ _ _ En Hs) as [payload Hr]. rewrite Hr in Hop.
        eexists _, payload. split; [by apply disarm_state_wf|]. done. }
    pose proof (op_outcome b b1 payload Hb Hb1 Hp Hw) as H. rewrite Hrun in H.
    destruct H as [(? & _)|(e' & _ & _ & _ & Ha & Hf)]; [done|]. split; [by right | congruence].
  - destruct op; [unfold arm in Hop | unfold disarm in Hop];
      rewrite (normalize_err_stays _ _ _ _ _ _ En) in Hop; simplify_eq; auto.
Qed.

(** An acknowledged change survives a crash: after a successful [arm] or
    [disarm] of a breaker with a state file, a process restarted from that
    file restores the same scopes and revision and gives every run-creation
    request the same verdict. *)
Theorem breaker_restart_durable (op : bool) b actor rsn req ty su sa path n w :
  reachable b -> state_path b = Some path ->
  let '(r, b') := (if op then arm else disarm) clock write_fault actor rsn req ty su sa b in
  is_ok r = true ->
  let b2 := init clock write_fault parse_utc (Some path) (state_file b') n w in
  restore_status b2 = "restored" /\ revision b2 = revision b'
  /\ (forall k, d_get k (active_scopes b2) = d_get k (active_scopes b'))
  /\ (forall user agent, evaluate_run_creation user agent b2 = evaluate_run_creation user agent b').
Proof using clock_range parse_iso.
  intros Hb%reachable_wf Hpath.
  destruct (normalize_circuit_breaker_scope ty su sa) as [[[t u] a]|e'] eqn:En.
  - destruct (normalize_shape _ _ _ _ _ _ En) as [tg Hs]. destruct op.
    + destruct (arm_run b actor rsn req _ _ _ _ _ _ _ En Hs) as [payload ->].
      apply restart_after; try done. by apply arm_state_wf.
    + destruct (disarm_run b actor rsn req _ _ _ _ _ _ _ En Hs) as [payload ->].
      apply restart_after; try done. by apply disarm_state_wf.
  - destruct op; [unfold arm | unfold disarm]; by rewrite (normalize_err_stays _ _ _ _ _ _ En).
Qed.

(** C27. Fail-safe start: when the state file exists but cannot be read,
    parsed or restored, the breaker starts with the global scope armed, so
    every run creation is blocked. *)
Theorem breaker_fail_safe_start path doc n w user agent :
  (forall now b, is_ok (res_bind doc (fun raw => restore_from_payload_unlocked parse_utc raw now b))
                 = false) ->
  let b := init clock write_fault parse_utc (Some path) (Some doc) n w in
  blocked (evaluate_run_creation user agent b) = true
  /\ restore_status b = "fail_safe_armed" /\ targets b = {[ TGlobal ]}.
Proof using clock_range.
  intros Hbad b.
  assert (attrs b = attrs (fail_safe (isoformat (clock (S n)))
            (match res_bind doc (fun raw => restore_from_payload_unlocked parse_utc raw
               (isoformat (clock (S n))) (tick (blank (Some path) "empty" (Some doc) n w)))
             with Err e => e | Ok _ => ValueError "" end)
            (tick (blank (Some path) "empty" (Some doc) n w)))) as Ha.
  { subst b. unfold init, restore_from_state_file, bind, gets, utc_now_iso. cbn [state_file].
    specialize (Hbad (isoformat (clock (S n))) (tick (blank (Some path) "empty" (Some doc) n w))).
    unfold tick, blank in *. cbn [clock_reads] in *.
    destruct (res_bind doc _) as [b'|exc]; [done|].
    unfold modify. cbn [snd]. by rewrite persist_attrs. }
  assert (targets b = {[ TGlobal ]}) as Ht.
  { rewrite (targets_attrs _ _ Ha). apply fail_safe_wf, now_ts. }
  split; [|split; [|done]].
  - apply blocked_stops; [apply init_wf|]. rewrite Ht. left. set_solver.
  - unfold attrs in Ha. simpl in Ha. by simplify_eq.
Qed.
End ops.

(** ** Concrete runs *)

Definition wclock (n : nat) : Z := 1700000000000000.

Lemma wclock_range n : dt_in_range (wclock n).
Proof. unfold dt_in_range. vm_compute. by split. Qed.

Definition no_fault (n : nat) : option exn := None.
Definition disk_full (n : nat) : option exn := Some (OtherError "OSError" "disk full").

(** A breaker without a state file on disk yet, then with user u1 armed. *)
Definition wb : breaker := init wclock no_fault fromisoformat (Some "state.json") None 0 0.
Definition wb_u1 : breaker :=
  snd (arm wclock no_fault None (Some "drill") None (Some " User ") (Some "u1 ") None wb).
Definition wb_fault : breaker := init wclock disk_full fromisoformat (Some "state.json") None 0 0.

Lemma wb_reachable : reachable wclock no_fault fromisoformat wb.
Proof. apply reach_init. Qed.
Lemma wb_u1_reachable : reachable wclock no_fault fromisoformat wb_u1.
Proof. apply reach_arm, wb_reachable. Qed.

Lemma breaker_reachable_wf_witness :
  breaker_wf wb_u1 /\ exists d, snapshot_unlocked wb_u1 = Ok d.
Proof.
  apply (breaker_reachable_wf wclock no_fault fromisoformat wclock_range).
  apply wb_u1_reachable.
Defined.

Lemma breaker_blocked_iff_witness :
  blocked (evaluate_run_creation (Some " u1") (Some "a9") wb_u1) = true
  /\ stops (targets wb_u1) (Some "u1") (Some "a9").
Proof.
  assert (blocked (evaluate_run_creation (Some " u1") (Some "a9") wb_u1) = true) as H
    by (vm_compute; reflexivity).
  split; [exact H|].
  apply (breaker_blocked_iff wclock no_fault fromisoformat wclock_range
           wb_u1 (Some " u1") (Some "a9") wb_u1_reachable). exact H.
Defined.

Lemma breaker_arm_refines_witness :
  let '(r, b') := arm wclock no_fault None None None (Some "agent") None (Some "a1") wb_u1 in
  (is_ok r = true <-> is_ok (normalize_circuit_breaker_scope (Some "agent") None (Some "a1")) = true
                      /\ (state_path wb_u1 = None \/ no_fault (file_writes wb_u1) = None))
  /\ match r with
     | Ok _ => exists t u a tg, normalize_circuit_breaker_scope (Some "agent") None (Some "a1") = Ok (t, u, a)
                 /\ scope_shape t u a tg /\ targets b' = {[ tg ]} ∪ targets wb_u1
                 /\ revision b' = revision wb_u1 + 1
     | Err _ => targets b' = targets wb_u1 /\ revision b' = revision wb_u1
     end.
Proof.
  apply (breaker_arm_refines wclock no_fault fromisoformat wclock_range
           wb_u1 None None None (Some "agent") None (Some "a1") wb_u1_reachable).
Defined.

Lemma breaker_disarm_refines_witness :
  let '(r, b') := disarm wclock no_fault None None None (Some "user") (Some "u1") None wb_u1 in
  (is_ok r = true <-> is_ok (normalize_circuit_breaker_scope (Some "user") (Some "u1") None) = true
                      /\ (state_path wb_u1 = None \/ no_fault (file_writes wb_u1) = None))
  /\ match r with
     | Ok _ => exists t u a tg, normalize_circuit_breaker_scope (Some "user") (Some "u1") None = Ok (t, u, a)
                 /\ scope_shape t u a tg /\ targets b' = targets wb_u1 ∖ {[ tg ]}
                 /\ revision b' = revision wb_u1 + 1
     | Err _ => targets b' = targets wb_u1 /\ revision b' = revision wb_u1
     end.
Proof.
  apply (breaker_disarm_refines wclock no_fault fromisoformat wclock_range
           wb_u1 None None None (Some "user") (Some "u1") None wb_u1_reachable).
Defined.

Lemma breaker_failed_update_reverts_witness :
  let b' := snd (arm wclock disk_full None None None (Some "global") None None wb_fault) in
  (attrs b' = attrs wb_fault \/ attrs b' = attrs (reverted wb_fault))
  /\ state_file b' = state_file wb_fault.
Proof.
  apply (breaker_failed_update_reverts wclock disk_full fromisoformat wclock_range true wb_fault None None None (Some "global") None None
           (RuntimeError "Failed to persist autonomy circuit breaker state: disk full")).
  - apply reach_init.
  - vm_compute. reflexivity.
Defined.

Lemma breaker_restart_durable_witness :
  let '(r, b') := arm wclock no_fault None None None (Some "agent") None (Some "a1") wb_u1 in
  is_ok r = true ->
  let b2 := init wclock no_fault fromisoformat (Some "state.json") (state_file b') 0 0 in
  restore_status b2 = "restored" /\ revision b2 = revision b'
  /\ (forall k, d_get k (active_scopes b2) = d_get k (active_scopes b'))
  /\ (forall user agent, evaluate_run_creation user agent b2 = evaluate_run_creation user agent b').
Proof.
  apply (breaker_restart_durable wclock no_fault fromisoformat wclock_range
           isoformat_roundtrip true wb_u1 None None None (Some "agent") None (Some "a1")
           "state.json" 0 0 wb_u1_reachable).
  vm_compute. reflexivity.
Defined.

Lemma breaker_fail_safe_start_witness :
  let doc := Ok (PDict [("schema_version", PInt 2)]) in
  let b := init wclock no_fault fromisoformat (Some "state.json") (Some doc) 0 0 in
  blocked (evaluate_run_creation (Some "u1") None b) = true
  /\ restore_status b = "fail_safe_armed" /\ targets b = {[ TGlobal ]}.
Proof.
  apply (breaker_fail_safe_start wclock no_fault fromisoformat wclock_range
           "state.json" (Ok (PDict [("schema_version", PInt 2)])) 0 0 (Some "u1") None).
  intros now b. reflexivity.
Defined.

End CircuitBreakerFacts.
