(* ===== verification/SupervisorData.v ===== *)
(** Data of the supervisor (supervisor/task_graph_manager.py): graphs, nodes,
    the objective gate; building a graph from a request ([create_graph]'s
    normalization, the dependency-cycle check, the gate) and from a stored
    document ([_normalize_loaded_graph]). *)

From stdpp Require Import prelude strings list.
From Stdlib Require Import Lia ZArith Ascii.
From S2P Require Import Prelude PyStr PyVal Effects PyTime.

Module SupervisorData.

Definition SUPERVISOR_GRAPH_STATUSES : list string :=
  ["planned"; "running"; "review_required"; "succeeded"; "failed"; "canceled"].
Definition RUN_ACTIVE_STATUSES : list string := ["queued"; "running"].
Definition RUN_TERMINAL_STATUSES : list string := ["succeeded"; "failed"; "canceled"].
Definition OBJECTIVE_GATE_MODES : list string := ["auto"; "manual"].
Definition OBJECTIVE_GATE_KEYWORD_MATCH : list string := ["any"; "all"].
Definition OBJECTIVE_GATE_ON_FAILURE : list string := ["review_required"; "failed"].
Definition OBJECTIVE_VERIFICATION_STATUSES : list string :=
  ["pending"; "review_required"; "passed"; "failed"; "skipped"].

(** A node of a graph, as [create_graph] and the loader build it. *)

Record node : Type := Node {
  n_node_id : string;
  n_order : Z;
  n_agent_id : string;
  n_message : string;
  n_depends_on : list string;
  n_max_attempts : pyval;
  n_budget : option pydict;
  n_metadata : pydict;
  n_status : string;
  n_run_id : option string;
  n_run_status : option string;
  n_attempts : Z;
  n_created_at : string;
  n_started_at : option string;
  n_completed_at : option string;
  n_last_error : option string }.

(** The normalized objective gate. *)

Record gate : Type := Gate {
  gt_enabled : bool;
  gt_mode : string;
  gt_on_failure : string;
  gt_required_node_ids : list string;
  gt_min_response_chars : Z;
  gt_required_keywords : list string;
  gt_keyword_match : string;
  gt_objective_keywords : list string }.

(** The state of the objective verification. *)

Record verification : Type := Verification {
  v_status : string;
  v_checked_at : option string;
  v_summary : string;
  v_checks : list pydict;
  v_last_failure_reasons : list string;
  v_manual_override : option pydict }.

(** The counters of a graph. *)

Record telemetry : Type := Telemetry {
  t_ticks : Z;
  t_runs_started : Z;
  t_runs_completed : Z;
  t_last_tick_at : option string }.

(** A graph.  [g_extra] holds the keys a stored graph may carry besides
    these (such as [checkpoint_count], which the row decoder adds). *)

Record graph : Type := Graph {
  g_id : string;
  g_user_id : string;
  g_objective : string;
  g_status : string;
  g_created_at : string;
  g_updated_at : string;
  g_launched_at : option string;
  g_finished_at : option string;
  g_default_session_id : option string;
  g_metadata : pydict;
  g_objective_gate : gate;
  g_objective_verification : verification;
  g_nodes : dict node;
  g_timeline : list pydict;
  g_telemetry : telemetry;
  g_extra : pydict }.

(** ** In-place assignment of one key *)

Definition set_n_metadata (v : pydict) (x : node) : node :=
  Node (n_node_id x) (n_order x) (n_agent_id x) (n_message x) (n_depends_on x) (n_max_attempts x) (n_budget x) v (n_status x) (n_run_id x) (n_run_status x) (n_attempts x) (n_created_at x) (n_started_at x) (n_completed_at x) (n_last_error x).
Definition set_n_status (v : string) (x : node) : node :=
  Node (n_node_id x) (n_order x) (n_agent_id x) (n_message x) (n_depends_on x) (n_max_attempts x) (n_budget x) (n_metadata x) v (n_run_id x) (n_run_status x) (n_attempts x) (n_created_at x) (n_started_at x) (n_completed_at x) (n_last_error x).
Definition set_n_run_id (v : option string) (x : node) : node :=
  Node (n_node_id x) (n_order x) (n_agent_id x) (n_message x) (n_depends_on x) (n_max_attempts x) (n_budget x) (n_metadata x) (n_status x) v (n_run_status x) (n_attempts x) (n_created_at x) (n_started_at x) (n_completed_at x) (n_last_error x).
Definition set_n_run_status (v : option string) (x : node) : node :=
  Node (n_node_id x) (n_order x) (n_agent_id x) (n_message x) (n_depends_on x) (n_max_attempts x) (n_budget x) (n_metadata x) (n_status x) (n_run_id x) v (n_attempts x) (n_created_at x) (n_started_at x) (n_completed_at x) (n_last_error x).
Definition set_n_attempts (v : Z) (x : node) : node :=
  Node (n_node_id x) (n_order x) (n_agent_id x) (n_message x) (n_depends_on x) (n_max_attempts x) (n_budget x) (n_metadata x) (n_status x) (n_run_id x) (n_run_status x) v (n_created_at x) (n_started_at x) (n_completed_at x) (n_last_error x).
Definition set_n_started_at (v : option string) (x : node) : node :=
  Node (n_node_id x) (n_order x) (n_agent_id x) (n_message x) (n_depends_on x) (n_max_attempts x) (n_budget x) (n_metadata x) (n_status x) (n_run_id x) (n_run_status x) (n_attempts x) (n_created_at x) v (n_completed_at x) (n_last_error x).
Definition set_n_completed_at (v : option string) (x : node) : node :=
  Node (n_node_id x) (n_order x) (n_agent_id x) (n_message x) (n_depends_on x) (n_max_attempts x) (n_budget x) (n_metadata x) (n_status x) (n_run_id x) (n_run_status x) (n_attempts x) (n_created_at x) (n_started_at x) v (n_last_error x).
Definition set_n_last_error (v : option string) (x : node) : node :=
  Node (n_node_id x) (n_order x) (n_agent_id x) (n_message x) (n_depends_on x) (n_max_attempts x) (n_budget x) (n_metadata x) (n_status x) (n_run_id x) (n_run_status x) (n_attempts x) (n_created_at x) (n_started_at x) (n_completed_at x) v.

Definition set_t_ticks (v : Z) (x : telemetry) : telemetry :=
  Telemetry v (t_runs_started x) (t_runs_completed x) (t_last_tick_at x).
Definition set_t_runs_started (v : Z) (x : telemetry) : telemetry :=
  Telemetry (t_ticks x) v (t_runs_completed x) (t_last_tick_at x).
Definition set_t_runs_completed (v : Z) (x : telemetry) : telemetry :=
  Telemetry (t_ticks x) (t_runs_started x) v (t_last_tick_at x).
Definition set_t_last_tick_at (v : option string) (x : telemetry) : telemetry :=
  Telemetry (t_ticks x) (t_runs_started x) (t_runs_completed x) v.

Definition set_g_status (v : string) (x : graph) : graph :=
  Graph (g_id x) (g_user_id x) (g_objective x) v (g_created_at x) (g_updated_at x) (g_launched_at x) (g_finished_at x) (g_default_session_id x) (g_metadata x) (g_objective_gate x) (g_objective_verification x) (g_nodes x) (g_timeline x) (g_telemetry x) (g_extra x).
Definition set_g_updated_at (v : string) (x : graph) : graph :=
  Graph (g_id x) (g_user_id x) (g_objective x) (g_status x) (g_created_at x) v (g_launched_at x) (g_finished_at x) (g_default_session_id x) (g_metadata x) (g_objective_gate x) (g_objective_verification x) (g_nodes x) (g_timeline x) (g_telemetry x) (g_extra x).
Definition set_g_launched_at (v : option string) (x : graph) : graph :=
  Graph (g_id x) (g_user_id x) (g_objective x) (g_status x) (g_created_at x) (g_updated_at x) v (g_finished_at x) (g_default_session_id x) (g_metadata x) (g_objective_gate x) (g_objective_verification x) (g_nodes x) (g_timeline x) (g_telemetry x) (g_extra x).
Definition set_g_finished_at (v : option string) (x : graph) : graph :=
  Graph (g_id x) (g_user_id x) (g_objective x) (g_status x) (g_created_at x) (g_updated_at x) (g_launched_at x) v (g_default_session_id x) (g_metadata x) (g_objective_gate x) (g_objective_verification x) (g_nodes x) (g_timeline x) (g_telemetry x) (g_extra x).
Definition set_g_default_session_id (v : option string) (x : graph) : graph :=
  Graph (g_id x) (g_user_id x) (g_objective x) (g_status x) (g_created_at x) (g_updated_at x) (g_launched_at x) (g_finished_at x) v (g_metadata x) (g_objective_gate x) (g_objective_verification x) (g_nodes x) (g_timeline x) (g_telemetry x) (g_extra x).
Definition set_g_objective_verification (v : verification) (x : graph) : graph :=
  Graph (g_id x) (g_user_id x) (g_objective x) (g_status x) (g_created_at x) (g_updated_at x) (g_launched_at x) (g_finished_at x) (g_default_session_id x) (g_metadata x) (g_objective_gate x) v (g_nodes x) (g_timeline x) (g_telemetry x) (g_extra x).
Definition set_g_nodes (v : dict node) (x : graph) : graph :=
  Graph (g_id x) (g_user_id x) (g_objective x) (g_status x) (g_created_at x) (g_updated_at x) (g_launched_at x) (g_finished_at x) (g_default_session_id x) (g_metadata x) (g_objective_gate x) (g_objective_verification x) v (g_timeline x) (g_telemetry x) (g_extra x).
Definition set_g_timeline (v : list pydict) (x : graph) : graph :=
  Graph (g_id x) (g_user_id x) (g_objective x) (g_status x) (g_created_at x) (g_updated_at x) (g_launched_at x) (g_finished_at x) (g_default_session_id x) (g_metadata x) (g_objective_gate x) (g_objective_verification x) (g_nodes x) v (g_telemetry x) (g_extra x).
Definition set_g_telemetry (v : telemetry) (x : graph) : graph :=
  Graph (g_id x) (g_user_id x) (g_objective x) (g_status x) (g_created_at x) (g_updated_at x) (g_launched_at x) (g_finished_at x) (g_default_session_id x) (g_metadata x) (g_objective_gate x) (g_objective_verification x) (g_nodes x) (g_timeline x) v (g_extra x).

(** ** Helpers of the module *)

(** [_optional_str(value)] on a text or [None] *)
Definition optional_str (v : option string) : option string := str_or_none (strip (opt_str v)).

(** [_optional_str(str(v or ""))] on a stored value *)
Definition optional_str_of (v : pyval) : option string := str_or_none (norm v).

(** [_safe_int(v, default=default, minimum=0)] *)
Definition safe_int (v : pyval) (default : Z) : Z :=
  let parsed := match py_int v with Ok z => z | Err _ => default end in
  if parsed <? 0 then 0 else parsed.

Definition opt_dict (o : option pydict) : pyval :=
  match o with Some d => PDict d | None => PNone end.

Definition str_list (l : list string) : pyval := PList (map PStr l).

(** [if x not in acc: acc.append(x)] *)
Definition append_new (acc : list string) (x : string) : list string :=
  if str_in x acc then acc else acc ++ [x].

(** ** Graphs as the JSON objects the code shares *)

Definition node_to_dict (n : node) : pydict :=
  [("node_id", PStr (n_node_id n)); ("order", PInt (n_order n));
   ("agent_id", PStr (n_agent_id n)); ("message", PStr (n_message n));
   ("depends_on", str_list (n_depends_on n)); ("max_attempts", n_max_attempts n);
   ("budget", opt_dict (n_budget n)); ("metadata", PDict (n_metadata n));
   ("status", PStr (n_status n)); ("run_id", pnone_or_str (n_run_id n));
   ("run_status", pnone_or_str (n_run_status n)); ("attempts", PInt (n_attempts n));
   ("created_at", PStr (n_created_at n)); ("started_at", pnone_or_str (n_started_at n));
   ("completed_at", pnone_or_str (n_completed_at n)); ("last_error", pnone_or_str (n_last_error n))].

Definition gate_to_dict (g : gate) : pydict :=
  [("enabled", PBool (gt_enabled g)); ("mode", PStr (gt_mode g));
   ("on_failure", PStr (gt_on_failure g)); ("required_node_ids", str_list (gt_required_node_ids g));
   ("min_response_chars", PInt (gt_min_response_chars g));
   ("required_keywords", str_list (gt_required_keywords g));
   ("keyword_match", PStr (gt_keyword_match g));
   ("objective_keywords", str_list (gt_objective_keywords g))].

Definition verification_to_dict (v : verification) : pydict :=
  [("status", PStr (v_status v)); ("checked_at", pnone_or_str (v_checked_at v));
   ("summary", PStr (v_summary v)); ("checks", PList (map PDict (v_checks v)));
   ("last_failure_reasons", str_list (v_last_failure_reasons v));
   ("manual_override", opt_dict (v_manual_override v))].

Definition telemetry_to_dict (t : telemetry) : pydict :=
  [("ticks", PInt (t_ticks t)); ("runs_started", PInt (t_runs_started t));
   ("runs_completed", PInt (t_runs_completed t)); ("last_tick_at", pnone_or_str (t_last_tick_at t))].

Definition graph_to_dict (g : graph) : pydict :=
  [("id", PStr (g_id g)); ("user_id", PStr (g_user_id g)); ("objective", PStr (g_objective g));
   ("status", PStr (g_status g)); ("created_at", PStr (g_created_at g));
   ("updated_at", PStr (g_updated_at g)); ("launched_at", pnone_or_str (g_launched_at g));
   ("finished_at", pnone_or_str (g_finished_at g));
   ("default_session_id", pnone_or_str (g_default_session_id g));
   ("metadata", PDict (g_metadata g)); ("objective_gate", PDict (gate_to_dict (g_objective_gate g)));
   ("objective_verification", PDict (verification_to_dict (g_objective_verification g)));
   ("nodes", PDict (map (fun kn => (fst kn, PDict (node_to_dict (snd kn)))) (g_nodes g)));
   ("timeline", PList (map PDict (g_timeline g)));
   ("telemetry", PDict (telemetry_to_dict (g_telemetry g)))] ++ g_extra g.

Definition graph_keys : list string :=
  ["id"; "user_id"; "objective"; "status"; "created_at"; "updated_at"; "launched_at"; "finished_at";
   "default_session_id"; "metadata"; "objective_gate"; "objective_verification"; "nodes"; "timeline";
   "telemetry"].

(** [_iter_nodes]: the entries of [graph["nodes"]] in the order of ["order"]. *)
Definition iter_nodes (nodes : dict node) : dict node :=
  sort_by (fun a b => n_order (snd a) <=? n_order (snd b)) nodes.

(** [_snapshot]: a deep copy in which the nodes are a list. *)
Definition snapshot (g : graph) : pydict :=
  d_set "nodes" (PList (map (fun kn => PDict (node_to_dict (snd kn))) (iter_nodes (g_nodes g))))
    (graph_to_dict g).

(** ** Reading a node of a request *)

(** The loop over ["depends_on"] of [create_graph]. *)
Definition add_dependency (index : Z) (node_id : string) (acc : list string) (dep_item : pyval) :
    res (list string) :=
  let dep_id := norm dep_item in
  if is_empty dep_id then
    Err (ValueError ("node[" +:+ str_of_Z index +:+ "] has empty dependency reference"))
  else if String.eqb dep_id node_id then
    Err (ValueError ("node[" +:+ str_of_Z index +:+ "] cannot depend on itself"))
  else Ok (append_new acc dep_id).

Definition normalize_depends (index : Z) (node_id : string) (raw_depends : pyval) : res (list string) :=
  match raw_depends with
  | PNone => Ok []
  | PList l => fold_res (add_dependency index node_id) l []
  | _ => Err (ValueError ("node[" +:+ str_of_Z index +:+ "].depends_on must be a list"))
  end.

Definition normalize_attempts (index : Z) (max_attempts : pyval) : res pyval :=
  match max_attempts with
  | PNone => Ok PNone
  | v => res_bind (py_int v) (fun z =>
           if (z <? 1) || (10 <? z)
           then Err (ValueError ("node[" +:+ str_of_Z index +:+ "].max_attempts must be in [1, 10]"))
           else Ok (PInt z))
  end.

(** [x if x is None or isinstance(x, dict) else raise] *)
Definition optional_object (index : Z) (field : string) (v : pyval) : res (option pydict) :=
  match v with
  | PNone => Ok None
  | PDict d => Ok (Some d)
  | _ => Err (ValueError ("node[" +:+ str_of_Z index +:+ "]." +:+ field +:+ " must be an object"))
  end.

(** One turn of the loop over the requested nodes. *)
Definition add_node (now : string) (acc : dict node) (index : Z) (raw : pyval) : res (dict node) :=
  let at_ := "node[" +:+ str_of_Z index +:+ "]" in
  match raw with
  | PDict d =>
      let node_id := strip (py_str (py_or (get "node_id" d) (PStr ("node-" +:+ str_of_Z (index + 1))))) in
      if is_empty node_id then Err (ValueError (at_ +:+ " has empty node_id"))
      else if d_mem node_id acc then Err (ValueError ("duplicate node_id: " +:+ node_id))
      else
        let agent_id := norm (get "agent_id" d) in
        if is_empty agent_id then Err (ValueError (at_ +:+ " is missing agent_id"))
        else
          let message := norm (get "message" d) in
          if is_empty message then Err (ValueError (at_ +:+ " is missing message"))
          else
            res_bind (normalize_depends index node_id (get "depends_on" d)) (fun depends_on =>
            res_bind (normalize_attempts index (get "max_attempts" d)) (fun attempts =>
            res_bind (optional_object index "budget" (get "budget" d)) (fun budget =>
            res_bind (optional_object index "metadata" (get "metadata" d)) (fun metadata =>
              Ok (d_set node_id
                    (Node node_id (index + 1) agent_id message depends_on attempts budget
                       (match metadata with Some m => m | None => [] end)
                       "planned" None None 0 now None None None) acc)))))
  | _ => Err (ValueError (at_ +:+ " must be an object"))
  end.

Fixpoint add_nodes (now : string) (index : Z) (l : list pyval) (acc : dict node) : res (dict node) :=
  match l with
  | [] => Ok acc
  | raw :: l' => res_bind (add_node now acc index raw) (add_nodes now (index + 1) l')
  end.

(** Every dependency names a node of the graph. *)
Definition check_deps_known (nodes : dict node) : res unit :=
  fold_res (fun _ n =>
    fold_res (fun _ dep_id =>
      if d_mem dep_id nodes then Ok tt
      else Err (ValueError ("node '" +:+ n_node_id n +:+ "' depends on unknown node '" +:+ dep_id +:+ "'")))
      (n_depends_on n) tt)
    (d_values nodes) tt.

(** ** [_assert_acyclic]

    The nested [_dfs] with its two sets.  The fuel bounds the depth of the
    Python recursion, and running out of it is Python's [RecursionError]. *)
Definition deps_of (nodes : dict node) (node_id : string) : list string :=
  match d_get node_id nodes with Some n => n_depends_on n | None => [] end.

Fixpoint dfs (fuel : nat) (nodes : dict node) (st : list string * list string) (node_id : string) :
    res (list string * list string) :=
  let '(visiting, visited) := st in
  if str_in node_id visited then Ok st
  else if str_in node_id visiting then
    Err (ValueError ("graph contains dependency cycle at node '" +:+ node_id +:+ "'"))
  else match fuel with
  | O => Err (OtherError "RecursionError" "maximum recursion depth exceeded")
  | S fuel' =>
      res_bind (fold_res (dfs fuel' nodes) (deps_of nodes node_id) (node_id :: visiting, visited))
        (fun '(visiting', visited') =>
           Ok (List.filter (fun x => negb (String.eqb x node_id)) visiting', node_id :: visited'))
  end.

Definition assert_acyclic (nodes : dict node) : res unit :=
  res_bind (fold_res (dfs (S (length nodes)) nodes) (d_keys nodes) ([], [])) (fun _ => Ok tt).

(** ** The objective gate *)

(** [_leaf_node_ids]: the nodes no other node depends on, sorted. *)
Definition count_inbound (inbound : dict Z) (dep_id : string) : dict Z :=
  let dep := strip dep_id in
  if negb (is_empty dep) && d_mem dep inbound
  then d_set dep (match d_get dep inbound with Some c => c | None => 0 end + 1) inbound
  else inbound.

Definition leaf_node_ids (nodes : dict node) : list string :=
  let inbound0 := map (fun k => (k, 0)) (d_keys nodes) in
  let inbound := foldl (fun acc n => foldl count_inbound acc (n_depends_on n)) inbound0 (d_values nodes) in
  sort_strings (map fst (List.filter (fun kc => snd kc =? 0) inbound)).

(** [_objective_keywords(objective, max_keywords=8)] *)
Definition keyword_char (c : ascii) : bool := is_alnum c || Ascii.eqb c "-" || Ascii.eqb c "_".

Definition normalize_keyword (token : string) : string :=
  strip_by (fun c => Ascii.eqb c "-" || Ascii.eqb c "_") (str_filter keyword_char (lower token)).

Fixpoint collect_keywords (max_keywords : nat) (tokens words : list string) : list string :=
  match tokens with
  | [] => words
  | token :: rest =>
      let normalized := normalize_keyword token in
      if (str_len normalized <? 4) || str_in normalized words then collect_keywords max_keywords rest words
      else
        let words' := words ++ [normalized] in
        if (max_keywords <=? length words')%nat then words' else collect_keywords max_keywords rest words'
  end.

Definition objective_keywords (objective : string) : list string :=
  collect_keywords 8 (split_ws objective) [].

(** The loop over ["required_node_ids"] of a requested gate. *)
Definition add_required_node (nodes : dict node) (acc : list string) (item : pyval) : res (list string) :=
  let node_id := norm item in
  if is_empty node_id then Ok acc
  else if negb (d_mem node_id nodes) then
    Err (ValueError ("objective_verification.required_node_ids contains unknown node '"
                     +:+ node_id +:+ "'."))
  else Ok (append_new acc node_id).

(** The loop over ["required_keywords"], shared with the loader. *)
Definition add_keyword (acc : list string) (item : pyval) : list string :=
  let keyword := lower (norm item) in
  if is_empty keyword then acc else append_new acc keyword.

Definition not_allowed (field value : string) (allowed : list string) : exn :=
  ValueError ("Invalid objective_verification." +:+ field +:+ " '" +:+ value +:+ "'. Allowed values: "
              +:+ join ", " (sort_strings allowed) +:+ ".").

Definition normalize_objective_gate (objective : string) (nodes : dict node) (raw_config : pyval) :
    res gate :=
  let config := as_dict raw_config in
  let mode := norm_lower_or "auto" (get "mode" config) in
  if negb (str_in mode OBJECTIVE_GATE_MODES) then Err (not_allowed "mode" mode OBJECTIVE_GATE_MODES)
  else
  let enabled := truthy (get_or "enabled" (PBool true) config) in
  let keyword_match := norm_lower_or "any" (get "keyword_match" config) in
  if negb (str_in keyword_match OBJECTIVE_GATE_KEYWORD_MATCH) then
    Err (not_allowed "keyword_match" keyword_match OBJECTIVE_GATE_KEYWORD_MATCH)
  else
  let on_failure := norm_lower_or "review_required" (get "on_failure" config) in
  if negb (str_in on_failure OBJECTIVE_GATE_ON_FAILURE) then
    Err (not_allowed "on_failure" on_failure OBJECTIVE_GATE_ON_FAILURE)
  else
  let min_response_chars := safe_int (get "min_response_chars" config) 0 in
  if 20000 <? min_response_chars then
    Err (ValueError "objective_verification.min_response_chars exceeds max value (20000).")
  else
  res_bind (match get "required_node_ids" config with
            | PList l => fold_res (add_required_node nodes) l []
            | _ => Ok (leaf_node_ids nodes)
            end) (fun ids =>
  let required_node_ids := match ids with [] => leaf_node_ids nodes | _ => ids end in
  let required_keywords := foldl add_keyword [] (as_list (get "required_keywords" config)) in
  Ok (Gate enabled mode on_failure required_node_ids min_response_chars required_keywords
        keyword_match (objective_keywords objective))).

Definition initial_verification : verification :=
  Verification "pending" None "Objective verification pending." [] [] None.

(** ** [_normalize_loaded_graph] *)

Definition load_depends (v : pyval) : list string :=
  foldl (fun acc dep => let dep_id := norm dep in
                        if is_empty dep_id then acc else append_new acc dep_id) [] (as_list v).

(** One turn of the loop over the stored nodes; [index] counts from 0. *)
Definition load_node (graph_created_at : string) (acc : dict node) (index : Z) (nd : pydict) : dict node :=
  let node_id := strip (py_str (py_or (get "node_id" nd) (PStr ("node-" +:+ str_of_Z (index + 1))))) in
  if is_empty node_id then acc
  else if d_mem node_id acc then acc
  else
    let parsed := match py_int (get "order" nd) with Ok z => z | Err _ => index + 1 end in
    let order := if parsed <=? 0 then index + 1 else parsed in
    d_set node_id
      (Node node_id order (norm (get "agent_id" nd)) (norm (get "message" nd))
         (load_depends (get "depends_on" nd)) (get "max_attempts" nd)
         (match get "budget" nd with PDict b => Some b | _ => None end)
         (as_dict (get "metadata" nd))
         (norm_lower_or "planned" (get "status" nd))
         (optional_str_of (get "run_id" nd)) (optional_str_of (get "run_status" nd))
         (safe_int (get "attempts" nd) 0)
         (py_str (py_or (get "created_at" nd) (PStr graph_created_at)))
         (optional_str_of (get "started_at" nd)) (optional_str_of (get "completed_at" nd))
         (optional_str_of (get "last_error" nd))) acc.

Fixpoint load_nodes (graph_created_at : string) (index : Z) (rows : list pydict) (acc : dict node) : dict node :=
  match rows with
  | [] => acc
  | nd :: rows' => load_nodes graph_created_at (index + 1) rows' (load_node graph_created_at acc index nd)
  end.

(** The objects among some values. *)
Definition dicts (l : list pyval) : list pydict :=
  omap (fun v => match v with PDict d => Some d | _ => None end) l.

Definition node_rows (raw_nodes : pyval) : list pydict :=
  match raw_nodes with
  | PDict d => dicts (d_values d)
  | PList l => dicts l
  | _ => []
  end.

(** [x if x in allowed else default] *)
Definition one_of (allowed : list string) (default x : string) : string :=
  if str_in x allowed then x else default.

(** The loop over the stored ["required_node_ids"]. *)
Definition load_required_node (node_map : dict node) (acc : list string) (item : pyval) : list string :=
  let node_id := norm item in
  if negb (is_empty node_id) && d_mem node_id node_map then append_new acc node_id else acc.

Definition load_gate (objective : string) (node_map : dict node) (gate_raw : pydict) : gate :=
  let mode := one_of OBJECTIVE_GATE_MODES "auto" (norm_lower_or "auto" (get "mode" gate_raw)) in
  let on_failure := one_of OBJECTIVE_GATE_ON_FAILURE "review_required"
                      (norm_lower_or "review_required" (get "on_failure" gate_raw)) in
  let keyword_match := one_of OBJECTIVE_GATE_KEYWORD_MATCH "any"
                         (norm_lower_or "any" (get "keyword_match" gate_raw)) in
  let ids := foldl (load_required_node node_map) [] (as_list (get "required_node_ids" gate_raw)) in
  let required_node_ids := match ids with [] => sort_strings (d_keys node_map) | _ => ids end in
  let required_keywords := foldl add_keyword [] (as_list (get "required_keywords" gate_raw)) in
  let kws := foldl add_keyword [] (as_list (get "objective_keywords" gate_raw)) in
  Gate (truthy (get_or "enabled" (PBool true) gate_raw)) mode on_failure required_node_ids
    (safe_int (get "min_response_chars" gate_raw) 0) required_keywords keyword_match
    (match kws with [] => objective_keywords objective | _ => kws end).

Definition load_verification (raw : pydict) : verification :=
  Verification
    (one_of OBJECTIVE_VERIFICATION_STATUSES "pending" (norm_lower_or "pending" (get "status" raw)))
    (optional_str_of (get "checked_at" raw))
    (str_or (norm (get "summary" raw)) "Objective verification pending.")
    (dicts (as_list (get "checks" raw)))
    (List.filter (fun s => negb (is_empty s))
       (map (fun v => strip (py_str v)) (as_list (get "last_failure_reasons" raw))))
    (match get "manual_override" raw with PDict d => Some d | _ => None end).

Definition load_telemetry (raw : pydict) : telemetry :=
  Telemetry (safe_int (get "ticks" raw) 0) (safe_int (get "runs_started" raw) 0)
    (safe_int (get "runs_completed" raw) 0) (optional_str_of (get "last_tick_at" raw)).

(** The whole loader; [now] is what [_utcnow_iso()] answers if the stored
    graph has no creation time. *)
Definition normalize_loaded_graph (now : string) (raw : pydict) : graph :=
  let objective := norm (get "objective" raw) in
  let created_at := py_str (py_or (get "created_at" raw) (PStr now)) in
  let node_map := load_nodes created_at 0 (node_rows (get "nodes" raw)) [] in
  Graph (norm (get "id" raw)) (norm (get "user_id" raw)) objective
    (one_of SUPERVISOR_GRAPH_STATUSES "planned" (norm_lower_or "planned" (get "status" raw)))
    created_at
    (py_str (py_or (get "updated_at" raw) (PStr created_at)))
    (optional_str_of (get "launched_at" raw)) (optional_str_of (get "finished_at" raw))
    (optional_str_of (get "default_session_id" raw))
    (as_dict (get "metadata" raw))
    (load_gate objective node_map (as_dict (get "objective_gate" raw)))
    (load_verification (as_dict (get "objective_verification" raw)))
    node_map
    (dicts (as_list (get "timeline" raw)))
    (load_telemetry (as_dict (get "telemetry" raw)))
    (List.filter (fun kv => negb (str_in (fst kv) graph_keys)) raw).

End SupervisorData.
