(* ===== verification/Supervisor.v ===== *)
(** The supervisor (supervisor/task_graph_manager.py,
    [SupervisorTaskGraphManager]): creating, launching, ticking, verifying,
    listing and evicting task graphs, against the interfaces of the agent
    manager and of the graph store.

    A method is a computation over the manager's state.  The helpers that
    receive [graph] and mutate it run over one graph and the environment; the
    graph goes back into the manager's dictionary whether the helper returns
    or raises, as the shared object would. *)

From stdpp Require Import prelude strings list.
From Stdlib Require Import Lia ZArith Ascii.
From S2P Require Import Prelude PyStr PyVal Effects PyTime SupervisorData.
Import SupervisorData.

Module Supervisor.

(** ** Interfaces *)

(** The keyword arguments of [agent_manager.create_run]. *)
Record run_kwargs : Type := RunKwargs {
  rk_agent_id : string;
  rk_user_message : string;
  rk_user_id : string;
  rk_session_id : option string;
  rk_max_attempts : pyval;
  rk_budget : option pydict }.

(** What the supervisor calls of the agent manager; [run_source] is passed or
    left out. *)
Class AgentManager (AM : Type) : Type := {
  am_create_run : run_kwargs -> option string -> AM -> res pyval * AM;
  am_get_run : string -> AM -> res pyval * AM }.

(** The arguments of [database.upsert_supervisor_graph]. *)
Record graph_row : Type := GraphRow {
  r_graph_id : string;
  r_user_id : string;
  r_status : string;
  r_objective : string;
  r_graph : pydict;
  r_checkpoint_count : Z;
  r_created_at : string;
  r_updated_at : string;
  r_launched_at : option string;
  r_finished_at : option string }.

Class GraphStore (DB : Type) : Type := {
  db_upsert_supervisor_graph : graph_row -> DB -> res unit * DB;
  db_delete_supervisor_graph : string -> DB -> res bool * DB;
  db_list_supervisor_graphs : Z -> DB -> res (list pyval) * DB }.

Record config : Type := Config {
  max_graphs : Z;
  max_nodes_per_graph : Z;
  has_emitter : bool }.

Section supervisor.
Context {AM : Type} {HAM : AgentManager AM} {DB : Type} {HDB : GraphStore DB}.
(** The [n]-th reading of the clock and the [n]-th [uuid4().hex]. *)
Context (clock : nat -> Z) (uuid : nat -> string) (cfg : config).

(** Everything outside the graphs: clock and uuid positions, the agent
    manager, the database (if any) and the telemetry emitted so far. *)
Record env : Type := Env {
  e_clock : nat;
  e_uuid : nat;
  e_am : AM;
  e_db : option DB;
  e_telemetry : list (string * pydict) }.

(** One graph being mutated, and the environment. *)
Record gstate : Type := GState { gs_graph : graph; gs_env : env }.

(** The manager. *)
Record manager : Type := Manager { m_graphs : dict graph; m_env : env }.

Definition set_am (am : AM) (e : env) : env := Env (e_clock e) (e_uuid e) am (e_db e) (e_telemetry e).
Definition set_db (db : option DB) (e : env) : env := Env (e_clock e) (e_uuid e) (e_am e) db (e_telemetry e).

(** *** The environment of a helper *)

Definition env_now : M env string := fun e =>
  (Ok (isoformat (clock (e_clock e))),
   Env (S (e_clock e)) (e_uuid e) (e_am e) (e_db e) (e_telemetry e)).

(** The telemetry callback, when one is configured. *)
Definition env_emit (event : string) (payload : pydict) : M env unit := fun e =>
  (Ok tt, if has_emitter cfg
          then Env (e_clock e) (e_uuid e) (e_am e) (e_db e) (e_telemetry e ++ [(event, payload)])
          else e).

Definition env_create_run (kw : run_kwargs) (run_source : option string) : M env pyval := fun e =>
  let '(r, am) := am_create_run kw run_source (e_am e) in (r, set_am am e).

Definition env_get_run (run_id : string) : M env pyval := fun e =>
  let '(r, am) := am_get_run run_id (e_am e) in (r, set_am am e).

(** A computation on the environment, under the graph being mutated. *)
Definition on_env {A} (m : M env A) : M gstate A := fun s =>
  let '(r, e) := m (gs_env s) in (r, GState (gs_graph s) e).

Definition the_graph : M gstate graph := gets gs_graph.
Definition upd (f : graph -> graph) : M gstate unit :=
  modify (fun s => GState (f (gs_graph s)) (gs_env s)).

Definition utcnow_iso : M gstate string := on_env env_now.

(** [node[...] = ...] on the node stored under [k] *)
Definition upd_node (k : string) (f : node -> node) : M gstate unit :=
  upd (fun g => match d_get k (g_nodes g) with
                | Some n => set_g_nodes (d_set k (f n) (g_nodes g)) g
                | None => g
                end).

(** *** [_append_timeline] *)
Definition append_timeline (event : string) (payload : pydict) : M gstate unit :=
  let* at_ := utcnow_iso in
  upd (fun g =>
    let timeline := g_timeline g ++
      [[("event", PStr (str_or (strip event) "supervisor_event")); ("at", PStr at_);
        ("payload", PDict payload)]] in
    set_g_timeline (drop (Z.to_nat (Z.of_nat (length timeline) - 10000)) timeline) g) ;;;
  let* now := utcnow_iso in
  upd (set_g_updated_at now) ;;;
  let* g := the_graph in
  on_env (env_emit "supervisor_graph_event"
    [("graph_id", PStr (g_id g)); ("event", PStr event); ("status", PStr (g_status g))]).

(** [_inc_graph_counter] *)
Definition inc_runs_completed : M gstate unit :=
  upd (fun g => set_g_telemetry
         (set_t_runs_completed (t_runs_completed (g_telemetry g) + 1) (g_telemetry g)) g).
Definition inc_runs_started : M gstate unit :=
  upd (fun g => set_g_telemetry
         (set_t_runs_started (t_runs_started (g_telemetry g) + 1) (g_telemetry g)) g).

(** [_node_by_id(graph, dep_id)] and its ["status"] *)
Definition node_by_id (nodes : dict node) (node_id : string) : res node :=
  match d_get node_id nodes with
  | Some n => Ok n
  | None => Err (ValueError ("graph refers to unknown node '" +:+ node_id +:+ "'"))
  end.

(** [any(status of dep != "succeeded" for dep in dependencies)], which stops
    at the first such dependency. *)
Fixpoint any_not_succeeded (nodes : dict node) (deps : list string) : res bool :=
  match deps with
  | [] => Ok false
  | d :: deps' =>
      res_bind (node_by_id nodes d) (fun n =>
        if negb (String.eqb (n_status n) "succeeded") then Ok true
        else any_not_succeeded nodes deps')
  end.

Definition opt_actor (v : option string) : pyval := pnone_or_str (optional_str v).

(** *** [_schedule_ready_nodes] *)

Definition create_kwargs (g : graph) (n : node) : run_kwargs :=
  RunKwargs (n_agent_id n) (n_message n) (g_user_id g) (g_default_session_id g)
    (n_max_attempts n) (n_budget n).

(** The call of [create_run], retried without [run_source] for an adapter
    that does not accept it. *)
Definition call_create_run (kw : run_kwargs) : M env pyval :=
  try_except (env_create_run kw (Some "supervisor")) (fun exc =>
    match exc with
    | TypeError message =>
        if substr_in "run_source" message && substr_in "unexpected keyword argument" message
        then env_create_run kw None
        else raise exc
    | _ => raise exc
    end).

Definition clear_breaker_marks (n : node) : node :=
  set_n_metadata (d_pop "autonomy_circuit_breaker_blocked"
                   (d_pop "autonomy_circuit_breaker_last_blocked_revision" (n_metadata n))) n.

(** The assignments to the node once its run exists. *)
Definition start_node (run_id run_status now : string) (n : node) : node :=
  let n1 := set_n_started_at (Some now) (set_n_attempts (n_attempts n + 1)
              (set_n_run_status (Some run_status) (set_n_run_id (Some run_id)
                (clear_breaker_marks n)))) in
  if str_in run_status RUN_ACTIVE_STATUSES then
    set_n_last_error None (set_n_completed_at None (set_n_status run_status n1))
  else if String.eqb run_status "succeeded" then
    set_n_last_error None (set_n_completed_at (Some now) (set_n_status "succeeded" n1))
  else if String.eqb run_status "canceled" then
    set_n_last_error (Some "child run canceled") (set_n_completed_at (Some now) (set_n_status "canceled" n1))
  else
    set_n_last_error (Some "child run failed") (set_n_completed_at (Some now) (set_n_status "failed" n1)).

Definition known_run_status (s : string) : bool :=
  str_in s (RUN_ACTIVE_STATUSES ++ RUN_TERMINAL_STATUSES).

(** The body of the [try]. *)
Definition start_run (k node_id : string) (kw : run_kwargs) (request_id actor : option string) : M gstate unit :=
  let* run := on_env (call_create_run kw) in
  match run with
  | PDict d =>
      let run_id := norm (get "id" d) in
      raise_if (is_empty run_id) (ValueError "agent_manager.create_run returned empty run id") ;;;
      let run_status0 := norm_lower_or "queued" (get "status" d) in
      let run_status := if known_run_status run_status0 then run_status0 else "queued" in
      let* now := utcnow_iso in
      upd_node k (start_node run_id run_status now) ;;;
      when (String.eqb run_status "succeeded") inc_runs_completed ;;;
      inc_runs_started ;;;
      let* g := the_graph in
      append_timeline "node_run_created"
        [("graph_id", PStr (g_id g)); ("node_id", PStr node_id); ("run_id", PStr run_id);
         ("run_status", PStr run_status); ("actor", opt_actor actor); ("request_id", opt_actor request_id)]
  | _ => raise (ValueError "agent_manager.create_run returned invalid payload")
  end.

(** The first of the two candidates that reads as a non-negative integer. *)
Definition blocked_revision (decision snapshot : pydict) : option Z :=
  let ok v := match py_int v with Ok z => if 0 <=? z then Some z else None | Err _ => None end in
  match ok (get "revision" decision) with
  | Some z => Some z
  | None => ok (get "revision" snapshot)
  end.

(** Whether the blocked node was already reported, and its metadata after. *)
Definition blocked_marks (revision : option Z) (metadata : pydict) : bool * pydict :=
  match revision with
  | Some rev =>
      let emit := match py_int (get "autonomy_circuit_breaker_last_blocked_revision" metadata) with
                  | Ok prev => negb (prev =? rev)
                  | Err _ => true
                  end in
      (emit, d_set "autonomy_circuit_breaker_last_blocked_revision" (PInt rev) metadata)
  | None =>
      (negb (truthy (get "autonomy_circuit_breaker_blocked" metadata)),
       d_set "autonomy_circuit_breaker_blocked" (PBool true) metadata)
  end.

Definition handle_blocked (k : string) (msg : string) (decision : pydict) (matched : list pydict)
    (snap : pydict) (request_id actor : option string) : M gstate unit :=
  let* g := the_graph in
  match d_get k (g_nodes g) with
  | None => ret tt
  | Some n =>
      let '(emit, metadata) := blocked_marks (blocked_revision decision snap) (n_metadata n) in
      upd_node k (fun n =>
        set_n_last_error (Some msg) (set_n_completed_at None (set_n_started_at None
          (set_n_status "planned" (set_n_run_status None (set_n_metadata metadata n)))))) ;;;
      when emit (append_timeline "node_run_blocked_autonomy_circuit_breaker"
        [("graph_id", PStr (g_id g)); ("node_id", PStr (n_node_id n)); ("agent_id", PStr (n_agent_id n));
         ("matched_scopes", PList (map PDict matched)); ("autonomy_circuit_breaker", PDict snap);
         ("error", PStr msg); ("actor", opt_actor actor); ("request_id", opt_actor request_id)])
  end.

Definition handle_create_failed (k node_id : string) (exc : exn) (request_id actor : option string) : M gstate unit :=
  let* now := utcnow_iso in
  upd_node k (fun n => set_n_last_error (Some (exn_str exc)) (set_n_completed_at (Some now)
                (set_n_status "failed" (set_n_run_status (Some "failed") n)))) ;;;
  let* g := the_graph in
  append_timeline "node_run_create_failed"
    [("graph_id", PStr (g_id g)); ("node_id", PStr node_id); ("error", PStr (exn_str exc));
     ("actor", opt_actor actor); ("request_id", opt_actor request_id)].

(** One turn of the loop: the node is planned, has no run, and every
    dependency succeeded, or it is passed over. *)
Definition schedule_node (request_id actor : option string) (k : string) : M gstate unit :=
  let* g := the_graph in
  match d_get k (g_nodes g) with
  | None => ret tt
  | Some n =>
      if negb (String.eqb (n_status n) "planned") then ret tt
      else if negb (is_empty (strip (opt_str (n_run_id n)))) then ret tt
      else
        let* waiting := lift (any_not_succeeded (g_nodes g) (n_depends_on n)) in
        if waiting then ret tt
        else
          try_except (start_run k (n_node_id n) (create_kwargs g n) request_id actor) (fun exc =>
            match exc with
            | BreakerBlockedError msg decision matched snap =>
                handle_blocked k msg decision matched snap request_id actor
            | _ => handle_create_failed k (n_node_id n) exc request_id actor
            end)
  end.

Definition schedule_ready_nodes (request_id actor : option string) : M gstate unit :=
  let* g := the_graph in
  if negb (str_in (g_status g) ["planned"; "running"]) then ret tt
  else for_each (d_keys (iter_nodes (g_nodes g))) (schedule_node request_id actor).

(** *** [_refresh_node_from_run] *)

(** [_extract_run_error] *)
Definition error_text (v : pyval) : option string :=
  match v with PStr s => str_or_none (strip s) | _ => None end.

Definition extract_run_error (run : pydict) : option string :=
  match (match get "result" run with PDict r => error_text (get "error" r) | _ => None end) with
  | Some e => Some e
  | None => error_text (get "error" run)
  end.

Definition refresh_node_from_run (request_id actor : option string) (k : string) : M gstate unit :=
  let* g := the_graph in
  match d_get k (g_nodes g) with
  | None => ret tt
  | Some n =>
      let run_id := strip (opt_str (n_run_id n)) in
      let common := [("actor", opt_actor actor); ("request_id", opt_actor request_id)] in
      if is_empty run_id then ret tt
      else
        let* outcome := on_env (fun e => let '(r, e') := env_get_run run_id e in (Ok r, e')) in
        match outcome with
        | Err exc =>
            let* now := utcnow_iso in
            upd_node k (fun n => set_n_last_error (Some (exn_str exc)) (set_n_completed_at (Some now)
                          (set_n_status "failed" (set_n_run_status (Some "failed") n)))) ;;;
            append_timeline "node_run_refresh_failed"
              ([("graph_id", PStr (g_id g)); ("node_id", PStr (n_node_id n)); ("run_id", PStr run_id);
                ("error", PStr (exn_str exc))] ++ common)
        | Ok (PDict run) =>
            let run_status := lower (norm (get "status" run)) in
            if negb (known_run_status run_status) then ret tt
            else
              let previous_status := n_status n in
              upd_node k (set_n_run_status (Some run_status)) ;;;
              let* now := utcnow_iso in
              if str_in run_status RUN_ACTIVE_STATUSES then
                upd_node k (fun n =>
                  let n' := set_n_status run_status n in
                  if is_empty (strip (opt_str (n_started_at n'))) then set_n_started_at (Some now) n' else n')
              else if String.eqb run_status "succeeded" then
                upd_node k (fun n => set_n_last_error None (set_n_completed_at (Some now)
                              (set_n_status "succeeded" n))) ;;;
                when (negb (String.eqb previous_status "succeeded")) inc_runs_completed ;;;
                append_timeline "node_succeeded"
                  ([("graph_id", PStr (g_id g)); ("node_id", PStr (n_node_id n)); ("run_id", PStr run_id)] ++ common)
              else
                let canceled := String.eqb run_status "canceled" in
                let error := if canceled then "child run canceled"
                             else match extract_run_error run with Some e => e | None => "child run failed" end in
                upd_node k (fun n => set_n_last_error (Some error) (set_n_completed_at (Some now)
                              (set_n_status (if canceled then "canceled" else "failed") n))) ;;;
                append_timeline (if canceled then "node_canceled" else "node_failed")
                  ([("graph_id", PStr (g_id g)); ("node_id", PStr (n_node_id n)); ("run_id", PStr run_id);
                    ("error", PStr error)] ++ common)
        | Ok _ => ret tt
        end
  end.

(** *** [_mark_blocked_nodes] *)

Fixpoint dep_statuses (nodes : dict node) (deps : list string) : res (list string) :=
  match deps with
  | [] => Ok []
  | d :: deps' =>
      res_bind (node_by_id nodes d) (fun n =>
      res_bind (dep_statuses nodes deps') (fun l => Ok (n_status n :: l)))
  end.

Definition mark_blocked_node (request_id actor : option string) (k : string) : M gstate unit :=
  let* g := the_graph in
  match d_get k (g_nodes g) with
  | None => ret tt
  | Some n =>
      if negb (String.eqb (n_status n) "planned") then ret tt
      else match n_depends_on n with
      | [] => ret tt
      | deps =>
          let* statuses := lift (dep_statuses (g_nodes g) deps) in
          if negb (existsb (fun s => str_in s ["failed"; "canceled"; "blocked"]) statuses) then ret tt
          else
            let* now := utcnow_iso in
            upd_node k (fun n => set_n_last_error (Some "dependency failed or canceled")
               (set_n_completed_at (Some now) (set_n_run_status None (set_n_status "blocked" n)))) ;;;
            append_timeline "node_blocked"
              [("graph_id", PStr (g_id g)); ("node_id", PStr (n_node_id n));
               ("dependency_statuses", str_list statuses); ("actor", opt_actor actor);
               ("request_id", opt_actor request_id)]
      end
  end.

Definition mark_blocked_nodes (request_id actor : option string) : M gstate unit :=
  let* g := the_graph in
  for_each (d_keys (iter_nodes (g_nodes g))) (mark_blocked_node request_id actor).

(** *** [_evaluate_objective_gate] *)

(** [_extract_run_response_text] *)
Definition extract_run_response_text (run : pydict) : string :=
  let candidates := get "response" run ::
    match get "result" run with
    | PDict r => [get "response" r; get "output" r; get "summary" r]
    | _ => []
    end in
  match List.filter (fun s => negb (is_empty s)) (map norm candidates) with
  | [] => ""
  | s :: _ => s
  end.

(** The accumulators of the loop over the required nodes. *)
Record gate_acc : Type := GateAcc {
  ga_checks : list pydict;
  ga_failures : list string;
  ga_responses : dict string }.

Definition node_check (node_id : string) (passed : bool) (reason : string) : pydict :=
  [("kind", PStr "required_node_succeeded"); ("node_id", PStr node_id); ("passed", PBool passed);
   ("reason", PStr reason)].

Definition fail_check (acc : gate_acc) (node_id reason failure : string) : gate_acc :=
  GateAcc (ga_checks acc ++ [node_check node_id false reason])
    (ga_failures acc ++ ["required node '" +:+ node_id +:+ "' " +:+ failure]) (ga_responses acc).

Definition pass_check (min_chars : Z) (acc : gate_acc) (node_id response : string) : gate_acc :=
  let checks := ga_checks acc ++ [node_check node_id true ""] in
  let responses := d_set node_id response (ga_responses acc) in
  if 0 <? min_chars then
    let response_len := str_len (strip response) in
    let passed := min_chars <=? response_len in
    let too_short := "response too short: " +:+ str_of_Z response_len +:+ " chars" in
    GateAcc (checks ++
       [[("kind", PStr "min_response_chars"); ("node_id", PStr node_id); ("min", PInt min_chars);
         ("actual", PInt response_len); ("passed", PBool passed);
         ("reason", PStr (if passed then "" else too_short))]])
      (if passed then ga_failures acc
       else ga_failures acc ++ ["required node '" +:+ node_id +:+ "' response is shorter than "
                                +:+ str_of_Z min_chars +:+ " chars"])
      responses
  else GateAcc checks (ga_failures acc) responses.

(** One turn of the loop over the required nodes. *)
Definition check_required (nodes : dict node) (min_chars : Z) (acc : gate_acc) (node_id : string) :
    M env gate_acc :=
  match d_get node_id nodes with
  | None => ret (fail_check acc node_id "node is missing" "is missing from graph")
  | Some n =>
      let run_id := strip (opt_str (n_run_id n)) in
      if negb (String.eqb (n_status n) "succeeded") then
        ret (fail_check acc node_id ("node status is '" +:+ n_status n +:+ "'") "is not succeeded")
      else if is_empty run_id then ret (fail_check acc node_id "missing run_id" "has no run_id")
      else
        let* outcome := (fun e => let '(r, e') := env_get_run run_id e in (Ok r, e')) in
        match outcome with
        | Err exc => ret (fail_check acc node_id (exn_str exc) "run lookup failed")
        | Ok (PDict run) => ret (pass_check min_chars acc node_id (extract_run_response_text run))
        | Ok _ => ret (fail_check acc node_id "run payload is invalid" "run payload is invalid")
        end
  end.

Fixpoint check_all_required (nodes : dict node) (min_chars : Z) (ids : list string) (acc : gate_acc) :
    M env gate_acc :=
  match ids with
  | [] => ret acc
  | id :: ids' =>
      let* acc' := check_required nodes min_chars acc id in check_all_required nodes min_chars ids' acc'
  end.

(** A response is joined to the next one with a line feed. *)
Definition newline : string := String (ascii_of_N 10) "".

Definition check_keywords (keywords : list string) (keyword_match : string) (acc : gate_acc) : gate_acc :=
  match keywords with
  | [] => acc
  | _ =>
      let combined := lower (strip (join newline (d_values (ga_responses acc)))) in
      let matched := List.filter (fun kw => substr_in kw combined) keywords in
      let passed := if String.eqb keyword_match "all" then (length matched =? length keywords)%nat
                    else match matched with [] => false | _ => true end in
      GateAcc (ga_checks acc ++
        [[("kind", PStr "required_keywords"); ("required_keywords", str_list keywords);
          ("keyword_match", PStr keyword_match); ("matched_keywords", str_list matched);
          ("passed", PBool passed);
          ("reason", PStr (if passed then "" else "required keywords not found in node responses"))]])
        (if passed then ga_failures acc
         else ga_failures acc ++ ["required objective keywords not found in node responses"])
        (ga_responses acc)
  end.

Definition visible (l : list string) : list string := List.filter (fun s => negb (is_empty s)) (map strip l).

(** The verdict on the accumulated checks. *)
Definition gate_verdict (gt : gate) (failures : list string) : string * string :=
  let mode := norm_lower_or "auto" (PStr (gt_mode gt)) in
  let on_failure := one_of OBJECTIVE_GATE_ON_FAILURE "review_required"
                      (norm_lower_or "review_required" (PStr (gt_on_failure gt))) in
  match failures with
  | _ :: _ => (if String.eqb on_failure "failed" then "failed" else "review_required",
               "Objective verification failed.")
  | [] => if String.eqb mode "manual"
          then ("review_required", "Objective checks passed. Manual verification required.")
          else ("passed", "Objective verification passed.")
  end.

Definition evaluate_objective_gate (request_id actor : option string) : M gstate unit :=
  let* g := the_graph in
  let gt := g_objective_gate g in
  if negb (gt_enabled gt) then
    let* now := utcnow_iso in
    upd (fun g => set_g_objective_verification
           (Verification "skipped" (Some now) "Objective verification gate is disabled." [] []
              (v_manual_override (g_objective_verification g))) g)
  else
    let keyword_match := one_of OBJECTIVE_GATE_KEYWORD_MATCH "any"
                           (norm_lower_or "any" (PStr (gt_keyword_match gt))) in
    let min_chars := safe_int (PInt (gt_min_response_chars gt)) 0 in
    let* acc0 := on_env (check_all_required (g_nodes g) min_chars
                           (visible (gt_required_node_ids gt)) (GateAcc [] [] [])) in
    let acc := check_keywords (map lower (visible (gt_required_keywords gt))) keyword_match acc0 in
    let* checked_at := utcnow_iso in
    let '(status, summary) := gate_verdict gt (ga_failures acc) in
    upd (fun g => set_g_objective_verification
           (Verification status (Some checked_at) summary (ga_checks acc) (ga_failures acc)
              (v_manual_override (g_objective_verification g))) g) ;;;
    append_timeline "objective_verification_evaluated"
      [("graph_id", PStr (g_id g)); ("status", PStr status); ("failures", str_list (ga_failures acc));
       ("checks_count", PInt (Z.of_nat (length (ga_checks acc)))); ("actor", opt_actor actor);
       ("request_id", opt_actor request_id)].

(** *** [_sync_graph_status] *)

Definition status_of_verification (v : string) : string :=
  if str_in v ["passed"; "skipped"] then "succeeded"
  else if String.eqb v "failed" then "failed" else "review_required".

(** The target status when not every node succeeded. *)
Definition unfinished_status (launched : bool) (current : string) (statuses : list string) : string :=
  let has_active := existsb (fun s => str_in s ["planned"; "queued"; "running"]) statuses in
  if str_in "failed" statuses then "failed"
  else if str_in "blocked" statuses && negb has_active then "failed"
  else if str_in "canceled" statuses && negb has_active then "canceled"
  else if has_active then (if launched then "running" else "planned")
  else current.

Definition verification_status (g : graph) : string :=
  lower (strip (v_status (g_objective_verification g))).

(** The assignments to the graph once the target status is known. *)
Definition apply_status (graph_id target_status : string) : M gstate unit :=
  let* g := the_graph in
  let previous := g_status g in
  upd (set_g_status target_status) ;;;
  (if str_in target_status ["succeeded"; "failed"; "canceled"] then
     when (is_empty (strip (opt_str (g_finished_at g))))
       (let* now := utcnow_iso in upd (set_g_finished_at (Some now)))
   else upd (set_g_finished_at None)) ;;;
  when (negb (String.eqb previous target_status))
    (append_timeline "graph_status_changed"
       [("graph_id", PStr graph_id); ("from_status", PStr previous); ("to_status", PStr target_status)]).

Definition sync_graph_status : M gstate unit :=
  let* g := the_graph in
  let statuses := map n_status (d_values (iter_nodes (g_nodes g))) in
  match statuses with
  | [] =>
      let* now := utcnow_iso in
      upd (fun g => set_g_finished_at (Some now) (set_g_status "failed" g))
  | _ =>
      let* target_status :=
        (if forallb (String.eqb "succeeded") statuses then
           (if str_in (verification_status g) ["passed"; "skipped"; "failed"; "review_required"]
            then ret (status_of_verification (verification_status g))
            else evaluate_objective_gate None None ;;;
                 let* g := the_graph in ret (status_of_verification (verification_status g)))
         else ret (unfinished_status (negb (is_empty (strip (opt_str (g_launched_at g)))))
                     (str_or (g_status g) "planned") statuses)) in
      apply_status (g_id g) target_status
  end.

(** *** [_persist_graph] and [_persist_graph_delete] *)

Definition now_if_empty (s : string) : M env string := if is_empty s then env_now else ret s.

Definition persist_graph (g : graph) : M env unit :=
  let* db := gets e_db in
  match db with
  | None => ret tt
  | Some _ =>
      let graph_id := strip (g_id g) in
      if is_empty graph_id then ret tt
      else
        try_except
          (let* created_at := now_if_empty (g_created_at g) in
           let* updated_at := now_if_empty (g_updated_at g) in
           fun e =>
             match e_db e with
             | None => (Ok tt, e)
             | Some db =>
                 let '(r, db') := db_upsert_supervisor_graph
                   (GraphRow graph_id (g_user_id g) (str_or (g_status g) "planned") (g_objective g)
                      (graph_to_dict g) (Z.of_nat (length (g_timeline g))) created_at updated_at
                      (optional_str (g_launched_at g)) (optional_str (g_finished_at g))) db in
                 (r, set_db (Some db') e)
             end)
          (fun _ => env_emit "supervisor_graph_persist_failed" [("graph_id", PStr graph_id)])
  end.

Definition persist_graph_delete (graph_id : string) : M env unit :=
  let* db := gets e_db in
  let normalized := strip graph_id in
  match db with
  | None => ret tt
  | Some _ =>
      if is_empty normalized then ret tt
      else
        try_except
          (fun e => match e_db e with
                    | None => (Ok tt, e)
                    | Some db => let '(r, db') := db_delete_supervisor_graph normalized db in
                                 (res_bind r (fun _ => Ok tt), set_db (Some db') e)
                    end)
          (fun _ => env_emit "supervisor_graph_delete_failed" [("graph_id", PStr normalized)])
  end.

(** *** The manager's methods *)

Definition m_on_env {A} (m : M env A) : M manager A := fun s =>
  let '(r, e) := m (m_env s) in (r, Manager (m_graphs s) e).

Definition set_graphs (f : dict graph -> dict graph) : M manager unit :=
  modify (fun s => Manager (f (m_graphs s)) (m_env s)).

(** Run a helper on the graph stored under [gid]; what it did to the graph
    stays, also when it raises. *)
Definition with_graph {A} (gid : string) (g : graph) (m : M gstate A) : M manager A := fun s =>
  let '(r, gs) := m (GState g (m_env s)) in
  (r, Manager (d_set gid (gs_graph gs) (m_graphs s)) (gs_env gs)).

(** [_evict_terminal_if_needed] *)
Definition evict_terminal_if_needed : M manager unit :=
  let* graphs := gets m_graphs in
  let count := Z.of_nat (length graphs) in
  if count <? max_graphs cfg then ret tt
  else
    let terminal := sort_by (fun a b => String.leb (g_updated_at a) (g_updated_at b))
      (List.filter (fun g => str_in (g_status g) ["succeeded"; "failed"; "canceled"]) (d_values graphs)) in
    let to_remove := count - max_graphs cfg + 1 in
    for_each (take (Z.to_nat to_remove) terminal) (fun row =>
      if is_empty (g_id row) then ret tt
      else set_graphs (d_pop (g_id row)) ;;; m_on_env (persist_graph_delete (g_id row))).

Definition create_graph (user_id objective nodes objective_verification metadata : pyval)
    (request_id actor : option string) : M manager pydict :=
  let normalized_user := norm user_id in
  raise_if (is_empty normalized_user) (ValueError "user_id is required") ;;;
  let normalized_objective := norm objective in
  raise_if (is_empty normalized_objective) (ValueError "objective is required") ;;;
  match nodes with
  | PList raw_nodes =>
      raise_if (match raw_nodes with [] => true | _ => false end)
        (ValueError "nodes must include at least one node") ;;;
      raise_if (max_nodes_per_graph cfg <? Z.of_nat (length raw_nodes))
        (ValueError ("graph node count exceeds limit (" +:+ str_of_Z (max_nodes_per_graph cfg) +:+ ")")) ;;;
      let* now := m_on_env env_now in
      let* normalized_nodes := lift (add_nodes now 0 raw_nodes []) in
      lift (check_deps_known normalized_nodes) ;;;
      lift (assert_acyclic normalized_nodes) ;;;
      let* objective_gate := lift (normalize_objective_gate normalized_objective normalized_nodes
                                     objective_verification) in
      let* graph_id := m_on_env (fun e =>
        (Ok ("sup-" +:+ uuid (e_uuid e)),
         Env (e_clock e) (S (e_uuid e)) (e_am e) (e_db e) (e_telemetry e))) in
      let graph := Graph graph_id normalized_user normalized_objective "planned" now now None None None
        (as_dict metadata) objective_gate initial_verification normalized_nodes []
        (Telemetry 0 0 0 None) [] in
      evict_terminal_if_needed ;;;
      let* graphs := gets m_graphs in
      raise_if (max_graphs cfg <=? Z.of_nat (length graphs))
        (ValueError "supervisor graph capacity reached") ;;;
      with_graph graph_id graph
        (append_timeline "graph_created"
           [("graph_id", PStr graph_id); ("objective", PStr normalized_objective);
            ("user_id", PStr normalized_user); ("node_count", PInt (Z.of_nat (length normalized_nodes)));
            ("actor", opt_actor actor); ("request_id", opt_actor request_id)] ;;;
         let* g := the_graph in
         on_env (persist_graph g) ;;;
         ret (snapshot g))
  | _ => raise (ValueError "nodes must be a list")
  end.

Definition find_graph (graph_id : option string) : M manager (string * graph) :=
  let gid := strip (opt_str graph_id) in
  raise_if (is_empty gid) (ValueError "graph_id is required") ;;;
  let* graphs := gets m_graphs in
  match d_get gid graphs with
  | None => raise (ValueError ("Supervisor graph not found: " +:+ gid))
  | Some g => ret (gid, g)
  end.

Definition get_graph (graph_id : option string) : M manager pydict :=
  let* p := find_graph graph_id in ret (snapshot (snd p)).

(** [_assert_owner] *)
Definition assert_owner (g : graph) (user_id : option string) : res unit :=
  let normalized_user := strip (opt_str user_id) in
  let owner := strip (g_user_id g) in
  if is_empty normalized_user then Ok tt
  else if negb (is_empty owner) && negb (String.eqb owner normalized_user)
  then Err (ValueError "Supervisor graph is owned by another user") else Ok tt.

Definition list_graphs (user_id status : option string) (limit : Z) : M manager (list pydict) :=
  let user := str_or_none (strip (opt_str user_id)) in
  let st := str_or_none (lower (strip (opt_str status))) in
  raise_if (match st with Some s => negb (str_in s SUPERVISOR_GRAPH_STATUSES) | None => false end)
    (ValueError ("Invalid graph status '" +:+ opt_str status +:+ "'. Allowed values: "
                 +:+ join ", " (sort_strings SUPERVISOR_GRAPH_STATUSES) +:+ ".")) ;;;
  let capped_limit := Z.max 1 (Z.min limit 2000) in
  let* graphs := gets m_graphs in
  let rows := sort_by (fun a b => String.leb (g_updated_at b) (g_updated_at a)) (d_values graphs) in
  let wanted := List.filter (fun g =>
    match user with Some u => String.eqb (g_user_id g) u | None => true end
    && match st with Some s => String.eqb (g_status g) s | None => true end) rows in
  ret (map snapshot (take (Z.to_nat capped_limit) wanted)).

(** The head shared by the mutating methods: find the graph, check its owner,
    work on it. *)
Definition on_owned (graph_id user_id : option string) (body : string -> M gstate pydict) :
    M manager pydict :=
  let* p := find_graph graph_id in
  let '(gid, g) := p in
  lift (assert_owner g user_id) ;;;
  with_graph gid g (body gid).

(** The tail shared by the mutating methods. *)
Definition touch : M gstate unit := let* now := utcnow_iso in upd (set_g_updated_at now).
Definition persist_and_snapshot : M gstate pydict :=
  let* g := the_graph in on_env (persist_graph g) ;;; ret (snapshot g).

Definition launch_body (graph_id : string) (session_id request_id actor : option string) : M gstate pydict :=
  let* g := the_graph in
  raise_if (str_in (g_status g) ["succeeded"; "failed"; "canceled"])
    (ValueError ("Supervisor graph is terminal: " +:+ graph_id)) ;;;
  let* now := utcnow_iso in
  when (String.eqb (g_status g) "planned")
    (upd (fun g => set_g_launched_at (Some now) (set_g_status "running" g)) ;;;
     append_timeline "graph_launched"
       [("graph_id", PStr graph_id); ("actor", opt_actor actor); ("request_id", opt_actor request_id)]) ;;;
  match session_id with
  | Some s => upd (set_g_default_session_id (str_or_none (strip s)))
  | None => ret tt
  end ;;;
  schedule_ready_nodes request_id actor ;;;
  sync_graph_status ;;;
  touch ;;;
  persist_and_snapshot.

Definition launch_graph (graph_id user_id session_id request_id actor : option string) : M manager pydict :=
  on_owned graph_id user_id (fun gid => launch_body gid session_id request_id actor).

(** The refresh loop of [tick_graph]. *)
Definition refresh_active_node (request_id actor : option string) (k : string) : M gstate unit :=
  let* g := the_graph in
  match d_get k (g_nodes g) with
  | None => ret tt
  | Some n =>
      if is_empty (strip (opt_str (n_run_id n))) then ret tt
      else if negb (str_in (n_status n) ["queued"; "running"]) then ret tt
      else refresh_node_from_run request_id actor k
  end.

Definition count_tick : M gstate unit :=
  upd (fun g => set_g_telemetry (set_t_ticks (t_ticks (g_telemetry g) + 1) (g_telemetry g)) g) ;;;
  let* now := utcnow_iso in
  upd (fun g => set_g_telemetry (set_t_last_tick_at (Some now) (g_telemetry g)) g).

Definition tick_body (graph_id : string) (request_id actor : option string) : M gstate pydict :=
  count_tick ;;;
  (let* g := the_graph in
   for_each (d_keys (iter_nodes (g_nodes g))) (refresh_active_node request_id actor)) ;;;
  mark_blocked_nodes request_id actor ;;;
  (let* g := the_graph in
   when (str_in (g_status g) ["planned"; "running"]) (schedule_ready_nodes request_id actor)) ;;;
  sync_graph_status ;;;
  touch ;;;
  (let* g := the_graph in
   append_timeline "graph_ticked"
     [("graph_id", PStr graph_id); ("status", PStr (g_status g)); ("actor", opt_actor actor);
      ("request_id", opt_actor request_id)]) ;;;
  persist_and_snapshot.

Definition tick_graph (graph_id user_id request_id actor : option string) : M manager pydict :=
  on_owned graph_id user_id (fun gid => tick_body gid request_id actor).

(** The manual override of [verify_graph_objective]. *)
Definition apply_override (graph_id note : string) (pass : bool) (request_id actor : option string) :
    M gstate unit :=
  let* checked_at := utcnow_iso in
  let note_or_none := pnone_or_str (str_or_none note) in
  let manual := [("actor", opt_actor actor); ("at", PStr checked_at); ("override_pass", PBool pass);
                 ("note", note_or_none); ("request_id", opt_actor request_id)] in
  upd (fun g => set_g_objective_verification
    (let checks := v_checks (g_objective_verification g) in
     if pass
     then Verification "passed" (Some checked_at) "Objective verification manually approved." checks []
            (Some manual)
     else Verification "failed" (Some checked_at) "Objective verification manually rejected." checks
            [str_or note "manual rejection"] (Some manual)) g) ;;;
  append_timeline "objective_verification_manual_override"
    [("graph_id", PStr graph_id); ("override_pass", PBool pass); ("note", note_or_none);
     ("actor", opt_actor actor); ("request_id", opt_actor request_id)].

Definition verify_body (graph_id : string) (override_pass : option bool) (note : option string)
    (force_recheck : bool) (request_id actor : option string) : M gstate pydict :=
  when (force_recheck || match override_pass with None => true | Some _ => false end)
    (evaluate_objective_gate request_id actor) ;;;
  match override_pass with
  | Some pass => apply_override graph_id (strip (opt_str note)) pass request_id actor
  | None => ret tt
  end ;;;
  sync_graph_status ;;;
  touch ;;;
  persist_and_snapshot.

Definition verify_graph_objective (graph_id user_id : option string) (override_pass : option bool)
    (note : option string) (force_recheck : bool) (request_id actor : option string) : M manager pydict :=
  on_owned graph_id user_id (fun gid => verify_body gid override_pass note force_recheck request_id actor).

(** [_hydrate_from_database] *)
Definition hydrate_row (row : pyval) : M manager unit :=
  match row with
  | PDict d =>
      let* now := (if truthy (get "created_at" d) then ret "" else m_on_env env_now) in
      let g := normalize_loaded_graph now d in
      let graph_id := strip (g_id g) in
      if is_empty graph_id then ret tt else set_graphs (d_set graph_id g)
  | _ => ret tt
  end.

Definition hydrate_from_database : M manager unit :=
  let* s := gets (fun s => s) in
  match e_db (m_env s) with
  | None => ret tt
  | Some db =>
      let '(r, db') := db_list_supervisor_graphs (max_graphs cfg) db in
      m_on_env (modify (set_db (Some db'))) ;;;
      match r with
      | Err _ => ret tt
      | Ok persisted => for_each persisted hydrate_row
      end
  end.

(** [SupervisorTaskGraphManager.__init__] *)
Definition init (e : env) : manager := snd (hydrate_from_database (Manager [] e)).
End supervisor.

(** [max(1, int(...))] of the constructor's limits *)
Definition make_config (max_graphs max_nodes : Z) (has_emitter : bool) : config :=
  Config (Z.max 1 max_graphs) (Z.max 1 max_nodes) has_emitter.

End Supervisor.
