(* ===== verification/SupervisorDataFacts.v ===== *)
(** Facts about supervisor graphs as data: the cycle check decides
    acyclicity, an accepted request is well formed, and a stored graph is
    read back as it was. *)

From stdpp Require Import prelude strings list gmap relations.
From Stdlib Require Import Lia ZArith Ascii Sorted.
From S2P Require Import Prelude PyStr PyVal Effects PyTime SupervisorData.
Import SupervisorData.

Module SupervisorDataFacts.

(** ** The cycle check *)

(** [x] depends on [y]. *)
Definition dep_edge (nodes : dict node) (x y : string) : Prop := y ∈ deps_of nodes x.

Definition acyclic (nodes : dict node) : Prop := forall x, ~ tc (dep_edge nodes) x x.

(** The visited list, newest first: what a node depends on was visited before
    it. *)
Inductive finished (nodes : dict node) : list string -> Prop :=
  | finished_nil : finished nodes []
  | finished_cons x l : finished nodes l -> (forall d, dep_edge nodes x d -> d ∈ l) -> finished nodes (x :: l).

Lemma finished_acc nodes l x :
  finished nodes l -> x ∈ l -> Acc (fun y x => dep_edge nodes x y) x.
Proof.
  intros Hl. revert x. induction Hl as [|x l Hl IH Hx]; intros y Hy; [by apply elem_of_nil in Hy|].
  apply elem_of_cons in Hy as [->|Hy]; [|auto]. constructor. intros d Hd. auto.
Qed.

Lemma acc_no_cycle nodes x : Acc (fun y x => dep_edge nodes x y) x -> ~ tc (dep_edge nodes) x x.
Proof.
  induction 1 as [x _ IH]. intros Hc.
  inversion Hc as [? ? Hd|? y ? Hd Hr]; subst; apply (IH _ Hd).
  - done.
  - by eapply tc_r.
Qed.

(** What a successful [_dfs] leaves: the visiting set as it was and a longer
    finished list that holds the node. *)
Definition dfs_post (nodes : dict node) (st st' : list string * list string) : Prop :=
  fst st' = fst st /\ finished nodes (snd st') /\ snd st ⊆ snd st'.

Lemma dfs_fold nodes f l st st' :
  finished nodes (snd st) ->
  (forall s s' x, finished nodes (snd s) -> f s x = Ok s' -> dfs_post nodes s s' /\ x ∈ snd s') ->
  fold_res f l st = Ok st' ->
  dfs_post nodes st st' /\ forall x, x ∈ l -> x ∈ snd st'.
Proof.
  intros Hs Hf. revert st Hs. induction l as [|x l IH]; intros st Hs H; simpl in H.
  - simplify_eq. split; [by repeat split | by intros x ?%elem_of_nil].
  - destruct (f st x) as [s1|] eqn:E; [|done]. simpl in H.
    apply Hf in E as [(E1 & E2 & E3) Ex]; [|done].
    destruct (IH s1 E2 H) as [(F1 & F2 & F3) Fx].
    split; [split; [congruence | split; [done | set_solver]]|].
    intros y [->|Hy]%elem_of_cons; [set_solver | auto].
Qed.

Lemma filter_out_head x l :
  x ∉ l -> List.filter (fun y => negb (String.eqb y x)) (x :: l) = l.
Proof.
  intros Hx. simpl. rewrite String.eqb_refl. simpl.
  induction l as [|y l IH]; simpl; [done|].
  apply not_elem_of_cons in Hx as [Hy Hx]. apply not_eq_sym, String.eqb_neq in Hy as ->.
  simpl. f_equal. auto.
Qed.

Lemma dfs_ok fuel nodes st st' x :
  finished nodes (snd st) -> dfs fuel nodes st x = Ok st' -> dfs_post nodes st st' /\ x ∈ snd st'.
Proof.
  revert st st' x. induction fuel as [|fuel IH]; intros [vg vd] st' x Hs H; simpl in H.
  all: destruct (str_in x vd) eqn:Ed;
    [simplify_eq; split; [by repeat split | by apply str_in_spec]|].
  all: destruct (str_in x vg) eqn:Eg; [done|]; try done.
  destruct (fold_res _ _ _) as [[vg' vd']|] eqn:E; [|done]. simpl in H. simplify_eq.
  apply str_in_false in Eg.
  apply (dfs_fold nodes) in E as [(E1 & E2 & E3) Ex]; [|done|exact IH].
  simpl in E1, E2, E3, Ex. subst vg'. rewrite filter_out_head by done.
  split; [|left]. split; [done|]. split; [|simpl; set_solver].
  simpl. constructor; [done|]. intros d Hd. by apply Ex.
Qed.

(** The visiting set is a path of dependencies down to the current node. *)
Record on_path (nodes : dict node) (vg : list string) (x : string) : Prop := {
  path_reach : forall v, v ∈ vg -> tc (dep_edge nodes) v x;
  path_nodup : NoDup vg;
  path_known : vg ⊆ d_keys nodes }.

Lemma on_path_step nodes vg x d :
  on_path nodes vg x -> x ∉ vg -> dep_edge nodes x d -> on_path nodes (x :: vg) d.
Proof.
  intros [Hr Hn Hk] Hx Hd. split.
  - intros v [->|Hv]%elem_of_cons; [by apply tc_once|]. eapply tc_r; eauto.
  - by apply NoDup_cons.
  - intros v [->|Hv]%elem_of_cons; [|auto]. apply d_mem_keys. unfold dep_edge, deps_of, d_mem in *.
    destruct (d_get x nodes); [done | by apply elem_of_nil in Hd].
Qed.

Lemma on_path_short nodes vg x : on_path nodes vg x -> (length vg <= length nodes)%nat.
Proof.
  intros [_ Hn Hk]. rewrite <- (length_fmap fst nodes). by apply submseteq_length, NoDup_submseteq.
Qed.

Lemma dfs_err fuel nodes st x e :
  finished nodes (snd st) -> on_path nodes (fst st) x -> (length nodes < fuel + length (fst st))%nat ->
  dfs fuel nodes st x = Err e ->
  (exists m, e = ValueError m) /\ exists y, tc (dep_edge nodes) y y.
Proof.
  revert st x e. induction fuel as [|fuel IH]; intros [vg vd] x e Hs Hp Hf H; simpl in *.
  - pose proof (on_path_short _ _ _ Hp). lia.
  - destruct (str_in x vd); [done|]. destruct (str_in x vg) eqn:Eg.
    { simplify_eq. split; [eauto|]. exists x. by apply (path_reach _ _ _ Hp), str_in_spec. }
    apply str_in_false in Eg.
    destruct (fold_res _ _ _) as [[vg' vd']|e'] eqn:E; [done|]. simpl in H. simplify_eq.
    assert (forall l st, l ⊆ deps_of nodes x -> fst st = x :: vg -> finished nodes (snd st) ->
      fold_res (dfs fuel nodes) l st = Err e ->
      (exists m, e = ValueError m) /\ exists y, tc (dep_edge nodes) y y) as Hfold.
    { clear E. induction l as [|d l IHl]; intros st Hl Hst Hfin E; simpl in E; [done|].
      destruct (dfs fuel nodes st d) as [st1|e1] eqn:Ed; simpl in E.
      - apply dfs_ok in Ed as [(E1 & E2 & _) _]; [|done].
        apply (IHl st1); [set_solver | congruence | done | done].
      - simplify_eq. apply (IH st d e); [done| | |done].
        + rewrite Hst. apply on_path_step; [done..|]. apply Hl. left.
        + rewrite Hst. simpl. lia. }
    by apply (Hfold _ (x :: vg, vd) (reflexivity _) eq_refl Hs).
Qed.

(** The check, on every outcome. *)
Lemma assert_acyclic_spec nodes :
  match assert_acyclic nodes with
  | Ok _ => acyclic nodes
  | Err e => (exists m, e = ValueError m) /\ exists x, tc (dep_edge nodes) x x
  end.
Proof.
  unfold assert_acyclic. destruct (fold_res _ _ _) as [st'|e] eqn:E; simpl.
  - apply (dfs_fold nodes) in E as [(_ & Hfin & _) Hin]; [|constructor|intros; by eapply dfs_ok].
    intros x Hc. destruct (decide (x ∈ d_keys nodes)) as [Hx|Hx].
    + eapply acc_no_cycle; [|done]. eapply finished_acc; eauto.
    + assert (deps_of nodes x = []) as Hd.
      { unfold deps_of. by rewrite (proj2 (d_get_None_keys _ _) Hx). }
      inversion Hc as [? ? He|? ? ? He]; subst; unfold dep_edge in He; rewrite Hd in He;
        by apply elem_of_nil in He.
  - assert (forall l st, fst st = [] -> finished nodes (snd st) ->
      fold_res (dfs (S (length nodes)) nodes) l st = Err e ->
      (exists m, e = ValueError m) /\ exists y, tc (dep_edge nodes) y y) as Hfold.
    { clear E. induction l as [|d l IHl]; intros st Hst Hfin E; cbn [fold_res] in E; [done|].
      destruct (dfs (S (length nodes)) nodes st d) as [st1|e1] eqn:Ed; simpl in E.
      - apply dfs_ok in Ed as [(E1 & E2 & _) _]; [|done]. apply (IHl st1); [congruence|done|done].
      - simplify_eq. apply (dfs_err _ nodes st d e) in Ed; try done.
        + rewrite Hst. split; [by intros ? ?%elem_of_nil | apply NoDup_nil_2 | set_solver].
        + lia. }
    by apply (Hfold _ ([], []) eq_refl (finished_nil _) E).
Qed.

(** ** Lists without repetition, as the normalizing loops build them *)

Lemma append_new_elem acc x y : y ∈ append_new acc x <-> y ∈ acc \/ y = x.
Proof.
  unfold append_new. destruct (str_in x acc) eqn:E.
  - apply str_in_spec in E. set_solver.
  - set_solver.
Qed.

Lemma append_new_NoDup acc x : NoDup acc -> NoDup (append_new acc x).
Proof.
  unfold append_new. intros H. destruct (str_in x acc) eqn:E; [done|]. apply str_in_false in E.
  apply NoDup_app. split; [done|]. split; [set_solver | apply NoDup_singleton].
Qed.

Lemma append_new_Forall (P : string -> Prop) acc x : Forall P acc -> P x -> Forall P (append_new acc x).
Proof.
  unfold append_new. intros H Hx. destruct (str_in x acc); [done|]. by apply Forall_app_2; [|constructor].
Qed.

Lemma foldl_append_new acc l : NoDup (acc ++ l) -> foldl append_new acc l = acc ++ l.
Proof.
  revert acc. induction l as [|x l IH]; intros acc H; simpl; [by rewrite app_nil_r|].
  assert (str_in x acc = false) as Hx.
  { apply str_in_false. intros Hx. apply NoDup_app in H as (_ & H & _). apply (H x Hx). left. }
  unfold append_new at 2. rewrite Hx, IH, <- app_assoc; [done|]. by rewrite <- app_assoc.
Qed.

(** A text field in normal form. *)
Definition text (s : string) : Prop := stripped s /\ s <> "".

Lemma norm_text s : text s -> norm (PStr s) = s.
Proof. intros [H _]. by apply norm_str. Qed.

Lemma text_empty s : text s -> is_empty s = false.
Proof. intros [_ H]. by apply is_empty_false. Qed.

Lemma norm_is_text v : is_empty (norm v) = false -> text (norm v).
Proof. intros H. split; [auto with py | by apply is_empty_false]. Qed.

Definition keyword (s : string) : Prop := text s /\ lower s = s.

Definition opt_text (o : option string) : Prop := match o with Some s => text s | None => True end.

Lemma opt_text_id o : opt_text o -> optional_str_of (pnone_or_str o) = o.
Proof.
  unfold optional_str_of. rewrite norm_pnone_or_str. destruct o as [s|]; [|done].
  intros [Hs Hn]. cbn [opt_str]. rewrite Hs. by apply str_or_none_some.
Qed.

Lemma opt_text_normalize s : opt_text (str_or_none (strip s)).
Proof.
  unfold str_or_none. destruct (is_empty (strip s)) eqn:E; [done|].
  split; [apply strip_stripped | by apply is_empty_false].
Qed.

Lemma isoformat_text t : text (isoformat t).
Proof. split; auto with py. Qed.

#[export] Hint Resolve norm_is_text opt_text_normalize isoformat_text : py.

Lemma add_keyword_id acc k : keyword k -> add_keyword acc (PStr k) = append_new acc k.
Proof.
  intros [Ht Hl]. unfold add_keyword. rewrite norm_text, Hl by done. by rewrite text_empty.
Qed.

Lemma add_keywords_id l :
  NoDup l -> Forall keyword l -> foldl add_keyword [] (map PStr l) = l.
Proof.
  intros Hn Hl. rewrite <- (foldl_append_new [] l Hn) at 2. generalize ([] : list string).
  induction Hl as [|k l Hk Hl IH]; intros acc; simpl; [done|].
  rewrite add_keyword_id by done. apply NoDup_cons in Hn as [_ Hn]. auto.
Qed.

(** The keyword loop only builds keywords, each once. *)
Lemma add_keywords_wf l acc :
  NoDup acc -> Forall keyword acc ->
  NoDup (foldl add_keyword acc l) /\ Forall keyword (foldl add_keyword acc l).
Proof.
  revert acc. induction l as [|v l IH]; intros acc Hn Ha; simpl; [done|].
  apply IH; unfold add_keyword; destruct (is_empty (lower (norm v))) eqn:E; try done.
  - by apply append_new_NoDup.
  - apply append_new_Forall; [done|]. split; [|apply lower_idemp].
    split; [auto with py | by apply is_empty_false].
Qed.

(** ** Keywords drawn from the objective *)

Lemma lower_all_fixed s : all_chars (fun c => Ascii.eqb (lower_c c) c) s = true -> lower s = s.
Proof.
  induction s as [|c s IH]; simpl; [done|]. intros [Hc%Ascii.eqb_eq Hs]%andb_true_iff.
  unfold lower in *. simpl. by rewrite Hc, IH.
Qed.

Lemma lower_fixed_all s : all_chars (fun c => Ascii.eqb (lower_c c) c) (lower s) = true.
Proof.
  induction s as [|c s IH]; simpl; [done|].
  rewrite lower_c_idemp, Ascii.eqb_refl. exact IH.
Qed.

Lemma str_filter_keeps p q s : all_chars q s = true -> all_chars q (str_filter p s) = true.
Proof.
  induction s as [|c s IH]; simpl; [done|]. intros [Hc Hs]%andb_true_iff.
  destruct (p c); simpl; [by rewrite Hc, IH | auto].
Qed.

Lemma normalize_keyword_keyword token : 4 <= str_len (normalize_keyword token) -> keyword (normalize_keyword token).
Proof.
  intros Hlen. unfold normalize_keyword. split; [split|].
  - apply stripped_no_space, strip_by_all. eapply all_chars_impl; [|apply str_filter_all].
    by intros [[] [] [] [] [] [] [] []].
  - intros E. unfold normalize_keyword in Hlen. rewrite E in Hlen. by vm_compute in Hlen.
  - apply lower_all_fixed, strip_by_all, str_filter_keeps, lower_fixed_all.
Qed.

Lemma collect_keywords_wf n tokens words :
  NoDup words -> Forall keyword words ->
  NoDup (collect_keywords n tokens words) /\ Forall keyword (collect_keywords n tokens words).
Proof.
  revert words. induction tokens as [|t tokens IH]; intros words Hn Hw; simpl; [done|].
  destruct (_ || _) eqn:E; [auto|]. bool_prop.
  assert (NoDup (words ++ [normalize_keyword t]) /\ Forall keyword (words ++ [normalize_keyword t])) as [H1 H2].
  { split.
    - apply NoDup_app. split; [done|]. split; [|apply NoDup_singleton].
      match goal with H : str_in _ _ = false |- _ => apply str_in_false in H end. set_solver.
    - apply Forall_app_2; [done|]. constructor; [|done]. by apply normalize_keyword_keyword. }
  destruct (n <=? _)%nat; auto.
Qed.

Lemma objective_keywords_wf o : NoDup (objective_keywords o) /\ Forall keyword (objective_keywords o).
Proof. apply collect_keywords_wf; [apply NoDup_nil_2 | constructor]. Qed.

(** ** Leaves *)

(** Every dependency of the graph, with repetition. *)
Definition all_deps (nodes : dict node) : list string := mjoin (n_depends_on <$> d_values nodes).

Lemma all_deps_edge nodes x : NoDup (d_keys nodes) -> x ∈ all_deps nodes <-> exists y, dep_edge nodes y x.
Proof.
  intros Hd. unfold all_deps, d_values, dep_edge, deps_of. rewrite list_elem_of_join. split.
  - intros (l & Hx & (n & -> & Hn)%list_elem_of_fmap).
    apply list_elem_of_fmap in Hn as ([k n'] & -> & Hin). exists k. by rewrite (d_elem_get k n').
  - intros (y & Hy). destruct (d_get y nodes) as [n|] eqn:E; [|by apply elem_of_nil in Hy].
    exists (n_depends_on n). split; [done|]. apply list_elem_of_fmap. exists n. split; [done|].
    apply list_elem_of_fmap. exists (y, n). split; [done | by apply d_get_elem].
Qed.

Lemma count_inbound_keys l acc : d_keys (foldl count_inbound acc l) = d_keys acc.
Proof.
  revert acc. induction l as [|x l IH]; intros acc; simpl; [done|]. rewrite IH.
  unfold count_inbound. destruct (_ && _) eqn:E; [|done]. bool_prop. by apply d_keys_set_in.
Qed.

Lemma count_inbound_get l acc k c :
  Forall text l -> d_get k acc = Some c ->
  exists c', d_get k (foldl count_inbound acc l) = Some c' /\ c <= c' /\ (c' = c <-> k ∉ l).
Proof.
  intros Hl. revert acc c. induction Hl as [|x l [Hs Hx] Hl IH]; intros acc c Hk; simpl.
  - exists c. split; [done|]. split; [lia|]. set_solver.
  - unfold count_inbound at 2. rewrite Hs, (proj2 (is_empty_false x) Hx). simpl.
    destruct (decide (x = k)) as [->|Hne].
    + rewrite (d_get_Some_mem _ _ _ Hk), Hk. destruct (IH (d_set k (c + 1) acc) (c + 1)) as (c' & H1 & H2 & H3).
      { apply d_get_set_eq. }
      exists c'. split; [done|]. split; [lia|]. split; [lia | set_solver].
    + destruct (IH (if d_mem x acc then d_set x (match d_get x acc with Some c => c | None => 0 end + 1) acc
                    else acc) c) as (c' & H1 & H2 & H3).
      { destruct (d_mem x acc); [by rewrite d_get_set_ne | done]. }
      exists c'. split; [done|]. split; [done|]. set_solver.
Qed.

Lemma foldl_mjoin {A B C} (f : A -> B -> A) (g : C -> list B) l acc :
  foldl (fun a c => foldl f a (g c)) acc l = foldl f acc (mjoin (g <$> l)).
Proof.
  revert acc. induction l as [|c l IH]; intros acc; simpl; [done|]. by rewrite foldl_app, IH.
Qed.

Lemma zero_entry (keys : list string) k :
  k ∈ keys -> d_get k (map (fun k => (k, 0)) keys) = Some 0.
Proof.
  induction keys as [|k' keys IH]; [by intros ?%elem_of_nil|]. simpl.
  destruct (String.eqb_spec k k') as [->|]; [done|].
  intros [->|Hk]%elem_of_cons; [done | auto].
Qed.

(** [_leaf_node_ids] finds exactly the nodes nothing depends on. *)
Lemma leaf_node_ids_elem nodes x :
  NoDup (d_keys nodes) -> Forall text (all_deps nodes) ->
  x ∈ leaf_node_ids nodes <-> x ∈ d_keys nodes /\ forall y, ~ dep_edge nodes y x.
Proof.
  intros Hd Ht. unfold leaf_node_ids. rewrite (foldl_mjoin count_inbound n_depends_on).
  fold (all_deps nodes). set (d0 := map (fun k => (k, 0)) (d_keys nodes)).
  assert (d_keys (foldl count_inbound d0 (all_deps nodes)) = d_keys nodes) as Hkeys.
  { rewrite count_inbound_keys. unfold d0, d_keys. unfold fmap. rewrite map_map. apply map_id. }
  unfold sort_strings. rewrite sort_by_elem.
  change (map fst ?l) with (l.*1). rewrite list_elem_of_fmap. split.
  - intros ([k c] & -> & Hin). apply list_elem_of_In, filter_In in Hin as [Hin Hc]. simpl in *.
    apply list_elem_of_In in Hin. bool_prop. subst c.
    assert (k ∈ d_keys nodes) as Hk.
    { rewrite <- Hkeys. apply list_elem_of_fmap. by exists (k, 0). }
    split; [done|]. intros y Hy.
    destruct (count_inbound_get (all_deps nodes) d0 k 0 Ht (zero_entry _ _ Hk)) as (c' & H1 & _ & H3).
    apply d_elem_get in Hin; [|by rewrite Hkeys]. rewrite H1 in Hin. simplify_eq.
    apply (proj1 H3 eq_refl), all_deps_edge; eauto.
  - intros [Hk Hno].
    destruct (count_inbound_get (all_deps nodes) d0 x 0 Ht (zero_entry _ _ Hk)) as (c' & H1 & _ & H3).
    exists (x, 0). split; [done|]. apply list_elem_of_In, filter_In. split; [|done].
    apply list_elem_of_In, d_get_elem. rewrite H1. f_equal. apply H3.
    rewrite all_deps_edge by done. naive_solver.
Qed.

Lemma leaf_node_ids_NoDup nodes : NoDup (d_keys nodes) -> NoDup (leaf_node_ids nodes).
Proof.
  intros Hd. unfold leaf_node_ids. rewrite (foldl_mjoin count_inbound n_depends_on).
  unfold sort_strings. rewrite sort_by_perm.
  set (d := foldl count_inbound _ _).
  assert (d_keys d = d_keys nodes) as Hkeys.
  { unfold d. rewrite count_inbound_keys. unfold d_keys, fmap. rewrite map_map. apply map_id. }
  rewrite <- Hkeys in Hd. clear Hkeys. clearbody d. unfold d_keys in Hd.
  induction d as [|[k c] d IH]; simpl in *; [apply NoDup_nil_2|].
  apply NoDup_cons in Hd as [Hk Hd]. destruct (c =? 0); [|auto]. simpl. apply NoDup_cons.
  split; [|auto]. intros Hin. apply Hk. change (map fst ?l) with (l.*1) in Hin.
  apply list_elem_of_fmap in Hin as (e & -> & He). apply list_elem_of_fmap. exists e. split; [done|].
  apply list_elem_of_In, filter_In in He as [He _]. by apply list_elem_of_In.
Qed.

(** A chain of dependencies in an acyclic graph has no repetition. *)
Lemma chain_NoDup nodes l : acyclic nodes -> StronglySorted (tc (dep_edge nodes)) l -> NoDup l.
Proof.
  intros Ha. induction 1 as [|x l Hl IH Hx]; [apply NoDup_nil_2|]. apply NoDup_cons. split; [|done].
  intros Hin. apply (Ha x). by apply (proj1 (Forall_forall _ _) Hx).
Qed.

(** A non-empty acyclic graph has a leaf. *)
Lemma leaf_exists nodes :
  NoDup (d_keys nodes) -> Forall text (all_deps nodes) -> acyclic nodes -> nodes <> [] ->
  leaf_node_ids nodes <> [].
Proof.
  intros Hd Ht Ha Hne Hnil.
  assert (forall x, x ∈ d_keys nodes -> exists y, y ∈ d_keys nodes /\ dep_edge nodes y x) as Hstep.
  { intros x Hx. destruct (decide (x ∈ all_deps nodes)) as [Hin|Hout].
    - apply all_deps_edge in Hin as (y & Hy); [|done]. exists y. split; [|done].
      apply d_mem_keys. unfold dep_edge, deps_of, d_mem in *.
      destruct (d_get y nodes); [done | by apply elem_of_nil in Hy].
    - exfalso. assert (x ∈ leaf_node_ids nodes) as Hl.
      { apply leaf_node_ids_elem; [done..|]. split; [done|]. intros y Hy. apply Hout.
        apply all_deps_edge; eauto. }
      rewrite Hnil in Hl. by apply elem_of_nil in Hl. }
  assert (forall n, exists l, length l = S n /\ l ⊆ d_keys nodes
                              /\ StronglySorted (tc (dep_edge nodes)) l) as Hchain.
  { induction n as [|n (l & Hl & Hsub & Hs)].
    - destruct nodes as [|[k v] nodes']; [done|]. exists [k].
      split; [done|]. split; [unfold d_keys; set_solver|]. by repeat constructor.
    - destruct l as [|x l]; [done|]. destruct (Hstep x) as (y & Hy & Hyx); [apply Hsub; left|].
      exists (y :: x :: l). split; [simpl in *; lia|]. split; [set_solver|].
      constructor; [done|]. inversion Hs as [|? ? ? Hx]; subst. constructor; [by apply tc_once|].
      eapply Forall_impl; [done|]. intros z Hz. by eapply tc_l. }
  destruct (Hchain (length nodes)) as (l & Hl & Hsub & Hs).
  pose proof (submseteq_length _ _ (NoDup_submseteq _ _ (chain_NoDup _ _ Ha Hs) Hsub)) as Hlen.
  unfold d_keys in Hlen. rewrite length_fmap in Hlen. lia.
Qed.

(** ** Well-formed graphs *)

Definition SUPERVISOR_NODE_STATUSES : list string :=
  ["planned"; "queued"; "running"; "succeeded"; "failed"; "blocked"; "canceled"].

Record node_wf (keys : list string) (k : string) (n : node) : Prop := {
  nwf_key : k = n_node_id n;
  nwf_id : text (n_node_id n);
  nwf_order : 0 < n_order n;
  nwf_agent : text (n_agent_id n);
  nwf_message : text (n_message n);
  nwf_deps : Forall text (n_depends_on n);
  nwf_deps_nodup : NoDup (n_depends_on n);
  nwf_deps_known : n_depends_on n ⊆ keys;
  nwf_status : n_status n ∈ SUPERVISOR_NODE_STATUSES;
  nwf_run_id : opt_text (n_run_id n);
  nwf_run_status : opt_text (n_run_status n);
  nwf_attempts : 0 <= n_attempts n;
  nwf_created : n_created_at n <> "";
  nwf_started : opt_text (n_started_at n);
  nwf_completed : opt_text (n_completed_at n) }.

Record gate_wf (objective : string) (nodes : dict node) (gt : gate) : Prop := {
  gwf_mode : gt_mode gt ∈ OBJECTIVE_GATE_MODES;
  gwf_on_failure : gt_on_failure gt ∈ OBJECTIVE_GATE_ON_FAILURE;
  gwf_match : gt_keyword_match gt ∈ OBJECTIVE_GATE_KEYWORD_MATCH;
  gwf_required : gt_required_node_ids gt <> [];
  gwf_required_nodup : NoDup (gt_required_node_ids gt);
  gwf_required_known : gt_required_node_ids gt ⊆ d_keys nodes;
  gwf_min : 0 <= gt_min_response_chars gt <= 20000;
  gwf_keywords : NoDup (gt_required_keywords gt) /\ Forall keyword (gt_required_keywords gt);
  gwf_objective : gt_objective_keywords gt = objective_keywords objective }.

Record verification_wf (v : verification) : Prop := {
  vwf_status : v_status v ∈ OBJECTIVE_VERIFICATION_STATUSES;
  vwf_checked : opt_text (v_checked_at v);
  vwf_summary : text (v_summary v);
  vwf_reasons : Forall text (v_last_failure_reasons v) }.

Record telemetry_wf (t : telemetry) : Prop := {
  twf_ticks : 0 <= t_ticks t;
  twf_started : 0 <= t_runs_started t;
  twf_completed : 0 <= t_runs_completed t;
  twf_last : opt_text (t_last_tick_at t) }.

Record nodes_wf (nodes : dict node) : Prop := {
  nds_keys : NoDup (d_keys nodes);
  nds_nodes : Forall (fun kn => node_wf (d_keys nodes) (fst kn) (snd kn)) nodes;
  nds_acyclic : acyclic nodes;
  nds_nonempty : nodes <> [] }.

Record graph_wf (g : graph) : Prop := {
  gr_id : text (g_id g);
  gr_user : text (g_user_id g);
  gr_objective : text (g_objective g);
  gr_status : g_status g ∈ SUPERVISOR_GRAPH_STATUSES;
  gr_created : g_created_at g <> "";
  gr_updated : g_updated_at g <> "";
  gr_launched : opt_text (g_launched_at g);
  gr_finished : opt_text (g_finished_at g);
  gr_session : opt_text (g_default_session_id g);
  gr_gate : gate_wf (g_objective g) (g_nodes g) (g_objective_gate g);
  gr_verification : verification_wf (g_objective_verification g);
  gr_nodes : nodes_wf (g_nodes g);
  gr_telemetry : telemetry_wf (g_telemetry g);
  gr_extra : Forall (fun kv => fst kv ∉ graph_keys) (g_extra g) }.

(** The statuses are lower-case words. *)
Lemma word_normal default allowed s :
  forallb (fun a => String.eqb (strip a) a && String.eqb (lower a) a && negb (is_empty a)) allowed = true ->
  s ∈ allowed -> norm_lower_or default (PStr s) = s /\ one_of allowed default s = s.
Proof.
  intros Hall Hs. split.
  - rewrite forallb_forall in Hall. apply list_elem_of_In, Hall in Hs. bool_prop.
    apply norm_lower_or_str; [done..|]. by apply is_empty_false.
  - unfold one_of. by rewrite (proj2 (str_in_spec s allowed) Hs).
Qed.

Lemma known_deps_text nodes : nodes_wf nodes -> Forall text (all_deps nodes).
Proof.
  intros H. unfold all_deps. apply Forall_forall. intros x Hx. apply list_elem_of_join in Hx as (l & Hx & Hl).
  apply list_elem_of_fmap in Hl as (n & -> & Hn). apply list_elem_of_fmap in Hn as (e & -> & He).
  pose proof (proj1 (Forall_forall _ _) (nds_nodes _ H) e He) as Hw.
  by apply (proj1 (Forall_forall _ _) (nwf_deps _ _ _ Hw)).
Qed.

(** ** Reading back a stored graph *)

(** A stored error message comes back without surrounding space, an empty one
    as no error. *)
Definition canon_node (n : node) : node := set_n_last_error (optional_str (n_last_error n)) n.
Definition canon_graph (g : graph) : graph :=
  set_g_nodes (map (fun kn => (fst kn, canon_node (snd kn))) (g_nodes g)) g.

Lemma load_depends_id l : Forall text l -> NoDup l -> load_depends (str_list l) = l.
Proof.
  intros Hl Hn. unfold load_depends, str_list. cbn [as_list].
  rewrite <- (foldl_append_new [] l Hn) at 2. generalize ([] : list string).
  clear Hn. induction Hl as [|x l Hx Hl IH]; intros acc; simpl; [done|].
  rewrite norm_text by done. rewrite text_empty by done. apply IH.
Qed.

Lemma safe_int_nonneg v d : 0 <= safe_int v d.
Proof. unfold safe_int. destruct (_ <? 0) eqn:E; bool_prop; lia. Qed.

Lemma safe_int_id z : 0 <= z -> safe_int (PInt z) 0 = z.
Proof. intros H. unfold safe_int. simpl. by apply Z.ltb_ge in H as ->. Qed.

Lemma str_or_created s d : s <> "" -> py_str (py_or (PStr s) d) = s.
Proof. unfold py_or. by destruct s. Qed.

Lemma load_node_id keys created acc index k n :
  node_wf keys k n -> d_mem k acc = false ->
  load_node created acc index (node_to_dict n) = acc ++ [(k, canon_node n)].
Proof.
  intros [] Hm. unfold load_node.
  change (get "node_id" (node_to_dict n)) with (PStr (n_node_id n)).
  change (get "order" (node_to_dict n)) with (PInt (n_order n)).
  change (get "agent_id" (node_to_dict n)) with (PStr (n_agent_id n)).
  change (get "message" (node_to_dict n)) with (PStr (n_message n)).
  change (get "depends_on" (node_to_dict n)) with (str_list (n_depends_on n)).
  change (get "max_attempts" (node_to_dict n)) with (n_max_attempts n).
  change (get "budget" (node_to_dict n)) with (opt_dict (n_budget n)).
  change (get "metadata" (node_to_dict n)) with (PDict (n_metadata n)).
  change (get "status" (node_to_dict n)) with (PStr (n_status n)).
  change (get "run_id" (node_to_dict n)) with (pnone_or_str (n_run_id n)).
  change (get "run_status" (node_to_dict n)) with (pnone_or_str (n_run_status n)).
  change (get "attempts" (node_to_dict n)) with (PInt (n_attempts n)).
  change (get "created_at" (node_to_dict n)) with (PStr (n_created_at n)).
  change (get "started_at" (node_to_dict n)) with (pnone_or_str (n_started_at n)).
  change (get "completed_at" (node_to_dict n)) with (pnone_or_str (n_completed_at n)).
  change (get "last_error" (node_to_dict n)) with (pnone_or_str (n_last_error n)).
  rewrite str_or_created by apply nwf_id0. rewrite (proj1 nwf_id0), text_empty by done.
  rewrite <- nwf_key0, Hm. cbn [py_int]. rewrite (proj2 (Z.leb_gt _ _) nwf_order0).
  rewrite !norm_text, load_depends_id, safe_int_id, !opt_text_id, str_or_created by done.
  rewrite (proj1 (word_normal "planned" SUPERVISOR_NODE_STATUSES _ eq_refl nwf_status0)).
  rewrite d_set_new by done. do 3 f_equal. unfold canon_node, set_n_last_error, optional_str_of, optional_str.
  rewrite norm_pnone_or_str, nwf_key0. destruct n as [? ? ? ? ? ? [|] ?]; done.
Qed.

Lemma load_nodes_id keys created index nodes acc :
  Forall (fun kn => node_wf keys (fst kn) (snd kn)) nodes -> NoDup (d_keys acc ++ d_keys nodes) ->
  load_nodes created index (map (fun kn => node_to_dict (snd kn)) nodes) acc
  = acc ++ map (fun kn => (fst kn, canon_node (snd kn))) nodes.
Proof.
  intros Hn. revert index acc. induction Hn as [|[k n] nodes Hk Hn IH]; intros index acc Hd; simpl in *.
  - by rewrite app_nil_r.
  - apply NoDup_app in Hd as (Hd1 & Hd2 & Hd3). apply NoDup_cons in Hd3 as [Hd3 Hd4].
    rewrite (load_node_id keys _ _ _ k); [|done|].
    2: { apply not_true_is_false. intros Hm%d_mem_keys. apply (Hd2 _ Hm). left. }
    rewrite IH, <- app_assoc; [done|]. unfold d_keys in *. rewrite fmap_app, <- app_assoc. simpl.
    apply NoDup_app. split; [done|]. split; [set_solver|]. by apply NoDup_cons.
Qed.

Lemma dicts_id l : dicts (map PDict l) = l.
Proof. unfold dicts. induction l as [|d l IH]; simpl; [done|]. f_equal. exact IH. Qed.

Lemma load_verification_id v : verification_wf v -> load_verification (verification_to_dict v) = v.
Proof.
  intros []. unfold load_verification.
  change (get "status" (verification_to_dict v)) with (PStr (v_status v)).
  change (get "checked_at" (verification_to_dict v)) with (pnone_or_str (v_checked_at v)).
  change (get "summary" (verification_to_dict v)) with (PStr (v_summary v)).
  change (get "checks" (verification_to_dict v)) with (PList (map PDict (v_checks v))).
  change (get "last_failure_reasons" (verification_to_dict v)) with (str_list (v_last_failure_reasons v)).
  change (get "manual_override" (verification_to_dict v)) with (opt_dict (v_manual_override v)).
  destruct (word_normal "pending" OBJECTIVE_VERIFICATION_STATUSES _ eq_refl vwf_status0) as [-> ->].
  rewrite norm_text, opt_text_id, str_or_ne by (done || apply vwf_summary0).
  cbn [as_list str_list]. rewrite dicts_id.
  assert (List.filter (fun s => negb (is_empty s))
            (map (fun v => strip (py_str v)) (map PStr (v_last_failure_reasons v)))
          = v_last_failure_reasons v) as ->.
  { induction vwf_reasons0 as [|x l [Hx Hne] Hl IH]; simpl; [done|]. rewrite Hx.
    rewrite (proj2 (is_empty_false x) Hne). simpl. by f_equal. }
  by destruct v as [? ? ? ? ? []].
Qed.

Lemma load_telemetry_id t : telemetry_wf t -> load_telemetry (telemetry_to_dict t) = t.
Proof.
  intros []. unfold load_telemetry.
  change (get "ticks" (telemetry_to_dict t)) with (PInt (t_ticks t)).
  change (get "runs_started" (telemetry_to_dict t)) with (PInt (t_runs_started t)).
  change (get "runs_completed" (telemetry_to_dict t)) with (PInt (t_runs_completed t)).
  change (get "last_tick_at" (telemetry_to_dict t)) with (pnone_or_str (t_last_tick_at t)).
  rewrite !safe_int_id, opt_text_id by done. by destruct t.
Qed.

Lemma load_gate_id objective nodes nodes' gt :
  d_keys nodes' = d_keys nodes -> Forall text (d_keys nodes) -> gate_wf objective nodes gt ->
  load_gate objective nodes' (gate_to_dict gt) = gt.
Proof.
  intros Hk Ht []. unfold load_gate.
  change (get "mode" (gate_to_dict gt)) with (PStr (gt_mode gt)).
  change (get "on_failure" (gate_to_dict gt)) with (PStr (gt_on_failure gt)).
  change (get "keyword_match" (gate_to_dict gt)) with (PStr (gt_keyword_match gt)).
  change (get "required_node_ids" (gate_to_dict gt)) with (str_list (gt_required_node_ids gt)).
  change (get "required_keywords" (gate_to_dict gt)) with (str_list (gt_required_keywords gt)).
  change (get "objective_keywords" (gate_to_dict gt)) with (str_list (gt_objective_keywords gt)).
  change (get "min_response_chars" (gate_to_dict gt)) with (PInt (gt_min_response_chars gt)).
  change (get_or "enabled" (PBool true) (gate_to_dict gt)) with (PBool (gt_enabled gt)).
  destruct (word_normal "auto" OBJECTIVE_GATE_MODES _ eq_refl gwf_mode0) as [-> ->].
  destruct (word_normal "review_required" OBJECTIVE_GATE_ON_FAILURE _ eq_refl gwf_on_failure0) as [-> ->].
  destruct (word_normal "any" OBJECTIVE_GATE_KEYWORD_MATCH _ eq_refl gwf_match0) as [-> ->].
  cbn [as_list str_list truthy].
  rewrite !add_keywords_id, safe_int_id by (rewrite ?gwf_objective0; try apply objective_keywords_wf; lia || tauto).
  assert (foldl (load_required_node nodes') [] (map PStr (gt_required_node_ids gt))
          = gt_required_node_ids gt) as ->.
  { rewrite <- (foldl_append_new [] _ gwf_required_nodup0) at 2. generalize ([] : list string).
    clear gwf_required0 gwf_required_nodup0.
    induction (gt_required_node_ids gt) as [|x l IH]; intros acc; simpl; [done|].
    assert (x ∈ d_keys nodes) as Hx by (apply gwf_required_known0; left).
    unfold load_required_node at 2.
    rewrite norm_text by (by apply (proj1 (Forall_forall _ _) Ht)).
    rewrite text_empty by (by apply (proj1 (Forall_forall _ _) Ht)).
    rewrite <- Hk in Hx. apply d_mem_keys in Hx as ->. simpl. apply IH. set_solver. }
  destruct (gt_required_node_ids gt) as [|x l] eqn:E; [done|]. rewrite <- E.
  assert (match gt_objective_keywords gt with [] => objective_keywords objective | _ => gt_objective_keywords gt end
          = gt_objective_keywords gt) as -> by (rewrite gwf_objective0; by destruct (objective_keywords objective)).
  by destruct gt.
Qed.

Lemma extra_kept l :
  Forall (fun kv : string * pyval => fst kv ∉ graph_keys) l ->
  List.filter (fun kv => negb (str_in (fst kv) graph_keys)) l = l.
Proof.
  induction 1 as [|kv l Hk Hl IH]; cbn [List.filter]; [done|].
  apply str_in_false in Hk as ->. cbn [negb]. by rewrite IH.
Qed.

Lemma node_rows_id nodes :
  node_rows (PDict (map (fun kn => (fst kn, PDict (node_to_dict (snd kn)))) nodes))
  = map (fun kn => node_to_dict (snd kn)) nodes.
Proof.
  simpl. unfold d_values, fmap. rewrite map_map. simpl. rewrite <- (dicts_id (map _ nodes)).
  by rewrite map_map.
Qed.

Lemma d_keys_map {A B} (f : A -> B) (d : dict A) : d_keys (map (fun kv => (fst kv, f (snd kv))) d) = d_keys d.
Proof. unfold d_keys, fmap. by rewrite map_map. Qed.

Lemma nodes_keys_text nodes : nodes_wf nodes -> Forall text (d_keys nodes).
Proof.
  intros H. apply Forall_fmap. eapply Forall_impl; [apply H|]. intros [k n] Hn. simpl in *.
  rewrite (nwf_key _ _ _ Hn). apply Hn.
Qed.

Lemma loaded_graph_id now g : graph_wf g -> normalize_loaded_graph now (graph_to_dict g) = canon_graph g.
Proof.
  intros []. unfold normalize_loaded_graph.
  change (get "id" (graph_to_dict g)) with (PStr (g_id g)).
  change (get "user_id" (graph_to_dict g)) with (PStr (g_user_id g)).
  change (get "objective" (graph_to_dict g)) with (PStr (g_objective g)).
  change (get "status" (graph_to_dict g)) with (PStr (g_status g)).
  change (get "created_at" (graph_to_dict g)) with (PStr (g_created_at g)).
  change (get "updated_at" (graph_to_dict g)) with (PStr (g_updated_at g)).
  change (get "launched_at" (graph_to_dict g)) with (pnone_or_str (g_launched_at g)).
  change (get "finished_at" (graph_to_dict g)) with (pnone_or_str (g_finished_at g)).
  change (get "default_session_id" (graph_to_dict g)) with (pnone_or_str (g_default_session_id g)).
  change (get "metadata" (graph_to_dict g)) with (PDict (g_metadata g)).
  change (get "objective_gate" (graph_to_dict g)) with (PDict (gate_to_dict (g_objective_gate g))).
  change (get "objective_verification" (graph_to_dict g)) with
    (PDict (verification_to_dict (g_objective_verification g))).
  change (get "nodes" (graph_to_dict g)) with
    (PDict (map (fun kn => (fst kn, PDict (node_to_dict (snd kn)))) (g_nodes g))).
  change (get "timeline" (graph_to_dict g)) with (PList (map PDict (g_timeline g))).
  change (get "telemetry" (graph_to_dict g)) with (PDict (telemetry_to_dict (g_telemetry g))).
  cbn [as_dict as_list].
  rewrite !norm_text, !str_or_created, !opt_text_id by done.
  destruct (word_normal "planned" SUPERVISOR_GRAPH_STATUSES _ eq_refl gr_status0) as [-> ->].
  rewrite node_rows_id, (load_nodes_id (d_keys (g_nodes g))) by (done || apply gr_nodes0).
  rewrite (load_gate_id _ (g_nodes g)) by (try apply d_keys_map; try apply nodes_keys_text; done).
  rewrite load_verification_id, load_telemetry_id, dicts_id by done.
  change (List.filter _ (graph_to_dict g)) with
    (List.filter (fun kv => negb (str_in (fst kv) graph_keys)) (g_extra g)).
  rewrite extra_kept by done. by destruct g.
Qed.

(** ** An accepted request is well formed *)

Lemma fold_res_unit {B} (f : unit -> B -> res unit) l :
  fold_res f l tt = Ok tt -> forall x, x ∈ l -> f tt x = Ok tt.
Proof.
  induction l as [|y l IH]; simpl; [by intros _ ? ?%elem_of_nil|].
  destruct (f tt y) as [[]|] eqn:E; [|done]. simpl. intros H x [->|Hx]%elem_of_cons; auto.
Qed.

Lemma check_deps_known_spec nodes :
  check_deps_known nodes = Ok tt -> Forall (fun kn => n_depends_on (snd kn) ⊆ d_keys nodes) nodes.
Proof.
  unfold check_deps_known. intros H. apply Forall_forall. intros kn Hkn d Hd.
  eapply fold_res_unit in H; [|apply list_elem_of_fmap; by exists kn]. simpl in H.
  eapply fold_res_unit in H; [|done]. simpl in H.
  destruct (d_mem d nodes) eqn:E; [by apply d_mem_keys | done].
Qed.

Lemma normalize_depends_wf index node_id raw deps :
  normalize_depends index node_id raw = Ok deps -> Forall text deps /\ NoDup deps.
Proof.
  assert (forall l acc deps, Forall text acc -> NoDup acc ->
    fold_res (add_dependency index node_id) l acc = Ok deps -> Forall text deps /\ NoDup deps) as Hl.
  { induction l as [|v l IH]; intros acc ds Ha Hn H; simpl in H; [by simplify_eq|].
    unfold add_dependency in H at 1. destruct (is_empty (norm v)) eqn:E; [done|].
    destruct (String.eqb _ _); [done|]. cbn [res_bind] in H. eapply IH; [| |done].
    - apply append_new_Forall; auto with py.
    - by apply append_new_NoDup. }
  pose proof (Hl [] [] [] ltac:(constructor) ltac:(apply NoDup_nil_2) eq_refl) as Hnil.
  unfold normalize_depends. destruct raw; intros; simplify_eq; try done.
  eapply Hl; [constructor|apply NoDup_nil_2|done].
Qed.

(** A node as [create_graph] makes it, its dependencies not yet looked up. *)
Record node_fresh (now k : string) (n : node) : Prop := {
  nf_key : k = n_node_id n; nf_id : text (n_node_id n); nf_order : 0 < n_order n;
  nf_agent : text (n_agent_id n); nf_message : text (n_message n);
  nf_deps : Forall text (n_depends_on n) /\ NoDup (n_depends_on n);
  nf_status : n_status n = "planned"; nf_run_id : n_run_id n = None;
  nf_run_status : n_run_status n = None; nf_attempts : n_attempts n = 0;
  nf_created : n_created_at n = now; nf_started : n_started_at n = None;
  nf_completed : n_completed_at n = None; nf_error : n_last_error n = None }.

Lemma add_node_fresh now acc index raw acc' :
  0 <= index -> NoDup (d_keys acc) -> Forall (fun kn => node_fresh now (fst kn) (snd kn)) acc ->
  add_node now acc index raw = Ok acc' ->
  NoDup (d_keys acc') /\ Forall (fun kn => node_fresh now (fst kn) (snd kn)) acc' /\ acc' <> [].
Proof.
  intros Hi Hd Ha. unfold add_node. destruct raw; try done.
  set (nid := strip _). destruct (is_empty nid) eqn:Eid; [done|].
  destruct (d_mem nid acc) eqn:Em; [done|].
  destruct (is_empty (norm (get "agent_id" d))) eqn:Ea; [done|].
  destruct (is_empty (norm (get "message" d))) eqn:Emsg; [done|].
  destruct (normalize_depends _ _ _) as [deps|] eqn:Ed; [|done]. simpl.
  destruct (normalize_attempts _ _) as [att|]; [|done]. simpl.
  destruct (optional_object _ "budget" _) as [bud|]; [|done]. simpl.
  destruct (optional_object _ "metadata" _) as [md|]; [|done]. simpl. intros [= <-].
  split; [auto with py|]. split; [|rewrite d_set_new by done; by destruct acc].
  apply d_set_Forall; [done|]. apply normalize_depends_wf in Ed.
  constructor; simpl; auto with py; [|lia].
  split; [apply strip_stripped | by apply is_empty_false].
Qed.

Lemma add_nodes_fresh now l index acc nodes :
  0 <= index -> NoDup (d_keys acc) -> Forall (fun kn => node_fresh now (fst kn) (snd kn)) acc ->
  (l <> [] \/ acc <> []) -> add_nodes now index l acc = Ok nodes ->
  NoDup (d_keys nodes) /\ Forall (fun kn => node_fresh now (fst kn) (snd kn)) nodes /\ nodes <> [].
Proof.
  revert index acc. induction l as [|raw l IH]; intros index acc Hi Hd Ha Hne H; simpl in H.
  - simplify_eq. naive_solver.
  - destruct (add_node now acc index raw) as [acc'|] eqn:E; [|done]. simpl in H.
    apply add_node_fresh in E as (H1 & H2 & H3); [|done..]. eapply IH; [|done|done| |done]; [lia | by right].
Qed.

Lemma fresh_wf keys now k n :
  now <> "" -> n_depends_on n ⊆ keys -> node_fresh now k n -> node_wf keys k n.
Proof.
  intros Hnow Hk []. constructor; try done; try tauto; rewrite ?nf_status0, ?nf_run_id0, ?nf_run_status0,
    ?nf_created0, ?nf_started0, ?nf_completed0, ?nf_attempts0; try done. left.
Qed.

Lemma created_nodes_wf now l nodes :
  now <> "" -> l <> [] -> add_nodes now 0 l [] = Ok nodes ->
  check_deps_known nodes = Ok tt -> assert_acyclic nodes = Ok tt ->
  nodes_wf nodes /\ Forall (fun kn => node_fresh now (fst kn) (snd kn)) nodes.
Proof.
  intros Hnow Hl Hadd Hdeps Hac.
  apply add_nodes_fresh in Hadd as (Hd & Hf & Hne); [|done|apply NoDup_nil_2|constructor|by left].
  apply check_deps_known_spec in Hdeps. pose proof (assert_acyclic_spec nodes) as Ha. rewrite Hac in Ha.
  split; [|done]. constructor; try done.
  apply Forall_forall. intros kn Hkn.
  eapply fresh_wf; [done| |by apply (proj1 (Forall_forall _ _) Hf)].
  by apply (proj1 (Forall_forall _ _) Hdeps).
Qed.

Lemma required_nodes_wf nodes l acc ids :
  NoDup acc -> acc ⊆ d_keys nodes -> fold_res (add_required_node nodes) l acc = Ok ids ->
  NoDup ids /\ ids ⊆ d_keys nodes.
Proof.
  revert acc. induction l as [|v l IH]; intros acc Hn Ha H; simpl in H; [by simplify_eq|].
  unfold add_required_node in H at 1. destruct (is_empty (norm v)); [by eapply IH|].
  destruct (d_mem (norm v) nodes) eqn:E; [|done]. cbn [negb res_bind] in H.
  eapply IH; [| |done]; [by apply append_new_NoDup|].
  intros x [Hx| ->]%append_new_elem; [auto | by apply d_mem_keys].
Qed.

Lemma created_gate_wf objective nodes raw gt :
  nodes_wf nodes -> normalize_objective_gate objective nodes raw = Ok gt -> gate_wf objective nodes gt.
Proof.
  intros Hw. unfold normalize_objective_gate.
  destruct (str_in (norm_lower_or "auto" _) _) eqn:Em; [|done]. cbn [negb].
  destruct (str_in (norm_lower_or "any" _) _) eqn:Ek; [|done]. cbn [negb].
  destruct (str_in (norm_lower_or "review_required" _) _) eqn:Ef; [|done]. cbn [negb].
  destruct (20000 <? _) eqn:Emin; [done|].
  destruct (match get "required_node_ids" _ with PList l => _ | _ => _ end) as [ids|] eqn:Eids; [|done].
  cbn [res_bind]. intros [= <-].
  pose proof (known_deps_text _ Hw) as Ht. destruct Hw as [Hk Hn Ha Hne].
  assert (NoDup (leaf_node_ids nodes) /\ leaf_node_ids nodes ⊆ d_keys nodes) as Hleaf.
  { split; [by apply leaf_node_ids_NoDup|]. intros x Hx. apply leaf_node_ids_elem in Hx as [? _]; done. }
  assert (NoDup ids /\ ids ⊆ d_keys nodes) as Hids.
  { destruct (get "required_node_ids" _); simplify_eq; try done.
    eapply required_nodes_wf; [apply NoDup_nil_2 | set_solver | done]. }
  destruct Hleaf, Hids. constructor; simpl; try (by apply str_in_spec); try (by destruct ids).
  - destruct ids; [by apply leaf_exists | done].
  - bool_prop. split; [apply safe_int_nonneg | done].
  - apply add_keywords_wf; [apply NoDup_nil_2 | constructor].
Qed.

(** ** Claims *)

(** C24. The dependency-cycle check decides acyclicity: [_assert_acyclic]
    returns exactly on the graphs without a dependency cycle, and raises
    nothing but a [ValueError] otherwise; in particular the depth of its
    recursion is bounded by the number of nodes. *)
Theorem cycle_check_exact nodes :
  (assert_acyclic nodes = Ok tt <-> acyclic nodes)
  /\ forall e, assert_acyclic nodes = Err e ->
       (exists m, e = ValueError m) /\ exists x, tc (dep_edge nodes) x x.
Proof.
  pose proof (assert_acyclic_spec nodes) as H. destruct (assert_acyclic nodes) as [[]|e].
  - split; [by split | done].
  - destruct H as [H (x & Hx)]. split; [|intros ? [= <-]; eauto]. split; [done|]. intros Ha. by destruct (Ha x).
Qed.

(** Without an explicit list, the objective gate of a graph requires
    exactly its leaves, the nodes no other node depends on, and there is at
    least one. *)
Theorem default_gate_requires_leaves objective nodes gt :
  nodes_wf nodes -> normalize_objective_gate objective nodes PNone = Ok gt ->
  gt_required_node_ids gt <> []
  /\ forall x, x ∈ gt_required_node_ids gt <-> x ∈ d_keys nodes /\ forall y, ~ dep_edge nodes y x.
Proof.
  intros Hw. pose proof (known_deps_text _ Hw) as Ht. destruct Hw as [Hk Hn Ha Hne].
  pose proof (leaf_exists nodes Hk Ht Ha Hne) as Hl. cbn. intros [= <-]. cbn [gt_required_node_ids].
  destruct (leaf_node_ids nodes) as [|l0 ls] eqn:E; [done|]. split; [done|]. intros x. rewrite <- E.
  by apply leaf_node_ids_elem.
Qed.

Lemma one_node_wf id :
  text id -> nodes_wf [(id, Node id 1 "a" "m" [] PNone None [] "planned" None None 0 "t" None None None)].
Proof.
  intros Hid. constructor; simpl.
  - apply NoDup_singleton.
  - constructor; [|done]. constructor; simpl; try done; try constructor; try done; lia.
  - intros x Hx. assert (forall y, ~ dep_edge [(id, Node id 1 "a" "m" [] PNone None [] "planned" None None 0 "t" None None None)] x y) as Hno.
    { intros y. unfold dep_edge, deps_of. simpl. destruct (String.eqb x id); simpl; by intros ?%elem_of_nil. }
    inversion Hx; subst; by eapply Hno.
  - done.
Qed.

Lemma default_gate_requires_leaves_witness :
  exists gt, normalize_objective_gate "tidy the archive"
               [("n1", Node "n1" 1 "a" "m" [] PNone None [] "planned" None None 0 "t" None None None)] PNone = Ok gt
             /\ gt_required_node_ids gt <> [].
Proof.
  eexists. split; [reflexivity|].
  apply (default_gate_requires_leaves "tidy the archive"
    [("n1", Node "n1" 1 "a" "m" [] PNone None [] "planned" None None 0 "t" None None None)]);
    [by apply one_node_wf | reflexivity].
Defined.

End SupervisorDataFacts.
