(* ===== verification/SupervisorSteps.v ===== *)
(** The life of a supervisor graph as a step relation: what one move of a
    node is allowed to do, which changes of a graph move no node, and the
    invariant every move keeps.  The helpers of the manager are shown to make
    only these steps, for any agent manager. *)

From stdpp Require Import prelude strings list relations.
From Stdlib Require Import Lia ZArith Ascii.
From S2P Require Import Prelude PyStr PyVal Effects PyTime SupervisorData SupervisorDataFacts Supervisor.
Import SupervisorData SupervisorDataFacts Supervisor.

Module SupervisorSteps.

(** ** One node *)

Definition status_of (nodes : dict node) (k : string) : option string := n_status <$> d_get k nodes.

Definition RUN_STATUSES : list string := RUN_ACTIVE_STATUSES ++ RUN_TERMINAL_STATUSES.
Definition BLOCKING : list string := ["failed"; "canceled"; "blocked"].

(** What the request fixed of a node stays. *)
Definition same_spec (n n' : node) : Prop :=
  n_node_id n' = n_node_id n /\ n_order n' = n_order n /\ n_agent_id n' = n_agent_id n
  /\ n_message n' = n_message n /\ n_depends_on n' = n_depends_on n
  /\ n_max_attempts n' = n_max_attempts n /\ n_budget n' = n_budget n
  /\ n_created_at n' = n_created_at n.

(** A node may be started: planned, without a run, its dependencies done. *)
Record ready (nodes : dict node) (n : node) : Prop := {
  rdy_status : n_status n = "planned";
  rdy_run : n_run_id n = None;
  rdy_deps : forall d, d ∈ n_depends_on n -> status_of nodes d = Some "succeeded" }.

Inductive move (nodes : dict node) (n n' : node) : Prop :=
  (** its run was created, in any status of a run *)
  | mv_start :
      ready nodes n -> n_run_id n' <> None -> n_attempts n' = n_attempts n + 1 ->
      n_status n' ∈ RUN_STATUSES -> n_run_status n' = Some (n_status n') -> n_started_at n' <> None ->
      (n_completed_at n' = None <-> n_status n' ∈ RUN_ACTIVE_STATUSES) -> move nodes n n'
  (** creating the run failed *)
  | mv_reject :
      ready nodes n -> n_run_id n' = n_run_id n -> n_attempts n' = n_attempts n ->
      n_status n' = "failed" -> n_run_status n' = Some "failed" -> n_started_at n' = n_started_at n ->
      n_completed_at n' <> None -> move nodes n n'
  (** the circuit breaker held it back *)
  | mv_hold :
      ready nodes n -> n_run_id n' = n_run_id n -> n_attempts n' = n_attempts n ->
      n_status n' = "planned" -> n_run_status n' = None -> n_started_at n' = None ->
      n_completed_at n' = None -> move nodes n n'
  (** its run was looked at *)
  | mv_refresh :
      n_status n ∈ RUN_ACTIVE_STATUSES -> n_run_id n' = n_run_id n -> n_attempts n' = n_attempts n ->
      n_status n' ∈ RUN_STATUSES -> n_run_status n' = Some (n_status n') ->
      (n_started_at n <> None -> n_started_at n' <> None) ->
      (n_completed_at n = None -> n_completed_at n' = None <-> n_status n' ∈ RUN_ACTIVE_STATUSES) ->
      move nodes n n'
  (** a dependency cannot succeed any more *)
  | mv_block d s :
      n_status n = "planned" -> d ∈ n_depends_on n -> status_of nodes d = Some s -> s ∈ BLOCKING ->
      n_run_id n' = n_run_id n -> n_attempts n' = n_attempts n -> n_status n' = "blocked" ->
      n_run_status n' = None -> n_started_at n' = n_started_at n -> n_completed_at n' <> None ->
      move nodes n n'.

(** A move of a node in the dictionary of nodes. *)
Record transition (nodes : dict node) (n n' : node) : Prop := {
  tr_spec : same_spec n n';
  tr_run_id : opt_text (n_run_id n) -> opt_text (n_run_id n');
  tr_run_status : opt_text (n_run_status n) -> opt_text (n_run_status n');
  tr_started : opt_text (n_started_at n) -> opt_text (n_started_at n');
  tr_completed : opt_text (n_completed_at n) -> opt_text (n_completed_at n');
  tr_move : move nodes n n' }.

(** ** A graph *)

(** The parts of a graph fixed at creation. *)
Definition frame (g g' : graph) : Prop :=
  g_id g' = g_id g /\ g_user_id g' = g_user_id g /\ g_objective g' = g_objective g
  /\ g_created_at g' = g_created_at g /\ g_metadata g' = g_metadata g
  /\ g_objective_gate g' = g_objective_gate g /\ g_extra g' = g_extra g.

(** Well-formedness of the parts of a graph other than its nodes that change. *)
Record mutable_wf (g : graph) : Prop := {
  mw_status : g_status g ∈ SUPERVISOR_GRAPH_STATUSES;
  mw_updated : g_updated_at g <> "";
  mw_launched : opt_text (g_launched_at g);
  mw_finished : opt_text (g_finished_at g);
  mw_session : opt_text (g_default_session_id g);
  mw_verification : verification_wf (g_objective_verification g);
  mw_telemetry : telemetry_wf (g_telemetry g);
  mw_timeline : Z.of_nat (length (g_timeline g)) <= 10000 }.

(** A change that moves no node and counts no run. *)
Record quiet (g g' : graph) : Prop := {
  q_frame : frame g g';
  q_nodes : g_nodes g' = g_nodes g;
  q_started : t_runs_started (g_telemetry g') = t_runs_started (g_telemetry g);
  q_completed : t_runs_completed (g_telemetry g') = t_runs_completed (g_telemetry g);
  q_wf : mutable_wf g -> mutable_wf g' }.

Definition bool_Z (b : bool) : Z := if b then 1 else 0.
Definition succeeded (n : node) : bool := String.eqb (n_status n) "succeeded".

Inductive gstep (g g' : graph) : Prop :=
  | gs_quiet : quiet g g' -> gstep g g'
  | gs_node k n n' :
      d_get k (g_nodes g) = Some n -> transition (g_nodes g) n n' ->
      g' = set_g_nodes (d_set k n' (g_nodes g))
             (set_g_telemetry
                (Telemetry (t_ticks (g_telemetry g))
                   (t_runs_started (g_telemetry g) + (n_attempts n' - n_attempts n))
                   (t_runs_completed (g_telemetry g) + bool_Z (succeeded n'))
                   (t_last_tick_at (g_telemetry g))) g) ->
      gstep g g'.

(** ** The invariant *)

(** The fields of a node agree with its status; it has one attempt when it has
    a run and none otherwise. *)
Inductive lifecycle (n : node) : Prop :=
  | life_planned : n_status n = "planned" -> n_run_id n = None -> n_run_status n = None ->
      n_attempts n = 0 -> n_started_at n = None -> n_completed_at n = None -> lifecycle n
  | life_active : n_status n ∈ RUN_ACTIVE_STATUSES -> n_run_id n <> None ->
      n_run_status n = Some (n_status n) -> n_attempts n = 1 -> n_started_at n <> None ->
      n_completed_at n = None -> lifecycle n
  | life_done : n_status n ∈ RUN_TERMINAL_STATUSES -> n_run_id n <> None ->
      n_run_status n = Some (n_status n) -> n_attempts n = 1 -> n_started_at n <> None ->
      n_completed_at n <> None -> lifecycle n
  | life_rejected : n_status n = "failed" -> n_run_id n = None -> n_run_status n = Some "failed" ->
      n_attempts n = 0 -> n_started_at n = None -> n_completed_at n <> None -> lifecycle n
  | life_blocked : n_status n = "blocked" -> n_run_id n = None -> n_run_status n = None ->
      n_attempts n = 0 -> n_started_at n = None -> n_completed_at n <> None -> lifecycle n.

(** A node that left [planned] had all its dependencies done, or is blocked by
    one that cannot succeed. *)
Definition dep_safe (nodes : dict node) (n : node) : Prop :=
  (n_status n ∈ RUN_STATUSES -> forall d, d ∈ n_depends_on n -> status_of nodes d = Some "succeeded")
  /\ (n_status n = "blocked" ->
      exists d s, d ∈ n_depends_on n /\ status_of nodes d = Some s /\ s ∈ BLOCKING).

Definition node_inv (nodes : dict node) (n : node) : Prop := lifecycle n /\ dep_safe nodes n.

Definition sum_of (f : node -> Z) (nodes : dict node) : Z := foldr (fun kn acc => f (snd kn) + acc) 0 nodes.

Record graph_inv (g : graph) : Prop := {
  inv_wf : graph_wf g;
  inv_timeline : Z.of_nat (length (g_timeline g)) <= 10000;
  inv_nodes : Forall (fun kn => node_inv (g_nodes g) (snd kn)) (g_nodes g);
  inv_started : t_runs_started (g_telemetry g) = sum_of n_attempts (g_nodes g);
  inv_completed : t_runs_completed (g_telemetry g) = sum_of (fun n => bool_Z (succeeded n)) (g_nodes g) }.

(** ** The steps keep the invariant *)

(** Case analysis on membership in the lists of statuses. *)
Ltac statuses :=
  unfold RUN_STATUSES, RUN_ACTIVE_STATUSES, RUN_TERMINAL_STATUSES, BLOCKING in *; cbn [app] in *;
  repeat match goal with
  | H : _ ∈ _ :: _ |- _ => apply elem_of_cons in H as [H|H]
  | H : _ ∈ [] |- _ => by apply elem_of_nil in H
  end;
  rewrite ?elem_of_cons; try congruence; try tauto.

Lemma status_of_set nodes k n d :
  status_of (d_set k n nodes) d = if String.eqb k d then Some (n_status n) else status_of nodes d.
Proof. unfold status_of. rewrite d_get_set. by destruct (String.eqb k d). Qed.

Lemma sum_of_set f nodes k n n' :
  d_get k nodes = Some n -> sum_of f (d_set k n' nodes) = sum_of f nodes + (f n' - f n).
Proof.
  induction nodes as [|[k0 n0] nodes IH]; simpl; [done|].
  destruct (String.eqb k k0); intros H; simplify_eq; simpl; [lia|]. rewrite IH by done. lia.
Qed.

(** A finished node does not move. *)
Lemma move_from nodes n n' :
  move nodes n n' -> n_status n = "planned" \/ n_status n ∈ RUN_ACTIVE_STATUSES.
Proof. destruct 1; eauto using rdy_status. Qed.

Lemma active_or_done s : s ∈ RUN_STATUSES -> s ∈ RUN_ACTIVE_STATUSES \/ s ∈ RUN_TERMINAL_STATUSES.
Proof. unfold RUN_STATUSES. by rewrite elem_of_app. Qed.


Lemma lifecycle_planned n :
  lifecycle n -> n_status n = "planned" ->
  n_run_id n = None /\ n_run_status n = None /\ n_attempts n = 0 /\ n_started_at n = None
  /\ n_completed_at n = None.
Proof. destruct 1; intros; (done || statuses). Qed.

Lemma lifecycle_active n :
  lifecycle n -> n_status n ∈ RUN_ACTIVE_STATUSES ->
  n_run_id n <> None /\ n_attempts n = 1 /\ n_started_at n <> None /\ n_completed_at n = None.
Proof. destruct 1; intros; (done || statuses). Qed.

Lemma move_lifecycle nodes n n' : lifecycle n -> move nodes n n' -> lifecycle n'.
Proof.
  intros Hl Hm. destruct Hm as [Hr ? Ha Hs ? ? Hc|Hr Hi Ha| Hr Hi Ha|Hact Hi Ha Hs ? Hst Hc|d s Hp ? ? ? Hi Ha].
  1-3: pose proof (lifecycle_planned _ Hl (rdy_status _ _ Hr)) as (Q1 & Q2 & Q3 & Q4 & Q5).
  - apply active_or_done in Hs as [Hs|Hs].
    + apply life_active; try done; [lia | by apply Hc].
    + apply life_done; try done; [lia|]. intros E%Hc. statuses.
  - apply life_rejected; try done; congruence.
  - apply life_planned; try done; congruence.
  - destruct (lifecycle_active _ Hl Hact) as (Q1 & Q2 & Q3 & Q4). specialize (Hst Q3). specialize (Hc Q4).
    apply active_or_done in Hs as [Hs|Hs].
    + apply life_active; try done; [congruence | congruence | by apply Hc].
    + apply life_done; try done; [congruence | congruence |]. intros E%Hc. statuses.
  - pose proof (lifecycle_planned _ Hl Hp) as (Q1 & Q2 & Q3 & Q4 & Q5).
    apply life_blocked; try done; congruence.
Qed.

(** Moving one node keeps the dependencies of every other node in order. *)
Lemma move_dep_safe nodes k n n' m :
  d_get k nodes = Some n -> move nodes n n' -> dep_safe nodes m -> dep_safe (d_set k n' nodes) m.
Proof.
  intros Hk Hm [H1 H2].
  assert (status_of nodes k = Some (n_status n)) as Hst by (unfold status_of; by rewrite Hk).
  apply move_from in Hm.
  split.
  - intros Hs d Hd. specialize (H1 Hs d Hd). rewrite status_of_set.
    destruct (String.eqb_spec k d) as [<-|]; [|done]. destruct Hm; [congruence|].
    assert (n_status n = "succeeded") by congruence. statuses.
  - intros Hb. destruct (H2 Hb) as (d & s & Hd & Hs & Hsb). exists d, s. split; [done|]. split; [|done].
    rewrite status_of_set. destruct (String.eqb_spec k d) as [<-|]; [|done].
    assert (n_status n = s) by congruence. subst s. destruct Hm as [E|E]; [rewrite E in Hsb|]; statuses.
Qed.

(** The moved node itself, in a graph where no node depends on itself. *)
Lemma moved_dep_safe nodes k n n' :
  n_depends_on n' = n_depends_on n -> k ∉ n_depends_on n ->
  dep_safe nodes n -> move nodes n n' -> dep_safe (d_set k n' nodes) n'.
Proof.
  intros Hd Hself [H1 H2] Hm.
  assert (forall d s, d ∈ n_depends_on n -> status_of nodes d = Some s ->
            status_of (d_set k n' nodes) d = Some s) as Hkeep.
  { intros d s Hin Hs. rewrite status_of_set. destruct (String.eqb_spec k d) as [<-|]; done. }
  unfold dep_safe. rewrite Hd.
  destruct Hm as [Hr ? ? Hs|Hr ? ? Hs|Hr ? ? Hs|Ha ? ? Hs|d s Hp Hin Hst Hb ? ? Hs];
    (split; [intros Hs'|intros Hb']).
  all: try (intros d' Hin'; apply Hkeep; [done|]; by apply (rdy_deps _ _ Hr)).
  all: try (exfalso; rewrite ?Hs in *; solve [statuses]).
  - intros d' Hin'. apply Hkeep; [done|]. apply H1; [statuses | done].
  - exists d, s. auto.
Qed.

Lemma deps_of_set nodes k n n' x :
  d_get k nodes = Some n -> n_depends_on n' = n_depends_on n ->
  deps_of (d_set k n' nodes) x = deps_of nodes x.
Proof.
  intros Hk Hd. unfold deps_of. rewrite d_get_set.
  destruct (String.eqb_spec k x) as [<-|]; [by rewrite Hk | done].
Qed.

Lemma acyclic_ext nodes nodes' :
  (forall x, deps_of nodes' x = deps_of nodes x) -> acyclic nodes -> acyclic nodes'.
Proof.
  intros He Ha x Hx. apply (Ha x).
  assert (forall a b, tc (dep_edge nodes') a b -> tc (dep_edge nodes) a b) as Hs; [|by apply Hs].
  induction 1 as [a b Hab|a b c Hab Hbc IH]; unfold dep_edge in Hab; rewrite He in Hab.
  - by apply tc_once.
  - by eapply tc_l.
Qed.

Lemma no_self_dep nodes k n : acyclic nodes -> d_get k nodes = Some n -> k ∉ n_depends_on n.
Proof.
  intros Ha Hk Hin. apply (Ha k), tc_once. unfold dep_edge, deps_of. by rewrite Hk.
Qed.

Lemma get_node_wf nodes k n : nodes_wf nodes -> d_get k nodes = Some n -> node_wf (d_keys nodes) k n.
Proof.
  intros H Hk. apply d_get_elem in Hk. apply (proj1 (Forall_forall _ _) (nds_nodes _ H) _ Hk).
Qed.

Lemma transition_node_wf nodes keys k n n' : node_wf keys k n -> transition nodes n n' -> node_wf keys k n'.
Proof.
  intros [] [(E1 & E2 & E3 & E4 & E5 & E6 & E7 & E8) ? ? ? ? Hm].
  constructor; rewrite ?E1, ?E2, ?E3, ?E4, ?E5, ?E8; auto.
  - unfold SUPERVISOR_NODE_STATUSES. destruct Hm as [? ? ? Hs|? ? ? Hs|? ? ? Hs|? ? ? Hs|? ? ? ? ? ? ? ? Hs];
      statuses.
  - destruct Hm as [? ? Ha|? ? Ha|? ? Ha|? ? Ha|? ? ? ? ? ? ? Ha]; lia.
Qed.

Lemma set_node_wf nodes k n n' :
  nodes_wf nodes -> d_get k nodes = Some n -> n_depends_on n' = n_depends_on n ->
  node_wf (d_keys nodes) k n' -> nodes_wf (d_set k n' nodes).
Proof.
  intros [Hd Hn Ha Hne] Hk Hdep Hw.
  assert (d_keys (d_set k n' nodes) = d_keys nodes) as Hkeys.
  { apply d_keys_set_in. by eapply d_get_Some_mem. }
  constructor.
  - by rewrite Hkeys.
  - rewrite Hkeys. by apply d_set_Forall.
  - eapply acyclic_ext; [|done]. intros x. by eapply deps_of_set.
  - intros E. rewrite E in Hkeys. by destruct nodes.
Qed.

Lemma gate_wf_keys o nodes nodes' gt : d_keys nodes' = d_keys nodes -> gate_wf o nodes gt -> gate_wf o nodes' gt.
Proof. intros E []. constructor; try done. by rewrite E. Qed.

Lemma graph_wf_mutable g :
  graph_wf g -> Z.of_nat (length (g_timeline g)) <= 10000 -> mutable_wf g.
Proof. by intros [] ?; constructor. Qed.

Lemma quiet_inv g g' : graph_inv g -> quiet g g' -> graph_inv g'.
Proof.
  intros [Hw Ht Hn Hs Hc] [(E1 & E2 & E3 & E4 & E5 & E6 & E7) En Es Ec Hq].
  destruct (Hq (graph_wf_mutable _ Hw Ht)). destruct Hw.
  constructor; rewrite ?En, ?Es, ?Ec; try done.
  constructor; rewrite ?E1, ?E2, ?E3, ?E4, ?E6, ?E7, ?En; done.
Qed.

Lemma node_step_wf g k n n' tel :
  graph_wf g -> d_get k (g_nodes g) = Some n -> transition (g_nodes g) n n' -> telemetry_wf tel ->
  graph_wf (set_g_nodes (d_set k n' (g_nodes g)) (set_g_telemetry tel g)).
Proof.
  intros [] Hk Ht Htel. pose proof (get_node_wf _ _ _ gr_nodes0 Hk) as Hnw.
  constructor; simpl; try done.
  - eapply gate_wf_keys; [|done]. apply d_keys_set_in. by eapply d_get_Some_mem.
  - eapply set_node_wf; [done|done| |by eapply transition_node_wf]. apply Ht.
Qed.

Lemma move_attempts nodes n n' : move nodes n n' -> n_attempts n' = n_attempts n \/ n_attempts n' = n_attempts n + 1.
Proof. destruct 1; auto. Qed.

Lemma move_not_succeeded nodes n n' : move nodes n n' -> succeeded n = false.
Proof.
  intros Hm%move_from. unfold succeeded. apply String.eqb_neq. destruct Hm as [->|Hs]; [done|]. statuses.
Qed.

Lemma node_step_inv g g' k n n' :
  graph_inv g -> d_get k (g_nodes g) = Some n -> transition (g_nodes g) n n' ->
  g' = set_g_nodes (d_set k n' (g_nodes g))
         (set_g_telemetry (Telemetry (t_ticks (g_telemetry g))
            (t_runs_started (g_telemetry g) + (n_attempts n' - n_attempts n))
            (t_runs_completed (g_telemetry g) + bool_Z (succeeded n'))
            (t_last_tick_at (g_telemetry g))) g) ->
  graph_inv g'.
Proof.
  intros [Hw Ht Hn Hs Hc] Hk Htr ->. pose proof (tr_move _ _ _ Htr) as Hm.
  assert (node_inv (g_nodes g) n) as [Hl Hsafe].
  { apply d_get_elem in Hk. apply (proj1 (Forall_forall _ _) Hn _ Hk). }
  pose proof (no_self_dep _ _ _ (nds_acyclic _ (gr_nodes _ Hw)) Hk) as Hself.
  constructor; cbn [g_nodes g_telemetry set_g_nodes set_g_telemetry g_timeline t_runs_started t_runs_completed].
  - eapply node_step_wf; [done..|]. destruct (gr_telemetry _ Hw). constructor; simpl; try done.
    + destruct (move_attempts _ _ _ Hm); lia.
    + unfold bool_Z. destruct (succeeded n'); lia.
  - done.
  - apply d_set_Forall.
    + eapply Forall_impl; [exact Hn|]. intros [k' m] [Hlm Hdm]. split; [done|]. by eapply move_dep_safe.
    + split; [by eapply move_lifecycle|]. eapply moved_dep_safe; [apply Htr|done..].
  - rewrite (sum_of_set _ _ _ n) by done. lia.
  - rewrite (sum_of_set _ _ _ n) by done. rewrite (move_not_succeeded _ _ _ Hm). simpl. lia.
Qed.

Lemma gstep_inv g g' : graph_inv g -> gstep g g' -> graph_inv g'.
Proof. intros Hg [Hq|k n n' Hk Ht E]; [by eapply quiet_inv | by eapply node_step_inv]. Qed.

Lemma gsteps_inv g g' : graph_inv g -> rtc gstep g g' -> graph_inv g'.
Proof. intros Hg. induction 1; [done|]. eauto using gstep_inv. Qed.

End SupervisorSteps.
