(* ===== verification/SupervisorHelpers.v ===== *)
(** The helpers of the supervisor make only steps of the graph's step
    relation, return normally on a well-formed graph and leave the database
    alone.  A small weakest-precondition calculus over the graph runs the
    helpers symbolically, for any environment. *)

From stdpp Require Import prelude strings list relations.
From Stdlib Require Import Lia ZArith Ascii.
From S2P Require Import Prelude PyStr PyVal Effects PyTime SupervisorData SupervisorDataFacts Supervisor SupervisorSteps.
Import SupervisorData SupervisorDataFacts Supervisor SupervisorSteps.

Module SupervisorHelpers.

Section helpers.
Context {AM : Type} {HAM : AgentManager AM} {DB : Type} {HDB : GraphStore DB}.
Context (clock : nat -> Z) (uuid : nat -> string) (cfg : config).
Implicit Types (g : graph) (request_id actor : option string).

(** Whatever the environment, [m] run on [g] ends in [Q]. *)
Definition wpg {A} (m : M (@gstate AM DB) A) (g : graph) (Q : res A -> graph -> Prop) : Prop :=
  forall e, let '(r, s) := m (GState g e) in Q r (gs_graph s).

Lemma wpg_bind {A B} (m : M _ A) (f : A -> M _ B) g Q :
  wpg m g (fun r g' => match r with Ok a => wpg (f a) g' Q | Err e => Q (Err e) g' end) ->
  wpg (bind m f) g Q.
Proof.
  intros H e. specialize (H e). unfold bind. destruct (m (GState g e)) as [[a|x] [g' e']]; [|done].
  exact (H e').
Qed.
Lemma wpg_ret {A} (a : A) g (Q : res A -> graph -> Prop) : Q (Ok a) g -> wpg (ret a) g Q.
Proof. by intros H e. Qed.
Lemma wpg_raise {A} x g (Q : res A -> graph -> Prop) : Q (Err x) g -> wpg (raise x) g Q.
Proof. by intros H e. Qed.
Lemma wpg_lift {A} (r : res A) g (Q : res A -> graph -> Prop) : Q r g -> wpg (lift r) g Q.
Proof. by intros H e. Qed.
Lemma wpg_read g (Q : res graph -> graph -> Prop) : Q (Ok g) g -> wpg the_graph g Q.
Proof. by intros H e. Qed.
Lemma wpg_upd f g (Q : res unit -> graph -> Prop) : Q (Ok tt) (f g) -> wpg (upd f) g Q.
Proof. by intros H e. Qed.
Lemma wpg_now g (Q : res string -> graph -> Prop) :
  (forall t, Q (Ok (isoformat t)) g) -> wpg (utcnow_iso clock) g Q.
Proof. intros H e. apply H. Qed.
Lemma wpg_env {A} (m : M env A) g (Q : res A -> graph -> Prop) : (forall r, Q r g) -> wpg (on_env m) g Q.
Proof. intros H e. unfold on_env. simpl. destruct (m e) as [r e']. apply H. Qed.
Lemma wpg_raise_if b x g (Q : res unit -> graph -> Prop) :
  (b = true -> Q (Err x) g) -> (b = false -> Q (Ok tt) g) -> wpg (raise_if b x) g Q.
Proof. intros H1 H2. destruct b; intros e; [by apply H1 | by apply H2]. Qed.
Lemma wpg_when b m g (Q : res unit -> graph -> Prop) :
  (b = true -> wpg m g Q) -> (b = false -> Q (Ok tt) g) -> wpg (when b m) g Q.
Proof. intros H1 H2. destruct b; [by apply H1 | intros e; by apply H2]. Qed.
Lemma wpg_try {A} (m : M _ A) h g Q :
  wpg m g (fun r g' => match r with Ok a => Q (Ok a) g' | Err x => wpg (h x) g' Q end) ->
  wpg (try_except m h) g Q.
Proof.
  intros H e. specialize (H e). unfold try_except. destruct (m (GState g e)) as [[a|x] [g' e']]; [done|].
  exact (H e').
Qed.
Lemma wpg_conseq {A} (m : M _ A) g (Q Q' : res A -> graph -> Prop) :
  wpg m g Q' -> (forall r g', Q' r g' -> Q r g') -> wpg m g Q.
Proof. intros H HQ e. specialize (H e). destruct (m (GState g e)) as [r s]. auto. Qed.

(** A loop whose turns return and keep an invariant of the graph. *)
Lemma wpg_for_each {X} (I : graph -> Prop) (l : list X) f g :
  I g -> (forall x g', x ∈ l -> I g' -> wpg (f x) g' (fun r g'' => r = Ok tt /\ I g'')) ->
  wpg (for_each l f) g (fun r g' => r = Ok tt /\ I g').
Proof.
  revert g. induction l as [|x l IH]; intros g Hg H; simpl; [by apply wpg_ret|].
  apply wpg_bind. eapply wpg_conseq; [apply H; [left | done]|].
  intros r g' [-> Hg']. apply IH; [done|]. intros y g'' Hy. apply H. by right.
Qed.

(** An environment action that returns a value with a property. *)
Lemma wpg_env_ok {A} (m : M env A) g (Q : res A -> graph -> Prop) :
  (forall e, exists a e', m e = (Ok a, e') /\ Q (Ok a) g) -> wpg (on_env m) g Q.
Proof. intros H e. unfold on_env. simpl. by destruct (H e) as (a & e' & -> & ?). Qed.

(** Reading the calculus at a run. *)
Lemma wpg_elim {A} (m : M _ A) g Q e : wpg m g Q -> Q (fst (m (GState g e))) (gs_graph (snd (m (GState g e)))).
Proof. intros H. specialize (H e). by destruct (m (GState g e)). Qed.

(** The environment actions that never raise. *)
Definition quiet_env {A} (m : M (@env AM DB) A) : Prop := forall e, exists a e', m e = (Ok a, e').

Lemma wpg_quiet {A} (m : M env A) g (Q : res A -> graph -> Prop) :
  quiet_env m -> (forall a, Q (Ok a) g) -> wpg (on_env m) g Q.
Proof. intros Hm H e. unfold on_env. simpl. destruct (Hm e) as (a & e' & ->). apply H. Qed.

Lemma emit_quiet event payload : quiet_env (env_emit cfg event payload).
Proof. intros e. unfold env_emit. eauto. Qed.

Lemma get_run_quiet run_id :
  quiet_env (fun e : env => let '(r, e') := env_get_run run_id e in (Ok r, e')).
Proof. intros e. destruct (env_get_run run_id e). eauto. Qed.
End helpers.

#[global] Opaque wpg.

(** Runs a helper up to the next call of another one. *)
Ltac wpg_run :=
  repeat (cbn beta iota;
    match goal with
    | |- wpg (bind _ _) _ _ => apply wpg_bind
    | |- wpg (ret _) _ _ => apply wpg_ret
    | |- wpg (raise _) _ _ => apply wpg_raise
    | |- wpg (lift _) _ _ => apply wpg_lift
    | |- wpg the_graph _ _ => apply wpg_read
    | |- wpg (upd _) _ _ => apply wpg_upd
    | |- wpg (utcnow_iso _) _ _ => apply wpg_now; intros ?
    | |- wpg (on_env (env_emit _ _ _)) _ _ => apply wpg_quiet; [apply emit_quiet | intros []]
    | |- wpg (on_env (fun _ => _)) _ _ => apply wpg_quiet; [apply get_run_quiet | intros ?]
    | |- wpg (raise_if _ _) _ _ => apply wpg_raise_if; intros ?
    end).

(** A change of the parts no node depends on. *)
Ltac quiet_change :=
  constructor; [repeat split | done | done | done |];
  intros []; constructor; cbn [g_status g_updated_at g_launched_at g_finished_at g_default_session_id
    g_objective_verification g_telemetry g_timeline set_g_status set_g_updated_at set_g_launched_at
    set_g_finished_at set_g_default_session_id set_g_objective_verification set_g_timeline set_g_telemetry];
  auto with py.

(** Reads the fields of an updated node. *)
Ltac node_fields :=
  cbn [n_node_id n_order n_agent_id n_message n_depends_on n_max_attempts n_budget n_metadata n_status
       n_run_id n_run_status n_attempts n_created_at n_started_at n_completed_at n_last_error
       set_n_metadata set_n_status set_n_run_id set_n_run_status set_n_attempts set_n_started_at
       set_n_completed_at set_n_last_error].

Lemma isoformat_nonempty t : isoformat t <> "".
Proof. apply isoformat_text. Qed.
#[export] Hint Resolve isoformat_nonempty : py.

Lemma opt_text_some s : text s -> opt_text (Some s).
Proof. done. Qed.
#[export] Hint Resolve opt_text_some : py.

Lemma opt_text_none : opt_text None.
Proof. done. Qed.
#[export] Hint Resolve opt_text_none : py.

Lemma quiet_refl g : quiet g g.
Proof. by constructor. Qed.

Lemma quiet_trans g1 g2 g3 : quiet g1 g2 -> quiet g2 g3 -> quiet g1 g3.
Proof.
  intros [(A1 & A2 & A3 & A4 & A5 & A6 & A7) A8 A9 A10 A11] [(B1 & B2 & B3 & B4 & B5 & B6 & B7) B8 B9 B10 B11].
  constructor; [repeat split | | | |]; try congruence. auto.
Qed.

Lemma quiet_steps g g' : quiet g g' -> rtc gstep g g'.
Proof. intros. by apply rtc_once, gs_quiet. Qed.

Lemma truncated_length {A} (l : list A) :
  Z.of_nat (length (drop (Z.to_nat (Z.of_nat (length l) - 10000)) l)) <= 10000.
Proof. rewrite length_drop. lia. Qed.

(** ** The status of a graph, from its nodes and its verification *)

Definition any_node (l : list string) (nodes : dict node) : bool :=
  existsb (fun kn => str_in (n_status (snd kn)) l) nodes.
Definition all_succeeded (nodes : dict node) : bool := forallb (fun kn => succeeded (snd kn)) nodes.
Definition TERMINAL_GRAPH : list string := ["succeeded"; "failed"; "canceled"].

Definition derived_status (g : graph) : string :=
  if all_succeeded (g_nodes g) then
    (if str_in (v_status (g_objective_verification g)) ["passed"; "skipped"] then "succeeded"
     else if String.eqb (v_status (g_objective_verification g)) "failed" then "failed"
     else "review_required")
  else if any_node ["failed"] (g_nodes g) then "failed"
  else if any_node ["planned"; "queued"; "running"] (g_nodes g) then
    (match g_launched_at g with Some _ => "running" | None => "planned" end)
  else if any_node ["blocked"] (g_nodes g) then "failed"
  else "canceled".

(** The status is the derived one, the finish time is set exactly on a
    finished graph, and a graph whose nodes all succeeded was verified. *)
Record status_sound (g : graph) : Prop := {
  ss_status : g_status g = derived_status g;
  ss_finished : g_finished_at g <> None <-> g_status g ∈ TERMINAL_GRAPH;
  ss_verified : all_succeeded (g_nodes g) = true -> v_status (g_objective_verification g) <> "pending" }.

Lemma existsb_perm {A} (f : A -> bool) l l' : l ≡ₚ l' -> existsb f l = existsb f l'.
Proof.
  intros H. apply eq_true_iff_eq. rewrite !existsb_exists. split; intros (x & Hx & Hf); exists x; (split; [|done]);
    apply list_elem_of_In; apply list_elem_of_In in Hx; [by rewrite <- H | by rewrite H].
Qed.

Lemma forallb_perm {A} (f : A -> bool) l l' : l ≡ₚ l' -> forallb f l = forallb f l'.
Proof.
  intros H. apply eq_true_iff_eq. rewrite !forallb_forall. split; intros Hf x Hx; apply Hf;
    apply list_elem_of_In; apply list_elem_of_In in Hx; [by rewrite H | by rewrite <- H].
Qed.

Lemma existsb_map {A B} (f : B -> bool) (h : A -> B) l : existsb f (map h l) = existsb (fun x => f (h x)) l.
Proof. induction l as [|x l IH]; simpl; [done|]. by rewrite IH. Qed.

Lemma forallb_map {A B} (f : B -> bool) (h : A -> B) l : forallb f (map h l) = forallb (fun x => f (h x)) l.
Proof. induction l as [|x l IH]; simpl; [done|]. by rewrite IH. Qed.

(** The statuses [_sync_graph_status] looks at. *)
Definition ordered_statuses (nodes : dict node) : list string := map n_status (d_values (iter_nodes nodes)).

Lemma ordered_statuses_perm nodes : ordered_statuses nodes ≡ₚ map (fun kn => n_status (snd kn)) nodes.
Proof.
  unfold ordered_statuses, d_values, fmap. rewrite map_map. apply Permutation_map, sort_by_perm.
Qed.

Lemma ordered_any l nodes : existsb (fun s => str_in s l) (ordered_statuses nodes) = any_node l nodes.
Proof. rewrite (existsb_perm _ _ _ (ordered_statuses_perm nodes)). apply existsb_map. Qed.

Lemma ordered_has s nodes : str_in s (ordered_statuses nodes) = any_node [s] nodes.
Proof.
  rewrite <- ordered_any. unfold str_in at 1. induction (ordered_statuses nodes) as [|x l IH]; simpl; [done|].
  rewrite IH, orb_false_r. f_equal. apply eq_true_iff_eq. rewrite !String.eqb_eq. by split.
Qed.

Lemma ordered_all nodes : forallb (String.eqb "succeeded") (ordered_statuses nodes) = all_succeeded nodes.
Proof.
  rewrite (forallb_perm _ _ _ (ordered_statuses_perm nodes)), forallb_map. unfold all_succeeded, succeeded.
  induction nodes as [|kn nodes IH]; cbn [forallb]; [done|]. by rewrite IH, String.eqb_sym.
Qed.

Lemma ordered_nonempty nodes : nodes <> [] -> ordered_statuses nodes <> [].
Proof.
  intros Hne E. pose proof (ordered_statuses_perm nodes) as H. rewrite E in H.
  apply Permutation_nil in H. by destruct nodes.
Qed.

(** Every node has one of the statuses, so some case of the code applies. *)
Lemma statuses_cover nodes :
  Forall (fun kn => n_status (snd kn) ∈ SUPERVISOR_NODE_STATUSES) nodes ->
  all_succeeded nodes = false -> any_node ["failed"] nodes = false ->
  any_node ["planned"; "queued"; "running"] nodes = false -> any_node ["blocked"] nodes = false ->
  any_node ["canceled"] nodes = true.
Proof.
  unfold all_succeeded, any_node, succeeded. induction 1 as [|[k n] nodes Hn _ IH]; simpl; [done|].
  intros Ha Hf Hact Hb. bool_prop. unfold SUPERVISOR_NODE_STATUSES in Hn.
  destruct (String.eqb_spec (n_status n) "canceled"); [done|]. simpl.
  apply IH; try done. destruct (String.eqb_spec (n_status n) "succeeded"); [done|].
  exfalso. statuses.
Qed.

Lemma unfinished_derived launched current nodes :
  Forall (fun kn => n_status (snd kn) ∈ SUPERVISOR_NODE_STATUSES) nodes -> all_succeeded nodes = false ->
  unfinished_status launched current (ordered_statuses nodes)
  = if any_node ["failed"] nodes then "failed"
    else if any_node ["planned"; "queued"; "running"] nodes then (if launched then "running" else "planned")
    else if any_node ["blocked"] nodes then "failed" else "canceled".
Proof.
  intros Hn Ha. unfold unfinished_status. rewrite !ordered_has, ordered_any.
  destruct (any_node ["failed"] nodes) eqn:Ef; [done|].
  destruct (any_node ["planned"; _; _] nodes) eqn:Eact.
  - rewrite !andb_false_r. done.
  - rewrite !andb_true_r. destruct (any_node ["blocked"] nodes) eqn:Eb; [done|].
    by rewrite statuses_cover.
Qed.

Section helper_steps.
Context {AM : Type} {HAM : AgentManager AM} {DB : Type} {HDB : GraphStore DB}.
Context (clock : nat -> Z) (uuid : nat -> string) (cfg : config).
Implicit Types (g : graph) (request_id actor : option string).
Local Abbreviation W := (@wpg AM DB _).

(** [m] returns and its graph went through steps. *)
Definition makes_steps (m : M (@gstate AM DB) unit) g : Prop :=
  W m g (fun r g' => r = Ok tt /\ rtc gstep g g').

Definition is_quiet (m : M (@gstate AM DB) unit) g : Prop :=
  W m g (fun r g' => r = Ok tt /\ quiet g g').

Lemma append_timeline_quiet event payload g : is_quiet (append_timeline clock cfg event payload) g.
Proof.
  unfold is_quiet, append_timeline. wpg_run. split; [done|].
  quiet_change. apply truncated_length.
Qed.

(** After a quiet helper. *)
Lemma wpg_then_quiet m g Q :
  is_quiet m g -> (forall g', quiet g g' -> Q (Ok tt) g') -> W m g Q.
Proof. intros Hm HQ. eapply wpg_conseq; [exact Hm|]. intros r g' [-> Hq]. auto. Qed.

Lemma wpg_timeline event payload g Q :
  (forall g', quiet g g' -> Q (Ok tt) g') -> W (append_timeline clock cfg event payload) g Q.
Proof. apply wpg_then_quiet, append_timeline_quiet. Qed.

(** The same, with what it leaves as it was. *)
Lemma wpg_timeline_keep event payload g (Q : res unit -> graph -> Prop) :
  (forall tl t, let g' := set_g_updated_at (isoformat t) (set_g_timeline tl g) in
                quiet g g' -> Q (Ok tt) g') ->
  W (append_timeline clock cfg event payload) g Q.
Proof.
  intros H. unfold append_timeline. wpg_run. apply H. quiet_change. apply truncated_length.
Qed.

(** [upd_node] as one step of the node, when the counters need no change. *)
Lemma set_g_telemetry_same g : set_g_telemetry (g_telemetry g) g = g.
Proof. by destruct g. Qed.

Definition node_upd k (f : node -> node) g : graph :=
  match d_get k (g_nodes g) with
  | Some n => set_g_nodes (d_set k (f n) (g_nodes g)) g
  | None => g
  end.

Lemma wpg_upd_node k f g (Q : res unit -> graph -> Prop) : Q (Ok tt) (node_upd k f g) -> W (upd_node k f) g Q.
Proof. intros H. by apply wpg_upd. Qed.

Lemma node_upd_twice k f h g : node_upd k f (node_upd k h g) = node_upd k (fun n => f (h n)) g.
Proof.
  unfold node_upd. destruct (d_get k (g_nodes g)) as [n|] eqn:E; [|by rewrite E].
  cbn [g_nodes set_g_nodes]. rewrite d_get_set_eq, d_set_set. done.
Qed.

Lemma upd_node_step g k n f :
  d_get k (g_nodes g) = Some n -> transition (g_nodes g) n (f n) ->
  n_attempts (f n) = n_attempts n -> succeeded (f n) = false ->
  gstep g (node_upd k f g).
Proof.
  intros Hk Ht Ha Hs. unfold node_upd. rewrite Hk. eapply gs_node; [done..|]. rewrite Ha, Hs. simpl.
  rewrite Z.sub_diag, !Z.add_0_r. rewrite <- (set_g_telemetry_same g) at 2. f_equal. f_equal.
  by destruct (g_telemetry g).
Qed.

(** The same with a success to count. *)
Lemma counted_step g k n f :
  d_get k (g_nodes g) = Some n -> transition (g_nodes g) n (f n) ->
  n_attempts (f n) = n_attempts n -> succeeded (f n) = true ->
  let g1 := node_upd k f g in
  gstep g (set_g_telemetry (set_t_runs_completed (t_runs_completed (g_telemetry g1) + 1) (g_telemetry g1)) g1).
Proof.
  intros Hk Ht Ha Hs. unfold node_upd. rewrite Hk. eapply gs_node; [done..|]. rewrite Ha, Hs. simpl.
  by rewrite Z.sub_diag, Z.add_0_r.
Qed.

Lemma strip_empty_none o : opt_text o -> is_empty (strip (opt_str o)) = true -> o = None.
Proof.
  destruct o as [s|]; [|done]. intros [Hs Hn]. cbn [opt_str]. rewrite Hs.
  intros ?%is_empty_true. done.
Qed.

Lemma any_not_succeeded_spec nodes deps :
  deps ⊆ d_keys nodes ->
  exists b, any_not_succeeded nodes deps = Ok b
            /\ (b = false <-> forall d, d ∈ deps -> status_of nodes d = Some "succeeded").
Proof.
  induction deps as [|d deps IH]; intros Hd; simpl.
  - exists false. split; [done|]. split; [by intros _ d ?%elem_of_nil | done].
  - unfold node_by_id. destruct (d_get d nodes) as [n|] eqn:E; simpl.
    2: { apply d_get_None_keys in E. exfalso. apply E, Hd. left. }
    assert (status_of nodes d = Some (n_status n)) as Hst by (unfold status_of; by rewrite E).
    destruct (String.eqb_spec (n_status n) "succeeded") as [Hs|Hs]; simpl.
    + destruct IH as (b & -> & Hb); [set_solver|]. exists b. split; [done|]. rewrite Hb. split.
      * intros H x [->|Hx]%elem_of_cons; [congruence | auto].
      * intros H x Hx. apply H. by right.
    + exists true. split; [done|]. split; [done|]. intros H. specialize (H d ltac:(left)). congruence.
Qed.

Lemma known_run_status_spec s : known_run_status s = true <-> s ∈ RUN_STATUSES.
Proof. apply str_in_spec. Qed.

Lemma run_status_text s : s ∈ RUN_STATUSES -> text s.
Proof. intros H. statuses; subst; by vm_compute. Qed.

Lemma start_node_transition nodes n run_id rs now :
  ready nodes n -> text run_id -> rs ∈ RUN_STATUSES -> text now ->
  transition nodes n (start_node run_id rs now n) /\ n_status (start_node run_id rs now n) = rs
  /\ n_attempts (start_node run_id rs now n) = n_attempts n + 1.
Proof.
  intros Hr Hid Hrs Hnow. pose proof (run_status_text _ Hrs) as Hrt. unfold start_node.
  statuses; subst rs; (split; [|done]); (constructor; [repeat split|done..|]);
    (apply mv_start; [done|done|done|simpl; solve [statuses]|done|done|simpl]);
    (split; intros; solve [done | statuses]).
Qed.

(** *** [_schedule_ready_nodes] *)

(** The graph after a run was created for the node [n] under [k]. *)
Definition started_graph g k n n' : graph :=
  set_g_nodes (d_set k n' (g_nodes g))
    (set_g_telemetry (Telemetry (t_ticks (g_telemetry g))
       (t_runs_started (g_telemetry g) + (n_attempts n' - n_attempts n))
       (t_runs_completed (g_telemetry g) + bool_Z (succeeded n')) (t_last_tick_at (g_telemetry g))) g).

(** Creating the run: either it raises with the graph as it was, or the node
    is started. *)
Lemma start_run_steps k n kw request_id actor g :
  d_get k (g_nodes g) = Some n -> ready (g_nodes g) n ->
  W (start_run clock cfg k (n_node_id n) kw request_id actor) g
    (fun r g' => match r with Ok _ => r = Ok tt /\ rtc gstep g g' | Err _ => g' = g end).
Proof.
  intros Hk Hr. unfold start_run. apply wpg_bind, wpg_env. intros [run|x]; [|done].
  destruct run; wpg_run; try done.
  assert (text (norm (get "id" d))) as Hid by auto with py.
  set (rs := if known_run_status _ then _ else _).
  assert (rs ∈ RUN_STATUSES) as Hrs.
  { unfold rs. destruct (known_run_status _) eqn:E; [by apply known_run_status_spec|].
    by apply known_run_status_spec. }
  clearbody rs.
  destruct (start_node_transition _ _ _ _ _ Hr Hid Hrs (isoformat_text t)) as (Ht & Hs & Ha).
  set (n' := start_node _ _ _ _) in *.
  apply wpg_upd_node. unfold node_upd. rewrite Hk. fold n'.
  assert (forall g2 payload, g2 = started_graph g k n n' ->
    W (append_timeline clock cfg "node_run_created" payload) g2
      (fun r g' => match r with Ok _ => r = Ok tt /\ rtc gstep g g' | Err _ => g' = g end)) as Hend.
  { intros g2 payload ->. apply wpg_timeline. intros g' Hq. split; [done|].
    eapply rtc_l; [by eapply gs_node|]. by apply quiet_steps. }
  assert (succeeded n' = String.eqb rs "succeeded") as Hsuc by (unfold succeeded; by rewrite Hs).
  assert (n_attempts n' - n_attempts n = 1) as Hone by lia. wpg_run.
  apply wpg_when; intros E; unfold inc_runs_completed, inc_runs_started; wpg_run; apply Hend;
    unfold started_graph; rewrite Hone, Hsuc, E; [done|]. by rewrite Z.add_0_r.
Qed.

Lemma handle_create_failed_steps k n exc request_id actor g :
  d_get k (g_nodes g) = Some n -> ready (g_nodes g) n ->
  makes_steps (handle_create_failed clock cfg k (n_node_id n) exc request_id actor) g.
Proof.
  intros Hk Hr. unfold makes_steps, handle_create_failed. wpg_run. apply wpg_upd_node. wpg_run.
  apply wpg_timeline. intros g' Hq. split; [done|].
  eapply rtc_l; [|by apply quiet_steps]. eapply upd_node_step; [done| |done|done].
  constructor; [repeat split | done | done | done | simpl; auto with py |].
  by apply mv_reject.
Qed.

Lemma handle_blocked_steps k n msg decision matched snap request_id actor g :
  d_get k (g_nodes g) = Some n -> ready (g_nodes g) n ->
  makes_steps (handle_blocked clock cfg k msg decision matched snap request_id actor) g.
Proof.
  intros Hk Hr. unfold makes_steps, handle_blocked. wpg_run. rewrite Hk.
  destruct (blocked_marks _ _) as [emit md]. wpg_run. apply wpg_upd_node. wpg_run.
  match goal with |- W _ ?g1 _ => assert (gstep g g1) as Hstep end.
  { eapply upd_node_step; [done| |done|done].
    constructor; [repeat split | done | done | done | done |]. by apply mv_hold. }
  apply wpg_when; intros _.
  - apply wpg_timeline. intros g' Hq. split; [done|]. eapply rtc_l; [done | by apply quiet_steps].
  - split; [done | by apply rtc_once].
Qed.

Lemma schedule_node_steps request_id actor k g :
  graph_wf g -> makes_steps (schedule_node clock cfg request_id actor k) g.
Proof.
  intros Hw. unfold makes_steps, schedule_node. wpg_run.
  destruct (d_get k (g_nodes g)) as [n|] eqn:Hk; [|by apply wpg_ret].
  pose proof (get_node_wf _ _ _ (gr_nodes _ Hw) Hk) as Hn.
  destruct (String.eqb_spec (n_status n) "planned") as [Hs|]; cbn [negb]; [|by apply wpg_ret].
  destruct (is_empty _) eqn:Hrun; cbn [negb]; [|by apply wpg_ret].
  apply strip_empty_none in Hrun; [|apply Hn].
  destruct (any_not_succeeded_spec (g_nodes g) (n_depends_on n)) as (b & Hb & Hdeps); [apply Hn|].
  wpg_run. rewrite Hb. destruct b; [by apply wpg_ret|].
  assert (ready (g_nodes g) n) as Hr by (constructor; [done | done | by apply Hdeps]).
  apply wpg_try. eapply wpg_conseq; [by apply start_run_steps|].
  intros [a|x] g'; [by intros [_ ?]; destruct a|]. intros ->.
  destruct x; [by apply handle_create_failed_steps.. | by eapply handle_blocked_steps].
Qed.

Lemma makes_steps_wf m g : graph_inv g -> makes_steps m g ->
  W m g (fun r g' => r = Ok tt /\ rtc gstep g g' /\ graph_inv g').
Proof.
  intros Hg Hm. eapply wpg_conseq; [exact Hm|]. intros r g' [-> Hs]. eauto using gsteps_inv.
Qed.

(** A loop of steps. *)
Lemma loop_steps {X} (l : list X) f g :
  graph_inv g -> (forall x g', x ∈ l -> graph_inv g' -> makes_steps (f x) g') ->
  makes_steps (for_each l f) g.
Proof.
  intros Hg Hf. eapply wpg_conseq.
  - apply (wpg_for_each (fun g' => rtc gstep g g' /\ graph_inv g')); [done|].
    intros x g' Hx [Hs Hi]. eapply wpg_conseq; [apply makes_steps_wf; [done | by apply Hf]|].
    intros r g'' (-> & Hs' & Hi'). split; [done|]. split; [by etrans | done].
  - intros r g' (-> & Hs & _). done.
Qed.

Lemma schedule_ready_nodes_steps request_id actor g :
  graph_inv g -> makes_steps (schedule_ready_nodes clock cfg request_id actor) g.
Proof.
  intros Hg. unfold makes_steps, schedule_ready_nodes. wpg_run. destruct (negb _); [by apply wpg_ret|].
  apply loop_steps; [done|]. intros k g' _ Hg'. apply schedule_node_steps, Hg'.
Qed.

(** *** [_refresh_node_from_run] *)

(** A running node looked at: its status after, its completion time. *)
Lemma refresh_transition nodes n n' :
  same_spec n n' -> n_status n ∈ RUN_ACTIVE_STATUSES -> n_run_id n' = n_run_id n ->
  n_attempts n' = n_attempts n -> n_status n' ∈ RUN_STATUSES -> n_run_status n' = Some (n_status n') ->
  (n_started_at n' = n_started_at n \/ exists t, n_started_at n' = Some (isoformat t)) ->
  (if str_in (n_status n') RUN_ACTIVE_STATUSES then n_completed_at n' = n_completed_at n
   else exists t, n_completed_at n' = Some (isoformat t)) ->
  transition nodes n n'.
Proof.
  intros Hsp Ha Hid Hat Hs Hrs Hst Hc. pose proof (run_status_text _ Hs) as Htext. constructor; try done.
  - congruence.
  - rewrite Hrs. auto with py.
  - destruct Hst as [->|[t ->]]; auto with py.
  - destruct (str_in _ _); [congruence|]. destruct Hc as [t ->]. auto with py.
  - apply mv_refresh; try done.
    + destruct Hst as [->|[t ->]]; done.
    + intros Hn. destruct (str_in _ _) eqn:E; [apply str_in_spec in E | apply str_in_false in E].
      * rewrite Hc. done.
      * destruct Hc as [t ->]. done.
Qed.

(** The end of a refresh: the node changed, then a timeline entry. *)
Lemma step_then_timeline g g1 event payload :
  gstep g g1 -> makes_steps (append_timeline clock cfg event payload) g1 ->
  W (append_timeline clock cfg event payload) g1 (fun r g' => r = Ok tt /\ rtc gstep g g').
Proof.
  intros Hs Hm. eapply wpg_conseq; [unfold makes_steps in Hm; exact Hm|].
  intros r g' [-> H]. split; [done | by eapply rtc_l].
Qed.

Lemma timeline_steps event payload g : makes_steps (append_timeline clock cfg event payload) g.
Proof. apply wpg_timeline. intros g' Hq. split; [done | by apply quiet_steps]. Qed.

Lemma refresh_steps request_id actor k n g :
  d_get k (g_nodes g) = Some n -> n_status n ∈ RUN_ACTIVE_STATUSES ->
  makes_steps (refresh_node_from_run clock cfg request_id actor k) g.
Proof.
  intros Hk Hact. assert (n_status n <> "succeeded") as Hns by (intros E; rewrite E in Hact; statuses).
  unfold makes_steps, refresh_node_from_run. wpg_run. rewrite Hk.
  destruct (is_empty _); [by apply wpg_ret|]. wpg_run. destruct a as [run|exc].
  2: { wpg_run. apply wpg_upd_node, step_then_timeline; [|apply timeline_steps].
       eapply upd_node_step; [done| |done|done].
       apply refresh_transition; simpl; eauto; [by repeat split | statuses]. }
  destruct run as [| | | | | |run]; try by apply wpg_ret.
  destruct (known_run_status _) eqn:Hrs; cbn [negb]; [|by apply wpg_ret].
  apply known_run_status_spec in Hrs. set (rs := lower _) in *. clearbody rs.
  wpg_run. apply wpg_upd_node. wpg_run.
  destruct (str_in rs RUN_ACTIVE_STATUSES) eqn:Hra.
  - apply wpg_upd_node. rewrite node_upd_twice. split; [done|]. apply rtc_once.
    assert (succeeded (set_n_status rs n) = false) as Hsu.
    { unfold succeeded. simpl. apply String.eqb_neq. intros ->. apply str_in_spec in Hra. statuses. }
    eapply upd_node_step; [done| | |]; node_fields; (destruct (is_empty _); [|]); try done.
    all: apply refresh_transition; node_fields; rewrite ?Hra; eauto; by repeat split.
  - destruct (String.eqb_spec rs "succeeded") as [->|Hne].
    + apply wpg_bind, wpg_upd_node. rewrite node_upd_twice. wpg_run.
      destruct (String.eqb_spec (n_status n) "succeeded") as [|_]; [done|]. cbn [negb when].
      unfold inc_runs_completed. wpg_run. apply step_then_timeline; [|apply timeline_steps].
      eapply counted_step; [done| |done|done].
      apply refresh_transition; node_fields; rewrite ?Hra; eauto; by repeat split.
    + apply wpg_bind, wpg_upd_node. rewrite node_upd_twice. wpg_run.
      assert (rs = if String.eqb rs "canceled" then "canceled" else "failed") as Hrs'.
      { apply str_in_false in Hra. destruct (String.eqb_spec rs "canceled"); [done|].
        apply active_or_done in Hrs as [Hrs|Hrs]; [done | statuses]. }
      apply step_then_timeline; [|apply timeline_steps].
      eapply upd_node_step; [done| |done|].
      * apply refresh_transition; node_fields; rewrite <- ?Hrs', ?Hra; eauto; by repeat split.
      * unfold succeeded. simpl. rewrite <- Hrs'. by apply String.eqb_neq.
Qed.

Lemma refresh_active_steps request_id actor k g :
  makes_steps (refresh_active_node clock cfg request_id actor k) g.
Proof.
  unfold makes_steps, refresh_active_node. wpg_run.
  destruct (d_get k (g_nodes g)) as [n|] eqn:Hk; [|by apply wpg_ret].
  destruct (is_empty _); [by apply wpg_ret|].
  destruct (str_in _ _) eqn:Hs; cbn [negb]; [|by apply wpg_ret].
  apply str_in_spec in Hs. by eapply refresh_steps.
Qed.

(** *** [_mark_blocked_nodes] *)

Lemma dep_statuses_spec nodes deps :
  deps ⊆ d_keys nodes ->
  exists l, dep_statuses nodes deps = Ok l
            /\ forall s, s ∈ l -> exists d, d ∈ deps /\ status_of nodes d = Some s.
Proof.
  induction deps as [|d deps IH]; intros Hd; simpl.
  - exists []. split; [done|]. by intros s ?%elem_of_nil.
  - unfold node_by_id. destruct (d_get d nodes) as [n|] eqn:E; simpl.
    2: { apply d_get_None_keys in E. exfalso. apply E, Hd. left. }
    destruct IH as (l & -> & Hl); [set_solver|]. simpl. exists (n_status n :: l). split; [done|].
    intros s [->|Hs]%elem_of_cons.
    + exists d. split; [left|]. unfold status_of. by rewrite E.
    + destruct (Hl s Hs) as (d' & ? & ?). exists d'. split; [by right | done].
Qed.

Lemma mark_blocked_steps request_id actor k g :
  graph_wf g -> makes_steps (mark_blocked_node clock cfg request_id actor k) g.
Proof.
  intros Hw. unfold makes_steps, mark_blocked_node. wpg_run.
  destruct (d_get k (g_nodes g)) as [n|] eqn:Hk; [|by apply wpg_ret].
  pose proof (get_node_wf _ _ _ (gr_nodes _ Hw) Hk) as Hn.
  destruct (String.eqb_spec (n_status n) "planned") as [Hs|]; cbn [negb]; [|by apply wpg_ret].
  destruct (dep_statuses_spec (g_nodes g) (n_depends_on n)) as (l & Hl & Hdeps); [apply Hn|].
  destruct (n_depends_on n) as [|d0 ds] eqn:Ed; [by apply wpg_ret|]. wpg_run. rewrite Hl.
  destruct (existsb _ l) eqn:Eb; cbn [negb]; [|by apply wpg_ret].
  apply existsb_exists in Eb as (s & Hin & Hbad). apply list_elem_of_In, Hdeps in Hin as (d & Hd & Hst).
  apply str_in_spec in Hbad. wpg_run. apply wpg_upd_node, step_then_timeline; [|apply timeline_steps].
  eapply upd_node_step; [done| |done|done].
  constructor; [repeat split|done|done|done|simpl; auto with py|].
  eapply mv_block; try done. by rewrite Ed.
Qed.

Lemma mark_blocked_nodes_steps request_id actor g :
  graph_inv g -> makes_steps (mark_blocked_nodes clock cfg request_id actor) g.
Proof.
  intros Hg. unfold makes_steps, mark_blocked_nodes. wpg_run.
  apply loop_steps; [done|]. intros k g' _ Hg'. apply mark_blocked_steps, Hg'.
Qed.

(** *** [_evaluate_objective_gate] *)

(** What an evaluation leaves: a verdict, of a node list it did not change. *)
Definition verdict_statuses : list string := ["passed"; "skipped"; "failed"; "review_required"].

Lemma failure_text node_id failure :
  rstrip_by is_space failure = failure -> failure <> "" ->
  text ("required node '" +:+ node_id +:+ "' " +:+ failure).
Proof.
  intros Hf Hne. rewrite !str_app_assoc.
  split; [by apply (stripped_app "r") | done].
Qed.

Lemma check_required_ok nodes min_chars acc node_id e :
  Forall text (ga_failures acc) ->
  exists acc' e', check_required nodes min_chars acc node_id e = (Ok acc', e' : @env AM DB)
                  /\ Forall text (ga_failures acc').
Proof.
  intros Ha.
  assert (forall reason failure, rstrip_by is_space failure = failure -> failure <> "" ->
            Forall text (ga_failures (fail_check acc node_id reason failure))) as Hfail.
  { intros reason failure Hf Hne. simpl. apply Forall_app_2; [done|].
    constructor; [by apply failure_text | done]. }
  unfold check_required, ret, bind. destruct (d_get node_id nodes) as [n|]; [|by eauto].
  destruct (negb _); [by eauto|]. destruct (is_empty _); [by eauto|].
  destruct (env_get_run _ _) as [[run|x] e']; [|by eauto].
  destruct run; try by eauto. eexists _, _. split; [done|].
  unfold pass_check. destruct (0 <? _); [|done]. simpl. destruct (_ <=? _); [done|].
  apply Forall_app_2; [done|]. constructor; [|done]. rewrite (str_app_assoc _ "' response is shorter than ").
  rewrite !str_app_assoc. split; [by apply (stripped_app "r") | done].
Qed.

Lemma check_all_ok nodes min_chars ids acc e :
  Forall text (ga_failures acc) ->
  exists acc' e', check_all_required nodes min_chars ids acc e = (Ok acc', e' : @env AM DB)
                  /\ Forall text (ga_failures acc').
Proof.
  revert acc e. induction ids as [|id ids IH]; intros acc e Ha; simpl; [unfold ret; eauto|].
  destruct (check_required_ok nodes min_chars acc id e Ha) as (acc' & e' & H & Ha').
  unfold bind. rewrite H. auto.
Qed.

Lemma check_keywords_text keywords m acc :
  Forall text (ga_failures acc) -> Forall text (ga_failures (check_keywords keywords m acc)).
Proof.
  intros Ha. unfold check_keywords. destruct keywords; [done|]. cbn [ga_failures].
  destruct (if String.eqb m "all" then _ else _); [done|].
  apply Forall_app_2; [done|]. by constructor.
Qed.

Lemma gate_verdict_ok gt failures status summary :
  gate_verdict gt failures = (status, summary) -> status ∈ verdict_statuses /\ text summary.
Proof.
  unfold gate_verdict. intros H. destruct failures; destruct (String.eqb _ _); simplify_eq;
    (split; [unfold verdict_statuses; rewrite !elem_of_cons; tauto | done]).
Qed.

Lemma wpg_check_all nodes min_chars ids g (Q : res gate_acc -> graph -> Prop) :
  (forall acc, Forall text (ga_failures acc) -> Q (Ok acc) g) ->
  W (on_env (check_all_required nodes min_chars ids (GateAcc [] [] []))) g Q.
Proof.
  intros H. apply wpg_env_ok. intros e.
  destruct (check_all_ok nodes min_chars ids (GateAcc [] [] []) e ltac:(constructor)) as (acc & e' & E & Ha).
  eauto.
Qed.

Lemma verdict_quiet g status now summary checks reasons mo :
  status ∈ verdict_statuses -> text summary -> Forall text reasons ->
  quiet g (set_g_objective_verification (Verification status (Some (isoformat now)) summary checks reasons mo) g).
Proof.
  intros Hs Hsum Hr. quiet_change. constructor; simpl; auto with py.
  unfold verdict_statuses, OBJECTIVE_VERIFICATION_STATUSES in *. statuses.
Qed.

Lemma evaluate_gate_quiet request_id actor g :
  W (evaluate_objective_gate clock cfg request_id actor) g
    (fun r g' => r = Ok tt /\ quiet g g' /\ v_status (g_objective_verification g') ∈ verdict_statuses
                 /\ g_status g' = g_status g /\ g_finished_at g' = g_finished_at g
                 /\ g_launched_at g' = g_launched_at g).
Proof.
  unfold evaluate_objective_gate. wpg_run. destruct (negb _).
  { wpg_run. split; [done|]. split; [apply verdict_quiet; [|done|constructor] |];
      unfold verdict_statuses; rewrite !elem_of_cons; tauto. }
  wpg_run. apply wpg_check_all. intros acc Ha. wpg_run.
  destruct (gate_verdict _ _) as [status summary] eqn:Ev. apply gate_verdict_ok in Ev as [Hs Hsum].
  wpg_run. apply wpg_timeline_keep. intros tl t' g' Hq. split; [done|]. split; [|done].
  eapply quiet_trans; [|exact Hq]. apply verdict_quiet; [done|done|by apply check_keywords_text].
Qed.

(** *** [_sync_graph_status] *)

Lemma derived_status_known g : derived_status g ∈ SUPERVISOR_GRAPH_STATUSES.
Proof.
  unfold derived_status, SUPERVISOR_GRAPH_STATUSES.
  repeat match goal with |- context [if ?b then _ else _] => destruct b end;
    try destruct (g_launched_at g); rewrite !elem_of_cons; tauto.
Qed.

Lemma launched_flag o : opt_text o ->
  negb (is_empty (strip (opt_str o))) = match o with Some _ => true | None => false end.
Proof. destruct o as [s|]; [|done]. intros [Hs Hn]. simpl. by rewrite Hs, (proj2 (is_empty_false s) Hn). Qed.

Lemma verification_status_wf g : graph_wf g -> verification_status g = v_status (g_objective_verification g).
Proof.
  intros Hw. unfold verification_status. pose proof (vwf_status _ (gr_verification _ Hw)) as Hs.
  unfold OBJECTIVE_VERIFICATION_STATUSES in Hs.
  repeat (apply elem_of_cons in Hs as [->|Hs]; [done|]). by apply elem_of_nil in Hs.
Qed.

Lemma nodes_statuses_known nodes :
  nodes_wf nodes -> Forall (fun kn => n_status (snd kn) ∈ SUPERVISOR_NODE_STATUSES) nodes.
Proof. intros H. eapply Forall_impl; [apply H|]. intros kn Hn. apply Hn. Qed.

Lemma quiet_wf g g' : graph_inv g -> quiet g g' -> graph_wf g'.
Proof. intros Hg Hq. by apply (quiet_inv _ _ Hg Hq). Qed.

Lemma timeline_sound g tl t : status_sound g -> status_sound (set_g_updated_at t (set_g_timeline tl g)).
Proof. by intros []; constructor. Qed.

Lemma apply_status_sound gid target g g1 :
  quiet g g1 -> target = derived_status g1 ->
  (all_succeeded (g_nodes g1) = true -> v_status (g_objective_verification g1) <> "pending") ->
  W (apply_status clock cfg gid target) g1 (fun r g' => r = Ok tt /\ quiet g g' /\ status_sound g').
Proof.
  intros Hq -> Hv. pose proof (derived_status_known g1) as Hk. unfold apply_status. wpg_run.
  assert (forall g2 b ev pl, quiet g1 g2 -> status_sound g2 ->
    W (when b (append_timeline clock cfg ev pl)) g2
      (fun r g' => r = Ok tt /\ quiet g g' /\ status_sound g')) as Hend.
  { intros g2 b ev pl Hq2 Hs. assert (quiet g g2) as Hq' by by eapply quiet_trans.
    apply wpg_when; intros _; [|by auto].
    apply wpg_timeline_keep. intros tl t g3 Hq3. split; [done|].
    split; [by eapply quiet_trans | by apply timeline_sound]. }
  destruct (str_in _ _) eqn:Et; [apply str_in_spec in Et | apply str_in_false in Et].
  - apply wpg_when; intros Ef; wpg_run; (apply Hend; [quiet_change|]).
    + by constructor.
    + constructor; simpl; try done. split; [done|]. intros _ E. by rewrite E in Ef.
  - wpg_run. apply Hend; [quiet_change | by constructor].
Qed.

Lemma sync_sound g :
  graph_inv g ->
  W (sync_graph_status clock cfg) g (fun r g' => r = Ok tt /\ quiet g g' /\ status_sound g').
Proof.
  intros Hg. pose proof (inv_wf _ Hg) as Hw. unfold sync_graph_status. wpg_run.
  pose proof (ordered_nonempty _ (nds_nonempty _ (gr_nodes _ Hw))) as Hne.
  fold (ordered_statuses (g_nodes g)). rewrite ordered_all.
  destruct (ordered_statuses (g_nodes g)) as [|s0 ss] eqn:Es; [done|]. rewrite <- Es. clear Hne.
  destruct (all_succeeded (g_nodes g)) eqn:Ea.
  - rewrite verification_status_wf by done. destruct (str_in _ _) eqn:Ev; wpg_run.
    + apply apply_status_sound; [apply quiet_refl| |].
      * unfold derived_status. by rewrite Ea.
      * intros _ E. by rewrite E in Ev.
    + eapply wpg_conseq; [apply evaluate_gate_quiet|]. intros r g1 (-> & Hq & Hv & _). wpg_run.
      rewrite (verification_status_wf g1) by by eapply quiet_wf.
      apply apply_status_sound; [done| |].
      * unfold derived_status. by rewrite (q_nodes _ _ Hq), Ea.
      * intros _ E. rewrite E in Hv. unfold verdict_statuses in Hv. statuses.
  - wpg_run. apply apply_status_sound; [apply quiet_refl| |by rewrite Ea].
    rewrite unfinished_derived by (done || apply nodes_statuses_known, Hw).
    unfold derived_status. rewrite Ea, launched_flag by apply Hw. by destruct (g_launched_at g).
Qed.

(** *** The bodies of the methods *)

Lemma quiet_try {A} (m : M (@env AM DB) A) h : (forall x, quiet_env (h x)) -> quiet_env (try_except m h).
Proof. intros Hh e. unfold try_except. destruct (m e) as [[a|x] e']; [eauto | apply Hh]. Qed.

Lemma persist_graph_quiet g : quiet_env (persist_graph (AM := AM) clock cfg g).
Proof.
  intros e. unfold persist_graph. cbn [bind gets]. unfold bind at 1, gets. destruct (e_db e) as [db|]; [|eexists _, _; done].
  destruct (is_empty _); [eexists _, _; done|]. apply quiet_try. intros x. apply emit_quiet.
Qed.

Lemma wpg_persist_and_snapshot g (Q : res pydict -> graph -> Prop) :
  Q (Ok (snapshot g)) g -> W (persist_and_snapshot clock cfg) g Q.
Proof.
  intros H. unfold persist_and_snapshot. wpg_run. apply wpg_quiet; [apply persist_graph_quiet|].
  intros []. by wpg_run.
Qed.

(** A method's body returned the snapshot of the graph it left, having made
    steps and brought the status up to date. *)
Definition body_ok g (r : res pydict) (g' : graph) : Prop :=
  r = Ok (snapshot g') /\ rtc gstep g g' /\ status_sound g'.

Lemma touch_quiet g : W (touch clock) g (fun r g' => r = Ok tt /\ exists t, g' = set_g_updated_at (isoformat t) g).
Proof. unfold touch. wpg_run. split; [done|]. eauto. Qed.

Lemma updated_quiet g t : quiet g (set_g_updated_at (isoformat t) g).
Proof. quiet_change. Qed.

Lemma updated_sound g t : status_sound g -> status_sound (set_g_updated_at t g).
Proof. by intros []; constructor. Qed.

(** The shared tail of the methods. *)
Lemma finish_ok g0 g :
  graph_inv g0 -> rtc gstep g0 g ->
  W (sync_graph_status clock cfg ;;; touch clock ;;; persist_and_snapshot clock cfg) g (body_ok g0).
Proof.
  intros Hg Hs. apply wpg_bind. eapply wpg_conseq; [apply sync_sound; by eapply gsteps_inv|].
  intros r g1 (-> & Hq & Hss). apply wpg_bind. eapply wpg_conseq; [apply touch_quiet|].
  intros r g2 (-> & t & ->). apply wpg_persist_and_snapshot. split; [done|].
  split; [|by apply updated_sound]. etrans; [exact Hs|].
  apply quiet_steps. eapply quiet_trans; [done | apply updated_quiet].
Qed.

Lemma wpg_then_steps {B} (m : M _ unit) (f : unit -> M _ B) g0 g Q :
  rtc gstep g0 g -> makes_steps m g -> (forall g', rtc gstep g0 g' -> W (f tt) g' Q) -> W (bind m f) g Q.
Proof.
  intros Hs Hm Hf. apply wpg_bind. eapply wpg_conseq; [exact Hm|]. intros r g' [-> Hs']. apply Hf.
  by etrans.
Qed.

Lemma launch_body_ok gid session_id request_id actor g :
  graph_inv g ->
  W (launch_body clock cfg gid session_id request_id actor) g
    (fun r g' => if str_in (g_status g) TERMINAL_GRAPH
                 then r = Err (ValueError ("Supervisor graph is terminal: " +:+ gid)) /\ g' = g
                 else body_ok g r g').
Proof.
  intros Hg. unfold launch_body. wpg_run; fold TERMINAL_GRAPH in *.
  { match goal with H : _ = true |- _ => by rewrite H end. }
  match goal with H : _ = false |- _ => rewrite H end.
  assert (forall g1, rtc gstep g g1 ->
    W (match session_id with
       | Some s => upd (set_g_default_session_id (str_or_none (strip s)))
       | None => ret tt
       end ;;;
       schedule_ready_nodes clock cfg request_id actor ;;;
       sync_graph_status clock cfg ;;; touch clock ;;; persist_and_snapshot clock cfg) g1 (body_ok g)) as Hrest.
  { intros g1 Hs. eapply wpg_then_steps; [done| |].
    - unfold makes_steps. destruct session_id as [s|]; wpg_run; (split; [done|]); [|done].
      apply quiet_steps. quiet_change.
    - intros g2 Hs2. eapply wpg_then_steps; [done| |intros g3 Hs3; by apply finish_ok].
      apply schedule_ready_nodes_steps. by eapply gsteps_inv. }
  apply wpg_when; intros _; [|by apply Hrest].
  wpg_run. apply wpg_timeline. intros g' Hq. apply Hrest. eapply rtc_l, quiet_steps; [|done].
  apply gs_quiet. quiet_change. unfold SUPERVISOR_GRAPH_STATUSES. rewrite !elem_of_cons. tauto.
Qed.

Lemma count_tick_steps g : makes_steps (count_tick clock) g.
Proof.
  unfold makes_steps, count_tick. wpg_run. split; [done|]. apply quiet_steps. quiet_change.
  match goal with H : telemetry_wf _ |- _ => destruct H end. constructor; simpl; auto with py; lia.
Qed.

Lemma tick_body_ok gid request_id actor g :
  graph_inv g -> W (tick_body clock cfg gid request_id actor) g (body_ok g).
Proof.
  intros Hg. unfold tick_body. eapply wpg_then_steps; [done | apply count_tick_steps|]. intros g1 Hs1.
  assert (graph_inv g1) as Hg1 by exact (gsteps_inv _ _ Hg ltac:(eassumption)).
  eapply wpg_then_steps; [done| |].
  { unfold makes_steps. wpg_run. apply loop_steps; [done|]. intros k g' _ _. apply refresh_active_steps. }
  intros g2 Hs2. eapply wpg_then_steps; [done| |].
  { apply mark_blocked_nodes_steps. exact (gsteps_inv _ _ Hg ltac:(eassumption)). }
  intros g3 Hs3. eapply wpg_then_steps; [done| |].
  { unfold makes_steps. wpg_run. apply wpg_when; intros _; [|done].
    apply schedule_ready_nodes_steps. exact (gsteps_inv _ _ Hg ltac:(eassumption)). }
  intros g4 Hs4. apply wpg_bind. eapply wpg_conseq; [apply sync_sound; exact (gsteps_inv _ _ Hg ltac:(eassumption))|].
  intros r g5 (-> & Hq & Hss). apply wpg_bind. eapply wpg_conseq; [apply touch_quiet|].
  intros r g6 (-> & t & ->). wpg_run. apply wpg_timeline_keep. intros tl t' g' Hq'.
  apply wpg_persist_and_snapshot. split; [done|]. split.
  - etrans; [exact Hs4|]. apply quiet_steps. eapply quiet_trans; [done|].
    eapply quiet_trans; [apply updated_quiet | exact Hq'].
  - by apply timeline_sound, updated_sound.
Qed.

Lemma apply_override_steps gid note pass request_id actor g :
  stripped note -> makes_steps (apply_override clock cfg gid note pass request_id actor) g.
Proof.
  intros Hn. unfold makes_steps, apply_override. wpg_run. apply wpg_timeline. intros g' Hq.
  split; [done|]. eapply rtc_l, quiet_steps; [|done]. apply gs_quiet.
  destruct pass; apply verdict_quiet; unfold verdict_statuses; rewrite ?elem_of_cons; try tauto; try done.
  constructor; [|done]. unfold str_or. destruct (is_empty note) eqn:E; [done|]. split; [done|].
  by apply is_empty_false.
Qed.

Lemma verify_body_ok gid override_pass note force_recheck request_id actor g :
  graph_inv g -> W (verify_body clock cfg gid override_pass note force_recheck request_id actor) g (body_ok g).
Proof.
  intros Hg. unfold verify_body. eapply wpg_then_steps; [done| |].
  { apply wpg_when; intros _; [|done]. eapply wpg_conseq; [apply evaluate_gate_quiet|].
    intros r g' (-> & Hq & _). split; [done | by apply quiet_steps]. }
  intros g1 Hs1. eapply wpg_then_steps; [done| |intros g2 Hs2; by apply finish_ok].
  destruct override_pass; [apply apply_override_steps, strip_stripped | by apply wpg_ret].
Qed.
End helper_steps.

End SupervisorHelpers.
