(* ===== verification/SupervisorEnv.v ===== *)
(** What the supervisor's methods do to the environment: the helpers leave
    the database and the identifier source alone, and a method that returns
    ends by persisting the graph it leaves. *)

From stdpp Require Import prelude strings list relations.
From Stdlib Require Import Lia ZArith Ascii.
From S2P Require Import Prelude PyStr PyVal Effects PyTime SupervisorData SupervisorDataFacts Supervisor.
Import SupervisorData SupervisorDataFacts Supervisor.

Module SupervisorEnv.

Create HintDb keeps discriminated.

Section environment.
Context {AM : Type} {HAM : AgentManager AM} {DB : Type} {HDB : GraphStore DB}.
Context (clock : nat -> Z) (uuid : nat -> string) (cfg : config).

Definition same_db (e e' : @env AM DB) : Prop := e_db e' = e_db e /\ e_uuid e' = e_uuid e.

Definition keeps_db {A} (m : M (@env AM DB) A) : Prop := forall e0, preserves (same_db e0) m.

Definition at_db (e0 : @env AM DB) (s : gstate) : Prop := same_db e0 (gs_env s).

Lemma keeps_now : keeps_db (env_now clock).
Proof. by intros e0 e He. Qed.
Lemma keeps_emit event payload : keeps_db (env_emit cfg event payload).
Proof. intros e0 e He. unfold env_emit. simpl. by destruct (has_emitter cfg). Qed.
Lemma keeps_create_run kw src : keeps_db (env_create_run kw src).
Proof. intros e0 e He. unfold env_create_run. by destruct (am_create_run kw src (e_am e)) as [[] ?]. Qed.
Lemma keeps_get_run run_id : keeps_db (env_get_run run_id).
Proof. intros e0 e He. unfold env_get_run. by destruct (am_get_run run_id (e_am e)) as [[] ?]. Qed.
Lemma keeps_get_run_ok run_id :
  keeps_db (fun e => let '(r, e') := env_get_run run_id e in (Ok r, e')).
Proof. intros e0 e He. unfold env_get_run. by destruct (am_get_run run_id (e_am e)) as [[] ?]. Qed.

Lemma on_env_keeps {A} e0 (m : M env A) : keeps_db m -> preserves (at_db e0) (on_env m).
Proof.
  intros Hm s Hs. unfold on_env. specialize (Hm e0 (gs_env s) Hs). by destruct (m (gs_env s)) as [[] ?].
Qed.

Lemma upd_keeps e0 f : preserves (at_db e0) (upd f).
Proof. by intros s Hs. Qed.
Lemma upd_node_keeps e0 k f : preserves (at_db e0) (upd_node k f).
Proof. apply upd_keeps. Qed.
Lemma read_keeps e0 : preserves (at_db e0) the_graph.
Proof. by intros s Hs. Qed.
Lemma now_keeps e0 : preserves (at_db e0) (utcnow_iso clock).
Proof. apply on_env_keeps, keeps_now. Qed.
End environment.

Ltac keep :=
  repeat (cbn beta; match goal with
  | |- keeps_db _ => intros ?
  | |- preserves _ (bind _ _) => apply preserves_bind; [|intros ?]
  | |- preserves _ (try_except _ _) => apply preserves_try; [|intros ?]
  | |- preserves _ (ret _) => apply preserves_ret
  | |- preserves _ (raise _) => apply preserves_raise
  | |- preserves _ (lift _) => apply preserves_lift
  | |- preserves _ (raise_if _ _) => apply preserves_raise_if
  | |- preserves _ (when _ _) => apply preserves_when
  | |- preserves _ (for_each _ _) => apply preserves_for_each; intros ?
  | |- preserves _ the_graph => apply read_keeps
  | |- preserves _ (upd _) => apply upd_keeps
  | |- preserves _ (upd_node _ _) => apply upd_node_keeps
  | |- preserves _ (utcnow_iso _) => apply now_keeps
  | |- preserves _ (env_create_run _ _) => apply keeps_create_run
  | |- preserves _ (on_env (env_emit _ _ _)) => apply on_env_keeps, keeps_emit
  | |- preserves _ (on_env (fun _ => _)) => apply on_env_keeps, keeps_get_run_ok
  | |- preserves _ (fun _ => let '(_, _) := env_get_run _ _ in _) => apply keeps_get_run_ok
  | |- preserves _ (if ?b then _ else _) => destruct b eqn:?
  | |- preserves _ (match ?x with _ => _ end) => destruct x eqn:?
  | |- preserves _ (append_timeline _ _ _ _) => solve [eauto with keeps]
  end).

Section environment_methods.
Context {AM : Type} {HAM : AgentManager AM} {DB : Type} {HDB : GraphStore DB}.
Context (clock : nat -> Z) (uuid : nat -> string) (cfg : config).
Context (e0 : @env AM DB).

Lemma timeline_keeps event payload : preserves (at_db e0) (append_timeline clock cfg event payload).
Proof. unfold append_timeline. keep. Qed.
Hint Resolve timeline_keeps : keeps.

Lemma call_create_run_keeps kw : keeps_db (DB := DB) (call_create_run kw).
Proof. intros e1. unfold call_create_run. keep. Qed.

Lemma schedule_keeps request_id actor : preserves (at_db e0) (schedule_ready_nodes clock cfg request_id actor).
Proof.
  unfold schedule_ready_nodes, schedule_node, start_run, handle_blocked, handle_create_failed,
    inc_runs_completed, inc_runs_started. keep. apply on_env_keeps, call_create_run_keeps.
Qed.

Lemma refresh_keeps request_id actor k : preserves (at_db e0) (refresh_active_node clock cfg request_id actor k).
Proof.
  unfold refresh_active_node, refresh_node_from_run, inc_runs_completed. keep.
Qed.

Lemma mark_blocked_keeps request_id actor : preserves (at_db e0) (mark_blocked_nodes clock cfg request_id actor).
Proof. unfold mark_blocked_nodes, mark_blocked_node. keep. Qed.

Lemma check_all_keeps nodes min_chars ids acc : keeps_db (DB := DB) (check_all_required nodes min_chars ids acc).
Proof.
  revert acc. induction ids as [|id ids IH]; intros acc e1; simpl; [apply preserves_ret|].
  unfold check_required. keep. apply IH.
Qed.

Lemma evaluate_keeps request_id actor : preserves (at_db e0) (evaluate_objective_gate clock cfg request_id actor).
Proof. unfold evaluate_objective_gate. keep. apply on_env_keeps, check_all_keeps. Qed.

Lemma sync_keeps : preserves (at_db e0) (sync_graph_status clock cfg).
Proof.
  unfold sync_graph_status, apply_status. keep. apply evaluate_keeps.
Qed.

(** The environment after a method's body persisted the graph it leaves. *)
Definition persisted (s : gstate) : Prop :=
  exists e1, same_db e0 e1 /\ gs_env s = snd (persist_graph clock cfg (gs_graph s) e1).

Definition persists {A} (m : M gstate A) : Prop :=
  triple (at_db e0) m (fun _ => persisted) (fun _ => at_db e0).

Lemma persists_bind {A B} (m : M gstate A) (f : A -> M gstate B) :
  preserves (at_db e0) m -> (forall a, persists (f a)) -> persists (bind m f).
Proof. intros Hm Hf. eapply triple_bind; [exact Hm | exact Hf]. Qed.

Lemma persist_and_snapshot_persists : persists (persist_and_snapshot clock cfg).
Proof.
  intros s Hs. unfold persist_and_snapshot, the_graph, gets, bind, on_env, ret.
  destruct (persist_graph clock cfg (gs_graph s) (gs_env s)) as [[u|x] e'] eqn:E.
  - exists (gs_env s). split; [done|]. simpl. by rewrite E.
  - exfalso. revert E. unfold persist_graph, gets, bind. destruct (e_db (gs_env s)); [|done].
    destruct (is_empty _); [done|]. unfold try_except.
    match goal with |- (match ?y with _ => _ end) = _ -> _ => destruct y as [[|] ?] end; done.
Qed.

Lemma touch_keeps : preserves (at_db e0) (touch clock).
Proof. unfold touch. keep. Qed.

Hint Resolve schedule_keeps refresh_keeps mark_blocked_keeps evaluate_keeps sync_keeps touch_keeps : keeps.

Ltac persist_body :=
  repeat (match goal with |- persists (bind _ _) => apply persists_bind end;
          [solve [eauto with keeps | keep; eauto with keeps] | intros ?]);
  apply persist_and_snapshot_persists.

Lemma launch_persists gid session_id request_id actor :
  persists (launch_body clock cfg gid session_id request_id actor).
Proof.
  unfold launch_body.
  persist_body.
Qed.

Lemma tick_persists gid request_id actor : persists (tick_body clock cfg gid request_id actor).
Proof.
  unfold tick_body, count_tick.
  persist_body.
Qed.

Lemma verify_persists gid override_pass note force_recheck request_id actor :
  persists (verify_body clock cfg gid override_pass note force_recheck request_id actor).
Proof.
  unfold verify_body, apply_override.
  persist_body.
Qed.
End environment_methods.

End SupervisorEnv.
