(* ===== verification/SupervisorStore.v ===== *)
(** The table [supervisor_graphs] (storage/database.py): the implementation
    of the graph store the supervisor is written against.

    The column [graph_json] is modelled by the value its text encodes
    ([json.loads(json.dumps(v)) == v] for the JSON values of the program).
    The [n]-th statement on the table may fail, by [fails n]; it then raises
    and changes nothing. *)

From stdpp Require Import prelude strings list.
From Stdlib Require Import Lia ZArith Ascii.
From S2P Require Import Prelude PyStr PyVal Effects PyTime SupervisorData Supervisor.
Import SupervisorData Supervisor.

Module SupervisorStore.

(** The rows by primary key, and the statements run and clock readings made
    so far. *)
Record table : Type := Table { tb_rows : dict graph_row; tb_statements : nat; tb_clock : nat }.

Definition set_r_created_at (c : string) (r : graph_row) : graph_row :=
  GraphRow (r_graph_id r) (r_user_id r) (r_status r) (r_objective r) (r_graph r)
    (r_checkpoint_count r) c (r_updated_at r) (r_launched_at r) (r_finished_at r).

(** [_decode_supervisor_graph_row] *)
Definition text_column (column : string) (key : string) (default : string) (g : pydict) : string :=
  py_str (py_or (py_or (PStr column) (get key g)) (PStr default)).

Definition decode_supervisor_graph_row (row : graph_row) : pydict :=
  let g := r_graph row in
  let g := d_set "id" (PStr (strip (text_column (r_graph_id row) "id" "" g))) g in
  let g := d_set "user_id" (PStr (strip (text_column (r_user_id row) "user_id" "" g))) g in
  let g := d_set "objective" (PStr (strip (text_column (r_objective row) "objective" "" g))) g in
  let g := d_set "status"
             (PStr (str_or (lower (strip (text_column (r_status row) "status" "planned" g))) "planned")) g in
  let g := d_set "created_at" (PStr (text_column (r_created_at row) "created_at" "" g)) g in
  let g := d_set "updated_at" (PStr (text_column (r_updated_at row) "updated_at" "" g)) g in
  let g := d_set "launched_at" (if is_empty (opt_str (r_launched_at row)) then get "launched_at" g
                                else pnone_or_str (r_launched_at row)) g in
  let g := d_set "finished_at" (if is_empty (opt_str (r_finished_at row)) then get "finished_at" g
                                else pnone_or_str (r_finished_at row)) g in
  d_set "checkpoint_count" (PInt (Z.max 0 (r_checkpoint_count row))) g.

Section store.
Context (db_now : nat -> Z) (fails : nat -> bool).

Definition sqlite_error : exn := OtherError "OperationalError" "database statement failed".

(** One statement: the rows after it, or the error. *)
Definition statement {A} (tb : table) (f : dict graph_row -> A * dict graph_row) : res A * table :=
  if fails (tb_statements tb)
  then (Err sqlite_error, Table (tb_rows tb) (S (tb_statements tb)) (tb_clock tb))
  else let '(a, rows) := f (tb_rows tb) in (Ok a, Table rows (S (tb_statements tb)) (tb_clock tb)).

(** [str(s or self._utc_now())] *)
Definition time_or_now (s : string) (tb : table) : string * table :=
  if is_empty s
  then (isoformat (db_now (tb_clock tb)), Table (tb_rows tb) (tb_statements tb) (S (tb_clock tb)))
  else (s, tb).

(** [INSERT ... ON CONFLICT(id) DO UPDATE]: the creation time of an existing
    row stays. *)
Definition upsert_row (row : graph_row) (rows : dict graph_row) : dict graph_row :=
  d_set (r_graph_id row)
    (match d_get (r_graph_id row) rows with
     | Some old => set_r_created_at (r_created_at old) row
     | None => row
     end) rows.

Definition upsert_supervisor_graph (row : graph_row) (tb : table) : res unit * table :=
  let normalized_graph_id := strip (r_graph_id row) in
  if is_empty normalized_graph_id then (Err (ValueError "graph_id is required"), tb)
  else
  let normalized_user_id := strip (r_user_id row) in
  if is_empty normalized_user_id then (Err (ValueError "user_id is required"), tb)
  else
  let normalized_objective := strip (r_objective row) in
  if is_empty normalized_objective then (Err (ValueError "objective is required"), tb)
  else
  let normalized_status := str_or (lower (strip (r_status row))) "planned" in
  let '(created_at, tb) := time_or_now (r_created_at row) tb in
  let '(updated_at, tb) := time_or_now (r_updated_at row) tb in
  statement tb (fun rows => (tt, upsert_row
    (GraphRow normalized_graph_id normalized_user_id normalized_status normalized_objective
       (r_graph row) (Z.max 0 (r_checkpoint_count row)) created_at updated_at
       (r_launched_at row) (r_finished_at row)) rows)).

Definition get_supervisor_graph (graph_id : string) (tb : table) : res (option pydict) * table :=
  let normalized_graph_id := strip graph_id in
  if is_empty normalized_graph_id then (Ok None, tb)
  else statement tb (fun rows => (decode_supervisor_graph_row <$> d_get normalized_graph_id rows, rows)).

Definition list_supervisor_graphs (user_id status : option string) (limit : Z) (tb : table) :
    res (list pydict) * table :=
  if limit <=? 0 then (Ok [], tb)
  else
    let wanted row :=
      (match str_or_none (opt_str user_id) with
       | Some u => String.eqb (r_user_id row) (strip u) | None => true end)
      && (match str_or_none (opt_str status) with
          | Some s => String.eqb (r_status row) (lower (strip s)) | None => true end) in
    statement tb (fun rows =>
      (map decode_supervisor_graph_row
         (take (Z.to_nat (Z.max 1 limit))
            (sort_by (fun a b => String.leb (r_updated_at b) (r_updated_at a))
               (List.filter wanted (d_values rows)))), rows)).

Definition delete_supervisor_graph (graph_id : string) (tb : table) : res bool * table :=
  let normalized_graph_id := strip graph_id in
  if is_empty normalized_graph_id then (Ok false, tb)
  else statement tb (fun rows => (d_mem normalized_graph_id rows, d_pop normalized_graph_id rows)).

(** The store of the supervisor. *)
#[local] Instance sqlite_store : GraphStore table := {|
  db_upsert_supervisor_graph := upsert_supervisor_graph;
  db_delete_supervisor_graph := delete_supervisor_graph;
  db_list_supervisor_graphs limit tb :=
    let '(r, tb') := list_supervisor_graphs None None limit tb in
    (res_bind r (fun l => Ok (map PDict l)), tb') |}.
End store.

End SupervisorStore.
