(* ===== verification/SupervisorStoreFacts.v ===== *)
(** Facts about the stored graphs: the row a persisted graph becomes, what
    the loader makes of it, and that a loaded graph keeps the invariant. *)

From stdpp Require Import prelude strings list relations.
From Stdlib Require Import Lia ZArith Ascii.
From S2P Require Import Prelude PyStr PyVal Effects PyTime SupervisorData SupervisorDataFacts Supervisor SupervisorSteps SupervisorHelpers SupervisorStore.
Import SupervisorData SupervisorDataFacts Supervisor SupervisorSteps SupervisorHelpers SupervisorStore.

Module SupervisorStoreFacts.

(** The row of a well-formed graph created at [c]. *)
Definition row_of (g : graph) (c : string) : graph_row :=
  GraphRow (g_id g) (g_user_id g) (g_status g) (g_objective g) (graph_to_dict g)
    (Z.of_nat (length (g_timeline g))) c (g_updated_at g) (g_launched_at g) (g_finished_at g).

(** A graph whose row says when it was created, and how long its timeline was. *)
Definition with_row (c : string) (g : graph) : graph :=
  Graph (g_id g) (g_user_id g) (g_objective g) (g_status g) c (g_updated_at g) (g_launched_at g)
    (g_finished_at g) (g_default_session_id g) (g_metadata g) (g_objective_gate g)
    (g_objective_verification g) (g_nodes g) (g_timeline g) (g_telemetry g)
    (d_set "checkpoint_count" (PInt (Z.of_nat (length (g_timeline g)))) (g_extra g)).

Definition loaded_graph (g : graph) (c : string) : graph := canon_graph (with_row c g).

Lemma text_column_id s key default g : s <> "" -> text_column s key default g = s.
Proof. intros Hs. unfold text_column, py_or. cbn [truthy]. by destruct s. Qed.

Lemma status_normal s : s ∈ SUPERVISOR_GRAPH_STATUSES -> str_or (lower (strip s)) "planned" = s /\ s <> "".
Proof.
  unfold SUPERVISOR_GRAPH_STATUSES. intros H.
  repeat (apply elem_of_cons in H as [->|H]; [done|]). by apply elem_of_nil in H.
Qed.

Lemma decode_row g c :
  graph_wf g -> c <> "" -> decode_supervisor_graph_row (row_of g c) = graph_to_dict (with_row c g).
Proof.
  intros [] Hc. unfold decode_supervisor_graph_row.
  cbn [r_graph_id r_user_id r_status r_objective r_graph r_checkpoint_count r_created_at r_updated_at
       r_launched_at r_finished_at row_of].
  destruct (status_normal _ gr_status0) as [Hs1 Hs2].
  rewrite !text_column_id by (done || apply gr_id0 || apply gr_user0 || apply gr_objective0).
  rewrite Hs1, (proj1 gr_id0), (proj1 gr_user0), (proj1 gr_objective0).
  rewrite Z.max_r by lia.
  assert (forall o v, v = pnone_or_str o -> (if is_empty (opt_str o) then v else pnone_or_str o) = pnone_or_str o) as Hcol.
  { intros o v ->. by destruct (is_empty _). }
  unfold graph_to_dict. set (ex := g_extra g). cbn [app].
  rewrite !Hcol by done.
  cbn [d_set String.eqb Ascii.eqb Bool.eqb]. simpl. done.
Qed.

Lemma with_row_wf c g : graph_wf g -> c <> "" -> graph_wf (with_row c g).
Proof.
  intros [] Hc. constructor; try done. simpl. apply d_set_Forall; [done|].
  apply str_in_false. reflexivity.
Qed.

(** The stored row is read back as the graph it came from. *)
Lemma load_row now g c :
  graph_wf g -> c <> "" ->
  normalize_loaded_graph now (decode_supervisor_graph_row (row_of g c)) = loaded_graph g c.
Proof. intros Hg Hc. rewrite decode_row by done. apply loaded_graph_id. by apply with_row_wf. Qed.

(** ** A loaded graph keeps the invariant *)

Lemma canon_get nodes k : d_get k (map (fun kn => (fst kn, canon_node (snd kn))) nodes) = canon_node <$> d_get k nodes.
Proof.
  induction nodes as [|[k' n] nodes IH]; simpl; [done|]. by destruct (String.eqb k k').
Qed.

Lemma canon_status nodes d : status_of (map (fun kn => (fst kn, canon_node (snd kn))) nodes) d = status_of nodes d.
Proof. unfold status_of. rewrite canon_get. by destruct (d_get d nodes). Qed.

Lemma canon_nodes_wf nodes : nodes_wf nodes -> nodes_wf (map (fun kn => (fst kn, canon_node (snd kn))) nodes).
Proof.
  intros [Hk Hn Ha Hne].
  assert (d_keys (map (fun kn => (fst kn, canon_node (snd kn))) nodes) = d_keys nodes) as E.
  { apply d_keys_map. }
  constructor.
  - by rewrite E.
  - rewrite E. apply Forall_map. eapply Forall_impl; [exact Hn|]. by intros kn [].
  - eapply acyclic_ext; [|done]. intros x. unfold deps_of. rewrite canon_get. by destruct (d_get x nodes).
  - by destruct nodes.
Qed.

Lemma canon_sum (f : node -> Z) nodes :
  (forall n, f (canon_node n) = f n) ->
  sum_of f (map (fun kn => (fst kn, canon_node (snd kn))) nodes) = sum_of f nodes.
Proof. intros Hf. induction nodes as [|kn nodes IH]; simpl; [done|]. by rewrite Hf, IH. Qed.

Lemma canon_inv g : graph_inv g -> graph_inv (canon_graph g).
Proof.
  intros [[] Ht Hn Hs Hc]. constructor; simpl; try done.
  - constructor; simpl; try done; [|by apply canon_nodes_wf].
    eapply gate_wf_keys; [|done]. apply d_keys_map.
  - apply Forall_map. eapply Forall_impl; [exact Hn|]. intros kn [Hl [H1 H2]]. split.
    + destruct Hl; [by apply life_planned | by apply life_active | by apply life_done
                   | by apply life_rejected | by apply life_blocked].
    + split; intros Hst.
      * intros d Hd. rewrite canon_status. by apply H1.
      * destruct (H2 Hst) as (d & s & ? & ? & ?). exists d, s. by rewrite canon_status.
  - by rewrite canon_sum.
  - by rewrite canon_sum.
Qed.

Lemma canon_any l nodes : any_node l (map (fun kn => (fst kn, canon_node (snd kn))) nodes) = any_node l nodes.
Proof. unfold any_node. by rewrite existsb_map. Qed.

Lemma canon_all nodes : all_succeeded (map (fun kn => (fst kn, canon_node (snd kn))) nodes) = all_succeeded nodes.
Proof. unfold all_succeeded. by rewrite forallb_map. Qed.

Lemma canon_sound g : status_sound g -> status_sound (canon_graph g).
Proof.
  intros [Hs Hf Hv]. constructor; [|done|].
  - change (g_status (canon_graph g)) with (g_status g). rewrite Hs. unfold derived_status, canon_graph.
    cbn [g_nodes set_g_nodes g_launched_at g_objective_verification]. by rewrite canon_all, !canon_any.
  - unfold canon_graph. cbn [g_nodes set_g_nodes g_objective_verification]. by rewrite canon_all.
Qed.

Lemma with_row_inv c g : c <> "" -> graph_inv g -> graph_inv (with_row c g).
Proof. intros Hc []. constructor; try done. by apply with_row_wf. Qed.

Lemma loaded_inv g c : c <> "" -> graph_inv g -> graph_inv (loaded_graph g c).
Proof. intros Hc Hg. by apply canon_inv, with_row_inv. Qed.

Lemma loaded_sound g c : status_sound g -> status_sound (loaded_graph g c).
Proof. intros []. apply canon_sound. by constructor. Qed.

(** ** What the database holds *)

Section rows.
Context (db_now : nat -> Z) (fails : nat -> bool).
Local Instance store : GraphStore table := sqlite_store db_now fails.

(** A row holds a graph that satisfied the invariant when it was persisted. *)
Definition row_ok (k : string) (r : graph_row) : Prop :=
  exists g c, graph_inv g /\ status_sound g /\ k = g_id g /\ c <> "" /\ r = row_of g c.

Record table_ok (tb : table) : Prop := {
  tab_keys : NoDup (d_keys (tb_rows tb));
  tab_rows : Forall (fun kr => row_ok (fst kr) (snd kr)) (tb_rows tb) }.

Lemma upsert_graph g (tb : table) :
  graph_wf g ->
  upsert_supervisor_graph db_now fails (row_of g (g_created_at g)) tb
  = statement fails tb (fun rows => (tt, upsert_row (row_of g (g_created_at g)) rows)).
Proof.
  intros []. unfold upsert_supervisor_graph.
  cbn [r_graph_id r_user_id r_status r_objective r_graph r_checkpoint_count r_created_at r_updated_at
       r_launched_at r_finished_at row_of].
  rewrite (proj1 gr_id0), (proj1 gr_user0), (proj1 gr_objective0).
  rewrite !text_empty by done. unfold time_or_now.
  rewrite (proj2 (is_empty_false _) gr_created0), (proj2 (is_empty_false _) gr_updated0).
  rewrite (proj1 (status_normal _ gr_status0)), Z.max_r by lia. done.
Qed.

Lemma upsert_row_ok g rows :
  graph_inv g -> status_sound g -> NoDup (d_keys rows) ->
  Forall (fun kr => row_ok (fst kr) (snd kr)) rows ->
  Forall (fun kr => row_ok (fst kr) (snd kr)) (upsert_row (row_of g (g_created_at g)) rows).
Proof.
  intros Hg Hs Hk Hr. unfold upsert_row. apply d_set_Forall; [done|]. simpl.
  destruct (d_get (g_id g) rows) as [old|] eqn:E.
  - apply d_get_elem in E. apply (proj1 (Forall_forall _ _) Hr) in E as (g' & c & _ & _ & _ & Hc & Hold).
    simpl in Hold. rewrite Hold. by exists g, c.
  - exists g, (g_created_at g). split; [done|]. split; [done|]. split; [done|]. split; [apply Hg | done].
Qed.
End rows.

End SupervisorStoreFacts.
