(* ===== verification/SupervisorManager.v ===== *)
(** The supervisor's manager over the table of graphs: every method keeps the
    manager's invariant, also when statements on the database fail. *)

From stdpp Require Import prelude strings list relations.
From Stdlib Require Import Lia ZArith Ascii.
From S2P Require Import Prelude PyStr PyVal Effects PyTime SupervisorData SupervisorDataFacts Supervisor SupervisorSteps SupervisorHelpers SupervisorEnv SupervisorStore SupervisorStoreFacts.
Import SupervisorData SupervisorDataFacts Supervisor SupervisorSteps SupervisorHelpers SupervisorEnv SupervisorStore SupervisorStoreFacts.

Module SupervisorManager.

(** [uuid4().hex]: lower-case hexadecimal digits. *)
Definition is_hex (c : ascii) : bool := is_digit c || in_range 97 102 c.

Section manager_facts.
Context {AM : Type} {HAM : AgentManager AM}.
Context (clock : nat -> Z) (uuid : nat -> string) (db_now : nat -> Z) (fails : nat -> bool).
Context (cfg : config).
Local Instance store : GraphStore table := sqlite_store db_now fails.
Local Abbreviation mgr := (@manager AM table).
Local Abbreviation menv := (@env AM table).

Definition entry_ok (kg : string * graph) : Prop :=
  graph_inv (snd kg) /\ status_sound (snd kg) /\ fst kg = g_id (snd kg).

Definition env_ok (e : menv) : Prop := match e_db e with Some tb => table_ok tb | None => True end.

Record manager_inv (s : mgr) : Prop := {
  mi_keys : NoDup (d_keys (m_graphs s));
  mi_graphs : Forall entry_ok (m_graphs s);
  mi_capacity : Z.of_nat (length (m_graphs s)) <= max_graphs cfg;
  mi_env : env_ok (m_env s) }.

(** *** Persisting *)

Definition upsert_db (g : graph) (db : option table) : option table :=
  match db with
  | Some tb => Some (snd (statement fails tb (fun rows => (tt, upsert_row (row_of g (g_created_at g)) rows))))
  | None => None
  end.

Lemma emit_same_db event payload (e : menv) : same_db e (snd (env_emit cfg event payload e)).
Proof. unfold env_emit. simpl. by destruct (has_emitter cfg). Qed.

Lemma opt_text_str o : opt_text o -> optional_str o = o.
Proof.
  destruct o as [s|]; [|done]. intros [Hs Hn]. unfold optional_str. cbn [opt_str]. rewrite Hs.
  by apply str_or_none_some.
Qed.

Lemma persist_graph_db g (e : menv) :
  graph_wf g ->
  e_db (snd (persist_graph clock cfg g e)) = upsert_db g (e_db e)
  /\ e_uuid (snd (persist_graph clock cfg g e)) = e_uuid e.
Proof.
  intros Hw. pose proof Hw as []. unfold persist_graph, gets, bind. cbn beta iota.
  destruct (e_db e) as [tb|] eqn:Edb; [|by split; [exact Edb|]].
  rewrite (proj1 gr_id0), text_empty by done.
  unfold now_if_empty. rewrite (proj2 (is_empty_false _) gr_created0), (proj2 (is_empty_false _) gr_updated0).
  unfold try_except, ret. cbn beta iota. rewrite Edb. rewrite !opt_text_str by done.
  rewrite str_or_ne by apply (status_normal _ gr_status0).
  fold (row_of g (g_created_at g)). unfold db_upsert_supervisor_graph, store, sqlite_store.
  rewrite upsert_graph by done.
  destruct (statement _ _ _) as [[u|x] tb'] eqn:Es; cbn beta iota.
  { unfold upsert_db. by rewrite Es. }
  match goal with |- context [env_emit cfg ?ev ?pl ?e1] => destruct (emit_same_db ev pl e1) as [-> ->] end.
  unfold upsert_db. by rewrite Es.
Qed.

Lemma upsert_db_ok g db :
  graph_inv g -> status_sound g -> match db with Some tb => table_ok tb | None => True end ->
  match upsert_db g db with Some tb => table_ok tb | None => True end.
Proof.
  intros Hg Hs. destruct db as [tb|]; [|done]. intros [Hk Hr]. unfold upsert_db, statement.
  destruct (fails _); [by constructor|]. constructor; simpl.
  - unfold upsert_row. auto with py.
  - by apply upsert_row_ok.
Qed.

Lemma persist_env_ok g (e : menv) :
  graph_inv g -> status_sound g -> env_ok e -> env_ok (snd (persist_graph clock cfg g e)).
Proof.
  intros Hg Hs He. unfold env_ok. rewrite (proj1 (persist_graph_db g e (inv_wf _ Hg))).
  by apply upsert_db_ok.
Qed.

Lemma same_db_ok (e e' : menv) : same_db e e' -> env_ok e -> env_ok e'.
Proof. intros [H _]. unfold env_ok. by rewrite H. Qed.

(** *** The methods that work on one graph *)

(** What a body does to its graph: it refuses and changes nothing, or it
    makes steps and returns the snapshot. *)
Definition body_spec (body : M (@gstate AM table) pydict) (g : graph) : Prop :=
  wpg body g (fun r g' => body_ok g r g' \/ exists x, r = Err x /\ g' = g).

Lemma entry_get s gid g : manager_inv s -> d_get gid (m_graphs s) = Some g -> entry_ok (gid, g).
Proof. intros H Hg. apply d_get_elem in Hg. by apply (proj1 (Forall_forall _ _) (mi_graphs _ H)). Qed.

Lemma gsteps_id g g' : rtc gstep g g' -> g_id g' = g_id g /\ g_created_at g' = g_created_at g.
Proof.
  induction 1 as [|g1 g2 g3 Hs _ [IH1 IH2]]; [done|].
  rewrite IH1, IH2. destruct Hs as [[(? & ? & ? & ? & _)]|? ? ? ? ? ->]; done.
Qed.

(** A method's body run under the manager. *)
Lemma with_graph_run (s : mgr) gid g (body : M (@gstate AM table) pydict) Q :
  wpg body g Q -> persists clock cfg (m_env s) body ->
  exists r g' e', with_graph gid g body s = (r, Manager (d_set gid g' (m_graphs s)) e') /\ Q r g'
    /\ match r with
       | Ok _ => exists e1, same_db (m_env s) e1 /\ e' = snd (persist_graph clock cfg g' e1)
       | Err _ => same_db (m_env s) e'
       end.
Proof.
  intros Hb Hp. specialize (Hp (GState g (m_env s)) (conj eq_refl eq_refl)).
  apply (wpg_elim _ _ _ (m_env s)) in Hb. unfold with_graph.
  destruct (body (GState g (m_env s))) as [r [g' e']]. exists r, g', e'. by destruct r.
Qed.

(** The state after a body, in one of the two cases. *)
Lemma with_graph_cases (s : mgr) gid g body :
  entry_ok (gid, g) -> body_spec body g ->
  persists clock cfg (m_env s) body ->
  exists r g' e', with_graph gid g body s = (r, Manager (d_set gid g' (m_graphs s)) e') /\ entry_ok (gid, g')
    /\ ((r = Ok (snapshot g') /\ rtc gstep g g'
         /\ e_db e' = upsert_db g' (e_db (m_env s)) /\ e_uuid e' = e_uuid (m_env s))
        \/ (exists x, r = Err x /\ g' = g /\ same_db (m_env s) e')).
Proof.
  intros (Hi & Hss & Hid) Hb Hp. simpl in *.
  destruct (with_graph_run s gid g body _ Hb Hp) as (r & g' & e' & Hrun & Hcase & He).
  exists r, g', e'. split; [done|]. destruct Hcase as [(-> & Hst & Hso)|(x & -> & ->)].
  - destruct He as (e1 & [H1 H2] & ->). destruct (gsteps_id _ _ Hst) as [Eid _].
    assert (graph_inv g') as Hi' by by eapply gsteps_inv.
    split; [split; [done|]; split; [done|]; simpl; congruence|]. left. split; [done|]. split; [done|].
    destruct (persist_graph_db g' e1 (inv_wf _ Hi')) as [P1 P2]. split; congruence.
  - split; [done|]. right. by exists x.
Qed.

Lemma set_graph_inv s gid g g' e' :
  manager_inv s -> d_get gid (m_graphs s) = Some g -> entry_ok (gid, g') -> env_ok e' ->
  manager_inv (Manager (d_set gid g' (m_graphs s)) e').
Proof.
  intros [Hk Hf Hc He] Hg Hg' He'. constructor; simpl; auto with py.
  by rewrite d_set_length_old by by eapply d_get_Some_mem.
Qed.

Lemma with_graph_inv s gid g body :
  manager_inv s -> d_get gid (m_graphs s) = Some g -> body_spec body g ->
  persists clock cfg (m_env s) body -> manager_inv (snd (with_graph gid g body s)).
Proof.
  intros Hs Hg Hb Hp. pose proof (entry_get _ _ _ Hs Hg) as He.
  destruct (with_graph_cases _ _ _ _ He Hb Hp) as (r & g' & e' & -> & Hg' & Hcase).
  eapply set_graph_inv; [done..|]. destruct Hcase as [(_ & _ & Hdb & _)|(x & _ & _ & Hsame)].
  - unfold env_ok. rewrite Hdb. apply upsert_db_ok; try apply Hg'. apply Hs.
  - eapply same_db_ok; [done | apply Hs].
Qed.

(** Finding the graph and checking its owner change nothing. *)
Lemma on_owned_cases graph_id user_id body (s : mgr) :
  (exists x, on_owned graph_id user_id body s = (Err x, s))
  \/ (exists g, let gid := strip (opt_str graph_id) in
        d_get gid (m_graphs s) = Some g /\ assert_owner g user_id = Ok tt
        /\ on_owned graph_id user_id body s = with_graph gid g (body gid) s).
Proof.
  unfold on_owned, find_graph, bind, raise_if, gets, lift, ret, raise.
  destruct (is_empty _); [by left; eauto|]. cbn beta iota.
  destruct (d_get _ (m_graphs s)) as [g|] eqn:E; cbn beta iota; [|by left; eauto].
  destruct (assert_owner g user_id) as [[]|x] eqn:Eo; cbn beta iota; [|by left; eauto].
  right. exists g. done.
Qed.

Lemma on_owned_inv graph_id user_id body s :
  (forall gid g, graph_inv g -> body_spec (body gid) g) ->
  (forall gid e0, persists clock cfg e0 (body gid)) ->
  manager_inv s -> manager_inv (snd (on_owned graph_id user_id body s)).
Proof.
  intros Hb Hp Hs. destruct (on_owned_cases graph_id user_id body s) as [[x ->]|(g & Hg & _ & ->)]; [done|].
  apply with_graph_inv; [done | done | | apply Hp]. apply Hb. by apply (entry_get _ _ _ Hs Hg).
Qed.

Lemma launch_spec gid session_id request_id actor g :
  graph_inv g -> body_spec (launch_body clock cfg gid session_id request_id actor) g.
Proof.
  intros Hg. eapply wpg_conseq; [by apply launch_body_ok|]. intros r g'. cbn beta.
  destruct (str_in _ _); [intros [-> ->]; right; eauto | by left].
Qed.

Lemma tick_spec gid request_id actor g :
  graph_inv g -> body_spec (tick_body clock cfg gid request_id actor) g.
Proof. intros Hg. eapply wpg_conseq; [by apply tick_body_ok|]. by left. Qed.

Lemma verify_spec gid override_pass note force_recheck request_id actor g :
  graph_inv g -> body_spec (verify_body clock cfg gid override_pass note force_recheck request_id actor) g.
Proof. intros Hg. eapply wpg_conseq; [by apply verify_body_ok|]. by left. Qed.

Lemma launch_inv graph_id user_id session_id request_id actor s :
  manager_inv s -> manager_inv (snd (launch_graph clock cfg graph_id user_id session_id request_id actor s)).
Proof.
  unfold launch_graph. apply (on_owned_inv graph_id user_id (fun gid => launch_body clock cfg gid session_id request_id actor)).
  - intros. by apply launch_spec.
  - intros. apply launch_persists.
Qed.

Lemma tick_inv graph_id user_id request_id actor s :
  manager_inv s -> manager_inv (snd (tick_graph clock cfg graph_id user_id request_id actor s)).
Proof.
  unfold tick_graph. apply (on_owned_inv graph_id user_id (fun gid => tick_body clock cfg gid request_id actor)).
  - intros. by apply tick_spec.
  - intros. apply tick_persists.
Qed.

Lemma verify_inv graph_id user_id override_pass note force_recheck request_id actor s :
  manager_inv s ->
  manager_inv (snd (verify_graph_objective clock cfg graph_id user_id override_pass note force_recheck
                      request_id actor s)).
Proof.
  unfold verify_graph_objective. apply (on_owned_inv graph_id user_id
           (fun gid => verify_body clock cfg gid override_pass note force_recheck request_id actor)).
  - intros. by apply verify_spec.
  - intros. apply verify_persists.
Qed.

(** *** Eviction *)

Definition delete_db (k : string) (db : option table) : option table :=
  match db with
  | Some tb => Some (snd (statement fails tb (fun rows => (d_mem k rows, d_pop k rows))))
  | None => None
  end.

Lemma persist_delete_db k (e : menv) :
  text k ->
  exists e', persist_graph_delete cfg k e = (Ok tt, e') /\ e_db e' = delete_db k (e_db e)
             /\ e_uuid e' = e_uuid e.
Proof.
  intros Hk. unfold persist_graph_delete, gets, bind. cbn beta iota.
  destruct (e_db e) as [tb|] eqn:Edb; [|by exists e].
  rewrite (proj1 Hk), text_empty by done. unfold try_except. cbn beta iota. rewrite Edb.
  unfold db_delete_supervisor_graph, store, sqlite_store, delete_supervisor_graph.
  rewrite (proj1 Hk), text_empty by done.
  destruct (statement _ _ _) as [[u|x] tb'] eqn:Es; cbn beta iota.
  - eexists. split; [done|]. unfold delete_db. by rewrite Es.
  - unfold env_emit. eexists. split; [done|]. unfold delete_db. rewrite Es. by destruct (has_emitter cfg).
Qed.

Lemma delete_db_ok k db :
  match db with Some tb => table_ok tb | None => True end ->
  match delete_db k db with Some tb => table_ok tb | None => True end.
Proof.
  destruct db as [tb|]; [|done]. intros [Hk Hr]. unfold delete_db, statement.
  destruct (fails _); [by constructor|]. constructor; simpl; auto with py.
Qed.

Definition oldest_terminal (graphs : dict graph) : option graph :=
  head (sort_by (fun a b => String.leb (g_updated_at a) (g_updated_at b))
    (List.filter (fun g => str_in (g_status g) TERMINAL_GRAPH) (d_values graphs))).

Lemma oldest_terminal_spec graphs g :
  oldest_terminal graphs = Some g ->
  g ∈ d_values graphs /\ g_status g ∈ TERMINAL_GRAPH
  /\ forall h, h ∈ d_values graphs -> g_status h ∈ TERMINAL_GRAPH ->
               String.leb (g_updated_at g) (g_updated_at h) = true.
Proof.
  unfold oldest_terminal. set (l := List.filter _ _). intros Hh.
  assert (forall h, h ∈ sort_by (fun a b => String.leb (g_updated_at a) (g_updated_at b)) l
                    <-> h ∈ d_values graphs /\ g_status h ∈ TERMINAL_GRAPH) as Hin.
  { intros h. rewrite sort_by_elem. unfold l. by rewrite list_elem_of_In, filter_In, <- list_elem_of_In, str_in_spec. }
  pose proof (sort_by_sorted (fun a b => String.leb (g_updated_at a) (g_updated_at b))
                (fun a b => string_leb_total _ _) (fun a b c => string_leb_trans _ _ _) l) as Hs.
  destruct (sort_by _ l) as [|g' l'] eqn:El; [done|]. simpl in Hh. simplify_eq.
  inversion Hs as [|? ? _ Hle]; subst.
  destruct (proj1 (Hin g) ltac:(left)) as [H1 H2]. split; [done|]. split; [done|].
  intros h Hh1 Hh2. pose proof (proj2 (Hin h) (conj Hh1 Hh2)) as [->|Hl]%elem_of_cons.
  - by destruct (string_leb_total (g_updated_at g) (g_updated_at g)).
  - by apply (proj1 (Forall_forall _ _) Hle).
Qed.

(** Eviction changes nothing below the limit or without a finished graph;
    otherwise the finished graph with the oldest update goes, from the
    manager and from the table. *)
Lemma evict_cases s :
  manager_inv s ->
  exists s', evict_terminal_if_needed cfg s = (Ok tt, s') /\
    ((s' = s /\ (Z.of_nat (length (m_graphs s)) < max_graphs cfg \/ oldest_terminal (m_graphs s) = None))
     \/ exists g, oldest_terminal (m_graphs s) = Some g /\ Z.of_nat (length (m_graphs s)) = max_graphs cfg
          /\ m_graphs s' = d_pop (g_id g) (m_graphs s) /\ d_get (g_id g) (m_graphs s) = Some g
          /\ e_db (m_env s') = delete_db (g_id g) (e_db (m_env s))
          /\ e_uuid (m_env s') = e_uuid (m_env s)).
Proof.
  intros Hs. unfold evict_terminal_if_needed, gets, bind at 1. cbn beta iota.
  destruct (_ <? _) eqn:Elt; bool_prop; [by exists s; auto|].
  pose proof (mi_capacity _ Hs). replace (Z.to_nat _) with 1%nat by lia.
  fold TERMINAL_GRAPH. destruct (oldest_terminal (m_graphs s)) as [g|] eqn:Eo.
  - destruct (oldest_terminal_spec _ _ Eo) as (Hin & _).
    apply list_elem_of_fmap in Hin as ([k g'] & -> & Hin). simpl in *.
    pose proof (proj1 (Forall_forall _ _) (mi_graphs _ Hs) _ Hin) as (Hi & _ & Hk). simpl in Hk. subst k.
    unfold oldest_terminal in Eo. destruct (sort_by _ _) as [|g1 l]; [done|]. simpl in Eo. simplify_eq.
    pose proof (gr_id _ (inv_wf _ Hi)) as Hid.
    destruct (persist_delete_db (g_id g') (m_env s) Hid) as (e' & Ed & Hdb & Hu).
    simpl. unfold bind. rewrite text_empty by done. unfold set_graphs, modify, m_on_env. simpl. rewrite Ed.
    eexists. split; [done|]. right. exists g'. simpl. repeat split; try done; [lia|].
    apply d_elem_get; [apply Hs | done].
  - unfold oldest_terminal in Eo. destruct (sort_by _ _) as [|g1 l]; [|done]. exists s. auto.
Qed.

Lemma pop_inv s k e' :
  manager_inv s -> env_ok e' -> manager_inv (Manager (d_pop k (m_graphs s)) e').
Proof.
  intros [Hk Hf Hc He] He'. constructor; simpl; auto with py.
  pose proof (sublist_length _ _ (d_pop_sublist k (m_graphs s))). lia.
Qed.

Lemma evict_inv s : manager_inv s -> manager_inv (snd (evict_terminal_if_needed cfg s)).
Proof.
  intros Hs. destruct (evict_cases s Hs) as (s' & -> & [[-> _]|(g & _ & _ & Hg & _ & Hdb & _)]); [done|].
  destruct s' as [gs e']. simpl in *. subst gs. apply pop_inv; [done|].
  unfold env_ok. rewrite Hdb. apply delete_db_ok, Hs.
Qed.

(** *** Creation *)

(** The graph [create_graph] builds. *)
Definition new_graph (gid user objective now : string) (metadata : pydict) (gt : gate) (nodes : dict node) :
    graph :=
  Graph gid user objective "planned" now now None None None metadata gt initial_verification nodes []
    (Telemetry 0 0 0 None) [].

Lemma fresh_sum (f : node -> Z) now nodes :
  (forall k n, node_fresh now k n -> f n = 0) ->
  Forall (fun kn => node_fresh now (fst kn) (snd kn)) nodes -> sum_of f nodes = 0.
Proof.
  intros Hf. induction 1 as [|kn nodes Hn _ IH]; simpl; [done|]. by rewrite (Hf _ _ Hn), IH.
Qed.

Lemma fresh_any now nodes l :
  Forall (fun kn => node_fresh now (fst kn) (snd kn)) nodes -> nodes <> [] ->
  any_node l nodes = str_in "planned" l.
Proof.
  intros Hn Hne. unfold any_node. destruct Hn as [|kn nodes Hk Hn]; [done|]. cbn [existsb].
  rewrite (nf_status _ _ _ Hk). destruct (str_in "planned" l) eqn:E; [done|]. cbn [orb]. clear Hne.
  induction Hn as [|kn' nodes Hk' Hn IH]; cbn [existsb]; [done|].
  by rewrite (nf_status _ _ _ Hk'), E.
Qed.

Lemma fresh_not_all now nodes :
  Forall (fun kn => node_fresh now (fst kn) (snd kn)) nodes -> nodes <> [] -> all_succeeded nodes = false.
Proof.
  intros Hn Hne. destruct Hn as [|kn nodes Hk Hn]; [done|]. unfold all_succeeded, succeeded. cbn [forallb].
  by rewrite (nf_status _ _ _ Hk).
Qed.

Lemma new_graph_ok gid user objective t metadata gt nodes :
  text gid -> text user -> text objective -> nodes_wf nodes ->
  Forall (fun kn => node_fresh (isoformat t) (fst kn) (snd kn)) nodes -> gate_wf objective nodes gt ->
  entry_ok (gid, new_graph gid user objective (isoformat t) metadata gt nodes).
Proof.
  intros Hid Hu Ho Hn Hf Hg. split; [|split; [|done]]; simpl.
  - constructor; simpl; try done.
    + constructor; simpl; auto with py; try done; try constructor; try done.
      all: simpl; try constructor; rewrite ?elem_of_cons; auto.
    + eapply Forall_impl; [exact Hf|]. intros kn []. split.
      * by apply life_planned.
      * split; rewrite nf_status0; [intros Hs; statuses | done].
    + symmetry. eapply fresh_sum; [|done]. intros. by eapply nf_attempts.
    + symmetry. eapply fresh_sum; [|done]. intros k n Hk. unfold succeeded. by rewrite (nf_status _ _ _ Hk).
  - pose proof (nds_nonempty _ Hn) as Hne. constructor; simpl.
    + unfold derived_status. simpl. rewrite (fresh_not_all _ _ Hf Hne), !(fresh_any _ _ _ Hf Hne). done.
    + split; [done|]. unfold TERMINAL_GRAPH. intros. statuses.
    + by rewrite (fresh_not_all _ _ Hf Hne).
Qed.

Context (uuid_hex : forall n, all_chars is_hex (uuid n) = true).

Lemma graph_id_text n : text ("sup-" +:+ uuid n).
Proof using uuid_hex.
  split; [|done]. apply stripped_no_space. rewrite all_chars_app. cbn [all_chars]. simpl.
  eapply all_chars_impl; [|apply uuid_hex]. by intros [[] [] [] [] [] [] [] []].
Qed.

(** The last part of [create_graph], on the graph just built. *)
Definition announce (payload : pydict) : M (@gstate AM table) pydict :=
  append_timeline clock cfg "graph_created" payload ;;;
  let* g := the_graph in
  on_env (persist_graph clock cfg g) ;;;
  ret (snapshot g).

Lemma announce_spec payload g : status_sound g -> body_spec (announce payload) g.
Proof.
  intros Hs. unfold body_spec, announce. apply wpg_bind, wpg_timeline_keep. intros tl t g' Hq.
  apply (wpg_persist_and_snapshot clock cfg g'). left. split; [done|]. split; [by apply quiet_steps|].
  by apply timeline_sound.
Qed.

Lemma announce_persists payload e0 : persists clock cfg e0 (announce payload).
Proof.
  apply (persists_bind clock cfg e0); [apply timeline_keeps|]. intros _. apply persist_and_snapshot_persists.
Qed.

(** What eviction left of the graphs and of the table. *)
Definition evicted (graphs : dict graph) (db : option table) (graphs1 : dict graph) (db1 : option table) :
    Prop :=
  (graphs1 = graphs /\ db1 = db)
  \/ exists old, oldest_terminal graphs = Some old /\ Z.of_nat (length graphs) = max_graphs cfg
       /\ graphs1 = d_pop (g_id old) graphs /\ db1 = delete_db (g_id old) db.

Definition planned_graph (g : graph) : Prop :=
  g_status g = "planned" /\ Forall (fun kn => n_status (snd kn) = "planned" /\ n_run_id (snd kn) = None) (g_nodes g).

Definition refused (s : mgr) (r : res pydict) (s' : mgr) : Prop :=
  (exists x, r = Err x) /\ m_graphs s' = m_graphs s /\ e_db (m_env s') = e_db (m_env s)
  /\ (e_uuid (m_env s) <= e_uuid (m_env s'))%nat.

Definition accepted (s : mgr) (r : res pydict) (s' : mgr) : Prop :=
  exists graphs1 db1 g,
    evicted (m_graphs s) (e_db (m_env s)) graphs1 db1
    /\ Z.of_nat (length graphs1) < max_graphs cfg
    /\ r = Ok (snapshot g) /\ g_id g = "sup-" +:+ uuid (e_uuid (m_env s)) /\ planned_graph g
    /\ entry_ok (g_id g, g) /\ m_graphs s' = d_set (g_id g) g graphs1
    /\ e_db (m_env s') = upsert_db g db1 /\ e_uuid (m_env s') = S (e_uuid (m_env s)).

(** The insertion, once the request is validated and a slot was made. *)
Lemma insert_cases (s s1 : mgr) g payload :
  entry_ok (g_id g, g) -> planned_graph g ->
  evicted (m_graphs s) (e_db (m_env s)) (m_graphs s1) (e_db (m_env s1)) ->
  e_uuid (m_env s1) = S (e_uuid (m_env s)) -> g_id g = "sup-" +:+ uuid (e_uuid (m_env s)) ->
  Z.of_nat (length (m_graphs s1)) < max_graphs cfg ->
  accepted s (fst (with_graph (g_id g) g (announce payload) s1)) (snd (with_graph (g_id g) g (announce payload) s1)).
Proof.
  intros Hg Hp Hev Hu Hid Hlt.
  assert (wpg (announce payload) g (fun r g' => body_ok g r g' /\ planned_graph g' /\ g_id g' = g_id g)) as Hplan.
  { unfold announce. apply wpg_bind, wpg_timeline_keep. intros tl t g' Hq.
    apply (wpg_persist_and_snapshot clock cfg g'). split; [|done].
    split; [done|]. split; [by apply quiet_steps|]. apply timeline_sound, Hg. }
  destruct (with_graph_run s1 (g_id g) g (announce payload) _ Hplan (announce_persists payload (m_env s1)))
    as (r & g' & e' & -> & ((-> & Hst & Hso) & Hp' & Hid') & (e1 & [H1 H2] & ->)).
  assert (graph_inv g') as Hi' by (eapply gsteps_inv; [apply Hg | done]).
  destruct (persist_graph_db g' e1 (inv_wf _ Hi')) as [P1 P2].
  exists (m_graphs s1), (e_db (m_env s1)), g'. simpl. rewrite P1, P2, H1, H2, Hid'.
  refine (conj Hev (conj Hlt (conj eq_refl (conj Hid (conj Hp' (conj _ (conj eq_refl (conj eq_refl Hu)))))))).
  split; [done|]. by split.
Qed.

Lemma create_cases user_id objective nodes gate_cfg metadata request_id actor s :
  manager_inv s ->
  let '(r, s') := create_graph clock uuid cfg user_id objective nodes gate_cfg metadata request_id actor s in
  refused s r s' \/ accepted s r s'.
Proof using uuid_hex.
  intros Hs. unfold create_graph, raise_if, raise, ret.
  assert (forall m s', m_graphs s' = m_graphs s -> e_db (m_env s') = e_db (m_env s) ->
            (e_uuid (m_env s) <= e_uuid (m_env s'))%nat -> refused s (Err m) s') as Hrefuse.
  { intros m s' H1 H2 H3. split; [eauto|]. done. }
  destruct (is_empty (norm user_id)) eqn:Eu; [left; by apply Hrefuse|].
  unfold bind at 1. destruct (is_empty (norm objective)) eqn:Eo; [left; by apply Hrefuse|].
  unfold bind at 1. destruct nodes as [| | | | |raw|]; try (left; by apply Hrefuse).
  destruct raw as [|raw0 raws]; [left; by apply Hrefuse|]. unfold bind at 1.
  destruct (max_nodes_per_graph cfg <? _); [left; by apply Hrefuse|]. unfold bind at 1.
  unfold bind at 1, m_on_env at 1, env_now. cbn beta iota.
  set (now := isoformat _). unfold lift.
  unfold bind at 1. destruct (add_nodes now 0 (raw0 :: raws) []) as [nds|x] eqn:Eadd; cbn beta iota.
  2: { left. by apply Hrefuse. }
  unfold bind at 1. destruct (check_deps_known nds) as [[]|x] eqn:Edeps; cbn beta iota.
  2: { left. by apply Hrefuse. }
  unfold bind at 1. destruct (assert_acyclic nds) as [[]|x] eqn:Eac; cbn beta iota.
  2: { left. by apply Hrefuse. }
  unfold bind at 1.
  destruct (normalize_objective_gate (norm objective) nds gate_cfg) as [gt|x] eqn:Egate; cbn beta iota.
  2: { left. by apply Hrefuse. }
  unfold bind at 1, m_on_env at 1. cbn [m_env m_graphs e_uuid e_clock e_am e_db e_telemetry]. cbn beta iota.
  set (s1 := Manager _ _). set (gid := "sup-" +:+ _).
  set (g := Graph gid _ _ _ _ _ _ _ _ _ _ _ _ _ _ _).
  assert (manager_inv s1) as Hs1 by (destruct Hs; by constructor).
  destruct (created_nodes_wf now (raw0 :: raws) nds (isoformat_nonempty _) ltac:(done) Eadd Edeps Eac)
    as [Hwf Hfresh].
  assert (entry_ok (g_id g, g)) as Hg.
  { apply new_graph_ok; try done; auto with py.
    - apply graph_id_text.
    - by apply created_gate_wf with gate_cfg. }
  assert (planned_graph g) as Hplan.
  { split; [done|]. eapply Forall_impl; [exact Hfresh|]. by intros kn []. }
  destruct (evict_cases s1 Hs1) as (s2 & Hev & Hcase). unfold bind at 1. rewrite Hev.
  unfold bind at 1, gets. unfold bind at 1.
  assert (e_uuid (m_env s2) = S (e_uuid (m_env s))) as Hu.
  { destruct Hcase as [[-> _]|(old & _ & _ & _ & _ & _ & ->)]; done. }
  assert (evicted (m_graphs s) (e_db (m_env s)) (m_graphs s2) (e_db (m_env s2))) as Hevd.
  { destruct Hcase as [[-> _]|(old & H1 & H2 & H3 & _ & H4 & _)]; [by left|]. right. by exists old. }
  destruct (max_graphs cfg <=? _) eqn:Efull; bool_prop; cbn beta iota.
  - left. apply Hrefuse; [| |rewrite Hu; lia].
    all: destruct Hcase as [[-> _]|(old & _ & Hlen & Hpop & Hget & _)]; [done|].
    all: exfalso; rewrite Hpop in Efull; pose proof (d_pop_length _ _ (d_get_Some_mem _ _ _ Hget)); lia.
  - match goal with |- context [append_timeline _ _ "graph_created" ?pl] =>
      pose proof (insert_cases s s2 g pl Hg Hplan Hevd Hu eq_refl Efull) as Hins end.
    unfold announce in Hins. cbn [g_id g] in Hins.
    match goal with |- let '(_, _) := ?m in _ => change (accepted s (fst m) (snd m)) in Hins; destruct m end.
    by right.
Qed.

Lemma evicted_ok s graphs1 db1 :
  manager_inv s -> evicted (m_graphs s) (e_db (m_env s)) graphs1 db1 ->
  NoDup (d_keys graphs1) /\ Forall entry_ok graphs1
  /\ match db1 with Some tb => table_ok tb | None => True end.
Proof.
  intros [Hk Hf Hc He] [[-> ->]|(old & _ & _ & -> & ->)]; [done|].
  split; [auto with py|]. split; [auto with py | by apply delete_db_ok].
Qed.

Lemma create_inv user_id objective nodes gate_cfg metadata request_id actor s :
  manager_inv s ->
  manager_inv (snd (create_graph clock uuid cfg user_id objective nodes gate_cfg metadata request_id actor s)).
Proof using uuid_hex.
  intros Hs. pose proof (create_cases user_id objective nodes gate_cfg metadata request_id actor s Hs) as H.
  destruct (create_graph _ _ _ _ _ _ _ _ _ _ s) as [r s'].
  destruct H as [(_ & H1 & H2 & _)|(gs1 & db1 & g & Hev & Hlt & _ & _ & _ & Hg & H1 & H2 & _)].
  - destruct Hs as [Hk Hf Hc He]. constructor; simpl; rewrite ?H1; try done. unfold env_ok. by rewrite H2.
  - destruct (evicted_ok _ _ _ Hs Hev) as (Hk & Hf & Hdb). constructor; simpl; rewrite ?H1; auto with py.
    + destruct (d_mem (g_id g) gs1) eqn:Em.
      * rewrite d_set_length_old by done. lia.
      * rewrite d_set_length_new by done. lia.
    + unfold env_ok. rewrite H2. apply upsert_db_ok; [apply Hg | apply Hg | done].
Qed.

(** *** Start from the database *)

Definition load_of (r : graph_row) : graph := normalize_loaded_graph "" (decode_supervisor_graph_row r).

Lemma load_of_ok k r : row_ok k r -> entry_ok (k, load_of r) /\ r_graph_id r = k /\ g_id (load_of r) = k.
Proof.
  intros (g & c & Hg & Hs & -> & Hc & ->). unfold load_of. rewrite load_row by (done || apply Hg).
  split; [|done]. split; [by apply loaded_inv|]. split; [by apply loaded_sound | done].
Qed.

Lemma hydrate_row_run k r (s : mgr) :
  row_ok k r ->
  hydrate_row clock (PDict (decode_supervisor_graph_row r)) s
  = (Ok tt, Manager (d_set k (load_of r) (m_graphs s)) (m_env s)).
Proof.
  intros (g & c & Hg & Hs & -> & Hc & ->). unfold hydrate_row, load_of.
  pose proof (inv_wf _ Hg) as Hw. pose proof (gr_id _ Hw) as Hid.
  rewrite decode_row by done.
  change (get "created_at" (graph_to_dict (with_row c g))) with (PStr c). cbn [truthy].
  rewrite (proj2 (is_empty_false c) Hc). cbn [negb]. unfold bind, ret.
  rewrite loaded_graph_id by by apply with_row_wf.
  change (g_id (canon_graph (with_row c g))) with (g_id g).
  rewrite (proj1 Hid), text_empty by done. done.
Qed.

Definition load_rows (graphs : dict graph) (rs : list graph_row) : dict graph :=
  foldl (fun gs r => d_set (r_graph_id r) (load_of r) gs) graphs rs.

Lemma hydrate_rows_run rs (s : mgr) :
  Forall (fun r => row_ok (r_graph_id r) r) rs ->
  for_each (map PDict (map decode_supervisor_graph_row rs)) (hydrate_row clock) s
  = (Ok tt, Manager (load_rows (m_graphs s) rs) (m_env s)).
Proof.
  intros H. revert s. induction H as [|r rs Hr _ IH]; intros s; [by destruct s|].
  cbn [map for_each]. unfold bind. rewrite (hydrate_row_run (r_graph_id r)) by done. by rewrite IH.
Qed.

Lemma load_rows_ok rs graphs :
  Forall (fun r => row_ok (r_graph_id r) r) rs -> NoDup (d_keys graphs) -> Forall entry_ok graphs ->
  NoDup (d_keys (load_rows graphs rs)) /\ Forall entry_ok (load_rows graphs rs)
  /\ (length (load_rows graphs rs) <= length graphs + length rs)%nat.
Proof.
  intros H. revert graphs. induction H as [|r rs Hr _ IH]; intros graphs Hk Hf; simpl; [split; [done|]; split; [done|lia]|].
  destruct (load_of_ok _ _ Hr) as (He & _).
  destruct (IH (d_set (r_graph_id r) (load_of r) graphs)) as (H1 & H2 & H3); auto with py.
  split; [done|]. split; [done|]. destruct (d_mem (r_graph_id r) graphs) eqn:E.
  - rewrite d_set_length_old in H3 by done. lia.
  - rewrite d_set_length_new in H3 by done. lia.
Qed.

Lemma load_rows_get rs graphs k :
  NoDup (map r_graph_id rs) ->
  d_get k (load_rows graphs rs)
  = match List.find (fun r => String.eqb (r_graph_id r) k) rs with
    | Some r => Some (load_of r)
    | None => d_get k graphs
    end.
Proof.
  revert graphs. induction rs as [|r rs IH]; intros graphs Hd; simpl; [done|].
  apply NoDup_cons in Hd as [Hn Hd]. rewrite IH by done.
  destruct (String.eqb_spec (r_graph_id r) k) as [<-|Hne].
  - destruct (List.find _ rs) as [r'|] eqn:Ef; [|by rewrite d_get_set_eq].
    apply find_some in Ef as [Hin Heq]. apply String.eqb_eq in Heq. exfalso. apply Hn.
    apply list_elem_of_In, in_map_iff. eauto.
  - destruct (List.find _ rs); [done|]. by rewrite d_get_set_ne.
Qed.

(** The rows a listing answers. *)
Definition listed (tb : table) : list graph_row :=
  take (Z.to_nat (max_graphs cfg))
    (sort_by (fun a b => String.leb (r_updated_at b) (r_updated_at a)) (d_values (tb_rows tb))).

Lemma filter_all {A} (f : A -> bool) l : (forall x, f x = true) -> List.filter f l = l.
Proof. intros Hf. induction l as [|x l IH]; simpl; [done|]. by rewrite Hf, IH. Qed.

Lemma listed_rows_ok tb : table_ok tb -> Forall (fun r => row_ok (r_graph_id r) r) (listed tb).
Proof.
  intros [Hk Hr]. apply Forall_take, Forall_forall. intros r Hin.
  apply sort_by_elem, list_elem_of_fmap in Hin as ([k r'] & -> & Hin).
  apply (proj1 (Forall_forall _ _) Hr) in Hin. simpl in *. destruct (load_of_ok _ _ Hin) as (_ & -> & _). done.
Qed.

Context (limit_positive : 1 <= max_graphs cfg).

(** Starting the manager: the listed rows are loaded; if the listing fails the
    manager starts empty. *)
Lemma init_run (e : menv) :
  env_ok e ->
  m_graphs (init clock cfg e)
  = match e_db e with
    | Some tb => if fails (tb_statements tb) then [] else load_rows [] (listed tb)
    | None => []
    end
  /\ e_uuid (m_env (init clock cfg e)) = e_uuid e
  /\ e_db (m_env (init clock cfg e))
     = match e_db e with
       | Some tb => Some (Table (tb_rows tb) (S (tb_statements tb)) (tb_clock tb))
       | None => None
       end.
Proof using limit_positive.
  intros He. unfold init, hydrate_from_database, gets. unfold bind at 1 3 5. cbn [m_env].
  unfold env_ok in He. destruct (e_db e) as [tb|] eqn:Edb; [|by simpl].
  unfold db_list_supervisor_graphs, store, sqlite_store, list_supervisor_graphs.
  rewrite (proj2 (Z.leb_gt _ _)) by lia. cbn [opt_str str_or_none is_empty].
  unfold statement. destruct (fails _); [done|]. cbn [andb]. rewrite filter_all by done.
  rewrite Z.max_r by lia. fold (listed tb). cbn [res_bind]. unfold bind, m_on_env, modify. simpl.
  rewrite hydrate_rows_run by by apply listed_rows_ok. done.
Qed.

Lemma init_inv (e : menv) : env_ok e -> manager_inv (init clock cfg e).
Proof using limit_positive.
  intros He. destruct (init_run e He) as (Hg & _ & Hdb).
  assert (NoDup (d_keys (m_graphs (init clock cfg e))) /\ Forall entry_ok (m_graphs (init clock cfg e))
          /\ Z.of_nat (length (m_graphs (init clock cfg e))) <= max_graphs cfg) as (H1 & H2 & H3).
  { rewrite Hg. clear Hg Hdb. unfold env_ok in He. destruct (e_db e) as [tb|]; [destruct (fails _)|].
    2: { destruct (load_rows_ok (listed tb) [] (listed_rows_ok _ He) (NoDup_nil_2) (Forall_nil_2 _))
           as (H1 & H2 & H3). simpl in H3. unfold listed in H3 at 2. rewrite length_take in H3.
         split; [done|]. split; [done | lia]. }
    all: split; [apply NoDup_nil_2|]; split; [constructor | simpl; lia]. }
  constructor; try done. unfold env_ok in *. rewrite Hdb. destruct (e_db e); [by destruct He | done].
Qed.
End manager_facts.

End SupervisorManager.
