(* ===== verification/SupervisorFacts.v ===== *)
(** The supervisor's guarantees over every state it can reach: any sequence of
    calls, from any clients, over any agent manager, with restarts from the
    database and failing statements. *)

From stdpp Require Import prelude strings list relations.
From Stdlib Require Import Lia ZArith Ascii.
From S2P Require Import Prelude PyStr PyVal Effects PyTime SupervisorData SupervisorDataFacts Supervisor SupervisorSteps SupervisorHelpers SupervisorEnv SupervisorStore SupervisorStoreFacts SupervisorManager.
Import SupervisorData SupervisorDataFacts Supervisor SupervisorSteps SupervisorHelpers SupervisorEnv SupervisorStore SupervisorStoreFacts SupervisorManager.

Module SupervisorFacts.

(** A call of the manager's interface; [Restart] is a new process over the
    same database. *)
Inductive call : Type :=
  | Create (user_id objective nodes gate_cfg metadata : pyval) (request_id actor : option string)
  | Get (graph_id : option string)
  | ListGraphs (user_id status : option string) (limit : Z)
  | Launch (graph_id user_id session_id request_id actor : option string)
  | Tick (graph_id user_id request_id actor : option string)
  | Verify (graph_id user_id : option string) (override_pass : option bool) (note : option string)
      (force_recheck : bool) (request_id actor : option string)
  | Restart.

(** The world the manager runs in. *)
Record world (AM : Type) : Type := World {
  w_clock : nat -> Z;
  w_uuid : nat -> string;
  w_db_now : nat -> Z;
  w_fails : nat -> bool;
  w_max_graphs : Z;
  w_max_nodes : Z;
  w_emitter : bool }.
Arguments World {AM}. Arguments w_clock {AM}. Arguments w_uuid {AM}. Arguments w_db_now {AM}.
Arguments w_fails {AM}. Arguments w_max_graphs {AM}. Arguments w_max_nodes {AM}. Arguments w_emitter {AM}.

(** [uuid4().hex] answers hexadecimal digits. *)
Definition hex_uuids {AM} (w : world AM) : Prop := forall n, all_chars is_hex (w_uuid w n) = true.

Section reach.
Context {AM : Type} {HAM : AgentManager AM} (w : world AM).
Local Instance store : GraphStore table := sqlite_store (w_db_now w) (w_fails w).
Local Abbreviation mgr := (@manager AM table).

Definition w_cfg : config := make_config (w_max_graphs w) (w_max_nodes w) (w_emitter w).

Definition run_call (c : call) (s : mgr) : mgr :=
  match c with
  | Create u o ns gt md rq ac => snd (create_graph (w_clock w) (w_uuid w) w_cfg u o ns gt md rq ac s)
  | Get gid => snd (get_graph gid s)
  | ListGraphs u st l => snd (list_graphs u st l s)
  | Launch gid u se rq ac => snd (launch_graph (w_clock w) w_cfg gid u se rq ac s)
  | Tick gid u rq ac => snd (tick_graph (w_clock w) w_cfg gid u rq ac s)
  | Verify gid u ov nt fr rq ac => snd (verify_graph_objective (w_clock w) w_cfg gid u ov nt fr rq ac s)
  | Restart => init (w_clock w) w_cfg (m_env s)
  end.

(** A process without a database, or with one that has no graphs yet. *)
Definition fresh_env (e : @env AM table) : Prop :=
  match e_db e with Some tb => tb_rows tb = [] | None => True end.

Inductive reachable : mgr -> Prop :=
  | reach_init e : fresh_env e -> reachable (init (w_clock w) w_cfg e)
  | reach_call c s : reachable s -> reachable (run_call c s).

Lemma cfg_positive : 1 <= max_graphs w_cfg.
Proof. unfold w_cfg, make_config. simpl. lia. Qed.

Lemma get_state gid (s : mgr) : snd (get_graph gid s) = s.
Proof.
  unfold get_graph, find_graph, bind, raise_if, raise, ret, gets.
  destruct (is_empty _); [done|]. by destruct (d_get _ (m_graphs s)).
Qed.

Lemma list_state u st l (s : mgr) : snd (list_graphs u st l s) = s.
Proof.
  unfold list_graphs, raise_if, bind, raise, ret, gets.
  by match goal with |- context [if ?b then _ else _] => destruct b end.
Qed.

Lemma call_inv c s : hex_uuids w -> manager_inv w_cfg s -> manager_inv w_cfg (run_call c s).
Proof.
  intros Hu Hs. destruct c; simpl.
  - by apply create_inv.
  - by rewrite get_state.
  - by rewrite list_state.
  - by apply launch_inv.
  - by apply tick_inv.
  - by apply verify_inv.
  - apply init_inv; [apply cfg_positive | apply Hs].
Qed.

Lemma reachable_inv s : hex_uuids w -> reachable s -> manager_inv w_cfg s.
Proof.
  intros Hu. induction 1 as [e He|c s _ IH]; [|by apply call_inv].
  apply init_inv; [apply cfg_positive|]. unfold fresh_env, env_ok in *.
  destruct (e_db e) as [tb|]; [|done]. constructor; rewrite He; [apply NoDup_nil_2 | constructor].
Qed.

Lemma reachable_graph s gid g :
  hex_uuids w -> reachable s -> d_get gid (m_graphs s) = Some g -> entry_ok (gid, g).
Proof. intros Hu Hs Hg. eapply entry_get; [by apply reachable_inv | done]. Qed.

Lemma reachable_node s gid g k n :
  hex_uuids w -> reachable s -> d_get gid (m_graphs s) = Some g -> d_get k (g_nodes g) = Some n ->
  node_inv (g_nodes g) n.
Proof.
  intros Hu Hs Hg Hn. destruct (reachable_graph _ _ _ Hu Hs Hg) as [Hi _]. apply d_get_elem in Hn.
  apply (proj1 (Forall_forall _ _) (inv_nodes _ Hi) _ Hn).
Qed.
End reach.

(** ** A concrete world, for the witnesses *)

(** An agent manager whose runs finish at once, with a counter for run ids. *)
Definition demo_run (n : nat) : pyval :=
  PDict [("id", PStr ("run-" +:+ str_of_Z (Z.of_nat n))); ("status", PStr "succeeded");
         ("response", PStr "index rebuilt")].

#[export] Instance demo_agents : AgentManager nat := {|
  am_create_run _ _ n := (Ok (demo_run n), S n);
  am_get_run _ n := (Ok (demo_run n), n) |}.

(** A clock that advances a second per reading from 2024-01-01. *)
Definition demo_clock (n : nat) : Z := (1704067200 + Z.of_nat n) * 1000000.

Fixpoint demo_uuid (n : nat) : string :=
  match n with O => "a" | S n' => String "a" (demo_uuid n') end.

Definition demo_world : world nat := World demo_clock demo_uuid demo_clock (fun _ => false) 2 10 true.

Lemma demo_hex : hex_uuids demo_world.
Proof. intros n. induction n as [|n IH]; [done|]. exact IH. Qed.

Definition demo_env : @env nat table := Env 0 0 0%nat (Some (Table [] 0 0)) [].

(** Two nodes, the second after the first. *)
Definition demo_nodes : pyval :=
  PList [PDict [("node_id", PStr "collect"); ("agent_id", PStr "a1"); ("message", PStr "collect the files")];
         PDict [("node_id", PStr "index"); ("agent_id", PStr "a2"); ("message", PStr "rebuild the index");
                ("depends_on", PList [PStr "collect"])]].

Definition demo_create : call :=
  Create (PStr "u1") (PStr "Rebuild the search index") demo_nodes PNone PNone None None.

Definition demo_start : manager :=
  init (HDB := sqlite_store demo_clock (fun _ => false)) demo_clock (w_cfg demo_world) demo_env.
Definition demo_created : manager := run_call demo_world demo_create demo_start.
Definition demo_state : manager :=
  run_call demo_world (Launch (Some "sup-a") (Some "u1") None None None) demo_created.

Lemma demo_reachable : reachable demo_world demo_state.
Proof. apply reach_call, reach_call, reach_init. reflexivity. Qed.

Lemma demo_created_reachable : reachable demo_world demo_created.
Proof. apply reach_call, reach_init. reflexivity. Qed.

(** The graph of the demo, launched, and its second node. *)
Definition empty_graph : graph := new_graph "" "" "" "" [] (Gate false "" "" [] 0 [] "" []) [].
Definition demo_graph : graph :=
  Eval vm_compute in default empty_graph (d_get "sup-a" (m_graphs demo_state)).
Definition demo_node : node :=
  Eval vm_compute in default (Node "" 0 "" "" [] PNone None [] "" None None 0 "" None None None)
                       (d_get "index" (g_nodes demo_graph)).

Lemma demo_graph_get : d_get "sup-a" (m_graphs demo_state) = Some demo_graph.
Proof. vm_compute. reflexivity. Qed.
Lemma demo_node_get : d_get "index" (g_nodes demo_graph) = Some demo_node.
Proof. reflexivity. Qed.

(** ** Claims *)

Section claims.
Context {AM : Type} {HAM : AgentManager AM} (w : world AM).
Local Instance claims_store : GraphStore table := sqlite_store (w_db_now w) (w_fails w).
Implicit Types (s : @manager AM table) (g : graph) (n : node).

(** C1. Dependency order: in every reachable state, a node that has a run, or
    that is neither planned nor blocked any more (a node whose run could not be
    created included, which is failed without a run), has only succeeded
    dependencies, and a blocked node has a dependency that cannot succeed any
    more.  No interleaving of calls, restarts or failing database statements
    starts or fails a node early. *)
Theorem dependency_order s gid g k n :
  hex_uuids w -> reachable w s -> d_get gid (m_graphs s) = Some g -> d_get k (g_nodes g) = Some n ->
  (n_run_id n <> None \/ n_status n ∉ ["planned"; "blocked"] ->
   forall d, d ∈ n_depends_on n -> status_of (g_nodes g) d = Some "succeeded")
  /\ (n_status n = "blocked" ->
      exists d st, d ∈ n_depends_on n /\ status_of (g_nodes g) d = Some st /\ st ∈ BLOCKING).
Proof.
  intros Hu Hs Hg Hn. destruct (reachable_node _ _ _ _ _ _ Hu Hs Hg Hn) as [Hl [H1 H2]].
  split; [|done]. intros Hr. apply H1. unfold RUN_STATUSES. rewrite elem_of_app.
  destruct Hl as [E| | |E|E]; auto; destruct Hr as [|Hr]; try done; rewrite E in Hr |- *; [|right|]; set_solver.
Qed.

(** Node lifecycle: in every reachable state the run, the attempts and
    the times of a node agree with its status; in particular a node has at
    most one run ever, and exactly one attempt if it has a run. *)
Theorem node_lifecycle s gid g k n :
  hex_uuids w -> reachable w s -> d_get gid (m_graphs s) = Some g -> d_get k (g_nodes g) = Some n ->
  lifecycle n /\ n_attempts n = match n_run_id n with Some _ => 1 | None => 0 end
  /\ n_status n ∈ SUPERVISOR_NODE_STATUSES.
Proof.
  intros Hu Hs Hg Hn. destruct (reachable_node _ _ _ _ _ _ Hu Hs Hg Hn) as [Hl _].
  destruct (reachable_graph _ _ _ _ Hu Hs Hg) as (Hi & _).
  pose proof (get_node_wf _ _ _ (gr_nodes _ (inv_wf _ Hi)) Hn) as Hw.
  split; [done|]. split; [|apply Hw]. destruct Hl; destruct (n_run_id n); done.
Qed.

(** The run counters of a graph count exactly the nodes with a run and
    the succeeded nodes, in every reachable state. *)
Theorem run_counters_exact s gid g :
  hex_uuids w -> reachable w s -> d_get gid (m_graphs s) = Some g ->
  t_runs_started (g_telemetry g) = sum_of (fun n => match n_run_id n with Some _ => 1 | None => 0 end) (g_nodes g)
  /\ t_runs_completed (g_telemetry g) = sum_of (fun n => bool_Z (succeeded n)) (g_nodes g).
Proof.
  intros Hu Hs Hg. destruct (reachable_graph _ _ _ _ Hu Hs Hg) as ([] & _). simpl in *.
  split; [|done]. rewrite inv_started0. clear - inv_nodes0. generalize dependent (g_nodes g).
  intros nodes. generalize nodes at 1. intros all H. induction H as [|kn nodes [Hl _] _ IH]; simpl; [done|].
  rewrite IH. f_equal. destruct Hl; destruct (n_run_id _); done.
Qed.

(** The status of a graph is a function of its nodes, of its objective
    verification and of whether it was launched: succeeded exactly when every
    node succeeded and the verification passed or was skipped, failed when a
    node failed, the verification failed, or blocked nodes are left with
    nothing running, and so on; its finish time is set exactly when it is
    finished. *)
Theorem graph_status_derived s gid g :
  hex_uuids w -> reachable w s -> d_get gid (m_graphs s) = Some g ->
  g_status g = derived_status g /\ (g_finished_at g <> None <-> g_status g ∈ TERMINAL_GRAPH)
  /\ (g_status g = "succeeded" ->
      Forall (fun kn => n_status (snd kn) = "succeeded") (g_nodes g)
      /\ v_status (g_objective_verification g) ∈ ["passed"; "skipped"]).
Proof.
  intros Hu Hs Hg. destruct (reachable_graph _ _ _ _ Hu Hs Hg) as (_ & [Hst Hf _] & _). simpl in *.
  split; [done|]. split; [done|]. intros E. rewrite E in Hst. unfold derived_status in Hst.
  destruct (all_succeeded (g_nodes g)) eqn:Ea.
  - split.
    + apply Forall_forall. intros kn Hin. unfold all_succeeded in Ea. rewrite forallb_forall in Ea.
      apply list_elem_of_In, Ea in Hin. by apply String.eqb_eq in Hin.
    + destruct (str_in _ _) eqn:Ev; [by apply str_in_spec|]. by destruct (String.eqb _ _).
  - repeat match type of Hst with context [if ?b then _ else _] => destruct b end;
      try destruct (g_launched_at g); done.
Qed.

(** Bounds and shape: a reachable manager holds at most its limit of
    graphs, under their own ids; the nodes of a graph form an acyclic graph
    closed under dependencies, its gate requires existing nodes, and its
    timeline has at most 10000 entries. *)
Theorem graphs_bounded_acyclic s :
  hex_uuids w -> reachable w s ->
  Z.of_nat (length (m_graphs s)) <= Z.max 1 (w_max_graphs w) /\ NoDup (d_keys (m_graphs s))
  /\ Forall (fun kg => fst kg = g_id (snd kg) /\ acyclic (g_nodes (snd kg))
       /\ (forall k n, d_get k (g_nodes (snd kg)) = Some n -> n_depends_on n ⊆ d_keys (g_nodes (snd kg)))
       /\ gt_required_node_ids (g_objective_gate (snd kg)) ⊆ d_keys (g_nodes (snd kg))
       /\ Z.of_nat (length (g_timeline (snd kg))) <= 10000) (m_graphs s).
Proof.
  intros Hu Hs. destruct (reachable_inv _ _ Hu Hs) as [Hk Hf Hc _]. split; [exact Hc|]. split; [done|].
  eapply Forall_impl; [exact Hf|]. intros kg (Hi & _ & Hid). pose proof (inv_wf _ Hi) as Hw.
  split; [done|]. split; [apply Hw|]. split; [|split; [apply Hw | apply Hi]].
  intros k n Hn. by apply (get_node_wf _ _ _ (gr_nodes _ Hw)) in Hn as [].
Qed.

(** What a call on an existing graph does when it returns: the answer is the
    snapshot of the graph it leaves, the graph went through steps, and no
    other graph changed. *)
Definition returned s gid g (r : res pydict) (s' : @manager AM table) : Prop :=
  exists g', r = Ok (snapshot g') /\ rtc gstep g g' /\ m_graphs s' = d_set gid g' (m_graphs s).

Lemma key_text s gid g : hex_uuids w -> reachable w s -> d_get gid (m_graphs s) = Some g -> text gid.
Proof.
  intros Hu Hs Hg. destruct (reachable_graph _ _ _ _ Hu Hs Hg) as (Hi & _ & E). simpl in *. rewrite E.
  apply Hi.
Qed.

Lemma on_owned_run s gid g user_id body Q :
  hex_uuids w -> reachable w s -> d_get gid (m_graphs s) = Some g -> assert_owner g user_id = Ok tt ->
  wpg (body gid) g Q -> persists (w_clock w) (w_cfg w) (m_env s) (body gid) ->
  exists g', Q (fst (on_owned (Some gid) user_id body s)) g'
    /\ m_graphs (snd (on_owned (Some gid) user_id body s)) = d_set gid g' (m_graphs s).
Proof.
  intros Hu Hs Hg Ho Hw Hp. destruct (key_text _ _ _ Hu Hs Hg) as [Ht Hne].
  unfold on_owned, find_graph, bind, raise_if, gets, lift, ret, raise. cbn [opt_str]. rewrite Ht.
  rewrite (proj2 (is_empty_false gid) Hne), Hg. cbn beta iota. rewrite Ho. cbn beta iota.
  destruct (with_graph_run (w_clock w) (w_db_now w) (w_fails w) (w_cfg w) s gid g (body gid) Q Hw Hp)
    as (r & g' & e' & E & HQ & _).
  unfold claims_store. rewrite E. by exists g'.
Qed.

(** Calls on an existing graph by its owner never raise: whatever the
    agent manager and the database do, [tick_graph] and
    [verify_graph_objective] return the snapshot of the graph they leave, and
    so does [launch_graph] unless the graph is finished, which it refuses
    without changing it.  The graph moves only along the step relation and no
    other graph changes. *)
Theorem owner_calls_return s gid g user_id :
  hex_uuids w -> reachable w s -> d_get gid (m_graphs s) = Some g -> assert_owner g user_id = Ok tt ->
  (forall rq ac, let '(r, s') := tick_graph (w_clock w) (w_cfg w) (Some gid) user_id rq ac s in
     returned s gid g r s')
  /\ (forall ov nt fr rq ac,
        let '(r, s') := verify_graph_objective (w_clock w) (w_cfg w) (Some gid) user_id ov nt fr rq ac s in
        returned s gid g r s')
  /\ (forall se rq ac,
        let '(r, s') := launch_graph (w_clock w) (w_cfg w) (Some gid) user_id se rq ac s in
        if str_in (g_status g) TERMINAL_GRAPH
        then r = Err (ValueError ("Supervisor graph is terminal: " +:+ gid)) /\ m_graphs s' = m_graphs s
        else returned s gid g r s').
Proof.
  intros Hu Hs Hg Ho. destruct (reachable_graph _ _ _ _ Hu Hs Hg) as (Hi & _). simpl in Hi.
  split; [|split]; intros.
  - destruct (on_owned_run s gid g user_id (fun gid => tick_body (w_clock w) (w_cfg w) gid rq ac) _ Hu Hs Hg Ho
                (tick_body_ok _ _ gid rq ac g Hi) (tick_persists _ _ _ _ _ _)) as (g' & (H1 & H2 & _) & H3).
    unfold tick_graph. destruct (on_owned _ _ _ s) as [r s']. by exists g'.
  - destruct (on_owned_run s gid g user_id (fun gid => verify_body (w_clock w) (w_cfg w) gid ov nt fr rq ac) _
                Hu Hs Hg Ho (verify_body_ok _ _ gid ov nt fr rq ac g Hi) (verify_persists _ _ _ _ _ _ _ _ _))
      as (g' & (H1 & H2 & _) & H3).
    unfold verify_graph_objective. destruct (on_owned _ _ _ s) as [r s']. by exists g'.
  - destruct (on_owned_run s gid g user_id (fun gid => launch_body (w_clock w) (w_cfg w) gid se rq ac) _ Hu Hs Hg Ho
                (launch_body_ok _ _ gid se rq ac g Hi) (launch_persists _ _ _ _ _ _ _)) as (g' & H & H3).
    unfold launch_graph.
    destruct (on_owned _ _ _ s) as [r s']. cbn beta in H. cbn [fst snd] in *.
    destruct (str_in _ _).
    + destruct H as [-> ->]. split; [done|]. rewrite H3. by apply d_set_same.
    + destruct H as (H1 & H2 & _). by exists g'.
Qed.

Definition owned_by_other : exn := ValueError "Supervisor graph is owned by another user".

(** Ownership: a call that names another user than the owner of the graph
    raises and leaves the whole manager as it was. *)
Theorem foreign_user_refused s gid g u :
  hex_uuids w -> reachable w s -> d_get gid (m_graphs s) = Some g ->
  text u -> u <> g_user_id g ->
  (forall rq ac, tick_graph (w_clock w) (w_cfg w) (Some gid) (Some u) rq ac s = (Err owned_by_other, s))
  /\ (forall se rq ac,
        launch_graph (w_clock w) (w_cfg w) (Some gid) (Some u) se rq ac s = (Err owned_by_other, s))
  /\ (forall ov nt fr rq ac,
        verify_graph_objective (w_clock w) (w_cfg w) (Some gid) (Some u) ov nt fr rq ac s
        = (Err owned_by_other, s)).
Proof.
  intros Hu Hs Hg [Hut Hune] Hne. destruct (reachable_graph _ _ _ _ Hu Hs Hg) as (Hi & _). simpl in Hi.
  destruct (gr_user _ (inv_wf _ Hi)) as [Hot Hone].
  assert (assert_owner g (Some u) = Err owned_by_other) as Hno.
  { unfold assert_owner. cbn [opt_str]. rewrite Hut, Hot, (proj2 (is_empty_false _) Hune),
      (proj2 (is_empty_false _) Hone). cbn [negb andb].
    by rewrite (proj2 (String.eqb_neq _ _) (not_eq_sym Hne)). }
  destruct (key_text _ _ _ Hu Hs Hg) as [Ht Hgne].
  assert (forall body, on_owned (Some gid) (Some u) body s = (Err owned_by_other, s)) as Hall.
  { intros body. unfold on_owned, find_graph, bind, raise_if, gets, lift, ret, raise. cbn [opt_str].
    rewrite Ht, (proj2 (is_empty_false gid) Hgne), Hg. cbn beta iota. by rewrite Hno. }
  unfold tick_graph, launch_graph, verify_graph_objective. auto.
Qed.

(** Creation: [create_graph] either raises and leaves the graphs as they
    were, or returns the snapshot of one new graph, planned and without runs.
    A graph it removes to make room is a finished one, the one with the oldest
    update among the finished, and only when the manager is full; every other
    graph stays. *)
Theorem create_outcome s user_id objective nodes gate_cfg metadata rq ac :
  hex_uuids w -> reachable w s ->
  let '(r, s') := create_graph (w_clock w) (w_uuid w) (w_cfg w) user_id objective nodes gate_cfg metadata rq ac s in
  ((exists x, r = Err x) /\ m_graphs s' = m_graphs s)
  \/ exists g, r = Ok (snapshot g) /\ d_get (g_id g) (m_graphs s') = Some g /\ planned_graph g
       /\ acyclic (g_nodes g)
       /\ (forall k h, k <> g_id g -> d_get k (m_graphs s) = Some h ->
           d_get k (m_graphs s') = Some h
           \/ (d_get k (m_graphs s') = None /\ Z.of_nat (length (m_graphs s)) = Z.max 1 (w_max_graphs w)
               /\ g_status h ∈ TERMINAL_GRAPH
               /\ forall k' h', d_get k' (m_graphs s) = Some h' -> g_status h' ∈ TERMINAL_GRAPH ->
                    String.leb (g_updated_at h) (g_updated_at h') = true)).
Proof.
  intros Hu Hs. pose proof (reachable_inv _ _ Hu Hs) as Hinv.
  pose proof (create_cases (w_clock w) (w_uuid w) (w_db_now w) (w_fails w) (w_cfg w) Hu user_id objective nodes
                gate_cfg metadata rq ac s Hinv) as H.
  unfold claims_store. destruct (create_graph _ _ _ _ _ _ _ _ _ _ s) as [r s'].
  destruct H as [(H1 & H2 & _)|(gs1 & db1 & g & Hev & Hlt & Hr & Hid & Hp & Hg & Hgs & _)]; [by left|].
  right. exists g. split; [done|]. rewrite Hgs. split; [apply d_get_set_eq|]. split; [done|].
  split; [apply Hg|]. intros k h Hk Hh. rewrite d_get_set_ne by congruence.
  destruct Hev as [[-> _]|(old & Hold & Hlen & -> & _)]; [by left|].
  destruct (decide (k = g_id old)) as [->|Hne]; [|left; by rewrite d_get_pop_ne by congruence].
  right. destruct (oldest_terminal_spec _ _ Hold) as (Hin & Ht & Hmin).
  assert (d_get (g_id old) (m_graphs s) = Some old) as Hget.
  { apply list_elem_of_fmap in Hin as ([k' h'] & -> & Hin).
    destruct (proj1 (Forall_forall _ _) (mi_graphs _ _ Hinv) _ Hin) as (_ & _ & E). simpl in *. subst k'.
    apply d_elem_get; [apply Hinv | done]. }
  assert (h = old) as -> by congruence.
  split; [apply d_get_pop_eq, Hinv|]. split; [done|]. split; [done|]. intros k' h' Hk' Ht'. apply Hmin; [|done].
  apply d_get_elem in Hk'. apply list_elem_of_fmap. by exists (k', h').
Qed.
End claims.

(** ** Witnesses *)

Lemma dependency_order_witness :
  n_run_id demo_node = Some "run-1" /\ status_of (g_nodes demo_graph) "collect" = Some "succeeded".
Proof.
  split; [reflexivity|].
  apply (proj1 (dependency_order demo_world demo_state "sup-a" demo_graph "index" demo_node
                  demo_hex demo_reachable demo_graph_get demo_node_get)); vm_compute; [left; discriminate | left].
Defined.

Lemma node_lifecycle_witness :
  n_status demo_node = "succeeded" /\ n_attempts demo_node = 1.
Proof.
  split; [reflexivity|].
  apply (proj1 (proj2 (node_lifecycle demo_world demo_state "sup-a" demo_graph "index" demo_node
                  demo_hex demo_reachable demo_graph_get demo_node_get))).
Defined.

Lemma run_counters_exact_witness :
  t_runs_started (g_telemetry demo_graph) = 2 /\ t_runs_completed (g_telemetry demo_graph) = 2.
Proof. exact (run_counters_exact demo_world demo_state "sup-a" demo_graph demo_hex demo_reachable demo_graph_get). Defined.

Lemma graph_status_derived_witness :
  g_status demo_graph = "succeeded" /\ derived_status demo_graph = "succeeded"
  /\ v_status (g_objective_verification demo_graph) ∈ ["passed"; "skipped"].
Proof.
  pose proof (graph_status_derived demo_world demo_state "sup-a" demo_graph demo_hex demo_reachable demo_graph_get)
    as (H1 & _ & H3).
  split; [reflexivity|]. split; [rewrite <- H1; reflexivity|]. apply H3. reflexivity.
Defined.

Lemma graphs_bounded_acyclic_witness : Z.of_nat (length (m_graphs demo_state)) <= 2.
Proof. exact (proj1 (graphs_bounded_acyclic demo_world demo_state demo_hex demo_reachable)). Defined.

Lemma owner_calls_return_witness :
  exists g', fst (tick_graph (HDB := sqlite_store demo_clock (fun _ => false)) demo_clock (w_cfg demo_world)
                    (Some "sup-a") (Some "u1") None None demo_state) = Ok (snapshot g').
Proof.
  pose proof (proj1 (owner_calls_return demo_world demo_state "sup-a" demo_graph (Some "u1")
                       demo_hex demo_reachable demo_graph_get eq_refl) None None) as H.
  destruct (tick_graph _ _ _ _ _ _ demo_state) as [r s']. destruct H as (g' & -> & _). by exists g'.
Defined.

Lemma foreign_user_refused_witness :
  tick_graph (HDB := sqlite_store demo_clock (fun _ => false)) demo_clock (w_cfg demo_world)
    (Some "sup-a") (Some "u2") None None demo_state = (Err owned_by_other, demo_state).
Proof.
  apply (proj1 (foreign_user_refused demo_world demo_state "sup-a" demo_graph "u2" demo_hex demo_reachable
                  demo_graph_get ltac:(by split) ltac:(vm_compute; discriminate))).
Defined.

Lemma create_outcome_witness :
  exists g, fst (create_graph (HDB := sqlite_store demo_clock (fun _ => false)) demo_clock demo_uuid
                   (w_cfg demo_world) (PStr "u1") (PStr "Tidy the archive") demo_nodes PNone PNone None None
                   demo_state) = Ok (snapshot g) /\ planned_graph g.
Proof.
  pose proof (create_outcome demo_world demo_state (PStr "u1") (PStr "Tidy the archive") demo_nodes PNone PNone
                None None demo_hex demo_reachable) as H.
  assert (is_ok (fst (create_graph (HDB := sqlite_store demo_clock (fun _ => false)) demo_clock demo_uuid
                   (w_cfg demo_world) (PStr "u1") (PStr "Tidy the archive") demo_nodes PNone PNone None None
                   demo_state)) = true) as Hok by (vm_compute; reflexivity).
  destruct (create_graph _ _ _ _ _ _ _ _ _ _ demo_state) as [r s'].
  destruct H as [((x & ->) & _)|(g & Hr & _ & Hp & _)]; [discriminate Hok|]. by exists g.
Defined.

End SupervisorFacts.
