(* ===== verification/SupervisorDurable.v ===== *)
(** The supervisor's histories: every call has one of four effects on the
    graphs and on the table; finished nodes never move again; and while no
    database statement fails, a restart brings back every graph. *)

From stdpp Require Import prelude strings list relations.
From Stdlib Require Import Lia ZArith Ascii.
From S2P Require Import Prelude PyStr PyVal Effects PyTime SupervisorData SupervisorDataFacts Supervisor SupervisorSteps SupervisorHelpers SupervisorEnv SupervisorStore SupervisorStoreFacts SupervisorManager SupervisorFacts.
Import SupervisorData SupervisorDataFacts Supervisor SupervisorSteps SupervisorHelpers SupervisorEnv SupervisorStore SupervisorStoreFacts SupervisorManager SupervisorFacts.

Module SupervisorDurable.

Section durable.
Context {AM : Type} {HAM : AgentManager AM} (w : world AM).
Local Instance store : GraphStore table := sqlite_store (w_db_now w) (w_fails w).
Local Abbreviation mgr := (@manager AM table).
Implicit Types (s : mgr) (g : graph).

(** The effect of a call. *)
Inductive effect s s' : Prop :=
  | eff_none :
      m_graphs s' = m_graphs s -> e_db (m_env s') = e_db (m_env s) ->
      (e_uuid (m_env s) <= e_uuid (m_env s'))%nat -> effect s s'
  | eff_update gid g g' :
      d_get gid (m_graphs s) = Some g -> rtc gstep g g' -> entry_ok (gid, g') ->
      m_graphs s' = d_set gid g' (m_graphs s) ->
      e_db (m_env s') = upsert_db (w_fails w) g' (e_db (m_env s)) ->
      e_uuid (m_env s') = e_uuid (m_env s) -> effect s s'
  | eff_create r : accepted (w_uuid w) (w_fails w) (w_cfg w) s r s' -> effect s s'.

Lemma owned_effect graph_id user_id body s :
  manager_inv (w_cfg w) s ->
  (forall gid g, graph_inv g -> body_spec (body gid) g) ->
  (forall gid, persists (w_clock w) (w_cfg w) (m_env s) (body gid)) ->
  effect s (snd (on_owned graph_id user_id body s)).
Proof.
  intros Hs Hb Hp.
  destruct (on_owned_cases graph_id user_id body s) as [[x ->]|(g & Hg & _ & ->)]; [by apply eff_none|].
  pose proof (entry_get _ _ _ _ Hs Hg) as He.
  set (gid := strip _) in *.
  destruct (with_graph_cases (w_clock w) (w_db_now w) (w_fails w) (w_cfg w) s gid g (body gid) He
              (Hb gid g (proj1 He)) (Hp gid)) as (r & g' & e' & E & Hg' & Hcase).
  unfold store. rewrite E. destruct Hcase as [(_ & Hst & Hdb & Hu)|(x & _ & -> & [Hdb Hu])].
  - eapply eff_update; done.
  - apply eff_none; simpl; [by apply d_set_same | done | lia].
Qed.

Lemma call_effect c s :
  hex_uuids w -> manager_inv (w_cfg w) s -> c <> Restart -> effect s (run_call w c s).
Proof.
  intros Hu Hs Hc. destruct c; simpl; try done.
  - pose proof (create_cases (w_clock w) (w_uuid w) (w_db_now w) (w_fails w) (w_cfg w) Hu user_id objective nodes
                  gate_cfg metadata request_id actor s Hs) as H.
    unfold store in *. destruct (create_graph _ _ _ _ _ _ _ _ _ _ s) as [r s'].
    destruct H as [(_ & H1 & H2 & H3)|H]; [by apply eff_none | by eapply eff_create].
  - rewrite get_state. by apply eff_none.
  - rewrite list_state. by apply eff_none.
  - apply owned_effect; [done | intros; by apply launch_spec | intros; apply launch_persists].
  - apply owned_effect; [done | intros; by apply tick_spec | intros; apply tick_persists].
  - apply owned_effect; [done | intros; by apply verify_spec | intros; apply verify_persists].
Qed.

(** *** Identifiers *)

Definition used (u : nat) (k : string) : Prop := exists m, (m < u)%nat /\ k = "sup-" +:+ w_uuid w m.

Definition rows_of (db : option table) : dict graph_row :=
  match db with Some tb => tb_rows tb | None => [] end.

Record ids_inv s : Prop := {
  id_graphs : forall k g, d_get k (m_graphs s) = Some g -> used (e_uuid (m_env s)) k;
  id_rows : forall k r, d_get k (rows_of (e_db (m_env s))) = Some r -> used (e_uuid (m_env s)) k }.

Lemma used_le u u' k : (u <= u')%nat -> used u k -> used u' k.
Proof. intros Hle (m & Hm & ->). exists m. split; [lia | done]. Qed.

Lemma upsert_rows g db :
  rows_of (upsert_db (w_fails w) g db) = rows_of db
  \/ (exists tb, db = Some tb /\ rows_of (upsert_db (w_fails w) g db) = upsert_row (row_of g (g_created_at g)) (tb_rows tb)).
Proof.
  destruct db as [tb|]; [|by left]. unfold upsert_db, statement. destruct (w_fails w _); [by left | right].
  by exists tb.
Qed.

Lemma d_get_pop_Some {A} k k' (d : dict A) v : d_get k (d_pop k' d) = Some v -> NoDup (d_keys d) -> d_get k d = Some v.
Proof.
  intros H Hd. destruct (decide (k' = k)) as [->|Hne].
  - by rewrite d_get_pop_eq in H.
  - by rewrite d_get_pop_ne in H.
Qed.

Lemma delete_rows k db :
  rows_of (delete_db (w_fails w) k db) = rows_of db \/ rows_of (delete_db (w_fails w) k db) = d_pop k (rows_of db).
Proof.
  destruct db as [tb|]; [|by left]. unfold delete_db, statement. destruct (w_fails w _); [by left | by right].
Qed.

Lemma rows_NoDup s : manager_inv (w_cfg w) s -> NoDup (d_keys (rows_of (e_db (m_env s)))).
Proof.
  intros Hs. pose proof (mi_env _ _ Hs) as He. unfold env_ok in He.
  destruct (e_db (m_env s)); [apply He | apply NoDup_nil_2].
Qed.

Lemma upsert_get g rows k :
  d_get k (upsert_row (row_of g (g_created_at g)) rows)
  = if String.eqb (g_id g) k
    then Some (match d_get (g_id g) rows with
               | Some old => row_of g (r_created_at old) | None => row_of g (g_created_at g) end)
    else d_get k rows.
Proof.
  unfold upsert_row. rewrite d_get_set. cbn [r_graph_id row_of].
  destruct (String.eqb _ _); [|done]. by destruct (d_get (g_id g) rows).
Qed.

Lemma effect_ids s s' : manager_inv (w_cfg w) s -> ids_inv s -> effect s s' -> ids_inv s'.
Proof.
  intros Hs [Hg Hr] [E1 E2 E3|gid g g' Hget Hst Hg' E1 E2 E3|r Hacc].
  - constructor; intros k x; rewrite ?E1, ?E2; intros H; (eapply used_le; [exact E3|]); eauto.
  - constructor; intros k x; rewrite ?E1, E2, E3 || rewrite ?E1, E3.
    + rewrite d_get_set. destruct (String.eqb_spec gid k) as [<-|]; eauto.
    + destruct (upsert_rows g' (e_db (m_env s))) as [->|(tb & Etb & ->)]; [eauto|].
      rewrite upsert_get. destruct Hg' as (_ & _ & Hid). simpl in Hid. rewrite <- Hid.
      destruct (String.eqb_spec gid k) as [<-|]; [eauto|]. intros H. eapply Hr. rewrite Etb. exact H.
  - destruct Hacc as (gs1 & db1 & g & Hev & _ & _ & Hid & _ & _ & E1 & E2 & E3).
    assert (used (e_uuid (m_env s')) (g_id g)) as Hnew by (exists (e_uuid (m_env s)); rewrite E3; split; [lia | done]).
    assert ((forall k x, d_get k gs1 = Some x -> used (e_uuid (m_env s')) k)
            /\ (forall k x, d_get k (rows_of db1) = Some x -> used (e_uuid (m_env s')) k)) as [Hg1 Hr1].
    { rewrite E3. destruct Hev as [[-> ->]|(old & _ & _ & -> & ->)].
      - split; intros k x H; (eapply used_le; [|eauto]; lia).
      - split; intros k x H.
        + apply d_get_pop_Some in H; [|apply Hs]. eapply used_le; [|eauto]. lia.
        + destruct (delete_rows (g_id old) (e_db (m_env s))) as [E|E]; rewrite E in H;
            [|apply d_get_pop_Some in H; [|by apply rows_NoDup]]; (eapply used_le; [|eauto]; lia). }
    constructor; intros k x; rewrite ?E1, ?E2.
    + rewrite d_get_set. destruct (String.eqb_spec (g_id g) k) as [<-|]; eauto.
    + destruct (upsert_rows g db1) as [->|(tb & Etb & ->)]; [eauto|].
      rewrite upsert_get. destruct (String.eqb_spec (g_id g) k) as [<-|]; [done|]. intros H. eapply Hr1.
      rewrite Etb. exact H.
Qed.

(** *** Restart *)

Lemma table_row_key tb k r : table_ok tb -> d_get k (tb_rows tb) = Some r -> row_ok k r /\ r_graph_id r = k.
Proof.
  intros [_ Hr] Hk. apply d_get_elem in Hk. apply (proj1 (Forall_forall _ _) Hr) in Hk. simpl in Hk.
  split; [done | by apply load_of_ok].
Qed.

Lemma listed_elem tb r : table_ok tb -> r ∈ listed (w_cfg w) tb -> d_get (r_graph_id r) (tb_rows tb) = Some r.
Proof.
  intros Ht Hin. unfold listed in Hin. apply subseteq_take in Hin.
  apply sort_by_elem, list_elem_of_fmap in Hin as ([k r'] & -> & Hin). simpl.
  apply d_elem_get in Hin; [|apply Ht]. by rewrite (proj2 (table_row_key _ _ _ Ht Hin)).
Qed.

Lemma NoDup_map_inj {A B} (f : A -> B) l :
  (forall x y, x ∈ l -> y ∈ l -> f x = f y -> x = y) -> NoDup l -> NoDup (map f l).
Proof.
  intros Hf. induction 1 as [|x l Hx Hl IH]; simpl; [apply NoDup_nil_2|]. apply NoDup_cons. split.
  - intros Hin. apply list_elem_of_In, in_map_iff in Hin as (y & E & Hy%list_elem_of_In). apply Hx.
    rewrite (Hf x y); [done | left | by right | done].
  - apply IH. intros y z Hy Hz. apply Hf; by right.
Qed.

Lemma values_NoDup tb : table_ok tb -> NoDup (d_values (tb_rows tb)).
Proof.
  intros Ht. apply (NoDup_fmap_1 r_graph_id).
  assert (r_graph_id <$> d_values (tb_rows tb) = d_keys (tb_rows tb)) as ->; [|apply Ht].
  unfold d_values, d_keys. rewrite <- list_fmap_compose. apply list_fmap_ext. intros i [k r] Hi. simpl.
  apply list_elem_of_lookup_2, d_elem_get in Hi; [|apply Ht]. by eapply table_row_key.
Qed.

Lemma listed_ids_NoDup tb : table_ok tb -> NoDup (map r_graph_id (listed (w_cfg w) tb)).
Proof.
  intros Ht. apply NoDup_map_inj.
  - intros x y Hx%listed_elem Hy%listed_elem E; [|done..]. congruence.
  - unfold listed. eapply sublist_NoDup; [|apply sublist_take]. rewrite sort_by_perm. by apply values_NoDup.
Qed.

Lemma start_run_spec (e : @env AM table) :
  env_ok e ->
  m_graphs (init (w_clock w) (w_cfg w) e)
  = match e_db e with
    | Some tb => if w_fails w (tb_statements tb) then [] else load_rows [] (listed (w_cfg w) tb)
    | None => []
    end
  /\ e_uuid (m_env (init (w_clock w) (w_cfg w) e)) = e_uuid e
  /\ e_db (m_env (init (w_clock w) (w_cfg w) e))
     = match e_db e with
       | Some tb => Some (Table (tb_rows tb) (S (tb_statements tb)) (tb_clock tb))
       | None => None
       end.
Proof. exact (init_run (w_clock w) (w_db_now w) (w_fails w) (w_cfg w) (cfg_positive w) e). Qed.

(** What a restart makes of the table: the listed rows; all of them when
    they fit the limit. *)
Lemma restart_get s k :
  manager_inv (w_cfg w) s ->
  d_get k (m_graphs (run_call w Restart s)) = None
  \/ exists r, d_get k (rows_of (e_db (m_env s))) = Some r
               /\ d_get k (m_graphs (run_call w Restart s)) = Some (load_of r).
Proof.
  intros Hs. pose proof (mi_env _ _ Hs) as He. change (run_call w Restart s) with (init (w_clock w) (w_cfg w) (m_env s)).
  destruct (start_run_spec (m_env s) He) as (-> & _).
  unfold env_ok in He. destruct (e_db (m_env s)) as [tb|]; [|by left].
  destruct (w_fails w _); [by left|]. rewrite load_rows_get by by apply listed_ids_NoDup.
  destruct (List.find _ _) as [r|] eqn:Ef; [|by left]. right. exists r.
  apply find_some in Ef as [Hin%list_elem_of_In Hk%String.eqb_eq]. subst k. split; [|done].
  by apply listed_elem.
Qed.

Lemma restart_env s :
  manager_inv (w_cfg w) s ->
  e_uuid (m_env (run_call w Restart s)) = e_uuid (m_env s)
  /\ rows_of (e_db (m_env (run_call w Restart s))) = rows_of (e_db (m_env s)).
Proof.
  intros Hs. pose proof (mi_env _ _ Hs) as He. change (run_call w Restart s) with (init (w_clock w) (w_cfg w) (m_env s)).
  destruct (start_run_spec (m_env s) He) as (_ & -> & ->).
  split; [done|]. by destruct (e_db (m_env s)).
Qed.

Lemma call_ids c s : hex_uuids w -> manager_inv (w_cfg w) s -> ids_inv s -> ids_inv (run_call w c s).
Proof.
  intros Hu Hs Hi. destruct c; try (eapply effect_ids; [done | done | by apply call_effect]).
  destruct (restart_env s Hs) as [E1 E2]. constructor; rewrite E1, ?E2; [|apply Hi].
  intros k g Hk. destruct (restart_get s k Hs) as [H|(r & Hr & _)]; [congruence|]. exact (id_rows _ Hi _ _ Hr).
Qed.

Lemma reachable_ids s : hex_uuids w -> reachable w s -> ids_inv s.
Proof.
  intros Hu. induction 1 as [e He|c s Hs IH]; [|by apply call_ids; [|apply reachable_inv|]].
  assert (env_ok e) as Hok.
  { unfold fresh_env, env_ok in *. destruct (e_db e); [|done].
    constructor; rewrite He; [apply NoDup_nil_2 | constructor]. }
  destruct (start_run_spec e Hok) as (Hg & _ & Hdb).
  change (init (HDB := SupervisorFacts.store w) (w_clock w) (w_cfg w) e) with (init (w_clock w) (w_cfg w) e).
  constructor; intros k x; rewrite ?Hg, ?Hdb; unfold fresh_env in He; destruct (e_db e) as [tb|]; try done.
  - destruct (w_fails w _); [done|]. unfold listed. rewrite He. simpl. by rewrite take_nil.
  - simpl. by rewrite He.
Qed.
End durable.

(** ** While no statement fails, the table mirrors the graphs *)

Definition never_fails {AM} (w : world AM) : Prop := forall n, w_fails w n = false.

(** [uuid4().hex] never answers the same twice. *)
Definition distinct_uuids {AM} (w : world AM) : Prop := forall m n, w_uuid w m = w_uuid w n -> m = n.

(** A graph as a restart can see it: error texts normalized, without the
    [checkpoint_count] the row decoder adds. *)
Definition core (g : graph) : graph :=
  let g' := canon_graph g in
  Graph (g_id g') (g_user_id g') (g_objective g') (g_status g') (g_created_at g') (g_updated_at g')
    (g_launched_at g') (g_finished_at g') (g_default_session_id g') (g_metadata g') (g_objective_gate g')
    (g_objective_verification g') (g_nodes g') (g_timeline g') (g_telemetry g') [].

Lemma strip_or_none_idemp o : optional_str (optional_str o) = optional_str o.
Proof.
  unfold optional_str at 2 3. unfold str_or_none. destruct (is_empty (strip (opt_str o))) eqn:E; [done|].
  unfold optional_str. cbn [opt_str]. rewrite strip_idemp. unfold str_or_none. by rewrite E.
Qed.

Lemma canon_idemp g : canon_graph (canon_graph g) = canon_graph g.
Proof.
  unfold canon_graph. cbn [g_nodes set_g_nodes]. unfold set_g_nodes at 1 3. cbn. f_equal.
  rewrite map_map. apply map_ext. intros [k n]. simpl. f_equal. unfold canon_node, set_n_last_error. simpl.
  by rewrite strip_or_none_idemp.
Qed.

Lemma core_loaded g : core (loaded_graph g (g_created_at g)) = core g.
Proof. unfold core, loaded_graph. rewrite canon_idemp. done. Qed.

Section mirror.
Context {AM : Type} {HAM : AgentManager AM} (w : world AM).
Local Abbreviation mgr := (@manager AM table).
Implicit Types (s : mgr) (g : graph).

(** A graph in memory and its row: the graph as persisted, or as loaded from
    that row. *)
Definition mirror_of g (r : graph_row) : Prop :=
  exists g0, graph_inv g0 /\ r = row_of g0 (g_created_at g0)
             /\ (g = g0 \/ g = loaded_graph g0 (g_created_at g0)).

Definition mirror_at (og : option graph) (or : option graph_row) : Prop :=
  match og, or with
  | Some g, Some r => mirror_of g r
  | None, None => True
  | _, _ => False
  end.

Definition mirrors (graphs : dict graph) (rows : dict graph_row) : Prop :=
  forall k, mirror_at (d_get k graphs) (d_get k rows).

Definition has_db s : Prop := e_db (m_env s) <> None.

Lemma mirror_created g r : mirror_of g r -> r_created_at r = g_created_at g.
Proof. by intros (g0 & _ & -> & [->| ->]). Qed.

Lemma row_of_self g : graph_inv g -> mirror_of g (row_of g (g_created_at g)).
Proof. intros Hg. exists g. auto. Qed.

Lemma upsert_mirrors graphs rows g :
  graph_inv g -> mirrors graphs rows ->
  (forall h, d_get (g_id g) graphs = Some h -> g_created_at g = g_created_at h) ->
  mirrors (d_set (g_id g) g graphs) (upsert_row (row_of g (g_created_at g)) rows).
Proof.
  intros Hg Hm Hc k. rewrite d_get_set, upsert_get. destruct (String.eqb_spec (g_id g) k) as [<-|]; [|done].
  specialize (Hm (g_id g)). simpl. destruct (d_get (g_id g) rows) as [old|]; [|by apply row_of_self].
  destruct (d_get (g_id g) graphs) as [h|] eqn:Eh; [|done]. simpl in Hm.
  rewrite (mirror_created _ _ Hm), <- (Hc h eq_refl). by apply row_of_self.
Qed.

Lemma pop_mirrors graphs rows k :
  NoDup (d_keys graphs) -> NoDup (d_keys rows) -> mirrors graphs rows ->
  mirrors (d_pop k graphs) (d_pop k rows).
Proof.
  intros Hg Hr Hm k'. destruct (decide (k = k')) as [->|Hne].
  - by rewrite !d_get_pop_eq.
  - rewrite !d_get_pop_ne by done. apply Hm.
Qed.

Lemma upsert_now g db : never_fails w ->
  rows_of (upsert_db (w_fails w) g db)
  = match db with Some tb => upsert_row (row_of g (g_created_at g)) (tb_rows tb) | None => [] end.
Proof. intros Hf. destruct db as [tb|]; [|done]. unfold upsert_db, statement. by rewrite Hf. Qed.

Lemma delete_now k db : never_fails w -> rows_of (delete_db (w_fails w) k db) = d_pop k (rows_of db).
Proof. intros Hf. destruct db as [tb|]; [|done]. unfold delete_db, statement. by rewrite Hf. Qed.

Definition synced s : Prop := mirrors (m_graphs s) (rows_of (e_db (m_env s))).

Lemma sup_inj a b : "sup-" +:+ a = "sup-" +:+ b -> a = b.
Proof. rewrite !str_app_cons. intros H. by injection H. Qed.

Lemma effect_synced s s' :
  never_fails w -> distinct_uuids w -> manager_inv (w_cfg w) s -> ids_inv w s -> has_db s -> synced s ->
  effect w s s' -> synced s' /\ has_db s'.
Proof.
  intros Hf Hu Hs Hi Hd Hm [E1 E2 E3|gid g g' Hget Hst Hg' E1 E2 E3|r Hacc]; unfold synced, has_db in *.
  - by rewrite E1, E2.
  - rewrite E1, E2, upsert_now by done. destruct (e_db (m_env s)) as [tb|] eqn:Edb; [|done].
    split; [|done]. destruct Hg' as (Hi' & _ & Hid). simpl in *. rewrite Hid.
    apply upsert_mirrors; [done | done|]. rewrite <- Hid. intros h Hh.
    assert (h = g) as -> by congruence. by apply gsteps_id.
  - destruct Hacc as (gs1 & db1 & g & Hev & _ & _ & Hid & _ & Hg & E1 & E2 & E3).
    rewrite E1, E2, upsert_now by done.
    assert (mirrors gs1 (rows_of db1) /\ db1 <> None
            /\ forall h, d_get (g_id g) gs1 = Some h -> d_get (g_id g) (m_graphs s) = Some h) as (H1 & H2 & H3).
    { destruct Hev as [[-> ->]|(old & _ & _ & -> & ->)]; [done|]. rewrite delete_now by done.
      split; [apply pop_mirrors; [apply Hs | by apply (rows_NoDup w) | done]|].
      split; [by destruct (e_db (m_env s))|]. intros h Hh. eapply d_get_pop_Some; [done | apply Hs]. }
    destruct db1 as [tb|]; [|done]. split; [|done]. apply upsert_mirrors; [apply Hg | done|].
    intros h Hh%H3. apply (id_graphs _ _ Hi) in Hh as (m & Hm' & E). rewrite Hid in E.
    apply sup_inj, Hu in E. lia.
Qed.

Lemma mirrors_length graphs rows :
  NoDup (d_keys graphs) -> NoDup (d_keys rows) -> mirrors graphs rows -> length rows = length graphs.
Proof.
  intros Hg Hr Hm. rewrite <- (length_fmap fst rows), <- (length_fmap fst graphs).
  apply Permutation_length, NoDup_Permutation; [done..|]. intros k.
  change (k ∈ d_keys rows <-> k ∈ d_keys graphs). rewrite <- !d_mem_keys. unfold d_mem.
  specialize (Hm k). unfold mirror_at in Hm. by destruct (d_get k graphs), (d_get k rows).
Qed.

(** The restart finds every row. *)
Lemma restart_finds s k r :
  never_fails w -> manager_inv (w_cfg w) s -> synced s ->
  d_get k (rows_of (e_db (m_env s))) = Some r ->
  d_get k (m_graphs (run_call w Restart s)) = Some (load_of r).
Proof.
  intros Hf Hs Hm Hk. pose proof (mi_env _ _ Hs) as He. pose proof (rows_NoDup w s Hs) as Hnd.
  pose proof (mirrors_length _ _ (mi_keys _ _ Hs) Hnd Hm) as Hlen. pose proof (mi_capacity _ _ Hs) as Hcap.
  destruct (start_run_spec w (m_env s) He) as (Hg & _).
  change (m_graphs (run_call w Restart s)) with (m_graphs (init (HDB := store w) (w_clock w) (w_cfg w) (m_env s))).
  rewrite Hg. unfold env_ok in He. destruct (e_db (m_env s)) as [tb|]; [|done]. rewrite Hf. simpl in Hk, Hlen.
  rewrite load_rows_get by by apply listed_ids_NoDup.
  destruct (table_row_key tb k r He Hk) as [_ Hid].
  assert (r ∈ listed (w_cfg w) tb) as Hin.
  { unfold listed. rewrite take_ge.
    - apply sort_by_elem, list_elem_of_fmap. exists (k, r). split; [done | by apply d_get_elem].
    - rewrite sort_by_length. unfold d_values. rewrite length_fmap. lia. }
  destruct (List.find _ _) as [r'|] eqn:Ef.
  - apply find_some in Ef as [Hr'%list_elem_of_In Ek%String.eqb_eq]. apply listed_elem in Hr'; [|done].
    rewrite Ek in Hr'. congruence.
  - exfalso. pose proof (find_none _ _ Ef r (proj1 (list_elem_of_In _ _) Hin)) as H. simpl in H.
    by rewrite Hid, String.eqb_refl in H.
Qed.

Lemma load_of_row g : graph_inv g -> load_of (row_of g (g_created_at g)) = loaded_graph g (g_created_at g).
Proof. intros Hg. apply load_row; [apply Hg | apply Hg]. Qed.

Lemma restart_synced s :
  never_fails w -> manager_inv (w_cfg w) s -> has_db s -> synced s ->
  synced (run_call w Restart s) /\ has_db (run_call w Restart s).
Proof.
  intros Hf Hs Hd Hm. destruct (start_run_spec w (m_env s) (mi_env _ _ Hs)) as (_ & _ & Hdb). split.
  - intros k. rewrite (proj2 (restart_env w s Hs)). specialize (Hm k) as Hk.
    destruct (d_get k (rows_of (e_db (m_env s)))) as [r|] eqn:Er.
    + rewrite (restart_finds s k r) by done. destruct (d_get k (m_graphs s)) as [g|]; [|done].
      destruct Hk as (g0 & Hi & -> & _). simpl. rewrite load_of_row by done. exists g0. auto.
    + destruct (restart_get w s k Hs) as [->|(r & Hr & _)]; [done | congruence].
  - unfold has_db. change (run_call w Restart s) with (init (HDB := store w) (w_clock w) (w_cfg w) (m_env s)).
    rewrite Hdb. unfold has_db in Hd. by destruct (e_db (m_env s)).
Qed.

(** The histories of a process with a database. *)
Inductive db_reachable : mgr -> Prop :=
  | db_init e tb : e_db e = Some tb -> tb_rows tb = [] -> db_reachable (run_call w Restart (Manager [] e))
  | db_call c s : db_reachable s -> db_reachable (run_call w c s).

Lemma db_reachable_reachable s : db_reachable s -> reachable w s.
Proof.
  induction 1 as [e tb He Hr|c s _ IH]; [|by apply reach_call].
  apply (reach_init w e). unfold fresh_env. by rewrite He.
Qed.

Lemma db_reachable_synced s :
  hex_uuids w -> never_fails w -> distinct_uuids w -> db_reachable s -> synced s /\ has_db s.
Proof.
  intros Hh Hf Hu. induction 1 as [e tb He Hr|c s Hs [IH1 IH2]].
  - apply restart_synced; try done.
    + constructor; simpl; [apply NoDup_nil_2 | constructor | pose proof (cfg_positive w); simpl; lia|].
      unfold env_ok. rewrite He. constructor; rewrite Hr; [apply NoDup_nil_2 | constructor].
    + unfold has_db. simpl. by rewrite He.
    + intros k. cbn [m_env m_graphs]. rewrite He. simpl. by rewrite Hr.
  - apply db_reachable_reachable in Hs. pose proof (reachable_inv _ _ Hh Hs) as Hinv.
    destruct c; try by eapply effect_synced; [..|by apply call_effect]; try done; apply reachable_ids.
    by apply restart_synced.
Qed.

(** C26. Durability: while no database statement fails, after any history of
    calls and restarts a new process over the same table holds the same
    graphs, each as it was (error texts normalized, and apart from the
    [checkpoint_count] the row decoder adds). *)
Theorem restart_durable s k :
  hex_uuids w -> never_fails w -> distinct_uuids w -> db_reachable s ->
  core <$> d_get k (m_graphs (run_call w Restart s)) = core <$> d_get k (m_graphs s).
Proof.
  intros Hh Hf Hu Hr. destruct (db_reachable_synced s Hh Hf Hu Hr) as [Hm _].
  pose proof (reachable_inv _ _ Hh (db_reachable_reachable _ Hr)) as Hinv. specialize (Hm k) as Hk.
  destruct (d_get k (rows_of (e_db (m_env s)))) as [r|] eqn:Er.
  - rewrite (restart_finds s k r) by done. destruct (d_get k (m_graphs s)) as [g|]; [|done].
    destruct Hk as (g0 & Hi & -> & [->| ->]); simpl; rewrite load_of_row by done; [|done].
    by rewrite core_loaded.
  - destruct (restart_get w s k Hinv) as [->|(r & Hr' & _)]; [|congruence].
    by destruct (d_get k (m_graphs s)).
Qed.
End mirror.

(** ** Finished nodes stay finished *)

Definition FINISHED_NODE : list string := ["succeeded"; "failed"; "canceled"; "blocked"].

Lemma gstep_frozen g g' k n :
  gstep g g' -> d_get k (g_nodes g) = Some n -> n_status n ∈ FINISHED_NODE -> d_get k (g_nodes g') = Some n.
Proof.
  intros [[_ -> _ _ _]|k' n0 n1 Hk Ht ->] Hn Hs; [done|]. simpl. rewrite d_get_set.
  destruct (String.eqb_spec k' k) as [->|]; [|done]. assert (n0 = n) as -> by congruence.
  pose proof (move_from _ _ _ (tr_move _ _ _ Ht)) as [E|E]; unfold FINISHED_NODE in Hs; [rewrite E in Hs|]; statuses.
Qed.

Lemma gsteps_frozen g g' k n :
  rtc gstep g g' -> d_get k (g_nodes g) = Some n -> n_status n ∈ FINISHED_NODE -> d_get k (g_nodes g') = Some n.
Proof. intros Hr. induction Hr; eauto using gstep_frozen. Qed.

Section frozen.
Context {AM : Type} {HAM : AgentManager AM} (w : world AM).

(** C28. Refinement of the step relation: a call takes each graph it keeps
    from its old to its new state through moves of the node lifecycle (and
    changes that move no node) only; so a node that succeeded, failed, was
    canceled or blocked is never touched again in the life of the process. *)
Theorem calls_refine_steps c s gid g g' :
  hex_uuids w -> distinct_uuids w -> reachable w s -> c <> Restart ->
  d_get gid (m_graphs s) = Some g -> d_get gid (m_graphs (run_call w c s)) = Some g' ->
  rtc gstep g g'
  /\ forall k n, d_get k (g_nodes g) = Some n -> n_status n ∈ FINISHED_NODE -> d_get k (g_nodes g') = Some n.
Proof.
  intros Hh Hu Hs Hc Hg Hg'. pose proof (reachable_inv _ _ Hh Hs) as Hinv.
  assert (rtc gstep g g') as Hst; [|split; [done | eauto using gsteps_frozen]].
  destruct (call_effect w c s Hh Hinv Hc) as [E1 E2 E3|gid' h h' Hget Hst Hh' E1 E2 E3|r Hacc].
  - rewrite E1 in Hg'. by simplify_eq.
  - rewrite E1, d_get_set in Hg'. destruct (String.eqb_spec gid' gid) as [->|]; by simplify_eq.
  - destruct Hacc as (gs1 & db1 & g1 & Hev & _ & _ & Hid & _ & _ & E1 & _).
    rewrite E1, d_get_set in Hg'. destruct (String.eqb_spec (g_id g1) gid) as [Egid|_].
    + apply (id_graphs _ _ (reachable_ids w s Hh Hs)) in Hg as (m & Hm & E).
      rewrite <- Egid, Hid in E. apply sup_inj, Hu in E. lia.
    + destruct Hev as [[-> _]|(old & _ & _ & -> & _)]; [by simplify_eq|].
      apply d_get_pop_Some in Hg'; [|apply Hinv]. by simplify_eq.
Qed.
End frozen.

(** ** Store and read back *)

(** Round trip through the table: after a graph is persisted
    ([_persist_graph] and [upsert_supervisor_graph]), [get_supervisor_graph]
    finds its row and [_normalize_loaded_graph] rebuilds the graph: the same
    core, whatever rows other graphs have. *)
Theorem stored_graph_roundtrip {AM} {HAM : AgentManager AM} db_now fails clock cfg g tb (e : @env AM table) now :
  graph_inv g -> e_db e = Some tb -> d_get (g_id g) (tb_rows tb) = None -> (forall n, fails n = false) ->
  exists tb' d,
    e_db (snd (persist_graph (HDB := sqlite_store db_now fails) clock cfg g e)) = Some tb'
    /\ fst (get_supervisor_graph fails (g_id g) tb') = Ok (Some d)
    /\ core (normalize_loaded_graph now d) = core g
    /\ forall k, k <> g_id g -> d_get k (tb_rows tb') = d_get k (tb_rows tb).
Proof.
  intros Hg He Hnew Hf. pose proof (inv_wf _ Hg) as Hw.
  destruct (persist_graph_db clock db_now fails cfg g e Hw) as [H _]. rewrite He in H.
  unfold upsert_db, statement in H. rewrite Hf in H. simpl in H.
  eexists _, (decode_supervisor_graph_row (row_of g (g_created_at g))). split; [exact H|].
  unfold get_supervisor_graph. destruct (gr_id _ Hw) as [Hid Hne].
  rewrite Hid, (proj2 (is_empty_false _) Hne). unfold statement. rewrite Hf. cbn [tb_rows fst].
  rewrite upsert_get, String.eqb_refl, Hnew. split; [done|]. split.
  - rewrite load_row by (done || apply Hw). apply core_loaded.
  - intros k Hk. rewrite upsert_get. by rewrite (proj2 (String.eqb_neq _ _) (not_eq_sym Hk)).
Qed.

(** ** Witnesses *)

Lemma stored_graph_roundtrip_witness :
  exists tb' d,
    e_db (snd (persist_graph (HDB := sqlite_store demo_clock (fun _ => false)) demo_clock (w_cfg demo_world)
                 demo_graph demo_env)) = Some tb'
    /\ fst (get_supervisor_graph (fun _ => false) "sup-a" tb') = Ok (Some d)
    /\ core (normalize_loaded_graph "" d) = core demo_graph.
Proof.
  destruct (stored_graph_roundtrip demo_clock (fun _ => false) demo_clock (w_cfg demo_world) demo_graph
              (Table [] 0 0) demo_env "") as (tb' & d & H1 & H2 & H3 & _).
  - apply (reachable_graph demo_world _ _ _ demo_hex demo_reachable demo_graph_get).
  - reflexivity.
  - reflexivity.
  - reflexivity.
  - exists tb', d. split; [exact H1|]. split; [exact H2 | exact H3].
Defined.

Lemma demo_never_fails : never_fails demo_world.
Proof. done. Qed.

Lemma demo_distinct : distinct_uuids demo_world.
Proof.
  intros m. simpl. induction m as [|m IH]; intros [|n] H; simpl in H; [done| | |].
  - by destruct n.
  - by destruct m.
  - f_equal. apply IH. by injection H.
Qed.

Lemma same_core (o o' : option graph) g :
  core <$> o' = core <$> o -> o = Some g ->
  exists g', o' = Some g' /\ g_status g' = g_status g /\ d_keys (g_nodes g') = d_keys (g_nodes g).
Proof.
  intros H ->. destruct o' as [g'|]; [|done]. exists g'. split; [done|]. apply (inj Some) in H. split.
  - change (g_status (core g') = g_status (core g)). by rewrite H.
  - rewrite <- (d_keys_map canon_node (g_nodes g')), <- (d_keys_map canon_node (g_nodes g)).
    change (d_keys (g_nodes (core g')) = d_keys (g_nodes (core g))). by rewrite H.
Qed.

Lemma restart_durable_witness :
  exists g, d_get "sup-a" (m_graphs (run_call demo_world Restart demo_created)) = Some g
            /\ g_status g = "planned" /\ d_keys (g_nodes g) = ["collect"; "index"].
Proof.
  assert (exists g, d_get "sup-a" (m_graphs demo_created) = Some g /\ g_status g = "planned"
                    /\ d_keys (g_nodes g) = ["collect"; "index"]) as (g & E & <- & <-).
  { vm_compute. eexists. repeat split. }
  apply (same_core (d_get "sup-a" (m_graphs demo_created))); [|exact E].
  apply (restart_durable demo_world demo_created "sup-a" demo_hex demo_never_fails demo_distinct).
  exact (db_call demo_world demo_create _ (db_init demo_world demo_env (Table [] 0 0) eq_refl eq_refl)).
Defined.

Lemma calls_refine_steps_witness :
  exists g', d_get "sup-a" (m_graphs (run_call demo_world (Tick (Some "sup-a") None None None) demo_state)) = Some g'
             /\ d_get "index" (g_nodes g') = Some demo_node.
Proof.
  assert (exists g', d_get "sup-a" (m_graphs (run_call demo_world (Tick (Some "sup-a") None None None) demo_state))
                     = Some g') as [g' Hg'].
  { vm_compute. eexists. reflexivity. }
  exists g'. split; [done|].
  apply (proj2 (calls_refine_steps demo_world (Tick (Some "sup-a") None None None) demo_state "sup-a" demo_graph g'
           demo_hex demo_distinct demo_reachable ltac:(done) demo_graph_get Hg') "index" demo_node demo_node_get).
  vm_compute. left.
Defined.

End SupervisorDurable.
