(* ===== verification/SupervisorProgress.v ===== *)
(** Progress of the supervisor: with agents whose runs are queued and have
    succeeded when they are next looked at, every graph is finished after twice
    as many ticks as it has nodes; and while the autonomy circuit breaker
    refuses runs, scheduling moves no node. *)

From stdpp Require Import prelude strings list relations.
From Stdlib Require Import Lia ZArith Ascii Sorted.
From S2P Require Import Prelude PyStr PyVal Effects PyTime SupervisorData SupervisorDataFacts Supervisor SupervisorSteps SupervisorHelpers SupervisorEnv SupervisorStore SupervisorStoreFacts SupervisorManager SupervisorFacts SupervisorDurable.
Import SupervisorData SupervisorDataFacts Supervisor SupervisorSteps SupervisorHelpers SupervisorEnv SupervisorStore SupervisorStoreFacts SupervisorManager SupervisorFacts SupervisorDurable.

Module SupervisorProgress.

(** ** Dependencies of a finite acyclic graph *)

(** In an acyclic graph no set of nodes has each a dependency in the set. *)
Lemma acyclic_bottom nodes (P : string -> Prop) :
  acyclic nodes -> (forall x, P x -> x ∈ d_keys nodes) ->
  (forall x, P x -> exists y, dep_edge nodes x y /\ P y) -> forall x, ~ P x.
Proof.
  intros Ha Hk Hstep x Hx.
  assert (forall n, exists l, length l = S n /\ Forall P l
            /\ StronglySorted (fun a b => tc (dep_edge nodes) b a) l) as Hchain.
  { induction n as [|n (l & Hl & Hp & Hs)].
    - exists [x]. by repeat constructor.
    - destruct l as [|y l]; [done|]. inversion Hp as [|? ? Hy _]; subst.
      destruct (Hstep y Hy) as (z & Hyz & Hz). exists (z :: y :: l).
      split; [simpl in *; lia|]. split; [by constructor|]. constructor; [done|].
      inversion Hs as [|? ? ? Hall]; subst. constructor; [by apply tc_once|].
      eapply Forall_impl; [exact Hall|]. intros v Hv. exact (tc_r _ _ _ Hv Hyz). }
  destruct (Hchain (length nodes)) as (l & Hl & Hp & Hs).
  assert (NoDup l) as Hn.
  { clear Hl Hp. induction Hs as [|y l Hs IH Hy]; [apply NoDup_nil_2|]. apply NoDup_cons. split; [|done].
    intros Hin. apply (Ha y). by apply (proj1 (Forall_forall _ _) Hy). }
  assert (l ⊆ d_keys nodes) as Hsub by (intros y Hy; apply Hk; by apply (proj1 (Forall_forall _ _) Hp)).
  pose proof (submseteq_length _ _ (NoDup_submseteq _ _ Hn Hsub)) as Hlen.
  unfold d_keys in Hlen. rewrite length_fmap in Hlen. lia.
Qed.

(** ** How far a graph has come *)

(** A node counts once when its run exists and twice when it succeeded. *)
Definition node_weight (n : node) : Z := if succeeded n then 2 else if str_in (n_status n) RUN_ACTIVE_STATUSES then 1 else 0.
Definition graph_weight (nodes : dict node) : Z := sum_of node_weight nodes.

Lemma node_weight_bound n : 0 <= node_weight n <= 2.
Proof. unfold node_weight. destruct (succeeded n); [lia|]. destruct (str_in _ _); lia. Qed.

Lemma graph_weight_bound nodes : 0 <= graph_weight nodes <= 2 * Z.of_nat (length nodes).
Proof.
  unfold graph_weight. induction nodes as [|kn nodes IH]; simpl; [lia|]. pose proof (node_weight_bound (snd kn)). lia.
Qed.

Lemma weight_all nodes : 2 * Z.of_nat (length nodes) <= graph_weight nodes -> all_succeeded nodes = true.
Proof.
  unfold graph_weight, all_succeeded. induction nodes as [|kn nodes IH]; simpl; [done|]. intros H.
  pose proof (graph_weight_bound nodes) as Hb. unfold graph_weight in Hb. pose proof (node_weight_bound (snd kn)) as Hn.
  assert (succeeded (snd kn) = true) as ->; [|apply IH; lia].
  unfold node_weight in *. destruct (succeeded (snd kn)); [done|]. destruct (str_in _ _); lia.
Qed.

Lemma sum_of_mono (f : node -> Z) nodes nodes' :
  d_keys nodes' = d_keys nodes -> NoDup (d_keys nodes) ->
  (forall k n n', d_get k nodes = Some n -> d_get k nodes' = Some n' -> f n <= f n') ->
  sum_of f nodes <= sum_of f nodes'
  /\ forall k n n', d_get k nodes = Some n -> d_get k nodes' = Some n' -> f n < f n' ->
       sum_of f nodes < sum_of f nodes'.
Proof.
  revert nodes'. unfold d_keys. induction nodes as [|[k0 n0] nodes IH]; intros nodes' Hk Hd Hle.
  - split; [|done]. by destruct nodes'.
  - destruct nodes' as [|[k1 n1] nodes']; [done|]. simpl in Hk. injection Hk as -> Hk.
    simpl in Hd. apply NoDup_cons in Hd as [Hn Hd].
    assert (forall k n, d_get k nodes = Some n -> k <> k0) as Hne.
    { intros k n Hg ->. apply Hn. apply d_mem_keys. by eapply d_get_Some_mem. }
    destruct (IH nodes' Hk Hd) as [H1 H2].
    { intros k n n' Hg Hg'. pose proof (Hne _ _ Hg) as E%String.eqb_neq.
      apply (Hle k n n'); simpl; by rewrite E. }
    assert (f n0 <= f n1) as H0 by (apply (Hle k0); simpl; by rewrite String.eqb_refl).
    simpl. split; [lia|]. intros k n n'. destruct (String.eqb k k0).
    + intros [= <-] [= <-] Hlt. lia.
    + intros Hg Hg' Hlt. pose proof (H2 k n n' Hg Hg' Hlt). lia.
Qed.

Lemma gsteps_keys g g' : rtc gstep g g' -> d_keys (g_nodes g') = d_keys (g_nodes g).
Proof.
  induction 1 as [|g1 g2 g3 Hs _ IH]; [done|]. rewrite IH. destruct Hs as [[_ -> _ _ _]|k n n' Hk _ ->]; [done|].
  simpl. apply d_keys_set_in. by eapply d_get_Some_mem.
Qed.

(** Nodes that wait, run or are done. *)
Definition lively_node (n : node) : Prop :=
  n_status n = "planned" \/ n_status n ∈ RUN_ACTIVE_STATUSES \/ n_status n = "succeeded".
Definition lively (nodes : dict node) : Prop := forall k n, d_get k nodes = Some n -> lively_node n.

Lemma weight_active n : n_status n ∈ RUN_ACTIVE_STATUSES -> node_weight n = 1.
Proof. unfold node_weight, succeeded. intros H. statuses; by rewrite H. Qed.
Lemma weight_succeeded n : n_status n = "succeeded" -> node_weight n = 2.
Proof. unfold node_weight, succeeded. by intros ->. Qed.
Lemma weight_planned n : n_status n = "planned" -> node_weight n = 0.
Proof. unfold node_weight, succeeded. by intros ->. Qed.

(** A node that has been started does not wait again. *)
Lemma gsteps_started g g' k n :
  rtc gstep g g' -> d_get k (g_nodes g) = Some n -> n_status n ∈ RUN_STATUSES ->
  exists n', d_get k (g_nodes g') = Some n' /\ n_status n' ∈ RUN_STATUSES.
Proof.
  intros Hs. revert n. induction Hs as [g|g1 g2 g3 Hs _ IH]; intros n Hn Hr; [eauto|].
  assert (exists n', d_get k (g_nodes g2) = Some n' /\ n_status n' ∈ RUN_STATUSES) as (n' & Hn' & Hr'); [|by eapply IH].
  destruct Hs as [[_ -> _ _ _]|k' m m' Hk Ht ->]; [eauto|]. simpl. rewrite d_get_set.
  destruct (String.eqb_spec k' k) as [->|]; [|eauto]. assert (m = n) as -> by congruence. exists m'. split; [done|].
  assert (n_status n <> "planned") as Hp by (intros E; rewrite E in Hr; statuses).
  destruct (tr_move _ _ _ Ht) as [Hrd|Hrd|Hrd| |]; try done; by destruct Hp; apply (rdy_status _ _ Hrd).
Qed.

(** Steps between lively graphs do not set a graph back, and one that starts or
    finishes a node brings it forward. *)
Lemma gsteps_weight g g' :
  graph_inv g -> rtc gstep g g' -> lively (g_nodes g) -> lively (g_nodes g') ->
  graph_weight (g_nodes g) <= graph_weight (g_nodes g')
  /\ forall k n n', d_get k (g_nodes g) = Some n -> d_get k (g_nodes g') = Some n' ->
       node_weight n < node_weight n' -> graph_weight (g_nodes g) < graph_weight (g_nodes g').
Proof.
  intros Hg Hs Hl Hl'. apply sum_of_mono; [by apply gsteps_keys|apply (nds_keys _ (gr_nodes _ (inv_wf _ Hg)))|].
  intros k n n' Hn Hn'. destruct (Hl k n Hn) as [Hp|[Ha|Hd]].
  - rewrite (weight_planned n Hp). apply node_weight_bound.
  - rewrite (weight_active n Ha). destruct (gsteps_started g g' k n Hs Hn) as (n'' & Hn'' & Hr); [unfold RUN_STATUSES; apply elem_of_app; by left|].
    assert (n'' = n') as -> by congruence. destruct (Hl' k n' Hn') as [E|[E|E]]; [rewrite E in Hr; statuses|by rewrite weight_active|rewrite weight_succeeded by done; lia].
  - rewrite (gsteps_frozen g g' k n Hs Hn) in Hn' by (rewrite Hd; left). simplify_eq. lia.
Qed.

Section runs.
Context {AM : Type} {HAM : AgentManager AM} {DB : Type} {HDB : GraphStore DB}.
Context (clock : nat -> Z) (cfg : config).
Implicit Types (g : graph) (request_id actor : option string).
Local Abbreviation W := (@wpg AM DB _).

Lemma wpg_and {A} (m : M _ A) g (Q1 Q2 : res A -> graph -> Prop) :
  W m g Q1 -> W m g Q2 -> W m g (fun r g' => Q1 r g' /\ Q2 r g').
Proof.
  Transparent wpg. intros H1 H2 e. specialize (H1 e). specialize (H2 e). by destruct (m (GState g e)). Opaque wpg.
Qed.

(** Whether a node is passed over by the scheduler. *)
Lemma schedule_node_cases request_id actor k g (Q : res unit -> graph -> Prop) :
  graph_wf g ->
  (forall n, d_get k (g_nodes g) = Some n -> ready (g_nodes g) n ->
     W (try_except (start_run clock cfg k (n_node_id n) (create_kwargs g n) request_id actor) (fun exc =>
          match exc with
          | BreakerBlockedError msg decision matched snap =>
              handle_blocked clock cfg k msg decision matched snap request_id actor
          | _ => handle_create_failed clock cfg k (n_node_id n) exc request_id actor
          end)) g Q) ->
  ((forall n, d_get k (g_nodes g) = Some n -> ~ ready (g_nodes g) n) -> Q (Ok tt) g) ->
  W (schedule_node clock cfg request_id actor k) g Q.
Proof.
  intros Hw Hready Hskip. unfold schedule_node. wpg_run.
  destruct (d_get k (g_nodes g)) as [n|] eqn:Hk; [|by apply wpg_ret, Hskip].
  pose proof (get_node_wf _ _ _ (gr_nodes _ Hw) Hk) as Hn.
  assert ((~ ready (g_nodes g) n) -> Q (Ok tt) g) as Hskip' by (intros Hr; apply Hskip; intros ? [= <-]; done).
  destruct (String.eqb_spec (n_status n) "planned") as [Hs|Hs]; cbn [negb].
  2: { apply wpg_ret, Hskip'. intros Hr. by apply Hs, (rdy_status _ _ Hr). }
  destruct (is_empty _) eqn:Hrun; cbn [negb].
  2: { apply wpg_ret, Hskip'. intros Hr. by rewrite (rdy_run _ _ Hr) in Hrun. }
  apply strip_empty_none in Hrun; [|apply Hn].
  destruct (any_not_succeeded_spec (g_nodes g) (n_depends_on n)) as (b & Hb & Hdeps); [apply Hn|].
  wpg_run. rewrite Hb. destruct b.
  - apply wpg_ret, Hskip'. intros Hr. assert (true = false) by (apply Hdeps, (rdy_deps _ _ Hr)). done.
  - apply (Hready n eq_refl). constructor; [done | done | by apply Hdeps].
Qed.

(** *** Agents that finish promptly *)

(** A new run is queued or running, as the run manager leaves it; by the time
    the supervisor looks at it again it has succeeded. *)
Record prompt_agents : Prop := {
  pa_create : forall kw am, exists d am',
    am_create_run kw (Some "supervisor") am = (Ok (PDict d), am') /\ is_empty (norm (get "id" d)) = false
    /\ norm_lower_or "queued" (get "status" d) ∈ RUN_ACTIVE_STATUSES;
  pa_get : forall run_id am, exists d am',
    am_get_run run_id am = (Ok (PDict d), am') /\ lower (norm (get "status" d)) = "succeeded" }.

(** Every node waits or is done. *)
Definition calm (nodes : dict node) : Prop :=
  forall k n, d_get k nodes = Some n -> n_status n = "planned" \/ n_status n = "succeeded".

Lemma calm_lively nodes : calm nodes -> lively nodes.
Proof. intros H k n Hk. destruct (H k n Hk); [by left|by right; right]. Qed.

Lemma lively_set nodes k n' : lively nodes -> lively_node n' -> lively (d_set k n' nodes).
Proof. intros Hc Hs k0 n0. rewrite d_get_set. destruct (String.eqb k k0); [|by apply Hc]. by intros [= <-]. Qed.

(** What the visit of a node does: nothing, or it puts the node in a status. *)
Definition visits (P : node -> Prop) (k : string) (g g' : graph) : Prop :=
  exists n', P n' /\ g_nodes g' = d_set k n' (g_nodes g).

Lemma start_run_queues k n request_id actor kw g :
  prompt_agents -> d_get k (g_nodes g) = Some n ->
  W (start_run clock cfg k (n_node_id n) kw request_id actor) g
    (fun r g' => r = Ok tt /\ visits (fun n' => n_status n' ∈ RUN_ACTIVE_STATUSES) k g g').
Proof.
  intros He Hk. unfold start_run. apply wpg_bind, wpg_env_ok. intros e.
  unfold call_create_run, try_except, env_create_run.
  destruct (pa_create He kw (e_am e)) as (d & am' & -> & Hid & Hst). eexists _, _. split; [done|].
  wpg_run; [congruence|]. set (st := norm_lower_or "queued" (get "status" d)) in *.
  assert (known_run_status st = true) as -> by (apply known_run_status_spec; unfold RUN_STATUSES; apply elem_of_app; by left).
  assert (String.eqb st "succeeded" = false) as -> by (apply String.eqb_neq; intros E; rewrite E in Hst; statuses).
  cbn beta iota. apply wpg_upd_node. cbn [when]. wpg_run. unfold inc_runs_started. wpg_run.
  apply wpg_timeline. intros g' Hq. split; [done|]. unfold node_upd in Hq. rewrite Hk in Hq.
  eexists. split; [|apply (q_nodes _ _ Hq)]. unfold start_node. by rewrite (proj2 (str_in_spec _ _) Hst).
Qed.

(** Refreshing a node whose run is active finds it done. *)
Lemma refresh_visits request_id actor k n g :
  prompt_agents -> d_get k (g_nodes g) = Some n -> n_status n ∈ RUN_ACTIVE_STATUSES -> is_empty (strip (opt_str (n_run_id n))) = false ->
  W (refresh_node_from_run clock cfg request_id actor k) g
    (fun r g' => r = Ok tt /\ visits (fun n' => n_status n' = "succeeded") k g g').
Proof.
  intros He Hk Hact Hid. assert (n_status n <> "succeeded") as Hns by (intros E; rewrite E in Hact; statuses).
  unfold refresh_node_from_run. wpg_run. rewrite Hk, Hid. apply wpg_bind, wpg_env_ok. intros e.
  unfold env_get_run. destruct (pa_get He (strip (opt_str (n_run_id n))) (e_am e)) as (d & am' & -> & Hst).
  eexists _, _. split; [done|]. cbn beta iota. rewrite Hst. change (known_run_status "succeeded") with true. cbn [negb].
  apply wpg_bind, wpg_upd_node. wpg_run. change (str_in "succeeded" RUN_ACTIVE_STATUSES) with false.
  change (String.eqb "succeeded" "succeeded") with true. cbn beta iota. apply wpg_bind, wpg_upd_node.
  rewrite (proj2 (String.eqb_neq _ _) Hns). cbn [negb when]. unfold inc_runs_completed. wpg_run.
  apply wpg_timeline. intros g' Hq. split; [done|]. pose proof (q_nodes _ _ Hq) as En.
  unfold node_upd in En. simpl in En. rewrite Hk in En. simpl in En. rewrite d_get_set_eq in En. simpl in En. rewrite d_set_set in En.
  eexists. split; [|exact En]. done.
Qed.

Lemma gsteps_node g g' k n :
  rtc gstep g g' -> d_get k (g_nodes g) = Some n ->
  exists n', d_get k (g_nodes g') = Some n' /\ n_depends_on n' = n_depends_on n.
Proof.
  intros Hs. revert n. induction Hs as [g|g1 g2 g3 Hs _ IH]; intros n Hn; [eauto|].
  assert (exists n', d_get k (g_nodes g2) = Some n' /\ n_depends_on n' = n_depends_on n) as (n' & Hn' & E).
  { destruct Hs as [[_ -> _ _ _]|k' m m' Hk Ht ->]; [eauto|]. simpl. rewrite d_get_set.
    destruct (String.eqb_spec k' k) as [->|]; [|eauto]. simplify_eq. exists m'. split; [done|]. apply Ht. }
  destruct (IH n' Hn') as (n'' & H1 & H2). exists n''. split; [done | congruence].
Qed.

Lemma status_kept g g' k :
  rtc gstep g g' -> status_of (g_nodes g) k = Some "succeeded" -> status_of (g_nodes g') k = Some "succeeded".
Proof.
  unfold status_of. intros Hs. destruct (d_get k (g_nodes g)) as [n|] eqn:E; [|done]. simpl. intros [= H].
  rewrite (gsteps_frozen g g' k n Hs E) by (rewrite H; left). simpl. by rewrite H.
Qed.

(** *** The loop over the runs *)

Definition at_rest (nodes : dict node) (k : string) : Prop :=
  forall n, d_get k nodes = Some n -> n_status n = "planned" \/ n_status n = "succeeded".

Lemma refresh_active_rests request_id actor k g :
  prompt_agents -> graph_inv g -> lively (g_nodes g) ->
  W (refresh_active_node clock cfg request_id actor k) g (fun r g' => r = Ok tt
     /\ (g' = g /\ at_rest (g_nodes g) k \/ visits (fun n' => n_status n' = "succeeded") k g g')).
Proof.
  intros He Hg Hl. unfold refresh_active_node. wpg_run.
  destruct (d_get k (g_nodes g)) as [n|] eqn:Hk; [|apply wpg_ret; split; [done|]; left; split; [done|]; intros n; by rewrite Hk].
  assert (node_inv (g_nodes g) n) as [Hlife _] by (apply d_get_elem in Hk; apply (proj1 (Forall_forall _ _) (inv_nodes _ Hg) _ Hk)).
  assert (n_status n ∉ RUN_ACTIVE_STATUSES -> at_rest (g_nodes g) k) as Hrest.
  { intros Hna n0. rewrite Hk. intros [= <-]. destruct (Hl k n Hk) as [?|[?|?]]; [by left|done|by right]. }
  destruct (is_empty _) eqn:Hid.
  - apply wpg_ret. split; [done|]. left. split; [done|]. apply Hrest. intros Ha.
    apply strip_empty_none in Hid; [|apply (get_node_wf _ _ _ (gr_nodes _ (inv_wf _ Hg)) Hk)].
    by destruct Hlife as [E|_ Hn|Ht Hn|E|E]; try done; rewrite E in Ha; statuses.
  - destruct (str_in _ _) eqn:Ha; cbn [negb].
    + apply str_in_spec in Ha. eapply wpg_conseq; [by eapply refresh_visits|]. intros r g' [-> Hv]. split; [done|]. by right.
    + apply wpg_ret. split; [done|]. left. split; [done|]. apply Hrest. by apply str_in_false.
Qed.

Lemma refresh_nodes_loop request_id actor l g :
  prompt_agents -> graph_inv g -> lively (g_nodes g) ->
  W (for_each l (refresh_active_node clock cfg request_id actor)) g (fun r g' =>
    r = Ok tt /\ rtc gstep g g' /\ lively (g_nodes g')
    /\ forall k, k ∈ l \/ at_rest (g_nodes g) k -> at_rest (g_nodes g') k).
Proof.
  intros He. revert g. induction l as [|x l IH]; intros g Hg Hl.
  - apply wpg_ret. split_and!; try done. by intros k [?%elem_of_nil|].
  - cbn [for_each]. apply wpg_bind. eapply wpg_conseq.
    + apply wpg_and; [apply refresh_active_steps | by apply refresh_active_rests].
    + intros r g1 [[-> Hs] [_ Hv]]. cbn beta iota.
      assert (lively (g_nodes g1) /\ forall k, k = x \/ at_rest (g_nodes g) k -> at_rest (g_nodes g1) k) as [Hl1 Hr1].
      { destruct Hv as [[-> Hx]|(n' & Hn' & ->)]; [split; [done|]; by intros k [->|]|].
        split; [apply lively_set; [done|by right; right]|]. intros k Hk n0. rewrite d_get_set.
        destruct (String.eqb_spec x k) as [->|]; [intros [= <-]; by right|]. destruct Hk as [->|Hk]; [done|]. apply Hk. }
      eapply wpg_conseq; [apply IH; [by eapply gsteps_inv|done]|]. intros r g2 (-> & Hs2 & Hl2 & Hr2).
      split_and!; [done|by etrans|done|].
      intros k [[->|Hk]%elem_of_cons|Hk]; apply Hr2; [right; apply Hr1; by left|by left|right; apply Hr1; by right].
Qed.

(** *** The loop of the scheduler *)

Definition started (nodes : dict node) (k : string) : Prop :=
  exists n, d_get k nodes = Some n /\ n_status n ∈ RUN_STATUSES.

Lemma schedule_node_starts request_id actor k g :
  prompt_agents -> graph_wf g -> lively (g_nodes g) ->
  W (schedule_node clock cfg request_id actor k) g (fun r g' =>
    lively (g_nodes g')
    /\ (forall n, d_get k (g_nodes g) = Some n -> ready (g_nodes g) n -> started (g_nodes g') k)).
Proof.
  intros He Hw Hl. apply schedule_node_cases; [done| |].
  - intros n Hn Hr. apply wpg_try. eapply wpg_conseq; [by apply start_run_queues|].
    intros r g' (-> & n' & Hs & Hn'). rewrite Hn'. split; [apply lively_set; [done|by right; left]|].
    intros _ _ _. exists n'. split; [apply d_get_set_eq|]. unfold RUN_STATUSES. apply elem_of_app. by left.
  - intros Hno. split; [done|]. intros n Hn Hr. by destruct (Hno n Hn).
Qed.

(** A ready node stays ready until its turn. *)
Lemma ready_kept g g' k n :
  rtc gstep g g' -> graph_inv g' -> lively (g_nodes g') -> d_get k (g_nodes g) = Some n -> ready (g_nodes g) n ->
  started (g_nodes g') k \/ exists n', d_get k (g_nodes g') = Some n' /\ ready (g_nodes g') n'.
Proof.
  intros Hs Hi Hc Hk Hr. destruct (gsteps_node g g' k n Hs Hk) as (n' & Hk' & Hd).
  destruct (Hc k n' Hk') as [Hp|Hp].
  2: { left. exists n'. split; [done|]. destruct Hp as [Hp|Hp]; [unfold RUN_STATUSES; apply elem_of_app; by left|rewrite Hp; statuses]. }
  right. exists n'. split; [done|].
  assert (node_inv (g_nodes g') n') as [Hl _].
  { apply d_get_elem in Hk'. apply (proj1 (Forall_forall _ _) (inv_nodes _ Hi) _ Hk'). }
  constructor; [done | by apply lifecycle_planned|].
  rewrite Hd. intros d Hin. eapply status_kept; [done|]. by apply (rdy_deps _ _ Hr).
Qed.

Lemma started_kept g g' k : rtc gstep g g' -> started (g_nodes g) k -> started (g_nodes g') k.
Proof. intros Hs (n & Hn & Hr). by eapply gsteps_started. Qed.

Lemma schedule_loop request_id actor l g :
  prompt_agents -> graph_inv g ->
  forall g1, rtc gstep g g1 -> lively (g_nodes g1) ->
  W (for_each l (schedule_node clock cfg request_id actor)) g1 (fun r g' =>
    r = Ok tt /\ rtc gstep g1 g' /\ lively (g_nodes g')
    /\ forall k n, d_get k (g_nodes g) = Some n -> ready (g_nodes g) n -> k ∈ l -> started (g_nodes g') k).
Proof.
  intros He Hg. induction l as [|x l IH]; intros g1 Hs1 Hc1.
  - apply wpg_ret. split_and!; try done. by intros k n _ _ ?%elem_of_nil.
  - assert (graph_inv g1) as Hg1 by by eapply gsteps_inv. cbn [for_each]. apply wpg_bind.
    eapply wpg_conseq.
    + apply wpg_and; [apply schedule_node_steps, Hg1 | apply schedule_node_starts; [done | apply Hg1 | done]].
    + intros r g2 [[-> Hs2] [Hc2 Hready]].
      eapply wpg_conseq; [apply IH; [by etrans | done]|].
      intros r g3 (-> & Hs3 & Hc3 & Hin3). split_and!; [done|by etrans|done|].
      intros k n Hk Hr [->|Hin]%elem_of_cons; [|eauto]. eapply started_kept; [exact Hs3|].
      destruct (ready_kept g g1 x n Hs1 Hg1 Hc1 Hk Hr) as [Hsu|(n' & Hk' & Hr')].
      * by eapply started_kept.
      * by eapply Hready.
Qed.

Definition dep_done (nodes : dict node) (d : string) : bool :=
  String.eqb (default "" (status_of nodes d)) "succeeded".

Lemma dep_done_true nodes d : dep_done nodes d = true -> status_of nodes d = Some "succeeded".
Proof.
  unfold dep_done. intros H%String.eqb_eq. destruct (status_of nodes d); simpl in H; [by rewrite H | done].
Qed.

Definition waits (nodes : dict node) (x : string) : Prop :=
  exists n, d_get x nodes = Some n /\ n_status n = "planned".

Lemma waiting_dep nodes x n :
  nodes_wf nodes -> calm nodes -> d_get x nodes = Some n ->
  forallb (dep_done nodes) (n_depends_on n) = false -> exists d, dep_edge nodes x d /\ waits nodes d.
Proof.
  intros Hw Hc Hn E. pose proof (nwf_deps_known _ _ _ (get_node_wf _ _ _ Hw Hn)) as Hsub.
  assert (exists d, d ∈ n_depends_on n /\ dep_done nodes d = false) as (d & Hd & Hf).
  { clear Hn Hsub. induction (n_depends_on n) as [|d l IH]; [done|]. simpl in E.
    destruct (dep_done nodes d) eqn:Ed; [|exists d; split; [left | done]].
    destruct (IH E) as (d' & ? & ?). exists d'. split; [by right | done]. }
  exists d. unfold dep_edge, deps_of. rewrite Hn. split; [done|].
  apply Hsub, d_mem_keys in Hd. unfold d_mem in Hd. destruct (d_get d nodes) as [m|] eqn:Em; [|done].
  exists m. split; [done|]. destruct (Hc d m Em) as [?|Hm]; [done|].
  unfold dep_done, status_of in Hf. rewrite Em in Hf. simpl in Hf. by rewrite Hm in Hf.
Qed.

Lemma some_waits nodes :
  NoDup (d_keys nodes) -> calm nodes -> all_succeeded nodes = false -> exists x, waits nodes x.
Proof.
  intros Hd Hc Ha. assert (exists kn, kn ∈ nodes /\ succeeded (snd kn) = false) as ([k n] & Hin & Hs).
  { clear Hd Hc. unfold all_succeeded in Ha. induction nodes as [|kn nodes IH]; [done|]. simpl in Ha.
    destruct (succeeded (snd kn)) eqn:E; [|exists kn; split; [left | done]].
    destruct (IH Ha) as (kn' & ? & ?). exists kn'. split; [by right | done]. }
  apply d_elem_get in Hin; [|done]. exists k, n. split; [done|].
  destruct (Hc k n Hin) as [?|E]; [done|]. unfold succeeded in Hs. simpl in Hs. by rewrite E in Hs.
Qed.

(** In a calm graph with work left some node is ready. *)
Lemma calm_ready g :
  graph_inv g -> calm (g_nodes g) -> all_succeeded (g_nodes g) = false ->
  exists k n, d_get k (g_nodes g) = Some n /\ ready (g_nodes g) n.
Proof.
  intros Hg Hc Ha. pose proof (gr_nodes _ (inv_wf _ Hg)) as Hw. destruct (some_waits _ (nds_keys _ Hw) Hc Ha) as (x & Hx).
  destruct (decide (Exists (fun kn => forallb (dep_done (g_nodes g)) (n_depends_on (snd kn)) = true
                                      /\ n_status (snd kn) = "planned") (g_nodes g))) as [Hex|Hno].
  - apply Exists_exists in Hex as ([k n] & Hin & Hall & Hp). simpl in *.
    apply d_elem_get in Hin as Hk; [|apply Hw]. exists k, n. split; [done|].
    destruct (proj1 (Forall_forall _ _) (inv_nodes _ Hg) _ Hin) as [Hl _]. simpl in Hl.
    constructor; [done | by apply lifecycle_planned|]. intros d Hd. rewrite forallb_forall in Hall.
    by apply dep_done_true, Hall, list_elem_of_In.
  - exfalso. revert x Hx. apply (acyclic_bottom (g_nodes g)); [apply Hw| |].
    + intros x (n & Hn & _). apply d_mem_keys. by eapply d_get_Some_mem.
    + intros x (n & Hn & Hp). eapply waiting_dep; [done..|].
      destruct (forallb _ (n_depends_on n)) eqn:E; [|done].
      exfalso. apply Hno, Exists_exists. exists (x, n). split; [by apply d_get_elem|]. by split.
Qed.

(** *** A tick of a calm graph *)

Lemma loop_idle {X} (l : list X) f g :
  (forall x, W (f x) g (fun r g' => r = Ok tt /\ g' = g)) -> W (for_each l f) g (fun r g' => r = Ok tt /\ g' = g).
Proof.
  intros Hf. apply (wpg_for_each (fun g' => g' = g)); [done|]. intros x g' _ ->. apply Hf.
Qed.

Lemma refresh_calm request_id actor k g :
  calm (g_nodes g) -> W (refresh_active_node clock cfg request_id actor k) g (fun r g' => r = Ok tt /\ g' = g).
Proof.
  intros Hc. unfold refresh_active_node. wpg_run.
  destruct (d_get k (g_nodes g)) as [n|] eqn:Hk; [|by apply wpg_ret].
  destruct (is_empty _); [by apply wpg_ret|]. by destruct (Hc k n Hk) as [-> | ->]; apply wpg_ret.
Qed.

Lemma mark_calm request_id actor k g :
  graph_wf g -> calm (g_nodes g) ->
  W (mark_blocked_node clock cfg request_id actor k) g (fun r g' => r = Ok tt /\ g' = g).
Proof.
  intros Hw Hc. unfold mark_blocked_node. wpg_run.
  destruct (d_get k (g_nodes g)) as [n|] eqn:Hk; [|by apply wpg_ret].
  destruct (negb _); [by apply wpg_ret|].
  destruct (dep_statuses_spec (g_nodes g) (n_depends_on n)) as (l & Hl & Hdeps);
    [apply (get_node_wf _ _ _ (gr_nodes _ Hw) Hk)|].
  destruct (n_depends_on n) as [|d0 ds]; [by apply wpg_ret|]. wpg_run. rewrite Hl.
  destruct (existsb _ l) eqn:Eb; [|by apply wpg_ret]. exfalso.
  apply existsb_exists in Eb as (s & Hin & Hbad). apply list_elem_of_In, Hdeps in Hin as (d & _ & Hst).
  unfold status_of in Hst. destruct (d_get d (g_nodes g)) as [m|] eqn:Em; [|done]. simpl in Hst.
  injection Hst as <-. by destruct (Hc d m Em) as [E|E]; rewrite E in Hbad.
Qed.

(** The end of a tick moves no node. *)
Lemma tick_end gid request_id actor g (P : dict node -> Prop) :
  graph_inv g -> P (g_nodes g) ->
  W (sync_graph_status clock cfg ;;; touch clock ;;;
     (let* g := the_graph in
      append_timeline clock cfg "graph_ticked"
        [("graph_id", PStr gid); ("status", PStr (g_status g)); ("actor", opt_actor actor);
         ("request_id", opt_actor request_id)]) ;;;
     persist_and_snapshot clock cfg) g (fun _ g' => P (g_nodes g')).
Proof.
  intros Hg HP. apply wpg_bind. eapply wpg_conseq; [by apply sync_sound|]. intros r g1 (-> & Hq & _).
  apply wpg_bind. eapply wpg_conseq; [apply touch_quiet|]. intros r g2 (-> & t & ->). wpg_run.
  apply wpg_timeline_keep. intros tl t' g' _. apply wpg_persist_and_snapshot. simpl. by rewrite (q_nodes _ _ Hq).
Qed.

Lemma count_tick_nodes g :
  W (count_tick clock) g (fun _ g' => g_nodes g' = g_nodes g /\ g_status g' = g_status g).
Proof. unfold count_tick. by wpg_run. Qed.

(** The part of a tick after the runs were looked at. *)
Lemma tick_rest gid request_id actor g :
  prompt_agents -> graph_inv g -> calm (g_nodes g) ->
  W (mark_blocked_nodes clock cfg request_id actor ;;;
     (let* g := the_graph in
      when (str_in (g_status g) ["planned"; "running"]) (schedule_ready_nodes clock cfg request_id actor)) ;;;
     sync_graph_status clock cfg ;;; touch clock ;;;
     (let* g := the_graph in
      append_timeline clock cfg "graph_ticked"
        [("graph_id", PStr gid); ("status", PStr (g_status g)); ("actor", opt_actor actor);
         ("request_id", opt_actor request_id)]) ;;;
     persist_and_snapshot clock cfg) g
    (fun _ g' => lively (g_nodes g')
       /\ (forall k, status_of (g_nodes g) k = Some "succeeded" -> status_of (g_nodes g') k = Some "succeeded")
       /\ (str_in (g_status g) ["planned"; "running"] = true ->
           forall k n, d_get k (g_nodes g) = Some n -> ready (g_nodes g) n -> started (g_nodes g') k)).
Proof.
  intros He Hg Hc. wpg_run. unfold mark_blocked_nodes. wpg_run.
  eapply wpg_conseq; [apply loop_idle; intros x; apply mark_calm; [apply Hg | done]|]. intros r g2 [-> ->].
  wpg_run. destruct (str_in (g_status g) _) eqn:Est; cbn [when].
  - unfold schedule_ready_nodes. wpg_run. rewrite Est. cbn [negb].
    eapply wpg_conseq; [by apply (schedule_loop request_id actor _ g); [..|apply calm_lively]|].
    intros r g2 (-> & Hs2 & Hc2 & Hin). cbn beta iota.
    apply (tick_end gid request_id actor g2 (fun nodes => lively nodes
      /\ (forall k, status_of (g_nodes g) k = Some "succeeded" -> status_of nodes k = Some "succeeded")
      /\ (true = true -> forall k n, d_get k (g_nodes g) = Some n -> ready (g_nodes g) n -> started nodes k)));
      [by eapply gsteps_inv|]. split_and!; [done|by intros k; apply status_kept|].
    intros _ k n Hk Hr. apply (Hin k n Hk Hr). apply list_elem_of_fmap. exists (k, n). split; [done|].
    unfold iter_nodes. apply sort_by_elem. by apply d_get_elem.
  - apply wpg_ret. cbn beta iota.
    apply (tick_end gid request_id actor g (fun nodes => lively nodes
      /\ (forall k, status_of (g_nodes g) k = Some "succeeded" -> status_of nodes k = Some "succeeded")
      /\ (false = true -> forall k n, d_get k (g_nodes g) = Some n -> ready (g_nodes g) n -> started nodes k))); [done|].
    split_and!; [by apply calm_lively|done|done].
Qed.

(** A tick finishes what is running. *)
Lemma tick_active gid request_id actor g :
  prompt_agents -> graph_inv g -> lively (g_nodes g) ->
  W (tick_body clock cfg gid request_id actor) g
    (fun _ g' => lively (g_nodes g')
       /\ forall k n, d_get k (g_nodes g) = Some n -> n_status n ∈ RUN_ACTIVE_STATUSES -> status_of (g_nodes g') k = Some "succeeded").
Proof.
  intros He Hg Hl. unfold tick_body. apply wpg_bind.
  eapply wpg_conseq; [apply wpg_and; [apply count_tick_nodes | apply count_tick_steps]|].
  intros r g1 ([En _] & -> & Hs1). assert (graph_inv g1) as Hg1 by by eapply gsteps_inv. rewrite <- En in *. clear En Hs1.
  cbn beta iota. wpg_run. eapply wpg_conseq; [by apply refresh_nodes_loop|]. intros r g2 (-> & Hs2 & Hl2 & Hrest). cbn beta iota.
  assert (forall k, at_rest (g_nodes g2) k) as Hall.
  { intros k. apply Hrest. destruct (d_get k (g_nodes g1)) as [n|] eqn:Hk; [left|right; intros n; by rewrite Hk].
    apply list_elem_of_fmap. exists (k, n). split; [done|]. unfold iter_nodes. apply sort_by_elem. by apply d_get_elem. }
  eapply wpg_conseq; [apply tick_rest; [done|by eapply gsteps_inv|intros k n Hk; by apply (Hall k n)]|].
  intros r g3 (H1 & H2 & _). split; [done|]. intros k n Hk Ha. apply H2.
  destruct (gsteps_started g1 g2 k n Hs2 Hk) as (n' & Hk' & Hr); [unfold RUN_STATUSES; apply elem_of_app; by left|].
  unfold status_of. rewrite Hk'. cbn. destruct (Hall k n' Hk') as [E| ->]; [rewrite E in Hr; statuses|done].
Qed.

(** A tick of a calm graph starts what is ready. *)
Lemma tick_calm gid request_id actor g :
  prompt_agents -> graph_inv g -> calm (g_nodes g) -> str_in (g_status g) ["planned"; "running"] = true ->
  W (tick_body clock cfg gid request_id actor) g
    (fun _ g' => lively (g_nodes g')
       /\ forall k n, d_get k (g_nodes g) = Some n -> ready (g_nodes g) n -> started (g_nodes g') k).
Proof.
  intros He Hg Hc Hst. unfold tick_body. apply wpg_bind.
  eapply wpg_conseq; [apply wpg_and; [apply count_tick_nodes | apply count_tick_steps]|].
  intros r g1 ([En Est] & -> & Hs1). assert (graph_inv g1) as Hg1 by by eapply gsteps_inv.
  rewrite <- En in *. rewrite <- Est in Hst. clear En Est Hs1. cbn beta iota.
  wpg_run. eapply wpg_conseq; [apply loop_idle; intros x; by apply refresh_calm|]. intros r g2 [-> ->]. cbn beta iota.
  eapply wpg_conseq; [by apply tick_rest|]. intros r g3 (H1 & _ & H3). split; [done|]. by apply H3.
Qed.
End runs.

(** ** Ticks of a manager *)

Lemma all_succeeded_get nodes k n : all_succeeded nodes = true -> d_get k nodes = Some n -> n_status n = "succeeded".
Proof.
  unfold all_succeeded. rewrite forallb_forall. intros H Hk. apply d_get_elem, list_elem_of_In, H in Hk.
  by apply String.eqb_eq in Hk.
Qed.

Lemma weight_full nodes : all_succeeded nodes = true -> graph_weight nodes = 2 * Z.of_nat (length nodes).
Proof.
  unfold graph_weight, all_succeeded. induction nodes as [|kn nodes IH]; simpl; [done|]. intros [H1 H]%andb_true_iff.
  rewrite IH by done. unfold node_weight. rewrite H1. lia.
Qed.

Lemma gsteps_length g g' : rtc gstep g g' -> length (g_nodes g') = length (g_nodes g).
Proof.
  intros Hs. rewrite <- (length_fmap fst (g_nodes g')), <- (length_fmap fst (g_nodes g)). f_equal. apply (gsteps_keys _ _ Hs).
Qed.

Lemma gsteps_all g g' :
  graph_inv g -> rtc gstep g g' -> all_succeeded (g_nodes g) = true -> all_succeeded (g_nodes g') = true.
Proof.
  intros Hg Hs Ha. unfold all_succeeded. apply forallb_forall. intros [k n'] Hin. apply list_elem_of_In in Hin. cbn [snd].
  assert (NoDup (d_keys (g_nodes g'))) as Hd by (rewrite (gsteps_keys g g' Hs); apply (nds_keys _ (gr_nodes _ (inv_wf _ Hg)))).
  apply d_elem_get in Hin; [|done]. assert (k ∈ d_keys (g_nodes g)) as Hk.
  { rewrite <- (gsteps_keys g g' Hs). apply d_mem_keys. by eapply d_get_Some_mem. }
  apply d_mem_keys in Hk. unfold d_mem in Hk. destruct (d_get k (g_nodes g)) as [n|] eqn:En; [|done].
  pose proof (all_succeeded_get _ _ _ Ha En) as Es. rewrite (gsteps_frozen g g' k n Hs En) in Hin by (rewrite Es; left).
  simplify_eq. unfold succeeded. by rewrite Es.
Qed.

Section ticks.
Context {AM : Type} {HAM : AgentManager AM} (w : world AM).
Local Instance ticks_store : GraphStore table := claims_store w.

Fixpoint ticks (gid : string) (n : nat) (s : @manager AM table) : @manager AM table :=
  match n with
  | O => s
  | S n' => ticks gid n' (run_call w (Tick (Some gid) None None None) s)
  end.

(** Some node is running, or all wait or are done. *)
Lemma running_or_calm nodes :
  NoDup (d_keys nodes) -> lively nodes -> (exists k n, d_get k nodes = Some n /\ n_status n ∈ RUN_ACTIVE_STATUSES) \/ calm nodes.
Proof.
  intros Hd Hl. destruct (existsb (fun kn => str_in (n_status (snd kn)) RUN_ACTIVE_STATUSES) nodes) eqn:E.
  - left. apply existsb_exists in E as ([k n] & Hin & Ha%str_in_spec). apply list_elem_of_In, d_elem_get in Hin; [|done]. eauto.
  - right. intros k n Hk. destruct (Hl k n Hk) as [?|[Ha|?]]; [by left| |by right]. exfalso.
    rewrite <- not_true_iff_false, existsb_exists in E. apply E. exists (k, n). split; [by apply list_elem_of_In, d_get_elem|by apply str_in_spec].
Qed.

(** An unfinished lively graph is planned or running. *)
Lemma lively_status g : graph_inv g -> status_sound g -> lively (g_nodes g) -> all_succeeded (g_nodes g) = false ->
  (exists k n, d_get k (g_nodes g) = Some n /\ n_status n = "planned") -> str_in (g_status g) ["planned"; "running"] = true.
Proof.
  intros Hi Hss Hl Ea (k & n & Hk & Hp). rewrite (ss_status _ Hss). unfold derived_status. rewrite Ea.
  assert (any_node ["failed"] (g_nodes g) = false) as ->.
  { apply not_true_iff_false. unfold any_node. rewrite existsb_exists. intros ([k' n'] & Hin & Hbad).
    apply list_elem_of_In, d_elem_get in Hin; [|apply (gr_nodes _ (inv_wf _ Hi))].
    simpl in Hbad. destruct (Hl _ _ Hin) as [E|[E|E]]; [by rewrite E in Hbad| |by rewrite E in Hbad].
    statuses; by rewrite E in Hbad. }
  assert (any_node ["planned"; "queued"; "running"] (g_nodes g) = true) as ->.
  { unfold any_node. apply existsb_exists. exists (k, n). split; [by apply list_elem_of_In, d_get_elem|]. simpl. by rewrite Hp. }
  by destruct (g_launched_at g).
Qed.

Definition moves_on (g g' : graph) : Prop :=
  lively (g_nodes g') /\ (all_succeeded (g_nodes g) = false -> graph_weight (g_nodes g) < graph_weight (g_nodes g')).

Lemma tick_moves_on gid g :
  prompt_agents -> graph_inv g -> status_sound g -> lively (g_nodes g) ->
  wpg (DB := table) (tick_body (w_clock w) (w_cfg w) gid None None) g (fun r g' => body_ok g r g' /\ moves_on g g').
Proof.
  intros He Hi Hss Hl. pose proof (nds_keys _ (gr_nodes _ (inv_wf _ Hi))) as Hd.
  destruct (running_or_calm _ Hd Hl) as [(k & n & Hk & Ha)|Hc].
  - eapply wpg_conseq; [apply wpg_and; [by apply tick_body_ok | by apply tick_active]|].
    intros r g' ((-> & Hstep & Hso) & Hl' & Hdone). split; [done|]. split; [done|]. intros _.
    pose proof (Hdone k n Hk Ha) as Hst. unfold status_of in Hst. destruct (d_get k (g_nodes g')) as [n'|] eqn:Hk'; [|done].
    injection Hst as Hst. eapply (proj2 (gsteps_weight g g' Hi Hstep Hl Hl')); [exact Hk|exact Hk'|].
    rewrite (weight_active n Ha), (weight_succeeded n' Hst). lia.
  - destruct (all_succeeded (g_nodes g)) eqn:Ea.
    + eapply wpg_conseq; [by apply tick_body_ok|]. intros r g' (-> & Hst & Hso). split; [done|]. split; [|by rewrite Ea].
      intros k n Hk. right. right. eapply all_succeeded_get; [|done]. by eapply gsteps_all.
    + destruct (calm_ready g Hi Hc Ea) as (k & n & Hk & Hr).
      assert (str_in (g_status g) ["planned"; "running"] = true) as Hst.
      { apply lively_status; try done. exists k, n. split; [done|]. apply (rdy_status _ _ Hr). }
      eapply wpg_conseq; [apply wpg_and; [by apply tick_body_ok | by apply tick_calm]|].
      intros r g' ((-> & Hstep & Hso) & Hl' & Hstart). split; [done|]. split; [done|]. intros _.
      destruct (Hstart k n Hk Hr) as (n' & Hk' & Hrs). eapply (proj2 (gsteps_weight g g' Hi Hstep Hl Hl')); [exact Hk|exact Hk'|].
      rewrite (weight_planned n (rdy_status _ _ Hr)).
      destruct (Hl' k n' Hk') as [E|[E|E]]; [rewrite E in Hrs; statuses|rewrite weight_active by done; lia|rewrite weight_succeeded by done; lia].
Qed.

Lemma tick_progress s gid g :
  hex_uuids w -> prompt_agents -> reachable w s -> d_get gid (m_graphs s) = Some g -> lively (g_nodes g) ->
  exists g', d_get gid (m_graphs (run_call w (Tick (Some gid) None None None) s)) = Some g' /\ rtc gstep g g' /\ moves_on g g'.
Proof.
  intros Hh He Hs Hg Hl. destruct (reachable_graph _ _ _ _ Hh Hs Hg) as (Hi & Hss & _). simpl in Hi, Hss.
  destruct (on_owned_run w s gid g None (fun gid => tick_body (w_clock w) (w_cfg w) gid None None) _ Hh Hs Hg
              eq_refl (tick_moves_on gid g He Hi Hss Hl) (tick_persists _ _ _ _ _ _)) as (g' & ((_ & Hst & _) & Hm) & Hgs).
  exists g'. split; [|done]. exact (eq_trans (f_equal (d_get gid) Hgs) (d_get_set_eq _ _ _)).
Qed.

Lemma ticks_reachable gid n s : reachable w s -> reachable w (ticks gid n s).
Proof. revert s. induction n as [|n IH]; intros s Hs; cbn [ticks]; [done|]. apply IH. by apply reach_call. Qed.

Lemma ticks_finish gid n s g :
  hex_uuids w -> prompt_agents -> reachable w s -> d_get gid (m_graphs s) = Some g -> lively (g_nodes g) ->
  2 * Z.of_nat (length (g_nodes g)) - graph_weight (g_nodes g) <= Z.of_nat n ->
  exists g', d_get gid (m_graphs (ticks gid n s)) = Some g' /\ all_succeeded (g_nodes g') = true.
Proof.
  intros Hh He. revert s g. induction n as [|n IH]; intros s g Hs Hg Hc Hle.
  - exists g. split; [done|]. apply weight_all. lia.
  - destruct (tick_progress s gid g Hh He Hs Hg Hc) as (g' & Hg' & Hst & Hc' & Hcnt).
    apply (IH _ g'); [by apply reach_call | done | done|]. rewrite (gsteps_length _ _ Hst).
    destruct (all_succeeded (g_nodes g)) eqn:Ea; [|specialize (Hcnt eq_refl); lia].
    destruct (reachable_graph _ _ _ _ Hh Hs Hg) as (Hi & _).
    rewrite (weight_full _ (gsteps_all _ _ Hi Hst Ea)), (gsteps_length _ _ Hst). lia.
Qed.

(** C25. Liveness: with an agent manager that leaves new runs queued or running
    and whose runs have succeeded when the supervisor next looks at them,
    ticking a graph none of whose nodes has failed, was canceled or is blocked
    twice as many times as it has nodes leaves every node succeeded, whatever
    the order and the dependencies of the nodes, the objective verification
    decided, and the graph in the status that follows from it. *)
Theorem prompt_agents_finish s gid g :
  hex_uuids w -> prompt_agents -> reachable w s -> d_get gid (m_graphs s) = Some g -> lively (g_nodes g) ->
  exists g', d_get gid (m_graphs (ticks gid (2 * length (g_nodes g)) s)) = Some g'
    /\ all_succeeded (g_nodes g') = true /\ v_status (g_objective_verification g') <> "pending"
    /\ g_status g' = derived_status g' /\ g_status g' ∈ ["succeeded"; "failed"; "review_required"].
Proof.
  intros Hh He Hs Hg Hc. destruct (ticks_finish gid (2 * length (g_nodes g)) s g Hh He Hs Hg Hc) as (g' & Hg' & Ha).
  { pose proof (graph_weight_bound (g_nodes g)). lia. }
  exists g'. split; [done|]. split; [done|].
  destruct (reachable_graph _ _ _ _ Hh (ticks_reachable gid _ s Hs) Hg') as (_ & Hss & _). simpl in Hss.
  split; [by apply (ss_verified _ Hss)|]. split; [apply Hss|]. rewrite (ss_status _ Hss). unfold derived_status. rewrite Ha.
  repeat match goal with |- context [if ?b then _ else _] => destruct b end; rewrite !elem_of_cons; tauto.
Qed.
End ticks.

(** ** The autonomy circuit breaker *)

Section breaker.
Context {AM : Type} {HAM : AgentManager AM} {DB : Type} {HDB : GraphStore DB}.
Context (clock : nat -> Z) (cfg : config).
Local Abbreviation W := (@wpg AM DB _).

(** The agent manager refuses every run with the breaker's exception. *)
Definition breaker_refuses : Prop := forall kw am, exists msg decision matched snap am',
  am_create_run kw (Some "supervisor") am = (Err (BreakerBlockedError msg decision matched snap), am').

(** Nothing of a node's life moved. *)
Definition held (nodes nodes' : dict node) : Prop :=
  d_keys nodes' = d_keys nodes
  /\ forall k n n', d_get k nodes = Some n -> d_get k nodes' = Some n' ->
       n_status n' = n_status n /\ n_run_id n' = n_run_id n /\ n_attempts n' = n_attempts n.

Lemma held_refl nodes : held nodes nodes.
Proof. split; [done|]. intros k n n' H1 H2. by simplify_eq. Qed.

Lemma held_trans a b c : held a b -> held b c -> held a c.
Proof.
  intros [K1 H1] [K2 H2]. split; [congruence|]. intros k n n' Hn Hn'.
  destruct (d_get k b) as [m|] eqn:Hm.
  - destruct (H1 k n m Hn Hm) as (? & ? & ?), (H2 k m n' Hm Hn') as (? & ? & ?). repeat split; congruence.
  - exfalso. apply d_get_None_keys in Hm. apply Hm. rewrite K1. apply d_mem_keys. by eapply d_get_Some_mem.
Qed.

Lemma schedule_node_held request_id actor k g :
  breaker_refuses -> graph_wf g ->
  W (schedule_node clock cfg request_id actor k) g (fun r g' =>
    held (g_nodes g) (g_nodes g') /\ g_telemetry g' = g_telemetry g).
Proof.
  intros Hb Hw. apply schedule_node_cases; [done| |intros _; split; [apply held_refl | done]].
  intros n Hk Hr. apply wpg_try. unfold start_run. apply wpg_bind.
  apply (wpg_conseq _ _ _ (fun r g' => exists msg decision matched snap,
           r = Err (BreakerBlockedError msg decision matched snap) /\ g' = g)).
  { Transparent wpg. intros e. unfold on_env, call_create_run, try_except, env_create_run. simpl.
    destruct (Hb (create_kwargs g n) (e_am e)) as (msg & de & ma & sn & am' & ->). simpl. eauto 10. Opaque wpg. }
  intros r g' (msg & decision & matched & snap & -> & ->). cbn beta iota.
  unfold handle_blocked. wpg_run. rewrite Hk. destruct (blocked_marks _ _) as [emit md].
  apply wpg_bind, wpg_upd_node.
  assert (forall g', quiet (node_upd k (fun n => set_n_last_error (Some msg) (set_n_completed_at None
            (set_n_started_at None (set_n_status "planned" (set_n_run_status None (set_n_metadata md n)))))) g) g' ->
          g_telemetry g' = g_telemetry g ->
          held (g_nodes g) (g_nodes g') /\ g_telemetry g' = g_telemetry g) as Hend.
  { intros g' Hq Ht. split; [|done]. rewrite (q_nodes _ _ Hq). unfold node_upd. rewrite Hk. simpl.
    split; [by apply d_keys_set_in; eapply d_get_Some_mem|]. intros k' m m' Hm. rewrite d_get_set.
    destruct (String.eqb_spec k k') as [<-|]; [|intros; by simplify_eq]. intros [= <-]. simplify_eq. simpl.
    split; [by rewrite (rdy_status _ _ Hr) | done]. }
  apply wpg_when; intros _.
  - apply wpg_timeline_keep. intros tl t g' Hq. apply Hend; [done|]. unfold g'. simpl. unfold node_upd. by rewrite Hk.
  - apply Hend; [apply quiet_refl|]. unfold node_upd. by rewrite Hk.
Qed.

(** While the autonomy circuit breaker refuses runs, scheduling a graph
    starts nothing and fails nothing: it returns, every node keeps its
    status, its run and its attempts, and the run counters stay, so the graph
    resumes where it was once the breaker is disarmed. *)
Theorem breaker_holds_graph request_id actor g e :
  breaker_refuses -> graph_inv g ->
  let '(r, st) := schedule_ready_nodes clock cfg request_id actor (GState g e : @gstate AM DB) in
  r = Ok tt /\ held (g_nodes g) (g_nodes (gs_graph st)) /\ g_telemetry (gs_graph st) = g_telemetry g.
Proof.
  intros Hb Hg.
  assert (W (schedule_ready_nodes clock cfg request_id actor) g (fun r g' =>
    r = Ok tt /\ held (g_nodes g) (g_nodes g') /\ g_telemetry g' = g_telemetry g)) as Hw.
  { unfold schedule_ready_nodes. wpg_run. destruct (negb _); [apply wpg_ret; auto using held_refl|].
    eapply wpg_conseq.
    - apply (wpg_for_each (fun g' => graph_inv g' /\ held (g_nodes g) (g_nodes g')
                                     /\ g_telemetry g' = g_telemetry g)); [auto using held_refl|].
      intros k g' _ (Hg' & Hh & Ht).
      eapply wpg_conseq; [apply wpg_and; [apply schedule_node_steps, Hg' | apply schedule_node_held; [done | apply Hg']]|].
      intros r g'' [[-> Hs] [Hh' Ht']]. split; [done|]. split; [by eapply gsteps_inv|].
      split; [by eapply held_trans | congruence].
    - intros r g' (-> & _ & H). done. }
  apply (wpg_elim _ _ _ e) in Hw. by destruct (schedule_ready_nodes _ _ _ _ _).
Qed.
End breaker.

(** ** Witnesses *)

Lemma strip_visible c s : is_space c = false -> is_empty (strip (String c s)) = false.
Proof.
  intros Hc. unfold strip, strip_by. simpl. destruct (rstrip_by is_space s); [rewrite Hc|]; simpl; by rewrite Hc.
Qed.

(** Agents that queue a run and have finished it when asked. *)
Definition queueing_agents : AgentManager nat := {|
  am_create_run _ _ n := (Ok (PDict [("id", PStr ("run-" +:+ str_of_Z (Z.of_nat n))); ("status", PStr "queued")]), S n);
  am_get_run run_id n := (Ok (PDict [("id", PStr run_id); ("status", PStr "succeeded"); ("response", PStr "index rebuilt")]), n) |}.

Lemma demo_prompt : prompt_agents (HAM := queueing_agents).
Proof.
  constructor.
  - intros kw am. eexists _, _. split; [reflexivity|]. split; [|by left]. unfold norm, py_or. simpl. by apply strip_visible.
  - intros run_id am. eexists _, _. split; reflexivity.
Qed.

Definition queueing_created : manager :=
  run_call (HAM := queueing_agents) demo_world demo_create demo_start.
Lemma queueing_reachable : reachable (HAM := queueing_agents) demo_world queueing_created.
Proof. apply reach_call, reach_init. reflexivity. Qed.

Definition demo_planned : graph :=
  Eval vm_compute in default empty_graph (d_get "sup-a" (m_graphs demo_created)).

Lemma demo_planned_get : d_get "sup-a" (m_graphs demo_created) = Some demo_planned.
Proof. vm_compute. reflexivity. Qed.
Lemma queueing_planned_get : d_get "sup-a" (m_graphs queueing_created) = Some demo_planned.
Proof. vm_compute. reflexivity. Qed.

Lemma demo_planned_lively : lively (g_nodes demo_planned).
Proof.
  intros k n. unfold demo_planned. cbn [g_nodes d_get].
  repeat (destruct (String.eqb _ _); [intros [= <-]; by left|]). done.
Qed.

Lemma prompt_agents_finish_witness :
  exists g', d_get "sup-a" (m_graphs (ticks (HAM := queueing_agents) demo_world "sup-a" 4 queueing_created)) = Some g'
             /\ all_succeeded (g_nodes g') = true.
Proof.
  destruct (prompt_agents_finish (HAM := queueing_agents) demo_world queueing_created "sup-a" demo_planned demo_hex demo_prompt
              queueing_reachable queueing_planned_get demo_planned_lively) as (g' & H1 & H2 & _).
  exists g'. split; [exact H1 | exact H2].
Defined.

(** Agents behind an armed breaker. *)
Definition blocked_agents : AgentManager nat := {|
  am_create_run _ _ n := (Err (BreakerBlockedError "autonomy circuit breaker is armed" [] [] []), n);
  am_get_run _ n := (Ok PNone, n) |}.

Lemma breaker_holds_graph_witness :
  fst (schedule_ready_nodes (HAM := blocked_agents) demo_clock (w_cfg demo_world) None None
         (GState demo_planned demo_env)) = Ok tt
  /\ g_telemetry (gs_graph (snd (schedule_ready_nodes (HAM := blocked_agents) demo_clock (w_cfg demo_world) None None
         (GState demo_planned demo_env)))) = g_telemetry demo_planned.
Proof.
  pose proof (breaker_holds_graph (HAM := blocked_agents) demo_clock (w_cfg demo_world) None None demo_planned demo_env) as H.
  destruct (schedule_ready_nodes _ _ _ _ _) as [r st]. destruct H as (H1 & _ & H3); [| |done].
  - intros kw am. repeat eexists.
  - apply (reachable_graph _ _ _ _ demo_hex demo_created_reachable demo_planned_get).
Defined.

End SupervisorProgress.
