(* ===== verification/PermissionManager.v ===== *)
(** Permission prompts for tools (tools/permission_manager.py,
    [ToolPermissionManager]): request, approve, deny, list and consume, with
    expiry by time to live. *)

From stdpp Require Import prelude strings list.
From Stdlib Require Import Lia ZArith Ascii.
From S2P Require Import Prelude PyStr PyVal Effects PyTime.

Module PermissionManager.

(** ** [_arguments_hash] *)

(** [json.dumps(..., sort_keys=True, ensure_ascii=False, separators=(",", ":"))] *)
Definition json_char (c : ascii) : string :=
  if Ascii.eqb c dquote then String "\" (String dquote "")
  else if Ascii.eqb c "\" then "\\"
  else if N.eqb (code c) 8 then "\b"
  else if N.eqb (code c) 9 then "\t"
  else if N.eqb (code c) 10 then "\n"
  else if N.eqb (code c) 12 then "\f"
  else if N.eqb (code c) 13 then "\r"
  else if in_range 0 31 c
  then "\u00" +:+ String (hex_digit (code c / 16)) (String (hex_digit (code c mod 16)) "")
  else String c "".

Fixpoint json_chars (s : string) : string :=
  match s with EmptyString => "" | String c s' => json_char c +:+ json_chars s' end.

Definition json_string (s : string) : string := String dquote (json_chars s +:+ String dquote "").

Definition json_float (f : pyfloat) : string :=
  match fl_value f with
  | FFinite _ _ => fl_repr f
  | FInfinite negative => if negative then "-Infinity" else "Infinity"
  | FNan => "NaN"
  end.

Fixpoint json_dumps (v : pyval) : string :=
  match v with
  | PNone => "null"
  | PBool b => if b then "true" else "false"
  | PInt z => str_of_Z z
  | PFloat f => json_float f
  | PStr s => json_string s
  | PList l => "[" +:+ join "," (map json_dumps l) +:+ "]"
  | PDict d =>
      "{" +:+ join "," (map (fun kv => json_string (fst kv) +:+ ":" +:+ snd kv)
                          (sort_by (fun a b => String.leb (fst a) (fst b))
                             (map (fun kv => (fst kv, json_dumps (snd kv))) d)))
      +:+ "}"
  end.

(** A prompt. *)
Record prompt : Type := Prompt {
  p_id : string;
  p_status : string;
  p_tool_name : string;
  p_arguments_hash : string;
  p_arguments_preview : pydict;
  p_reason : string;
  p_scope : string;
  p_scope_value : string;
  p_ttl_sec : Z;
  p_request_id : option string;
  p_user_id : option string;
  p_session_id : option string;
  p_created_at : string;
  p_updated_at : string;
  p_expires_at : string;
  p_approved_at : option string;
  p_consumed_at : option string }.

Definition set_status (status updated_at : string) (p : prompt) : prompt :=
  Prompt (p_id p) status (p_tool_name p) (p_arguments_hash p) (p_arguments_preview p) (p_reason p)
    (p_scope p) (p_scope_value p) (p_ttl_sec p) (p_request_id p) (p_user_id p) (p_session_id p)
    (p_created_at p) updated_at (p_expires_at p) (p_approved_at p) (p_consumed_at p).

Definition set_approved_at (v : string) (p : prompt) : prompt :=
  Prompt (p_id p) (p_status p) (p_tool_name p) (p_arguments_hash p) (p_arguments_preview p) (p_reason p)
    (p_scope p) (p_scope_value p) (p_ttl_sec p) (p_request_id p) (p_user_id p) (p_session_id p)
    (p_created_at p) (p_updated_at p) (p_expires_at p) (Some v) (p_consumed_at p).

Definition set_consumed_at (v : string) (p : prompt) : prompt :=
  Prompt (p_id p) (p_status p) (p_tool_name p) (p_arguments_hash p) (p_arguments_preview p) (p_reason p)
    (p_scope p) (p_scope_value p) (p_ttl_sec p) (p_request_id p) (p_user_id p) (p_session_id p)
    (p_created_at p) (p_updated_at p) (p_expires_at p) (p_approved_at p) (Some v).

(** ** Scopes *)

(** [_normalize_scope] *)
Definition normalize_scope (scope : string) : string :=
  let normalized := lower (strip scope) in
  if str_in normalized ["request"; "session"; "user"; "global"] then normalized else "request".

(** [_resolve_scope_value] *)
Definition resolve_scope_value (scope : string) (request_id user_id session_id : option string) : string :=
  if String.eqb scope "request" then str_or (strip (opt_str request_id)) "none"
  else if String.eqb scope "session" then str_or (strip (opt_str session_id)) "none"
  else if String.eqb scope "user" then str_or (strip (opt_str user_id)) "none"
  else "global".

(** [_scope_matches] *)
Definition scope_matches (p : prompt) (request_id user_id session_id : option string) : bool :=
  let scope := lower (strip (str_or (p_scope p) "request")) in
  let expected_value := strip (str_or (p_scope_value p) "none") in
  if String.eqb scope "global" then true
  else String.eqb (resolve_scope_value scope request_id user_id session_id) expected_value.

(** ** The manager *)

(** [_parse_iso_datetime] on the texts the manager stores *)
Definition parse_iso_datetime (s : string) : option Z := fromisoformat (replace_c "Z" "+00:00" s).

(** [dt + timedelta(seconds=n)]: the year must stay within 1..9999. *)
Definition add_seconds (t n : Z) : res Z :=
  let t' := t + n * us_per_sec in
  let '(y, _, _) := civil_from_days (dt_day t') in
  if (1 <=? y) && (y <=? 9999) then Ok t' else Err (OverflowError "date value out of range").

(** The prompts in insertion order; the readings of the clock and the
    identifiers drawn so far. *)
Record state : Type := State {
  st_prompts : dict prompt;
  st_clock : nat;
  st_uuid : nat }.

Section manager.
(** The [n]-th reading of the clock, the [n]-th [str(uuid4())], and
    [hashlib.sha256(text.encode("utf-8")).hexdigest()]. *)
Context (clock : nat -> Z) (uuid : nat -> string) (sha256_hexdigest : string -> string).
Context (default_ttl_sec : Z).

Definition arguments_hash (arguments : pydict) : string := sha256_hexdigest (json_dumps (PDict arguments)).

(** [datetime.now(timezone.utc)] *)
Definition now : M state Z := fun s =>
  (Ok (clock (st_clock s)), State (st_prompts s) (S (st_clock s)) (st_uuid s)).

(** [_utc_now] *)
Definition utc_now : M state string := let* t := now in ret (isoformat t).

Definition new_uuid : M state string := fun s =>
  (Ok (uuid (st_uuid s)), State (st_prompts s) (st_clock s) (S (st_uuid s))).

Definition store (p : prompt) : M state unit :=
  modify (fun s => State (d_set (p_id p) p (st_prompts s)) (st_clock s) (st_uuid s)).

Definition find (prompt_id : string) : M state (option prompt) := gets (fun s => d_get prompt_id (st_prompts s)).

Definition request (tool_name : string) (arguments : pydict) (reason scope : string) (ttl_sec : option Z)
    (request_id user_id session_id : option string) : M state prompt :=
  let* prompt_id := new_uuid in
  let normalized_scope := normalize_scope scope in
  let scope_value := resolve_scope_value normalized_scope request_id user_id session_id in
  let effective_ttl_sec := Z.max 1 (match ttl_sec with Some t => t | None => Z.max 1 default_ttl_sec end) in
  let* created_at := utc_now in
  let* parsed := lift (match parse_iso_datetime created_at with
                       | Some t => Ok t
                       | None => Err (ValueError ("Invalid isoformat string: " +:+ py_repr_str created_at))
                       end) in
  let* expires := lift (add_seconds parsed effective_ttl_sec) in
  let payload := Prompt prompt_id "pending" tool_name (arguments_hash arguments) arguments reason
    normalized_scope scope_value effective_ttl_sec request_id user_id session_id
    created_at created_at (isoformat expires) None None in
  store payload ;;;
  ret payload.

(** [_refresh_expired_locked] *)
Definition refresh_prompt (at_ : Z) (k : string) : M state unit :=
  let* found := find k in
  match found with
  | None => ret tt
  | Some p =>
      let status := lower (strip (p_status p)) in
      if negb (str_in status ["pending"; "approved"]) then ret tt
      else
        let expires_raw := strip (p_expires_at p) in
        if is_empty expires_raw then ret tt
        else match parse_iso_datetime expires_raw with
        | None => ret tt
        | Some expires_at =>
            when (expires_at <=? at_)
              (let* updated := utc_now in
               modify (fun s => State (d_set k (set_status "expired" updated p) (st_prompts s))
                                  (st_clock s) (st_uuid s)))
        end
  end.

Definition refresh_expired : M state unit :=
  let* at_ := now in
  let* keys := gets (fun s => d_keys (st_prompts s)) in
  for_each keys (refresh_prompt at_).

Definition set_prompt (k : string) (p : prompt) : M state unit :=
  modify (fun s => State (d_set k p (st_prompts s)) (st_clock s) (st_uuid s)).

Definition approve (prompt_id : string) : M state prompt :=
  refresh_expired ;;;
  let* found := find prompt_id in
  match found with
  | None => raise (ValueError ("Permission prompt not found: " +:+ prompt_id))
  | Some p =>
      raise_if (String.eqb (p_status p) "expired") (ValueError ("Permission prompt expired: " +:+ prompt_id)) ;;;
      let* updated := utc_now in
      let p' := set_approved_at updated (set_status "approved" updated p) in
      set_prompt prompt_id p' ;;;
      ret p'
  end.

Definition deny (prompt_id : string) : M state prompt :=
  refresh_expired ;;;
  let* found := find prompt_id in
  match found with
  | None => raise (ValueError ("Permission prompt not found: " +:+ prompt_id))
  | Some p =>
      let* updated := utc_now in
      let p' := set_status "denied" updated p in
      set_prompt prompt_id p' ;;;
      ret p'
  end.

(** [list]; a falsy [status] filters nothing *)
Definition list_prompts (status : option string) (limit : Z) : M state (list prompt) :=
  if limit <=? 0 then ret []
  else
    refresh_expired ;;;
    let* prompts := gets st_prompts in
    let rows := sort_by (fun a b => String.leb (p_created_at b) (p_created_at a)) (d_values prompts) in
    let wanted := match str_or_none (opt_str status) with
                  | Some st => List.filter (fun p => String.eqb (p_status p) st) rows
                  | None => rows
                  end in
    ret (take (Z.to_nat limit) wanted).

Definition consume_if_approved (prompt_id tool_name : string) (arguments : pydict)
    (request_id user_id session_id : option string) : M state bool :=
  refresh_expired ;;;
  let* found := find prompt_id in
  match found with
  | None => ret false
  | Some p =>
      if negb (String.eqb (p_status p) "approved") then ret false
      else if negb (String.eqb (p_tool_name p) tool_name) then ret false
      else if negb (String.eqb (p_arguments_hash p) (arguments_hash arguments)) then ret false
      else if negb (scope_matches p request_id user_id session_id) then ret false
      else
        let* updated := utc_now in
        set_prompt prompt_id (set_consumed_at updated (set_status "consumed" updated p)) ;;;
        ret true
  end.
End manager.

End PermissionManager.
