(* ===== verification/PermissionFacts.v ===== *)
(** Facts about permission prompts: a tool call is let through only by an
    approved, unexpired prompt for that very call, and never more often than
    the prompt was approved. *)

From stdpp Require Import prelude strings list.
From Stdlib Require Import Lia ZArith Ascii.
From S2P Require Import Prelude PyStr PyVal Effects PyTime PermissionManager.
Import PermissionManager.

Module PermissionFacts.

Definition PROMPT_STATUSES : list string := ["pending"; "approved"; "denied"; "expired"; "consumed"].

(** When the prompt expires. *)
Definition expiry (p : prompt) : option Z := parse_iso_datetime (p_expires_at p).

Record prompt_wf (k : string) (p : prompt) : Prop := {
  pw_id : k = p_id p;
  pw_status : p_status p ∈ PROMPT_STATUSES;
  pw_scope : p_scope p ∈ ["request"; "session"; "user"; "global"];
  pw_scope_value : p_scope_value p
                   = resolve_scope_value (p_scope p) (p_request_id p) (p_user_id p) (p_session_id p);
  pw_ttl : 1 <= p_ttl_sec p;
  pw_expires : exists c, parse_iso_datetime (p_created_at p) = Some c
                         /\ p_expires_at p = isoformat (c + p_ttl_sec p * us_per_sec)
                         /\ dt_in_range (c + p_ttl_sec p * us_per_sec) }.

Record prompts_wf (s : state) : Prop := {
  ps_keys : NoDup (d_keys (st_prompts s));
  ps_prompts : Forall (fun kp => prompt_wf (fst kp) (snd kp)) (st_prompts s) }.

Lemma prompt_get s k p : prompts_wf s -> d_get k (st_prompts s) = Some p -> prompt_wf k p.
Proof. intros H Hk. apply d_get_elem in Hk. apply (proj1 (Forall_forall _ _) (ps_prompts _ H) _ Hk). Qed.

Lemma expiry_iso t : dt_in_range t -> parse_iso_datetime (isoformat t) = Some t.
Proof. intros H. unfold parse_iso_datetime. rewrite isoformat_no_Z. by apply isoformat_roundtrip. Qed.

Lemma expiry_wf k p :
  prompt_wf k p -> exists c, parse_iso_datetime (p_created_at p) = Some c /\ expiry p = Some (c + p_ttl_sec p * us_per_sec).
Proof.
  intros []. destruct pw_expires0 as (c & H1 & H2 & H3). exists c. split; [done|]. unfold expiry. rewrite H2.
  by apply expiry_iso.
Qed.

Definition live (p : prompt) : bool := str_in (p_status p) ["pending"; "approved"].

(** What a refresh at time [t] makes of a prompt. *)
Definition refreshed (t : Z) (p p' : prompt) : Prop :=
  if live p && (match expiry p with Some x => x <=? t | None => false end)
  then exists u, p' = set_status "expired" u p
  else p' = p.

Lemma status_normal_word s : s ∈ PROMPT_STATUSES -> lower (strip s) = s.
Proof.
  unfold PROMPT_STATUSES. intros H. repeat (apply elem_of_cons in H as [->|H]; [done|]). by apply elem_of_nil in H.
Qed.

Lemma set_status_wf k p st u : prompt_wf k p -> st ∈ PROMPT_STATUSES -> prompt_wf k (set_status st u p).
Proof. by intros [] Hs; constructor. Qed.

Section facts.
Context (clock : nat -> Z).

(** One turn of the refresh. *)
Lemma refresh_prompt_run t k s p :
  prompts_wf s -> d_get k (st_prompts s) = Some p ->
  exists s' p', refresh_prompt clock t k s = (Ok tt, s') /\ refreshed t p p' /\ prompt_wf k p'
    /\ st_prompts s' = d_set k p' (st_prompts s) /\ (st_clock s <= st_clock s')%nat /\ st_uuid s' = st_uuid s.
Proof.
  intros Hs Hk. pose proof (prompt_get _ _ _ Hs Hk) as Hw. destruct (expiry_wf _ _ Hw) as (c & _ & Hex).
  unfold refresh_prompt, find, gets, bind. cbn beta iota. rewrite Hk. unfold refreshed.
  rewrite status_normal_word by apply Hw. fold (live p). destruct (live p); cbn [negb andb].
  2: { exists s, p. rewrite d_set_same by done. done. }
  assert (strip (p_expires_at p) = p_expires_at p /\ is_empty (p_expires_at p) = false) as [Es En].
  { destruct (pw_expires _ _ Hw) as (c' & _ & -> & _). split; [apply isoformat_stripped|].
    apply is_empty_false, isoformat_ne. }
  rewrite Es, En. fold (expiry p). rewrite Hex. destruct (_ <=? t); cbn [when].
  - eexists _, _. split; [reflexivity|]. split; [by eexists|].
    split; [by apply set_status_wf; [|apply str_in_spec]|].
    simpl. repeat split; lia.
  - exists s, p. rewrite d_set_same by done. done.
Qed.

Lemma set_prompt_wf s k p p' c u :
  prompts_wf s -> d_get k (st_prompts s) = Some p -> prompt_wf k p' ->
  prompts_wf (State (d_set k p' (st_prompts s)) c u).
Proof. intros [] Hk Hp. constructor; simpl; auto with py. Qed.

Lemma refresh_loop t l s :
  prompts_wf s -> NoDup l -> l ⊆ d_keys (st_prompts s) ->
  exists s', for_each l (refresh_prompt clock t) s = (Ok tt, s') /\ prompts_wf s'
    /\ d_keys (st_prompts s') = d_keys (st_prompts s) /\ st_uuid s' = st_uuid s
    /\ (st_clock s <= st_clock s')%nat
    /\ forall k p, d_get k (st_prompts s) = Some p ->
         exists p', d_get k (st_prompts s') = Some p' /\ (if decide (k ∈ l) then refreshed t p p' else p' = p).
Proof.
  revert s. induction l as [|k l IH]; intros s Hs Hn Hl.
  - exists s. split; [done|]. split; [done|]. split; [done|]. split; [done|]. split; [lia|].
    intros k p Hk. exists p. split; [done|]. rewrite decide_False by (by intros ?%elem_of_nil). done.
  - apply NoDup_cons in Hn as [Hk Hn].
    assert (k ∈ d_keys (st_prompts s)) as Hin by (apply Hl; left).
    apply d_mem_keys in Hin as Hm. unfold d_mem in Hm.
    destruct (d_get k (st_prompts s)) as [p|] eqn:Ep; [|done]. clear Hm.
    destruct (refresh_prompt_run t k s p Hs Ep) as (s1 & p1 & Hr & Href & Hw & Hp & Hc & Hu).
    destruct s1 as [ps1 c1 u1]. simpl in *. subst ps1 u1.
    assert (d_keys (d_set k p1 (st_prompts s)) = d_keys (st_prompts s)) as Hkeys.
    { apply d_keys_set_in. by eapply d_get_Some_mem. }
    destruct (IH (State (d_set k p1 (st_prompts s)) c1 (st_uuid s))) as (s2 & H2 & Hw2 & Hk2 & Hu2 & Hc2 & Hg2).
    { by eapply set_prompt_wf. } { done. } { simpl. rewrite Hkeys. set_solver. }
    exists s2. simpl in *. unfold bind. rewrite Hr. split; [done|]. split; [done|]. split; [congruence|].
    split; [done|]. split; [lia|]. intros k' q Hq. destruct (decide (k' = k)) as [->|Hne].
    + destruct (Hg2 k p1) as (p' & Hp' & Hif); [apply d_get_set_eq|]. exists p'. split; [done|].
      rewrite decide_False in Hif by done. subst p'. rewrite decide_True by left. by simplify_eq.
    + destruct (Hg2 k' q) as (p' & Hp' & Hif); [by rewrite d_get_set_ne by congruence|]. exists p'. split; [done|].
      destruct (decide (k' ∈ l)); [rewrite decide_True by (by right) | rewrite decide_False by set_solver]; done.
Qed.

(** [_refresh_expired_locked] expires exactly the live prompts whose time
    has come. *)
Lemma refresh_run s :
  prompts_wf s ->
  exists s', refresh_expired clock s = (Ok tt, s') /\ prompts_wf s'
    /\ d_keys (st_prompts s') = d_keys (st_prompts s) /\ st_uuid s' = st_uuid s
    /\ (st_clock s < st_clock s')%nat
    /\ forall k p, d_get k (st_prompts s) = Some p ->
         exists p', d_get k (st_prompts s') = Some p' /\ refreshed (clock (st_clock s)) p p'.
Proof.
  intros Hs. unfold refresh_expired, now, gets, bind. cbn [st_prompts].
  set (s1 := State _ _ _). assert (prompts_wf s1) as Hs1 by (by destruct Hs; constructor).
  destruct (refresh_loop (clock (st_clock s)) (d_keys (st_prompts s)) s1 Hs1 (ps_keys _ Hs) ltac:(done))
    as (s' & Hr & Hw & Hk & Hu & Hc & Hg).
  exists s'. split; [exact Hr|]. split; [done|]. split; [done|]. split; [done|]. split; [simpl in Hc; lia|].
  intros k p Hp. destruct (Hg k p Hp) as (p' & H1 & H2). exists p'. split; [done|].
  rewrite decide_True in H2; [done|]. apply d_mem_keys. by eapply d_get_Some_mem.
Qed.

Lemma refreshed_none s s' k :
  d_keys (st_prompts s') = d_keys (st_prompts s) -> d_get k (st_prompts s) = None -> d_get k (st_prompts s') = None.
Proof. intros E. rewrite !d_get_None_keys. by rewrite E. Qed.
End facts.

(** ** Histories *)

Inductive op : Type :=
  | Request (tool_name : string) (arguments : pydict) (reason scope : string) (ttl_sec : option Z)
      (request_id user_id session_id : option string)
  | Approve (prompt_id : string)
  | Deny (prompt_id : string)
  | ListPrompts (status : option string) (limit : Z)
  | Consume (prompt_id tool_name : string) (arguments : pydict) (request_id user_id session_id : option string).

(** What a caller saw. *)
Inductive event : Type := Approved (prompt_id : string) | Consumed (prompt_id : string) | Other.

Definition approved (s : state) (k : string) : Prop :=
  exists p, d_get k (st_prompts s) = Some p /\ p_status p = "approved".

Section histories.
Context (clock : nat -> Z) (uuid : nat -> string) (sha256_hexdigest : string -> string) (default_ttl_sec : Z).

Definition run_op (o : op) (s : state) : event * state :=
  match o with
  | Request tn args rs sc ttl rq u se =>
      (Other, snd (request clock uuid sha256_hexdigest default_ttl_sec tn args rs sc ttl rq u se s))
  | Approve k => let '(r, s') := approve clock k s in (if is_ok r then Approved k else Other, s')
  | Deny k => (Other, snd (deny clock k s))
  | ListPrompts st l => (Other, snd (list_prompts clock st l s))
  | Consume k tn args rq u se =>
      let '(r, s') := consume_if_approved clock sha256_hexdigest k tn args rq u se s in
      (match r with Ok true => Consumed k | _ => Other end, s')
  end.

Fixpoint run_ops (ops : list op) (s : state) : list event * state :=
  match ops with
  | [] => ([], s)
  | o :: ops' => let '(e, s1) := run_op o s in let '(es, s2) := run_ops ops' s1 in (e :: es, s2)
  end.

(** *** Each operation, on a well-formed state *)

Lemma refresh_approved s s' k :
  (forall k p, d_get k (st_prompts s) = Some p ->
     exists p', d_get k (st_prompts s') = Some p' /\ refreshed (clock (st_clock s)) p p') ->
  d_keys (st_prompts s') = d_keys (st_prompts s) -> approved s' k -> approved s k.
Proof.
  intros Hg Hk (p' & Hp' & Ha). destruct (d_get k (st_prompts s)) as [p|] eqn:Ep.
  - destruct (Hg k p Ep) as (q & Hq & Hr). simplify_eq. exists p. split; [done|].
    unfold refreshed in Hr. destruct (_ && _); [|congruence]. destruct Hr as [u ->]. done.
  - rewrite (refreshed_none s s' k Hk Ep) in Hp'. done.
Qed.

(** An operation that found no prompt, or touched one, after the refresh. *)
Definition keeps_approved (s s' : state) : Prop := prompts_wf s' /\ forall k, approved s' k -> approved s k.

Lemma approved_set s k p c u k' :
  approved (State (d_set k p (st_prompts s)) c u) k' ->
  (k' = k /\ p_status p = "approved") \/ (k' <> k /\ approved s k').
Proof.
  intros (q & Hq & Ha). simpl in Hq. rewrite d_get_set in Hq. destruct (String.eqb_spec k k') as [->|Hne].
  - simplify_eq. by left.
  - right. split; [done|]. by exists q.
Qed.

Lemma approve_cases k s :
  prompts_wf s ->
  let '(r, s') := approve clock k s in
  prompts_wf s' /\ forall k', approved s' k' -> approved s k' \/ (is_ok r = true /\ k' = k).
Proof.
  intros Hs. unfold approve, bind at 1.
  destruct (refresh_run clock s Hs) as (s1 & -> & Hw & Hk & _ & _ & Hg).
  assert (forall k', approved s1 k' -> approved s k') as Hsub by (intros k'; by apply refresh_approved).
  unfold bind, find, gets. destruct (d_get k (st_prompts s1)) as [p|] eqn:Ep; [|split; [done | auto]].
  unfold raise_if, raise, ret. destruct (String.eqb _ _); [split; [done | auto]|].
  unfold utc_now, now, bind, ret, set_prompt, modify. cbn beta iota. cbn [st_prompts st_clock st_uuid].
  pose proof (prompt_get _ _ _ Hw Ep) as [].
  split.
  - eapply set_prompt_wf; [done | exact Ep|]. by constructor; simpl; try done; apply str_in_spec.
  - intros k' [[-> _]|[_ Ha]]%approved_set; [by right | left; auto].
Qed.

Lemma deny_cases k s : prompts_wf s -> keeps_approved s (snd (deny clock k s)).
Proof.
  intros Hs. unfold deny, bind at 1.
  destruct (refresh_run clock s Hs) as (s1 & -> & Hw & Hk & _ & _ & Hg).
  assert (forall k', approved s1 k' -> approved s k') as Hsub by (intros k'; by apply refresh_approved).
  unfold bind, find, gets. destruct (d_get k (st_prompts s1)) as [p|] eqn:Ep; [|split; [done | auto]].
  unfold utc_now, now, bind, ret, set_prompt, modify. simpl.
  split.
  - eapply set_prompt_wf; [done | exact Ep|]. apply set_status_wf; [by eapply prompt_get|].
    by apply str_in_spec.
  - intros k' [[-> E]|[_ Ha]]%approved_set; [done | auto].
Qed.

Lemma list_cases st l s : prompts_wf s -> keeps_approved s (snd (list_prompts clock st l s)).
Proof.
  intros Hs. unfold list_prompts. destruct (l <=? 0); [by split|]. unfold bind at 1.
  destruct (refresh_run clock s Hs) as (s1 & -> & Hw & Hk & _ & _ & Hg). simpl.
  split; [done|]. intros k. by apply refresh_approved.
Qed.

Lemma request_cases tn args rs sc ttl rq u se s :
  prompts_wf s ->
  keeps_approved s (snd (request clock uuid sha256_hexdigest default_ttl_sec tn args rs sc ttl rq u se s)).
Proof.
  intros Hs. unfold request, new_uuid, utc_now, now, bind, lift, ret. cbn beta iota.
  cbn [st_prompts st_clock st_uuid]. unfold parse_iso_datetime. rewrite isoformat_no_Z.
  destruct (fromisoformat _) as [c|] eqn:Ec; [|destruct Hs; by split].
  destruct (add_seconds c _) as [x|] eqn:Ex; [|destruct Hs; by split].
  unfold store, modify. cbn [snd st_prompts st_clock st_uuid p_id].
  unfold add_seconds in Ex. destruct (civil_from_days _) as [[y m] d] eqn:Ey.
  destruct (_ && _) eqn:Eb; [|done]. injection Ex as <-. bool_prop.
  split.
  - destruct Hs as [Hk Hf]. constructor; simpl; [auto with py|]. apply d_set_Forall; [done|].
    constructor; simpl; try done.
    + by apply str_in_spec.
    + unfold normalize_scope. destruct (str_in _ _) eqn:E; [by apply str_in_spec | left].
    + lia.
    + exists c. unfold parse_iso_datetime. rewrite isoformat_no_Z. split; [done|]. split; [done|].
      unfold dt_in_range. by rewrite Ey.
  - intros k' [[-> E]|[_ Ha]]%approved_set; [done | done].
Qed.

(** The prompt that lets a call through. *)
Record allows (s : state) (p : prompt) (k tn : string) (args : pydict) (rq u se : option string) : Prop := {
  al_found : d_get k (st_prompts s) = Some p;
  al_approved : p_status p = "approved";
  al_tool : p_tool_name p = tn;
  al_arguments : p_arguments_hash p = arguments_hash sha256_hexdigest args;
  al_scope : p_scope p = "global"
             \/ resolve_scope_value (p_scope p) rq u se
                = resolve_scope_value (p_scope p) (p_request_id p) (p_user_id p) (p_session_id p);
  al_unexpired : exists t, expiry p = Some t /\ clock (st_clock s) < t }.

Lemma scope_word s : s ∈ ["request"; "session"; "user"; "global"] -> lower (strip (str_or s "request")) = s.
Proof. intros H. repeat (apply elem_of_cons in H as [->|H]; [done|]). by apply elem_of_nil in H. Qed.

Lemma scope_value_normal scope rq u se :
  strip (str_or (resolve_scope_value scope rq u se) "none") = resolve_scope_value scope rq u se.
Proof.
  unfold resolve_scope_value. repeat match goal with |- context [if ?b then _ else _] => destruct b end.
  all: unfold str_or; repeat match goal with |- context [is_empty ?s] => destruct (is_empty s) eqn:? end;
    try done; try apply strip_idemp; try (simpl; congruence).
  all: rewrite ?Heqb in *; try done; apply strip_idemp.
Qed.

Lemma scope_matches_spec k p rq u se :
  prompt_wf k p -> scope_matches p rq u se = true ->
  p_scope p = "global"
  \/ resolve_scope_value (p_scope p) rq u se
     = resolve_scope_value (p_scope p) (p_request_id p) (p_user_id p) (p_session_id p).
Proof.
  intros [] . unfold scope_matches. rewrite (scope_word _ pw_scope0), pw_scope_value0, scope_value_normal.
  destruct (String.eqb_spec (p_scope p) "global"); [by left|]. intros H%String.eqb_eq. by right.
Qed.

Lemma consume_cases k tn args rq u se s :
  prompts_wf s ->
  let '(r, s') := consume_if_approved clock sha256_hexdigest k tn args rq u se s in
  keeps_approved s s'
  /\ exists b, r = Ok b /\ (b = true ->
       (exists p, allows s p k tn args rq u se) /\ ~ approved s' k).
Proof.
  intros Hs. unfold consume_if_approved, bind at 1.
  destruct (refresh_run clock s Hs) as (s1 & -> & Hw & Hk & _ & _ & Hg).
  assert (keeps_approved s s1) as Hkeep by (split; [done|]; intros k'; by apply refresh_approved).
  assert (keeps_approved s s1 /\ exists b, Ok false = Ok b
            /\ (b = true -> (exists p, allows s p k tn args rq u se) /\ ~ approved s1 k)) as Hno.
  { split; [done|]. by exists false. }
  unfold bind, find, gets, ret. cbn beta iota. destruct (d_get k (st_prompts s1)) as [p1|] eqn:Ep; [|exact Hno].
  destruct (String.eqb_spec (p_status p1) "approved") as [Ha|]; cbn [negb]; [|exact Hno].
  destruct (String.eqb_spec (p_tool_name p1) tn) as [Ht|]; cbn [negb]; [|exact Hno].
  destruct (String.eqb_spec (p_arguments_hash p1) (arguments_hash sha256_hexdigest args)) as [Hh|]; cbn [negb]; [|exact Hno].
  destruct (scope_matches p1 rq u se) eqn:Hm; cbn [negb]; [|exact Hno].
  assert (d_get k (st_prompts s) = Some p1 /\ exists t, expiry p1 = Some t /\ clock (st_clock s) < t) as [Hp Ht'].
  { destruct (d_get k (st_prompts s)) as [p|] eqn:Eq; [|by rewrite (refreshed_none s s1 k Hk Eq) in Ep].
    destruct (Hg k p Eq) as (p' & Hp' & Hr). assert (p' = p1) as -> by congruence. unfold refreshed in Hr.
    destruct (live p && _) eqn:El; [by destruct Hr as [v ->]|]. subst p1. split; [done|].
    destruct (expiry_wf _ _ (prompt_get _ _ _ Hw Ep)) as (c & _ & Hx). rewrite Hx in El |- *.
    eexists. split; [done|]. unfold live in El. rewrite Ha in El. simpl in El. by apply Z.leb_gt in El. }
  pose proof (prompt_get _ _ _ Hw Ep) as Hpw. pose proof (scope_matches_spec k p1 rq u se Hpw Hm) as Hscope.
  unfold utc_now, now, bind, ret, set_prompt, modify. cbn beta iota. cbn [st_prompts st_clock st_uuid]. split.
  - split.
    + eapply set_prompt_wf; [done | exact Ep|]. destruct Hpw. by constructor; simpl; try done; apply str_in_spec.
    + intros k' [[-> E]|[_ Hx]]%approved_set; [done | by apply Hkeep].
  - exists true. split; [done|]. intros _. split; [by exists p1|].
    intros [[_ E]|[E _]]%approved_set; done.
Qed.

(** Consuming leaves no approved prompt that was not there before. *)
Lemma consume_keeps_prompts k tn args rq u se s :
  prompts_wf s ->
  forall k' p, d_get k' (st_prompts (snd (consume_if_approved clock sha256_hexdigest k tn args rq u se s))) = Some p ->
    p_status p = "approved" -> d_get k' (st_prompts s) = Some p.
Proof.
  intros Hs. unfold consume_if_approved, bind at 1.
  destruct (refresh_run clock s Hs) as (s1 & -> & Hw & Hk & _ & _ & Hg).
  assert (forall k' p, d_get k' (st_prompts s1) = Some p -> p_status p = "approved" -> d_get k' (st_prompts s) = Some p)
    as Hkeep.
  { intros k' p Hp Ha. destruct (d_get k' (st_prompts s)) as [q|] eqn:Eq.
    - destruct (Hg k' q Eq) as (q' & Hq' & Hr). simplify_eq. unfold refreshed in Hr.
      destruct (_ && _); [|congruence]. by destruct Hr as [v ->].
    - by rewrite (refreshed_none s s1 k' Hk Eq) in Hp. }
  unfold bind, find, gets, ret. cbn beta iota. destruct (d_get k (st_prompts s1)) as [p1|] eqn:Ep; [|exact Hkeep].
  destruct (negb (String.eqb (p_status p1) _)); [exact Hkeep|].
  destruct (negb (String.eqb (p_tool_name p1) _)); [exact Hkeep|].
  destruct (negb (String.eqb (p_arguments_hash p1) _)); [exact Hkeep|].
  destruct (negb (scope_matches p1 rq u se)); [exact Hkeep|].
  unfold utc_now, now, bind, ret, set_prompt, modify. cbn beta iota. cbn [snd st_prompts st_clock st_uuid].
  intros k' p. rewrite d_get_set. destruct (String.eqb k k'); [by intros [= <-] | apply Hkeep].
Qed.

(** A prompt that let a call through is marked as consumed. *)
Definition spent (s : state) (k : string) : Prop :=
  exists p, d_get k (st_prompts s) = Some p /\ p_status p = "consumed".

Lemma consume_spends k tn args rq u se s s' :
  prompts_wf s -> consume_if_approved clock sha256_hexdigest k tn args rq u se s = (Ok true, s') -> spent s' k.
Proof.
  intros Hs. unfold consume_if_approved, bind at 1.
  destruct (refresh_run clock s Hs) as (s1 & -> & _).
  unfold bind, find, gets, ret. cbn beta iota. destruct (d_get k (st_prompts s1)) as [p1|]; [|done].
  repeat match goal with |- context [negb ?b] => destruct b; cbn [negb]; [|done] end.
  unfold utc_now, now, bind, ret, set_prompt, modify. cbn beta iota. intros [= <-].
  eexists. split; [apply d_get_set_eq|done].
Qed.

Lemma consume_clock k tn args rq u se s :
  prompts_wf s ->
  (st_clock s <= st_clock (snd (consume_if_approved clock sha256_hexdigest k tn args rq u se s)))%nat.
Proof.
  intros Hs. unfold consume_if_approved, bind at 1.
  destruct (refresh_run clock s Hs) as (s1 & -> & _ & _ & _ & Hc & _).
  unfold bind, find, gets, ret. cbn beta iota. destruct (d_get k (st_prompts s1)) as [p1|]; [|simpl; lia].
  repeat match goal with |- context [if ?b then _ else _] => destruct b; [simpl; lia|] end.
  unfold utc_now, now, bind, ret, set_prompt, modify. simpl. lia.
Qed.

Lemma run_op_wf o s : prompts_wf s -> prompts_wf (snd (run_op o s)).
Proof.
  intros Hs. destruct o; simpl.
  - by apply request_cases.
  - pose proof (approve_cases prompt_id s Hs) as H. destruct (approve clock prompt_id s). apply H.
  - by apply deny_cases.
  - by apply list_cases.
  - pose proof (consume_cases prompt_id tool_name arguments request_id user_id session_id s Hs) as H.
    destruct (consume_if_approved _ _ _ _ _ _ _ _ s). apply H.
Qed.

Lemma run_ops_wf ops s : prompts_wf s -> prompts_wf (snd (run_ops ops s)).
Proof.
  revert s. induction ops as [|o ops IH]; intros s Hs; simpl; [done|].
  pose proof (run_op_wf o s Hs) as H1. destruct (run_op o s) as [e s1]. simpl in H1.
  specialize (IH s1 H1). by destruct (run_ops ops s1).
Qed.

Lemma run_ops_app ops ops' s :
  run_ops (ops ++ ops') s
  = (fst (run_ops ops s) ++ fst (run_ops ops' (snd (run_ops ops s))), snd (run_ops ops' (snd (run_ops ops s)))).
Proof.
  revert s. induction ops as [|o ops IH]; intros s; simpl; [by destruct (run_ops ops' s)|].
  destruct (run_op o s) as [e s1]. rewrite IH. by destruct (run_ops ops s1).
Qed.

(** How often the caller saw an event about a prompt. *)
Definition approvals (k : string) (es : list event) : nat :=
  length (List.filter (fun e => match e with Approved k' => String.eqb k' k | _ => false end) es).
Definition consumptions (k : string) (es : list event) : nat :=
  length (List.filter (fun e => match e with Consumed k' => String.eqb k' k | _ => false end) es).

Definition one_approval (e : event) (k : string) : nat :=
  match e with Approved k' => if String.eqb k' k then 1 else 0 | _ => 0 end.
Definition one_consumption (e : event) (k : string) : nat :=
  match e with Consumed k' => if String.eqb k' k then 1 else 0 | _ => 0 end.

#[local] Instance approved_dec s k : Decision (approved s k).
Proof.
  unfold approved. destruct (d_get k (st_prompts s)) as [p|].
  - destruct (decide (p_status p = "approved")); [left; by exists p | right; intros (q & ? & ?); by simplify_eq].
  - right. by intros (q & ? & ?).
Defined.

Definition credit (s : state) (k : string) : nat := if decide (approved s k) then 1 else 0.

Lemma credit_le s s' k : (approved s' k -> approved s k) -> (credit s' k <= credit s k)%nat.
Proof. intros H. unfold credit. destruct (decide (approved s' k)) as [Ha|]; [|lia]. rewrite decide_True by auto. lia. Qed.

Lemma credit_one s k : (credit s k <= 1)%nat.
Proof. unfold credit. destruct (decide _); lia. Qed.

(** An operation spends the credit of a prompt when it consumes it, and only
    an approval renews it. *)
Lemma run_op_credit o s k :
  prompts_wf s ->
  (one_consumption (fst (run_op o s)) k + credit (snd (run_op o s)) k
   <= credit s k + one_approval (fst (run_op o s)) k)%nat.
Proof.
  intros Hs. destruct o; simpl.
  - assert (H := proj2 (request_cases tool_name arguments reason scope ttl_sec request_id user_id session_id s Hs) k).
    apply credit_le in H. lia.
  - pose proof (approve_cases prompt_id s Hs) as H. destruct (approve clock prompt_id s) as [r s']. destruct H as [_ H].
    simpl. destruct (is_ok r) eqn:Er; simpl.
    + destruct (String.eqb_spec prompt_id k) as [->|Hne]; [pose proof (credit_one s' k); lia|].
      assert (credit s' k <= credit s k)%nat; [|lia]. apply credit_le. intros Ha.
      destruct (H k Ha) as [?|[_ ?]]; [done | congruence].
    + assert (credit s' k <= credit s k)%nat; [|lia]. apply credit_le. intros Ha. destruct (H k Ha) as [?|[? _]]; done.
  - assert (H := proj2 (deny_cases prompt_id s Hs) k). apply credit_le in H. lia.
  - assert (H := proj2 (list_cases status limit s Hs) k). apply credit_le in H. lia.
  - pose proof (consume_cases prompt_id tool_name arguments request_id user_id session_id s Hs) as H.
    destruct (consume_if_approved _ _ _ _ _ _ _ _ s) as [r s']. destruct H as [[_ Hk] (b & -> & Hb)]. simpl.
    pose proof (credit_le s s' k (Hk k)) as Hle. destruct b; simpl; [|lia].
    destruct (String.eqb_spec prompt_id k) as [->|Hne]; [|lia].
    destruct (Hb eq_refl) as [(p & Hp) Hno]. unfold credit. rewrite (decide_False (P := approved s' k)) by done.
    rewrite decide_True; [lia|]. exists p. split; apply Hp.
Qed.

Definition empty_state (c u : nat) : state := State [] c u.

Lemma empty_wf c u : prompts_wf (empty_state c u).
Proof. constructor; simpl; [apply NoDup_nil_2 | constructor]. Qed.

(** Consumptions draw on the approvals and on the credit at the start. *)
Lemma consumptions_credit k ops s :
  prompts_wf s ->
  (consumptions k (fst (run_ops ops s)) <= credit s k + approvals k (fst (run_ops ops s)))%nat.
Proof.
  revert s. induction ops as [|o ops IH]; intros s Hs; simpl; [unfold consumptions; simpl; lia|].
  pose proof (run_op_credit o s k Hs) as Hc. pose proof (run_op_wf o s Hs) as Hw.
  destruct (run_op o s) as [e s1]. simpl in *. specialize (IH s1 Hw).
  destruct (run_ops ops s1) as [es s2]. simpl in *.
  revert Hc. unfold consumptions, approvals in *. unfold one_consumption, one_approval.
  destruct e as [k'|k'|]; cbn [List.filter] in *; try (destruct (String.eqb k' k); cbn [length] in *); lia.
Qed.

Lemma consumptions_approvals ops c u k :
  let es := fst (run_ops ops (empty_state c u)) in (consumptions k es <= approvals k es)%nat.
Proof.
  pose proof (consumptions_credit k ops (empty_state c u) (empty_wf c u)) as H. unfold credit in H.
  rewrite decide_False in H; [exact H|]. by intros (p & ? & _).
Qed.

(** C8. Each successful consumption spends an approval of its own: over any
    history of requests, approvals, denials, listings and consumptions, a
    prompt was consumed at most as many times as it was approved. *)
Theorem consumptions_within_approvals ops c u k :
  let es := fst (run_ops ops (empty_state c u)) in (consumptions k es <= approvals k es)%nat.
Proof. apply consumptions_approvals. Qed.

(** A tool call is let through only by a prompt that was approved and has
    not expired, for the same tool, the same argument hash, and the same
    request, session or user as the prompt's scope demands; in every state
    the manager can reach. *)
Theorem consume_sound ops c u k tn args rq us se :
  let s := snd (run_ops ops (empty_state c u)) in
  fst (consume_if_approved clock sha256_hexdigest k tn args rq us se s) = Ok true ->
  exists p, allows s p k tn args rq us se.
Proof.
  intros s Hr. pose proof (run_ops_wf ops (empty_state c u) (empty_wf c u)) as Hw. fold s in Hw.
  pose proof (consume_cases k tn args rq us se s Hw) as H.
  destruct (consume_if_approved _ _ _ _ _ _ _ _ s) as [r s']. destruct H as [_ (b & -> & Hb)].
  simpl in Hr. injection Hr as ->. by apply Hb.
Qed.
End histories.

(** ** Witness and examples *)

Definition demo_clock (n : nat) : Z := (1704067200 + Z.of_nat n) * us_per_sec.
Definition demo_uuid (n : nat) : string := "p" +:+ str_of_Z (Z.of_nat n).
Definition demo_args : pydict := [("path", PStr "/tmp/a"); ("force", PBool true)].

Definition demo_history : list op :=
  [Request "shell" demo_args "cleanup" "session" (Some 60) None None (Some "s1"); Approve "p0"].

Lemma consume_sound_witness :
  exists p, allows demo_clock (fun text => text)
              (snd (run_ops demo_clock demo_uuid (fun text => text) 600 demo_history (empty_state 0 0)))
              p "p0" "shell" demo_args None None (Some "s1").
Proof.
  apply (consume_sound demo_clock demo_uuid (fun text => text) 600 demo_history 0 0 "p0" "shell" demo_args
           None None (Some "s1")).
  vm_compute. reflexivity.
Defined.

(** The other scope, other arguments and a late call are refused. *)
Example other_session_refused :
  fst (consume_if_approved demo_clock (fun text => text) "p0" "shell" demo_args None None (Some "s2")
         (snd (run_ops demo_clock demo_uuid (fun text => text) 600 demo_history (empty_state 0 0)))) = Ok false.
Proof. vm_compute. reflexivity. Qed.

(** [approve] does not look at the status of a prompt other than ["expired"]:
    a consumed prompt is approved again and lets a second call through, and a
    denied prompt becomes approved. *)
Theorem consumed_prompt_approved_again :
  let s := snd (run_ops demo_clock demo_uuid (fun text => text) 600
                  (demo_history ++ [Consume "p0" "shell" demo_args None None (Some "s1")]) (empty_state 0 0)) in
  (exists p, d_get "p0" (st_prompts s) = Some p /\ p_status p = "consumed")
  /\ fst (run_ops demo_clock demo_uuid (fun text => text) 600
            [Approve "p0"; Consume "p0" "shell" demo_args None None (Some "s1");
             Deny "p0"; Approve "p0"] s)
     = [Approved "p0"; Consumed "p0"; Other; Approved "p0"].
Proof. split; [vm_compute; eexists; split; reflexivity | vm_compute; reflexivity]. Qed.

End PermissionFacts.
