(* ===== verification/ToolBudget.v ===== *)
(** The tool call budget (tools/tool_budget.py, [ToolBudgetGuard]): a sliding
    window of recorded calls per scope, with limits on all calls, on calls of
    one tool and on high-risk calls.

    [time.monotonic()] and [window_sec] are modelled as exact numbers of
    nanoseconds.  A call reads the clock and updates the windows in one action;
    the source reads the clock just before it takes the lock, so that two
    threads may update in the other order than they read. *)

From stdpp Require Import prelude strings list.
From Stdlib Require Import Lia ZArith Ascii.
From S2P Require Import Prelude PyStr PyVal Effects.

Module ToolBudget.

Definition ns_per_sec : Z := 1000000000.

Record ToolBudgetLimits : Type := Limits {
  window_sec : Z;
  max_calls_per_tool : Z;
  max_total_calls : Z;
  max_high_risk_calls : Z }.

(** The constructor of the guard. *)
Definition make_limits (window per_tool total high_risk : Z) : ToolBudgetLimits :=
  Limits (Z.max ns_per_sec window) (Z.max 1 per_tool) (Z.max 1 total) (Z.max 1 high_risk).

Record ToolCallRecord : Type := CallRecord {
  ts : Z;
  r_tool_name : string;
  r_risk_level : string }.

Record ToolBudgetStatus : Type := BudgetStatus {
  s_scope : string;
  s_window_sec : Z;
  s_total_calls : Z;
  s_high_risk_calls : Z;
  s_per_tool_calls : Z;
  s_max_total_calls : Z;
  s_max_high_risk_calls : Z;
  s_max_calls_per_tool : Z }.

Record ScopeSnapshot : Type := Snapshot {
  sn_scope : string;
  sn_total_calls : Z;
  sn_high_risk_calls : Z;
  sn_tools_count : Z;
  sn_top_tools : list (string * Z);
  sn_window_sec : Z;
  sn_max_calls_per_tool : Z;
  sn_max_total_calls : Z;
  sn_max_high_risk_calls : Z }.

Record DebugSnapshot : Type := Debug {
  dbg_limits : ToolBudgetLimits;
  dbg_selected_scope : ScopeSnapshot;
  dbg_active_scopes : list ScopeSnapshot;
  dbg_active_scope_count : Z }.

(** [_scope_key] *)
Definition scope_key (request_id user_id session_id : option string) : string :=
  if negb (is_empty (strip (opt_str session_id))) then "session:" +:+ strip (opt_str session_id)
  else if negb (is_empty (strip (opt_str user_id))) then "user:" +:+ strip (opt_str user_id)
  else if negb (is_empty (strip (opt_str request_id))) then "request:" +:+ strip (opt_str request_id)
  else "global".

(** [_prune]: drop from the left while the oldest record is before the cutoff *)
Fixpoint prune_from (cutoff : Z) (records : list ToolCallRecord) : list ToolCallRecord :=
  match records with
  | [] => []
  | r :: records' => if ts r <? cutoff then prune_from cutoff records' else records
  end.

Definition high_risk (risk_level : string) : bool := str_in risk_level ["high"; "critical"].

Definition count_by (f : ToolCallRecord -> bool) (records : list ToolCallRecord) : Z :=
  Z.of_nat (length (List.filter f records)).

Definition count_tool (tool : string) : list ToolCallRecord -> Z :=
  count_by (fun r => String.eqb (r_tool_name r) tool).
Definition count_high : list ToolCallRecord -> Z := count_by (fun r => high_risk (r_risk_level r)).

(** The format [.0f] of the window: seconds rounded half to even. *)
Definition seconds_text (ns : Z) : string :=
  let q := ns / ns_per_sec in
  let r := ns mod ns_per_sec in
  str_of_Z (if 2 * r <? ns_per_sec then q
            else if ns_per_sec <? 2 * r then q + 1
            else if Z.even q then q else q + 1).

Record state : Type := State {
  records_by_scope : dict (list ToolCallRecord);
  st_clock : nat }.

Section guard.
(** The [n]-th reading of the monotonic clock. *)
Context (clock : nat -> Z) (limits : ToolBudgetLimits).

Definition monotonic : M state Z := fun s => (Ok (clock (st_clock s)), State (records_by_scope s) (S (st_clock s))).

Definition exceeded (msg : string) : exn := OtherError "ToolBudgetExceededError" msg.

Definition in_window : string := " in " +:+ seconds_text (window_sec limits) +:+ "s window.".

Definition prune (now : Z) : list ToolCallRecord -> list ToolCallRecord :=
  prune_from (now - window_sec limits).

Definition set_records (scope : string) (records : list ToolCallRecord) : M state unit :=
  modify (fun s => State (d_set scope records (records_by_scope s)) (st_clock s)).

(** [self._records_by_scope.setdefault(scope, deque())] *)
Definition records_of (scope : string) (s : state) : list ToolCallRecord :=
  match d_get scope (records_by_scope s) with Some l => l | None => [] end.

Definition check_and_record (tool_name : string) (risk_level : string)
    (request_id user_id session_id : option string) : M state ToolBudgetStatus :=
  let* now := monotonic in
  let scope := scope_key request_id user_id session_id in
  let normalized_tool := strip tool_name in
  let normalized_risk := lower (strip (str_or risk_level "low")) in
  let is_high_risk := high_risk normalized_risk in
  let* stored := gets (records_of scope) in
  let records := prune now stored in
  set_records scope records ;;;
  let total_calls := Z.of_nat (length records) in
  let per_tool_calls := count_tool normalized_tool records in
  let high_risk_calls := count_high records in
  raise_if (max_total_calls limits <=? total_calls)
    (exceeded ("Tool budget limit reached for scope '" +:+ scope +:+ "': total_calls=" +:+ str_of_Z total_calls
               +:+ "/" +:+ str_of_Z (max_total_calls limits) +:+ in_window)) ;;;
  raise_if (max_calls_per_tool limits <=? per_tool_calls)
    (exceeded ("Tool budget limit reached for '" +:+ normalized_tool +:+ "' in scope '" +:+ scope
               +:+ "': per_tool_calls=" +:+ str_of_Z per_tool_calls
               +:+ "/" +:+ str_of_Z (max_calls_per_tool limits) +:+ in_window)) ;;;
  raise_if (is_high_risk && (max_high_risk_calls limits <=? high_risk_calls))
    (exceeded ("High-risk tool budget limit reached for scope '" +:+ scope +:+ "': high_risk_calls="
               +:+ str_of_Z high_risk_calls +:+ "/" +:+ str_of_Z (max_high_risk_calls limits) +:+ in_window)) ;;;
  set_records scope (records ++ [CallRecord now normalized_tool normalized_risk]) ;;;
  ret (BudgetStatus scope (window_sec limits) (total_calls + 1)
         (high_risk_calls + (if is_high_risk then 1 else 0)) (per_tool_calls + 1)
         (max_total_calls limits) (max_high_risk_calls limits) (max_calls_per_tool limits)).

(** [_scope_snapshot] *)
Definition add_call (per_tool : dict Z) (r : ToolCallRecord) : dict Z :=
  d_set (r_tool_name r) (match d_get (r_tool_name r) per_tool with Some c => c | None => 0 end + 1) per_tool.

(** Tuples compare lexicographically. *)
Definition tool_row_leb (a b : string * Z) : bool :=
  (snd a <? snd b) || ((snd a =? snd b) && String.leb (fst a) (fst b)).

Definition scope_snapshot (scope : string) (records : list ToolCallRecord) (top_tools_limit : Z) :
    ScopeSnapshot :=
  let per_tool := foldl add_call [] records in
  let top_tools := take (Z.to_nat (Z.max 1 top_tools_limit)) (sort_by (fun a b => tool_row_leb b a) per_tool) in
  Snapshot scope (Z.of_nat (length records)) (count_high records) (Z.of_nat (length per_tool)) top_tools
    (window_sec limits) (max_calls_per_tool limits) (max_total_calls limits) (max_high_risk_calls limits).

Definition scope_row_leb (a b : ScopeSnapshot) : bool :=
  (sn_total_calls a <? sn_total_calls b)
  || ((sn_total_calls a =? sn_total_calls b)
      && ((sn_high_risk_calls a <? sn_high_risk_calls b)
          || ((sn_high_risk_calls a =? sn_high_risk_calls b) && String.leb (sn_scope a) (sn_scope b)))).

Definition prune_all (now : Z) : M state unit :=
  modify (fun s => State (map (fun kr => (fst kr, prune now (snd kr))) (records_by_scope s)) (st_clock s)).

Definition debug_snapshot (request_id user_id session_id : option string) (scopes_limit top_tools_limit : Z) :
    M state DebugSnapshot :=
  let* now := monotonic in
  let selected_scope := scope_key request_id user_id session_id in
  let normalized_scopes_limit := Z.max 1 scopes_limit in
  let normalized_top_tools_limit := Z.max 1 top_tools_limit in
  prune_all now ;;;
  let* selected_records := gets (records_of selected_scope) in
  let selected := scope_snapshot selected_scope selected_records normalized_top_tools_limit in
  let* by_scope := gets records_by_scope in
  let rows := map (fun kr => scope_snapshot (fst kr) (snd kr) normalized_top_tools_limit)
                (List.filter (fun kr => match snd kr with [] => false | _ => true end) by_scope) in
  let sorted := sort_by (fun a b => scope_row_leb b a) rows in
  ret (Debug limits selected (take (Z.to_nat normalized_scopes_limit) sorted) (Z.of_nat (length sorted))).
End guard.

End ToolBudget.
