(* ===== verification/ToolBudgetFacts.v ===== *)
(** Facts about the tool call budget: over any history of calls, no window of
    the configured length ever holds more accepted calls than the limits
    allow, and a call is refused only when a limit is reached. *)

From stdpp Require Import prelude strings list.
From Stdlib Require Import Lia ZArith Ascii Sorted.
From S2P Require Import Prelude PyStr PyVal Effects ToolBudget.
Import ToolBudget.

Module ToolBudgetFacts.

(** ** Pruning *)

Lemma prune_split cutoff l :
  exists dropped, l = dropped ++ prune_from cutoff l /\ Forall (fun r => ts r < cutoff) dropped.
Proof.
  induction l as [|r l (d & Hd & Hf)]; simpl; [by exists []|].
  destruct (ts r <? cutoff) eqn:E; bool_prop; [|by exists []].
  exists (r :: d). split; [simpl; by f_equal | by constructor].
Qed.

Definition by_time (a b : ToolCallRecord) : Prop := ts a <= ts b.

(** On records in order of time, popping from the left is filtering. *)
Lemma prune_is_filter cutoff l :
  StronglySorted by_time l -> prune_from cutoff l = List.filter (fun r => cutoff <=? ts r) l.
Proof.
  induction 1 as [|r l Hs IH Hall]; simpl; [done|].
  destruct (ts r <? cutoff) eqn:E; bool_prop.
  - rewrite (proj2 (Z.leb_gt _ _)) by lia. done.
  - rewrite (proj2 (Z.leb_le _ _)) by lia. f_equal. symmetry. apply forallb_filter_id, forallb_forall.
    intros x Hx%list_elem_of_In. apply Z.leb_le. unfold by_time in Hall.
    pose proof (proj1 (Forall_forall _ _) Hall x Hx) as Hle. simpl in Hle. lia.
Qed.

(** ** Histories *)

Inductive op : Type :=
  | Call (tool_name risk_level : string) (request_id user_id session_id : option string)
  | DebugView (request_id user_id session_id : option string) (scopes_limit top_tools_limit : Z).

(** The accepted calls, with their scopes, oldest first. *)
Abbreviation log := (list (string * ToolCallRecord)).

Definition log_of (scope : string) (l : log) : list ToolCallRecord :=
  map snd (List.filter (fun e => String.eqb (fst e) scope) l).

(** The accepted calls of a kind within a closed interval of time. *)
Definition count_within (f : ToolCallRecord -> bool) (lo hi : Z) (l : list ToolCallRecord) : Z :=
  count_by (fun r => f r && (lo <=? ts r) && (ts r <=? hi)) l.

Lemma count_by_app f l k : count_by f (l ++ k) = count_by f l + count_by f k.
Proof. unfold count_by. rewrite List.filter_app, length_app. lia. Qed.

Lemma count_by_zero f l : Forall (fun r => f r = false) l -> count_by f l = 0.
Proof.
  unfold count_by. induction 1 as [|r l Hr _ IH]; simpl; [done|]. by rewrite Hr.
Qed.

Lemma count_by_le f h l : (forall r, f r = true -> h r = true) -> count_by f l <= count_by h l.
Proof.
  unfold count_by. intros H. induction l as [|r l IH]; simpl; [lia|].
  destruct (f r) eqn:E; [rewrite (H _ E); simpl; lia|]. destruct (h r); simpl; lia.
Qed.

Lemma count_by_one f r : count_by f [r] = if f r then 1 else 0.
Proof. unfold count_by. simpl. by destruct (f r). Qed.

Section guard.
Context (clock : nat -> Z) (limits : ToolBudgetLimits).

Definition run_op (o : op) (st : log * state) : log * state :=
  let '(l, s) := st in
  match o with
  | Call tool risk rq u se =>
      let '(r, s') := check_and_record clock limits tool risk rq u se s in
      (if is_ok r
       then l ++ [(scope_key rq u se,
                   CallRecord (clock (st_clock s)) (strip tool) (lower (strip (str_or risk "low"))))]
       else l, s')
  | DebugView rq u se sl tl => (l, snd (debug_snapshot clock limits rq u se sl tl s))
  end.

Definition run_ops (ops : list op) (st : log * state) : log * state := foldl (fun st o => run_op o st) st ops.

(** Since [T] the guard has dropped only calls older than a window before
    [T]; every call of the log is in order and not in the future. *)
Record guard_inv (T : Z) (l : log) (s : state) : Prop := {
  gi_now : T <= clock (st_clock s);
  gi_past : Forall (fun e => ts (snd e) <= clock (st_clock s)) l;
  gi_sorted : forall scope, StronglySorted by_time (log_of scope l);
  gi_records : forall scope, exists dropped,
    log_of scope l = dropped ++ records_of scope s
    /\ Forall (fun r => ts r < T - window_sec limits) dropped }.

Lemma records_of_set scope scope' records rs c :
  records_of scope' (State (d_set scope records rs) c)
  = if String.eqb scope scope' then records else records_of scope' (State rs c).
Proof. unfold records_of. simpl. rewrite d_get_set. by destruct (String.eqb scope scope'). Qed.

(** Pruning at a later time keeps the invariant. *)
Lemma prune_drops T now l scope s :
  guard_inv T l s -> T <= now ->
  exists dropped, log_of scope l = dropped ++ prune limits now (records_of scope s)
    /\ Forall (fun r => ts r < now - window_sec limits) dropped.
Proof.
  intros Hg Hle. destruct (gi_records _ _ _ Hg scope) as (d & Hd & Hf).
  destruct (prune_split (now - window_sec limits) (records_of scope s)) as (d' & Hd' & Hf').
  exists (d ++ d'). split; [rewrite <- app_assoc, Hd; f_equal; exact Hd'|].
  apply Forall_app_2; [|done]. eapply Forall_impl; [exact Hf|]. intros r Hr. simpl in *. lia.
Qed.

(** The records still in the guard are the accepted calls of the window. *)
Lemma pruned_count T now l scope s f :
  guard_inv T l s -> T <= now -> (forall e, e ∈ l -> ts (snd e) <= now) ->
  count_by f (prune limits now (records_of scope s)) = count_within f (now - window_sec limits) now (log_of scope l).
Proof.
  intros Hg Hle Hpast. destruct (prune_drops T now l scope s Hg Hle) as (d & Hd & Hf).
  unfold count_within. rewrite Hd, count_by_app, (count_by_zero _ d).
  2: { eapply Forall_impl; [exact Hf|]. intros r Hr. simpl in Hr.
       rewrite (proj2 (Z.leb_gt _ _)) by lia. by rewrite andb_false_r. }
  rewrite Z.add_0_l. unfold prune. rewrite prune_is_filter.
  2: { pose proof (gi_sorted _ _ _ Hg scope) as Hs. destruct (gi_records _ _ _ Hg scope) as (d' & Hd' & _).
       rewrite Hd' in Hs. clear - Hs. induction d' as [|x d' IH]; [done|]. inversion Hs; auto. }
  unfold count_by. f_equal.
  assert (forall r, r ∈ records_of scope s -> ts r <= now) as Hin.
  { intros r Hr. destruct (gi_records _ _ _ Hg scope) as (d' & Hd' & _).
    assert (r ∈ log_of scope l) as Hl by (rewrite Hd'; set_solver).
    unfold log_of in Hl. apply list_elem_of_In, in_map_iff in Hl as (e & <- & He).
    apply filter_In in He as [He _]. by apply Hpast, list_elem_of_In. }
  revert Hin. generalize (records_of scope s) as l0. induction l0 as [|r rs IH]; intros Hin; simpl; [done|].
  pose proof (Hin r ltac:(left)) as Hr. specialize (IH ltac:(intros x Hx; apply Hin; by right)).
  destruct (now - window_sec limits <=? ts r) eqn:E; simpl; rewrite ?E, ?andb_false_r, ?andb_true_r; simpl; [|done].
  rewrite (proj2 (Z.leb_le (ts r) now) Hr), !andb_true_r. destruct (f r); simpl; by rewrite IH.
Qed.

(** Python documents that [time.monotonic()] cannot go backwards. *)
Context (clock_mono : forall m n, (m <= n)%nat -> clock m <= clock n).

Lemma log_of_app scope l e :
  log_of scope (l ++ [e]) = log_of scope l ++ (if String.eqb (fst e) scope then [snd e] else []).
Proof. unfold log_of. rewrite List.filter_app, map_app. simpl. by destruct (String.eqb _ _). Qed.

Lemma sorted_snoc l r : StronglySorted by_time l -> Forall (fun x => ts x <= ts r) l -> StronglySorted by_time (l ++ [r]).
Proof.
  induction 1 as [|x l Hs IH Hx]; intros Hf; simpl; [by repeat constructor|].
  apply Forall_cons in Hf as [H1 H2]. constructor; [auto|]. apply Forall_app_2; [done|]. by constructor.
Qed.

Lemma log_of_past scope l now : (forall e, e ∈ l -> ts (snd e) <= now) -> Forall (fun r => ts r <= now) (log_of scope l).
Proof.
  intros H. apply Forall_forall. intros r Hr. unfold log_of in Hr.
  apply list_elem_of_In, in_map_iff in Hr as (e & <- & He). apply filter_In in He as [He _].
  by apply H, list_elem_of_In.
Qed.

(** The decision, in terms of the accepted calls of the last window. *)
Definition admitted (l : log) (now : Z) (scope tool risk : string) : bool :=
  let w f := count_within f (now - window_sec limits) now (log_of scope l) in
  (w (fun _ => true) <? max_total_calls limits)
  && (w (fun r => String.eqb (r_tool_name r) tool) <? max_calls_per_tool limits)
  && (negb (high_risk risk) || (w (fun r => high_risk (r_risk_level r)) <? max_high_risk_calls limits)).

Lemma count_true l : count_by (fun _ => true) l = Z.of_nat (length l).
Proof. unfold count_by. induction l as [|x l IH]; simpl in *; lia. Qed.

(** One call: whether it is admitted, and the state after. *)
Lemma check_run T l s tool risk rq u se :
  guard_inv T l s ->
  let now := clock (st_clock s) in
  let scope := scope_key rq u se in
  let risk' := lower (strip (str_or risk "low")) in
  let pruned := prune limits now (records_of scope s) in
  let '(r, s') := check_and_record clock limits tool risk rq u se s in
  is_ok r = admitted l now scope (strip tool) risk' /\ st_clock s' = S (st_clock s)
  /\ forall scope', records_of scope' s'
       = if String.eqb scope scope'
         then (if is_ok r then pruned ++ [CallRecord now (strip tool) risk'] else pruned)
         else records_of scope' s.
Proof.
  intros Hg now scope risk' pruned.
  assert (forall e, e ∈ l -> ts (snd e) <= now) as Hpast by (apply Forall_forall, Hg).
  assert (forall f, count_by f pruned = count_within f (now - window_sec limits) now (log_of scope l)) as Hc.
  { intros f. apply (pruned_count T); [done | apply Hg | done]. }
  unfold check_and_record, monotonic, gets, bind at 1 2 3. cbn beta iota.
  fold scope. change (records_of scope (State (records_by_scope s) (S (st_clock s)))) with (records_of scope s).
  fold now pruned. unfold set_records, modify. cbn [records_by_scope st_clock].
  unfold admitted. rewrite <- !Hc, count_true. fold (count_tool (strip tool) pruned) (count_high pruned) risk'.
  unfold raise_if, raise, ret, bind.
  rewrite (Z.ltb_antisym (max_total_calls limits)), (Z.ltb_antisym (max_calls_per_tool limits)),
    (Z.ltb_antisym (max_high_risk_calls limits)).
  assert (forall rs c scope', records_of scope' (State (d_set scope rs (records_by_scope s)) c)
           = if String.eqb scope scope' then rs else records_of scope' s) as Hset.
  { intros. rewrite records_of_set. by destruct (String.eqb scope scope'). }
  destruct (max_total_calls limits <=? _); cbn [negb andb is_ok]; [by auto|].
  destruct (max_calls_per_tool limits <=? _); cbn [negb andb is_ok]; [by auto|].
  destruct (high_risk risk'); cbn [negb andb orb is_ok].
  - destruct (max_high_risk_calls limits <=? _); cbn [negb andb is_ok]; [by auto|].
    split; [done|]. split; [done|]. intros scope'. cbn [records_by_scope st_clock]. rewrite d_set_set. apply Hset.
  - split; [done|]. split; [done|]. intros scope'. cbn [records_by_scope st_clock]. rewrite d_set_set. apply Hset.
Qed.

Lemma budget_call_inv T l s tool risk rq u se :
  guard_inv T l s ->
  let '(l', s') := run_op (Call tool risk rq u se) (l, s) in guard_inv (clock (st_clock s)) l' s'.
Proof using clock_mono.
  intros Hg. simpl. pose proof (check_run T l s tool risk rq u se Hg) as Hrun. simpl in Hrun.
  destruct (check_and_record clock limits tool risk rq u se s) as [r s']. destruct Hrun as (_ & Hck & Hrec).
  set (now := clock (st_clock s)) in *. set (e := (scope_key rq u se, _)).
  assert (forall e0, e0 ∈ l -> ts (snd e0) <= now) as Hpast by (apply Forall_forall, Hg).
  assert (now <= clock (st_clock s')) as Hnow by (rewrite Hck; apply clock_mono; lia).
  constructor; [done| | |].
  - assert (Forall (fun e => ts (snd e) <= clock (st_clock s')) l) as Hl.
    { eapply Forall_impl; [apply Hg|]. intros x Hx. simpl in *. fold now in Hx. lia. }
    destruct (is_ok r); [|done]. apply Forall_app_2; [done|]. by constructor.
  - intros scope. destruct (is_ok r); [|apply Hg]. rewrite log_of_app. destruct (String.eqb _ _).
    + apply sorted_snoc; [apply Hg | by apply log_of_past].
    + rewrite app_nil_r. apply Hg.
  - intros scope. rewrite Hrec.
    destruct (String.eqb_spec (scope_key rq u se) scope) as [<-|Hne].
    + destruct (prune_drops T now l (scope_key rq u se) s Hg (gi_now _ _ _ Hg)) as (d & Hd & Hf).
      exists d. split; [|done]. destruct (is_ok r); [|done].
      rewrite log_of_app. unfold e. cbn [fst snd]. rewrite String.eqb_refl, Hd. by rewrite <- app_assoc.
    + destruct (gi_records _ _ _ Hg scope) as (d & Hd & Hf). exists d. split.
      * destruct (is_ok r); [|done]. rewrite log_of_app. unfold e. cbn [fst snd].
        by rewrite (proj2 (String.eqb_neq _ _) Hne), app_nil_r.
      * eapply Forall_impl; [exact Hf|]. intros x Hx. simpl in *. pose proof (gi_now _ _ _ Hg) as Hn. fold now in Hn. lia.
Qed.

Lemma records_of_map now scope s c :
  records_of scope (State (map (fun kr => (fst kr, prune limits now (snd kr))) (records_by_scope s)) c)
  = prune limits now (records_of scope s).
Proof.
  unfold records_of. simpl. induction (records_by_scope s) as [|[k r] rs IH]; simpl; [done|].
  by destruct (String.eqb scope k).
Qed.

Lemma debug_inv T l s rq u se sl tl :
  guard_inv T l s -> guard_inv (clock (st_clock s)) l (snd (debug_snapshot clock limits rq u se sl tl s)).
Proof using clock_mono.
  intros Hg. unfold debug_snapshot, monotonic, prune_all, modify, gets, ret, bind. cbn [snd st_clock records_by_scope].
  assert (clock (st_clock s) <= clock (S (st_clock s))) as Hle by (apply clock_mono; lia).
  constructor; simpl; [done| | |].
  - eapply Forall_impl; [apply Hg|]. intros x Hx. simpl in *. lia.
  - apply Hg.
  - intros scope. rewrite records_of_map. eapply prune_drops; [done | apply Hg].
Qed.

Lemma run_ops_inv ops st :
  (exists T, guard_inv T (fst st) (snd st)) -> exists T, guard_inv T (fst (run_ops ops st)) (snd (run_ops ops st)).
Proof using clock_mono.
  revert st. induction ops as [|o ops IH]; intros [l s] [T Hg]; simpl in *; [by exists T|].
  apply IH. destruct o.
  - pose proof (budget_call_inv T l s tool_name risk_level request_id user_id session_id Hg) as H. simpl in H.
    destruct (check_and_record _ _ _ _ _ _ _ s). exists (clock (st_clock s)). exact H.
  - exists (clock (st_clock s)). exact (debug_inv T l s request_id user_id session_id scopes_limit top_tools_limit Hg).
Qed.

(** *** The limits *)

(** No window holds more than [L] accepted calls of the kind [f]. *)
Definition within_limit (f : ToolCallRecord -> bool) (L : Z) (l : list ToolCallRecord) : Prop :=
  forall t, count_within f (t - window_sec limits) t l <= L.

Lemma within_snoc f L l r :
  0 <= window_sec limits -> Forall (fun x => ts x <= ts r) l -> within_limit f L l ->
  (f r = true -> count_within f (ts r - window_sec limits) (ts r) l < L) -> within_limit f L (l ++ [r]).
Proof.
  intros Hw Hpast Hl Hr t. unfold count_within. rewrite count_by_app, count_by_one.
  fold (count_within f (t - window_sec limits) t l). specialize (Hl t) as Ht.
  destruct (f r) eqn:Ef; cbn [andb]; [|lia].
  destruct (t - window_sec limits <=? ts r) eqn:E1; cbn [andb]; [|lia].
  destruct (ts r <=? t) eqn:E2; [|lia]. bool_prop. specialize (Hr eq_refl).
  assert (count_within f (t - window_sec limits) t l <= count_within f (ts r - window_sec limits) (ts r) l); [|lia].
  clear - E1 E2 Hpast. unfold count_within, count_by. induction Hpast as [|x l Hx _ IH]; simpl; [lia|].
  destruct (f x); cbn [andb]; [|done].
  destruct (t - window_sec limits <=? ts x) eqn:E; bool_prop; cbn [andb].
  - rewrite (proj2 (Z.leb_le (ts r - window_sec limits) (ts x))) by lia.
    rewrite (proj2 (Z.leb_le (ts x) (ts r))) by lia. cbn [andb]. destruct (ts x <=? t); simpl; lia.
  - destruct (ts r - window_sec limits <=? ts x); cbn [andb]; [|done].
    destruct (ts x <=? ts r); simpl; lia.
Qed.

Definition limits_hold (l : log) : Prop := forall scope,
  within_limit (fun _ => true) (max_total_calls limits) (log_of scope l)
  /\ (forall tool, within_limit (fun r => String.eqb (r_tool_name r) tool) (max_calls_per_tool limits) (log_of scope l))
  /\ within_limit (fun r => high_risk (r_risk_level r)) (max_high_risk_calls limits) (log_of scope l).

Lemma call_limits T l s tool risk rq u se :
  0 <= window_sec limits -> guard_inv T l s -> limits_hold l ->
  limits_hold (fst (run_op (Call tool risk rq u se) (l, s))).
Proof.
  intros Hw Hg Hl. simpl. pose proof (check_run T l s tool risk rq u se Hg) as Hrun. simpl in Hrun.
  destruct (check_and_record clock limits tool risk rq u se s) as [r s']. destruct Hrun as (Hok & _ & _).
  simpl. destruct (is_ok r); [|done]. intros scope. rewrite log_of_app. simpl.
  destruct (String.eqb_spec (scope_key rq u se) scope) as [<-|]; [|rewrite app_nil_r; apply Hl].
  destruct (Hl (scope_key rq u se)) as (H1 & H2 & H3).
  assert (Forall (fun x => ts x <= clock (st_clock s)) (log_of (scope_key rq u se) l)) as Hpast.
  { apply log_of_past. apply Forall_forall, Hg. }
  symmetry in Hok. unfold admitted in Hok.
  apply andb_true_iff in Hok as [[G1 G2]%andb_true_iff G3].
  split; [|split].
  - apply within_snoc; [done | done | done|]. intros _. by apply Z.ltb_lt.
  - intros t. apply within_snoc; [done | done | apply H2|]. simpl. intros <-%String.eqb_eq. by apply Z.ltb_lt.
  - apply within_snoc; [done | done | done|]. simpl. intros Hr. rewrite Hr in G3. by apply Z.ltb_lt.
Qed.

Lemma budget_init_inv c : guard_inv (clock c) [] (State [] c).
Proof.
  constructor; simpl; [lia | constructor | intros; constructor|]. intros scope. exists []. by split.
Qed.

Lemma run_ops_limits ops c :
  0 <= window_sec limits -> 0 <= max_total_calls limits -> 0 <= max_calls_per_tool limits ->
  0 <= max_high_risk_calls limits ->
  limits_hold (fst (run_ops ops ([], State [] c))).
Proof using clock_mono.
  intros Hw Ht Hp Hh.
  assert (forall ops l s, (exists T, guard_inv T l s) -> limits_hold l -> limits_hold (fst (run_ops ops (l, s)))) as H.
  { induction ops0 as [|o ops0 IH]; intros l s [T Hg] Hl; [done|]. cbn [run_ops foldl].
    pose proof (run_ops_inv [o] (l, s) (ex_intro _ T Hg)) as Hg'. cbn [run_ops foldl] in Hg'.
    assert (limits_hold (fst (run_op o (l, s)))) as Hl'.
    { destruct o; [by eapply call_limits | done]. }
    destruct (run_op o (l, s)) as [l' s']. apply (IH l' s'); done. }
  apply H; [exists (clock c); apply budget_init_inv|]. intros scope. unfold within_limit, count_within, count_by. simpl.
  repeat split; intros; lia.
Qed.

(** C7. The budget holds over any history: whatever calls and views are
    made, in every closed window of the configured length each scope has at
    most [max_total_calls] accepted calls, at most [max_calls_per_tool] of
    any one tool and at most [max_high_risk_calls] of high or critical risk. *)
Theorem budget_never_exceeded ops c :
  0 <= window_sec limits -> 0 <= max_total_calls limits -> 0 <= max_calls_per_tool limits ->
  0 <= max_high_risk_calls limits ->
  limits_hold (fst (run_ops ops ([], State [] c))).
Proof using clock_mono. apply run_ops_limits. Qed.

(** No false refusals: after any history a call is accepted exactly when,
    among the calls accepted in the last window, the scope has room for one
    more, for one more of this tool and, for a high-risk call, for one more
    high-risk call. *)
Theorem call_accepted_iff ops c tool risk rq u se :
  let '(l, s) := run_ops ops ([], State [] c) in
  is_ok (fst (check_and_record clock limits tool risk rq u se s))
  = admitted l (clock (st_clock s)) (scope_key rq u se) (strip tool) (lower (strip (str_or risk "low"))).
Proof using clock_mono.
  pose proof (run_ops_inv ops ([], State [] c) (ex_intro _ _ (budget_init_inv c))) as [T Hg].
  destruct (run_ops ops ([], State [] c)) as [l s]. simpl in Hg.
  pose proof (check_run T l s tool risk rq u se Hg) as Hrun. simpl in Hrun.
  destruct (check_and_record clock limits tool risk rq u se s) as [r s']. apply Hrun.
Qed.
End guard.

(** ** Witnesses *)

Definition demo_clock (n : nat) : Z := Z.of_nat n * ns_per_sec.
Definition demo_limits : ToolBudgetLimits := make_limits (60 * ns_per_sec) 2 3 1.
Definition demo_ops : list op :=
  [Call "shell" "HIGH" None None (Some "s1"); Call "shell" "high" None None (Some "s1");
   Call "fetch" "low" None None (Some "s1"); Call "fetch" "low" None None (Some "s1")].

Lemma demo_clock_mono m n : (m <= n)%nat -> demo_clock m <= demo_clock n.
Proof. unfold demo_clock, ns_per_sec. lia. Qed.

Lemma budget_never_exceeded_witness :
  limits_hold demo_limits (fst (run_ops demo_clock demo_limits demo_ops ([], State [] 0)))
  /\ length (fst (run_ops demo_clock demo_limits demo_ops ([], State [] 0))) = 3%nat.
Proof.
  split; [|vm_compute; reflexivity].
  apply (budget_never_exceeded demo_clock demo_limits demo_clock_mono demo_ops 0); vm_compute; discriminate.
Defined.

Lemma call_accepted_iff_witness :
  let '(l, s) := run_ops demo_clock demo_limits demo_ops ([], State [] 0) in
  is_ok (fst (check_and_record demo_clock demo_limits "shell" "low" None None (Some "s1") s))
  = admitted demo_limits l (demo_clock (st_clock s)) "session:s1" "shell" "low".
Proof.
  exact (call_accepted_iff demo_clock demo_limits demo_clock_mono demo_ops 0 "shell" "low" None None (Some "s1")).
Defined.

End ToolBudgetFacts.
