(* ===== verification/SessionStore.v ===== *)
(** What the two session managers share (flow/session_manager.py and
    voice/session_manager.py): the listing loop over the sessions, newest
    first, and the eviction of finished sessions, oldest first, that makes
    room for a new one. *)

From stdpp Require Import prelude strings list.
From Stdlib Require Import Lia ZArith Ascii SpecFloat Sorted.
From S2P Require Import Prelude PyStr PyVal PyFloat Effects PyTime.

(** What a session tells the store. *)
Class SessionRow (A : Type) : Type := {
  row_id : A -> string;
  row_user : A -> string;
  row_state : A -> string;
  row_updated_at : A -> string }.

Module SessionStore.

(** ** [int(delta.total_seconds() * 1000)] for a delta in microseconds

    [total_seconds] is the correctly rounded binary64 quotient by a million;
    the product is rounded again before it is truncated. *)
Definition trunc (f : spec_float) : Z :=
  match f with
  | S754_finite neg m e => (if neg then Z.opp else id) (trunc_float (Zpos m) e)
  | _ => 0
  end.

Definition total_seconds (us : Z) : spec_float := round_quot us us_per_sec.

Definition delta_ms (us : Z) : Z := trunc (SFmul 53 1024 (total_seconds us) (exact 1000)).

Lemma sublist_Forall {B} (P : B -> Prop) (l k : list B) : l `sublist_of` k -> Forall P k -> Forall P l.
Proof. intros Hs Hf. apply Forall_forall. intros x Hx. eapply Forall_forall; [exact Hf|]. by eapply elem_of_sublist. Qed.

Lemma sublist_same_length {B} (l k : list B) : l `sublist_of` k -> length l = length k -> l = k.
Proof.
  induction 1 as [|x l k Hs IH|x l k Hs IH]; simpl; intros Hl; [done | f_equal; auto|].
  apply sublist_length in Hs. lia.
Qed.

Lemma Permutation_filter {B} (f : B -> bool) (l k : list B) : l ≡ₚ k -> List.filter f l ≡ₚ List.filter f k.
Proof. induction 1; simpl; repeat case_match; try done; [by constructor | by constructor | by etrans]. Qed.

Lemma sorted_filter {B} (R : B -> B -> Prop) (f : B -> bool) (l : list B) :
  StronglySorted R l -> StronglySorted R (List.filter f l).
Proof.
  induction 1 as [|x l Hs IH Hall]; simpl; [constructor|]. case_match; [|done]. constructor; [done|].
  apply Forall_forall. intros y Hy%list_elem_of_In. apply filter_In in Hy as [Hy%list_elem_of_In _].
  exact (proj1 (Forall_forall _ _) Hall y Hy).
Qed.

Lemma sorted_take {B} (R : B -> B -> Prop) n (l : list B) : StronglySorted R l -> StronglySorted R (take n l).
Proof.
  intros H. revert n. induction H as [|x l Hs IH Hall]; intros [|n]; simpl; try constructor; [apply IH|].
  by apply Forall_take.
Qed.

Section store.
Context `{SessionRow A}.

(** ** The listing loop *)

(** [rows.sort(key=lambda item: item["updated_at"], reverse=True)] *)
Definition newest_first (rows : list A) : list A :=
  sort_by (fun a b => String.leb (row_updated_at b) (row_updated_at a)) rows.

Definition keep_row (user state : option string) (row : A) : bool :=
  match user with Some u => String.eqb (row_user row) u | None => true end
  && match state with Some t => String.eqb (row_state row) t | None => true end.

(** The loop with its [continue]s and its [break] at the limit. *)
Fixpoint select_rows (user state : option string) (capped_limit : Z) (rows items : list A) : list A :=
  match rows with
  | [] => items
  | row :: rows' =>
      if negb (keep_row user state row) then select_rows user state capped_limit rows' items
      else
        let items := items ++ [row] in
        if capped_limit <=? Z.of_nat (length items) then items
        else select_rows user state capped_limit rows' items
  end.

Lemma select_rows_spec user state cap rows items :
  Z.of_nat (length items) < cap ->
  select_rows user state cap rows items
  = items ++ take (Z.to_nat cap - length items) (List.filter (keep_row user state) rows).
Proof.
  revert items. induction rows as [|r rows IH]; intros items Hlt; simpl; [by rewrite take_nil, app_nil_r|].
  destruct (keep_row user state r); cbn [negb]; [|by apply IH].
  pose proof (length_app items [r]) as Hlen. simpl in Hlen.
  destruct (cap <=? Z.of_nat (length (items ++ [r]))) eqn:E; bool_prop.
  - by replace (Z.to_nat cap - length items)%nat with 1%nat by lia.
  - rewrite IH by done. rewrite Hlen, <- app_assoc. simpl.
    by replace (Z.to_nat cap - length items)%nat with (S (Z.to_nat cap - (length items + 1)))%nat by lia.
Qed.

Lemma newest_first_sorted rows :
  StronglySorted (fun a b => String.leb (row_updated_at b) (row_updated_at a) = true) (newest_first rows).
Proof.
  apply sort_by_sorted; [intros; apply string_leb_total | intros x y z H1 H2; by eapply string_leb_trans].
Qed.

(** ** Eviction *)

Definition oldest_finished (finished : string) (d : dict A) : list (string * A) :=
  sort_by (fun a b => String.leb (row_updated_at (snd a)) (row_updated_at (snd b)))
    (List.filter (fun ks => String.eqb (row_state (snd ks)) finished) d).

(** [while len(sessions) >= max_sessions and rows: drop(rows.pop(0))] *)
Fixpoint evict_loop (drop : string -> dict A -> dict A) (max_sessions : Z) (keys : list string)
    (d : dict A) : dict A :=
  match keys with
  | [] => d
  | k :: keys' =>
      if max_sessions <=? Z.of_nat (length d) then evict_loop drop max_sessions keys' (drop k d) else d
  end.

Implicit Types (d : dict A) (k : string) (x : A).

Lemma evict_loop_ext drop1 drop2 max keys d :
  (forall k d, k ∈ keys -> drop1 k d = drop2 k d) ->
  evict_loop drop1 max keys d = evict_loop drop2 max keys d.
Proof.
  revert d. induction keys as [|k keys IH]; intros d He; simpl; [done|].
  rewrite He by left. case_match; [|done]. apply IH. intros. apply He. by right.
Qed.

(** The loop removes a prefix of the candidates, and stops early only when
    there is room. *)
Lemma evict_loop_spec max keys d :
  NoDup (d_keys d) ->
  let d' := evict_loop d_pop max keys d in
  NoDup (d_keys d') /\ d' `sublist_of` d
  /\ exists removed rest, keys = removed ++ rest
     /\ (forall k, d_get k d' = if decide (k ∈ removed) then None else d_get k d)
     /\ (rest = [] \/ Z.of_nat (length d') < max).
Proof.
  revert d. induction keys as [|k keys IH]; intros d Hd; simpl.
  { split; [done|]. split; [done|]. exists [], []. split; [done|]. split; [|by left].
    intros k. by rewrite decide_False by apply not_elem_of_nil. }
  destruct (max <=? Z.of_nat (length d)) eqn:E; bool_prop.
  - destruct (IH (d_pop k d)) as (H1 & H2 & removed & rest & -> & Hget & Hstop); [eauto with py|].
    split; [done|]. split; [etrans; [exact H2 | apply d_pop_sublist]|].
    exists (k :: removed), rest. split; [done|]. split; [|done].
    intros k'. rewrite Hget. destruct (decide (k = k')) as [->|Hne].
    + rewrite d_get_pop_eq by done. repeat case_decide; set_solver.
    + rewrite d_get_pop_ne by done. repeat case_decide; set_solver.
  - split; [done|]. split; [done|]. exists [], (k :: keys). split; [done|]. split; [|by right].
    intros k'. by rewrite decide_False by apply not_elem_of_nil.
Qed.

(** [_evict_..._if_needed] with the keys of the finished sessions. *)
Definition evict_finished (finished : string) (max_sessions : Z) (d : dict A) : dict A :=
  if Z.of_nat (length d) <? max_sessions then d
  else evict_loop d_pop max_sessions (map fst (oldest_finished finished d)) d.

Lemma oldest_finished_elem finished d k x :
  (k, x) ∈ oldest_finished finished d <-> (k, x) ∈ d /\ row_state x = finished.
Proof.
  unfold oldest_finished. rewrite sort_by_elem, !list_elem_of_In, filter_In. simpl.
  by rewrite String.eqb_eq.
Qed.

Lemma oldest_finished_keys finished d k :
  NoDup (d_keys d) ->
  k ∈ map fst (oldest_finished finished d) <-> exists x, d_get k d = Some x /\ row_state x = finished.
Proof.
  intros Hd. rewrite list_elem_of_In, in_map_iff. split.
  - intros ([k' x] & <- & Hin%list_elem_of_In%oldest_finished_elem). exists x.
    split; [apply d_elem_get; [done | apply Hin] | apply Hin].
  - intros (x & Hg & Hs). exists (k, x). split; [done|]. apply list_elem_of_In, oldest_finished_elem.
    split; [by apply d_get_elem | done].
Qed.

Lemma evict_NoDup finished max d : NoDup (d_keys d) -> NoDup (d_keys (evict_finished finished max d)).
Proof. intros Hd. unfold evict_finished. case_match; [done|]. by apply evict_loop_spec. Qed.

Lemma evict_sublist finished max d :
  NoDup (d_keys d) -> evict_finished finished max d `sublist_of` d.
Proof. intros Hd. unfold evict_finished. case_match; [done|]. by apply evict_loop_spec. Qed.

(** A session survives unless it is finished; what survives is unchanged. *)
Lemma evict_get finished max d k :
  NoDup (d_keys d) ->
  d_get k (evict_finished finished max d) = d_get k d
  \/ d_get k (evict_finished finished max d) = None
     /\ (exists x, d_get k d = Some x /\ row_state x = finished) /\ max <= Z.of_nat (length d).
Proof.
  intros Hd. unfold evict_finished. destruct (_ <? max) eqn:E; [by left|]. bool_prop.
  destruct (evict_loop_spec max (map fst (oldest_finished finished d)) d Hd)
    as (_ & _ & removed & rest & Hk & Hget & _).
  rewrite Hget. case_decide as Hin; [right | by left]. split; [done|]. split; [|done].
  apply oldest_finished_keys; [done|]. rewrite Hk. set_solver.
Qed.

(** There is room afterwards unless nothing finished is left. *)
Lemma evict_room finished max d :
  NoDup (d_keys d) ->
  Z.of_nat (length (evict_finished finished max d)) < max
  \/ forall k x, d_get k (evict_finished finished max d) = Some x -> row_state x <> finished.
Proof.
  intros Hd. unfold evict_finished. destruct (_ <? max) eqn:E; bool_prop; [by left|].
  destruct (evict_loop_spec max (map fst (oldest_finished finished d)) d Hd)
    as (_ & _ & removed & rest & Hk & Hget & [->|Hroom]); [right | by left].
  rewrite app_nil_r in Hk. intros k x Hx Hs. rewrite Hget in Hx.
  case_decide as Hin; [done|]. apply Hin. rewrite <- Hk. apply oldest_finished_keys; eauto.
Qed.

(** Within the capacity there is room exactly when there was already, or
    some session was finished. *)
Lemma evict_room_iff finished max d :
  NoDup (d_keys d) -> Z.of_nat (length d) <= max ->
  Z.of_nat (length (evict_finished finished max d)) < max
  <-> Z.of_nat (length d) < max \/ exists k x, d_get k d = Some x /\ row_state x = finished.
Proof.
  intros Hn Hcap. pose proof (evict_sublist finished max d Hn) as Hsub.
  pose proof (sublist_length _ _ Hsub) as Hlen. split.
  - intros Hr. destruct (decide (Z.of_nat (length d) < max)) as [|Hfull]; [by left|right].
    destruct (oldest_finished finished d) as [|[k x] l] eqn:Eo.
    + exfalso. unfold evict_finished in Hr. rewrite Eo in Hr.
      rewrite (proj2 (Z.ltb_ge _ _)) in Hr by lia. simpl in Hr. lia.
    + exists k, x. assert ((k, x) ∈ oldest_finished finished d) as [Hin Hs]%oldest_finished_elem
        by (rewrite Eo; left). split; [by apply d_elem_get | done].
  - intros [Hlt | (k & x & Hx & Hs)]; [lia|].
    destruct (evict_room finished max d Hn) as [|Hnone]; [done|].
    destruct (decide (length (evict_finished finished max d) = length d)) as [Heq|]; [|lia].
    apply sublist_same_length in Heq; [|done]. rewrite Heq in Hnone.
    by destruct (Hnone k x Hx).
Qed.

(** The oldest finished sessions go first. *)
Lemma evict_oldest finished max d k x k' x' :
  NoDup (d_keys d) -> d_get k d = Some x -> d_get k (evict_finished finished max d) = None ->
  d_get k' (evict_finished finished max d) = Some x' -> row_state x' = finished ->
  String.leb (row_updated_at x) (row_updated_at x') = true.
Proof.
  intros Hd Hk Hgone Hk' Hs. unfold evict_finished in *. destruct (_ <? max); [congruence|].
  destruct (evict_loop_spec max (map fst (oldest_finished finished d)) d Hd)
    as (_ & _ & removed & rest & Heq & Hget & _).
  rewrite Hget in Hgone, Hk'. destruct (decide (k ∈ removed)) as [Hin|]; [|congruence].
  destruct (decide (k' ∈ removed)) as [|Hin']; [done|].
  assert (k' ∈ rest) as Hrest.
  { assert (k' ∈ removed ++ rest) as Hm by (rewrite <- Heq; apply oldest_finished_keys; eauto). set_solver. }
  apply map_eq_app in Heq as (l1 & l2 & Ho & <- & <-).
  apply list_elem_of_In, in_map_iff in Hin as ([k1 x1] & Hk1 & H1%list_elem_of_In).
  apply list_elem_of_In, in_map_iff in Hrest as ([k2 x2] & Hk2 & H2%list_elem_of_In).
  simpl in Hk1, Hk2. subst k1 k2.
  assert (d_get k d = Some x1 /\ d_get k' d = Some x2) as [G1 G2].
  { split; apply d_elem_get; try done; eapply oldest_finished_elem; rewrite Ho; set_solver. }
  simplify_eq. unfold oldest_finished in Ho.
  pose proof (sort_by_sorted (fun a b : string * A => String.leb (row_updated_at (snd a)) (row_updated_at (snd b)))
    ltac:(intros; apply string_leb_total) ltac:(intros ??? E1 E2; exact (string_leb_trans _ _ _ E1 E2))
    (List.filter (fun ks => String.eqb (row_state (snd ks)) (row_state x')) d)) as Hsort.
  rewrite Ho in Hsort. clear - Hsort H1 H2. induction l1 as [|y l1 IH]; [by apply elem_of_nil in H1|].
  apply StronglySorted_inv in Hsort as [Hs Hall]. apply elem_of_cons in H1 as [<-|H1]; [|by apply IH].
  apply (proj1 (Forall_forall _ _) Hall (k', x')). set_solver.
Qed.
End store.

End SessionStore.
