(* ===== verification/FlowSession.v ===== *)
(** The unified session manager (flow/session_manager.py,
    [UnifiedSessionManager]): sessions over text, voice and visual channels
    with a state machine, per-channel activity and telemetry.

    A session is the object the [_sessions] dict holds; methods mutate it in
    place and return deep copies.  The telemetry emitter is a callback: the
    state records the calls made to it, and since its exceptions are swallowed
    nothing else of it matters.  Text parameters are [str] or [str | None] as
    annotated, [metadata] any value. *)

From stdpp Require Import prelude strings list.
From Stdlib Require Import Lia ZArith Ascii.
From S2P Require Import Prelude PyStr PyVal Effects PyTime SessionStore.
Import SessionStore.

Module FlowSession.

Definition UNIFIED_SESSION_CHANNELS : list string := ["text"; "voice"; "visual"].
Definition UNIFIED_SESSION_STATES : list string :=
  ["created"; "listening"; "planning"; "acting"; "reviewing"; "closed"].
Definition INITIAL_STATE : string := "__init__".
Definition ALLOWED_TRANSITIONS : dict (list string) :=
  [(INITIAL_STATE, ["created"]);
   ("created", ["listening"; "planning"; "acting"; "reviewing"; "closed"]);
   ("listening", ["planning"; "acting"; "reviewing"; "closed"]);
   ("planning", ["acting"; "reviewing"; "closed"]);
   ("acting", ["reviewing"; "planning"; "closed"]);
   ("reviewing", ["planning"; "acting"; "closed"]);
   ("closed", [])].

Record transition_row : Type := Transition {
  tr_from_state : option string;
  tr_to_state : string;
  tr_at : string;
  tr_reason : string;
  tr_actor : option string;
  tr_metadata : pydict;
  tr_request_id : option string }.

Record activity : Type := Activity {
  a_events_count : Z;
  a_last_event : option string;
  a_last_at : option string }.

Record telemetry : Type := Telemetry {
  t_events_emitted : Z;
  t_transition_count : Z;
  t_last_transition_at : option string;
  t_last_state : option string;
  t_last_actor : option string }.

Record session : Type := Session {
  s_id : string;
  s_user_id : string;
  s_state : string;
  s_channels : list string;
  s_metadata : pydict;
  s_created_at : string;
  s_updated_at : string;
  s_closed_at : option string;
  s_duration_ms : option Z;
  s_transitions : list transition_row;
  s_channel_activity : dict activity;
  s_telemetry : telemetry }.

#[export] Instance session_row : SessionRow session :=
  {| row_id := s_id; row_user := s_user_id; row_state := s_state; row_updated_at := s_updated_at |}.

Definition set_telemetry (t : telemetry) (s : session) : session :=
  Session (s_id s) (s_user_id s) (s_state s) (s_channels s) (s_metadata s) (s_created_at s) (s_updated_at s)
    (s_closed_at s) (s_duration_ms s) (s_transitions s) (s_channel_activity s) t.

Record state : Type := State {
  st_sessions : dict session;
  st_clock : nat;
  st_uuid : nat;
  st_emitted : list (string * pydict) }.

(** [_optional_str] *)
Definition optional_str (value : option string) : option string := str_or_none (strip (opt_str value)).

(** [_parse_iso] on the texts the manager stores *)
Definition parse_iso (value : string) : option Z :=
  let raw := strip value in if is_empty raw then None else fromisoformat raw.

Definition allowed_text (l : list string) : string := join ", " (sort_strings l).

(** [_normalize_channels] *)
Definition normalize_channels (channels : option (list string)) : res (list string) :=
  let raw := match channels with None | Some [] => ["text"] | Some l => l end in
  let items := map (fun item => lower (strip item)) (List.filter (fun item => negb (is_empty (strip item))) raw) in
  let normalized := match sort_strings (remove_dups items) with [] => ["text"] | l => l end in
  match List.filter (fun item => negb (str_in item UNIFIED_SESSION_CHANNELS)) normalized with
  | [] => Ok normalized
  | invalid =>
      Err (ValueError ("Invalid channels: " +:+ join ", " invalid +:+ ". Allowed values: "
                       +:+ allowed_text UNIFIED_SESSION_CHANNELS +:+ "."))
  end.

Section manager.
(** The [n]-th reading of the clock and the [n]-th [uuid4().hex]. *)
Context (clock : nat -> Z) (uuid_hex : nat -> string).
(** Whether a telemetry emitter is set, and the capacity asked for. *)
Context (has_emitter : bool) (max_sessions_arg : Z).

(** [self._max_sessions = max(1, int(max_sessions))] *)
Definition max_sessions : Z := Z.max 1 max_sessions_arg.

(** [datetime.now(timezone.utc)] *)
Definition now_utc : M state Z := fun s =>
  (Ok (clock (st_clock s)), State (st_sessions s) (S (st_clock s)) (st_uuid s) (st_emitted s)).

(** [_utcnow_iso] *)
Definition utcnow_iso : M state string := let* t := now_utc in ret (isoformat t).

Definition new_hex : M state string := fun s =>
  (Ok (uuid_hex (st_uuid s)), State (st_sessions s) (st_clock s) (S (st_uuid s)) (st_emitted s)).

Definition put (key : string) (x : session) : M state unit :=
  modify (fun s => State (d_set key x (st_sessions s)) (st_clock s) (st_uuid s) (st_emitted s)).

Definition find (key : string) : M state (option session) := gets (fun s => d_get key (st_sessions s)).

Definition emit (event : string) (payload : pydict) : M state unit :=
  modify (fun s => State (st_sessions s) (st_clock s) (st_uuid s) (st_emitted s ++ [(event, payload)])).

(** [_emit_for_session] on the session object stored under [key] *)
Definition emit_for_session (key : string) (x : session) (event : string) (payload : pydict) : M state session :=
  let t := s_telemetry x in
  let x := set_telemetry (Telemetry (t_events_emitted t + 1) (t_transition_count t) (t_last_transition_at t)
                            (t_last_state t) (t_last_actor t)) x in
  put key x ;;;
  when has_emitter (emit event payload) ;;;
  ret x.

(** What [_transition] writes into the session when the step is allowed. *)
Definition apply_transition (row : transition_row) (duration_ms : option Z) (actor : option string)
    (x : session) : session :=
  let target_state := tr_to_state row in
  let closing := String.eqb target_state "closed" in
  let t := s_telemetry x in
  Session (s_id x) (s_user_id x) target_state (s_channels x) (s_metadata x) (s_created_at x) (tr_at row)
    (if closing then Some (tr_at row) else s_closed_at x)
    (match duration_ms with Some d => Some d | None => s_duration_ms x end)
    (s_transitions x ++ [row]) (s_channel_activity x)
    (Telemetry (t_events_emitted t) (t_transition_count t + 1) (Some (tr_at row)) (Some target_state)
       (optional_str actor)).

(** [_transition] on the session object stored under [key] *)
Definition transition (key : string) (x : session) (to_state reason : string) (actor : option string)
    (metadata : pyval) (request_id : option string) : M state session :=
  let from_state := str_or (s_state x) INITIAL_STATE in
  let target_state := lower (strip to_state) in
  raise_if (negb (str_in target_state UNIFIED_SESSION_STATES))
    (ValueError ("Invalid flow session transition target: " +:+ to_state)) ;;;
  let allowed := match d_get from_state ALLOWED_TRANSITIONS with Some l => l | None => [] end in
  raise_if (negb (str_in target_state allowed))
    (ValueError ("Invalid flow session transition: " +:+ from_state +:+ " -> " +:+ target_state)) ;;;
  let* now := utcnow_iso in
  let shown_from := if String.eqb from_state INITIAL_STATE then None else Some from_state in
  let row := Transition shown_from target_state now (str_or (strip reason) "state_transition")
               (optional_str actor) (as_dict metadata) (optional_str request_id) in
  let previous_started := parse_iso (s_created_at x) in
  let* duration_ms :=
    match previous_started with
    | Some started =>
        if String.eqb target_state "closed"
        then let* ended := now_utc in ret (Some (Z.max 0 (delta_ms (ended - started))))
        else ret None
    | None => ret None
    end in
  emit_for_session key (apply_transition row duration_ms actor x) "flow_session_transition"
    [("session_id", PStr (s_id x)); ("user_id", PStr (s_user_id x));
     ("from_state", pnone_or_str shown_from); ("to_state", PStr target_state);
     ("reason", PStr (tr_reason row)); ("actor", pnone_or_str (optional_str actor));
     ("request_id", pnone_or_str (optional_str request_id))].

(** The body of the eviction loop of [_evict_closed_if_needed]. *)
Definition drop_candidate (candidate_id : string) (d : dict session) : dict session :=
  if negb (is_empty candidate_id) && d_mem candidate_id d then d_pop candidate_id d else d.

(** [_evict_closed_if_needed] *)
Definition evict_closed_if_needed : M state unit :=
  modify (fun s =>
    let d := st_sessions s in
    let d' := if Z.of_nat (length d) <? max_sessions then d
              else evict_loop drop_candidate max_sessions
                     (map (fun ks => s_id (snd ks)) (oldest_finished "closed" d)) d in
    State d' (st_clock s) (st_uuid s) (st_emitted s)).

Definition new_session (session_id user : string) (channels : list string) (metadata : pydict) (now : string) :
    session :=
  Session session_id user INITIAL_STATE channels metadata now now None None []
    (map (fun channel => (channel, Activity 0 None None)) channels) (Telemetry 0 0 None None None).

Definition start_session (user_id : string) (channels : option (list string)) (metadata : pyval)
    (initial_state : string) (request_id actor : option string) : M state session :=
  let normalized_user := strip user_id in
  raise_if (is_empty normalized_user) (ValueError "user_id is required") ;;;
  let* resolved_channels := lift (normalize_channels channels) in
  let normalized_initial := str_or (lower (strip (str_or initial_state "created"))) "created" in
  raise_if (negb (str_in normalized_initial UNIFIED_SESSION_STATES))
    (ValueError ("Invalid initial_state '" +:+ initial_state +:+ "'. Allowed values: "
                 +:+ allowed_text UNIFIED_SESSION_STATES +:+ ".")) ;;;
  let* hex := new_hex in
  let session_id := "flow-" +:+ hex in
  let* now := utcnow_iso in
  evict_closed_if_needed ;;;
  let* count := gets (fun s => Z.of_nat (length (st_sessions s))) in
  raise_if (max_sessions <=? count) (ValueError "unified session capacity reached") ;;;
  let x := new_session session_id normalized_user resolved_channels (as_dict metadata) now in
  put session_id x ;;;
  let channels_value := PList (map PStr resolved_channels) in
  let* x := transition session_id x "created" "session_started" actor
              (PDict [("channels", channels_value)]) request_id in
  let* x := (if negb (String.eqb normalized_initial "created")
             then transition session_id x normalized_initial "initial_state_requested" actor PNone request_id
             else ret x) in
  emit_for_session session_id x "flow_session_started"
    [("session_id", PStr session_id); ("user_id", PStr normalized_user); ("state", PStr (s_state x));
     ("channels", channels_value); ("actor", pnone_or_str actor); ("request_id", pnone_or_str request_id)].

(** [session = self._sessions.get(id)], raising when there is none *)
Definition require_session (normalized_id : string) : M state session :=
  let* found := find normalized_id in
  match found with
  | None => raise (ValueError ("Flow session not found: " +:+ normalized_id))
  | Some x => ret x
  end.

Definition transition_session (session_id to_state reason : string) (actor : option string) (metadata : pyval)
    (request_id : option string) : M state session :=
  let normalized_id := strip session_id in
  raise_if (is_empty normalized_id) (ValueError "session_id is required") ;;;
  let normalized_reason := str_or (strip reason) "state_transition" in
  let* x := require_session normalized_id in
  transition normalized_id x to_state normalized_reason actor metadata request_id.

(** The activity row of a channel after an event. *)
Definition count_event (event at_ : string) (a : option activity) : activity :=
  let count := match a with Some a => a_events_count a | None => 0 end in
  Activity (count + 1) (Some event) (Some at_).

Definition set_activity (channel event at_ : string) (x : session) : session :=
  Session (s_id x) (s_user_id x) (s_state x) (s_channels x) (s_metadata x) (s_created_at x) at_
    (s_closed_at x) (s_duration_ms x) (s_transitions x)
    (d_set channel (count_event event at_ (d_get channel (s_channel_activity x))) (s_channel_activity x))
    (s_telemetry x).

Definition record_activity (session_id channel event : string) (actor : option string) (metadata : pyval)
    (request_id : option string) : M state session :=
  let normalized_id := strip session_id in
  raise_if (is_empty normalized_id) (ValueError "session_id is required") ;;;
  let normalized_channel := lower (strip channel) in
  raise_if (negb (str_in normalized_channel UNIFIED_SESSION_CHANNELS))
    (ValueError ("Invalid channel '" +:+ channel +:+ "'. Allowed values: "
                 +:+ allowed_text UNIFIED_SESSION_CHANNELS +:+ ".")) ;;;
  let normalized_event := strip event in
  raise_if (is_empty normalized_event) (ValueError "event is required") ;;;
  let* x := require_session normalized_id in
  raise_if (String.eqb (s_state x) "closed") (ValueError "Flow session is closed") ;;;
  raise_if (negb (str_in normalized_channel (s_channels x)))
    (ValueError ("Flow session channel '" +:+ normalized_channel +:+ "' is not enabled for this session")) ;;;
  let* at_ := utcnow_iso in
  let x := set_activity normalized_channel normalized_event at_ x in
  emit_for_session normalized_id x "flow_session_activity"
    [("session_id", PStr normalized_id); ("user_id", PStr (s_user_id x)); ("state", PStr (s_state x));
     ("channel", PStr normalized_channel); ("event", PStr normalized_event); ("actor", pnone_or_str actor);
     ("request_id", pnone_or_str request_id); ("metadata", PDict (as_dict metadata))].

Definition get_session (session_id : string) : M state session :=
  let normalized_id := strip session_id in
  raise_if (is_empty normalized_id) (ValueError "session_id is required") ;;;
  require_session normalized_id.

Definition list_sessions (user_id state_ : option string) (limit : Z) : M state (list session) :=
  let normalized_user := str_or_none (strip (opt_str user_id)) in
  let normalized_state := str_or_none (lower (strip (opt_str state_))) in
  raise_if (match normalized_state with Some t => negb (str_in t UNIFIED_SESSION_STATES) | None => false end)
    (ValueError ("Invalid flow session state '" +:+ opt_str state_ +:+ "'. Allowed values: "
                 +:+ allowed_text UNIFIED_SESSION_STATES +:+ ".")) ;;;
  let capped_limit := Z.max 1 (Z.min limit 2000) in
  gets (fun s => select_rows normalized_user normalized_state capped_limit
                   (newest_first (d_values (st_sessions s))) []).
End manager.

End FlowSession.
