(* ===== verification/FlowSessionFacts.v ===== *)
(** Facts about the unified session manager: every session's history follows
    the transition table, its counters are exact, a closed session never
    changes, and only closed sessions are ever evicted. *)

From stdpp Require Import prelude strings list.
From Stdlib Require Import Lia ZArith Ascii Sorted.
From S2P Require Import Prelude PyStr PyVal Effects PyTime SessionStore FlowSession.
Import SessionStore FlowSession.

Module FlowSessionFacts.

(** ** Legal histories *)

Definition allowed_from (from : string) : list string :=
  match d_get from ALLOWED_TRANSITIONS with Some l => l | None => [] end.

(** Where a list of transition rows leads from a state of the table. *)
Fixpoint follow (from : string) (rows : list transition_row) : option string :=
  match rows with
  | [] => Some from
  | r :: rows' =>
      if bool_decide (tr_from_state r = if String.eqb from INITIAL_STATE then None else Some from)
         && str_in (tr_to_state r) (allowed_from from)
      then follow (tr_to_state r) rows' else None
  end.

Lemma follow_app from rows rows' :
  follow from (rows ++ rows') = match follow from rows with Some t => follow t rows' | None => None end.
Proof. revert from. induction rows as [|r rows IH]; intros from; simpl; [done|]. by case_match. Qed.

(** Whether the table has an edge from the session's state to the target. *)
Definition can_move (x : session) (to_state : string) : bool :=
  str_in (lower (strip to_state)) UNIFIED_SESSION_STATES
  && str_in (lower (strip to_state)) (allowed_from (s_state x)).

Definition events_total (d : dict activity) : Z := foldr Z.add 0 (map (fun ka => a_events_count (snd ka)) d).

Section invariant.
Context (clock : nat -> Z).

(** ** The invariant of a session

    [pending] counts the event the session still owes: 0 while it is being
    started, 1 from then on. *)
Record session_ok (pending : Z) (key : string) (x : session) : Prop := {
  so_id : s_id x = key;
  so_key : exists hex, key = "flow-" +:+ hex;
  so_user : stripped (s_user_id x) /\ s_user_id x <> "";
  so_created : exists n, s_created_at x = isoformat (clock n);
  so_history : follow INITIAL_STATE (s_transitions x) = Some (s_state x);
  so_channels : s_channels x <> [] /\ Forall (fun c => c ∈ UNIFIED_SESSION_CHANNELS) (s_channels x)
                /\ NoDup (s_channels x);
  so_activity : d_keys (s_channel_activity x) = s_channels x
                /\ Forall (fun ka => 0 <= a_events_count (snd ka)) (s_channel_activity x);
  so_transition_count : t_transition_count (s_telemetry x) = Z.of_nat (length (s_transitions x));
  so_events : t_events_emitted (s_telemetry x)
              = Z.of_nat (length (s_transitions x)) + events_total (s_channel_activity x) + pending;
  so_open : s_state x <> "closed" -> s_closed_at x = None /\ s_duration_ms x = None;
  so_closed : s_state x = "closed" ->
              s_closed_at x = Some (s_updated_at x) /\ exists d, s_duration_ms x = Some d /\ 0 <= d }.

(** Started: some state of the public set, and the bookkeeping of the last
    transition. *)
Record session_wf (key : string) (x : session) : Prop := {
  sw_ok : session_ok 1 key x;
  sw_state : s_state x ∈ UNIFIED_SESSION_STATES;
  sw_last : t_last_state (s_telemetry x) = Some (s_state x) }.

End invariant.

Definition store_wf (P : string -> session -> Prop) (d : dict session) : Prop :=
  NoDup (d_keys d) /\ Forall (fun kx => P (fst kx) (snd kx)) d.

Lemma store_get P d k x : store_wf P d -> d_get k d = Some x -> P k x.
Proof. intros [_ Hf] Hk%d_get_elem. exact (proj1 (Forall_forall _ _) Hf _ Hk). Qed.

Lemma store_set (P : string -> session -> Prop) d k x : store_wf P d -> P k x -> store_wf P (d_set k x d).
Proof. intros [Hn Hf] Hx. split; [eauto with py|]. by apply d_set_Forall. Qed.

Lemma flow_key_ne hex : "flow-" +:+ hex <> "".
Proof. done. Qed.

Lemma states_word t : t ∈ UNIFIED_SESSION_STATES -> lower (strip t) = t /\ t <> INITIAL_STATE /\ t <> "".
Proof. unfold UNIFIED_SESSION_STATES. intros H. repeat (apply elem_of_cons in H as [->|H]; [done|]). by apply elem_of_nil in H. Qed.

Section manager.
Context (clock : nat -> Z) (uuid_hex : nat -> string).
Context (has_emitter : bool) (max_sessions_arg : Z).

Local Abbreviation max_sessions := (max_sessions max_sessions_arg).
Local Abbreviation transition := (transition clock has_emitter).
Local Abbreviation emit_for_session := (emit_for_session has_emitter).

(** ** Runs of the helpers *)

Definition bump (x : session) : session :=
  let t := s_telemetry x in
  set_telemetry (Telemetry (t_events_emitted t + 1) (t_transition_count t) (t_last_transition_at t)
                   (t_last_state t) (t_last_actor t)) x.

Lemma emit_run key x event payload s :
  exists em, emit_for_session key x event payload s
    = (Ok (bump x), State (d_set key (bump x) (st_sessions s)) (st_clock s) (st_uuid s) em).
Proof. unfold emit_for_session, put, emit, when, modify, ret, bind. by destruct has_emitter; eexists. Qed.

(** What an allowed transition makes of a session. *)
Inductive moved (to_state : string) (x : session) : session -> Prop :=
  | Moved (row : transition_row) (dur : option Z) (actor : option string) :
      tr_to_state row = to_state ->
      tr_from_state row = (if String.eqb (s_state x) INITIAL_STATE then None else Some (s_state x)) ->
      match dur with
      | Some d => to_state = "closed" /\ 0 <= d
      | None => to_state = "closed" -> parse_iso (s_created_at x) = None
      end ->
      moved to_state x (bump (apply_transition row dur actor x)).

Lemma transition_run key x to_state reason actor metadata request_id s :
  s_state x <> "" ->
  let '(r, s') := transition key x to_state reason actor metadata request_id s in
  match r with
  | Err _ => can_move x to_state = false /\ s' = s
  | Ok x' => can_move x to_state = true /\ moved (lower (strip to_state)) x x'
             /\ st_sessions s' = d_set key x' (st_sessions s) /\ st_uuid s' = st_uuid s
  end.
Proof.
  intros Hne. unfold transition, can_move. rewrite (str_or_ne (s_state x)) by done.
  set (target := lower (strip to_state)). unfold raise_if, raise, ret, bind at 1 2.
  fold (allowed_from (s_state x)).
  destruct (str_in target UNIFIED_SESSION_STATES); cbn [negb andb]; [|done].
  destruct (str_in target (allowed_from (s_state x))); cbn [negb andb]; [|done].
  unfold utcnow_iso, now_utc, ret, bind at 1 2. cbn [st_sessions st_clock st_uuid st_emitted].
  set (row := Transition _ target _ _ _ _ _).
  destruct (parse_iso (s_created_at x)) as [t|] eqn:Ep; [destruct (String.eqb_spec target "closed") as [Et|Et]|];
    unfold bind;
    match goal with |- context [emit_for_session key ?y ?ev ?pl ?s1] =>
      destruct (emit_run key y ev pl s1) as [em ->] end;
    (split; [done|]; split; [|done]).
  - apply (Moved target x row (Some _) actor); [done | done|]. split; [done | lia].
  - by apply (Moved target x row None actor).
  - by apply (Moved target x row None actor).
Qed.

(** ** Keeping the invariant *)

Lemma moved_ok pending key x x' to_state :
  session_ok clock pending key x -> s_state x <> "closed" -> to_state ∈ UNIFIED_SESSION_STATES ->
  str_in to_state (allowed_from (s_state x)) = true ->
  (forall n, dt_in_range (clock n)) -> moved to_state x x' ->
  session_ok clock pending key x' /\ s_state x' = to_state /\ t_last_state (s_telemetry x') = Some to_state.
Proof.
  intros [] Hopen Hin Hedge Hck [row dur actor Hto Hfrom Hdur]. subst to_state.
  destruct so_created0 as [n Hcr]. split; [|done].
  assert (parse_iso (s_created_at x) = Some (clock n)) as Hp.
  { unfold parse_iso. rewrite Hcr, isoformat_stripped. rewrite (proj2 (is_empty_false _) (isoformat_ne _)).
    by apply isoformat_roundtrip. }
  destruct (so_open0 Hopen) as [Hca Hdm].
  constructor; simpl; try done.
  - by exists n.
  - rewrite follow_app, so_history0. simpl. by rewrite Hfrom, bool_decide_eq_true_2, Hedge.
  - rewrite length_app. simpl. lia.
  - rewrite length_app. simpl. lia.
  - intros Hn. rewrite (proj2 (String.eqb_neq _ _) Hn). split; [done|]. destruct dur; [by destruct Hdur | done].
  - intros Hc. rewrite Hc, String.eqb_refl. split; [done|].
    destruct dur as [d|]; [exists d; by destruct Hdur | rewrite Hp in Hdur; by specialize (Hdur Hc)].
Qed.

Lemma bump_ok key x : session_ok clock 0 key x -> session_ok clock 1 key (bump x).
Proof. intros []. constructor; simpl; try done. lia. Qed.

Lemma events_total_set ch a b d :
  d_get ch d = Some a -> events_total (d_set ch b d) = events_total d - a_events_count a + a_events_count b.
Proof.
  unfold events_total. induction d as [|[c a'] d IH]; simpl; [done|].
  destruct (String.eqb ch c); simpl; [intros [= ->]; lia|]. intros H. rewrite IH by done. lia.
Qed.

Lemma activity_ok key x ch event at_ :
  session_ok clock 1 key x -> s_state x <> "closed" -> ch ∈ s_channels x ->
  session_ok clock 1 key (bump (set_activity ch event at_ x)).
Proof.
  intros [] Hopen Hch. apply bump_ok.
  assert (d_mem ch (s_channel_activity x) = true) as Hm.
  { apply d_mem_keys. by rewrite (proj1 so_activity0). }
  destruct (d_get ch (s_channel_activity x)) as [a|] eqn:Ea; [|by rewrite <- d_mem_false, Hm in Ea].
  constructor; simpl; try done.
  - split; [by rewrite d_keys_set_in by done; apply so_activity0|].
    apply d_set_Forall; [apply so_activity0|]. rewrite Ea. simpl.
    apply d_get_elem, (proj1 (Forall_forall _ _) (proj2 so_activity0)) in Ea. simpl in Ea. lia.
  - rewrite (events_total_set _ a) by done. rewrite Ea. simpl. lia.
Qed.

Lemma normalize_channels_ok channels l :
  normalize_channels channels = Ok l ->
  l <> [] /\ Forall (fun c => c ∈ UNIFIED_SESSION_CHANNELS) l /\ NoDup l.
Proof.
  unfold normalize_channels. set (raw := match channels with Some (_ :: _) => _ | _ => _ end).
  set (items := map _ _). set (norm := match sort_strings (remove_dups items) with [] => _ | _ => _ end).
  assert (norm <> [] /\ NoDup norm) as [Hne Hnd].
  { unfold norm. pose proof (sort_by_perm String.leb (remove_dups items)) as Hp.
    fold (sort_strings (remove_dups items)) in Hp.
    destruct (sort_strings (remove_dups items)); [by split; [|apply NoDup_singleton]|].
    split; [done|]. rewrite Hp. apply NoDup_remove_dups. }
  destruct (List.filter _ norm) eqn:Ef; [|done]. intros [= <-]. split; [done|]. split; [|done].
  apply Forall_forall. intros c Hc. apply str_in_spec. destruct (str_in c _) eqn:Ec; [done|].
  assert (c ∈ List.filter (fun item => negb (str_in item UNIFIED_SESSION_CHANNELS)) norm) as Hf.
  { apply list_elem_of_In, filter_In. rewrite Ec. by split; [apply list_elem_of_In|]. }
  rewrite Ef in Hf. by apply elem_of_nil in Hf.
Qed.

Lemma new_session_ok hex user channels metadata n :
  stripped user -> user <> "" ->
  channels <> [] /\ Forall (fun c => c ∈ UNIFIED_SESSION_CHANNELS) channels /\ NoDup channels ->
  session_ok clock 0 ("flow-" +:+ hex)
    (new_session ("flow-" +:+ hex) user channels metadata (isoformat (clock n))).
Proof.
  intros Hs Hne Hc. constructor; simpl; try done; try by eexists.
  - unfold d_keys. split.
    + clear. induction channels as [|c l IH]; simpl; [done | by f_equal].
    + apply Forall_forall. intros ka Hka. apply list_elem_of_In, in_map_iff in Hka as (c & <- & _). simpl. lia.
  - clear. unfold events_total. rewrite map_map. simpl. induction channels as [|c l IH]; simpl in *; lia.
Qed.

(** ** The invariant of the manager *)
Record flow_inv (s : state) : Prop := {
  fi_store : store_wf (session_wf clock) (st_sessions s);
  fi_capacity : Z.of_nat (length (st_sessions s)) <= max_sessions;
  fi_keys : Forall (fun kx => exists i, (i < st_uuid s)%nat /\ fst kx = "flow-" +:+ uuid_hex i) (st_sessions s) }.

Definition evicted (d : dict session) : dict session := evict_finished "closed" max_sessions d.

Lemma evict_run s :
  store_wf (session_wf clock) (st_sessions s) ->
  evict_closed_if_needed max_sessions_arg s
  = (Ok tt, State (evicted (st_sessions s)) (st_clock s) (st_uuid s) (st_emitted s)).
Proof.
  intros [Hn Hwf]. unfold evict_closed_if_needed, modify, evicted, evict_finished. do 2 f_equal.
  destruct (_ <? max_sessions); [done|].
  assert (map (fun ks => s_id (snd ks)) (oldest_finished "closed" (st_sessions s))
          = map fst (oldest_finished "closed" (st_sessions s))) as ->.
  { apply map_ext_in. intros [k x] Hin%list_elem_of_In%oldest_finished_elem.
    exact (so_id _ _ _ _ (sw_ok _ _ _ (proj1 (Forall_forall _ _) Hwf (k, x) (proj1 Hin)))). }
  apply evict_loop_ext. intros k d Hk. unfold drop_candidate.
  apply oldest_finished_keys in Hk as (x & Hx & _); [|done].
  destruct (so_key _ _ _ _ (sw_ok _ _ _ (store_get _ _ _ _ (conj Hn Hwf) Hx))) as [hex ->].
  change (is_empty ("flow-" +:+ hex)) with false. cbn [negb andb].
  destruct (d_mem _ d) eqn:Em; [done|]. by rewrite d_pop_id.
Qed.

Lemma evicted_inv s :
  flow_inv s -> flow_inv (State (evicted (st_sessions s)) (st_clock s) (st_uuid s) (st_emitted s)).
Proof.
  intros [[Hn Hwf] Hc Hk]. pose proof (evict_sublist "closed" max_sessions (st_sessions s) Hn) as Hsub.
  constructor; simpl; fold (evicted (st_sessions s)) in *.
  - split; [by apply evict_NoDup|]. by eapply sublist_Forall.
  - apply sublist_length in Hsub. lia.
  - by eapply sublist_Forall.
Qed.

(** *** [start_session] *)
Definition initial_of (initial_state : string) : string :=
  str_or (lower (strip (str_or initial_state "created"))) "created".

Definition start_valid (user_id : string) (channels : option (list string)) (initial_state : string) : bool :=
  negb (is_empty (strip user_id)) && is_ok (normalize_channels channels)
  && str_in (initial_of initial_state) UNIFIED_SESSION_STATES.

Context (clock_ok : forall n, dt_in_range (clock n)).

(** The two transitions and the event of a new session. *)
Lemma launch_run key x initial actor m1 request_id ev pl s :
  session_ok clock 0 key x -> s_state x = INITIAL_STATE -> initial ∈ UNIFIED_SESSION_STATES ->
  exists x' s',
    (let* x := transition key x "created" "session_started" actor m1 request_id in
     let* x := (if negb (String.eqb initial "created")
                then transition key x initial "initial_state_requested" actor PNone request_id
                else ret x) in
     emit_for_session key x ev (pl x)) s = (Ok x', s')
    /\ session_wf clock key x' /\ s_state x' = initial /\ s_channels x' = s_channels x /\ s_user_id x' = s_user_id x
    /\ st_sessions s' = d_set key x' (st_sessions s) /\ st_uuid s' = st_uuid s.
Proof using clock_ok.
  intros Hok Hst Hinit. unfold bind at 1.
  pose proof (transition_run key x "created" "session_started" actor m1 request_id s) as H1.
  destruct (transition key x _ _ _ _ _ s) as [[x1|e1] s1]; rewrite Hst in H1; specialize (H1 ltac:(done));
    [|unfold can_move in H1; rewrite Hst in H1; by destruct H1].
  destruct H1 as (_ & Hm1 & Hs1 & Hu1).
  assert (s_channels x1 = s_channels x /\ s_user_id x1 = s_user_id x) as [Hch1 Hus1] by by destruct Hm1.
  destruct (moved_ok 0 key x x1 "created") as (Hok1 & Hst1 & Hl1); try done; [by rewrite Hst | by apply str_in_spec | by rewrite Hst|].
  assert (exists x2 s2, (if negb (String.eqb initial "created")
      then transition key x1 initial "initial_state_requested" actor PNone request_id else ret x1) s1 = (Ok x2, s2)
      /\ session_ok clock 0 key x2 /\ s_state x2 = initial /\ t_last_state (s_telemetry x2) = Some initial
      /\ s_channels x2 = s_channels x /\ s_user_id x2 = s_user_id x
      /\ st_sessions s2 = d_set key x2 (st_sessions s) /\ st_uuid s2 = st_uuid s)
    as (x2 & s2 & Hif & Hok2 & Hst2 & Hl2 & Hch2 & Hus2 & Hs2 & Hu2).
  { destruct (String.eqb_spec initial "created") as [->|Hne]; cbn [negb].
    - exists x1, s1. split_and!; done.
    - pose proof (transition_run key x1 initial "initial_state_requested" actor PNone request_id s1) as H2.
      destruct (transition key x1 _ _ _ _ _ s1) as [[x2|e2] s2]; rewrite Hst1 in H2; specialize (H2 ltac:(done));
      destruct (states_word initial Hinit) as (Hw & _).
      + destruct H2 as (Hcm & Hm2 & Hs2 & Hu2). rewrite Hw in Hm2. unfold can_move in Hcm. rewrite Hw in Hcm.
        bool_prop. destruct (moved_ok 0 key x1 x2 initial) as (Hok2 & Hst2 & Hl2); try done; [by rewrite Hst1|].
        exists x2, s2. assert (s_channels x2 = s_channels x1 /\ s_user_id x2 = s_user_id x1) as [-> ->] by by destruct Hm2.
        split_and!; try done; [|congruence]. rewrite Hs2, Hs1. apply d_set_set.
      + exfalso. destruct H2 as [H2 _]. unfold can_move in H2. rewrite Hw, Hst1 in H2. clear - H2 Hinit Hne.
        unfold UNIFIED_SESSION_STATES in Hinit.
        repeat (apply elem_of_cons in Hinit as [->|Hinit]; [done|]). by apply elem_of_nil in Hinit. }
  unfold bind. rewrite Hif. destruct (emit_run key x2 ev (pl x2) s2) as [em ->]. eexists _, _. split; [done|].
  split; [|simpl; split_and!; try done; by rewrite Hs2, d_set_set].
  constructor; simpl; [by apply bump_ok | by rewrite Hst2 | by rewrite Hst2].
Qed.

Local Abbreviation start_session := (start_session clock uuid_hex has_emitter max_sessions_arg).

Lemma start_run user_id channels metadata initial_state request_id actor s :
  flow_inv s ->
  let key := "flow-" +:+ uuid_hex (st_uuid s) in
  let '(r, s') := start_session user_id channels metadata initial_state request_id actor s in
  match r with
  | Ok x => start_valid user_id channels initial_state = true
            /\ Z.of_nat (length (evicted (st_sessions s))) < max_sessions
            /\ session_wf clock key x /\ s_state x = initial_of initial_state
            /\ s_user_id x = strip user_id /\ normalize_channels channels = Ok (s_channels x)
            /\ st_sessions s' = d_set key x (evicted (st_sessions s)) /\ st_uuid s' = S (st_uuid s)
  | Err _ => start_valid user_id channels initial_state = false /\ s' = s
             \/ start_valid user_id channels initial_state = true
                /\ max_sessions <= Z.of_nat (length (evicted (st_sessions s)))
                /\ st_sessions s' = evicted (st_sessions s) /\ st_uuid s' = S (st_uuid s)
  end.
Proof using clock_ok.
  intros Hinv key. unfold FlowSession.start_session, start_valid. fold (initial_of initial_state).
  unfold raise_if at 1. destruct (is_empty (strip user_id)) eqn:Eu; cbn [negb andb]; [by left|].
  unfold ret at 1, bind at 1, lift. unfold bind at 1.
  destruct (normalize_channels channels) as [chs|e] eqn:Ech; cbn [is_ok andb]; [|by left].
  unfold raise_if at 1. destruct (str_in (initial_of initial_state) UNIFIED_SESSION_STATES) eqn:Ei; cbn [negb]; [|by left].
  unfold ret at 1, bind at 1. unfold new_hex, bind at 1. unfold utcnow_iso, now_utc, ret at 1, bind at 1 2.
  cbn [st_sessions st_clock st_uuid st_emitted]. fold key. unfold bind at 1.
  rewrite evict_run by apply Hinv. cbn [st_sessions st_clock st_uuid st_emitted].
  unfold gets, bind at 1. cbn [st_sessions]. unfold raise_if at 1.
  destruct (max_sessions <=? _) eqn:Ec; bool_prop; [by right|].
  unfold ret at 1, bind at 1. unfold put, modify, bind at 1. cbn [st_sessions st_clock st_uuid st_emitted].
  set (x0 := new_session key _ chs _ _).
  match goal with |- context [State (d_set key x0 ?d) ?c ?u ?em] => set (s0 := State (d_set key x0 d) c u em) end.
  match goal with |- context [bind (transition key x0 _ _ _ ?m1 _) _ s0] =>
    destruct (launch_run key x0 (initial_of initial_state) actor m1 request_id "flow_session_started"
      (fun x => [("session_id", PStr key); ("user_id", PStr (strip user_id)); ("state", PStr (s_state x));
                 ("channels", PList (map PStr chs)); ("actor", pnone_or_str actor);
                 ("request_id", pnone_or_str request_id)]) s0)
      as (x' & s' & -> & Hwf & Hst & Hch & Hus & Hs' & Hu') end.
  - apply new_session_ok; [apply strip_stripped | by apply is_empty_false | by apply (normalize_channels_ok channels)].
  - done.
  - by apply str_in_spec.
  - split_and!; try done; [by rewrite Hch | by rewrite Hs'; simpl; rewrite d_set_set].
Qed.

(** ** Histories of calls *)
Inductive call : Type :=
  | Start (user_id : string) (channels : option (list string)) (metadata : pyval) (initial_state : string)
      (request_id actor : option string)
  | Move (session_id to_state reason : string) (actor : option string) (metadata : pyval)
      (request_id : option string)
  | Record_ (session_id channel event : string) (actor : option string) (metadata : pyval)
      (request_id : option string)
  | Get (session_id : string)
  | ListAll (user_id state_ : option string) (limit : Z).

Definition run_call (c : call) (s : state) : state :=
  match c with
  | Start u ch m i rq a => snd (start_session u ch m i rq a s)
  | Move k t r a m rq => snd (transition_session clock has_emitter k t r a m rq s)
  | Record_ k ch e a m rq => snd (record_activity clock has_emitter k ch e a m rq s)
  | Get k => snd (get_session k s)
  | ListAll u t l => snd (list_sessions u t l s)
  end.

Definition run_calls (cs : list call) (s : state) : state := foldl (fun s c => run_call c s) s cs.

Definition initial (c u : nat) : state := State [] c u [].

(** What one call can do to one session. *)
Inductive change (x : session) : option session -> Prop :=
  | Unchanged : change x (Some x)
  | Moves t x' : can_move x t = true -> moved (lower (strip t)) x x' -> change x (Some x')
  | Acts ch event at_ : s_state x <> "closed" -> ch ∈ s_channels x ->
      change x (Some (bump (set_activity ch event at_ x)))
  | Evicted : s_state x = "closed" -> change x None.

(** What one call can do to the store. *)
Record effect (s s' : state) : Prop := {
  ef_old : forall k x, d_get k (st_sessions s) = Some x ->
           k <> "flow-" +:+ uuid_hex (st_uuid s) -> change x (d_get k (st_sessions s'));
  ef_new : forall k, d_get k (st_sessions s) = None ->
           k <> "flow-" +:+ uuid_hex (st_uuid s) -> d_get k (st_sessions s') = None;
  ef_uuid : (st_uuid s <= st_uuid s')%nat }.

Lemma wf_state_ne k x : session_wf clock k x -> s_state x <> "".
Proof. intros H%sw_state Hs. rewrite Hs in H. by apply str_in_spec in H. Qed.

Lemma keys_bump s u em c :
  (st_uuid s <= u)%nat -> flow_inv s -> flow_inv (State (st_sessions s) c u em).
Proof.
  intros Hu []. constructor; [done | done|]. simpl. eapply Forall_impl; [done|].
  intros kx (i & Hi & Hk). exists i. split; [lia | done].
Qed.

(** Replacing a session the store already has. *)
Lemma replace_inv s k x x' c em :
  flow_inv s -> d_get k (st_sessions s) = Some x -> session_wf clock k x' ->
  flow_inv (State (d_set k x' (st_sessions s)) c (st_uuid s) em).
Proof.
  intros [] Hk Hx. constructor; simpl.
  - by apply store_set.
  - rewrite d_set_length_old by (by eapply d_get_Some_mem). done.
  - apply d_set_Forall; [done|]. apply d_get_elem, (proj1 (Forall_forall _ _) fi_keys0) in Hk. done.
Qed.

Lemma replace_effect s s' k x x' :
  d_get k (st_sessions s) = Some x -> change x (Some x') -> st_sessions s' = d_set k x' (st_sessions s) ->
  st_uuid s' = st_uuid s -> effect s s'.
Proof.
  intros Hk Hc Hs Hu. constructor; [| |lia].
  - intros k' y Hy _. rewrite Hs, d_get_set.
    destruct (String.eqb_spec k k') as [->|]; [by simplify_eq | rewrite Hy; constructor].
  - intros k' Hn _. rewrite Hs, d_get_set. destruct (String.eqb_spec k k') as [->|]; congruence.
Qed.

Lemma same_effect s s' : st_sessions s' = st_sessions s -> st_uuid s' = st_uuid s -> effect s s'.
Proof. intros Hs Hu. constructor; [| |lia]; intros k; rewrite Hs; [|done]. intros x Hx _. rewrite Hx. constructor. Qed.

Lemma can_move_open x t : can_move x t = true -> s_state x <> "closed".
Proof. intros H Hc. unfold can_move in H. rewrite Hc in H. by rewrite andb_false_r in H. Qed.

Lemma moved_wf k x t x' :
  session_wf clock k x -> can_move x t = true -> moved (lower (strip t)) x x' -> session_wf clock k x'.
Proof using clock_ok.
  intros [Hok Hst _] Hc Hm. pose proof (can_move_open _ _ Hc) as Hopen. unfold can_move in Hc. bool_prop.
  assert (lower (strip t) ∈ UNIFIED_SESSION_STATES) as Hin by by apply str_in_spec.
  destruct (moved_ok 1 k x x' _ Hok Hopen Hin ltac:(done) clock_ok Hm) as (H1 & H2 & H3).
  constructor; [done | by rewrite H2 | by rewrite H3, H2].
Qed.

Lemma start_step user_id channels metadata initial_state request_id actor s :
  flow_inv s ->
  let s' := snd (start_session user_id channels metadata initial_state request_id actor s) in
  flow_inv s' /\ effect s s'.
Proof using clock_ok.
  intros Hinv. pose proof (start_run user_id channels metadata initial_state request_id actor s Hinv) as Hrun.
  simpl in Hrun. set (key := "flow-" +:+ uuid_hex (st_uuid s)) in *.
  pose proof (evicted_inv s Hinv) as Hev.
  assert (forall k x, d_get k (st_sessions s) = Some x -> change x (d_get k (evicted (st_sessions s)))) as Hch.
  { intros k x Hx. destruct (evict_get "closed" max_sessions (st_sessions s) k) as [Hg | (Hg & (y & Hy & Hc) & _)];
      [apply Hinv | |]; unfold evicted; rewrite Hg; [rewrite Hx; constructor|].
    rewrite Hx in Hy. simplify_eq. by constructor. }
  assert (forall k, d_get k (st_sessions s) = None -> d_get k (evicted (st_sessions s)) = None) as Hnone.
  { intros k Hx. destruct (evict_get "closed" max_sessions (st_sessions s) k) as [Hg | (Hg & _ & _)];
      [apply Hinv | |]; unfold evicted; congruence. }
  destruct (start_session _ _ _ _ _ _ s) as [[x|e] s']; simpl.
  - destruct Hrun as (_ & Hlen & Hwf & _ & _ & _ & Hs & Hu). split.
    + destruct Hev as [Hst Hcap Hkeys]. simpl in *. constructor; rewrite ?Hs, ?Hu.
      * by apply store_set.
      * destruct (d_mem key (evicted (st_sessions s))) eqn:E;
          [rewrite d_set_length_old by done; lia | rewrite d_set_length_new by done; lia].
      * apply d_set_Forall; [|by exists (st_uuid s); split; [lia|]].
        eapply Forall_impl; [done|]. intros kx (i & Hi & Hk). exists i. split; [lia | done].
    + constructor; [| |lia].
      * intros k y Hy Hne. rewrite Hs, d_get_set_ne by done. by apply Hch.
      * intros k Hy Hne. rewrite Hs, d_get_set_ne by done. by apply Hnone.
  - destruct Hrun as [[_ ->] | (_ & _ & Hs & Hu)]; [split; [done | by apply same_effect]|]. split.
    + destruct s' as [d c u em]. simpl in *. subst d u. refine (keys_bump _ (S (st_uuid s)) em c _ Hev). simpl. lia.
    + constructor; [| |lia]; intros k; rewrite Hs; [intros y Hy _; by apply Hch | intros Hy _; by apply Hnone].
Qed.

Lemma transition_session_run session_id to_state reason actor metadata request_id s :
  flow_inv s ->
  let '(r, s') := transition_session clock has_emitter session_id to_state reason actor metadata request_id s in
  match d_get (strip session_id) (st_sessions s) with
  | Some x =>
      match r with
      | Ok x' => can_move x to_state = true /\ moved (lower (strip to_state)) x x'
                 /\ st_sessions s' = d_set (strip session_id) x' (st_sessions s) /\ st_uuid s' = st_uuid s
      | Err _ => can_move x to_state = false /\ s' = s
      end
  | None => is_ok r = false /\ s' = s
  end.
Proof.
  intros Hinv. unfold transition_session, raise_if. destruct (is_empty (strip session_id)) eqn:E.
  { cbn. apply is_empty_true in E. destruct (d_get _ _) as [x|] eqn:Ex; [|done]. exfalso.
    apply (store_get _ _ _ _ (fi_store _ Hinv)) in Ex. destruct (so_key _ _ _ _ (sw_ok _ _ _ Ex)) as [hex Hk].
    rewrite E in Hk. done. }
  unfold ret at 1, bind at 1, require_session, find, gets, raise, ret, bind at 1 2.
  destruct (d_get (strip session_id) (st_sessions s)) as [x|] eqn:Ex; [|done].
  apply (transition_run (strip session_id) x). eapply wf_state_ne, store_get; [apply Hinv | done].
Qed.

Lemma move_step session_id to_state reason actor metadata request_id s :
  flow_inv s ->
  let s' := snd (transition_session clock has_emitter session_id to_state reason actor metadata request_id s) in
  flow_inv s' /\ effect s s'.
Proof using clock_ok.
  intros Hinv. pose proof (transition_session_run session_id to_state reason actor metadata request_id s Hinv) as Hrun.
  destruct (transition_session _ _ _ _ _ _ _ _ s) as [r s']. simpl.
  destruct (d_get (strip session_id) (st_sessions s)) as [x|] eqn:Ex.
  - destruct r as [x'|e]; [|destruct Hrun as [_ ->]; split; [done | by apply same_effect]].
    destruct Hrun as (Hc & Hm & Hs & Hu). split.
    + destruct s' as [d c u em]. simpl in *. subst. eapply replace_inv; [done | done|].
      eapply moved_wf; [|done | done]. by eapply store_get; [apply Hinv|].
    + eapply replace_effect; [done | by econstructor | done | done].
  - destruct Hrun as [_ ->]. split; [done | by apply same_effect].
Qed.

Definition record_valid (x : session) (channel event : string) : bool :=
  str_in (lower (strip channel)) UNIFIED_SESSION_CHANNELS && negb (is_empty (strip event))
  && negb (String.eqb (s_state x) "closed") && str_in (lower (strip channel)) (s_channels x).

Lemma record_run session_id channel event actor metadata request_id s :
  flow_inv s ->
  let '(r, s') := record_activity clock has_emitter session_id channel event actor metadata request_id s in
  match r with
  | Ok x' => exists x at_, d_get (strip session_id) (st_sessions s) = Some x /\ record_valid x channel event = true
               /\ x' = bump (set_activity (lower (strip channel)) (strip event) at_ x)
               /\ st_sessions s' = d_set (strip session_id) x' (st_sessions s) /\ st_uuid s' = st_uuid s
  | Err _ => s' = s /\ forall x, d_get (strip session_id) (st_sessions s) = Some x -> record_valid x channel event = false
  end.
Proof.
  intros Hinv. unfold record_activity, record_valid, raise_if, raise, ret.
  unfold bind at 1. destruct (is_empty (strip session_id)) eqn:E.
  { split; [done|]. intros x Hx. apply is_empty_true in E. exfalso.
    apply (store_get _ _ _ _ (fi_store _ Hinv)) in Hx. destruct (so_key _ _ _ _ (sw_ok _ _ _ Hx)) as [hex Hk].
    rewrite E in Hk. done. }
  unfold bind at 1. destruct (str_in (lower (strip channel)) UNIFIED_SESSION_CHANNELS); cbn [negb andb]; [|done].
  unfold bind at 1. destruct (is_empty (strip event)); cbn [negb andb]; [done|].
  unfold require_session, find, gets, raise, ret. unfold bind at 1 2.
  destruct (d_get (strip session_id) (st_sessions s)) as [x|] eqn:Ex; [|by split].
  unfold bind at 1. destruct (String.eqb (s_state x) "closed") eqn:Ec.
  { split; [done|]. intros ? [= <-]. by rewrite Ec. }
  unfold bind at 1. destruct (str_in (lower (strip channel)) (s_channels x)) eqn:Ech; cbn [negb].
  2: { split; [done|]. intros ? [= <-]. by rewrite Ech, andb_false_r. }
  unfold utcnow_iso, now_utc, ret, bind. cbn [st_sessions st_clock st_uuid st_emitted].
  match goal with |- context [emit_for_session ?k ?y ?ev ?pl ?s1] =>
      destruct (emit_run k y ev pl s1) as [em ->] end.
  eexists x, _. split_and!; try done. by rewrite Ec, Ech.
Qed.

Lemma record_step session_id channel event actor metadata request_id s :
  flow_inv s ->
  let s' := snd (record_activity clock has_emitter session_id channel event actor metadata request_id s) in
  flow_inv s' /\ effect s s'.
Proof.
  intros Hinv. pose proof (record_run session_id channel event actor metadata request_id s Hinv) as Hrun.
  destruct (record_activity _ _ _ _ _ _ _ _ s) as [[x'|e] s']; simpl.
  - destruct Hrun as (x & at_ & Ex & Hv & -> & Hs & Hu). unfold record_valid in Hv. bool_prop.
    assert (lower (strip channel) ∈ s_channels x) as Hch by by apply str_in_spec.
    pose proof (store_get _ _ _ _ (fi_store _ Hinv) Ex) as [Hok Hst Hl]. split.
    + destruct s' as [d c u em]. simpl in *. subst d u. eapply replace_inv; [done | done|].
      constructor; [by apply activity_ok | done | done].
    + eapply replace_effect; [done | by constructor | done | done].
  - destruct Hrun as [-> _]. split; [done | by apply same_effect].
Qed.

Lemma call_step c s : flow_inv s -> flow_inv (run_call c s) /\ effect s (run_call c s).
Proof using clock_ok.
  intros Hinv. destruct c; [by apply start_step | by apply move_step | by apply record_step | |];
    unfold run_call, get_session, require_session, find, list_sessions, raise_if, raise, gets, ret, bind;
    repeat case_match; simplify_eq; simpl; (split; [done | by apply same_effect]).
Qed.

Lemma calls_inv cs s : flow_inv s -> flow_inv (run_calls cs s).
Proof using clock_ok.
  revert s. induction cs as [|c cs IH]; intros s Hinv; [done|]. apply IH. by apply call_step.
Qed.

Lemma initial_inv c u : flow_inv (initial c u).
Proof.
  constructor; simpl; [split; constructor | | constructor].
  unfold FlowSession.max_sessions. lia.
Qed.

(** A key of the store was drawn before, so it is not the next one. *)
Lemma old_key s k x :
  (forall i j, uuid_hex i = uuid_hex j -> i = j) -> flow_inv s -> d_get k (st_sessions s) = Some x ->
  k <> "flow-" +:+ uuid_hex (st_uuid s).
Proof.
  intros Hinj [_ _ Hk] Hx%d_get_elem. apply (proj1 (Forall_forall _ _) Hk) in Hx as (i & Hi & He). simpl in He. subst.
  intros Heq. injection Heq as Heq. apply Hinj in Heq. lia.
Qed.

(** *** Following one session through the calls *)

Definition drawn (k : string) (s : state) : Prop := exists i, (i < st_uuid s)%nat /\ k = "flow-" +:+ uuid_hex i.

Lemma drawn_old s k : (forall i j, uuid_hex i = uuid_hex j -> i = j) -> drawn k s -> k <> "flow-" +:+ uuid_hex (st_uuid s).
Proof. intros Hinj (i & Hi & ->) [=Heq]. apply Hinj in Heq. lia. Qed.

Lemma get_drawn s k x : flow_inv s -> d_get k (st_sessions s) = Some x -> drawn k s.
Proof. intros [_ _ Hk] Hx%d_get_elem. exact (proj1 (Forall_forall _ _) Hk _ Hx). Qed.

(** [x'] continues [x]: same owner and channels, a longer history. *)
Record continues (x x' : session) : Prop := {
  ct_user : s_user_id x' = s_user_id x;
  ct_channels : s_channels x' = s_channels x;
  ct_created : s_created_at x' = s_created_at x;
  ct_history : s_transitions x `prefix_of` s_transitions x';
  ct_final : s_state x = "closed" -> x' = x }.

Lemma change_continues x x' : change x (Some x') -> continues x x'.
Proof.
  inversion 1 as [|t y Hc Hm| |]; subst; [by constructor | |by constructor].
  pose proof (can_move_open _ _ Hc). destruct Hm. constructor; simpl; try done. by eexists.
Qed.

Lemma continues_trans x y z : continues x y -> continues y z -> continues x z.
Proof.
  intros [] []. constructor; try congruence; [by etrans|]. intros Hc.
  rewrite ct_final1; [by apply ct_final0|]. by rewrite (ct_final0 Hc).
Qed.

Lemma gone_stays cs s k :
  (forall i j, uuid_hex i = uuid_hex j -> i = j) -> flow_inv s -> drawn k s -> d_get k (st_sessions s) = None ->
  d_get k (st_sessions (run_calls cs s)) = None.
Proof using clock_ok.
  intros Hinj. revert s. induction cs as [|c cs IH]; intros s Hinv Hd Hn; [done|].
  destruct (call_step c s Hinv) as [Hinv' Hef]. apply (IH (run_call c s)); [done | |].
  - destruct Hd as (i & Hi & ->). exists i. split; [|done]. pose proof (ef_uuid _ _ Hef). lia.
  - by apply (ef_new _ _ Hef); [|apply drawn_old].
Qed.

Lemma follow_session cs s k x :
  (forall i j, uuid_hex i = uuid_hex j -> i = j) -> flow_inv s -> d_get k (st_sessions s) = Some x ->
  match d_get k (st_sessions (run_calls cs s)) with
  | Some x' => continues x x'
  | None => exists cs1 cs2 x', cs = cs1 ++ cs2 /\ d_get k (st_sessions (run_calls cs1 s)) = Some x'
                               /\ s_state x' = "closed" /\ continues x x'
  end.
Proof using clock_ok.
  intros Hinj. revert s x. induction cs as [|c cs IH]; intros s x Hinv Hx.
  { simpl. rewrite Hx. by constructor. }
  destruct (call_step c s Hinv) as [Hinv' Hef]. pose proof (get_drawn _ _ _ Hinv Hx) as Hd.
  pose proof (ef_old _ _ Hef k x Hx (drawn_old _ _ Hinj Hd)) as Hch.
  change (run_calls (c :: cs) s) with (run_calls cs (run_call c s)).
  destruct (d_get k (st_sessions (run_call c s))) as [y|] eqn:Ey.
  - apply change_continues in Hch. specialize (IH _ _ Hinv' Ey).
    destruct (d_get k (st_sessions (run_calls cs (run_call c s)))) as [z|]; [by eapply continues_trans|].
    destruct IH as (cs1 & cs2 & z & -> & Hz & Hcl & Hct). exists (c :: cs1), cs2, z.
    split_and!; try done. by eapply continues_trans.
  - rewrite gone_stays; try done; [|destruct Hd as (i & Hi & ->); exists i; split; [|done]; pose proof (ef_uuid _ _ Hef); lia].
    inversion Hch. by exists [], (c :: cs), x.
Qed.

(** Room for a new session: spare capacity, or a closed session to evict. *)
Lemma room_iff s :
  flow_inv s ->
  Z.of_nat (length (evicted (st_sessions s))) < max_sessions
  <-> Z.of_nat (length (st_sessions s)) < max_sessions
      \/ exists k x, d_get k (st_sessions s) = Some x /\ s_state x = "closed".
Proof. intros [[Hn _] Hcap _]. exact (evict_room_iff "closed" max_sessions (st_sessions s) Hn Hcap). Qed.

(** ** Theorems *)

(** After any sequence of calls the manager holds at most
    [max_sessions] sessions, and every one of them is lawful: its transition
    rows form a path of the transition table from the initial state to its
    current state, its transition and event counters count exactly the
    transitions and the channel events, its activity rows are those of its
    channels, and it has a close time and a duration exactly when closed. *)
Theorem flow_sessions_lawful cs c u :
  let s := run_calls cs (initial c u) in
  Z.of_nat (length (st_sessions s)) <= max_sessions
  /\ forall k x, d_get k (st_sessions s) = Some x -> session_wf clock k x.
Proof using clock_ok.
  intros s. pose proof (calls_inv cs (initial c u) (initial_inv c u)) as Hinv. split; [apply Hinv|].
  intros k x. apply store_get, Hinv.
Qed.

(** Sessions are never lost or rewritten: whatever calls follow, a
    session keeps its owner, its channels and its history so far, a closed
    session stays exactly as it is, and a session disappears only after it
    was closed.  Session ids are distinct. *)
Theorem flow_history_kept cs cs' c u k x :
  (forall i j, uuid_hex i = uuid_hex j -> i = j) ->
  let s := run_calls cs (initial c u) in
  d_get k (st_sessions s) = Some x ->
  match d_get k (st_sessions (run_calls cs' s)) with
  | Some x' => continues x x'
  | None => exists cs1 cs2 x', cs' = cs1 ++ cs2 /\ d_get k (st_sessions (run_calls cs1 s)) = Some x'
                               /\ s_state x' = "closed" /\ continues x x'
  end.
Proof using clock_ok. intros Hinj s Hx. apply follow_session; [done | apply calls_inv, initial_inv | done]. Qed.

(** A transition is accepted exactly when the session exists and the
    table has the edge; then the session is in the target state, one row
    longer, and nothing else changes; a refused transition changes nothing. *)
Theorem flow_transition_outcome cs c u session_id to_state reason actor metadata request_id :
  let s := run_calls cs (initial c u) in
  let '(r, s') := transition_session clock has_emitter session_id to_state reason actor metadata request_id s in
  match d_get (strip session_id) (st_sessions s) with
  | Some x =>
      is_ok r = can_move x to_state
      /\ match r with
         | Ok x' => s_state x' = lower (strip to_state) /\ length (s_transitions x') = S (length (s_transitions x))
                    /\ st_sessions s' = d_set (strip session_id) x' (st_sessions s)
         | Err _ => s' = s
         end
  | None => is_ok r = false /\ s' = s
  end.
Proof using clock_ok.
  intros s. pose proof (transition_session_run session_id to_state reason actor metadata request_id s
    (calls_inv cs _ (initial_inv c u))) as H.
  destruct (transition_session _ _ _ _ _ _ _ _ s) as [r s']. destruct (d_get _ _) as [x|]; [|done].
  destruct r as [x'|e]; [|by destruct H as [-> ->]]. destruct H as (-> & Hm & Hs & _). split; [done|].
  destruct Hm as [row dur a <-]. simpl. rewrite length_app. simpl. split_and!; [done | lia | done].
Qed.

(** Starting a session succeeds exactly when the user is named, the
    channels and the initial state are valid, and there is spare capacity or
    a closed session to evict; the new session is lawful, belongs to that
    user and is in the state asked for. *)
Theorem flow_start_outcome cs c u user_id channels metadata initial_state request_id actor :
  let s := run_calls cs (initial c u) in
  let '(r, s') := start_session user_id channels metadata initial_state request_id actor s in
  (is_ok r = true
   <-> start_valid user_id channels initial_state = true
       /\ (Z.of_nat (length (st_sessions s)) < max_sessions
           \/ exists k x, d_get k (st_sessions s) = Some x /\ s_state x = "closed"))
  /\ match r with
     | Ok x => d_get (s_id x) (st_sessions s') = Some x /\ session_wf clock (s_id x) x
               /\ s_user_id x = strip user_id /\ s_state x = initial_of initial_state
     | Err _ => True
     end.
Proof using clock_ok.
  intros s. pose proof (calls_inv cs _ (initial_inv c u)) as Hinv. fold s in Hinv. pose proof (room_iff s Hinv) as Hroom.
  pose proof (start_run user_id channels metadata initial_state request_id actor s Hinv) as H. simpl in H.
  destruct (start_session _ _ _ _ _ _ s) as [[x|e] s'].
  - destruct H as (Hv & Hr & Hwf & Hst & Hu & _ & Hs & _). split; [split; [|done]; intros _; split; [done | by apply Hroom]|].
    pose proof (so_id _ _ _ _ (sw_ok _ _ _ Hwf)) as ->. rewrite Hs, d_get_set_eq. done.
  - split; [|done]. split; [done|]. intros [Hv Hr%Hroom]. destruct H as [[Hv' _] | (_ & Hr' & _)]; [congruence | lia].
Qed.

(** Listing returns the newest matching sessions first: at most the
    clamped limit, only sessions of the user and in the state asked for, in
    descending order of update time, and all of them when they fit. *)
Theorem flow_list_newest user_id state_ limit s :
  match fst (list_sessions user_id state_ limit s) with
  | Ok items =>
      let user := str_or_none (strip (opt_str user_id)) in
      let st := str_or_none (lower (strip (opt_str state_))) in
      let cap := Z.max 1 (Z.min limit 2000) in
      let matching := List.filter (keep_row user st) (newest_first (d_values (st_sessions s))) in
      items = take (Z.to_nat cap) matching /\ Z.of_nat (length items) <= cap
      /\ StronglySorted (fun a b => String.leb (s_updated_at b) (s_updated_at a) = true) items
      /\ matching ≡ₚ List.filter (keep_row user st) (d_values (st_sessions s))
  | Err _ => exists t, str_or_none (lower (strip (opt_str state_))) = Some t /\ str_in t UNIFIED_SESSION_STATES = false
  end.
Proof.
  unfold list_sessions, raise_if, raise, gets, ret, bind.
  destruct (str_or_none (lower (strip (opt_str state_)))) as [t|];
    [destruct (str_in t UNIFIED_SESSION_STATES) eqn:Et; cbn [negb fst]; [|by exists t]|]; cbn [fst];
    (rewrite select_rows_spec by (simpl; lia); cbn [app length]; rewrite Nat.sub_0_r;
     split; [done|]; split; [rewrite length_take; lia|]; split;
     [|apply Permutation_filter, sort_by_perm]; apply sorted_take, sorted_filter; exact (newest_first_sorted (d_values (st_sessions s)))).
Qed.
End manager.

(** ** Witnesses *)

Definition demo_clock (n : nat) : Z := 1700000000000000 + 1000 * Z.min (Z.of_nat n) 100.
Definition demo_hex (n : nat) : string := Nat.iter n (String "a") "".
Definition demo_calls : list call :=
  [Start "ann" None PNone "created" None None;
   Start "bob" (Some ["Voice"; "text"]) PNone "planning" None None;
   Move "flow-" "acting" "go" None PNone None;
   Record_ "flow-a" "voice" "utterance" None PNone None;
   Move "flow-" "closed" "done" None PNone None].
Local Abbreviation demo_run cs := (run_calls demo_clock demo_hex true 2 cs (initial 0 0)).
Definition demo_next : list call := [Start "cat" None PNone "created" None None].

Lemma flow_demo_clock_ok n : dt_in_range (demo_clock n).
Proof.
  unfold dt_in_range, dt_day, demo_clock.
  replace (_ / us_per_day) with 19675; [vm_compute; by split|].
  apply Z.div_unique with (r := 1700000000000000 + 1000 * Z.min (Z.of_nat n) 100 - 19675 * 86400000000); [left|];
    unfold us_per_day, us_per_hour, us_per_min, us_per_sec; lia.
Qed.

Lemma flow_demo_hex_inj i j : demo_hex i = demo_hex j -> i = j.
Proof.
  unfold demo_hex. revert j. induction i as [|i IH]; intros [|j]; simpl; try done.
  intros [=H]. f_equal. by apply IH.
Qed.

(** A session of a concrete store, with its state. *)
Lemma flow_demo_get k d t :
  option_map s_state (d_get k d) = Some t -> exists x, d_get k d = Some x /\ s_state x = t.
Proof. destruct (d_get k d) as [x|]; [|done]. intros [=]. by exists x. Qed.

Lemma flow_sessions_lawful_witness :
  exists x, d_get "flow-" (st_sessions (demo_run demo_calls)) = Some x
            /\ s_state x = "closed" /\ session_wf demo_clock "flow-" x.
Proof.
  destruct (flow_demo_get "flow-" (st_sessions (demo_run demo_calls)) "closed") as (x & Hx & Hs); [vm_compute; reflexivity|].
  exists x. split; [exact Hx|]. split; [exact Hs|].
  pose proof (flow_sessions_lawful demo_clock demo_hex true 2 flow_demo_clock_ok demo_calls 0 0) as H. 
  exact (proj2 H "flow-" x Hx).
Defined.

Lemma flow_history_kept_witness :
  exists x, d_get "flow-a" (st_sessions (demo_run demo_calls)) = Some x
  /\ match d_get "flow-a" (st_sessions (run_calls demo_clock demo_hex true 2 demo_next (demo_run demo_calls))) with
     | Some x' => continues x x'
     | None => False
     end.
Proof.
  destruct (flow_demo_get "flow-a" (st_sessions (demo_run demo_calls)) "planning") as (x & Hx & Hs); [vm_compute; reflexivity|].
  exists x. split; [exact Hx|].
  assert (d_mem "flow-a" (st_sessions (run_calls demo_clock demo_hex true 2 demo_next (demo_run demo_calls))) = true)
    as Hm by (vm_compute; reflexivity).
  pose proof (flow_history_kept demo_clock demo_hex true 2 flow_demo_clock_ok demo_calls demo_next 0 0 "flow-a" x
    flow_demo_hex_inj) as H. cbv zeta in H. unfold d_mem in *. specialize (H Hx).
  destruct (d_get "flow-a" (st_sessions (run_calls demo_clock demo_hex true 2 demo_next _))); [exact H | discriminate Hm].
Defined.

Lemma flow_transition_outcome_witness :
  is_ok (fst (transition_session demo_clock true " flow-a " "Acting" "" None PNone None (demo_run demo_calls))) = true
  /\ is_ok (fst (transition_session demo_clock true "flow-a" "listening" "" None PNone None (demo_run demo_calls))) = false.
Proof.
  pose proof (flow_transition_outcome demo_clock demo_hex true 2 flow_demo_clock_ok demo_calls 0 0
    " flow-a " "Acting" "" None PNone None) as H. cbv zeta in H.
  split; [|vm_compute; reflexivity].
  destruct (flow_demo_get "flow-a" (st_sessions (demo_run demo_calls)) "planning") as (x & Hx & Hs); [vm_compute; reflexivity|].
 change (strip " flow-a ") with "flow-a" in H. rewrite Hx in H.
  destruct (transition_session _ _ _ _ _ _ _ _ _) as [r s']. cbn [fst].
  destruct H as [-> _]. unfold can_move. rewrite Hs. vm_compute. reflexivity.
Defined.

Lemma flow_start_outcome_witness :
  is_ok (fst (start_session demo_clock demo_hex true 2 "cat" None PNone "created" None None (demo_run demo_calls))) = true.
Proof.
  pose proof (flow_start_outcome demo_clock demo_hex true 2 flow_demo_clock_ok demo_calls 0 0
    "cat" None PNone "created" None None) as H. cbv zeta in H.
  destruct (flow_demo_get "flow-" (st_sessions (demo_run demo_calls)) "closed") as (x & Hx & Hs); [vm_compute; reflexivity|].
  destruct (start_session _ _ _ _ _ _ _ _ _ _ _) as [r s']. apply (proj1 H).
  split; [vm_compute; reflexivity|]. right. exists "flow-", x. split; [exact Hx | exact Hs].
Defined.

End FlowSessionFacts.
