(* ===== verification/VoiceSession.v ===== *)
(** The voice session manager (voice/session_manager.py,
    [VoiceSessionManager]): push-to-talk sessions with their state machine and
    telemetry.

    As in the unified session manager, a session is the object the
    [_sessions] dict holds, and the state records the calls made to the
    telemetry emitter, whose exceptions are swallowed. *)

From stdpp Require Import prelude strings list.
From Stdlib Require Import Lia ZArith Ascii.
From S2P Require Import Prelude PyStr PyVal Effects PyTime SessionStore.
Import SessionStore.

Module VoiceSession.

Definition VOICE_SESSION_MODES : list string := ["ptt"].
Definition VOICE_SESSION_STATES : list string := ["created"; "listening"; "stopping"; "stopped"].
Definition INITIAL_STATE : string := "__init__".
Definition ALLOWED_TRANSITIONS : dict (list string) :=
  [(INITIAL_STATE, ["created"]);
   ("created", ["listening"; "stopping"; "stopped"]);
   ("listening", ["stopping"]);
   ("stopping", ["stopped"]);
   ("stopped", [])].

Record transition_row : Type := Transition {
  tr_from_state : option string;
  tr_to_state : string;
  tr_at : string;
  tr_reason : string;
  tr_metadata : pydict }.

Record telemetry : Type := Telemetry {
  t_events_emitted : Z;
  t_transition_count : Z;
  t_last_event : option string;
  t_last_transition_at : option string;
  t_last_state : option string }.

Record session : Type := Session {
  s_id : string;
  s_user_id : string;
  s_mode : string;
  s_state : string;
  s_input_device : option string;
  s_sample_rate_hz : Z;
  s_language : option string;
  s_metadata : pydict;
  s_started_at : string;
  s_updated_at : string;
  s_stopped_at : option string;
  s_duration_ms : option Z;
  s_transitions : list transition_row;
  s_telemetry : telemetry }.

#[export] Instance voice_row : SessionRow session :=
  {| row_id := s_id; row_user := s_user_id; row_state := s_state; row_updated_at := s_updated_at |}.

Definition set_telemetry (t : telemetry) (s : session) : session :=
  Session (s_id s) (s_user_id s) (s_mode s) (s_state s) (s_input_device s) (s_sample_rate_hz s) (s_language s)
    (s_metadata s) (s_started_at s) (s_updated_at s) (s_stopped_at s) (s_duration_ms s) (s_transitions s) t.

Definition set_state (st : string) (s : session) : session :=
  Session (s_id s) (s_user_id s) (s_mode s) st (s_input_device s) (s_sample_rate_hz s) (s_language s)
    (s_metadata s) (s_started_at s) (s_updated_at s) (s_stopped_at s) (s_duration_ms s) (s_transitions s) (s_telemetry s).

Record state : Type := State {
  st_sessions : dict session;
  st_clock : nat;
  st_uuid : nat;
  st_emitted : list (string * pydict) }.

(** [_optional_str] *)
Definition optional_str (value : option string) : option string := str_or_none (strip (opt_str value)).

(** [s.replace(pat, r)] for a non-empty pattern; [skip] counts the characters
    of a match still to be passed over. *)
Fixpoint replace_go (pat r : string) (skip : nat) (s : string) : string :=
  match s with
  | EmptyString => ""
  | String c s' =>
      match skip with
      | S k => replace_go pat r k s'
      | O => if starts_with pat s then r +:+ replace_go pat r (String.length pat - 1) s'
             else String c (replace_go pat r 0 s')
      end
  end.

(** The text of [_utcnow_iso] *)
Definition iso_z (t : Z) : string := replace_go "+00:00" "Z" 0 (isoformat t).

(** [s[:-1]] when [s.endswith("Z")] *)
Fixpoint drop_final_Z (s : string) : option string :=
  match s with
  | EmptyString => None
  | String "Z" EmptyString => Some ""
  | String c s' => option_map (String c) (drop_final_Z s')
  end.

(** [_parse_iso] on the texts the manager stores *)
Definition parse_iso (value : string) : option Z :=
  let normalized := strip value in
  if is_empty normalized then None
  else fromisoformat (match drop_final_Z normalized with Some b => b +:+ "+00:00" | None => normalized end).

(** [_duration_ms] *)
Definition duration_ms (started_at ended_at : string) : option Z :=
  match parse_iso started_at, parse_iso ended_at with
  | Some start, Some end_ => Some (Z.max 0 (delta_ms (end_ - start)))
  | _, _ => None
  end.

(** [_snapshot] *)
Definition snapshot (x : session) : session :=
  if String.eqb (s_state x) INITIAL_STATE then set_state "created" x else x.

Definition allowed_text (l : list string) : string := join ", " (sort_strings l).

Section manager.
(** The [n]-th reading of the clock and the [n]-th [uuid4().hex]. *)
Context (clock : nat -> Z) (uuid_hex : nat -> string).
(** Whether a telemetry emitter is set, and the capacity asked for. *)
Context (has_emitter : bool) (max_sessions_arg : Z).

(** [self._max_sessions = max(1, int(max_sessions))] *)
Definition max_sessions : Z := Z.max 1 max_sessions_arg.

(** [_utcnow_iso] *)
Definition utcnow_iso : M state string := fun s =>
  (Ok (iso_z (clock (st_clock s))), State (st_sessions s) (S (st_clock s)) (st_uuid s) (st_emitted s)).

Definition new_hex : M state string := fun s =>
  (Ok (uuid_hex (st_uuid s)), State (st_sessions s) (st_clock s) (S (st_uuid s)) (st_emitted s)).

Definition put (key : string) (x : session) : M state unit :=
  modify (fun s => State (d_set key x (st_sessions s)) (st_clock s) (st_uuid s) (st_emitted s)).

Definition find (key : string) : M state (option session) := gets (fun s => d_get key (st_sessions s)).

(** [_emit] *)
Definition emit (event : string) (payload : pydict) : M state unit :=
  when has_emitter
    (modify (fun s => State (st_sessions s) (st_clock s) (st_uuid s) (st_emitted s ++ [(event, payload)]))).

(** [_emit_for_session] on the session object stored under [key] *)
Definition emit_for_session (key : string) (x : session) (event : string) (payload : pydict) : M state session :=
  let t := s_telemetry x in
  let x := set_telemetry (Telemetry (t_events_emitted t + 1) (t_transition_count t) (Some event)
                            (t_last_transition_at t) (t_last_state t)) x in
  put key x ;;;
  emit event payload ;;;
  ret x.

(** What [_transition] writes into the session when the step is allowed. *)
Definition apply_transition (row : transition_row) (x : session) : session :=
  let target_state := tr_to_state row in
  let transitions := s_transitions x ++ [row] in
  let stopping := String.eqb target_state "stopped" in
  let t := s_telemetry x in
  Session (s_id x) (s_user_id x) (s_mode x) target_state (s_input_device x) (s_sample_rate_hz x) (s_language x)
    (s_metadata x) (s_started_at x) (tr_at row)
    (if stopping then Some (tr_at row) else s_stopped_at x)
    (if stopping
     then match duration_ms (s_started_at x) (tr_at row) with Some d => Some d | None => s_duration_ms x end
     else s_duration_ms x)
    transitions
    (Telemetry (t_events_emitted t) (Z.of_nat (length transitions)) (t_last_event t) (Some (tr_at row))
       (Some target_state)).

(** [_transition] on the session object stored under [key] *)
Definition transition (key : string) (x : session) (to_state reason : string) (request_id : option string)
    (metadata : pyval) : M state session :=
  let from_state := str_or (s_state x) INITIAL_STATE in
  let target_state := lower (strip to_state) in
  raise_if (negb (str_in target_state VOICE_SESSION_STATES))
    (ValueError ("Invalid voice session transition target: " +:+ to_state)) ;;;
  let allowed := match d_get from_state ALLOWED_TRANSITIONS with Some l => l | None => [] end in
  raise_if (negb (str_in target_state allowed))
    (ValueError ("Invalid voice session transition: " +:+ from_state +:+ " -> " +:+ target_state)) ;;;
  let* now := utcnow_iso in
  let shown_from := if String.eqb from_state INITIAL_STATE then None else Some from_state in
  let row := Transition shown_from target_state now (str_or (strip reason) "unspecified") (as_dict metadata) in
  emit_for_session key (apply_transition row x) "voice_session_transition"
    [("session_id", PStr (s_id x)); ("user_id", PStr (s_user_id x));
     ("from_state", pnone_or_str shown_from); ("to_state", PStr target_state);
     ("reason", PStr (tr_reason row)); ("request_id", pnone_or_str request_id)].

(** [_evict_stopped_if_needed] *)
Definition evict_stopped_if_needed : M state unit :=
  modify (fun s =>
    let d := st_sessions s in
    let d' := if Z.of_nat (length d) <? max_sessions then d
              else evict_loop d_pop max_sessions (map fst (oldest_finished "stopped" d)) d in
    State d' (st_clock s) (st_uuid s) (st_emitted s)).

Definition new_session (session_id user mode : string) (input_device : option string) (rate : Z)
    (language : option string) (metadata : pydict) (now : string) : session :=
  Session session_id user mode INITIAL_STATE (optional_str input_device) rate (optional_str language) metadata
    now now None None [] (Telemetry 0 0 None None None).

Definition start_session (user_id mode : string) (input_device : option string) (sample_rate_hz : Z)
    (language : option string) (metadata : pyval) (request_id : option string) : M state session :=
  let normalized_user := strip user_id in
  raise_if (is_empty normalized_user) (ValueError "user_id is required") ;;;
  let normalized_mode := str_or (lower (strip mode)) "ptt" in
  raise_if (negb (str_in normalized_mode VOICE_SESSION_MODES))
    (ValueError ("Unsupported voice mode '" +:+ mode +:+ "'. Allowed values: "
                 +:+ allowed_text VOICE_SESSION_MODES +:+ ".")) ;;;
  let rate := sample_rate_hz in
  raise_if ((rate <? 8000) || (96000 <? rate)) (ValueError "sample_rate_hz must be in range [8000, 96000]") ;;;
  let* hex := new_hex in
  let session_id := "voice-" +:+ hex in
  let* now := utcnow_iso in
  evict_stopped_if_needed ;;;
  let* count := gets (fun s => Z.of_nat (length (st_sessions s))) in
  raise_if (max_sessions <=? count) (ValueError "voice session capacity reached") ;;;
  let x := new_session session_id normalized_user normalized_mode input_device rate language (as_dict metadata) now in
  put session_id x ;;;
  let* x := transition session_id x "created" "start_requested" request_id
              (PDict [("mode", PStr normalized_mode)]) in
  let* x := transition session_id x "listening" "ptt_listen_ready" request_id PNone in
  let* x := emit_for_session session_id x "voice_session_started"
              [("session_id", PStr session_id); ("user_id", PStr normalized_user); ("mode", PStr normalized_mode);
               ("state", PStr (s_state x)); ("request_id", pnone_or_str request_id)] in
  ret (snapshot x).

(** [session = self._sessions.get(id)], raising when there is none *)
Definition require_session (normalized_id : string) : M state session :=
  let* found := find normalized_id in
  match found with
  | None => raise (ValueError ("Voice session not found: " +:+ normalized_id))
  | Some x => ret x
  end.

Definition stop_session (session_id : string) (reason actor request_id : option string) : M state session :=
  let normalized_id := strip session_id in
  raise_if (is_empty normalized_id) (ValueError "session_id is required") ;;;
  let stop_reason := str_or (strip (opt_str reason)) "user_stop" in
  let* x := require_session normalized_id in
  let st := s_state x in
  let actor_metadata := PDict [("actor", pnone_or_str actor)] in
  if String.eqb st "stopped" then
    let* x := emit_for_session normalized_id x "voice_session_stop_noop"
                [("session_id", PStr normalized_id); ("user_id", PStr (s_user_id x)); ("state", PStr st);
                 ("reason", PStr stop_reason); ("actor", pnone_or_str actor);
                 ("request_id", pnone_or_str request_id)] in
    ret (snapshot x)
  else
    let* x :=
      (if str_in st ["created"; "listening"] then
         let* x := transition normalized_id x "stopping" stop_reason request_id actor_metadata in
         transition normalized_id x "stopped" stop_reason request_id actor_metadata
       else if String.eqb st "stopping" then
         transition normalized_id x "stopped" stop_reason request_id actor_metadata
       else raise (ValueError ("Unsupported voice session state: " +:+ st))) in
    let* x := emit_for_session normalized_id x "voice_session_stopped"
                [("session_id", PStr normalized_id); ("user_id", PStr (s_user_id x)); ("state", PStr (s_state x));
                 ("reason", PStr stop_reason); ("actor", pnone_or_str actor);
                 ("duration_ms", match s_duration_ms x with Some d => PInt d | None => PNone end);
                 ("request_id", pnone_or_str request_id)] in
    ret (snapshot x).

Definition get_session (session_id : string) : M state session :=
  let normalized_id := strip session_id in
  raise_if (is_empty normalized_id) (ValueError "session_id is required") ;;;
  let* x := require_session normalized_id in
  ret (snapshot x).

Definition list_sessions (user_id state_ : option string) (limit : Z) : M state (list session) :=
  let normalized_user := str_or_none (strip (opt_str user_id)) in
  let normalized_state := str_or_none (lower (strip (opt_str state_))) in
  raise_if (match normalized_state with Some t => negb (str_in t VOICE_SESSION_STATES) | None => false end)
    (ValueError ("Invalid voice session state '" +:+ opt_str state_ +:+ "'. Allowed values: "
                 +:+ allowed_text VOICE_SESSION_STATES +:+ ".")) ;;;
  let capped_limit := Z.max 1 (Z.min limit 1000) in
  gets (fun s => map snapshot (select_rows normalized_user normalized_state capped_limit
                                 (newest_first (d_values (st_sessions s))) [])).
End manager.

End VoiceSession.
