(* ===== verification/VoiceSessionFacts.v ===== *)
(** Facts about the voice session manager: at rest a session is listening or
    stopped, stopping is total and idempotent, the recorded duration is that
    of the recorded times, and only stopped sessions are evicted. *)

From stdpp Require Import prelude strings list.
From Stdlib Require Import Lia ZArith Ascii Sorted.
From S2P Require Import Prelude PyStr PyVal Effects PyTime SessionStore VoiceSession.
Import SessionStore VoiceSession.

Module VoiceSessionFacts.

(** ** Timestamps read back *)

Lemma replace_go_pass pat r s t :
  all_chars (fun c => negb (Ascii.eqb c "+")) s = true -> pat = "+00:00" ->
  replace_go pat r 0 (s +:+ t) = s +:+ replace_go pat r 0 t.
Proof.
  intros Hs ->. induction s as [|c s IH]; [done|]. simpl in Hs. bool_prop. rewrite !str_app_cons. cbn [replace_go].
  assert (starts_with "+00:00" (String c (s +:+ t)) = false) as ->.
  { cbn [starts_with]. rewrite Ascii.eqb_sym. by rewrite H. }
  f_equal. auto.
Qed.

Lemma drop_final_Z_app s : drop_final_Z (s +:+ "Z") = Some s.
Proof.
  induction s as [|c s IH]; [done|]. rewrite str_app_cons.
  destruct c as [[] [] [] [] [] [] [] []]; cbn [drop_final_Z]; rewrite ?IH; try done.
  by destruct s.
Qed.

(** The text before the offset. *)
Lemma isoformat_body t :
  exists b, isoformat t = b +:+ "+00:00" /\ all_chars (fun c => negb (Ascii.eqb c "+") && negb (is_space c)) b = true.
Proof.
  unfold isoformat. destruct (civil_from_days _) as [[y m] d].
  eexists (pad 4 y +:+ "-" +:+ pad 2 m +:+ "-" +:+ pad 2 d +:+ "T" +:+ pad 2 (dt_hour t) +:+ ":" +:+
           pad 2 (dt_minute t) +:+ ":" +:+ pad 2 (dt_second t) +:+ iso_micro (dt_micro t)).
  split; [by rewrite !str_app_assoc|].
  assert (forall w z, all_chars (fun c => negb (Ascii.eqb c "+") && negb (is_space c)) (pad w z) = true) as Hp.
  { intros. apply pad_all. by intros [[] [] [] [] [] [] [] []]. }
  unfold iso_micro. destruct (_ =? 0); by rewrite !all_chars_app, !Hp.
Qed.

Lemma parse_iso_z t : dt_in_range t -> parse_iso (iso_z t) = Some t.
Proof.
  intros Ht. destruct (isoformat_body t) as (b & Hb & Hc). unfold parse_iso, iso_z. rewrite Hb.
  rewrite replace_go_pass by (done || (eapply all_chars_impl; [|exact Hc]; simpl; intros c Hx; by bool_prop; rewrite H)).
  change (replace_go "+00:00" "Z" 0 "+00:00") with "Z".
  assert (strip (b +:+ "Z") = b +:+ "Z") as ->.
  { apply stripped_no_space. rewrite all_chars_app. apply andb_true_iff. split; [|done].
    eapply all_chars_impl; [|exact Hc]. simpl. intros c Hx. by bool_prop; rewrite H0. }
  rewrite drop_final_Z_app, <- Hb, isoformat_roundtrip by done.
  by destruct b.
Qed.

#[local] Opaque iso_z parse_iso delta_ms.

Definition history (x : session) : list (option string * string) :=
  map (fun r => (tr_from_state r, tr_to_state r)) (s_transitions x).

Definition listening_path : list (option string * string) := [(None, "created"); (Some "created", "listening")].
Definition stopped_path : list (option string * string) :=
  listening_path ++ [(Some "listening", "stopping"); (Some "stopping", "stopped")].

Section manager.
Context (clock : nat -> Z) (uuid_hex : nat -> string).
Context (has_emitter : bool) (max_sessions_arg : Z).

Local Abbreviation max_sessions := (max_sessions max_sessions_arg).
Local Abbreviation transition := (transition clock has_emitter).
Local Abbreviation emit_for_session := (emit_for_session has_emitter).

(** What does not change in the life of a session. *)
Record voice_base (key : string) (x : session) : Prop := {
  vb_id : s_id x = key;
  vb_key : exists hex, key = "voice-" +:+ hex;
  vb_user : stripped (s_user_id x) /\ s_user_id x <> "";
  vb_mode : s_mode x ∈ VOICE_SESSION_MODES;
  vb_rate : 8000 <= s_sample_rate_hz x <= 96000 }.

(** A session that is being held open. *)
Definition is_listening (x : session) : Prop :=
  s_state x = "listening" /\ history x = listening_path /\ s_stopped_at x = None /\ s_duration_ms x = None.

(** A session that was stopped at some reading of the clock. *)
Definition is_stopped (n : nat) (x : session) : Prop :=
  s_state x = "stopped" /\ history x = stopped_path
  /\ exists m, s_stopped_at x = Some (iso_z (clock m)) /\ s_updated_at x = iso_z (clock m)
     /\ s_duration_ms x = Some (Z.max 0 (delta_ms (clock m - clock n))).

Record voice_wf (key : string) (x : session) : Prop := {
  vw_base : voice_base key x;
  vw_life : exists n, s_started_at x = iso_z (clock n) /\ (is_listening x \/ is_stopped n x);
  vw_count : t_transition_count (s_telemetry x) = Z.of_nat (length (s_transitions x));
  vw_last : t_last_state (s_telemetry x) = Some (s_state x) }.

Definition bump (event : string) (x : session) : session :=
  let t := s_telemetry x in
  set_telemetry (Telemetry (t_events_emitted t + 1) (t_transition_count t) (Some event)
                   (t_last_transition_at t) (t_last_state t)) x.

Lemma voice_emit_run key x event payload s :
  exists em, emit_for_session key x event payload s
    = (Ok (bump event x), State (d_set key (bump event x) (st_sessions s)) (st_clock s) (st_uuid s) em).
Proof. unfold emit_for_session, put, emit, when, modify, ret, bind. by destruct has_emitter; eexists. Qed.

(** A step the table allows. *)
Lemma voice_transition_run key x to_state reason request_id metadata s :
  s_state x <> "" -> lower (strip to_state) = to_state -> to_state ∈ VOICE_SESSION_STATES ->
  str_in to_state (match d_get (s_state x) ALLOWED_TRANSITIONS with Some l => l | None => [] end) = true ->
  exists x' s' row,
    transition key x to_state reason request_id metadata s = (Ok x', s')
    /\ x' = bump "voice_session_transition" (apply_transition row x)
    /\ tr_from_state row = (if String.eqb (s_state x) INITIAL_STATE then None else Some (s_state x))
    /\ tr_to_state row = to_state /\ (exists m, tr_at row = iso_z (clock m))
    /\ st_sessions s' = d_set key x' (st_sessions s) /\ st_uuid s' = st_uuid s.
Proof.
  intros Hne Hw Hin Hedge. unfold transition. rewrite (str_or_ne (s_state x)), Hw by done.
  rewrite (proj2 (str_in_spec _ _) Hin), Hedge.
  unfold raise_if, utcnow_iso, ret, bind. cbn [negb st_sessions st_clock st_uuid st_emitted].
  set (row := Transition _ to_state _ _ _).
  match goal with |- context [emit_for_session key ?y ?ev ?pl ?s1] =>
      destruct (voice_emit_run key y ev pl s1) as [em ->] end.
  eexists _, _, row. split; [reflexivity|]. split; [reflexivity|]. split; [reflexivity|]. split; [reflexivity|].
  split; [|done]. exists (st_clock s). unfold row. reflexivity.
Qed.

Lemma apply_base key row ev x : voice_base key x -> voice_base key (bump ev (apply_transition row x)).
Proof. by intros []. Qed.

Lemma bump_wf key ev x : voice_wf key x -> voice_wf key (bump ev x).
Proof. intros [Hb (n & Hn & Hl) Hc Hla]. constructor; [by destruct Hb | by exists n | done | done]. Qed.

Lemma stopped_bump n ev x : is_stopped n x -> is_stopped n (bump ev x).
Proof. intros (Hs & Hh & m & H1 & H2 & H3). split; [exact Hs|]. split; [exact Hh|]. by exists m. Qed.

Context (clock_ok : forall n, dt_in_range (clock n)).

Lemma history_step row ev x :
  history (bump ev (apply_transition row x)) = history x ++ [(tr_from_state row, tr_to_state row)].
Proof. unfold history. simpl. by rewrite map_app. Qed.

(** From the initial state to listening. *)
Lemma open_run key x m1 request_id ev pl s n :
  voice_base key x -> s_state x = INITIAL_STATE -> s_started_at x = iso_z (clock n) -> s_transitions x = [] ->
  s_stopped_at x = None -> s_duration_ms x = None ->
  exists x' s',
    (let* x := transition key x "created" "start_requested" request_id m1 in
     let* x := transition key x "listening" "ptt_listen_ready" request_id PNone in
     let* x := emit_for_session key x ev (pl x) in
     ret (snapshot x)) s = (Ok x', s')
    /\ voice_wf key x' /\ is_listening x' /\ s_user_id x' = s_user_id x
    /\ st_sessions s' = d_set key x' (st_sessions s) /\ st_uuid s' = st_uuid s.
Proof.
  intros Hb Hst Hn Htr Hsp Hd. unfold bind at 1.
  destruct (voice_transition_run key x "created" "start_requested" request_id m1 s)
    as (x1 & s1 & row1 & -> & Hx1 & Hf1 & Ht1 & _ & Hs1 & Hu1);
    [by rewrite Hst | done | by apply str_in_spec | by rewrite Hst|].
  assert (s_state x1 = "created") as Hst1 by by subst x1.
  unfold bind at 1.
  destruct (voice_transition_run key x1 "listening" "ptt_listen_ready" request_id PNone s1)
    as (x2 & s2 & row2 & -> & Hx2 & Hf2 & Ht2 & _ & Hs2 & Hu2);
    [by rewrite Hst1 | done | by apply str_in_spec | by rewrite Hst1|].
  unfold bind. destruct (voice_emit_run key x2 ev (pl x2) s2) as [em ->].
  assert (s_state x2 = "listening") as Hst2 by by subst x2.
  unfold ret, snapshot. change (s_state (bump ev x2)) with (s_state x2). rewrite Hst2.
  change (String.eqb "listening" INITIAL_STATE) with false. cbn iota.
  assert (history x2 = listening_path) as Hh.
  { assert (history x1 = [(None, "created")]) as Hh1.
    { rewrite Hx1, history_step, Hf1, Ht1, Hst. unfold history. by rewrite Htr. }
    by rewrite Hx2, history_step, Hf2, Ht2, Hh1, Hst1. }
  assert (is_listening x2) as Hl.
  { split_and!; [done | done | |]; subst x2 x1; simpl; rewrite Ht1, Ht2; simpl; done. }
  eexists _, _. split; [done|]. split_and!; try done; simpl.
  - apply bump_wf. constructor.
    + rewrite Hx2, Hx1. by do 2 apply apply_base.
    + exists n. split; [by rewrite Hx2, Hx1 | by left].
    + by rewrite Hx2.
    + by rewrite Hx2.
  - by rewrite Hx2, Hx1.
  - by rewrite Hs2, Hs1, !d_set_set.
  - congruence.
Qed.

(** From listening to stopped. *)
Lemma close_run key x reason request_id metadata ev pl s n :
  voice_wf key x -> s_started_at x = iso_z (clock n) -> is_listening x ->
  exists x' s',
    (let* x := (let* x := transition key x "stopping" reason request_id metadata in
                transition key x "stopped" reason request_id metadata) in
     let* x := emit_for_session key x ev (pl x) in
     ret (snapshot x)) s = (Ok x', s')
    /\ voice_wf key x' /\ is_stopped n x' /\ s_user_id x' = s_user_id x /\ s_started_at x' = s_started_at x
    /\ st_sessions s' = d_set key x' (st_sessions s) /\ st_uuid s' = st_uuid s.
Proof using clock_ok.
  intros Hwf Hn (Hst & Hh & Hsp & Hd). unfold bind at 1 2.
  destruct (voice_transition_run key x "stopping" reason request_id metadata s)
    as (x1 & s1 & row1 & -> & Hx1 & Hf1 & Ht1 & _ & Hs1 & Hu1);
    [by rewrite Hst | done | by apply str_in_spec | by rewrite Hst|].
  assert (s_state x1 = "stopping") as Hst1 by by subst x1.
  destruct (voice_transition_run key x1 "stopped" reason request_id metadata s1)
    as (x2 & s2 & row2 & -> & Hx2 & Hf2 & Ht2 & (m & Hm) & Hs2 & Hu2);
    [by rewrite Hst1 | done | by apply str_in_spec | by rewrite Hst1|].
  unfold bind. destruct (voice_emit_run key x2 ev (pl x2) s2) as [em ->].
  assert (s_state x2 = "stopped") as Hst2 by by subst x2.
  unfold ret, snapshot. change (s_state (bump ev x2)) with (s_state x2). rewrite Hst2.
  change (String.eqb "stopped" INITIAL_STATE) with false. cbn iota.
  assert (s_started_at x1 = iso_z (clock n)) as Hn1 by (rewrite Hx1; exact Hn).
  assert (history x1 = listening_path ++ [(Some "listening", "stopping")]) as Hh1
    by by rewrite Hx1, history_step, Hf1, Ht1, Hh, Hst.
  assert (is_stopped n x2) as Hstop.
  { split_and!; [done | by rewrite Hx2, history_step, Hf2, Ht2, Hh1, Hst1|]. exists m. rewrite Hx2. simpl.
    rewrite Ht2, Hm, Hn1. unfold duration_ms. rewrite !parse_iso_z by apply clock_ok.
    split; [reflexivity|]. split; reflexivity. }
  eexists _, _. split; [reflexivity|]. split; [|split; [by apply stopped_bump|]].
  - apply bump_wf. constructor.
    + rewrite Hx2, Hx1. do 2 apply apply_base. apply Hwf.
    + exists n. split; [by rewrite Hx2 | by right].
    + by rewrite Hx2.
    + by rewrite Hx2.
  - simpl. split; [by rewrite Hx2, Hx1|]. split; [by rewrite Hx2, Hx1|].
    split; [by rewrite Hs2, Hs1, !d_set_set | congruence].
Qed.

(** ** The invariant of the manager *)
Record voice_inv (s : state) : Prop := {
  vi_keys : NoDup (d_keys (st_sessions s));
  vi_sessions : Forall (fun kx => voice_wf (fst kx) (snd kx)) (st_sessions s);
  vi_capacity : Z.of_nat (length (st_sessions s)) <= max_sessions }.

Lemma voice_get s k x : voice_inv s -> d_get k (st_sessions s) = Some x -> voice_wf k x.
Proof. intros [_ Hf _] Hk%d_get_elem. exact (proj1 (Forall_forall _ _) Hf _ Hk). Qed.

Definition evicted (d : dict session) : dict session := evict_finished "stopped" max_sessions d.

Lemma voice_evict_run s :
  evict_stopped_if_needed max_sessions_arg s
  = (Ok tt, State (evicted (st_sessions s)) (st_clock s) (st_uuid s) (st_emitted s)).
Proof. done. Qed.

Lemma voice_evicted_inv s c u em : voice_inv s -> voice_inv (State (evicted (st_sessions s)) c u em).
Proof.
  intros [Hn Hwf Hc]. pose proof (evict_sublist "stopped" max_sessions (st_sessions s) Hn) as Hsub.
  fold (evicted (st_sessions s)) in Hsub. constructor; simpl.
  - by apply evict_NoDup.
  - by eapply sublist_Forall.
  - apply sublist_length in Hsub. lia.
Qed.

Definition start_valid (user_id mode : string) (rate : Z) : bool :=
  negb (is_empty (strip user_id)) && str_in (str_or (lower (strip mode)) "ptt") VOICE_SESSION_MODES
  && (8000 <=? rate) && (rate <=? 96000).

Local Abbreviation start_session := (start_session clock uuid_hex has_emitter max_sessions_arg).
Local Abbreviation stop_session := (stop_session clock has_emitter).

Lemma voice_start_run user_id mode device rate language metadata request_id s :
  voice_inv s ->
  let key := "voice-" +:+ uuid_hex (st_uuid s) in
  let '(r, s') := start_session user_id mode device rate language metadata request_id s in
  match r with
  | Ok x => start_valid user_id mode rate = true /\ Z.of_nat (length (evicted (st_sessions s))) < max_sessions
            /\ voice_wf key x /\ is_listening x /\ s_user_id x = strip user_id
            /\ st_sessions s' = d_set key x (evicted (st_sessions s))
  | Err _ => start_valid user_id mode rate = false /\ s' = s
             \/ start_valid user_id mode rate = true /\ max_sessions <= Z.of_nat (length (evicted (st_sessions s)))
                /\ st_sessions s' = evicted (st_sessions s)
  end.
Proof.
  intros Hinv key. unfold VoiceSession.start_session, start_valid.
  unfold raise_if at 1. destruct (is_empty (strip user_id)) eqn:Eu; cbn [negb andb]; [by left|].
  unfold ret at 1, bind at 1. unfold raise_if at 1.
  destruct (str_in (str_or (lower (strip mode)) "ptt") VOICE_SESSION_MODES) eqn:Em; cbn [negb andb]; [|by left].
  unfold ret at 1, bind at 1. unfold raise_if at 1.
  destruct (rate <? 8000) eqn:Er1; cbn [orb].
  { left. bool_prop. split; [|done]. apply andb_false_iff. left. apply Z.leb_gt. lia. }
  destruct (96000 <? rate) eqn:Er2.
  { left. bool_prop. split; [|done]. apply andb_false_iff. right. apply Z.leb_gt. lia. }
  bool_prop. rewrite (proj2 (Z.leb_le 8000 rate)), (proj2 (Z.leb_le rate 96000)) by lia. cbn [andb].
  unfold ret at 1, bind at 1. unfold new_hex, bind at 1. unfold utcnow_iso, bind at 1.
  cbn [st_sessions st_clock st_uuid st_emitted]. fold key. unfold bind at 1.
  rewrite voice_evict_run. cbn [st_sessions st_clock st_uuid st_emitted].
  unfold gets, bind at 1. cbn [st_sessions]. unfold raise_if at 1.
  destruct (max_sessions <=? _) eqn:Ec; bool_prop; [by right|].
  unfold ret at 1, bind at 1. unfold put, modify, bind at 1. cbn [st_sessions st_clock st_uuid st_emitted].
  set (x0 := new_session key _ _ _ _ _ _ _).
  match goal with |- context [State (d_set key x0 ?d) ?c ?u ?em] => set (s0 := State (d_set key x0 d) c u em) end.
  match goal with |- context [bind (transition key x0 _ _ _ ?m1) _ s0] =>
    destruct (open_run key x0 m1 request_id "voice_session_started"
      (fun x => [("session_id", PStr key); ("user_id", PStr (strip user_id));
                 ("mode", PStr (str_or (lower (strip mode)) "ptt"));
                 ("state", PStr (s_state x)); ("request_id", pnone_or_str request_id)]) s0 (st_clock s))
      as (x' & s' & -> & Hwf & Hl & Hus & Hs' & Hu') end; try done.
  - constructor; simpl; [done | by eexists | | by apply str_in_spec | lia].
    split; [apply strip_stripped | by apply is_empty_false].
  - split_and!; try done; by rewrite Hs'; simpl; rewrite d_set_set.
Qed.

Lemma stop_run session_id reason actor request_id s :
  voice_inv s ->
  match d_get (strip session_id) (st_sessions s) with
  | None => exists e, stop_session session_id reason actor request_id s = (Err e, s)
  | Some x =>
      exists x' s', stop_session session_id reason actor request_id s = (Ok x', s')
        /\ voice_wf (strip session_id) x' /\ s_state x' = "stopped"
        /\ (s_state x = "stopped" -> x' = bump "voice_session_stop_noop" x)
        /\ s_user_id x' = s_user_id x /\ s_started_at x' = s_started_at x
        /\ st_sessions s' = d_set (strip session_id) x' (st_sessions s) /\ st_uuid s' = st_uuid s
  end.
Proof using clock_ok.
  intros Hinv. unfold VoiceSession.stop_session.
  destruct (d_get (strip session_id) (st_sessions s)) as [x|] eqn:Ex.
  - pose proof (voice_get _ _ _ Hinv Ex) as Hwf. unfold raise_if.
    destruct (is_empty (strip session_id)) eqn:E.
    { apply is_empty_true in E. destruct (vb_key _ _ (vw_base _ _ Hwf)) as [hex Hk]. rewrite E in Hk. done. }
    unfold ret at 1, bind at 1. unfold require_session, find, gets. unfold bind at 1 2. rewrite Ex.
    unfold ret at 1. destruct (vw_life _ _ Hwf) as (n & Hn & [Hl | Hs]).
    + destruct Hl as (Hst & Hl). rewrite Hst.
      change (String.eqb "listening" "stopped") with false. change (str_in "listening" ["created"; "listening"]) with true.
      cbn iota.
      destruct (close_run (strip session_id) x (str_or (strip (opt_str reason)) "user_stop") request_id
        (PDict [("actor", pnone_or_str actor)]) "voice_session_stopped"
        (fun x => [("session_id", PStr (strip session_id)); ("user_id", PStr (s_user_id x));
                   ("state", PStr (s_state x)); ("reason", PStr (str_or (strip (opt_str reason)) "user_stop"));
                   ("actor", pnone_or_str actor);
                   ("duration_ms", match s_duration_ms x with Some d => PInt d | None => PNone end);
                   ("request_id", pnone_or_str request_id)]) s n Hwf Hn (conj Hst Hl))
        as (x' & s' & -> & Hwf' & Hs' & H1 & H2 & H3 & H4).
      exists x', s'. split_and!; try done. by destruct Hs'.
    + destruct Hs as (Hst & Hs). rewrite Hst. rewrite String.eqb_refl. unfold bind.
      match goal with |- context [emit_for_session ?k ?y ?ev ?pl ?s1] =>
        destruct (voice_emit_run k y ev pl s1) as [em ->] end.
      unfold ret, snapshot. change (s_state (bump "voice_session_stop_noop" x)) with (s_state x). rewrite Hst.
      change (String.eqb "stopped" INITIAL_STATE) with false. cbn iota.
      eexists _, _. split; [reflexivity|]. split_and!; try done. by apply bump_wf.
  - unfold raise_if, require_session, find, gets, raise, ret, bind. destruct (is_empty (strip session_id)); [by eexists|].
    rewrite Ex. by eexists.
Qed.

(** ** Histories of calls *)
Inductive call : Type :=
  | Start (user_id mode : string) (device : option string) (rate : Z) (language : option string) (metadata : pyval)
      (request_id : option string)
  | Stop (session_id : string) (reason actor request_id : option string)
  | Get (session_id : string)
  | ListAll (user_id state_ : option string) (limit : Z).

Definition run_call (c : call) (s : state) : state :=
  match c with
  | Start u m d r l md rq => snd (start_session u m d r l md rq s)
  | Stop k r a rq => snd (stop_session k r a rq s)
  | Get k => snd (get_session k s)
  | ListAll u t l => snd (list_sessions u t l s)
  end.

Definition run_calls (cs : list call) (s : state) : state := foldl (fun s c => run_call c s) s cs.

Definition initial (c u : nat) : state := State [] c u [].

Lemma put_inv s k x c u em :
  voice_inv s -> voice_wf k x -> (d_mem k (st_sessions s) = true \/ Z.of_nat (length (st_sessions s)) < max_sessions) ->
  voice_inv (State (d_set k x (st_sessions s)) c u em).
Proof.
  intros [Hn Hf Hc] Hx Hroom. constructor; simpl; [eauto with py | by apply d_set_Forall|].
  destruct (d_mem k (st_sessions s)) eqn:E; [by rewrite d_set_length_old|].
  rewrite d_set_length_new by done. destruct Hroom; [done | lia].
Qed.

Lemma voice_call_inv c s : voice_inv s -> voice_inv (run_call c s).
Proof using clock_ok.
  intros Hinv. destruct c; simpl.
  - pose proof (voice_start_run user_id mode device rate language metadata request_id s Hinv) as H. simpl in H.
    pose proof (voice_evicted_inv s (st_clock s) (st_uuid s) (st_emitted s) Hinv) as Hev.
    destruct (start_session _ _ _ _ _ _ _ s) as [[x|e] [d ck u em]]; simpl in *.
    + destruct H as (_ & Hlen & Hwf & _ & _ & ->). by apply (put_inv _ _ _ ck u em Hev Hwf); right.
    + destruct H as [[_ <-] | (_ & _ & ->)]; [done|]. by apply voice_evicted_inv.
  - pose proof (stop_run session_id reason actor request_id s Hinv) as H.
    destruct (d_get (strip session_id) (st_sessions s)) as [x|] eqn:Ex.
    + destruct H as (x' & [d ck u em] & -> & Hwf & _ & _ & _ & _ & Hs & _). simpl in *. subst d.
      apply put_inv; [done | done|]. left. by eapply d_get_Some_mem.
    + by destruct H as [e ->].
  - unfold get_session, require_session, find, raise_if, raise, gets, ret, bind.
    repeat case_match; by simplify_eq.
  - unfold list_sessions, raise_if, raise, gets, ret, bind. repeat case_match; by simplify_eq.
Qed.

Lemma voice_calls_inv cs s : voice_inv s -> voice_inv (run_calls cs s).
Proof using clock_ok. revert s. induction cs as [|c cs IH]; intros s Hinv; [done|]. by apply IH, voice_call_inv. Qed.

Lemma voice_initial_inv c u : voice_inv (initial c u).
Proof. constructor; simpl; [constructor | constructor|]. unfold VoiceSession.max_sessions. lia. Qed.

(** ** Theorems *)

(** Between calls every voice session is listening or stopped, never in
    between: its rows are exactly those of its path from the initial state,
    its sample rate is within bounds, and a stopped session carries the time
    it was stopped and the duration from its start to that time.  There are
    at most [max_sessions] of them. *)
Theorem voice_sessions_at_rest cs c u :
  let s := run_calls cs (initial c u) in
  Z.of_nat (length (st_sessions s)) <= max_sessions
  /\ forall k x, d_get k (st_sessions s) = Some x -> voice_wf k x.
Proof using clock_ok.
  intros s. pose proof (voice_calls_inv cs _ (voice_initial_inv c u)) as Hinv. split; [apply Hinv|].
  intros k x. by apply voice_get.
Qed.

(** Stopping a known session always succeeds and leaves it stopped;
    stopping it again changes nothing but the event telemetry, so that
    stopping is idempotent; an unknown id is refused without effect. *)
Theorem voice_stop_outcome cs c u session_id reason actor request_id :
  let s := run_calls cs (initial c u) in
  let '(r, s') := stop_session session_id reason actor request_id s in
  match d_get (strip session_id) (st_sessions s) with
  | None => is_ok r = false /\ s' = s
  | Some x =>
      exists x', r = Ok x' /\ s_state x' = "stopped" /\ s_started_at x' = s_started_at x
        /\ st_sessions s' = d_set (strip session_id) x' (st_sessions s)
        /\ (s_state x = "stopped" -> x' = bump "voice_session_stop_noop" x)
        /\ fst (stop_session session_id reason actor request_id s') = Ok (bump "voice_session_stop_noop" x')
  end.
Proof using clock_ok.
  intros s. pose proof (voice_calls_inv cs _ (voice_initial_inv c u)) as Hinv. fold s in Hinv.
  pose proof (stop_run session_id reason actor request_id s Hinv) as H.
  destruct (d_get (strip session_id) (st_sessions s)) as [x|] eqn:Ex; [|by destruct H as [e ->]].
  destruct H as (x' & s' & Hrun & Hwf & Hst & Hno & _ & Hsa & Hs & _). rewrite Hrun. exists x'.
  pose proof (voice_call_inv (Stop session_id reason actor request_id) s Hinv) as Hinv'. simpl in Hinv'.
  rewrite Hrun in Hinv'. simpl in Hinv'.
  pose proof (stop_run session_id reason actor request_id s' Hinv') as H2. rewrite Hs, d_get_set_eq in H2.
  destruct H2 as (x2 & s2 & -> & _ & _ & Hx2 & _). rewrite (Hx2 Hst). done.
Qed.

(** Starting a voice session succeeds exactly when the user is named,
    the mode is supported, the sample rate is within [8000, 96000] and there
    is spare capacity or a stopped session to evict; the new session is
    listening, and every other session stays as it was unless it was stopped
    and evicted. *)
Theorem voice_start_outcome cs c u user_id mode device rate language metadata request_id :
  let s := run_calls cs (initial c u) in
  let '(r, s') := start_session user_id mode device rate language metadata request_id s in
  (is_ok r = true
   <-> start_valid user_id mode rate = true
       /\ (Z.of_nat (length (st_sessions s)) < max_sessions
           \/ exists k x, d_get k (st_sessions s) = Some x /\ s_state x = "stopped"))
  /\ (forall x, r = Ok x -> d_get (s_id x) (st_sessions s') = Some x /\ is_listening x)
  /\ (forall k x, d_get k (st_sessions s) = Some x -> k <> "voice-" +:+ uuid_hex (st_uuid s) ->
      d_get k (st_sessions s') = Some x \/ d_get k (st_sessions s') = None /\ s_state x = "stopped").
Proof using clock_ok.
  intros s. pose proof (voice_calls_inv cs _ (voice_initial_inv c u)) as Hinv. fold s in Hinv.
  pose proof (evict_room_iff "stopped" max_sessions (st_sessions s) (vi_keys _ Hinv) (vi_capacity _ Hinv)) as Hroom.
  pose proof (voice_start_run user_id mode device rate language metadata request_id s Hinv) as H. simpl in H.
  assert (forall k x, d_get k (st_sessions s) = Some x -> d_get k (evicted (st_sessions s)) = Some x
    \/ d_get k (evicted (st_sessions s)) = None /\ s_state x = "stopped") as Hold.
  { intros k x Hx. destruct (evict_get "stopped" max_sessions (st_sessions s) k (vi_keys _ Hinv))
      as [He | (He & (y & Hy & Hst) & _)]; unfold evicted; rewrite He; [by left|right].
    split; [done|]. rewrite Hx in Hy. by simplify_eq. }
  destruct (start_session _ _ _ _ _ _ _ s) as [[x|e] s'].
  - destruct H as (Hv & Hr & Hwf & Hl & Hu & Hs). split; [|split].
    + split; [|done]. intros _. split; [done|]. by apply Hroom.
    + intros ? [= <-]. pose proof (vb_id _ _ (vw_base _ _ Hwf)) as ->. by rewrite Hs, d_get_set_eq.
    + intros k y Hy Hne. rewrite Hs, d_get_set_ne by done. by apply Hold.
  - split; [|split; [done|]].
    + split; [done|]. intros [Hv Hr%Hroom]. destruct H as [[Hv' _] | (_ & Hr' & _)]; [congruence|].
      unfold evicted in Hr'. lia.
    + intros k y Hy _. destruct H as [[_ ->] | (_ & _ & ->)]; [by left | by apply Hold].
Qed.
End manager.

(** ** Witnesses *)

Definition demo_clock (n : nat) : Z := 1700000000000000 + 1000 * Z.min (Z.of_nat n) 100.
Definition demo_hex (n : nat) : string := Nat.iter n (String "a") "".
Definition demo_calls : list call :=
  [Start "ann" "PTT" (Some "mic") 16000 None PNone None;
   Start "bob" "" None 48000 (Some "en") PNone None;
   Stop "voice-" (Some "done") None None].
Local Abbreviation demo_run cs := (run_calls demo_clock demo_hex true 2 cs (initial 0 0)).

Lemma voice_demo_clock_ok n : dt_in_range (demo_clock n).
Proof.
  unfold dt_in_range, dt_day, demo_clock.
  replace (_ / us_per_day) with 19675; [vm_compute; by split|].
  apply Z.div_unique with (r := 1700000000000000 + 1000 * Z.min (Z.of_nat n) 100 - 19675 * 86400000000); [left|];
    unfold us_per_day, us_per_hour, us_per_min, us_per_sec; lia.
Qed.

Lemma voice_demo_get k d t :
  option_map s_state (d_get k d) = Some t -> exists x, d_get k d = Some x /\ s_state x = t.
Proof. destruct (d_get k d) as [x|]; [|done]. intros [=]. by exists x. Qed.

Lemma voice_sessions_at_rest_witness :
  exists x, d_get "voice-" (st_sessions (demo_run demo_calls)) = Some x
            /\ s_state x = "stopped" /\ voice_wf demo_clock "voice-" x.
Proof.
  destruct (voice_demo_get "voice-" (st_sessions (demo_run demo_calls)) "stopped") as (x & Hx & Hs);
    [vm_compute; reflexivity|].
  exists x. split; [exact Hx|]. split; [exact Hs|].
  exact (proj2 (voice_sessions_at_rest demo_clock demo_hex true 2 voice_demo_clock_ok demo_calls 0 0) "voice-" x Hx).
Defined.

Lemma voice_stop_outcome_witness :
  exists x', fst (stop_session demo_clock true "voice-a" None None None (demo_run demo_calls)) = Ok x'
             /\ s_state x' = "stopped".
Proof.
  pose proof (voice_stop_outcome demo_clock demo_hex true 2 voice_demo_clock_ok demo_calls 0 0
    "voice-a" None None None) as H. cbv zeta in H. change (strip "voice-a") with "voice-a" in H.
  destruct (voice_demo_get "voice-a" (st_sessions (demo_run demo_calls)) "listening") as (x & Hx & Hs);
    [vm_compute; reflexivity|].
  rewrite Hx in H. destruct (stop_session demo_clock true "voice-a" None None None (demo_run demo_calls)) as [r s'].
  destruct H as (x' & -> & H1 & _). exists x'. split; [reflexivity | exact H1].
Defined.

Lemma voice_start_outcome_witness :
  is_ok (fst (start_session demo_clock demo_hex true 2 "cat" "ptt" None 8000 None PNone None (demo_run demo_calls))) = true.
Proof.
  pose proof (voice_start_outcome demo_clock demo_hex true 2 voice_demo_clock_ok demo_calls 0 0
    "cat" "ptt" None 8000 None PNone None) as H. cbv zeta in H.
  destruct (voice_demo_get "voice-" (st_sessions (demo_run demo_calls)) "stopped") as (x & Hx & Hs);
    [vm_compute; reflexivity|].
  destruct (start_session _ _ _ _ _ _ _ _ _ _ _ _) as [r s']. apply (proj1 H).
  split; [vm_compute; reflexivity|]. right. exists "voice-", x. split; [exact Hx | exact Hs].
Defined.

End VoiceSessionFacts.
