(* ===== verification/Schedule.v ===== *)
(** Schedules of automations and missions (automation/schedule.py): validation
    and normalization of a schedule, and the computation of its next run.

    An instant is a number of microseconds since the epoch (UTC), a wall-clock
    time the same count on the local clock, with the [fold] bit that tells the
    two passes of a repeated hour apart.  Time-zone rules ([zoneinfo], the
    installed tz database) are an interface. *)

From stdpp Require Import prelude strings list.
From Stdlib Require Import Lia ZArith Ascii.
From S2P Require Import Prelude PyStr PyVal Effects PyTime.

(** What the code uses of [zoneinfo.ZoneInfo]. *)
Class TimeZones : Type := {
  (** [ZoneInfo(key)] does not raise. *)
  zone_known : string -> bool;
  (** [fromutc]: wall-clock time and fold of an instant. *)
  zone_fromutc : string -> Z -> Z * bool;
  (** [utcoffset] of a wall-clock time with its fold. *)
  zone_utcoffset : string -> Z -> bool -> Z }.

(** Documented behaviour: [fromutc] and [utcoffset] agree on every instant. *)
Class TimeZoneLaws `{TimeZones} : Prop :=
  fromutc_utcoffset : forall key t,
    let '(w, fold) := zone_fromutc key t in w - zone_utcoffset key w fold = t.

Module Schedule.

Definition WEEKDAY_CODES : list string := ["MO"; "TU"; "WE"; "TH"; "FR"; "SA"; "SU"].

Fixpoint index_of (x : string) (l : list string) : option Z :=
  match l with
  | [] => None
  | y :: l' => if String.eqb x y then Some 0 else option_map Z.succ (index_of x l')
  end.

(** [WEEKDAY_TO_INT.get(code)] *)
Definition weekday_to_int (item : string) : option Z := index_of item WEEKDAY_CODES.

(** [sorted(..., key=lambda item: WEEKDAY_TO_INT[item])] on valid codes *)
Definition day_key (item : string) : Z := match weekday_to_int item with Some i => i | None => 7 end.

(** [_to_bool] *)
Definition to_bool (value : pyval) (default : bool) : bool :=
  match value with
  | PBool b => b
  | PNone => default
  | _ =>
      let normalized := lower (strip (py_str value)) in
      if str_in normalized ["1"; "true"; "yes"; "on"] then true
      else if str_in normalized ["0"; "false"; "no"; "off"] then false
      else default
  end.

(** [int(raw)] under a handler that turns every exception into one message *)
Definition int_or_raise (message : string) (raw : pyval) : res Z :=
  match py_int raw with Ok z => Ok z | Err _ => Err (ValueError message) end.

Definition check (b : bool) (message : string) : res unit := if b then Err (ValueError message) else Ok tt.

Local Notation "'do' x <- m ; k" := (res_bind m (fun x => k))
  (at level 60, x pattern, m at level 60, k at level 200, right associativity).

(** The days of a weekly schedule, upper-cased, blanks dropped. *)
Definition byday_items (byday_raw : pyval) : res (list string) :=
  let clean items := map (fun item => upper (strip item)) (List.filter (fun item => negb (is_empty (strip item))) items) in
  match byday_raw with
  | PStr s => Ok (clean (split_on "," s))
  | PList l => Ok (clean (map py_str l))
  | _ => Err (ValueError "weekly schedule requires byday as list or comma-separated string")
  end.

Definition sort_days : list string -> list string := sort_by (fun a b => day_key a <=? day_key b).

Definition interval_default (interval_sec : option Z) (default : Z) : pyval :=
  PInt (match interval_sec with Some i => i | None => default end).

Definition normalize_interval (payload : pydict) (interval_sec : option Z) : res (string * pydict * Z) :=
  do seconds <- int_or_raise "interval schedule requires integer interval_sec"
                  (get_or "interval_sec" (interval_default interval_sec 300) payload);
  do _ <- check (seconds <? 10) "interval_sec must be >= 10";
  Ok ("interval", [("interval_sec", PInt seconds)], seconds).

Definition normalize_hourly (payload : pydict) : res (string * pydict * Z) :=
  let message := "hourly schedule requires integer interval_hours and minute" in
  do interval_hours <- int_or_raise message (get_or "interval_hours" (PInt 1) payload);
  do minute <- int_or_raise message (get_or "minute" (PInt 0) payload);
  do _ <- check ((interval_hours <? 1) || (24 <? interval_hours)) "interval_hours must be in [1, 24]";
  do _ <- check ((minute <? 0) || (59 <? minute)) "minute must be in [0, 59]";
  Ok ("hourly", [("interval_hours", PInt interval_hours); ("minute", PInt minute)], interval_hours * 3600).

Definition normalize_weekly (payload : pydict) : res (string * pydict * Z) :=
  do items <- byday_items (get_or "byday" (PList [PStr "MO"]) payload);
  do _ <- check (match items with [] => true | _ => false end) "weekly schedule requires at least one day in byday";
  let invalid_days := List.filter (fun item => negb (str_in item WEEKDAY_CODES)) items in
  do _ <- check (match invalid_days with [] => false | _ => true end)
            ("Invalid byday values: " +:+ join ", " invalid_days);
  let dedup_days := sort_days (remove_dups items) in
  let message := "weekly schedule requires integer hour and minute" in
  do hour <- int_or_raise message (get_or "hour" (PInt 9) payload);
  do minute <- int_or_raise message (get_or "minute" (PInt 0) payload);
  do _ <- check ((hour <? 0) || (23 <? hour)) "hour must be in [0, 23]";
  do _ <- check ((minute <? 0) || (59 <? minute)) "minute must be in [0, 59]";
  Ok ("weekly", [("byday", PList (map PStr dedup_days)); ("hour", PInt hour); ("minute", PInt minute)], 7 * 24 * 3600).

Definition normalize_watch_fs (payload : pydict) (interval_sec : option Z) : res (string * pydict * Z) :=
  let raw_path := strip (py_str (get_or "path" (PStr "") payload)) in
  do _ <- check (is_empty raw_path) "watch_fs schedule requires non-empty path";
  do poll_sec <- int_or_raise "watch_fs schedule requires integer poll_sec"
                   (get_or "poll_sec" (interval_default interval_sec 10) payload);
  do _ <- check ((poll_sec <? 2) || (3600 <? poll_sec)) "poll_sec must be in [2, 3600]";
  do max_changed_files <- int_or_raise "watch_fs schedule requires integer max_changed_files"
                            (get_or "max_changed_files" (PInt 20) payload);
  do _ <- check ((max_changed_files <? 1) || (500 <? max_changed_files)) "max_changed_files must be in [1, 500]";
  let last_seen_mtime_ns :=
    match py_int (get_or "last_seen_mtime_ns" (PInt 0) payload) with Ok z => Z.max 0 z | Err _ => 0 end in
  Ok ("watch_fs",
      [("path", PStr raw_path); ("poll_sec", PInt poll_sec);
       ("recursive", PBool (to_bool (get_or "recursive" (PBool true) payload) true));
       ("glob", PStr (str_or (strip (py_str (get_or "glob" (PStr "*") payload))) "*"));
       ("max_changed_files", PInt max_changed_files); ("last_seen_mtime_ns", PInt last_seen_mtime_ns)],
      poll_sec).

Definition normalize_schedule (schedule_type : option string) (schedule : option pydict)
    (interval_sec : option Z) : res (string * pydict * Z) :=
  let normalized_type := str_or (lower (strip (str_or (opt_str schedule_type) "interval"))) "interval" in
  let payload := match schedule with Some d => d | None => [] end in
  if String.eqb normalized_type "interval" then normalize_interval payload interval_sec
  else if String.eqb normalized_type "hourly" then normalize_hourly payload
  else if String.eqb normalized_type "weekly" then normalize_weekly payload
  else if String.eqb normalized_type "watch_fs" then normalize_watch_fs payload interval_sec
  else Err (ValueError "Unsupported schedule_type. Allowed: interval, hourly, weekly, watch_fs").

(** ** The next run *)

(** A result that leaves the years Python supports raises.  [timedelta] raises
    [OverflowError] of its own, with another text, for spans of more than
    999999999 days. *)
Definition checked (t : Z) : res Z :=
  let '(y, _, _) := civil_from_days (dt_day t) in
  if (1 <=? y) && (y <=? 9999) then Ok t else Err (OverflowError "date value out of range").

(** [dt.replace(minute=m, second=0, microsecond=0)] *)
Definition replace_minute (m w : Z) : res Z :=
  if (0 <=? m) && (m <=? 59)
  then Ok (dt_day w * us_per_day + dt_hour w * us_per_hour + m * us_per_min)
  else Err (ValueError "minute must be in 0..59").

(** [h % n] *)
Definition py_mod (h n : Z) : res Z :=
  if n =? 0 then Err (ZeroDivisionError "integer modulo by zero") else Ok (h mod n).

(** [iter(value)] on the values a schedule can hold *)
Definition py_iter (value : pyval) : res (list pyval) :=
  match value with
  | PList l => Ok l
  | PDict d => Ok (map PStr (d_keys d))
  | PStr s => Ok (map (fun c => PStr (String c "")) (String.list_ascii_of_string s))
  | _ => Err (TypeError ("'" +:+ type_name value +:+ "' object is not iterable"))
  end.

Section next_run.
Context `{TimeZones}.

(** [validate_timezone] *)
Definition validate_timezone (timezone_name : option string) : res string :=
  let value := str_or (strip (str_or (opt_str timezone_name) "UTC")) "UTC" in
  if zone_known value then Ok value else Err (ValueError ("Invalid timezone: " +:+ value)).

(** [wall.astimezone(timezone.utc)] *)
Definition to_utc (key : string) (w : Z) (fold : bool) : res Z := checked (w - zone_utcoffset key w fold).

(** [candidate += timedelta(hours=1)] and the [replace] after it: the sum of
    a datetime and a timedelta has fold 0. *)
Definition next_hour (minute w : Z) : res Z :=
  do w <- checked (w + us_per_hour);
  replace_minute minute w.

(** [while candidate.hour % interval_hours != 0: ...] *)
Fixpoint hour_loop (fuel : nat) (interval_hours minute : Z) (w : Z) (fold : bool) : res (option (Z * bool)) :=
  do r <- py_mod (dt_hour w) interval_hours;
  if r =? 0 then Ok (Some (w, fold))
  else match fuel with
       | O => Ok None
       | S fuel' => do w <- next_hour minute w; hour_loop fuel' interval_hours minute w false
       end.

(** An hour of the day occurs within the next 24. *)
Definition hour_fuel : nat := 24.

Definition next_hourly (schedule : pydict) (key : string) (local_now : Z) (fold : bool) : res Z :=
  do interval_hours <- py_int (get_or "interval_hours" (PInt 1) schedule);
  do minute <- py_int (get_or "minute" (PInt 0) schedule);
  do candidate <- replace_minute minute local_now;
  do start <- (if candidate <=? local_now
               then do w <- next_hour minute candidate; Ok (w, false)
               else Ok (candidate, fold));
  do found <- hour_loop hour_fuel interval_hours minute (fst start) (snd start);
  match found with
  | Some (w, f) => to_utc key w f
  | None => Err (OtherError "hour_loop" "out of fuel")
  end.

(** The body of [for offset in range(0, 15)]: the wall-clock time of the
    slot on that day, if it is a day of the schedule and still ahead. *)
Definition weekly_slot (weekdays : list Z) (hour minute local_now : Z) (offset : Z) : res (option Z) :=
  do shifted <- checked (local_now + offset * us_per_day);
  let date_candidate := dt_day shifted in
  if negb (bool_decide (weekday date_candidate ∈ weekdays)) then Ok None
  else if negb ((0 <=? hour) && (hour <=? 23)) then Err (ValueError "hour must be in 0..23")
  else if negb ((0 <=? minute) && (minute <=? 59)) then Err (ValueError "minute must be in 0..59")
  else
    let local_candidate := date_candidate * us_per_day + hour * us_per_hour + minute * us_per_min in
    Ok (if local_candidate <=? local_now then None else Some local_candidate).

Fixpoint weekly_loop (offsets : list Z) (weekdays : list Z) (hour minute local_now : Z) : res (option Z) :=
  match offsets with
  | [] => Ok None
  | offset :: offsets' =>
      do slot <- weekly_slot weekdays hour minute local_now offset;
      match slot with
      | Some w => Ok (Some w)
      | None => weekly_loop offsets' weekdays hour minute local_now
      end
  end.

Definition weekly_offsets : list Z := [0; 1; 2; 3; 4; 5; 6; 7; 8; 9; 10; 11; 12; 13; 14].

Definition weekdays_of (byday : list pyval) : list Z :=
  match omap (fun item => weekday_to_int (upper (py_str item))) byday with
  | [] => [0]
  | l => l
  end.

Definition next_weekly (schedule : pydict) (key : string) (local_now : Z) (fold : bool) : res Z :=
  do byday <- py_iter (get_or "byday" (PList []) schedule);
  do hour <- py_int (get_or "hour" (PInt 9) schedule);
  do minute <- py_int (get_or "minute" (PInt 0) schedule);
  let weekdays := weekdays_of byday in
  do found <- weekly_loop weekly_offsets weekdays hour minute local_now;
  match found with
  | Some local_candidate => to_utc key local_candidate false
  | None =>
      do shifted <- checked (local_now + 7 * us_per_day);
      if negb ((0 <=? hour) && (hour <=? 23)) then Err (ValueError "hour must be in 0..23")
      else if negb ((0 <=? minute) && (minute <=? 59)) then Err (ValueError "minute must be in 0..59")
      else to_utc key (dt_day shifted * us_per_day + hour * us_per_hour + minute * us_per_min) false
  end.

(** The instant of the next run, for [now] in UTC. *)
Definition next_run (schedule_type : string) (schedule : pydict) (key : string) (now : Z) : res Z :=
  if String.eqb schedule_type "interval" then
    do interval_sec <- py_int (get_or "interval_sec" (PInt 300) schedule);
    checked (now + Z.max 10 interval_sec * us_per_sec)
  else if String.eqb schedule_type "watch_fs" then
    do poll_sec <- py_int (get_or "poll_sec" (PInt 10) schedule);
    checked (now + Z.max 2 poll_sec * us_per_sec)
  else
    let '(local_now, fold) := zone_fromutc key now in
    do _ <- checked local_now;
    if String.eqb schedule_type "hourly" then next_hourly schedule key local_now fold
    else if String.eqb schedule_type "weekly" then next_weekly schedule key local_now fold
    else Err (ValueError ("Unsupported schedule_type: " +:+ schedule_type)).

(** The [now_utc] parameter: absent, naive (taken as UTC) or aware. *)
Inductive now_arg : Type :=
  | NoNow
  | NaiveNow (wall : Z)
  | AwareNow (instant : Z).

Definition resolve_now (current : Z) (a : now_arg) : Z :=
  match a with NoNow => current | NaiveNow w => w | AwareNow t => t end.

Definition compute_next_run_at (current : Z) (schedule_type : string) (schedule : pydict) (timezone_name : string)
    (now_utc : now_arg) : res string :=
  do tz_name <- validate_timezone (Some timezone_name);
  do next <- next_run schedule_type schedule tz_name (resolve_now current now_utc);
  Ok (isoformat next).
End next_run.

End Schedule.
