(* ===== verification/ScheduleFacts.v ===== *)
(** Facts about schedules: normalization yields a schedule within its bounds
    and is idempotent; the next run of a normalized schedule is the first
    matching wall-clock slot after now. *)

From stdpp Require Import prelude strings list.
From Stdlib Require Import Lia ZArith Ascii Sorted.
From S2P Require Import Prelude PyStr PyVal Effects PyTime Schedule.
Import Schedule.

Module ScheduleFacts.

(** ** Normal forms *)

(** Days of the week in order, without repetition. *)
Definition day_list (days : list string) : Prop :=
  days <> [] /\ Forall (fun d => d ∈ WEEKDAY_CODES) days /\ NoDup days
  /\ StronglySorted (fun a b => (day_key a <=? day_key b) = true) days.

Inductive normal_form : string -> pydict -> Z -> Prop :=
  | NFInterval seconds :
      10 <= seconds -> normal_form "interval" [("interval_sec", PInt seconds)] seconds
  | NFHourly interval_hours minute :
      1 <= interval_hours <= 24 -> 0 <= minute <= 59 ->
      normal_form "hourly" [("interval_hours", PInt interval_hours); ("minute", PInt minute)] (interval_hours * 3600)
  | NFWeekly days hour minute :
      day_list days -> 0 <= hour <= 23 -> 0 <= minute <= 59 ->
      normal_form "weekly" [("byday", PList (map PStr days)); ("hour", PInt hour); ("minute", PInt minute)] (7 * 24 * 3600)
  | NFWatch path poll_sec recursive glob max_changed_files mtime :
      stripped path -> path <> "" -> 2 <= poll_sec <= 3600 -> stripped glob -> glob <> "" ->
      1 <= max_changed_files <= 500 -> 0 <= mtime ->
      normal_form "watch_fs"
        [("path", PStr path); ("poll_sec", PInt poll_sec); ("recursive", PBool recursive); ("glob", PStr glob);
         ("max_changed_files", PInt max_changed_files); ("last_seen_mtime_ns", PInt mtime)] poll_sec.

Lemma check_ok b message u : check b message = Ok u -> b = false.
Proof. by destruct b. Qed.

Lemma bind_ok {A B} (m : res A) (f : A -> res B) b : res_bind m f = Ok b -> exists a, m = Ok a /\ f a = Ok b.
Proof. destruct m as [a|e]; [|done]. by exists a. Qed.

(** Peels a computation that returned. *)
Ltac peel H :=
  repeat match type of H with
  | res_bind _ _ = Ok _ =>
      let a := fresh "a" in let Ha := fresh "Ha" in
      apply bind_ok in H as (a & Ha & H); first [apply check_ok in Ha | idtac]
  end.

Lemma sort_days_sorted l : StronglySorted (fun a b => (day_key a <=? day_key b) = true) (sort_days l).
Proof.
  apply (sort_by_sorted (fun a b => day_key a <=? day_key b)).
  - intros x y. rewrite !Z.leb_le. lia.
  - intros x y z. rewrite !Z.leb_le. lia.
Qed.

Lemma normalize_weekly_form payload t s n : normalize_weekly payload = Ok (t, s, n) -> normal_form t s n.
Proof.
  unfold normalize_weekly. intros H. apply bind_ok in H as (items & _ & H). peel H. simplify_eq. bool_prop.
  constructor; [|lia|lia]. split_and!.
  - destruct items as [|x items]; [done|]. intros Hn.
    assert (x ∈ sort_days (remove_dups (x :: items))) as Hx.
    { apply sort_by_elem, elem_of_remove_dups. left. }
    rewrite Hn in Hx. by apply elem_of_nil in Hx.
  - apply Forall_forall. intros d Hd. unfold sort_days in Hd. rewrite sort_by_elem, elem_of_remove_dups in Hd. apply str_in_spec.
    destruct (str_in d WEEKDAY_CODES) eqn:E; [done|].
    assert (d ∈ List.filter (fun item => negb (str_in item WEEKDAY_CODES)) items) as Hf.
    { apply list_elem_of_In, filter_In. split; [by apply list_elem_of_In | by rewrite E]. }
    destruct (List.filter _ items) eqn:El; [by apply elem_of_nil in Hf | done].
  - unfold sort_days. rewrite sort_by_perm. apply NoDup_remove_dups.
  - apply sort_days_sorted.
Qed.

Lemma str_or_star s : stripped s -> stripped (str_or s "*") /\ str_or s "*" <> "".
Proof. by destruct s. Qed.

Lemma normalize_form schedule_type schedule interval_sec t s n :
  normalize_schedule schedule_type schedule interval_sec = Ok (t, s, n) -> normal_form t s n.
Proof.
  unfold normalize_schedule. generalize (match schedule with Some d => d | None => [] end). intros payload.
  destruct (String.eqb _ "interval").
  { unfold normalize_interval. intros H. peel H. simplify_eq. bool_prop. by constructor. }
  destruct (String.eqb _ "hourly").
  { unfold normalize_hourly. intros H. peel H. simplify_eq. bool_prop. by constructor. }
  destruct (String.eqb _ "weekly"); [apply normalize_weekly_form|].
  destruct (String.eqb _ "watch_fs"); [|done].
  unfold normalize_watch_fs. intros H. peel H. simplify_eq. bool_prop.
  apply NFWatch; try done; [apply strip_stripped | by apply is_empty_false | apply str_or_star, strip_stripped
    | apply str_or_star, strip_stripped | case_match; lia].
Qed.

(** ** Normal forms are fixed *)

Lemma remove_dups_id (l : list string) : NoDup l -> remove_dups l = l.
Proof.
  induction 1 as [|x l Hx Hn IH]; simpl; [done|]. destruct (decide_rel _ x l); [done|]. by rewrite IH.
Qed.

Lemma code_word d : d ∈ WEEKDAY_CODES -> upper (strip d) = d /\ is_empty (strip d) = false.
Proof. unfold WEEKDAY_CODES. intros H. repeat (apply elem_of_cons in H as [->|H]; [done|]). by apply elem_of_nil in H. Qed.

Lemma byday_items_id days : Forall (fun d => d ∈ WEEKDAY_CODES) days -> byday_items (PList (map PStr days)) = Ok days.
Proof.
  intros Hd. unfold byday_items. f_equal. induction Hd as [|d days Hd _ IH]; simpl; [done|].
  destruct (code_word d Hd) as [Hu He]. rewrite He. simpl. by rewrite Hu, IH.
Qed.

Lemma check_false message : check false message = Ok tt.
Proof. done. Qed.

Ltac in_bounds :=
  repeat match goal with
  | |- context [?a <? ?b] => rewrite (proj2 (Z.ltb_ge a b)) by lia
  end; cbn [orb].

Lemma normal_form_fixed t s n interval_sec : normal_form t s n -> normalize_schedule (Some t) (Some s) interval_sec = Ok (t, s, n).
Proof.
  intros [seconds H|ih minute Hi Hm|days hour minute (Hne & Hc & Hn & Hs) Hh Hm|path poll recursive glob mx mt Hp1 Hp2 Hpo Hg1 Hg2 Hmx Hmt];
    unfold normalize_schedule; simpl opt_str.
  - change (normalize_interval [("interval_sec", PInt seconds)] interval_sec = Ok ("interval", [("interval_sec", PInt seconds)], seconds)).
    unfold normalize_interval. cbn. in_bounds. done.
  - match goal with |- _ = ?r => change (normalize_hourly [("interval_hours", PInt ih); ("minute", PInt minute)] = r) end.
    unfold normalize_hourly. cbn. in_bounds. cbn. in_bounds. done.
  - match goal with |- _ = ?r => change (normalize_weekly [("byday", PList (map PStr days)); ("hour", PInt hour); ("minute", PInt minute)] = r) end.
    unfold normalize_weekly. cbn [get_or d_get String.eqb]. cbn -[byday_items sort_days check join remove_dups str_in].
    rewrite byday_items_id by done. cbn -[byday_items sort_days check join remove_dups str_in].
    destruct days as [|d0 days]; [done|]. rewrite check_false. cbn -[byday_items sort_days check join remove_dups str_in].
    assert (List.filter (fun item => negb (str_in item WEEKDAY_CODES)) (d0 :: days) = []) as Hf.
    { clear - Hc. induction Hc as [|d l Hd _ IH]; [done|]. cbn [List.filter]. apply str_in_spec in Hd. rewrite Hd. exact IH. }
    cbn [List.filter] in Hf. rewrite Hf, check_false. cbn -[sort_days check remove_dups]. in_bounds. cbn -[sort_days check remove_dups].
    rewrite check_false. cbn -[sort_days check remove_dups]. in_bounds. rewrite check_false. cbn -[sort_days check remove_dups].
    rewrite remove_dups_id by done. unfold sort_days. by rewrite sort_by_id.
  - match goal with |- _ = ?r => change (normalize_watch_fs
      [("path", PStr path); ("poll_sec", PInt poll); ("recursive", PBool recursive); ("glob", PStr glob);
       ("max_changed_files", PInt mx); ("last_seen_mtime_ns", PInt mt)] interval_sec = r) end.
    unfold normalize_watch_fs. cbn -[strip check Z.max]. rewrite Hp1, Hg1.
    rewrite (proj2 (is_empty_false path) Hp2), check_false. cbn -[strip check Z.max]. in_bounds. rewrite check_false.
    cbn -[strip check Z.max]. in_bounds. rewrite check_false. cbn -[strip check Z.max].
    rewrite str_or_ne by done. by rewrite Z.max_r by lia.
Qed.

(** ** The range of dates *)

Definition first_day : Z := -719162.
Definition last_day : Z := 2932896.

Lemma civil_range z : first_day <= z <= last_day -> let '(y, _, _) := civil_from_days z in 1 <= y <= 9999.
Proof.
  unfold first_day, last_day. intros Hz. destruct (civil_from_days z) as [[y m] d] eqn:E.
  apply civil_spec in E as (Hm & Hd & E). unfold days_from_civil in E.
  destruct (m <=? 2) eqn:E1; bool_prop; [replace (2 <? m) with false in E by lia | replace (2 <? m) with true in E by lia];
    Z.div_mod_to_equations; lia.
Qed.

Lemma checked_ok t : first_day * us_per_day <= t < (last_day + 1) * us_per_day -> checked t = Ok t.
Proof.
  intros Ht. unfold checked. pose proof (civil_range (dt_day t)) as Hr.
  assert (first_day <= dt_day t <= last_day) as Hd.
  { unfold dt_day. split; [apply Z.div_le_lower_bound; unfold us_per_day, us_per_hour, us_per_min, us_per_sec in *; lia|].
    assert (t / us_per_day < last_day + 1); [|lia].
    apply Z.div_lt_upper_bound; unfold us_per_day, us_per_hour, us_per_min, us_per_sec in *; lia. }
  specialize (Hr Hd). destruct (civil_from_days (dt_day t)) as [[y m] d].
  by rewrite (proj2 (Z.leb_le 1 y)), (proj2 (Z.leb_le y 9999)) by lia.
Qed.

Lemma checked_past t : (last_day + 1) * us_per_day <= t -> checked t = Err (OverflowError "date value out of range").
Proof.
  intros Ht. unfold checked.
  assert (last_day + 1 <= dt_day t) as Hd.
  { unfold dt_day. apply Z.div_le_lower_bound; unfold us_per_day, us_per_hour, us_per_min, us_per_sec in *; lia. }
  destruct (civil_from_days (dt_day t)) as [[y m] d] eqn:E.
  assert (9999 < y) as Hy; [|by rewrite (proj2 (Z.leb_gt y 9999)), andb_false_r by lia].
  apply civil_spec in E as (Hm & Hdd & E). unfold days_from_civil, last_day in *.
  destruct (m <=? 2) eqn:E1; bool_prop; [replace (2 <? m) with false in E by lia | replace (2 <? m) with true in E by lia];
    Z.div_mod_to_equations; lia.
Qed.

(** ** Slots of the hourly grid *)

(** Minute [m] of the hour number [h] (counted from the epoch). *)
Definition hour_slot (h m : Z) : Z := h * us_per_hour + m * us_per_min.

Definition hour_of (w : Z) : Z := w / us_per_hour.

Ltac units := unfold us_per_day, us_per_hour, us_per_min, us_per_sec in *.

Lemma dt_hour_mod w : dt_hour w = hour_of w mod 24.
Proof. unfold dt_hour, dt_time, hour_of. units. Z.div_mod_to_equations. lia. Qed.

Lemma hour_slot_hour h m : 0 <= m <= 59 -> hour_of (hour_slot h m) = h.
Proof. unfold hour_of, hour_slot. units. intros. Z.div_mod_to_equations. lia. Qed.

Lemma replace_minute_slot m w : 0 <= m <= 59 -> replace_minute m w = Ok (hour_slot (hour_of w) m).
Proof.
  intros Hm. unfold replace_minute. rewrite (proj2 (Z.leb_le 0 m)), (proj2 (Z.leb_le m 59)) by lia. cbn [andb].
  f_equal. rewrite dt_hour_mod. unfold hour_slot, dt_day, hour_of. units. Z.div_mod_to_equations. lia.
Qed.

Lemma hour_of_bound w : hour_of w * us_per_hour <= w < (hour_of w + 1) * us_per_hour.
Proof. unfold hour_of. units. Z.div_mod_to_equations. lia. Qed.

Lemma next_hour_slot m h :
  0 <= m <= 59 -> first_day * us_per_day <= hour_slot h m -> hour_slot (h + 1) m < (last_day + 1) * us_per_day ->
  next_hour m (hour_slot h m) = Ok (hour_slot (h + 1) m).
Proof.
  intros Hm Hlo Hhi. unfold next_hour.
  assert (hour_slot h m + us_per_hour = hour_slot (h + 1) m) as -> by (unfold hour_slot; lia).
  rewrite checked_ok; [|unfold hour_slot, first_day, last_day in *; units; lia].
  cbn [res_bind]. rewrite replace_minute_slot, hour_slot_hour by done. done.
Qed.

(** The loop stops at the first hour of the grid. *)
Lemma hour_loop_spec fuel ih m h fold :
  1 <= ih -> 0 <= m <= 59 -> (exists k, (k <= fuel)%nat /\ (h + Z.of_nat k) mod 24 = 0) ->
  first_day * us_per_day <= hour_slot h m -> hour_slot (h + Z.of_nat fuel) m < (last_day + 1) * us_per_day ->
  exists h' f, hour_loop fuel ih m (hour_slot h m) fold = Ok (Some (hour_slot h' m, f))
    /\ h <= h' <= h + Z.of_nat fuel /\ (h' mod 24) mod ih = 0 /\ (forall k, h <= k < h' -> (k mod 24) mod ih <> 0)
    /\ f = (if h' =? h then fold else false).
Proof.
  intros Hih Hm. revert h fold. induction fuel as [|fuel IH]; intros h fold (k & Hk & Hk0) Hlo Hhi;
    cbn [hour_loop]; unfold py_mod; rewrite dt_hour_mod, hour_slot_hour by done;
    rewrite (proj2 (Z.eqb_neq ih 0)) by lia; cbn [res_bind];
    destruct ((h mod 24) mod ih =? 0) eqn:E; bool_prop.
  - exists h, fold. rewrite Z.eqb_refl. split_and!; try done; lia.
  - destruct E. replace (h + Z.of_nat k) with h in Hk0 by lia. rewrite Hk0. apply Z.mod_0_l. lia.
  - exists h, fold. rewrite Z.eqb_refl. split_and!; try done; lia.
  - rewrite next_hour_slot; [|done | done | unfold hour_slot in *; units; lia]. cbn [res_bind].
    destruct (IH (h + 1) false) as (h' & f & Heq & Hh' & Hz & Hmin & Hf).
    { destruct k as [|k].
      - destruct E. replace (h + Z.of_nat 0) with h in Hk0 by lia. rewrite Hk0. apply Z.mod_0_l. lia.
      - exists k. split; [lia|]. by replace (h + 1 + Z.of_nat k) with (h + Z.of_nat (S k)) by lia. }
    { unfold hour_slot in *. units. lia. }
    { by replace (h + 1 + Z.of_nat fuel) with (h + Z.of_nat (S fuel)) by lia. }
    exists h', f. split_and!; try done; [lia | lia | |].
    + intros j Hj. destruct (decide (j = h)) as [->|]; [done | apply Hmin; lia].
    + rewrite Hf. rewrite (proj2 (Z.eqb_neq h' h)) by lia. by destruct (h' =? h + 1).
Qed.

(** Midnight comes within a day. *)
Lemma midnight h : exists k, (k <= 24)%nat /\ (h + Z.of_nat k) mod 24 = 0.
Proof.
  exists (Z.to_nat (24 - h mod 24)). pose proof (Z.mod_pos_bound h 24 ltac:(lia)). split; [lia|].
  rewrite Z2Nat.id by lia. Z.div_mod_to_equations. lia.
Qed.

(** ** Slots of the weekly grid *)

Definition day_slot (day hour minute : Z) : Z := day * us_per_day + hour * us_per_hour + minute * us_per_min.

Lemma weekly_loop_spec offsets base weekdays hour minute local_now :
  0 <= hour <= 23 -> 0 <= minute <= 59 -> base = dt_day local_now ->
  (forall o, o ∈ offsets -> 0 <= o <= 14) ->
  first_day * us_per_day <= local_now -> local_now + 14 * us_per_day < (last_day + 1) * us_per_day ->
  let good o := weekday (base + o) ∈ weekdays /\ local_now < day_slot (base + o) hour minute in
  match weekly_loop offsets weekdays hour minute local_now with
  | Ok (Some w) => exists before o after, offsets = before ++ o :: after /\ w = day_slot (base + o) hour minute
                     /\ good o /\ Forall (fun o' => ~ good o') before
  | Ok None => Forall (fun o => ~ good o) offsets
  | Err _ => False
  end.
Proof.
  intros Hh Hm -> Ho Hlo Hhi good. induction offsets as [|o offsets IH]; cbn [weekly_loop]; [constructor|].
  pose proof (Ho o ltac:(left)) as Hoo. specialize (IH ltac:(intros x Hx; apply Ho; by right)).
  unfold weekly_slot. rewrite checked_ok by (units; lia). cbn [res_bind].
  assert (dt_day (local_now + o * us_per_day) = dt_day local_now + o) as ->.
  { unfold dt_day. apply Z.div_add. done. }
  assert (~ good o -> match weekly_loop offsets weekdays hour minute local_now with
      | Ok (Some w) => exists before o' after, o :: offsets = before ++ o' :: after /\ w = day_slot (dt_day local_now + o') hour minute
                         /\ good o' /\ Forall (fun o' => ~ good o') before
      | Ok None => Forall (fun o => ~ good o) (o :: offsets)
      | Err _ => False end) as Hskip.
  { intros Hng. destruct (weekly_loop offsets weekdays hour minute local_now) as [[w|]|]; [|by constructor | done].
    destruct IH as (before & o' & after & -> & Hw & Hg & Hb). exists (o :: before), o', after. split_and!; try done. by constructor. }
  case_bool_decide as Hw; cbn [negb].
  - rewrite (proj2 (Z.leb_le 0 hour)), (proj2 (Z.leb_le hour 23)), (proj2 (Z.leb_le 0 minute)), (proj2 (Z.leb_le minute 59)) by lia.
    cbn [andb negb res_bind]. fold (day_slot (dt_day local_now + o) hour minute).
    destruct (_ <=? local_now) eqn:E; bool_prop.
    + apply Hskip. intros [_ ?]. lia.
    + exists [], o, offsets. split_and!; try done.
  - apply Hskip. by intros [? _].
Qed.

Lemma code_index d : d ∈ WEEKDAY_CODES -> exists i, weekday_to_int d = Some i /\ 0 <= i <= 6.
Proof.
  unfold WEEKDAY_CODES. intros H.
  repeat (apply elem_of_cons in H as [->|H]; [by eexists|]). by apply elem_of_nil in H.
Qed.

Lemma weekdays_of_spec days i :
  days <> [] -> Forall (fun d => d ∈ WEEKDAY_CODES) days ->
  i ∈ weekdays_of (map PStr days) <-> exists d, d ∈ days /\ weekday_to_int d = Some i.
Proof.
  intros Hne Hc. unfold weekdays_of.
  assert (omap (fun item => weekday_to_int (upper (py_str item))) (map PStr days) = omap weekday_to_int days) as ->.
  { clear Hne. induction Hc as [|d days Hd _ IH]; [done|]. cbn [map omap list_omap py_str].
    assert (upper d = d) as Hu.
    { clear - Hd. unfold WEEKDAY_CODES in Hd.
      repeat (apply elem_of_cons in Hd as [->|Hd]; [done|]). by apply elem_of_nil in Hd. }
    rewrite Hu. destruct (weekday_to_int d); [f_equal; exact IH | exact IH]. }
  assert (omap weekday_to_int days <> []) as Hn.
  { destruct Hc as [|d days Hd _]; [done|]. destruct (code_index d Hd) as (j & Hj & _). simpl. by rewrite Hj. }
  destruct (omap weekday_to_int days) as [|j l] eqn:E; [done|]. rewrite <- E, list_elem_of_omap. done.
Qed.

(** ** The first slot after now *)

(** The wall-clock times a normalized schedule names. *)
Inductive slot : string -> pydict -> Z -> Prop :=
  | SlotHourly interval_hours minute h :
      (h mod 24) mod interval_hours = 0 ->
      slot "hourly" [("interval_hours", PInt interval_hours); ("minute", PInt minute)] (hour_slot h minute)
  | SlotWeekly days hour minute day d :
      d ∈ days -> weekday_to_int d = Some (weekday day) ->
      slot "weekly" [("byday", PList (map PStr days)); ("hour", PInt hour); ("minute", PInt minute)]
        (day_slot day hour minute).

Definition first_slot_after (t : string) (s : pydict) (local_now w : Z) : Prop :=
  slot t s w /\ local_now < w /\ forall w', slot t s w' -> local_now < w' -> w <= w'.

Lemma offsets_sorted : StronglySorted Z.lt weekly_offsets.
Proof. unfold weekly_offsets. repeat constructor; lia. Qed.

Lemma offsets_elem o : 0 <= o <= 14 -> o ∈ weekly_offsets.
Proof.
  intros Ho. unfold weekly_offsets.
  assert (o = 0 \/ o = 1 \/ o = 2 \/ o = 3 \/ o = 4 \/ o = 5 \/ o = 6 \/ o = 7 \/ o = 8 \/ o = 9 \/ o = 10
          \/ o = 11 \/ o = 12 \/ o = 13 \/ o = 14) as Hx by lia.
  destruct_or! Hx; subst; set_solver.
Qed.

Lemma offsets_bound o : o ∈ weekly_offsets -> 0 <= o <= 14.
Proof. unfold weekly_offsets. intros H. repeat (apply elem_of_cons in H as [->|H]; [lia|]). by apply elem_of_nil in H. Qed.

(** Everything smaller comes earlier in the loop. *)
Lemma offsets_before before o after o' :
  weekly_offsets = before ++ o :: after -> 0 <= o' < o -> o' ∈ before.
Proof.
  intros He Ho. assert (o ∈ weekly_offsets) as Hin by (rewrite He; set_solver). apply offsets_bound in Hin.
  assert (o' ∈ weekly_offsets) as Hin' by (apply offsets_elem; lia).
  pose proof offsets_sorted as Hs. rewrite He in Hs, Hin'. clear - Ho Hin' Hs.
  induction before as [|x before IH]; simpl in *.
  - exfalso. apply StronglySorted_inv in Hs as [_ Hall]. apply elem_of_cons in Hin' as [->|Hin']; [lia|].
    pose proof (proj1 (Forall_forall _ _) Hall _ Hin'). lia.
  - apply elem_of_cons in Hin' as [->|Hin']; [left|right]. apply StronglySorted_inv in Hs as [Hs _]. auto.
Qed.

Lemma day_of_bound w : dt_day w * us_per_day <= w < (dt_day w + 1) * us_per_day.
Proof. unfold dt_day. units. Z.div_mod_to_equations. lia. Qed.

Lemma weekday_shift base i : 0 <= i <= 6 -> exists o, 1 <= o <= 7 /\ weekday (base + o) = i.
Proof.
  intros Hi. exists (1 + (i - weekday base - 1) mod 7). unfold weekday.
  split; [pose proof (Z.mod_pos_bound (i - (base + 3) mod 7 - 1) 7 ltac:(lia)); lia|].
  Z.div_mod_to_equations. lia.
Qed.

Lemma weekly_first days hour minute local_now :
  day_list days -> 0 <= hour <= 23 -> 0 <= minute <= 59 ->
  first_day * us_per_day <= local_now -> local_now + 14 * us_per_day < (last_day + 1) * us_per_day ->
  exists w, weekly_loop weekly_offsets (weekdays_of (map PStr days)) hour minute local_now = Ok (Some w)
    /\ first_slot_after "weekly" [("byday", PList (map PStr days)); ("hour", PInt hour); ("minute", PInt minute)]
         local_now w /\ w < local_now + 15 * us_per_day.
Proof.
  intros (Hne & Hc & _) Hh Hm Hlo Hhi.
  pose proof (weekly_loop_spec weekly_offsets (dt_day local_now) (weekdays_of (map PStr days)) hour minute local_now
    Hh Hm eq_refl offsets_bound Hlo Hhi) as Hspec. cbv zeta in Hspec.
  pose proof (day_of_bound local_now) as Hday.
  destruct (weekly_loop _ _ _ _ _) as [[w|]|]; [| |done].
  - destruct Hspec as (before & o & after & He & -> & (Hw & Hgt) & Hb). exists (day_slot (dt_day local_now + o) hour minute).
    assert (0 <= o <= 14) as Ho by (apply offsets_bound; rewrite He; set_solver).
    split; [done|]. split; [|unfold day_slot in *; units; lia].
    split; [|split; [done|]].
    + apply weekdays_of_spec in Hw as (d & Hd & Hi); [|done | done]. by econstructor.
    + intros w' Hs Hgt'. inversion Hs as [|days' hour' minute' day' d Hd Hi Heq1 Heq2 Heq3]; subst.
      assert (days' = days) as ->.
      { assert (forall l k : list string, map PStr l = map PStr k -> l = k) as Hinj.
        { induction l as [|x l IH]; intros [|y k]; try done. intros [= -> Hl]. f_equal. auto. }
        apply Hinj. by simplify_eq. }
      simplify_eq. apply Z.nlt_ge. intros Hlt.
      assert (day' - dt_day local_now ∈ before) as Hin.
      { eapply offsets_before; [done|]. unfold day_slot in *. units. lia. }
      apply (proj1 (Forall_forall _ _) Hb _ Hin).
      replace (dt_day local_now + (day' - dt_day local_now)) with day' by lia. split; [|done].
      apply weekdays_of_spec; [done | done|]. by exists d.
  - exfalso. destruct days as [|d days]; [done|]. apply Forall_cons in Hc as Hc'.
    destruct (code_index d (proj1 Hc')) as (i & Hi & Hib). destruct (weekday_shift (dt_day local_now) i Hib) as (o & Ho & Hwo).
    apply (proj1 (Forall_forall _ _) Hspec o); [apply offsets_elem; lia|]. split.
    + apply weekdays_of_spec; [done | done|]. exists d. split; [left | by rewrite Hwo].
    + unfold day_slot in *. units. lia.
Qed.

Lemma hourly_first ih minute local_now fold :
  1 <= ih <= 24 -> 0 <= minute <= 59 ->
  (first_day + 1) * us_per_day <= local_now -> local_now + 2 * us_per_day < (last_day + 1) * us_per_day ->
  exists w f,
    res_bind (if hour_slot (hour_of local_now) minute <=? local_now
              then res_bind (next_hour minute (hour_slot (hour_of local_now) minute)) (fun w => Ok (w, false))
              else Ok (hour_slot (hour_of local_now) minute, fold))
      (fun start => hour_loop hour_fuel ih minute (fst start) (snd start)) = Ok (Some (w, f))
    /\ first_slot_after "hourly" [("interval_hours", PInt ih); ("minute", PInt minute)] local_now w
    /\ w < local_now + 2 * us_per_day.
Proof.
  intros Hih Hm Hlo Hhi. pose proof (hour_of_bound local_now) as Hb. set (h0 := hour_of local_now) in *.
  assert (exists h f, (if hour_slot h0 minute <=? local_now
      then res_bind (next_hour minute (hour_slot h0 minute)) (fun w => Ok (w, false))
      else Ok (hour_slot h0 minute, fold)) = Ok (hour_slot h minute, f)
      /\ local_now < hour_slot h minute /\ h0 <= h <= h0 + 1
      /\ forall k, local_now < hour_slot k minute -> h <= k) as (h & f & -> & Hgt & Hh & Hleast).
  { destruct (hour_slot h0 minute <=? local_now) eqn:E; bool_prop.
    - exists (h0 + 1), false. rewrite next_hour_slot; [|done | unfold hour_slot in *; units; lia..].
      split; [done|]. unfold hour_slot in *. units. split_and!; [lia | lia | lia|]. intros k Hk. lia.
    - exists h0, fold. split; [done|]. unfold hour_slot in *. units. split_and!; [lia | lia | lia|]. intros k Hk. lia. }
  cbn [res_bind fst snd].
  destruct (hour_loop_spec hour_fuel ih minute h f) as (h' & f' & -> & Hh' & Hz & Hmin & _);
    [lia | done | apply midnight | unfold hour_slot in *; units; lia | unfold hour_slot, hour_fuel in *; units; lia|].
  exists (hour_slot h' minute), f'. split; [done|]. unfold hour_fuel in Hh'.
  split; [split; [by constructor | split]|].
  - unfold hour_slot in *. units. lia.
  - intros w' Hs Hgt'. inversion Hs as [ih' m' k Hk Heq1 Heq2|]. simplify_eq.
    apply Z.nlt_ge. intros Hlt.
    assert (h <= k) as Hk1 by by apply Hleast.
    assert (k < h') as Hk2 by (unfold hour_slot in *; units; lia). by apply (Hmin k).
  - unfold hour_slot in *. units. lia.
Qed.

Section next_run.
Context `{HZ : TimeZones} `{HL : !TimeZoneLaws}.

(** A period: exactly that long after now, if it is a year Python supports. *)
Lemma next_run_period t s n key now :
  normal_form t s n -> t = "interval" \/ t = "watch_fs" -> next_run t s key now = checked (now + n * us_per_sec).
Proof.
  intros Hnf Ht. destruct Hnf; try (by destruct Ht as [[=]|[=]]);
    unfold next_run; cbn [String.eqb Ascii.eqb Bool.eqb get_or d_get py_int res_bind]; by rewrite Z.max_r by lia.
Qed.

(** A slot: the first one of the schedule's grid after the local time, in a
    zone whose offset is less than a day.  A weekly slot is taken with fold 0. *)
Lemma next_run_slot t s n key now :
  normal_form t s n -> t = "hourly" \/ t = "weekly" ->
  (forall w f, - us_per_day < zone_utcoffset key w f < us_per_day) ->
  (first_day + 3) * us_per_day <= now -> now + 20 * us_per_day < (last_day + 1) * us_per_day ->
  exists w f, next_run t s key now = Ok (w - zone_utcoffset key w f) /\ first_slot_after t s (fst (zone_fromutc key now)) w
    /\ (t = "weekly" -> f = false).
Proof using HL.
  intros Hnf Ht Hoff Hlo Hhi. pose proof (fromutc_utcoffset key now) as Hlaw.
  destruct (zone_fromutc key now) as [local_now fold] eqn:Ez. pose proof (Hoff local_now fold) as Hln.
  destruct Hnf as [seconds H|ih minute Hi Hm|days hour minute Hd Hh Hm|path poll recursive glob mx mt _ _ Hp _ _ _ _];
    unfold next_run; cbn [String.eqb Ascii.eqb Bool.eqb get_or d_get py_int res_bind];
    [by destruct Ht as [[=]|[=]] | | | by destruct Ht as [[=]|[=]]].
  - rewrite Ez. rewrite checked_ok by (unfold first_day, last_day in *; units; lia). cbn [res_bind].
    destruct (hourly_first ih minute local_now fold) as (w & f & Hrun & Hfirst & Hw);
      [done | done | unfold first_day, last_day in *; units; lia | unfold first_day, last_day in *; units; lia|].
    unfold next_hourly. cbn [String.eqb Ascii.eqb Bool.eqb get_or d_get py_int res_bind].
    rewrite replace_minute_slot by done. cbn [res_bind].
    destruct (if hour_slot (hour_of local_now) minute <=? local_now then _ else _) as [start|]; [|done].
    cbn [res_bind] in Hrun |- *. rewrite Hrun. cbn [res_bind]. unfold to_utc. pose proof (Hoff w f).
    pose proof (proj1 (proj2 Hfirst)). rewrite checked_ok by (unfold first_day, last_day in *; units; lia).
    exists w, f. by split_and!.
  - rewrite Ez. rewrite checked_ok by (unfold first_day, last_day in *; units; lia). cbn [res_bind].
    destruct (weekly_first days hour minute local_now) as (w & Hrun & Hfirst & Hw);
      [done | done | done | unfold first_day, last_day in *; units; lia | unfold first_day, last_day in *; units; lia|].
    unfold next_weekly. cbn [String.eqb Ascii.eqb Bool.eqb get_or d_get py_int py_iter res_bind].
    rewrite Hrun. cbn [res_bind]. unfold to_utc. pose proof (Hoff w false).
    pose proof (proj1 (proj2 Hfirst)). rewrite checked_ok by (unfold first_day, last_day in *; units; lia).
    exists w, false. by split_and!.
Qed.

Lemma normal_kind t s n : normal_form t s n -> (t = "interval" \/ t = "watch_fs") \/ (t = "hourly" \/ t = "weekly").
Proof. destruct 1; auto. Qed.

Lemma normal_period t s n : normal_form t s n -> 0 <= n.
Proof. destruct 1; lia. Qed.

(** A normalized schedule has a next run while the years Python supports
    last. *)
Lemma next_run_exists t s n key now :
  normal_form t s n -> (forall w f, - us_per_day < zone_utcoffset key w f < us_per_day) ->
  (first_day + 3) * us_per_day <= now -> now + n * us_per_sec + 20 * us_per_day < (last_day + 1) * us_per_day ->
  exists u, next_run t s key now = Ok u.
Proof using HL.
  intros Hnf Hoff Hlo Hhi. pose proof (normal_period _ _ _ Hnf). destruct (normal_kind _ _ _ Hnf) as [Ht|Ht].
  - rewrite (next_run_period t s n) by done. rewrite checked_ok by (unfold first_day, last_day in *; units; lia). eauto.
  - destruct (next_run_slot t s n key now) as (w & f & -> & _); [done..| |eauto]. unfold first_day, last_day in *. units. lia.
Qed.

(** C31. The next run of a normalized schedule, from any instant of the years
    1 to 9999.  An interval or a file watch runs exactly its period after now,
    or, when that is past the year 9999, [compute_next_run_at] raises
    [OverflowError] (an interval has no upper bound).  An hourly or weekly
    schedule, in a zone whose offsets are below a day, from an instant at least
    3 days after the first and 20 days before the last supported day, runs at
    the first wall-clock slot of the schedule after the local time, and that
    instant is later than now unless the zone's offset has grown in between. *)
Theorem next_run_first_slot current schedule_type schedule interval_sec t s n timezone_name key now_utc :
  normalize_schedule schedule_type schedule interval_sec = Ok (t, s, n) ->
  validate_timezone (Some timezone_name) = Ok key ->
  let now := resolve_now current now_utc in
  let next := compute_next_run_at current t s timezone_name now_utc in
  first_day * us_per_day <= now < (last_day + 1) * us_per_day ->
  (t = "interval" \/ t = "watch_fs" ->
     if now + n * us_per_sec <? (last_day + 1) * us_per_day then next = Ok (isoformat (now + n * us_per_sec))
     else exists message, next = Err (OverflowError message))
  /\ (t = "hourly" \/ t = "weekly" ->
      (forall w f, - us_per_day < zone_utcoffset key w f < us_per_day) ->
      (first_day + 3) * us_per_day <= now -> now + 20 * us_per_day < (last_day + 1) * us_per_day ->
      exists w f, next = Ok (isoformat (w - zone_utcoffset key w f))
        /\ first_slot_after t s (fst (zone_fromutc key now)) w
        /\ (let '(local_now, fold) := zone_fromutc key now in
            zone_utcoffset key w f <= zone_utcoffset key local_now fold -> now < w - zone_utcoffset key w f)).
Proof using HL.
  intros Hn%normalize_form Hz now next Hnow. unfold next, compute_next_run_at. rewrite Hz. cbn [res_bind]. fold now.
  pose proof (normal_period _ _ _ Hn) as Hpos. split.
  - intros Ht. rewrite (next_run_period t s n) by done. destruct (_ <? _) eqn:E; bool_prop.
    + rewrite checked_ok; [done|]. unfold first_day, last_day in *. units. lia.
    + rewrite checked_past by done. by eexists.
  - intros Ht Hoff Hlo Hhi. destruct (next_run_slot t s n key now) as (w & f & -> & Hfirst & _); [done..|].
    exists w, f. split_and!; [done..|]. pose proof (fromutc_utcoffset key now) as Hlaw.
    destruct (zone_fromutc key now) as [local_now fold]. destruct Hfirst as (_ & Hgt & _). cbn [fst] in Hgt. lia.
Qed.

(** C40. A weekly slot is taken at its first pass, whatever the pass of the
    local time: the next run of a normalized weekly schedule is the instant of
    its first slot after the local time under the offset of fold 0, and it lies
    before now exactly when the slot is nearer on the wall clock than that
    offset exceeds the offset in force.  This happens in the second pass of the
    hour that is repeated when daylight saving time ends. *)
Theorem weekly_next_in_past schedule interval_sec s n key now :
  normalize_schedule (Some "weekly") schedule interval_sec = Ok ("weekly", s, n) ->
  (forall w f, - us_per_day < zone_utcoffset key w f < us_per_day) ->
  (first_day + 3) * us_per_day <= now -> now + 20 * us_per_day < (last_day + 1) * us_per_day ->
  exists w, let '(local_now, fold) := zone_fromutc key now in
    first_slot_after "weekly" s local_now w
    /\ next_run "weekly" s key now = Ok (w - zone_utcoffset key w false)
    /\ (w - zone_utcoffset key w false < now
        <-> w - local_now < zone_utcoffset key w false - zone_utcoffset key local_now fold).
Proof using HL.
  intros Hn%normalize_form Hoff Hlo Hhi.
  destruct (next_run_slot "weekly" s n key now) as (w & f & Hrun & Hfirst & Hf); [done|by right|done..|].
  rewrite Hf in Hrun by done. exists w. pose proof (fromutc_utcoffset key now) as Hlaw.
  destruct (zone_fromutc key now) as [local_now fold]. split_and!; [done..|]. lia.
Qed.
End next_run.

(** Normalization yields a schedule of one of the four kinds with every
    field within its bounds, and is idempotent: normalizing its result again,
    whatever default interval is passed, returns it unchanged. *)
Theorem schedule_normalization schedule_type schedule interval_sec interval_sec' t s n :
  normalize_schedule schedule_type schedule interval_sec = Ok (t, s, n) ->
  normal_form t s n /\ normalize_schedule (Some t) (Some s) interval_sec' = Ok (t, s, n).
Proof. intros H%normalize_form. split; [done | by apply normal_form_fixed]. Qed.

(** ** Witnesses: a zone that ends daylight saving time at [dst_end] *)

Definition dst_end : Z := 1729990800 * us_per_sec.

#[local] Instance demo_zones : TimeZones := {|
  zone_known := fun _ => true;
  zone_fromutc := fun _ t =>
    if t <? dst_end then (t + 2 * us_per_hour, false) else (t + us_per_hour, t <? dst_end + us_per_hour);
  zone_utcoffset := fun _ w fold =>
    if w <? dst_end + us_per_hour then 2 * us_per_hour
    else if w <? dst_end + 2 * us_per_hour then (if fold then us_per_hour else 2 * us_per_hour)
    else us_per_hour |}.

#[local] Instance demo_zone_laws : TimeZoneLaws.
Proof.
  intros key t. unfold zone_fromutc, zone_utcoffset, demo_zones. units.
  destruct (t <? dst_end) eqn:E;
    repeat match goal with |- context [?a <? ?b] => destruct (a <? b) eqn:? end; bool_prop; lia.
Qed.

Lemma demo_zone_bound key w f : - us_per_day < zone_utcoffset key w f < us_per_day.
Proof. unfold zone_utcoffset, demo_zones. units. repeat case_match; lia. Qed.

Definition sunday_schedule : pydict := [("byday", PList [PStr "SU"]); ("hour", PInt 2); ("minute", PInt 30)].

Lemma weekly_next_in_past_witness :
  let now := dst_end + 10 * us_per_min in
  next_run "weekly" sunday_schedule "Europe/Paris" now = Ok (dst_end - 30 * us_per_min) /\ dst_end - 30 * us_per_min < now.
Proof.
  destruct (weekly_next_in_past (Some sunday_schedule) None sunday_schedule 604800 "Europe/Paris" (dst_end + 10 * us_per_min))
    as (w & _ & Hrun & Hpast);
    [vm_compute; reflexivity | apply demo_zone_bound | vm_compute; discriminate | vm_compute; reflexivity|].
  assert (next_run "weekly" sunday_schedule "Europe/Paris" (dst_end + 10 * us_per_min) = Ok (dst_end - 30 * us_per_min)) as E
    by (vm_compute; reflexivity).
  split; [exact E|]. vm_compute. reflexivity.
Defined.

Lemma schedule_normalization_witness :
  normalize_schedule (Some " Weekly ")
    (Some [("byday", PStr "fr, mo,FR"); ("hour", PStr "7"); ("minute", PInt 15)]) None
  = Ok ("weekly", [("byday", PList [PStr "MO"; PStr "FR"]); ("hour", PInt 7); ("minute", PInt 15)], 604800)
  /\ normal_form "weekly" [("byday", PList [PStr "MO"; PStr "FR"]); ("hour", PInt 7); ("minute", PInt 15)] 604800.
Proof.
  split; [vm_compute; reflexivity|].
  refine (proj1 (schedule_normalization (Some " Weekly ")
    (Some [("byday", PStr "fr, mo,FR"); ("hour", PStr "7"); ("minute", PInt 15)]) None None _ _ _ _)).
  vm_compute. reflexivity.
Defined.

Lemma next_run_first_slot_witness :
  exists w f, compute_next_run_at 0 "weekly" sunday_schedule "Europe/Paris" (AwareNow dst_end)
      = Ok (isoformat (w - zone_utcoffset "Europe/Paris" w f))
    /\ first_slot_after "weekly" sunday_schedule (dst_end + us_per_hour) w.
Proof.
  destruct (next_run_first_slot 0 (Some "weekly") (Some sunday_schedule) None "weekly" sunday_schedule 604800
    "Europe/Paris" "Europe/Paris" (AwareNow dst_end)) as [_ Hw];
    [vm_compute; reflexivity | reflexivity | split; [vm_compute; discriminate | vm_compute; reflexivity]|].
  destruct (Hw (or_intror eq_refl)) as (w & f & H1 & H2 & _);
    [apply demo_zone_bound | vm_compute; discriminate | vm_compute; reflexivity|].
  exists w, f. split; [exact H1 | exact H2].
Defined.

End ScheduleFacts.
