(* ===== verification/MissionPolicy.v ===== *)
(** Mission policies (automation/mission_policy.py): the reliability profiles
    and the overlay of a mission's own policy on them.

    A service-level objective stays a dict of Python values, as in the code:
    overrides come from JSON and can be anything. *)

From stdpp Require Import prelude strings list.
From Stdlib Require Import Lia ZArith Ascii.
From S2P Require Import Prelude PyStr PyVal PyFloat Effects.

Module MissionPolicy.

Definition SLO_KEYS : list string :=
  ["warning_failures"; "critical_failures"; "disable_failures"; "backoff_base_sec"; "backoff_max_sec";
   "circuit_failure_threshold"; "circuit_open_sec"].

Local Notation "'do' x <- m ; k" := (res_bind m (fun x => k))
  (at level 60, x pattern, m at level 60, k at level 200, right associativity).

(** [_normalize_profile] *)
Definition normalize_profile (value : pyval) : option string :=
  let token := lower (norm value) in
  if is_empty token then None else Some (replace_c "-" "_" token).

Section policy.
(** The text [repr] prints for a float. *)
Context (float_repr : fvalue -> string).

Definition pfloat (v : fvalue) : pyval := PFloat (PyFloat v (float_repr v)).

(** A float literal with an integral value. *)
Definition lit (z : Z) : pyval := pfloat (FFinite z 0).

Definition slo_dict (warning critical disable : Z) (backoff_base backoff_max : pyval) (threshold : Z)
    (open_sec : pyval) : pydict :=
  [("warning_failures", PInt warning); ("critical_failures", PInt critical); ("disable_failures", PInt disable);
   ("backoff_base_sec", backoff_base); ("backoff_max_sec", backoff_max);
   ("circuit_failure_threshold", PInt threshold); ("circuit_open_sec", open_sec)].

Definition profile_dict (id name description : string) (slo : pydict) : pydict :=
  [("id", PStr id); ("name", PStr name); ("description", PStr description); ("slo", PDict slo)].

Definition balanced_slo : pydict := slo_dict 2 4 6 (lit 5) (lit 300) 4 (lit 120).
Definition strict_slo : pydict := slo_dict 1 2 3 (lit 10) (lit 600) 2 (lit 300).
Definition watchdog_slo : pydict := slo_dict 1 2 4 (lit 3) (lit 90) 3 (lit 90).
Definition release_slo : pydict := slo_dict 1 2 3 (lit 15) (lit 900) 2 (lit 600).

Definition MISSION_POLICY_PROFILES : dict pydict :=
  [("balanced", profile_dict "balanced" "Balanced" "Default tradeoff between fast retries and stability." balanced_slo);
   ("strict", profile_dict "strict" "Strict Reliability"
      "Faster escalation and stronger containment after repeated failures." strict_slo);
   ("watchdog", profile_dict "watchdog" "Watchdog"
      "Aggressive retry for monitoring loops with quick circuit recovery." watchdog_slo);
   ("release", profile_dict "release" "Release Gate"
      "Conservative release posture with early warning and hard guardrails." release_slo)].

Definition list_mission_policy_profiles : list pydict :=
  omap (fun key => d_get key MISSION_POLICY_PROFILES) (sort_strings (d_keys MISSION_POLICY_PROFILES)).

(** [_MISSION_POLICY_PROFILES[key]["slo"]] *)
Definition profile_slo (key : string) : option pydict :=
  option_map (fun p => as_dict (get "slo" p)) (d_get key MISSION_POLICY_PROFILES).

(** [_as_int] and [_as_float] inside [_normalize_slo] *)
Definition as_int (raw : pydict) (key : string) (minimum default : Z) : Z :=
  Z.max minimum (match py_int (get_or key (PInt default) raw) with Ok z => z | Err _ => default end).

Definition as_float (raw : pydict) (key : string) (minimum default : fvalue) : fvalue :=
  f_max minimum (match py_float (get_or key (pfloat default) raw) with Ok f => f | Err _ => default end).

Definition one : fvalue := FFinite 1 0.

(** [_normalize_slo] *)
Definition normalize_slo (raw fallback : pydict) : res pydict :=
  do d1 <- py_int (get_or "warning_failures" (PInt 2) fallback);
  let warning := as_int raw "warning_failures" 1 d1 in
  do d2 <- py_int (get_or "critical_failures" (PInt 4) fallback);
  let critical := as_int raw "critical_failures" warning d2 in
  do d3 <- py_int (get_or "disable_failures" (PInt 6) fallback);
  let disable := as_int raw "disable_failures" (critical + 1) d3 in
  do d4 <- py_float (get_or "backoff_base_sec" (lit 5) fallback);
  let backoff_base := as_float raw "backoff_base_sec" one d4 in
  do d5 <- py_float (get_or "backoff_max_sec" (lit 300) fallback);
  let backoff_max := as_float raw "backoff_max_sec" backoff_base d5 in
  do d6 <- py_int (get_or "circuit_failure_threshold" (PInt 4) fallback);
  let circuit_failure_threshold := as_int raw "circuit_failure_threshold" 1 d6 in
  do d7 <- py_float (get_or "circuit_open_sec" (lit 120) fallback);
  let circuit_open_sec := as_float raw "circuit_open_sec" one d7 in
  Ok (slo_dict warning critical disable (pfloat backoff_base) (pfloat backoff_max) circuit_failure_threshold
        (pfloat circuit_open_sec)).

(** The dict [{"profile": ..., "slo": ...}] *)
Record policy : Type := Policy { p_profile : string; p_slo : pydict }.

Definition policy_dict (p : policy) : pydict := [("profile", PStr (p_profile p)); ("slo", PDict (p_slo p))].

(** [_normalize_policy] *)
Definition normalize_policy (raw : pydict) (default_profile : string) : res policy :=
  let profile := match normalize_profile (get "profile" raw) with Some p => p | None => default_profile end in
  let slo_raw :=
    match get "slo" raw with
    | PDict d => d
    | _ => match profile_slo profile with Some d => d | None => balanced_slo end
    end in
  do normalized_slo <- normalize_slo slo_raw balanced_slo;
  Ok (Policy profile normalized_slo).

(** [for key in _SLO_KEYS: if key in src: merged[key] = src[key]] *)
Definition overlay_keys (src merged : pydict) : pydict :=
  foldl (fun merged key => match d_get key src with Some v => d_set key v merged | None => merged end)
    merged SLO_KEYS.

(** The flat overrides [{key: policy[key] for key in _SLO_KEYS if key in policy}] *)
Definition flat_overrides (src : pydict) : pydict :=
  omap (fun key => option_map (pair key) (d_get key src)) SLO_KEYS.

(** [merged.update(overrides)] *)
Definition dict_update (merged overrides : pydict) : pydict :=
  foldl (fun merged kv => d_set (fst kv) (snd kv) merged) merged overrides.

Definition resolve_mission_policy_overlay (policy_arg profile defaults : pyval) : res policy :=
  do base <- normalize_policy
               (match defaults with
                | PDict d => d
                | _ => match d_get "balanced" MISSION_POLICY_PROFILES with Some p => p | None => [] end
                end) "balanced";
  let explicit_profile := normalize_profile profile in
  let policy_profile := match policy_arg with PDict p => normalize_profile (get "profile" p) | _ => None end in
  let selected_profile :=
    match explicit_profile with
    | Some p => p
    | None => match policy_profile with
              | Some p => p
              | None => str_or (p_profile base) "balanced"
              end
    end in
  do slo <- match profile_slo selected_profile with
            | Some profile_slo => normalize_slo profile_slo (p_slo base)
            | None =>
                match explicit_profile with
                | Some _ => Err (ValueError ("unsupported mission policy profile: " +:+ selected_profile))
                | None => Ok (p_slo base)
                end
            end;
  do slo <- match policy_arg with
            | PDict p =>
                match get "slo" p with
                | PDict over => normalize_slo (overlay_keys over slo) slo
                | _ =>
                    match flat_overrides p with
                    | [] => Ok slo
                    | over => normalize_slo (dict_update slo over) slo
                    end
                end
            | _ => Ok slo
            end;
  Ok (Policy selected_profile slo).
End policy.

End MissionPolicy.
