(* ===== verification/MissionPolicyFacts.v ===== *)
(** Facts about mission policies: whatever the overrides, the resolved
    objectives are ordered and bounded, only an unknown explicit profile is
    refused, and a resolved policy resolves to itself. *)

From stdpp Require Import prelude strings list.
From Stdlib Require Import Lia ZArith Ascii.
From S2P Require Import Prelude PyStr PyVal PyFloat Effects MissionPolicy.
Import MissionPolicy.

Module MissionPolicyFacts.

(** ** Profile tokens *)

Lemma strip_map f s : (forall c, is_space (f c) = is_space c) -> strip (str_map f s) = str_map f (strip s).
Proof.
  intros Hf. unfold strip, strip_by.
  assert (forall s, rstrip_by is_space (str_map f s) = str_map f (rstrip_by is_space s)) as ->.
  { induction s0 as [|c s0 IH]; simpl; [done|]. rewrite IH.
    destruct (rstrip_by is_space s0); simpl; [rewrite Hf; by destruct (is_space c) | done]. }
  induction (rstrip_by is_space s) as [|c t IH]; simpl; [done|]. rewrite Hf. by destruct (is_space c).
Qed.

Definition dash_c (c : ascii) : ascii := if Ascii.eqb c "-" then "_"%char else c.

Lemma replace_dash s : replace_c "-" "_" s = str_map dash_c s.
Proof.
  induction s as [|c s IH]; simpl; [done|]. unfold dash_c at 1. rewrite IH. by destruct (Ascii.eqb c "-").
Qed.

Lemma str_map_comp f g h s : (forall c, f (g c) = h c) -> str_map f (str_map g s) = str_map h s.
Proof. intros H. induction s as [|c s IH]; simpl; [done|]. by rewrite H, IH. Qed.

Lemma dash_space c : is_space (dash_c c) = is_space c.
Proof. by destruct c as [[] [] [] [] [] [] [] []]. Qed.

Lemma dash_lower c : dash_c (lower_c (dash_c (lower_c c))) = dash_c (lower_c c).
Proof. by destruct c as [[] [] [] [] [] [] [] []]. Qed.

(** A token is its own normal form. *)
Lemma normalize_profile_fixed v p : normalize_profile v = Some p -> normalize_profile (PStr p) = Some p.
Proof.
  unfold normalize_profile. destruct (is_empty (lower (norm v))) eqn:E; [done|]. intros [= <-].
  rewrite replace_dash.
  assert (stripped (str_map dash_c (lower (norm v)))) as Hs.
  { unfold stripped. rewrite strip_map by apply dash_space. rewrite strip_lower.
    pose proof (norm_stripped v) as Hn. unfold stripped in Hn. by rewrite Hn. }
  rewrite norm_str by done.
  assert (is_empty (lower (str_map dash_c (lower (norm v)))) = false) as ->.
  { destruct (lower (norm v)); [done|]. done. }
  f_equal. rewrite replace_dash. unfold lower.
  rewrite (str_map_comp dash_c lower_c (fun c => dash_c (lower_c c))) by done.
  rewrite (str_map_comp dash_c lower_c (fun c => dash_c (lower_c c)) (norm v)) by done.
  apply str_map_comp. apply dash_lower.
Qed.

Section policy.
Context (float_repr : fvalue -> string).

Local Abbreviation pfloat := (pfloat float_repr).

(** Ordered, bounded and fixed by the bounds. *)
Inductive slo_ok : pydict -> Prop :=
  | SloOk warning critical disable base max threshold open_ :
      1 <= warning <= critical -> critical < disable -> 1 <= threshold ->
      f_le one base = true -> f_le base max = true -> f_le one open_ = true ->
      f_max one base = base -> f_max base max = max -> f_max one open_ = open_ ->
      slo_ok (slo_dict warning critical disable (pfloat base) (pfloat max) threshold (pfloat open_)).

(** A dict of objectives with numbers in every field. *)
Inductive slo_shape : pydict -> Prop :=
  | SloShape w c d b m t o : slo_shape (slo_dict w c d (pfloat b) (pfloat m) t (pfloat o)).

Lemma slo_ok_shape d : slo_ok d -> slo_shape d.
Proof. intros []. constructor. Qed.

Lemma bound_ok lo v : is_nan lo = false ->
  f_le lo (f_max lo v) = true /\ f_max lo (f_max lo v) = f_max lo v /\ is_nan (f_max lo v) = false.
Proof. intros H. destruct (f_max_bound lo v H). split_and!; [done | apply f_max_idemp | done]. Qed.

(** With usable fallbacks normalization always returns, and what it returns
    is in order. *)
Lemma normalize_slo_ok raw fallback :
  slo_shape fallback -> exists d, normalize_slo float_repr raw fallback = Ok d /\ slo_ok d.
Proof.
  intros []. unfold normalize_slo.
  cbn [slo_dict get_or d_get String.eqb Ascii.eqb Bool.eqb py_int py_float fl_value MissionPolicy.pfloat res_bind].
  eexists. split; [reflexivity|].
  destruct (bound_ok one (match py_float (get_or "backoff_base_sec" (pfloat b) raw) with Ok f => f | Err _ => b end))
    as (H1 & H2 & H3); [done|].
  fold (as_float float_repr raw "backoff_base_sec" one b) in H1, H2, H3.
  destruct (bound_ok (as_float float_repr raw "backoff_base_sec" one b)
    (match py_float (get_or "backoff_max_sec" (pfloat m) raw) with Ok f => f | Err _ => m end)) as (G1 & G2 & _); [done|].
  destruct (bound_ok one (match py_float (get_or "circuit_open_sec" (pfloat o) raw) with Ok f => f | Err _ => o end))
    as (K1 & K2 & _); [done|].
  apply SloOk; try done; unfold as_int; lia.
Qed.

Lemma normalize_slo_id d fallback : slo_ok d -> slo_shape fallback -> normalize_slo float_repr d fallback = Ok d.
Proof.
  intros [w c di b m t o H1 H2 H3 H4 H5 H6 H7 H8 H9] [w' c' di' b' m' t' o']. unfold normalize_slo, as_int, as_float.
  cbn [slo_dict get_or d_get String.eqb Ascii.eqb Bool.eqb py_int py_float fl_value MissionPolicy.pfloat res_bind].
  rewrite H7, H8, H9, !Z.max_r by lia. done.
Qed.

Lemma balanced_shape : slo_shape (balanced_slo float_repr).
Proof. apply (SloShape 2 4 6 (FFinite 5 0) (FFinite 300 0) 4 (FFinite 120 0)). Qed.

Lemma normalize_policy_ok raw default :
  normalize_profile (PStr default) = Some default ->
  exists p, normalize_policy float_repr raw default = Ok p /\ slo_ok (p_slo p)
            /\ normalize_profile (PStr (p_profile p)) = Some (p_profile p).
Proof.
  intros Hd. unfold normalize_policy.
  match goal with |- context [normalize_slo _ ?r ?f] => destruct (normalize_slo_ok r f balanced_shape) as (d & -> & Hok) end.
  cbn [res_bind]. eexists. split; [done|]. split; [done|]. cbn [p_profile].
  destruct (normalize_profile (get "profile" raw)) as [p|] eqn:E; [by eapply normalize_profile_fixed | done].
Qed.

(** Overlaying every field replaces the objectives. *)
Lemma overlay_all d over : slo_shape d -> slo_shape over -> overlay_keys over d = over.
Proof. intros [] []. reflexivity. Qed.

Lemma selected_ok profile_v policy_arg base :
  normalize_profile (PStr (p_profile base)) = Some (p_profile base) ->
  let selected :=
    match normalize_profile profile_v with
    | Some p => p
    | None => match (match policy_arg with PDict p => normalize_profile (get "profile" p) | _ => None end) with
              | Some p => p
              | None => str_or (p_profile base) "balanced"
              end
    end in
  normalize_profile (PStr selected) = Some selected.
Proof.
  intros Hb selected. unfold selected.
  destruct (normalize_profile profile_v) as [p|] eqn:E1; [by eapply normalize_profile_fixed|].
  destruct (match policy_arg with PDict p => _ | _ => None end) as [p|] eqn:E2.
  - destruct policy_arg; try done. by eapply normalize_profile_fixed.
  - unfold str_or. by destruct (is_empty (p_profile base)).
Qed.

Lemma resolve_ok policy_arg profile_v defaults :
  match resolve_mission_policy_overlay float_repr policy_arg profile_v defaults with
  | Ok r => slo_ok (p_slo r) /\ normalize_profile (PStr (p_profile r)) = Some (p_profile r)
            /\ (forall token, normalize_profile profile_v = Some token -> p_profile r = token)
            /\ (forall token, normalize_profile profile_v = Some token -> profile_slo float_repr token <> None)
  | Err _ => exists token, normalize_profile profile_v = Some token /\ profile_slo float_repr token = None
  end.
Proof.
  unfold resolve_mission_policy_overlay.
  match goal with |- context [normalize_policy _ ?r ?d] =>
    destruct (normalize_policy_ok r d eq_refl) as (base & -> & Hslo & Hprof) end.
  cbn [res_bind]. pose proof (selected_ok profile_v policy_arg base Hprof) as Hsel. cbv zeta in Hsel.
  set (selected := match normalize_profile profile_v with Some p => p | None => _ end) in *.
  assert (forall token, normalize_profile profile_v = Some token -> selected = token) as Hexp.
  { intros token Ht. unfold selected. by rewrite Ht. }
  assert (forall slo, slo_ok slo -> exists d,
    (match policy_arg with
     | PDict p => match get "slo" p with
                  | PDict over => normalize_slo float_repr (overlay_keys over slo) slo
                  | _ => match flat_overrides p with
                         | [] => Ok slo
                         | over => normalize_slo float_repr (dict_update slo over) slo
                         end
                  end
     | _ => Ok slo
     end) = Ok d /\ slo_ok d) as Hover.
  { intros slo Hs. pose proof (slo_ok_shape _ Hs) as Hsh. destruct policy_arg; try by exists slo.
    destruct (get "slo" d); try by apply normalize_slo_ok.
    all: destruct (flat_overrides d); [by exists slo | by apply normalize_slo_ok]. }
  destruct (profile_slo float_repr selected) as [ps|] eqn:Eps.
  - destruct (normalize_slo_ok ps (p_slo base) (slo_ok_shape _ Hslo)) as (slo & -> & Hs). cbn [res_bind].
    destruct (Hover slo Hs) as (d & -> & Hd). cbn [res_bind p_slo p_profile].
    split_and!; [done | done | done|]. intros token Ht%Hexp. congruence.
  - destruct (normalize_profile profile_v) as [token|] eqn:Et.
    + cbn [res_bind]. exists token. split; [done|]. by rewrite <- (Hexp token eq_refl).
    + cbn [res_bind]. destruct (Hover (p_slo base) Hslo) as (d & -> & Hd). cbn [res_bind p_slo p_profile].
      split_and!; done.
Qed.

(** Resolving a mission policy never fails on account of what the
    overrides or the defaults contain: it is refused exactly when the caller
    names a profile that does not exist.  Otherwise the objectives are in
    order whatever was overridden (1 <= warning <= critical < disable, a
    positive circuit threshold, 1 <= base backoff <= maximum backoff, none of
    them NaN), and a named profile is the one recorded. *)
Theorem mission_policy_outcome policy_arg profile_v defaults :
  match resolve_mission_policy_overlay float_repr policy_arg profile_v defaults with
  | Ok r => slo_ok (p_slo r)
            /\ (forall token, normalize_profile profile_v = Some token ->
                p_profile r = token /\ profile_slo float_repr token <> None)
  | Err _ => exists token, normalize_profile profile_v = Some token /\ profile_slo float_repr token = None
  end.
Proof.
  pose proof (resolve_ok policy_arg profile_v defaults) as H.
  destruct (resolve_mission_policy_overlay _ _ _ _) as [r|e]; [|done].
  destruct H as (H1 & _ & H3 & H4). split; [done|]. intros token Ht. split; [by apply H3 | by apply H4].
Qed.

(** A resolved policy is stable: stored and resolved again, with no
    profile named, it comes back with the same profile and objectives. *)
Theorem mission_policy_roundtrip policy_arg profile_v defaults r :
  resolve_mission_policy_overlay float_repr policy_arg profile_v defaults = Ok r ->
  resolve_mission_policy_overlay float_repr (PDict (policy_dict r)) PNone PNone = Ok r.
Proof.
  intros Hr. pose proof (resolve_ok policy_arg profile_v defaults) as H. rewrite Hr in H.
  destruct H as (Hslo & Hprof & _ & _). destruct r as [prof slo]. cbn [p_slo p_profile] in *.
  unfold resolve_mission_policy_overlay.
  match goal with |- context [normalize_policy _ ?r ?d] =>
    destruct (normalize_policy_ok r d eq_refl) as (base & -> & Hb & _) end.
  cbn [res_bind].
  change (normalize_profile PNone) with (@None string). cbn iota.
  unfold policy_dict. cbn [p_slo p_profile]. 
  change (get "profile" [("profile", PStr prof); ("slo", PDict slo)]) with (PStr prof).
  change (get "slo" [("profile", PStr prof); ("slo", PDict slo)]) with (PDict slo).
  rewrite Hprof. pose proof (slo_ok_shape _ Hslo) as Hsh.
  assert (exists s1, (match profile_slo float_repr prof with
                      | Some ps => normalize_slo float_repr ps (p_slo base)
                      | None => Ok (p_slo base) end) = Ok s1 /\ slo_shape s1) as (s1 & -> & Hs1).
  { destruct (profile_slo float_repr prof) as [ps|].
    - destruct (normalize_slo_ok ps (p_slo base) (slo_ok_shape _ Hb)) as (d & -> & Hd). exists d. split; [done|].
      by apply slo_ok_shape.
    - exists (p_slo base). split; [done | by apply slo_ok_shape]. }
  cbn [res_bind]. rewrite overlay_all, normalize_slo_id by done. done.
Qed.
End policy.

(** ** Witnesses *)

Definition demo_repr (_ : fvalue) : string := "0.0".

(** Overrides out of order, out of range and of the wrong type. *)
Definition demo_policy : pyval :=
  PDict [("profile", PStr " Watch-Dog "); ("slo", PDict [("warning_failures", PInt 9); ("critical_failures", PStr "3");
           ("backoff_base_sec", PStr "nan"); ("backoff_max_sec", PStr "-1e3"); ("circuit_open_sec", PNone)])].

Lemma mission_policy_roundtrip_witness :
  exists r, resolve_mission_policy_overlay demo_repr demo_policy PNone PNone = Ok r
    /\ resolve_mission_policy_overlay demo_repr (PDict (policy_dict r)) PNone PNone = Ok r
    /\ p_profile r = "watch_dog".
Proof.
  destruct (resolve_mission_policy_overlay demo_repr demo_policy PNone PNone) as [r|e] eqn:E;
    [|vm_compute in E; discriminate].
  exists r. split; [reflexivity|]. split; [exact (mission_policy_roundtrip demo_repr demo_policy PNone PNone r E)|].
  vm_compute in E. injection E as <-. reflexivity.
Defined.

End MissionPolicyFacts.
