(* ===== verification/PyRegex.v ===== *)
(** Python's [re] on the constructs the tool policies use: an ordered
    backtracking matcher with one capture group, a declarative semantics of
    the same expressions, and the theorem that the matcher finds exactly what
    the semantics describes. *)

From stdpp Require Import prelude strings list.
From Stdlib Require Import Lia ZArith Ascii.
From S2P Require Import Prelude PyStr.

Inductive regex : Type :=
  | RChar (p : ascii -> bool)
  | RWordBoundary
  | REmpty
  | RCat (r1 r2 : regex)
  | RAlt (r1 r2 : regex)
  (** greedy repetition *)
  | RStar (r : regex)
  (** the capture group *)
  | RGroup (r : regex).

(** A position of the text: the character before it, the text after it, and
    what the group captured on the way. *)
Record pos : Type := Pos {
  before : option ascii;
  rest : string;
  captured : option string }.

Definition start (s : string) : pos := Pos None s None.

Definition is_word (c : ascii) : bool := is_alnum c || Ascii.eqb c "_".

Definition head_c (s : string) : option ascii :=
  match s with EmptyString => None | String c _ => Some c end.

Definition opt_word (o : option ascii) : bool := match o with Some c => is_word c | None => false end.

(** [\b] *)
Definition at_boundary (p : pos) : bool := xorb (opt_word (before p)) (opt_word (head_c (rest p))).

(** The text between two positions, the second one later in the text. *)
Definition text_between (p q : pos) : string :=
  String.substring 0 (String.length (rest p) - String.length (rest q)) (rest p).

Definition capture (p q : pos) : pos := Pos (before q) (rest q) (Some (text_between p q)).

(** ** The matcher: the ends of the matches from a position, best first *)

Definition shorter (p q : pos) : bool := (String.length (rest q) <? String.length (rest p))%nat.

Fixpoint star_ends (step : pos -> list pos) (fuel : nat) (p : pos) : list pos :=
  match fuel with
  | O => [p]
  | S f => flat_map (star_ends step f) (List.filter (shorter p) (step p)) ++ [p]
  end.

Fixpoint ends (r : regex) (p : pos) : list pos :=
  match r with
  | RChar f =>
      match rest p with
      | String c s => if f c then [Pos (Some c) s (captured p)] else []
      | EmptyString => []
      end
  | RWordBoundary => if at_boundary p then [p] else []
  | REmpty => [p]
  | RCat r1 r2 => flat_map (ends r2) (ends r1 p)
  | RAlt r1 r2 => ends r1 p ++ ends r2 p
  | RStar r1 => star_ends (ends r1) (String.length (rest p)) p
  | RGroup r1 => map (capture p) (ends r1 p)
  end.

(** [pattern.search(text)] as a truth value *)
Fixpoint search_from (r : regex) (prev : option ascii) (s : string) : bool :=
  match ends r (Pos prev s None) with
  | _ :: _ => true
  | [] => match s with EmptyString => false | String c s' => search_from r (Some c) s' end
  end.
Definition search (r : regex) (s : string) : bool := search_from r None s.

(** [pattern.fullmatch(text)]: the best match that reaches the end *)
Definition fullmatch (r : regex) (s : string) : option pos :=
  List.find (fun q => is_empty (rest q)) (ends r (start s)).

(** ** Writing patterns *)

Definition RAny : regex := RChar (fun _ => true).
Definition RSpaces : regex := RStar (RChar is_space).

(** A literal, and a literal under [re.IGNORECASE]. *)
Fixpoint RText (s : string) : regex :=
  match s with EmptyString => REmpty | String c s' => RCat (RChar (Ascii.eqb c)) (RText s') end.
Fixpoint RTextI (s : string) : regex :=
  match s with
  | EmptyString => REmpty
  | String c s' => RCat (RChar (fun x => Ascii.eqb (lower_c c) (lower_c x))) (RTextI s')
  end.

Fixpoint RSeq (l : list regex) : regex :=
  match l with [] => REmpty | [r] => r | r :: l' => RCat r (RSeq l') end.
Fixpoint RAlts (l : list regex) : regex :=
  match l with [] => RChar (fun _ => false) | [r] => r | r :: l' => RAlt r (RAlts l') end.
Definition ROpt (r : regex) : regex := RAlt r REmpty.

(** ** Declarative semantics *)

Inductive rmatch : regex -> pos -> pos -> Prop :=
  | MChar f b c s g : f c = true -> rmatch (RChar f) (Pos b (String c s) g) (Pos (Some c) s g)
  | MBoundary p : at_boundary p = true -> rmatch RWordBoundary p p
  | MEmpty p : rmatch REmpty p p
  | MCat r1 r2 p q u : rmatch r1 p q -> rmatch r2 q u -> rmatch (RCat r1 r2) p u
  | MAltL r1 r2 p q : rmatch r1 p q -> rmatch (RAlt r1 r2) p q
  | MAltR r1 r2 p q : rmatch r2 p q -> rmatch (RAlt r1 r2) p q
  | MStarEnd r p : rmatch (RStar r) p p
  (** a repetition consumes text *)
  | MStarMore r p q u : rmatch r p q -> shorter p q = true -> rmatch (RStar r) q u -> rmatch (RStar r) p u
  | MGroup r p q : rmatch r p q -> rmatch (RGroup r) p (capture p q).

Lemma shorter_lt p q : shorter p q = true <-> (String.length (rest q) < String.length (rest p))%nat.
Proof. apply Nat.ltb_lt. Qed.

Lemma star_ends_spec r p q fuel :
  (forall p q, q ∈ ends r p <-> rmatch r p q) -> (String.length (rest p) <= fuel)%nat ->
  q ∈ star_ends (ends r) fuel p <-> rmatch (RStar r) p q.
Proof.
  intros Hr. revert p. induction fuel as [|f IH]; intros p Hf; simpl.
  - rewrite list_elem_of_singleton. split; [intros ->; constructor|].
    inversion 1; subst; [done|]. match goal with Hs : shorter _ _ = true |- _ => apply shorter_lt in Hs end. lia.
  - rewrite elem_of_app, list_elem_of_singleton, list_elem_of_In, in_flat_map. split.
    + intros [(u & [Hu Hs]%filter_In & Hq)| ->]; [|constructor].
      apply list_elem_of_In, IH in Hq; [|apply shorter_lt in Hs; lia].
      apply list_elem_of_In, Hr in Hu. by econstructor.
    + inversion 1; subst; [by right|]. left. eexists.
      split; [apply filter_In; split; [by apply list_elem_of_In, Hr | eassumption]|].
      apply list_elem_of_In, IH; [|done].
      match goal with Hs : shorter _ _ = true |- _ => apply shorter_lt in Hs end. lia.
Qed.

(** The matcher finds exactly the matches of the semantics. *)
Lemma ends_spec r p q : q ∈ ends r p <-> rmatch r p q.
Proof.
  revert p q. induction r as [f| | |r1 IH1 r2 IH2|r1 IH1 r2 IH2|r IH|r IH]; intros p q; cbn [ends].
  - destruct p as [b [|c s] g]; cbn [rest captured].
    + split; [by intros ?%elem_of_nil | inversion 1].
    + destruct (f c) eqn:E; [rewrite list_elem_of_singleton|rewrite elem_of_nil]; split.
      * intros ->. by constructor.
      * by inversion 1.
      * done.
      * inversion 1. congruence.
  - destruct (at_boundary p) eqn:E; [rewrite list_elem_of_singleton|rewrite elem_of_nil]; split.
    + intros ->. by constructor.
    + by inversion 1.
    + done.
    + inversion 1. congruence.
  - rewrite list_elem_of_singleton. split; [intros ->; constructor | by inversion 1].
  - rewrite list_elem_of_In, in_flat_map. split.
    + intros (u & Hu%list_elem_of_In%IH1 & Hq%list_elem_of_In%IH2). by econstructor.
    + inversion 1; subst. eexists. split; apply list_elem_of_In; [by apply IH1 | by apply IH2].
  - rewrite elem_of_app, IH1, IH2. split; [intros [?|?]; by constructor | inversion 1; auto].
  - by apply star_ends_spec.
  - rewrite list_elem_of_In, in_map_iff. split.
    + intros (u & <- & Hu%list_elem_of_In%IH). by constructor.
    + inversion 1; subst. eexists. split; [done|]. by apply list_elem_of_In, IH.
Qed.

(** The character before the rest of a text that starts after [s]. *)
Fixpoint last_c (prev : option ascii) (s : string) : option ascii :=
  match s with EmptyString => prev | String c s' => last_c (Some c) s' end.

Definition occurs (r : regex) (s : string) : Prop :=
  exists s1 s2 q, s = s1 +:+ s2 /\ rmatch r (Pos (last_c None s1) s2 None) q.

(** A search succeeds exactly when the pattern occurs somewhere in the text. *)
Lemma search_spec r s : search r s = true <-> occurs r s.
Proof.
  assert (forall s prev, search_from r prev s = true <->
    exists s1 s2 q, s = s1 +:+ s2 /\ rmatch r (Pos (last_c prev s1) s2 None) q) as H; [|apply H].
  clear s. induction s as [|c s IH]; intros prev; cbn [search_from];
    destruct (ends r _) as [|q l] eqn:E; split; try done.
  - intros (s1 & s2 & q & Hs & Hm). destruct s1; [|done]. change ("" +:+ s2) with s2 in Hs. subst s2.
    apply ends_spec in Hm. cbn [last_c] in Hm. rewrite E in Hm. by apply elem_of_nil in Hm.
  - intros _. exists "", "", q. split; [done|]. apply ends_spec. cbn [last_c]. rewrite E. left.
  - intros (s1 & s2 & q & -> & Hm)%IH. by exists (String c s1), s2, q.
  - intros (s1 & s2 & q & Hs & Hm). apply IH. destruct s1 as [|c' s1].
    + change ("" +:+ s2) with s2 in Hs. subst s2. apply ends_spec in Hm. cbn [last_c] in Hm. rewrite E in Hm. by apply elem_of_nil in Hm.
    + rewrite str_app_cons in Hs. injection Hs as <- ->. by exists s1, s2, q.
  - intros _. exists "", (String c s), q. split; [done|]. apply ends_spec. cbn [last_c]. rewrite E. left.
Qed.

(** A full match exists exactly when the semantics reaches the end of the
    text. *)
Lemma fullmatch_some r s q : fullmatch r s = Some q -> rmatch r (start s) q /\ rest q = "".
Proof.
  intros [H1 H2]%find_some. split; [by apply ends_spec, list_elem_of_In|]. by apply is_empty_true in H2.
Qed.

Lemma fullmatch_none r s q : fullmatch r s = None -> rmatch r (start s) q -> rest q <> "".
Proof.
  intros H Hm Hq. apply ends_spec, list_elem_of_In in Hm.
  pose proof (find_none _ _ H q Hm) as Hf. cbn beta in Hf. by rewrite Hq in Hf.
Qed.
