(* ===== verification/PluginPolicy.v ===== *)
(** What a plugin manifest must declare before the plugin is loaded:
    its capabilities (tools/plugin_capabilities.py) and its compatibility
    with the registry (tools/plugin_compat.py). *)

From stdpp Require Import prelude strings list.
From Stdlib Require Import Lia ZArith Ascii.
From S2P Require Import Prelude PyStr PyVal.

(** [sorted({...})] on strings *)
Definition sorted_set (l : list string) : list string := sort_strings (remove_dups l).

Lemma sorted_set_elem x l : x ∈ sorted_set l <-> x ∈ l.
Proof. unfold sorted_set, sort_strings. by rewrite sort_by_elem, elem_of_remove_dups. Qed.

Lemma sorted_set_NoDup l : NoDup (sorted_set l).
Proof. unfold sorted_set, sort_strings. rewrite sort_by_perm. apply NoDup_remove_dups. Qed.

(** [[str(item).strip().lower() for item in raw if str(item).strip()]] *)
Definition visible_words (raw : list pyval) : list string :=
  map (fun v => lower (strip (py_str v))) (List.filter (fun v => negb (is_empty (strip (py_str v)))) raw).

Module PluginPolicy.

Record capability_spec : Type := Spec {
  default_allowed : bool;
  needs_approval : bool;
  notes : string }.

Definition PLUGIN_CAPABILITY_MATRIX : dict capability_spec :=
  [("filesystem_read", Spec true false "Read access is limited to sandbox allowed roots.");
   ("filesystem_write", Spec true true
      "Write access is limited to sandbox allowed roots and explicit policy gates.");
   ("network", Spec false true "Network access requires explicit policy allowlist and sandbox opt-in.");
   ("process", Spec false false "Subprocess execution is blocked by sandbox worker.")].

Definition BLOCKED_CAPABILITIES : list string := ["process"].

Record PluginCapabilityValidation : Type := CapabilityValidation {
  cap_ok : bool;
  cap_reason : string;
  capabilities : list string }.

Definition supported_plugin_capabilities : list string := d_keys PLUGIN_CAPABILITY_MATRIX.

Definition default_allowed_plugin_capabilities : list string :=
  sort_strings (d_keys (List.filter (fun e => default_allowed (snd e)) PLUGIN_CAPABILITY_MATRIX)).

Definition plugin_capabilities_requiring_approval : list string :=
  d_keys (List.filter (fun e => needs_approval (snd e)) PLUGIN_CAPABILITY_MATRIX).

Definition plugin_capability_policy_snapshot : pydict :=
  [("capabilities", PDict (map (fun e => (fst e, PDict
       [("default_allowed", PBool (default_allowed (snd e)));
        ("requires_approval", PBool (needs_approval (snd e)));
        ("notes", PStr (notes (snd e)))]))
     (sort_by (fun a b => String.leb (fst a) (fst b)) PLUGIN_CAPABILITY_MATRIX)));
   ("blocked_capabilities", PList (map PStr (sort_strings BLOCKED_CAPABILITIES)));
   ("default_allowed_capabilities", PList (map PStr default_allowed_plugin_capabilities))].

Definition validate_plugin_manifest_capabilities (manifest : pydict) : PluginCapabilityValidation :=
  match get "capabilities" manifest with
  | PList (item :: items) =>
      let normalized := sorted_set (visible_words (item :: items)) in
      match normalized with
      | [] => CapabilityValidation false
                "manifest field 'capabilities' must contain at least one non-empty value" []
      | _ =>
          match List.filter (fun c => negb (str_in c supported_plugin_capabilities)) normalized with
          | x :: invalid => CapabilityValidation false
              ("manifest field 'capabilities' contains unsupported values: " +:+ join ", " (x :: invalid)) []
          | [] =>
              match sort_strings (List.filter (fun c => str_in c BLOCKED_CAPABILITIES) normalized) with
              | x :: blocked => CapabilityValidation false
                  ("manifest field 'capabilities' includes blocked values: " +:+ join ", " (x :: blocked)) normalized
              | [] =>
                  if str_in "filesystem_write" normalized && negb (str_in "filesystem_read" normalized)
                  then CapabilityValidation false
                         "manifest capability 'filesystem_write' requires 'filesystem_read'" normalized
                  else CapabilityValidation true "capability_contract_ok" normalized
              end
          end
      end
  | _ => CapabilityValidation false "manifest field 'capabilities' must be a non-empty array" []
  end.

(** ** Compatibility *)

Definition PLUGIN_COMPAT_MANIFEST_VERSION : string := "v1".
Definition PLUGIN_REGISTRY_API_VERSION : string := "v1".
Definition ALLOWED_RUNTIME_MODES : list string := ["sandboxed"; "legacy"].

Record PluginCompatValidation : Type := CompatValidation {
  compat_ok : bool;
  compat_reason : string }.

Definition plugin_compat_contract_snapshot : pydict :=
  [("manifest_version", PStr PLUGIN_COMPAT_MANIFEST_VERSION);
   ("tool_registry_api", PStr PLUGIN_REGISTRY_API_VERSION);
   ("allowed_runtime_modes", PList (map PStr (sort_strings ALLOWED_RUNTIME_MODES)))].

Definition incompatible (reason : string) : PluginCompatValidation := CompatValidation false reason.

(** The checks on [compat.runtime_modes] *)
Definition validate_runtime_modes (compat : pydict) (runtime_mode : string) : PluginCompatValidation :=
  match get "runtime_modes" compat with
  | PList (item :: items) =>
      let normalized_modes := remove_dups (visible_words (item :: items)) in
      match normalized_modes with
      | [] => incompatible "compat.runtime_modes must contain at least one non-empty mode"
      | _ =>
          match sort_strings (List.filter (fun m => negb (str_in m ALLOWED_RUNTIME_MODES)) normalized_modes) with
          | x :: invalid_modes => incompatible
              ("compat.runtime_modes contains unsupported values: " +:+ join ", " (x :: invalid_modes))
          | [] =>
              let normalized_runtime_mode := str_or (lower (strip runtime_mode)) "sandboxed" in
              if negb (str_in normalized_runtime_mode normalized_modes) then incompatible
                ("plugin runtime compatibility mismatch: registry mode='" +:+ normalized_runtime_mode
                 +:+ "' not in compat.runtime_modes=[" +:+ join ", " (sort_strings normalized_modes) +:+ "]")
              else CompatValidation true "compatibility_contract_ok"
          end
      end
  | _ => incompatible "compat.runtime_modes must be a non-empty array"
  end.

Definition validate_plugin_manifest_compat (manifest : pydict) (runtime_mode : string) : PluginCompatValidation :=
  if is_empty (norm (get "name" manifest)) then incompatible "manifest field 'name' must be non-empty"
  else if is_empty (norm (get "version" manifest)) then incompatible "manifest field 'version' must be non-empty"
  else match get "compat" manifest with
  | PDict compat =>
      let manifest_version := norm (get "manifest_version" compat) in
      if negb (String.eqb manifest_version PLUGIN_COMPAT_MANIFEST_VERSION) then incompatible
        ("unsupported compat.manifest_version '" +:+ str_or manifest_version "<empty>"
         +:+ "' (expected " +:+ PLUGIN_COMPAT_MANIFEST_VERSION +:+ ")")
      else
        let registry_api := norm (get "tool_registry_api" compat) in
        if negb (String.eqb registry_api PLUGIN_REGISTRY_API_VERSION) then incompatible
          ("unsupported compat.tool_registry_api '" +:+ str_or registry_api "<empty>"
           +:+ "' (expected " +:+ PLUGIN_REGISTRY_API_VERSION +:+ ")")
        else validate_runtime_modes compat runtime_mode
  | _ => incompatible
      ("manifest field 'compat' must be an object (expected manifest_version="
       +:+ PLUGIN_COMPAT_MANIFEST_VERSION +:+ ")")
  end.

(** ** What a valid manifest promises *)

Record capabilities_granted (l : list string) : Prop := {
  cg_some : l <> [];
  cg_known : Forall (fun c => c ∈ supported_plugin_capabilities) l;
  cg_unblocked : Forall (fun c => c ∉ BLOCKED_CAPABILITIES) l;
  cg_write_read : "filesystem_write" ∈ l -> "filesystem_read" ∈ l;
  cg_distinct : NoDup l }.

Lemma filter_nil_Forall {A} (f : A -> bool) l : List.filter f l = [] -> Forall (fun x => f x = false) l.
Proof.
  induction l as [|x l IH]; simpl; intros H; [constructor|].
  destruct (f x) eqn:E; [done|]. constructor; auto.
Qed.

Lemma sort_by_nil {A} (le : A -> A -> bool) l : sort_by le l = [] -> l = [].
Proof. intros H. apply Permutation_nil. by rewrite <- (sort_by_perm le l), H. Qed.

(** An accepted manifest lists known capabilities, none of them blocked, and
    never asks to write without reading. *)
Lemma validation_granted manifest :
  cap_ok (validate_plugin_manifest_capabilities manifest) = true ->
  capabilities_granted (capabilities (validate_plugin_manifest_capabilities manifest)).
Proof.
  unfold validate_plugin_manifest_capabilities. destruct (get _ _) as [| | | | |[|item items]|]; try done.
  set (normalized := sorted_set _). destruct normalized as [|y ys] eqn:En; [done|]. rewrite <- En.
  destruct (List.filter _ normalized) as [|x l] eqn:E1; [|done].
  destruct (sort_strings _) as [|x l] eqn:E2; [|done].
  destruct (str_in "filesystem_write" normalized && _) eqn:E3; [done|]. intros _. cbn [capabilities].
  apply sort_by_nil, filter_nil_Forall in E2. apply filter_nil_Forall in E1.
  constructor.
  - by rewrite En.
  - eapply Forall_impl; [exact E1|]. intros c Hc. by apply negb_false_iff, str_in_spec in Hc.
  - eapply Forall_impl; [exact E2|]. intros c Hc. by apply str_in_false in Hc.
  - intros Hw%str_in_spec. rewrite Hw in E3. by apply str_in_spec, negb_false_iff.
  - apply sorted_set_NoDup.
Qed.

End PluginPolicy.
