(* ===== verification/AutonomyPolicy.v ===== *)
(** Autonomy levels: the policy pack (tools/autonomy_policy_pack.py) with its
    loader, and the decision on a tool call (tools/autonomy_policy.py). *)

From stdpp Require Import prelude strings list.
From Stdlib Require Import Lia ZArith Ascii.
From S2P Require Import Prelude PyStr PyVal Effects.

(** ** [str.format] with keyword arguments

    Literal text, doubled braces and plain replacement fields.  A field with a
    conversion, a format specification, an attribute or an index is left to
    the caller. *)
Inductive formatted : Type :=
  | FText (s : string)
  | FRaises
  | FGeneral.

Definition f_prepend (s : string) (f : formatted) : formatted :=
  match f with FText t => FText (s +:+ t) | _ => f end.

(** [field] is the name read so far inside a replacement field. *)
Fixpoint format_from (kw : dict string) (field : option string) (s : string) : formatted :=
  match field, s with
  | None, EmptyString => FText ""
  | None, String c s' =>
      if Ascii.eqb c "{" then
        match s' with
        | EmptyString => FRaises
        | String c' s'' =>
            if Ascii.eqb c' "{" then f_prepend "{" (format_from kw None s'')
            else format_from kw (Some "") s'
        end
      else if Ascii.eqb c "}" then
        match s' with
        | String c' s'' => if Ascii.eqb c' "}" then f_prepend "}" (format_from kw None s'') else FRaises
        | EmptyString => FRaises
        end
      else f_prepend (String c "") (format_from kw None s')
  | Some _, EmptyString => FRaises
  | Some name, String c s' =>
      if Ascii.eqb c "}" then
        match d_get name kw with
        | Some v => f_prepend v (format_from kw None s')
        | None => FRaises
        end
      else if Ascii.eqb c "{" then FRaises
      else if Ascii.eqb c ":" || Ascii.eqb c "!" || Ascii.eqb c "." || Ascii.eqb c "[" then FGeneral
      else format_from kw (Some (name +:+ String c "")) s'
  end.

Module AutonomyPolicy.

Definition SCHEMA_VERSION : Z := 1.
Definition VALID_AUTONOMY_LEVELS : list string := ["l0"; "l1"; "l2"; "l3"; "l4"; "l5"].
Definition VALID_RISK_LEVELS : list string := ["low"; "medium"; "high"; "critical"].
Definition VALID_APPROVAL_SCOPES : list string := ["request"; "session"; "user"; "global"].

Record AutonomyRule : Type := Rule {
  allow : bool;
  requires_approval : bool;
  reason : option string;
  approval_scope : option string;
  approval_ttl_sec : option Z }.

Record AutonomyPolicyPack : Type := Pack {
  schema_version : Z;
  pack : string;
  description : string;
  levels : dict (dict AutonomyRule);
  source_path : string }.

Definition pack_error (msg : string) : exn := OtherError "AutonomyPolicyPackError" msg.

(** [AutonomyPolicyPack.rule] *)
Definition rule (p : AutonomyPolicyPack) (level risk_level : string) : res AutonomyRule :=
  let missing := Err (pack_error ("Policy pack '" +:+ pack p +:+ "' missing level=" +:+ level
                                  +:+ " risk=" +:+ risk_level +:+ " rule")) in
  match d_get level (levels p) with
  | None => missing
  | Some rules => match d_get risk_level rules with Some r => Ok r | None => missing end
  end.

(** [_as_int]: only [TypeError] and [ValueError] of [int] are renamed. *)
Definition as_int (value : pyval) (key : string) (min_value : option Z) : res Z :=
  match py_int value with
  | Err (TypeError _) | Err (ValueError _) =>
      Err (pack_error ("Autonomy policy pack field '" +:+ key +:+ "' must be integer"))
  | Err e => Err e
  | Ok parsed =>
      match min_value with
      | Some m =>
          if parsed <? m
          then Err (pack_error ("Autonomy policy pack field '" +:+ key +:+ "' must be >= " +:+ str_of_Z m))
          else Ok parsed
      | None => Ok parsed
      end
  end.

Definition rule_error (level risk text : string) {A} : res A :=
  Err (pack_error ("Autonomy policy rule level='" +:+ level +:+ "' risk='" +:+ risk +:+ "' " +:+ text)).

(** [_parse_rule] *)
Definition parse_reason (payload : pydict) : option string :=
  match get "reason" payload with
  | PNone => None
  | v => str_or_none (strip (py_str v))
  end.

Definition parse_rule (payload : pydict) (level risk : string) : res AutonomyRule :=
  match get "allow" payload, get "requires_approval" payload with
  | PBool allow, PBool requires_approval =>
      if negb allow && requires_approval
      then rule_error level risk "cannot require approval when allow=false"
      else
        let reason := parse_reason payload in
        if negb allow && match reason with None => true | Some _ => false end
        then rule_error level risk "must provide non-empty reason when allow=false"
        else if requires_approval then
          let approval_scope_raw := lower (norm (get "approval_scope" payload)) in
          if negb (str_in approval_scope_raw VALID_APPROVAL_SCOPES)
          then rule_error level risk ("has invalid approval_scope='" +:+ approval_scope_raw +:+ "'")
          else
            res_bind (as_int (get "approval_ttl_sec" payload)
                        ("rules." +:+ level +:+ "." +:+ risk +:+ ".approval_ttl_sec") (Some 1))
              (fun ttl => Ok (Rule allow requires_approval reason (Some approval_scope_raw) (Some ttl)))
        else Ok (Rule allow requires_approval reason None None)
  | PBool _, _ => rule_error level risk "field 'requires_approval' must be boolean"
  | _, _ => rule_error level risk "field 'allow' must be boolean"
  end.

(** The file of a pack: absent, unreadable, not JSON, or a document. *)
Inductive pack_file : Type :=
  | Missing
  | Unreadable (e : exn)
  | NotJson (msg : string)
  | Document (v : pyval).

(** [_load_json_object] *)
Definition load_json_object (path : string) (f : pack_file) : res pydict :=
  match f with
  | Missing => Err (pack_error ("Autonomy policy pack not found: " +:+ path))
  | Unreadable e => Err e
  | NotJson msg => Err (pack_error ("Invalid JSON in autonomy policy pack " +:+ path +:+ ": " +:+ msg))
  | Document (PDict payload) => Ok payload
  | Document _ => Err (pack_error ("Autonomy policy pack " +:+ path +:+ " must contain a JSON object"))
  end.

(** The inner and the outer loop of [load_autonomy_policy_pack] *)
Definition load_risk (level : string) (level_rules_raw : pydict) (level_rules : dict AutonomyRule)
    (risk : string) : res (dict AutonomyRule) :=
  match get risk level_rules_raw with
  | PDict rule_raw => res_bind (parse_rule rule_raw level risk) (fun r => Ok (d_set risk r level_rules))
  | _ => Err (pack_error ("Autonomy policy pack missing rule for level='" +:+ level
                          +:+ "' risk='" +:+ risk +:+ "'"))
  end.

Definition load_level (rules_raw : pydict) (levels : dict (dict AutonomyRule)) (level : string) :
    res (dict (dict AutonomyRule)) :=
  match get level rules_raw with
  | PDict level_rules_raw =>
      res_bind (fold_res (load_risk level level_rules_raw) VALID_RISK_LEVELS [])
        (fun level_rules => Ok (d_set level level_rules levels))
  | _ => Err (pack_error ("Autonomy policy pack missing rules for level '" +:+ level +:+ "'"))
  end.

Definition load_autonomy_policy_pack (source_path : string) (f : pack_file) : res AutonomyPolicyPack :=
  res_bind (load_json_object source_path f) (fun payload =>
  res_bind (as_int (get "schema_version" payload) "schema_version" None) (fun schema_version =>
  if negb (schema_version =? SCHEMA_VERSION) then
    Err (pack_error ("Autonomy policy pack '" +:+ source_path +:+ "' has unsupported schema_version="
                     +:+ str_of_Z schema_version +:+ "; expected " +:+ str_of_Z SCHEMA_VERSION))
  else
    let pack := norm (get "pack" payload) in
    if is_empty pack then Err (pack_error "Autonomy policy pack field 'pack' must be non-empty")
    else
      let description := norm (get "description" payload) in
      match get "rules" payload with
      | PDict rules_raw =>
          res_bind (fold_res (load_level rules_raw) VALID_AUTONOMY_LEVELS []) (fun levels =>
            Ok (Pack schema_version pack description levels source_path))
      | _ => Err (pack_error "Autonomy policy pack field 'rules' must be an object")
      end)).

(** ** The policy *)

Definition normalize_autonomy_level (value : option string) : string :=
  let normalized := lower (strip (opt_str value)) in
  if str_in normalized VALID_AUTONOMY_LEVELS then normalized else "l3".

Definition normalize_risk_level (value : option string) : string :=
  let normalized := lower (strip (opt_str value)) in
  if str_in normalized VALID_RISK_LEVELS then normalized else "medium".

Record AutonomyDecision : Type := Decide {
  d_allow : bool;
  d_requires_approval : bool;
  d_reason : option string;
  d_approval_scope : option string;
  d_approval_ttl_sec : option Z }.

Record policy : Type := Policy {
  level : string;
  policy_pack : AutonomyPolicyPack }.

(** The constructor, given the path [_resolve_policy_pack_path] chose and the
    file there. *)
Definition make (level : option string) (path : string) (f : pack_file) : res policy :=
  res_bind (load_autonomy_policy_pack path f) (fun p => Ok (Policy (normalize_autonomy_level level) p)).

Section policy.
(** [template.format(level=..., tool_name=..., risk_level=...)] for a template
    with general replacement fields; [None] when it raises. *)
Context (str_format : string -> dict string -> option string).

Definition format_template (template : string) (kw : dict string) : string :=
  match format_from kw None template with
  | FText s => s
  | FRaises => template
  | FGeneral => match str_format template kw with Some s => s | None => template end
  end.

(** [_render_reason] *)
Definition render_reason (level : string) (template : option string) (tool_name risk_level : string)
    (allow : bool) : option string :=
  match str_or_none (opt_str template) with
  | Some t =>
      Some (format_template t [("level", upper level); ("tool_name", tool_name); ("risk_level", risk_level)])
  | None =>
      if allow then None
      else Some ("Autonomy level " +:+ upper level +:+ " blocks tool '" +:+ tool_name
                 +:+ "' (risk=" +:+ risk_level +:+ ").")
  end.

Definition evaluate (p : policy) (tool_name risk_level : string) : res AutonomyDecision :=
  let normalized_risk := normalize_risk_level (Some risk_level) in
  res_bind (rule (policy_pack p) (level p) normalized_risk) (fun r =>
    Ok (Decide (allow r) (requires_approval r)
          (render_reason (level p) (reason r) tool_name normalized_risk (allow r))
          (approval_scope r) (approval_ttl_sec r))).
End policy.

Definition describe_rule (r : AutonomyRule) : string :=
  if negb (allow r) then "blocked" else if requires_approval r then "allow_with_approval" else "allow".

Definition describe (p : policy) : pydict :=
  [("level", PStr (level p));
   ("policy_pack", PDict [("pack", PStr (pack (policy_pack p)));
                          ("schema_version", PInt (schema_version (policy_pack p)));
                          ("source_path", PStr (source_path (policy_pack p)))]);
   ("rules", PDict (map (fun lr => (fst lr, PDict (map (fun rr => (fst rr, PStr (describe_rule (snd rr)))) (snd lr))))
                      (levels (policy_pack p))))].

(** ** The default pack (policies/autonomy/default.json) *)

Definition allow_doc : pyval := PDict [("allow", PBool true); ("requires_approval", PBool false)].
Definition block_doc (reason : string) : pyval :=
  PDict [("allow", PBool false); ("requires_approval", PBool false); ("reason", PStr reason)].
Definition approval_doc (reason scope : string) (ttl : Z) : pyval :=
  PDict [("allow", PBool true); ("requires_approval", PBool true); ("reason", PStr reason);
         ("approval_scope", PStr scope); ("approval_ttl_sec", PInt ttl)].

Definition default_pack_document : pyval :=
  PDict
    [("schema_version", PInt 1);
     ("pack", PStr "default_l0_l5_v1");
     ("description", PStr "Default autonomy policy pack for L0-L5 tool risk gating.");
     ("rules", PDict
        [("l0", PDict
           [("low", block_doc "Autonomy level L0 blocks all tool execution.");
            ("medium", block_doc "Autonomy level L0 blocks all tool execution.");
            ("high", block_doc "Autonomy level L0 blocks all tool execution.");
            ("critical", block_doc "Autonomy level L0 blocks all tool execution.")]);
         ("l1", PDict
           [("low", approval_doc "Autonomy level L1 requires approval for low-risk tool execution."
              "request" 180);
            ("medium", block_doc "Autonomy level L1 blocks non-low-risk tool execution.");
            ("high", block_doc "Autonomy level L1 blocks non-low-risk tool execution.");
            ("critical", block_doc "Autonomy level L1 blocks non-low-risk tool execution.")]);
         ("l2", PDict
           [("low", allow_doc);
            ("medium", approval_doc "Autonomy level L2 requires approval for medium-risk tool execution."
              "request" 300);
            ("high", block_doc "Autonomy level L2 blocks high/critical-risk tool execution.");
            ("critical", block_doc "Autonomy level L2 blocks high/critical-risk tool execution.")]);
         ("l3", PDict
           [("low", allow_doc);
            ("medium", allow_doc);
            ("high", approval_doc "Autonomy level L3 requires approval for high-risk tool execution."
              "request" 300);
            ("critical", block_doc "Autonomy level L3 blocks critical-risk tool execution.")]);
         ("l4", PDict
           [("low", allow_doc);
            ("medium", allow_doc);
            ("high", approval_doc "Autonomy level L4 requires approval for high-risk tool execution."
              "session" 600);
            ("critical", approval_doc "Autonomy level L4 requires approval for critical-risk tool execution."
              "session" 900)]);
         ("l5", PDict
           [("low", allow_doc);
            ("medium", allow_doc);
            ("high", allow_doc);
            ("critical", allow_doc)])])].

End AutonomyPolicy.
