(* ===== verification/AutonomyFacts.v ===== *)
(** Facts about autonomy policies: a pack that loads is complete and
    well formed, so a policy decides every tool call; the default pack is
    graded by level and by risk. *)

From stdpp Require Import prelude strings list.
From Stdlib Require Import Lia ZArith Ascii.
From S2P Require Import Prelude PyStr PyVal Effects AutonomyPolicy.
Import AutonomyPolicy.

Module AutonomyFacts.

(** What [_parse_rule] guarantees of a rule. *)
Record rule_wf (r : AutonomyRule) : Prop := {
  rw_blocked : allow r = false -> requires_approval r = false /\ exists t, reason r = Some t /\ t <> "";
  rw_approval : requires_approval r = true ->
    (exists s, approval_scope r = Some s /\ s ∈ VALID_APPROVAL_SCOPES)
    /\ (exists t, approval_ttl_sec r = Some t /\ 1 <= t);
  rw_free : requires_approval r = false -> approval_scope r = None /\ approval_ttl_sec r = None }.

Lemma str_or_none_ne s t : str_or_none s = Some t -> t <> "".
Proof. destruct s; [done|]. by intros [= <-]. Qed.

Lemma parse_reason_ne payload t : parse_reason payload = Some t -> t <> "".
Proof. unfold parse_reason. destruct (get _ _); try done; apply str_or_none_ne. Qed.

Lemma as_int_min v key m z : as_int v key (Some m) = Ok z -> m <= z.
Proof. unfold as_int. destruct (py_int v) as [x|[]]; try done. destruct (x <? m) eqn:E; [done|]. intros [= <-]. lia. Qed.

Lemma parse_rule_wf payload level risk r : parse_rule payload level risk = Ok r -> rule_wf r.
Proof.
  unfold parse_rule. destruct (get "allow" payload) as [|a| | | | |]; try done.
  destruct (get "requires_approval" payload) as [|b| | | | |]; try done.
  destruct (negb a && b) eqn:Eab; [done|].
  cbv zeta. destruct (negb a && match parse_reason payload with Some _ => false | None => true end) eqn:Er; [done|].
  destruct b.
  - destruct (str_in _ _) eqn:Es; cbn [negb]; [|done].
    destruct (as_int _ _ _) as [ttl|] eqn:Et; [|done]. cbn [res_bind]. intros [= <-].
    destruct a; [|done]. constructor; simpl; try done. intros _. apply as_int_min in Et.
    split; eexists; (split; [reflexivity|]); [by apply str_in_spec | done].
  - intros [= <-]. constructor; simpl; try done. intros ->. simpl in Er. split; [done|].
    destruct (parse_reason payload) as [t|] eqn:E; [|done]. exists t. split; [done|]. by eapply parse_reason_ne.
Qed.

(** A loop that sets one key per element ends with a value for each. *)
Lemma fold_res_keys {A} (P : A -> Prop) (f : dict A -> string -> res (dict A)) l d d' :
  (forall d k d', f d k = Ok d' -> exists v, d' = d_set k v d /\ P v) ->
  (forall k v, d_get k d = Some v -> P v) ->
  fold_res f l d = Ok d' ->
  (forall k, k ∈ l \/ d_mem k d = true -> exists v, d_get k d' = Some v)
  /\ (forall k v, d_get k d' = Some v -> P v).
Proof.
  intros Hf. revert d. induction l as [|x l IH]; intros d Hd; cbn [fold_res].
  - intros [= <-]. split; [|done]. intros k [?%elem_of_nil|Hk]; [done|]. unfold d_mem in Hk.
    destruct (d_get k d); [by eexists | done].
  - destruct (f d x) as [d1|e] eqn:E; [|done]. cbn [res_bind]. intros H.
    destruct (Hf _ _ _ E) as (v & -> & Hv). apply IH in H as [H1 H2].
    + split; [|exact H2]. intros k Hk. apply H1. destruct Hk as [[->|Hk]%elem_of_cons|Hk].
      * right. unfold d_mem. by rewrite d_get_set_eq.
      * by left.
      * right. unfold d_mem in *. rewrite d_get_set. by destruct (String.eqb x k).
    + intros k w. rewrite d_get_set. destruct (String.eqb x k); [by intros [= <-] | apply Hd].
Qed.

Definition level_wf (rules : dict AutonomyRule) : Prop :=
  (forall risk, risk ∈ VALID_RISK_LEVELS -> exists r, d_get risk rules = Some r)
  /\ (forall risk r, d_get risk rules = Some r -> rule_wf r).

Record pack_wf (p : AutonomyPolicyPack) : Prop := {
  pk_version : schema_version p = SCHEMA_VERSION;
  pk_name : pack p <> "";
  pk_levels : forall l, l ∈ VALID_AUTONOMY_LEVELS -> exists rules, d_get l (levels p) = Some rules;
  pk_rules : forall l rules, d_get l (levels p) = Some rules -> level_wf rules }.

Lemma load_level_wf rules_raw d l d' :
  load_level rules_raw d l = Ok d' -> exists rules, d' = d_set l rules d /\ level_wf rules.
Proof.
  unfold load_level. destruct (get l rules_raw) as [| | | | | |raw]; try done.
  destruct (fold_res _ _ _) as [rules|] eqn:E; [|done]. cbn [res_bind]. intros [= <-].
  exists rules. split; [done|]. eapply fold_res_keys in E as [H1 H2].
  - split; [intros risk Hr; apply H1; by left | exact H2].
  - intros d0 k d1. unfold load_risk. destruct (get k raw) as [| | | | | |rr]; try done.
    destruct (parse_rule rr l k) as [r|] eqn:Er; [|done]. cbn [res_bind]. intros [= <-].
    exists r. split; [done|]. by eapply parse_rule_wf.
  - done.
Qed.

(** A pack that loads is well formed. *)
Lemma load_wf path f p : load_autonomy_policy_pack path f = Ok p -> pack_wf p.
Proof.
  unfold load_autonomy_policy_pack. destruct (load_json_object path f) as [payload|]; [|done].
  cbn [res_bind]. destruct (as_int _ _ _) as [v|]; [|done]. cbn [res_bind].
  destruct (v =? SCHEMA_VERSION) eqn:Ev; [|done]. cbn [negb].
  destruct (is_empty (norm (get "pack" payload))) eqn:En; [done|].
  destruct (get "rules" payload) as [| | | | | |rules]; try done.
  destruct (fold_res _ _ _) as [ls|] eqn:E; [|done]. cbn [res_bind]. intros [= <-].
  eapply (fold_res_keys level_wf) in E as [H1 H2]; [|apply load_level_wf | done].
  constructor; simpl; try done.
  - lia.
  - by apply is_empty_false.
  - intros l Hl. apply H1. by left.
Qed.

Lemma level_valid v : normalize_autonomy_level v ∈ VALID_AUTONOMY_LEVELS.
Proof.
  unfold normalize_autonomy_level. destruct (str_in _ _) eqn:E; [by apply str_in_spec|]. by apply str_in_spec.
Qed.

Lemma risk_valid v : normalize_risk_level v ∈ VALID_RISK_LEVELS.
Proof.
  unfold normalize_risk_level. destruct (str_in _ _) eqn:E; [by apply str_in_spec|]. by apply str_in_spec.
Qed.

(** What a decision promises to the executor. *)
Record decision_wf (d : AutonomyDecision) : Prop := {
  dw_blocked : d_allow d = false -> d_requires_approval d = false /\ exists t, d_reason d = Some t;
  dw_approval : d_requires_approval d = true ->
    (exists s, d_approval_scope d = Some s /\ s ∈ VALID_APPROVAL_SCOPES)
    /\ (exists t, d_approval_ttl_sec d = Some t /\ 1 <= t) }.

Section facts.
Context (str_format : string -> dict string -> option string).

Lemma rule_total p l risk :
  pack_wf p -> l ∈ VALID_AUTONOMY_LEVELS -> risk ∈ VALID_RISK_LEVELS ->
  exists r, rule p l risk = Ok r /\ rule_wf r.
Proof.
  intros Hp Hl Hr. destruct (pk_levels _ Hp l Hl) as [rules El]. destruct (pk_rules _ Hp l rules El) as [H1 H2].
  destruct (H1 risk Hr) as [r Er]. exists r. unfold rule. rewrite El, Er. split; [done|]. by eapply H2.
Qed.

(** A policy built from any pack file that loads decides every call: for
    any tool name and any risk text [evaluate] returns, a refusal comes with a
    reason and never asks for approval, and an approval names a valid scope
    and a positive lifetime. *)
Theorem autonomy_policy_total lvl path f p tool_name risk_level :
  make lvl path f = Ok p ->
  exists d, evaluate str_format p tool_name risk_level = Ok d /\ decision_wf d.
Proof.
  unfold make. destruct (load_autonomy_policy_pack path f) as [pk|] eqn:E; [|done]. intros [= <-].
  unfold evaluate. cbn [policy_pack level].
  destruct (rule_total pk (normalize_autonomy_level lvl) (normalize_risk_level (Some risk_level)))
    as (r & -> & Hr); [by eapply load_wf | apply level_valid | apply risk_valid|].
  eexists. split; [reflexivity|]. constructor; cbn.
  - intros Ha. destruct (rw_blocked _ Hr Ha) as [H1 (t & Ht & Hne)]. split; [done|].
    unfold render_reason. rewrite Ht. cbn [opt_str]. rewrite str_or_none_some by done. by eexists.
  - apply Hr.
Qed.
End facts.

(** ** The default pack *)

Definition default_pack : res AutonomyPolicyPack :=
  load_autonomy_policy_pack "policies/autonomy/default.json" (Document default_pack_document).

(** 0 blocked, 1 after approval, 2 free *)
Definition freedom (r : AutonomyRule) : Z := if negb (allow r) then 0 else if requires_approval r then 1 else 2.

Definition default_freedom (l risk : string) : option Z :=
  match default_pack with
  | Ok p => match rule p l risk with Ok r => Some (freedom r) | Err _ => None end
  | Err _ => None
  end.

(** The position of a word in a list of words. *)
Fixpoint rank (s : string) (l : list string) : option nat :=
  match l with [] => None | x :: l' => if String.eqb s x then Some O else S <$> rank s l' end.

Definition leq_rank (l : list string) (s t : string) : bool :=
  match rank s l, rank t l with Some m, Some n => (m <=? n)%nat | _, _ => false end.

Definition graded_at (l l' r r' : string) : bool :=
  match default_freedom l r, default_freedom l' r' with
  | Some a, Some b => a <=? b
  | _, _ => false
  end.

Lemma graded_all :
  forallb (fun l => forallb (fun l' => forallb (fun r => forallb (fun r' =>
    implb (leq_rank VALID_AUTONOMY_LEVELS l l' && leq_rank VALID_RISK_LEVELS r' r) (graded_at l l' r r'))
    VALID_RISK_LEVELS) VALID_RISK_LEVELS) VALID_AUTONOMY_LEVELS) VALID_AUTONOMY_LEVELS = true.
Proof. vm_compute. reflexivity. Qed.

(** The default pack loads and is graded: raising the autonomy level or
    lowering the risk of the tool never takes freedom away, level l0 blocks
    every call, and level l5 asks nothing. *)
Theorem default_pack_graded :
  (exists p, default_pack = Ok p /\ pack_wf p)
  /\ (forall l l' r r', leq_rank VALID_AUTONOMY_LEVELS l l' = true -> leq_rank VALID_RISK_LEVELS r' r = true ->
        exists a b, default_freedom l r = Some a /\ default_freedom l' r' = Some b /\ a <= b)
  /\ (forall r, r ∈ VALID_RISK_LEVELS -> default_freedom "l0" r = Some 0 /\ default_freedom "l5" r = Some 2).
Proof.
  split; [|split].
  - destruct default_pack as [p|] eqn:E; [|by vm_compute in E]. exists p. split; [done|]. by eapply load_wf.
  - intros l l' r r' Hl Hr.
    assert (l ∈ VALID_AUTONOMY_LEVELS /\ l' ∈ VALID_AUTONOMY_LEVELS /\ r ∈ VALID_RISK_LEVELS /\ r' ∈ VALID_RISK_LEVELS)
      as (H1 & H2 & H3 & H4).
    { unfold leq_rank in *. assert (forall s k n, rank s k = Some n -> s ∈ k) as Hin.
      { intros s k. induction k as [|x k IH]; intros n; cbn [rank]; [done|].
        destruct (String.eqb_spec s x) as [->|]; [by left|]. destruct (rank s k) eqn:E; [|done].
        intros _. right. by eapply IH. }
      repeat (case_match; try done). naive_solver. }
    pose proof graded_all as H. rewrite forallb_forall in H. specialize (H l (proj1 (list_elem_of_In _ _) H1)).
    rewrite forallb_forall in H. specialize (H l' (proj1 (list_elem_of_In _ _) H2)).
    rewrite forallb_forall in H. specialize (H r (proj1 (list_elem_of_In _ _) H3)).
    rewrite forallb_forall in H. specialize (H r' (proj1 (list_elem_of_In _ _) H4)).
    rewrite Hl, Hr in H. cbn [andb implb] in H. unfold graded_at in H.
    destruct (default_freedom l r) as [a|]; [|done]. destruct (default_freedom l' r') as [b|]; [|done].
    exists a, b. repeat split; lia.
  - intros r Hr. unfold VALID_RISK_LEVELS in Hr.
    repeat (apply elem_of_cons in Hr as [->|Hr]; [by split; vm_compute|]). by apply elem_of_nil in Hr.
Qed.

Lemma autonomy_policy_total_witness :
  exists p, make (Some "L4") "policies/autonomy/default.json" (Document default_pack_document) = Ok p
  /\ exists d, evaluate (fun _ _ => None) p "python_exec" "high" = Ok d /\ decision_wf d.
Proof.
  destruct (make (Some "L4") "policies/autonomy/default.json" (Document default_pack_document)) as [p|e] eqn:E.
  - exists p. split; [reflexivity|]. exact (autonomy_policy_total _ _ _ _ _ "python_exec" "high" E).
  - assert (is_ok (make (Some "L4") "policies/autonomy/default.json" (Document default_pack_document)) = true) as H
      by (vm_compute; reflexivity).
    rewrite E in H. discriminate H.
Defined.

End AutonomyFacts.
