(* ===== verification/ToolRegistry.v ===== *)
(** The tool registry (tools/tool_registry.py, [ToolRegistry]): registration,
    discovery of plugins with their manifest, compatibility, capability and
    signature checks, and the discovery report. *)

From stdpp Require Import prelude strings list.
From Stdlib Require Import Lia ZArith Ascii.
From S2P Require Import Prelude PyStr PyVal Effects PermissionManager PluginPolicy.

Module ToolRegistry.
Import PluginPolicy.

(** A handler is a function of the process, named here, or the closure
    [_sandbox_proxy_handler]. *)
Inductive handler : Type :=
  | InProcess (id : string)
  | SandboxProxy.

Record ToolDefinition : Type := Tool {
  t_name : string;
  t_description : string;
  t_input_schema : pydict;
  t_handler : handler;
  t_source : string;
  t_risk_level : string;
  t_approval_mode : string;
  t_approval_predicate : option (pydict -> res pyval);
  t_isolation : string;
  t_execution_target : option pydict }.

Record plugin_event : Type := Event {
  ev_plugin : string;
  ev_status : string;
  ev_reason : string;
  ev_signature_state : string;
  ev_compat_state : string;
  ev_compat_reason : string;
  ev_capability_state : string;
  ev_capability_reason : string }.

Record registry : Type := Registry {
  tools : dict ToolDefinition;
  plugin_signing_key : option string;
  plugin_signing_mode : string;
  plugin_runtime_mode : string;
  plugin_events : list plugin_event }.

Definition init (signing_key : option string) (signing_mode runtime_mode : string) : registry :=
  let mode := lower (strip (str_or signing_mode "warn")) in
  let runtime := lower (strip (str_or runtime_mode "sandboxed")) in
  Registry [] (str_or_none (strip (opt_str signing_key)))
    (if str_in mode ["off"; "warn"; "strict"] then mode else "warn")
    (if str_in runtime ["sandboxed"; "legacy"] then runtime else "sandboxed") [].

Definition set_tool (t : ToolDefinition) : M registry unit :=
  modify (fun r => Registry (d_set (t_name t) t (tools r)) (plugin_signing_key r) (plugin_signing_mode r)
                     (plugin_runtime_mode r) (plugin_events r)).

(** The tool [register] stores for its arguments: a builtin tool gets a
    default execution target *)
Definition completed_tool (t : ToolDefinition) : ToolDefinition :=
  let execution_target :=
    match t_execution_target t with
    | None =>
        if String.eqb (t_source t) "builtin"
        then Some [("kind", PStr "builtin"); ("name", PStr (t_name t))]
        else None
    | Some d => Some d
    end in
  Tool (t_name t) (t_description t) (t_input_schema t) (t_handler t) (t_source t) (t_risk_level t)
    (t_approval_mode t) (t_approval_predicate t) (t_isolation t) execution_target.

(** [register], its arguments as a tool definition *)
Definition register (t : ToolDefinition) : M registry unit := set_tool (completed_tool t).

Definition get_tool (name : string) (r : registry) : option ToolDefinition := d_get name (tools r).
Definition list_tools (r : registry) : list ToolDefinition := d_values (tools r).
Definition names (r : registry) : list string := sort_strings (d_keys (tools r)).

(** [openai_schemas]; an empty selection selects everything *)
Definition openai_schemas (selected : option (list string)) (r : registry) : list pydict :=
  let selected_set := match selected with Some (x :: l) => x :: l | _ => d_keys (tools r) end in
  map (fun t => [("type", PStr "function");
                 ("function", PDict [("name", PStr (t_name t)); ("description", PStr (t_description t));
                                     ("parameters", PDict (t_input_schema t))])])
    (List.filter (fun t => str_in (t_name t) selected_set) (d_values (tools r))).

(** ** Plugins *)

(** What loading [tool.py] into the process leads to: an exception, a module
    without an entry point, or calls of [register] and possibly an exception
    after them. *)
Inductive legacy_module : Type :=
  | LoadFails (e : exn)
  | NoEntryPoint
  | Registers (calls : list ToolDefinition) (fault : option exn).

(** An entry of the plugins directory: the manifest file is absent, cannot be
    read as JSON, or holds a value. *)
Record plugin_dir : Type := PluginDir {
  pd_name : string;
  pd_is_dir : bool;
  pd_manifest : option (res pyval);
  pd_tool_is_file : bool;
  pd_resolved : string;
  pd_tool_path : string;
  pd_module : pydict -> legacy_module }.

Definition ascii_only (s : string) : bool := all_chars (in_range 0 127) s.

(** [hmac.compare_digest] on strings *)
Definition compare_digest (a b : string) : res bool :=
  if ascii_only a && ascii_only b then Ok (String.eqb a b)
  else Err (TypeError "comparing strings with non-ASCII characters is not supported").

(** The manifest without its signature, as it is signed. *)
Definition canonical (manifest : pydict) : string :=
  PermissionManager.json_dumps (PDict (List.filter (fun kv => negb (String.eqb (fst kv) "signature")) manifest)).

Section env.
(** [hmac.new(key.encode("utf-8"), text.encode("utf-8"), hashlib.sha256).hexdigest()] *)
Context (hmac_sha256 : string -> string -> string).

(** [_record_plugin_event] *)
Definition record_plugin_event (e : plugin_event) : M registry unit :=
  modify (fun r => Registry (tools r) (plugin_signing_key r) (plugin_signing_mode r)
                     (plugin_runtime_mode r) (plugin_events r ++ [e])).

(** [_verify_manifest_signature] *)
Definition verify_manifest_signature (r : registry) (manifest : pydict) : res (bool * string * string) :=
  let signature := match get "signature" manifest with
                   | PStr s => if is_empty (strip s) then None else Some s
                   | _ => None
                   end in
  let mode := plugin_signing_mode r in
  if String.eqb mode "off" then Ok (true, "disabled", "signature_check_disabled")
  else match plugin_signing_key r with
  | None =>
      if String.eqb mode "strict" then Ok (false, "unverifiable_no_key", "strict_mode_requires_signing_key")
      else match signature with
      | Some _ => Ok (true, "warn_unverified_no_key", "signature_present_but_no_verification_key")
      | None => Ok (true, "warn_missing_no_key", "signature_missing_but_allowed_in_warn_mode")
      end
  | Some key =>
      match signature with
      | None =>
          if String.eqb mode "strict" then Ok (false, "missing", "signature_missing")
          else Ok (true, "warn_missing", "signature_missing_but_allowed_in_warn_mode")
      | Some s =>
          let expected := hmac_sha256 key (canonical manifest) in
          res_bind (compare_digest (lower (strip s)) expected) (fun same =>
            if negb same then
              if String.eqb mode "strict" then Ok (false, "invalid", "signature_invalid")
              else Ok (true, "warn_invalid", "signature_invalid_but_allowed_in_warn_mode")
            else Ok (true, "verified", "signature_verified"))
      end
  end.

(** [str(value or default).strip() or default] *)
Definition text_or (default : string) (v : pyval) : string :=
  str_or (strip (py_str (py_or v (PStr default)))) default.

(** [_register_sandboxed_plugin] *)
Definition register_sandboxed_plugin (d : plugin_dir) (manifest : pydict) (caps : list string) :
    M registry unit :=
  match get "tool" manifest with
  | PDict descriptor =>
      let tool_name := norm (py_or (get "name" descriptor) (get "name" manifest)) in
      let description := norm (get "description" descriptor) in
      raise_if (is_empty tool_name) (RuntimeError "Sandboxed plugin tool.name is required") ;;;
      raise_if (is_empty description) (RuntimeError "Sandboxed plugin tool.description is required") ;;;
      match get "input_schema" descriptor with
      | PDict input_schema =>
          let entrypoint := text_or "execute" (get "entrypoint" descriptor) in
          let risk_level := norm_lower_or "medium" (get "risk_level" descriptor) in
          let approval_mode := norm_lower_or "required" (get "approval_mode" descriptor) in
          let isolation := text_or "sandboxed_plugin" (get "isolation" descriptor) in
          raise_if (negb (pd_tool_is_file d)) (RuntimeError "Sandboxed plugin tool.py is missing") ;;;
          let given := visible_words (map PStr caps) in
          let normalized_capabilities :=
            match given with
            | [] => match get "capabilities" manifest with PList raw => visible_words raw | _ => [] end
            | _ => given
            end in
          raise_if (match normalized_capabilities with [] => true | _ => false end)
            (RuntimeError "Sandboxed plugin capabilities are invalid") ;;;
          register (Tool tool_name description input_schema SandboxProxy ("plugin:" +:+ pd_name d) risk_level
                      approval_mode None isolation
                      (Some [("kind", PStr "plugin");
                             ("plugin_name", PStr (pd_name d));
                             ("plugin_dir", PStr (pd_resolved d));
                             ("tool_path", PStr (pd_tool_path d));
                             ("entrypoint", PStr entrypoint);
                             ("capabilities", PList (map PStr (sorted_set normalized_capabilities)))]))
      | _ => raise (RuntimeError "Sandboxed plugin tool.input_schema must be an object")
      end
  | _ => raise (RuntimeError "Sandboxed plugin manifest must include object field 'tool'")
  end.

(** The legacy path: the module's own [register] runs in the process. *)
Definition run_module (m : legacy_module) : M registry unit :=
  match m with
  | LoadFails _ => ret tt
  | NoEntryPoint => raise (RuntimeError "Plugin must expose register(registry, manifest)")
  | Registers calls fault =>
      for_each calls register ;;;
      match fault with Some e => raise e | None => ret tt end
  end.

(** The outcome of registering, recorded as the last event of the plugin. *)
Definition loaded_event (name signature_state compat_reason capability_reason : string) : plugin_event :=
  Event name "loaded" "ok" signature_state "compatible" compat_reason "valid" capability_reason.
Definition failed_event (name reason signature_state compat_reason capability_reason : string) : plugin_event :=
  Event name "failed" reason signature_state "compatible" compat_reason "valid" capability_reason.

Definition load_plugin (d : plugin_dir) (manifest : pydict) (compat : PluginCompatValidation)
    (capability : PluginCapabilityValidation) (signature_state : string) : M registry unit :=
  let loaded := record_plugin_event
    (loaded_event (pd_name d) signature_state (compat_reason compat) (cap_reason capability)) in
  let failed reason := record_plugin_event
    (failed_event (pd_name d) reason signature_state (compat_reason compat) (cap_reason capability)) in
  let* runtime := gets plugin_runtime_mode in
  if String.eqb runtime "sandboxed" then
    try_except (register_sandboxed_plugin d manifest (capabilities capability) ;;; loaded)
      (fun exc => failed ("register_failed:" +:+ exn_str exc))
  else match pd_module d manifest with
  | LoadFails exc => failed ("load_failed:" +:+ exn_str exc)
  | m => try_except (run_module m ;;; loaded) (fun exc => failed ("register_failed:" +:+ exn_str exc))
  end.

(** One turn of the loop of [discover_plugins] *)
Definition discover_plugin (d : plugin_dir) : M registry unit :=
  if negb (pd_is_dir d) then ret tt
  else match pd_manifest d with
  | None => ret tt
  | Some content =>
      if negb (pd_tool_is_file d) then ret tt
      else match content with
      | Err exc =>
          let reason := "manifest_invalid:" +:+ exn_str exc in
          record_plugin_event (Event (pd_name d) "skipped" reason "manifest_invalid" "manifest_invalid" reason
                                 "manifest_invalid" reason)
      | Ok (PDict manifest) =>
          let* runtime := gets plugin_runtime_mode in
          let compat := validate_plugin_manifest_compat manifest runtime in
          if negb (compat_ok compat) then
            record_plugin_event (Event (pd_name d) "blocked" ("compat_incompatible:" +:+ compat_reason compat)
                                   "not_checked" "incompatible" (compat_reason compat) "not_checked"
                                   "compatibility_failed_before_capability_checks")
          else
            let capability := validate_plugin_manifest_capabilities manifest in
            if negb (cap_ok capability) then
              record_plugin_event (Event (pd_name d) "blocked"
                                     ("capability_incompatible:" +:+ cap_reason capability) "not_checked"
                                     "compatible" (compat_reason compat) "incompatible" (cap_reason capability))
            else
              let* r := gets (fun r => r) in
              let* verdict := lift (verify_manifest_signature r manifest) in
              let '(allowed, signature_state, reason) := verdict in
              if negb allowed then
                record_plugin_event (Event (pd_name d) "blocked" reason signature_state "compatible"
                                       (compat_reason compat) "valid" (cap_reason capability))
              else load_plugin d manifest compat capability signature_state
      | Ok _ =>
          record_plugin_event (Event (pd_name d) "skipped" "manifest_must_be_object" "manifest_invalid"
                                 "manifest_invalid" "manifest_must_be_object" "manifest_invalid"
                                 "manifest_must_be_object")
      end
  end.

(** [discover_plugins]; the directory may not exist *)
Definition discover_plugins (plugins_dir : option (list plugin_dir)) : M registry unit :=
  modify (fun r => Registry (tools r) (plugin_signing_key r) (plugin_signing_mode r) (plugin_runtime_mode r) []) ;;;
  match plugins_dir with
  | None => ret tt
  | Some entries => for_each (sort_by (fun a b => String.leb (pd_name a) (pd_name b)) entries) discover_plugin
  end.
End env.

(** ** [plugin_discovery_report] *)

(** [counts[k] += 1] for a key that is present *)
Definition count_one (k : string) (counts : dict Z) : dict Z :=
  match d_get k counts with Some n => d_set k (n + 1) counts | None => counts end.
Definition count_or_unknown (k : string) (counts : dict Z) : dict Z :=
  if d_mem k counts then count_one k counts else count_one "unknown" counts.

Definition state_word (s : string) : string := lower (strip s).

Record report : Type := Report {
  rp_signing_mode : string;
  rp_runtime_mode : string;
  rp_signing_key_configured : bool;
  rp_compat_contract : pydict;
  rp_capability_policy : pydict;
  rp_events : list plugin_event;
  rp_summary : dict Z;
  rp_compat_summary : dict Z;
  rp_capability_summary : dict Z }.

Definition plugin_discovery_report (limit : Z) (r : registry) : report :=
  let rows := take (Z.to_nat (Z.max 0 limit)) (plugin_events r) in
  let summary := foldl (fun c e => count_one (state_word (ev_status e)) c)
    [("loaded", 0); ("blocked", 0); ("failed", 0); ("skipped", 0)] rows in
  let compat_summary := foldl (fun c e => count_or_unknown (state_word (ev_compat_state e)) c)
    [("compatible", 0); ("incompatible", 0); ("manifest_invalid", 0); ("unknown", 0)] rows in
  let capability_summary := foldl (fun c e => count_or_unknown (state_word (ev_capability_state e)) c)
    [("valid", 0); ("incompatible", 0); ("not_checked", 0); ("manifest_invalid", 0); ("unknown", 0)] rows in
  Report (plugin_signing_mode r) (plugin_runtime_mode r)
    (match plugin_signing_key r with Some _ => true | None => false end)
    plugin_compat_contract_snapshot plugin_capability_policy_snapshot rows summary compat_summary
    capability_summary.

End ToolRegistry.
