(* ===== verification/ToolRegistryFacts.v ===== *)
(** Facts about plugin discovery: which tools it can add to the registry, and
    when it ends in an exception. *)

From stdpp Require Import prelude strings list.
From Stdlib Require Import Lia ZArith Ascii.
From S2P Require Import Prelude PyStr PyVal Effects PluginPolicy ToolRegistry.
Import PluginPolicy ToolRegistry.

Module ToolRegistryFacts.

(** Steps over a guard of the form [if ...: raise ...]. *)
Ltac pass_guard := apply preserves_bind; [apply preserves_raise_if | intros _].

(** ** Normal forms of capability words *)

Lemma visible_words_elem raw x :
  x ∈ visible_words raw <-> exists v, v ∈ raw /\ strip (py_str v) <> "" /\ x = lower (strip (py_str v)).
Proof.
  unfold visible_words. rewrite list_elem_of_In, in_map_iff. split.
  - intros (v & <- & [Hv Hn]%filter_In). exists v. rewrite list_elem_of_In. repeat split; try done.
    by apply is_empty_false, negb_true_iff.
  - intros (v & Hv & Hn & ->). exists v. split; [done|]. apply filter_In.
    split; [by apply list_elem_of_In|]. by apply negb_true_iff, is_empty_false.
Qed.

Lemma lower_empty s : lower s = "" <-> s = "".
Proof. by destruct s. Qed.

(** Normalizing words that are already normal changes nothing. *)
Lemma visible_words_again raw l x :
  (forall y, y ∈ l <-> y ∈ visible_words raw) -> x ∈ visible_words (map PStr l) <-> x ∈ l.
Proof.
  intros Hl. rewrite visible_words_elem. split.
  - intros (v & Hv & Hn & ->). apply list_elem_of_In, in_map_iff in Hv as (s & <- & Hs%list_elem_of_In).
    cbn [py_str]. pose proof Hs as Hw. rewrite Hl, visible_words_elem in Hw. destruct Hw as (w & _ & Hw & ->).
    rewrite strip_lower, strip_idemp, lower_idemp. exact Hs.
  - intros Hx. exists (PStr x). split; [apply list_elem_of_In, in_map_iff; exists x; by rewrite <- list_elem_of_In|].
    rewrite Hl, visible_words_elem in Hx. destruct Hx as (w & _ & Hw & ->). cbn [py_str].
    rewrite strip_lower, strip_idemp, lower_idemp. split; [by rewrite lower_empty | done].
Qed.

Lemma granted_same l k : (forall x, x ∈ k <-> x ∈ l) -> NoDup k -> capabilities_granted l -> capabilities_granted k.
Proof.
  intros Hx Hk []. rewrite Forall_forall in *. constructor; rewrite ?Forall_forall; try done.
  - intros ->. destruct l as [|y l]; [done|]. assert (y ∈ []) as H by (apply Hx; left). by apply elem_of_nil in H.
  - intros x H%Hx. auto.
  - intros x H%Hx. auto.
  - rewrite !Hx. auto.
Qed.

(** What the sandboxed registration stores is what the manifest was granted. *)
Lemma stored_capabilities manifest :
  cap_ok (validate_plugin_manifest_capabilities manifest) = true ->
  let caps := capabilities (validate_plugin_manifest_capabilities manifest) in
  visible_words (map PStr caps) <> [] /\ capabilities_granted (sorted_set (visible_words (map PStr caps)))
  /\ forall x, x ∈ sorted_set (visible_words (map PStr caps)) <-> x ∈ caps.
Proof.
  intros H caps. pose proof (validation_granted _ H) as Hg. fold caps in Hg.
  assert (exists raw, forall y, y ∈ caps <-> y ∈ visible_words raw) as [raw Hraw].
  { unfold caps in *. clear Hg caps. unfold validate_plugin_manifest_capabilities in *.
    destruct (get "capabilities" manifest) as [| | | | |[|i l]|]; try done. exists (i :: l). intros y.
    rewrite <- (sorted_set_elem y (visible_words _)). revert H. destruct (sorted_set _) as [|c cs]; [done|].
    repeat match goal with |- context [match ?x with _ => _ end] => destruct x; try done end. }
  assert (forall x, x ∈ visible_words (map PStr caps) <-> x ∈ caps) as Hsame.
  { intros x. by eapply visible_words_again. }
  split.
  - intros E. destruct caps as [|c cs] eqn:Ec; [by destruct Hg|]. assert (c ∈ visible_words (map PStr (c :: cs))) as Hc
      by (apply Hsame; left). rewrite E in Hc. by apply elem_of_nil in Hc.
  - split; [eapply granted_same; [|apply sorted_set_NoDup | exact Hg]|]; intros x; by rewrite sorted_set_elem.
Qed.

(** ** What discovery may add *)

Section discovery.
Context (hmac_sha256 : string -> string -> string).

(** The signature of a manifest under a key. *)
Definition signed (key : string) (manifest : pydict) : Prop :=
  exists s, get "signature" manifest = PStr s /\ lower (strip s) = hmac_sha256 key (canonical manifest).

(** A manifest that passed every check of a registry configured like [r]. *)
Record manifest_cleared (r : registry) (d : plugin_dir) (manifest : pydict) : Prop := {
  mc_dir : pd_is_dir d = true;
  mc_tool : pd_tool_is_file d = true;
  mc_manifest : pd_manifest d = Some (Ok (PDict manifest));
  mc_compat : compat_ok (validate_plugin_manifest_compat manifest (plugin_runtime_mode r)) = true;
  mc_caps : cap_ok (validate_plugin_manifest_capabilities manifest) = true;
  mc_signed : plugin_signing_mode r = "strict" ->
    exists key, plugin_signing_key r = Some key /\ signed key manifest }.

(** A tool the sandboxed mode registers for a plugin: the one its manifest
    describes, never run in the process, and limited to exactly the
    capabilities this manifest declares, all of them grantable. *)
Record sandboxed_tool (d : plugin_dir) (manifest : pydict) (t : ToolDefinition) : Prop := {
  sb_name : exists descriptor, get "tool" manifest = PDict descriptor
    /\ t_name t = norm (py_or (get "name" descriptor) (get "name" manifest));
  sb_handler : t_handler t = SandboxProxy;
  sb_source : t_source t = "plugin:" +:+ pd_name d;
  sb_predicate : t_approval_predicate t = None;
  sb_target : exists target caps, t_execution_target t = Some target
    /\ get "plugin_name" target = PStr (pd_name d)
    /\ get "capabilities" target = PList (map PStr caps) /\ capabilities_granted caps
    /\ forall x, x ∈ caps <-> x ∈ capabilities (validate_plugin_manifest_capabilities manifest) }.

(** A tool the legacy mode registers for a plugin: one that the plugin's own
    module passes to [register]. *)
Definition legacy_tool (d : plugin_dir) (manifest : pydict) (t : ToolDefinition) : Prop :=
  exists calls fault t0, pd_module d manifest = Registers calls fault /\ t0 ∈ calls /\ t = completed_tool t0.

(** The tool comes from this plugin, and the manifest of the plugin is
    cleared. *)
Definition vetted (r : registry) (d : plugin_dir) (t : ToolDefinition) : Prop :=
  exists manifest, manifest_cleared r d manifest
  /\ if String.eqb (plugin_runtime_mode r) "sandboxed" then sandboxed_tool d manifest t else legacy_tool d manifest t.

Definition config (r : registry) : option string * string * string :=
  (plugin_signing_key r, plugin_signing_mode r, plugin_runtime_mode r).

(** Discovery keeps the configuration, and every tool is an old one or comes
    from a vetted plugin. *)
Definition grows (r0 : registry) (dirs : list plugin_dir) (r : registry) : Prop :=
  config r = config r0
  /\ forall n t, d_get n (tools r) = Some t ->
       d_get n (tools r0) = Some t \/ exists d, d ∈ dirs /\ vetted r0 d t.

Lemma record_event_grows r0 dirs e : preserves (grows r0 dirs) (record_plugin_event e).
Proof. apply preserves_modify. by intros r. Qed.

Lemma set_tool_grows r0 dirs d t :
  d ∈ dirs -> vetted r0 d t -> preserves (grows r0 dirs) (set_tool t).
Proof.
  intros Hd Hv. apply preserves_modify. intros r [Hc Ht]. split; [done|]. intros n t'. simpl.
  rewrite d_get_set. destruct (String.eqb _ n); [|auto]. intros [= <-]. right. by exists d.
Qed.

Lemma register_sandboxed_grows r0 dirs d manifest :
  d ∈ dirs -> plugin_runtime_mode r0 = "sandboxed" -> manifest_cleared r0 d manifest ->
  preserves (grows r0 dirs)
    (register_sandboxed_plugin d manifest (capabilities (validate_plugin_manifest_capabilities manifest))).
Proof.
  intros Hd Es Hm. unfold register_sandboxed_plugin.
  destruct (stored_capabilities _ (mc_caps _ _ _ Hm)) as (Hne & Hg & Hsame).
  destruct (visible_words (map PStr _)) as [|c cs] eqn:Ew; [done|]. cbv zeta.
  destruct (get "tool" manifest) eqn:Etool; try apply preserves_raise. do 2 pass_guard.
  destruct (get "input_schema" _); try apply preserves_raise. do 2 pass_guard. clear Hne. unfold register.
  eapply set_tool_grows; [exact Hd|]. exists manifest. split; [done|]. rewrite Es. cbn [String.eqb Ascii.eqb eqb].
  constructor; simpl; try done; [by eexists|].
  eexists _, _. split; [reflexivity|]. split; [reflexivity|]. split; [reflexivity|]. split; [exact Hg | exact Hsame].
Qed.

Lemma load_plugin_grows r0 dirs d manifest st :
  d ∈ dirs -> manifest_cleared r0 d manifest ->
  preserves (grows r0 dirs)
    (load_plugin d manifest (validate_plugin_manifest_compat manifest (plugin_runtime_mode r0))
       (validate_plugin_manifest_capabilities manifest) st).
Proof.
  intros Hd Hm r Hr. unfold load_plugin, bind at 1, gets.
  assert (plugin_runtime_mode r = plugin_runtime_mode r0) as Emode by (destruct Hr as [Hc _]; unfold config in Hc; congruence).
  rewrite Emode. revert r Hr Emode.
  destruct (String.eqb_spec (plugin_runtime_mode r0) "sandboxed") as [Es|Es]; intros r Hr _.
  - eapply preserves_try; [|intros; apply record_event_grows | exact Hr].
    apply preserves_bind; [by apply register_sandboxed_grows | intros; apply record_event_grows].
  - assert (forall calls fault t, pd_module d manifest = Registers calls fault -> t ∈ calls -> preserves (grows r0 dirs) (register t)) as Hreg.
    { intros calls fault t Em Ht. eapply set_tool_grows; [exact Hd|]. exists manifest. split; [done|].
      rewrite (proj2 (String.eqb_neq _ _) Es). by exists calls, fault, t. }
    destruct (pd_module d manifest) as [| |calls fault]; [by apply record_event_grows| |];
      (eapply preserves_try; [|intros; apply record_event_grows | exact Hr]);
      (apply preserves_bind; [|intros; apply record_event_grows]); cbn [run_module].
    + apply preserves_raise.
    + apply preserves_bind; [apply triple_for_each; intros t Ht; by eapply Hreg|]. intros _. preserve.
Qed.

(** In strict mode only a signed manifest is allowed. *)
Lemma verify_strict r manifest st reason :
  plugin_signing_mode r = "strict" -> verify_manifest_signature hmac_sha256 r manifest = Ok (true, st, reason) ->
  exists key, plugin_signing_key r = Some key /\ signed key manifest.
Proof.
  intros Hmode. unfold verify_manifest_signature. rewrite Hmode. cbn [String.eqb Ascii.eqb eqb].
  change (String.eqb "strict" "off") with false. change (String.eqb "strict" "strict") with true. cbv iota zeta.
  destruct (plugin_signing_key r) as [key|]; [|done].
  destruct (get "signature" manifest) as [| | | |s| |] eqn:Es; try done.
  destruct (is_empty (strip s)); [done|]. unfold compare_digest. destruct (_ && _); [|done]. cbn [res_bind].
  destruct (String.eqb_spec (lower (strip s)) (hmac_sha256 key (canonical manifest))) as [E|]; [|done].
  intros _. exists key. split; [done|]. by exists s.
Qed.

Lemma verify_config r r0 manifest :
  config r = config r0 -> verify_manifest_signature hmac_sha256 r manifest = verify_manifest_signature hmac_sha256 r0 manifest.
Proof. intros [= H1 H2 _]. unfold verify_manifest_signature. by rewrite H1, H2. Qed.

Lemma discover_plugin_grows r0 dirs d :
  d ∈ dirs -> preserves (grows r0 dirs) (discover_plugin hmac_sha256 d).
Proof.
  intros Hd. unfold discover_plugin. destruct (pd_is_dir d) eqn:E1; cbn [negb]; [|apply preserves_ret].
  destruct (pd_manifest d) as [content|] eqn:E2; [|apply preserves_ret].
  destruct (pd_tool_is_file d) eqn:E3; cbn [negb]; [|apply preserves_ret].
  destruct content as [[| | | | | |manifest]|exc]; try apply record_event_grows.
  intros r Hr. unfold bind at 1, gets at 1.
  assert (plugin_runtime_mode r = plugin_runtime_mode r0) as -> by (destruct Hr as [Hc _]; unfold config in Hc; congruence).
  destruct (compat_ok _) eqn:E4; cbn [negb]; [|by apply record_event_grows].
  destruct (cap_ok _) eqn:E5; cbn [negb]; [|by apply record_event_grows].
  unfold bind at 1, gets at 1, bind at 1, lift. rewrite (verify_config r r0) by apply Hr.
  destruct (verify_manifest_signature hmac_sha256 r0 manifest) as [[[allowed st] reason]|e] eqn:E6; [|done].
  destruct allowed; cbn [negb]; [|by apply record_event_grows].
  apply load_plugin_grows; [done| |done]. constructor; try done. intros Hs. by eapply verify_strict.
Qed.

(** C10. Discovery adds only vetted tools.  Whatever the plugins directory
    holds, and even if discovery stops with an exception, each tool of the
    registry afterwards was there before or comes from a plugin of the directory
    whose own manifest passed the compatibility and capability checks; in strict
    signing mode that manifest carries the HMAC of its canonical form under the
    configured key.  In the sandboxed mode the tool is the one that manifest
    describes, a sandbox proxy limited to exactly the capabilities it declares;
    in the legacy mode it is one the plugin's module registered. *)
Theorem discovered_tools_vetted dirs r n t :
  d_get n (tools (snd (discover_plugins hmac_sha256 (Some dirs) r))) = Some t ->
  d_get n (tools r) = Some t \/ exists d, d ∈ dirs /\ vetted r d t.
Proof.
  assert (grows r dirs (snd (discover_plugins hmac_sha256 (Some dirs) r))) as [_ H]; [|apply H].
  unfold discover_plugins, modify, bind. apply preserves_run.
  - apply triple_for_each. intros d Hd%sort_by_elem. by apply discover_plugin_grows.
  - split; [done|]. auto.
Qed.

(** ** One event per plugin *)

Definition EVENT_STATUSES : list string := ["loaded"; "blocked"; "failed"; "skipped"].

(** An entry that discovery looks into. *)
Definition candidate (d : plugin_dir) : bool :=
  pd_is_dir d && match pd_manifest d with Some _ => true | None => false end && pd_tool_is_file d.

Definition event_for (d : plugin_dir) (e : plugin_event) : Prop :=
  ev_plugin e = pd_name d /\ ev_status e ∈ EVENT_STATUSES.

(** The one way discovery raises: comparing a signature that is not ASCII. *)
Record signature_not_ascii (r : registry) (d : plugin_dir) : Prop := {
  sn_mode : plugin_signing_mode r <> "off";
  sn_key : plugin_signing_key r <> None;
  sn_signature : exists manifest s, pd_manifest d = Some (Ok (PDict manifest))
    /\ get "signature" manifest = PStr s /\ ascii_only (lower (strip s)) = false }.

Lemma register_keeps_events E t : preserves (fun r => plugin_events r = E) (register t).
Proof. apply preserves_modify. by intros r. Qed.

Lemma register_sandboxed_keeps_events E d manifest caps :
  preserves (fun r => plugin_events r = E) (register_sandboxed_plugin d manifest caps).
Proof.
  unfold register_sandboxed_plugin. destruct (get "tool" manifest); try apply preserves_raise.
  cbv zeta. do 2 pass_guard. destruct (get "input_schema" _); try apply preserves_raise. do 2 pass_guard.
  apply register_keeps_events.
Qed.

Lemma run_module_keeps_events E m : preserves (fun r => plugin_events r = E) (run_module m).
Proof.
  destruct m as [e| |calls fault]; cbn [run_module]; [apply preserves_ret | apply preserves_raise|].
  apply preserves_bind; [apply preserves_for_each; intros; apply register_keeps_events|].
  intros _. destruct fault; [apply preserves_raise | apply preserves_ret].
Qed.

(** [m] followed by one event, or by another one when [m] raises. *)
Lemma logged_once (m : M registry unit) e1 (h : exn -> plugin_event) r :
  (forall E, preserves (fun r => plugin_events r = E) m) ->
  exists e r', try_except (m ;;; record_plugin_event e1) (fun exc => record_plugin_event (h exc)) r = (Ok tt, r')
    /\ plugin_events r' = plugin_events r ++ [e] /\ (e = e1 \/ exists exc, e = h exc).
Proof.
  intros Hm. specialize (Hm (plugin_events r) r eq_refl). unfold try_except, bind.
  destruct (m r) as [[[]|exc] r1]; unfold record_plugin_event, modify; eexists _, _; (split; [reflexivity|]);
    simpl; rewrite Hm; split; eauto.
Qed.

Lemma load_plugin_event d manifest compat cap st r :
  exists e r', load_plugin d manifest compat cap st r = (Ok tt, r')
    /\ plugin_events r' = plugin_events r ++ [e] /\ event_for d e.
Proof.
  unfold load_plugin. unfold bind at 1, gets.
  assert (forall reason, event_for d (failed_event (pd_name d) reason st (compat_reason compat) (cap_reason cap))) as Hf.
  { intros. split; [done|]. by apply str_in_spec. }
  assert (event_for d (loaded_event (pd_name d) st (compat_reason compat) (cap_reason cap))) as Hl.
  { split; [done|]. by apply str_in_spec. }
  destruct (String.eqb _ _).
  - edestruct (logged_once (register_sandboxed_plugin d manifest (capabilities cap))) as (e & r' & -> & He & Hd);
      [intros; apply register_sandboxed_keeps_events|].
    exists e, r'. split; [done|]. split; [done|]. by destruct Hd as [->|[exc ->]].
  - destruct (pd_module d manifest) as [exc|  |calls fault]; [by eexists _, _|..];
      (edestruct logged_once as (e & r' & -> & He & Hd); [intros; apply run_module_keeps_events|];
       exists e, r'; split; [done|]; split; [done|]; by destruct Hd as [->|[exc ->]]).
Qed.

Lemma verify_err r manifest e :
  (forall k t, ascii_only (hmac_sha256 k t) = true) ->
  verify_manifest_signature hmac_sha256 r manifest = Err e ->
  plugin_signing_mode r <> "off" /\ plugin_signing_key r <> None
  /\ exists s, get "signature" manifest = PStr s /\ ascii_only (lower (strip s)) = false.
Proof.
  intros Hh. unfold verify_manifest_signature. destruct (String.eqb_spec (plugin_signing_mode r) "off"); [done|].
  cbv zeta. destruct (plugin_signing_key r) as [key|]; [|by repeat case_match].
  destruct (get "signature" manifest) as [| | | |s| |]; try by destruct (String.eqb _ _).
  destruct (is_empty (strip s)); [by destruct (String.eqb _ _)|]. unfold compare_digest.
  rewrite Hh, andb_true_r. destruct (ascii_only (lower (strip s))) eqn:E; cbn [res_bind].
  - by repeat case_match.
  - intros _. split; [done|]. split; [done|]. by exists s.
Qed.

Lemma discover_plugin_event r0 d r :
  (forall k t, ascii_only (hmac_sha256 k t) = true) -> config r = config r0 ->
  match discover_plugin hmac_sha256 d r with
  | (Ok _, r') => exists es, plugin_events r' = plugin_events r ++ es
                   /\ if candidate d then exists e, es = [e] /\ event_for d e else es = []
  | (Err _, r') => signature_not_ascii r0 d
  end.
Proof.
  intros Hh Hc. unfold discover_plugin, candidate.
  assert (forall e, event_for d e -> exists es, plugin_events (snd (record_plugin_event e r)) = plugin_events r ++ es
            /\ exists e, es = [e] /\ event_for d e) as Hrec.
  { intros e He. exists [e]. split; [done|]. by exists e. }
  destruct (pd_is_dir d); cbn [negb andb]; [|by exists []; rewrite app_nil_r].
  destruct (pd_manifest d) as [content|] eqn:Em; cbn [negb andb]; [|by exists []; rewrite app_nil_r].
  destruct (pd_tool_is_file d); cbn [negb]; [|by exists []; rewrite app_nil_r].
  destruct content as [[| | | | | |manifest]|exc]; try (apply Hrec; split; [done | by apply str_in_spec]).
  unfold bind at 1, gets at 1. destruct (compat_ok _) eqn:E4; cbn [negb];
    [|apply Hrec; split; [done | by apply str_in_spec]].
  destruct (cap_ok _) eqn:E5; cbn [negb]; [|apply Hrec; split; [done | by apply str_in_spec]].
  unfold bind at 1, gets at 1, bind at 1, lift.
  destruct (verify_manifest_signature hmac_sha256 r manifest) as [[[allowed st] reason]|e] eqn:E6.
  - destruct allowed; cbn [negb]; [|apply Hrec; split; [done | by apply str_in_spec]].
    destruct (load_plugin_event d manifest (validate_plugin_manifest_compat manifest (plugin_runtime_mode r))
                (validate_plugin_manifest_capabilities manifest) st r) as (e & r' & -> & He & Hd).
    exists [e]. split; [done|]. by exists e.
  - rewrite (verify_config r r0) in E6 by done. apply verify_err in E6 as (H1 & H2 & s & Hs & Ha); [|done].
    constructor; try done. by exists manifest, s.
Qed.

Lemma discover_loop r0 dirs r :
  (forall k t, ascii_only (hmac_sha256 k t) = true) -> config r = config r0 ->
  match for_each dirs (discover_plugin hmac_sha256) r with
  | (Ok _, r') => exists es, plugin_events r' = plugin_events r ++ es
                    /\ Forall2 event_for (List.filter candidate dirs) es
  | (Err _, r') => exists d, d ∈ dirs /\ signature_not_ascii r0 d
  end.
Proof.
  intros Hh. revert r. induction dirs as [|d dirs IH]; intros r Hc; cbn [for_each List.filter].
  - exists []. rewrite app_nil_r. split; [done | constructor].
  - unfold bind at 1. pose proof (discover_plugin_event r0 d r Hh Hc) as H.
    assert (config (snd (discover_plugin hmac_sha256 d r)) = config r) as Hc'.
    { assert (grows r [d] (snd (discover_plugin hmac_sha256 d r))) as [Hx _]; [|exact Hx].
      apply preserves_run; [apply discover_plugin_grows; left|]. split; [done | auto]. }
    destruct (discover_plugin hmac_sha256 d r) as [[[]|e] r1]; [|exists d; split; [left | done]].
    simpl in Hc'. specialize (IH r1 ltac:(congruence)). destruct H as (es1 & E1 & H1).
    destruct (for_each dirs _ r1) as [[[]|e] r2].
    + destruct IH as (es & E2 & H2). exists (es1 ++ es). rewrite E2, E1, app_assoc. split; [done|].
      destruct (candidate d); [|by subst es1]. destruct H1 as (e & -> & He). by constructor.
    + destruct IH as (d' & Hd' & Hs). exists d'. split; [by right | done].
Qed.

(** Discovery answers for every plugin: it ends with exactly one event
    for each directory that has a manifest and a tool, in the order of their
    names and each loaded, blocked, failed or skipped, unless a manifest
    carries a signature with a character outside ASCII while signatures are
    compared, the only case in which it raises. *)
Theorem discovery_accounts_for_all dirs r :
  (forall k t, ascii_only (hmac_sha256 k t) = true) ->
  match discover_plugins hmac_sha256 (Some dirs) r with
  | (Ok _, r') => Forall2 event_for
      (List.filter candidate (sort_by (fun a b => String.leb (pd_name a) (pd_name b)) dirs)) (plugin_events r')
  | (Err _, _) => exists d, d ∈ dirs /\ signature_not_ascii r d
  end.
Proof.
  intros Hh. unfold discover_plugins, modify, bind at 1.
  set (r1 := Registry _ _ _ _ _). set (sorted := sort_by _ _).
  pose proof (discover_loop r sorted r1 Hh eq_refl) as H.
  destruct (for_each sorted _ r1) as [[[]|e] r2].
  - destruct H as (es & -> & H). exact H.
  - destruct H as (d & Hd%sort_by_elem & Hs). by exists d.
Qed.
End discovery.

(** ** Keys *)

(** Every tool is registered under its own name. *)
Definition well_keyed (r : registry) : Prop := forall n t, d_get n (tools r) = Some t -> t_name t = n.

Lemma register_keyed t : preserves well_keyed (register t).
Proof.
  apply preserves_modify. intros r Hr n t'. simpl. rewrite d_get_set.
  destruct (String.eqb_spec (t_name t) n) as [<-|]; [by intros [= <-] | apply Hr].
Qed.

Lemma record_event_keyed e : preserves well_keyed (record_plugin_event e).
Proof. apply preserves_modify. by intros r. Qed.

Lemma load_plugin_keyed d manifest compat cap st : preserves well_keyed (load_plugin d manifest compat cap st).
Proof.
  unfold load_plugin. apply preserves_bind; [apply preserves_gets|]. intros runtime. cbv zeta.
  assert (forall (m : M registry unit) e h, preserves well_keyed m ->
            preserves well_keyed (try_except (m ;;; record_plugin_event e) (fun exc => record_plugin_event (h exc)))) as Hlog.
  { intros m e h Hm. apply preserves_try; [|intros; apply record_event_keyed].
    apply preserves_bind; [done | intros; apply record_event_keyed]. }
  destruct (String.eqb runtime "sandboxed").
  - apply (Hlog (register_sandboxed_plugin d manifest (capabilities cap))). unfold register_sandboxed_plugin.
    destruct (get "tool" manifest); try apply preserves_raise. cbv zeta. do 2 pass_guard.
    destruct (get "input_schema" _); try apply preserves_raise. do 2 pass_guard. apply register_keyed.
  - destruct (pd_module d manifest) as [e| |calls fault]; [apply record_event_keyed|..];
      match goal with |- preserves _ (try_except (run_module ?m ;;; _) _) => apply (Hlog (run_module m)) end; cbn [run_module].
    + apply preserves_raise.
    + apply preserves_bind; [apply preserves_for_each; intros; apply register_keyed|].
      intros _. destruct fault; [apply preserves_raise | apply preserves_ret].
Qed.

Lemma discover_keyed hmac dirs : preserves well_keyed (discover_plugins hmac dirs).
Proof.
  unfold discover_plugins. apply preserves_bind; [by apply preserves_modify|]. intros _.
  destruct dirs as [entries|]; [|apply preserves_ret]. apply preserves_for_each. intros d.
  unfold discover_plugin. destruct (negb (pd_is_dir d)); [apply preserves_ret|].
  destruct (pd_manifest d) as [content|]; [|apply preserves_ret].
  destruct (negb (pd_tool_is_file d)); [apply preserves_ret|].
  destruct content as [[| | | | | |manifest]|exc]; try apply record_event_keyed.
  apply preserves_bind; [apply preserves_gets|]. intros runtime. cbv zeta.
  apply preserves_if; [apply record_event_keyed|]. apply preserves_if; [apply record_event_keyed|].
  apply preserves_bind; [apply preserves_gets|]. intros r. apply preserves_bind; [apply preserves_lift|].
  intros [[allowed st] reason]. apply preserves_if; [apply record_event_keyed | apply load_plugin_keyed].
Qed.

(** ** Witnesses *)

Local Abbreviation demo_manifest signature :=
 ([("name", PStr "notes"); ("version", PStr "1.0");
   ("compat", PDict [("manifest_version", PStr "v1"); ("tool_registry_api", PStr "v1");
                     ("runtime_modes", PList [PStr "sandboxed"])]);
   ("capabilities", PList [PStr " Filesystem_Read "]);
   ("tool", PDict [("name", PStr "take_note"); ("description", PStr "Keep a note.");
                   ("input_schema", PDict [])]);
   ("signature", PStr signature)]).
Local Abbreviation demo_dir signature :=
 (PluginDir "notes" true (Some (Ok (PDict (demo_manifest signature)))) true "/p/notes" "/p/notes/tool.py"
    (fun _ => NoEntryPoint)).
Local Abbreviation demo_hmac := (fun _ _ : string => "abc123").
Local Abbreviation demo_registry := (ToolRegistry.init (Some "key") "strict" "sandboxed").

Lemma discovered_tools_vetted_witness :
  exists t, d_get "take_note" (tools (snd (discover_plugins demo_hmac (Some [demo_dir " ABC123 "]) demo_registry))) = Some t
    /\ (d_get "take_note" (tools demo_registry) = Some t
        \/ exists d, d ∈ [demo_dir " ABC123 "] /\ vetted demo_hmac demo_registry d t).
Proof.
  destruct (d_get "take_note" (tools (snd (discover_plugins demo_hmac (Some [demo_dir " ABC123 "]) demo_registry))))
    as [t|] eqn:E.
  - exists t. split; [reflexivity|]. exact (discovered_tools_vetted demo_hmac _ _ _ _ E).
  - assert (match d_get "take_note" (tools (snd (discover_plugins demo_hmac (Some [demo_dir " ABC123 "]) demo_registry)))
            with Some _ => true | None => false end = true) as H by (vm_compute; reflexivity).
    rewrite E in H. discriminate H.
Defined.

Lemma discovery_accounts_for_all_witness :
  (forall k t : string, ascii_only (demo_hmac k t) = true)
  /\ match discover_plugins demo_hmac (Some [demo_dir "abc123"]) demo_registry with
     | (Ok _, r') => Forall2 event_for
         (List.filter candidate (sort_by (fun a b => String.leb (pd_name a) (pd_name b)) [demo_dir "abc123"]))
         (plugin_events r')
     | (Err _, _) => exists d, d ∈ [demo_dir "abc123"] /\ signature_not_ascii demo_registry d
     end.
Proof.
  assert (forall k t : string, ascii_only (demo_hmac k t) = true) as H by (intros; reflexivity).
  split; [exact H|]. exact (discovery_accounts_for_all demo_hmac [demo_dir "abc123"] demo_registry H).
Defined.

(** A plugin can stop the whole discovery: a manifest whose signature has
    one character outside ASCII makes [discover_plugins] raise, in warn mode
    too, and a correctly signed plugin after it is not loaded. *)
Theorem foreign_signature_aborts_discovery :
  let bad := PluginDir "a-notes" true (Some (Ok (PDict (demo_manifest (String (ascii_of_N 233) "")))))
               true "/p/a-notes" "/p/a-notes/tool.py" (fun _ => NoEntryPoint) in
  let '(result, r) := discover_plugins demo_hmac (Some [bad; demo_dir "abc123"])
                        (ToolRegistry.init (Some "key") "warn" "sandboxed") in
  result = Err (TypeError "comparing strings with non-ASCII characters is not supported")
  /\ tools r = [] /\ plugin_events r = [].
Proof. vm_compute. auto. Qed.

End ToolRegistryFacts.
