(* ===== verification/IsolationPolicy.v ===== *)
(** The isolation policy of tools (tools/policy.py, [ToolIsolationPolicy]):
    block lists, risk tiers by profile, plugin capabilities, the scan of the
    arguments for unsafe deserialization, the limits of the built-in tools and
    the approval a call needs. *)

From stdpp Require Import prelude strings list.
From Stdlib Require Import Lia ZArith Ascii.
From S2P Require Import Prelude PyStr PyVal PyRegex PluginPolicy ToolRegistry.

Module IsolationPolicy.
Import PluginPolicy ToolRegistry.

Definition MAX_DESERIALIZATION_SCAN_VALUES : Z := 200.
Definition MAX_DESERIALIZATION_SCAN_TEXT_CHARS : Z := 4000.

(** [\bowner\s*\.\s*name\s*\(] and its variants, ignoring case *)
Definition dotted (owner : string) (name : regex) : list regex :=
  [RWordBoundary; RTextI owner; RSpaces; RText "."; RSpaces; name].
Definition call_pattern (owner : string) (name : regex) : regex :=
  RSeq (dotted owner name ++ [RSpaces; RText "("]).
Definition load_or_loads : regex := RCat (RTextI "load") (ROpt (RTextI "s")).

Definition python_tags : regex :=
  RAlts [RTextI "object"; RTextI "object/new"; RTextI "name"; RTextI "module"].

Definition UNSAFE_DESERIALIZATION_PATTERNS : list (string * regex) :=
  [("pickle_load", call_pattern "pickle" load_or_loads);
   ("pickle_unpickler", call_pattern "pickle" (RTextI "Unpickler"));
   ("cpickle_load", call_pattern "cpickle" load_or_loads);
   ("cloudpickle_load", call_pattern "cloudpickle" load_or_loads);
   ("dill_load", call_pattern "dill" load_or_loads);
   ("marshal_load", call_pattern "marshal" load_or_loads);
   ("yaml_load", call_pattern "yaml" (RTextI "load"));
   ("yaml_full_load", call_pattern "yaml" (RTextI "full_load"));
   ("yaml_unsafe_load", call_pattern "yaml" (RTextI "unsafe_load"));
   ("yaml_unsafe_loader",
      RSeq [RWordBoundary; RTextI "Loader"; RSpaces; RText "="; RSpaces; RTextI "yaml"; RSpaces; RText ".";
            RSpaces; RAlt (RTextI "Loader") (RTextI "UnsafeLoader"); RWordBoundary]);
   ("yaml_python_tag",
      RAlt (RCat (RTextI "!!python/") python_tags) (RCat (RTextI "tag:yaml.org,2002:python/") python_tags));
   ("numpy_allow_pickle",
      RSeq (dotted "numpy" (RTextI "load")
            ++ [RSpaces; RText "("; RStar (RChar (fun c => negb (Ascii.eqb c ")"))); RTextI "allow_pickle";
                RSpaces; RText "="; RSpaces; RTextI "true"]));
   ("torch_load", call_pattern "torch" (RTextI "load"));
   ("joblib_load", call_pattern "joblib" (RTextI "load"));
   ("pandas_read_pickle", call_pattern "pandas" (RTextI "read_pickle"));
   ("pd_read_pickle", call_pattern "pd" (RTextI "read_pickle"));
   ("jsonpickle_decode", call_pattern "jsonpickle" (RTextI "decode"))].

Record ToolDecision : Type := Decide {
  allow : bool;
  requires_approval : bool;
  reason : option string;
  approval_scope : option string;
  approval_ttl_sec : option Z }.

(** The sets are lists that are only tested for membership, and sorted
    without duplicates by [describe]. *)
Record policy : Type := Policy {
  blocked_tools : list string;
  profile : string;
  allowed_high_risk_tools : list string;
  python_exec_max_timeout_sec : Z;
  python_exec_max_code_chars : Z;
  filesystem_allow_write : bool;
  allowed_plugin_capabilities : list string;
  blocked_plugin_capabilities : list string }.

Definition visible_items (l : option (list string)) : list string :=
  map strip (List.filter (fun i => negb (is_empty (strip i))) (default [] l)).

Definition supported_only (l : list string) : list string :=
  List.filter (fun i => str_in i supported_plugin_capabilities) (map (fun i => lower (strip i)) l).

(** The constructor *)
Definition make (blocked : option (list string)) (profile : string) (allowed_high_risk : option (list string))
    (max_timeout max_code_chars : Z) (allow_write : bool)
    (allowed_caps blocked_caps : option (list string)) : policy :=
  let normalized_profile := lower (strip (str_or profile "balanced")) in
  Policy (visible_items blocked)
    (if str_in normalized_profile ["balanced"; "strict"] then normalized_profile else "balanced")
    (visible_items allowed_high_risk)
    (Z.max 1 max_timeout) (Z.max 100 max_code_chars) allow_write
    (supported_only (match allowed_caps with Some l => l | None => default_allowed_plugin_capabilities end))
    (supported_only (default [] blocked_caps)).

(** [_iter_candidate_string_values]: breadth first over the nested values.
    One unit of fuel pops one value; [None] is out of fuel. *)
Fixpoint scan_loop (fuel : nat) (queue : list pyval) (values : list string) : option (list string) :=
  match queue with
  | [] => Some values
  | current :: queue' =>
      if negb (Z.of_nat (length values) <? MAX_DESERIALIZATION_SCAN_VALUES) then Some values
      else match fuel with
      | O => None
      | S fuel' =>
          match current with
          | PStr s =>
              let normalized := strip s in
              scan_loop fuel' queue'
                (if is_empty normalized then values
                 else values ++ [String.substring 0 (Z.to_nat MAX_DESERIALIZATION_SCAN_TEXT_CHARS) normalized])
          | PDict d => scan_loop fuel' (queue' ++ d_values d) values
          | PList l => scan_loop fuel' (queue' ++ l) values
          | _ => scan_loop fuel' queue' values
          end
      end
  end.

(** The number of values nested in a value, itself included. *)
Fixpoint size (v : pyval) : nat :=
  match v with
  | PList l => S (list_sum (map size l))
  | PDict d => S (list_sum (map (fun kv => size (snd kv)) d))
  | _ => 1
  end.

Definition iter_candidate_string_values (payload : pyval) : list string :=
  default [] (scan_loop (size payload) [payload] []).

(** [_unsafe_deserialization_match] *)
Definition first_pattern (value : string) : option string :=
  fst <$> List.find (fun e => search (snd e) value) UNSAFE_DESERIALIZATION_PATTERNS.

Fixpoint first_match (values : list string) : option string :=
  match values with
  | [] => None
  | v :: values' => match first_pattern v with Some id => Some id | None => first_match values' end
  end.

Definition unsafe_deserialization_match (arguments : pydict) : option string :=
  first_match (iter_candidate_string_values (PDict arguments)).

(** [_evaluate_plugin_capabilities] *)
Definition evaluate_plugin_capabilities (p : policy) (t : ToolDefinition) : bool * bool * option string :=
  if negb (starts_with "plugin:" (t_source t)) then (true, false, None)
  else
    let target := default [] (t_execution_target t) in
    let missing := (false, false,
      Some ("Plugin tool '" +:+ t_name t +:+ "' is missing declared capabilities.")) in
    match get "capabilities" target with
    | PList (item :: items) =>
        let capabilities := sorted_set (visible_words (item :: items)) in
        match capabilities with
        | [] => missing
        | _ =>
            match List.filter (fun c => negb (str_in c supported_plugin_capabilities)) capabilities with
            | x :: unknown => (false, false,
                Some ("Plugin tool '" +:+ t_name t +:+ "' declares unsupported capabilities: "
                      +:+ join ", " (x :: unknown)))
            | [] =>
                match List.filter (fun c => str_in c (blocked_plugin_capabilities p)) capabilities with
                | x :: blocked => (false, false,
                    Some ("Plugin tool '" +:+ t_name t +:+ "' declares blocked capabilities: "
                          +:+ join ", " (x :: blocked)))
                | [] =>
                    match List.filter (fun c => negb (str_in c (allowed_plugin_capabilities p))) capabilities with
                    | x :: disallowed => (false, false,
                        Some ("Plugin tool '" +:+ t_name t +:+ "' capabilities are not allowed by policy: "
                              +:+ join ", " (x :: disallowed)))
                    | [] =>
                        if str_in "filesystem_write" capabilities && negb (filesystem_allow_write p)
                        then (false, false, Some "Plugin filesystem write is disabled by isolation policy.")
                        else (true, existsb (fun c => str_in c plugin_capabilities_requiring_approval) capabilities,
                              None)
                    end
                end
            end
        end
    | _ => missing
    end.

Definition blocked (reason : string) : ToolDecision := Decide false false (Some reason) None None.

Definition normalize_risk (t : ToolDefinition) : string :=
  let normalized := lower (strip (str_or (t_risk_level t) "low")) in
  if str_in normalized ["low"; "medium"; "high"; "critical"] then normalized else "medium".

Definition argument_action (arguments : pydict) : string :=
  lower (strip (py_str (get_or "action" (PStr "") arguments))).

Definition is_tool (t : ToolDefinition) (name : string) : bool := String.eqb (lower (strip (t_name t))) name.

Definition high_or_critical (risk : string) : bool := str_in risk ["high"; "critical"].

(** The limits of [python_exec]; [Some] is a refusal. *)
Definition python_exec_refusal (p : policy) (arguments : pydict) : option string :=
  let code := py_str (get_or "code" (PStr "") arguments) in
  if python_exec_max_code_chars p <? str_len code then
    Some ("python_exec code size exceeds limit (" +:+ str_of_Z (str_len code) +:+ " > "
          +:+ str_of_Z (python_exec_max_code_chars p) +:+ ").")
  else
    let timeout := match py_int (get_or "timeout" (PInt 8) arguments) with Ok z => z | Err _ => 8 end in
    if python_exec_max_timeout_sec p <? timeout then
      Some ("python_exec timeout exceeds limit (" +:+ str_of_Z timeout +:+ "s > "
            +:+ str_of_Z (python_exec_max_timeout_sec p) +:+ "s).")
    else None.

(** The steps of [evaluate] that refuse a call: [Err] with the refusal, or
    whether the plugin's capabilities ask for approval. *)
Definition refusal (p : policy) (t : ToolDefinition) (arguments : pydict) : bool + string :=
  let risk := normalize_risk t in
  if str_in (t_name t) (blocked_tools p) then inr "Tool is blocked by policy."
  else if String.eqb (profile p) "balanced" && String.eqb risk "critical"
          && negb (str_in (t_name t) (allowed_high_risk_tools p)) then
    inr ("Tool '" +:+ t_name t +:+ "' is critical-risk and blocked in balanced isolation profile. "
         +:+ "Allow explicitly via policy config.")
  else if String.eqb (profile p) "strict" && high_or_critical risk
          && negb (str_in (t_name t) (allowed_high_risk_tools p)) then
    inr ("Tool '" +:+ t_name t +:+ "' is high-risk and blocked in strict isolation profile. "
         +:+ "Allow explicitly via policy config.")
  else
    let '(plugin_allowed, plugin_requires_approval, plugin_reason) := evaluate_plugin_capabilities p t in
    if negb plugin_allowed then
      inr (str_or (opt_str plugin_reason) "Plugin capability policy blocked tool.")
    else match unsafe_deserialization_match arguments with
    | Some id => inr ("Unsafe deserialization pattern '" +:+ id +:+ "' is blocked by isolation policy.")
    | None =>
        match (if is_tool t "python_exec" then python_exec_refusal p arguments else None) with
        | Some why => inr why
        | None =>
            if is_tool t "filesystem" && String.eqb (argument_action arguments) "write"
               && negb (filesystem_allow_write p)
            then inr "filesystem write is disabled by isolation policy."
            else inl plugin_requires_approval
        end
    end.

(** The approval an allowed call needs. *)
Definition approval_needed (p : policy) (t : ToolDefinition) (arguments : pydict) (plugin_requires : bool) : bool :=
  let risk := normalize_risk t in
  let by_mode :=
    if String.eqb (t_approval_mode t) "required" then true
    else if String.eqb (t_approval_mode t) "conditional" then
      match t_approval_predicate t with
      | Some f => match f arguments with Ok v => truthy v | Err _ => true end
      | None => plugin_requires
      end
    else plugin_requires in
  by_mode || high_or_critical risk
  || (String.eqb (profile p) "strict" && str_in risk ["medium"; "high"; "critical"])
  || (String.eqb (profile p) "strict" && is_tool t "filesystem" && String.eqb (argument_action arguments) "write").

(** The scope and the lifetime of that approval: later rules override. *)
Definition approval_terms (t : ToolDefinition) (arguments : pydict) : string * Z :=
  let terms := if high_or_critical (normalize_risk t) then ("session", 600) else ("request", 300) in
  let terms := if is_tool t "filesystem" && String.eqb (argument_action arguments) "write"
               then ("session", 300) else terms in
  if is_tool t "python_exec" then ("request", 180) else terms.

Definition evaluate (p : policy) (t : ToolDefinition) (arguments : pydict) : ToolDecision :=
  match refusal p t arguments with
  | inr why => blocked why
  | inl plugin_requires =>
      if approval_needed p t arguments plugin_requires then
        let '(scope, ttl) := approval_terms t arguments in Decide true true None (Some scope) (Some ttl)
      else Decide true false None None None
  end.

(** [describe] *)
Definition TIER_RULES : dict (dict string) :=
  [("low", [("balanced", "allow"); ("strict", "allow")]);
   ("medium", [("balanced", "allow"); ("strict", "allow_with_approval")]);
   ("high", [("balanced", "allow_with_approval"); ("strict", "blocked_unless_allowlist")]);
   ("critical", [("balanced", "blocked_unless_allowlist"); ("strict", "blocked_unless_allowlist")])].

Definition describe (p : policy) : pydict :=
  [("profile", PStr (profile p));
   ("tier_rules", PDict (map (fun e => (fst e, PDict (map (fun r => (fst r, PStr (snd r))) (snd e)))) TIER_RULES));
   ("blocked_tools", PList (map PStr (sorted_set (blocked_tools p))));
   ("allowed_high_risk_tools", PList (map PStr (sorted_set (allowed_high_risk_tools p))));
   ("python_exec_limits", PDict [("max_timeout_sec", PInt (python_exec_max_timeout_sec p));
                                 ("max_code_chars", PInt (python_exec_max_code_chars p))]);
   ("filesystem_allow_write", PBool (filesystem_allow_write p));
   ("plugin_capabilities",
      PDict [("allowed", PList (map PStr (sorted_set (allowed_plugin_capabilities p))));
             ("blocked", PList (map PStr (sorted_set (blocked_plugin_capabilities p))));
             ("policy", PDict plugin_capability_policy_snapshot)]);
   ("unsafe_deserialization_denylist", PList (map (fun e => PStr (fst e)) UNSAFE_DESERIALIZATION_PATTERNS))].

End IsolationPolicy.
