(* ===== verification/IsolationFacts.v ===== *)
(** Facts about the isolation policy: the scan of the arguments is complete up
    to its bounds, what an allowed call satisfies, and the agreement of the
    decisions with the table [describe] publishes. *)

From stdpp Require Import prelude strings list.
From Stdlib Require Import Lia ZArith Ascii.
From S2P Require Import Prelude PyStr PyVal PyRegex PluginPolicy ToolRegistry IsolationPolicy.
Import PluginPolicy ToolRegistry IsolationPolicy.

Module IsolationFacts.

(** ** The scan *)

(** What the scan reads of a string: stripped, and cut at the limit. *)
Definition scanned (s : string) : string :=
  String.substring 0 (Z.to_nat MAX_DESERIALIZATION_SCAN_TEXT_CHARS) (strip s).

(** The texts nested in a value that are not blank, as the scan reads them. *)
Fixpoint texts (v : pyval) : list string :=
  match v with
  | PStr s => if is_empty (strip s) then [] else [scanned s]
  | PList l => concat (map texts l)
  | PDict d => concat (map (fun kv => texts (snd kv)) d)
  | _ => []
  end.

Definition queue_size (q : list pyval) : nat := list_sum (map size q).
Definition queue_texts (q : list pyval) : list string := concat (map texts q).

Lemma queue_size_app q k : queue_size (q ++ k) = (queue_size q + queue_size k)%nat.
Proof. unfold queue_size. by rewrite map_app, list_sum_app. Qed.

Lemma queue_texts_app q k : queue_texts (q ++ k) = queue_texts q ++ queue_texts k.
Proof. unfold queue_texts. by rewrite map_app, concat_app. Qed.

Lemma dict_size d : size (PDict d) = S (queue_size (d_values d)).
Proof. unfold queue_size, d_values. change (d.*2) with (map snd d). by rewrite map_map. Qed.

Lemma dict_texts d : texts (PDict d) = queue_texts (d_values d).
Proof. unfold queue_texts, d_values. change (d.*2) with (map snd d). by rewrite map_map. Qed.

Lemma size_pos v : (1 <= size v)%nat.
Proof. destruct v; simpl; lia. Qed.

(** Every value is popped at most once, so the loop ends. *)
Lemma scan_loop_total fuel q vs : (queue_size q <= fuel)%nat -> exists vs', scan_loop fuel q vs = Some vs'.
Proof.
  revert q vs. induction fuel as [|f IH]; intros [|v q] vs Hf; cbn [scan_loop]; try by eexists.
  - unfold queue_size in Hf. simpl in Hf. pose proof (size_pos v). lia.
  - destruct (_ <? _); cbn [negb]; [|by eexists]. change (queue_size (v :: q)) with (size v + queue_size q)%nat in Hf.
    destruct v; try (apply IH; simpl in Hf; lia).
    + apply IH. rewrite queue_size_app. cbn [size] in Hf. unfold queue_size at 2. lia.
    + apply IH. rewrite queue_size_app. rewrite dict_size in Hf. lia.
Qed.

(** The loop reads texts of the queue, all of them unless it stops at the
    bound on their number. *)
Lemma scan_loop_reads fuel q vs vs' :
  scan_loop fuel q vs = Some vs' -> Z.of_nat (length vs) <= MAX_DESERIALIZATION_SCAN_VALUES ->
  exists seen rest, vs' = vs ++ seen /\ seen ++ rest ≡ₚ queue_texts q
    /\ (rest <> [] -> Z.of_nat (length vs') = MAX_DESERIALIZATION_SCAN_VALUES).
Proof.
  assert (forall q vs, Z.of_nat (length vs) <= MAX_DESERIALIZATION_SCAN_VALUES ->
    (Z.of_nat (length vs) <? MAX_DESERIALIZATION_SCAN_VALUES) = false ->
    exists seen rest, vs = vs ++ seen /\ seen ++ rest ≡ₚ queue_texts q
      /\ (rest <> [] -> Z.of_nat (length vs) = MAX_DESERIALIZATION_SCAN_VALUES)) as Hstop.
  { intros k ws Hle Hlt. exists [], (queue_texts k). rewrite app_nil_r. split_and!; [done..|]. intros _. lia. }
  revert q vs. induction fuel as [|f IH]; intros [|v q] vs; cbn [scan_loop].
  - intros [= <-] _. exists [], []. by rewrite app_nil_r.
  - destruct (Z.of_nat (length vs) <? _) eqn:E; cbn [negb]; [done|]. intros [= <-] Hle. by apply Hstop.
  - intros [= <-] _. exists [], []. by rewrite app_nil_r.
  - destruct (Z.of_nat (length vs) <? _) eqn:E; cbn [negb]; [|intros [= <-] Hle; by apply Hstop].
    change (queue_texts (v :: q)) with (texts v ++ queue_texts q). intros H Hle.
    destruct v as [|b|z|fl|s|l|d]; try by apply IH in H.
    + cbn [texts] in *. fold (scanned s) in H. destruct (is_empty (strip s)); [by apply IH in H|].
      apply IH in H as (seen & rest & -> & Hp & Hr); [|rewrite length_app; cbn [length]; lia].
      exists (scanned s :: seen), rest. rewrite <- app_assoc in Hr |- *. split_and!; [done|by cbn; rewrite Hp|done].
    + apply IH in H as (seen & rest & -> & Hp & Hr); [|done]. exists seen, rest. split_and!; [done| |done].
      rewrite Hp, queue_texts_app. cbn [texts]. unfold queue_texts at 2. by rewrite (Permutation_app_comm (concat _)).
    + apply IH in H as (seen & rest & -> & Hp & Hr); [|done]. exists seen, rest. split_and!; [done| |done].
      by rewrite dict_texts, Hp, queue_texts_app, (Permutation_app_comm (queue_texts (d_values d))).
Qed.

Lemma first_match_none values :
  first_match values = None ->
  forall v id r, v ∈ values -> (id, r) ∈ UNSAFE_DESERIALIZATION_PATTERNS -> ~ occurs r v.
Proof.
  induction values as [|x values IH]; cbn [first_match]; [by intros _ v id r ?%elem_of_nil|].
  unfold first_pattern. destruct (List.find _ _) as [e|] eqn:E; [done|]. cbn [fmap option_fmap option_map].
  intros H v id r [->|Hv]%elem_of_cons Hr; [|by eapply IH]. rewrite <- search_spec.
  apply list_elem_of_In in Hr. pose proof (find_none _ _ E _ Hr) as Hf. cbn [snd] in Hf. by rewrite Hf.
Qed.

(** None of the texts that the scan reads holds an unsafe pattern; it reads
    all texts of the payload, or as many as its bound allows. *)
Definition texts_cleared (arguments : pydict) : Prop :=
  exists seen rest, seen ++ rest ≡ₚ texts (PDict arguments)
    /\ (rest <> [] -> Z.of_nat (length seen) = MAX_DESERIALIZATION_SCAN_VALUES)
    /\ forall v id r, v ∈ seen -> (id, r) ∈ UNSAFE_DESERIALIZATION_PATTERNS -> ~ occurs r v.

Lemma scan_complete arguments : unsafe_deserialization_match arguments = None -> texts_cleared arguments.
Proof.
  intros H. unfold unsafe_deserialization_match, iter_candidate_string_values in H.
  destruct (scan_loop_total (size (PDict arguments)) [PDict arguments] []) as [vs Evs].
  { unfold queue_size. cbn [map list_sum fold_right]. lia. }
  rewrite Evs in H. destruct (scan_loop_reads _ _ _ _ Evs) as (seen & rest & -> & Hp & Hr); [done|].
  assert (queue_texts [PDict arguments] = texts (PDict arguments)) as Eq by (unfold queue_texts; cbn [map concat]; apply app_nil_r).
  rewrite Eq in Hp. exists seen, rest. split; [done|]. split; [done|]. by apply first_match_none.
Qed.

(** ** What an allowed call satisfies *)

(** The capabilities a plugin tool declares. *)
Definition declared (t : ToolDefinition) : list string :=
  visible_words (as_list (get "capabilities" (default [] (t_execution_target t)))).

Definition from_plugin (t : ToolDefinition) : bool := starts_with "plugin:" (t_source t).

Record plugin_cleared (p : policy) (t : ToolDefinition) : Prop := {
  pc_some : declared t <> [];
  pc_known : forall c, c ∈ declared t -> c ∈ supported_plugin_capabilities;
  pc_allowed : forall c, c ∈ declared t -> c ∈ allowed_plugin_capabilities p /\ c ∉ blocked_plugin_capabilities p;
  pc_write : "filesystem_write" ∈ declared t -> filesystem_allow_write p = true }.

Lemma plugin_allowed p t b why :
  evaluate_plugin_capabilities p t = (true, b, why) ->
  from_plugin t = true ->
  plugin_cleared p t
  /\ (b = true <-> exists c, c ∈ declared t /\ c ∈ plugin_capabilities_requiring_approval).
Proof.
  unfold evaluate_plugin_capabilities. fold (from_plugin t). intros H Hp. rewrite Hp in H. cbn [negb] in H.
  cbv zeta in H. destruct (get "capabilities" _) as [| | | | |[|i l]|] eqn:Eget; try done.
  assert (declared t = visible_words (i :: l)) as Ed by (unfold declared; by rewrite Eget).
  pose proof (fun x => sorted_set_elem x (visible_words (i :: l))) as Hs.
  destruct (sorted_set (visible_words (i :: l))) as [|c0 cs] eqn:Es; [done|]. rewrite <- Es in H.
  destruct (List.filter _ (sorted_set _)) as [|? ?] eqn:E1 in H; [|done].
  destruct (List.filter _ (sorted_set _)) as [|? ?] eqn:E2 in H; [|done].
  destruct (List.filter _ (sorted_set _)) as [|? ?] eqn:E3 in H; [|done].
  destruct (str_in "filesystem_write" _ && _) eqn:E4 in H; [done|]. injection H as Hb _.
  apply filter_nil_Forall in E1, E2, E3. rewrite Forall_forall in E1, E2, E3.
  assert (forall x, x ∈ visible_words (i :: l) <-> x ∈ sorted_set (visible_words (i :: l))) as Hx
    by (intros; by rewrite sorted_set_elem).
  split.
  - constructor; rewrite Ed.
    + intros E. assert (c0 ∈ visible_words (i :: l)) as Hc by (apply Hs; left). rewrite E in Hc. by apply elem_of_nil in Hc.
    + intros c Hc%Hx. by apply E1, negb_false_iff, str_in_spec in Hc.
    + intros c Hc%Hx. split; [by apply E3, negb_false_iff, str_in_spec in Hc | by apply E2, str_in_false in Hc].
    + intros Hc%Hx%str_in_spec. rewrite Hc in E4. by apply negb_false_iff in E4.
  - rewrite <- Hb, existsb_exists, Ed. split; intros (c & H1 & H2); exists c.
    + split; [by apply Hx, list_elem_of_In | by apply str_in_spec].
    + split; [by apply list_elem_of_In, Hx|].
      change (str_in c plugin_capabilities_requiring_approval = true). by apply str_in_spec.
Qed.

(** The conditions under which the policy lets a call go on. *)
Record cleared (p : policy) (t : ToolDefinition) (arguments : pydict) : Prop := {
  cl_unblocked : t_name t ∉ blocked_tools p;
  cl_tier : (profile p = "balanced" /\ normalize_risk t = "critical")
            \/ (profile p = "strict" /\ normalize_risk t ∈ ["high"; "critical"]) ->
            t_name t ∈ allowed_high_risk_tools p;
  cl_plugin : from_plugin t = true -> plugin_cleared p t;
  cl_texts : texts_cleared arguments;
  cl_python : is_tool t "python_exec" = true ->
              str_len (py_str (get_or "code" (PStr "") arguments)) <= python_exec_max_code_chars p
              /\ forall z, py_int (get_or "timeout" (PInt 8) arguments) = Ok z -> z <= python_exec_max_timeout_sec p;
  cl_write : is_tool t "filesystem" = true -> argument_action arguments = "write" -> filesystem_allow_write p = true }.

Lemma python_exec_within p arguments :
  python_exec_refusal p arguments = None ->
  str_len (py_str (get_or "code" (PStr "") arguments)) <= python_exec_max_code_chars p
  /\ forall z, py_int (get_or "timeout" (PInt 8) arguments) = Ok z -> z <= python_exec_max_timeout_sec p.
Proof.
  unfold python_exec_refusal. cbv zeta. destruct (_ <? str_len _) eqn:E1; [done|].
  destruct (py_int _) as [z|e]; destruct (python_exec_max_timeout_sec p <? _) eqn:E2; try done; intros _; (split; [lia|]); [|done].
  intros z' [= ->]. lia.
Qed.

Lemma refusal_none p t arguments b :
  refusal p t arguments = inl b ->
  cleared p t arguments /\ exists why, evaluate_plugin_capabilities p t = (true, b, why).
Proof.
  unfold refusal. cbv zeta. destruct (str_in (t_name t) (blocked_tools p)) eqn:E1; [done|].
  destruct (String.eqb (profile p) "balanced" && _ && _) eqn:E2; [done|].
  destruct (String.eqb (profile p) "strict" && _ && _) eqn:E3; [done|].
  destruct (evaluate_plugin_capabilities p t) as [[ok b'] why] eqn:E4. destruct ok; cbn [negb]; [|done].
  destruct (unsafe_deserialization_match arguments) eqn:E5; [done|].
  destruct (if is_tool t "python_exec" then _ else _) eqn:E6; [done|].
  destruct (is_tool t "filesystem" && _ && _) eqn:E7; [done|]. intros [= <-]. split; [|by exists why].
  constructor.
  - by apply str_in_false.
  - unfold high_or_critical in E3. intros [[Hp Hr]|[Hp Hr%str_in_spec]]; rewrite Hp, Hr in *.
    + apply str_in_spec. by destruct (str_in (t_name t) (allowed_high_risk_tools p)).
    + apply str_in_spec. by destruct (str_in (t_name t) (allowed_high_risk_tools p)).
  - intros Hf. by eapply plugin_allowed.
  - by apply scan_complete.
  - intros Hp. rewrite Hp in E6. by apply python_exec_within.
  - intros Hf Hw. rewrite Hf, Hw in E7. simpl in E7. by apply negb_false_iff.
Qed.

Lemma allowed_needs_approval p t arguments :
  allow (evaluate p t arguments) = true ->
  high_or_critical (normalize_risk t) = true \/ t_approval_mode t = "required" ->
  requires_approval (evaluate p t arguments) = true.
Proof.
  unfold evaluate. destruct (refusal p t arguments) as [b|why]; [|done]. intros _ H.
  assert (approval_needed p t arguments b = true) as ->; [|by destruct (approval_terms t arguments)].
  unfold approval_needed. destruct H as [-> | ->]; [by rewrite orb_true_r|]. done.
Qed.

(** C9. What the isolation policy lets through: an allowed call is of a tool
    that is not blocked and whose risk tier is admitted by the profile or by
    the allow list; a plugin tool declares only supported and allowed
    capabilities; none of the texts nested in the arguments contains an unsafe
    deserialization pattern, or, when there are more than 200 of them, none of
    200 of them does (a text being read up to the scan's length);
    [python_exec] stays within its limits and [filesystem] writes only where
    writing is enabled; and a high-risk call, or one of a tool whose approval
    is required, asks for approval. *)
Theorem isolation_allows_cleared p t arguments :
  allow (evaluate p t arguments) = true ->
  cleared p t arguments
  /\ (high_or_critical (normalize_risk t) = true \/ t_approval_mode t = "required" ->
        requires_approval (evaluate p t arguments) = true).
Proof.
  intros H. split; [|by apply allowed_needs_approval]. unfold evaluate in H.
  destruct (refusal p t arguments) as [b|why] eqn:E; [|done]. by apply refusal_none in E as [Hc _].
Qed.

(** ** The published table *)

(** A tool that no rule besides the tiers speaks about. *)
Record plain (p : policy) (t : ToolDefinition) (arguments : pydict) : Prop := {
  pl_unblocked : t_name t ∉ blocked_tools p;
  pl_local : from_plugin t = false;
  pl_mode : t_approval_mode t = "none";
  pl_name : is_tool t "python_exec" = false /\ is_tool t "filesystem" = false;
  pl_safe : unsafe_deserialization_match arguments = None }.

Definition tier (p : policy) (t : ToolDefinition) : option string :=
  d_get (normalize_risk t) TIER_RULES ≫= d_get (profile p).

Lemma risk_word t : normalize_risk t ∈ ["low"; "medium"; "high"; "critical"].
Proof. unfold normalize_risk. destruct (str_in _ _) eqn:E; [by apply str_in_spec|]. by apply str_in_spec. Qed.

Lemma profile_word a b c d e f g h :
  profile (IsolationPolicy.make a b c d e f g h) ∈ ["balanced"; "strict"].
Proof.
  unfold IsolationPolicy.make. cbn [profile]. destruct (str_in _ _) eqn:E; [by apply str_in_spec|]. by apply str_in_spec.
Qed.

(** The decisions agree with the table [describe] publishes: for a policy
    with either profile and a tool no special rule speaks about, the entry of
    the tool's risk and the profile exists, and says exactly whether the call
    is blocked, allowed, or allowed after approval. *)
Theorem isolation_matches_tier_rules a b c d e f g h t arguments :
  let p := IsolationPolicy.make a b c d e f g h in
  plain p t arguments ->
  let verdict := (allow (evaluate p t arguments), requires_approval (evaluate p t arguments)) in
  match tier p t with
  | Some "allow" => verdict = (true, false)
  | Some "allow_with_approval" => verdict = (true, true)
  | Some "blocked_unless_allowlist" =>
      verdict = if str_in (t_name t) (allowed_high_risk_tools p) then (true, true) else (false, false)
  | _ => False
  end.
Proof.
  intros p [H1 H2 H3 [H4 H5] H6]. unfold evaluate, refusal, tier. cbv zeta.
  apply str_in_false in H1. rewrite H1. unfold evaluate_plugin_capabilities. fold (from_plugin t). rewrite H2. cbn [negb].
  rewrite H6, H4, H5. unfold approval_needed, approval_terms. rewrite H3, H4, H5. cbv zeta.
  pose proof (risk_word t) as Hr. pose proof (profile_word a b c d e f g h) as Hp. fold p in Hp.
  generalize dependent (normalize_risk t). intros risk Hr. generalize dependent (profile p). intros pr Hp.
  destruct (str_in (t_name t) (allowed_high_risk_tools p)).
  all: repeat (apply elem_of_cons in Hr as [->|Hr]; [|]); try by apply elem_of_nil in Hr.
  all: repeat (apply elem_of_cons in Hp as [->|Hp]; [done|]); by apply elem_of_nil in Hp.
Qed.

(** ** Witnesses *)

Local Abbreviation demo_tool risk mode :=
  (Tool "web_search" "Search the web." [] (InProcess "web_search") "builtin" risk mode None "restricted" None).
Local Abbreviation demo_args := [("query", PStr "pickle jars"); ("options", PList [PDict [("lang", PStr "en")]])].
Local Abbreviation demo_policy := (IsolationPolicy.make None "balanced" None 10 4000 true None None).

Lemma isolation_allows_cleared_witness :
  allow (evaluate demo_policy (demo_tool "high" "none") demo_args) = true
  /\ cleared demo_policy (demo_tool "high" "none") demo_args
  /\ (high_or_critical (normalize_risk (demo_tool "high" "none")) = true \/ "none" = "required" ->
        requires_approval (evaluate demo_policy (demo_tool "high" "none") demo_args) = true).
Proof.
  assert (allow (evaluate demo_policy (demo_tool "high" "none") demo_args) = true) as H by (vm_compute; reflexivity).
  split; [exact H|]. exact (isolation_allows_cleared demo_policy (demo_tool "high" "none") demo_args H).
Defined.

Lemma isolation_matches_tier_rules_witness :
  plain (IsolationPolicy.make None "Strict" None 10 4000 true None None) (demo_tool "medium" "none") demo_args
  /\ let p := IsolationPolicy.make None "Strict" None 10 4000 true None None in
     (allow (evaluate p (demo_tool "medium" "none") demo_args),
      requires_approval (evaluate p (demo_tool "medium" "none") demo_args)) = (true, true).
Proof.
  assert (plain (IsolationPolicy.make None "Strict" None 10 4000 true None None) (demo_tool "medium" "none") demo_args) as H.
  { constructor; [by apply str_in_false | reflexivity | reflexivity | split; reflexivity|]. vm_compute. reflexivity. }
  split; [exact H|].
  exact (isolation_matches_tier_rules None "Strict" None 10 4000 true None None (demo_tool "medium" "none") demo_args H).
Defined.

End IsolationFacts.
