(* ===== verification/ToolExecutor.v ===== *)
(** The tool executor (tools/tool_executor.py, [ToolExecutor]): the way of a
    tool call through the registry, the circuit breaker, the autonomy policy,
    the isolation policy, permission prompts and the budget to its handler. *)

From stdpp Require Import prelude strings list.
From Stdlib Require Import Lia ZArith Ascii.
From S2P Require Import Prelude PyStr PyVal PyRegex Effects CircuitBreaker.
From S2P Require Import PermissionManager ToolBudget PluginPolicy AutonomyPolicy ToolRegistry IsolationPolicy.

Module ToolExecutor.
Import ToolRegistry.

Definition SUPPORTED_TOOL_ACTION_CLASSES : list string :=
  ["user_initiated"; "autonomous_agent"; "autonomous_model"; "autonomous_supervisor"; "autonomous_automation"].
Definition AUTONOMOUS_TOOL_ACTION_CLASSES : list string := drop 1 SUPPORTED_TOOL_ACTION_CLASSES.

(** [ToolExecutionError] and [ToolBudgetLimitError] *)
Definition tool_error (msg : string) : exn := OtherError "ToolExecutionError" msg.
Definition budget_error (msg : string) : exn := OtherError "ToolBudgetLimitError" msg.

(** The identifiers that come with a call. *)
Record caller : Type := Caller {
  request_id : option string;
  user_id : option string;
  agent_id : option string;
  session_id : option string }.

(** A call of a handler, in the process or in the sandbox. *)
Record invocation : Type := Invocation {
  i_tool : ToolDefinition;
  i_arguments : pydict;
  i_sandboxed : bool }.

(** The objects the executor works on, the telemetry it sent and the handlers
    it called. *)
Record executor : Type := Executor {
  x_registry : registry;
  x_breaker : option CircuitBreaker.breaker;
  x_permissions : PermissionManager.state;
  x_budget : ToolBudget.state;
  x_telemetry : list (string * pydict);
  x_runs : list invocation }.

Definition set_permissions (s : PermissionManager.state) (x : executor) : executor :=
  Executor (x_registry x) (x_breaker x) s (x_budget x) (x_telemetry x) (x_runs x).
Definition set_budget (s : ToolBudget.state) (x : executor) : executor :=
  Executor (x_registry x) (x_breaker x) (x_permissions x) s (x_telemetry x) (x_runs x).

(** A method of a part, run on the executor's object. *)
Definition on_permissions {A} (m : M PermissionManager.state A) : M executor A := fun x =>
  let '(r, s) := m (x_permissions x) in (r, set_permissions s x).
Definition on_budget {A} (m : M ToolBudget.state A) : M executor A := fun x =>
  let '(r, s) := m (x_budget x) in (r, set_budget s x).

Record sandbox_config : Type := Sandbox {
  timeout_sec : Z;
  max_cpu_sec : Z;
  max_memory_mb : Z }.

(** What [execute] returns. *)
Record tool_result : Type := Result {
  r_tool : string;
  r_result : pyval;
  r_permission_prompt : option PermissionManager.prompt;
  r_approval_mode : option string }.

(** ** Helpers *)

Definition normalize_tool_action_class (value : option string) : string :=
  let normalized := lower (strip (opt_str value)) in
  if str_in normalized SUPPORTED_TOOL_ACTION_CLASSES then normalized else "user_initiated".

Definition is_high_risk_level (value : string) : bool := str_in (lower (strip value)) ["high"; "critical"].

(** [_merge_approval_scope] *)
Definition scope_order (s : string) : Z :=
  if String.eqb s "request" then 1 else if String.eqb s "session" then 2 else 0.
Definition merge_approval_scope (policy_scope autonomy_scope : option string) : option string :=
  let current := str_or_none (lower (strip (opt_str policy_scope))) in
  let extra := str_or_none (lower (strip (opt_str autonomy_scope))) in
  match current, extra with
  | None, _ => extra
  | Some c, None => Some c
  | Some c, Some e => if scope_order c <? scope_order e then Some e else Some c
  end.

(** [_merge_approval_ttl] *)
Definition merge_approval_ttl (policy_ttl autonomy_ttl : option Z) : option Z :=
  let positive o := match o with Some t => if 0 <? t then t else 0 | None => 0 end in
  let merged := Z.max (positive policy_ttl) (positive autonomy_ttl) in
  if 0 <? merged then Some merged else None.

(** The label of a scope that the breaker matched. *)
Definition scope_label (item : pydict) : option string :=
  let scope_type := lower (norm (get "scope_type" item)) in
  if String.eqb scope_type "global" then Some "global"
  else if String.eqb scope_type "user" then Some ("user:" +:+ str_or (norm (get "scope_user_id" item)) "*")
  else if String.eqb scope_type "agent" then Some ("agent:" +:+ str_or (norm (get "scope_agent_id" item)) "*")
  else None.

Definition scope_summary (scopes : list CircuitBreaker.AutonomyCircuitScope) : string :=
  str_or (join ", " (sorted_set (omap (fun sc => scope_label (CircuitBreaker.scope_to_payload sc)) scopes)))
    "unknown".

Section executor.
(** Permission prompts: the clock, [uuid4], SHA-256 and the default lifetime.
    Budget: the monotonic clock and the limits.  [str.format] on general
    templates. *)
Context (clock : nat -> Z) (uuid : nat -> string) (sha256_hexdigest : string -> string) (default_ttl_sec : Z).
Context (monotonic : nat -> Z) (limits : ToolBudget.ToolBudgetLimits).
Context (str_format : string -> dict string -> option string).
(** The attributes that never change. *)
Context (policy : IsolationPolicy.policy) (autonomy_policy : AutonomyPolicy.policy).
Context (approval_enforcement_mode : string) (sandbox : option sandbox_config) (telemetry_attached : bool).
(** The outcome of the [n]-th handler call: of a function of the process, and
    of the sandbox worker. *)
Context (run_handler : nat -> string -> pydict -> res pyval).
Context (run_sandbox : nat -> ToolDefinition -> pydict -> caller -> res pyval).

(** [_emit_telemetry]; an exception of the emitter is only logged *)
Definition emit_telemetry (event_type : string) (payload : pydict) : M executor unit :=
  when telemetry_attached
    (modify (fun x => Executor (x_registry x) (x_breaker x) (x_permissions x) (x_budget x)
                        (x_telemetry x ++ [(event_type, payload)]) (x_runs x))).

Definition ids_payload (name : string) (c : caller) : pydict :=
  [("tool", PStr name); ("request_id", pnone_or_str (request_id c)); ("user_id", pnone_or_str (user_id c));
   ("session_id", pnone_or_str (session_id c))].

(** [_enforce_autonomous_breaker_boundary] *)
Definition enforce_autonomous_breaker_boundary (tool_name risk_level action_class : string) (c : caller) :
    M executor unit :=
  if negb (is_high_risk_level risk_level) then ret tt
  else if negb (str_in action_class AUTONOMOUS_TOOL_ACTION_CLASSES) then ret tt
  else
    let* breaker := gets x_breaker in
    match breaker with
    | None => ret tt
    | Some b =>
        let decision := CircuitBreaker.evaluate_run_creation (user_id c) (agent_id c) b in
        if negb (CircuitBreaker.blocked decision) then ret tt
        else
          let matched_scopes := CircuitBreaker.matched_scopes decision in
          let summary := scope_summary matched_scopes in
          let reason := "Autonomous high-risk tool action is blocked by autonomy circuit breaker (action_class="
                        +:+ action_class +:+ "; scope=" +:+ summary +:+ ")." in
          let matched_scope_count := CircuitBreaker.matched_scope_count decision in
          emit_telemetry "tool_action_blocked_autonomy_circuit_breaker"
            [("tool", PStr tool_name);
             ("risk_level", PStr (str_or (lower (strip risk_level)) "medium"));
             ("action_class", PStr action_class);
             ("request_id", pnone_or_str (request_id c));
             ("user_id", pnone_or_str (user_id c));
             ("agent_id", pnone_or_str (agent_id c));
             ("session_id", pnone_or_str (session_id c));
             ("scope_summary", PStr summary);
             ("matched_scope_count",
                PInt (if matched_scope_count =? 0 then Z.of_nat (length matched_scopes) else matched_scope_count));
             ("active_scope_count", PInt (CircuitBreaker.active_scope_count decision))] ;;;
          raise (tool_error reason)
    end.

(** [_must_block_without_approval] *)
Definition must_block_without_approval (t : ToolDefinition) : bool :=
  String.eqb approval_enforcement_mode "strict"
  || str_in (lower (strip (str_or (t_risk_level t) "low"))) ["high"; "critical"]
  || String.eqb (lower (strip (str_or (t_approval_mode t) "none"))) "required".

(** The search for an approved prompt among the identifiers of the call. *)
Definition try_consume (prompt_id name : string) (arguments : pydict) (c : caller) : M executor bool :=
  on_permissions (PermissionManager.consume_if_approved clock sha256_hexdigest prompt_id name arguments
                    (request_id c) (user_id c) (session_id c)).

Fixpoint consume_any (ids : list string) (name : string) (arguments : pydict) (c : caller) : M executor bool :=
  match ids with
  | [] => ret false
  | k :: ids' =>
      if is_empty k then consume_any ids' name arguments c
      else
        let* approved := try_consume k name arguments c in
        if approved then ret true else consume_any ids' name arguments c
  end.

Definition find_approval (permission_id : option string) (permission_ids : option (list string))
    (name : string) (arguments : pydict) (c : caller) : M executor bool :=
  let* approved := match str_or_none (opt_str permission_id) with
                   | Some k => try_consume k name arguments c
                   | None => ret false
                   end in
  if approved then ret true else consume_any (default [] permission_ids) name arguments c.

(** The approval part of [execute]: the prompt it filed, if any. *)
Definition obtain_approval (t : ToolDefinition) (name : string) (arguments : pydict) (c : caller)
    (permission_id : option string) (permission_ids : option (list string))
    (reason scope : string) (ttl : Z) (action_class : string) : M executor (option PermissionManager.prompt) :=
  let* approved := find_approval permission_id permission_ids name arguments c in
  if approved then ret None
  else
    let* prompt := on_permissions (PermissionManager.request clock uuid sha256_hexdigest default_ttl_sec name
                                     arguments reason scope (Some ttl) (request_id c) (user_id c) (session_id c)) in
    if must_block_without_approval t then
      let prompt_id := PermissionManager.p_id prompt in
      emit_telemetry "tool_permission_required"
        (ids_payload name c
         ++ [("prompt_id", PStr prompt_id); ("approval_mode", PStr approval_enforcement_mode);
             ("risk_level", PStr (t_risk_level t)); ("approval_mode_tool", PStr (t_approval_mode t));
             ("autonomy_level", PStr (AutonomyPolicy.level autonomy_policy)); ("action_class", PStr action_class)]) ;;;
      raise (PermissionRequiredError
               ("Permission required for tool '" +:+ name +:+ "'. prompt_id=" +:+ prompt_id) prompt_id)
    else ret (Some prompt).

(** The budget part of [execute]; the window is reported in the unit of the
    budget, nanoseconds *)
Definition charge_budget (t : ToolDefinition) (name : string) (c : caller) (action_class : string) :
    M executor unit :=
  try_except
    (let* status := on_budget (ToolBudget.check_and_record monotonic limits name (t_risk_level t)
                                 (request_id c) (user_id c) (session_id c)) in
     emit_telemetry "tool_budget_recorded"
       [("tool", PStr name); ("risk_level", PStr (t_risk_level t)); ("scope", PStr (ToolBudget.s_scope status));
        ("request_id", pnone_or_str (request_id c)); ("user_id", pnone_or_str (user_id c));
        ("session_id", pnone_or_str (session_id c));
        ("total_calls", PInt (ToolBudget.s_total_calls status));
        ("max_total_calls", PInt (ToolBudget.s_max_total_calls status));
        ("per_tool_calls", PInt (ToolBudget.s_per_tool_calls status));
        ("max_calls_per_tool", PInt (ToolBudget.s_max_calls_per_tool status));
        ("high_risk_calls", PInt (ToolBudget.s_high_risk_calls status));
        ("max_high_risk_calls", PInt (ToolBudget.s_max_high_risk_calls status));
        ("window_sec", PInt (ToolBudget.s_window_sec status)); ("action_class", PStr action_class)])
    (fun exc =>
       match exc with
       | OtherError cls msg =>
           if negb (String.eqb cls "ToolBudgetExceededError") then raise exc
           else
           emit_telemetry "tool_budget_blocked"
             [("tool", PStr name); ("risk_level", PStr (t_risk_level t));
              ("request_id", pnone_or_str (request_id c)); ("user_id", pnone_or_str (user_id c));
              ("session_id", pnone_or_str (session_id c)); ("reason", PStr msg);
              ("action_class", PStr action_class)] ;;;
           raise (budget_error msg)
       | _ => raise exc
       end).

(** The call of the handler, in the sandbox or in the process. *)
Definition run_tool (t : ToolDefinition) (arguments : pydict) (c : caller) : M executor pyval :=
  let sandboxed := match sandbox, t_execution_target t with Some _, Some _ => true | _, _ => false end in
  let* n := gets (fun x => length (x_runs x)) in
  modify (fun x => Executor (x_registry x) (x_breaker x) (x_permissions x) (x_budget x) (x_telemetry x)
                     (x_runs x ++ [Invocation t arguments sandboxed])) ;;;
  lift (if sandboxed then run_sandbox n t arguments c
        else match t_handler t with
             | InProcess id => run_handler n id arguments
             | SandboxProxy => Err (RuntimeError "Sandboxed plugin cannot execute in-process")
             end).

Definition execute (name : string) (arguments : pydict) (c : caller) (permission_id : option string)
    (permission_ids : option (list string)) (action_class : option string) : M executor tool_result :=
  let* registry := gets x_registry in
  match get_tool name registry with
  | None => raise (tool_error ("Unknown tool: " +:+ name))
  | Some t =>
      let normalized_action_class := normalize_tool_action_class action_class in
      let normalized_risk_level := t_risk_level t in
      enforce_autonomous_breaker_boundary name normalized_risk_level normalized_action_class c ;;;
      let* autonomy_decision := lift (AutonomyPolicy.evaluate str_format autonomy_policy name normalized_risk_level) in
      if negb (AutonomyPolicy.d_allow autonomy_decision) then
        emit_telemetry "tool_autonomy_blocked"
          (ids_payload name c
           ++ [("reason", pnone_or_str (AutonomyPolicy.d_reason autonomy_decision));
               ("autonomy_level", PStr (AutonomyPolicy.level autonomy_policy));
               ("risk_level", PStr normalized_risk_level); ("action_class", PStr normalized_action_class)]) ;;;
        raise (tool_error (str_or (opt_str (AutonomyPolicy.d_reason autonomy_decision))
                             ("Tool '" +:+ name +:+ "' blocked by autonomy policy")))
      else
        let decision := IsolationPolicy.evaluate policy t arguments in
        if negb (IsolationPolicy.allow decision) then
          emit_telemetry "tool_policy_blocked"
            (ids_payload name c ++ [("reason", pnone_or_str (IsolationPolicy.reason decision))]) ;;;
          raise (tool_error (str_or (opt_str (IsolationPolicy.reason decision))
                               ("Tool '" +:+ name +:+ "' is blocked by policy")))
        else
          let requires_approval := IsolationPolicy.requires_approval decision
                                   || AutonomyPolicy.d_requires_approval autonomy_decision in
          let approval_scope := merge_approval_scope (IsolationPolicy.approval_scope decision)
                                  (AutonomyPolicy.d_approval_scope autonomy_decision) in
          let approval_ttl_sec := merge_approval_ttl (IsolationPolicy.approval_ttl_sec decision)
                                    (AutonomyPolicy.d_approval_ttl_sec autonomy_decision) in
          let approval_reason := str_or (opt_str (AutonomyPolicy.d_reason autonomy_decision))
                                   ("Tool '" +:+ name +:+ "' requires manual approval.") in
          let* permission_prompt :=
            (if requires_approval
             then obtain_approval t name arguments c permission_id permission_ids approval_reason
                    (str_or (opt_str approval_scope) "request") (default 300 approval_ttl_sec)
                    normalized_action_class
             else ret None) in
          charge_budget t name c normalized_action_class ;;;
          let* result := try_except (run_tool t arguments c) (fun exc =>
                           raise (tool_error ("Tool '" +:+ name +:+ "' failed: " +:+ exn_str exc))) in
          ret (Result name result permission_prompt
                 (match permission_prompt with Some _ => Some approval_enforcement_mode | None => None end))
  end.

(** ** The prompts of the operator *)

Definition list_permission_prompts (status : option string) (limit : Z) : M executor (list PermissionManager.prompt) :=
  on_permissions (PermissionManager.list_prompts clock status limit).
Definition approve_permission_prompt (prompt_id : string) : M executor PermissionManager.prompt :=
  on_permissions (PermissionManager.approve clock prompt_id).
Definition deny_permission_prompt (prompt_id : string) : M executor PermissionManager.prompt :=
  on_permissions (PermissionManager.deny clock prompt_id).

(** [debug_guardrails] *)
Record guardrails : Type := Guardrails {
  g_approval_enforcement_mode : string;
  g_autonomy_policy : pydict;
  g_action_boundary_policy : pydict;
  g_isolation_policy : pydict;
  g_sandbox : option sandbox_config;
  g_budget : ToolBudget.DebugSnapshot;
  g_plugin_signing : ToolRegistry.report }.

Definition debug_guardrails (c : caller) (scopes_limit top_tools_limit : Z) : M executor guardrails :=
  let* breaker := gets x_breaker in
  let* budget := on_budget (ToolBudget.debug_snapshot monotonic limits (request_id c) (user_id c) (session_id c)
                              scopes_limit top_tools_limit) in
  let* registry := gets x_registry in
  ret (Guardrails approval_enforcement_mode (AutonomyPolicy.describe autonomy_policy)
         [("supported_action_classes", PList (map PStr SUPPORTED_TOOL_ACTION_CLASSES));
          ("autonomous_action_classes", PList (map PStr (sorted_set AUTONOMOUS_TOOL_ACTION_CLASSES)));
          ("high_risk_breaker_enforced_for_autonomous", PBool true);
          ("breaker_attached", PBool (match breaker with Some _ => true | None => false end))]
         (IsolationPolicy.describe policy) sandbox budget (plugin_discovery_report 200 registry)).
End executor.

(** ** Tool calls in model output *)

(** [\s*<tool_call>\s*(\{.*\})\s*</tool_call>\s*] with [re.DOTALL] *)
Definition TOOL_CALL_PATTERN : regex :=
  RSeq [RSpaces; RText "<tool_call>"; RSpaces; RGroup (RSeq [RText "{"; RStar RAny; RText "}"]); RSpaces;
        RText "</tool_call>"; RSpaces].

(** [parse_tool_call], given [json.loads] ([None] when it raises
    [JSONDecodeError]) *)
Definition parse_tool_call (json_loads : string -> option pyval) (text : option string) : option pydict :=
  match fullmatch TOOL_CALL_PATTERN (opt_str text) with
  | None => None
  | Some m =>
      match json_loads (strip (opt_str (captured m))) with
      | Some (PDict data) =>
          match d_get "name" data, d_get "arguments" data with
          | Some (PStr _), Some (PDict _) => Some data
          | _, _ => None
          end
      | _ => None
      end
  end.

Definition render_tool_instruction (tool_names : list string) : string :=
  let q := String dquote "" in
  "If you need a tool, respond with exactly one JSON object wrapped as <tool_call>{"
  +:+ q +:+ "name" +:+ q +:+ ":" +:+ q +:+ "tool_name" +:+ q +:+ "," +:+ q +:+ "arguments" +:+ q
  +:+ ":{...}}</tool_call>. Allowed tools: " +:+ join ", " (sort_strings tool_names)
  +:+ ". Some tools may require manual approval.".

End ToolExecutor.
