(* ===== verification/ToolExecutorFacts.v ===== *)
(** Facts about the tool executor: a handler runs only for a call that every
    gate let through; over any history the gated runs are covered by
    approvals and all runs by the budget. *)

From stdpp Require Import prelude strings list.
From Stdlib Require Import Lia ZArith Ascii.
From S2P Require Import Prelude PyStr PyVal PyRegex Effects CircuitBreaker PermissionManager ToolBudget.
From S2P Require Import PermissionFacts ToolBudgetFacts PluginPolicy AutonomyPolicy ToolRegistry ToolRegistryFacts IsolationPolicy IsolationFacts ToolExecutor.
Import ToolRegistry ToolExecutor.

Module ToolExecutorFacts.

(** ** Counting *)

(** A list whose elements all occur at least as often in another is no
    longer. *)
Lemma occurrences_length (l k : list string) :
  (forall x, (length (List.filter (String.eqb x) l) <= length (List.filter (String.eqb x) k))%nat) ->
  (length l <= length k)%nat.
Proof.
  revert k. induction l as [|a l IH]; intros k H; simpl; [lia|].
  assert (a ∈ k) as Hin.
  { specialize (H a). simpl in H. rewrite String.eqb_refl in H. simpl in H.
    destruct (List.filter (String.eqb a) k) as [|b f] eqn:E; [simpl in H; lia|].
    assert (b ∈ List.filter (String.eqb a) k) as Hb by (rewrite E; left).
    apply list_elem_of_In, filter_In in Hb as [Hb ->%String.eqb_eq]. by apply list_elem_of_In. }
  apply list_elem_of_split in Hin as (k1 & k2 & ->). rewrite length_app. simpl.
  assert (length l <= length (k1 ++ k2))%nat; [|rewrite length_app in *; lia].
  apply IH. intros x. specialize (H x). revert H. rewrite !List.filter_app, !length_app. simpl.
  destruct (String.eqb x a); simpl; lia.
Qed.

Section facts.
Context (clock : nat -> Z) (uuid : nat -> string) (sha256_hexdigest : string -> string) (default_ttl_sec : Z).
Context (monotonic : nat -> Z) (limits : ToolBudget.ToolBudgetLimits).
Context (str_format : string -> dict string -> option string).
Context (policy : IsolationPolicy.policy) (autonomy_policy : AutonomyPolicy.policy).
Context (approval_enforcement_mode : string) (sandbox : option sandbox_config) (telemetry_attached : bool).
Context (run_handler : nat -> string -> pydict -> res pyval).
Context (run_sandbox : nat -> ToolDefinition -> pydict -> caller -> res pyval).

Local Abbreviation perm_ops := (PermissionFacts.run_ops clock uuid sha256_hexdigest default_ttl_sec).
Local Abbreviation budget_ops := (ToolBudgetFacts.run_ops monotonic limits).
Local Abbreviation exec := (execute clock uuid sha256_hexdigest default_ttl_sec monotonic limits str_format policy
  autonomy_policy approval_enforcement_mode sandbox telemetry_attached run_handler run_sandbox).
Local Abbreviation emit := (emit_telemetry telemetry_attached).
Local Abbreviation consume k name args c := (try_consume clock sha256_hexdigest k name args c).

(** ** Traces: what a computation did to the parts *)

(** From [x] to [x'] the permission manager and the budget saw some sequences
    of calls, with these events and these accepted calls, and these handlers
    ran; the registry and the breaker were left alone. *)
Record trace (x x' : executor) (es : list PermissionFacts.event) (charged : ToolBudgetFacts.log)
    (runs : list invocation) : Prop := {
  tr_registry : x_registry x' = x_registry x;
  tr_breaker : x_breaker x' = x_breaker x;
  tr_permissions : exists ops, perm_ops ops (x_permissions x) = (es, x_permissions x');
  tr_budget : exists ops, forall l, budget_ops ops (l, x_budget x) = (l ++ charged, x_budget x');
  tr_runs : x_runs x' = x_runs x ++ runs }.

Lemma trace_refl x : trace x x [] [] [].
Proof. constructor; [done | done | by exists [] | exists []; intros; by rewrite app_nil_r | by rewrite app_nil_r]. Qed.

Lemma trace_trans x y z es es' ch ch' rs rs' :
  trace x y es ch rs -> trace y z es' ch' rs' -> trace x z (es ++ es') (ch ++ ch') (rs ++ rs').
Proof.
  intros [H1 H2 [po Hp] [bo Hb] H5] [G1 G2 [po' Gp] [bo' Gb] G5]. constructor.
  - congruence.
  - congruence.
  - exists (po ++ po'). rewrite PermissionFacts.run_ops_app, Hp. cbn [fst snd]. by rewrite Gp.
  - exists (bo ++ bo'). intros l. unfold ToolBudgetFacts.run_ops in *. rewrite foldl_app, Hb, Gb. by rewrite app_assoc.
  - by rewrite G5, H5, app_assoc.
Qed.

Lemma trace_emit ev payload x : exists x', emit ev payload x = (Ok tt, x') /\ trace x x' [] [] [].
Proof.
  unfold emit_telemetry, when. destruct telemetry_attached; (eexists; split; [reflexivity|]); [|apply trace_refl].
  constructor; simpl; [done | done | by exists [] | exists []; intros; by rewrite app_nil_r | by rewrite app_nil_r].
Qed.

Lemma trace_wf x x' es ch rs :
  trace x x' es ch rs -> PermissionFacts.prompts_wf (x_permissions x) -> PermissionFacts.prompts_wf (x_permissions x').
Proof.
  intros [_ _ [ops Hp] _ _] Hw. pose proof (PermissionFacts.run_ops_wf clock uuid sha256_hexdigest default_ttl_sec ops _ Hw) as H.
  by rewrite Hp in H.
Qed.

Lemma trace_no_events x x' ch rs : trace x x' [] ch rs -> x_permissions x' = x_permissions x.
Proof.
  intros [_ _ [[|o ops] Hp] _ _]; simpl in Hp; [congruence|].
  destruct (PermissionFacts.run_op _ _ _ _ o _) as [e s1], (perm_ops ops s1) as [es s2]. discriminate Hp.
Qed.

(** ** The gates *)

(** The breaker does not hold this call back. *)
Definition breaker_clear (x : executor) (risk action_class : string) (c : caller) : Prop :=
  is_high_risk_level risk = true -> action_class ∈ AUTONOMOUS_TOOL_ACTION_CLASSES ->
  forall b, x_breaker x = Some b ->
    CircuitBreaker.blocked (CircuitBreaker.evaluate_run_creation (user_id c) (agent_id c) b) = false.

Lemma boundary_cases name risk ac c x :
  match enforce_autonomous_breaker_boundary telemetry_attached name risk ac c x with
  | (Ok _, x') => x' = x /\ breaker_clear x risk ac c
  | (Err _, x') => trace x x' [] [] [] /\ ~ breaker_clear x risk ac c
  end.
Proof.
  unfold enforce_autonomous_breaker_boundary, breaker_clear.
  destruct (is_high_risk_level risk); cbn [negb]; [|done].
  destruct (str_in ac AUTONOMOUS_TOOL_ACTION_CLASSES) eqn:Ea; cbn [negb].
  2: { split; [done|]. intros _ Hin%str_in_spec. congruence. }
  apply str_in_spec in Ea. unfold bind at 1, gets. destruct (x_breaker x) as [b|]; [|by split].
  destruct (CircuitBreaker.blocked _) eqn:Eb; cbn [negb].
  - unfold bind at 1. edestruct trace_emit as (x' & -> & Ht). split; [exact Ht|]. intros H.
    specialize (H eq_refl Ea b eq_refl). congruence.
  - split; [done|]. by intros _ _ b' [= <-].
Qed.

(** The prompt that lets a call through: known and approved in [s], for this
    tool, these arguments and this caller, and not expired when the clock was
    read for it. *)
Record authorizes (s : PermissionManager.state) (k name : string) (args : pydict) (c : caller) : Prop := {
  au_prompt : exists p, d_get k (PermissionManager.st_prompts s) = Some p
    /\ PermissionManager.p_status p = "approved"
    /\ PermissionManager.p_tool_name p = name
    /\ PermissionManager.p_arguments_hash p = PermissionManager.arguments_hash sha256_hexdigest args
    /\ (PermissionManager.p_scope p = "global"
        \/ PermissionManager.resolve_scope_value (PermissionManager.p_scope p) (request_id c) (user_id c) (session_id c)
           = PermissionManager.resolve_scope_value (PermissionManager.p_scope p) (PermissionManager.p_request_id p)
               (PermissionManager.p_user_id p) (PermissionManager.p_session_id p))
    /\ exists n t, (PermissionManager.st_clock s <= n)%nat /\ PermissionFacts.expiry p = Some t /\ clock n < t }.

Lemma authorizes_back s s' k name args c :
  (forall k p, d_get k (PermissionManager.st_prompts s') = Some p -> PermissionManager.p_status p = "approved" ->
     d_get k (PermissionManager.st_prompts s) = Some p) ->
  (PermissionManager.st_clock s <= PermissionManager.st_clock s')%nat ->
  authorizes s' k name args c -> authorizes s k name args c.
Proof.
  intros Hs Hc [(p & H1 & H2 & H3 & H4 & H5 & n & t & Hn & Ht)]. constructor. exists p.
  split; [auto|]. repeat (split; [done|]). exists n, t. split; [lia | done].
Qed.

(** One attempt to consume a prompt. *)
Record attempt (x x' : executor) (k name : string) (args : pydict) (c : caller) (ok : bool) : Prop := {
  at_trace : trace x x' [if ok then PermissionFacts.Consumed k else PermissionFacts.Other] [] [];
  at_prompts : forall k' p, d_get k' (PermissionManager.st_prompts (x_permissions x')) = Some p ->
     PermissionManager.p_status p = "approved" -> d_get k' (PermissionManager.st_prompts (x_permissions x)) = Some p;
  at_clock : (PermissionManager.st_clock (x_permissions x) <= PermissionManager.st_clock (x_permissions x'))%nat;
  at_authorizes : ok = true -> authorizes (x_permissions x) k name args c;
  at_spent : ok = true -> PermissionFacts.spent (x_permissions x') k }.

Lemma try_consume_cases k name args c x :
  PermissionFacts.prompts_wf (x_permissions x) ->
  exists ok x', consume k name args c x = (Ok ok, x') /\ attempt x x' k name args c ok.
Proof.
  intros Hw. unfold try_consume, on_permissions.
  pose proof (PermissionFacts.consume_cases clock sha256_hexdigest k name args (request_id c) (user_id c) (session_id c) _ Hw) as H.
  pose proof (PermissionFacts.consume_keeps_prompts clock sha256_hexdigest k name args (request_id c) (user_id c) (session_id c) _ Hw) as Hk.
  pose proof (PermissionFacts.consume_clock clock sha256_hexdigest k name args (request_id c) (user_id c) (session_id c) _ Hw) as Hc.
  destruct (PermissionManager.consume_if_approved _ _ _ _ _ _ _ _ _) as [r s'] eqn:E.
  destruct H as [_ (b & -> & Hb)]. eexists b, _. split; [reflexivity|]. constructor; simpl; try done.
  - constructor; simpl; try done.
    + exists [PermissionFacts.Consume k name args (request_id c) (user_id c) (session_id c)].
      simpl. rewrite E. by destruct b.
    + exists []. intros. by rewrite app_nil_r.
    + by rewrite app_nil_r.
  - intros Hb'. destruct (Hb Hb') as [[p []] _]. constructor. exists p. repeat (split; [done|]).
    destruct al_unexpired as (t & Ht & Hlt). exists (PermissionManager.st_clock (x_permissions x)), t. done.
  - intros ->. exact (PermissionFacts.consume_spends clock sha256_hexdigest _ _ _ _ _ _ _ _ Hw E).
Qed.

(** The search over the identifiers the caller sent. *)
Definition no_approval (es : list PermissionFacts.event) : Prop :=
  Forall (fun e => match e with PermissionFacts.Approved _ => False | _ => True end) es.
Definition consumed_ids (es : list PermissionFacts.event) : list string :=
  omap (fun e => match e with PermissionFacts.Consumed k => Some k | _ => None end) es.

Record search_result (x x' : executor) (ids : list string) (name : string) (args : pydict) (c : caller)
    (es : list PermissionFacts.event) (ok : bool) : Prop := {
  se_trace : trace x x' es [] [];
  se_events : no_approval es;
  se_consumed : if ok then exists k, k ∈ ids /\ consumed_ids es = [k] /\ authorizes (x_permissions x) k name args c
                              /\ PermissionFacts.spent (x_permissions x') k
                else consumed_ids es = [];
  se_prompts : forall k' p, d_get k' (PermissionManager.st_prompts (x_permissions x')) = Some p ->
     PermissionManager.p_status p = "approved" -> d_get k' (PermissionManager.st_prompts (x_permissions x)) = Some p;
  se_clock : (PermissionManager.st_clock (x_permissions x) <= PermissionManager.st_clock (x_permissions x'))%nat }.

Lemma search_nothing x ids name args c : search_result x x ids name args c [] false.
Proof. constructor; [apply trace_refl | constructor | done | done | lia]. Qed.

Lemma search_of_attempt x x' k ids name args c ok :
  k ∈ ids -> attempt x x' k name args c ok ->
  search_result x x' ids name args c [if ok then PermissionFacts.Consumed k else PermissionFacts.Other] ok.
Proof.
  intros Hk []. constructor; [done | by destruct ok; repeat constructor| |done | done].
  destruct ok; [|done]. exists k. split_and!; auto.
Qed.

(** Searching on after a search that found nothing. *)
Lemma search_more x y z ids name args c es es' ok :
  search_result x y ids name args c es false -> search_result y z ids name args c es' ok ->
  search_result x z ids name args c (es ++ es') ok.
Proof.
  intros [] []. constructor; [by eapply (trace_trans _ _ _ _ _ [] [] [] [])| by apply Forall_app| |auto | lia].
  unfold consumed_ids in *. rewrite omap_app, se_consumed0. destruct ok; [|done].
  destruct se_consumed1 as (k & Hk & He & Ha & Hs). exists k. split; [done|]. split; [done|]. split; [|done].
  by eapply authorizes_back.
Qed.

Lemma consume_any_cases all ids name args c x :
  ids ⊆ all -> PermissionFacts.prompts_wf (x_permissions x) ->
  exists es ok x', consume_any clock sha256_hexdigest ids name args c x = (Ok ok, x')
    /\ search_result x x' all name args c es ok.
Proof.
  revert x. induction ids as [|k ids IH]; intros x Hs Hw; cbn [consume_any].
  2: assert (k ∈ all) as Hk by (apply Hs; left); assert (ids ⊆ all) as Hids by (intros y Hy; apply Hs; by right).
  - exists [], false, x. split; [done | apply search_nothing].
  - destruct (is_empty k); [by apply IH|].
    destruct (try_consume_cases k name args c x Hw) as (ok & x1 & E1 & Hat).
    apply (search_of_attempt _ _ _ all) in Hat; [|done]. unfold bind. rewrite E1.
    destruct ok; [by eexists _, true, x1|].
    destruct (IH x1) as (es & ok & x2 & -> & H2); [done | by eapply trace_wf; [apply Hat|]|].
    eexists _, ok, x2. split; [done|]. by eapply search_more.
Qed.

Definition call_ids (permission_id : option string) (permission_ids : option (list string)) : list string :=
  opt_str permission_id :: default [] permission_ids.

Lemma find_approval_cases pid pids name args c x :
  PermissionFacts.prompts_wf (x_permissions x) ->
  exists es ok x', find_approval clock sha256_hexdigest pid pids name args c x = (Ok ok, x')
    /\ search_result x x' (call_ids pid pids) name args c es ok.
Proof.
  intros Hw. unfold find_approval.
  assert (default [] pids ⊆ call_ids pid pids) as Hsub by (intros y Hy; by right).
  destruct (str_or_none (opt_str pid)) as [k|] eqn:Ek; unfold bind.
  - destruct (try_consume_cases k name args c x Hw) as (ok & x1 & E1 & Hat).
    assert (k = opt_str pid) as -> by (unfold str_or_none in Ek; destruct (is_empty (opt_str pid)); congruence).
    apply (search_of_attempt _ _ _ (call_ids pid pids)) in Hat; [|left]. rewrite E1.
    destruct ok; [by eexists _, true, x1|].
    destruct (consume_any_cases (call_ids pid pids) (default [] pids) name args c x1) as (es & ok & x2 & -> & H2);
      [done | by eapply trace_wf; [apply Hat|]|].
    eexists _, ok, x2. split; [done|]. by eapply search_more.
  - by apply consume_any_cases.
Qed.

(** ** Approval, budget and handler *)

Local Abbreviation obtain := (obtain_approval clock uuid sha256_hexdigest default_ttl_sec autonomy_policy
  approval_enforcement_mode telemetry_attached).
Local Abbreviation must_block := (must_block_without_approval approval_enforcement_mode).

(** From [x] to [x'] approval was found, and the prompt that gave it is spent,
    or the tool may run before its prompt is answered. *)
Definition approval_settled (x x' : executor) (t : ToolDefinition) (ids : list string) (name : string) (args : pydict)
    (c : caller) (es : list PermissionFacts.event) : Prop :=
  (exists k, k ∈ ids /\ consumed_ids es = [k] /\ authorizes (x_permissions x) k name args c
             /\ PermissionFacts.spent (x_permissions x') k)
  \/ (must_block t = false /\ consumed_ids es = []).

Lemma request_trace name args reason scope ttl c x :
  trace x (set_permissions (snd (PermissionManager.request clock uuid sha256_hexdigest default_ttl_sec name args reason
             scope ttl (request_id c) (user_id c) (session_id c) (x_permissions x))) x)
    [PermissionFacts.Other] [] [].
Proof.
  constructor; simpl; try done.
  - by exists [PermissionFacts.Request name args reason scope ttl (request_id c) (user_id c) (session_id c)].
  - exists []. intros. by rewrite app_nil_r.
  - by rewrite app_nil_r.
Qed.

Lemma no_approval_snoc es : no_approval es -> no_approval (es ++ [PermissionFacts.Other]).
Proof. intros. apply Forall_app. split; [done|]. by constructor. Qed.

Lemma obtain_cases t name args c pid pids reason scope ttl ac x :
  PermissionFacts.prompts_wf (x_permissions x) ->
  match obtain t name args c pid pids reason scope ttl ac x with
  | (Ok _, x') => exists es, trace x x' es [] [] /\ no_approval es
                    /\ approval_settled x x' t (call_ids pid pids) name args c es
  | (Err _, x') => exists es, trace x x' es [] [] /\ no_approval es /\ consumed_ids es = []
  end.
Proof.
  intros Hw. unfold obtain_approval, bind at 1.
  destruct (find_approval_cases pid pids name args c x Hw) as (es & ok & x1 & -> & [Ht Hn Hc _ _]).
  destruct ok; [exists es; split; [done|]; split; [done|]; by left|].
  unfold bind at 1, on_permissions. pose proof (request_trace name args reason scope (Some ttl) c x1) as Hr.
  destruct (PermissionManager.request _ _ _ _ _ _ _ _ _ _ _ _ _) as [[prompt|e] s1]; cbn [snd] in Hr.
  all: pose proof (trace_trans _ _ _ _ _ [] [] [] [] Ht Hr) as Ht2.
  all: assert (no_approval (es ++ [PermissionFacts.Other])) as Hn2 by (by apply no_approval_snoc).
  all: assert (consumed_ids (es ++ [PermissionFacts.Other]) = []) as Hc2
    by (unfold consumed_ids in *; rewrite omap_app, Hc; done).
  - destruct (must_block t) eqn:Em.
    + unfold bind. edestruct trace_emit as (x2 & -> & He). exists (es ++ [PermissionFacts.Other]).
      split; [|done]. pose proof (trace_trans _ _ _ _ _ [] [] [] [] Ht2 He) as Ht3. by rewrite app_nil_r in Ht3.
    + eexists. split; [exact Ht2|]. split; [done|]. by right.
  - by eexists.
Qed.

(** Only the budget part touches the budget. *)
Lemma keeps_budget_emit b ev payload : preserves (fun x => x_budget x = b) (emit ev payload).
Proof. unfold emit_telemetry, when. intros x Hx. by destruct telemetry_attached. Qed.
Lemma keeps_budget_permissions {A} b (m : M PermissionManager.state A) : preserves (fun x => x_budget x = b) (on_permissions m).
Proof. intros x Hx. unfold on_permissions. by destruct (m _) as [[]]. Qed.

Lemma obtain_budget b t name args c pid pids reason scope ttl ac :
  preserves (fun x => x_budget x = b) (obtain t name args c pid pids reason scope ttl ac).
Proof.
  assert (forall ids, preserves (fun x => x_budget x = b) (consume_any clock sha256_hexdigest ids name args c)) as Hany.
  { induction ids as [|k ids IH]; cbn [consume_any]; [apply preserves_ret|]. destruct (is_empty k); [done|].
    apply preserves_bind; [apply keeps_budget_permissions|]. intros []; [apply preserves_ret|done]. }
  unfold obtain_approval, find_approval, try_consume.
  repeat first [apply preserves_bind; [|intros ?] | apply keeps_budget_permissions | apply keeps_budget_emit | apply preserves_ret
               | apply preserves_raise | apply Hany | case_match].
Qed.

(** The entry the budget keeps of a call. *)
Definition charge (x : executor) (t : ToolDefinition) (name : string) (c : caller) : string * ToolBudget.ToolCallRecord :=
  (ToolBudget.scope_key (request_id c) (user_id c) (session_id c),
   ToolBudget.CallRecord (monotonic (ToolBudget.st_clock (x_budget x))) (strip name)
     (lower (strip (str_or (t_risk_level t) "low")))).

Lemma charge_cases t name c ac x :
  match charge_budget monotonic limits telemetry_attached t name c ac x with
  | (Ok _, x') => trace x x' [] [charge x t name c] []
      /\ exists status, ToolBudget.check_and_record monotonic limits name (t_risk_level t) (request_id c) (user_id c)
                          (session_id c) (x_budget x) = (Ok status, x_budget x')
  | (Err _, x') => trace x x' [] [] []
  end.
Proof.
  unfold charge_budget, try_except, bind, on_budget.
  assert (forall r s', ToolBudget.check_and_record monotonic limits name (t_risk_level t) (request_id c) (user_id c)
            (session_id c) (x_budget x) = (r, s') ->
          trace x (set_budget s' x) [] (if is_ok r then [charge x t name c] else []) []) as Hb.
  { intros r s' E. constructor; simpl; try done; [by exists [] | | by rewrite app_nil_r].
    exists [ToolBudgetFacts.Call name (t_risk_level t) (request_id c) (user_id c) (session_id c)].
    intros l. unfold ToolBudgetFacts.run_ops. cbn [foldl ToolBudgetFacts.run_op]. rewrite E.
    destruct (is_ok r); [done | by rewrite app_nil_r]. }
  destruct (ToolBudget.check_and_record _ _ _ _ _ _ _ _) as [[status|e] s'] eqn:E; specialize (Hb _ _ eq_refl);
    cbn [is_ok] in Hb.
  - pose proof (keeps_budget_emit s' "tool_budget_recorded") as Hk.
    match goal with |- context [emit _ ?payload _] => specialize (Hk payload (set_budget s' x) eq_refl) end.
    edestruct trace_emit as (x2 & E2 & He). rewrite E2 in Hk |- *. pose proof (trace_trans _ _ _ _ _ _ _ _ _ Hb He) as H.
    rewrite !app_nil_r in H. split; [done|]. exists status. by rewrite Hk.
  - destruct e as [m|m|m|m|m|m|cls m|m|tc m|info|m pr|m ? ? ?]; try exact Hb.
    destruct (String.eqb cls "ToolBudgetExceededError"); cbn [negb]; [|exact Hb].
    edestruct trace_emit as (x2 & -> & He). exact (trace_trans _ _ _ _ _ _ _ _ _ Hb He).
Qed.

(** The invocation of a handler. *)
Definition run_of (t : ToolDefinition) (args : pydict) : invocation :=
  Invocation t args (match sandbox, t_execution_target t with Some _, Some _ => true | _, _ => false end).

Lemma run_tool_cases t args c x :
  let '(_, x') := run_tool sandbox run_handler run_sandbox t args c x in trace x x' [] [] [run_of t args].
Proof.
  unfold run_tool, bind, gets, modify, lift. constructor; simpl; try done; [by exists []|].
  exists []. intros. by rewrite app_nil_r.
Qed.

(** ** One call *)

Definition needs_approval (t : ToolDefinition) (args : pydict) (d : AutonomyPolicy.AutonomyDecision) : bool :=
  IsolationPolicy.requires_approval (IsolationPolicy.evaluate policy t args) || AutonomyPolicy.d_requires_approval d.

(** The gates a call passed on its way from [x] to [x'], where its handler has
    run; [es] are the events of the permission manager in between. *)
Record cleared_call (x x' : executor) (t : ToolDefinition) (name : string) (args : pydict) (c : caller)
    (ids : list string) (action_class : option string) (es : list PermissionFacts.event) : Prop := {
  cc_tool : get_tool name (x_registry x) = Some t;
  cc_breaker : breaker_clear x (t_risk_level t) (normalize_tool_action_class action_class) c;
  cc_isolation : IsolationPolicy.allow (IsolationPolicy.evaluate policy t args) = true;
  cc_autonomy : exists d, AutonomyPolicy.evaluate str_format autonomy_policy name (t_risk_level t) = Ok d
    /\ AutonomyPolicy.d_allow d = true
    /\ (needs_approval t args d = true -> approval_settled x x' t ids name args c es);
  cc_budget : exists status, ToolBudget.check_and_record monotonic limits name (t_risk_level t) (request_id c) (user_id c)
                              (session_id c) (x_budget x) = (Ok status, x_budget x') }.

(** What a call does: it is refused and no handler runs, or it cleared every
    gate, was charged to the budget, and its handler ran once. *)
Definition call_effect (x x' : executor) (refused : bool) (name : string) (args : pydict) (c : caller) (ids : list string)
    (action_class : option string) : Prop :=
  exists es, no_approval es
  /\ ((trace x x' es [] [] /\ refused = true)
      \/ exists t, trace x x' es [charge x t name c] [run_of t args]
                   /\ cleared_call x x' t name args c ids action_class es).

Lemma refused_effect x x' es name args c ids ac :
  trace x x' es [] [] -> no_approval es -> call_effect x x' true name args c ids ac.
Proof. intros Ht Hn. exists es. split; [done|]. by left. Qed.

Lemma emitted_refusal {A} ev payload e x name args c ids ac :
  let '(r, x') := (emit ev payload ;;; @raise _ A e) x in call_effect x x' (negb (is_ok r)) name args c ids ac.
Proof. unfold bind. edestruct trace_emit as (x' & -> & Ht). eapply refused_effect; [exact Ht | constructor]. Qed.

(** The part after the gates: approval, budget, handler. *)
Lemma approval_phase t name args c pid pids reason scope ttl ac d x :
  PermissionFacts.prompts_wf (x_permissions x) ->
  match (if needs_approval t args d then obtain t name args c pid pids reason scope ttl ac else ret None) x with
  | (Ok _, x') => exists es, trace x x' es [] [] /\ no_approval es
      /\ (needs_approval t args d = true -> approval_settled x x' t (call_ids pid pids) name args c es)
      /\ x_budget x' = x_budget x
  | (Err _, x') => exists es, trace x x' es [] [] /\ no_approval es
  end.
Proof.
  intros Hw. destruct (needs_approval t args d).
  - pose proof (obtain_cases t name args c pid pids reason scope ttl ac x Hw) as H.
    pose proof (obtain_budget (x_budget x) t name args c pid pids reason scope ttl ac x eq_refl) as Hb.
    destruct (obtain _ _ _ _ _ _ _ _ _ _ x) as [[o|e] x']; destruct H as (es & H1 & H2 & H3);
      exists es; auto.
  - exists []. split; [apply trace_refl|]. by split; [constructor|].
Qed.

Lemma execute_effect name args c pid pids ac x :
  PermissionFacts.prompts_wf (x_permissions x) ->
  let '(r, x') := exec name args c pid pids ac x in
  call_effect x x' (negb (is_ok r)) name args c (call_ids pid pids) ac.
Proof.
  intros Hw. unfold execute. unfold bind at 1, gets.
  destruct (get_tool name (x_registry x)) as [t|] eqn:Et; [|eapply refused_effect; [apply trace_refl | constructor]].
  unfold bind at 1. pose proof (boundary_cases name (t_risk_level t) (normalize_tool_action_class ac) c x) as Hb.
  destruct (enforce_autonomous_breaker_boundary _ _ _ _ _ x) as [[[]|e] x1];
    [destruct Hb as [-> Hb] | eapply refused_effect; [apply Hb | constructor]].
  unfold bind at 1, lift. destruct (AutonomyPolicy.evaluate str_format autonomy_policy name (t_risk_level t)) as [d|e] eqn:Ed;
    [|eapply refused_effect; [apply trace_refl | constructor]].
  destruct (AutonomyPolicy.d_allow d) eqn:Eallow; cbn [negb]; [|apply emitted_refusal].
  destruct (IsolationPolicy.allow (IsolationPolicy.evaluate policy t args)) eqn:Eiso; cbn [negb]; [|apply emitted_refusal].
  cbv zeta. fold (needs_approval t args d). unfold bind at 1.
  match goal with |- context [obtain t name args c pid pids ?reason ?scope ?ttl ?act] =>
    pose proof (approval_phase t name args c pid pids reason scope ttl act d x Hw) as Ha end.
  match type of Ha with match ?m with _ => _ end => destruct m as [[prompt|e] x1] end; [destruct Ha as (es & Ht & Hn & Hset & Hbud) | destruct Ha as (es & Ht & Hn)].
  2: by eapply refused_effect.
  unfold bind at 1. pose proof (charge_cases t name c (normalize_tool_action_class ac) x1) as Hc.
  destruct (charge_budget _ _ _ t name c _ x1) as [[[]|e] x2].
  2: { eapply refused_effect; [|exact Hn]. pose proof (trace_trans _ _ _ _ _ _ _ _ _ Ht Hc) as H. by rewrite app_nil_r in H. }
  destruct Hc as [Hc [status Hst]]. unfold charge in Hc. rewrite Hbud in Hc, Hst. fold (charge x t name c) in Hc.
  unfold bind, try_except. pose proof (run_tool_cases t args c x2) as Hr.
  assert (x_budget (snd (run_tool sandbox run_handler run_sandbox t args c x2)) = x_budget x2) as Hb3 by done.
  destruct (run_tool _ _ _ t args c x2) as [r x3]. cbn [snd] in Hb3.
  pose proof (trace_trans _ _ _ _ _ _ _ _ _ (trace_trans _ _ _ _ _ _ _ _ _ Ht Hc) Hr) as H. rewrite !app_nil_r in H.
  assert (x_permissions x3 = x_permissions x1) as Hp3 by (rewrite (trace_no_events _ _ _ _ Hr); exact (trace_no_events _ _ _ _ Hc)).
  assert (cleared_call x x3 t name args c (call_ids pid pids) ac es) as Hclear.
  { constructor; [done | done | done | | exists status; by rewrite Hb3]. exists d. split; [done|]. split; [done|].
    unfold approval_settled. rewrite Hp3. exact Hset. }
  destruct r; (exists es; split; [done|]; right; by exists t).
Qed.

(** ** Histories *)

(** The calls on the executor and what others do between them: tools are
    registered, plugins discovered, the breaker changes. *)
Inductive op : Type :=
  | Execute (name : string) (arguments : pydict) (c : caller) (permission_id : option string)
      (permission_ids : option (list string)) (action_class : option string)
  | ApprovePrompt (prompt_id : string)
  | DenyPrompt (prompt_id : string)
  | ListPrompts (status : option string) (limit : Z)
  | DebugView (c : caller) (scopes_limit top_tools_limit : Z)
  | RegisterTool (t : ToolDefinition)
  | DiscoverPlugins (hmac : string -> string -> string) (dirs : option (list plugin_dir))
  | SetBreaker (b : option CircuitBreaker.breaker).

Definition set_registry (r : registry) (x : executor) : executor :=
  Executor r (x_breaker x) (x_permissions x) (x_budget x) (x_telemetry x) (x_runs x).
Definition set_breaker (b : option CircuitBreaker.breaker) (x : executor) : executor :=
  Executor (x_registry x) b (x_permissions x) (x_budget x) (x_telemetry x) (x_runs x).

(** The state after a call, and the approvals the operator gave in it. *)
Definition run_op (o : op) (x : executor) : nat * executor :=
  match o with
  | Execute name args c pid pids ac => (O, snd (exec name args c pid pids ac x))
  | ApprovePrompt k =>
      let '(r, x') := approve_permission_prompt clock k x in (if is_ok r then 1%nat else O, x')
  | DenyPrompt k => (O, snd (deny_permission_prompt clock k x))
  | ListPrompts st lim => (O, snd (list_permission_prompts clock st lim x))
  | DebugView c sl tl =>
      (O, snd (debug_guardrails monotonic limits policy autonomy_policy approval_enforcement_mode sandbox c sl tl x))
  | RegisterTool t => (O, set_registry (snd (register t (x_registry x))) x)
  | DiscoverPlugins hmac dirs => (O, set_registry (snd (discover_plugins hmac dirs (x_registry x))) x)
  | SetBreaker b => (O, set_breaker b x)
  end.

Fixpoint run_history (ops : list op) (x : executor) : nat * executor :=
  match ops with
  | [] => (O, x)
  | o :: ops' =>
      let '(n, x1) := run_op o x in
      let '(m, x2) := run_history ops' x1 in ((n + m)%nat, x2)
  end.

(** An executor in a fresh process. *)
Definition fresh (c u b : nat) (r : registry) (br : option CircuitBreaker.breaker) : executor :=
  Executor r br (PermissionFacts.empty_state c u) (ToolBudget.State [] b) [] [].

(** *** The invariant *)

Definition approved_ids (es : list PermissionFacts.event) : list string :=
  omap (fun e => match e with PermissionFacts.Approved k => Some k | _ => None end) es.

(** Runs that must wait for an operator. *)
Definition gated (i : invocation) : bool :=
  IsolationPolicy.high_or_critical (IsolationPolicy.normalize_risk (i_tool i))
  || String.eqb (t_approval_mode (i_tool i)) "required".

(** An entry of the budget pays for a run. *)
Definition pays (i : invocation) (e : string * ToolBudget.ToolCallRecord) : Prop :=
  ToolBudget.r_tool_name (snd e) = strip (t_name (i_tool i))
  /\ ToolBudget.r_risk_level (snd e) = lower (strip (str_or (t_risk_level (i_tool i)) "low")).

(** The history of the parts that explains an executor. *)
Record explained (c u b : nat) (x : executor) (es : list PermissionFacts.event) (charged : ToolBudgetFacts.log) :
    Prop := {
  ex_keyed : ToolRegistryFacts.well_keyed (x_registry x);
  ex_permissions : exists ops, perm_ops ops (PermissionFacts.empty_state c u) = (es, x_permissions x);
  ex_budget : exists ops, budget_ops ops ([], ToolBudget.State [] b) = (charged, x_budget x);
  ex_pays : Forall2 pays (x_runs x) charged;
  ex_gated : (length (List.filter gated (x_runs x)) <= length (consumed_ids es))%nat }.

Lemma explained_wf c u b x es ch : explained c u b x es ch -> PermissionFacts.prompts_wf (x_permissions x).
Proof.
  intros [_ [ops Hp] _ _ _].
  pose proof (PermissionFacts.run_ops_wf clock uuid sha256_hexdigest default_ttl_sec ops _ (PermissionFacts.empty_wf c u)) as H.
  by rewrite Hp in H.
Qed.

(** A step with a trace extends the explanation. *)
Lemma explained_trace c u b x x' es ch es' ch' rs :
  explained c u b x es ch -> trace x x' es' ch' rs -> Forall2 pays rs ch' ->
  (length (List.filter gated rs) <= length (consumed_ids es'))%nat ->
  explained c u b x' (es ++ es') (ch ++ ch').
Proof.
  intros [Hk [po Hp] [bo Hb] Hpay Hg] [T1 _ [po' Tp] [bo' Tb] Tr] Hpay' Hg'. constructor.
  - by rewrite T1.
  - exists (po ++ po'). rewrite PermissionFacts.run_ops_app, Hp. cbn [fst snd]. by rewrite Tp.
  - exists (bo ++ bo'). unfold ToolBudgetFacts.run_ops in *. by rewrite foldl_app, Hb, Tb.
  - rewrite Tr. by apply Forall2_app.
  - rewrite Tr, List.filter_app, length_app. unfold consumed_ids in *. rewrite omap_app, length_app. lia.
Qed.

Lemma gated_blocks t args ids name c x x' es :
  gated (run_of t args) = true -> approval_settled x x' t ids name args c es -> (1 <= length (consumed_ids es))%nat.
Proof.
  intros Hg [(k & _ & -> & _)|[Hm _]]; [simpl; lia|]. exfalso. unfold must_block_without_approval in Hm.
  apply orb_false_iff in Hm as [[_ Hr]%orb_false_iff Hq]. unfold gated, run_of in Hg. cbn [i_tool] in Hg.
  apply orb_true_iff in Hg as [Hg|Hg%String.eqb_eq]; [|by rewrite Hg in Hq].
  unfold IsolationPolicy.normalize_risk, IsolationPolicy.high_or_critical in Hg. cbv zeta in Hg.
  destruct (str_in _ ["low"; _; _; _]); [congruence | done].
Qed.

Lemma cleared_pays c u b x x' es ch y t name args cl ids ac es' :
  explained c u b x es ch -> cleared_call x x' t name args cl ids ac es' -> pays (run_of t args) (charge y t name cl).
Proof.
  intros Hx Hc. pose proof (ex_keyed _ _ _ _ _ _ Hx _ _ (cc_tool _ _ _ _ _ _ _ _ _ Hc)) as Hn. split; simpl; [|done]. by rewrite Hn.
Qed.

Lemma cleared_gated x x' t name args c ids ac es :
  cleared_call x x' t name args c ids ac es ->
  (length (List.filter gated [run_of t args]) <= length (consumed_ids es))%nat.
Proof.
  intros Hc. cbn [List.filter]. destruct (gated (run_of t args)) eqn:Eg; [|simpl; lia]. cbn [length].
  destruct (cc_autonomy _ _ _ _ _ _ _ _ _ Hc) as (d & _ & _ & Hset). eapply gated_blocks; [exact Eg|]. apply Hset.
  unfold needs_approval. rewrite IsolationFacts.allowed_needs_approval; [done | apply Hc|].
  unfold gated in Eg. cbn [i_tool run_of] in Eg. apply orb_true_iff in Eg as [?|?%String.eqb_eq]; auto.
Qed.

Lemma no_approval_ids es : no_approval es -> approved_ids es = [].
Proof. induction 1 as [|e es He _ IH]; [done|]. unfold approved_ids in *. simpl. by destruct e. Qed.

(** A call of the permission manager made for the operator. *)
Lemma permission_trace o x :
  trace x (set_permissions (snd (PermissionFacts.run_op clock uuid sha256_hexdigest default_ttl_sec o (x_permissions x))) x)
    [fst (PermissionFacts.run_op clock uuid sha256_hexdigest default_ttl_sec o (x_permissions x))] [] [].
Proof.
  constructor; simpl; try done.
  - exists [o]. simpl. by destruct (PermissionFacts.run_op _ _ _ _ o (x_permissions x)).
  - exists []. intros. by rewrite app_nil_r.
  - by rewrite app_nil_r.
Qed.

Definition explains (c u b n : nat) (x : executor) : Prop :=
  exists es charged, explained c u b x es charged /\ length (approved_ids es) = n.

Lemma explains_trace c u b n m x x' es' ch' rs :
  explains c u b n x -> trace x x' es' ch' rs ->
  (forall es ch, explained c u b x es ch -> Forall2 pays rs ch'
     /\ (length (List.filter gated rs) <= length (consumed_ids es'))%nat) ->
  length (approved_ids es') = m -> explains c u b (n + m) x'.
Proof.
  intros (es & ch & Hx & Hn) Ht H Hm. destruct (H es ch Hx) as [H1 H2].
  exists (es ++ es'), (ch ++ ch'). split; [by eapply explained_trace|].
  unfold approved_ids in *. rewrite omap_app, length_app. lia.
Qed.

(** A step without runs. *)
Lemma explains_quiet c u b n m x x' es' :
  explains c u b n x -> trace x x' es' [] [] -> length (approved_ids es') = m -> explains c u b (n + m) x'.
Proof. intros Hx Ht Hm. eapply explains_trace; [done | done| |done]. intros. split; [constructor | simpl; lia]. Qed.

Lemma explains_registry c u b n x r :
  explains c u b n x -> (ToolRegistryFacts.well_keyed (x_registry x) -> ToolRegistryFacts.well_keyed r) ->
  explains c u b n (set_registry r x).
Proof. intros (es & ch & [] & Hn) Hr. exists es, ch. split; [|done]. constructor; simpl; auto. Qed.

Lemma execute_explains c u b n name args cl pid pids ac x :
  explains c u b n x -> explains c u b (n + 0) (snd (exec name args cl pid pids ac x)).
Proof.
  intros Hx. pose proof Hx as (es0 & ch0 & H0 & _). pose proof (execute_effect name args cl pid pids ac x (explained_wf _ _ _ _ _ _ H0)) as H.
  destruct (exec name args cl pid pids ac x) as [r x']. destruct H as (es & Hno & [[Ht _]|(t & Ht & Hc)]); cbn [snd].
  - eapply explains_quiet; [done | exact Ht|]. by rewrite no_approval_ids.
  - eapply explains_trace; [done | exact Ht| |by rewrite no_approval_ids]. intros es1 ch1 H1.
    split; [|by eapply cleared_gated]. constructor; [by eapply cleared_pays | constructor].
Qed.

Lemma run_op_explains c u b n o x :
  explains c u b n x -> explains c u b (n + fst (run_op o x)) (snd (run_op o x)).
Proof.
  intros Hx. destruct o as [name args cl pid pids ac|k|k|st lim|cl sl tl|t|hmac dirs|br]; cbn [run_op].
  - by apply execute_explains.
  - pose proof (permission_trace (PermissionFacts.Approve k) x) as Ht. simpl in Ht.
    unfold approve_permission_prompt, on_permissions. destruct (PermissionManager.approve clock k (x_permissions x)) as [r s'].
    cbn [fst snd] in *. eapply explains_quiet; [done | exact Ht|]. by destruct (is_ok r).
  - pose proof (permission_trace (PermissionFacts.Deny k) x) as Ht. simpl in Ht.
    unfold deny_permission_prompt, on_permissions. destruct (PermissionManager.deny clock k (x_permissions x)) as [r s'].
    by eapply explains_quiet; [done | exact Ht|].
  - pose proof (permission_trace (PermissionFacts.ListPrompts st lim) x) as Ht. simpl in Ht.
    unfold list_permission_prompts, on_permissions.
    destruct (PermissionManager.list_prompts clock st lim (x_permissions x)) as [r s'].
    by eapply explains_quiet; [done | exact Ht|].
  - eapply (explains_quiet _ _ _ _ _ x _ []); [done| |done].
    unfold debug_guardrails, bind, gets, on_budget.
    destruct (ToolBudget.debug_snapshot _ _ _ _ _ _ _ _) as [r s'] eqn:E.
    assert (trace x (set_budget s' x) [] [] []) as Ht.
    { constructor; simpl; try done; [by exists []| |by rewrite app_nil_r].
      exists [ToolBudgetFacts.DebugView (request_id cl) (user_id cl) (session_id cl) sl tl].
      intros l. unfold ToolBudgetFacts.run_ops. cbn [foldl ToolBudgetFacts.run_op]. by rewrite E, app_nil_r. }
    by destruct r.
  - rewrite Nat.add_0_r. apply explains_registry; [done|]. apply (preserves_run _ _ _ (ToolRegistryFacts.register_keyed t)).
  - rewrite Nat.add_0_r. apply explains_registry; [done|]. apply (preserves_run _ _ _ (ToolRegistryFacts.discover_keyed hmac dirs)).
  - rewrite Nat.add_0_r. destruct Hx as (es & ch & [] & Hn). exists es, ch. by split; [constructor|].
Qed.

Lemma history_explains ops c u b n x :
  explains c u b n x -> explains c u b (n + fst (run_history ops x)) (snd (run_history ops x)).
Proof.
  revert n x. induction ops as [|o ops IH]; intros n x Hx; cbn [run_history]; [by rewrite Nat.add_0_r|].
  pose proof (run_op_explains c u b n o x Hx) as H1. destruct (run_op o x) as [m x1]. cbn [fst snd] in H1.
  specialize (IH _ _ H1). destruct (run_history ops x1) as [m2 x2]. cbn [fst snd] in *. by rewrite Nat.add_assoc.
Qed.

Lemma fresh_explains c u b r br : ToolRegistryFacts.well_keyed r -> explains c u b 0 (fresh c u b r br).
Proof.
  intros Hr. exists [], []. split; [|done]. constructor; simpl; [done | by exists [] | by exists [] | constructor | lia].
Qed.

(** The registry a process starts with. *)
Local Abbreviation started c u b key mode runtime br := (fresh c u b (ToolRegistry.init key mode runtime) br).

Lemma reachable_explains ops c u b key mode runtime br :
  explains c u b (fst (run_history ops (started c u b key mode runtime br)))
    (snd (run_history ops (started c u b key mode runtime br))).
Proof. by apply (history_explains ops c u b 0), fresh_explains. Qed.

(** ** The theorems *)

(** C4. A tool handler runs only for a call that every gate let through: in any
    state the executor can reach, [execute] leaves the handlers alone and
    fails, or the tool is registered, the circuit breaker does not hold the
    action back, the autonomy policy and the isolation policy allow it, the
    budget accepted and recorded it, and the handler runs exactly once; where
    approval is needed, a prompt named by the call, which was approved,
    unexpired and for this tool, these arguments and this caller, is consumed
    by the call and marked so afterwards, and no other, or neither the mode nor
    the tool demands to wait. *)
Theorem handler_runs_only_if_cleared ops c u b key mode runtime br name args cl pid pids ac :
  let x := snd (run_history ops (started c u b key mode runtime br)) in
  let '(r, x') := exec name args cl pid pids ac x in
  (x_runs x' = x_runs x /\ is_ok r = false)
  \/ exists t es, trace x x' es [charge x t name cl] [run_of t args]
                  /\ cleared_call x x' t name args cl (call_ids pid pids) ac es.
Proof.
  intros x. destruct (reachable_explains ops c u b key mode runtime br) as (es & ch & Hx & _). fold x in Hx.
  pose proof (execute_effect name args cl pid pids ac x (explained_wf _ _ _ _ _ _ Hx)) as H.
  destruct (exec name args cl pid pids ac x) as [r x']. destruct H as (es' & _ & [[Ht Hr]|(t & Ht & Hc)]).
  - left. split; [by rewrite (tr_runs _ _ _ _ _ Ht), app_nil_r | by apply negb_true_iff].
  - right. by exists t, es'.
Qed.

(** C5. Every run of a gated tool is paid for by an approval of its own: over
    any history of calls, prompts, plugin discoveries and breaker changes, the
    handlers of high-risk tools and of tools whose approval is required ran at
    most as often as the operator approved a prompt, whatever the enforcement
    mode, the policies and the identifiers the callers sent. *)
Theorem gated_runs_within_approvals ops c u b key mode runtime br :
  let '(granted, x) := run_history ops (started c u b key mode runtime br) in
  (length (List.filter gated (x_runs x)) <= granted)%nat.
Proof.
  pose proof (reachable_explains ops c u b key mode runtime br) as (es & ch & Hx & Hn).
  destruct (run_history ops _) as [granted x]. cbn [fst snd] in *.
  etrans; [apply Hx|]. rewrite <- Hn. apply occurrences_length. intros k.
  destruct (ex_permissions _ _ _ _ _ _ Hx) as [pops Hp].
  pose proof (PermissionFacts.consumptions_approvals clock uuid sha256_hexdigest default_ttl_sec pops c u k) as H.
  rewrite Hp in H. simpl in H. unfold PermissionFacts.consumptions, PermissionFacts.approvals in H.
  assert (forall es, length (List.filter (String.eqb k) (consumed_ids es))
            = length (List.filter (fun e => match e with PermissionFacts.Consumed k' => String.eqb k' k | _ => false end) es)) as E1.
  { clear. unfold consumed_ids. induction es as [|[k'|k'|] es IH]; simpl; try done. rewrite (String.eqb_sym k' k). destruct (String.eqb k k'); [simpl; f_equal|]; exact IH. }
  assert (forall es, length (List.filter (String.eqb k) (approved_ids es))
            = length (List.filter (fun e => match e with PermissionFacts.Approved k' => String.eqb k' k | _ => false end) es)) as E2.
  { clear. unfold approved_ids. induction es as [|[k'|k'|] es IH]; simpl; try done. rewrite (String.eqb_sym k' k). destruct (String.eqb k k'); [simpl; f_equal|]; exact IH. }
  rewrite E1, E2. exact H.
Qed.

(** The runs stay within the budget: over any history, each handler run is
    matched by one accepted entry of its tool and risk in the budget's log, in
    order and with nothing left over, and in every window the log keeps the
    limits of every scope. *)
Theorem runs_within_budget ops c u b key mode runtime br :
  (forall m n, (m <= n)%nat -> monotonic m <= monotonic n) ->
  0 <= ToolBudget.window_sec limits -> 0 <= ToolBudget.max_total_calls limits ->
  0 <= ToolBudget.max_calls_per_tool limits -> 0 <= ToolBudget.max_high_risk_calls limits ->
  exists charged, Forall2 pays (x_runs (snd (run_history ops (started c u b key mode runtime br)))) charged
    /\ ToolBudgetFacts.limits_hold limits charged.
Proof.
  intros Hm H1 H2 H3 H4. destruct (reachable_explains ops c u b key mode runtime br) as (es & ch & Hx & _).
  exists ch. split; [apply Hx|]. destruct (ex_budget _ _ _ _ _ _ Hx) as [bops Hb].
  pose proof (ToolBudgetFacts.run_ops_limits monotonic limits Hm bops b H1 H2 H3 H4) as H. by rewrite Hb in H.
Qed.

(** ** No false refusals *)

(** What the handler call comes to. *)
Definition handler_outcome (n : nat) (t : ToolDefinition) (args : pydict) (c : caller) : res pyval :=
  if i_sandboxed (run_of t args) then run_sandbox n t args c
  else match t_handler t with
       | InProcess id => run_handler n id args
       | SandboxProxy => Err (RuntimeError "Sandboxed plugin cannot execute in-process")
       end.

Definition call_answer (name : string) (outcome : res pyval) : res tool_result :=
  match outcome with
  | Ok v => Ok (Result name v None None)
  | Err e => Err (tool_error ("Tool '" +:+ name +:+ "' failed: " +:+ exn_str e))
  end.

(** The first identifier of the call opens the way. *)
Definition first_id_approved (name : string) (args : pydict) (c : caller) (pid : option string) (x : executor) : Prop :=
  exists k, pid = Some k /\ k <> "" /\ fst (consume k name args c x) = Ok true.

Lemma first_id_obtains t name args c pid pids reason scope ttl ac x :
  first_id_approved name args c pid x ->
  exists s', obtain t name args c pid pids reason scope ttl ac x = (Ok None, set_permissions s' x).
Proof.
  intros (k & -> & Hk & Hc). unfold obtain_approval, find_approval, bind. cbn [opt_str].
  rewrite str_or_none_some by done. unfold try_consume, on_permissions in *.
  destruct (PermissionManager.consume_if_approved _ _ _ _ _ _ _ _ _) as [r s']. cbn [fst] in Hc. subst r. by exists s'.
Qed.

Lemma emit_runs ev payload x : exists x', emit ev payload x = (Ok tt, x') /\ x_runs x' = x_runs x.
Proof. unfold emit_telemetry, when. destruct telemetry_attached; by eexists. Qed.

Lemma charge_accepted t name c ac x :
  is_ok (fst (ToolBudget.check_and_record monotonic limits name (t_risk_level t) (request_id c) (user_id c)
                (session_id c) (x_budget x))) = true ->
  exists x', charge_budget monotonic limits telemetry_attached t name c ac x = (Ok tt, x') /\ x_runs x' = x_runs x.
Proof.
  intros H. unfold charge_budget, try_except, bind, on_budget.
  destruct (ToolBudget.check_and_record _ _ _ _ _ _ _ _) as [[status|e] s']; [|done].
  edestruct emit_runs as (x' & -> & Ht). by exists x'.
Qed.

(** No false refusals: a call of a registered tool that the breaker, the
    autonomy policy and the isolation policy admit, that needs no approval or
    whose first identifier is an approved prompt for it, and for which the
    budget has room, runs its handler once and answers with the handler's
    value, or with a tool error that carries the handler's exception. *)
Theorem admitted_call_runs name args c pid pids ac x t d :
  get_tool name (x_registry x) = Some t ->
  breaker_clear x (t_risk_level t) (normalize_tool_action_class ac) c ->
  AutonomyPolicy.evaluate str_format autonomy_policy name (t_risk_level t) = Ok d -> AutonomyPolicy.d_allow d = true ->
  IsolationPolicy.allow (IsolationPolicy.evaluate policy t args) = true ->
  needs_approval t args d = false \/ first_id_approved name args c pid x ->
  is_ok (fst (ToolBudget.check_and_record monotonic limits name (t_risk_level t) (request_id c) (user_id c)
                (session_id c) (x_budget x))) = true ->
  let '(r, x') := exec name args c pid pids ac x in
  x_runs x' = x_runs x ++ [run_of t args]
  /\ r = call_answer name (handler_outcome (length (x_runs x)) t args c).
Proof.
  intros Ht Hb Hd Ha Hi Hap Hbud. unfold execute. unfold bind at 1, gets. rewrite Ht. unfold bind at 1.
  pose proof (boundary_cases name (t_risk_level t) (normalize_tool_action_class ac) c x) as Hbc.
  destruct (enforce_autonomous_breaker_boundary _ _ _ _ _ x) as [[[]|e] x0]; [destruct Hbc as [-> _] | by destruct Hbc].
  unfold bind at 1, lift. rewrite Hd, Ha, Hi. cbn [negb]. cbv zeta. fold (needs_approval t args d). unfold bind at 1.
  match goal with |- context [(if needs_approval t args d then ?m else ret None) x] =>
    assert (exists s', (if needs_approval t args d then m else ret None) x = (Ok None, set_permissions s' x)) as [s' ->] end.
  { destruct (needs_approval t args d); [|exists (x_permissions x); by destruct x].
    destruct Hap as [?|Hap]; [done|]. by apply first_id_obtains. }
  unfold bind at 1. edestruct (charge_accepted t name c (normalize_tool_action_class ac) (set_permissions s' x)) as (x1 & -> & Hr);
    [exact Hbud|].
  unfold bind, try_except, run_tool, bind, gets, modify, lift. cbn beta iota. cbn [x_runs set_permissions] in Hr.
  rewrite Hr. fold (handler_outcome (length (x_runs x)) t args c).
  change (if match sandbox, t_execution_target t with Some _, Some _ => true | _, _ => false end
          then run_sandbox (length (x_runs x)) t args c else _) with (handler_outcome (length (x_runs x)) t args c).
  by destruct (handler_outcome _ _ _ _).
Qed.

End facts.

(** ** Witnesses *)

Local Abbreviation demo_exec_args := [("code", PStr "print(1)")].
Local Abbreviation demo_caller := (Caller (Some "r1") (Some "alice") None (Some "s1")).
Local Abbreviation demo_tool risk :=
  (Tool "python_exec" "Run Python." [] (InProcess "python_exec") "builtin" risk "required" None "sandboxed" None).
Local Abbreviation demo_isolation := (IsolationPolicy.make None "balanced" None 10 4000 true None None).
Local Abbreviation demo_pack :=
  (match AutonomyPolicy.load_autonomy_policy_pack "default.json"
           (AutonomyPolicy.Document AutonomyPolicy.default_pack_document) with
   | Ok p => p
   | Err _ => AutonomyPolicy.Pack 0 "" "" [] ""
   end).
Local Abbreviation demo_autonomy := (AutonomyPolicy.Policy "l3" demo_pack).
Local Abbreviation demo_history ops := (run_history PermissionFacts.demo_clock PermissionFacts.demo_uuid (fun text => text) 600
  ToolBudgetFacts.demo_clock ToolBudgetFacts.demo_limits (fun _ _ => None) demo_isolation demo_autonomy
  "prompt_and_allow" None true (fun _ id _ => Ok (PStr id)) (fun _ _ _ _ => Ok PNone) ops
  (fresh 0 0 0 (ToolRegistry.init None "warn" "sandboxed") None)).
Local Abbreviation demo_ops :=
  [RegisterTool (demo_tool "high");
   Execute "python_exec" demo_exec_args demo_caller None None None;
   ApprovePrompt "p0";
   Execute "python_exec" demo_exec_args demo_caller (Some "p0") None (Some "autonomous_agent");
   Execute "python_exec" demo_exec_args demo_caller (Some "p0") None None].

(** One approval, one run: the call without a prompt and the repeated call are
    refused. *)
Example approved_once_runs_once :
  fst (demo_history demo_ops) = 1%nat /\ length (x_runs (snd (demo_history demo_ops))) = 1%nat.
Proof. vm_compute. auto. Qed.

Lemma runs_within_budget_witness :
  exists charged, Forall2 pays (x_runs (snd (demo_history demo_ops))) charged
    /\ ToolBudgetFacts.limits_hold ToolBudgetFacts.demo_limits charged.
Proof.
  apply (runs_within_budget PermissionFacts.demo_clock PermissionFacts.demo_uuid (fun text => text) 600
    ToolBudgetFacts.demo_clock ToolBudgetFacts.demo_limits (fun _ _ => None) demo_isolation demo_autonomy
    "prompt_and_allow" None true (fun _ id _ => Ok (PStr id)) (fun _ _ _ _ => Ok PNone) demo_ops 0 0 0).
  - exact ToolBudgetFacts.demo_clock_mono.
  - vm_compute. discriminate.
  - vm_compute. discriminate.
  - vm_compute. discriminate.
  - vm_compute. discriminate.
Defined.

Local Abbreviation echo := (Tool "echo" "Echo." [] (InProcess "echo") "local" "low" "none" None "restricted" None).
Local Abbreviation echo_state := (fresh 0 0 0 (Registry [("echo", echo)] None "warn" "sandboxed" []) None).
Local Abbreviation echo_handler := (fun (_ : nat) (id : string) (_ : pydict) => Ok (PStr id)).
Local Abbreviation echo_sandbox := (fun (_ : nat) (_ : ToolDefinition) (_ : pydict) (_ : caller) => Ok PNone).

Lemma admitted_call_runs_witness :
  let '(r, x') := execute PermissionFacts.demo_clock PermissionFacts.demo_uuid (fun text => text) 600
    ToolBudgetFacts.demo_clock ToolBudgetFacts.demo_limits (fun _ _ => None) demo_isolation demo_autonomy
    "prompt_and_allow" None true echo_handler echo_sandbox "echo" [] demo_caller None None None echo_state in
  x_runs x' = x_runs echo_state ++ [run_of None echo []]
  /\ r = call_answer "echo" (handler_outcome None echo_handler echo_sandbox (length (x_runs echo_state)) echo [] demo_caller).
Proof.
  apply (admitted_call_runs PermissionFacts.demo_clock PermissionFacts.demo_uuid (fun text => text) 600
    ToolBudgetFacts.demo_clock ToolBudgetFacts.demo_limits (fun _ _ => None) demo_isolation demo_autonomy
    "prompt_and_allow" None true echo_handler echo_sandbox "echo" [] demo_caller None None None echo_state echo
    (AutonomyPolicy.Decide true false None None None)).
  - reflexivity.
  - intros Hh. vm_compute in Hh. discriminate Hh.
  - vm_compute. reflexivity.
  - reflexivity.
  - vm_compute. reflexivity.
  - left. vm_compute. reflexivity.
  - vm_compute. reflexivity.
Defined.

End ToolExecutorFacts.
