(* ===== verification/ToolCallFacts.v ===== *)
(** Facts about reading a tool call out of model output
    (tools/tool_executor.py, [parse_tool_call]). *)

From stdpp Require Import prelude strings list.
From Stdlib Require Import Lia ZArith Ascii.
From S2P Require Import Prelude PyStr PyVal PyRegex ToolExecutor.
Import ToolExecutor.

Module ToolCallFacts.

(** ** What the pieces of the pattern match *)

Lemma str_length_app s t : String.length (s +:+ t) = (String.length s + String.length t)%nat.
Proof. induction s as [|c s IH]; [done|]. rewrite str_app_cons. simpl. lia. Qed.

Lemma substring_app s t : String.substring 0 (String.length s) (s +:+ t) = s.
Proof. induction s as [|c s IH]; [by destruct t|]. rewrite str_app_cons. simpl. by rewrite IH. Qed.

Lemma match_text t p q : rmatch (RText t) p q <-> rest p = t +:+ rest q /\ captured q = captured p
  /\ before q = last_c (before p) t.
Proof.
  revert p. induction t as [|c t IH]; intros p; cbn [RText].
  - split; [inversion 1; by subst|]. change ("" +:+ rest q) with (rest q). destruct p, q. simpl. intros (-> & -> & ->).
    constructor.
  - split.
    + inversion 1 as [| | |? ? ? u ? H1 H2| | | | |]; subst. apply IH in H2 as (E1 & E2 & E3).
      inversion H1 as [f b x s g Hx| | | | | | | |]; subst. simpl in *. apply Ascii.eqb_eq in Hx as <-. by subst.
    + destruct p as [b s g]. simpl. rewrite str_app_cons. intros (-> & E2 & E3).
      apply MCat with (Pos (Some c) (t +:+ rest q) g).
      * constructor. apply Ascii.eqb_refl.
      * by apply IH.
Qed.

Lemma match_star f p q :
  rmatch (RStar (RChar f)) p q <-> exists w, all_chars f w = true /\ rest p = w +:+ rest q /\ captured q = captured p
  /\ before q = last_c (before p) w.
Proof.
  split.
  - intros H. remember (RStar (RChar f)) as r eqn:Er. revert Er.
    induction H as [| | | | | |r p|r p q u H1 _ Hs H2 IH|]; try done; intros [= ->].
    + by exists "".
    + inversion H1 as [f' b x s g Hx| | | | | | | |]; subst. destruct (IH eq_refl) as (w & Hw & E1 & E2 & E3).
      exists (String x w). simpl in *. rewrite Hx, Hw, E1, str_app_cons. done.
  - intros (w & Hw & E1 & E2 & E3). revert p E1 E2 E3. induction w as [|c w IH]; intros [b s g] E1 E2 E3; simpl in *.
    + destruct q as [b' s' g']. simpl in *. change ("" +:+ s') with s' in E1. subst. constructor.
    + apply andb_true_iff in Hw as [Hc Hw]. rewrite str_app_cons in E1. subst s.
      apply MStarMore with (Pos (Some c) (w +:+ rest q) g); [by constructor | apply shorter_lt; simpl; lia|]. by apply IH.
Qed.

Lemma match_cat r1 r2 p q : rmatch (RCat r1 r2) p q <-> exists u, rmatch r1 p u /\ rmatch r2 u q.
Proof. split; [inversion 1; subst; by eexists | intros (u & ? & ?); by econstructor]. Qed.

Lemma match_group r p q : rmatch (RGroup r) p q <-> exists u, rmatch r p u /\ q = capture p u.
Proof. split; [inversion 1; subst; by eexists | intros (u & ? & ->); by constructor]. Qed.

Definition spaces (w : string) : Prop := all_chars is_space w = true.

(** A body of a tool call: an object literal by its first and last
    character. *)
Definition braced (body : string) : Prop := exists inner, body = "{" +:+ inner +:+ "}".

(** The shape of a text that calls a tool. *)
Definition wraps (text body : string) : Prop :=
  exists w1 w2 w3 w4, spaces w1 /\ spaces w2 /\ spaces w3 /\ spaces w4 /\ braced body
    /\ text = w1 +:+ "<tool_call>" +:+ w2 +:+ body +:+ w3 +:+ "</tool_call>" +:+ w4.

Lemma all_any w : all_chars (fun _ => true) w = true.
Proof. by induction w. Qed.

Lemma match_braced p u :
  rmatch (RSeq [RText "{"; RStar RAny; RText "}"]) p u <->
  exists body, braced body /\ rest p = body +:+ rest u /\ captured u = captured p /\ before u = last_c (before p) body.
Proof.
  cbn [RSeq].
  assert (forall o a b, last_c o (a +:+ b) = last_c (last_c o a) b) as Hl.
  { intros o a b. revert o. induction a as [|c a IH]; intros o; [done|]. rewrite str_app_cons. simpl. apply IH. }
  split.
  - intros (u1 & (E1 & C1 & B1)%match_text & (u2 & (w & _ & E2 & C2 & B2)%match_star & (E3 & C3 & B3)%match_text)%match_cat)%match_cat.
    exists ("{" +:+ w +:+ "}"). split; [by exists w|]. rewrite E1, E2, E3, !str_app_assoc.
    split; [done|]. split; [congruence|]. rewrite B3, B2, B1, <- str_app_assoc, !Hl. done.
  - intros (body & (w & ->) & E & C & B). apply match_cat.
    exists (Pos (last_c (before p) "{") (w +:+ "}" +:+ rest u) (captured p)).
    split; [apply match_text; rewrite E, !str_app_assoc; done|]. apply match_cat.
    exists (Pos (last_c (last_c (before p) "{") w) ("}" +:+ rest u) (captured p)). split.
    + apply match_star. exists w. split; [apply all_any | done].
    + apply match_text. cbn [rest captured before]. split; [done|]. split; [done|]. by rewrite B, !Hl.
Qed.

(** The pattern reaches the end of a text exactly when the text wraps what the
    group captured. *)
Lemma pattern_wraps text body :
  (exists q, rmatch TOOL_CALL_PATTERN (start text) q /\ rest q = "" /\ captured q = Some body) <-> wraps text body.
Proof.
  unfold TOOL_CALL_PATTERN, RSpaces, wraps, spaces. cbn [RSeq]. split.
  - intros (q & H & Hq & Hc).
    apply match_cat in H as (u1 & H1 & (u2 & H2 & (u3 & H3 & (u4 & H4 & (u5 & H5 & (u6 & H6
      & H7)%match_cat)%match_cat)%match_cat)%match_cat)%match_cat).
    apply match_star in H1 as (w1 & W1 & E1 & C1 & _). apply match_text in H2 as (E2 & C2 & _).
    apply match_star in H3 as (w2 & W2 & E3 & C3 & _). apply match_group in H4 as (v & H4 & ->).
    apply (match_braced u3 v) in H4 as (b & Hb & E4 & _ & _).
    apply match_star in H5 as (w3 & W3 & E5 & C5 & _). apply match_text in H6 as (E6 & C6 & _).
    apply match_star in H7 as (w4 & W4 & E7 & C7 & _). unfold capture, text_between in *. cbn [rest captured start] in *.
    assert (b = body) as ->.
    { rewrite C7, C6, C5 in Hc. injection Hc as <-. rewrite E4, str_length_app.
      replace (String.length b + String.length (rest v) - String.length (rest v))%nat with (String.length b) by lia.
      by rewrite substring_app. }
    exists w1, w2, w3, w4. repeat (split; [done|]). rewrite E1, E2, E3, E4, E5, E6, E7, Hq, str_app_nil_r. done.
  - intros (w1 & w2 & w3 & w4 & W1 & W2 & W3 & W4 & Hb & ->).
    set (s3 := body +:+ w3 +:+ "</tool_call>" +:+ w4). set (s5 := "</tool_call>" +:+ w4).
    set (p1 := Pos (last_c None w1) ("<tool_call>" +:+ w2 +:+ s3) None).
    set (p2 := Pos (last_c (before p1) "<tool_call>") (w2 +:+ s3) None).
    set (p3 := Pos (last_c (before p2) w2) s3 None).
    set (v := Pos (last_c (before p3) body) (w3 +:+ s5) None).
    set (p4 := capture p3 v).
    set (p5 := Pos (last_c (before p4) w3) s5 (captured p4)).
    set (p6 := Pos (last_c (before p5) "</tool_call>") w4 (captured p4)).
    set (q := Pos (last_c (before p6) w4) "" (captured p4)).
    exists q. split; [|split; [done|]].
    + apply match_cat. exists p1. split; [apply match_star; by exists w1|].
      apply match_cat. exists p2. split; [by apply match_text|].
      apply match_cat. exists p3. split; [apply match_star; by exists w2|].
      apply match_cat. exists p4. split; [apply match_group; exists v; split; [|done]; apply match_braced; by exists body|].
      apply match_cat. exists p5. split; [apply match_star; by exists w3|].
      apply match_cat. exists p6. split; [by apply match_text|].
      apply match_star. exists w4. split; [done|]. split; [by rewrite str_app_nil_r | done].
    + change (Some (text_between p3 v) = Some body). f_equal. unfold text_between, p3, v. cbn [rest]. unfold s3, s5.
      rewrite str_length_app.
      replace (String.length body + String.length (w3 +:+ "</tool_call>" +:+ w4) - String.length (w3 +:+ "</tool_call>" +:+ w4))%nat
        with (String.length body) by lia.
      apply substring_app.
Qed.

(** ** The body is determined by the text *)

Lemma str_app_inj_l s t u : s +:+ t = s +:+ u -> t = u.
Proof. induction s as [|c s IH]; [done|]. rewrite !str_app_cons. intros [= H]. auto. Qed.

Lemma str_app_inj_r s t u : s +:+ u = t +:+ u -> s = t.
Proof.
  revert t. induction s as [|c s IH]; intros [|c' t] H; [done| | |].
  - apply (f_equal String.length) in H. rewrite str_app_cons in H. change ("" +:+ u) with u in H.
    simpl in H. rewrite str_length_app in H. lia.
  - apply (f_equal String.length) in H. rewrite str_app_cons in H. change ("" +:+ u) with u in H.
    simpl in H. rewrite str_length_app in H. lia.
  - rewrite !str_app_cons in H. injection H as -> H. f_equal. auto.
Qed.

Lemma lstrip_spaces w s : spaces w -> lstrip_by is_space (w +:+ s) = lstrip_by is_space s.
Proof.
  unfold spaces. induction w as [|c w IH]; [done|]. cbn [all_chars]. intros [Hc Hw]%andb_true_iff.
  rewrite str_app_cons. cbn [lstrip_by]. rewrite Hc. auto.
Qed.

Lemma rstrip_spaces s w : spaces w -> rstrip_by is_space (s +:+ w) = rstrip_by is_space s.
Proof.
  unfold spaces. intros Hw. induction s as [|c s IH].
  - change ("" +:+ w) with w. induction w as [|c w IHw]; [done|]. simpl in *. apply andb_true_iff in Hw as [Hc Hw].
    by rewrite (IHw Hw), Hc.
  - rewrite str_app_cons. simpl. by rewrite IH.
Qed.

(** Padding around a text that starts and ends with visible characters is
    what [strip] removes. *)
Lemma strip_padding a s c w1 w2 :
  spaces w1 -> spaces w2 -> is_space a = false -> is_space c = false ->
  strip (w1 +:+ String a (s +:+ String c "") +:+ w2) = String a (s +:+ String c "").
Proof.
  intros H1 H2 Ha Hc. unfold strip, strip_by. rewrite str_app_assoc, rstrip_spaces by done.
  rewrite <- (str_app_cons a s), str_app_assoc, rstrip_snoc by done.
  rewrite <- str_app_assoc, lstrip_spaces by done. rewrite str_app_cons. simpl. by rewrite Ha.
Qed.

Lemma braced_strip body w1 w2 : braced body -> spaces w1 -> spaces w2 -> strip (w1 +:+ body +:+ w2) = body.
Proof. intros [inner ->] H1 H2. by apply (strip_padding "{" inner "}"). Qed.

Lemma braced_stripped body : braced body -> strip body = body.
Proof. intros H. pose proof (braced_strip body "" "" H eq_refl eq_refl) as E. by rewrite str_app_nil_r in E. Qed.

Lemma wraps_strip text body :
  wraps text body ->
  exists mid, strip text = "<tool_call>" +:+ mid +:+ "</tool_call>" /\ strip mid = body.
Proof.
  intros (w1 & w2 & w3 & w4 & H1 & H2 & H3 & H4 & Hb & ->). exists (w2 +:+ body +:+ w3). split.
  - pose proof (strip_padding "<" ("tool_call>" +:+ (w2 +:+ body +:+ w3) +:+ "</tool_call") ">" w1 w4 H1 H4 eq_refl eq_refl) as E.
    assert (String "<" (("tool_call>" +:+ (w2 +:+ body +:+ w3) +:+ "</tool_call") +:+ String ">" "")
            = "<tool_call>" +:+ (w2 +:+ body +:+ w3) +:+ "</tool_call>") as Et.
    { rewrite <- !str_app_assoc. done. }
    rewrite Et in E. rewrite <- E at 1. f_equal. rewrite <- !str_app_assoc. done.
  - by apply braced_strip.
Qed.

Lemma wraps_unique text b1 b2 : wraps text b1 -> wraps text b2 -> b1 = b2.
Proof.
  intros (m1 & E1 & <-)%wraps_strip (m2 & E2 & <-)%wraps_strip. rewrite E1 in E2.
  apply str_app_inj_l, str_app_inj_r in E2. by subst.
Qed.

(** The data of a tool call. *)
Definition call_data (data : pydict) : Prop :=
  exists name args, d_get "name" data = Some (PStr name) /\ d_get "arguments" data = Some (PDict args).

(** C30. [parse_tool_call] is exact: it returns an object precisely when the
    text, up to white space, is one [<tool_call>] element around a body in
    braces that [json.loads] reads as that object, with a string [name] and an
    object [arguments]. *)
Theorem parse_tool_call_exact json_loads text data :
  parse_tool_call json_loads (Some text) = Some data
  <-> exists body, wraps text body /\ json_loads body = Some (PDict data) /\ call_data data.
Proof.
  unfold parse_tool_call. cbn [opt_str].
  assert (forall body, braced body ->
    match json_loads (strip body) with
    | Some (PDict d) => match d_get "name" d, d_get "arguments" d with
                        | Some (PStr _), Some (PDict _) => Some d | _, _ => None end
    | _ => None
    end = Some data <-> json_loads body = Some (PDict data) /\ call_data data) as Hj.
  { intros body Hb. rewrite (braced_stripped body Hb). unfold call_data. split.
    - intros H. destruct (json_loads body) as [[| | | | | |d]|]; try done.
      destruct (d_get "name" d) as [[| | | |n| |]|] eqn:En; try done.
      destruct (d_get "arguments" d) as [[| | | | | |a]|] eqn:Ea; try done. injection H as ->. split; [done|]. by exists n, a.
    - intros (-> & n & a & -> & ->). done. }
  destruct (fullmatch TOOL_CALL_PATTERN text) as [q|] eqn:E.
  - apply fullmatch_some in E as [Hm Hq].
    assert (exists body, captured q = Some body /\ wraps text body) as (body & Hc & Hw).
    { destruct (captured q) as [body|] eqn:Ec.
      - exists body. split; [done|]. apply pattern_wraps. by exists q.
      - exfalso. revert Hm. unfold TOOL_CALL_PATTERN, RSpaces. cbn [RSeq].
        intros (u1 & _ & (u2 & _ & (u3 & _ & (u4 & (v & _ & ->)%match_group & (u5 & (w3 & _ & _ & C5 & _)%match_star & (u6
          & (_ & C6 & _)%match_text & (w4 & _ & _ & C7 & _)%match_star)%match_cat)%match_cat)%match_cat)%match_cat)%match_cat)%match_cat.
        rewrite C7, C6, C5 in Ec. done. }
    rewrite Hc. cbn [opt_str]. rewrite Hj by (by destruct Hw as (? & ? & ? & ? & _ & _ & _ & _ & ? & _)).
    split; [by exists body|]. intros (b & Hb & H). by rewrite (wraps_unique _ _ _ Hw Hb).
  - split; [done|]. intros (body & Hw%pattern_wraps & _). destruct Hw as (q & Hm & Hq & _).
    by apply (fullmatch_none _ _ _ E) in Hm.
Qed.

(** The instruction the model is given shows an element of that shape. *)
Example parses_a_call :
  parse_tool_call (fun t => if String.eqb t "{call}" then Some (PDict [("name", PStr "echo"); ("arguments", PDict [])]) else None)
    (Some " <tool_call> {call} </tool_call> ") = Some [("name", PStr "echo"); ("arguments", PDict [])].
Proof. vm_compute. reflexivity. Qed.

End ToolCallFacts.
