(* ===== verification/PyFloatOps.v ===== *)
(** Arithmetic on Python floats and the texts the code prints for them:
    [+], [-], [*], [/] on integers, [min], [round(x, n)], [f"{x:.2f}"] and
    [repr(x)].  Results are rounded to binary64 by the Standard Library's
    [SpecFloat]; the two zeros are one value. *)

From stdpp Require Import prelude strings list.
From Stdlib Require Import Lia ZArith Ascii SpecFloat.
From S2P Require Import Prelude PyStr PyVal PyFloat.

Definition to_spec (a : fvalue) : spec_float :=
  match a with
  | FFinite m e => binary_normalize 53 1024 m e false
  | FInfinite s => S754_infinity s
  | FNan => S754_nan
  end.

Definition f_add (a b : fvalue) : fvalue := of_spec (SFadd 53 1024 (to_spec a) (to_spec b)).
Definition f_sub (a b : fvalue) : fvalue := of_spec (SFsub 53 1024 (to_spec a) (to_spec b)).
Definition f_mul (a b : fvalue) : fvalue := of_spec (SFmul 53 1024 (to_spec a) (to_spec b)).
Definition f_div (a b : fvalue) : fvalue := of_spec (SFdiv 53 1024 (to_spec a) (to_spec b)).

(** [a / b] on integers with [b > 0], rounded once *)
Definition f_quot (a b : Z) : fvalue := of_spec (round_quot a b).
Definition f_int (z : Z) : fvalue := of_spec (round_int z).

(** [min(a, b)]: the first argument unless the second compares less. *)
Definition f_min (a b : fvalue) : fvalue := if f_lt b a then b else a.

(** [a / b] to the nearest integer, ties to even. *)
Definition div_half_even (a b : Z) : Z :=
  let q := a / b in
  let r := a mod b in
  if 2 * r <? b then q else if b <? 2 * r then q + 1 else if Z.even q then q else q + 1.

(** [m * 2 ^ e * 10 ^ n] to the nearest integer. *)
Definition scaled (m e n : Z) : Z :=
  let num := (if 0 <=? n then m * 10 ^ n else m) in
  let den := (if 0 <=? n then 1 else 10 ^ (- n)) in
  if 0 <=? e then div_half_even (num * 2 ^ e) den else div_half_even num (den * 2 ^ (- e)).

(** [round(x, n)] *)
Definition f_round (n : Z) (a : fvalue) : fvalue :=
  match a with
  | FFinite m e => of_spec (round_decimal (scaled m e n) (- n))
  | _ => a
  end.

(** The [w] low decimal digits of a number. *)
Fixpoint digits (w : nat) (z : Z) : string :=
  match w with
  | O => ""
  | S w' => digits w' (z / 10) +:+ String (ascii_of_N (48 + Z.to_N (z mod 10))) ""
  end.

(** [f"{x:.2f}"] *)
Definition format_2f (a : fvalue) : string :=
  match a with
  | FFinite m e =>
      let q := scaled (Z.abs m) e 2 in
      (if m <? 0 then "-" else "") +:+ str_of_Z (q / 100) +:+ "." +:+ digits 2 (q mod 100)
  | FInfinite negative => if negative then "-inf" else "inf"
  | FNan => "nan"
  end.

(** ** [repr(x)]: the shortest decimal that reads back as [x] *)

(** Does [num / den] reach [10 ^ k]? *)
Definition reaches (num den k : Z) : bool :=
  if 0 <=? k then den * 10 ^ k <=? num else den <=? num * 10 ^ (- k).

(** The [k] with [10 ^ (k - 1) <= num / den < 10 ^ k], from an estimate that
    is at most a few units away. *)
Fixpoint settle (fuel : nat) (num den k : Z) : Z :=
  match fuel with
  | O => k
  | S f => if reaches num den k then settle f num den (k + 1)
           else if reaches num den (k - 1) then k else settle f num den (k - 1)
  end.

Definition decimal_point (num den : Z) : Z :=
  settle 8 num den ((Z.log2 num - Z.log2 den) * 30103 / 100000).

Definition same_float (a b : fvalue) : bool := f_le a b && f_le b a.

(** The [n]-digit decimals next to [num / den] that read back as [x]; the
    nearer one. *)
Definition candidate (x : fvalue) (num den k : Z) (n : Z) : option Z :=
  let s := n - k in
  let a := if 0 <=? s then num * 10 ^ s else num in
  let b := if 0 <=? s then den else den * 10 ^ (- s) in
  let reads q := same_float (of_spec (round_decimal q (- s))) x in
  let lo := a / b in
  let near := div_half_even a b in
  let far := if near =? lo then lo + 1 else lo in
  if reads near then Some near else if reads far then Some far else None.

Fixpoint shortest (fuel : nat) (x : fvalue) (num den k n : Z) : Z * Z :=
  match candidate x num den k n with
  | Some q => (q, n)
  | None => match fuel with O => (0, n) | S f => shortest f x num den k (n + 1) end
  end.

Definition zeros (n : Z) : string := digits (Z.to_nat n) 0.

Definition exponent_text (e : Z) : string :=
  (if e <? 0 then "-" else "+") +:+
  (if Z.abs e <? 10 then "0" else "") +:+ str_of_Z (Z.abs e).

(** Digits [ds] with the point after [k] of them, as [repr] lays them out. *)
Definition layout (ds : string) (k : Z) : string :=
  let n := Z.of_nat (String.length ds) in
  if (-4 <? k) && (k <=? 16) then
    if k <=? 0 then "0." +:+ zeros (- k) +:+ ds
    else if n <=? k then ds +:+ zeros (k - n) +:+ ".0"
    else String.substring 0 (Z.to_nat k) ds +:+ "." +:+ String.substring (Z.to_nat k) (String.length ds) ds
  else
    String.substring 0 1 ds +:+ (if n =? 1 then "" else "." +:+ String.substring 1 (String.length ds) ds)
    +:+ "e" +:+ exponent_text (k - 1).

Definition float_repr (a : fvalue) : string :=
  match a with
  | FFinite 0 _ => "0.0"
  | FFinite m e =>
      let num := if 0 <=? e then Z.abs m * 2 ^ e else Z.abs m in
      let den := if 0 <=? e then 1 else 2 ^ (- e) in
      let k := decimal_point num den in
      let '(q, n) := shortest 16 (FFinite (Z.abs m) e) num den k 1 in
      (* a candidate that rounds up to the next power of ten *)
      let k := if 10 ^ n <=? q then k + 1 else k in
      let q := if 10 ^ n <=? q then q / 10 else q in
      (if m <? 0 then "-" else "") +:+ layout (str_of_Z q) k
  | FInfinite negative => if negative then "-inf" else "inf"
  | FNan => "nan"
  end.

(** A float object made by the code. *)
Definition mk_float (a : fvalue) : pyfloat := PyFloat a (float_repr a).
Definition PyF (a : fvalue) : pyval := PFloat (mk_float a).
