(* ===== verification/IsoOrder.v ===== *)
(** The order of ISO texts.  The database stores instants as the text that
    [datetime.isoformat()] prints and compares them as text; for instants of
    the years 1..9999 that order is the order of time, although the fraction of
    a second is left out when it is zero. *)

From stdpp Require Import prelude strings list.
From Stdlib Require Import Lia ZArith Ascii.
From S2P Require Import Prelude PyStr PyTime.

(** Lexicographic combination of two comparisons. *)
Definition lex (c k : comparison) : comparison := match c with Eq => k | _ => c end.

Lemma compare_cons c d s t :
  String.compare (String c s) (String d t) = lex (Ascii.compare c d) (String.compare s t).
Proof. cbn. by destruct (Ascii.compare c d). Qed.

Lemma compare_char c s t : String.compare (String c s) (String c t) = String.compare s t.
Proof. rewrite compare_cons. unfold Ascii.compare. by rewrite N.compare_refl. Qed.

Lemma digit_compare a b :
  0 <= a < 10 -> 0 <= b < 10 -> Ascii.compare (digit a) (digit b) = (a ?= b).
Proof.
  intros Ha Hb. unfold Ascii.compare, digit. rewrite !N_ascii_embedding by lia.
  rewrite <- N2Z.inj_compare, !N2Z.inj_add, !Z2N.id by lia. apply Z.add_compare_mono_l.
Qed.

(** Numbers printed with the same width compare as numbers. *)
Lemma compare_pad w : forall a b s t,
  0 <= a < 10 ^ Z.of_nat w -> 0 <= b < 10 ^ Z.of_nat w ->
  String.compare (pad w a +:+ s) (pad w b +:+ t) = lex (a ?= b) (String.compare s t).
Proof.
  induction w as [|w IH]; intros a b s t Ha Hb.
  - change (10 ^ Z.of_nat 0) with 1 in *. replace a with 0 by lia. by replace b with 0 by lia.
  - cbn [pad]. rewrite Nat2Z.inj_succ, Z.pow_succ_r in Ha, Hb by lia.
    rewrite <- !str_app_assoc, IH by (Z.div_mod_to_equations; lia).
    pose proof (Z.mod_pos_bound a 10 ltac:(lia)). pose proof (Z.mod_pos_bound b 10 ltac:(lia)).
    rewrite !str_app_cons, compare_cons, digit_compare by done.
    pose proof (Z.div_mod a 10 ltac:(lia)). pose proof (Z.div_mod b 10 ltac:(lia)).
    unfold lex. destruct (Z.compare_spec (a / 10) (b / 10)), (Z.compare_spec (a mod 10) (b mod 10)),
      (Z.compare_spec a b); try done; lia.
Qed.

(** The fraction of a second with the offset: an absent fraction sorts before
    every other one, ["+"] being less than ["."]. *)
Lemma compare_micro a b :
  0 <= a < 1000000 -> 0 <= b < 1000000 ->
  String.compare (iso_micro a +:+ "+00:00") (iso_micro b +:+ "+00:00") = (a ?= b).
Proof.
  intros Ha Hb. unfold iso_micro. destruct (Z.eqb_spec a 0) as [->|], (Z.eqb_spec b 0) as [->|]; try done.
  - symmetry. apply Z.compare_lt_iff. lia.
  - symmetry. apply Z.compare_gt_iff. lia.
  - rewrite !str_app_cons, compare_char.
    change ("" +:+ pad 6 a) with (pad 6 a). change ("" +:+ pad 6 b) with (pad 6 b).
    rewrite compare_pad by (change (10 ^ Z.of_nat 6) with 1000000; lia).
    by destruct (a ?= b).
Qed.

(** ** The calendar is monotone *)

Lemma day_of_era_bounds doe yoe mp d :
  0 <= doe < 146097 -> day_of_era doe = (yoe, mp, d) -> 0 <= yoe < 400 /\ 0 <= mp < 12.
Proof. intros H E. pose proof (era_ok_all doe H) as Hok. unfold era_ok in Hok. rewrite E in Hok. bool_prop. lia. Qed.

(** Months since March of year 0, and the day. *)
Lemma day_of_era_mono a b y1 m1 d1 y2 m2 d2 :
  0 <= a < b -> b < 146097 ->
  day_of_era a = (y1, m1, d1) -> day_of_era b = (y2, m2, d2) ->
  12 * y1 + m1 < 12 * y2 + m2 \/ (y1 = y2 /\ m1 = m2 /\ d1 < d2).
Proof.
  intros Hab Hb E1 E2. pose proof (day_of_era_bounds a _ _ _ ltac:(lia) E1).
  pose proof (day_of_era_bounds b _ _ _ ltac:(lia) E2).
  pose proof (year_mono a b ltac:(lia) ltac:(lia)) as Hy. unfold day_of_era in E1, E2.
  fold (year_of a) in E1. fold (year_of b) in E2. injection E1 as <- Em1 Ed1. injection E2 as <- Em2 Ed2.
  destruct (decide (year_of a = year_of b)) as [Ey|]; [|lia]. rewrite Ey in *.
  set (s := 365 * year_of b + year_of b / 4 - year_of b / 100) in *.
  assert (m1 <= m2) by (subst; apply Z.div_le_mono; lia).
  destruct (decide (m1 = m2)) as [Em|]; [|lia]. rewrite <- Em1, <- Em2 in *. rewrite Em in *. lia.
Qed.

Lemma civil_mono z1 z2 y1 m1 d1 y2 m2 d2 :
  z1 < z2 -> civil_from_days z1 = (y1, m1, d1) -> civil_from_days z2 = (y2, m2, d2) ->
  12 * y1 + m1 < 12 * y2 + m2 \/ (y1 = y2 /\ m1 = m2 /\ d1 < d2).
Proof.
  intros Hz E1 E2. unfold civil_from_days in E1, E2.
  pose proof (Z.mod_pos_bound (z1 + 719468) 146097 ltac:(lia)).
  pose proof (Z.mod_pos_bound (z2 + 719468) 146097 ltac:(lia)).
  pose proof (Z.div_mod (z1 + 719468) 146097 ltac:(lia)).
  pose proof (Z.div_mod (z2 + 719468) 146097 ltac:(lia)).
  destruct (day_of_era ((z1 + 719468) mod 146097)) as [[yo1 mp1] dd1] eqn:F1.
  destruct (day_of_era ((z2 + 719468) mod 146097)) as [[yo2 mp2] dd2] eqn:F2.
  pose proof F1 as G1%day_of_era_bounds; [|done]. pose proof F2 as G2%day_of_era_bounds; [|done].
  pose proof (fun H H' => day_of_era_mono _ _ _ _ _ _ _ _ H H' F1 F2) as Hmono.
  assert ((z1 + 719468) / 146097 <= (z2 + 719468) / 146097) by (apply Z.div_le_mono; lia).
  assert (forall mp y, 12 * (if (if mp <? 10 then mp + 3 else mp - 9) <=? 2 then y + 1 else y)
            + (if mp <? 10 then mp + 3 else mp - 9) = 12 * y + mp + 3 \/ ~ 0 <= mp < 12) as Hkey.
  { intros mp y. destruct (Z.ltb_spec mp 10);
      [destruct (Z.leb_spec (mp + 3) 2) | destruct (Z.leb_spec (mp - 9) 2)]; lia. }
  pose proof (Hkey mp1 (yo1 + (z1 + 719468) / 146097 * 400)) as K1.
  pose proof (Hkey mp2 (yo2 + (z2 + 719468) / 146097 * 400)) as K2.
  injection E1 as <- <- <-. injection E2 as <- <- <-.
  destruct (decide ((z1 + 719468) / 146097 = (z2 + 719468) / 146097)) as [Ee|]; [|lia].
  destruct (Hmono ltac:(lia) ltac:(lia)) as [|(-> & -> & ?)]; [lia|]. rewrite Ee. auto.
Qed.

(** ** The texts *)

Lemma isoformat_compare_fields a b ya ma da yb mb db :
  dt_in_range a -> dt_in_range b ->
  civil_from_days (dt_day a) = (ya, ma, da) -> civil_from_days (dt_day b) = (yb, mb, db) ->
  String.compare (isoformat a) (isoformat b) =
    lex (ya ?= yb) (lex (ma ?= mb) (lex (da ?= db)
      (lex (dt_hour a ?= dt_hour b) (lex (dt_minute a ?= dt_minute b)
        (lex (dt_second a ?= dt_second b) (dt_micro a ?= dt_micro b)))))).
Proof.
  intros Ra Rb Ca Cb. unfold dt_in_range in Ra, Rb. rewrite Ca in Ra. rewrite Cb in Rb.
  pose proof (civil_spec _ _ _ _ Ca). pose proof (civil_spec _ _ _ _ Cb).
  pose proof (dt_fields_bound a). pose proof (dt_fields_bound b).
  unfold isoformat. rewrite Ca, Cb.
  assert (forall s, "" +:+ s = s) as Hnil by done.
  do 6 (rewrite compare_pad by (cbn; lia); f_equal; rewrite ?str_app_cons, ?compare_char, ?Hnil).
  apply compare_micro; lia.
Qed.

Lemma isoformat_lt a b :
  dt_in_range a -> dt_in_range b -> a < b -> String.compare (isoformat a) (isoformat b) = Lt.
Proof.
  intros Ra Rb Hab.
  destruct (civil_from_days (dt_day a)) as [[ya ma] da] eqn:Ca.
  destruct (civil_from_days (dt_day b)) as [[yb mb] db] eqn:Cb.
  erewrite isoformat_compare_fields by done.
  pose proof (civil_spec _ _ _ _ Ca). pose proof (civil_spec _ _ _ _ Cb).
  assert (dt_day a <= dt_day b) as Hd by (apply Z.div_le_mono; [done | lia]).
  destruct (decide (dt_day a = dt_day b)) as [Ed|].
  - rewrite Ed in Ca. rewrite Ca in Cb. injection Cb as -> -> ->. rewrite !Z.compare_refl. cbn [lex].
    pose proof (dt_rebuild a) as Ea. pose proof (dt_rebuild b) as Eb. rewrite Ed in Ea.
    pose proof (dt_fields_bound a). pose proof (dt_fields_bound b).
    unfold us_per_day, us_per_hour, us_per_min, us_per_sec in Ea, Eb. unfold lex.
    destruct (Z.compare_spec (dt_hour a) (dt_hour b)), (Z.compare_spec (dt_minute a) (dt_minute b)),
      (Z.compare_spec (dt_second a) (dt_second b)), (Z.compare_spec (dt_micro a) (dt_micro b)); try done; lia.
  - destruct (civil_mono (dt_day a) (dt_day b) _ _ _ _ _ _ ltac:(lia) Ca Cb) as [|(-> & -> & Hlt)].
    + unfold lex. destruct (Z.compare_spec ya yb), (Z.compare_spec ma mb); try done; lia.
    + rewrite !Z.compare_refl. cbn [lex]. by rewrite (proj2 (Z.compare_lt_iff da db)).
Qed.

(** Texts compare as instants. *)
Lemma isoformat_compare a b :
  dt_in_range a -> dt_in_range b -> String.compare (isoformat a) (isoformat b) = (a ?= b).
Proof.
  intros Ra Rb. destruct (Z.compare_spec a b) as [->|H|H].
  - pose proof (String.compare_antisym (isoformat b) (isoformat b)) as E. by destruct (String.compare _ _).
  - by apply isoformat_lt.
  - rewrite String.compare_antisym. by rewrite isoformat_lt.
Qed.

Lemma isoformat_leb a b :
  dt_in_range a -> dt_in_range b -> String.leb (isoformat a) (isoformat b) = (a <=? b).
Proof. intros Ra Rb. unfold String.leb, Z.leb. by rewrite isoformat_compare. Qed.
