(* ===== verification/RunPolicy.v ===== *)
(** What a failed attempt of an agent run leads to: the classification of the
    exception (agents/run_policy.py, models/provider_errors.py), the retry
    decision and the delay before the retry. *)

From stdpp Require Import prelude strings list.
From Stdlib Require Import Lia ZArith Ascii.
From S2P Require Import Prelude PyStr PyVal PyFloat PyFloatOps.

Module RunPolicy.

(** ** models/provider_errors.py *)

(** [_contains_any] *)
Definition contains_any (text : string) (needles : list string) : bool :=
  existsb (fun item => substr_in item text) needles.

(** [_extract_http_status] *)
Fixpoint first_status (text : string) (codes : list (string * Z)) : option Z :=
  match codes with
  | [] => None
  | (token, z) :: codes' => if substr_in token text then Some z else first_status text codes'
  end.

Definition extract_http_status (text : string) : option Z :=
  first_status (" " +:+ text)
    [(" 429", 429); (" 503", 503); (" 502", 502); (" 504", 504); (" 500", 500);
     (" 401", 401); (" 403", 403); (" 400", 400); (" 404", 404); (" 422", 422)].

(** [_build] *)
Definition build (provider operation error_class raw : string) (status_code : option Z) :
    ProviderErrorInfo :=
  ErrorInfo provider operation error_class (str_or raw "unknown provider error")
    (str_or raw "unknown provider error")
    (str_in error_class ["rate_limit"; "timeout"; "server"; "network"; "circuit_open"; "budget_limit"; "unavailable"])
    status_code.

(** The needles of each class, in the order they are tried. *)
Definition provider_rules : list (list string * string) :=
  [ (["circuit is open"], "circuit_open");
    (["budget limit reached"], "budget_limit");
    (["entitlement denied"; "entitlement check requires user_id"; "chat feature is disabled"], "entitlement");
    (["too many requests"; "rate limit"; "429"; "throttl"], "rate_limit");
    (["insufficient_quota"; "quota"; "billing"; "payment"], "quota");
    (["unauthorized"; "forbidden"; "invalid api key"; "api key"; "authentication"; "401"; "403"], "auth");
    (["invalid request"; "bad request"; "unprocessable"; "400"; "404"; "422"], "invalid_request");
    (["timeout"; "timed out"; "deadline exceeded"; "readtimeout"; "writetimeout"], "timeout");
    (["connection"; "network"; "dns"; "refused"; "reset by peer"; "name or service not known"], "network");
    (["service unavailable"; "bad gateway"; "gateway timeout"; "internal server error"; "500"; "502"; "503"; "504"],
     "server");
    (["unavailable"; "not available"; "temporarily"; "overloaded"; "try again"], "unavailable") ].

Fixpoint first_class (text : string) (rules : list (list string * string)) : string :=
  match rules with
  | [] => "unknown"
  | (needles, cls) :: rules' => if contains_any text needles then cls else first_class text rules'
  end.

Definition classify_provider_error (provider operation : string) (error : exn) : ProviderErrorInfo :=
  match error with
  | ProviderOperationError info => info
  | _ =>
      let raw := strip (exn_str error) in
      let lowered := lower raw in
      build provider operation (first_class lowered provider_rules) raw (extract_http_status lowered)
  end.

(** ** agents/run_policy.py *)

Definition RUN_RETRYABLE_FAILURE_CLASSES : list string :=
  ["timeout"; "rate_limit"; "network"; "server"; "unavailable"; "circuit_open"].

Definition KILL_SWITCH_STOP_REASON : string := "kill_switch_triggered".

Record FailureDecision : Type := Failure {
  failure_class : string;
  stop_reason : string;
  retryable : bool }.

Record RetryDecision : Type := Retry {
  schedule_retry : bool;
  final_status : option string;
  final_failure_class : option string;
  final_stop_reason : option string }.

(** [classify_failure], with the exception types and the classifier that the
    run manager passes *)
Definition classify_failure (exc : exn) : FailureDecision :=
  match exc with
  | TaskError RunBudgetExceededError _ => Failure "budget_exceeded" "budget_exceeded" false
  | TaskError RunLeaseLostError _ => Failure "lease_lost" "lease_lost" true
  | TaskError TaskTimeoutError _ => Failure "timeout" "timeout" true
  | TaskError (TaskGuardrailError | TaskBudgetError) message =>
      if substr_in "budget" (lower message) then Failure "budget_exceeded" "budget_exceeded" false
      else Failure "guardrail" "guardrail_rejected" false
  | ProviderOperationError info =>
      let error_class := ei_error_class info in
      Failure error_class ("provider_" +:+ error_class) (str_in error_class RUN_RETRYABLE_FAILURE_CLASSES)
  | ValueError _ | TypeError _ | AssertionError _ | BreakerBlockedError _ _ _ _ =>
      Failure "invalid_request" "invalid_request" false
  | _ =>
      let provider_class := ei_error_class (classify_provider_error "unknown" "agent_run" exc) in
      if negb (String.eqb provider_class "unknown")
      then Failure provider_class ("provider_" +:+ provider_class)
             (str_in provider_class RUN_RETRYABLE_FAILURE_CLASSES)
      else Failure "unknown" "unknown_error" false
  end.

Definition resolve_retry_decision (attempt max_attempts : Z) (retryable canceled : bool)
    (stop_reason failure_class cancel_stop_reason : string) : RetryDecision :=
  if (attempt <? max_attempts) && negb canceled && retryable then Retry true None None None
  else
    let final_stop_reason := if canceled then cancel_stop_reason else stop_reason in
    let final_stop_reason :=
      if negb canceled && retryable && (max_attempts <=? attempt) then "max_attempts_exhausted"
      else final_stop_reason in
    Retry false (Some (if canceled then "canceled" else "failed"))
      (Some (if canceled then "canceled" else failure_class)) (Some final_stop_reason).

(** [retry_delay_seconds]; [uniform] is the draw of [random.uniform(0.0, x)].
    A power of two beyond the range of floats raises [OverflowError]. *)
Definition retry_delay_seconds (uniform : fvalue -> fvalue) (attempt : Z)
    (retry_backoff_sec retry_max_backoff_sec retry_jitter_sec : fvalue) : res fvalue :=
  let zero := FFinite 0 0 in
  if f_le retry_backoff_sec zero then Ok zero
  else
    res_bind (py_float (PInt (2 ^ Z.max 0 (attempt - 1)))) (fun power =>
    let exponential := f_mul retry_backoff_sec power in
    let bounded := if f_lt zero retry_max_backoff_sec then f_min exponential retry_max_backoff_sec else exponential in
    let jitter := if f_lt zero retry_jitter_sec then uniform retry_jitter_sec else zero in
    Ok (f_round 3 (f_max zero (f_add bounded jitter)))).

End RunPolicy.
