(* ===== verification/RunStore.v ===== *)
(** The tables of agent runs (storage/database.py): [agent_runs] with its
    leases, [agent_run_issues], [agent_run_issue_artifacts] and
    [agent_run_tool_calls], and the transactions that group their updates.

    JSON columns are modelled by the value their text encodes
    ([json.loads(json.dumps(v)) == v] for the JSON values of the program).  The
    connection has the rows as it sees them, [s_cur], and the rows of the last
    commit, [s_saved], to which a rollback returns. *)

From stdpp Require Import prelude strings list.
From Stdlib Require Import Lia ZArith Ascii.
From S2P Require Import Prelude PyStr PyVal Effects PyTime.

Module RunStore.

(** ** Rows *)

Record run_row : Type := RunRow {
  r_id : string;
  r_agent_id : string;
  r_user_id : string;
  r_session_id : option string;
  r_input_message : string;
  r_status : string;
  r_attempts : Z;
  r_max_attempts : Z;
  r_cancel_requested : Z;
  r_stop_reason : option string;
  r_failure_class : option string;
  r_lease_owner : option string;
  r_lease_token : option string;
  r_lease_expires_at : option string;
  r_result : pyval;
  r_error_message : option string;
  r_checkpoints : list pydict;
  r_budget : pydict;
  r_metrics : pydict;
  r_created_at : string;
  r_updated_at : string;
  r_started_at : option string;
  r_finished_at : option string }.

Record issue_row : Type := IssueRow {
  i_run_id : string;
  i_issue_id : string;
  i_issue_order : Z;
  i_title : string;
  i_status : string;
  i_depends_on : list string;
  i_attempt_count : Z;
  i_last_error : option string;
  i_payload : pydict;
  i_created_at : string;
  i_updated_at : string;
  i_started_at : option string;
  i_finished_at : option string }.

Record artifact_row : Type := ArtifactRow {
  a_run_id : string;
  a_issue_id : string;
  a_artifact_key : string;
  a_artifact : pydict;
  a_created_at : string;
  a_updated_at : string }.

Record tool_call_row : Type := ToolCallRow {
  c_run_id : string;
  c_idempotency_key : string;
  c_tool_name : string;
  c_arguments : pydict;
  c_status : string;
  c_result : option pydict;
  c_error_message : option string;
  c_attempt : Z;
  c_created_at : string;
  c_updated_at : string }.

(** A row of [agents], as far as runs read it. *)
Record agent_row : Type := AgentRow { ag_id : string; ag_user_id : option string; ag_fields : pydict }.

Record tables : Type := Tables {
  t_agents : dict agent_row;
  t_runs : dict run_row;
  t_issues : list issue_row;
  t_artifacts : list artifact_row;
  t_tool_calls : list tool_call_row }.

(** The connection: rows seen, rows committed, the depth of
    [write_transaction] and whether a commit is pending; the clock readings
    made so far. *)
Record store : Type := Store {
  s_cur : tables;
  s_saved : tables;
  s_depth : nat;
  s_pending : bool;
  s_clock : nat }.

Definition set_runs (rows : dict run_row) (t : tables) : tables :=
  Tables (t_agents t) rows (t_issues t) (t_artifacts t) (t_tool_calls t).
Definition set_issues (rows : list issue_row) (t : tables) : tables :=
  Tables (t_agents t) (t_runs t) rows (t_artifacts t) (t_tool_calls t).
Definition set_artifacts (rows : list artifact_row) (t : tables) : tables :=
  Tables (t_agents t) (t_runs t) (t_issues t) rows (t_tool_calls t).
Definition set_tool_calls (rows : list tool_call_row) (t : tables) : tables :=
  Tables (t_agents t) (t_runs t) (t_issues t) (t_artifacts t) rows.

Definition set_cur (t : tables) (s : store) : store :=
  Store t (s_saved s) (s_depth s) (s_pending s) (s_clock s).

(** ** Transactions *)

(** [_commit_locked] *)
Definition commit_locked : M store unit :=
  modify (fun s =>
    if (0 <? s_depth s)%nat then Store (s_cur s) (s_saved s) (s_depth s) true (s_clock s)
    else Store (s_cur s) (s_cur s) (s_depth s) (s_pending s) (s_clock s)).

(** The parts of [write_transaction]: entering, the end of a body that
    returned, the end of one that raised. *)
Definition tx_enter (s : store) : store :=
  Store (s_cur s) (s_saved s) (S (s_depth s)) (if (s_depth s =? 0)%nat then false else s_pending s) (s_clock s).

Definition tx_return (s : store) : store :=
  if (s_depth s =? 1)%nat && s_pending s
  then Store (s_cur s) (s_cur s) (pred (s_depth s)) false (s_clock s)
  else Store (s_cur s) (s_saved s) (pred (s_depth s)) (s_pending s) (s_clock s).

Definition tx_raise (s : store) : store :=
  if (s_depth s =? 1)%nat
  then Store (s_saved s) (s_saved s) (pred (s_depth s)) false (s_clock s)
  else Store (s_cur s) (s_saved s) (pred (s_depth s)) (s_pending s) (s_clock s).

(** [with database.write_transaction(): m], for code over a state [S] that
    holds the connection *)
Definition write_transaction {S A} (view : S -> store) (put : store -> S -> S) (m : M S A) : M S A := fun s =>
  match m (put (tx_enter (view s)) s) with
  | (Ok a, s') => (Ok a, put (tx_return (view s')) s')
  | (Err e, s') => (Err e, put (tx_raise (view s')) s')
  end.

(** ** Columns a run update may set *)
Inductive run_field : Type :=
  | FStatus (v : string)
  | FAttempts (v : Z)
  | FMaxAttempts (v : Z)
  | FCancelRequested (v : Z)
  | FStopReason (v : option string)
  | FFailureClass (v : option string)
  | FLeaseOwner (v : option string)
  | FLeaseToken (v : option string)
  | FLeaseExpiresAt (v : option string)
  | FResultJson (v : pyval)
  | FErrorMessage (v : option string)
  | FCheckpointsJson (v : list pydict)
  | FBudgetJson (v : pydict)
  | FMetricsJson (v : pydict)
  | FStartedAt (v : option string)
  | FFinishedAt (v : option string)
  | FUpdatedAt (v : string).

Definition set_field (f : run_field) (r : run_row) : run_row :=
  let '(RunRow id agent user session input status attempts max_attempts cancel stop failure
          owner token expires result error checkpoints budget metrics created updated started finished) := r in
  match f with
  | FStatus v => RunRow id agent user session input v attempts max_attempts cancel stop failure
      owner token expires result error checkpoints budget metrics created updated started finished
  | FAttempts v => RunRow id agent user session input status v max_attempts cancel stop failure
      owner token expires result error checkpoints budget metrics created updated started finished
  | FMaxAttempts v => RunRow id agent user session input status attempts v cancel stop failure
      owner token expires result error checkpoints budget metrics created updated started finished
  | FCancelRequested v => RunRow id agent user session input status attempts max_attempts v stop failure
      owner token expires result error checkpoints budget metrics created updated started finished
  | FStopReason v => RunRow id agent user session input status attempts max_attempts cancel v failure
      owner token expires result error checkpoints budget metrics created updated started finished
  | FFailureClass v => RunRow id agent user session input status attempts max_attempts cancel stop v
      owner token expires result error checkpoints budget metrics created updated started finished
  | FLeaseOwner v => RunRow id agent user session input status attempts max_attempts cancel stop failure
      v token expires result error checkpoints budget metrics created updated started finished
  | FLeaseToken v => RunRow id agent user session input status attempts max_attempts cancel stop failure
      owner v expires result error checkpoints budget metrics created updated started finished
  | FLeaseExpiresAt v => RunRow id agent user session input status attempts max_attempts cancel stop failure
      owner token v result error checkpoints budget metrics created updated started finished
  | FResultJson v => RunRow id agent user session input status attempts max_attempts cancel stop failure
      owner token expires v error checkpoints budget metrics created updated started finished
  | FErrorMessage v => RunRow id agent user session input status attempts max_attempts cancel stop failure
      owner token expires result v checkpoints budget metrics created updated started finished
  | FCheckpointsJson v => RunRow id agent user session input status attempts max_attempts cancel stop failure
      owner token expires result error v budget metrics created updated started finished
  | FBudgetJson v => RunRow id agent user session input status attempts max_attempts cancel stop failure
      owner token expires result error checkpoints v metrics created updated started finished
  | FMetricsJson v => RunRow id agent user session input status attempts max_attempts cancel stop failure
      owner token expires result error checkpoints budget v created updated started finished
  | FStartedAt v => RunRow id agent user session input status attempts max_attempts cancel stop failure
      owner token expires result error checkpoints budget metrics created updated v finished
  | FFinishedAt v => RunRow id agent user session input status attempts max_attempts cancel stop failure
      owner token expires result error checkpoints budget metrics created updated started v
  | FUpdatedAt v => RunRow id agent user session input status attempts max_attempts cancel stop failure
      owner token expires result error checkpoints budget metrics created v started finished
  end.

Definition set_fields (fs : list run_field) (r : run_row) : run_row := fold_left (fun r f => set_field f r) fs r.

Definition is_updated_at (f : run_field) : bool := match f with FUpdatedAt _ => true | _ => false end.

(** [UPDATE agent_runs SET ... WHERE id = ?], applied to the row if any *)
Definition map_run (run_id : string) (f : run_row -> run_row) (t : tables) : tables :=
  match d_get run_id (t_runs t) with
  | Some r => set_runs (d_set run_id (f r) (t_runs t)) t
  | None => t
  end.

(** What the upserts of the three satellite tables receive. *)
Record issue_update : Type := IssueUpdate {
  u_issue_id : string;
  u_issue_order : Z;
  u_title : string;
  u_status : string;
  u_depends_on : list string;
  u_attempt_count : Z;
  u_last_error : option string;
  u_payload : pydict;
  u_started_at : option string;
  u_finished_at : option string }.

Record issue_artifact : Type := IssueArtifact { ia_issue_id : string; ia_artifact_key : string; ia_artifact : pydict }.

Record tool_call_record : Type := ToolCallRecord {
  tc_idempotency_key : string;
  tc_tool_name : string;
  tc_arguments : pydict;
  tc_status : string;
  tc_result : option pydict;
  tc_error_message : option string;
  tc_attempt : Z }.

Definition foreign_key_error : exn := OtherError "IntegrityError" "FOREIGN KEY constraint failed".
Definition unique_error (column : string) : exn :=
  OtherError "IntegrityError" ("UNIQUE constraint failed: " +:+ column).

Section store.
(** The [n]-th reading of the clock. *)
Context (clock : nat -> Z).

Definition now : M store Z := fun s =>
  (Ok (clock (s_clock s)), Store (s_cur s) (s_saved s) (s_depth s) (s_pending s) (S (s_clock s))).

(** [_utc_now] *)
Definition utc_now : M store string := let* t := now in ret (isoformat t).

Definition update_tables (f : tables -> tables) : M store unit := modify (fun s => set_cur (f (s_cur s)) s).

(** ** [agent_runs] *)

Definition create_agent_run (run_id agent_id user_id : string) (session_id : option string)
    (input_message status : string) (max_attempts : Z) (budget : pydict) : M store unit :=
  let* now := utc_now in
  let* t := gets s_cur in
  raise_if (d_mem run_id (t_runs t)) (unique_error "agent_runs.id") ;;;
  update_tables (fun t => set_runs (d_set run_id
    (RunRow run_id agent_id user_id session_id input_message status 0 max_attempts 0 None None
       None None None PNone None [] budget [] now now None None) (t_runs t)) t) ;;;
  commit_locked.

Definition update_agent_run_fields (run_id : string) (fields : list run_field) : M store unit :=
  match fields with
  | [] => ret tt
  | _ =>
      let* sanitized :=
        (if existsb is_updated_at fields then ret fields
         else let* now := utc_now in ret (fields ++ [FUpdatedAt now])) in
      update_tables (map_run run_id (set_fields sanitized)) ;;;
      commit_locked
  end.

(** [_decode_agent_run_row]: an empty lease column reads as [None]. *)
Definition none_if_empty (o : option string) : option string :=
  match o with Some "" => None | _ => o end.

Definition decode_agent_run_row (r : run_row) : run_row :=
  set_fields [FLeaseOwner (none_if_empty (r_lease_owner r)); FLeaseToken (none_if_empty (r_lease_token r));
              FLeaseExpiresAt (none_if_empty (r_lease_expires_at r))] r.

Definition get_agent_run (run_id : string) : M store (option run_row) :=
  gets (fun s => decode_agent_run_row <$> d_get run_id (t_runs (s_cur s))).

(** [list_agent_runs]; a falsy filter selects everything *)
Definition column_is (filter : option string) (v : string) : bool :=
  match str_or_none (opt_str filter) with Some w => String.eqb v w | None => true end.

Definition list_agent_runs (user_id agent_id status : option string) (limit : Z) : M store (list run_row) :=
  if limit <=? 0 then ret []
  else gets (fun s =>
    map decode_agent_run_row
      (take (Z.to_nat limit)
         (sort_by (fun a b => String.leb (r_created_at b) (r_created_at a))
            (List.filter (fun r => column_is user_id (r_user_id r) && column_is agent_id (r_agent_id r)
                                   && column_is status (r_status r)) (d_values (t_runs (s_cur s))))))).

(** ** Leases *)

Definition normalize_statuses (allowed : list string) : list string :=
  map (fun item => lower (strip item)) (List.filter (fun item => negb (is_empty (strip item))) allowed).

(** The condition of the claim: no lease, an expired one, or one's own. *)
Definition lease_free (now owner token : string) (r : run_row) : bool :=
  match r_lease_expires_at r with
  | None => true
  | Some e => String.leb e now
  end
  || (bool_decide (r_lease_owner r = Some owner) && bool_decide (r_lease_token r = Some token)).

Definition claim_agent_run_lease (run_id lease_owner lease_token lease_expires_at : string)
    (now_iso : option string) (allowed_statuses : list string) : M store (option run_row) :=
  let normalized_run_id := strip run_id in
  let normalized_owner := strip lease_owner in
  let normalized_token := strip lease_token in
  let normalized_statuses := normalize_statuses allowed_statuses in
  if is_empty normalized_run_id || is_empty normalized_owner || is_empty normalized_token
     || bool_decide (normalized_statuses = []) then ret None
  else
    let* now := match str_or_none (opt_str now_iso) with Some n => ret n | None => utc_now end in
    let* updated := utc_now in
    let* found := gets (fun s => d_get normalized_run_id (t_runs (s_cur s))) in
    match found with
    | None => commit_locked ;;; ret None
    | Some r =>
        if str_in (r_status r) normalized_statuses && lease_free now normalized_owner normalized_token r then
          update_tables (map_run normalized_run_id
            (set_fields [FLeaseOwner (Some normalized_owner); FLeaseToken (Some normalized_token);
                         FLeaseExpiresAt (Some lease_expires_at); FUpdatedAt updated])) ;;;
          commit_locked ;;;
          get_agent_run normalized_run_id
        else commit_locked ;;; ret None
    end.

Definition holds_lease (owner token : string) (r : run_row) : bool :=
  bool_decide (r_lease_owner r = Some owner) && bool_decide (r_lease_token r = Some token).

Definition release_agent_run_lease (run_id lease_owner lease_token : string) : M store bool :=
  let normalized_run_id := strip run_id in
  let normalized_owner := strip lease_owner in
  let normalized_token := strip lease_token in
  if is_empty normalized_run_id || is_empty normalized_owner || is_empty normalized_token then ret false
  else
    let* updated := utc_now in
    let* found := gets (fun s => d_get normalized_run_id (t_runs (s_cur s))) in
    match found with
    | Some r =>
        if holds_lease normalized_owner normalized_token r then
          update_tables (map_run normalized_run_id
            (set_fields [FLeaseOwner None; FLeaseToken None; FLeaseExpiresAt None; FUpdatedAt updated])) ;;;
          commit_locked ;;;
          ret true
        else commit_locked ;;; ret false
    | None => commit_locked ;;; ret false
    end.

(** A lease that has not passed its expiry. *)
Definition lease_live (now : string) (r : run_row) : bool :=
  match r_lease_expires_at r with None => true | Some e => String.leb now e end.

Definition refresh_agent_run_lease (run_id lease_owner lease_token lease_expires_at : string)
    (now_iso : option string) (allowed_statuses : list string) : M store bool :=
  let normalized_run_id := strip run_id in
  let normalized_owner := strip lease_owner in
  let normalized_token := strip lease_token in
  let normalized_statuses := normalize_statuses allowed_statuses in
  if is_empty normalized_run_id || is_empty normalized_owner || is_empty normalized_token
     || bool_decide (normalized_statuses = []) then ret false
  else
    let* now := match str_or_none (opt_str now_iso) with Some n => ret n | None => utc_now end in
    let* updated := utc_now in
    let* found := gets (fun s => d_get normalized_run_id (t_runs (s_cur s))) in
    match found with
    | Some r =>
        if holds_lease normalized_owner normalized_token r && str_in (r_status r) normalized_statuses
           && lease_live now r then
          update_tables (map_run normalized_run_id
            (set_fields [FLeaseExpiresAt (Some lease_expires_at); FUpdatedAt updated])) ;;;
          commit_locked ;;;
          ret true
        else commit_locked ;;; ret false
    | None => commit_locked ;;; ret false
    end.

(** ** [agent_run_issues] *)

Definition issue_key (run_id issue_id : string) (i : issue_row) : bool :=
  String.eqb (i_run_id i) run_id && String.eqb (i_issue_id i) issue_id.

(** [INSERT ... ON CONFLICT DO UPDATE]: the new row, or the old one replaced
    in its place by [merge old new]. *)
Fixpoint upsert_by {A} (same : A -> bool) (merge : A -> A -> A) (new : A) (rows : list A) : list A :=
  match rows with
  | [] => [new]
  | row :: rows' => if same row then merge row new :: rows' else row :: upsert_by same merge new rows'
  end.

Definition issue_status_or_planned (status : string) : string :=
  let normalized := str_or (lower (strip (str_or status "planned"))) "planned" in
  if str_in normalized ["planned"; "running"; "blocked"; "done"; "failed"] then normalized else "planned".

(** [_upsert_agent_run_issue_no_commit] *)
Definition upsert_agent_run_issue_no_commit (run_id : string) (u : issue_update) (timestamp : string) :
    M store unit :=
  let normalized_title := str_or (strip (str_or (u_title u) (u_issue_id u))) (u_issue_id u) in
  let* t := gets s_cur in
  raise_if (negb (d_mem run_id (t_runs t))) foreign_key_error ;;;
  let row := IssueRow run_id (u_issue_id u) (Z.max 0 (u_issue_order u)) normalized_title
    (issue_status_or_planned (u_status u)) (u_depends_on u) (Z.max 0 (u_attempt_count u)) (u_last_error u)
    (u_payload u) timestamp timestamp (u_started_at u) (u_finished_at u) in
  let merge old new := IssueRow (i_run_id old) (i_issue_id old) (i_issue_order new) (i_title new) (i_status new)
    (i_depends_on new) (i_attempt_count new) (i_last_error new) (i_payload new) (i_created_at old)
    (i_updated_at new) (i_started_at new) (i_finished_at new) in
  update_tables (fun t => set_issues (upsert_by (issue_key run_id (u_issue_id u)) merge row (t_issues t)) t).

Definition upsert_agent_run_issue (run_id : string) (u : issue_update) : M store unit :=
  let* now := utc_now in
  upsert_agent_run_issue_no_commit run_id u now ;;;
  commit_locked.

(** [_decode_agent_run_issue_row] *)
Definition decode_agent_run_issue_row (i : issue_row) : issue_row :=
  IssueRow (i_run_id i) (i_issue_id i) (Z.max 0 (i_issue_order i)) (i_title i)
    (issue_status_or_planned (i_status i)) (i_depends_on i) (Z.max 0 (i_attempt_count i)) (i_last_error i)
    (i_payload i) (i_created_at i) (i_updated_at i) (i_started_at i) (i_finished_at i).

Definition get_agent_run_issue (run_id issue_id : string) : M store (option issue_row) :=
  gets (fun s => decode_agent_run_issue_row <$> List.find (issue_key run_id issue_id) (t_issues (s_cur s))).

Definition issue_le (a b : issue_row) : bool :=
  (i_issue_order a <? i_issue_order b)
  || ((i_issue_order a =? i_issue_order b) && String.leb (i_updated_at a) (i_updated_at b)).

Definition list_agent_run_issues (run_id : string) (limit : Z) : M store (list issue_row) :=
  if limit <=? 0 then ret []
  else gets (fun s => map decode_agent_run_issue_row
    (take (Z.to_nat limit)
       (sort_by issue_le (List.filter (fun i => String.eqb (i_run_id i) run_id) (t_issues (s_cur s)))))).

(** ** [agent_run_issue_artifacts] *)

Definition artifact_key (run_id issue_id key : string) (a : artifact_row) : bool :=
  String.eqb (a_run_id a) run_id && String.eqb (a_issue_id a) issue_id && String.eqb (a_artifact_key a) key.

(** [_upsert_agent_run_issue_artifact_no_commit] *)
Definition upsert_agent_run_issue_artifact_no_commit (run_id : string) (u : issue_artifact) (timestamp : string) :
    M store unit :=
  let normalized_issue_id := str_or (strip (ia_issue_id u)) "unknown" in
  let normalized_key := str_or (strip (ia_artifact_key u)) "result" in
  let* t := gets s_cur in
  raise_if (negb (existsb (issue_key run_id normalized_issue_id) (t_issues t))) foreign_key_error ;;;
  let row := ArtifactRow run_id normalized_issue_id normalized_key (ia_artifact u) timestamp timestamp in
  let merge old new := ArtifactRow (a_run_id old) (a_issue_id old) (a_artifact_key old) (a_artifact new)
    (a_created_at old) (a_updated_at new) in
  update_tables (fun t =>
    set_artifacts (upsert_by (artifact_key run_id normalized_issue_id normalized_key) merge row (t_artifacts t)) t).

Definition list_agent_run_issue_artifacts (run_id : string) (issue_id : option string) (limit : Z) :
    M store (list artifact_row) :=
  if limit <=? 0 then ret []
  else gets (fun s =>
    map (fun a => ArtifactRow (a_run_id a) (str_or (strip (str_or (a_issue_id a) "unknown")) "unknown")
                    (str_or (strip (str_or (a_artifact_key a) "result")) "result") (a_artifact a)
                    (a_created_at a) (a_updated_at a))
      (take (Z.to_nat limit)
         (sort_by (fun a b => String.leb (a_updated_at a) (a_updated_at b))
            (List.filter (fun a => String.eqb (a_run_id a) run_id
                            && match issue_id with Some i => String.eqb (a_issue_id a) i | None => true end)
               (t_artifacts (s_cur s)))))).

(** ** [agent_run_tool_calls] *)

Definition call_key (run_id key : string) (c : tool_call_row) : bool :=
  String.eqb (c_run_id c) run_id && String.eqb (c_idempotency_key c) key.

(** [_upsert_agent_run_tool_call_no_commit]: a call that succeeded is not
    overwritten by one that did not. *)
Definition upsert_agent_run_tool_call_no_commit (run_id : string) (u : tool_call_record) (timestamp : string) :
    M store unit :=
  let normalized_key := strip (tc_idempotency_key u) in
  if is_empty normalized_key then ret tt
  else
    let normalized_tool_name := str_or (strip (tc_tool_name u)) "unknown" in
    let normalized_status := str_or (lower (strip (str_or (tc_status u) "unknown"))) "unknown" in
    let* t := gets s_cur in
    let existing := List.find (call_key run_id normalized_key) (t_tool_calls t) in
    if match existing with
       | Some c => String.eqb (lower (strip (c_status c))) "succeeded"
                   && negb (String.eqb normalized_status "succeeded")
       | None => false
       end then ret tt
    else
      raise_if (negb (d_mem run_id (t_runs t))) foreign_key_error ;;;
      let row := ToolCallRow run_id normalized_key normalized_tool_name (tc_arguments u) normalized_status
        (tc_result u) (tc_error_message u) (Z.max 0 (tc_attempt u)) timestamp timestamp in
      let merge old new := ToolCallRow (c_run_id old) (c_idempotency_key old) (c_tool_name new) (c_arguments new)
        (c_status new) (c_result new) (c_error_message new) (c_attempt new) (c_created_at old) (c_updated_at new) in
      update_tables (fun t =>
        set_tool_calls (upsert_by (call_key run_id normalized_key) merge row (t_tool_calls t)) t).

Definition decode_agent_run_tool_call_row (c : tool_call_row) : tool_call_row :=
  ToolCallRow (c_run_id c) (strip (c_idempotency_key c)) (str_or (strip (str_or (c_tool_name c) "unknown")) "unknown")
    (c_arguments c) (str_or (lower (strip (str_or (c_status c) "unknown"))) "unknown") (c_result c)
    (c_error_message c) (Z.max 0 (c_attempt c)) (c_created_at c) (c_updated_at c).

Definition list_agent_run_tool_calls (run_id : string) (status : option string) (limit : Z) :
    M store (list tool_call_row) :=
  if limit <=? 0 then ret []
  else gets (fun s => map decode_agent_run_tool_call_row
    (take (Z.to_nat limit)
       (sort_by (fun a b => String.leb (c_updated_at a) (c_updated_at b))
          (List.filter (fun c => String.eqb (c_run_id c) run_id
                          && match status with Some st => String.eqb (c_status c) (lower (strip st)) | None => true end)
             (t_tool_calls (s_cur s)))))).

(** ** Checkpoints *)

(** [payload.setdefault(k, v)] *)
Definition set_default (k : string) (v : pyval) (d : pydict) : pydict := if d_mem k d then d else d_set k v d.

Definition append_agent_run_checkpoint (run_id : string) (checkpoint : pydict) (issue_update : option issue_update)
    (issue_artifact : option issue_artifact) (tool_call_record : option tool_call_record) : M store unit :=
  let* now := utc_now in
  let* found := gets (fun s => d_get run_id (t_runs (s_cur s))) in
  match found with
  | None => ret tt
  | Some r =>
      let payload := set_default "timestamp" (PStr now) checkpoint in
      update_tables (map_run run_id
        (set_fields [FCheckpointsJson (r_checkpoints r ++ [payload]); FUpdatedAt now])) ;;;
      match issue_update with
      | Some u => upsert_agent_run_issue_no_commit run_id u now
      | None => ret tt
      end ;;;
      match issue_artifact with
      | Some u => upsert_agent_run_issue_artifact_no_commit run_id u now
      | None => ret tt
      end ;;;
      match tool_call_record with
      | Some u => upsert_agent_run_tool_call_no_commit run_id u now
      | None => ret tt
      end ;;;
      commit_locked
  end.

(** ** [agents] *)

Definition get_agent (agent_id : string) : M store (option agent_row) :=
  gets (fun s => d_get agent_id (t_agents (s_cur s))).

End store.

End RunStore.
