(* ===== verification/Threads.v ===== *)
(** Threads over a shared state.  A thread is a sequence of atomic actions, a
    resumption: between two actions other threads may run.  The same method
    can be run alone ([run]) or interleaved with others ([sched]).

    An atomic action is a computation of [Effects.M] that the code runs under
    one lock.  Exceptions cross actions as they do in Python. *)

From stdpp Require Import prelude strings list.
From Stdlib Require Import Lia.
From S2P Require Import Prelude PyStr PyVal Effects.

#[warnings="-register-all"]
Inductive thread (S A : Type) : Type :=
  | Done (a : A)
  | Failed (e : exn)
  | Step (f : S -> thread S A * S).
Arguments Done {S A} a.
Arguments Failed {S A} e.
Arguments Step {S A} f.

(** Induction with a hypothesis for every way an action can continue. *)
Definition thread_rect' {S A} (P : thread S A -> Prop)
    (HD : forall a, P (Done a)) (HF : forall e, P (Failed e))
    (HS : forall f, (forall s, P (f s).1) -> P (Step f)) : forall t, P t :=
  fix go t :=
    match t return P t with
    | Done a => HD a
    | Failed e => HF e
    | Step f => HS f (fun s => match f s as p return P p.1 with (t', _) => go t' end)
    end.

(** A computation that meets no shared state. *)
Definition t_lift {S A} (r : res A) : thread S A := match r with Ok a => Done a | Err e => Failed e end.

(** One atomic action. *)
Definition atomic {S A} (m : M S A) : thread S A :=
  Step (fun s => match m s with
                 | (Ok a, s') => (Done a, s')
                 | (Err e, s') => (Failed e, s')
                 end).

Fixpoint t_bind {S A B} (t : thread S A) (k : A -> thread S B) : thread S B :=
  match t with
  | Done a => k a
  | Failed e => Failed e
  | Step f => Step (fun s => match f s with (t', s') => (t_bind t' k, s') end)
  end.

(** [try: t except Exception as exc: h(exc) else: k] *)
Fixpoint t_try {S A B} (t : thread S A) (h : exn -> thread S B) (k : A -> thread S B) : thread S B :=
  match t with
  | Done a => k a
  | Failed e => h e
  | Step f => Step (fun s => match f s with (t', s') => (t_try t' h k, s') end)
  end.

(** [try: t finally: c] *)
Definition t_finally {S A} (t : thread S A) (c : thread S unit) : thread S A :=
  t_try t (fun e => t_bind c (fun _ => Failed e)) (fun a => t_bind c (fun _ => Done a)).

Declare Scope thread_scope.
Delimit Scope thread_scope with thread.
Notation "'let!' x := t 'in' k" := (t_bind t (fun x => k))
  (at level 10, x pattern, t at level 100, k at level 200) : thread_scope.
Notation "t ;! k" := (t_bind t (fun _ => k))
  (at level 199, k at level 200, right associativity) : thread_scope.
#[global] Open Scope thread_scope.

Definition t_when {S} (b : bool) (t : thread S unit) : thread S unit := if b then t else Done tt.

Fixpoint t_for {S A} (l : list A) (f : A -> thread S unit) : thread S unit :=
  match l with
  | [] => Done tt
  | x :: l' => f x ;! t_for l' f
  end.

(** ** A thread alone *)
Fixpoint run {S A} (t : thread S A) (s : S) : res A * S :=
  match t with
  | Done a => (Ok a, s)
  | Failed e => (Err e, s)
  | Step f => match f s with (t', s') => run t' s' end
  end.

Section run_lemmas.
Context {S : Type}.

Lemma run_atomic {A} (m : M S A) s : run (atomic m) s = m s.
Proof. unfold atomic. simpl. by destruct (m s) as [[]]. Qed.

(** Run alone, sequencing threads is sequencing computations. *)
Lemma run_bind {A B} (t : thread S A) (k : A -> thread S B) s :
  run (t_bind t k) s = bind (run t) (fun a => run (k a)) s.
Proof.
  revert s. unfold bind. induction t as [a|e|f IH] using thread_rect'; intros s; simpl; [done..|].
  specialize (IH s). destruct (f s) as [t' s']. apply IH.
Qed.

Lemma run_try {A B} (t : thread S A) (h : exn -> thread S B) (k : A -> thread S B) s :
  run (t_try t h k) s = match run t s with
                        | (Ok a, s') => run (k a) s'
                        | (Err e, s') => run (h e) s'
                        end.
Proof.
  revert s. induction t as [a|e|f IH] using thread_rect'; intros s; simpl; [done..|].
  specialize (IH s). destruct (f s) as [t' s']. apply IH.
Qed.

(** What a thread keeps when it runs alone. *)
Definition still {A} (I : S -> Prop) (t : thread S A) : Prop := preserves I (run t).

Lemma still_done {A} I (a : A) : still I (Done a).
Proof. by intros s Hs. Qed.
Lemma still_failed {A} I e : still I (@Failed S A e).
Proof. by intros s Hs. Qed.
Lemma still_lift {A} I (r : res A) : still I (t_lift r).
Proof. by destruct r; intros s Hs. Qed.
Lemma still_atomic {A} I (m : M S A) : preserves I m -> still I (atomic m).
Proof. intros H s Hs. rewrite run_atomic. by apply H. Qed.
Lemma still_bind {A B} I (t : thread S A) (k : A -> thread S B) : still I t -> (forall a, still I (k a)) -> still I (t_bind t k).
Proof. intros Ht Hk s Hs. rewrite run_bind. by apply (preserves_bind I (run t) (fun a => run (k a))). Qed.
Lemma still_try {A B} I (t : thread S A) (h : exn -> thread S B) (k : A -> thread S B) :
  still I t -> (forall e, still I (h e)) -> (forall a, still I (k a)) -> still I (t_try t h k).
Proof.
  intros Ht Hh Hk s Hs. rewrite run_try. specialize (Ht s Hs). destruct (run t s) as [[a|e] s']; [by apply Hk|by apply Hh].
Qed.
End run_lemmas.

(** ** Threads together

    A pool of running threads, each with a label that records what the thread
    has done to the state, [upd] being the record of one action.  A step is an
    action of one thread, or the start of a thread that [enters] allows with its
    first label. *)
Section pool.
Context {S L : Type} (upd : S -> S -> L -> L) (enters : S -> L -> thread S unit -> Prop).

Local Abbreviation config := (prod (list (prod L (thread S unit))) S).

Inductive acts : nat -> config -> config -> Prop :=
  | acts_intro ts s i l f t' s' :
      ts !! i = Some (l, Step f) -> f s = (t', s') -> acts i (ts, s) (<[i := (upd s s' l, t')]> ts, s').

Inductive sched : config -> config -> Prop :=
  | sched_act i c c' : acts i c c' -> sched c c'
  | sched_start ts s l t : enters s l t -> sched (ts, s) (ts ++ [(l, t)], s).

(** ** What a thread guarantees

    From every state in [I], whatever the other threads did before, every
    action of a thread labelled [l] makes a step in [G l]; the thread ends with
    [Q] of its label and value, or with [E] of its label and exception. *)
Section wp.
Context (I : S -> Prop) (G : L -> S -> S -> Prop).

Fixpoint wp {A} (l : L) (t : thread S A) (Q : L -> A -> Prop) (E : L -> exn -> Prop) : Prop :=
  match t with
  | Done a => Q l a
  | Failed e => E l e
  | Step f => forall s, I s -> match f s with (t', s') => G l s s' /\ wp (upd s s' l) t' Q E end
  end.

Lemma wp_atomic {A} l (m : M S A) (Q : L -> A -> Prop) (E : L -> exn -> Prop) :
  (forall s, I s -> G l s (m s).2 /\
     match (m s).1 with Ok a => Q (upd s (m s).2 l) a | Err e => E (upd s (m s).2 l) e end) ->
  wp l (atomic m) Q E.
Proof. intros H s Hs. specialize (H s Hs). by destruct (m s) as [[] ?]. Qed.

Lemma wp_try {A B} l (t : thread S A) (h : exn -> thread S B) (k : A -> thread S B) Q E :
  wp l t (fun l' a => wp l' (k a) Q E) (fun l' e => wp l' (h e) Q E) -> wp l (t_try t h k) Q E.
Proof.
  revert l. induction t as [a|e|f IH] using thread_rect'; intros l; simpl; [done..|].
  intros Ht s Hs. specialize (IH s). specialize (Ht s Hs). destruct (f s) as [t' s'].
  destruct Ht. split; [done|]. by apply IH.
Qed.

Lemma wp_bind {A B} l (t : thread S A) (k : A -> thread S B) Q E :
  wp l t (fun l' a => wp l' (k a) Q E) E -> wp l (t_bind t k) Q E.
Proof.
  revert l. induction t as [a|e|f IH] using thread_rect'; intros l; simpl; [done..|].
  intros Ht s Hs. specialize (IH s). specialize (Ht s Hs). destruct (f s) as [t' s'].
  destruct Ht. split; [done|]. by apply IH.
Qed.

Lemma wp_mono {A} l (t : thread S A) (Q Q' : L -> A -> Prop) (E E' : L -> exn -> Prop) :
  (forall l a, Q l a -> Q' l a) -> (forall l e, E l e -> E' l e) -> wp l t Q E -> wp l t Q' E'.
Proof.
  intros HQ HE. revert l. induction t as [a|e|f IH] using thread_rect'; intros l; simpl; [auto..|].
  intros Ht s Hs. specialize (IH s). specialize (Ht s Hs). destruct (f s) as [t' s'].
  destruct Ht. split; [done|]. by apply IH.
Qed.

(** Threads together: the invariant of the states, what every thread still
    guarantees, and an invariant [J] of all the labels. *)
Context (J : list L -> S -> Prop).
Context (G_I : forall l s s', I s -> G l s s' -> I s').
Context (G_J : forall ls i l s s', I s -> J ls s -> ls !! i = Some l -> G l s s' -> J (<[i := upd s s' l]> ls) s').
Context (start_J : forall ls s l t, J ls s -> enters s l t -> J (ls ++ [l]) s).
Context (enters_wp : forall s l t, enters s l t -> wp l t (fun _ _ => True) (fun _ _ => True)).

Definition sound (c : config) : Prop :=
  I c.2 /\ J c.1.*1 c.2 /\ Forall (fun lt => wp lt.1 lt.2 (fun _ _ => True) (fun _ _ => True)) c.1.

(** An action of a sound pool is in [G] of its thread. *)
Lemma sound_acts i c c' :
  sound c -> acts i c c' -> exists l, c.1.*1 !! i = Some l /\ G l c.2 c'.2 /\ sound c'.
Proof using G_I G_J.
  intros Hc Ha. destruct Ha as [ts s j l f t1 s1 Hi Hf]. destruct Hc as (HI & HJ & Hwp); simpl in *.
  pose proof (proj1 (Forall_lookup _ _) Hwp j _ Hi s HI) as Hg. simpl in Hg. rewrite Hf in Hg.
  destruct Hg as [Hg Ht1]. assert (ts.*1 !! j = Some l) as Hl by (by rewrite list_lookup_fmap, Hi).
  exists l. split_and!; [done..|]. unfold sound; simpl. split_and!; [by eapply G_I| |].
  - rewrite list_fmap_insert. by eapply G_J.
  - by apply Forall_insert.
Qed.

Lemma sound_sched c c' : sound c -> sched c c' -> sound c'.
Proof using G_I G_J start_J enters_wp.
  intros Hc Hs. destruct Hs as [i ? ? Ha|ts s l t Hen]; [by apply (sound_acts _ _ _ Hc) in Ha as (? & ? & ? & ?)|].
  destruct Hc as (HI & HJ & Hwp). unfold sound; simpl in *. split_and!; [done| |].
  - rewrite fmap_app. by eapply start_J.
  - apply Forall_app. split; [done|]. apply Forall_singleton. by eapply enters_wp.
Qed.

Lemma sound_reachable c c' : sound c -> rtc sched c c' -> sound c'.
Proof using G_I G_J start_J enters_wp. intros Hc H. induction H; eauto using sound_sched. Qed.
End wp.
End pool.
