(* ===== verification/RunValues.v ===== *)
(** The values agent runs compute with (agents/agent_run_manager.py): budgets,
    metrics, live usage and its limits, run sources, resume states, and what a
    checkpoint says about issues, artifacts and tool calls. *)

From stdpp Require Import prelude strings list.
From Stdlib Require Import Lia ZArith Ascii.
From S2P Require Import Prelude PyStr PyVal PyFloat PyFloatOps Effects PyTime RunPolicy RunStore.
Import RunPolicy RunStore.

Module RunValues.

Definition fzero : fvalue := FFinite 0 0.

(** [_safe_int], [_safe_float] *)
Definition safe_int (v : pyval) (default : Z) : Z := match py_int v with Ok z => z | Err _ => default end.
Definition safe_float (v : pyval) (default : fvalue) : fvalue := match py_float v with Ok f => f | Err _ => default end.

(** ** Budgets *)

Record budget : Type := Budget {
  max_tokens : Z;
  max_duration_sec : fvalue;
  max_tool_calls : Z;
  max_tool_errors : Z }.

Definition budget_dict (b : budget) : pydict :=
  [("max_tokens", PInt (max_tokens b)); ("max_duration_sec", PyF (max_duration_sec b));
   ("max_tool_calls", PInt (max_tool_calls b)); ("max_tool_errors", PInt (max_tool_errors b))].

(** [default_run_budget] of the constructor *)
Definition make_default_budget (tokens : Z) (duration : fvalue) (calls errors : Z) : budget :=
  Budget (Z.max 256 tokens) (f_max (FFinite 10 0) duration) (Z.max 1 calls) (Z.max 0 errors).

(** [_normalize_run_budget] *)
Definition normalize_run_budget (default : budget) (raw : pydict) : budget :=
  let d := budget_dict default in
  Budget
    (Z.max 256 (safe_int (get_or "max_tokens" (get "max_tokens" d) raw) 256))
    (f_max (FFinite 10 0) (safe_float (get_or "max_duration_sec" (get "max_duration_sec" d) raw) (FFinite 10 0)))
    (Z.max 1 (safe_int (get_or "max_tool_calls" (get "max_tool_calls" d) raw) 1))
    (Z.max 0 (safe_int (get_or "max_tool_errors" (get "max_tool_errors" d) raw) 0)).

(** ** Metrics *)

Record metrics : Type := Metrics {
  estimated_tokens : Z;
  tool_calls : Z;
  tool_errors : Z;
  attempt_count : Z;
  retry_count : Z;
  total_attempt_duration_ms : fvalue;
  last_attempt_duration_ms : fvalue }.

Definition metrics_dict (m : metrics) : pydict :=
  [("estimated_tokens", PInt (estimated_tokens m)); ("tool_calls", PInt (tool_calls m));
   ("tool_errors", PInt (tool_errors m)); ("attempt_count", PInt (attempt_count m));
   ("retry_count", PInt (retry_count m)); ("total_attempt_duration_ms", PyF (total_attempt_duration_ms m));
   ("last_attempt_duration_ms", PyF (last_attempt_duration_ms m))].

(** [_normalize_run_metrics] *)
Definition normalize_run_metrics (source : pydict) : metrics :=
  let count k := Z.max 0 (safe_int (get_or k (PInt 0) source) 0) in
  let duration k := f_max fzero (safe_float (get_or k (PyF fzero) source) fzero) in
  Metrics (count "estimated_tokens") (count "tool_calls") (count "tool_errors") (count "attempt_count")
    (count "retry_count") (duration "total_attempt_duration_ms") (duration "last_attempt_duration_ms").

(** [_finalize_run_metrics] *)
Definition finalize_run_metrics (source : pydict) (attempt : Z) (attempt_duration_ms : fvalue) : metrics :=
  let m := normalize_run_metrics source in
  let count := Z.max (attempt_count m) attempt in
  Metrics (estimated_tokens m) (tool_calls m) (tool_errors m) count (Z.max 0 (count - 1))
    (f_round 3 (f_add (f_max fzero (total_attempt_duration_ms m)) (f_max fzero attempt_duration_ms)))
    (f_max fzero attempt_duration_ms).

(** ** Live usage *)

(** The dictionary [live_usage] of an attempt. *)
Record usage : Type := Usage { us_tokens : Z; us_calls : Z; us_errors : Z }.

Definition usage_dict (u : usage) : pydict :=
  [("estimated_tokens", PInt (us_tokens u)); ("tool_calls", PInt (us_calls u)); ("tool_errors", PInt (us_errors u))].

Definition usage_of (m : metrics) : usage := Usage (estimated_tokens m) (tool_calls m) (tool_errors m).

(** [str(checkpoint.get("stage", "")).strip()] *)
Definition stage_of (checkpoint : pydict) : string := strip (py_str (get_or "stage" (PStr "") checkpoint)).

(** A checkpoint of a tool call that was executed. *)
Definition executed_call (checkpoint : pydict) : bool :=
  String.eqb (stage_of checkpoint) "tool_call_finished"
  && negb (truthy (get "cached" checkpoint) || match get "executed" checkpoint with PBool false => true | _ => false end).

Definition failed_call (checkpoint : pydict) : bool :=
  str_in (lower (strip (py_str (get_or "status" (PStr "") checkpoint))))
    ["failed"; "invalid_arguments"; "blocked"; "permission_required"].

(** [_merge_checkpoint_usage] *)
Definition merge_checkpoint_usage (checkpoint : pydict) (u : usage) : usage :=
  let tokens :=
    if d_mem "estimated_tokens_total" checkpoint then
      match py_int (get_or "estimated_tokens_total" (PInt 0) checkpoint) with
      | Ok z => Z.max (us_tokens u) (Z.max 0 z)
      | Err _ => us_tokens u
      end
    else us_tokens u in
  if executed_call checkpoint then
    Usage tokens (Z.max 0 (us_calls u) + 1)
      (if failed_call checkpoint then Z.max 0 (us_errors u) + 1 else us_errors u)
  else Usage tokens (us_calls u) (us_errors u).

(** [_validate_live_budget_usage] *)
Definition over (what : string) (used limit : Z) : exn :=
  TaskError RunBudgetExceededError
    ("Run " +:+ what +:+ " budget exceeded (" +:+ str_of_Z used +:+ " > " +:+ str_of_Z limit +:+ ").").

Definition validate_live_budget_usage (b : budget) (u : usage) : res unit :=
  if (0 <? max_tokens b) && (max_tokens b <? us_tokens u) then Err (over "token" (us_tokens u) (max_tokens b))
  else if (0 <? max_tool_calls b) && (max_tool_calls b <? us_calls u)
  then Err (over "tool-call" (us_calls u) (max_tool_calls b))
  else if (0 <=? max_tool_errors b) && (max_tool_errors b <? us_errors u)
  then Err (over "tool-error" (us_errors u) (max_tool_errors b))
  else Ok tt.

(** [_extract_result_metrics] *)
Definition extract_result_metrics (result : pydict) (fallback : usage) (attempt : Z) : metrics :=
  match get "metrics" result with
  | PDict m =>
      let or_used k := Z.max 0 (safe_int (get_or k (get k (usage_dict fallback)) m) 0) in
      let attempts := safe_int (get_or "attempt_count" (PInt attempt) m) attempt in
      let duration := get_or "duration_ms" (PyF fzero) m in
      normalize_run_metrics (metrics_dict
        (Metrics (or_used "estimated_tokens") (or_used "tool_calls") (or_used "tool_errors")
           (Z.max attempts attempt) (Z.max 0 (attempts - 1))
           (f_max fzero (safe_float (get_or "total_attempt_duration_ms" duration m) fzero))
           (f_max fzero (safe_float duration fzero))))
  | _ => finalize_run_metrics (usage_dict fallback) attempt fzero
  end.

(** ** Instants *)

(** [_parse_iso_datetime] on the texts runs store *)
Definition parse_iso_datetime (value : string) : option Z :=
  let raw := strip value in
  if is_empty raw then None else fromisoformat (replace_c "Z" "+00:00" raw).

(** [_remaining_duration_sec] at the instant [now] *)
Definition remaining_duration_sec (now : Z) (started_at : string) (b : budget) : fvalue :=
  let max_duration := f_max fzero (max_duration_sec b) in
  if f_le max_duration fzero then fzero
  else match parse_iso_datetime started_at with
  | None => max_duration
  | Some start => f_max fzero (f_sub max_duration (f_max fzero (f_quot (now - start) us_per_sec)))
  end.

(** [timedelta(seconds=x)] in microseconds *)
Definition timedelta_us (x : fvalue) : res Z :=
  match x with
  | FFinite m e =>
      let whole := trunc_float m e in
      match f_mul (f_sub x (f_int whole)) (FFinite 1000000 0) with
      | FFinite m' e' => Ok (whole * us_per_sec + scaled m' e' 0)
      | _ => Ok (whole * us_per_sec)
      end
  | FInfinite _ => Err (OverflowError "cannot convert float infinity to integer")
  | FNan => Err (ValueError "cannot convert float NaN to integer")
  end.

(** [dt + delta]: the year must stay within 1..9999. *)
Definition add_us (t delta : Z) : res Z :=
  let '(y, _, _) := civil_from_days (dt_day (t + delta)) in
  if (1 <=? y) && (y <=? 9999) then Ok (t + delta) else Err (OverflowError "date value out of range").

(** ** Runs *)

(** [_resolve_cancel_stop_reason] *)
Definition resolve_cancel_stop_reason (run : run_row) : string :=
  if String.eqb (lower (strip (opt_str (r_stop_reason run)))) KILL_SWITCH_STOP_REASON
  then KILL_SWITCH_STOP_REASON else "canceled_by_user".

(** [str(item.get(k) or "").strip().lower()] *)
Definition low (v : pyval) : string := lower (norm v).

(** [_count_budget_guardrail_breaches] *)
Definition count_budget_guardrail_breaches (run : run_row) : Z :=
  Z.of_nat (length (List.filter
    (fun item => str_in (low (get "stage" item)) ["budget_guardrail_paused"; "budget_guardrail_escalated"])
    (r_checkpoints run))).

(** [_normalize_run_source] *)
Definition normalize_run_source (raw : string) : string :=
  let normalized := lower (strip raw) in
  if str_in normalized ["user"; "automation"; "supervisor"] then normalized else "user".

(** [_resolve_run_source] of a row of the database, which has no key
    [run_source] of its own *)
Fixpoint resolve_run_source (checkpoints : list pydict) : string :=
  match checkpoints with
  | [] => "user"
  | item :: rest =>
      let candidate := norm (get "run_source" item) in
      if is_empty candidate then resolve_run_source rest else normalize_run_source candidate
  end.

(** [_extract_resume_state] *)
Definition resume_state_of (item : pydict) : option pydict :=
  match get "resume_state" item with PDict d => Some d | _ => None end.

Fixpoint first_some {A B} (f : A -> option B) (l : list A) : option B :=
  match l with
  | [] => None
  | x :: l' => match f x with Some b => Some b | None => first_some f l' end
  end.

Definition extract_resume_state (run : run_row) : option pydict := first_some resume_state_of (rev (r_checkpoints run)).

(** ** Issues *)

Definition STEP_PREPARE_CONTEXT : string := "prepare_context".
Definition STEP_REASONING : string := "reasoning".
Definition STEP_PERSIST : string := "persist".

Definition CORE_ISSUE_DEFINITIONS : list (string * string * Z * list string) :=
  [(STEP_PREPARE_CONTEXT, "Prepare context", 10, []);
   (STEP_REASONING, "Reasoning", 20, [STEP_PREPARE_CONTEXT]);
   (STEP_PERSIST, "Persist memory", 30, [STEP_REASONING])].

(** [str.title()]: a letter that does not follow a letter is put in title
    case, the others in lower case. *)
Definition is_cased (c : ascii) : bool :=
  in_range 65 90 c || in_range 97 122 c || in_range 170 170 c || in_range 181 181 c || in_range 186 186 c
  || in_range 192 214 c || in_range 216 246 c || in_range 248 255 c.

Definition title_c (c : ascii) : string := if in_range 223 223 c then "Ss" else upper_c c.

Fixpoint title_go (after_cased : bool) (s : string) : string :=
  match s with
  | EmptyString => ""
  | String c s' =>
      (if after_cased then String (lower_c c) "" else title_c c) +:+ title_go (is_cased c) s'
  end.

Definition title_case (s : string) : string := title_go false s.

(** The text after the first [":"]. *)
Fixpoint after_colon (s : string) : string :=
  match s with
  | EmptyString => ""
  | String c s' => if Ascii.eqb c ":" then s' else after_colon s'
  end.

(** [_issue_meta_for_id]: title, order and dependencies *)
Definition issue_meta_for_id (issue_id : string) : string * Z * list string :=
  let normalized := strip issue_id in
  match List.find (fun '(known_id, _, _, _) => String.eqb normalized known_id) CORE_ISSUE_DEFINITIONS with
  | Some (_, title, order, depends_on) => (title, order, depends_on)
  | None =>
      if starts_with "plan_step:" normalized then
        let suffix := strip (after_colon normalized) in
        ("Plan step " +:+ suffix, 100 + Z.max 0 (safe_int (PStr suffix) 0), [STEP_PREPARE_CONTEXT])
      else (str_or (title_case (strip (replace_c "_" " " normalized))) "Issue", 1000, [])
  end.

(** ** What a checkpoint says *)

(** The issue a checkpoint reports, the first part of
    [_derive_issue_update_from_checkpoint] *)
Definition issue_payload_of (checkpoint : pydict) (attempt : Z) : option pydict :=
  let stage := low (get "stage" checkpoint) in
  if String.eqb stage "issue_state" then
    match get "issue" checkpoint with PDict raw_issue => Some raw_issue | _ => None end
  else if str_in stage ["step_completed"; "step_resumed"; "step_resume_fallback"] then
    let step := norm (get "step" checkpoint) in
    if is_empty step then None
    else
      let mapped_status := if str_in stage ["step_completed"; "step_resumed"] then "done" else "running" in
      let '(title, issue_order, depends_on) := issue_meta_for_id step in
      Some [("id", PStr step); ("title", PStr title); ("order", PInt issue_order);
            ("depends_on", PList (map PStr depends_on)); ("status", PStr mapped_status);
            ("attempt", PInt attempt);
            ("payload", PDict [("stage", PStr stage);
                               ("message", PStr (py_str (py_or (get "message" checkpoint) (PStr ""))))])]
  else None.

Definition issue_status_of (v : pyval) : string :=
  let status := norm_lower_or "planned" v in
  if str_in status ["planned"; "running"; "blocked"; "done"; "failed"] then status else "planned".

(** [str(v) if v is not None else None] *)
Definition str_opt (v : pyval) : option string := match v with PNone => None | _ => Some (py_str v) end.

(** The update of that issue, given the stored issue and the time; the rest
    of [_derive_issue_update_from_checkpoint] *)
Definition issue_update_of (p : pydict) (attempt : Z) (timestamp : string) (existing : option issue_row) :
    issue_update :=
  let issue_id := norm (get "id" p) in
  let '(title, issue_order_default, depends_on_default) := issue_meta_for_id issue_id in
  let issue_order := safe_int (get "order" p) issue_order_default in
  let status := issue_status_of (get "status" p) in
  let depends_on :=
    match get "depends_on" p with
    | PList l => List.filter (fun s => negb (is_empty (strip s))) (map py_str l)
    | _ => depends_on_default
    end in
  let attempt_count := Z.max 0 (safe_int (get "attempt" p) attempt) in
  let last_error :=
    match get "last_error" p with
    | PNone => match get "payload" p with PDict payload => str_opt (get "error" payload) | _ => None end
    | v => Some (py_str v)
    end in
  let or_existing o f := match o, existing with
                         | None, Some i => str_or_none (opt_str (f i))
                         | _, _ => o
                         end in
  let started_at := or_existing (str_opt (get "started_at" p)) i_started_at in
  let finished_at := or_existing (str_opt (get "finished_at" p)) i_finished_at in
  let started_at := match started_at with
                    | None => if String.eqb status "running" then Some timestamp else None
                    | _ => started_at
                    end in
  let finished_at := match finished_at with
                     | None => if str_in status ["done"; "failed"; "blocked"] then Some timestamp else None
                     | _ => finished_at
                     end in
  let finished_at := if str_in status ["planned"; "running"] then None else finished_at in
  IssueUpdate issue_id (Z.max 0 issue_order)
    (str_or (strip (py_str (py_or (get "title" p) (PStr title)))) title) status depends_on attempt_count last_error
    (as_dict (get "payload" p)) started_at finished_at.

(** [_derive_issue_artifact_from_checkpoint] *)
Definition artifact_key_of (v : pyval) : string := str_or (strip (py_str (py_or v (PStr "result")))) "result".

Definition derive_issue_artifact_from_checkpoint (checkpoint : pydict) : option issue_artifact :=
  let stage := low (get "stage" checkpoint) in
  if String.eqb stage "issue_artifact" then
    let issue_id := norm (get "issue_id" checkpoint) in
    match is_empty issue_id, get "artifact" checkpoint with
    | false, PDict artifact => Some (IssueArtifact issue_id (artifact_key_of (get "artifact_key" checkpoint)) artifact)
    | _, _ => None
    end
  else if negb (String.eqb stage "issue_state") then None
  else match get "issue" checkpoint with
  | PDict issue =>
      let issue_id := norm (get "id" issue) in
      match is_empty issue_id, get "payload" issue with
      | false, PDict payload =>
          match get "artifact" payload with
          | PDict artifact => Some (IssueArtifact issue_id (artifact_key_of (get "artifact_key" payload)) artifact)
          | _ => None
          end
      | _, _ => None
      end
  | _ => None
  end.

(** [_derive_tool_call_record_from_checkpoint] *)
Definition derive_tool_call_record_from_checkpoint (checkpoint : pydict) : option tool_call_record :=
  let stage := low (get "stage" checkpoint) in
  if negb (String.eqb stage "tool_call_recorded") then None
  else
    let idempotency_key := norm (get "idempotency_key" checkpoint) in
    let tool_name := norm (get "tool" checkpoint) in
    let status := low (get "status" checkpoint) in
    if is_empty idempotency_key || is_empty tool_name then None
    else
      let normalized_status := str_or status "unknown" in
      Some (ToolCallRecord idempotency_key tool_name (as_dict (get "arguments" checkpoint))
              (if String.eqb normalized_status "reused" then "succeeded" else normalized_status)
              (match get "result" checkpoint with PDict d => Some d | _ => None end)
              (match get "error" checkpoint with PNone | PStr "" => None | v => Some (py_str v) end)
              (match py_int (get "attempt" checkpoint) with Ok z => Z.max 0 z | Err _ => 0 end)).

(** ** Resume states *)

(** [state if state else resume_state] *)
Definition state_or (state : pydict) (resume_state : option pydict) : option pydict :=
  match state with [] => resume_state | _ => Some state end.

(** [_merge_persisted_issue_artifacts], on the rows it reads *)
Definition done_steps (issue_rows : list issue_row) (completed_steps : list string) : list string :=
  fold_left (fun steps i =>
    let issue_id := strip (i_issue_id i) in
    if is_empty issue_id then steps
    else if String.eqb (lower (strip (i_status i))) "done" && negb (str_in issue_id steps) then steps ++ [issue_id]
    else steps) issue_rows completed_steps.

Definition add_artifact (artifacts : dict pydict) (a : artifact_row) : dict pydict :=
  let issue_id := strip (a_issue_id a) in
  let key := str_or (strip (str_or (a_artifact_key a) "result")) "result" in
  if is_empty issue_id then artifacts
  else d_set issue_id
         (d_set key (PDict (a_artifact a)) (match d_get issue_id artifacts with Some d => d | None => [] end)) artifacts.

Definition merge_persisted_issue_artifacts (issue_rows : list issue_row) (rows : list artifact_row)
    (resume_state : option pydict) : option pydict :=
  let state := match resume_state with Some d => d | None => [] end in
  let state :=
    match issue_rows with
    | [] => state
    | _ =>
        let completed_steps :=
          match get "completed_steps" state with
          | PList l => List.filter (fun s => negb (is_empty (strip s))) (map py_str l)
          | _ => []
          end in
        d_set "completed_steps" (PList (map PStr (done_steps issue_rows completed_steps))) state
    end in
  match rows with
  | [] => state_or state resume_state
  | _ =>
      let given := match get "issue_artifacts" state with
                   | PDict raw => flat_map (fun '(k, v) => match v with PDict d => [(k, d)] | _ => [] end) raw
                   | _ => []
                   end in
      let artifacts := fold_left add_artifact rows given in
      Some (d_set "issue_artifacts" (PDict (map (fun '(k, d) => (k, PDict d)) artifacts)) state)
  end.

(** [_merge_persisted_tool_call_cache], on the rows it reads *)
Definition add_call (cache : dict pydict) (c : tool_call_row) : dict pydict :=
  let key := strip (c_idempotency_key c) in
  let tool_name := strip (c_tool_name c) in
  if negb (String.eqb (lower (strip (c_status c))) "succeeded") then cache
  else if is_empty key || is_empty tool_name then cache
  else match c_result c with
  | None => cache
  | Some result =>
      d_set key [("tool_name", PStr tool_name); ("status", PStr "succeeded");
                 ("arguments", PDict (c_arguments c)); ("tool_result", PDict result)] cache
  end.

Definition merge_persisted_tool_call_cache (rows : list tool_call_row) (resume_state : option pydict) :
    option pydict :=
  let state := match resume_state with Some d => d | None => [] end in
  match rows with
  | [] => state_or state resume_state
  | _ =>
      let given := match get "tool_call_cache" state with
                   | PDict raw =>
                       fold_left (fun cache '(k, v) =>
                         match is_empty (strip k), v with
                         | false, PDict d => d_set (strip k) d cache
                         | _, _ => cache
                         end) raw []
                   | _ => []
                   end in
      Some (d_set "tool_call_cache" (PDict (map (fun '(k, d) => (k, PDict d)) (fold_left add_call rows given))) state)
  end.

End RunValues.
