(* ===== verification/RunManager.v ===== *)
(** The agent run manager (agents/agent_run_manager.py, [AgentRunManager]):
    creating, canceling, killing and resuming runs, recovery at start, the
    workers that claim a run under a lease and execute its attempts, and the
    heartbeat that keeps the lease.

    Methods are threads of [Threads]: each call of the database, each queue
    operation, each reading of a clock and each access to a heartbeat is one
    atomic action; a [write_transaction] holds the lock of the database and is
    one action too.  The task executor is a parameter, a script of checkpoints:
    it meets the manager only through the callback it is given. *)

From stdpp Require Import prelude strings list.
From Stdlib Require Import Lia ZArith Ascii.
From S2P Require Import Prelude PyStr PyVal PyFloat PyFloatOps Effects PyTime Threads RunPolicy RunStore RunValues.
Import RunPolicy RunStore RunValues.

Module RunManager.

(** ** The constructor *)

Record settings : Type := Settings {
  recover_pending_on_start : bool;
  default_max_attempts : Z;
  attempt_timeout_sec : fvalue;
  retry_backoff_sec : fvalue;
  retry_max_backoff_sec : fvalue;
  retry_jitter_sec : fvalue;
  run_lease_ttl_sec : fvalue;
  run_lease_heartbeat_sec : fvalue;
  default_run_budget : budget;
  has_telemetry : bool;
  lease_owner : string }.

Definition run_lease_heartbeat_max_failures : Z := 3.

(** [__init__]; [worker_count] workers are [worker_count] threads of the pool *)
Definition init_settings (recover : bool) (max_attempts : Z)
    (attempt_timeout backoff max_backoff jitter : fvalue)
    (tokens : Z) (duration : fvalue) (calls errors : Z) (lease_ttl : option fvalue) (telemetry : bool)
    (manager_uuid : string) : settings :=
  let attempt_timeout := f_max (FFinite 5 0) attempt_timeout in
  let lease_floor := f_max (FFinite 10 0) (f_add attempt_timeout (FFinite 5 0)) in
  let ttl := match lease_ttl with
             | None => f_max lease_floor (f_add (f_mul attempt_timeout (FFinite 2 0)) (FFinite 5 0))
             | Some t => f_max lease_floor t
             end in
  Settings recover (Z.max 1 max_attempts) attempt_timeout (f_max fzero backoff) (f_max fzero max_backoff)
    (f_max fzero jitter) ttl (f_max (FFinite 1 0) (f_min (f_div ttl (FFinite 3 0)) (FFinite 15 0)))
    (make_default_budget tokens duration calls errors) telemetry ("run-manager-" +:+ manager_uuid).

(** ** State *)

(** The shared dictionary of a heartbeat; [hb_ended] when its thread has
    returned. *)
Record heartbeat : Type := Heartbeat {
  hb_run_id : string;
  hb_token : string;
  hb_stop : bool;
  hb_lost : bool;
  hb_reason : string;
  hb_failures : Z;
  hb_ended : bool }.

(** The connection, the queue ([None] stops a worker), the flags, the
    heartbeats and the dictionaries [live_usage] of the attempts, the
    identifiers, monotonic readings and random draws used so far, and the
    events sent. *)
Record manager : Type := Manager {
  m_store : store;
  m_queue : list (option string);
  m_started : bool;
  m_stop : bool;
  m_heartbeats : list heartbeat;
  m_live : list usage;
  m_uuid : nat;
  m_mono : nat;
  m_random : nat;
  m_events : list (string * pydict) }.

Definition set_store (st : store) (m : manager) : manager :=
  Manager st (m_queue m) (m_started m) (m_stop m) (m_heartbeats m) (m_live m) (m_uuid m) (m_mono m) (m_random m)
    (m_events m).
Definition set_queue (q : list (option string)) (m : manager) : manager :=
  Manager (m_store m) q (m_started m) (m_stop m) (m_heartbeats m) (m_live m) (m_uuid m) (m_mono m) (m_random m)
    (m_events m).
Definition set_flags (started stop : bool) (m : manager) : manager :=
  Manager (m_store m) (m_queue m) started stop (m_heartbeats m) (m_live m) (m_uuid m) (m_mono m) (m_random m)
    (m_events m).
Definition set_heartbeats (h : list heartbeat) (m : manager) : manager :=
  Manager (m_store m) (m_queue m) (m_started m) (m_stop m) h (m_live m) (m_uuid m) (m_mono m) (m_random m)
    (m_events m).
Definition set_live (l : list usage) (m : manager) : manager :=
  Manager (m_store m) (m_queue m) (m_started m) (m_stop m) (m_heartbeats m) l (m_uuid m) (m_mono m) (m_random m)
    (m_events m).
Definition set_draws (uuids monos randoms : nat) (m : manager) : manager :=
  Manager (m_store m) (m_queue m) (m_started m) (m_stop m) (m_heartbeats m) (m_live m) uuids monos randoms
    (m_events m).
Definition add_event (e : string * pydict) (m : manager) : manager :=
  Manager (m_store m) (m_queue m) (m_started m) (m_stop m) (m_heartbeats m) (m_live m) (m_uuid m) (m_mono m)
    (m_random m) (m_events m ++ [e]).

Definition on_store {A} (op : M store A) : M manager A := fun m =>
  let '(r, st) := op (m_store m) in (r, set_store st m).

(** A call of the database; a transaction. *)
Definition db {A} (op : M store A) : thread manager A := atomic (on_store op).
Definition transaction {A} (op : M manager A) : M manager A := write_transaction m_store set_store op.

(** [queue.put] *)
Definition put (item : option string) : M manager unit := modify (fun m => set_queue (m_queue m ++ [item]) m).

(** ** The task executor *)

(** The arguments of [task_executor.execute] besides the callback: the fixed
    ones, and the optional ones that are dropped for executors that do not
    take them. *)
Record exec_call : Type := ExecCall {
  x_agent : agent_row;
  x_user_id : string;
  x_session_id : option string;
  x_user_message : string;
  x_optional : dict pyval }.

(** How an executor behaves: it reports checkpoints, sees whether each report
    raised, and returns a result or raises.  A result is a JSON value: the
    [TypeError] of [json.dumps] on another one, which leaves [_process_run]
    past its handlers, is not modelled. *)
#[warnings="-register-all"]
Inductive script : Type :=
  | Returns (result : pydict)
  | Raises (e : exn)
  | Reports (payload : pydict) (k : res unit -> script).

Fixpoint play (sc : script) (checkpoint : pydict -> thread manager unit) : thread manager pydict :=
  match sc with
  | Returns result => Done result
  | Raises e => Failed e
  | Reports payload k =>
      t_try (checkpoint payload) (fun e => play (k (Err e)) checkpoint) (fun u => play (k (Ok u)) checkpoint)
  end.

Section manager.
(** The [n]-th reading of the wall clock and of [time.monotonic()], the
    [n]-th [str(uuid4())] and draw of [random.uniform(0.0, x)]; the executor. *)
Context (clock : nat -> Z) (monotonic : nat -> fvalue) (uuid : nat -> string) (uniform : nat -> fvalue -> fvalue).
Context (execute : exec_call -> script).
Context (cfg : settings).

Definition new_uuid : M manager string := fun m =>
  (Ok (uuid (m_uuid m)), set_draws (S (m_uuid m)) (m_mono m) (m_random m) m).

Definition read_monotonic : M manager fvalue := fun m =>
  (Ok (monotonic (m_mono m)), set_draws (m_uuid m) (S (m_mono m)) (m_random m) m).

Definition read_clock : M manager Z := on_store (now clock).
Definition utc_now : M manager string := on_store (RunStore.utc_now clock).

(** [_emit] *)
Definition emit (event_type : string) (payload : pydict) : M manager unit :=
  when (has_telemetry cfg) (modify (add_event (event_type, payload))).

(** Shorthands of the database calls. *)
Definition update_fields (run_id : string) (fields : list run_field) : M manager unit :=
  on_store (update_agent_run_fields clock run_id fields).
Definition append_checkpoint (run_id : string) (checkpoint : pydict) : M manager unit :=
  on_store (append_agent_run_checkpoint clock run_id checkpoint None None None).
Definition upsert_issue (run_id : string) (u : issue_update) : M manager unit :=
  on_store (upsert_agent_run_issue clock run_id u).

(** ** Issues *)

(** [_ensure_core_issue_records] *)
Definition ensure_core_issue_records (run_id : string) : M manager unit :=
  transaction (for_each CORE_ISSUE_DEFINITIONS (fun '(issue_id, title, issue_order, depends_on) =>
    upsert_issue run_id (IssueUpdate issue_id issue_order title "planned" depends_on 0 None [] None None))).

Definition item_status (i : issue_row) : string := str_or (lower (strip (str_or (i_status i) "planned"))) "planned".
Definition item_title (i : issue_row) : string := str_or (str_or (i_title i) (i_issue_id i)) "Issue".
Definition item_depends (i : issue_row) : list string :=
  List.filter (fun dep => negb (is_empty (strip dep))) (i_depends_on i).

(** [_reset_issue_states_for_resume] *)
Definition reset_issue_states_for_resume (run_id : string) : M manager unit :=
  let* items := on_store (list_agent_run_issues run_id 500) in
  match items with
  | [] => ensure_core_issue_records run_id
  | _ =>
      transaction (for_each items (fun item =>
        when (negb (String.eqb (item_status item) "done"))
          (upsert_issue run_id (IssueUpdate (i_issue_id item) (i_issue_order item) (item_title item) "planned"
             (item_depends item) (Z.max 0 (i_attempt_count item)) None (i_payload item) None None))))
  end.

(** [_finalize_open_issues] *)
Definition finalize_open_issues (run_id target_status : string) (attempt : Z) (message : string) : M manager unit :=
  let normalized := str_or (lower (strip (str_or target_status "done"))) "done" in
  let normalized := if str_in normalized ["done"; "blocked"; "failed"] then normalized else "done" in
  let* items := on_store (list_agent_run_issues run_id 500) in
  let* items := match items with
                | [] => ensure_core_issue_records run_id ;;; on_store (list_agent_run_issues run_id 500)
                | _ => ret items
                end in
  let* now_iso := utc_now in
  transaction (for_each items (fun item =>
    let status := item_status item in
    if String.eqb status "done" && String.eqb normalized "done" then ret tt
    else if str_in status ["failed"; "blocked"] && str_in normalized ["blocked"; "failed"] then ret tt
    else if String.eqb status "failed" && String.eqb normalized "done" then ret tt
    else
      upsert_issue run_id (IssueUpdate (i_issue_id item) (i_issue_order item) (item_title item)
        (if String.eqb status "done" then "done" else normalized) (item_depends item)
        (Z.max (i_attempt_count item) attempt)
        (if String.eqb normalized "done" then None else i_last_error item)
        (d_set "terminal_message" (PStr message) (i_payload item))
        (Some (str_or (opt_str (i_started_at item)) now_iso))
        (Some (str_or (opt_str (i_finished_at item)) now_iso))))).

(** [_mark_issue_failed_from_error] *)
Definition by_order (a b : issue_row) : bool := i_issue_order a <=? i_issue_order b.

Definition failed_target (items : list issue_row) : option issue_row :=
  match List.filter (fun i => String.eqb (lower (i_status i)) "running") items with
  | _ :: _ as running => last (sort_by by_order running)
  | [] => head (sort_by by_order (List.filter (fun i => negb (String.eqb (lower (i_status i)) "done")) items))
  end.

Definition mark_issue_failed_from_error (run_id : string) (attempt : Z) (error_message : string) : M manager unit :=
  let* items := on_store (list_agent_run_issues run_id 500) in
  let* target := match failed_target items with
                 | Some t => ret (Some t)
                 | None => ensure_core_issue_records run_id ;;; on_store (get_agent_run_issue run_id STEP_REASONING)
                 end in
  match target with
  | None => ret tt
  | Some t =>
      let* now_iso := utc_now in
      upsert_issue run_id (IssueUpdate (i_issue_id t) (i_issue_order t) (item_title t) "failed" (item_depends t)
        (Z.max (i_attempt_count t) attempt) (Some error_message) (i_payload t)
        (Some (str_or (opt_str (i_started_at t)) now_iso)) (Some now_iso))
  end.

(** ** Creating runs *)

(** What the circuit breaker answers: the decision and the snapshot. *)
Record breaker_answer : Type := BreakerAnswer { ba_decision : pyval; ba_snapshot : pyval }.

Definition scope_token (scope : pydict) : string :=
  let scope_type := low (get "scope_type" scope) in
  let scope_user_id := norm (get "scope_user_id" scope) in
  let scope_agent_id := norm (get "scope_agent_id" scope) in
  if String.eqb scope_type "global" then "scope=global"
  else if String.eqb scope_type "user" && negb (is_empty scope_user_id) then "scope=user:" +:+ scope_user_id
  else if String.eqb scope_type "agent" && negb (is_empty scope_agent_id) then "scope=agent:" +:+ scope_agent_id
  else "scope=" +:+ str_or scope_type "unknown".

Definition dicts_of (v : pyval) : list pydict :=
  flat_map (fun item => match item with PDict d => [d] | _ => [] end) (as_list v).

Definition blocked_suffix (matched_scopes : list pydict) : string :=
  match matched_scopes with
  | [] => ""
  | scope :: _ =>
      let reason := norm (get "reason" scope) in
      " (" +:+ join "; " (join ", " (map scope_token matched_scopes)
                          :: (if is_empty reason then [] else ["reason=" +:+ reason])) +:+ ")"
  end.

Definition blocked_error (decision : pydict) (snapshot : pydict) : exn :=
  let matched_scopes := dicts_of (get "matched_scopes" decision) in
  BreakerBlockedError
    ("Autonomy circuit breaker is armed for this run scope. New runs are temporarily blocked"
     +:+ blocked_suffix matched_scopes +:+ ".")
    decision matched_scopes snapshot.

Definition create_run (agent : agent_row) (user_id : string) (session_id : option string) (user_message : string)
    (max_attempts : option Z) (budget : pydict) (run_source : string) (breaker : option breaker_answer) :
    thread manager run_row :=
  let owner := strip (opt_str (ag_user_id agent)) in
  let actor := strip user_id in
  if is_empty owner || is_empty actor || negb (String.eqb owner actor)
  then Failed (ValueError ("Agent ownership mismatch for agent: " +:+ ag_id agent))
  else
    let normalized_run_source := normalize_run_source run_source in
    let decision := match breaker with Some b => as_dict (ba_decision b) | None => [] end in
    if truthy (get "blocked" decision) then
      let snapshot := match breaker with Some b => as_dict (ba_snapshot b) | None => [] end in
      atomic (emit "agent_run_blocked_autonomy_circuit_breaker"
        [("agent_id", PStr (ag_id agent)); ("user_id", PStr user_id); ("session_id", pnone_or_str session_id);
         ("autonomy_circuit_breaker", PDict snapshot);
         ("matched_scopes", PList (map PDict (dicts_of (get "matched_scopes" decision))))]) ;!
      Failed (blocked_error decision snapshot)
    else
      let! run_id := atomic new_uuid in
      let attempts_limit := Z.max 1 (match max_attempts with
                                     | Some n => if n =? 0 then default_max_attempts cfg else n
                                     | None => default_max_attempts cfg
                                     end) in
      let effective_budget := budget_dict (normalize_run_budget (default_run_budget cfg) budget) in
      atomic (transaction (
        on_store (create_agent_run clock run_id (ag_id agent) user_id session_id user_message "queued"
          attempts_limit effective_budget) ;;;
        append_checkpoint run_id
          [("stage", PStr "queued"); ("message", PStr "Run queued for execution.");
           ("budget", PDict effective_budget); ("run_source", PStr normalized_run_source)] ;;;
        ensure_core_issue_records run_id)) ;!
      let! started := atomic (gets m_started) in
      t_when started (atomic (put (Some run_id))) ;!
      atomic (emit "agent_run_queued"
        [("run_id", PStr run_id); ("agent_id", PStr (ag_id agent)); ("user_id", PStr user_id);
         ("session_id", pnone_or_str session_id); ("max_attempts", PInt attempts_limit);
         ("budget", PDict effective_budget); ("run_source", PStr normalized_run_source)]) ;!
      let! run := db (get_agent_run run_id) in
      match run with
      | Some r => Done r
      | None => Failed (AssertionError "")
      end.

(** ** Canceling, resuming, killing *)

Definition not_found (run_id : string) : exn := ValueError ("Run not found: " +:+ run_id).

Definition cancel_run (run_id : string) : thread manager run_row :=
  let! found := db (get_agent_run run_id) in
  match found with
  | None => Failed (not_found run_id)
  | Some run =>
      atomic (transaction (
        update_fields run_id [FCancelRequested 1] ;;;
        if String.eqb (r_status run) "queued" then
          let* finished := utc_now in
          update_fields run_id
            [FStatus "canceled"; FStopReason (Some "canceled_by_user"); FFailureClass (Some "canceled");
             FFinishedAt (Some finished)] ;;;
          append_checkpoint run_id
            [("stage", PStr "canceled"); ("message", PStr "Run canceled before execution.");
             ("stop_reason", PStr "canceled_by_user"); ("failure_class", PStr "canceled")] ;;;
          finalize_open_issues run_id "blocked" (Z.max 1 (r_attempts run)) "Run canceled by user before execution."
        else
          append_checkpoint run_id
            [("stage", PStr "cancel_requested"); ("message", PStr "Cancel requested.");
             ("stop_reason", PStr "cancel_requested")] ;;;
          finalize_open_issues run_id "blocked" (Z.max 1 (r_attempts run)) "Run cancel requested by user.")) ;!
      let! updated := db (get_agent_run run_id) in
      match updated with
      | None => Failed (AssertionError "")
      | Some r =>
          atomic (emit "agent_run_canceled" [("run_id", PStr run_id); ("status", PStr (r_status r))]) ;!
          Done r
      end
  end.

(** [sorted(resume_state.get("completed_steps", []))]; completed steps are names *)
Definition sorted_steps (resume_state : option pydict) : list pyval :=
  match resume_state with
  | Some d => map PStr (sort_strings (map py_str (as_list (get "completed_steps" d))))
  | None => []
  end.

Definition resume_run (run_id : string) : thread manager run_row :=
  let! found := db (get_agent_run run_id) in
  match found with
  | None => Failed (not_found run_id)
  | Some run =>
      if negb (str_in (r_status run) ["failed"; "canceled"])
      then Failed (ValueError ("Run " +:+ run_id +:+ " is not resumable (status=" +:+ r_status run +:+ ")"))
      else
        let resume_state := extract_resume_state run in
        atomic (transaction (
          update_fields run_id
            [FStatus "queued"; FAttempts 0; FCancelRequested 0; FErrorMessage None; FStopReason None;
             FFailureClass None; FMetricsJson []; FStartedAt None; FFinishedAt None] ;;;
          append_checkpoint run_id
            [("stage", PStr "resumed"); ("message", PStr "Run resumed and queued again.");
             ("resume_steps", PList (sorted_steps resume_state));
             ("resume_state", PDict (match resume_state with Some d => d | None => [] end))] ;;;
          reset_issue_states_for_resume run_id)) ;!
        let! started := atomic (gets m_started) in
        t_when started (atomic (put (Some run_id))) ;!
        let! updated := db (get_agent_run run_id) in
        match updated with
        | None => Failed (AssertionError "")
        | Some r =>
            atomic (emit "agent_run_resumed" [("run_id", PStr run_id); ("status", PStr (r_status r))]) ;!
            Done r
        end
  end.

(** [kill_switch_runs] *)
Record kill_args : Type := KillArgs {
  k_actor : option string;
  k_reason : string;
  k_include_running : bool;
  k_include_queued : bool;
  k_limit : Z;
  k_user_id : option string;
  k_agent_id : option string;
  k_exclude_run_id : option string }.

(** The targets and the counters of the dictionary it returns. *)
Record kill_summary : Type := KillSummary {
  ks_targeted : list string;
  ks_canceled_running : Z;
  ks_canceled_queued : Z }.

(** The rows of one status that are in scope and not seen yet. *)
Definition kill_select (a : kill_args) (rows : list run_row) (target_ids : list string) : list string :=
  let scope o := str_or_none (strip (opt_str o)) in
  fold_left (fun ids r =>
    let run_id := strip (r_id r) in
    if is_empty run_id || str_in run_id ids then ids
    else if bool_decide (scope (k_exclude_run_id a) = Some run_id) then ids
    else if match scope (k_user_id a) with
            | Some u => negb (bool_decide (str_or_none (strip (r_user_id r)) = Some u)) | None => false end then ids
    else if match scope (k_agent_id a) with
            | Some g => negb (bool_decide (str_or_none (strip (r_agent_id r)) = Some g)) | None => false end then ids
    else ids ++ [run_id]) rows target_ids.

(** The cancellation of one target, inside the transaction. *)
Definition kill_one (actor : option string) (reason now_iso : string) (run_id : string) (counts : Z * Z) :
    M manager (Z * Z) :=
  let* found := on_store (get_agent_run run_id) in
  match found with
  | None => ret counts
  | Some current =>
      let current_status := lower (strip (r_status current)) in
      if negb (str_in current_status ["queued"; "running"]) then ret counts
      else
        update_fields run_id
          [FCancelRequested 1; FStatus "canceled"; FStopReason (Some KILL_SWITCH_STOP_REASON);
           FFailureClass (Some "canceled"); FFinishedAt (Some now_iso); FLeaseOwner None; FLeaseToken None;
           FLeaseExpiresAt None] ;;;
        let queued := String.eqb current_status "queued" in
        append_checkpoint run_id
          [("stage", PStr (if queued then "canceled" else "kill_switch_triggered"));
           ("message", PStr (if queued then "Run canceled by kill switch before execution."
                             else "Kill switch triggered for running run. Lease revoked."));
           ("stop_reason", PStr KILL_SWITCH_STOP_REASON); ("failure_class", PStr "canceled");
           ("actor", pnone_or_str actor); ("reason", PStr reason)] ;;;
        finalize_open_issues run_id "blocked" (Z.max 1 (r_attempts current))
          (if queued then "Run canceled by kill switch before execution." else "Run interrupted by kill switch.") ;;;
        ret (if queued then (counts.1, counts.2 + 1) else (counts.1 + 1, counts.2))
  end.

Fixpoint kill_all (actor : option string) (reason now_iso : string) (ids : list string) (counts : Z * Z) :
    M manager (Z * Z) :=
  match ids with
  | [] => ret counts
  | run_id :: ids' =>
      let* counts := kill_one actor reason now_iso run_id counts in
      kill_all actor reason now_iso ids' counts
  end.

Definition kill_switch_runs (a : kill_args) : thread manager kill_summary :=
  if negb (k_include_running a) && negb (k_include_queued a)
  then Failed (ValueError "Kill switch requires include_running and/or include_queued.")
  else
    let actor := str_or_none (strip (opt_str (k_actor a))) in
    let reason := strip (k_reason a) in
    let limit := Z.max 1 (Z.min (k_limit a) 50000) in
    let! ids := (if k_include_running a
                 then let! rows := db (list_agent_runs None None (Some "running") limit) in Done (kill_select a rows [])
                 else Done []) in
    let! target_ids := (if k_include_queued a
                        then let! rows := db (list_agent_runs None None (Some "queued") limit) in
                             Done (kill_select a rows ids)
                        else Done ids) in
    let! now_iso := atomic utc_now in
    let! counts := atomic (transaction (kill_all actor reason now_iso target_ids (0, 0))) in
    let '(canceled_running, canceled_queued) := counts in
    atomic (emit "agent_runs_kill_switch"
      [("actor", pnone_or_str actor); ("reason", PStr reason); ("include_running", PBool (k_include_running a));
       ("include_queued", PBool (k_include_queued a));
       ("scope_user_id", pnone_or_str (str_or_none (strip (opt_str (k_user_id a)))));
       ("scope_agent_id", pnone_or_str (str_or_none (strip (opt_str (k_agent_id a)))));
       ("exclude_run_id", pnone_or_str (str_or_none (strip (opt_str (k_exclude_run_id a)))));
       ("targeted_count", PInt (Z.of_nat (length target_ids))); ("canceled_running", PInt canceled_running);
       ("canceled_queued", PInt canceled_queued); ("canceled_total", PInt (canceled_running + canceled_queued))]) ;!
    Done (KillSummary target_ids canceled_running canceled_queued).

(** ** Start, stop and recovery *)

(** One row of [_recover_pending_runs] that was running *)
Definition recover_running (run_id : string) : thread manager unit :=
  atomic (update_fields run_id
    [FStatus "queued"; FErrorMessage None; FStopReason None; FFailureClass None; FFinishedAt None;
     FLeaseOwner None; FLeaseToken None; FLeaseExpiresAt None]) ;!
  atomic (append_checkpoint run_id
    [("stage", PStr "recovered_after_crash"); ("message", PStr "Recovered running run after runtime restart.");
     ("previous_status", PStr "running")]) ;!
  atomic (reset_issue_states_for_resume run_id) ;!
  atomic (put (Some run_id)).

Definition recover_queued (run_id : string) : thread manager unit :=
  atomic (update_fields run_id [FLeaseOwner None; FLeaseToken None; FLeaseExpiresAt None]) ;!
  atomic (put (Some run_id)).

Definition named_ids (rows : list run_row) : list string :=
  List.filter (fun id => negb (is_empty id)) (map (fun r => strip (r_id r)) rows).

(** The second loop, which skips what the first one put in the queue. *)
Fixpoint recover_queued_all (ids requeued : list string) : thread manager unit :=
  match ids with
  | [] => Done tt
  | id :: ids' =>
      if str_in id requeued then recover_queued_all ids' requeued
      else recover_queued id ;! recover_queued_all ids' (requeued ++ [id])
  end.

Definition recover_pending_runs : thread manager unit :=
  let! recovered_running := db (list_agent_runs None None (Some "running") 5000) in
  let! queued := db (list_agent_runs None None (Some "queued") 5000) in
  t_for (named_ids recovered_running) recover_running ;!
  recover_queued_all (named_ids queued) (named_ids recovered_running).

(** [start]: the workers are then threads that [worker_iteration] starts. *)
Definition start : thread manager unit :=
  let! started := atomic (gets m_started) in
  if started then Done tt
  else
    atomic (modify (set_flags true false)) ;!
    t_when (recover_pending_on_start cfg) recover_pending_runs.

(** [stop], with [workers] threads to tell *)
Definition stop (workers : nat) : thread manager unit :=
  let! started := atomic (gets m_started) in
  if negb started then Done tt
  else
    atomic (modify (fun m => set_flags (m_started m) true m)) ;!
    t_for (repeat tt workers) (fun _ => atomic (put None)) ;!
    atomic (modify (fun m => set_flags false (m_stop m) m)).

(** ** Leases of a worker *)

(** [_run_lease_expiry_iso] *)
Definition run_lease_expiry_iso : M manager string :=
  let* t := read_clock in
  let* ttl := lift (timedelta_us (run_lease_ttl_sec cfg)) in
  let* expires := lift (add_us t ttl) in
  ret (isoformat expires).

(** [_release_run_lease] *)
Definition release_run_lease (run_id : string) (lease_token : option string) : thread manager unit :=
  let normalized_run_id := strip run_id in
  let token := strip (opt_str lease_token) in
  if is_empty normalized_run_id || is_empty token then Done tt
  else t_try (db (release_agent_run_lease clock normalized_run_id (lease_owner cfg) token))
         (fun _ => Done tt) (fun _ => Done tt).

Definition set_heartbeat (h : nat) (f : heartbeat -> heartbeat) : M manager unit :=
  modify (fun m => set_heartbeats (alter f h (m_heartbeats m)) m).

(** [_start_run_lease_heartbeat]: the new heartbeat's number *)
Definition start_run_lease_heartbeat (run_id : string) (lease_token : string) : M manager (option nat) :=
  let token := strip lease_token in
  let normalized_run_id := strip run_id in
  if is_empty normalized_run_id || is_empty token then ret None
  else
    let* h := gets (fun m => length (m_heartbeats m)) in
    modify (fun m => set_heartbeats
      (m_heartbeats m ++ [Heartbeat normalized_run_id token false false "" 0 false]) m) ;;;
    ret (Some h).

Definition HEARTBEAT_FAILED : string :=
  "Run lease heartbeat failed repeatedly. Stopping run to prevent duplicate side effects.".
Definition OWNERSHIP_LOST : string := "Run lease ownership lost during execution.".

(** One turn of [_heartbeat_loop] *)
Definition heartbeat_turn (h : nat) : thread manager unit :=
  let! state := atomic (gets (fun m => m_heartbeats m !! h)) in
  match state with
  | None => Done tt
  | Some hb =>
      if hb_ended hb then Done tt
      else if hb_stop hb then
        atomic (set_heartbeat h (fun b => Heartbeat (hb_run_id b) (hb_token b) (hb_stop b) (hb_lost b)
                                            (hb_reason b) (hb_failures b) true))
      else
        t_try
          (let! expires := atomic run_lease_expiry_iso in
           db (refresh_agent_run_lease clock (hb_run_id hb) (lease_owner cfg) (hb_token hb) expires None ["running"]))
          (fun _ =>
             let failures := hb_failures hb + 1 in
             let lost := run_lease_heartbeat_max_failures <=? failures in
             atomic (set_heartbeat h (fun b => Heartbeat (hb_run_id b) (hb_token b) (hb_stop b) (lost || hb_lost b)
                                                 (if lost then HEARTBEAT_FAILED else hb_reason b) failures
                                                 (lost || hb_ended b))))
          (fun refreshed : bool =>
             if negb refreshed then
               atomic (set_heartbeat h (fun b => Heartbeat (hb_run_id b) (hb_token b) (hb_stop b) true
                                                   OWNERSHIP_LOST (hb_failures b) true))
             else
               atomic (set_heartbeat h (fun b => Heartbeat (hb_run_id b) (hb_token b) (hb_stop b) (hb_lost b)
                                                   (hb_reason b) 0 (hb_ended b))))
  end.

(** [_stop_run_lease_heartbeat] *)
Definition stop_run_lease_heartbeat (heartbeat : option nat) : thread manager unit :=
  match heartbeat with
  | None => Done tt
  | Some h => atomic (set_heartbeat h (fun b => Heartbeat (hb_run_id b) (hb_token b) true (hb_lost b) (hb_reason b)
                                                  (hb_failures b) (hb_ended b)))
  end.

(** [_assert_active_run_lease] *)
Definition assert_active_run_lease (run_id lease_token : string) (heartbeat : option nat) : thread manager unit :=
  let token := strip lease_token in
  let normalized_run_id := strip run_id in
  if is_empty normalized_run_id || is_empty token then Done tt
  else
    let! state := atomic (gets (fun m => match heartbeat with Some h => m_heartbeats m !! h | None => None end)) in
    match state with
    | Some hb =>
        if hb_lost hb then Failed (TaskError RunLeaseLostError (strip (str_or (hb_reason hb) "Run lease ownership lost.")))
        else Done tt
    | None => Done tt
    end ;!
    let! expires := atomic run_lease_expiry_iso in
    let! refreshed := db (refresh_agent_run_lease clock normalized_run_id (lease_owner cfg) token expires None ["running"]) in
    if negb refreshed then Failed (TaskError RunLeaseLostError OWNERSHIP_LOST) else Done tt.

(** ** One attempt *)

Definition optional_keys : list string := ["run_source"; "run_budget"; "resume_state"; "run_deadline_monotonic"].

(** The loop around [task_executor.execute]: a [TypeError] that names optional
    arguments drops them and calls again.  [fuel] is the number of optional
    arguments left. *)
Definition drop_named (message : string) (optional : dict pyval) : dict pyval :=
  fold_left (fun d k => if d_mem k d && substr_in k message then d_pop k d else d) optional_keys optional.

Fixpoint call_executor (fuel : nat) (checkpoint : pydict -> thread manager unit) (c : exec_call) :
    thread manager pydict :=
  t_try (play (execute c) checkpoint)
    (fun exc =>
       match exc with
       | TypeError message =>
           let remaining := drop_named message (x_optional c) in
           if (length remaining =? length (x_optional c))%nat then Failed exc
           else match fuel with
           | O => Failed exc
           | S f => call_executor f checkpoint
                      (ExecCall (x_agent c) (x_user_id c) (x_session_id c) (x_user_message c) remaining)
           end
       | _ => Failed exc
       end)
    Done.

(** [_run_task_executor] *)
Definition run_task_executor (run : run_row) (agent : agent_row) (attempt : Z) (started_at : string) (budget : budget)
    (run_id lease_token : string) (checkpoint : pydict -> thread manager unit) (resume_state : option pydict) :
    thread manager pydict :=
  let! attempt_started := atomic read_monotonic in
  let! now := atomic read_clock in
  let remaining_duration := remaining_duration_sec now started_at budget in
  if f_le remaining_duration fzero
  then Failed (TaskError RunBudgetExceededError "Run duration budget exceeded.")
  else
    let attempt_deadline := f_min (f_add attempt_started (attempt_timeout_sec cfg))
                                  (f_add attempt_started remaining_duration) in
    let! heartbeat := atomic (start_run_lease_heartbeat run_id lease_token) in
    assert_active_run_lease run_id lease_token heartbeat ;!
    let guarded_checkpoint payload :=
      assert_active_run_lease run_id lease_token heartbeat ;! checkpoint payload in
    let call := ExecCall agent (r_user_id run) (r_session_id run) (r_input_message run)
      [("run_deadline_monotonic", PyF attempt_deadline);
       ("resume_state", match resume_state with Some d => PDict d | None => PNone end);
       ("run_budget", PDict (budget_dict budget)); ("run_source", PStr (resolve_run_source (r_checkpoints run)))] in
    let! result := t_finally (call_executor (length (x_optional call)) guarded_checkpoint call)
                     (stop_run_lease_heartbeat heartbeat) in
    assert_active_run_lease run_id lease_token heartbeat ;!
    let! ended := atomic read_monotonic in
    let elapsed := f_sub ended attempt_started in
    if f_lt (attempt_timeout_sec cfg) elapsed then
      atomic (append_checkpoint (r_id run)
        [("stage", PStr "attempt_timeout_guardrail"); ("attempt", PInt attempt);
         ("message", PStr ("Attempt exceeded timeout: elapsed=" +:+ format_2f elapsed +:+ "s limit="
                           +:+ format_2f (attempt_timeout_sec cfg) +:+ "s"))]) ;!
      Failed (TaskError TaskTimeoutError
        ("Run attempt exceeded timeout (" +:+ format_2f elapsed +:+ "s > " +:+ format_2f (attempt_timeout_sec cfg)
         +:+ "s)."))
    else Done result.

(** [push_checkpoint] of an attempt whose usage is cell [u] *)
Definition push_checkpoint (run_id : string) (attempt : Z) (budget : budget) (u : nat) (payload : pydict) :
    thread manager unit :=
  let data := set_default "attempt" (PInt attempt) payload in
  atomic (modify (fun m => set_live (alter (merge_checkpoint_usage data) u (m_live m)) m)) ;!
  let! usage := atomic (gets (fun m => default (Usage 0 0 0) (m_live m !! u))) in
  match validate_live_budget_usage budget usage with
  | Err e => Failed e
  | Ok _ =>
      let! timestamp := (match str_or_none (py_str (py_or (get "timestamp" data) (PStr ""))) with
                         | Some t => Done t
                         | None => atomic utc_now
                         end) in
      let! issue_update :=
        match issue_payload_of data attempt with
        | None => Done None
        | Some p =>
            if is_empty (norm (get "id" p)) then Done None
            else
              let! existing := db (get_agent_run_issue run_id (norm (get "id" p))) in
              Done (Some (issue_update_of p attempt timestamp existing))
        end in
      db (append_agent_run_checkpoint clock run_id data issue_update
            (derive_issue_artifact_from_checkpoint data) (derive_tool_call_record_from_checkpoint data))
  end.

(** ** Processing a run *)

Definition BUDGET_GUARDRAIL_PAUSE_STOP_REASON : string := "budget_guardrail_paused".
Definition BUDGET_GUARDRAIL_KILL_SWITCH_STOP_REASON : string := "budget_guardrail_kill_switch".
Definition BUDGET_GUARDRAIL_KILL_SWITCH_THRESHOLD : Z := 2.

(** The payload of the events that end a run. *)
Definition ended (run_id agent_id status stop_reason failure_class : string) (duration_ms : fvalue) : pydict :=
  [("run_id", PStr run_id); ("agent_id", PStr agent_id); ("status", PStr status); ("stop_reason", PStr stop_reason);
   ("failure_class", PStr failure_class); ("duration_ms", PyF duration_ms)].

(** The outcome of a failed attempt, from the retry policy and the budget
    guardrail. *)
Record failure_outcome : Type := FailureOutcome {
  fo_retry : bool;
  fo_backoff : fvalue;
  fo_retryable : bool;
  fo_status : option string;
  fo_failure_class : option string;
  fo_stop_reason : option string;
  fo_guardrail : option pydict;
  fo_kill_scope : bool }.

(** The guardrail for exceeded budgets: the first breach pauses the run, the
    next one escalates. *)
Definition budget_guardrail (attempt prior_breaches : Z) : failure_outcome :=
  let breach_count := prior_breaches + 1 in
  if BUDGET_GUARDRAIL_KILL_SWITCH_THRESHOLD <=? breach_count then
    FailureOutcome false fzero false (Some "canceled") (Some "canceled")
      (Some BUDGET_GUARDRAIL_KILL_SWITCH_STOP_REASON)
      (Some [("stage", PStr "budget_guardrail_escalated"); ("attempt", PInt attempt);
             ("message", PStr "Budget guardrail breached repeatedly. Escalation moved mission to agent-scope kill switch.");
             ("failure_class", PStr "budget_exceeded");
             ("stop_reason", PStr BUDGET_GUARDRAIL_KILL_SWITCH_STOP_REASON); ("breach_count", PInt breach_count);
             ("escalation_action", PStr "kill_switch"); ("escalation_scope", PStr "agent")])
      true
  else
    FailureOutcome false fzero false (Some "failed") (Some "budget_exceeded")
      (Some BUDGET_GUARDRAIL_PAUSE_STOP_REASON)
      (Some [("stage", PStr "budget_guardrail_paused"); ("attempt", PInt attempt);
             ("message", PStr "Budget guardrail breached. Mission paused for manual budget/scope adjustment.");
             ("failure_class", PStr "budget_exceeded");
             ("stop_reason", PStr BUDGET_GUARDRAIL_PAUSE_STOP_REASON); ("breach_count", PInt breach_count);
             ("escalation_action", PStr "pause");
             ("resume_hint", PStr "Adjust budget or scope and call resume run.")])
      false.

(** Is a cancellation of the run on record? *)
Definition cancel_seen (latest : option run_row) (run : run_row) : bool :=
  match latest with
  | Some l => (r_cancel_requested l =? 1) || String.eqb (lower (strip (r_status l))) "canceled"
  | None => r_cancel_requested run =? 1
  end.

Definition failure_outcome_of (exc : exn) (attempt max_attempts : Z) (run : run_row) (latest : option run_row)
    (backoff_sec : fvalue) : failure_outcome :=
  let failure := classify_failure exc in
  let canceled := cancel_seen latest run in
  let decision := resolve_retry_decision attempt max_attempts (retryable failure) canceled (stop_reason failure)
    (failure_class failure) (resolve_cancel_stop_reason (default run latest)) in
  if negb canceled && String.eqb (failure_class failure) "budget_exceeded"
  then budget_guardrail attempt (count_budget_guardrail_breaches (default run latest))
  else FailureOutcome (schedule_retry decision) backoff_sec (retryable failure) (final_status decision)
         (final_failure_class decision) (final_stop_reason decision) None false.

(** The backoff drawn when the policy schedules a retry. *)
Definition draw_backoff (attempt : Z) : M manager fvalue := fun m =>
  let draws := f_lt fzero (retry_jitter_sec cfg) && negb (f_le (retry_backoff_sec cfg) fzero) in
  (retry_delay_seconds (uniform (m_random m)) attempt (retry_backoff_sec cfg) (retry_max_backoff_sec cfg)
     (retry_jitter_sec cfg),
   if draws then set_draws (m_uuid m) (m_mono m) (S (m_random m)) m else m).

(** The transaction that records a failed attempt *)
Definition record_failure (run_id : string) (attempt : Z) (exc : exn) (m_err : metrics) (o : failure_outcome) :
    M manager unit :=
  let failure := classify_failure exc in
  let error_message := exn_str exc in
  transaction (
    append_checkpoint run_id
      [("stage", PStr "error"); ("attempt", PInt attempt); ("message", PStr error_message);
       ("retryable", PBool (fo_retryable o)); ("failure_class", PStr (failure_class failure));
       ("stop_reason", PStr (stop_reason failure)); ("estimated_tokens_total", PInt (estimated_tokens m_err));
       ("tool_calls_total", PInt (tool_calls m_err)); ("tool_errors_total", PInt (tool_errors m_err))] ;;;
    mark_issue_failed_from_error run_id attempt error_message ;;;
    match fo_guardrail o with Some c => append_checkpoint run_id c | None => ret tt end ;;;
    if fo_retry o then
      update_fields run_id
        [FStatus "queued"; FErrorMessage (Some error_message); FStopReason (Some (stop_reason failure));
         FFailureClass (Some (failure_class failure)); FMetricsJson (metrics_dict m_err)] ;;;
      append_checkpoint run_id
        [("stage", PStr "retry_scheduled"); ("attempt", PInt (attempt + 1)); ("message", PStr "Retry scheduled.");
         ("backoff_sec", PyF (fo_backoff o)); ("retryable", PBool (fo_retryable o));
         ("failure_class", PStr (failure_class failure)); ("stop_reason", PStr (stop_reason failure))]
    else
      match fo_status o, fo_failure_class o, fo_stop_reason o with
      | Some status, Some final_class, Some final_reason =>
          let* finished := utc_now in
          update_fields run_id
            [FStatus status; FErrorMessage (Some error_message); FStopReason (Some final_reason);
             FFailureClass (Some final_class); FMetricsJson (metrics_dict m_err); FFinishedAt (Some finished)] ;;;
          when (String.eqb status "canceled")
            (finalize_open_issues run_id "blocked" attempt "Run canceled before issue completion.") ;;;
          append_checkpoint run_id
            [("stage", PStr status); ("attempt", PInt attempt); ("message", PStr error_message);
             ("retryable", PBool (fo_retryable o)); ("failure_class", PStr final_class);
             ("stop_reason", PStr final_reason)]
      | _, _, _ => raise (AssertionError "Retry policy produced invalid terminal decision.")
      end).

(** The [except] branch of an attempt *)
Definition attempt_failed (run : run_row) (run_id : string) (attempt max_attempts : Z) (u : nat)
    (started_monotonic : fvalue) (exc : exn) : thread manager unit :=
  let! ended_monotonic := atomic read_monotonic in
  let attempt_duration_ms := f_round 2 (f_mul (f_sub ended_monotonic started_monotonic) (FFinite 1000 0)) in
  let! live := atomic (gets (fun m => default (Usage 0 0 0) (m_live m !! u))) in
  let m_err := finalize_run_metrics (usage_dict live) attempt attempt_duration_ms in
  let! latest := db (get_agent_run run_id) in
  let policy_retries :=
    schedule_retry (resolve_retry_decision attempt max_attempts (retryable (classify_failure exc))
      (cancel_seen latest run) (stop_reason (classify_failure exc)) (failure_class (classify_failure exc))
      (resolve_cancel_stop_reason (default run latest))) in
  let! backoff_sec := (if policy_retries then atomic (draw_backoff attempt) else Done fzero) in
  let o := failure_outcome_of exc attempt max_attempts run latest backoff_sec in
  atomic (record_failure run_id attempt exc m_err o) ;!
  if fo_retry o then atomic (put (Some run_id))
  else
    t_when (fo_kill_scope o) (
      let! summary := kill_switch_runs
        (KillArgs (Some "system:budget_guardrail")
           "Budget guardrail escalation triggered by repeated mission budget breaches." true true 5000
           (Some (r_user_id run)) (Some (r_agent_id run)) (Some run_id)) in
      atomic (append_checkpoint run_id
        [("stage", PStr "budget_guardrail_kill_switch_scope"); ("attempt", PInt attempt);
         ("message", PStr "Agent-scope kill switch applied after repeated budget breaches.");
         ("scope_user_id", PStr (r_user_id run)); ("scope_agent_id", PStr (r_agent_id run));
         ("canceled_running", PInt (ks_canceled_running summary));
         ("canceled_queued", PInt (ks_canceled_queued summary));
         ("canceled_total", PInt (ks_canceled_running summary + ks_canceled_queued summary))])) ;!
    let status := opt_str (fo_status o) in
    atomic (emit (if String.eqb status "canceled" then "agent_run_canceled" else "agent_run_failed")
      (ended run_id (r_agent_id run) status (opt_str (fo_stop_reason o)) (opt_str (fo_failure_class o))
         attempt_duration_ms)).

(** The end of an attempt whose execution returned: the run succeeded *)
Definition attempt_succeeded (agent : agent_row) (run_id : string) (attempt : Z) (budget : budget) (result : pydict)
    (m_final : metrics) : thread manager unit :=
  atomic (transaction (
    finalize_open_issues run_id "done" attempt "Run succeeded." ;;;
    let* finished := utc_now in
    update_fields run_id
      [FStatus "succeeded"; FStopReason (Some "completed"); FFailureClass None; FResultJson (PDict result);
       FErrorMessage None; FMetricsJson (metrics_dict m_final); FFinishedAt (Some finished)] ;;;
    append_checkpoint run_id
      [("stage", PStr "succeeded"); ("attempt", PInt attempt); ("message", PStr "Execution completed successfully.");
       ("stop_reason", PStr "completed"); ("metrics", PDict (metrics_dict m_final))])) ;!
  atomic (emit "agent_run_succeeded"
    [("run_id", PStr run_id); ("agent_id", PStr (ag_id agent)); ("status", PStr "succeeded");
     ("stop_reason", PStr "completed"); ("failure_class", PNone); ("attempts", PInt attempt);
     ("duration_ms", PyF (total_attempt_duration_ms m_final)); ("metrics", PDict (metrics_dict m_final));
     ("budget", PDict (budget_dict budget))]).

(** ... or was canceled meanwhile. *)
Definition attempt_returned (agent : agent_row) (run_id : string) (attempt : Z) (budget : budget) (u : nat)
    (result : pydict) : thread manager unit :=
  let! latest := db (get_agent_run run_id) in
  let! live := atomic (gets (fun m => default (Usage 0 0 0) (m_live m !! u))) in
  let m_final := extract_result_metrics result live attempt in
  match latest with
  | Some l =>
      if r_cancel_requested l =? 1 then
        let cancel_stop_reason := resolve_cancel_stop_reason l in
        let cancel_message := if String.eqb cancel_stop_reason KILL_SWITCH_STOP_REASON
                              then "Execution completed but run was interrupted by kill switch."
                              else "Execution completed but run was canceled." in
        atomic (transaction (
          let* finished := utc_now in
          update_fields run_id
            [FStatus "canceled"; FStopReason (Some cancel_stop_reason); FFailureClass (Some "canceled");
             FResultJson (PDict result); FMetricsJson (metrics_dict m_final); FFinishedAt (Some finished)] ;;;
          append_checkpoint run_id
            [("stage", PStr "canceled"); ("attempt", PInt attempt); ("message", PStr cancel_message);
             ("failure_class", PStr "canceled"); ("stop_reason", PStr cancel_stop_reason)] ;;;
          finalize_open_issues run_id "blocked" attempt cancel_message)) ;!
        atomic (emit "agent_run_canceled"
          (ended run_id (ag_id agent) "canceled" cancel_stop_reason "canceled" (total_attempt_duration_ms m_final)))
      else attempt_succeeded agent run_id attempt budget result m_final
  | None => attempt_succeeded agent run_id attempt budget result m_final
  end.

(** A run that ends before its attempt starts: status, reason and class with
    the checkpoint and the further updates of the same transaction *)
Definition end_before_start (run : run_row) (run_id status stop_reason failure_class : string)
    (error_message : option string) (m : metrics) (checkpoint : pydict) (extra : M manager unit) : thread manager unit :=
  atomic (transaction (
    let* finished := utc_now in
    update_fields run_id
      ([FStatus status; FStopReason (Some stop_reason); FFailureClass (Some failure_class)]
       ++ (match error_message with Some e => [FErrorMessage (Some e)] | None => [] end)
       ++ [FMetricsJson (metrics_dict m); FFinishedAt (Some finished)]) ;;;
    append_checkpoint run_id checkpoint ;;;
    extra)) ;!
  atomic (emit (if String.eqb status "canceled" then "agent_run_canceled" else "agent_run_failed")
    (ended run_id (r_agent_id run) status stop_reason failure_class fzero)).

(** The attempt: the start is recorded, the executor runs, the outcome is
    recorded. *)
Definition run_attempt (run : run_row) (agent : agent_row) (run_id lease_token : string) (attempt max_attempts : Z)
    (started_at : string) (budget : budget) (base : metrics) : thread manager unit :=
  atomic (transaction (
    update_fields run_id
      [FStatus "running"; FAttempts attempt; FStartedAt (Some started_at); FStopReason None; FFailureClass None;
       FErrorMessage None; FMetricsJson (metrics_dict base)] ;;;
    append_checkpoint run_id
      [("stage", PStr "running"); ("attempt", PInt attempt);
       ("message", PStr ("Execution started (attempt " +:+ str_of_Z attempt +:+ "/" +:+ str_of_Z max_attempts +:+ ")."));
       ("attempt_timeout_sec", PyF (attempt_timeout_sec cfg)); ("run_budget", PDict (budget_dict budget));
       ("metrics_baseline", PDict (metrics_dict base))])) ;!
  let! started_monotonic := atomic read_monotonic in
  let! u := atomic (fun m => (Ok (length (m_live m)), set_live (m_live m ++ [usage_of base]) m)) in
  t_try
    (let! issues := db (list_agent_run_issues run_id 5000) in
     let! artifacts := db (list_agent_run_issue_artifacts run_id None 5000) in
     let! calls := db (list_agent_run_tool_calls run_id None 5000) in
     let resume_state := merge_persisted_tool_call_cache calls
       (merge_persisted_issue_artifacts issues artifacts (extract_resume_state run)) in
     run_task_executor run agent attempt started_at budget run_id lease_token
       (push_checkpoint run_id attempt budget u) resume_state)
    (attempt_failed run run_id attempt max_attempts u started_monotonic)
    (attempt_returned agent run_id attempt budget u).

(** [_process_run] after the claim *)
Definition process_claimed (run : run_row) (run_id lease_token : string) : thread manager unit :=
  let! latest := db (get_agent_run run_id) in
  let before := default run latest in
  let budget := normalize_run_budget (default_run_budget cfg) (r_budget before) in
  let base := normalize_run_metrics (r_metrics before) in
  if cancel_seen latest run then
    let cancel_stop_reason := resolve_cancel_stop_reason before in
    end_before_start run run_id "canceled" cancel_stop_reason "canceled" None base
      [("stage", PStr "canceled"); ("message", PStr "Run canceled before worker execution.");
       ("stop_reason", PStr cancel_stop_reason); ("failure_class", PStr "canceled")] (ret tt)
  else if negb (str_in (r_status run) ["queued"; "running"]) then Done tt
  else
    let! found := db (get_agent (r_agent_id run)) in
    match found with
    | None =>
        let error_message := "Agent not found: " +:+ r_agent_id run in
        end_before_start run run_id "failed" "agent_not_found" "not_found" (Some error_message) base
          [("stage", PStr "failed"); ("message", PStr error_message); ("stop_reason", PStr "agent_not_found");
           ("failure_class", PStr "not_found"); ("retryable", PBool false)]
          (mark_issue_failed_from_error run_id (Z.max 1 (r_attempts run + 1)) error_message)
    | Some agent =>
        let attempt := r_attempts run + 1 in
        let! started_at := (if is_empty (strip (opt_str (r_started_at run))) then atomic utc_now
                            else Done (strip (opt_str (r_started_at run)))) in
        let! now := atomic read_clock in
        if f_le (remaining_duration_sec now started_at budget) fzero then
          let error_message := "Run duration budget exceeded before attempt start." in
          end_before_start run run_id "failed" "budget_exceeded" "budget_exceeded" (Some error_message)
            (finalize_run_metrics (metrics_dict base) attempt fzero)
            [("stage", PStr "failed"); ("attempt", PInt attempt); ("message", PStr error_message);
             ("retryable", PBool false); ("stop_reason", PStr "budget_exceeded");
             ("failure_class", PStr "budget_exceeded")] (ret tt)
        else run_attempt run agent run_id lease_token attempt (r_max_attempts run) started_at budget base
    end.

(** [_process_run]: the token of the lease when the run was claimed *)
Definition process_run (run_id : string) : thread manager (option string) :=
  let! found := db (get_agent_run run_id) in
  match found with
  | None => Done None
  | Some _ =>
      let! lease_token := atomic new_uuid in
      let! expires := atomic run_lease_expiry_iso in
      let! claimed := db (claim_agent_run_lease clock run_id (lease_owner cfg) lease_token expires None
                            ["queued"; "running"]) in
      match claimed with
      | None =>
          atomic (emit "agent_run_claim_skipped" [("run_id", PStr run_id)]) ;!
          Done None
      | Some run => process_claimed run run_id lease_token ;! Done (Some lease_token)
      end
  end.

(** One turn of [_worker_loop] *)
Definition worker_iteration : thread manager unit :=
  let! stopping := atomic (gets m_stop) in
  if stopping then Done tt
  else
    let! item := atomic (fun m => match m_queue m with
                                  | [] => (Ok None, m)
                                  | i :: q => (Ok (Some i), set_queue q m)
                                  end) in
    match item with
    | Some (Some run_id) =>
        t_try (process_run run_id)
          (fun _ => release_run_lease run_id None)
          (fun lease_token => release_run_lease run_id lease_token)
    | _ => Done tt
    end.

End manager.

End RunManager.
