(* ===== verification/RunLeases.v ===== *)
(** Leases of agent runs under every interleaving of workers, heartbeats,
    requests and recovery: how an action may change the lease of a run, that a
    live lease is not taken over, and that a lost lease is never regained. *)

From stdpp Require Import prelude strings list.
From Stdlib Require Import Lia ZArith Ascii.
From S2P Require Import Prelude PyStr PyVal PyFloat PyFloatOps Effects PyTime IsoOrder Threads RunPolicy RunStore RunValues RunManager.
Import RunPolicy RunStore RunValues RunManager.

Module RunLeases.

(** ** Leases of a table *)

Abbreviation lease := (option string * option string * option string)%type.
Definition no_lease : lease := (None, None, None).

Definition lease_of (r : run_row) : lease := (r_lease_owner r, r_lease_token r, r_lease_expires_at r).
Definition leases (t : tables) (id : string) : option lease := lease_of <$> d_get id (t_runs t).
Definition status_at (t : tables) (id : string) : option string := r_status <$> d_get id (t_runs t).

Definition same_leases (t t' : tables) : Prop := forall id, leases t' id = leases t id.
Definition same_view (t t' : tables) : Prop := same_leases t t' /\ forall id, status_at t' id = status_at t id.

Lemma leases_map_run run_id f t id :
  leases (map_run run_id f t) id =
    if String.eqb run_id id then (fun r => lease_of (f r)) <$> d_get id (t_runs t) else leases t id.
Proof.
  unfold map_run, leases. destruct (String.eqb_spec run_id id) as [->|Hne].
  - destruct (d_get id (t_runs t)) eqn:E; cbn; [by rewrite d_get_set_eq | by rewrite E].
  - destruct (d_get run_id (t_runs t)); cbn; [by rewrite d_get_set_ne | done].
Qed.

Lemma status_map_run run_id f t id :
  status_at (map_run run_id f t) id =
    if String.eqb run_id id then (fun r => r_status (f r)) <$> d_get id (t_runs t) else status_at t id.
Proof.
  unfold map_run, status_at. destruct (String.eqb_spec run_id id) as [->|Hne].
  - destruct (d_get id (t_runs t)) eqn:E; cbn; [by rewrite d_get_set_eq | by rewrite E].
  - destruct (d_get run_id (t_runs t)); cbn; [by rewrite d_get_set_ne | done].
Qed.

(** Columns other than the lease and the status. *)
Definition lease_field (f : run_field) : bool :=
  match f with FLeaseOwner _ | FLeaseToken _ | FLeaseExpiresAt _ => true | _ => false end.
Definition status_field (f : run_field) : bool := match f with FStatus _ => true | _ => false end.

Lemma set_fields_lease fs r : forallb (fun f => negb (lease_field f)) fs = true -> lease_of (set_fields fs r) = lease_of r.
Proof.
  unfold set_fields. revert r. induction fs as [|f fs IH]; intros r; [done|]. cbn. intros [H1 H2]%andb_true_iff.
  rewrite IH by done. destruct r, f; done.
Qed.

Lemma set_fields_status fs r :
  forallb (fun f => negb (status_field f)) fs = true -> r_status (set_fields fs r) = r_status r.
Proof.
  unfold set_fields. revert r. induction fs as [|f fs IH]; intros r; [done|]. cbn. intros [H1 H2]%andb_true_iff.
  rewrite IH by done. destruct r, f; done.
Qed.

Lemma map_run_same_leases run_id f t :
  (forall r, lease_of (f r) = lease_of r) -> same_leases t (map_run run_id f t).
Proof.
  intros H id. rewrite leases_map_run. unfold leases.
  destruct (String.eqb run_id id); [|done]. destruct (d_get id (t_runs t)); cbn; [by rewrite H | done].
Qed.

Lemma map_run_same_view run_id f t :
  (forall r, lease_of (f r) = lease_of r) -> (forall r, r_status (f r) = r_status r) -> same_view t (map_run run_id f t).
Proof.
  intros H Hs. split; [by apply map_run_same_leases|]. intros id. rewrite status_map_run. unfold status_at.
  destruct (String.eqb run_id id); [|done]. destruct (d_get id (t_runs t)); cbn; [by rewrite Hs | done].
Qed.

Lemma same_view_refl t : same_view t t.
Proof. by split. Qed.

(** ** What an operation keeps

    [kept C d n c]: the rows seen and the rows committed are both in [C], and
    agree on the leases unless a commit is pending; the depth of transactions
    is [d]; identifiers and clock have advanced from [n] and [c]. *)
Record kept (C : tables -> Prop) (d n c : nat) (m : manager) : Prop := Kept {
  k_cur : C (s_cur (m_store m));
  k_saved : C (s_saved (m_store m));
  k_agree : same_leases (s_saved (m_store m)) (s_cur (m_store m)) \/ ((0 < d)%nat /\ s_pending (m_store m) = true);
  k_depth : s_depth (m_store m) = d;
  k_uuid : (n <= m_uuid m)%nat;
  k_clock : (c <= s_clock (m_store m))%nat }.

(** [C] only looks at leases and statuses; only at leases. *)
Definition view_closed (C : tables -> Prop) : Prop := forall t t', same_view t t' -> C t -> C t'.
Definition lease_closed (C : tables -> Prop) : Prop := forall t t', same_leases t t' -> C t -> C t'.

Lemma lease_view_closed C : lease_closed C -> view_closed C.
Proof. intros H t t' [Hl _]. by apply H. Qed.

(** An operation of the database that keeps [C], whatever else holds the
    connection. *)
Definition store_keeps (C : tables -> Prop) {A} (op : M store A) : Prop :=
  forall d n c, preserves (kept C d n c) (on_store op).

Definition keeps (C : tables -> Prop) {A} (op : M manager A) : Prop := forall d n c, preserves (kept C d n c) op.

Section keeping.
Context (clock : nat -> Z).
Implicit Types (C : tables -> Prop).

Lemma keeps_bind {A B} C (op : M manager A) (f : A -> M manager B) :
  keeps C op -> (forall a, keeps C (f a)) -> keeps C (bind op f).
Proof. intros H Hf d n c. apply preserves_bind; [apply H | intros; apply Hf]. Qed.
Lemma keeps_ret {A} C (a : A) : keeps C (ret a).
Proof. intros d n c. apply preserves_ret. Qed.
Lemma keeps_raise {A} C e : keeps C (@raise manager A e).
Proof. intros d n c. apply preserves_raise. Qed.
Lemma keeps_lift {A} C (r : res A) : keeps C (lift r).
Proof. intros d n c. apply preserves_lift. Qed.
Lemma keeps_gets {A} C (f : manager -> A) : keeps C (gets f).
Proof. intros d n c. apply preserves_gets. Qed.
Lemma keeps_when C b (op : M manager unit) : keeps C op -> keeps C (when b op).
Proof. intros H d n c. apply preserves_when, H. Qed.
Lemma keeps_for_each {A} C (l : list A) f : (forall x, keeps C (f x)) -> keeps C (for_each l f).
Proof. intros H d n c. apply preserves_for_each. intros x. apply H. Qed.

(** Changes of the manager outside the database. *)
Lemma keeps_modify C f :
  (forall m, m_store (f m) = m_store m) -> (forall m, (m_uuid m <= m_uuid (f m))%nat) -> keeps C (modify f).
Proof.
  intros Hs Hu d n c m [? ? ? ? ? ?]. cbn. pose proof (Hu m). constructor; rewrite ?Hs; try done. lia.
Qed.

(** A transaction keeps what its body keeps: a rollback returns to committed
    rows, which are in [C] too. *)
Lemma keeps_transaction {A} C (op : M manager A) : keeps C op -> keeps C (transaction op).
Proof.
  intros H d n c m Hm. unfold transaction, write_transaction.
  assert (kept C (S d) n c (set_store (tx_enter (m_store m)) m)) as Hin.
  { destruct Hm as [? ? Hag ? ? ?]. constructor; cbn; try done; [|by f_equal].
    destruct Hag as [|[? Hp]]; [by left | right]. split; [lia|].
    destruct (Nat.eqb_spec (s_depth (m_store m)) 0); [lia | done]. }
  specialize (H (S d) n c _ Hin). destruct (op _) as [[a|e] m']; destruct H as [Hc Hsv Hag Hd Hu Hk];
    unfold tx_return, tx_raise; rewrite Hd.
  - destruct d; cbn.
    + destruct (s_pending (m_store m')) eqn:Ep; cbn; constructor; cbn; try done; [by left|].
      destruct Hag as [|[_ ?]]; [by left | congruence].
    + constructor; cbn; try done. destruct Hag as [|[_ ?]]; [by left | right; split; [lia | done]].
  - destruct d; cbn; constructor; cbn; try done; try lia; [by left|].
    destruct Hag as [|[_ ?]]; [by left | right; split; [lia | done]].
Qed.

(** A statement followed by its commit. *)
Lemma store_keeps_statement C (f : tables -> tables) :
  (forall t, C t -> C (f t)) -> store_keeps C (update_tables f ;;; commit_locked).
Proof.
  intros Hf d n c m [Hc Hs Ha Hd Hu Hk]. unfold on_store, bind, update_tables, commit_locked, modify. cbn.
  rewrite Hd. destruct d; cbn; (constructor; cbn; [auto|auto| |done|done|done]); [by left | right; split; [lia|done]].
Qed.

(** A statement whose commit comes later, or never. *)
Lemma store_keeps_update C f :
  view_closed C -> (forall t, same_view t (f t)) -> store_keeps C (update_tables f).
Proof.
  intros HC Hf d n c m [Hc Hs Ha Hd Hu Hk]. unfold on_store, update_tables, modify. cbn.
  constructor; cbn; try done; [by eapply HC|].
  destruct Ha as [Ha|]; [left | by right]. intros id. by rewrite (proj1 (Hf _) id).
Qed.

Lemma store_keeps_commit C : store_keeps C commit_locked.
Proof.
  intros d n c m [Hc Hs Ha Hd Hu Hk]. unfold on_store, commit_locked, modify. cbn. rewrite Hd.
  destruct d; cbn; (constructor; cbn; [auto|auto| |done|done|done]); [by left | right; split; [lia|done]].
Qed.

Lemma store_keeps_bind {A B} C (op : M store A) (f : A -> M store B) :
  store_keeps C op -> (forall a, store_keeps C (f a)) -> store_keeps C (bind op f).
Proof.
  intros H Hf d n c m Hm. specialize (H d n c m Hm). unfold on_store, bind in *.
  destruct (op (m_store m)) as [[a|e] st]; [|done]. specialize (Hf a d n c _ H). unfold on_store in Hf.
  cbn in Hf. by destruct (f a st) as [[] ?].
Qed.
Lemma store_keeps_ret {A} C (a : A) : store_keeps C (ret a).
Proof. intros d n c m [? ? ? ? ? ?]. constructor; done. Qed.
Lemma store_keeps_gets {A} C (f : store -> A) : store_keeps C (gets f).
Proof. intros d n c m [? ? ? ? ? ?]. constructor; done. Qed.
Lemma store_keeps_raise {A} C e : store_keeps C (@raise store A e).
Proof. intros d n c m [? ? ? ? ? ?]. constructor; done. Qed.
Lemma store_keeps_raise_if C b e : store_keeps C (@raise_if store b e).
Proof. destruct b; [apply store_keeps_raise | apply store_keeps_ret]. Qed.
Lemma store_keeps_now C : store_keeps C (now clock).
Proof. intros d n c m [? ? ? ? ? ?]. constructor; cbn; try done. lia. Qed.
Lemma store_keeps_utc_now C : store_keeps C (RunStore.utc_now clock).
Proof. apply store_keeps_bind; [apply store_keeps_now | intros; apply store_keeps_ret]. Qed.
Lemma keeps_store {A} C (op : M store A) : store_keeps C op -> keeps C (on_store op).
Proof. done. Qed.

(** *** The satellite tables leave leases and statuses alone *)

Lemma store_keeps_upsert_issue C run_id u ts : view_closed C -> store_keeps C (upsert_agent_run_issue_no_commit run_id u ts).
Proof.
  intros HC. unfold upsert_agent_run_issue_no_commit. apply store_keeps_bind; [apply store_keeps_gets|intros t].
  apply store_keeps_bind; [apply store_keeps_raise_if|intros _]. by apply store_keeps_update.
Qed.

Lemma store_keeps_upsert_artifact C run_id u ts :
  view_closed C -> store_keeps C (upsert_agent_run_issue_artifact_no_commit run_id u ts).
Proof.
  intros HC. unfold upsert_agent_run_issue_artifact_no_commit. apply store_keeps_bind; [apply store_keeps_gets|intros t].
  apply store_keeps_bind; [apply store_keeps_raise_if|intros _]. by apply store_keeps_update.
Qed.

Lemma store_keeps_upsert_call C run_id u ts :
  view_closed C -> store_keeps C (upsert_agent_run_tool_call_no_commit run_id u ts).
Proof.
  intros HC. unfold upsert_agent_run_tool_call_no_commit. destruct (is_empty _); [apply store_keeps_ret|].
  apply store_keeps_bind; [apply store_keeps_gets|intros t]. cbv zeta.
  match goal with |- store_keeps _ (if ?b then _ else _) => destruct b end; [apply store_keeps_ret|].
  apply store_keeps_bind; [apply store_keeps_raise_if|intros _]. by apply store_keeps_update.
Qed.

Lemma store_keeps_append C run_id cp iu ia tc :
  view_closed C -> store_keeps C (append_agent_run_checkpoint clock run_id cp iu ia tc).
Proof.
  intros HC. unfold append_agent_run_checkpoint. apply store_keeps_bind; [apply store_keeps_utc_now|intros now].
  apply store_keeps_bind; [apply store_keeps_gets|intros [r|]]; [|apply store_keeps_ret].
  apply store_keeps_bind; [|intros _].
  { apply store_keeps_update; [done|]. intros t.
    apply map_run_same_view; intros r'; [by apply set_fields_lease | by apply set_fields_status]. }
  apply store_keeps_bind; [destruct iu; [by apply store_keeps_upsert_issue | apply store_keeps_ret]|intros _].
  apply store_keeps_bind; [destruct ia; [by apply store_keeps_upsert_artifact | apply store_keeps_ret]|intros _].
  apply store_keeps_bind; [destruct tc; [by apply store_keeps_upsert_call | apply store_keeps_ret]|intros _].
  apply store_keeps_commit.
Qed.

(** Updates of a run: of any column under a condition on the rows they make,
    and of columns that are not the lease. *)
Lemma store_keeps_update_fields C run_id fs :
  (forall t now, C t -> C (map_run run_id (set_fields (if existsb is_updated_at fs then fs else fs ++ [FUpdatedAt now])) t)) ->
  store_keeps C (update_agent_run_fields clock run_id fs).
Proof.
  intros HC. unfold update_agent_run_fields. destruct fs as [|f fs']; [apply store_keeps_ret|].
  set (fs := f :: fs') in *. destruct (existsb is_updated_at fs) eqn:E.
  - change (store_keeps C (update_tables (map_run run_id (set_fields fs)) ;;; commit_locked)).
    apply store_keeps_statement. intros t. by apply (HC t "").
  - change (store_keeps C (let* now := RunStore.utc_now clock in
      update_tables (map_run run_id (set_fields (fs ++ [FUpdatedAt now]))) ;;; commit_locked)).
    apply store_keeps_bind; [apply store_keeps_utc_now|intros now].
    apply store_keeps_statement. intros t. by apply HC.
Qed.

Lemma forallb_stamped (p : run_field -> bool) fs now :
  p (FUpdatedAt now) = true -> forallb p fs = true ->
  forallb p (if existsb is_updated_at fs then fs else fs ++ [FUpdatedAt now]) = true.
Proof. intros H Hf. destruct (existsb _ _); [done|]. rewrite forallb_app, Hf. cbn. by rewrite H. Qed.

Lemma store_keeps_plain_fields C run_id fs :
  lease_closed C -> forallb (fun f => negb (lease_field f)) fs = true ->
  store_keeps C (update_agent_run_fields clock run_id fs).
Proof.
  intros HC Hf. apply store_keeps_update_fields. intros t now. apply HC. apply map_run_same_leases. intros r.
  apply set_fields_lease. by apply forallb_stamped.
Qed.

Lemma store_keeps_list_runs C u a st limit : store_keeps C (list_agent_runs u a st limit).
Proof. unfold list_agent_runs. destruct (_ <=? _); [apply store_keeps_ret | apply store_keeps_gets]. Qed.
Lemma store_keeps_list_issues C id limit : store_keeps C (list_agent_run_issues id limit).
Proof. unfold list_agent_run_issues. destruct (_ <=? _); [apply store_keeps_ret | apply store_keeps_gets]. Qed.
Lemma store_keeps_list_artifacts C id i limit : store_keeps C (list_agent_run_issue_artifacts id i limit).
Proof. unfold list_agent_run_issue_artifacts. destruct (_ <=? _); [apply store_keeps_ret | apply store_keeps_gets]. Qed.
Lemma store_keeps_list_calls C id st limit : store_keeps C (list_agent_run_tool_calls id st limit).
Proof. unfold list_agent_run_tool_calls. destruct (_ <=? _); [apply store_keeps_ret | apply store_keeps_gets]. Qed.

(** *** Methods of the manager inside one action *)

Lemma keeps_utc_now C : keeps C (utc_now clock).
Proof. apply keeps_store, store_keeps_utc_now. Qed.

Lemma keeps_append C run_id cp : view_closed C -> keeps C (append_checkpoint clock run_id cp).
Proof. intros HC. by apply keeps_store, store_keeps_append. Qed.

Lemma keeps_upsert_issue C run_id u : view_closed C -> keeps C (upsert_issue clock run_id u).
Proof.
  intros HC. apply keeps_store. unfold upsert_agent_run_issue.
  apply store_keeps_bind; [apply store_keeps_utc_now|intros now].
  apply store_keeps_bind; [by apply store_keeps_upsert_issue|intros _]. apply store_keeps_commit.
Qed.

Lemma keeps_fields C run_id fs :
  lease_closed C -> forallb (fun f => negb (lease_field f)) fs = true -> keeps C (update_fields clock run_id fs).
Proof. intros. by apply keeps_store, store_keeps_plain_fields. Qed.

Lemma keeps_ensure_core C run_id : view_closed C -> keeps C (ensure_core_issue_records clock run_id).
Proof.
  intros HC. apply keeps_transaction, keeps_for_each. intros [[[issue_id title] order] deps]. by apply keeps_upsert_issue.
Qed.

Lemma keeps_reset_issues C run_id : view_closed C -> keeps C (reset_issue_states_for_resume clock run_id).
Proof.
  intros HC. apply keeps_bind; [apply keeps_store, store_keeps_list_issues|intros [|i l]]; [by apply keeps_ensure_core|].
  apply keeps_transaction, keeps_for_each. intros x. by apply keeps_when, keeps_upsert_issue.
Qed.

Lemma keeps_finalize C run_id target attempt msg :
  view_closed C -> keeps C (finalize_open_issues clock run_id target attempt msg).
Proof.
  intros HC. unfold finalize_open_issues.
  apply keeps_bind; [apply keeps_store, store_keeps_list_issues|intros items].
  apply keeps_bind; [|intros items'].
  { destruct items; [|apply keeps_ret].
    apply keeps_bind; [by apply keeps_ensure_core|intros _]. apply keeps_store, store_keeps_list_issues. }
  apply keeps_bind; [apply keeps_utc_now|intros now]. apply keeps_transaction, keeps_for_each. intros x.
  repeat match goal with |- keeps _ (if ?b then _ else _) => destruct b; [apply keeps_ret|] end.
  by apply keeps_upsert_issue.
Qed.

Lemma keeps_mark_failed C run_id attempt msg :
  view_closed C -> keeps C (mark_issue_failed_from_error clock run_id attempt msg).
Proof.
  intros HC. unfold mark_issue_failed_from_error.
  apply keeps_bind; [apply keeps_store, store_keeps_list_issues|intros items].
  apply keeps_bind; [|intros [t|]].
  { destruct (failed_target items); [apply keeps_ret|].
    apply keeps_bind; [by apply keeps_ensure_core|intros _]. apply keeps_store, store_keeps_gets. }
  - apply keeps_bind; [apply keeps_utc_now|intros now]. by apply keeps_upsert_issue.
  - apply keeps_ret.
Qed.

Lemma keeps_run_emit C cfg e p : keeps C (emit cfg e p).
Proof. apply keeps_when, keeps_modify; done. Qed.
Lemma keeps_put C i : keeps C (put i).
Proof. by apply keeps_modify. Qed.
Lemma keeps_set_heartbeat C h f : keeps C (set_heartbeat h f).
Proof. by apply keeps_modify. Qed.
End keeping.

(** ** Steps *)

Abbreviation rows m := (s_cur (m_store m)).
Abbreviation clock_of m := (s_clock (m_store m)).

Section steps.
Context (clock : nat -> Z) (monotonic : nat -> fvalue) (uuid : nat -> string) (uniform : nat -> fvalue -> fvalue).
Context (execute : exec_call -> script) (cfg : settings).

(** Identifiers are distinct and carry no blanks. *)
Context (uuid_inj : forall i j, uuid i = uuid j -> i = j) (uuid_text : forall n, strip (uuid n) = uuid n).

(** What is known of a thread: the identifiers it drew, those among them that
    it has not put into a lease, and whether it is a recovery. *)
Record label : Type := Label { own : nat -> Prop; fresh : nat -> Prop; recovers : Prop }.

Definition present (m : manager) (j : nat) : Prop :=
  exists id o e, leases (rows m) id = Some (o, Some (uuid j), e).

Definition drawn (m m' : manager) (j : nat) : Prop := (m_uuid m <= j < m_uuid m')%nat.

Definition upd (m m' : manager) (l : label) : label :=
  Label (fun j => own l j \/ drawn m m' j)
        (fun j => (fresh l j \/ drawn m m' j) /\ (present m' j -> present m j)) (recovers l).

(** The ways an action of a thread labelled [l] may change the lease of a
    run. *)
Inductive change (l : label) (m m' : manager) (id : string) : option lease -> option lease -> Prop :=
  | ch_same x : change l m m' id x x
  | ch_new : change l m m' id None (Some no_lease)
  | ch_renew o k e e' : change l m m' id (Some (o, Some k, e)) (Some (o, Some k, e'))
  | ch_free o j e : own l j -> change l m m' id (Some (o, Some (uuid j), e)) (Some no_lease)
  | ch_take o t e j o' e' :
      fresh l j ->
      match e with
      | None => True
      | Some e => exists n, (clock_of m <= n < clock_of m')%nat /\ String.leb e (isoformat (clock n)) = true
      end ->
      change l m m' id (Some (o, t, e)) (Some (o', Some (uuid j), e'))
  | ch_revoke x :
      recovers l \/ status_at (rows m') id = Some "canceled" -> change l m m' id (Some x) (Some no_lease).

(** Between two actions no transaction is open, and the connection and the
    last commit agree on the leases. *)
Definition settled (m : manager) : Prop :=
  s_depth (m_store m) = 0%nat /\ same_leases (s_saved (m_store m)) (rows m).

Definition lease_step (l : label) (m m' : manager) : Prop :=
  settled m' /\ (m_uuid m <= m_uuid m')%nat /\ (clock_of m <= clock_of m')%nat
  /\ forall id, change l m m' id (leases (rows m) id) (leases (rows m') id).

Abbreviation wpl := (wp upd settled lease_step).

(** ** Calm threads: their actions are in [lease_step] whatever their label,
    and put no token into a row. *)

Definition grows (l l' : label) : Prop :=
  (forall j, own l j -> own l' j) /\ (forall j, fresh l j -> fresh l' j) /\ recovers l' = recovers l.

Lemma grows_refl l : grows l l.
Proof. by repeat split. Qed.
Lemma grows_trans l1 l2 l3 : grows l1 l2 -> grows l2 l3 -> grows l1 l3.
Proof. intros (A1 & A2 & A3) (B1 & B2 & B3). repeat split; [auto..|congruence]. Qed.

Definition calm {A} (t : thread manager A) : Prop := forall l (Q : label -> A -> Prop) (E : label -> exn -> Prop),
  (forall l' a, grows l l' -> Q l' a) -> (forall l' e, grows l l' -> E l' e) -> wpl l t Q E.

Lemma calm_done {A} (a : A) : calm (Done a).
Proof. intros l Q E HQ _. apply HQ, grows_refl. Qed.
Lemma calm_failed {A} e : calm (@Failed manager A e).
Proof. intros l Q E _ HE. apply HE, grows_refl. Qed.
Lemma calm_bind {A B} (t : thread manager A) (k : A -> thread manager B) :
  calm t -> (forall a, calm (k a)) -> calm (t_bind t k).
Proof.
  intros Ht Hk l Q E HQ HE. apply wp_bind, Ht; [|done]. intros l' a Hl.
  apply Hk; intros; eauto using grows_trans.
Qed.
Lemma calm_try {A B} (t : thread manager A) (h : exn -> thread manager B) (k : A -> thread manager B) :
  calm t -> (forall e, calm (h e)) -> (forall a, calm (k a)) -> calm (t_try t h k).
Proof.
  intros Ht Hh Hk l Q E HQ HE. apply wp_try, Ht; intros l' a Hl; [apply Hk | apply Hh]; intros; eauto using grows_trans.
Qed.
Lemma calm_finally {A} (t : thread manager A) c : calm t -> calm c -> calm (t_finally t c).
Proof.
  intros Ht Hc. apply calm_try; [done|intros e..]; (apply calm_bind; [done|intros _]); [apply calm_failed|apply calm_done].
Qed.
Lemma calm_when b (t : thread manager unit) : calm t -> calm (t_when b t).
Proof. intros H. destruct b; [done | apply calm_done]. Qed.
Lemma calm_for {A} (l : list A) f : (forall x, calm (f x)) -> calm (t_for l f).
Proof. intros H. induction l; cbn; [apply calm_done|]. apply calm_bind; [apply H | by intros _]. Qed.
Lemma calm_play sc cp : (forall p, calm (cp p)) -> calm (play sc cp).
Proof.
  intros H. induction sc as [r|e|p k IH]; cbn; [apply calm_done|apply calm_failed|].
  apply calm_try; [apply H | intros; apply IH..].
Qed.

(** An action whose steps are in [lease_step] for every label and which adds
    no token. *)
Lemma calm_atomic {A} (op : M manager A) :
  (forall l m, settled m -> lease_step l m (op m).2 /\ forall j, present (op m).2 j -> present m j) -> calm (atomic op).
Proof.
  intros H l Q E HQ HE. apply wp_atomic. intros m Hm. destruct (H l m Hm) as [Hs Hp]. split; [done|].
  assert (grows l (upd m (op m).2 l)) as Hg.
  { repeat split; cbn; auto. }
  destruct (op m).1; auto.
Qed.

(** Quiet actions leave all leases alone. *)
Definition quiet {A} (op : M manager A) : Prop := forall C, lease_closed C -> keeps C op.

Lemma quiet_step {A} (op : M manager A) l m :
  quiet op -> settled m -> lease_step l m (op m).2 /\ same_leases (rows m) (rows (op m).2).
Proof.
  intros Hq (Hd & Ha).
  assert (lease_closed (same_leases (rows m))) as HC.
  { intros t t' H1 H2 id. by rewrite H1, H2. }
  pose proof (preserves_run _ _ m (Hq _ HC 0%nat (m_uuid m) (clock_of m))) as H.
  destruct H as [Hc Hs Hag Hd' Hu Hk].
  { constructor; try done; [|by left]. intros id. by rewrite <- Ha. }
  split; [|done]. split_and!; [|done..|].
  - split; [done|]. destruct Hag as [|[? _]]; [done|lia].
  - intros id. rewrite Hc. constructor.
Qed.

Lemma calm_quiet {A} (op : M manager A) : quiet op -> calm (atomic op).
Proof.
  intros Hq. apply calm_atomic. intros l m Hm. destruct (quiet_step op l m Hq Hm) as [Hs Hl]. split; [done|].
  intros j (id & o & e & H). exists id, o, e. by rewrite <- Hl.
Qed.

Lemma calm_db {A} (op : M store A) : (forall C, lease_closed C -> store_keeps C op) -> calm (db op).
Proof. intros H. apply calm_quiet. intros C HC. by apply keeps_store, H. Qed.

(** ** The lease operations as statements *)

(** [m'] is [m] with the rows [t], committed, and the clock [k] readings on. *)
Definition after (m m' : manager) (t : tables) : Prop :=
  rows m' = t /\ same_leases (s_saved (m_store m')) t /\ s_depth (m_store m') = 0%nat /\ m_uuid m' = m_uuid m
  /\ (clock_of m <= clock_of m')%nat.

Lemma after_step l m m' t :
  after m m' t -> (forall id, change l m m' id (leases (rows m) id) (leases t id)) -> lease_step l m m'.
Proof. intros (<- & Hs & Hd & Hu & Hc) Hch. split_and!; [done|lia|done|done]. Qed.

(** Unfolds a lease operation into the state it leaves, with no transaction
    open. *)
Ltac run_op Hd :=
  cbn -[map_run set_fields isoformat String.leb lease_free lease_live holds_lease str_in get_agent_run];
  rewrite ?Hd; cbn -[map_run set_fields isoformat].

Lemma refresh_result run_id owner token expires m :
  settled m -> exists t m' b,
    on_store (refresh_agent_run_lease clock run_id owner token expires None ["running"]) m = (Ok b, m')
    /\ after m m' t
    /\ (t = rows m \/
        exists r now, d_get (strip run_id) (t_runs (rows m)) = Some r /\ holds_lease (strip owner) (strip token) r = true
          /\ t = map_run (strip run_id) (set_fields [FLeaseExpiresAt (Some expires); FUpdatedAt now]) (rows m)).
Proof.
  intros (Hd & Ha). unfold refresh_agent_run_lease.
  destruct (_ || _ || _ || _); [exists (rows m), m, false; destruct m as [[] ? ? ? ? ? ? ? ? ?]; split_and!; cbn; auto; by repeat split|].
  unfold on_store, bind. run_op Hd.
  destruct (d_get (strip run_id) (t_runs (rows m))) as [r|] eqn:E; [destruct (_ && _ && _) eqn:B|]; run_op Hd.
  - bool_prop. eexists _, _, true. split; [done|]. split; [|right; exists r; eauto].
    split_and!; cbn; try done; lia.
  - eexists (rows m), _, false. split; [done|]. split; [|by left]. split_and!; cbn; try done; lia.
  - eexists (rows m), _, false. split; [done|]. split; [|by left]. split_and!; cbn; try done; lia.
Qed.

Lemma release_result run_id owner token m :
  settled m -> exists t m' b,
    on_store (release_agent_run_lease clock run_id owner token) m = (Ok b, m')
    /\ after m m' t
    /\ (t = rows m \/
        exists r now, d_get (strip run_id) (t_runs (rows m)) = Some r /\ holds_lease (strip owner) (strip token) r = true
          /\ t = map_run (strip run_id)
                   (set_fields [FLeaseOwner None; FLeaseToken None; FLeaseExpiresAt None; FUpdatedAt now]) (rows m)).
Proof.
  intros (Hd & Ha). unfold release_agent_run_lease.
  destruct (_ || _ || _); [exists (rows m), m, false; destruct m as [[] ? ? ? ? ? ? ? ? ?]; split_and!; cbn; auto; by repeat split|].
  unfold on_store, bind. run_op Hd.
  destruct (d_get (strip run_id) (t_runs (rows m))) as [r|] eqn:E; [destruct (holds_lease _ _ r) eqn:B|]; run_op Hd.
  - eexists _, _, true. split; [done|]. split; [|right; exists r; eauto]. split_and!; cbn; try done; lia.
  - eexists (rows m), _, false. split; [done|]. split; [|by left]. split_and!; cbn; try done; lia.
  - eexists (rows m), _, false. split; [done|]. split; [|by left]. split_and!; cbn; try done; lia.
Qed.

Lemma claim_result run_id owner token expires m :
  settled m -> exists t m' o,
    on_store (claim_agent_run_lease clock run_id owner token expires None ["queued"; "running"]) m = (Ok o, m')
    /\ after m m' t
    /\ (t = rows m \/
        exists r n now, d_get (strip run_id) (t_runs (rows m)) = Some r /\ (clock_of m <= n < clock_of m')%nat
          /\ lease_free (isoformat (clock n)) (strip owner) (strip token) r = true
          /\ t = map_run (strip run_id)
                   (set_fields [FLeaseOwner (Some (strip owner)); FLeaseToken (Some (strip token));
                                FLeaseExpiresAt (Some expires); FUpdatedAt now]) (rows m)).
Proof.
  intros (Hd & Ha). unfold claim_agent_run_lease.
  destruct (_ || _ || _ || _); [exists (rows m), m, None; destruct m as [[] ? ? ? ? ? ? ? ? ?]; split_and!; cbn; auto; by repeat split|].
  unfold on_store, bind. run_op Hd.
  destruct (d_get (strip run_id) (t_runs (rows m))) as [r|] eqn:E; [destruct (_ && _) eqn:B|]; run_op Hd.
  - bool_prop. eexists _, _, _. split; [done|]. split; [split_and!; cbn; try done; lia|].
    right. exists r, (clock_of m). eexists. split_and!; cbn; try done; lia.
  - eexists (rows m), _, None. split; [done|]. split; [|by left]. split_and!; cbn; try done; lia.
  - eexists (rows m), _, None. split; [done|]. split; [|by left]. split_and!; cbn; try done; lia.
Qed.

(** The lease of the updated row, and of every other row. *)
Lemma leases_updated run_id fs t r id :
  d_get run_id (t_runs t) = Some r ->
  leases (map_run run_id (set_fields fs) t) id =
    if String.eqb run_id id then Some (lease_of (set_fields fs r)) else leases t id.
Proof.
  intros E. rewrite leases_map_run. destruct (String.eqb_spec run_id id) as [<-|]; [by rewrite E | done].
Qed.

Lemma holds_lease_spec owner token r :
  holds_lease owner token r = true -> r_lease_owner r = Some owner /\ r_lease_token r = Some token.
Proof. unfold holds_lease. by intros [?%bool_decide_eq_true ?%bool_decide_eq_true]%andb_true_iff. Qed.

Lemma calm_refresh run_id owner token expires :
  calm (db (refresh_agent_run_lease clock run_id owner token expires None ["running"])).
Proof.
  apply calm_atomic. intros l m Hm.
  destruct (refresh_result run_id owner token expires m Hm) as (t & m' & b & -> & Haft & Ht). cbn [snd].
  assert (forall id, exists e, leases t id = leases (rows m) id \/
    exists o k e0, leases (rows m) id = Some (o, Some k, e0) /\ leases t id = Some (o, Some k, e)) as Hch.
  { intros id. destruct Ht as [->|(r & now & Hr & Hh & ->)]; [exists None; by left|].
    apply holds_lease_spec in Hh as [Ho Hk]. rewrite (leases_updated _ _ _ r) by done.
    destruct (String.eqb_spec (strip run_id) id) as [<-|]; [|exists None; by left].
    exists (Some expires). right. unfold leases. rewrite Hr. destruct r; cbn in *. subst. eauto 6. }
  pose proof Haft as (Hrows & _). split.
  - eapply after_step; [done|]. intros id. destruct (Hch id) as [e' [->|(o1 & k1 & e1 & -> & ->)]]; constructor.
  - intros j (id & o & e & H). rewrite Hrows in H. destruct (Hch id) as [e' [Hs|(o1 & k1 & e1 & Hx & Hy)]].
    + exists id, o, e. by rewrite <- Hs.
    + rewrite Hy in H. simplify_eq. by exists id, o, e1.
Qed.

(** A release by the thread that drew the token. *)
Lemma wp_release l j run_id owner (Q : label -> bool -> Prop) E :
  own l j -> (forall l' b, Q l' b) -> wpl l (db (release_agent_run_lease clock run_id owner (uuid j))) Q E.
Proof using uuid_text.
  intros Hj HQ. apply wp_atomic. intros m Hm.
  destruct (release_result run_id owner (uuid j) m Hm) as (t & m' & b & -> & Haft & Ht). cbn [fst snd].
  split; [|apply HQ]. rewrite uuid_text in Ht. eapply after_step; [done|]. intros id.
  destruct Ht as [->|(r & now & Hr & Hh & ->)]; [constructor|].
  apply holds_lease_spec in Hh as [Ho Hk]. rewrite (leases_updated _ _ _ r) by done.
  destruct (String.eqb_spec (strip run_id) id) as [<-|]; [|constructor].
  unfold leases. rewrite Hr. destruct r; cbn in *. subst. by constructor.
Qed.

(** A claim with a token that the thread drew and did not use. *)
Lemma wp_claim l j run_id owner expires (Q : label -> option run_row -> Prop) E :
  fresh l j -> own l j -> (forall l' o, own l' j -> Q l' o) ->
  wpl l (db (claim_agent_run_lease clock run_id owner (uuid j) expires None ["queued"; "running"])) Q E.
Proof using uuid_text.
  intros Hf Hj HQ. apply wp_atomic. intros m Hm.
  destruct (claim_result run_id owner (uuid j) expires m Hm) as (t & m' & b & -> & Haft & Ht). cbn [fst snd].
  split; [|apply HQ; cbn; auto]. rewrite uuid_text in Ht. eapply after_step; [done|]. intros id.
  destruct Ht as [->|(r & n & now & Hr & Hn & Hfree & ->)]; [constructor|].
  rewrite (leases_updated _ _ _ r) by done.
  destruct (String.eqb_spec (strip run_id) id) as [<-|]; [|constructor].
  unfold leases. rewrite Hr.
  replace (lease_of (set_fields _ r)) with (Some (strip owner), Some (uuid j), Some expires) by (by destruct r).
  apply orb_true_iff in Hfree as [Hfree|[Ho%bool_decide_eq_true Ht%bool_decide_eq_true]%andb_true_iff]; cbn [fmap option_fmap option_map].
  - apply ch_take; [done|]. destruct (r_lease_expires_at r); eauto.
  - unfold lease_of. rewrite Ho, Ht. constructor.
Qed.

(** ** Methods *)

(** An operation that keeps the rows within [C] makes the changes [C]
    describes. *)
Lemma keeps_calm {A} (op : M manager A) :
  (forall m, settled m -> exists C, keeps C op /\ C (rows m) /\ C (s_saved (m_store m)) /\
     forall m', C (rows m') ->
       (forall l id, change l m m' id (leases (rows m) id) (leases (rows m') id)) /\
       (forall j, present m' j -> present m j)) ->
  calm (atomic op).
Proof.
  intros H. apply calm_atomic. intros l m Hm. destruct (H m Hm) as (C & Hk & Hc & Hs & HC).
  destruct Hm as [Hd Ha].
  pose proof (preserves_run _ _ m (Hk 0%nat (m_uuid m) (clock_of m))) as Hrun.
  destruct Hrun as [Hc' _ Hag Hd' Hu Hclk]; [constructor; try done; by left|].
  destruct (HC _ Hc') as [Hch Hp]. split; [|done]. split_and!; [|done..|].
  - split; [done|]. destruct Hag as [|[? _]]; [done|lia].
  - intros id. apply Hch.
Qed.

Lemma store_keeps_create C run_id agent user session msg status maxa bud :
  (forall t r, C t -> d_get run_id (t_runs t) = None -> lease_of r = no_lease -> C (set_runs (d_set run_id r (t_runs t)) t)) ->
  store_keeps C (create_agent_run clock run_id agent user session msg status maxa bud).
Proof.
  intros HC d n c m [Hc Hs Ha Hd Hu Hk]. unfold create_agent_run, on_store, bind, raise_if. cbn -[isoformat].
  destruct (d_mem run_id (t_runs (rows m))) eqn:E; cbn -[isoformat]; [constructor; cbn; try done; lia|].
  apply d_mem_false in E. rewrite Hd.
  destruct d; cbn -[isoformat]; (constructor; cbn -[isoformat]; [by apply HC|try by apply HC; try done| |done|done|lia]).
  all: first [by left | right; split; [lia|done] | done].
Qed.

Lemma calm_create_run agent user session msg maxa bud src brk :
  calm (create_run clock uuid cfg agent user session msg maxa bud src brk).
Proof.
  unfold create_run. destruct (_ || _ || _); [apply calm_failed|]. cbv zeta. destruct (truthy _).
  { apply calm_bind; [|intros _; apply calm_failed]. apply calm_quiet. intros C _. apply keeps_run_emit. }
  apply calm_bind; [apply calm_quiet; intros C _ d n c m [? ? ? ? ? ?]; constructor; cbn; try done; lia|intros run_id].
  apply calm_bind.
  { apply keeps_calm. intros m [Hd Ha].
    exists (fun t => forall id, leases t id = leases (rows m) id \/ (leases (rows m) id = None /\ leases t id = Some no_lease)).
    assert (forall t t', same_leases t t' ->
      (forall id, leases t id = leases (rows m) id \/ (leases (rows m) id = None /\ leases t id = Some no_lease)) ->
      forall id, leases t' id = leases (rows m) id \/ (leases (rows m) id = None /\ leases t' id = Some no_lease)) as HC.
    { intros t t' Hl H id. by rewrite Hl. }
    split_and!; [|by left|intros id; left; by rewrite Ha|].
    - apply keeps_transaction. apply keeps_bind; [|intros _; apply keeps_bind; [|intros _]].
      + apply keeps_store, store_keeps_create. intros t r Ht Hn Hr id. unfold leases. cbn.
        rewrite d_get_set. destruct (String.eqb_spec run_id id) as [<-|]; [|apply Ht]. cbn. rewrite Hr.
        specialize (Ht run_id). unfold leases in Ht at 1 4. rewrite Hn in Ht. cbn in Ht.
        destruct Ht as [Ht|[_ ?]]; [|done]. right. split; [exact (eq_sym Ht)|done].
      + by apply keeps_append, lease_view_closed.
      + by apply keeps_ensure_core, lease_view_closed.
    - intros m' Hm'. split.
      + intros l id. destruct (Hm' id) as [->|[-> ->]]; constructor.
      + intros j (id & o & e & H). destruct (Hm' id) as [Hx|[_ Hx]]; rewrite Hx in H; [by exists id, o, e|done]. }
  intros _. apply calm_bind; [apply calm_quiet; intros C _; apply keeps_gets|intros started].
  apply calm_bind; [apply calm_when, calm_quiet; intros C _; apply keeps_put|intros _].
  apply calm_bind; [apply calm_quiet; intros C _; apply keeps_run_emit|intros _].
  apply calm_bind; [apply calm_db; intros C _; apply store_keeps_gets|intros [r|]]; [apply calm_done|apply calm_failed].
Qed.

(** Rows whose lease is that of [t0] or was revoked with a cancellation. *)
Definition killed (t0 t : tables) : Prop := forall id,
  leases t id = leases t0 id
  \/ (is_Some (leases t0 id) /\ leases t id = Some no_lease /\ status_at t id = Some "canceled").

Lemma killed_closed t0 : view_closed (killed t0).
Proof. intros t t' [Hl Hs] H id. by rewrite Hl, Hs. Qed.

Lemma leases_some_row t id : is_Some (leases t id) <-> is_Some (d_get id (t_runs t)).
Proof. apply fmap_is_Some. Qed.

Lemma killed_row t0 t id : killed t0 t -> is_Some (d_get id (t_runs t)) -> is_Some (leases t0 id).
Proof. intros H Hr. destruct (H id) as [<-|(? & _)]; [by apply leases_some_row | done]. Qed.

Lemma keeps_kill_one t0 actor reason now run_id counts :
  keeps (killed t0) (kill_one clock actor reason now run_id counts).
Proof.
  unfold kill_one. apply keeps_bind; [apply keeps_store, store_keeps_gets|intros [r|]]; [|apply keeps_ret].
  cbv zeta. destruct (negb _); [apply keeps_ret|].
  apply keeps_bind; [|intros _; apply keeps_bind; [|intros _; apply keeps_bind; [|intros _]]].
  - apply keeps_store, store_keeps_update_fields. intros t at_ Ht id.
    rewrite leases_map_run, status_map_run. destruct (String.eqb_spec run_id id) as [<-|]; [|apply Ht].
    destruct (d_get run_id (t_runs t)) as [r0|] eqn:E; cbn.
    + right. split; [eapply killed_row; [done|by rewrite E]|]. by destruct r0.
    + left. specialize (Ht run_id). unfold leases, status_at in Ht. rewrite E in Ht. cbn in Ht.
      destruct Ht as [Ht|(_ & ? & _)]; [exact Ht | done].
  - apply keeps_append, killed_closed.
  - apply keeps_finalize, killed_closed.
  - apply keeps_ret.
Qed.

Lemma keeps_kill_all t0 actor reason now ids counts : keeps (killed t0) (kill_all clock actor reason now ids counts).
Proof.
  revert counts. induction ids as [|id ids IH]; intros counts; [apply keeps_ret|].
  apply keeps_bind; [apply keeps_kill_one | apply IH].
Qed.

Lemma calm_kill_switch a : calm (kill_switch_runs clock cfg a).
Proof.
  unfold kill_switch_runs. destruct (_ && _); [apply calm_failed|]. cbv zeta.
  apply calm_bind; [destruct (k_include_running a); [|apply calm_done];
    apply calm_bind; [apply calm_db; intros; apply store_keeps_list_runs | intros; apply calm_done]|intros ids].
  apply calm_bind; [destruct (k_include_queued a); [|apply calm_done];
    apply calm_bind; [apply calm_db; intros; apply store_keeps_list_runs | intros; apply calm_done]|intros ids'].
  apply calm_bind; [apply calm_quiet; intros C _; apply keeps_utc_now|intros now].
  apply calm_bind; [|intros [x y]; apply calm_bind;
    [apply calm_quiet; intros C _; apply keeps_run_emit | intros _; apply calm_done]].
  apply keeps_calm. intros m [Hd Ha]. exists (killed (rows m)).
  split_and!; [apply keeps_transaction, keeps_kill_all|by left|intros id; left; by rewrite Ha|].
  intros m' Hm'. split.
  - intros l id. destruct (Hm' id) as [->|([y0 ->] & -> & ?)]; [constructor|]. apply ch_revoke. by right.
  - intros j (id & o & e & H). destruct (Hm' id) as [Hx|(_ & Hx & _)]; rewrite Hx in H; [by exists id, o, e|done].
Qed.

(** The remaining steps of a thread, one by one. *)
Lemma calm_append run_id cp : calm (atomic (append_checkpoint clock run_id cp)).
Proof. apply calm_quiet. intros C HC. by apply keeps_append, lease_view_closed. Qed.
Lemma calm_emit e p : calm (atomic (emit cfg e p)).
Proof. apply calm_quiet. intros C _. apply keeps_run_emit. Qed.
Lemma calm_get_run run_id : calm (db (get_agent_run run_id)).
Proof. apply calm_db. intros C _. apply store_keeps_gets. Qed.
Lemma calm_gets {A} (f : manager -> A) : calm (atomic (gets f)).
Proof. apply calm_quiet. intros C _. apply keeps_gets. Qed.
Lemma calm_put i : calm (atomic (put i)).
Proof. apply calm_quiet. intros C _. apply keeps_put. Qed.
Lemma calm_utc_now : calm (atomic (utc_now clock)).
Proof. apply calm_quiet. intros C _. apply keeps_utc_now. Qed.
Lemma calm_read_clock : calm (atomic (read_clock clock)).
Proof. apply calm_quiet. intros C _. apply keeps_store, store_keeps_now. Qed.
Lemma calm_monotonic : calm (atomic (read_monotonic monotonic)).
Proof. apply calm_quiet. intros C _ d n c m [? ? ? ? ? ?]. constructor; cbn; try done; lia. Qed.
Lemma calm_set_heartbeat h f : calm (atomic (set_heartbeat h f)).
Proof. apply calm_quiet. intros C _. apply keeps_set_heartbeat. Qed.
Lemma calm_expiry : calm (atomic (run_lease_expiry_iso clock cfg)).
Proof.
  apply calm_quiet. intros C _. apply keeps_bind; [apply keeps_store, store_keeps_now|intros t].
  apply keeps_bind; [apply keeps_lift|intros ttl]. apply keeps_bind; [apply keeps_lift|intros e]. apply keeps_ret.
Qed.
Lemma calm_modify f :
  (forall m, m_store (f m) = m_store m) -> (forall m, (m_uuid m <= m_uuid (f m))%nat) -> calm (atomic (modify f)).
Proof. intros H1 H2. apply calm_quiet. intros C _. by apply keeps_modify. Qed.
End steps.

(** Peels a thread made of calm actions. *)
Ltac calm_thread :=
  repeat match goal with
  | |- calm _ _ (Done _) => apply calm_done
  | |- calm _ _ (Failed _) => apply calm_failed
  | |- calm _ _ (t_bind _ _) => apply calm_bind; [|intros ?]
  | |- calm _ _ (t_when _ _) => apply calm_when
  | |- calm _ _ (kill_switch_runs _ _ _) => apply calm_kill_switch
  | |- calm _ _ (atomic (append_checkpoint _ _ _)) => apply calm_append
  | |- calm _ _ (atomic (emit _ _ _)) => apply calm_emit
  | |- calm _ _ (atomic (gets _)) => apply calm_gets
  | |- calm _ _ (atomic (put _)) => apply calm_put
  | |- calm _ _ (atomic (utc_now _)) => apply calm_utc_now
  | |- calm _ _ (atomic (read_clock _)) => apply calm_read_clock
  | |- calm _ _ (atomic (read_monotonic _)) => apply calm_monotonic
  | |- calm _ _ (atomic (set_heartbeat _ _)) => apply calm_set_heartbeat
  | |- calm _ _ (atomic (run_lease_expiry_iso _ _)) => apply calm_expiry
  | |- calm _ _ (db (get_agent_run _)) => apply calm_get_run
  | |- calm _ _ (db (refresh_agent_run_lease _ _ _ _ _ _ _)) => apply calm_refresh
  | |- calm _ _ (db (get_agent _)) => apply calm_db; intros ? _; apply store_keeps_gets
  | |- calm _ _ (db (get_agent_run_issue _ _)) => apply calm_db; intros ? _; apply store_keeps_gets
  | |- calm _ _ (db (list_agent_run_issues _ _)) => apply calm_db; intros ? _; apply store_keeps_list_issues
  | |- calm _ _ (db (list_agent_run_issue_artifacts _ _ _)) => apply calm_db; intros ? _; apply store_keeps_list_artifacts
  | |- calm _ _ (db (list_agent_run_tool_calls _ _ _)) => apply calm_db; intros ? _; apply store_keeps_list_calls
  | |- calm _ _ (db (append_agent_run_checkpoint _ _ _ _ _ _)) =>
      apply calm_db; intros ? ?; by apply store_keeps_append, lease_view_closed
  | |- calm _ _ (if ?b then _ else _) => destruct b
  | |- calm _ _ (match ?x with _ => _ end) => destruct x
  end.

(** Peels an operation inside one action. *)
Ltac keep_op :=
  repeat match goal with
  | |- keeps _ (ret _) => apply keeps_ret
  | |- keeps _ (raise _) => apply keeps_raise
  | |- keeps _ (bind _ _) => apply keeps_bind; [|intros ?]
  | |- keeps _ (when _ _) => apply keeps_when
  | |- keeps _ (transaction _) => apply keeps_transaction
  | |- keeps _ (utc_now _) => apply keeps_utc_now
  | |- keeps _ (append_checkpoint _ _ _) => by apply keeps_append, lease_view_closed
  | |- keeps _ (finalize_open_issues _ _ _ _ _) => by apply keeps_finalize, lease_view_closed
  | |- keeps _ (mark_issue_failed_from_error _ _ _ _) => by apply keeps_mark_failed, lease_view_closed
  | |- keeps _ (reset_issue_states_for_resume _ _) => by apply keeps_reset_issues, lease_view_closed
  | |- keeps _ (update_fields _ _ _) => by apply keeps_fields
  | |- keeps _ (if ?b then _ else _) => destruct b
  | |- keeps _ (match ?x with _ => _ end) => destruct x
  end.

Section methods.
Context (clock : nat -> Z) (monotonic : nat -> fvalue) (uuid : nat -> string) (uniform : nat -> fvalue -> fvalue).
Context (execute : exec_call -> script) (cfg : settings).
Abbreviation calm' := (calm clock uuid).

Lemma calm_cancel_run run_id : calm' (cancel_run clock cfg run_id).
Proof. unfold cancel_run. calm_thread. apply calm_quiet. intros C HC. keep_op. Qed.

Lemma calm_resume_run run_id : calm' (resume_run clock cfg run_id).
Proof. unfold resume_run. calm_thread. apply calm_quiet. intros C HC. keep_op. Qed.

Lemma calm_assert run_id token hb : calm' (assert_active_run_lease clock cfg run_id token hb).
Proof. unfold assert_active_run_lease. cbv zeta. calm_thread. Qed.

Lemma calm_heartbeat_turn h : calm' (heartbeat_turn clock cfg h).
Proof.
  unfold heartbeat_turn. calm_thread. apply calm_try; [calm_thread|intros e|intros refreshed]; calm_thread.
Qed.

Lemma calm_push run_id attempt b u payload : calm' (push_checkpoint clock run_id attempt b u payload).
Proof. unfold push_checkpoint. cbv zeta. calm_thread. by apply calm_modify. Qed.

Lemma calm_call_executor fuel cp c : (forall p, calm' (cp p)) -> calm' (call_executor execute fuel cp c).
Proof.
  intros Hcp. revert c. induction fuel as [|fuel IH]; intros c; cbn;
    (apply calm_try; [by apply calm_play|intros e|intros a; apply calm_done]); destruct e; calm_thread.
  apply IH.
Qed.

Lemma calm_run_task_executor run agent attempt started_at b run_id token cp rs :
  (forall p, calm' (cp p)) ->
  calm' (run_task_executor clock monotonic execute cfg run agent attempt started_at b run_id token cp rs).
Proof.
  intros Hcp. unfold run_task_executor. calm_thread.
  - apply calm_quiet. intros C _. unfold start_run_lease_heartbeat. cbv zeta. destruct (_ || _); [apply keeps_ret|].
    apply keeps_bind; [apply keeps_gets|intros h]. apply keeps_bind; [by apply keeps_modify|intros _; apply keeps_ret].
  - apply calm_assert.
  - apply calm_finally.
    + apply calm_call_executor. intros p. apply calm_bind; [apply calm_assert|intros _; apply Hcp].
    + unfold stop_run_lease_heartbeat. calm_thread.
  - apply calm_assert.
Qed.

Lemma quiet_record_failure run_id attempt exc m_err o : quiet (record_failure clock run_id attempt exc m_err o).
Proof. intros C HC. unfold record_failure. cbv zeta. keep_op. Qed.

Lemma calm_attempt_failed run run_id attempt maxa u started exc :
  calm' (attempt_failed clock monotonic uniform cfg run run_id attempt maxa u started exc).
Proof.
  unfold attempt_failed. cbv zeta. calm_thread; [|apply calm_quiet, quiet_record_failure].
  apply calm_quiet. intros C _ d n c m [? ? ? ? ? ?]. unfold draw_backoff. cbv zeta.
  destruct (_ && _); destruct (retry_delay_seconds _ _ _ _ _); by constructor.
Qed.

Lemma calm_attempt_succeeded agent run_id attempt b result m_final :
  calm' (attempt_succeeded clock cfg agent run_id attempt b result m_final).
Proof. unfold attempt_succeeded. calm_thread. apply calm_quiet. intros C HC. keep_op. Qed.

Lemma calm_attempt_returned agent run_id attempt b u result :
  calm' (attempt_returned clock cfg agent run_id attempt b u result).
Proof.
  unfold attempt_returned. cbv zeta. calm_thread; try apply calm_attempt_succeeded.
  apply calm_quiet. intros C HC. keep_op.
Qed.

Lemma calm_end_before_start run run_id status reason cls err m cp extra :
  quiet extra -> calm' (end_before_start clock cfg run run_id status reason cls err m cp extra).
Proof.
  intros He. unfold end_before_start. calm_thread. apply calm_quiet. intros C HC.
  apply keeps_transaction. apply keeps_bind; [apply keeps_utc_now|intros finished].
  apply keeps_bind; [apply keeps_fields; [done|by destruct err]|intros _].
  apply keeps_bind; [by apply keeps_append, lease_view_closed|intros _]. by apply He.
Qed.

Lemma calm_run_attempt run agent run_id token attempt maxa started_at b base :
  calm' (run_attempt clock monotonic uniform execute cfg run agent run_id token attempt maxa started_at b base).
Proof.
  unfold run_attempt. apply calm_bind; [apply calm_quiet; intros C HC; keep_op|intros _].
  apply calm_bind; [apply calm_monotonic|intros started].
  apply calm_bind; [apply calm_quiet; intros C _ d n c m [? ? ? ? ? ?]; by constructor|intros u].
  apply calm_try; [|intros e; apply calm_attempt_failed|intros r; apply calm_attempt_returned].
  do 3 (apply calm_bind; [calm_thread|intros ?]). apply calm_run_task_executor. intros p. apply calm_push.
Qed.

Lemma calm_process_claimed run run_id token :
  calm' (process_claimed clock monotonic uniform execute cfg run run_id token).
Proof.
  unfold process_claimed. cbv zeta. apply calm_bind; [calm_thread|intros latest].
  destruct (cancel_seen latest run).
  { apply calm_end_before_start. intros C _. apply keeps_ret. }
  destruct (negb _); [apply calm_done|]. apply calm_bind; [calm_thread|intros [agent|]].
  - apply calm_bind; [calm_thread|intros started_at]. apply calm_bind; [calm_thread|intros now].
    destruct (f_le _ _); [|apply calm_run_attempt]. apply calm_end_before_start. intros C _. apply keeps_ret.
  - apply calm_end_before_start. intros C HC. by apply keeps_mark_failed, lease_view_closed.
Qed.

(** ** The worker: it claims with the token it just drew, and releases only
    that token. *)
Context (uuid_text : forall n, strip (uuid n) = uuid n).
Abbreviation wpl := (wp (upd uuid) settled (lease_step clock uuid)).

Lemma wp_new_uuid l (Q : label -> string -> Prop) E :
  (forall l' j, own l' j -> fresh l' j -> Q l' (uuid j)) -> wpl l (atomic (new_uuid uuid)) Q E.
Proof.
  intros HQ. apply wp_atomic. intros m Hm.
  assert (quiet (new_uuid uuid)) as Hq by (intros C _ d n c m0 [? ? ? ? ? ?]; constructor; cbn; try done; lia).
  split; [exact (proj1 (quiet_step clock uuid (new_uuid uuid) l m Hq Hm))|]. cbn. apply HQ; cbn; unfold drawn; cbn.
  - right. lia.
  - split; [right; lia | done].
Qed.

Lemma wp_process_run l run_id Q E :
  (forall l' r, match r with Some k => exists j, k = uuid j /\ own l' j | None => True end -> Q l' r) ->
  (forall l' e, E l' e) ->
  wpl l (process_run clock monotonic uuid uniform execute cfg run_id) Q E.
Proof using uuid_text.
  intros HQ HE. unfold process_run. apply wp_bind, calm_get_run; [|auto]. intros l1 [r|] _; [|by apply HQ].
  apply wp_bind, wp_new_uuid. intros l2 j Hown Hfresh.
  apply wp_bind, calm_expiry; [|auto]. intros l3 expires (G1 & G2 & _).
  apply wp_bind, wp_claim; [done|auto..|]. intros l4 [run|] Hown4.
  - apply wp_bind, calm_process_claimed; [|auto]. intros l5 _ (G3 & _). apply HQ. eauto.
  - apply wp_bind, calm_emit; [|auto]. intros l5 _ _. by apply HQ.
Qed.

Abbreviation safe l t := (wpl l t (fun _ _ => True) (fun _ _ => True)).

Lemma wp_worker_iteration l : safe l (worker_iteration clock monotonic uuid uniform execute cfg).
Proof using uuid_text.
  unfold worker_iteration. apply wp_bind, calm_gets; [|auto]. intros l1 stopping _. destruct stopping; [exact I|].
  apply wp_bind. eapply (calm_quiet clock uuid); [|intros l2 item _|auto].
  { intros C _ d n c m [? ? ? ? ? ?]. destruct (m_queue m); by constructor. }
  destruct item as [[run_id|]|]; [|exact I..]. apply wp_try, wp_process_run.
  - intros l3 [k|] Hr; unfold release_run_lease; cbv zeta; cbn [opt_str].
    + destruct Hr as (j & -> & Hj). rewrite uuid_text. destruct (_ || _); [exact I|].
      apply wp_try, wp_release; [done..|]. by intros.
    + rewrite orb_true_r. exact I.
  - intros l3 e. unfold release_run_lease; cbv zeta; cbn [opt_str]. rewrite orb_true_r. exact I.
Qed.

(** ** Recovery, which clears the leases of the rows it requeues *)

(** Rows whose lease is that of [t0] or was cleared. *)
Definition cleared (t0 t : tables) : Prop := forall id,
  leases t id = leases t0 id \/ (is_Some (leases t0 id) /\ leases t id = Some no_lease).

Lemma wp_clear_lease l run_id fs (Q : label -> unit -> Prop) (E : label -> exn -> Prop) :
  recovers l -> (forall l' a, grows l l' -> Q l' a) -> (forall l' e, grows l l' -> E l' e) ->
  (forall r at_, lease_of (set_fields (if existsb is_updated_at fs then fs else fs ++ [FUpdatedAt at_]) r) = no_lease) ->
  wpl l (atomic (update_fields clock run_id fs)) Q E.
Proof.
  intros Hr HQ HE Hfs. apply wp_atomic. intros m [Hd Ha].
  assert (keeps (cleared (rows m)) (update_fields clock run_id fs)) as Hk.
  { apply keeps_store, store_keeps_update_fields. intros t at_ Ht id. rewrite leases_map_run.
    destruct (String.eqb_spec run_id id) as [<-|]; [|apply Ht]. specialize (Ht run_id). unfold leases in Ht at 1 4.
    destruct (d_get run_id (t_runs t)) as [r0|]; cbn in *.
    - right. rewrite Hfs. split; [|done]. destruct Ht as [<-|[? _]]; eauto.
    - destruct Ht as [<-|[_ ?]]; [by left | done]. }
  pose proof (preserves_run _ _ m (Hk 0%nat (m_uuid m) (clock_of m))) as Hrun.
  destruct Hrun as [Hc _ Hag Hd' Hu Hclk]; [constructor; try done; [by left|intros id; left; by rewrite Ha|by left]|].
  set (m' := (update_fields clock run_id fs m).2) in *.
  assert (grows l (upd uuid m m' l)) as Hg.
  { repeat split; cbn; auto. intros (id & o & e & Hp). destruct (Hc id) as [Hx|[_ Hx]]; rewrite Hx in Hp; [by exists id, o, e|done]. }
  split; [|destruct (update_fields clock run_id fs m).1; auto]. split_and!; [|done..|].
  - split; [done|]. destruct Hag as [|[? _]]; [done|lia].
  - intros id. destruct (Hc id) as [->|[[x ->] ->]]; [constructor|]. apply ch_revoke. by left.
Qed.

Lemma wp_for {A} l (xs : list A) f (E : label -> exn -> Prop) (Q : label -> unit -> Prop) :
  recovers l -> (forall l' a, recovers l' -> Q l' a) ->
  (forall l' x, recovers l' -> wpl l' (f x) (fun l2 _ => recovers l2) E) -> wpl l (t_for xs f) Q E.
Proof.
  revert l. induction xs as [|x xs IH]; intros l Hl HQ Hf; cbn [t_for]; [by apply HQ|].
  apply wp_bind. eapply wp_mono; [| |by apply Hf]; [|done]. intros l' a Hl'. by apply IH.
Qed.

Lemma grows_recovers l l' : grows l l' -> recovers l -> recovers l'.
Proof. intros (_ & _ & ->). done. Qed.

(** A calm rest after an action of recovery. *)
Lemma calm_recovers {A} l (t : thread manager A) (E : label -> exn -> Prop) :
  calm' t -> recovers l -> (forall l' e, E l' e) -> wpl l t (fun l2 _ => recovers l2) E.
Proof. intros Ht Hl HE. apply Ht; [intros; by eapply grows_recovers | auto]. Qed.

Lemma wp_recover_running l id :
  recovers l -> wpl l (recover_running clock id) (fun l2 _ => recovers l2) (fun _ _ => True).
Proof.
  intros Hl. unfold recover_running. apply wp_bind, wp_clear_lease; [done| |auto|intros r at_; by destruct r].
  intros l1 _ Hg. apply calm_recovers; [|by eapply grows_recovers|auto]. calm_thread.
  apply calm_quiet. intros C HC. keep_op.
Qed.

Lemma wp_recover_queued l id :
  recovers l -> wpl l (recover_queued clock id) (fun l2 _ => recovers l2) (fun _ _ => True).
Proof.
  intros Hl. unfold recover_queued. apply wp_bind, wp_clear_lease; [done| |auto|intros r at_; by destruct r].
  intros l1 _ Hg. apply calm_recovers; [|by eapply grows_recovers|auto]. calm_thread.
Qed.

Lemma wp_start l : recovers l -> safe l (start clock cfg).
Proof.
  intros Hl. unfold start. apply wp_bind, calm_gets; [|auto]. intros l1 [] Hg1; [exact I|].
  apply wp_bind, (calm_modify clock uuid); [done..| |auto]. intros l2 _ Hg2.
  assert (recovers l2) as Hl2 by eauto using grows_recovers. destruct (recover_pending_on_start cfg); [|exact I].
  cbn [t_when]. unfold recover_pending_runs.
  apply wp_bind, (calm_db clock uuid); [intros; apply store_keeps_list_runs| |auto]. intros l3 running Hg3.
  apply wp_bind, (calm_db clock uuid); [intros; apply store_keeps_list_runs| |auto]. intros l4 queued Hg4.
  apply wp_bind, wp_for; [eauto using grows_recovers| |intros; by apply wp_recover_running].
  intros l5 _ Hl5. generalize (named_ids running) as done_ids. revert l5 Hl5.
  induction (named_ids queued) as [|id ids IH]; intros l5 Hl5 done_ids; cbn [recover_queued_all]; [exact I|].
  destruct (str_in id done_ids); [by apply IH|]. apply wp_bind.
  eapply wp_mono; [| |by apply wp_recover_queued]; [|auto]. intros l6 a Hl6. by apply IH.
Qed.

Lemma calm_stop n : calm' (stop n).
Proof.
  unfold stop. apply calm_bind; [calm_thread|intros started]. destruct (negb started); [apply calm_done|].
  apply calm_bind; [by apply calm_modify|intros _].
  apply calm_bind; [apply calm_for; intros; calm_thread|intros _]. by apply calm_modify.
Qed.
End methods.

End RunLeases.
