(* ===== verification/RunLeaseFacts.v ===== *)
(** Theorems about leases of agent runs: the system of all the threads that
    can run, what an action may do to a live lease, and fencing. *)

From stdpp Require Import prelude strings list.
From Stdlib Require Import Lia ZArith Ascii.
From S2P Require Import Prelude PyStr PyVal PyFloat PyFloatOps Effects PyTime IsoOrder Threads RunPolicy RunStore RunValues RunManager RunLeases.
Import RunPolicy RunStore RunValues RunManager RunLeases.

Module RunLeaseFacts.

(** A request whose result goes to its caller. *)
Definition ignore {A} (t : thread manager A) : thread manager unit := t_bind t (fun _ => Done tt).

Definition start_label (r : Prop) : label := Label (fun _ => False) (fun _ => False) r.

Section system.
Context (clock : nat -> Z) (monotonic : nat -> fvalue) (uuid : nat -> string) (uniform : nat -> fvalue -> fvalue).
Context (execute : exec_call -> script) (cfg : settings).

(** The threads that may start at any moment: turns of workers and of
    heartbeats, requests, and the start of the manager with its recovery. *)
Inductive enters (m : manager) : label -> thread manager unit -> Prop :=
  | en_worker : enters m (start_label False) (worker_iteration clock monotonic uuid uniform execute cfg)
  | en_heartbeat h : enters m (start_label False) (heartbeat_turn clock cfg h)
  | en_create agent user session msg maxa bud src brk :
      enters m (start_label False) (ignore (create_run clock uuid cfg agent user session msg maxa bud src brk))
  | en_cancel run_id : enters m (start_label False) (ignore (cancel_run clock cfg run_id))
  | en_resume run_id : enters m (start_label False) (ignore (resume_run clock cfg run_id))
  | en_kill a : enters m (start_label False) (ignore (kill_switch_runs clock cfg a))
  | en_stop n : enters m (start_label False) (stop n)
  | en_start : enters m (start_label True) (start clock cfg).

Abbreviation step := (sched (upd uuid) enters).
Abbreviation act := (acts (upd uuid)).

(** A manager over a database whose tokens, if any, were drawn before. *)
Definition tokens_drawn (m : manager) : Prop :=
  forall id o k e, leases (rows m) id = Some (o, Some k, e) -> exists j, (j < m_uuid m)%nat /\ k = uuid j.
Definition well_started (m : manager) : Prop := settled m /\ tokens_drawn m.

(** Identifiers are distinct and carry no blanks. *)
Context (uuid_inj : forall i j, uuid i = uuid j -> i = j) (uuid_text : forall n, strip (uuid n) = uuid n).

(** What holds of all labels together: threads draw different identifiers,
    and an unused one is in no row. *)
Record labels_ok (ls : list label) (m : manager) : Prop := LabelsOk {
  lo_bound : forall i l j, ls !! i = Some l -> own l j -> (j < m_uuid m)%nat;
  lo_disjoint : forall i i' l l' j, ls !! i = Some l -> ls !! i' = Some l' -> own l j -> own l' j -> i = i';
  lo_fresh : forall i l j, ls !! i = Some l -> fresh l j -> own l j /\ ~ present uuid m j;
  lo_tokens : tokens_drawn m }.

(** A token in a row after a step was there before, or its thread had it
    unused. *)
Lemma step_present l m m' j :
  (forall id, change clock uuid l m m' id (leases (rows m) id) (leases (rows m') id)) ->
  present uuid m' j -> present uuid m j \/ fresh l j.
Proof using uuid_inj.
  intros Hch (id & o & e & H). specialize (Hch id). rewrite H in Hch. inversion Hch; subst.
  - left. by exists id, o, e.
  - left. by eexists id, o, _.
  - right. match goal with E : uuid _ = uuid _ |- _ => by apply uuid_inj in E as <- end.
Qed.

Lemma labels_ok_step ls i l m m' :
  settled m -> labels_ok ls m -> ls !! i = Some l -> lease_step clock uuid l m m' ->
  labels_ok (<[i := upd uuid m m' l]> ls) m'.
Proof using uuid_inj.
  intros _ [Hb Hd Hf Ht] Hi (_ & Hu & _ & Hch).
  assert (i < length ls)%nat as Hlt by (by eapply lookup_lt_Some).
  assert (forall i' l', <[i := upd uuid m m' l]> ls !! i' = Some l' ->
    (i' = i /\ l' = upd uuid m m' l) \/ (i' <> i /\ ls !! i' = Some l')) as Hlk.
  { intros i' l'. destruct (decide (i' = i)) as [->|]; [rewrite list_lookup_insert_eq by done; intros [= <-]; by left|].
    rewrite list_lookup_insert_ne by done. auto. }
  constructor.
  - intros i' l' j [[-> ->]|[_ H]]%Hlk; cbn; [|intros Hj; specialize (Hb _ _ _ H Hj); lia].
    intros [Hj|Hj]; [specialize (Hb _ _ _ Hi Hj); lia | unfold drawn in Hj; lia].
  - intros i1 i2 l1 l2 j [[-> ->]|[? H1]]%Hlk [[-> ->]|[? H2]]%Hlk; cbn; try done.
    + intros [Hj|Hj] Hj2; [by eapply Hd | specialize (Hb _ _ _ H2 Hj2); unfold drawn in Hj; lia].
    + intros Hj1 [Hj|Hj]; [by eapply Hd | specialize (Hb _ _ _ H1 Hj1); unfold drawn in Hj; lia].
    + intros. by eapply Hd.
  - intros i' l' j [[-> ->]|[? H]]%Hlk; cbn.
    + intros [Hj Hp]. split; [destruct Hj as [Hj|Hj]; [left; by eapply Hf | by right]|].
      intros Hpr. apply Hp in Hpr. destruct Hj as [Hj|Hj]; [by apply (Hf _ _ _ Hi Hj)|].
      destruct Hpr as (id & o & e & (j0 & Hj0 & E%uuid_inj)%Ht). unfold drawn in Hj. lia.
    + intros Hj. destruct (Hf _ _ _ H Hj) as [Ho Hn]. split; [done|].
      intros [|Hfl]%(step_present _ _ _ _ Hch); [done|]. destruct (Hf _ _ _ Hi Hfl) as [Hol _].
      eauto using Hd.
  - intros id o k e H. specialize (Hch id). rewrite H in Hch.
    inversion Hch as [x E1 E2| |o1 k' e1 e2 E1 E2| |o1 t e1 j' o2 e2 Hfl _ E1 E2|]; subst.
    + destruct (Ht id o k e ltac:(done)) as (j & ? & ->). exists j. split; [lia|done].
    + destruct (Ht id o k e1 ltac:(done)) as (j & ? & ->). exists j. split; [lia|done].
    + destruct (Hf _ _ _ Hi Hfl) as [Ho _]. specialize (Hb _ _ _ Hi Ho). exists j'. split; [lia|done].
Qed.

Lemma enters_safe m l t :
  enters m l t -> wp (upd uuid) settled (lease_step clock uuid) l t (fun _ _ => True) (fun _ _ => True).
Proof using uuid_text.
  assert (forall A (t : thread manager A), calm clock uuid t -> forall l, wp (upd uuid) settled (lease_step clock uuid) l t (fun _ _ => True) (fun _ _ => True)) as Hc.
  { intros A t0 H l0. by apply H. }
  intros []; try (apply Hc, calm_bind; [|intros ?; apply calm_done]).
  - by apply wp_worker_iteration.
  - apply Hc, calm_heartbeat_turn.
  - apply calm_create_run.
  - apply calm_cancel_run.
  - apply calm_resume_run.
  - apply calm_kill_switch.
  - apply Hc, calm_stop.
  - by apply wp_start.
Qed.

Lemma sound_start m : well_started m -> sound (upd uuid) settled (lease_step clock uuid) labels_ok ([], m).
Proof. intros [Hs Ht]. split; [done|]. split; [|constructor]. by constructor; try done; intros ? ? ?. Qed.

Lemma sound_reach m c :
  well_started m -> rtc step ([], m) c -> sound (upd uuid) settled (lease_step clock uuid) labels_ok c.
Proof using uuid_inj uuid_text.
  intros Hm Hr. eapply sound_reachable; [..|by apply sound_start|exact Hr].
  - by intros l s s' _ [? _].
  - intros. by eapply labels_ok_step.
  - intros ls s l t Hls Hen. destruct Hls as [Hb Hd Hf Ht].
    assert (forall i l', (ls ++ [l]) !! i = Some l' -> ls !! i = Some l' \/ (forall j, ~ own l' j /\ ~ fresh l' j)) as Hlk.
    { intros i l' [H|[_ H]]%lookup_app_Some; [by left|]. right. intros j.
      apply list_lookup_singleton_Some in H as [_ <-]. destruct Hen; split; intros []. }
    constructor; [| | |done].
    + intros i l' j [H|H]%Hlk Hj; [eauto | by apply H in Hj].
    + intros i i' l1 l2 j [H1|H1]%Hlk [H2|H2]%Hlk Hj1 Hj2; try (by apply H1 in Hj1); try (by apply H2 in Hj2). eauto.
    + intros i l' j [H|H]%Hlk Hj; [eauto | by apply H in Hj].
  - intros. by eapply enters_safe.
Qed.

(** Every action of a reachable system is a lease step of its thread. *)
Lemma reach_act m c i c' :
  well_started m -> rtc step ([], m) c -> act i c c' ->
  exists l, c.1.*1 !! i = Some l /\ lease_step clock uuid l c.2 c'.2 /\ labels_ok c.1.*1 c.2.
Proof using uuid_inj uuid_text.
  intros Hm Hr Ha. pose proof (sound_reach m c Hm Hr) as Hs. pose proof Hs as (_ & Hls & _).
  eapply (sound_acts (upd uuid) settled (lease_step clock uuid) labels_ok) in Ha as (l & ? & ? & _);
    [by exists l| | |done].
  - by intros l s s' _ [? _].
  - intros. by eapply labels_ok_step.
Qed.

(** ** A live lease *)

Section clocks.
(** The clock does not go back, and stays within the years of [datetime]. *)
Context (clock_mono : forall n, clock n <= clock (S n)) (clock_range : forall n, dt_in_range (clock n)).

Lemma clock_le a b : (a <= b)%nat -> clock a <= clock b.
Proof using clock_mono. induction 1 as [|b _ IH]; [lia|]. pose proof (clock_mono b). lia. Qed.

(** C2. Between its claim and its expiry a lease is not taken over: in any
    interleaving of workers, heartbeats, requests and recovery, an action on a
    run whose lease has not expired keeps the token in place, or clears the
    lease; and it clears it only when the acting thread itself drew the token
    (its own release), when the run is canceled with it (the kill switch), or
    when the acting thread is the recovery of a starting manager. *)
Theorem live_lease_kept m c i c' id o k expiry :
  well_started m -> rtc step ([], m) c -> act i c c' ->
  leases (rows c.2) id = Some (o, Some k, Some (isoformat expiry)) ->
  dt_in_range expiry -> clock (clock_of c'.2) < expiry ->
  (exists e', leases (rows c'.2) id = Some (o, Some k, e'))
  \/ (leases (rows c'.2) id = Some no_lease
      /\ (status_at (rows c'.2) id = Some "canceled"
          \/ exists l, c.1.*1 !! i = Some l /\ (recovers l \/ exists j, own l j /\ k = uuid j))).
Proof using uuid_inj uuid_text clock_mono clock_range.
  intros Hm Hr Ha Hl Hex Hlive. destruct (reach_act m c i c' Hm Hr Ha) as (l & Hi & (_ & _ & _ & Hch) & _).
  specialize (Hch id). rewrite Hl in Hch.
  inversion Hch as [x E1 E2| |o1 k1 e1 e2 E1 E2|o1 j e1 Ho E1 E2|o1 t e1 j o2 e2 Hf Hfree E1 E2|x Hrev E1 E2]; subst.
  - left. eauto.
  - left. eauto.
  - right. split; [done|]. right. exists l. eauto.
  - exfalso. destruct Hfree as (n & Hn & Hle). rewrite isoformat_leb in Hle by auto. apply Z.leb_le in Hle.
    pose proof (clock_le n (clock_of c'.2) ltac:(lia)). lia.
  - right. split; [done|]. destruct Hrev as [Hrev|Hrev]; [right; exists l; auto | by left].
Qed.
End clocks.

(** ** Fencing *)

Definition token_at (m : manager) (id : string) : option string :=
  match leases (rows m) id with Some (_, t, _) => t | None => None end.

(** A token that was drawn and that no thread has unused. *)
Definition used (j : nat) (c : list (label * thread manager unit) * manager) : Prop :=
  (j < m_uuid c.2)%nat /\ (forall i l, c.1.*1 !! i = Some l -> ~ fresh l j).

Lemma used_step m j c c' : well_started m -> rtc step ([], m) c -> used j c -> step c c' -> used j c'.
Proof using uuid_inj uuid_text.
  intros Hm Hr Hus Hst. destruct Hst as [i c c' Ha|ts s l t Hen]; destruct Hus as (Hj & Hf).
  - destruct (reach_act m c i c' Hm Hr Ha) as (l & Hi & (_ & Hu & _ & _) & _).
    split; [lia|]. destruct Ha as [ts s i l0 f t' s' Hti Hfs]; cbn in *. intros i' l'. rewrite list_fmap_insert.
    rewrite list_lookup_fmap, Hti in Hi. injection Hi as ->.
    destruct (decide (i' = i)) as [->|]; [|rewrite list_lookup_insert_ne by done; apply Hf].
    rewrite list_lookup_insert_eq by (rewrite length_fmap; by eapply lookup_lt_Some). intros [= <-]; cbn.
    intros [[Hfr|Hd] _]; [|unfold drawn in Hd; lia]. apply (Hf i l); [by rewrite list_lookup_fmap, Hti|done].
  - split; [done|]; cbn in *. intros i l'. rewrite fmap_app.
    intros [H|[_ H]]%lookup_app_Some; [by eapply Hf|]. apply list_lookup_singleton_Some in H as [_ <-].
    destruct Hen; intros [].
Qed.

(** A used token does not come back to a run that lost it. *)
Lemma used_lost_step m j id c c' :
  well_started m -> rtc step ([], m) c -> used j c -> step c c' ->
  token_at c.2 id <> Some (uuid j) -> token_at c'.2 id <> Some (uuid j).
Proof using uuid_inj uuid_text.
  intros Hm Hr [_ Hf] Hst Htok. destruct Hst as [i c c' Ha|ts s l t Hen]; [|done].
  destruct (reach_act m c i c' Hm Hr Ha) as (l & Hi & (_ & _ & _ & Hch) & _). specialize (Hch id).
  unfold token_at in *. intros Htk.
  destruct (leases (rows c'.2) id) as [[[o t] e]|] eqn:El; [subst t|done].
  destruct (leases (rows c.2) id) as [[[o0 t0] e0]|] eqn:El0; inversion Hch; subst; try done.
  match goal with E : uuid _ = uuid _ |- _ => apply uuid_inj in E; subst end. by apply (Hf i l Hi).
Qed.

Lemma used_steps m j id c c' :
  well_started m -> rtc step ([], m) c -> used j c -> rtc step c c' ->
  used j c' /\ (token_at c.2 id <> Some (uuid j) -> token_at c'.2 id <> Some (uuid j)).
Proof using uuid_inj uuid_text.
  intros Hm Hr Hus Hcc. induction Hcc as [|c1 c2 c3 H12 H23 IH]; [done|].
  destruct IH as [Hu Ht]; [by eapply rtc_r | by eapply used_step|]. split; [done|].
  intros H. apply Ht. by eapply used_lost_step.
Qed.

Lemma refresh_lost run_id owner k expires s :
  settled s -> strip k = k -> token_at s (strip run_id) <> Some k ->
  fst (on_store (refresh_agent_run_lease clock run_id owner k expires None ["running"]) s) = Ok false.
Proof.
  intros [Hd _] Hk Htok. unfold refresh_agent_run_lease. destruct (_ || _ || _ || _); [done|].
  unfold on_store, bind. cbn -[isoformat String.leb lease_live holds_lease str_in map_run set_fields].
  unfold token_at, leases in Htok.
  destruct (d_get (strip run_id) (t_runs (rows s))) as [r|]; cbn -[isoformat holds_lease lease_live str_in map_run] in *; [|done].
  destruct (holds_lease (strip owner) (strip k) r) eqn:Hh; [|done].
  apply holds_lease_spec in Hh as [_ Ht]. by rewrite Hk in Ht.
Qed.

(** Fencing: once a run whose lease carried a token no longer carries it,
    the token never comes back, in any interleaving; from then on every renewal
    with that token is refused, so the worker that held it stops at its next
    checkpoint instead of writing beside the new holder. *)
Theorem lost_lease_never_regained m c1 c2 c3 id k owner expires :
  well_started m -> rtc step ([], m) c1 -> rtc step c1 c2 -> rtc step c2 c3 ->
  token_at c1.2 (strip id) = Some k -> token_at c2.2 (strip id) <> Some k ->
  token_at c3.2 (strip id) <> Some k
  /\ fst (on_store (refresh_agent_run_lease clock id owner k expires None ["running"]) c3.2) = Ok false.
Proof using uuid_inj uuid_text.
  intros Hm H1 H12 H23 Ht1 Ht2.
  pose proof (sound_reach m c1 Hm H1) as (_ & [_ _ Hf1 Htk1] & _).
  assert (exists o e, leases (rows c1.2) (strip id) = Some (o, Some k, e)) as (o & e & Hl1).
  { unfold token_at in Ht1. destruct (leases _ _) as [[[o t] e]|]; [subst; eauto | done]. }
  destruct (Htk1 _ _ _ _ Hl1) as (j & Hj & ->).
  assert (used j c1) as Hu1.
  { split; [done|]. intros i l Hi Hfr. apply (Hf1 _ _ _ Hi Hfr). by exists (strip id), o, e. }
  destruct (used_steps m j (strip id) c1 c2 Hm H1 Hu1 H12) as [Hu2 _].
  assert (rtc step ([], m) c2) as H2 by (by etrans).
  destruct (used_steps m j (strip id) c2 c3 Hm H2 Hu2 H23) as [_ Ht3].
  split; [by apply Ht3|]. apply refresh_lost; [|done|by apply Ht3].
  by destruct (sound_reach m c3 Hm) as [? _]; [etrans|].
Qed.
End system.

End RunLeaseFacts.
