(* ===== verification/RunRaces.v ===== *)
(** Schedules of the agent run manager on a concrete system: executions that
    show the hypotheses of the lease theorems and of the races of
    [RunProgress]. *)

From stdpp Require Import prelude strings list.
From Stdlib Require Import Lia ZArith Ascii.
From S2P Require Import Prelude PyStr PyVal PyFloat PyFloatOps Effects PyTime IsoOrder Threads RunPolicy RunStore RunValues RunManager RunLeases RunLeaseFacts.
Import RunPolicy RunStore RunValues RunManager RunLeases RunLeaseFacts.

Module RunRaces.

(** ** Schedules *)

(** Let the threads with the given numbers act, one action each. *)
Fixpoint drive {S L} (upd : S -> S -> L -> L) (ix : list nat) (c : list (L * thread S unit) * S) :
    list (L * thread S unit) * S :=
  match ix with
  | [] => c
  | i :: ix' =>
      drive upd ix'
        (match c.1 !! i with
         | Some (l, Step f) => match f c.2 with (t', s') => (<[i := (upd c.2 s' l, t')]> c.1, s') end
         | _ => c
         end)
  end.

Definition some_acts {S L} (upd : S -> S -> L -> L) (c c' : list (L * thread S unit) * S) : Prop :=
  exists i, acts upd i c c'.

Lemma drive_acts {S L} (upd : S -> S -> L -> L) ix c : rtc (some_acts upd) c (drive upd ix c).
Proof.
  revert c. induction ix as [|i ix IH]; intros [ts s]; cbn; [apply rtc_refl|].
  destruct (ts !! i) as [[l [a|e|f]]|] eqn:E; try apply IH.
  destruct (f s) as [t' s'] eqn:Ef. eapply rtc_l; [|apply IH]. exists i. by econstructor.
Qed.

Lemma acts_sched {S L} (upd : S -> S -> L -> L) enters c c' : rtc (some_acts upd) c c' -> rtc (sched upd enters) c c'.
Proof. induction 1 as [|c1 c2 c3 [i H]]; [apply rtc_refl|]. eapply rtc_l; [by eapply sched_act | done]. Qed.

Lemma drive_sched {S L} (upd : S -> S -> L -> L) enters ix c : rtc (sched upd enters) c (drive upd ix c).
Proof. apply acts_sched, drive_acts. Qed.

Definition runnable {S L} (i : nat) (c : list (L * thread S unit) * S) : bool :=
  match c.1 !! i with Some (_, Step _) => true | _ => false end.

Lemma drive_one {S L} (upd : S -> S -> L -> L) i c : runnable i c = true -> acts upd i c (drive upd [i] c).
Proof.
  destruct c as [ts s]. unfold runnable. cbn. destruct (ts !! i) as [[l [a|e|f]]|] eqn:E; [done..| |done]. intros _.
  destruct (f s) as [t' s'] eqn:Ef. by econstructor.
Qed.

(** The pool after starting threads without letting them act. *)
Lemma starts_sched {S L} (upd : S -> S -> L -> L) (enters : S -> L -> thread S unit -> Prop) ts0 ts s :
  Forall (fun lt => enters s lt.1 lt.2) ts -> rtc (sched upd enters) (ts0, s) (ts0 ++ ts, s).
Proof.
  revert ts0. induction ts as [|[l t] ts IH]; intros ts0 H; [rewrite app_nil_r; apply rtc_refl|].
  apply Forall_cons in H as [H1 H2]. eapply rtc_l; [by apply sched_start|].
  specialize (IH (ts0 ++ [(l, t)]) H2). by rewrite <- app_assoc in IH.
Qed.

(** The actions of a thread by itself; they lift to the code around it and to
    the pool it runs in. *)
Definition tstep {S A} (c c' : thread S A * S) : Prop := exists f, c.1 = Step f /\ f c.2 = c'.

Lemma steps_run {S A} (t : thread S A) s : rtc tstep (t, s) (t_lift (run t s).1, (run t s).2).
Proof.
  revert s. induction t as [a|e|f IH] using thread_rect'; intros s; [apply rtc_refl..|].
  eapply rtc_l; [by exists f|]. cbn. specialize (IH s). destruct (f s) as [t' s']. apply IH.
Qed.

Lemma steps_bind {S A B} (t t' : thread S A) (k : A -> thread S B) s s' :
  rtc tstep (t, s) (t', s') -> rtc tstep (t_bind t k, s) (t_bind t' k, s').
Proof.
  intros H. remember (t, s) as c. remember (t', s') as c'. revert t s Heqc.
  induction H as [c|c [t1 s1] c' (f & E & Ef) _ IH]; intros t s ->; [injection Heqc' as -> ->; apply rtc_refl|].
  cbn in E, Ef. subst t. eapply rtc_l; [|by apply IH]. eexists. split; [done|]. cbn. by rewrite Ef.
Qed.

Lemma steps_try {S A B} (t t' : thread S A) (h : exn -> thread S B) (k : A -> thread S B) s s' :
  rtc tstep (t, s) (t', s') -> rtc tstep (t_try t h k, s) (t_try t' h k, s').
Proof.
  intros H. remember (t, s) as c. remember (t', s') as c'. revert t s Heqc.
  induction H as [c|c [t1 s1] c' (f & E & Ef) _ IH]; intros t s ->; [injection Heqc' as -> ->; apply rtc_refl|].
  cbn in E, Ef. subst t. eapply rtc_l; [|by apply IH]. eexists. split; [done|]. cbn. by rewrite Ef.
Qed.

Lemma steps_acts {S L} (upd : S -> S -> L -> L) i ts l t t' s s' :
  ts !! i = Some (l, t) -> rtc tstep (t, s) (t', s') ->
  exists l', rtc (acts upd i) (ts, s) (<[i := (l', t')]> ts, s').
Proof.
  intros Hi H. remember (t, s) as c. remember (t', s') as c'. revert ts l t s Hi Heqc.
  induction H as [c|c [t1 s1] c' (f & E & Ef) _ IH]; intros ts l t s Hi ->.
  - injection Heqc' as -> ->. exists l. rewrite list_insert_id by done. apply rtc_refl.
  - cbn in E, Ef. subst t. destruct (IH Heqc' (<[i := (upd s s1 l, t1)]> ts) (upd s s1 l) t1 s1) as [l' Hr]; [|done|].
    { apply list_lookup_insert_eq. by eapply lookup_lt_Some. }
    exists l'. rewrite list_insert_insert_eq in Hr. eapply rtc_l; [by econstructor|done].
Qed.

(** [n] actions of thread [i]. *)
Definition times (n i : nat) : list nat := repeat i n.

(** ** A concrete system: one agent, one queued run, two attempts *)

(** One reading per millisecond from 2026-01-01, for a quarter of an hour. *)
Definition demo_clock (n : nat) : Z := 1767225600000000 + Z.min (Z.of_nat n) 900000 * 1000.
Fixpoint demo_uuid (n : nat) : string := match n with O => "u" | S n' => String "1" (demo_uuid n') end.
Definition demo_monotonic (n : nat) : fvalue := FFinite (Z.of_nat n) 0.
Definition demo_uniform (n : nat) (x : fvalue) : fvalue := fzero.
Definition demo_cfg : settings :=
  init_settings true 2 (FFinite 180 0) fzero fzero fzero 24000 (FFinite 300 0) 8 3 None false "m".

Definition demo_agent : agent_row := AgentRow "a1" (Some "alice") [].
Definition demo_run : run_row :=
  RunRow "r1" "a1" "alice" None "hello" "queued" 0 2 0 None None None None None PNone None [] [] [] "" "" None None.
Definition demo_tables : tables := Tables [("a1", demo_agent)] [("r1", demo_run)] [] [] [].
Definition demo_manager : manager :=
  Manager (Store demo_tables demo_tables 0 false 0) [Some "r1"] true false [] [] 0 0 0 [].

(** An executor that reports one step and returns; one that times out. *)
Definition demo_execute (_ : exec_call) : script :=
  Reports [("stage", PStr "step_completed"); ("step", PStr "prepare_context")] (fun r =>
    match r with Ok _ => Returns [("response", PStr "done")] | Err e => Raises e end).
Definition slow_execute (_ : exec_call) : script := Raises (TaskError TaskTimeoutError "too slow").

Lemma demo_uuid_length n : String.length (demo_uuid n) = S n.
Proof. induction n as [|n IH]; [done|]. cbn. by rewrite IH. Qed.

Lemma demo_uuid_inj i j : demo_uuid i = demo_uuid j -> i = j.
Proof. intros H%(f_equal String.length). rewrite !demo_uuid_length in H. lia. Qed.

Lemma run_clock_mono n : demo_clock n <= demo_clock (S n).
Proof. unfold demo_clock. lia. Qed.

Lemma demo_uuid_text n : strip (demo_uuid n) = demo_uuid n.
Proof. apply stripped_no_space. induction n; done. Qed.

Lemma demo_started : well_started demo_uuid demo_manager.
Proof.
  split; [by split|]. intros id o k e. unfold leases. cbn.
  destruct (String.eqb id "r1"); cbn; [|done]. by intros [= _ ? _].
Qed.

Definition demo_worker (ex : exec_call -> script) : label * thread manager unit :=
  (start_label False, worker_iteration demo_clock demo_monotonic demo_uuid demo_uniform ex demo_cfg).
Definition demo_kill : label * thread manager unit :=
  (start_label False, ignore (kill_switch_runs demo_clock demo_cfg
     (KillArgs (Some "alice") "stop" true true 100 None None None))).
Definition demo_resume : label * thread manager unit :=
  (start_label False, ignore (resume_run demo_clock demo_cfg "r1")).

Abbreviation demo_step ex :=
  (sched (upd demo_uuid) (enters demo_clock demo_monotonic demo_uuid demo_uniform ex demo_cfg)).
Abbreviation demo_drive := (drive (upd demo_uuid)).

Lemma demo_reach ex ts ix :
  Forall (fun lt => enters demo_clock demo_monotonic demo_uuid demo_uniform ex demo_cfg demo_manager lt.1 lt.2) ts ->
  rtc (demo_step ex) ([], demo_manager) (demo_drive ix (ts, demo_manager)).
Proof.
  intros H. etrans; [exact (starts_sched _ _ [] ts _ H)|]. apply drive_sched.
Qed.

(** Two workers and, for the first race, a kill switch and a resume. *)
Definition race_threads : list (label * thread manager unit) :=
  [demo_worker demo_execute; demo_kill; demo_resume; demo_worker demo_execute].
Definition retry_threads : list (label * thread manager unit) := [demo_worker slow_execute; demo_worker slow_execute].

Lemma race_enters :
  Forall (fun lt => enters demo_clock demo_monotonic demo_uuid demo_uniform demo_execute demo_cfg demo_manager lt.1 lt.2)
    race_threads.
Proof. repeat constructor. Qed.

Lemma retry_enters :
  Forall (fun lt => enters demo_clock demo_monotonic demo_uuid demo_uniform slow_execute demo_cfg demo_manager lt.1 lt.2)
    retry_threads.
Proof. repeat constructor. Qed.

(** ** Two races

    The whole turns of the threads, from the start; [RunProgress] has the
    general statements. *)

(** The first worker is stopped when its executor has returned, the run is
    killed, resumed and finished by the second worker; then the first worker
    goes on. *)
Definition overtaken : list (label * thread manager unit) * manager :=
  demo_drive (times 31 0 ++ times 10 1 ++ times 10 2 ++ times 50 3) (race_threads, demo_manager).

Lemma overtaken_reached : rtc (demo_step demo_execute) ([], demo_manager) overtaken.
Proof. apply demo_reach, race_enters. Qed.

Example overtaken_goes_on :
  status_at (rows overtaken.2) "r1" = Some "succeeded" /\ m_queue overtaken.2 = []
  /\ status_at (rows (demo_drive (times 50 0) overtaken).2) "r1" = Some "queued"
  /\ m_queue (demo_drive (times 50 0) overtaken).2 = [Some "r1"].
Proof. split_and!; vm_compute; reflexivity. Qed.

(** The first worker is stopped when its executor has failed. *)
Definition timed_out : list (label * thread manager unit) * manager := demo_drive (times 23 0) (retry_threads, demo_manager).

Lemma timed_out_reached : rtc (demo_step slow_execute) ([], demo_manager) timed_out.
Proof. apply demo_reach, retry_enters. Qed.

Example timed_out_goes_on :
  let c := demo_drive (times 6 0 ++ times 50 1 ++ times 10 0) timed_out in
  forallb (fun lt => match lt.2 with Done _ => true | _ => false end) c.1 = true
  /\ status_at (rows c.2) "r1" = Some "queued" /\ m_queue c.2 = [].
Proof. split_and!; vm_compute; reflexivity. Qed.

(** ** Witnesses of the lease theorems *)

Definition held : list (label * thread manager unit) * manager := demo_drive (times 6 0) (race_threads, demo_manager).

Lemma demo_range n : dt_in_range (demo_clock n).
Proof.
  unfold dt_in_range, dt_day. replace (demo_clock n / us_per_day) with 20454; [by vm_compute|].
  apply Z.div_unique with (demo_clock n - 20454 * us_per_day); [|lia].
  unfold demo_clock, us_per_day, us_per_hour, us_per_min, us_per_sec. lia.
Qed.

Lemma live_lease_kept_witness :
  (exists e', leases (rows (demo_drive [3%nat] held).2) "r1" = Some (Some "run-manager-m", Some "u", e'))
  \/ (leases (rows (demo_drive [3%nat] held).2) "r1" = Some no_lease
      /\ (status_at (rows (demo_drive [3%nat] held).2) "r1" = Some "canceled"
          \/ exists l, held.1.*1 !! 3%nat = Some l /\ (recovers l \/ exists j, own l j /\ "u" = demo_uuid j))).
Proof.
  apply (live_lease_kept demo_clock demo_monotonic demo_uuid demo_uniform demo_execute demo_cfg demo_uuid_inj
           demo_uuid_text run_clock_mono demo_range demo_manager held 3 _ "r1" (Some "run-manager-m") "u"
           (1767225600000000 + 365000000)).
  - exact demo_started.
  - apply demo_reach, race_enters.
  - apply drive_one. vm_compute. reflexivity.
  - vm_compute. reflexivity.
  - vm_compute. split; discriminate.
  - vm_compute. reflexivity.
Defined.

Lemma lost_lease_never_regained_witness :
  token_at (demo_drive (times 50 3) (demo_drive (times 10 1 ++ times 10 2) held)).2 "r1" <> Some "u"
  /\ fst (on_store (refresh_agent_run_lease demo_clock "r1" "run-manager-m" "u" "x" None ["running"])
            (demo_drive (times 50 3) (demo_drive (times 10 1 ++ times 10 2) held)).2) = Ok false.
Proof.
  apply (lost_lease_never_regained demo_clock demo_monotonic demo_uuid demo_uniform demo_execute demo_cfg demo_uuid_inj
           demo_uuid_text demo_manager held (demo_drive (times 10 1 ++ times 10 2) held)
           (demo_drive (times 50 3) (demo_drive (times 10 1 ++ times 10 2) held)) "r1" "u" "run-manager-m" "x").
  - exact demo_started.
  - apply demo_reach, race_enters.
  - apply drive_sched.
  - apply drive_sched.
  - vm_compute. reflexivity.
  - vm_compute. discriminate.
Defined.
End RunRaces.
