(* ===== verification/RunProgress.v ===== *)
(** Progress of agent runs: one worker that takes its turns alone brings every
    run of the queue to its end, whatever the executor does.  Two races of
    workers that act together are at the end.

    Run alone, a method never meets another thread; what matters of a row is
    its lease, status, attempts and limit, its [core]. *)

From stdpp Require Import prelude strings list.
From Stdlib Require Import Lia ZArith Ascii.
From S2P Require Import Prelude PyStr PyVal PyFloat PyFloatOps Effects PyTime Threads RunPolicy RunStore RunValues RunManager RunLeases RunLeaseFacts RunRaces.
Import RunPolicy RunStore RunValues RunManager RunLeases RunLeaseFacts RunRaces.

Module RunProgress.

Record core : Type := Core { co_lease : lease; co_status : string; co_attempts : Z; co_max : Z }.

Definition core_of (r : run_row) : core := Core (lease_of r) (r_status r) (r_attempts r) (r_max_attempts r).
Definition core_at (t : tables) (id : string) : option core := core_of <$> d_get id (t_runs t).

(** Predicates of the rows that only look at cores. *)
Definition core_closed (C : tables -> Prop) : Prop :=
  forall t t', (forall id, core_at t' id = core_at t id) -> C t -> C t'.

Lemma core_map_run run_id f t id :
  core_at (map_run run_id f t) id =
    if String.eqb run_id id then (fun r => core_of (f r)) <$> d_get id (t_runs t) else core_at t id.
Proof.
  unfold map_run, core_at. destruct (String.eqb_spec run_id id) as [->|Hne].
  - destruct (d_get id (t_runs t)) eqn:E; cbn; [by rewrite d_get_set_eq | by rewrite E].
  - destruct (d_get run_id (t_runs t)); cbn; [by rewrite d_get_set_ne | done].
Qed.

(** Updates that do not touch the core. *)
Definition core_field (f : run_field) : bool :=
  match f with
  | FStatus _ | FAttempts _ | FMaxAttempts _ | FLeaseOwner _ | FLeaseToken _ | FLeaseExpiresAt _ => true
  | _ => false
  end.

Lemma set_fields_core fs r : forallb (fun f => negb (core_field f)) fs = true -> core_of (set_fields fs r) = core_of r.
Proof.
  unfold set_fields. revert r. induction fs as [|f fs IH]; intros r; [done|]. cbn. intros [H1 H2]%andb_true_iff.
  rewrite IH by done. destruct r, f; done.
Qed.

Lemma map_run_core run_id f t :
  (forall r, core_of (f r) = core_of r) -> forall id, core_at (map_run run_id f t) id = core_at t id.
Proof.
  intros H id. rewrite core_map_run. unfold core_at. destruct (String.eqb run_id id); [|done].
  destruct (d_get id (t_runs t)); cbn; [by rewrite H | done].
Qed.

(** ** Triples over rows and queue *)

Definition at_ (C : tables -> Prop) (q : list (option string)) (m : manager) : Prop :=
  C (rows m) /\ m_queue m = q /\ m_stop m = false.

(** [op] leads from rows in [C] to rows in [D] and does not raise. *)
Definition does {A} (C : tables -> Prop) (op : M manager A) (D : tables -> Prop) : Prop :=
  forall q, triple (at_ C q) op (fun _ => at_ D q) (fun _ _ => False).

(** [t], run alone, keeps [C], whether it returns or raises. *)
Definition stays {A} (C : tables -> Prop) (t : thread manager A) : Prop :=
  forall q, preserves (at_ C q) (run t).

Lemma does_bind {A B} C D E (op : M manager A) (f : A -> M manager B) :
  does C op D -> (forall a, does D (f a) E) -> does C (bind op f) E.
Proof. intros H Hf q. eapply triple_bind; [apply H | intros; apply Hf]. Qed.
Lemma does_ret {A} C (a : A) : does C (ret a) C.
Proof. by intros q s Hs. Qed.
Lemma does_gets {A} C (f : manager -> A) : does C (gets f) C.
Proof. by intros q s Hs. Qed.
Lemma does_when C b op : does C op C -> does C (when b op) C.
Proof. intros H. destruct b; [done | apply does_ret]. Qed.
Lemma does_for_each {A} C (l : list A) f : (forall x, does C (f x) C) -> does C (for_each l f) C.
Proof. intros H. induction l; cbn; [apply does_ret|]. eapply does_bind; [apply H | by intros _]. Qed.

(** A transaction whose body does not raise is its body. *)
Lemma does_transaction {A} C D (op : M manager A) : does C op D -> does C (transaction op) D.
Proof.
  intros H q m (HC & Hq & Hs). unfold transaction, write_transaction.
  specialize (H q (set_store (tx_enter (m_store m)) m) (conj HC (conj Hq Hs))).
  destruct (op _) as [[a|e] m']; [|done]. destruct H as (HD & Hq' & Hs').
  split_and!; [|done..]. unfold tx_return. cbn. by destruct (_ && _).
Qed.

Section store_ops.
Context (clock : nat -> Z).

(** Operations of the database, by what they do to the rows. *)
Definition sdoes {A} (C : tables -> Prop) (op : M store A) (D : tables -> Prop) : Prop :=
  triple (fun s => C (s_cur s)) op (fun _ s => D (s_cur s)) (fun _ _ => False).

Lemma does_store {A} C D (op : M store A) : sdoes C op D -> does C (on_store op) D.
Proof.
  intros H q m (HC & Hq & Hs). specialize (H (m_store m) HC). unfold on_store.
  destruct (op (m_store m)) as [[a|e] st]; [|done]. by split_and!.
Qed.

Lemma sdoes_bind {A B} C D E (op : M store A) (f : A -> M store B) :
  sdoes C op D -> (forall a, sdoes D (f a) E) -> sdoes C (bind op f) E.
Proof. intros H Hf. eapply triple_bind; [apply H | intros; apply Hf]. Qed.
Lemma sdoes_ret {A} C (a : A) : sdoes C (ret a) C.
Proof. by intros s Hs. Qed.
Lemma sdoes_gets {A} C (f : store -> A) : sdoes C (gets f) C.
Proof. by intros s Hs. Qed.
Lemma sdoes_commit C : sdoes C commit_locked C.
Proof. intros s Hs. unfold commit_locked, modify. by destruct (_ <? _)%nat. Qed.
Lemma sdoes_now C : sdoes C (now clock) C.
Proof. by intros s Hs. Qed.
Lemma sdoes_utc_now C : sdoes C (RunStore.utc_now clock) C.
Proof. eapply sdoes_bind; [apply sdoes_now | intros; apply sdoes_ret]. Qed.
Lemma sdoes_update C D f : (forall t, C t -> D (f t)) -> sdoes C (update_tables f) D.
Proof. intros H s Hs. by apply H. Qed.

Lemma sdoes_update_fields C D run_id fs :
  (forall t now, C t -> D (map_run run_id (set_fields (if existsb is_updated_at fs then fs else fs ++ [FUpdatedAt now])) t)) ->
  (fs = [] -> forall t, C t -> D t) -> sdoes C (update_agent_run_fields clock run_id fs) D.
Proof.
  intros H Hnil. unfold update_agent_run_fields. destruct fs as [|f fs']; [intros s Hs; by apply Hnil|].
  set (fs := f :: fs') in *. destruct (existsb is_updated_at fs) eqn:E.
  - change (sdoes C (update_tables (map_run run_id (set_fields fs)) ;;; commit_locked) D).
    eapply sdoes_bind; [apply sdoes_update; intros t; by apply (H t "")|intros _; apply sdoes_commit].
  - change (sdoes C (let* now := RunStore.utc_now clock in
      update_tables (map_run run_id (set_fields (fs ++ [FUpdatedAt now]))) ;;; commit_locked) D).
    eapply sdoes_bind; [apply sdoes_utc_now|intros now].
    eapply sdoes_bind; [apply sdoes_update; intros t; by apply H|intros _; apply sdoes_commit].
Qed.

(** A predicate that implies that the run exists. *)
Definition has_run (run_id : string) (C : tables -> Prop) : Prop := forall t, C t -> d_mem run_id (t_runs t) = true.

Lemma sdoes_upsert_issue C run_id u ts :
  core_closed C -> has_run run_id C -> sdoes C (upsert_agent_run_issue_no_commit run_id u ts) C.
Proof.
  intros HC Hr s Hs. unfold upsert_agent_run_issue_no_commit, bind, raise_if. cbn. rewrite (Hr _ Hs). cbn. by apply (HC (s_cur s)).
Qed.

Lemma sdoes_append C run_id cp :
  core_closed C -> sdoes C (append_agent_run_checkpoint clock run_id cp None None None) C.
Proof.
  intros HC. unfold append_agent_run_checkpoint. eapply sdoes_bind; [apply sdoes_utc_now|intros now].
  eapply sdoes_bind; [apply sdoes_gets|intros [r|]]; [|apply sdoes_ret].
  eapply sdoes_bind; [|intros _; repeat (eapply sdoes_bind; [apply sdoes_ret|intros _]); apply sdoes_commit].
  apply sdoes_update. intros t. apply HC. apply map_run_core. intros r'. by apply set_fields_core.
Qed.

(** Methods that only touch checkpoints and issues. *)
Lemma does_append C run_id cp : core_closed C -> does C (append_checkpoint clock run_id cp) C.
Proof. intros. by apply does_store, sdoes_append. Qed.
Lemma does_utc_now C : does C (utc_now clock) C.
Proof. apply does_store, sdoes_utc_now. Qed.
Lemma does_list_issues C id limit : does C (on_store (list_agent_run_issues id limit)) C.
Proof. apply does_store. unfold list_agent_run_issues. destruct (_ <=? _); [apply sdoes_ret | apply sdoes_gets]. Qed.
Lemma does_upsert_issue C run_id u : core_closed C -> has_run run_id C -> does C (upsert_issue clock run_id u) C.
Proof.
  intros. apply does_store. unfold upsert_agent_run_issue. eapply sdoes_bind; [apply sdoes_utc_now|intros now].
  eapply sdoes_bind; [by apply sdoes_upsert_issue|intros _; apply sdoes_commit].
Qed.
Lemma does_ensure_core C run_id : core_closed C -> has_run run_id C -> does C (ensure_core_issue_records clock run_id) C.
Proof.
  intros. apply does_transaction, does_for_each. intros [[[issue_id title] order] deps]. by apply does_upsert_issue.
Qed.
Lemma does_finalize C run_id target attempt msg :
  core_closed C -> has_run run_id C -> does C (finalize_open_issues clock run_id target attempt msg) C.
Proof.
  intros HC Hr. unfold finalize_open_issues. eapply does_bind; [apply does_list_issues|intros items].
  eapply does_bind; [|intros items'].
  { destruct items; [|apply does_ret]. eapply does_bind; [by apply does_ensure_core|intros _; apply does_list_issues]. }
  eapply does_bind; [apply does_utc_now|intros now]. apply does_transaction, does_for_each. intros x.
  repeat match goal with |- does _ (if ?b then _ else _) _ => destruct b; [apply does_ret|] end.
  by apply does_upsert_issue.
Qed.
Lemma does_mark_failed C run_id attempt msg :
  core_closed C -> has_run run_id C -> does C (mark_issue_failed_from_error clock run_id attempt msg) C.
Proof.
  intros HC Hr. unfold mark_issue_failed_from_error. eapply does_bind; [apply does_list_issues|intros items].
  eapply does_bind; [|intros [t|]]; [| |apply does_ret].
  - destruct (failed_target items); [apply does_ret|].
    eapply does_bind; [by apply does_ensure_core|intros _; apply does_store, sdoes_gets].
  - eapply does_bind; [apply does_utc_now|intros now]. by apply does_upsert_issue.
Qed.
Lemma does_emit C cfg e p : does C (emit cfg e p) C.
Proof. apply does_when. by intros q m Hm. Qed.
End store_ops.

(** ** Threads that keep the rows in [C] *)

Section stays.
Context (clock : nat -> Z) (monotonic : nat -> fvalue) (uniform : nat -> fvalue -> fvalue).
Context (execute : exec_call -> script) (cfg : settings).

Lemma stays_done {A} C (a : A) : stays C (Done a).
Proof. by intros q m Hm. Qed.
Lemma stays_failed {A} C e : stays C (@Failed manager A e).
Proof. by intros q m Hm. Qed.
Lemma stays_bind {A B} C (t : thread manager A) (k : A -> thread manager B) :
  stays C t -> (forall a, stays C (k a)) -> stays C (t_bind t k).
Proof.
  intros Ht Hk q m Hm. rewrite run_bind. apply (preserves_bind _ _ _ (Ht q) (fun a => Hk a q) m Hm).
Qed.
Lemma stays_try {A B} C (t : thread manager A) (h : exn -> thread manager B) (k : A -> thread manager B) :
  stays C t -> (forall e, stays C (h e)) -> (forall a, stays C (k a)) -> stays C (t_try t h k).
Proof.
  intros Ht Hh Hk q m Hm. rewrite run_try. specialize (Ht q m Hm). destruct (run t m) as [[a|e] m']; [by apply Hk | by apply Hh].
Qed.
Lemma stays_finally {A} C (t : thread manager A) c : stays C t -> stays C c -> stays C (t_finally t c).
Proof.
  intros Ht Hc. apply stays_try; [done|intros e..]; (apply stays_bind; [done|intros _]); [apply stays_failed|apply stays_done].
Qed.
Lemma stays_atomic {A} C (op : M manager A) : (forall q, preserves (at_ C q) op) -> stays C (atomic op).
Proof. intros H q m Hm. rewrite run_atomic. by apply H. Qed.
Lemma stays_play C sc cp : (forall p, stays C (cp p)) -> stays C (play sc cp).
Proof.
  intros H. induction sc as [r|e|p k IH]; cbn; [apply stays_done|apply stays_failed|].
  apply stays_try; [apply H | intros; apply IH..].
Qed.

(** What does not raise and stays in [C] in particular stays. *)
Lemma stays_does {A} C (op : M manager A) : does C op C -> stays C (atomic op).
Proof.
  intros H. apply stays_atomic. intros q m Hm. specialize (H q m Hm). by destruct (op m) as [[] ?].
Qed.

Lemma stays_store {A} C (op : M store A) : preserves (fun s => C (s_cur s)) op -> stays C (db op).
Proof.
  intros H. apply stays_atomic. intros q m (HC & Hq & Hs). specialize (H (m_store m) HC). unfold on_store.
  by destruct (op (m_store m)) as [[] ?].
Qed.

(** Satellite rows: these may raise (a missing parent row), and keep the
    runs. *)
Abbreviation kp C op := (preserves (fun s => C (s_cur s)) op).

Lemma kp_update C f :
  core_closed C -> (forall t id, core_at (f t) id = core_at t id) -> kp C (update_tables f).
Proof. intros HC Hf s Hs. cbn. by apply (HC (s_cur s)). Qed.
Lemma kp_commit C : kp C commit_locked.
Proof. intros s Hs. unfold commit_locked, modify. by destruct (_ <? _)%nat. Qed.
Lemma kp_utc_now C : kp C (RunStore.utc_now clock).
Proof. by intros s Hs. Qed.

Lemma kp_upsert_issue C run_id u ts : core_closed C -> kp C (upsert_agent_run_issue_no_commit run_id u ts).
Proof.
  intros HC. apply preserves_bind; [apply preserves_gets|intros t].
  apply preserves_bind; [apply preserves_raise_if|intros _]. by apply kp_update.
Qed.
Lemma kp_upsert_artifact C run_id u ts : core_closed C -> kp C (upsert_agent_run_issue_artifact_no_commit run_id u ts).
Proof.
  intros HC. apply preserves_bind; [apply preserves_gets|intros t].
  apply preserves_bind; [apply preserves_raise_if|intros _]. by apply kp_update.
Qed.
Lemma kp_upsert_call C run_id u ts : core_closed C -> kp C (upsert_agent_run_tool_call_no_commit run_id u ts).
Proof.
  intros HC. unfold upsert_agent_run_tool_call_no_commit. destruct (is_empty _); [apply preserves_ret|].
  apply preserves_bind; [apply preserves_gets|intros t]. cbv zeta.
  match goal with |- preserves _ (if ?b then _ else _) => destruct b end; [apply preserves_ret|].
  apply preserves_bind; [apply preserves_raise_if|intros _]. by apply kp_update.
Qed.

Lemma kp_append C run_id cp iu ia tc : core_closed C -> kp C (append_agent_run_checkpoint clock run_id cp iu ia tc).
Proof.
  intros HC. unfold append_agent_run_checkpoint. apply preserves_bind; [apply kp_utc_now|intros now].
  apply preserves_bind; [apply preserves_gets|intros [r|]]; [|apply preserves_ret].
  apply preserves_bind; [apply kp_update; [done|]; intros t id; apply map_run_core; intros r'; by apply set_fields_core|intros _].
  apply preserves_bind; [destruct iu; [by apply kp_upsert_issue | apply preserves_ret]|intros _].
  apply preserves_bind; [destruct ia; [by apply kp_upsert_artifact | apply preserves_ret]|intros _].
  apply preserves_bind; [destruct tc; [by apply kp_upsert_call | apply preserves_ret]|intros _].
  apply kp_commit.
Qed.

(** Reports of the executor. *)
Lemma stays_push C run_id attempt b u payload :
  core_closed C -> stays C (push_checkpoint clock run_id attempt b u payload).
Proof.
  intros HC. unfold push_checkpoint. cbv zeta.
  apply stays_bind; [apply stays_atomic; by intros q m Hm|intros _].
  apply stays_bind; [apply stays_does, does_gets|intros usage].
  destruct (validate_live_budget_usage b usage); [|apply stays_failed].
  apply stays_bind; [destruct (str_or_none _); [apply stays_done | apply stays_does, does_utc_now]|intros ts].
  apply stays_bind; [|intros iu; by apply stays_store, kp_append].
  destruct (issue_payload_of _ attempt); [|apply stays_done]. destruct (is_empty _); [apply stays_done|].
  apply stays_bind; [apply stays_store, preserves_gets|intros e; apply stays_done].
Qed.

Lemma stays_call_executor C fuel cp c : (forall p, stays C (cp p)) -> stays C (call_executor execute fuel cp c).
Proof.
  intros Hcp. revert c. induction fuel as [|fuel IH]; intros c; cbn;
    (apply stays_try; [by apply stays_play|intros e|intros a; apply stays_done]); destruct e; try apply stays_failed;
    destruct (_ =? _)%nat; try apply stays_failed.
  apply IH.
Qed.
End stays.

(** ** A run in the hands of a worker *)

(** The other rows are as in [t0], or canceled by a kill switch. *)
Definition others (t0 : tables) (id : string) (t : tables) : Prop := forall x, x <> id ->
  core_at t x = core_at t0 x
  \/ exists c, core_at t0 x = Some c /\ core_at t x = Some (Core no_lease "canceled" (co_attempts c) (co_max c)).

(** The run [id] has this lease owner and token, status, attempts and limit. *)
Definition proc (t0 : tables) (id owner k s : string) (a mx : Z) (t : tables) : Prop :=
  others t0 id t /\ exists e, core_at t id = Some (Core (Some owner, Some k, e) s a mx).

Lemma others_closed t0 id : core_closed (others t0 id).
Proof. intros t t' H Ho x Hx. rewrite H. by apply Ho. Qed.
Lemma proc_closed t0 id owner k s a mx : core_closed (proc t0 id owner k s a mx).
Proof. intros t t' H [Ho [e He]]. split; [by eapply others_closed|]. exists e. by rewrite H. Qed.

Lemma core_at_mem t id : is_Some (core_at t id) -> d_mem id (t_runs t) = true.
Proof. unfold core_at. intros [? [r [Hr _]]%fmap_Some]. by eapply d_get_Some_mem. Qed.
Lemma proc_has_run t0 id owner k s a mx : has_run id (proc t0 id owner k s a mx).
Proof. intros t [_ [e He]]. apply core_at_mem. eauto. Qed.

(** An update of the run itself. *)
Lemma proc_update t0 id owner k s a s' a' mx f t :
  (forall r e, core_of r = Core (Some owner, Some k, e) s a mx ->
     exists e', core_of (f r) = Core (Some owner, Some k, e') s' a' mx) ->
  proc t0 id owner k s a mx t -> proc t0 id owner k s' a' mx (map_run id f t).
Proof.
  intros Hf [Ho [e He]]. split.
  - intros x Hx. rewrite core_map_run. apply not_eq_sym, String.eqb_neq in Hx as Hx'. rewrite Hx'. by apply Ho.
  - rewrite core_map_run, String.eqb_refl. unfold core_at in He. apply fmap_Some in He as (r & Hr & He).
    rewrite Hr. cbn. destruct (Hf r e (eq_sym He)) as [e' ->]. by exists e'.
Qed.

Section work.
Context (clock : nat -> Z) (monotonic : nat -> fvalue) (uniform : nat -> fvalue -> fvalue).
Context (execute : exec_call -> script) (cfg : settings).
Context (t0 : tables) (id k : string) (mx : Z).
Context (id_text : strip id = id) (id_named : id <> "").
Abbreviation owner := (lease_owner cfg).
Abbreviation hand s a := (proc t0 id owner k s a mx).

Lemma does_fields s a s' a' fs :
  (forall r e at_, core_of r = Core (Some owner, Some k, e) s a mx ->
     core_of (set_fields (fs ++ [FUpdatedAt at_]) r) = Core (Some owner, Some k, e) s' a' mx) ->
  existsb is_updated_at fs = false -> fs <> [] ->
  does (hand s a) (update_fields clock id fs) (hand s' a').
Proof.
  intros Hfs Hn Hne. apply does_store, sdoes_update_fields; [|done]. intros t at_. rewrite Hn. apply proc_update.
  intros r e Hr. exists e. by apply Hfs.
Qed.

Lemma stays_refresh s a expires :
  stays (hand s a) (db (refresh_agent_run_lease clock id owner k expires None ["running"])).
Proof using id_text.
  apply stays_store. unfold refresh_agent_run_lease. destruct (_ || _ || _ || _); [apply preserves_ret|]. cbn [str_or_none opt_str is_empty].
  apply preserves_bind; [apply kp_utc_now|intros now]. apply preserves_bind; [apply kp_utc_now|intros upd_at].
  rewrite id_text. apply preserves_bind; [apply preserves_gets|intros [r|]];
    [|apply preserves_bind; [apply kp_commit|intros _; apply preserves_ret]].
  destruct (_ && _ && _); [|apply preserves_bind; [apply kp_commit|intros _; apply preserves_ret]].
  apply preserves_bind; [|intros _; apply preserves_bind; [apply kp_commit|intros _; apply preserves_ret]].
  intros st Hst. cbn -[map_run set_fields]. eapply proc_update; [|exact Hst]. intros r' e Hr. exists (Some expires).
  destruct r'; cbn in *. by injection Hr as -> -> -> -> -> ->.
Qed.

Lemma stays_expiry C : stays C (atomic (run_lease_expiry_iso clock cfg)).
Proof.
  apply stays_atomic. intros q. unfold run_lease_expiry_iso. apply preserves_bind; [by intros m Hm|intros t].
  apply preserves_bind; [apply preserves_lift|intros ttl]. apply preserves_bind; [apply preserves_lift|intros e].
  apply preserves_ret.
Qed.

Context (k_text : strip k = k).

Lemma stays_assert s a hb : stays (hand s a) (assert_active_run_lease clock cfg id k hb).
Proof using id_text k_text.
  unfold assert_active_run_lease. cbv zeta. destruct (_ || _); [apply stays_done|].
  apply stays_bind; [apply stays_does, does_gets|intros st].
  apply stays_bind; [destruct st as [h|]; [destruct (hb_lost h)|]; [apply stays_failed|apply stays_done..]|intros _].
  apply stays_bind; [apply stays_expiry|intros e]. rewrite id_text, k_text.
  apply stays_bind; [apply stays_refresh|intros b]. destruct (negb b); [apply stays_failed|apply stays_done].
Qed.

Lemma stays_executor s a run agent attempt started_at b cp rs :
  (forall p, stays (hand s a) (cp p)) ->
  stays (hand s a) (run_task_executor clock monotonic execute cfg run agent attempt started_at b id k cp rs).
Proof using id_text k_text.
  intros Hcp. unfold run_task_executor.
  apply stays_bind; [apply stays_atomic; by intros q m Hm|intros started].
  apply stays_bind; [apply stays_atomic; by intros q m Hm|intros now]. cbv zeta.
  destruct (f_le _ _); [apply stays_failed|].
  apply stays_bind; [apply stays_atomic; intros q m Hm; unfold start_run_lease_heartbeat; cbv zeta; by destruct (_ || _)|intros hb].
  apply stays_bind; [apply stays_assert|intros _].
  apply stays_bind; [apply stays_finally|intros result].
  { apply stays_call_executor. intros p. apply stays_bind; [apply stays_assert|intros _; apply Hcp]. }
  { unfold stop_run_lease_heartbeat. destruct hb; [apply stays_atomic; by intros q m Hm|apply stays_done]. }
  apply stays_bind; [apply stays_assert|intros _].
  apply stays_bind; [apply stays_atomic; by intros q m Hm|intros ended].
  destruct (f_lt _ _); [|apply stays_done].
  apply stays_bind; [apply stays_does, does_append, proc_closed|intros _; apply stays_failed].
Qed.

(** *** The kill switch of the budget guardrail spares the run itself *)

Lemma kill_select_spares a l ids :
  k_exclude_run_id a = Some id -> id ∉ ids -> id ∉ kill_select a l ids.
Proof using id_text id_named.
  intros He. unfold kill_select. revert ids. induction l as [|r l IH]; intros ids Hids; [done|]. cbn [fold_left].
  apply IH. destruct (_ || _); [done|]. rewrite He. cbn [opt_str]. rewrite id_text.
  destruct (bool_decide_reflect (str_or_none id = Some (strip (r_id r)))) as [|Hne]; [done|].
  repeat match goal with |- _ ∉ (if ?b then _ else _) => destruct b; [done|] end.
  rewrite elem_of_app. intros [|Hx%list_elem_of_singleton]; [done|]. apply Hne. rewrite <- Hx.
  unfold str_or_none. by destruct id.
Qed.

(** Reading a run tells whether it exists. *)
Lemma get_run_spec C x q :
  triple (at_ C q) (on_store (get_agent_run x))
    (fun o => at_ (fun t => C t /\ (is_Some o -> is_Some (core_at t x))) q) (fun _ _ => False).
Proof.
  intros m (HC & Hq & Hs). split_and!; [done| |done..]. cbn. unfold core_at. intros [? (r & Hr & _)%fmap_Some].
  cbn in Hr. by rewrite Hr.
Qed.

Lemma does_weaken {A} C D C' D' (op : M manager A) :
  (forall t, C' t -> C t) -> (forall t, D t -> D' t) -> does C op D -> does C' op D'.
Proof.
  intros HC HD H q m (Hc & Hq & Hs). specialize (H q m (conj (HC _ Hc) (conj Hq Hs))).
  destruct (op m) as [[a|e] m']; [|done]. destruct H as (? & ? & ?). split_and!; auto.
Qed.

Lemma does_kill_one s a actor reason now_iso x counts :
  x <> id -> does (hand s a) (kill_one clock actor reason now_iso x counts) (hand s a).
Proof.
  intros Hx q. unfold kill_one. eapply triple_bind; [apply get_run_spec|]. intros [r|]; [|by intros m ([? _] & ? & ?)].
  set (D := fun t => hand s a t /\ is_Some (core_at t x)).
  assert (core_closed D) as HD.
  { intros t t' H [H1 H2]. split; [by eapply proc_closed|]. by rewrite H. }
  assert (has_run x D) as Hr by (intros t [_ H]; by apply core_at_mem). cbv zeta.
  match goal with |- triple _ ?op _ _ => enough (does D op D) as Hd end.
  { apply (does_weaken _ _ (fun t => hand s a t /\ (is_Some (Some r) -> is_Some (core_at t x))) (hand s a)) in Hd;
      [apply Hd| |by intros t []]. intros t [? H]. split; [done|]. apply H. eauto. }
  destruct (negb _); [apply does_ret|]. eapply does_bind; [|intros _].
  { apply does_store, (sdoes_update_fields _ D D); [|done]. intros t at_ [[Ho [e He]] Hxs].
    split; [split|].
    - intros y Hy. rewrite core_map_run. destruct (String.eqb_spec x y) as [<-|]; [|by apply Ho].
      right. unfold core_at in Hxs. apply fmap_is_Some in Hxs as [r0 Hr0]. rewrite Hr0. cbn.
      assert (core_at t x = Some (core_of r0)) as Ecx by (unfold core_at; by rewrite Hr0).
      destruct (Ho x Hx) as [Hsame|(c & Hc0 & Hct)].
      + exists (core_of r0). split; [congruence|]. by destruct r0.
      + exists c. split; [done|]. rewrite Ecx in Hct. destruct r0; cbn in *. by injection Hct as -> -> -> -> <- <-.
    - exists e. rewrite core_map_run. apply String.eqb_neq in Hx as ->. done.
    - unfold core_at in Hxs. apply fmap_is_Some in Hxs as [r0 Hr0]. rewrite core_map_run, String.eqb_refl, Hr0. eauto. }
  eapply does_bind; [by apply does_append|intros _]. eapply does_bind; [by apply does_finalize|intros _]. apply does_ret.
Qed.

Lemma does_kill_all s a actor reason now_iso ids counts :
  id ∉ ids -> does (hand s a) (kill_all clock actor reason now_iso ids counts) (hand s a).
Proof.
  revert counts. induction ids as [|x ids IH]; intros counts H; [apply does_ret|].
  apply not_elem_of_cons in H as [Hx Hids]. eapply does_bind; [by apply does_kill_one|]. intros c. by apply IH.
Qed.

(** Threads that do not raise. *)
Definition tdoes {A} (C : tables -> Prop) (t : thread manager A) (D : tables -> Prop) : Prop :=
  forall q, triple (at_ C q) (run t) (fun _ => at_ D q) (fun _ _ => False).
Lemma tdoes_atomic {A} C D (op : M manager A) : does C op D -> tdoes C (atomic op) D.
Proof. intros H q m Hm. rewrite run_atomic. by apply H. Qed.
Lemma tdoes_done {A} C (x : A) : tdoes C (Done x) C.
Proof. by intros q m Hm. Qed.
Lemma tdoes_bind {A B} C D E (t : thread manager A) (f : A -> thread manager B) :
  tdoes C t D -> (forall x, tdoes D (f x) E) -> tdoes C (t_bind t f) E.
Proof. intros H Hf q m Hm. rewrite run_bind. revert m Hm. eapply triple_bind; [apply H | intros; apply Hf]. Qed.

Lemma tdoes_list_runs C st limit : tdoes C (db (list_agent_runs None None st limit)) C.
Proof.
  apply tdoes_atomic, does_store. unfold list_agent_runs. destruct (_ <=? _); [apply sdoes_ret | apply sdoes_gets].
Qed.

(** ... and whose value satisfies [V]. *)
Definition tgives {A} (C : tables -> Prop) (t : thread manager A) (V : A -> Prop) (D : tables -> Prop) : Prop :=
  forall q, triple (at_ C q) (run t) (fun v m => V v /\ at_ D q m) (fun _ _ => False).
Lemma tgives_bind {A B} C V D E (t : thread manager A) (f : A -> thread manager B) :
  tgives C t V D -> (forall x, V x -> tdoes D (f x) E) -> tdoes C (t_bind t f) E.
Proof.
  intros H Hf q m Hm. rewrite run_bind. revert m Hm. eapply triple_bind; [apply H|]. intros x m [Hv Hm]. by apply (Hf x Hv).
Qed.
Lemma tgives_done {A} C (V : A -> Prop) x : V x -> tgives C (Done x) V C.
Proof. by intros H q m Hm. Qed.
Lemma tgives_after {A B} C (V : B -> Prop) D E (t : thread manager A) (f : A -> thread manager B) :
  tdoes C t D -> (forall x, tgives D (f x) V E) -> tgives C (t_bind t f) V E.
Proof. intros H Hf q m Hm. rewrite run_bind. revert m Hm. eapply triple_bind; [apply H | intros; apply Hf]. Qed.

Lemma tdoes_kill s a args :
  k_exclude_run_id args = Some id -> k_include_running args = true -> k_include_queued args = true ->
  tdoes (hand s a) (kill_switch_runs clock cfg args) (hand s a).
Proof using id_text id_named.
  intros He Hr Hq. unfold kill_switch_runs. rewrite Hr, Hq. cbn [negb andb]. cbv zeta.
  eapply (tgives_bind _ (fun ids => id ∉ ids)); [eapply tgives_after; [apply tdoes_list_runs|intros l]; apply tgives_done|intros ids Hids].
  { apply kill_select_spares; [done | apply not_elem_of_nil]. }
  eapply (tgives_bind _ (fun ids => id ∉ ids)); [eapply tgives_after; [apply tdoes_list_runs|intros l]; apply tgives_done|intros ids' Hids'].
  { by apply kill_select_spares. }
  eapply tdoes_bind; [apply tdoes_atomic, does_utc_now|intros now_iso].
  eapply tdoes_bind; [apply tdoes_atomic, does_transaction; by apply does_kill_all|intros [x y]].
  eapply tdoes_bind; [apply tdoes_atomic, does_emit|intros _; apply tdoes_done].
Qed.

(** *** The outcome of a failed attempt *)

Definition ended_status (s : string) : Prop := s ∈ ["succeeded"; "failed"; "canceled"].

Lemma failure_outcome_cases exc attempt max_attempts run latest backoff :
  let o := failure_outcome_of exc attempt max_attempts run latest backoff in
  (fo_retry o = true /\ attempt < max_attempts /\ fo_kill_scope o = false)
  \/ (fo_retry o = false /\ exists s f r, ended_status s /\ fo_status o = Some s /\ fo_failure_class o = Some f
        /\ fo_stop_reason o = Some r).
Proof.
  cbv zeta. unfold failure_outcome_of. cbv zeta.
  destruct (negb _ && String.eqb _ _) eqn:Eb.
  - right. unfold budget_guardrail. cbv zeta. destruct (_ <=? _); (split; [done|]); eexists _, _, _;
      split_and!; try done; by apply str_in_spec.
  - unfold resolve_retry_decision. destruct (_ && _ && _) eqn:E; cbn; [left; bool_prop; lia|].
    right. split; [done|]. eexists _, _, _. split_and!; try done.
    destruct (cancel_seen latest run); by apply str_in_spec.
Qed.

Lemma does_record_failure a exc m_err o :
  fo_retry o = true \/ (exists s f r, fo_status o = Some s /\ fo_failure_class o = Some f /\ fo_stop_reason o = Some r) ->
  does (hand "running" a) (record_failure clock id a exc m_err o)
    (hand (if fo_retry o then "queued" else opt_str (fo_status o)) a).
Proof.
  intros Ho. unfold record_failure. cbv zeta. apply does_transaction.
  eapply does_bind; [apply does_append, proc_closed|intros _].
  eapply does_bind; [apply does_mark_failed; [apply proc_closed|apply proc_has_run]|intros _].
  eapply does_bind; [destruct (fo_guardrail o); [apply does_append, proc_closed|apply does_ret]|intros _].
  destruct (fo_retry o).
  - eapply does_bind; [apply (does_fields "running" a "queued" a); [|done..]|intros _; apply does_append, proc_closed].
    intros r e at_ Hr. destruct r; cbn in *. by injection Hr as -> -> -> -> -> ->.
  - destruct Ho as [|(s & f & rs & -> & -> & ->)]; [done|]. eapply does_bind; [apply does_utc_now|intros finished].
    eapply does_bind; [apply (does_fields "running" a s a); [|done..]|intros _].
    { intros r e at_ Hr. destruct r; cbn in *. by injection Hr as -> -> -> -> -> ->. }
    eapply does_bind; [apply does_when, does_finalize; [apply proc_closed|apply proc_has_run]|intros _].
    apply does_append, proc_closed.
Qed.

(** *** The attempt *)

(** How a turn leaves the run: ended, or back in the queue with an attempt
    used and another one left. *)
Definition outcome (a : Z) (q : list (option string)) (m : manager) : Prop :=
  (exists s a', ended_status s /\ a' <= a /\ at_ (hand s a') q m) \/ (a < mx /\ at_ (hand "queued" a) (q ++ [Some id]) m).

Lemma then_ {A B} C D q (t : thread manager A) (f : A -> thread manager B) Q :
  tdoes C t D -> (forall x, triple (at_ D q) (run (f x)) Q (fun _ _ => False)) ->
  triple (at_ C q) (run (t_bind t f)) Q (fun _ _ => False).
Proof. intros H Hf m Hm. rewrite run_bind. revert m Hm. eapply triple_bind; [apply H | apply Hf]. Qed.

Lemma ends {A} C s a a' q (t : thread manager A) :
  ended_status s -> a' <= a -> tdoes C t (hand s a') -> triple (at_ C q) (run t) (fun _ => outcome a q) (fun _ _ => False).
Proof.
  intros Hs Ha Ht m Hm. specialize (Ht q m Hm). destruct (run t m) as [[x|e] m']; [|done]. left. eauto.
Qed.

Lemma power_ok n : 0 <= n <= 1023 -> is_ok (py_float (PInt (2 ^ n))) = true.
Proof.
  intros H. apply (check_upto_spec 1024 (fun n => is_ok (py_float (PInt (2 ^ n)))) 0); [|lia]. vm_compute. reflexivity.
Qed.

Lemma does_draw_backoff C attempt : attempt <= 1024 -> does C (draw_backoff uniform cfg attempt) C.
Proof.
  intros H q m Hm. unfold draw_backoff, retry_delay_seconds. cbv zeta. change (FFinite 0 0) with fzero.
  destruct (f_le (retry_backoff_sec cfg) fzero); cbn [negb]; [rewrite andb_false_r; exact Hm|].
  pose proof (power_ok (Z.max 0 (attempt - 1)) ltac:(lia)) as Hp.
  destruct (py_float _) as [p|]; [|done]. cbn [res_bind]. by destruct (_ && _).
Qed.

Lemma does_monotonic C : does C (read_monotonic monotonic) C.
Proof. by intros q m Hm. Qed.

Context (mx_small : mx <= 1024).

Lemma attempt_failed_outcome row a u started exc q :
  triple (at_ (hand "running" a) q) (run (attempt_failed clock monotonic uniform cfg row id a mx u started exc))
    (fun _ => outcome a q) (fun _ _ => False).
Proof using id_text id_named mx_small.
  unfold attempt_failed. cbv zeta.
  eapply then_; [apply tdoes_atomic, does_monotonic|intros ended_mono].
  eapply then_; [apply tdoes_atomic, does_gets|intros live].
  eapply then_; [apply tdoes_atomic, does_store, sdoes_gets|intros latest].
  eapply then_; [|intros backoff].
  { unfold resolve_retry_decision. destruct (_ && _ && _) eqn:E; cbn [schedule_retry]; [|apply tdoes_done].
    apply tdoes_atomic, does_draw_backoff. bool_prop. lia. }
  destruct (failure_outcome_cases exc a mx row latest backoff) as [(Hr & Hlt & _)|(Hr & s & f & rs & Hs & Es & Ef & Er)].
  - eapply then_; [apply tdoes_atomic, does_record_failure; by left|intros _]. rewrite Hr.
    intros m (HC & Hq & Hst). cbn. right. split; [done|]. split_and!; [done|by cbn; rewrite Hq|done].
  - eapply then_; [apply tdoes_atomic, does_record_failure; right; eauto 10|intros _]. rewrite Hr, Es. cbn [opt_str].
    eapply ends; [done|reflexivity|]. eapply tdoes_bind; [|intros _; apply tdoes_atomic, does_emit].
    unfold t_when. destruct (fo_kill_scope _); [|apply tdoes_done].
    eapply tdoes_bind; [by apply tdoes_kill|intros summary]. apply tdoes_atomic, does_append, proc_closed.
Qed.

Lemma attempt_returned_outcome agent a b u result q :
  triple (at_ (hand "running" a) q) (run (attempt_returned clock cfg agent id a b u result))
    (fun _ => outcome a q) (fun _ _ => False).
Proof.
  unfold attempt_returned. cbv zeta.
  eapply then_; [apply tdoes_atomic, does_store, sdoes_gets|intros latest].
  eapply then_; [apply tdoes_atomic, does_gets|intros live].
  assert (triple (at_ (hand "running" a) q)
    (run (attempt_succeeded clock cfg agent id a b result (extract_result_metrics result live a)))
    (fun _ => outcome a q) (fun _ _ => False)) as Hok.
  { apply (ends _ "succeeded" _ a); [by apply str_in_spec|lia|]. unfold attempt_succeeded.
    eapply tdoes_bind; [|intros _; apply tdoes_atomic, does_emit]. apply tdoes_atomic, does_transaction.
    eapply does_bind; [apply does_finalize; [apply proc_closed|apply proc_has_run]|intros _].
    eapply does_bind; [apply does_utc_now|intros finished].
    eapply does_bind; [apply (does_fields "running" a "succeeded" a); [|done..]|intros _; apply does_append, proc_closed].
    intros r e at_ Hr. destruct r; cbn in *. by injection Hr as -> -> -> -> -> ->. }
  destruct latest as [l|]; [|exact Hok]. destruct (_ =? 1); [|exact Hok].
  apply (ends _ "canceled" _ a); [by apply str_in_spec|lia|].
  eapply tdoes_bind; [|intros _; apply tdoes_atomic, does_emit]. apply tdoes_atomic, does_transaction.
  eapply does_bind; [apply does_utc_now|intros finished].
  eapply does_bind; [apply (does_fields "running" a "canceled" a); [|done..]|intros _].
  { intros r e at_ Hr. destruct r; cbn in *. by injection Hr as -> -> -> -> -> ->. }
  eapply does_bind; [apply does_append, proc_closed|intros _]. apply does_finalize; [apply proc_closed|apply proc_has_run].
Qed.

Lemma end_before_start_outcome row s a status reason cls err m cp extra q :
  ended_status status -> does (hand status a) extra (hand status a) ->
  triple (at_ (hand s a) q) (run (end_before_start clock cfg row id status reason cls err m cp extra))
    (fun _ => outcome (a + 1) q) (fun _ _ => False).
Proof.
  intros Hs Hex. apply (ends _ status _ a); [done|lia|]. unfold end_before_start.
  eapply tdoes_bind; [|intros _; apply tdoes_atomic, does_emit]. apply tdoes_atomic, does_transaction.
  eapply does_bind; [apply does_utc_now|intros finished].
  eapply does_bind; [apply (does_fields s a status a); [|by destruct err|by destruct err]|intros _].
  { intros r e at_ Hr. destruct err, r; cbn in *; by injection Hr as -> -> -> -> -> ->. }
  eapply does_bind; [apply does_append, proc_closed|intros _]. exact Hex.
Qed.

Lemma run_attempt_outcome s row agent a started_at b base q :
  triple (at_ (hand s a) q)
    (run (run_attempt clock monotonic uniform execute cfg row agent id k (a + 1) mx started_at b base))
    (fun _ => outcome (a + 1) q) (fun _ _ => False).
Proof using id_text id_named k_text mx_small.
  unfold run_attempt. eapply (then_ _ (hand "running" (a + 1))); [|intros _].
  { apply tdoes_atomic, does_transaction.
    eapply does_bind; [apply (does_fields s a "running" (a + 1)); [|done..]|intros _; apply does_append, proc_closed].
    intros r e at_ Hr. destruct r; cbn in *. by injection Hr as -> -> -> -> -> ->. }
  eapply then_; [apply tdoes_atomic, does_monotonic|intros started].
  eapply (then_ _ (hand "running" (a + 1))); [apply tdoes_atomic; by intros q' m Hm|intros u].
  intros m Hm. rewrite run_try.
  match goal with |- context [run ?t m] => assert (stays (hand "running" (a + 1)) t) as Hs end.
  { apply stays_bind; [apply stays_does, does_list_issues|intros issues].
    apply stays_bind; [apply stays_store, preserves_gets|intros artifacts].
    apply stays_bind; [apply stays_store, preserves_gets|intros calls]. cbv zeta.
    apply stays_executor. intros p. apply stays_push, proc_closed. }
  specialize (Hs q m Hm). destruct (run _ m) as [[result|e] m'].
  - by apply attempt_returned_outcome.
  - by apply attempt_failed_outcome.
Qed.

(** *** After the claim *)

Lemma process_claimed_outcome s row a q :
  r_status row = s -> str_in s ["queued"; "running"] = true -> r_attempts row = a -> r_max_attempts row = mx ->
  triple (at_ (hand s a) q) (run (process_claimed clock monotonic uniform execute cfg row id k))
    (fun _ => outcome (a + 1) q) (fun _ _ => False).
Proof using id_text id_named k_text mx_small.
  intros Es Hs Ea Em. unfold process_claimed.
  eapply then_; [apply tdoes_atomic, does_store, sdoes_gets|intros latest]. cbv zeta.
  destruct (cancel_seen latest row); [apply end_before_start_outcome; [by apply str_in_spec|apply does_ret]|].
  rewrite Es, Hs, Ea, Em. cbn [negb].
  eapply then_; [apply tdoes_atomic, does_store, sdoes_gets|intros [agent|]].
  2:{ apply end_before_start_outcome; [by apply str_in_spec|].
      apply does_mark_failed; [apply proc_closed|apply proc_has_run]. }
  eapply then_; [|intros started_at].
  { destruct (is_empty _); [apply tdoes_atomic, does_utc_now|apply tdoes_done]. }
  eapply then_; [apply tdoes_atomic, does_store, sdoes_now|intros now].
  destruct (f_le _ _); [apply end_before_start_outcome; [by apply str_in_spec|apply does_ret]|].
  apply run_attempt_outcome.
Qed.

(** The run before its claim and after the release *)
Definition idle (s : string) (a : Z) (t : tables) : Prop :=
  others t0 id t /\ core_at t id = Some (Core no_lease s a mx).

Context (owner_text : strip owner = owner) (owner_named : owner <> "") (k_named : k <> "").

Lemma not_empty x : x <> "" -> is_empty x = false.
Proof. by destruct x. Qed.

Lemma triple_store {A} (C D : tables -> Prop) (V : A -> Prop) (op : M store A) q :
  triple (fun st => C (s_cur st)) op (fun x st => V x /\ D (s_cur st)) (fun _ _ => False) ->
  triple (at_ C q) (on_store op) (fun x m => V x /\ at_ D q m) (fun _ _ => False).
Proof.
  intros H m (HC & Hq & Hs). specialize (H (m_store m) HC). unfold on_store.
  destruct (op (m_store m)) as [[x|e] st]; [|done]. destruct H. by split_and!.
Qed.

Lemma hand_update s a f t :
  (forall r, core_of r = Core no_lease s a mx -> exists e, core_of (f r) = Core (Some owner, Some k, e) s a mx) ->
  idle s a t -> hand s a (map_run id f t).
Proof.
  intros Hf [Ho Hc]. split.
  - intros x Hx. rewrite core_map_run. apply not_eq_sym, String.eqb_neq in Hx as Hx'. rewrite Hx'. by apply Ho.
  - rewrite core_map_run, String.eqb_refl. unfold core_at in Hc. apply fmap_Some in Hc as (r & Hr & Hc).
    rewrite Hr. cbn. destruct (Hf r (eq_sym Hc)) as [e ->]. by exists e.
Qed.

(** The claim of a run without lease succeeds. *)
Lemma claim_gives s a expires q :
  str_in s ["queued"; "running"] = true ->
  triple (at_ (idle s a) q)
    (on_store (claim_agent_run_lease clock id owner k expires None ["queued"; "running"]))
    (fun o m => (exists row, o = Some row /\ r_status row = s /\ r_attempts row = a /\ r_max_attempts row = mx)
                /\ at_ (hand s a) q m) (fun _ _ => False).
Proof using id_text id_named k_text k_named owner_text owner_named.
  intros Hs. apply triple_store. unfold claim_agent_run_lease.
  rewrite id_text, owner_text, k_text, (not_empty id), (not_empty k), (not_empty (lease_owner cfg)) by done.
  change (normalize_statuses ["queued"; "running"]) with ["queued"; "running"].
  rewrite bool_decide_eq_false_2 by done. cbn [orb str_or_none opt_str is_empty].
  eapply triple_bind; [apply sdoes_utc_now|intros now]. eapply triple_bind; [apply sdoes_utc_now|intros updated].
  intros st Hst. pose proof Hst as [_ Hc]. unfold core_at in Hc. apply fmap_Some in Hc as (r & Hr & Ec).
  unfold bind at 1, gets at 1. rewrite Hr.
  assert (r_status r = s /\ r_lease_expires_at r = None) as (E1 & E2) by (destruct r; cbn in *; by injection Ec as <- <- <- <- <- <-).
  rewrite E1, Hs. unfold lease_free. rewrite E2. cbn [orb andb].
  clear Hr. revert st Hst.
  eapply triple_bind; [apply (sdoes_update (idle s a) (hand s a))|intros ?].
  { intros t. apply hand_update. intros r' Hr'. exists (Some expires). destruct r'; cbn in *. by injection Hr' as -> -> -> -> -> ->. }
  eapply triple_bind; [apply sdoes_commit|intros ?]. intros st Hst. split; [|exact Hst].
  destruct Hst as [_ [e He]]. unfold core_at in He. apply fmap_Some in He as (r' & Hr' & He).
  cbn. rewrite Hr'. cbn. eexists. split; [done|]. destruct r'; cbn in *. by injection He as <- <- <- <- <- <-.
Qed.

(** The release by the worker *)
Lemma release_idles s a : tdoes (hand s a) (release_run_lease clock cfg id (Some k)) (idle s a).
Proof using id_text id_named k_text k_named owner_text owner_named.
  intros q. unfold release_run_lease, db. cbn [opt_str]. cbv zeta. rewrite id_text, k_text, (not_empty id), (not_empty k) by done. cbn [orb].
  intros m Hm. rewrite run_try, run_atomic.
  enough (triple (fun st => hand s a (s_cur st)) (release_agent_run_lease clock id owner k) (fun _ st => idle s a (s_cur st))
            (fun _ _ => False)) as H.
  { apply does_store in H. specialize (H q m Hm). by destruct (on_store _ m) as [[x|e] m']. }
  unfold release_agent_run_lease. rewrite id_text, owner_text, k_text, (not_empty id), (not_empty k), (not_empty (lease_owner cfg)) by done.
  cbn [orb]. eapply triple_bind; [apply sdoes_utc_now|intros updated].
  intros st Hst. pose proof Hst as [_ [e Hc]]. unfold core_at in Hc. apply fmap_Some in Hc as (r & Hr & Ec).
  unfold bind at 1, gets at 1. rewrite Hr.
  assert (holds_lease owner k r = true) as ->.
  { unfold holds_lease. destruct r; cbn in *. injection Ec as <- <- <- <- <- <-. by rewrite !bool_decide_eq_true_2. }
  clear Hr. revert st Hst.
  eapply triple_bind; [apply (sdoes_update (hand s a) (idle s a))|intros ?].
  { intros t [Ho [e' Hc]]. split.
    - intros x Hx. rewrite core_map_run. apply not_eq_sym, String.eqb_neq in Hx as Hx'. rewrite Hx'. by apply Ho.
    - rewrite core_map_run, String.eqb_refl. unfold core_at in Hc. apply fmap_Some in Hc as (r' & Hr' & Hc).
      rewrite Hr'. cbn. destruct r'; cbn in *. by injection Hc as <- <- <- <- <- <-. }
  eapply triple_bind; [apply sdoes_commit|intros ?]. by intros st Hst.
Qed.

(** *** What is left of the run after its turn *)
Definition turned (a : Z) (q : list (option string)) (m : manager) : Prop :=
  (exists s a', ended_status s /\ a' <= a /\ at_ (idle s a') q m) \/ (a < mx /\ at_ (idle "queued" a) (q ++ [Some id]) m).

Lemma release_turned a q m :
  outcome a q m -> exists m', run (release_run_lease clock cfg id (Some k)) m = (Ok tt, m') /\ turned a q m'.
Proof using id_text id_named k_text k_named owner_text owner_named.
  intros [(s' & a' & Hs' & Ha' & Hm)|[Hlt Hm]].
  - pose proof (release_idles s' a' q m Hm) as H. destruct (run _ m) as [[[]|e] m']; [|done]. eexists. split; [done|]. left. eauto.
  - pose proof (release_idles "queued" a _ m Hm) as H. destruct (run _ m) as [[[]|e] m']; [|done]. eexists. split; [done|]. by right.
Qed.
End work.

(** ** One turn of the worker *)

Section worker.
Context (clock : nat -> Z) (monotonic : nat -> fvalue) (uuid : nat -> string) (uniform : nat -> fvalue -> fvalue).
Context (execute : exec_call -> script) (cfg : settings).

Definition named (s : string) : Prop := strip s = s /\ s <> "".
Context (uuid_named : forall n, named (uuid n)) (owner_named : named (lease_owner cfg)).
Context (expires : forall n, exists ttl e, timedelta_us (run_lease_ttl_sec cfg) = Ok ttl /\ add_us (clock n) ttl = Ok e).

Abbreviation turn := (worker_iteration clock monotonic uuid uniform execute cfg).

Lemma does_expiry C : does C (run_lease_expiry_iso clock cfg) C.
Proof using expires.
  intros q. unfold run_lease_expiry_iso.
  eapply (triple_bind _ _ _ (fun t m => (exists n, t = clock n) /\ at_ C q m)); [by intros m Hm; split; [eexists|]|].
  intros t m [[n ->] Hm]. destruct (expires n) as (ttl & e & H1 & H2). unfold bind, lift. rewrite H1. cbv beta iota. by rewrite H2.
Qed.

Definition is_live (c : core) : bool := str_in (co_status c) ["queued"; "running"].

Lemma run_first {A B} (op : M manager A) (f : A -> thread manager B) m :
  run (t_bind (atomic op) f) m = match op m with (Ok x, m') => run (f x) m' | (Err e, m') => (Err e, m') end.
Proof. rewrite run_bind. unfold bind. by rewrite run_atomic. Qed.

Lemma process_run_works t0 id s a mx u q :
  named id -> mx <= 1024 -> str_in s ["queued"; "running"] = true ->
  triple (fun m => at_ (idle t0 id mx s a) q m /\ m_uuid m = u)
    (run (process_run clock monotonic uuid uniform execute cfg id))
    (fun o m => o = Some (uuid u) /\ outcome cfg t0 id (uuid u) mx (a + 1) q m) (fun _ _ => False).
Proof using uuid_named owner_named expires.
  intros [Hid Hid'] Hmx Hs m [Hm Hu]. destruct (uuid_named u) as [Hk Hk'], owner_named as [Ho Ho'].
  pose proof Hm as ([_ (r & Hr & _)%fmap_Some] & _ & _).
  unfold process_run, db. rewrite run_first. unfold on_store at 1, get_agent_run, gets.
  change (d_get id (t_runs (s_cur (m_store m))) = Some r) in Hr. rewrite Hr. cbn [fmap option_fmap option_map].
  rewrite run_first. unfold new_uuid. match goal with |- context [uuid ?x] => change x with (m_uuid m) end. rewrite Hu.
  match goal with |- context [run _ ?m1] => assert (at_ (idle t0 id mx s a) q m1) as Hm1 by exact Hm; revert Hm1; generalize m1 end.
  eapply then_; [apply tdoes_atomic, does_expiry|intros e]. intros m1 Hm1. rewrite run_first.
  pose proof (claim_gives clock cfg t0 id (uuid u) mx Hid Hid' Hk Ho Ho' Hk' s a e q Hs m1 Hm1) as H.
  destruct (on_store _ m1) as [[o|] m2]; [|done]. destruct H as [(row & -> & E1 & E2 & E3) Hm2].
  rewrite run_bind. unfold bind at 1.
  pose proof (process_claimed_outcome clock monotonic uniform execute cfg t0 id (uuid u) mx Hid Hid' Hk Hmx s row a q E1 Hs E2 E3 m2 Hm2) as H.
  destruct (run _ m2) as [[x|] m3]; [|done]. by split.
Qed.

(** A queued item whose run is live and unleased: the run ends, or returns to
    the queue with one attempt more. *)
Lemma turn_works m id q s a mx :
  m_stop m = false -> m_queue m = Some id :: q -> named id -> mx <= 1024 ->
  core_at (rows m) id = Some (Core no_lease s a mx) -> str_in s ["queued"; "running"] = true ->
  exists m', run turn m = (Ok tt, m') /\ turned (rows m) id mx (a + 1) q m'.
Proof using uuid_named owner_named expires.
  intros Hstop Hq Hid Hmx Hc Hs. unfold worker_iteration.
  rewrite run_first. unfold gets. rewrite Hstop.
  rewrite run_first, Hq, run_try.
  assert (at_ (idle (rows m) id mx s a) q (set_queue q m)) as Hm1 by (split_and!; [split; [by left|done]|done..]).
  pose proof (process_run_works _ id s a mx (m_uuid m) q Hid Hmx Hs _ (conj Hm1 eq_refl)) as H.
  destruct (run _ (set_queue q m)) as [[o|] m2]; [|done]. destruct H as [-> H].
  destruct Hid, owner_named, (uuid_named (m_uuid m)). by eapply release_turned.
Qed.

(** An item that names no run, or a run that is not live, is dropped. *)
Definition same (t0 t : tables) : Prop := forall x, core_at t x = core_at t0 x.

Lemma same_closed t0 : core_closed (same t0).
Proof. intros t t' H Hs x. by rewrite H. Qed.

Lemma claim_skips t0 id k c e q :
  named id -> core_at t0 id = Some c -> is_live c = false ->
  triple (at_ (same t0) q)
    (on_store (claim_agent_run_lease clock id (lease_owner cfg) k e None ["queued"; "running"]))
    (fun o m => o = None /\ at_ (same t0) q m) (fun _ _ => False).
Proof.
  intros [Hid _] Hc Hl. apply (triple_store _ _ (fun o : option run_row => o = None)). unfold claim_agent_run_lease.
  destruct (_ || _ || _ || _); [by intros st Hst|]. rewrite Hid. cbn [str_or_none opt_str is_empty].
  change (normalize_statuses ["queued"; "running"]) with ["queued"; "running"].
  eapply triple_bind; [apply sdoes_utc_now|intros now]. eapply triple_bind; [apply sdoes_utc_now|intros updated].
  intros st Hst. pose proof (Hst id) as Hrow. rewrite Hc in Hrow. unfold core_at in Hrow. apply fmap_Some in Hrow as (r & Hr & ->).
  unfold bind at 1, gets at 1. rewrite Hr. change (str_in (r_status r) ["queued"; "running"] = false) in Hl. rewrite Hl. cbn [andb].
  clear Hr. revert st Hst. eapply triple_bind; [apply sdoes_commit|intros ?]. by intros st Hst.
Qed.

Lemma turn_skips m id q :
  m_stop m = false -> m_queue m = Some id :: q ->
  (forall c, core_at (rows m) id = Some c -> named id /\ is_live c = false) ->
  exists m', run turn m = (Ok tt, m') /\ at_ (same (rows m)) q m'.
Proof using expires.
  intros Hstop Hq Hc. unfold worker_iteration. rewrite run_first. unfold gets. rewrite Hstop. rewrite run_first, Hq, run_try.
  assert (at_ (same (rows m)) q (set_queue q m)) as Hm by done.
  enough (triple (at_ (same (rows m)) q) (run (process_run clock monotonic uuid uniform execute cfg id))
            (fun o m' => o = None /\ at_ (same (rows m)) q m') (fun _ _ => False)) as H.
  { specialize (H _ Hm). destruct (run _ (set_queue q m)) as [[o|] m']; [|done]. destruct H as [-> H].
    unfold release_run_lease. cbn [opt_str]. cbv zeta. rewrite orb_true_r. eauto. }
  clear Hm. intros m1 Hm1. unfold process_run, db. rewrite run_first. unfold on_store at 1, get_agent_run, gets.
  pose proof Hm1 as (Hsame & _ & _). specialize (Hsame id). unfold core_at in *.
  change (t_runs (rows m1)) with (t_runs (s_cur (m_store m1))) in Hsame.
  destruct (d_get id (t_runs (s_cur (m_store m1)))) as [r|]; cbn [fmap option_fmap option_map] in *; [|by split].
  symmetry in Hsame. destruct (Hc _ Hsame) as [Hid Hl].
  match goal with |- context [run _ ?m2] => assert (at_ (same (rows m)) q m2) as Hm2 by exact Hm1; revert Hm2; generalize m2 end.
  eapply (then_ (same (rows m)) (same (rows m))); [apply tdoes_atomic; by intros q' m' Hm'|intros token].
  eapply then_; [apply tdoes_atomic, does_expiry|intros e]. intros m2 Hm2. rewrite run_first.
  pose proof (claim_skips _ id token _ e q Hid Hsame Hl m2 Hm2) as H. destruct (on_store _ m2) as [[o|] m3]; [|done].
  destruct H as [-> Hm3]. rewrite run_first.
  pose proof (does_emit (same (rows m)) cfg "agent_run_claim_skipped" [("run_id", PStr id)] q m3 Hm3) as H.
  destruct (emit cfg _ _ m3) as [[[]|] m4]; by try split.
Qed.

(** ** The queue drains *)

Fixpoint turns (n : nat) (m : manager) : manager :=
  match n with O => m | S n => turns n (snd (run turn m)) end.

(** What is still to do: an item costs a turn, and one more for every attempt
    its run may still use. *)
Definition weight (t : tables) (item : option string) : nat :=
  match item with
  | Some id => match core_at t id with
               | Some c => if is_live c then S (Z.to_nat (co_max c - co_attempts c)) else 1
               | None => 1
               end
  | None => 1
  end%nat.
Definition work (m : manager) : nat := sum_list_with (weight (rows m)) (m_queue m).

(** The worker at rest: every live run is in the queue, without a lease. *)
Record tidy (m : manager) : Prop := Tidy {
  tidy_stop : m_stop m = false;
  tidy_items : Forall is_Some (m_queue m);
  tidy_run id c : core_at (rows m) id = Some c -> named id /\ co_max c <= 1024;
  tidy_live id c : core_at (rows m) id = Some c -> is_live c = true -> co_lease c = no_lease /\ Some id ∈ m_queue m }.

(** How turns change a run. *)
Definition advanced (c0 c : core) : Prop :=
  c = c0
  \/ co_max c = co_max c0
     /\ (is_live c0 = true /\ co_status c = "queued" /\ co_attempts c < co_max c0
         \/ ended_status (co_status c) /\ co_attempts c <= Z.max (co_max c0) (co_attempts c0 + 1)).

Lemma ended_not_live s : ended_status s -> str_in s ["queued"; "running"] = false.
Proof. unfold ended_status. rewrite !elem_of_cons, elem_of_nil. by intros [->|[->|[->|[]]]]. Qed.

Lemma advanced_trans c0 c1 c2 :
  advanced c0 c1 -> advanced c1 c2 -> (is_live c1 = false -> co_attempts c2 = co_attempts c1) -> advanced c0 c2.
Proof.
  intros [->|[H1 H1']] [->|[H2 H2']] Hd; [by left|by right|by right|]. right. split; [congruence|]. rewrite H1 in *.
  assert (ended_status (co_status c1) -> is_live c1 = false) as He by (intros; by apply ended_not_live).
  destruct H2' as [(Hl & ? & ?)|[? ?]].
  - left. destruct H1' as [(? & _)|[? _]]; [done|]. by rewrite He in Hl.
  - right. split; [done|]. destruct H1' as [(? & ? & ?)|[? ?]]; [lia|]. rewrite Hd by auto. lia.
Qed.

(** One turn, in terms of the cores: the row of the item before and after,
    and what is put back. *)
Definition handled (id : string) (c0 c : option core) (back : list (option string)) : Prop :=
  (c = c0 /\ back = [] /\ (forall x, c0 = Some x -> is_live x = false))
  \/ exists x s a, c0 = Some x /\ is_live x = true /\ c = Some (Core no_lease s a (co_max x))
     /\ (ended_status s /\ a <= co_attempts x + 1 /\ back = []
         \/ s = "queued" /\ a = co_attempts x + 1 /\ a < co_max x /\ back = [Some id]).

Lemma turn_handles m id q :
  tidy m -> m_queue m = Some id :: q ->
  exists m' back, run turn m = (Ok tt, m') /\ others (rows m) id (rows m')
    /\ handled id (core_at (rows m) id) (core_at (rows m') id) back /\ m_queue m' = q ++ back /\ m_stop m' = false.
Proof using uuid_named owner_named expires.
  intros [Hstop _ Hrun Hlive] Hq. destruct (core_at (rows m) id) as [c|] eqn:Ec; [destruct (is_live c) eqn:El|].
  - destruct (Hrun _ _ Ec) as [Hid Hmx], (Hlive _ _ Ec El) as [Hnl _]. destruct c as [l s a mx]. cbn in Hnl, Hmx. subst l.
    destruct (turn_works m id q s a mx Hstop Hq Hid Hmx Ec El) as (m' & Hm' & [(s' & a' & Hs & Ha & [Ho Hc] & Hq' & Hst)|(Ha & [Ho Hc] & Hq' & Hst)]).
    + exists m', []. rewrite app_nil_r, Hc. split_and!; try done. right. eexists _, s', a'. split_and!; try done. by left.
    + exists m', [Some id]. rewrite Hc. split_and!; try done. right. eexists _, "queued", (a + 1). split_and!; try done. by right.
  - destruct (turn_skips m id q Hstop Hq) as (m' & Hm' & Hs & Hq' & Hst).
    { intros c' E. rewrite Ec in E. injection E as <-. split; [by apply (Hrun _ _ Ec)|done]. }
    exists m', []. rewrite app_nil_r, Hs. split_and!; try done; [by left|]. left. split_and!; [done..|]. by intros x [= <-].
  - destruct (turn_skips m id q Hstop Hq) as (m' & Hm' & Hs & Hq' & Hst); [by rewrite Ec|].
    exists m', []. rewrite app_nil_r, Hs. split_and!; try done; [by left|]. by left.
Qed.

Definition moved (c0 c : core) : Prop := advanced c0 c /\ (is_live c0 = false -> co_attempts c = co_attempts c0).

Lemma handled_moved id c0 back c x : handled id c0 (Some c) back -> c0 = Some x -> moved x c.
Proof.
  intros [(E & _ & _)|(y & s & a & E1 & Hl & [= ->] & H)] ->; [injection E as ->; split; [by left|done]|].
  injection E1 as <-. split; [right|congruence]. split; [done|]. cbn.
  destruct H as [(? & ? & _)|(-> & -> & ? & _)]; [right; split; [done|lia]|left; by split_and!].
Qed.

Lemma others_moved t0 id t x c0 :
  others t0 id t -> x <> id -> core_at t0 x = Some c0 -> exists c, core_at t x = Some c /\ moved c0 c.
Proof.
  intros Ho Hx Hc. destruct (Ho x Hx) as [E|(c & E & E')].
  - exists c0. rewrite E. split; [done|]. split; [by left|done].
  - exists (Core no_lease "canceled" (co_attempts c) (co_max c)). rewrite Hc in E. injection E as <-.
    split; [done|]. split; [|done]. right. split; [done|]. right. split; [by apply str_in_spec|]. cbn. lia.
Qed.

Lemma turn_moves t0 id t back :
  others t0 id t -> handled id (core_at t0 id) (core_at t id) back ->
  forall x c0, core_at t0 x = Some c0 -> exists c, core_at t x = Some c /\ moved c0 c.
Proof.
  intros Ho Hh x c0 Hc. destruct (String.eqb_spec x id) as [->|Hx]; [|by eapply others_moved].
  destruct (core_at t id) as [c|] eqn:E; [exists c; split; [done|]; by eapply handled_moved|].
  destruct Hh as [(E' & _)|(y & s & a & _ & _ & [=] & _)]. congruence.
Qed.

(** No turn makes an item heavier. *)
Lemma weight_others t0 id t x : others t0 id t -> x <> id -> (weight t (Some x) <= weight t0 (Some x))%nat.
Proof.
  intros Ho Hx. cbn. destruct (Ho x Hx) as [->|(c & -> & ->)]; [done|].
  change (1 <= if is_live c then S (Z.to_nat (co_max c - co_attempts c)) else 1)%nat. destruct (is_live c); lia.
Qed.
Lemma weight_handled t0 id t back :
  handled id (core_at t0 id) (core_at t id) back ->
  (weight t (Some id) <= weight t0 (Some id) /\ sum_list_with (weight t) back < weight t0 (Some id))%nat.
Proof.
  intros [(E & -> & H)|(x & s & a & E & Hl & E' & H)]; cbn [weight sum_list_with].
  - rewrite E. destruct (core_at t0 id) as [c|]; [rewrite (H c eq_refl)|]; lia.
  - rewrite E, E', Hl. destruct H as [(Hs & _ & ->)|(-> & -> & Hlt & ->)].
    + unfold is_live. cbn [co_status]. rewrite ended_not_live by done. cbn. lia.
    + change (is_live (Core no_lease "queued" (co_attempts x + 1) (co_max x))) with true. cbn. rewrite E'.
      change (is_live (Core no_lease "queued" (co_attempts x + 1) (co_max x))) with true. cbn. lia.
Qed.

Lemma sum_list_with_le {A} (f g : A -> nat) l :
  (forall x, f x <= g x)%nat -> (sum_list_with f l <= sum_list_with g l)%nat.
Proof. intros H. induction l as [|x l IH]; cbn; [lia|]. specialize (H x). lia. Qed.

Lemma turn_tidy m m' id q back :
  tidy m -> m_queue m = Some id :: q -> others (rows m) id (rows m') ->
  handled id (core_at (rows m) id) (core_at (rows m') id) back -> m_queue m' = q ++ back -> m_stop m' = false -> tidy m'.
Proof.
  intros [_ Hi Hrun Hlive] Hq Ho Hh Hq' Hst. rewrite Hq in *. apply Forall_cons in Hi as [_ Hi].
  assert (forall x c, core_at (rows m') x = Some c -> exists c0, core_at (rows m) x = Some c0 /\ co_max c0 = co_max c) as Hback.
  { intros x c Hc. destruct (String.eqb_spec x id) as [->|Hx].
    - destruct Hh as [(E & _)|(y & s & a & E & _ & E' & _)]; [rewrite E in Hc; eauto|].
      rewrite E' in Hc. injection Hc as <-. eauto.
    - destruct (Ho x Hx) as [E|(y & E & E')]; [rewrite E in Hc; eauto|]. rewrite E' in Hc. injection Hc as <-. eauto. }
  constructor; [done|..].
  - rewrite Hq'. apply Forall_app. split; [done|]. destruct Hh as [(_ & -> & _)|(y & s & a & _ & _ & _ & [(_ & _ & ->)|(_ & _ & _ & ->)])];
      by repeat constructor.
  - intros x c Hc. destruct (Hback _ _ Hc) as (c0 & Hc0 & <-). by apply Hrun.
  - intros x c Hc Hl. rewrite Hq', elem_of_app. destruct (String.eqb_spec x id) as [->|Hx].
    + destruct Hh as [(E & _ & Hn)|(y & s & a & _ & _ & E' & H)]; [rewrite <- E in Hn; by rewrite (Hn _ Hc) in Hl|].
      rewrite E' in Hc. injection Hc as <-. split; [done|]. right. destruct H as [(Hs & _)|(_ & _ & _ & ->)]; [|by left].
      change (str_in s ["queued"; "running"] = true) in Hl. by rewrite ended_not_live in Hl.
    + destruct (Ho x Hx) as [E|(y & E & E')]; [|by rewrite E' in Hc; injection Hc as <-]. rewrite E in Hc.
      destruct (Hlive _ _ Hc Hl) as [Hnl [[= ->]|Hin]%elem_of_cons]; [done|]. by split; [|left].
Qed.

Lemma turn_step m :
  tidy m -> m_queue m <> [] ->
  exists m', run turn m = (Ok tt, m') /\ tidy m' /\ (work m' < work m)%nat
    /\ forall x c0, core_at (rows m) x = Some c0 -> exists c, core_at (rows m') x = Some c /\ moved c0 c.
Proof using uuid_named owner_named expires.
  intros Ht Hne. destruct (m_queue m) as [|[id|] q] eqn:Hq; [done| |by pose proof (tidy_items _ Ht) as H; rewrite Hq in H; inversion H as [|? ? [? [=]]]].
  destruct (turn_handles m id q Ht Hq) as (m' & back & Hm' & Ho & Hh & Hq' & Hst). exists m'. split_and!; [done| | |].
  - by eapply turn_tidy.
  - unfold work. rewrite Hq, Hq', sum_list_with_app. destruct (weight_handled _ _ _ _ Hh) as [Hw Hb].
    assert (sum_list_with (weight (rows m')) q <= sum_list_with (weight (rows m)) q)%nat.
    { apply sum_list_with_le. intros [x|]; [|done]. destruct (String.eqb_spec x id) as [->|Hx]; [done|]. by apply weight_others with id. }
    change (sum_list_with (weight (rows m)) (Some id :: q)) with (weight (rows m) (Some id) + sum_list_with (weight (rows m)) q)%nat. lia.
  - by eapply turn_moves.
Qed.

Lemma turn_idle m : m_queue m = [] -> m_stop m = false -> run turn m = (Ok tt, m).
Proof. intros Hq Hs. unfold worker_iteration. rewrite run_first. unfold gets. rewrite Hs, run_first. by rewrite Hq. Qed.

Lemma moved_trans c0 c1 c2 : moved c0 c1 -> moved c1 c2 -> moved c0 c2.
Proof.
  intros [H1 H1'] [H2 H2']. split; [eapply advanced_trans; eauto|]. intros Hl.
  destruct H1 as [->|[_ [[Hs _]|[He _]]]]; [by apply H2'|congruence|]. rewrite H2'; [by apply H1'|by apply ended_not_live].
Qed.

Lemma work_none m : work m = 0%nat -> m_queue m = [].
Proof.
  unfold work. destruct (m_queue m) as [|i q]; [done|]. cbn [sum_list_with]. intros H.
  assert (1 <= weight (rows m) i)%nat; [|lia]. destruct i as [id|]; [|done]. cbn [weight].
  destruct (core_at (rows m) id) as [c|]; [|lia]. destruct (is_live c); lia.
Qed.

Lemma turns_drain n m :
  tidy m -> (work m <= n)%nat ->
  tidy (turns n m) /\ m_queue (turns n m) = []
  /\ forall x c0, core_at (rows m) x = Some c0 -> exists c, core_at (rows (turns n m)) x = Some c /\ moved c0 c.
Proof using uuid_named owner_named expires.
  revert m. induction n as [|n IH]; intros m Ht Hw.
  - split_and!; [done|apply work_none; by apply Nat.le_0_r|]. intros x c0 Hc. exists c0. split; [done|]. split; [by left|done].
  - cbn [turns]. destruct (decide (m_queue m = [])) as [Hq|Hq].
    + rewrite turn_idle; [|done|by apply tidy_stop]. cbn [snd]. apply IH; [done|]. unfold work. rewrite Hq. apply Nat.le_0_l.
    + destruct (turn_step m Ht Hq) as (m' & -> & Ht' & Hw' & Hmv). cbn [snd].
      destruct (IH m' Ht' ltac:(lia)) as (H1 & H2 & H3). split_and!; [done..|].
      intros x c0 Hc. destruct (Hmv x c0 Hc) as (c1 & Hc1 & Hm1). destruct (H3 x c1 Hc1) as (c2 & Hc2 & Hm2).
      exists c2. split; [done|]. by eapply moved_trans.
Qed.
End worker.

(** ** Races of a worker with the other threads *)

Section races.
Context (clock : nat -> Z) (monotonic : nat -> fvalue) (uuid : nat -> string) (uniform : nat -> fvalue -> fvalue).
Context (execute : exec_call -> script) (cfg : settings).
Context (owner_named : named (lease_owner cfg)).
Context (expires : forall n, exists ttl e, timedelta_us (run_lease_ttl_sec cfg) = Ok ttl /\ add_us (clock n) ttl = Ok e).

(** The run [id] has this core. *)
Definition core_is (id : string) (c : core) (t : tables) : Prop := core_at t id = Some c.

Lemma core_is_closed id c : core_closed (core_is id c).
Proof. intros t t' H Hc. unfold core_is. by rewrite H. Qed.
Lemma core_is_has_run id c : has_run id (core_is id c).
Proof. intros t Hc. apply core_at_mem. unfold core_is in Hc. by rewrite Hc. Qed.

Lemma core_is_update id c c' f t :
  (forall r, core_of r = c -> core_of (f r) = c') -> core_is id c t -> core_is id c' (map_run id f t).
Proof.
  intros Hf (r & Hr & Hc)%fmap_Some. unfold core_is. rewrite core_map_run, String.eqb_refl, Hr. cbn. by rewrite Hf.
Qed.

(** Recording a failure that the policy retries moves the row to [queued],
    whatever its status and whoever holds its lease. *)
Lemma record_retry id l s n mx a exc m_err o :
  fo_retry o = true ->
  does (core_is id (Core l s n mx)) (record_failure clock id a exc m_err o) (core_is id (Core l "queued" n mx)).
Proof.
  intros Ho. unfold record_failure. cbv zeta. apply does_transaction. rewrite Ho.
  eapply does_bind; [apply does_append, core_is_closed|intros _].
  eapply does_bind; [apply does_mark_failed; [apply core_is_closed|apply core_is_has_run]|intros _].
  eapply does_bind; [destruct (fo_guardrail o); [apply does_append, core_is_closed|apply does_ret]|intros _].
  eapply does_bind; [|intros _; apply does_append, core_is_closed].
  apply does_store, sdoes_update_fields; [|done]. intros t at_. apply core_is_update.
  intros r Hr. destruct r; cbn in *. by injection Hr as <- <- <- <-.
Qed.

(** A failure that the policy retries while attempts are left. *)
Definition retried (exc : exn) : Prop :=
  retryable (classify_failure exc) = true /\ failure_class (classify_failure exc) <> "budget_exceeded".

Lemma retry_decided exc a mx row latest backoff :
  retried exc -> a < mx -> cancel_seen latest row = false ->
  fo_retry (failure_outcome_of exc a mx row latest backoff) = true.
Proof.
  intros [Hr Hb] Ha Hc. unfold failure_outcome_of. cbv zeta. apply String.eqb_neq in Hb. rewrite Hb, andb_false_r.
  unfold resolve_retry_decision. apply Z.ltb_lt in Ha. by rewrite Ha, Hc, Hr.
Qed.

Lemma attempt_retries id r row a mx u started exc q m :
  d_get id (t_runs (rows m)) = Some r -> r_cancel_requested r <> 1 -> lower (strip (r_status r)) <> "canceled" ->
  retried exc -> a < mx -> a <= 1024 -> m_queue m = q -> m_stop m = false ->
  exists m', run (attempt_failed clock monotonic uniform cfg row id a mx u started exc) m = (Ok tt, m')
    /\ at_ (core_is id (Core (lease_of r) "queued" (r_attempts r) (r_max_attempts r))) (q ++ [Some id]) m'.
Proof.
  intros Hr Hcr Hst Hexc Ha Hsmall Hq Hstop.
  enough (triple (fun m0 => m_store m0 = m_store m /\ m_queue m0 = q /\ m_stop m0 = false)
    (run (attempt_failed clock monotonic uniform cfg row id a mx u started exc))
    (fun _ => at_ (core_is id (Core (lease_of r) "queued" (r_attempts r) (r_max_attempts r))) (q ++ [Some id]))
    (fun _ _ => False)) as H.
  { specialize (H m (conj eq_refl (conj Hq Hstop))). destruct (run _ m) as [[[]|e] m']; [|done]. by exists m'. }
  clear Hq Hstop. intros m0 (Hm0 & Hq & Hstop). unfold attempt_failed. cbv zeta.
  rewrite run_first. unfold read_monotonic. cbv beta iota. rewrite run_first. unfold gets at 1. unfold db. rewrite run_first.
  unfold on_store at 1, get_agent_run, gets.
  match goal with |- context [s_cur (m_store ?x)] => change (m_store x) with (m_store m0) end.
  rewrite Hm0. change (t_runs (s_cur (m_store m))) with (t_runs (rows m)). rewrite Hr. cbn [fmap option_fmap option_map].
  set (latest := Some (decode_agent_run_row r)).
  assert (cancel_seen latest row = false) as Hseen.
  { unfold latest, cancel_seen, decode_agent_run_row. destruct r; cbn in *. apply String.eqb_neq in Hst. apply Z.eqb_neq in Hcr.
    by rewrite Hst, Hcr. }
  set (C := core_is id (Core (lease_of r) (r_status r) (r_attempts r) (r_max_attempts r))).
  match goal with |- context [run _ ?x] =>
    assert (at_ C q x) as Hx; [|revert Hx; generalize x] end.
  { split_and!; [|done..]. unfold C, core_is, core_at. change (core_of <$> d_get id (t_runs (rows m)) = Some (core_of r)).
    by rewrite Hr. }
  eapply then_; [|intros backoff].
  { destruct (schedule_retry _); [apply tdoes_atomic; by apply does_draw_backoff|apply tdoes_done]. }
  pose proof (retry_decided exc a mx row latest backoff Hexc Ha Hseen) as Ho.
  eapply then_; [apply tdoes_atomic; by apply record_retry|intros _]. rewrite Ho.
  intros m2 (HC & Hq2 & Hs2). cbn. split_and!; [done|by cbn; rewrite Hq2|done].
Qed.
(** *** A worker whose lease is gone *)

(** The renewal of a lease whose token is another one is refused. *)
Lemma refresh_refused id k e r q m :
  named id -> named k -> d_get id (t_runs (rows m)) = Some r -> r_lease_token r <> Some k ->
  m_queue m = q -> m_stop m = false ->
  exists m', on_store (refresh_agent_run_lease clock id (lease_owner cfg) k e None ["running"]) m = (Ok false, m')
    /\ at_ (fun t => t = rows m) q m'.
Proof.
  intros [Hid Hid'] [Hk Hk'] Hr Ht Hq Hs.
  enough (triple (at_ (fun t => t = rows m) q)
    (on_store (refresh_agent_run_lease clock id (lease_owner cfg) k e None ["running"]))
    (fun b m' => b = false /\ at_ (fun t => t = rows m) q m') (fun _ _ => False)) as H.
  { specialize (H m (conj eq_refl (conj Hq Hs))). destruct (on_store _ m) as [[b|] m']; [|done]. destruct H as [-> H]. by exists m'. }
  apply (triple_store _ _ (fun b : bool => b = false)). unfold refresh_agent_run_lease. rewrite Hid, Hk.
  destruct (_ || _ || _ || _); [by intros st Hst|]. cbn [str_or_none opt_str is_empty].
  eapply triple_bind; [apply (sdoes_utc_now clock (fun t => t = rows m))|intros now]. eapply triple_bind; [apply (sdoes_utc_now clock (fun t => t = rows m))|intros updated].
  intros st Hst. unfold bind at 1, gets at 1. rewrite Hst, Hr.
  replace (holds_lease (strip (lease_owner cfg)) k r) with false
    by (unfold holds_lease; by rewrite (bool_decide_eq_false_2 (r_lease_token r = Some k)), andb_false_r).
  cbn [andb]. revert st Hst. eapply triple_bind; [apply (sdoes_commit (fun t => t = rows m))|intros ?]. by intros st Hst.
Qed.

Lemma assert_lost id k hb r q m :
  named id -> named k -> d_get id (t_runs (rows m)) = Some r -> r_lease_token r <> Some k ->
  m_queue m = q -> m_stop m = false ->
  exists message m', run (assert_active_run_lease clock cfg id k hb) m = (Err (TaskError RunLeaseLostError message), m')
    /\ at_ (fun t => t = rows m) q m'.
Proof using expires.
  intros Hid Hk Hr Ht Hq Hs. unfold assert_active_run_lease. cbv zeta.
  rewrite (proj1 Hid), (proj1 Hk), (not_empty id), (not_empty k) by (apply Hid || apply Hk). cbn [orb].
  rewrite run_first. unfold gets. set (state := match hb with Some h => m_heartbeats m !! h | None => None end).
  assert (forall t : thread manager unit, t =
      (let! expires := atomic (run_lease_expiry_iso clock cfg) in
       let! refreshed := db (refresh_agent_run_lease clock id (lease_owner cfg) k expires None ["running"]) in
       if negb refreshed then Failed (TaskError RunLeaseLostError OWNERSHIP_LOST) else Done tt) ->
    exists message m', run t m = (Err (TaskError RunLeaseLostError message), m') /\ at_ (fun t => t = rows m) q m') as Hfail.
  { intros t ->. pose proof (does_expiry clock cfg expires (fun t => t = rows m) q m (conj eq_refl (conj Hq Hs))) as He.
    rewrite run_first. destruct (run_lease_expiry_iso clock cfg m) as [[e|] m1]; [|done]. destruct He as (E1 & Hq1 & Hs1).
    unfold db. rewrite run_first. destruct (refresh_refused id k e r q m1) as (m2 & -> & E2 & H2); try done; [by rewrite E1|].
    cbn. eexists _, m2. split; [done|]. split; [congruence|done]. }
  destruct state as [h|]; [destruct (hb_lost h)|]; [|by apply Hfail..].
  eexists _, m. split; [reflexivity|done].
Qed.

(** Its release changes nothing. *)
Lemma release_foreign id k c : named id -> named k -> (co_lease c).1.2 <> Some k ->
  tdoes (core_is id c) (release_run_lease clock cfg id (Some k)) (core_is id c).
Proof using owner_named.
  intros [Hid Hid'] [Hk Hk'] Hc q m Hm. unfold release_run_lease, db. cbn [opt_str]. cbv zeta.
  rewrite Hid, Hk, (not_empty id), (not_empty k) by done. cbn [orb]. rewrite run_try, run_atomic.
  enough (sdoes (core_is id c) (release_agent_run_lease clock id (lease_owner cfg) k) (core_is id c)) as H.
  { apply does_store in H. specialize (H q m Hm). by destruct (on_store _ m) as [[x|e] m']. }
  unfold release_agent_run_lease. rewrite Hid, Hk. destruct (_ || _ || _); [apply sdoes_ret|].
  eapply sdoes_bind; [apply sdoes_utc_now|intros updated]. intros st Hst.
  pose proof Hst as (r & Hr & Er)%fmap_Some. unfold bind at 1, gets at 1. rewrite Hr.
  replace (holds_lease (strip (lease_owner cfg)) k r) with false.
  2:{ unfold holds_lease. rewrite (bool_decide_eq_false_2 (r_lease_token r = Some k)), andb_false_r; [done|].
      by rewrite Er in Hc. }
  clear Hr. revert st Hst. eapply sdoes_bind; [apply sdoes_commit|intros ?; apply sdoes_ret].
Qed.

(** A worker whose executor has returned and that is about to check its lease
    before it records the outcome: what is left of [worker_iteration].  [next]
    and [after] are the code it would run if the lease were still its own. *)
Definition finishing_worker (id k : string) (hb : option nat) (next : thread manager pydict)
    (after : pydict -> thread manager unit) (row : run_row) (a mx : Z) (u : nat) (started : fvalue) : thread manager unit :=
  t_try (t_try (assert_active_run_lease clock cfg id k hb ;! next)
           (attempt_failed clock monotonic uniform cfg row id a mx u started) after ;! Done (Some k))
    (fun _ => release_run_lease clock cfg id None) (fun lease_token => release_run_lease clock cfg id lease_token).

Lemma finishing_worker_requeues id k hb next after row a mx u started r m :
  named id -> named k -> d_get id (t_runs (rows m)) = Some r -> r_lease_token r <> Some k ->
  r_cancel_requested r <> 1 -> lower (strip (r_status r)) <> "canceled" -> a < mx -> a <= 1024 -> m_stop m = false ->
  exists m', run (finishing_worker id k hb next after row a mx u started) m = (Ok tt, m')
    /\ at_ (core_is id (Core (lease_of r) "queued" (r_attempts r) (r_max_attempts r))) (m_queue m ++ [Some id]) m'.
Proof using owner_named expires.
  intros Hid Hk Hr Ht Hcr Hst Ha Hsmall Hs. unfold finishing_worker. rewrite run_try, run_bind. unfold bind at 1.
  rewrite run_try, run_bind. unfold bind at 1.
  destruct (assert_lost id k hb r (m_queue m) m) as (message & m1 & -> & E1 & Hq1 & Hs1); try done.
  destruct (attempt_retries id r row a mx u started (TaskError RunLeaseLostError message) (m_queue m) m1)
    as (m2 & -> & Hm2); try done; [by rewrite E1|].
  cbn [run].
  pose proof (release_foreign id k (Core (lease_of r) "queued" (r_attempts r) (r_max_attempts r)) Hid Hk Ht _ _ Hm2) as H.
  destruct (run _ m2) as [[[]|] m3]; [|done]. by exists m3.
Qed.

(** *** A turn that is refused the claim *)

(** The claim reads the clock once for the lease it asks for, then to compare;
    it is refused while another token's lease has not expired. *)
Lemma claim_refused id k e r ex m :
  strip id = id -> d_get id (t_runs (rows m)) = Some r -> r_lease_expires_at r = Some ex ->
  String.leb ex (isoformat (clock (clock_of m))) = false -> r_lease_token r <> Some (strip k) ->
  exists m', on_store (claim_agent_run_lease clock id (lease_owner cfg) k e None ["queued"; "running"]) m = (Ok None, m')
    /\ rows m' = rows m /\ m_queue m' = m_queue m /\ m_stop m' = m_stop m.
Proof.
  intros Hid Hr Hex Hlive Ht. unfold on_store, claim_agent_run_lease. rewrite Hid.
  destruct (_ || _ || _ || _); [by eexists|]. cbn [str_or_none opt_str is_empty].
  change (normalize_statuses ["queued"; "running"]) with ["queued"; "running"].
  unfold bind at 1, RunStore.utc_now at 1, bind at 1, now at 1, ret at 1. cbv beta iota.
  unfold bind at 1, RunStore.utc_now at 1, bind at 1, now at 1, ret at 1. cbv beta iota.
  unfold bind at 1, gets at 1. cbn [s_cur]. change (d_get id (t_runs (s_cur (m_store m)))) with (d_get id (t_runs (rows m))).
  rewrite Hr. unfold lease_free. rewrite Hex, Hlive, (bool_decide_eq_false_2 (r_lease_token r = _)) by done.
  rewrite !andb_false_r. unfold bind, commit_locked, modify. cbn. destruct (s_depth (m_store m)); cbn; by eexists.
Qed.

Lemma turn_refused id q r ex m :
  m_stop m = false -> m_queue m = Some id :: q -> strip id = id -> d_get id (t_runs (rows m)) = Some r ->
  r_lease_expires_at r = Some ex -> String.leb ex (isoformat (clock (S (clock_of m)))) = false ->
  r_lease_token r <> Some (strip (uuid (m_uuid m))) ->
  exists m', run (worker_iteration clock monotonic uuid uniform execute cfg) m = (Ok tt, m') /\ at_ (fun t => t = rows m) q m'.
Proof using expires.
  intros Hs Hq Hid Hr Hex Hlive Ht. unfold worker_iteration. rewrite run_first. unfold gets. rewrite Hs.
  rewrite run_first, Hq, run_try. unfold process_run, db. rewrite run_first. unfold on_store at 1, get_agent_run, gets.
  change (d_get id (t_runs (s_cur (m_store (set_queue q m))))) with (d_get id (t_runs (rows m))). rewrite Hr.
  cbn [fmap option_fmap option_map]. rewrite run_first. unfold new_uuid. rewrite run_first.
  unfold run_lease_expiry_iso at 1, read_clock, on_store at 1, now, bind at 1.
  destruct (expires (clock_of m)) as (ttl & e & E1 & E2). unfold bind, lift. rewrite E1. cbv beta iota.
  cbn [s_clock m_store set_queue set_store set_draws]. rewrite E2. unfold ret. rewrite run_first.
  match goal with |- context [on_store (claim_agent_run_lease _ _ _ ?k ?x _ _) ?m1] =>
    destruct (claim_refused id k x r ex m1) as (m2 & -> & E3 & Hq3 & Hs3); try done end.
  rewrite run_first. unfold emit, when, release_run_lease. cbn [opt_str]. cbv zeta.
  destruct (has_telemetry cfg), (is_empty (strip id)); cbn; (eexists; split; [reflexivity|]); exact (conj E3 (conj Hq3 (eq_trans Hs3 Hs))).
Qed.

(** A worker that is handling a failed attempt: what is left of
    [worker_iteration]. *)
Definition failing_worker (id k : string) (row : run_row) (a mx : Z) (u : nat) (started : fvalue) (exc : exn) : thread manager unit :=
  t_try (attempt_failed clock monotonic uniform cfg row id a mx u started exc ;! Done (Some k))
    (fun _ => release_run_lease clock cfg id None) (fun lease_token => release_run_lease clock cfg id lease_token).
End races.

(** C32. A worker that lost its lease still writes the outcome of its attempt.
    Take any pool in which a worker is about to check its lease after the
    executor returned, while the run it worked on has been brought to
    [succeeded] under another lease or none, without a cancellation request,
    and attempts are left (of at most 1024) and the manager is not stopping.
    Then actions of this worker alone end its turn with the run back in
    [queued] and at the end of the queue, the lease as it was: the check of the
    lease raises, and the branch that handles the error updates the run by its
    id alone. *)
Theorem stale_worker_requeues_finished_run clock monotonic uuid uniform cfg ts m i l id k hb next after row a mx u started r :
  named (lease_owner cfg) ->
  (forall n, exists ttl e, timedelta_us (run_lease_ttl_sec cfg) = Ok ttl /\ add_us (clock n) ttl = Ok e) ->
  named id -> named k ->
  ts !! i = Some (l, finishing_worker clock monotonic uniform cfg id k hb next after row a mx u started) ->
  d_get id (t_runs (rows m)) = Some r -> r_status r = "succeeded" -> r_cancel_requested r <> 1 ->
  r_lease_token r <> Some k -> a < mx -> a <= 1024 -> m_stop m = false ->
  exists l' m' r', rtc (acts (upd uuid) i) (ts, m) (<[i := (l', Done tt)]> ts, m')
    /\ d_get id (t_runs (rows m')) = Some r' /\ r_status r' = "queued" /\ lease_of r' = lease_of r
    /\ m_queue m' = m_queue m ++ [Some id].
Proof.
  intros Ho He Hid Hk Hi Hr Hst Hcr Ht Ha Hsmall Hs.
  destruct (finishing_worker_requeues clock monotonic uniform cfg Ho He id k hb next after row a mx u started r m)
    as (m' & Hrun & Hc & Hq & _); try done; [by rewrite Hst|].
  pose proof (steps_run (finishing_worker clock monotonic uniform cfg id k hb next after row a mx u started) m) as H.
  rewrite Hrun in H. destruct (steps_acts (upd uuid) i ts _ _ _ _ _ Hi H) as [l' Hl'].
  apply fmap_Some in Hc as (r' & Hr' & Hc). exists l', m', r'.
  split_and!; [done..|exact (eq_sym (f_equal co_status Hc))|exact (eq_sym (f_equal co_lease Hc))|done].
Qed.

(** C33. A scheduled retry can be lost.  Take any pool in which one worker is
    handling a failed attempt that the policy retries, holding the lease of the
    run, and another worker begins its turn, with an empty queue, no
    cancellation request and no stop.  Unless the lease expires meanwhile, the two of them can act so that both turns end
    with the run in [queued], without a lease, and nothing in the queue: the
    first puts the run into the queue before it releases the lease, the second
    takes it in between, is refused the claim and drops it. *)
Theorem scheduled_retry_lost clock monotonic uuid uniform execute cfg ts m i j li lj id k row a mx u started exc r ex :
  named (lease_owner cfg) ->
  (forall n, exists ttl e, timedelta_us (run_lease_ttl_sec cfg) = Ok ttl /\ add_us (clock n) ttl = Ok e) ->
  named id -> named k -> i <> j ->
  ts !! i = Some (li, failing_worker clock monotonic uniform cfg id k row a mx u started exc) ->
  ts !! j = Some (lj, worker_iteration clock monotonic uuid uniform execute cfg) ->
  d_get id (t_runs (rows m)) = Some r -> r_status r = "running" -> r_cancel_requested r <> 1 ->
  lease_of r = (Some (lease_owner cfg), Some k, Some ex) ->
  retried exc -> a < mx -> a <= 1024 -> m_queue m = [] -> m_stop m = false ->
  let m1 := (run (attempt_failed clock monotonic uniform cfg row id a mx u started exc) m).2 in
  strip (uuid (m_uuid m1)) <> k -> String.leb ex (isoformat (clock (S (clock_of m1)))) = false ->
  exists li' lj' m' r',
    rtc (fun c c' => acts (upd uuid) i c c' \/ acts (upd uuid) j c c') (ts, m)
      (<[i := (li', Done tt)]> (<[j := (lj', Done tt)]> ts), m')
    /\ d_get id (t_runs (rows m')) = Some r' /\ r_status r' = "queued" /\ lease_of r' = no_lease
    /\ m_queue m' = [] /\ m_stop m' = false.
Proof.
  intros Ho He Hid Hk Hij Hi Hj Hr Hst Hcr Hl Hexc Ha Hsmall Hq Hs m1 Hfresh Hlive.
  destruct (attempt_retries clock monotonic uniform cfg id r row a mx u started exc [] m) as (m1' & Hrun1 & Hc1 & Hq1 & Hs1);
    try done; [by rewrite Hst|].
  assert (m1 = m1') as <- by (unfold m1; by rewrite Hrun1).
  pose proof Hc1 as (r1 & Hr1 & Er1)%fmap_Some. pose proof (eq_sym (f_equal co_lease Er1)) as El. cbn [co_lease core_of] in El.
  rewrite Hl in El. injection El as Eo Ek Ee.
  destruct (turn_refused clock monotonic uuid uniform execute cfg He id [] r1 ex m1) as (m2 & Hrun2 & E2 & Hq2 & Hs2);
    try done; [apply Hid|rewrite Ek; congruence|].
  assert (at_ (proc (rows m2) id (lease_owner cfg) k "queued" (r_attempts r) (r_max_attempts r)) [] m2) as Hm2.
  { split_and!; [|done..]. split; [by left|]. exists (Some ex). rewrite E2. unfold core_is in Hc1. by rewrite Hc1, Hl. }
  destruct Hid as [Hid Hid'], Hk as [Hk Hk'], Ho as [Ho Ho'].
  pose proof (release_idles clock cfg (rows m2) id k (r_max_attempts r) Hid Hid' Hk Ho Ho' Hk' "queued" (r_attempts r) [] m2 Hm2) as H3.
  pose proof (steps_run (release_run_lease clock cfg id (Some k)) m2) as Hsteps3.
  destruct (run (release_run_lease clock cfg id (Some k)) m2) as [[[]|] m3]; [|done]. cbn in Hsteps3.
  destruct H3 as ([_ (r3 & Hr3 & Er3)%fmap_Some] & Hq3 & Hs3).
  pose proof (steps_run (attempt_failed clock monotonic uniform cfg row id a mx u started exc) m) as Hsteps1. rewrite Hrun1 in Hsteps1.
  apply (steps_bind _ _ (fun _ => Done (Some k))) in Hsteps1.
  apply (steps_try _ _ (fun _ => release_run_lease clock cfg id None) (fun t => release_run_lease clock cfg id t)) in Hsteps1.
  destruct (steps_acts (upd uuid) i ts _ _ _ _ _ Hi Hsteps1) as [l1 Hact1].
  pose proof (steps_run (worker_iteration clock monotonic uuid uniform execute cfg) m1) as Hsteps2. rewrite Hrun2 in Hsteps2.
  match type of Hact1 with rtc _ _ (?ts1, _) => set (ts1' := ts1) in *;
    assert (ts1' !! j = Some (lj, worker_iteration clock monotonic uuid uniform execute cfg)) as Hj1
      by (unfold ts1'; by rewrite list_lookup_insert_ne) end.
  destruct (steps_acts (upd uuid) j ts1' _ _ _ _ _ Hj1 Hsteps2) as [l2 Hact2].
  match type of Hact2 with rtc _ _ (?ts2, _) => set (ts2' := ts2) in *;
    assert (ts2' !! i = Some (l1, release_run_lease clock cfg id (Some k))) as Hi2
      by (unfold ts2', ts1'; rewrite list_lookup_insert_ne by done;
          apply list_lookup_insert_eq; by eapply lookup_lt_Some) end.
  destruct (steps_acts (upd uuid) i ts2' _ _ _ _ _ Hi2 Hsteps3) as [l3 Hact3].
  exists l3, l2, m3, r3.
  split_and!; [|done|exact (eq_sym (f_equal co_status Er3))|exact (eq_sym (f_equal co_lease Er3))|done..].
  etrans; [eapply rtc_subrel; [|exact Hact1]; by left|]. etrans; [eapply rtc_subrel; [|exact Hact2]; by right|].
  replace (<[i := (l3, Done tt)]> (<[j := (l2, Done tt)]> ts)) with (<[i := (l3, Done tt)]> ts2').
  { eapply rtc_subrel; [|exact Hact3]. by left. }
  unfold ts2', ts1'. rewrite (list_insert_insert_ne ts j i) by done. apply list_insert_insert_eq.
Qed.


(** C3. A single worker drains its queue. Start from rest: every queued or
    running run is in the queue and unleased, limits are at most 1024. Then,
    whatever the executor does (returns JSON, raises any exception, reports what it
    likes), after one turn per queued item and one more per attempt that is
    left the queue is empty, and each of these runs has ended as succeeded,
    failed or canceled, with no more attempts than its limit allows (a run
    that starts at its limit gets one). *)
Theorem worker_drains clock monotonic uuid uniform execute cfg n m :
  (forall n, named (uuid n)) -> named (lease_owner cfg) ->
  (forall n, exists ttl e, timedelta_us (run_lease_ttl_sec cfg) = Ok ttl /\ add_us (clock n) ttl = Ok e) ->
  tidy m -> (work m <= n)%nat ->
  let m' := turns clock monotonic uuid uniform execute cfg n m in
  m_queue m' = []
  /\ forall id r, d_get id (t_runs (rows m)) = Some r -> str_in (r_status r) ["queued"; "running"] = true ->
     exists r', d_get id (t_runs (rows m')) = Some r' /\ str_in (r_status r') ["succeeded"; "failed"; "canceled"] = true
       /\ r_attempts r' <= Z.max (r_max_attempts r) (r_attempts r + 1).
Proof.
  intros Hu Ho He Ht Hw m'. destruct (turns_drain clock monotonic uuid uniform execute cfg Hu Ho He n m Ht Hw) as (Ht' & Hq & Hm).
  fold m' in Ht', Hq, Hm. split; [done|]. intros id r Hr Hl.
  destruct (Hm id (core_of r)) as (c & Hc & Hadv & _); [unfold core_at; by rewrite Hr|].
  pose proof Hc as (r' & Hr' & ->)%fmap_Some. exists r'. split; [done|].
  assert (is_live (core_of r') = false) as Hl'.
  { destruct (is_live (core_of r')) eqn:E; [|done]. destruct (tidy_live _ Ht' _ _ Hc E) as [_ H]. rewrite Hq in H. by apply elem_of_nil in H. }
  destruct Hadv as [E|(_ & [(_ & Hs & _)|[He' Ha]])].
  - change (is_live (core_of r) = true) in Hl. congruence.
  - unfold is_live in Hl'. by rewrite Hs in Hl'.
  - split; [by apply str_in_spec|done].
Qed.

(** The system of [RunRaces], with the executor that always times out: two
    attempts, three turns. *)
Lemma demo_expires n :
  exists ttl e, timedelta_us (run_lease_ttl_sec demo_cfg) = Ok ttl /\ add_us (demo_clock n) ttl = Ok e.
Proof.
  exists 365000000, (demo_clock n + 365000000). split; [vm_compute; reflexivity|]. unfold add_us.
  assert (dt_day (demo_clock n + 365000000) = 20454) as ->; [|done].
  unfold dt_day, demo_clock. change us_per_day with 86400000000. symmetry. apply (Z.div_unique _ _ _ (365000000 + Z.min (Z.of_nat n) 900000 * 1000)); lia.
Qed.

Lemma demo_tidy : tidy demo_manager.
Proof.
  assert (forall id c, core_at (rows demo_manager) id = Some c -> id = "r1" /\ c = Core no_lease "queued" 0 2) as H.
  { intros id c. unfold core_at. cbn. destruct (String.eqb_spec id "r1"); cbn; [|done]. by intros [= <-]. }
  constructor; [done|by repeat constructor|..]; intros id c [-> ->]%H; [|by split; [|left]].
  split; [by split|done].
Qed.

Lemma worker_drains_witness :
  m_queue (turns demo_clock demo_monotonic demo_uuid demo_uniform slow_execute demo_cfg 3 demo_manager) = [].
Proof.
  refine (proj1 (worker_drains demo_clock demo_monotonic demo_uuid demo_uniform slow_execute demo_cfg 3 demo_manager
    _ _ demo_expires demo_tidy _)).
  - intros n. split; [apply demo_uuid_text|by destruct n].
  - by split.
  - vm_compute. lia.
Defined.

(** The first worker of [overtaken], at its last check of the lease. *)
Definition row_of (m : manager) : run_row := default demo_run (d_get "r1" (t_runs (rows m))).
Definition stale_pool : list (label * thread manager unit) :=
  [(start_label False, finishing_worker demo_clock demo_monotonic demo_uniform demo_cfg "r1" "u" (Some 0%nat)
     (Done []) (fun _ => Done tt) demo_run 1 2 0 fzero)].

Lemma stale_worker_requeues_finished_run_witness :
  rtc (demo_step demo_execute) ([], demo_manager) overtaken
  /\ exists l' m' r', rtc (acts (upd demo_uuid) 0) (stale_pool, overtaken.2) (<[0%nat := (l', Done tt)]> stale_pool, m')
       /\ d_get "r1" (t_runs (rows m')) = Some r' /\ r_status r' = "queued" /\ lease_of r' = lease_of (row_of overtaken.2)
       /\ m_queue m' = m_queue overtaken.2 ++ [Some "r1"].
Proof.
  split; [exact overtaken_reached|].
  apply (stale_worker_requeues_finished_run demo_clock demo_monotonic demo_uuid demo_uniform demo_cfg stale_pool overtaken.2 0
    (start_label False) "r1" "u" (Some 0%nat) (Done []) (fun _ => Done tt) demo_run 1 2 0 fzero (row_of overtaken.2));
    [by split|exact demo_expires|by split|by split|reflexivity| | | | |lia|lia| ].
  - vm_compute. reflexivity.
  - vm_compute. reflexivity.
  - vm_compute. discriminate.
  - vm_compute. discriminate.
  - vm_compute. reflexivity.
Defined.

(** The workers of [timed_out]. *)
Definition retry_pool : list (label * thread manager unit) :=
  [(start_label False, failing_worker demo_clock demo_monotonic demo_uniform demo_cfg "r1" "u" demo_run 1 2 0 fzero
      (TaskError TaskTimeoutError "too slow")); demo_worker slow_execute].

Lemma scheduled_retry_lost_witness :
  rtc (demo_step slow_execute) ([], demo_manager) timed_out
  /\ exists li' lj' m' r',
    rtc (fun c c' => acts (upd demo_uuid) 0 c c' \/ acts (upd demo_uuid) 1 c c') (retry_pool, timed_out.2)
      (<[0%nat := (li', Done tt)]> (<[1%nat := (lj', Done tt)]> retry_pool), m')
    /\ d_get "r1" (t_runs (rows m')) = Some r' /\ r_status r' = "queued" /\ lease_of r' = no_lease
    /\ m_queue m' = [] /\ m_stop m' = false.
Proof.
  split; [exact timed_out_reached|].
  apply (scheduled_retry_lost demo_clock demo_monotonic demo_uuid demo_uniform slow_execute demo_cfg retry_pool timed_out.2 0 1
    (start_label False) (start_label False) "r1" "u" demo_run 1 2 0 fzero (TaskError TaskTimeoutError "too slow")
    (row_of timed_out.2) "2026-01-01T00:06:05.008000+00:00");
    [by split|exact demo_expires|by split|by split|lia|reflexivity|reflexivity| | | | |by split|lia|lia| | | | ].
  - vm_compute. reflexivity.
  - vm_compute. reflexivity.
  - vm_compute. discriminate.
  - vm_compute. reflexivity.
  - vm_compute. reflexivity.
  - vm_compute. reflexivity.
  - vm_compute. discriminate.
  - vm_compute. reflexivity.
Defined.

End RunProgress.
