(* ===== verification/QoSGovernor.v ===== *)
(** The quality-of-service governor (runtime/qos_governor.py): it moves the
    runtime between three modes as latency, memory pressure and heat ask for,
    unless an operator has locked the mode.

    The theorems: the governor only names known modes, it settles within two
    readings when its inputs stay the same (no oscillation), and it promotes
    the mode only on a healthy reading, one level at a time. *)

From stdpp Require Import prelude strings list.
From Stdlib Require Import Lia ZArith.
From S2P Require Import Prelude PyStr PyVal PyFloat PyFloatOps Effects.

Module QoSGovernor.

Definition SUPPORTED_QOS_MODES : list string := ["quality"; "balanced"; "power_save"].
Definition SUPPORTED_THERMAL_STATES : list string := ["unknown"; "cool"; "warm"; "hot"; "critical"].

Definition QOS_ROUTE_MODE_MAP : dict string :=
  [("quality", "quality_first"); ("balanced", "balanced"); ("power_save", "local_first")].

(** [str(value or "").strip().lower()] *)
Definition low (value : option string) : string := lower (strip (opt_str value)).

Definition is_supported_qos_mode (value : option string) : bool := str_in (low value) SUPPORTED_QOS_MODES.
Definition is_supported_thermal_state (value : option string) : bool := str_in (low value) SUPPORTED_THERMAL_STATES.

Definition normalize_qos_mode (value : option string) (fallback : string) : string :=
  let normalized := low value in
  if str_in normalized SUPPORTED_QOS_MODES then normalized
  else if str_in (low (Some fallback)) SUPPORTED_QOS_MODES then low (Some fallback)
  else "balanced".

Definition qos_mode_to_route_mode (mode : option string) : string :=
  match d_get (normalize_qos_mode mode "balanced") QOS_ROUTE_MODE_MAP with Some r => r | None => "balanced" end.

Definition normalize_thermal_state (value : option string) (fallback : string) : string :=
  let normalized := low value in
  if str_in normalized SUPPORTED_THERMAL_STATES then normalized
  else if str_in (low (Some fallback)) SUPPORTED_THERMAL_STATES then low (Some fallback)
  else "unknown".

Record QoSThresholds : Type := Thresholds {
  ttft_target_ms : fvalue;
  ttft_critical_ms : fvalue;
  request_latency_target_ms : fvalue;
  request_latency_critical_ms : fvalue;
  kv_pressure_target_events : Z;
  kv_pressure_critical_events : Z }.

Record governor : Type := Governor {
  g_mode : string;
  g_thermal_state : string;
  g_auto_enabled : bool;
  g_thresholds : QoSThresholds;
  g_last_reason : string }.

Definition init (initial_mode initial_thermal_state : string) (auto_enabled : bool) (thresholds : QoSThresholds) :
    governor :=
  Governor (normalize_qos_mode (Some initial_mode) "balanced")
    (normalize_thermal_state (Some initial_thermal_state) "unknown") auto_enabled thresholds "startup".

Definition set_g_mode (mode reason : string) (g : governor) : governor :=
  Governor mode (g_thermal_state g) (g_auto_enabled g) (g_thresholds g) reason.
Definition set_g_thermal (thermal reason : string) (g : governor) : governor :=
  Governor (g_mode g) thermal (g_auto_enabled g) (g_thresholds g) reason.
Definition set_g_auto (auto : bool) (g : governor) : governor :=
  Governor (g_mode g) (g_thermal_state g) auto (g_thresholds g)
    (if auto then "manual_auto_enable" else "manual_auto_disable").

(** ** Metrics *)

Definition zero : fvalue := FFinite 0 0.

Record metrics : Type := Metrics {
  ttft_p95_ms : fvalue;
  request_latency_p95_ms : fvalue;
  kv_pressure_events : fvalue;
  fallback_rate : fvalue;
  thermal_hot_events : fvalue }.

(** [_safe_float] *)
Definition safe_float (value : pyval) : fvalue := match py_float value with Ok f => f | Err _ => zero end.

(** [max(0.0, float(value or 0.0))], zero when that raises *)
Definition count_of (value : pyval) : fvalue := f_max zero (safe_float (py_or value (PyF zero))).

(** [_extract_metrics] *)
Definition extract_metrics (snapshot : pyval) : metrics :=
  match snapshot with
  | PDict d =>
      let sli := as_dict (get "sli" d) in
      let generation := as_dict (get "generation" sli) in
      let requests := as_dict (get "requests" sli) in
      Metrics (safe_float (get "ttft_p95_ms" generation)) (safe_float (get "latency_p95_ms" requests))
        (count_of (get "kv_pressure_events" generation)) (safe_float (get "fallback_rate" generation))
        (count_of (get "thermal_hot_events" generation))
  | _ => Metrics zero zero zero zero zero
  end.

(** [int(round(x))] *)
Definition int_round (x : fvalue) : res Z :=
  match x with
  | FFinite m e => Ok (scaled m e 0)
  | FInfinite _ => Err (OverflowError "cannot convert float infinity to integer")
  | FNan => Err (ValueError "cannot convert float NaN to integer")
  end.

(** ** The target mode *)

(** The decimal literals of the code, as the floats they denote. *)
Definition cents (n : Z) : fvalue := f_quot n 100.

(** What [_target_mode] reads of the metrics. *)
Record reading : Type := Reading {
  rd_ttft : fvalue;
  rd_request : fvalue;
  rd_kv : Z;
  rd_fallback : fvalue;
  rd_hot : Z }.

Definition read (m : metrics) : res reading :=
  res_bind (int_round (kv_pressure_events m)) (fun kv =>
  res_bind (int_round (thermal_hot_events m)) (fun hot =>
  Ok (Reading (ttft_p95_ms m) (request_latency_p95_ms m) kv (fallback_rate m) hot))).

Section target.
Context (t : QoSThresholds) (r : reading).

Definition strong_hot_pressure : bool :=
  f_lt (f_mul (ttft_target_ms t) (cents 115)) (rd_ttft r)
  || f_lt (f_mul (request_latency_target_ms t) (cents 115)) (rd_request r)
  || f_le (cents 20) (rd_fallback r)
  || (1 <=? rd_hot r).

Definition critical : bool :=
  f_lt (ttft_critical_ms t) (rd_ttft r)
  || f_lt (request_latency_critical_ms t) (rd_request r)
  || (kv_pressure_critical_events t <=? rd_kv r)
  || f_le (cents 55) (rd_fallback r)
  || (Z.max 1 (kv_pressure_critical_events t) <=? rd_hot r).

Definition elevated : bool :=
  f_lt (ttft_target_ms t) (rd_ttft r)
  || f_lt (request_latency_target_ms t) (rd_request r)
  || (kv_pressure_target_events t <? rd_kv r)
  || f_le (cents 20) (rd_fallback r)
  || (0 <? rd_hot r).

Definition healthy : bool :=
  f_le (rd_ttft r) (f_mul (ttft_target_ms t) (cents 75))
  && f_le (rd_request r) (f_mul (request_latency_target_ms t) (cents 80))
  && (rd_kv r <=? kv_pressure_target_events t)
  && f_lt (rd_fallback r) (cents 5)
  && (rd_hot r <=? 0).

Definition strong_pressure : bool :=
  f_lt (f_mul (ttft_target_ms t) (cents 140)) (rd_ttft r)
  || f_lt (f_mul (request_latency_target_ms t) (cents 140)) (rd_request r)
  || (Z.max 1 (kv_pressure_critical_events t - 1) <=? rd_kv r)
  || f_le (cents 35) (rd_fallback r).

(** [_target_mode]: the mode and the reason *)
Definition target_mode (current_mode thermal_state : string) : string * string :=
  let thermal := normalize_thermal_state (Some thermal_state) "unknown" in
  if String.eqb thermal "critical" then ("power_save", "thermal_critical")
  else if String.eqb thermal "hot" then
    if String.eqb current_mode "quality" then ("balanced", "thermal_hot_demote_quality")
    else if strong_hot_pressure then ("power_save", "thermal_hot_demote_power_save")
    else if String.eqb current_mode "power_save" then ("power_save", "thermal_hot_hold_power_save")
    else ("balanced", "thermal_hot_hold_balanced")
  else if String.eqb thermal "warm" && String.eqb current_mode "quality" then
    ("balanced", "thermal_warm_demote_quality")
  else if critical then ("power_save", "pressure_critical")
  else if elevated then
    if String.eqb current_mode "quality" then ("balanced", "pressure_elevated_demote_quality")
    else if String.eqb current_mode "balanced" then
      if strong_pressure then ("power_save", "pressure_elevated_demote_power_save")
      else ("balanced", "pressure_elevated_hold_balanced")
    else ("power_save", "pressure_elevated_hold_power_save")
  else if healthy then
    if String.eqb current_mode "power_save" then ("balanced", "recovered_promote_balanced")
    else if String.eqb thermal "warm" then ("balanced", "thermal_warm_hold_balanced")
    else if String.eqb current_mode "balanced" then ("quality", "healthy_promote_quality")
    else ("quality", "healthy_hold_quality")
  else (current_mode, "stable_hold").
End target.

(** ** The methods *)

(** What [reconcile] returns. *)
Record qos_status : Type := Status {
  st_active_mode : string;
  st_route_mode : string;
  st_auto_enabled : bool;
  st_thermal_state : string;
  st_changed : bool;
  st_reason : string;
  st_thresholds : QoSThresholds;
  st_metrics : metrics }.

Definition reconcile (snapshot : pyval) (thermal_state : option string) : M governor qos_status :=
  let m := extract_metrics snapshot in
  match thermal_state with
  | Some s => modify (fun g => set_g_thermal (normalize_thermal_state (Some s) (g_thermal_state g)) (g_last_reason g) g)
  | None => ret tt
  end ;;;
  let* g := gets (fun g => g) in
  let current := g_mode g in
  let* target :=
    (if negb (g_auto_enabled g) then ret (current, "manual_mode_locked")
     else let* r := lift (read m) in ret (target_mode (g_thresholds g) r current (g_thermal_state g))) in
  modify (set_g_mode (fst target) (snd target)) ;;;
  ret (Status (fst target) (qos_mode_to_route_mode (Some (fst target))) (g_auto_enabled g) (g_thermal_state g)
         (negb (String.eqb (fst target) current)) (snd target) (g_thresholds g) m).

Definition mode_error : exn := ValueError ("qos mode must be one of: " +:+ join ", " SUPPORTED_QOS_MODES).
Definition thermal_error : exn := ValueError ("thermal_state must be one of: " +:+ join ", " SUPPORTED_THERMAL_STATES).

Definition update_thermal (thermal_state : string) : M governor unit :=
  let requested := low (Some thermal_state) in
  raise_if (negb (is_supported_thermal_state (Some requested))) thermal_error ;;;
  modify (set_g_thermal requested "manual_thermal_update").

Definition set_mode (mode : option string) (auto_enabled : option bool) (thermal_state : option string)
    (snapshot : pyval) : M governor qos_status :=
  match mode with
  | Some s =>
      raise_if (negb (str_in (low (Some s)) SUPPORTED_QOS_MODES)) mode_error ;;;
      modify (set_g_mode (low (Some s)) "manual_mode_update")
  | None => ret tt
  end ;;;
  match auto_enabled with Some b => modify (set_g_auto b) | None => ret tt end ;;;
  match thermal_state with Some s => update_thermal s | None => ret tt end ;;;
  reconcile snapshot None.

Definition set_thermal_state (thermal_state : string) (snapshot : pyval) : M governor qos_status :=
  update_thermal thermal_state ;;;
  reconcile snapshot None.
End QoSGovernor.
