(* ===== verification/QoSFacts.v ===== *)
(** What the quality-of-service governor promises over all sequences of calls. *)

From stdpp Require Import prelude strings list.
From Stdlib Require Import Lia ZArith.
From S2P Require Import Prelude PyStr PyVal PyFloat PyFloatOps Effects QoSGovernor.
Import QoSGovernor.

Module QoSFacts.

(** ** Calls and the governors they reach *)

Inductive call : Type :=
  | Reconcile (snapshot : pyval) (thermal_state : option string)
  | SetMode (mode : option string) (auto_enabled : option bool) (thermal_state : option string) (snapshot : pyval)
  | SetThermalState (thermal_state : string) (snapshot : pyval).

Definition perform (c : call) : M governor qos_status :=
  match c with
  | Reconcile s th => reconcile s th
  | SetMode m a th s => set_mode m a th s
  | SetThermalState th s => set_thermal_state th s
  end.

(** The state stays when a call raises. *)
Definition after (c : call) (g : governor) : governor := snd (perform c g).

Inductive reachable : governor -> Prop :=
  | reach_init mode thermal auto thresholds : reachable (init mode thermal auto thresholds)
  | reach_call c g : reachable g -> reachable (after c g).

Definition known (g : governor) : Prop :=
  g_mode g ∈ SUPPORTED_QOS_MODES /\ g_thermal_state g ∈ SUPPORTED_THERMAL_STATES.

Lemma normalize_mode_known v f : normalize_qos_mode v f ∈ SUPPORTED_QOS_MODES.
Proof.
  unfold normalize_qos_mode. cbv zeta. destruct (str_in (low v) _) eqn:E; [by apply str_in_spec|].
  destruct (str_in (low (Some f)) _) eqn:E'; [by apply str_in_spec|]. apply str_in_spec. reflexivity.
Qed.
Lemma normalize_thermal_known v f : normalize_thermal_state v f ∈ SUPPORTED_THERMAL_STATES.
Proof.
  unfold normalize_thermal_state. cbv zeta. destruct (str_in (low v) _) eqn:E; [by apply str_in_spec|].
  destruct (str_in (low (Some f)) _) eqn:E'; [by apply str_in_spec|]. apply str_in_spec. reflexivity.
Qed.
Lemma normalize_thermal_id s f : s ∈ SUPPORTED_THERMAL_STATES -> normalize_thermal_state (Some s) f = s.
Proof. unfold SUPPORTED_THERMAL_STATES. rewrite !elem_of_cons, elem_of_nil. by intros [->|[->|[->|[->|[->|[]]]]]]. Qed.

Ltac modes H := unfold SUPPORTED_QOS_MODES in H; rewrite !elem_of_cons, elem_of_nil in H; destruct H as [->|[->|[->|[]]]].
Ltac thermals H :=
  unfold SUPPORTED_THERMAL_STATES in H; rewrite !elem_of_cons, elem_of_nil in H; destruct H as [->|[->|[->|[->|[->|[]]]]]].

(** The target for concrete names, as a function of what was measured. *)
Ltac targets Hm Hth :=
  unfold target_mode; rewrite ?(normalize_thermal_id _ _ Hth);
  modes Hm; thermals Hth;
  cbn -[strong_hot_pressure critical elevated healthy strong_pressure];
  repeat match goal with |- context [if ?b then _ else _] =>
    match b with context [if _ then _ else _] => fail 1 | _ => destruct b eqn:?; cbn -[strong_hot_pressure critical elevated healthy strong_pressure] end end.

Lemma target_known t r m th :
  m ∈ SUPPORTED_QOS_MODES -> th ∈ SUPPORTED_THERMAL_STATES -> fst (target_mode t r m th) ∈ SUPPORTED_QOS_MODES.
Proof.
  intros Hm Hth. apply str_in_spec. targets Hm Hth; reflexivity.
Qed.

(** [reconcile] with its thermal argument already stored *)
Definition moves (snapshot : pyval) (g g' : governor) : Prop :=
  g_thermal_state g' = g_thermal_state g /\ g_auto_enabled g' = g_auto_enabled g /\ g_thresholds g' = g_thresholds g
  /\ (g_mode g' = g_mode g
      \/ g_auto_enabled g = true /\ exists r, read (extract_metrics snapshot) = Ok r
         /\ g_mode g' = fst (target_mode (g_thresholds g) r (g_mode g) (g_thermal_state g))).

Lemma reconcile_moves snapshot g : moves snapshot g (snd (reconcile snapshot None g)).
Proof.
  unfold reconcile, bind, ret, gets, modify, lift. destruct (g_auto_enabled g) eqn:Ea; cbn [negb].
  - destruct (read _) as [r|e] eqn:Er; cbn; [|by split_and!; [..|left]]. split_and!; [done..|]. right. eauto.
  - by split_and!; [..|left].
Qed.

Definition with_thermal (thermal_state : option string) (g : governor) : governor :=
  match thermal_state with
  | Some s => set_g_thermal (normalize_thermal_state (Some s) (g_thermal_state g)) (g_last_reason g) g
  | None => g
  end.

Lemma reconcile_thermal snapshot th g : reconcile snapshot th g = reconcile snapshot None (with_thermal th g).
Proof. by destruct th. Qed.

Lemma moves_known snapshot g g' : known g -> moves snapshot g g' -> known g'.
Proof.
  intros [Hm Ht] (E1 & _ & _ & H). split; [|by rewrite E1].
  destruct H as [->|(_ & r & _ & ->)]; [done|by apply target_known].
Qed.

Lemma preserves_reconcile snapshot th : preserves known (reconcile snapshot th).
Proof.
  intros g Hg. rewrite reconcile_thermal. assert (known (with_thermal th g)) as H.
  { destruct th; [|done]. split; [apply Hg|apply normalize_thermal_known]. }
  pose proof (moves_known _ _ _ H (reconcile_moves snapshot (with_thermal th g))).
  by destruct (reconcile _ _ _) as [[] ?].
Qed.

Lemma low_idemp v : low (Some (low v)) = low v.
Proof. unfold low. cbn [opt_str]. by rewrite strip_lower, strip_idemp, lower_idemp. Qed.

Lemma preserves_thermal s : preserves known (update_thermal s).
Proof.
  intros g [Hm Ht]. unfold update_thermal, bind, raise_if. cbv zeta.
  destruct (is_supported_thermal_state (Some (low (Some s)))) eqn:E; [|done]. split; [done|]. cbn.
  unfold is_supported_thermal_state in E. rewrite low_idemp in E. by apply str_in_spec.
Qed.

Lemma preserves_perform c : preserves known (perform c).
Proof.
  destruct c as [s th|m a th s|th s]; cbn; [apply preserves_reconcile| |].
  - apply preserves_bind; [|intros _; apply preserves_bind; [|intros _; apply preserves_bind;
      [destruct th; [apply preserves_thermal|apply preserves_ret]|intros _; apply preserves_reconcile]]].
    + destruct m as [m|]; [|apply preserves_ret]. intros g [Hm Ht]. unfold bind, raise_if.
      destruct (str_in (low (Some m)) SUPPORTED_QOS_MODES) eqn:E; [|done]. split; [by apply str_in_spec|done].
    + destruct a as [b|]; [|apply preserves_ret]. by intros g Hg.
  - apply preserves_bind; [apply preserves_thermal|intros _; apply preserves_reconcile].
Qed.

Lemma reachable_known g : reachable g -> known g.
Proof.
  induction 1 as [m th a t|c g _ IH]; [split; [apply normalize_mode_known|apply normalize_thermal_known]|].
  pose proof (preserves_perform c g IH) as H. unfold after. by destruct (perform c g) as [[] ?].
Qed.

(** ** No oscillation *)

(** The governor after [n] readings of one snapshot. *)
Fixpoint readings (n : nat) (snapshot : pyval) (g : governor) : governor :=
  match n with O => g | S n' => readings n' snapshot (after (Reconcile snapshot None) g) end.

Definition rank (mode : string) : Z :=
  if String.eqb mode "quality" then 2 else if String.eqb mode "balanced" then 1 else 0.

(** The target grows with the current mode ... *)
Lemma target_monotone t r th :
  th ∈ SUPPORTED_THERMAL_STATES ->
  let f m := fst (target_mode t r m th) in
  rank (f "power_save") <= rank (f "balanced") /\ rank (f "balanced") <= rank (f "quality").
Proof.
  intros Hth. cbv zeta. unfold target_mode. rewrite (normalize_thermal_id _ _ Hth). thermals Hth;
  cbn -[strong_hot_pressure critical elevated healthy strong_pressure];
  destruct (strong_hot_pressure t r), (critical t r), (elevated t r), (healthy t r), (strong_pressure t r); by cbn.
Qed.

(** ... so a third look at the same measurements changes nothing. *)
Lemma monotone_settles (f : string -> string) m :
  (forall m, m ∈ SUPPORTED_QOS_MODES -> f m ∈ SUPPORTED_QOS_MODES) ->
  rank (f "power_save") <= rank (f "balanced") -> rank (f "balanced") <= rank (f "quality") ->
  m ∈ SUPPORTED_QOS_MODES -> f (f (f m)) = f (f m).
Proof.
  intros Hf H1 H2 Hm.
  pose proof (Hf "quality" ltac:(by apply str_in_spec)) as Hq. pose proof (Hf "balanced" ltac:(by apply str_in_spec)) as Hb.
  pose proof (Hf "power_save" ltac:(by apply str_in_spec)) as Hp.
  unfold SUPPORTED_QOS_MODES in Hm, Hq, Hb, Hp. rewrite !elem_of_cons, elem_of_nil in Hm, Hq, Hb, Hp.
  destruct Hq as [Hq|[Hq|[Hq|[]]]], Hb as [Hb|[Hb|[Hb|[]]]], Hp as [Hp|[Hp|[Hp|[]]]];
    rewrite Hq, Hb, Hp in *; cbn in H1, H2; try lia;
    destruct Hm as [->|[->|[->|[]]]]; by rewrite ?Hq, ?Hb, ?Hp, ?Hq, ?Hb, ?Hp.
Qed.

Lemma target_settles t r m th :
  m ∈ SUPPORTED_QOS_MODES -> th ∈ SUPPORTED_THERMAL_STATES ->
  let f m := fst (target_mode t r m th) in f (f (f m)) = f (f m).
Proof.
  intros Hm Hth f. destruct (target_monotone t r th Hth). apply monotone_settles; try done.
  intros m' Hm'. by apply target_known.
Qed.

Lemma reconcile_mode snapshot g :
  let g' := after (Reconcile snapshot None) g in
  g_thermal_state g' = g_thermal_state g /\ g_auto_enabled g' = g_auto_enabled g /\ g_thresholds g' = g_thresholds g
  /\ g_mode g' = if g_auto_enabled g
       then match read (extract_metrics snapshot) with
            | Ok r => fst (target_mode (g_thresholds g) r (g_mode g) (g_thermal_state g))
            | Err _ => g_mode g
            end
       else g_mode g.
Proof.
  cbv zeta. unfold after, perform, reconcile, bind, ret, gets, modify, lift.
  destruct (g_auto_enabled g) eqn:Ea; cbn [negb]; [|by split_and!]. destruct (read _); by split_and!.
Qed.

Lemma third_reading_idle snapshot g :
  known g -> g_mode (readings 3 snapshot g) = g_mode (readings 2 snapshot g).
Proof.
  intros [Hm Ht]. cbn [readings]. set (g1 := after _ g). set (g2 := after _ g1).
  destruct (reconcile_mode snapshot g) as (A1 & A2 & A3 & A4). fold g1 in A1, A2, A3, A4.
  destruct (reconcile_mode snapshot g1) as (B1 & B2 & B3 & B4). fold g2 in B1, B2, B3, B4.
  destruct (reconcile_mode snapshot g2) as (_ & _ & _ & ->).
  rewrite B4, B2, B1, B3, A2, A1, A3, A4. destruct (g_auto_enabled g); [|done].
  destruct (read _) as [r|]; [|done]. by apply (target_settles (g_thresholds g) r).
Qed.

Lemma readings_known n snapshot g : reachable g -> reachable (readings n snapshot g).
Proof. revert g. induction n as [|n IH]; intros g H; [done|]. apply IH. by constructor. Qed.

Lemma readings_add n k snapshot g : readings (n + k) snapshot g = readings k snapshot (readings n snapshot g).
Proof. revert g. induction n as [|n IH]; intros g; [done|]. apply IH. Qed.

(** C23. The governor does not oscillate: whatever was measured and whatever
    the thresholds are, reading the same snapshot again and again fixes the
    mode after the second reading. *)
Theorem qos_settles g snapshot n :
  reachable g -> g_mode (readings (n + 2) snapshot g) = g_mode (readings 2 snapshot g).
Proof.
  intros Hg. induction n as [|n IH]; [done|]. rewrite <- IH.
  replace (S n + 2)%nat with (n + 3)%nat by lia. rewrite !readings_add.
  by apply third_reading_idle, reachable_known, readings_known.
Qed.

(** ** Promotion *)

Lemma target_promotes t r m th :
  m ∈ SUPPORTED_QOS_MODES -> th ∈ SUPPORTED_THERMAL_STATES ->
  let m' := fst (target_mode t r m th) in
  rank m < rank m' ->
  healthy t r = true /\ elevated t r = false /\ critical t r = false /\ rank m' = rank m + 1
  /\ th <> "hot" /\ th <> "critical" /\ (m' = "quality" -> th <> "warm").
Proof.
  intros Hm Hth. cbv zeta. targets Hm Hth; intros; try (unfold rank in *; cbn in *; lia); by split_and!.
Qed.

(** Reconciling raises the mode only when the governor is in charge, every
    measurement is within its healthy margin, the machine is neither hot nor
    critical (nor warm, for the quality mode), and then by one level. *)
Theorem qos_promotes_when_healthy g snapshot thermal st g' :
  reachable g -> reconcile snapshot thermal g = (Ok st, g') -> rank (g_mode g) < rank (g_mode g') ->
  g_auto_enabled g = true /\ (g_thermal_state g' ∉ ["hot"; "critical"])
  /\ (g_mode g' = "quality" -> g_thermal_state g' <> "warm") /\ rank (g_mode g') = rank (g_mode g) + 1
  /\ exists r, read (extract_metrics snapshot) = Ok r /\ healthy (g_thresholds g) r = true
     /\ elevated (g_thresholds g) r = false /\ critical (g_thresholds g) r = false.
Proof.
  intros Hg%reachable_known E Hr. rewrite reconcile_thermal in E. set (g0 := with_thermal thermal g) in E.
  assert (known g0 /\ g_mode g0 = g_mode g /\ g_auto_enabled g0 = g_auto_enabled g /\ g_thresholds g0 = g_thresholds g)
    as ([Hm Ht] & Em & Ea & Eth).
  { subst g0. destruct thermal; cbn; split_and!; try done. split; [apply Hg|apply normalize_thermal_known]. }
  destruct (reconcile_mode snapshot g0) as (B1 & B2 & B3 & B4). unfold after, perform in *. rewrite E in *. cbn [snd] in *.
  rewrite Em, Ea, Eth in *. destruct (g_auto_enabled g); [|rewrite B4 in Hr; lia].
  destruct (read _) as [r|]; [|rewrite B4 in Hr; lia]. rewrite B4 in *.
  destruct (target_promotes (g_thresholds g) r (g_mode g) (g_thermal_state g0) ltac:(by apply Hg) Ht Hr)
    as (H1 & H2 & H3 & H4 & H5 & H6 & H7).
  split_and!; [done| |by rewrite B1|done|by exists r].
  rewrite B1, !elem_of_cons, elem_of_nil. by intros [?|[?|[]]].
Qed.

(** ** Examples *)

Definition demo_thresholds : QoSThresholds :=
  Thresholds (FFinite 1200 0) (FFinite 2500 0) (FFinite 1800 0) (FFinite 4000 0) 1 4.

Lemma qos_settles_witness :
  g_mode (readings (5 + 2) (PDict []) (init "power_save" "cool" true demo_thresholds)) = "quality".
Proof. rewrite (qos_settles _ _ 5 (reach_init _ _ _ _)). vm_compute. reflexivity. Defined.

Lemma qos_promotes_when_healthy_witness :
  rank (g_mode (snd (reconcile (PDict []) (Some "warm") (init "power_save" "cool" true demo_thresholds))))
  = rank "power_save" + 1.
Proof.
  destruct (qos_promotes_when_healthy (init "power_save" "cool" true demo_thresholds) (PDict [])
    (Some "warm") _ _ (reach_init _ _ _ _) (surjective_pairing _) eq_refl) as (_ & _ & _ & H & _). exact H.
Defined.

End QoSFacts.
