(* ===== verification/AutomationStore.v ===== *)
(** The tables of automations (storage/database.py, storage/migrations.py):
    automations with their leases, the register of dispatches, events and the
    inbox, beside the tables of agent runs on one connection.

    Columns that hold JSON are held as the value; [is_enabled] as a flag. *)

From stdpp Require Import prelude strings list.
From Stdlib Require Import Lia ZArith.
From S2P Require Import Prelude PyStr PyVal PyFloat Effects PyTime RunPolicy RunStore RunValues Threads RunManager.
Import RunStore RunManager.

Module AutomationStore.

(** ** Rows *)

Record automation_row : Type := AutomationRow {
  au_id : string;
  au_agent_id : string;
  au_user_id : string;
  au_session_id : option string;
  au_message : string;
  au_interval_sec : Z;
  au_schedule_type : string;
  au_schedule : pydict;
  au_mission_policy : pydict;
  au_timezone : string;
  au_is_enabled : bool;
  au_next_run_at : string;
  au_last_run_at : option string;
  au_last_error : option string;
  au_consecutive_failures : Z;
  au_escalation_level : string;
  au_lease_owner : option string;
  au_lease_expires_at : option string;
  au_backoff_until : option string;
  au_circuit_open_until : option string;
  au_last_dispatch_key : option string;
  au_created_at : string;
  au_updated_at : string }.

Record event_row : Type := EventRow {
  e_automation_id : string;
  e_event_type : string;
  e_message : string;
  e_run_id : option string;
  e_created_at : string }.

Record dispatch_row : Type := DispatchRow {
  d_automation_id : string;
  d_dispatch_key : string;
  d_source : string;
  d_run_id : option string;
  d_created_at : string }.

Record inbox_row : Type := InboxRow {
  x_id : string;
  x_user_id : string;
  x_category : string;
  x_severity : string;
  x_title : string;
  x_body : string;
  x_source_type : option string;
  x_source_id : option string;
  x_run_id : option string;
  x_metadata : pydict;
  x_is_read : bool;
  x_requires_action : bool;
  x_created_at : string;
  x_updated_at : string }.

Record auto_tables : Type := AutoTables {
  t_automations : dict automation_row;
  t_events : list event_row;
  t_dispatches : list dispatch_row;
  t_inbox : list inbox_row }.

(** The connection and its services: the run manager with the tables of runs
    and agents, the tables of automations as seen and as committed, the events
    sent by the scheduler, its flags, and the looks it took at the file
    system. *)
Record world : Type := World {
  w_manager : manager;
  w_auto : auto_tables;
  w_auto_saved : auto_tables;
  w_events : list (string * pydict);
  w_started : bool;
  w_stop : bool;
  w_looks : nat }.

Definition set_manager (m : manager) (w : world) : world :=
  World m (w_auto w) (w_auto_saved w) (w_events w) (w_started w) (w_stop w) (w_looks w).
Definition set_auto (cur saved : auto_tables) (w : world) : world :=
  World (w_manager w) cur saved (w_events w) (w_started w) (w_stop w) (w_looks w).
Definition add_sent (e : string * pydict) (w : world) : world :=
  World (w_manager w) (w_auto w) (w_auto_saved w) (w_events w ++ [e]) (w_started w) (w_stop w) (w_looks w).
Definition set_sched_flags (started stop : bool) (w : world) : world :=
  World (w_manager w) (w_auto w) (w_auto_saved w) (w_events w) started stop (w_looks w).

Definition add_look (w : world) : world :=
  World (w_manager w) (w_auto w) (w_auto_saved w) (w_events w) (w_started w) (w_stop w) (S (w_looks w)).

Abbreviation conn w := (m_store (w_manager w)).
Definition set_conn (st : store) (w : world) : world := set_manager (set_store st (w_manager w)) w.

(** A method of the run manager, or a query of its tables. *)
Definition on_manager {A} (op : M manager A) : M world A := fun w =>
  let '(r, m) := op (w_manager w) in (r, set_manager m w).
Definition on_runs {A} (op : M store A) : M world A := on_manager (on_store op).

(** ** Transactions, over all tables of the connection *)

Definition commit_locked : M world unit := fun w =>
  if (0 <? s_depth (conn w))%nat then on_runs RunStore.commit_locked w
  else on_runs RunStore.commit_locked (set_auto (w_auto w) (w_auto w) w).

Definition transaction {A} (m : M world A) : M world A := fun w =>
  match m (set_conn (tx_enter (conn w)) w) with
  | (Ok a, w') =>
      (Ok a, set_conn (tx_return (conn w'))
               (if (s_depth (conn w') =? 1)%nat && s_pending (conn w') then set_auto (w_auto w') (w_auto w') w' else w'))
  | (Err e, w') =>
      (Err e, set_conn (tx_raise (conn w'))
               (if (s_depth (conn w') =? 1)%nat then set_auto (w_auto_saved w') (w_auto_saved w') w' else w'))
  end.

Definition update_auto (f : auto_tables -> auto_tables) : M world unit :=
  modify (fun w => set_auto (f (w_auto w)) (w_auto_saved w) w).

Definition set_automations (rows : dict automation_row) (t : auto_tables) : auto_tables :=
  AutoTables rows (t_events t) (t_dispatches t) (t_inbox t).
Definition set_events (rows : list event_row) (t : auto_tables) : auto_tables :=
  AutoTables (t_automations t) rows (t_dispatches t) (t_inbox t).
Definition set_dispatches (rows : list dispatch_row) (t : auto_tables) : auto_tables :=
  AutoTables (t_automations t) (t_events t) rows (t_inbox t).
Definition set_inbox (rows : list inbox_row) (t : auto_tables) : auto_tables :=
  AutoTables (t_automations t) (t_events t) (t_dispatches t) rows.

(** ** Columns an update may set *)

Definition level_of (v : string) : string :=
  let normalized := lower (strip v) in if str_in normalized ["none"; "warning"; "critical"] then normalized else "none".

Inductive auto_field : Type :=
  | AAgentId (v : string)
  | AUserId (v : string)
  | ASessionId (v : option string)
  | AMessage (v : string)
  | AIntervalSec (v : Z)
  | AScheduleType (v : string)
  | ASchedule (v : pydict)
  | AMissionPolicy (v : pydict)
  | ATimezone (v : string)
  | AIsEnabled (v : bool)
  | ANextRunAt (v : string)
  | ALastRunAt (v : option string)
  | ALastError (v : option string)
  | AConsecutiveFailures (v : Z)
  | AEscalationLevel (v : string)
  | ALeaseOwner (v : option string)
  | ALeaseExpiresAt (v : option string)
  | ABackoffUntil (v : option string)
  | ACircuitOpenUntil (v : option string)
  | ALastDispatchKey (v : option string)
  | AUpdatedAt (v : string).

Definition set_auto_field (f : auto_field) (r : automation_row) : automation_row :=
  let '(AutomationRow id agent user session msg interval stype sched policy tz enabled
          next last error failures level owner expires backoff circuit key created updated) := r in
  match f with
  | AAgentId v => AutomationRow id v user session msg interval stype sched policy tz enabled
      next last error failures level owner expires backoff circuit key created updated
  | AUserId v => AutomationRow id agent v session msg interval stype sched policy tz enabled
      next last error failures level owner expires backoff circuit key created updated
  | ASessionId v => AutomationRow id agent user v msg interval stype sched policy tz enabled
      next last error failures level owner expires backoff circuit key created updated
  | AMessage v => AutomationRow id agent user session v interval stype sched policy tz enabled
      next last error failures level owner expires backoff circuit key created updated
  | AIntervalSec v => AutomationRow id agent user session msg (Z.max 10 v) stype sched policy tz enabled
      next last error failures level owner expires backoff circuit key created updated
  | AScheduleType v => AutomationRow id agent user session msg interval v sched policy tz enabled
      next last error failures level owner expires backoff circuit key created updated
  | ASchedule v => AutomationRow id agent user session msg interval stype v policy tz enabled
      next last error failures level owner expires backoff circuit key created updated
  | AMissionPolicy v => AutomationRow id agent user session msg interval stype sched v tz enabled
      next last error failures level owner expires backoff circuit key created updated
  | ATimezone v => AutomationRow id agent user session msg interval stype sched policy v enabled
      next last error failures level owner expires backoff circuit key created updated
  | AIsEnabled v => AutomationRow id agent user session msg interval stype sched policy tz v
      next last error failures level owner expires backoff circuit key created updated
  | ANextRunAt v => AutomationRow id agent user session msg interval stype sched policy tz enabled
      v last error failures level owner expires backoff circuit key created updated
  | ALastRunAt v => AutomationRow id agent user session msg interval stype sched policy tz enabled
      next v error failures level owner expires backoff circuit key created updated
  | ALastError v => AutomationRow id agent user session msg interval stype sched policy tz enabled
      next last v failures level owner expires backoff circuit key created updated
  | AConsecutiveFailures v => AutomationRow id agent user session msg interval stype sched policy tz enabled
      next last error (Z.max 0 v) level owner expires backoff circuit key created updated
  | AEscalationLevel v => AutomationRow id agent user session msg interval stype sched policy tz enabled
      next last error failures (level_of v) owner expires backoff circuit key created updated
  | ALeaseOwner v => AutomationRow id agent user session msg interval stype sched policy tz enabled
      next last error failures level v expires backoff circuit key created updated
  | ALeaseExpiresAt v => AutomationRow id agent user session msg interval stype sched policy tz enabled
      next last error failures level owner v backoff circuit key created updated
  | ABackoffUntil v => AutomationRow id agent user session msg interval stype sched policy tz enabled
      next last error failures level owner expires v circuit key created updated
  | ACircuitOpenUntil v => AutomationRow id agent user session msg interval stype sched policy tz enabled
      next last error failures level owner expires backoff v key created updated
  | ALastDispatchKey v => AutomationRow id agent user session msg interval stype sched policy tz enabled
      next last error failures level owner expires backoff circuit v created updated
  | AUpdatedAt v => AutomationRow id agent user session msg interval stype sched policy tz enabled
      next last error failures level owner expires backoff circuit key created v
  end.

Definition set_auto_fields (fs : list auto_field) (r : automation_row) : automation_row :=
  fold_left (fun r f => set_auto_field f r) fs r.

(** [UPDATE automations SET ... WHERE id = ?] *)
Definition map_automation (automation_id : string) (f : automation_row -> automation_row) (t : auto_tables) : auto_tables :=
  match d_get automation_id (t_automations t) with
  | Some r => set_automations (d_set automation_id (f r) (t_automations t)) t
  | None => t
  end.

Section tables.
Context (clock : nat -> Z) (uuid : nat -> string).

Definition utc_now : M world string := on_manager (RunManager.utc_now clock).

(** ** [automations] *)

Definition create_automation (automation_id agent_id user_id : string) (session_id : option string) (message : string)
    (interval_sec : Z) (next_run_at schedule_type : string) (schedule : pydict) (timezone_name : string)
    (mission_policy : pydict) : M world unit :=
  let* now := utc_now in
  let* t := gets w_auto in
  raise_if (d_mem automation_id (t_automations t)) (unique_error "automations.id") ;;;
  update_auto (fun t => set_automations (d_set automation_id
    (AutomationRow automation_id agent_id user_id session_id message (Z.max 10 interval_sec) schedule_type schedule
       mission_policy timezone_name true next_run_at None None 0 "none" None None None None None now now)
    (t_automations t)) t) ;;;
  commit_locked.

(** [_decode_automation_row] *)
Definition decode_automation_row (r : automation_row) : automation_row :=
  set_auto_fields
    [AScheduleType (str_or (au_schedule_type r) "interval"); ATimezone (str_or (au_timezone r) "UTC");
     AConsecutiveFailures (au_consecutive_failures r); AEscalationLevel (au_escalation_level r);
     ALeaseOwner (none_if_empty (au_lease_owner r)); ALeaseExpiresAt (none_if_empty (au_lease_expires_at r));
     ABackoffUntil (none_if_empty (au_backoff_until r)); ACircuitOpenUntil (none_if_empty (au_circuit_open_until r));
     ALastDispatchKey (none_if_empty (au_last_dispatch_key r))] r.

Definition get_automation (automation_id : string) : M world (option automation_row) :=
  gets (fun w => decode_automation_row <$> d_get automation_id (t_automations (w_auto w))).

Definition list_automations (user_id agent_id : option string) (enabled : option bool) (limit : Z) :
    M world (list automation_row) :=
  if limit <=? 0 then ret []
  else gets (fun w =>
    map decode_automation_row
      (take (Z.to_nat limit)
         (sort_by (fun a b => String.leb (au_created_at b) (au_created_at a))
            (List.filter (fun r => column_is user_id (au_user_id r) && column_is agent_id (au_agent_id r)
                                   && match enabled with Some b => Bool.eqb (au_is_enabled r) b | None => true end)
               (d_values (t_automations (w_auto w))))))).

(** A time column that does not hold the row back at [now]. *)
Definition passed (column : option string) (now : string) : bool :=
  match column with None => true | Some t => String.leb t now end.

(** The condition of the claim. *)
Definition claimable (now : string) (r : automation_row) : bool :=
  au_is_enabled r && String.leb (au_next_run_at r) now && passed (au_lease_expires_at r) now
  && passed (au_backoff_until r) now && passed (au_circuit_open_until r) now.

(** The claim of one candidate: the row if the update took it. *)
Definition claim_one (now lease_owner lease_expires_at automation_id : string) : M world (list automation_row) :=
  let* updated := utc_now in
  let* found := gets (fun w => d_get automation_id (t_automations (w_auto w))) in
  match found with
  | Some r =>
      if claimable now r then
        update_auto (map_automation automation_id (set_auto_fields
          [ALeaseOwner (Some lease_owner); ALeaseExpiresAt (Some lease_expires_at); AUpdatedAt updated])) ;;;
        let* row := get_automation automation_id in
        ret (match row with Some r' => [r'] | None => [] end)
      else ret []
  | None => ret []
  end.

Fixpoint claim_all (now lease_owner lease_expires_at : string) (ids : list string) : M world (list automation_row) :=
  match ids with
  | [] => ret []
  | i :: ids' =>
      let* one := claim_one now lease_owner lease_expires_at i in
      let* rest := claim_all now lease_owner lease_expires_at ids' in
      ret (one ++ rest)
  end.

(** The candidates: the claimable rows, the earliest first. *)
Definition due (now : string) (limit : Z) (t : auto_tables) : list automation_row :=
  take (Z.to_nat limit)
    (sort_by (fun a b => String.leb (au_next_run_at a) (au_next_run_at b))
       (List.filter (claimable now) (d_values (t_automations t)))).

Definition claim_due_automations (now_iso : string) (limit : Z) (lease_owner lease_expires_at : string) :
    M world (list automation_row) :=
  if limit <=? 0 then ret []
  else
    let* rows := gets (fun w => due now_iso limit (w_auto w)) in
    let* claimed := claim_all now_iso lease_owner lease_expires_at (map au_id rows) in
    commit_locked ;;;
    ret claimed.

Definition release_automation_lease (automation_id lease_owner : string) : M world unit :=
  let* updated := utc_now in
  update_auto (fun t => match d_get automation_id (t_automations t) with
    | Some r =>
        if match au_lease_owner r with Some o => String.eqb o lease_owner | None => true end
        then map_automation automation_id (set_auto_fields [ALeaseOwner None; ALeaseExpiresAt None; AUpdatedAt updated]) t
        else t
    | None => t
    end) ;;;
  commit_locked.

Definition is_auto_updated_at (f : auto_field) : bool := match f with AUpdatedAt _ => true | _ => false end.

Definition update_automation_fields (automation_id : string) (fields : list auto_field) : M world unit :=
  match fields with
  | [] => ret tt
  | _ =>
      let* sanitized :=
        (if existsb is_auto_updated_at fields then ret fields
         else let* now := utc_now in ret (fields ++ [AUpdatedAt now])) in
      update_auto (map_automation automation_id (set_auto_fields sanitized)) ;;;
      commit_locked
  end.

(** [delete_automation]; the events and dispatches of the row go with it *)
Definition delete_automation (automation_id : string) : M world bool :=
  let* t := gets w_auto in
  update_auto (fun t => AutoTables (d_pop automation_id (t_automations t))
    (List.filter (fun e => negb (String.eqb (e_automation_id e) automation_id)) (t_events t))
    (List.filter (fun d => negb (String.eqb (d_automation_id d) automation_id)) (t_dispatches t)) (t_inbox t)) ;;;
  commit_locked ;;;
  ret (d_mem automation_id (t_automations t)).

(** ** [automation_dispatches] *)

Definition dispatch_is (automation_id dispatch_key : string) (d : dispatch_row) : bool :=
  String.eqb (d_automation_id d) automation_id && String.eqb (d_dispatch_key d) dispatch_key.

Definition find_dispatch (automation_id dispatch_key : string) (t : auto_tables) : option dispatch_row :=
  List.find (dispatch_is automation_id dispatch_key) (t_dispatches t).

Definition map_dispatch (automation_id dispatch_key : string) (f : dispatch_row -> dispatch_row) (t : auto_tables) :
    auto_tables :=
  set_dispatches (map (fun d => if dispatch_is automation_id dispatch_key d then f d else d) (t_dispatches t)) t.

(** May the dispatch of an earlier attempt be taken over? It has no run and is
    not newer than [stale_before]. *)
Definition stale (existing : dispatch_row) (stale_before_iso : string) : bool :=
  match none_if_empty (d_run_id existing) with
  | Some _ => false
  | None => match fromisoformat (d_created_at existing), fromisoformat stale_before_iso with
            | Some created, Some stale_before => created <=? stale_before
            | _, _ => false
            end
  end.

Definition register_automation_dispatch (automation_id dispatch_key source : string) (run_id : option string)
    (stale_before_iso : option string) : M world bool :=
  let* created := utc_now in
  let* t := gets w_auto in
  match find_dispatch automation_id dispatch_key t with
  | None =>
      if d_mem automation_id (t_automations t) then
        update_auto (fun t => set_dispatches
          (t_dispatches t ++ [DispatchRow automation_id dispatch_key source run_id created]) t) ;;;
        commit_locked ;;;
        ret true
      else commit_locked ;;; ret false
  | Some existing =>
      if match stale_before_iso with Some b => stale existing b | None => false end then
        let* updated := utc_now in
        update_auto (map_dispatch automation_id dispatch_key (fun d =>
          DispatchRow (d_automation_id d) (d_dispatch_key d) source run_id updated)) ;;;
        commit_locked ;;;
        ret true
      else commit_locked ;;; ret false
  end.

Definition update_automation_dispatch_run_id (automation_id dispatch_key run_id : string) : M world unit :=
  let* updated := utc_now in
  update_auto (map_dispatch automation_id dispatch_key (fun d =>
    DispatchRow (d_automation_id d) (d_dispatch_key d) (d_source d) (Some run_id) updated)) ;;;
  commit_locked.

Definition delete_automation_dispatch (automation_id dispatch_key : string) : M world unit :=
  update_auto (fun t => set_dispatches
    (List.filter (fun d => negb (dispatch_is automation_id dispatch_key d)) (t_dispatches t)) t) ;;;
  commit_locked.

(** ** [automation_events] *)

Definition add_automation_event (automation_id event_type message : string) (run_id : option string) : M world unit :=
  let* now := utc_now in
  let* t := gets w_auto in
  raise_if (negb (d_mem automation_id (t_automations t))) foreign_key_error ;;;
  update_auto (fun t => set_events (t_events t ++ [EventRow automation_id event_type message run_id now]) t) ;;;
  commit_locked.

(** The last [limit] rows, oldest first. *)
Definition last_rows {A} (limit : Z) (rows : list A) : list A := rev (take (Z.to_nat limit) (rev rows)).

Definition list_recent_automation_events (limit : Z) : M world (list event_row) :=
  if limit <=? 0 then ret [] else gets (fun w => last_rows limit (t_events (w_auto w))).

Definition list_automation_events (automation_id : string) (limit : Z) : M world (list event_row) :=
  if limit <=? 0 then ret []
  else gets (fun w => last_rows limit
         (List.filter (fun e => String.eqb (e_automation_id e) automation_id) (t_events (w_auto w)))).

(** ** [inbox_items] *)

Definition severity_of (severity : string) : string :=
  let normalized := str_or (lower (strip (str_or severity "info"))) "info" in
  if str_in normalized ["info"; "warning"; "error"] then normalized else "info".

(** [_decode_inbox_row] *)
Definition decode_inbox_row (r : inbox_row) : inbox_row :=
  InboxRow (x_id r) (x_user_id r) (lower (strip (str_or (x_category r) "general"))) (severity_of (x_severity r))
    (x_title r) (x_body r) (x_source_type r) (x_source_id r) (x_run_id r) (x_metadata r) (x_is_read r)
    (x_requires_action r) (x_created_at r) (x_updated_at r).

Definition get_inbox_item (item_id : string) : M world (option inbox_row) :=
  gets (fun w => decode_inbox_row <$> List.find (fun r => String.eqb (x_id r) item_id) (t_inbox (w_auto w))).

Definition add_inbox_item (user_id category severity title body : string) (source_type source_id run_id : option string)
    (metadata : pydict) (requires_action : bool) : M world inbox_row :=
  let* item_id := on_manager (new_uuid uuid) in
  let* now := utc_now in
  let* t := gets w_auto in
  raise_if (existsb (fun r => String.eqb (x_id r) item_id) (t_inbox t)) (unique_error "inbox_items.id") ;;;
  update_auto (fun t => set_inbox (t_inbox t ++
    [InboxRow item_id user_id (str_or (lower (strip (str_or category "general"))) "general") (severity_of severity)
       title body source_type source_id run_id metadata false requires_action now now]) t) ;;;
  commit_locked ;;;
  let* item := get_inbox_item item_id in
  match item with Some r => ret r | None => raise (AssertionError "") end.

Definition list_inbox_items (user_id : option string) (unread_only : bool) (category : option string) (limit : Z) :
    M world (list inbox_row) :=
  if limit <=? 0 then ret []
  else gets (fun w =>
    map decode_inbox_row
      (take (Z.to_nat limit)
         (sort_by (fun a b => String.leb (x_created_at b) (x_created_at a))
            (List.filter (fun r => column_is user_id (x_user_id r) && (negb unread_only || negb (x_is_read r))
               && match str_or_none (opt_str category) with
                  | Some c => String.eqb (x_category r) (lower (strip c))
                  | None => true
                  end) (t_inbox (w_auto w)))))).

Definition set_inbox_item_read (item_id : string) (is_read : bool) : M world (option inbox_row) :=
  let* now := utc_now in
  let* t := gets w_auto in
  update_auto (fun t => set_inbox (map (fun r => if String.eqb (x_id r) item_id
    then InboxRow (x_id r) (x_user_id r) (x_category r) (x_severity r) (x_title r) (x_body r) (x_source_type r)
           (x_source_id r) (x_run_id r) (x_metadata r) is_read (x_requires_action r) (x_created_at r) now
    else r) (t_inbox t)) t) ;;;
  commit_locked ;;;
  if existsb (fun r => String.eqb (x_id r) item_id) (t_inbox t) then get_inbox_item item_id else ret None.
End tables.

End AutomationStore.
