(* ===== verification/Automations.v ===== *)
(** The automation scheduler (automation/automation_scheduler.py): it creates,
    updates, pauses and resumes automations, claims the due ones under a lease,
    dispatches each slot as an agent run and keeps count of failures.

    Methods are threads over the database and the run manager ([world]); the
    file system and the circuit breaker are parameters. *)

From stdpp Require Import prelude strings list.
From Stdlib Require Import Lia ZArith Ascii.
From S2P Require Import Prelude PyStr PyVal PyFloat PyFloatOps Effects PyTime Threads RunPolicy RunStore RunValues RunManager Schedule MissionPolicy AutomationStore.
Import RunStore RunManager AutomationStore.

(** What the watcher uses of [pathlib] and the file system; the first argument
    counts the looks taken so far. *)
Class FileSystem : Type := {
  (** [str(Path(p).expanduser())] *)
  fs_expanduser : string -> res string;
  (** [path.exists()] *)
  fs_exists : nat -> string -> bool;
  (** The regular files the pattern selects below the path (or the path
      itself), as the listing yields them: modification time and the name
      relative to the path. *)
  fs_list : nat -> string -> bool -> string -> res (list (Z * string)) }.

(** A thread of the run manager as a thread of the whole system. *)
Fixpoint zoom {A} (t : thread manager A) : thread world A :=
  match t with
  | Done a => Done a
  | Failed e => Failed e
  | Step f => Step (fun w => let '(t', m) := f (w_manager w) in (zoom t', set_manager m w))
  end.

Module Automations.

(** ** Settings *)

Record sched_settings : Type := SchedSettings {
  poll_interval_sec : fvalue;
  batch_size : Z;
  escalation_warning_threshold : Z;
  escalation_critical_threshold : Z;
  escalation_disable_threshold : Z;
  lease_ttl_sec : Z;
  backoff_base_sec : fvalue;
  backoff_max_sec : fvalue;
  circuit_failure_threshold : Z;
  circuit_open_sec : fvalue;
  sched_telemetry : bool;
  sched_owner : string }.

(** [__init__]; [suffix] is the identifier in the lease owner *)
Definition init_scheduler (poll : fvalue) (batch warning critical disable ttl : Z) (base max_backoff : fvalue)
    (threshold : Z) (open : fvalue) (telemetry : bool) (suffix : string) : sched_settings :=
  let warning := Z.max 1 warning in
  let critical := Z.max warning critical in
  let base := f_max (FFinite 1 0) base in
  SchedSettings (f_max (FFinite 1 (-1)) poll) (Z.max 1 batch) warning critical (Z.max (critical + 1) disable)
    (Z.max 5 ttl) base (f_max base max_backoff) (Z.max 1 threshold) (f_max (FFinite 1 0) open) telemetry
    ("scheduler-" +:+ suffix).

Abbreviation pf v := (MissionPolicy.pfloat float_repr v).

(** [_default_mission_policy] *)
Definition default_mission_policy (s : sched_settings) : MissionPolicy.policy :=
  MissionPolicy.Policy "scheduler_default"
    (MissionPolicy.slo_dict (escalation_warning_threshold s) (escalation_critical_threshold s)
       (escalation_disable_threshold s) (pf (backoff_base_sec s)) (pf (backoff_max_sec s))
       (circuit_failure_threshold s) (pf (circuit_open_sec s))).

Definition resolve_policy (s : sched_settings) (policy : pydict) : res MissionPolicy.policy :=
  MissionPolicy.resolve_mission_policy_overlay float_repr (PDict policy) PNone
    (PDict (MissionPolicy.policy_dict (default_mission_policy s))).

(** [_effective_mission_policy] *)
Definition effective_mission_policy (s : sched_settings) (automation : automation_row) : res MissionPolicy.policy :=
  match resolve_policy s (au_mission_policy automation) with
  | Err (ValueError _) => Ok (default_mission_policy s)
  | r => r
  end.

(** [int(mission_slo[key])] and [float(mission_slo[key])] *)
Definition slo_int (slo : pydict) (key : string) : res Z :=
  match d_get key slo with Some v => py_int v | None => Err (KeyError key) end.
Definition slo_float (slo : pydict) (key : string) : res fvalue :=
  match d_get key slo with Some v => py_float v | None => Err (KeyError key) end.

(** [_normalized_schedule_from_row] *)
Definition normalized_schedule_from_row (a : automation_row) : res (string * pydict * Z) :=
  Schedule.normalize_schedule (Some (au_schedule_type a)) (Some (au_schedule a)) (Some (au_interval_sec a)).

(** [_backoff_seconds_for_failures] *)
Definition backoff_seconds_for_failures (failures : Z) (base_sec max_sec : fvalue) : res fvalue :=
  res_bind (py_float (PInt (2 ^ Z.max 0 (failures - 1)))) (fun power => Ok (f_min max_sec (f_mul base_sec power))).

(** [_escalation_level_for_failures] *)
Definition escalation_level_for_failures (failures warning_threshold critical_threshold : Z) : string :=
  if critical_threshold <=? failures then "critical"
  else if warning_threshold <=? failures then "warning"
  else "none".

(** [_build_dispatch_key] *)
Definition build_dispatch_key (source schedule_type slot_iso : string) : string :=
  str_or (lower (strip (str_or source "scheduled"))) "scheduled" +:+ ":"
  +:+ str_or (lower (strip (str_or schedule_type "interval"))) "interval" +:+ ":"
  +:+ str_or (strip slot_iso) "unknown".

(** [_build_watch_message] *)
Definition build_watch_message (base_message : string) (changed_files : list string) : string :=
  strip (join (String (ascii_of_N 10) "")
    ([strip base_message; ""; "Watcher detected file changes:"] ++ map (fun item => "- " +:+ item) changed_files)).

(** [now + timedelta(seconds=x)] as text *)
Definition later (now : Z) (x : fvalue) : res string :=
  res_bind (RunValues.timedelta_us x) (fun delta => res_bind (RunValues.add_us now delta) (fun t => Ok (isoformat t))).

Section scheduler.
Context (clock : nat -> Z) (uuid : nat -> string).
Context (run_cfg : settings) (cfg : sched_settings).
Context `{TimeZones} `{FileSystem}.
(** What the circuit breaker answers at a time, for a user and an agent. *)
Context (breaker : nat -> string -> string -> option breaker_answer).

(** [_emit] *)
Definition emit (event_type : string) (payload : pydict) : M world unit :=
  when (sched_telemetry cfg) (modify (add_sent (event_type, payload))).

Definition read_clock : M world Z := on_manager (RunManager.read_clock clock).
Definition get_agent (agent_id : string) : M world (option agent_row) := on_runs (RunStore.get_agent agent_id).

Definition next_run_at (schedule_type : string) (schedule : pydict) (timezone_name : string) (now : Z) : res string :=
  Schedule.compute_next_run_at now schedule_type schedule timezone_name (Schedule.AwareNow now).

(** [_assert_agent_owner] *)
Definition assert_agent_owner (agent_id user_id : string) : thread world unit :=
  let! agent := atomic (get_agent agent_id) in
  match agent with
  | None => Failed (ValueError ("Agent not found: " +:+ agent_id))
  | Some a =>
      let owner := strip (opt_str (ag_user_id a)) in
      let actor := strip user_id in
      if is_empty owner || is_empty actor || negb (String.eqb owner actor)
      then Failed (ValueError ("Agent ownership mismatch for agent: " +:+ agent_id))
      else Done tt
  end.

(** ** Watching files *)

Definition parse_bool : pyval -> bool -> bool := Schedule.to_bool.

(** [_scan_watch_changes]: the changed files and the schedule with the cursor
    moved *)
Definition scan_watch_changes (schedule : pydict) : M world (list string * pydict) :=
  let watch_path_raw := strip (py_str (get_or "path" (PStr "") schedule)) in
  raise_if (is_empty watch_path_raw) (ValueError "watch_fs schedule requires path") ;;;
  let* watch_path := lift (fs_expanduser watch_path_raw) in
  let* n := gets w_looks in
  modify add_look ;;;
  raise_if (negb (fs_exists n watch_path)) (ValueError ("watch_fs path does not exist: " +:+ watch_path)) ;;;
  let recursive := parse_bool (get_or "recursive" (PBool true) schedule) true in
  let pattern := str_or (strip (py_str (get_or "glob" (PStr "*") schedule))) "*" in
  let* limit := lift (py_int (get_or "max_changed_files" (PInt 20) schedule)) in
  let max_changed_files := Z.max 1 limit in
  let* seen := lift (py_int (get_or "last_seen_mtime_ns" (PInt 0) schedule)) in
  let last_seen_mtime_ns := Z.max 0 seen in
  let* candidates := lift (fs_list n watch_path recursive pattern) in
  let max_seen := fold_left (fun m c => Z.max m (fst c)) candidates last_seen_mtime_ns in
  let changed_rows := sort_by (fun a b => fst a <=? fst b)
    (List.filter (fun c => last_seen_mtime_ns <? fst c) candidates) in
  let changed_files := map snd (drop (length changed_rows - Z.to_nat max_changed_files) changed_rows) in
  let* poll := lift (py_int (get_or "poll_sec" (PInt 10) schedule)) in
  ret (changed_files,
       d_set "last_seen_mtime_ns" (PInt max_seen) (d_set "max_changed_files" (PInt max_changed_files)
         (d_set "glob" (PStr pattern) (d_set "recursive" (PBool recursive) (d_set "poll_sec" (PInt (Z.max 2 poll))
            (d_set "path" (PStr watch_path) schedule)))))).

(** [_current_watch_cursor] *)
Definition current_watch_cursor (schedule : pydict) : M world Z :=
  let* scanned := scan_watch_changes schedule in
  ret (match py_int (get_or "last_seen_mtime_ns" (PInt 0) (snd scanned)) with Ok z => Z.max 0 z | Err _ => 0 end).

(** The cursor of a fresh watcher. *)
Definition with_cursor (fresh : bool) (schedule_type : string) (schedule : pydict) : thread world pydict :=
  if String.eqb schedule_type "watch_fs" && fresh then
    let! cursor := atomic (current_watch_cursor schedule) in
    Done (d_set "last_seen_mtime_ns" (PInt cursor) schedule)
  else Done schedule.

(** ** Managing automations *)

Definition the_automation (automation_id : string) : thread world automation_row :=
  let! row := atomic (get_automation automation_id) in
  match row with
  | Some a => Done a
  | None => Failed (ValueError ("Automation not found: " +:+ automation_id))
  end.

(** [updated = get_automation(...); assert updated is not None; return updated] *)
Definition reread (automation_id : string) : thread world automation_row :=
  let! row := atomic (get_automation automation_id) in
  match row with Some a => Done a | None => Failed (AssertionError "") end.

Definition create_automation (agent_id user_id : string) (session_id : option string) (message : string)
    (interval_sec : option Z) (schedule_type : option string) (schedule : option pydict) (timezone_name : string)
    (start_immediately : bool) (mission_policy : option pydict) : thread world automation_row :=
  assert_agent_owner agent_id user_id ;!
  let! automation_id := atomic (on_manager (new_uuid uuid)) in
  let! normalized := t_lift (Schedule.normalize_schedule schedule_type schedule interval_sec) in
  let '(normalized_type, normalized_schedule, normalized_interval) := normalized in
  let! normalized_schedule :=
    with_cursor (negb (d_mem "last_seen_mtime_ns" (default [] schedule))) normalized_type normalized_schedule in
  let! normalized_timezone := t_lift (Schedule.validate_timezone (Some timezone_name)) in
  let! normalized_policy := t_lift (resolve_policy cfg (default [] mission_policy)) in
  let! now := atomic read_clock in
  let! next := (if start_immediately then Done (isoformat now)
                else t_lift (next_run_at normalized_type normalized_schedule normalized_timezone now)) in
  atomic (transaction (
    AutomationStore.create_automation clock automation_id agent_id user_id session_id message normalized_interval next
      normalized_type normalized_schedule normalized_timezone (MissionPolicy.policy_dict normalized_policy) ;;;
    add_automation_event clock automation_id "created"
      ("Automation created (schedule_type=" +:+ normalized_type +:+ ", timezone=" +:+ normalized_timezone
       +:+ ", policy=" +:+ MissionPolicy.p_profile normalized_policy +:+ ").") None)) ;!
  atomic (emit "automation_created"
    [("automation_id", PStr automation_id); ("agent_id", PStr agent_id); ("user_id", PStr user_id);
     ("schedule_type", PStr normalized_type); ("timezone", PStr normalized_timezone);
     ("mission_policy_profile", PStr (str_or (MissionPolicy.p_profile normalized_policy) "unknown"))]) ;!
  reread automation_id.

Definition update_automation (automation_id : string) (message session_id : option string) (interval_sec : option Z)
    (schedule_type : option string) (schedule : option pydict) (timezone_name : option string)
    (mission_policy : option pydict) : thread world automation_row :=
  let! automation := the_automation automation_id in
  let! normalized := t_lift (Schedule.normalize_schedule
    (Some (str_or (opt_str schedule_type) (au_schedule_type automation)))
    (Some (default (au_schedule automation) schedule)) (Some (default (au_interval_sec automation) interval_sec))) in
  let '(normalized_type, normalized_schedule, normalized_interval) := normalized in
  let! normalized_schedule :=
    with_cursor (match schedule with Some s => negb (d_mem "last_seen_mtime_ns" s) | None => false end)
      normalized_type normalized_schedule in
  let! normalized_timezone :=
    t_lift (Schedule.validate_timezone (Some (str_or (opt_str timezone_name) (au_timezone automation)))) in
  let! policy := match mission_policy with
                 | Some p => let! r := t_lift (resolve_policy cfg p) in Done (Some r)
                 | None => Done None
                 end in
  let! next := (if au_is_enabled automation then
                  let! now := atomic read_clock in
                  let! n := t_lift (next_run_at normalized_type normalized_schedule normalized_timezone now) in
                  Done [ANextRunAt n]
                else Done []) in
  atomic (transaction (
    update_automation_fields clock automation_id
      ([AIntervalSec normalized_interval; AScheduleType normalized_type; ASchedule normalized_schedule;
        ATimezone normalized_timezone; ALastError None; AConsecutiveFailures 0; AEscalationLevel "none";
        ALeaseOwner None; ALeaseExpiresAt None; ABackoffUntil None; ACircuitOpenUntil None]
       ++ match message with Some m => [AMessage m] | None => [] end
       ++ match session_id with Some s => [ASessionId (Some s)] | None => [] end
       ++ match policy with Some p => [AMissionPolicy (MissionPolicy.policy_dict p)] | None => [] end
       ++ next) ;;;
    add_automation_event clock automation_id "updated"
      ("Automation updated (schedule_type=" +:+ normalized_type +:+ ", timezone=" +:+ normalized_timezone
       +:+ match policy with Some p => ", policy=" +:+ MissionPolicy.p_profile p | None => "" end +:+ ").") None)) ;!
  reread automation_id.

Definition pause_automation (automation_id : string) : thread world automation_row :=
  the_automation automation_id ;!
  atomic (transaction (
    update_automation_fields clock automation_id [AIsEnabled false; ALeaseOwner None; ALeaseExpiresAt None] ;;;
    add_automation_event clock automation_id "paused" "Automation paused." None)) ;!
  reread automation_id.

Definition resume_automation (automation_id : string) : thread world automation_row :=
  let! automation := the_automation automation_id in
  let! normalized := t_lift (normalized_schedule_from_row automation) in
  let '(schedule_type, schedule, _) := normalized in
  let! timezone_name := t_lift (Schedule.validate_timezone (Some (au_timezone automation))) in
  let! now := atomic read_clock in
  let! next := t_lift (next_run_at schedule_type schedule timezone_name now) in
  atomic (transaction (
    update_automation_fields clock automation_id
      [AIsEnabled true; ANextRunAt next; ALastError None; AConsecutiveFailures 0; AEscalationLevel "none";
       ALeaseOwner None; ALeaseExpiresAt None; ABackoffUntil None; ACircuitOpenUntil None] ;;;
    add_automation_event clock automation_id "resumed" "Automation resumed." None)) ;!
  reread automation_id.

Definition delete_automation (automation_id : string) : thread world bool :=
  let! row := atomic (get_automation automation_id) in
  match row with
  | None => Done false
  | Some _ => atomic (AutomationStore.delete_automation automation_id)
  end.

Definition set_inbox_item_read (item_id : string) (is_read : bool) : thread world inbox_row :=
  let! item := atomic (AutomationStore.set_inbox_item_read clock item_id is_read) in
  match item with
  | Some i => Done i
  | None => Failed (ValueError ("Inbox item not found: " +:+ item_id))
  end.

(** ** Notices in the inbox *)

Definition notify (user_id severity title body automation_id : string) (run_id : option string) (metadata : pydict)
    (requires_action : bool) : M world inbox_row :=
  add_inbox_item clock uuid user_id "automation" severity title body (Some "automation") (Some automation_id) run_id
    metadata requires_action.

(** [_notify_watch_triggered] *)
Definition notify_watch_triggered (automation_id user_id : string) (changed_files : list string)
    (watch_path run_id : string) : M world inbox_row :=
  let preview := join ", " (take 3 changed_files) in
  let preview := if (3 <? length changed_files)%nat
                 then preview +:+ ", +" +:+ str_of_Z (Z.of_nat (length changed_files) - 3) +:+ " more" else preview in
  notify user_id "info" "Automation watcher triggered"
    ("Automation " +:+ automation_id +:+ " queued a run because files changed in " +:+ watch_path +:+ ". Changed: "
     +:+ preview +:+ ".") automation_id (Some run_id)
    [("changed_files", PList (map PStr changed_files)); ("watch_path", PStr watch_path)] false.

(** [_notify_escalation] *)
Definition notify_escalation (automation_id user_id error : string) (failures : Z) (level : string) (disabled : bool)
    (mission_policy_profile : string) : M world inbox_row :=
  let '(title, severity, requires_action, body) :=
    (if disabled then
       ("Automation disabled after failures", "error", true,
        "Automation " +:+ automation_id +:+ " was disabled after " +:+ str_of_Z failures
        +:+ " consecutive failures. Latest error: " +:+ error)
     else if String.eqb level "critical" then
       ("Automation in critical failure state", "error", true,
        "Automation " +:+ automation_id +:+ " reached critical escalation (" +:+ str_of_Z failures
        +:+ " consecutive failures). Latest error: " +:+ error)
     else
       ("Automation warning", "warning", false,
        "Automation " +:+ automation_id +:+ " has " +:+ str_of_Z failures
        +:+ " consecutive failures. Latest error: " +:+ error)) in
  notify user_id severity title body automation_id None
    [("consecutive_failures", PInt failures); ("escalation_level", PStr level); ("disabled", PBool disabled);
     ("mission_policy_profile", PStr mission_policy_profile)] requires_action.

(** [_notify_recovered] *)
Definition notify_recovered (automation_id user_id : string) (previous_failures : Z) : M world inbox_row :=
  notify user_id "info" "Automation recovered"
    ("Automation " +:+ automation_id +:+ " recovered and resumed normal operation after "
     +:+ str_of_Z previous_failures +:+ " consecutive failures.") automation_id None
    [("previous_failures", PInt previous_failures); ("status", PStr "recovered")] false.

(** ** Dispatching a slot *)

(** What [_trigger] has computed before its [try]. *)
Record trigger_env : Type := TriggerEnv {
  tg_row : automation_row;
  tg_schedule_type : string;
  tg_interval_sec : Z;
  tg_timezone : string;
  tg_now : Z;
  tg_policy : MissionPolicy.policy;
  tg_profile : string;
  tg_source : string;
  tg_key : string;
  tg_next : string }.

Section trigger.
Context (g : trigger_env).
Abbreviation automation_id := (au_id (tg_row g)).
Abbreviation now_iso := (isoformat (tg_now g)).

(** The columns every branch rewrites *)
Definition slot_fields (schedule : pydict) : list auto_field :=
  [AIntervalSec (tg_interval_sec g); AScheduleType (tg_schedule_type g); ASchedule schedule; ATimezone (tg_timezone g);
   ALastDispatchKey (Some (tg_key g))].

(** The [except] branch: the failure is counted and the exception raised
    again. [pending] tells whether a dispatch without run is registered. *)
Definition trigger_failed (schedule : pydict) (pending : bool) (exc : exn) : thread world unit :=
  let error := exn_str exc in
  let failures := Z.max 0 (au_consecutive_failures (tg_row g)) + 1 in
  let previous_level := str_or (lower (strip (au_escalation_level (tg_row g)))) "none" in
  let slo := MissionPolicy.p_slo (tg_policy g) in
  let! warning := t_lift (slo_int slo "warning_failures") in
  let! critical := t_lift (slo_int slo "critical_failures") in
  let level := escalation_level_for_failures failures warning critical in
  let! disable := t_lift (slo_int slo "disable_failures") in
  let disable_now := disable <=? failures in
  let! base := t_lift (slo_float slo "backoff_base_sec") in
  let! max_sec := t_lift (slo_float slo "backoff_max_sec") in
  let! backoff_seconds := t_lift (backoff_seconds_for_failures failures base max_sec) in
  let! backoff_until := t_lift (later (tg_now g) backoff_seconds) in
  let! threshold := t_lift (slo_int slo "circuit_failure_threshold") in
  let! circuit_open_until :=
    (if threshold <=? failures then
       let! open_sec := t_lift (slo_float slo "circuit_open_sec") in
       let! until := t_lift (later (tg_now g) open_sec) in
       Done (Some until)
     else Done None) in
  let! retry_next := t_lift (next_run_at "interval" [("interval_sec", PInt (Z.max (tg_interval_sec g) 30))]
                               (tg_timezone g) (tg_now g)) in
  atomic (transaction (
    when pending (delete_automation_dispatch automation_id (tg_key g)) ;;;
    update_automation_fields clock automation_id
      (slot_fields schedule ++
       [ALastError (Some error); ANextRunAt retry_next; AConsecutiveFailures failures; AEscalationLevel level;
        ABackoffUntil (Some backoff_until); ACircuitOpenUntil circuit_open_until;
        AIsEnabled (if disable_now then false else au_is_enabled (tg_row g))]) ;;;
    add_automation_event clock automation_id "run_error"
      ("Automation failed to queue run: " +:+ error +:+ " (consecutive_failures=" +:+ str_of_Z failures
       +:+ ", escalation=" +:+ level +:+ ", backoff_sec=" +:+ format_2f backoff_seconds
       +:+ ", circuit_open_until=" +:+ str_or (opt_str circuit_open_until) "none" +:+ ")") None)) ;!
  t_when ((negb (String.eqb level previous_level) && negb (String.eqb level "none"))
          || (disable_now && au_is_enabled (tg_row g)))
    (atomic (notify_escalation automation_id (au_user_id (tg_row g)) error failures level disable_now (tg_profile g)) ;!
     Done tt) ;!
  atomic (emit "automation_run_error"
    [("automation_id", PStr automation_id); ("source", PStr (tg_source g)); ("error", PStr error);
     ("consecutive_failures", PInt failures); ("escalation_level", PStr level); ("disabled", PBool disable_now);
     ("backoff_sec", PyF backoff_seconds); ("circuit_open_until", pnone_or_str circuit_open_until);
     ("dispatch_key", PStr (tg_key g)); ("mission_policy_profile", PStr (tg_profile g))]) ;!
  Failed exc.

(** The dispatch is paused by the circuit breaker. *)
Definition blocked_token (scope : pydict) : list string :=
  let scope_type := RunValues.low (get "scope_type" scope) in
  if String.eqb scope_type "global" then ["global"]
  else if String.eqb scope_type "user" then ["user:" +:+ str_or (norm (get "scope_user_id" scope)) "unknown"]
  else if String.eqb scope_type "agent" then ["agent:" +:+ str_or (norm (get "scope_agent_id" scope)) "unknown"]
  else if is_empty scope_type then [] else [scope_type].

Definition trigger_blocked (schedule : pydict) (matched_scopes : list pydict) : thread world unit :=
  let blocked_reason := match matched_scopes with [] => "" | scope :: _ => norm (get "reason" scope) end in
  let tokens := flat_map blocked_token matched_scopes in
  let summary := match tokens with [] => "unknown" | _ => join ", " tokens end in
  atomic (transaction (
    delete_automation_dispatch automation_id (tg_key g) ;;;
    update_automation_fields clock automation_id
      (slot_fields schedule ++ [ALastRunAt (Some now_iso); ANextRunAt (tg_next g); ALastError None]) ;;;
    add_automation_event clock automation_id "run_blocked_autonomy_circuit_breaker"
      ("Automation run dispatch paused by autonomy circuit breaker (" +:+ tg_source g +:+ "; scope=" +:+ summary
       +:+ (if is_empty blocked_reason then "" else "; reason=" +:+ blocked_reason) +:+ ").") None)) ;!
  atomic (emit "automation_run_blocked_autonomy_circuit_breaker"
    [("automation_id", PStr automation_id); ("source", PStr (tg_source g)); ("dispatch_key", PStr (tg_key g));
     ("scope", PStr summary); ("reason", PStr blocked_reason); ("mission_policy_profile", PStr (tg_profile g))]).

(** The run was created. *)
Definition trigger_queued (schedule : pydict) (changed_files : list string) (run_id : string) : thread world unit :=
  let previous_failures := Z.max 0 (au_consecutive_failures (tg_row g)) in
  let previous_level := str_or (lower (strip (au_escalation_level (tg_row g)))) "none" in
  let recovered := (0 <? previous_failures) || negb (String.eqb previous_level "none") in
  atomic (transaction (
    update_automation_dispatch_run_id clock automation_id (tg_key g) run_id ;;;
    update_automation_fields clock automation_id
      (slot_fields schedule ++
       [ALastRunAt (Some now_iso); ANextRunAt (tg_next g); ALastError None; AConsecutiveFailures 0;
        AEscalationLevel "none"; ABackoffUntil None; ACircuitOpenUntil None]) ;;;
    when recovered (add_automation_event clock automation_id "recovered"
      "Automation recovered after previous failures." (Some run_id)) ;;;
    add_automation_event clock automation_id "run_queued"
      (match changed_files with
       | [] => "Automation queued run (" +:+ tg_source g +:+ ")"
       | _ => "Automation queued run (" +:+ tg_source g +:+ "); watcher detected "
              +:+ str_of_Z (Z.of_nat (length changed_files)) +:+ " changed files."
       end) (Some run_id))) ;!
  t_when recovered
    (atomic (notify_recovered automation_id (au_user_id (tg_row g)) previous_failures) ;! Done tt) ;!
  t_when (match changed_files with [] => false | _ => negb (String.eqb (tg_source g) "manual") end)
    (atomic (notify_watch_triggered automation_id (au_user_id (tg_row g)) changed_files
       (py_str (get_or "path" (PStr "") schedule)) run_id) ;! Done tt) ;!
  atomic (emit "automation_run_queued"
    [("automation_id", PStr automation_id); ("run_id", PStr run_id); ("source", PStr (tg_source g));
     ("schedule_type", PStr (tg_schedule_type g)); ("dispatch_key", PStr (tg_key g));
     ("mission_policy_profile", PStr (tg_profile g))]).

(** The slot was dispatched before. *)
Definition trigger_duplicate (schedule : pydict) : thread world unit :=
  atomic (transaction (
    update_automation_fields clock automation_id (slot_fields schedule ++ [ANextRunAt (tg_next g)]) ;;;
    add_automation_event clock automation_id "run_deduplicated"
      ("Duplicate dispatch skipped (" +:+ tg_source g +:+ ") key=" +:+ tg_key g +:+ ".") None)) ;!
  atomic (emit "automation_run_deduplicated"
    [("automation_id", PStr automation_id); ("source", PStr (tg_source g)); ("dispatch_key", PStr (tg_key g))]).

(** [now - timedelta(seconds=max(2 * lease_ttl, 30))] *)
Definition stale_before : res string :=
  res_bind (RunValues.timedelta_us (f_max (f_mul (f_int (lease_ttl_sec cfg)) (FFinite 2 0)) (FFinite 30 0))) (fun delta =>
  res_bind (RunValues.add_us (tg_now g) (- delta)) (fun t => Ok (isoformat t))).

(** The agent of the automation, owned by its user. *)
Definition trigger_agent : thread world agent_row :=
  let! found := atomic (get_agent (au_agent_id (tg_row g))) in
  match found with
  | None => Failed (ValueError ("Agent not found: " +:+ au_agent_id (tg_row g)))
  | Some agent =>
      let owner := strip (opt_str (ag_user_id agent)) in
      if is_empty owner || negb (String.eqb owner (au_user_id (tg_row g)))
      then Failed (ValueError ("Agent ownership mismatch for agent: " +:+ au_agent_id (tg_row g)))
      else Done agent
  end.

(** [self.run_manager.create_run(...)] *)
Definition trigger_create (agent : agent_row) (message : string) : thread world run_row :=
  let! n := atomic (gets (fun w => s_clock (conn w))) in
  zoom (RunManager.create_run clock uuid run_cfg agent (au_user_id (tg_row g)) (au_session_id (tg_row g)) message None []
          "automation" (breaker n (au_user_id (tg_row g)) (ag_id agent))).

(** The [try] block after the scan of the watcher *)
Definition trigger_dispatch (schedule : pydict) (changed_files : list string) (message : string) : thread world unit :=
  t_try (let! agent := trigger_agent in
         let! before := t_lift stale_before in
         let! registered := atomic (register_automation_dispatch clock automation_id (tg_key g) (tg_source g) None
           (if String.eqb (tg_source g) "scheduled" then Some before else None)) in
         Done (agent, registered))
    (trigger_failed schedule false)
    (fun '(agent, registered) =>
       if negb registered then
         t_try (trigger_duplicate schedule) (trigger_failed schedule false) Done
       else
         t_try (trigger_create agent message)
           (fun exc => match exc with
                       | BreakerBlockedError _ _ matched_scopes _ =>
                           t_try (trigger_blocked schedule matched_scopes) (trigger_failed schedule true) Done
                       | _ => trigger_failed schedule true exc
                       end)
           (fun run => t_try (trigger_queued schedule changed_files (r_id run)) (trigger_failed schedule false) Done)).

(** The [try] block: a watcher first looks for changes. *)
Definition trigger_body (schedule : pydict) : thread world unit :=
  let run_message := au_message (tg_row g) in
  if String.eqb (tg_schedule_type g) "watch_fs" then
    t_try (atomic (scan_watch_changes schedule)) (trigger_failed schedule false)
      (fun '(changed_files, schedule) =>
         match changed_files with
         | [] =>
             if negb (String.eqb (tg_source g) "manual") then
               t_try (atomic (update_automation_fields clock automation_id (slot_fields schedule ++ [ANextRunAt (tg_next g)])) ;!
                      atomic (emit "automation_watch_idle"
                        [("automation_id", PStr automation_id); ("source", PStr (tg_source g))]))
                 (trigger_failed schedule false) Done
             else trigger_dispatch schedule [] run_message
         | _ => trigger_dispatch schedule changed_files (build_watch_message run_message changed_files)
         end)
  else trigger_dispatch schedule [] run_message.
End trigger.

(** [_trigger] *)
Definition trigger (automation : automation_row) (source : string) : thread world unit :=
  let! normalized := t_lift (normalized_schedule_from_row automation) in
  let '(schedule_type, schedule, interval_sec) := normalized in
  let! timezone_name := t_lift (Schedule.validate_timezone (Some (au_timezone automation))) in
  let! now := atomic read_clock in
  let! policy := t_lift (effective_mission_policy cfg automation) in
  let source_name := str_or (lower (strip (str_or source "scheduled"))) "scheduled" in
  let scheduled_slot := if String.eqb source_name "manual" then isoformat now
                        else str_or (au_next_run_at automation) (isoformat now) in
  let! next := t_lift (next_run_at schedule_type schedule timezone_name now) in
  trigger_body
    (TriggerEnv automation schedule_type interval_sec timezone_name now policy
       (str_or (MissionPolicy.p_profile policy) "scheduler_default") source_name
       (build_dispatch_key source_name schedule_type scheduled_slot) next) schedule.

Definition run_now (automation_id : string) : thread world automation_row :=
  let! automation := the_automation automation_id in
  trigger automation "manual" ;!
  reread automation_id.

(** ** The loop *)

(** One claimed item of [_tick]: every exception is logged, the lease is
    released. *)
Definition tick_item (automation : automation_row) : thread world unit :=
  let release := t_try (atomic (release_automation_lease clock (au_id automation) (sched_owner cfg)))
                   (fun _ => Done tt) (fun _ => Done tt) in
  t_try (trigger automation "scheduled") (fun _ => release) (fun _ => release).

(** [_tick] *)
Definition tick : thread world unit :=
  let! now := atomic read_clock in
  let! lease_expires_at := t_lift (res_bind (RunValues.add_us now (lease_ttl_sec cfg * us_per_sec))
                                     (fun t => Ok (isoformat t))) in
  let! due_items := atomic (claim_due_automations clock (isoformat now) (batch_size cfg) (sched_owner cfg)
                              lease_expires_at) in
  t_for due_items tick_item.

(** One turn of [_loop] *)
Definition loop_turn : thread world unit :=
  let! stopping := atomic (gets w_stop) in
  if stopping then Done tt else t_try tick (fun _ => Done tt) (fun _ => Done tt).

(** [start] and [stop] *)
Definition start : M world unit := fun w => (Ok tt, if w_started w then w else set_sched_flags true false w).
Definition stop : M world unit := fun w => (Ok tt, if w_started w then set_sched_flags false true w else w).

End scheduler.
End Automations.
