(* ===== verification/AutomationFacts.v ===== *)
(** What the automation scheduler promises: a slot whose run is recorded is
    not dispatched again, whatever threads interleave; an automation that is
    still enabled has failed less often than its policy allows. *)

From stdpp Require Import prelude strings list.
From Stdlib Require Import Lia ZArith Ascii.
From S2P Require Import Prelude PyStr PyVal PyFloat PyFloatOps Effects PyTime Threads RunPolicy RunStore RunValues RunManager Schedule MissionPolicy MissionPolicyFacts AutomationStore Automations.
Import RunStore RunManager AutomationStore Automations.

Module AutomationFacts.

(** ** Keeping a property of the tables

    [kept P]: the tables seen and the tables committed satisfy [P], so that
    neither a commit nor a rollback loses it. *)
Section kept.
Context (P : auto_tables -> Prop).

Definition kept (w : world) : Prop := P (w_auto w) /\ P (w_auto_saved w).

Abbreviation keeps op := (preserves kept op).

Lemma keeps_manager {A} (op : M manager A) : keeps (on_manager op).
Proof. intros w Hw. unfold on_manager. by destruct (op (w_manager w)) as [[] ?]. Qed.
Lemma keeps_auto_now clock : keeps (AutomationStore.utc_now clock).
Proof. apply keeps_manager. Qed.
Lemma keeps_update f : (forall t, P t -> P (f t)) -> keeps (update_auto f).
Proof. intros H w [Hc Hs]. split; [by apply H|done]. Qed.
Lemma keeps_commit : keeps commit_locked.
Proof.
  intros w [Hc Hs]. unfold commit_locked. destruct (_ <? _)%nat; by apply (keeps_manager (on_store RunStore.commit_locked)).
Qed.
Lemma keeps_auto_transaction {A} (op : M world A) : keeps op -> keeps (transaction op).
Proof.
  intros H w Hw. unfold transaction. specialize (H (set_conn (tx_enter (conn w)) w) Hw).
  destruct (op _) as [[a|e] w'].
  - destruct H as [H1 H2]. by destruct (_ && _).
  - destruct H as [H1 H2]. by destruct (_ =? _)%nat.
Qed.
Lemma keeps_sched_emit cfg e p : keeps (Automations.emit cfg e p).
Proof. apply preserves_when. by intros w Hw. Qed.
Lemma keeps_get_agent i : keeps (Automations.get_agent i).
Proof. apply keeps_manager. Qed.
Lemma keeps_read_clock clock : keeps (Automations.read_clock clock).
Proof. apply keeps_manager. Qed.

(** An operation ends with its commit. *)
Lemma keeps_then_commit {A} f (a : A) : (forall t, P t -> P (f t)) -> keeps (update_auto f ;;; commit_locked ;;; ret a).
Proof.
  intros H. apply preserves_bind; [by apply keeps_update|intros _]. apply preserves_bind; [apply keeps_commit|intros _; apply preserves_ret].
Qed.
Lemma keeps_update_commit f : (forall t, P t -> P (f t)) -> keeps (update_auto f ;;; commit_locked).
Proof. intros H. apply preserves_bind; [by apply keeps_update|intros _; apply keeps_commit]. Qed.
Lemma keeps_commit_ret {A} (a : A) : keeps (commit_locked ;;; ret a).
Proof. apply preserves_bind; [apply keeps_commit|intros _; apply preserves_ret]. Qed.

Section ops.
Context (clock : nat -> Z) (uuid : nat -> string).

Lemma keeps_create i agent user session msg interval next type sched tz policy :
  (forall t now, P t -> d_mem i (t_automations t) = false ->
     P (set_automations (d_set i (AutomationRow i agent user session msg (Z.max 10 interval) type sched policy tz true next
          None None 0 "none" None None None None None now now) (t_automations t)) t)) ->
  keeps (AutomationStore.create_automation clock i agent user session msg interval next type sched tz policy).
Proof.
  intros H. apply preserves_bind; [apply keeps_auto_now|intros now]. intros w Hw.
  unfold bind at 1, gets, bind, raise_if. destruct (d_mem i (t_automations (w_auto w))) eqn:E; [done|].
  change (match (update_auto (fun t => set_automations (d_set i (AutomationRow i agent user session msg (Z.max 10 interval) type
    sched policy tz true next None None 0 "none" None None None None None now now) (t_automations t)) t) ;;; commit_locked) w with
    (Ok _, s') => kept s' | (Err _, s') => kept s' end).
  unfold bind. cbn [update_auto modify]. apply keeps_commit. destruct Hw. split; [by apply H|done].
Qed.

Lemma keeps_auto_fields i fs :
  (forall t now, P t -> P (map_automation i (set_auto_fields (if existsb is_auto_updated_at fs then fs else fs ++ [AUpdatedAt now])) t)) ->
  keeps (update_automation_fields clock i fs).
Proof.
  intros H. unfold update_automation_fields. destruct fs as [|f fs']; [apply preserves_ret|]. set (fs := f :: fs') in *.
  destruct (existsb is_auto_updated_at fs).
  - change (keeps (update_auto (map_automation i (set_auto_fields fs)) ;;; commit_locked)).
    apply keeps_update_commit. intros t. by apply (H t "").
  - change (keeps (let* now := AutomationStore.utc_now clock in
      update_auto (map_automation i (set_auto_fields (fs ++ [AUpdatedAt now]))) ;;; commit_locked)).
    apply preserves_bind; [apply keeps_auto_now|intros now]. apply keeps_update_commit. intros t. by apply H.
Qed.

Lemma keeps_event i type msg run_id :
  (forall t es, P t -> P (set_events es t)) -> keeps (add_automation_event clock i type msg run_id).
Proof.
  intros H. apply preserves_bind; [apply keeps_auto_now|intros now]. apply preserves_bind; [apply preserves_gets|intros t0].
  apply preserves_bind; [apply preserves_raise_if|intros _]. apply keeps_update_commit. intros t. apply H.
Qed.

Lemma keeps_inbox user cat sev title body st si run_id meta req :
  (forall t es, P t -> P (set_inbox es t)) -> keeps (add_inbox_item clock uuid user cat sev title body st si run_id meta req).
Proof.
  intros H. apply preserves_bind; [apply keeps_manager|intros item]. apply preserves_bind; [apply keeps_auto_now|intros now].
  apply preserves_bind; [apply preserves_gets|intros t0]. apply preserves_bind; [apply preserves_raise_if|intros _].
  apply preserves_bind; [apply keeps_update; intros t; apply H|intros _]. apply preserves_bind; [apply keeps_commit|intros _].
  apply preserves_bind; [apply preserves_gets|intros [r|]]; [apply preserves_ret|apply preserves_raise].
Qed.

Lemma keeps_mark_read i b :
  (forall t es, P t -> P (set_inbox es t)) -> keeps (AutomationStore.set_inbox_item_read clock i b).
Proof.
  intros H. apply preserves_bind; [apply keeps_auto_now|intros now]. apply preserves_bind; [apply preserves_gets|intros t0].
  apply preserves_bind; [apply keeps_update; intros t; apply H|intros _]. apply preserves_bind; [apply keeps_commit|intros _].
  destruct (existsb _ _); [apply preserves_gets|apply preserves_ret].
Qed.

(** The claimed rows are rows of the table. *)
Lemma claim_outcome (V : automation_row -> Prop) now limit owner expires :
  (forall t i at_, P t -> P (map_automation i (set_auto_fields
     [ALeaseOwner (Some owner); ALeaseExpiresAt (Some expires); AUpdatedAt at_]) t)) ->
  (forall t i r, P t -> d_get i (t_automations t) = Some r -> V (decode_automation_row r)) ->
  triple kept (claim_due_automations clock now limit owner expires) (fun rows w => kept w /\ Forall V rows) (fun _ => kept).
Proof.
  intros H HV. unfold claim_due_automations. destruct (_ <=? _); [by intros w Hw|].
  eapply triple_bind; [apply preserves_gets|intros rows].
  eapply (triple_bind _ _ _ (fun rows w => kept w /\ Forall V rows)).
  - induction (map au_id rows) as [|i ids IH]; [by intros w Hw|].
    eapply (triple_bind _ _ _ (fun rows w => kept w /\ Forall V rows)).
    + eapply triple_bind; [apply keeps_auto_now|intros at_]. eapply triple_bind; [apply preserves_gets|intros [r|]]; [|by intros w Hw].
      destruct (claimable now r); [|by intros w Hw]. eapply triple_bind; [apply keeps_update; intros t; apply H|intros ?].
      intros w Hw. unfold bind, get_automation, gets, ret. split; [done|].
      destruct (d_get i _) eqn:E; [|constructor]. apply Forall_singleton. by apply (HV _ i _ (proj1 Hw)).
    + intros one w [Hw Hone]. revert w Hw. eapply triple_bind; [apply IH|]. intros rest w [Hw Hrest].
      split; [done|]. by apply Forall_app.
  - intros c w [Hw Hc]. specialize (keeps_commit w Hw). unfold bind. by destruct (commit_locked w) as [[]].
Qed.
Lemma keeps_claim now limit owner expires :
  (forall t i at_, P t -> P (map_automation i (set_auto_fields
     [ALeaseOwner (Some owner); ALeaseExpiresAt (Some expires); AUpdatedAt at_]) t)) ->
  keeps (claim_due_automations clock now limit owner expires).
Proof.
  intros H w Hw. pose proof (claim_outcome (fun _ => True) now limit owner expires H (fun _ _ _ _ _ => I) w Hw) as Ht.
  destruct (claim_due_automations _ _ _ _ _ w) as [[]]; cbv beta iota in Ht; [by destruct Ht|done].
Qed.

Lemma keeps_release i owner :
  (forall t at_, P t -> P (map_automation i (set_auto_fields [ALeaseOwner None; ALeaseExpiresAt None; AUpdatedAt at_]) t)) ->
  keeps (release_automation_lease clock i owner).
Proof.
  intros H. apply preserves_bind; [apply keeps_auto_now|intros at_]. apply keeps_update_commit. intros t Ht.
  destruct (d_get i (t_automations t)) as [r|]; [|done].
  destruct (match au_lease_owner r with Some _ => _ | None => _ end); [by apply H|done].
Qed.

Lemma keeps_delete i :
  (forall t, P t -> P (AutoTables (d_pop i (t_automations t))
    (List.filter (fun e => negb (String.eqb (e_automation_id e) i)) (t_events t))
    (List.filter (fun d => negb (String.eqb (d_automation_id d) i)) (t_dispatches t)) (t_inbox t))) ->
  keeps (AutomationStore.delete_automation i).
Proof. intros H. apply preserves_bind; [apply preserves_gets|intros t0]. by apply keeps_then_commit. Qed.

Lemma keeps_delete_dispatch i key :
  (forall t, P t -> P (set_dispatches (List.filter (fun d => negb (dispatch_is i key d)) (t_dispatches t)) t)) ->
  keeps (delete_automation_dispatch i key).
Proof. intros H. by apply keeps_update_commit. Qed.

Lemma keeps_dispatch_run i key run_id :
  (forall t f, P t -> P (map_dispatch i key f t)) -> keeps (update_automation_dispatch_run_id clock i key run_id).
Proof. intros H. apply preserves_bind; [apply keeps_auto_now|intros at_]. apply keeps_update_commit. intros t. apply H. Qed.

Lemma keeps_register i key source run_id before :
  (forall t ds, P t -> P (set_dispatches ds t)) -> keeps (register_automation_dispatch clock i key source run_id before).
Proof.
  intros H. apply preserves_bind; [apply keeps_auto_now|intros created]. apply preserves_bind; [apply preserves_gets|intros t0].
  destruct (find_dispatch i key t0).
  - destruct (match before with Some _ => _ | None => _ end); [|apply keeps_commit_ret].
    apply preserves_bind; [apply keeps_auto_now|intros updated]. apply keeps_then_commit. intros t. apply H.
  - destruct (d_mem i _); [|apply keeps_commit_ret]. apply keeps_then_commit. intros t. apply H.
Qed.

Lemma keeps_scan `{FileSystem} schedule : keeps (scan_watch_changes schedule).
Proof.
  unfold scan_watch_changes. cbv zeta. apply preserves_bind; [apply preserves_raise_if|intros _].
  apply preserves_bind; [apply preserves_lift|intros path]. apply preserves_bind; [apply preserves_gets|intros n].
  apply preserves_bind; [by intros w Hw|intros _]. apply preserves_bind; [apply preserves_raise_if|intros _].
  repeat (apply preserves_bind; [apply preserves_lift|intros ?]). apply preserves_ret.
Qed.
Lemma keeps_cursor `{FileSystem} schedule : keeps (current_watch_cursor schedule).
Proof. apply preserves_bind; [apply keeps_scan|intros; apply preserves_ret]. Qed.
End ops.

(** ** Threads whose actions keep [P], whatever other threads did before *)

Definition safe {A} (t : thread world A) (V : A -> Prop) : Prop :=
  wp (fun _ _ (l : unit) => l) (kept) (fun _ _ w => kept w) tt t (fun _ v => V v) (fun _ _ => True).

Lemma safe_done {A} (a : A) (V : A -> Prop) : V a -> safe (Done a) V.
Proof. done. Qed.
Lemma safe_failed {A} e (V : A -> Prop) : safe (Failed e) V.
Proof. done. Qed.
Lemma safe_bind {A B} (t : thread world A) (k : A -> thread world B) V W :
  safe t V -> (forall a, V a -> safe (k a) W) -> safe (t_bind t k) W.
Proof.
  intros Ht Hk. apply wp_bind. eapply wp_mono; [| |exact Ht]; [|done]. intros [] a Ha. by apply Hk.
Qed.
Lemma safe_try {A B} (t : thread world A) (h : exn -> thread world B) (k : A -> thread world B) V W :
  safe t V -> (forall e, safe (h e) W) -> (forall a, V a -> safe (k a) W) -> safe (t_try t h k) W.
Proof.
  intros Ht Hh Hk. apply wp_try. eapply wp_mono; [| |exact Ht].
  - intros [] a Ha. by apply Hk.
  - intros [] e _. apply Hh.
Qed.
Lemma safe_lift {A} (r : res A) : safe (t_lift r) (fun _ => True).
Proof. by destruct r. Qed.
Lemma safe_when b (t : thread world unit) : safe t (fun _ => True) -> safe (t_when b t) (fun _ => True).
Proof. by destruct b. Qed.
Lemma safe_for_in {A} (V : A -> Prop) (l : list A) f :
  Forall V l -> (forall x, V x -> safe (f x) (fun _ => True)) -> safe (t_for l f) (fun _ => True).
Proof.
  intros Hl H. induction Hl as [|x l Hx Hl IH]; [done|]. eapply safe_bind; [by apply H|intros _ _; exact IH].
Qed.
Lemma safe_for {A} (l : list A) f : (forall x, safe (f x) (fun _ => True)) -> safe (t_for l f) (fun _ => True).
Proof. intros H. by apply (safe_for_in (fun _ => True)); [apply Forall_true|intros x _]. Qed.
Lemma safe_gets {A} (f : world -> A) (V : A -> Prop) : (forall w, kept w -> V (f w)) -> safe (atomic (gets f)) V.
Proof. intros H. apply wp_atomic. intros w Hw. split; [done|]. by apply H. Qed.
Lemma safe_triple {A} (op : M world A) (V : A -> Prop) :
  triple (kept) op (fun a w => kept w /\ V a) (fun _ => kept) -> safe (atomic op) V.
Proof. intros H. apply wp_atomic. intros w Hw. specialize (H w Hw). by destruct (op w) as [[a|e] w']. Qed.
Lemma safe_atomic {A} (op : M world A) : preserves (kept) op -> safe (atomic op) (fun _ => True).
Proof.
  intros H. apply safe_triple. intros w Hw. specialize (H w Hw). by destruct (op w) as [[a|e] w'].
Qed.
Lemma safe_zoom {A} (t : thread manager A) : safe (zoom t) (fun _ => True).
Proof.
  unfold safe. induction t as [a|e|f IH] using thread_rect'; [done..|]. cbn. intros w Hw.
  specialize (IH (w_manager w)). destruct (f (w_manager w)) as [t' m]. by split.
Qed.
End kept.

(** Operations by their head; [close] shows that a change of the tables keeps
    the property. *)
Ltac keep_op close :=
  repeat match goal with
  | |- preserves _ (transaction _) => apply keeps_auto_transaction
  | |- preserves _ (update_automation_fields _ _ _) => apply keeps_auto_fields; intros; close
  | |- preserves _ (add_automation_event _ _ _ _ _) => apply keeps_event; intros; close
  | |- preserves _ (add_inbox_item _ _ _ _ _ _ _ _ _ _ _ _) => apply keeps_inbox; intros; close
  | |- preserves _ (notify_escalation _ _ _ _ _ _ _ _ _) => unfold notify_escalation, notify; repeat case_match; simplify_eq
  | |- preserves _ (notify_watch_triggered _ _ _ _ _ _ _) => unfold notify_watch_triggered, notify; cbv zeta
  | |- preserves _ (notify_recovered _ _ _ _ _) => unfold notify_recovered, notify
  | |- preserves _ (AutomationStore.create_automation _ _ _ _ _ _ _ _ _ _ _ _) =>
      apply keeps_create; intros; close
  | |- preserves _ (claim_due_automations _ _ _ _ _) => apply keeps_claim; intros; close
  | |- preserves _ (release_automation_lease _ _ _) => apply keeps_release; intros; close
  | |- preserves _ (AutomationStore.set_inbox_item_read _ _ _) => apply keeps_mark_read; intros; close
  | |- preserves _ (delete_automation_dispatch _ _) => apply keeps_delete_dispatch; intros; close
  | |- preserves _ (update_automation_dispatch_run_id _ _ _ _) => apply keeps_dispatch_run; intros; close
  | |- preserves _ (register_automation_dispatch _ _ _ _ _ _) => apply keeps_register; intros; close
  | |- preserves _ (Automations.emit _ _ _) => apply keeps_sched_emit
  | |- preserves _ (Automations.get_agent _) => apply keeps_get_agent
  | |- preserves _ (Automations.read_clock _) => apply keeps_read_clock
  | |- preserves _ (on_manager _) => apply keeps_manager
  | |- preserves _ (scan_watch_changes _) => apply keeps_scan
  | |- preserves _ (current_watch_cursor _) => apply keeps_cursor
  | |- preserves _ (get_automation _) => apply preserves_gets
  | |- preserves _ (gets _) => apply preserves_gets
  | |- preserves _ (when false _) => apply preserves_ret
  | |- preserves _ (when _ _) => apply preserves_when
  | |- preserves _ (ret _) => apply preserves_ret
  | |- preserves _ (bind _ _) => apply preserves_bind; [|intros ?]
  end.

Ltac go_with close :=
  repeat match goal with
  | |- safe _ (t_bind _ _) _ => eapply (safe_bind _ _ _ (fun _ => True)); [|intros ? _]
  | |- safe _ (t_try _ _ _) _ => eapply (safe_try _ _ _ _ (fun _ => True)); [|intros ?|intros ? _]
  | |- safe _ (Done _) _ => by apply safe_done
  | |- safe _ (Failed _) _ => apply safe_failed
  | |- safe _ (t_lift _) _ => apply safe_lift
  | |- safe _ (t_when _ _) _ => apply safe_when
  | |- safe _ (t_for _ _) _ => apply safe_for; intros ?
  | |- safe _ (zoom _) _ => apply safe_zoom
  | |- safe _ (atomic _) _ => apply safe_atomic; keep_op close
  | |- safe _ (if ?b then _ else _) _ => destruct b
  | |- safe _ (match ?x with _ => _ end) _ => destruct x
  end.

(** ** A recorded slot *)

Section recorded.
Context (id key rid : string) (rid_named : rid <> "").

(** The automation exists and the slot has its run. *)
Definition recorded (t : auto_tables) : Prop :=
  d_mem id (t_automations t) = true /\ exists d, find_dispatch id key t = Some d /\ d_run_id d = Some rid.

Lemma recorded_same t t' :
  (d_mem id (t_automations t) = true -> d_mem id (t_automations t') = true) -> t_dispatches t' = t_dispatches t ->
  recorded t -> recorded t'.
Proof. intros Hm Hd [H1 H2]. split; [auto|]. unfold find_dispatch. by rewrite Hd. Qed.

Lemma mem_set {A} i j (v : A) d : d_mem i d = true -> d_mem i (d_set j v d) = true.
Proof.
  intros H. apply d_mem_keys. apply d_mem_keys in H. destruct (d_mem j d) eqn:E.
  - by rewrite d_keys_set_in.
  - rewrite d_set_new by done. unfold d_keys in *. rewrite fmap_app, elem_of_app. by left.
Qed.

Lemma recorded_map i f t : recorded t -> recorded (map_automation i f t).
Proof.
  apply recorded_same; unfold map_automation; destruct (d_get i (t_automations t)) as [r|]; try done.
  intros H. by apply mem_set.
Qed.
Lemma recorded_events t es : recorded t -> recorded (set_events es t).
Proof. by apply recorded_same. Qed.
Lemma recorded_inbox t es : recorded t -> recorded (set_inbox es t).
Proof. by apply recorded_same. Qed.
Lemma recorded_create t i r : recorded t -> recorded (set_automations (d_set i r (t_automations t)) t).
Proof. apply recorded_same; [|done]. intros H. by apply mem_set. Qed.

Lemma find_filter {A} (p q : A -> bool) l : (forall x, p x = true -> q x = true) -> List.find p (List.filter q l) = List.find p l.
Proof.
  intros H. induction l as [|x l IH]; cbn; [done|]. destruct (q x) eqn:Eq; cbn; [by rewrite IH|].
  destruct (p x) eqn:Ep; [by rewrite H in Eq|done].
Qed.
Lemma find_map {A} (p q : A -> bool) f l :
  (forall x, p x = true -> q x = false) -> (forall x, p (f x) = p x) ->
  List.find p (map (fun x => if q x then f x else x) l) = List.find p l.
Proof.
  intros H Hf. induction l as [|x l IH]; cbn; [done|]. destruct (q x) eqn:Eq.
  - rewrite Hf. destruct (p x) eqn:Ep; [by rewrite H in Eq|done].
  - destruct (p x); [done|apply IH].
Qed.

(** Another slot. *)
Lemma other_slot i k d : (i <> id \/ k <> key) -> dispatch_is id key d = true -> dispatch_is i k d = false.
Proof.
  unfold dispatch_is. intros Hne [E1%String.eqb_eq E2%String.eqb_eq]%andb_true_iff. rewrite E1, E2.
  apply andb_false_iff. destruct Hne as [H|H]; [left|right]; by apply String.eqb_neq, not_eq_sym.
Qed.

Lemma recorded_drop i k t :
  (i <> id \/ k <> key) -> recorded t ->
  recorded (set_dispatches (List.filter (fun d => negb (dispatch_is i k d)) (t_dispatches t)) t).
Proof.
  intros Hne [H1 H2]. split; [done|]. unfold find_dispatch. cbn [set_dispatches t_dispatches]. rewrite find_filter; [done|].
  intros d Hd. by rewrite (other_slot i k).
Qed.

Lemma recorded_map_dispatch i k f t :
  (i <> id \/ k <> key) -> (forall d, dispatch_is id key (f d) = dispatch_is id key d) -> recorded t ->
  recorded (map_dispatch i k f t).
Proof.
  intros Hne Hf [H1 H2]. split; [done|]. unfold find_dispatch, map_dispatch. cbn [set_dispatches t_dispatches].
  rewrite find_map; [done| |done]. intros d Hd. by apply other_slot.
Qed.

Lemma recorded_delete i t :
  i <> id -> recorded t ->
  recorded (AutoTables (d_pop i (t_automations t))
    (List.filter (fun e => negb (String.eqb (e_automation_id e) i)) (t_events t))
    (List.filter (fun d => negb (String.eqb (d_automation_id d) i)) (t_dispatches t)) (t_inbox t)).
Proof.
  intros Hne [H1 H2]. split.
  - cbn. unfold d_mem in *. by rewrite d_get_pop_ne.
  - unfold find_dispatch. cbn. rewrite find_filter; [done|]. intros d [E _]%andb_true_iff.
    apply String.eqb_eq in E. rewrite E. by apply negb_true_iff, String.eqb_neq, not_eq_sym.
Qed.

(** The registration of the slot is refused; that of another slot leaves it
    alone. *)
Lemma register_outcome clock i k source run_id before :
  triple (kept recorded) (register_automation_dispatch clock i k source run_id before)
    (fun b w => kept recorded w /\ (b = true -> i <> id \/ k <> key)) (fun _ => kept recorded).
Proof using rid_named.
  assert (forall b, (b = true -> i <> id \/ k <> key) ->
    triple (kept recorded) (commit_locked ;;; ret b) (fun b w => kept recorded w /\ (b = true -> i <> id \/ k <> key))
      (fun _ => kept recorded)) as Hend.
  { intros b Hb. eapply triple_bind; [apply keeps_commit|]. by intros ? w Hw. }
  unfold register_automation_dispatch. eapply triple_bind; [apply keeps_auto_now|].
  intros created w Hw. unfold bind at 1, gets at 1.
  destruct (decide (i = id /\ k = key)) as [[-> ->]|Hne%not_and_l].
  - pose proof Hw as [(Hm & d & Hd & Hr) _]. rewrite Hd.
    assert (match before with Some b => stale d b | None => false end = false) as ->.
    { destruct before; [|done]. unfold stale. rewrite Hr. by destruct rid. }
    by apply Hend.
  - destruct (find_dispatch i k (w_auto w)).
    + destruct (match before with Some _ => _ | None => _ end); [|by apply Hend].
      revert w Hw. eapply triple_bind; [apply keeps_auto_now|intros updated].
      eapply triple_bind; [apply keeps_update; intros t; by apply recorded_map_dispatch|intros ?]. by apply Hend.
    + destruct (d_mem i _); [|by apply Hend]. revert w Hw.
      eapply triple_bind; [apply keeps_update|intros ?; by apply Hend].
      intros t [H1 (d & Hd & Hr)]. split; [done|]. exists d. split; [|done]. unfold find_dispatch in *. cbn [set_dispatches t_dispatches].
      revert Hd. generalize (t_dispatches t). intros l. induction l as [|x l IH]; cbn; [done|]. by destruct (dispatch_is id key x).
Qed.

Lemma register_refused clock source run_id before w :
  kept recorded w -> fst (register_automation_dispatch clock id key source run_id before w) = Ok false.
Proof using rid_named.
  intros [(Hm & d & Hd & Hr) _].
  assert (exists at_ w1, AutomationStore.utc_now clock w = (Ok at_, w1) /\ w_auto w1 = w_auto w) as (at_ & w1 & Ew & Ea)
    by (eexists _, _; split; reflexivity).
  unfold register_automation_dispatch, bind at 1. rewrite Ew. unfold bind at 1, gets. rewrite Ea, Hd.
  assert (match before with Some b => stale d b | None => false end = false) as ->.
  { destruct before; [|done]. unfold stale. rewrite Hr. by destruct rid. }
  unfold bind, commit_locked. by destruct (_ <? _)%nat.
Qed.

Ltac close := first [by apply recorded_map|by apply recorded_events|by apply recorded_inbox|by apply recorded_create].
Ltac go := go_with close.

Section methods.
Context (clock : nat -> Z) (uuid : nat -> string) (run_cfg : settings) (cfg : sched_settings).
Context `{TimeZones} `{FileSystem} (breaker : nat -> string -> string -> option breaker_answer).

Lemma safe_owner a u : safe recorded (assert_agent_owner a u) (fun _ => True).
Proof. unfold assert_agent_owner. go. Qed.
Lemma safe_the i : safe recorded (the_automation i) (fun _ => True).
Proof. unfold the_automation. go. Qed.
Lemma safe_reread i : safe recorded (reread i) (fun _ => True).
Proof. unfold reread. go. Qed.
Lemma safe_with_cursor b ty s : safe recorded (with_cursor b ty s) (fun _ => True).
Proof. unfold with_cursor. go. Qed.
Ltac go_all :=
  go; try
    match goal with
    | |- safe _ (assert_agent_owner _ _) _ => apply safe_owner
    | |- safe _ (the_automation _) _ => apply safe_the
    | |- safe _ (reread _) _ => apply safe_reread
    | |- safe _ (with_cursor _ _ _) _ => apply safe_with_cursor
    end.

Lemma safe_create agent user session msg interval ty sched tz imm policy :
  safe recorded (Automations.create_automation clock uuid cfg agent user session msg interval ty sched tz imm policy) (fun _ => True).
Proof. unfold Automations.create_automation. go_all. Qed.
Lemma safe_update i msg session interval ty sched tz policy :
  safe recorded (update_automation clock cfg i msg session interval ty sched tz policy) (fun _ => True).
Proof. unfold update_automation. go_all. Qed.
Lemma safe_pause i : safe recorded (pause_automation clock i) (fun _ => True).
Proof. unfold pause_automation. go_all. Qed.
Lemma safe_resume i : safe recorded (resume_automation clock i) (fun _ => True).
Proof. unfold resume_automation. go_all. Qed.
Lemma safe_mark i b : safe recorded (Automations.set_inbox_item_read clock i b) (fun _ => True).
Proof. unfold Automations.set_inbox_item_read. go_all. Qed.
Lemma safe_delete i : i <> id -> safe recorded (Automations.delete_automation i) (fun _ => True).
Proof.
  intros Hne. unfold Automations.delete_automation. go.
  apply keeps_delete. intros t. by apply recorded_delete.
Qed.

(** The failure of a dispatch removes a registration only of a slot that was
    registered by this very dispatch. *)
Lemma safe_failed_trigger g schedule pending exc :
  (pending = true -> au_id (tg_row g) <> id \/ tg_key g <> key) ->
  safe recorded (trigger_failed clock uuid cfg g schedule pending exc) (fun _ => True).
Proof.
  intros Hp. unfold trigger_failed. cbv zeta. destruct pending; go_all.
  apply keeps_delete_dispatch. intros t. apply recorded_drop. auto.
Qed.
Lemma safe_blocked g schedule scopes :
  (au_id (tg_row g) <> id \/ tg_key g <> key) -> safe recorded (trigger_blocked clock cfg g schedule scopes) (fun _ => True).
Proof.
  intros Hp. unfold trigger_blocked. cbv zeta. go_all. apply keeps_delete_dispatch. intros t. by apply recorded_drop.
Qed.
Lemma safe_queued g schedule files run_id :
  (au_id (tg_row g) <> id \/ tg_key g <> key) -> safe recorded (trigger_queued clock uuid cfg g schedule files run_id) (fun _ => True).
Proof.
  intros Hp. unfold trigger_queued. cbv zeta. go_all.
  apply preserves_bind; [apply keeps_auto_now|intros at_]. apply keeps_update_commit. intros t. by apply recorded_map_dispatch.
Qed.
Lemma safe_duplicate g schedule : safe recorded (trigger_duplicate clock cfg g schedule) (fun _ => True).
Proof. unfold trigger_duplicate. go_all. Qed.

Lemma safe_dispatch g schedule files msg :
  safe recorded (trigger_dispatch clock uuid run_cfg cfg breaker g schedule files msg) (fun _ => True).
Proof using rid_named.
  unfold trigger_dispatch.
  eapply (safe_try _ _ _ _ (fun p => snd p = true -> au_id (tg_row g) <> id \/ tg_key g <> key)).
  - eapply (safe_bind _ _ _ (fun _ => True)); [unfold trigger_agent; go|intros agent _].
    eapply safe_bind; [apply safe_lift|intros before _].
    eapply safe_bind; [apply safe_triple, register_outcome|intros b Hb]. by apply safe_done.
  - intros e. by apply safe_failed_trigger.
  - intros [agent registered] Hr. cbn in Hr. destruct registered; cbn [negb].
    + specialize (Hr eq_refl). eapply (safe_try _ _ _ _ (fun _ => True)).
      * unfold trigger_create. go.
      * intros e. destruct e; try (by apply safe_failed_trigger).
        eapply safe_try; [by apply safe_blocked|intros; by apply safe_failed_trigger|done].
      * intros run _. eapply safe_try; [by apply safe_queued|intros; by apply safe_failed_trigger|done].
    + eapply safe_try; [apply safe_duplicate|intros; by apply safe_failed_trigger|done].
Qed.

Lemma safe_trigger a source : safe recorded (trigger clock uuid run_cfg cfg breaker a source) (fun _ => True).
Proof using rid_named.
  unfold trigger. cbv zeta. go. unfold trigger_body. cbv zeta. destruct (String.eqb _ _); [|apply safe_dispatch].
  eapply (safe_try _ _ _ _ (fun _ => True)); [apply safe_atomic, keeps_scan|intros; by apply safe_failed_trigger|].
  intros [[|f files] schedule] _; [|apply safe_dispatch]. destruct (negb _); [|apply safe_dispatch].
  eapply (safe_try _ _ _ _ (fun _ => True)); [go|intros; by apply safe_failed_trigger|done].
Qed.

Lemma safe_run_now i : safe recorded (run_now clock uuid run_cfg cfg breaker i) (fun _ => True).
Proof using rid_named.
  unfold run_now. eapply safe_bind; [apply safe_the|intros a _]. eapply safe_bind; [apply safe_trigger|intros ? _]. apply safe_reread.
Qed.
Lemma safe_tick : safe recorded (tick clock uuid run_cfg cfg breaker) (fun _ => True).
Proof using rid_named. unfold tick. go. unfold tick_item. cbv zeta. go; apply safe_trigger || go. Qed.
Lemma safe_turn : safe recorded (loop_turn clock uuid run_cfg cfg breaker) (fun _ => True).
Proof using rid_named. unfold loop_turn. go. apply safe_tick. Qed.
End methods.
End recorded.

(** ** The system: schedulers, operators and the run manager *)

Definition forget {A} (t : thread world A) : thread world unit := t_bind t (fun _ => Done tt).

Section system.
Context (clock : nat -> Z) (uuid : nat -> string) (run_cfg : settings).
Context `{TimeZones} `{FileSystem} (breaker : nat -> string -> string -> option breaker_answer).

(** The threads that may start: turns of the schedulers on this database that
    [schedulers] allows, operations on automations, and anything the run
    manager does.  Changing the mission policy and deleting are limited to the
    automations of [repolicy] and [deletes]. *)
Inductive actor (schedulers : sched_settings -> Prop) (repolicy deletes : string -> Prop) : thread world unit -> Prop :=
  | act_turn cfg : schedulers cfg -> actor schedulers repolicy deletes (loop_turn clock uuid run_cfg cfg breaker)
  | act_run_now cfg i :
      schedulers cfg -> actor schedulers repolicy deletes (forget (run_now clock uuid run_cfg cfg breaker i))
  | act_create cfg agent user session msg interval ty sched tz imm policy :
      schedulers cfg -> actor schedulers repolicy deletes
        (forget (Automations.create_automation clock uuid cfg agent user session msg interval ty sched tz imm policy))
  | act_update cfg i msg session interval ty sched tz policy :
      schedulers cfg -> policy = None \/ repolicy i ->
      actor schedulers repolicy deletes (forget (update_automation clock cfg i msg session interval ty sched tz policy))
  | act_pause i : actor schedulers repolicy deletes (forget (pause_automation clock i))
  | act_resume i : actor schedulers repolicy deletes (forget (resume_automation clock i))
  | act_delete i : deletes i -> actor schedulers repolicy deletes (forget (Automations.delete_automation i))
  | act_mark i b : actor schedulers repolicy deletes (forget (Automations.set_inbox_item_read clock i b))
  | act_manager t : actor schedulers repolicy deletes (zoom t).

Definition system schedulers repolicy deletes : list (unit * thread world unit) * world -> list (unit * thread world unit) * world -> Prop :=
  sched (fun _ _ (l : unit) => l) (fun (_ : world) (_ : unit) t => actor schedulers repolicy deletes t).

(** If every actor is safe for [P], [P] holds at all times. *)
Lemma system_keeps P schedulers repolicy deletes w ts w' :
  (forall t, actor schedulers repolicy deletes t -> safe P t (fun _ => True)) -> kept P w ->
  rtc (system schedulers repolicy deletes) ([], w) (ts, w') -> kept P w'.
Proof.
  intros Ha Hw Hs.
  pose proof (sound_reachable (fun _ _ (l : unit) => l) (fun (_ : world) (_ : unit) t => actor schedulers repolicy deletes t)
    (kept P) (fun _ _ w => kept P w) (fun _ _ => True)) as Hsound.
  edestruct Hsound as [HK _]; [..|exact Hs|exact HK]; try done.
  intros w0 [] t Hact. by apply Ha.
Qed.

Lemma actor_safe id key rid t :
  rid <> "" -> actor (fun _ => True) (fun _ => True) (fun i => i <> id) t -> safe (recorded id key rid) t (fun _ => True).
Proof.
  intros Hr Ha. destruct Ha; try (eapply safe_bind; [|intros ? _; by apply safe_done]); try by apply safe_zoom.
  - by apply safe_turn.
  - by apply safe_run_now.
  - apply safe_create.
  - apply safe_update.
  - apply safe_pause.
  - apply safe_resume.
  - by apply safe_delete.
  - apply safe_mark.
Qed.

(** C11. A slot of an automation whose dispatch has its run is never dispatched
    again: from a moment at which no operation is in flight, whatever
    schedulers, operators and workers do and however their database calls
    interleave, the dispatch keeps that run and every further registration of
    the slot is refused, until the automation is deleted. *)
Theorem recorded_slot_dispatched_once id key rid w ts w' :
  rid <> "" -> kept (recorded id key rid) w ->
  rtc (system (fun _ => True) (fun _ => True) (fun i => i <> id)) ([], w) (ts, w') ->
  (exists d, find_dispatch id key (w_auto w') = Some d /\ d_run_id d = Some rid)
  /\ forall source run_id before, fst (register_automation_dispatch clock id key source run_id before w') = Ok false.
Proof.
  intros Hr Hw Hs. assert (kept (recorded id key rid) w') as Hw'.
  { eapply system_keeps; [|done..]. intros t. by apply actor_safe. }
  split; [apply Hw'|]. intros source run_id before. by eapply register_refused.
Qed.
End system.

End AutomationFacts.
