(* ===== verification/AutomationLimits.v ===== *)
(** Failures of an automation are bounded: while it is enabled it has failed
    less often in a row than its mission policy tolerates. *)

From stdpp Require Import prelude strings list.
From Stdlib Require Import Lia ZArith Ascii.
From S2P Require Import Prelude PyStr PyVal PyFloat PyFloatOps Effects PyTime Threads RunPolicy RunStore RunValues RunManager Schedule MissionPolicy MissionPolicyFacts AutomationStore Automations AutomationFacts.
Import RunStore RunManager AutomationStore Automations AutomationFacts.

Module AutomationLimits.

(** The number of consecutive failures at which a policy disables. *)
Definition disable_limit (cfg : sched_settings) (pol : pydict) : Z :=
  match resolve_policy cfg pol with
  | Ok p => match slo_int (MissionPolicy.p_slo p) "disable_failures" with Ok z => z | Err _ => 0 end
  | Err _ => 0
  end.

Lemma policy_resolves cfg pol :
  exists p, resolve_policy cfg pol = Ok p /\ slo_int (MissionPolicy.p_slo p) "disable_failures" = Ok (disable_limit cfg pol)
            /\ 0 < disable_limit cfg pol.
Proof.
  unfold disable_limit, resolve_policy.
  pose proof (MissionPolicyFacts.resolve_ok float_repr (PDict pol) PNone
    (PDict (MissionPolicy.policy_dict (default_mission_policy cfg)))) as H.
  destruct (MissionPolicy.resolve_mission_policy_overlay _ _ _ _) as [p|e].
  - exists p. destruct H as (Hslo & _). split; [done|]. destruct Hslo. cbn. split; [done|lia].
  - destruct H as (token & Ht & _). by cbv in Ht.
Qed.

Lemma effective_resolves cfg r p : resolve_policy cfg (au_mission_policy r) = Ok p -> effective_mission_policy cfg r = Ok p.
Proof. unfold effective_mission_policy. by intros ->. Qed.

Section guarded.
Context (cfg : sched_settings) (id : string) (pol : pydict).
Abbreviation limit := (disable_limit cfg pol).

Definition row_guarded (r : automation_row) : Prop :=
  au_mission_policy r = pol /\ (au_is_enabled r = true -> au_consecutive_failures r < limit).

(** Rows are kept under their identifiers; the one of [id] follows [pol]. *)
Definition guarded (t : auto_tables) : Prop :=
  Forall (fun kr => au_id kr.2 = kr.1) (t_automations t)
  /\ (exists r, d_get id (t_automations t) = Some r)
  /\ (forall r, d_get id (t_automations t) = Some r -> row_guarded r).

(** A row as read: what it says of [id] is still true of its policy. *)
Definition of_pol (r : automation_row) : Prop := au_id r = id -> au_mission_policy r = pol.

Lemma guarded_same t t' : t_automations t' = t_automations t -> guarded t -> guarded t'.
Proof. intros E (H1 & H2 & H3). unfold guarded. by rewrite E. Qed.
Lemma guarded_events t es : guarded t -> guarded (set_events es t).
Proof. by apply guarded_same. Qed.
Lemma guarded_inbox t es : guarded t -> guarded (set_inbox es t).
Proof. by apply guarded_same. Qed.
Lemma guarded_dispatches t ds : guarded t -> guarded (set_dispatches ds t).
Proof. by apply guarded_same. Qed.

Lemma ids_get k r (d : dict automation_row) : Forall (fun kr => au_id kr.2 = kr.1) d -> d_get k d = Some r -> au_id r = k.
Proof. intros Hd Hr%d_get_elem. rewrite Forall_forall in Hd. by apply (Hd (k, r)). Qed.

Lemma guarded_map i f t :
  (forall r, au_id (f r) = au_id r) -> (i = id -> forall r, row_guarded r -> row_guarded (f r)) ->
  guarded t -> guarded (map_automation i f t).
Proof.
  intros Hid Hf (H1 & [r0 H2] & H3). unfold map_automation. destruct (d_get i (t_automations t)) as [r|] eqn:E; [|by split_and!; eauto].
  split_and!; cbn [set_automations t_automations].
  - apply d_set_Forall; [done|]. cbn. rewrite Hid. by eapply ids_get.
  - rewrite d_get_set. destruct (String.eqb i id); eauto.
  - intros r'. rewrite d_get_set. destruct (String.eqb_spec i id) as [->|Hne]; [|apply H3].
    intros [= <-]. apply Hf; [done|]. by apply H3.
Qed.

Lemma guarded_create t i r : au_id r = i -> d_mem i (t_automations t) = false -> guarded t ->
  guarded (set_automations (d_set i r (t_automations t)) t).
Proof.
  intros Hi Hm (H1 & [r0 H2] & H3).
  assert (i <> id) as Hne by (intros ->; unfold d_mem in Hm; by rewrite H2 in Hm).
  unfold guarded. cbn [set_automations t_automations]. rewrite d_get_set_ne by done. split_and!; [by apply d_set_Forall|eauto|done].
Qed.

Lemma guarded_delete i t es ds xs : i <> id -> guarded t -> guarded (AutoTables (d_pop i (t_automations t)) es ds xs).
Proof.
  intros Hne (H1 & [r0 H2] & H3). unfold guarded. cbn [t_automations]. rewrite d_get_pop_ne by done.
  split_and!; [|eauto|done]. by apply d_pop_Forall.
Qed.

(** ** Updates that keep the row guarded *)

(** Columns that neither count failures nor switch the row. *)
Definition neutral (f : auto_field) : bool :=
  match f with AMissionPolicy _ | AIsEnabled _ | AConsecutiveFailures _ => false | _ => true end.

Lemma set_id fs r : au_id (set_auto_fields fs r) = au_id r.
Proof. revert r. induction fs as [|f fs IH]; intros r; cbn; [done|]. unfold set_auto_fields in IH. rewrite IH. by destruct r, f. Qed.

Lemma neutral_guarded fs r : forallb neutral fs = true -> row_guarded r -> row_guarded (set_auto_fields fs r).
Proof.
  revert r. induction fs as [|f fs IH]; intros r; cbn; [done|]. intros [Hf Hfs]%andb_true_iff Hr.
  apply IH; [done|]. by destruct r, f.
Qed.

(** Resetting the count, as an update, a resume or a queued run does. *)
Lemma limit_positive : 0 < limit.
Proof. destruct (policy_resolves cfg pol) as (p & _ & _ & H). exact H. Qed.

Lemma reset_guarded fs fs' r :
  forallb neutral fs = true -> forallb neutral fs' = true -> row_guarded r ->
  row_guarded (set_auto_fields (fs ++ AConsecutiveFailures 0 :: fs') r).
Proof.
  intros Hfs Hfs' Hr. unfold set_auto_fields. rewrite fold_left_app. cbn [fold_left]. apply neutral_guarded; [done|].
  apply (neutral_guarded fs) in Hr; [|done]. unfold set_auto_fields in Hr. destruct (fold_left _ fs r) eqn:E.
  destruct Hr as [Hp _]. split; [done|]. intros _. apply limit_positive.
Qed.

(** ** Threads *)

Ltac close :=
  first [by apply guarded_events | by apply guarded_inbox | by apply guarded_dispatches | by apply guarded_create
    | apply guarded_map; [intros; apply set_id| |done]; intros; apply neutral_guarded; [reflexivity|done] ].
Ltac go := go_with close.
Abbreviation safe_g t := (safe guarded t (fun _ => True)).

Lemma read_of_pol t i r : guarded t -> d_get i (t_automations t) = Some r -> of_pol (decode_automation_row r).
Proof.
  intros (H1 & _ & H3) Hr Hi. unfold decode_automation_row in *. rewrite set_id in Hi.
  assert (id = i) as <- by (rewrite <- Hi; by eapply ids_get). destruct (H3 r Hr) as [Hp _]. by destruct r.
Qed.

Section methods.
Context (clock : nat -> Z) (uuid : nat -> string) (run_cfg : settings).
Context `{TimeZones} `{FileSystem} (breaker : nat -> string -> string -> option breaker_answer).

Lemma guard_owner a u : safe_g (assert_agent_owner a u).
Proof. unfold assert_agent_owner. go. Qed.
Lemma guard_reread i : safe_g (reread i).
Proof. unfold reread. go. Qed.
Lemma guard_cursor b ty s : safe_g (with_cursor b ty s).
Proof. unfold with_cursor. go. Qed.
Lemma guard_the i : safe guarded (the_automation i) of_pol.
Proof.
  unfold the_automation. eapply safe_bind; [apply (safe_gets _ _ (fun o => forall r, o = Some r -> of_pol r))|].
  - intros w [Hw _] r. destruct (d_get i (t_automations (w_auto w))) eqn:E; [|done]. intros [= <-]. by eapply read_of_pol.
  - intros [r|] Hr; [by apply Hr|done].
Qed.
Ltac go_all :=
  go; try
    match goal with
    | |- safe _ (assert_agent_owner _ _) _ => apply guard_owner
    | |- safe _ (reread _) _ => apply guard_reread
    | |- safe _ (with_cursor _ _ _) _ => apply guard_cursor
    end.

Lemma guard_create agent user session msg interval ty sched tz imm policy :
  safe_g (Automations.create_automation clock uuid cfg agent user session msg interval ty sched tz imm policy).
Proof. unfold Automations.create_automation. go_all. Qed.
Lemma guard_pause i : safe_g (pause_automation clock i).
Proof.
  unfold pause_automation. eapply safe_bind; [apply guard_the|intros a _]. go_all.
  apply keeps_auto_fields. intros t now. apply guarded_map; [intros; apply set_id|]. intros _ [] []. by split.
Qed.
Lemma guard_resume i : safe_g (resume_automation clock i).
Proof.
  unfold resume_automation. eapply safe_bind; [apply guard_the|intros a _]. go_all.
  apply keeps_auto_fields. intros t now. apply guarded_map; [intros; apply set_id|]. intros _ [] []. split; [done|].
  intros _. apply limit_positive.
Qed.
Lemma guard_mark i b : safe_g (Automations.set_inbox_item_read clock i b).
Proof. unfold Automations.set_inbox_item_read. go_all. Qed.
Lemma guard_delete i : i <> id -> safe_g (Automations.delete_automation i).
Proof.
  intros Hne. unfold Automations.delete_automation. go. apply keeps_delete. intros t. by apply guarded_delete.
Qed.
Lemma guard_update i msg session interval ty sched tz policy :
  (i = id -> policy = None) -> safe_g (update_automation clock cfg i msg session interval ty sched tz policy).
Proof.
  intros Hpol. unfold update_automation. eapply safe_bind; [apply guard_the|intros a _].
  eapply (safe_bind _ _ _ (fun _ => True)); [apply safe_lift|intros [[nty nsched] nint] _].
  eapply (safe_bind _ _ _ (fun _ => True)); [apply guard_cursor|intros nsched' _].
  eapply (safe_bind _ _ _ (fun _ => True)); [apply safe_lift|intros ntz _].
  eapply (safe_bind _ _ _ (fun p => i = id -> p = None)).
  { destruct policy as [p|]; [|done]. eapply safe_bind; [apply safe_lift|]. intros r _ ->. by specialize (Hpol eq_refl). }
  intros p Hp. eapply (safe_bind _ _ _ (fun fs => fs = [] \/ exists n, fs = [ANextRunAt n])).
  { destruct (au_is_enabled a); [|by left]. eapply (safe_bind _ _ _ (fun _ => True)); [go|intros now _].
    eapply (safe_bind _ _ _ (fun _ => True)); [apply safe_lift|intros n _]. right. by exists n. }
  intros fs Hfs. eapply (safe_bind _ _ _ (fun _ => True)); [|intros ? _; apply guard_reread]. go.
  apply keeps_auto_fields. intros t now. apply guarded_map; [intros; apply set_id|]. intros Hi r Hr. rewrite (Hp Hi).
  destruct Hfs as [->|[n ->]]; destruct msg, session;
    apply (reset_guarded [AIntervalSec _; AScheduleType _; ASchedule _; ATimezone _; ALastError _]); done.
Qed.

(** ** A trigger *)

(** The limit it computed for [id] is that of the policy. *)
Definition fits (g : trigger_env) : Prop :=
  au_id (tg_row g) = id -> slo_int (MissionPolicy.p_slo (tg_policy g)) "disable_failures" = Ok limit.

Lemma guard_failed g schedule pending exc : fits g -> safe_g (trigger_failed clock uuid cfg g schedule pending exc).
Proof.
  intros Hg. unfold trigger_failed. cbv zeta.
  do 2 (eapply (safe_bind _ _ _ (fun _ => True)); [apply safe_lift|intros ? _]).
  destruct (slo_int _ "disable_failures") as [disable|e] eqn:Ed; [|apply safe_failed]. cbn [t_lift t_bind].
  go; apply keeps_auto_fields; intros t now; (apply guarded_map; [intros; apply set_id|]); intros Hi r Hr;
    specialize (Hg Hi); rewrite Ed in Hg; injection Hg as ->; destruct r, Hr as [Hp _]; (split; [done|]); cbn;
    destruct (limit <=? _) eqn:El; try done; intros _; apply Z.leb_gt in El; lia.
Qed.

Lemma guard_blocked g schedule scopes : safe_g (trigger_blocked clock cfg g schedule scopes).
Proof. unfold trigger_blocked. cbv zeta. go. Qed.
Lemma guard_duplicate g schedule : safe_g (trigger_duplicate clock cfg g schedule).
Proof. unfold trigger_duplicate. go. Qed.
Lemma guard_queued g schedule files run_id : safe_g (trigger_queued clock uuid cfg g schedule files run_id).
Proof.
  unfold trigger_queued. cbv zeta. go; apply keeps_auto_fields; intros t now; (apply guarded_map; [intros; apply set_id|]);
    intros Hi r Hr; apply (reset_guarded [_; _; _; _; _; _; _; _]); done.
Qed.

Lemma guard_dispatch g schedule files msg :
  fits g -> safe_g (trigger_dispatch clock uuid run_cfg cfg breaker g schedule files msg).
Proof.
  intros Hg. unfold trigger_dispatch. eapply (safe_try _ _ _ _ (fun _ => True)).
  - unfold trigger_agent. go.
  - intros e. by apply guard_failed.
  - intros [agent registered] _. destruct registered; cbn [negb].
    + eapply (safe_try _ _ _ _ (fun _ => True)).
      * unfold trigger_create. go.
      * intros e. destruct e; try (by apply guard_failed).
        eapply safe_try; [apply guard_blocked|intros; by apply guard_failed|done].
      * intros run _. eapply safe_try; [apply guard_queued|intros; by apply guard_failed|done].
    + eapply safe_try; [apply guard_duplicate|intros; by apply guard_failed|done].
Qed.

Lemma guard_body g schedule : fits g -> safe_g (trigger_body clock uuid run_cfg cfg breaker g schedule).
Proof.
  intros Hg. unfold trigger_body. cbv zeta. destruct (String.eqb _ _); [|by apply guard_dispatch].
  eapply (safe_try _ _ _ _ (fun _ => True)); [apply safe_atomic, keeps_scan|intros; by apply guard_failed|].
  intros [[|f files] schedule'] _; [|by apply guard_dispatch]. destruct (negb _); [|by apply guard_dispatch].
  eapply (safe_try _ _ _ _ (fun _ => True)); [go|intros; by apply guard_failed|done].
Qed.

Lemma guard_trigger a source : of_pol a -> safe_g (trigger clock uuid run_cfg cfg breaker a source).
Proof.
  intros Ha. unfold trigger. eapply (safe_bind _ _ _ (fun _ => True)); [apply safe_lift|intros [[sty sched] interval] _].
  eapply (safe_bind _ _ _ (fun _ => True)); [apply safe_lift|intros tz _].
  eapply (safe_bind _ _ _ (fun _ => True)); [go|intros now _].
  destruct (policy_resolves cfg (au_mission_policy a)) as (p & Hp & Hd & _). rewrite (effective_resolves _ _ _ Hp). cbn [t_lift t_bind].
  cbv zeta. eapply (safe_bind _ _ _ (fun _ => True)); [apply safe_lift|intros next _].
  apply guard_body. intros Hi. cbn [tg_row tg_policy] in *. rewrite Hd. by rewrite (Ha Hi).
Qed.

Lemma guard_run_now i : safe_g (run_now clock uuid run_cfg cfg breaker i).
Proof.
  unfold run_now. eapply safe_bind; [apply guard_the|intros a Ha].
  eapply safe_bind; [by apply guard_trigger|intros ? _]. apply guard_reread.
Qed.
Lemma guard_tick : safe_g (tick clock uuid run_cfg cfg breaker).
Proof.
  unfold tick. eapply (safe_bind _ _ _ (fun _ => True)); [go|intros now _].
  eapply (safe_bind _ _ _ (fun _ => True)); [apply safe_lift|intros expires _].
  eapply safe_bind; [apply safe_triple, (claim_outcome _ _ of_pol)|intros rows Hrows].
  - intros t i at_ Ht. close.
  - intros t i r. apply read_of_pol.
  - eapply safe_for_in; [done|]. intros a Ha. unfold tick_item.
    eapply safe_try; [by apply guard_trigger|intros; go|intros; go].
Qed.
Lemma guard_turn : safe_g (loop_turn clock uuid run_cfg cfg breaker).
Proof. unfold loop_turn. go. apply guard_tick. Qed.
End methods.

End guarded.

Section system.
Context (clock : nat -> Z) (uuid : nat -> string) (run_cfg : settings).
Context `{TimeZones} `{FileSystem} (breaker : nat -> string -> string -> option breaker_answer).

Lemma actor_guarded cfg id pol t :
  actor clock uuid run_cfg breaker (fun c => c = cfg) (fun i => i <> id) (fun i => i <> id) t ->
  safe (guarded cfg id pol) t (fun _ => True).
Proof.
  intros Ha. destruct Ha as [c ->|c i ->|c ? ? ? ? ? ? ? ? ? ? ->|c i ? ? ? ? ? ? ? -> Hp|i|i|i Hi|i b|t];
    try (eapply safe_bind; [|intros ? _; by apply safe_done]); try by apply safe_zoom.
  - apply guard_turn.
  - apply guard_run_now.
  - apply guard_create.
  - apply guard_update. intros ->. by destruct Hp.
  - apply guard_pause.
  - apply guard_resume.
  - by apply guard_delete.
  - apply guard_mark.
Qed.

(** C12. Enabled automations are below their failure limit.  In every state
    that some interleaving of the scheduler, its operators and the workers
    reaches, while the mission policy of an automation is not changed: the
    disable limit of the policy is positive, and if the stored row of the
    automation is enabled, the count of consecutive failures stored in that row
    is below the limit.  (The count is what the row says: dispatches that
    started from the same row each write back their own count and their own
    [is_enabled], so it may be lower than the number of failed dispatches.) *)
Theorem enabled_below_failure_limit cfg id pol w ts w' :
  kept (guarded cfg id pol) w ->
  rtc (system clock uuid run_cfg breaker (fun c => c = cfg) (fun i => i <> id) (fun i => i <> id)) ([], w) (ts, w') ->
  exists r, d_get id (t_automations (w_auto w')) = Some r /\ 0 < disable_limit cfg pol
    /\ (au_is_enabled r = true -> au_consecutive_failures r < disable_limit cfg pol).
Proof.
  intros Hw Hs. assert (kept (guarded cfg id pol) w') as [(_ & [r Hr] & H3) _].
  { eapply system_keeps; [|done..]. intros t. by apply actor_guarded. }
  exists r. split_and!; [done|apply limit_positive|]. by apply H3.
Qed.
End system.

End AutomationLimits.
