(* ===== verification/AutomationWatch.v ===== *)
(** What a watcher reports: the most recent files newer than its cursor, and
    none of them twice, and that what it reports while the circuit breaker
    refuses runs is not reported again. *)

From stdpp Require Import prelude strings list.
From Stdlib Require Import Lia ZArith Ascii Sorted.
From S2P Require Import Prelude PyStr PyVal PyFloat PyFloatOps Effects PyTime Threads RunPolicy RunStore RunValues RunManager Schedule MissionPolicy AutomationStore Automations.
Import RunStore RunManager AutomationStore Automations.

Module AutomationWatch.

(** The cursor and the limit a schedule carries. *)
Definition cursor_of (schedule : pydict) : Z :=
  match py_int (get_or "last_seen_mtime_ns" (PInt 0) schedule) with Ok z => Z.max 0 z | Err _ => 0 end.
Definition limit_of (schedule : pydict) : nat :=
  match py_int (get_or "max_changed_files" (PInt 20) schedule) with Ok z => Z.to_nat (Z.max 1 z) | Err _ => 1%nat end.

(** [reported] are the files of [listing] newer than [cursor], or the [limit]
    most recent of them when there are more. *)
Definition most_recent (cursor : Z) (limit : nat) (listing reported : list (Z * string)) : Prop :=
  exists skipped,
    skipped ++ reported ≡ₚ List.filter (fun c => cursor <? fst c) listing
    /\ (forall x y, x ∈ skipped -> y ∈ reported -> fst x <= fst y)
    /\ (length reported <= limit)%nat /\ (skipped <> [] -> length reported = limit).

Lemma drop_most_recent cursor limit listing :
  let rows := sort_by (fun a b => fst a <=? fst b) (List.filter (fun c => cursor <? fst c) listing) in
  most_recent cursor limit listing (drop (length rows - limit) rows).
Proof.
  intros rows. exists (take (length rows - limit) rows). split_and!.
  - rewrite take_drop. apply sort_by_perm.
  - assert (StronglySorted (fun a b : Z * string => (fst a <=? fst b) = true) rows) as Hs.
    { apply sort_by_sorted; [intros x y|intros x y z]; rewrite ?Z.leb_le; lia. }
    rewrite <- (take_drop (length rows - limit) rows) in Hs. intros x y Hx Hy.
    apply Z.leb_le. revert x y Hx Hy. revert Hs. generalize (drop (length rows - limit) rows). 
    induction (take (length rows - limit) rows) as [|z l IH]; intros l2 Hs x y Hx Hy; [by apply elem_of_nil in Hx|].
    cbn in Hs. apply StronglySorted_inv in Hs as [Hs Hz]. apply elem_of_cons in Hx as [->|Hx]; [|by eapply IH].
    rewrite Forall_forall in Hz. apply Hz, elem_of_app. by right.
  - rewrite length_drop. lia.
  - intros Hne. rewrite length_drop. destruct (decide (limit <= length rows)%nat); [lia|].
    destruct Hne. replace (length rows - limit)%nat with 0%nat by lia. done.
Qed.

Lemma fold_max_spec (l : list (Z * string)) m :
  let r := fold_left (fun m c => Z.max m (fst c)) l m in
  m <= r /\ (forall c, c ∈ l -> fst c <= r) /\ (r = m \/ exists c, c ∈ l /\ fst c = r).
Proof.
  revert m. induction l as [|c l IH]; intros m; cbn.
  - split_and!; [lia|by intros ? ?%elem_of_nil|by left].
  - destruct (IH (Z.max m (fst c))) as (H1 & H2 & H3). split_and!; [lia| |].
    + intros c' [->|Hc']%elem_of_cons; [lia|auto].
    + destruct H3 as [H3|(c' & Hc' & H3)]; [|right; exists c'; split; [by right|done]]. rewrite H3.
      destruct (Z.max_spec m (fst c)) as [[_ ->]|[_ ->]]; [right; exists c; split; [by left|done]|by left].
Qed.

Section watch.
Context `{FileSystem}.

(** One scan. *)
Lemma scan_spec schedule w files schedule' w' :
  scan_watch_changes schedule w = (Ok (files, schedule'), w') ->
  exists path recursive pattern listing reported,
    fs_list (w_looks w) path recursive pattern = Ok listing /\ fs_exists (w_looks w) path = true
    /\ files = map snd reported /\ most_recent (cursor_of schedule) (limit_of schedule) listing reported
    /\ cursor_of schedule <= cursor_of schedule' /\ (forall c, c ∈ listing -> fst c <= cursor_of schedule')
    /\ (cursor_of schedule' = cursor_of schedule \/ exists c, c ∈ listing /\ fst c = cursor_of schedule')
    /\ w' = add_look w.
Proof.
  unfold scan_watch_changes, bind, raise_if, lift, gets, modify, raise, ret. destruct (is_empty _); [done|].
  destruct (fs_expanduser _) as [path|]; [|done]. cbn beta iota. destruct (fs_exists (w_looks w) path) eqn:Ex; cbn [negb]; [|intros Heq; discriminate Heq].
  destruct (py_int (get_or "max_changed_files" _ _)) as [limit|] eqn:Elim; [|done].
  destruct (py_int (get_or "last_seen_mtime_ns" _ _)) as [seen|] eqn:Eseen; [|done].
  destruct (fs_list (w_looks w) path _ _) as [listing|] eqn:El; [|done].
  destruct (py_int (get_or "poll_sec" _ _)) as [poll|]; [|done].
  intros Heq. injection Heq as <- <- <-.
  assert (cursor_of schedule = Z.max 0 seen) as -> by (unfold cursor_of; by rewrite Eseen).
  assert (limit_of schedule = Z.to_nat (Z.max 1 limit)) as -> by (unfold limit_of; by rewrite Elim).
  eexists path, _, _, listing, _. split; [exact El|]. split; [done|]. split; [reflexivity|]. split; [apply drop_most_recent|].
  unfold cursor_of, get_or. rewrite d_get_set_eq. cbn [py_int].
  destruct (fold_max_spec listing (Z.max 0 seen)) as (H1 & H2 & H3). cbv zeta in *.
  set (r := fold_left _ listing _) in *. rewrite (Z.max_r 0 r) by lia. done.
Qed.

(** What is reported from a cursor is newer than what the cursor has seen. *)
Lemma reported_newer cursor limit (seen listing reported : list (Z * string)) :
  (forall c, c ∈ seen -> fst c <= cursor) -> most_recent cursor limit listing reported ->
  forall c1 c2, c1 ∈ seen -> c2 ∈ reported -> fst c1 < fst c2.
Proof.
  intros Hseen (skipped & Hperm & _) c1 c2 Hc1%Hseen Hc2.
  assert (c2 ∈ List.filter (fun c => cursor <? fst c) listing) as Hin by (rewrite <- Hperm; apply elem_of_app; by right).
  apply list_elem_of_In, filter_In in Hin as [_ Hlt%Z.ltb_lt]. lia.
Qed.

(** What a watcher reports.  A scan reports the files newer than the
    cursor, and when there are more than the limit the most recent ones; the
    cursor moves to the newest file seen and never back.  So a later scan with
    the schedule that this one returned, whatever happened to the files in
    between, reports only changes newer than everything listed before: no
    change is reported twice. *)
Theorem watch_reports_once schedule w1 files1 schedule1 w1' w2 files2 schedule2 w2' :
  scan_watch_changes schedule w1 = (Ok (files1, schedule1), w1') ->
  scan_watch_changes schedule1 w2 = (Ok (files2, schedule2), w2') ->
  exists path1 rec1 pat1 listing1 reported1 path2 rec2 pat2 listing2 reported2,
    fs_list (w_looks w1) path1 rec1 pat1 = Ok listing1 /\ files1 = map snd reported1
    /\ most_recent (cursor_of schedule) (limit_of schedule) listing1 reported1
    /\ fs_list (w_looks w2) path2 rec2 pat2 = Ok listing2 /\ files2 = map snd reported2
    /\ most_recent (cursor_of schedule1) (limit_of schedule1) listing2 reported2
    /\ cursor_of schedule <= cursor_of schedule1
    /\ (cursor_of schedule1 = cursor_of schedule \/ exists c, c ∈ listing1 /\ fst c = cursor_of schedule1)
    /\ (forall c1 c2, c1 ∈ listing1 -> c2 ∈ reported2 -> fst c1 < fst c2).
Proof.
  intros (p1 & r1 & g1 & l1 & rep1 & E1 & _ & Hf1 & Hm1 & Hc1 & Hl1 & Hmax & _)%scan_spec
         (p2 & r2 & g2 & l2 & rep2 & E2 & _ & Hf2 & Hm2 & _)%scan_spec.
  exists p1, r1, g1, l1, rep1, p2, r2, g2, l2, rep2. split_and!; try done.
  by apply (reported_newer (cursor_of schedule1) (limit_of schedule1) l1 l2).
Qed.
End watch.

(** ** A scan whose run the circuit breaker refuses *)

Section blocked.
Context (clock : nat -> Z) (uuid : nat -> string) (run_cfg : settings) (cfg : sched_settings).
Context `{TimeZones} `{FileSystem} (breaker : nat -> string -> string -> option breaker_answer).

(** The automation [id] is stored with a row in [D], and these are the runs. *)
Definition stored (id : string) (D : automation_row -> Prop) (runs : dict run_row) (w : world) : Prop :=
  (exists r, d_get id (t_automations (w_auto w)) = Some r /\ D r) /\ t_runs (s_cur (conn w)) = runs.

(** [op] returns, from rows in [D] to rows in [E]. *)
Definition stores {A} id (D : automation_row -> Prop) (op : M world A) (E : automation_row -> Prop) : Prop :=
  forall runs, triple (stored id D runs) op (fun _ => stored id E runs) (fun _ _ => False).

Lemma stores_bind {A B} id D E F (op : M world A) (f : A -> M world B) :
  stores id D op E -> (forall a, stores id E (f a) F) -> stores id D (bind op f) F.
Proof. intros H1 H2 runs. eapply triple_bind; [apply H1|intros a; apply H2]. Qed.
Lemma stores_commit id D : stores id D commit_locked D.
Proof.
  intros runs w Hw. unfold commit_locked, on_runs, on_manager, on_store, RunStore.commit_locked, modify. cbn.
  repeat match goal with |- context [if ?b then _ else _] => destruct b end; exact Hw.
Qed.
Lemma stores_utc_now id D : stores id D (utc_now clock) D.
Proof. by intros runs w Hw. Qed.
Lemma stores_same id D f : (forall t, t_automations (f t) = t_automations t) -> stores id D (update_auto f) D.
Proof. intros Hf runs w [(r & Hr & HD) Hruns]. split; [|done]. exists r. cbn. by rewrite Hf. Qed.
Lemma stores_fields id D E fs :
  fs <> [] -> existsb is_auto_updated_at fs = false ->
  (forall r at_, D r -> E (set_auto_fields (fs ++ [AUpdatedAt at_]) r)) -> stores id D (update_automation_fields clock id fs) E.
Proof.
  intros Hne Hat Hf. unfold update_automation_fields. destruct fs as [|f fs']; [done|]. set (fs := f :: fs') in *.
  intros runs. eapply (triple_bind _ _ _ (fun sanitized w => (exists at_, sanitized = fs ++ [AUpdatedAt at_]) /\ stored id D runs w)).
  { rewrite Hat. intros w Hw. split; [by eexists|exact Hw]. }
  intros sanitized w [[at_ ->] Hw]. revert w Hw. eapply triple_bind; [|intros ?; apply stores_commit].
  intros w [(r & Hr & HD) Hruns]. split; [|done]. exists (set_auto_fields (fs ++ [AUpdatedAt at_]) r).
  split; [|by apply Hf]. cbn. unfold map_automation. rewrite Hr. cbn. by rewrite d_get_set_eq.
Qed.
Lemma stores_event id D ty msg run_id : stores id D (add_automation_event clock id ty msg run_id) D.
Proof.
  unfold add_automation_event. eapply stores_bind; [apply stores_utc_now|intros now].
  intros runs w Hw. pose proof Hw as [(r & Hr & _) _]. unfold bind at 1, gets at 1, bind at 1, raise_if.
  rewrite (d_get_Some_mem _ _ _ Hr). cbn [negb ret]. revert w Hw Hr. intros w Hw _. revert w Hw.
  eapply (stores_bind _ _ D); [by apply stores_same|intros ?; apply stores_commit].
Qed.
Lemma stores_transaction {A} id D E (op : M world A) : stores id D op E -> stores id D (transaction op) E.
Proof.
  intros Hop runs w Hw. unfold transaction. specialize (Hop runs (set_conn (tx_enter (conn w)) w) Hw).
  destruct (op _) as [[a|e] w']; [|done]. destruct Hop as [(r & Hr & HE) Hruns].
  split; [exists r; split; [|done]|]; destruct (_ && _); cbn; unfold tx_return; cbn; try done; by destruct (_ && _).
Qed.

(** The branch stores the schedule it is given. *)
Lemma blocked_stores g D schedule scopes :
  forall runs, triple (stored (au_id (tg_row g)) D runs) (run (trigger_blocked clock cfg g schedule scopes))
    (fun _ => stored (au_id (tg_row g)) (fun r => au_schedule r = schedule) runs) (fun _ _ => False).
Proof.
  intros runs w Hw. unfold trigger_blocked. cbv zeta. rewrite run_bind. unfold bind at 1. rewrite run_atomic.
  match goal with |- context [transaction ?op w] =>
    assert (stores (au_id (tg_row g)) D (transaction op) (fun r => au_schedule r = schedule)) as Hop end.
  { apply stores_transaction. eapply stores_bind; [eapply stores_bind; [by apply stores_same|intros _; apply stores_commit]|intros _].
    eapply (stores_bind _ _ (fun r => au_schedule r = schedule)); [|intros _; apply stores_event].
    apply (stores_fields _ D); [done..|]. intros r at_ _. by destruct r. }
  specialize (Hop runs w Hw). destruct (transaction _ w) as [[[]|] w']; [|done]. rewrite run_atomic.
  unfold emit, when. by destruct (sched_telemetry cfg).
Qed.

(** A run that the breaker refuses is not created. *)
Lemma create_refused id D runs agent user session message answer w :
  strip (opt_str (ag_user_id agent)) = user -> user <> "" -> truthy (get "blocked" (as_dict (ba_decision answer))) = true ->
  stored id D runs w ->
  exists text decision scopes snapshot w',
    run (zoom (RunManager.create_run clock uuid run_cfg agent user session message None [] "automation" (Some answer))) w
      = (Err (BreakerBlockedError text decision scopes snapshot), w') /\ stored id D runs w'.
Proof.
  intros <- Hu Hb Hw. unfold RunManager.create_run. cbv zeta. rewrite strip_idemp.
  apply is_empty_false in Hu. rewrite Hu, String.eqb_refl. cbn [orb negb]. rewrite Hb.
  unfold RunManager.emit, when, blocked_error. destruct (has_telemetry run_cfg); cbn; do 5 eexists; (split; [reflexivity|exact Hw]).
Qed.

(** A slot that was not dispatched before is registered. *)
Lemma register_first id key source before D runs w :
  stored id D runs w -> find_dispatch id key (w_auto w) = None ->
  exists w', register_automation_dispatch clock id key source None before w = (Ok true, w') /\ stored id D runs w'.
Proof.
  intros Hw Hd.
  enough (triple (fun w => stored id D runs w /\ find_dispatch id key (w_auto w) = None)
    (register_automation_dispatch clock id key source None before) (fun b w => b = true /\ stored id D runs w) (fun _ _ => False)) as Hop.
  { specialize (Hop w (conj Hw Hd)). destruct (register_automation_dispatch _ _ _ _ _ _ w) as [[b|] w']; [|done].
    destruct Hop as [-> Hop]. by exists w'. }
  clear w Hw Hd. apply (triple_bind _ _ _ (fun _ w => stored id D runs w /\ find_dispatch id key (w_auto w) = None));
    [by intros w Hw|]. intros created w [Hw Hd].
  unfold bind at 1, gets at 1. rewrite Hd. assert (d_mem id (t_automations (w_auto w)) = true) as -> by (destruct Hw as [(r & Hr & _) _]; by eapply d_get_Some_mem).
  clear Hd.
  revert w Hw. eapply (triple_bind _ _ _ (fun _ => stored id D runs)); [apply (stores_same id D); done|intros _].
  eapply (triple_bind _ _ _ (fun _ => stored id D runs)); [apply (stores_commit id D)|intros _]. by intros w Hw.
Qed.

(** The dispatch of a slot that the breaker refuses. *)
Lemma trigger_refused g schedule files message r agent w :
  d_get (au_id (tg_row g)) (t_automations (w_auto w)) = Some r ->
  d_get (au_agent_id (tg_row g)) (t_agents (s_cur (conn w))) = Some agent ->
  strip (opt_str (ag_user_id agent)) = au_user_id (tg_row g) -> au_user_id (tg_row g) <> "" ->
  is_ok (stale_before cfg g) = true -> find_dispatch (au_id (tg_row g)) (tg_key g) (w_auto w) = None ->
  (forall n, exists answer, breaker n (au_user_id (tg_row g)) (ag_id agent) = Some answer
     /\ truthy (get "blocked" (as_dict (ba_decision answer))) = true) ->
  exists w', run (trigger_dispatch clock uuid run_cfg cfg breaker g schedule files message) w = (Ok tt, w')
    /\ stored (au_id (tg_row g)) (fun r => au_schedule r = schedule) (t_runs (s_cur (conn w))) w'.
Proof.
  intros Hr Ha Ho Hu Hst Hd Hbr. unfold trigger_dispatch. rewrite run_try, run_bind. unfold bind at 1.
  unfold trigger_agent. rewrite run_bind. unfold bind at 1. rewrite run_atomic.
  assert (Automations.get_agent (au_agent_id (tg_row g)) w = (Ok (Some agent), w)) as ->.
  { unfold Automations.get_agent, on_runs, on_manager, on_store, RunStore.get_agent, gets. 
    change (s_cur (m_store (w_manager w))) with (s_cur (conn w)). rewrite Ha. by destruct w as [[]]. }
  cbv zeta. rewrite Ho, (proj2 (is_empty_false _) Hu), String.eqb_refl. cbn [orb negb run].
  destruct (stale_before cfg g) as [before|]; [|done]. cbn [t_lift t_bind]. rewrite run_bind. unfold bind at 1. rewrite run_atomic.
  set (D := fun _ : automation_row => True). set (runs := t_runs (s_cur (conn w))).
  assert (stored (au_id (tg_row g)) D runs w) as Hw by (split; [by exists r|done]).
  destruct (register_first _ (tg_key g) (tg_source g) (if String.eqb (tg_source g) "scheduled" then Some before else None) D runs w Hw Hd)
    as (w1 & -> & Hw1). cbn [run negb].
  rewrite run_try. unfold trigger_create. rewrite run_bind. unfold bind at 1. rewrite run_atomic. unfold gets at 1.
  destruct (Hbr (s_clock (conn w1))) as (answer & Hb & Hbl). rewrite Hb.
  destruct (create_refused _ D runs agent _ (au_session_id (tg_row g)) message answer w1 Ho Hu Hbl Hw1)
    as (text & decision & scopes & snapshot & w2 & -> & Hw2).
  rewrite run_try. pose proof (blocked_stores g D schedule scopes runs w2 Hw2) as Hw3.
  destruct (run _ w2) as [[[]|] w3]; [|done]. by exists w3.
Qed.

(** C35. Changes can be lost while the circuit breaker is open.  When a watcher
    finds changed files in a slot without a dispatch, for an agent of the
    automation's user, and the breaker refuses the run, the turn ends without
    an error and without a run, and what it stores is the schedule whose cursor
    the scan has moved: whatever the files are at a later scan that starts from
    the stored cursor, it reports only files newer than everything that was
    listed when the run was refused. *)
Theorem blocked_watch_changes_lost g schedule w files schedule' w1 r agent :
  tg_schedule_type g = "watch_fs" ->
  scan_watch_changes schedule w = (Ok (files, schedule'), w1) -> files <> [] ->
  d_get (au_id (tg_row g)) (t_automations (w_auto w)) = Some r ->
  d_get (au_agent_id (tg_row g)) (t_agents (s_cur (conn w))) = Some agent ->
  strip (opt_str (ag_user_id agent)) = au_user_id (tg_row g) -> au_user_id (tg_row g) <> "" ->
  is_ok (stale_before cfg g) = true -> find_dispatch (au_id (tg_row g)) (tg_key g) (w_auto w) = None ->
  (forall n, exists answer, breaker n (au_user_id (tg_row g)) (ag_id agent) = Some answer
     /\ truthy (get "blocked" (as_dict (ba_decision answer))) = true) ->
  exists w' r' path1 rec1 pat1 listing1 reported1,
    run (trigger_body clock uuid run_cfg cfg breaker g schedule) w = (Ok tt, w')
    /\ t_runs (s_cur (conn w')) = t_runs (s_cur (conn w))
    /\ d_get (au_id (tg_row g)) (t_automations (w_auto w')) = Some r'
    /\ fs_list (w_looks w) path1 rec1 pat1 = Ok listing1 /\ files = map snd reported1
    /\ most_recent (cursor_of schedule) (limit_of schedule) listing1 reported1
    /\ forall s w2 files2 s2 w2', cursor_of s = cursor_of (au_schedule r') ->
       scan_watch_changes s w2 = (Ok (files2, s2), w2') ->
       exists path2 rec2 pat2 listing2 reported2,
         fs_list (w_looks w2) path2 rec2 pat2 = Ok listing2 /\ files2 = map snd reported2
         /\ most_recent (cursor_of s) (limit_of s) listing2 reported2
         /\ forall c1 c2, c1 ∈ listing1 -> c2 ∈ reported2 -> fst c1 < fst c2.
Proof.
  intros Hty Hscan Hfiles Hr Ha Ho Hu Hst Hd Hbr.
  destruct (scan_spec _ _ _ _ _ Hscan) as (p1 & c1 & g1 & l1 & rep1 & E1 & _ & Hf1 & Hm1 & _ & Hl1 & _ & Hw1).
  unfold trigger_body. cbv zeta. rewrite Hty. cbn [String.eqb Ascii.eqb Bool.eqb]. rewrite run_try, run_atomic, Hscan.
  destruct files as [|f files]; [done|]. subst w1.
  destruct (trigger_refused g schedule' (f :: files) (build_watch_message (au_message (tg_row g)) (f :: files)) r agent (add_look w))
    as (w' & Hrun & (r' & Hr' & Hs') & Hruns); try done.
  exists w', r', p1, c1, g1, l1, rep1. split_and!; try done.
  intros s w2 files2 s2 w2' Hs (p2 & c2 & g2 & l2 & rep2 & E2 & _ & Hf2 & Hm2 & _)%scan_spec.
  exists p2, c2, g2, l2, rep2. split_and!; try done. rewrite Hs, Hs' in Hm2. by apply (reported_newer (cursor_of schedule') (limit_of s) l1 l2).
Qed.
End blocked.

End AutomationWatch.
