(* ===== verification/AutomationHealth.v ===== *)
(** The scheduler's reports (automation/automation_scheduler.py): listings and
    the health snapshot, with what its numbers add up to. *)

From stdpp Require Import prelude strings list.
From Stdlib Require Import Lia ZArith Ascii Sorted.
From S2P Require Import Prelude PyStr PyVal PyFloat PyFloatOps Effects PyTime Threads RunPolicy RunStore RunValues RunManager Schedule MissionPolicy AutomationStore Automations.
Import RunStore RunManager AutomationStore Automations.

Module AutomationHealth.

(** [list_due_automations] of the database *)
Definition list_due_automations (now_iso : string) (limit : Z) : M world (list automation_row) :=
  if limit <=? 0 then ret []
  else gets (fun w =>
    map decode_automation_row
      (take (Z.to_nat limit)
         (sort_by (fun a b => String.leb (au_next_run_at a) (au_next_run_at b))
            (List.filter (fun r => au_is_enabled r && String.leb (au_next_run_at r) now_iso)
               (d_values (t_automations (w_auto w))))))).

(** [_parse_iso_datetime] on a column *)
Definition parse_iso_datetime (value : option string) : option Z :=
  match value with
  | None => None
  | Some s => if is_empty s then None else fromisoformat s
  end.

(** [_is_future_timestamp] *)
Definition is_future_timestamp (value : option string) (now : Z) : bool :=
  match parse_iso_datetime value with Some t => now <? t | None => false end.

(** [counts[key] = int(counts.get(key, 0)) + 1] *)
Definition bump (key : string) (counts : dict Z) : dict Z := d_set key (default 0 (d_get key counts) + 1) counts.
Definition tally {A} (key : A -> string) (items : list A) : dict Z := fold_left (fun c x => bump (key x) c) items [].

Definition count_if {A} (p : A -> bool) (items : list A) : Z := Z.of_nat (length (List.filter p items)).

Definition level_is (level : string) (r : automation_row) : bool := String.eqb (lower (strip (au_escalation_level r))) level.
Definition profile_of (r : automation_row) : string := str_or (RunValues.low (get "profile" (au_mission_policy r))) "scheduler_default".
Definition type_of (e : event_row) : string := str_or (lower (strip (str_or (e_event_type e) "unknown"))) "unknown".

Record failure_row : Type := FailureRow { f_automation_id : string; f_failures : Z; f_enabled : bool }.

(** The rows with failures, the worst first, ten at most. *)
Definition top_of (automations : list automation_row) : list failure_row :=
  take 10 (sort_by (fun a b => f_failures b <=? f_failures a)
    (map (fun r => FailureRow (au_id r) (au_consecutive_failures r) (au_is_enabled r))
       (List.filter (fun r => 0 <? au_consecutive_failures r) automations))).

Record health : Type := Health {
  total_automations : Z;
  enabled_automations : Z;
  disabled_automations : Z;
  warning_count : Z;
  critical_count : Z;
  lease_active : Z;
  backoff_active : Z;
  circuit_open : Z;
  recent_count : Z;
  breakdown : dict Z;
  sample_size : Z;
  run_queue_success_rate : fvalue;
  run_queue_error_rate : fvalue;
  blocked_by_breaker : Z;
  deduplicated_dispatches : Z;
  top_failures : list failure_row;
  mission_policy_profiles : dict Z;
  (** The "scheduler" block repeats the settings. *)
  health_settings : sched_settings }.

Section reports.
Context (clock : nat -> Z) (cfg : sched_settings).

(** The events of the selection. *)
Definition selected_events (user_id : option string) (automations : list automation_row) (events : list event_row) :
    list event_row :=
  if is_empty (opt_str user_id) then events
  else List.filter (fun e => str_in (e_automation_id e) (map au_id automations)) events.

(** [health_snapshot] *)
Definition health_snapshot (user_id : option string) (limit : Z) : M world health :=
  let bounded_limit := Z.max 1 (Z.min limit 5000) in
  let* automations := AutomationStore.list_automations user_id None None 2000 in
  let* recent := list_recent_automation_events bounded_limit in
  let events := selected_events user_id automations recent in
  let* now := Automations.read_clock clock in
  let enabled_count := count_if au_is_enabled automations in
  let event_breakdown := tally type_of events in
  let of_type t := default 0 (d_get t event_breakdown) in
  let queued_count := of_type "run_queued" in
  let error_count := of_type "run_error" in
  let attempts := queued_count + error_count in
  ret {|
    total_automations := Z.of_nat (length automations);
    enabled_automations := enabled_count;
    disabled_automations := Z.max 0 (Z.of_nat (length automations) - enabled_count);
    warning_count := count_if (level_is "warning") automations;
    critical_count := count_if (level_is "critical") automations;
    lease_active := count_if (fun r => is_future_timestamp (au_lease_expires_at r) now) automations;
    backoff_active := count_if (fun r => is_future_timestamp (au_backoff_until r) now) automations;
    circuit_open := count_if (fun r => is_future_timestamp (au_circuit_open_until r) now) automations;
    recent_count := Z.of_nat (length events);
    breakdown := event_breakdown;
    sample_size := attempts;
    run_queue_success_rate := if 0 <? attempts then f_quot queued_count attempts else FFinite 1 0;
    run_queue_error_rate := if 0 <? attempts then f_quot error_count attempts else FFinite 0 0;
    blocked_by_breaker := of_type "run_blocked_autonomy_circuit_breaker";
    deduplicated_dispatches := of_type "run_deduplicated";
    top_failures := top_of automations;
    mission_policy_profiles := tally profile_of automations;
    health_settings := cfg |}.
End reports.

(** ** What a tally counts *)

Lemma tally_snoc {A} (key : A -> string) l x : tally key (l ++ [x]) = bump (key x) (tally key l).
Proof. unfold tally. by rewrite fold_left_app. Qed.

Lemma count_snoc {A} (p : A -> bool) l x : count_if p (l ++ [x]) = count_if p l + (if p x then 1 else 0).
Proof. unfold count_if. rewrite List.filter_app, length_app. cbn. destruct (p x); cbn; lia. Qed.

(** The entry of a key is the number of items with that key. *)
Lemma tally_get {A} (key : A -> string) l k :
  default 0 (d_get k (tally key l)) = count_if (fun x => String.eqb (key x) k) l.
Proof.
  induction l as [|x l IH] using rev_ind; [done|]. rewrite tally_snoc, count_snoc, <- IH. unfold bump. rewrite d_get_set.
  destruct (String.eqb_spec (key x) k) as [->|]; cbn; lia.
Qed.

Definition total (d : dict Z) : Z := fold_right Z.add 0 (d_values d).

Lemma total_set k v (d : dict Z) : total (d_set k v d) = total d - default 0 (d_get k d) + v.
Proof.
  unfold total, d_values. induction d as [|[k' v'] d IH]; cbn; [lia|].
  destruct (String.eqb k k'); cbn in *; [lia|]. rewrite IH. lia.
Qed.

Lemma tally_total {A} (key : A -> string) l : total (tally key l) = Z.of_nat (length l).
Proof.
  induction l as [|x l IH] using rev_ind; [done|]. rewrite tally_snoc. unfold bump. rewrite total_set, IH, length_app. cbn. lia.
Qed.

Lemma tally_keys {A} (key : A -> string) l : NoDup (d_keys (tally key l)).
Proof. induction l as [|x l IH] using rev_ind; [constructor|]. rewrite tally_snoc. by apply d_set_NoDup. Qed.

Lemma count_le {A} (p : A -> bool) l : 0 <= count_if p l <= Z.of_nat (length l).
Proof. unfold count_if. pose proof (List.filter_length_le p l). lia. Qed.

Lemma count_disjoint {A} (p q : A -> bool) l :
  (forall x, p x = true -> q x = false) -> count_if p l + count_if q l <= Z.of_nat (length l).
Proof.
  intros H. induction l as [|x l IH] using rev_ind; [done|]. rewrite !count_snoc, length_app. cbn.
  specialize (H x). destruct (p x), (q x); naive_solver lia.
Qed.

(** The ten worst: a failing row that is not listed is no worse than any listed
    one, and then ten are listed. *)
Lemma top_worst automations r :
  r ∈ automations -> 0 < au_consecutive_failures r ->
  FailureRow (au_id r) (au_consecutive_failures r) (au_is_enabled r) ∈ top_of automations
  \/ (length (top_of automations) = 10%nat
      /\ Forall (fun f => au_consecutive_failures r <= f_failures f) (top_of automations)).
Proof.
  intros Hr Hpos. unfold top_of. set (rows := map _ _).
  assert (FailureRow (au_id r) (au_consecutive_failures r) (au_is_enabled r) ∈ rows) as Hin.
  { apply list_elem_of_fmap. exists r. split; [done|]. apply list_elem_of_In, filter_In. split; [by apply list_elem_of_In|].
    by apply Z.ltb_lt. }
  set (le := fun a b : failure_row => f_failures b <=? f_failures a).
  assert (StronglySorted (fun a b => le a b = true) (sort_by le rows)) as Hs.
  { apply sort_by_sorted; [intros x y|intros x y z]; unfold le; rewrite ?Z.leb_le; lia. }
  apply (sort_by_elem le) in Hin. rewrite <- (take_drop 10 (sort_by le rows)) in Hin, Hs.
  apply elem_of_app in Hin as [Hin|Hin]; [by left|right]. split.
  - assert (length (drop 10 (sort_by le rows)) <> 0%nat) by (by destruct (drop 10 _); [apply elem_of_nil in Hin|]).
    rewrite length_drop in *. rewrite length_take. lia.
  - revert Hs. induction (take 10 (sort_by le rows)) as [|f l IH]; intros Hs; [constructor|].
    apply StronglySorted_inv in Hs as [Hs Hf]. constructor; [|by apply IH]. rewrite Forall_forall in Hf.
    apply Z.leb_le, (Hf _ (proj2 (elem_of_app _ _ _) (or_intror Hin))).
Qed.

Lemma four_types events :
  let n t := count_if (fun e => String.eqb (type_of e) t) events in
  0 <= n "run_queued" + n "run_error" + n "run_blocked_autonomy_circuit_breaker" + n "run_deduplicated"
    <= Z.of_nat (length events).
Proof.
  cbv zeta. induction events as [|e l IH] using rev_ind; [done|]. rewrite !count_snoc, length_app. cbn [length].
  generalize dependent (type_of e). intros ty.
  destruct (String.eqb_spec ty "run_queued") as [->|_]; [cbn; lia|].
  destruct (String.eqb_spec ty "run_error") as [->|_]; [cbn; lia|].
  destruct (String.eqb_spec ty "run_blocked_autonomy_circuit_breaker") as [->|_]; [cbn; lia|].
  destruct (String.eqb_spec ty "run_deduplicated") as [->|_]; lia.
Qed.

Lemma list_reads user_id w : exists l, AutomationStore.list_automations user_id None None 2000 w = (Ok l, w).
Proof. by eexists. Qed.
Lemma recent_reads limit w : 0 < limit ->
  exists l, list_recent_automation_events limit w = (Ok l, w) /\ Z.of_nat (length l) <= limit.
Proof.
  intros H. unfold list_recent_automation_events. destruct (Z.leb_spec limit 0); [lia|]. eexists. split; [reflexivity|].
  unfold last_rows. rewrite length_rev, length_take. lia.
Qed.
Lemma selected_length user_id automations events :
  (length (selected_events user_id automations events) <= length events)%nat.
Proof. unfold selected_events. destruct (is_empty _); [done|]. apply List.filter_length_le. Qed.

(** The health snapshot adds up, for any user and any limit: enabled and
    disabled automations make up the total, of which warnings and critical
    ones are disjoint parts; the profiles and the event types are counted once
    per automation and per event; the sample are the queued and the failed
    dispatches among the events; and the list of failures misses no automation
    that fails more often than one it lists. *)
Theorem health_adds_up clock cfg user_id limit w :
  exists h w' automations,
    health_snapshot clock cfg user_id limit w = (Ok h, w')
    /\ fst (AutomationStore.list_automations user_id None None 2000 w) = Ok automations
    /\ w_auto w' = w_auto w
    /\ total_automations h = enabled_automations h + disabled_automations h
    /\ warning_count h + critical_count h <= total_automations h
    /\ total (mission_policy_profiles h) = total_automations h
    /\ total (breakdown h) = recent_count h /\ NoDup (d_keys (breakdown h))
    /\ recent_count h <= Z.max 1 (Z.min limit 5000)
    /\ 0 <= sample_size h + blocked_by_breaker h + deduplicated_dispatches h <= recent_count h
    /\ (length (top_failures h) <= 10)%nat
    /\ forall r, r ∈ automations -> 0 < au_consecutive_failures r ->
         FailureRow (au_id r) (au_consecutive_failures r) (au_is_enabled r) ∈ top_failures h
         \/ Forall (fun f => au_consecutive_failures r <= f_failures f) (top_failures h).
Proof.
  unfold health_snapshot. cbv zeta.
  destruct (list_reads user_id w) as [automations Ha]. destruct (recent_reads (Z.max 1 (Z.min limit 5000)) w ltac:(lia)) as (recent & Hr & Hlen).
  unfold bind at 1. rewrite Ha. unfold bind at 1. rewrite Hr.
  pose proof (selected_length user_id automations recent) as Hsel. set (events := selected_events user_id automations recent) in *.
  eexists _, _, automations. split; [reflexivity|]. split; [done|]. split; [done|].
  cbn [total_automations enabled_automations disabled_automations warning_count critical_count mission_policy_profiles breakdown
       recent_count sample_size blocked_by_breaker deduplicated_dispatches top_failures].
  rewrite !tally_get, !tally_total. pose proof (count_le au_is_enabled automations). pose proof (four_types events) as H4. cbv beta zeta in H4.
  split_and!; try lia; try done.
  - apply count_disjoint. intros r Hl%String.eqb_eq. unfold level_is. by rewrite Hl.
  - apply tally_keys.
  - unfold top_of. rewrite length_take. lia.
  - intros r Hin Hpos. destruct (top_worst automations r Hin Hpos) as [?|[_ ?]]; [by left|by right].
Qed.

End AutomationHealth.
