(* ===== verification/AutomationRaces.v ===== *)
(** The automation scheduler on a concrete database: executions that show the
    hypotheses of its theorems, and one in which a pause is lost. *)

From stdpp Require Import prelude strings list.
From Stdlib Require Import Lia ZArith Ascii.
From S2P Require Import Prelude PyStr PyVal PyFloat PyFloatOps Effects PyTime Threads RunPolicy RunStore RunValues RunManager RunLeases RunLeaseFacts RunRaces Schedule MissionPolicy AutomationStore Automations AutomationFacts AutomationLimits AutomationWatch.
Import RunStore RunManager AutomationStore Automations RunRaces AutomationFacts AutomationLimits AutomationWatch.

Module AutomationRaces.

(** One reading per minute from 2026-01-01, for fifteen hours. *)
Definition minute_clock (n : nat) : Z := 1767225600000000 + Z.min (Z.of_nat n) 900 * 60000000.

Definition only_utc : TimeZones :=
  {| zone_known k := String.eqb k "UTC"; zone_fromutc k t := (t, false); zone_utcoffset k w f := 0 |}.
(** A directory with two files; one that is gone. *)
Definition two_files : FileSystem :=
  {| fs_expanduser s := Ok s; fs_exists n s := true; fs_list n p r g := Ok [(5, "a.txt"); (3, "b.txt")] |}.
Definition gone : FileSystem :=
  {| fs_expanduser s := Ok s; fs_exists n s := false; fs_list n p r g := Ok [] |}.
#[local] Existing Instance only_utc.

Definition one_scheduler : sched_settings :=
  init_scheduler (FFinite 2 0) 10 2 4 6 30 (FFinite 5 0) (FFinite 300 0) 4 (FFinite 120 0) true "s".

Definition one_agent : tables := Tables [("a1", demo_agent)] [] [] [] [].
Definition no_rows : auto_tables := AutoTables [] [] [] [].
Definition fresh_world : world :=
  World (Manager (Store one_agent one_agent 0 false 0) [] true false [] [] 0 0 0 []) no_rows no_rows [] true false 0.

(** The breaker stays closed; or it is open for the first eight minutes. *)
Definition closed (n : nat) (user_id agent_id : string) : option breaker_answer := None.
Definition maintenance (n : nat) (user_id agent_id : string) : option breaker_answer :=
  if (n <? 8)%nat
  then Some (BreakerAnswer (PDict [("blocked", PBool true);
         ("matched_scopes", PList [PDict [("scope_type", PStr "global"); ("reason", PStr "maintenance")]])]) PNone)
  else None.

Abbreviation turn fs breaker := (@loop_turn minute_clock demo_uuid demo_cfg one_scheduler _ fs breaker).
Abbreviation free fs breaker := (@system minute_clock demo_uuid demo_cfg _ fs breaker (fun c => c = one_scheduler) (fun i => i <> "u") (fun i => i <> "u")).
Abbreviation no_label := (fun (_ _ : world) (l : unit) => l).

(** A watcher of [/x] and an hourly automation. *)
Definition watcher : world :=
  (run (@Automations.create_automation minute_clock demo_uuid one_scheduler _ two_files "a1" "alice" None "hi" None
     (Some "watch_fs") (Some [("path", PStr "/x"); ("last_seen_mtime_ns", PInt 1)]) "UTC" true None) fresh_world).2.
Definition hourly : world :=
  (run (@Automations.create_automation minute_clock demo_uuid one_scheduler _ two_files "a1" "alice" None "hi" (Some 3600)
     None None "UTC" true None) fresh_world).2.

Definition event_types (w : world) : list string := map e_event_type (t_events (w_auto w)).
Definition cursor_at (i : string) (w : world) : option Z := (fun r => cursor_of (au_schedule r)) <$> d_get i (t_automations (w_auto w)).


(** Two whole turns of the scheduler: the breaker refuses the run of the first
    turn, the second, after the breaker has closed, finds nothing; with the
    breaker closed from the start the first turn queues a run. *)
Example blocked_turns :
  let first := (run (turn two_files maintenance) watcher).2 in
  let second := (run (turn two_files maintenance) first).2 in
  cursor_at "u" watcher = Some 1 /\ cursor_at "u" first = Some 5
  /\ maintenance (s_clock (conn first)) "alice" "a1" = None
  /\ event_types second = ["created"; "run_blocked_autonomy_circuit_breaker"]
  /\ map fst (t_runs (s_cur (conn second))) = []
  /\ map fst (t_runs (s_cur (conn (run (turn two_files closed) watcher).2))) = ["1u"].
Proof. cbv zeta. split_and!; vm_compute; reflexivity. Qed.

(** ** Witnesses *)

(** The hourly automation after its first slot. *)
Definition dispatched : world := (run (turn two_files closed) hourly).2.
Definition first_slot : string := "scheduled:interval:2026-01-01T00:00:00+00:00".

Lemma recorded_slot_dispatched_once_witness :
  let c := drive no_label (times 40 0) ([(tt, turn two_files closed)], dispatched) in
  (exists d, find_dispatch "u" first_slot (w_auto c.2) = Some d /\ d_run_id d = Some "1u")
  /\ forall source run_id before, fst (register_automation_dispatch minute_clock "u" first_slot source run_id before c.2) = Ok false.
Proof.
  intros c.
  apply (@recorded_slot_dispatched_once minute_clock demo_uuid demo_cfg _ two_files closed "u" first_slot "1u" dispatched c.1 c.2).
  - discriminate.
  - split; (split; [vm_compute; reflexivity|]); eexists; split; vm_compute; reflexivity.
  - rewrite <- surjective_pairing. etrans; [|apply drive_sched]. apply (starts_sched _ _ []).
    repeat constructor.
Defined.

Definition watcher_policy : pydict := MissionPolicy.policy_dict (default_mission_policy one_scheduler).

Lemma watcher_guarded : kept (guarded one_scheduler "u" watcher_policy) watcher.
Proof.
  split; (split; [repeat constructor|]; split; [eexists; vm_compute; reflexivity|]); intros r Hr;
    assert (Hr' := Hr); vm_compute in Hr'; injection Hr' as <-; (split; [vm_compute; reflexivity|]); intros _; vm_compute; reflexivity.
Qed.

Lemma enabled_below_failure_limit_witness :
  let c := drive no_label (times 40 0) ([(tt, turn gone closed)], watcher) in
  exists r, d_get "u" (t_automations (w_auto c.2)) = Some r /\ 0 < disable_limit one_scheduler watcher_policy
    /\ (au_is_enabled r = true -> au_consecutive_failures r < disable_limit one_scheduler watcher_policy).
Proof.
  intros c.
  apply (@enabled_below_failure_limit minute_clock demo_uuid demo_cfg _ gone closed one_scheduler "u" watcher_policy watcher c.1 c.2).
  - exact watcher_guarded.
  - rewrite <- surjective_pairing. etrans; [|apply drive_sched]. apply (starts_sched _ _ []).
    repeat constructor.
Defined.

Definition watched : pydict := [("path", PStr "/x"); ("last_seen_mtime_ns", PInt 1)].
Definition scan_result (schedule : pydict) (w : world) : list string * pydict :=
  match fst (@scan_watch_changes two_files schedule w) with Ok p => p | Err _ => ([], []) end.
Definition scan_1 : list string * pydict := scan_result watched watcher.
Definition scan_2 : list string * pydict := scan_result scan_1.2 (add_look watcher).

Lemma watch_reports_once_witness :
  scan_1.1 = ["b.txt"; "a.txt"] /\ scan_2.1 = []
  /\ exists path1 rec1 pat1 listing1 reported1 path2 rec2 pat2 listing2 reported2,
    @fs_list two_files 0 path1 rec1 pat1 = Ok listing1 /\ scan_1.1 = map snd reported1
    /\ most_recent (cursor_of watched) (limit_of watched) listing1 reported1
    /\ @fs_list two_files 1 path2 rec2 pat2 = Ok listing2 /\ scan_2.1 = map snd reported2
    /\ most_recent (cursor_of scan_1.2) (limit_of scan_1.2) listing2 reported2
    /\ cursor_of watched <= cursor_of scan_1.2
    /\ (cursor_of scan_1.2 = cursor_of watched \/ exists c, c ∈ listing1 /\ fst c = cursor_of scan_1.2)
    /\ (forall c1 c2, c1 ∈ listing1 -> c2 ∈ reported2 -> fst c1 < fst c2).
Proof.
  split; [vm_compute; reflexivity|]. split; [vm_compute; reflexivity|].
  apply (@watch_reports_once two_files watched watcher scan_1.1 scan_1.2 (add_look watcher)
           (add_look watcher) scan_2.1 scan_2.2 (add_look (add_look watcher))); vm_compute; reflexivity.
Defined.

(** The first turn of [blocked_turns]. *)
Definition armed (n : nat) (user_id agent_id : string) : option breaker_answer := maintenance 0 user_id agent_id.
Definition watcher_row : automation_row :=
  default (AutomationRow "" "" "" None "" 0 "" [] [] "" true "" None None 0 "" None None None None None "" "")
    (d_get "u" (t_automations (w_auto watcher))).
Definition watcher_env : trigger_env :=
  TriggerEnv watcher_row "watch_fs" 10 "UTC" (minute_clock 5) (default_mission_policy one_scheduler) "scheduler_default"
    "scheduled" first_slot "2026-01-01T01:00:00+00:00".

Lemma blocked_watch_changes_lost_witness :
  exists w' r' path1 rec1 pat1 listing1 reported1,
    run (@trigger_body minute_clock demo_uuid demo_cfg one_scheduler _ two_files armed watcher_env watched) watcher = (Ok tt, w')
    /\ t_runs (s_cur (conn w')) = t_runs (s_cur (conn watcher))
    /\ d_get "u" (t_automations (w_auto w')) = Some r'
    /\ @fs_list two_files (w_looks watcher) path1 rec1 pat1 = Ok listing1 /\ ["b.txt"; "a.txt"] = map snd reported1
    /\ most_recent (cursor_of watched) (limit_of watched) listing1 reported1
    /\ forall s w2 files2 s2 w2', cursor_of s = cursor_of (au_schedule r') ->
       @scan_watch_changes two_files s w2 = (Ok (files2, s2), w2') ->
       exists path2 rec2 pat2 listing2 reported2,
         @fs_list two_files (w_looks w2) path2 rec2 pat2 = Ok listing2 /\ files2 = map snd reported2
         /\ most_recent (cursor_of s) (limit_of s) listing2 reported2
         /\ forall c1 c2, c1 ∈ listing1 -> c2 ∈ reported2 -> fst c1 < fst c2.
Proof.
  apply (@blocked_watch_changes_lost minute_clock demo_uuid demo_cfg one_scheduler _ two_files armed watcher_env watched watcher
           ["b.txt"; "a.txt"] scan_1.2 (add_look watcher) watcher_row demo_agent).
  - reflexivity.
  - vm_compute. reflexivity.
  - discriminate.
  - vm_compute. reflexivity.
  - vm_compute. reflexivity.
  - vm_compute. reflexivity.
  - vm_compute. discriminate.
  - vm_compute. reflexivity.
  - vm_compute. reflexivity.
  - intros n. eexists. split; [reflexivity | vm_compute; reflexivity].
Defined.

End AutomationRaces.
