(* ===== verification/PyFloatFacts.v ===== *)
(** Order and arithmetic of Python floats: comparison is a total preorder on
    the numbers that are not NaN, and sums, differences and roundings of such
    numbers are not NaN where the second operand is finite. *)

From stdpp Require Import prelude strings list.
From Stdlib Require Import Lia ZArith Ascii Sorted SpecFloat.
From S2P Require Import Prelude PyStr PyVal PyFloat PyFloatOps.

(** ** Comparison *)

Lemma f_lt_scaled m1 e1 m2 e2 e :
  e <= e1 -> e <= e2 -> f_lt (FFinite m1 e1) (FFinite m2 e2) = (m1 * 2 ^ (e1 - e) <? m2 * 2 ^ (e2 - e)).
Proof.
  intros H1 H2. cbn. set (e0 := Z.min e1 e2).
  replace (e1 - e) with (e1 - e0 + (e0 - e)) by lia. replace (e2 - e) with (e2 - e0 + (e0 - e)) by lia.
  rewrite !Z.pow_add_r, !Z.mul_assoc by lia. assert (0 < 2 ^ (e0 - e)) by (apply Z.pow_pos_nonneg; lia).
  apply Bool.eq_iff_eq_true. rewrite !Z.ltb_lt. apply Z.mul_lt_mono_pos_r. done.
Qed.

Lemma f_lt_trans_neg a b c :
  is_nan b = false -> f_lt b a = false -> f_lt c b = false -> f_lt c a = false.
Proof.
  destruct a as [m1 e1|[]|], b as [m2 e2|[]|], c as [m3 e3|[]|]; try done. intros _.
  set (e := Z.min e1 (Z.min e2 e3)). rewrite !(fun x y z t => f_lt_scaled x y z t e) by lia. rewrite !Z.ltb_ge. lia.
Qed.

Lemma f_le_numbers a b : is_nan a = false -> is_nan b = false -> f_le a b = negb (f_lt b a).
Proof. by destruct a, b. Qed.

Lemma same_float_numbers a b :
  is_nan a = false -> is_nan b = false -> same_float a b = negb (f_lt a b) && negb (f_lt b a).
Proof. intros Ha Hb. unfold same_float. rewrite !f_le_numbers by done. apply Bool.andb_comm. Qed.

(** ** Rounding never makes a NaN *)

Lemma shr_1_nonneg r : 0 <= shr_m r -> 0 <= shr_m (shr_1 r).
Proof. destruct r as [[|[]|] ? ?]; cbn; lia. Qed.

Lemma iter_nonneg p r : 0 <= shr_m r -> 0 <= shr_m (iter_pos shr_1 p r).
Proof. revert r. induction p as [p IH|p IH|]; intros r Hr; cbn; auto using shr_1_nonneg. Qed.

Lemma shr_fexp_nonneg m e l : 0 <= m -> 0 <= shr_m (shr_fexp 53 1024 m e l).1.
Proof.
  intros Hm. unfold shr_fexp, shr. assert (0 <= shr_m (shr_record_of_loc m l)) by (by destruct l as [|[]]).
  destruct (_ - e); cbn [fst]; auto using iter_nonneg.
Qed.

Lemma round_nonneg m l : 0 <= m -> 0 <= round_nearest_even m l.
Proof. intros Hm. destruct l as [|[]]; cbn [round_nearest_even]; try lia. destruct (Z.even m); lia. Qed.

Definition number (f : spec_float) : Prop := f <> S754_nan.

Lemma round_aux_number s m e l : 0 <= m -> number (binary_round_aux 53 1024 s m e l).
Proof.
  intros Hm. unfold binary_round_aux. pose proof (shr_fexp_nonneg m e l Hm) as H1. destruct (shr_fexp _ _ m e l) as [r e1]. cbn [fst] in H1.
  pose proof (shr_fexp_nonneg _ e1 loc_Exact (round_nonneg _ (loc_of_shr_record r) H1)) as H2.
  destruct (shr_fexp _ _ _ e1 loc_Exact) as [r2 e2]. cbn [fst] in H2. destruct (shr_m r2); [done| |lia]. by destruct (_ <=? _).
Qed.

Lemma normalize_number m e s : number (binary_normalize 53 1024 m e s).
Proof.
  destruct m as [|m|m]; [done|..]; cbn [binary_normalize]; unfold binary_round; destruct (shl_align _ _ _); by apply round_aux_number.
Qed.

Lemma quot_number a b : 0 < b -> number (round_quot a b).
Proof.
  intros Hb. unfold round_quot. destruct b as [|b|]; [lia| |lia]. destruct a as [|a|a]; [done|..]; cbn [exact SFdiv];
    unfold SFdiv_core_binary; cbv zeta;
    match goal with |- context [Z.div_eucl ?x ?y] =>
      assert (0 <= x) as Hx by (destruct (_ - _ - _); try lia; apply Z.shiftl_nonneg; lia);
      pose proof (Z.div_pos x y Hx ltac:(lia)) as Hq; unfold Z.div in Hq; destruct (Z.div_eucl x y) end;
    by apply round_aux_number.
Qed.

Lemma of_spec_number f : number f -> is_nan (of_spec f) = false.
Proof. by destruct f. Qed.

Lemma to_spec_number a : is_nan a = false -> number (to_spec a).
Proof. destruct a; try done. intros _. apply normalize_number. Qed.

(** ** Sums and differences with a finite operand *)

Definition finite (f : spec_float) : bool := match f with S754_zero _ | S754_finite _ _ _ => true | _ => false end.

Lemma add_number x y : number x -> finite y = true -> number (SFadd 53 1024 x y).
Proof. destruct x as [?|?| |? ? ?], y as [?|?| |? ? ?]; try done; intros _ _; cbn [SFadd]; repeat case_match; try done; apply normalize_number. Qed.

Lemma sub_number x y : number x -> finite y = true -> number (SFsub 53 1024 x y).
Proof. destruct x as [?|?| |? ? ?], y as [?|?| |? ? ?]; try done; intros _ _; cbn [SFsub]; repeat case_match; try done; apply normalize_number. Qed.

Lemma f_add_number a b : is_nan a = false -> finite (to_spec b) = true -> is_nan (f_add a b) = false.
Proof. intros Ha Hb. apply of_spec_number, add_number; [by apply to_spec_number|done]. Qed.

Lemma f_sub_number a b : is_nan a = false -> finite (to_spec b) = true -> is_nan (f_sub a b) = false.
Proof. intros Ha Hb. apply of_spec_number, sub_number; [by apply to_spec_number|done]. Qed.

Lemma f_sum_number l a :
  is_nan a = false -> Forall (fun b => finite (to_spec b) = true) l -> is_nan (fold_left f_add l a) = false.
Proof. intros Ha Hl. revert a Ha. induction Hl as [|b l Hb Hl IH]; intros a Ha; [done|]. by apply IH, f_add_number. Qed.

Lemma f_round_number n a : 0 < n -> is_nan a = false -> is_nan (f_round n a) = false.
Proof.
  intros Hn Ha. destruct a as [m e|s|]; try done. apply of_spec_number. unfold round_decimal.
  destruct (Z.leb_spec 0 (- n)); [lia|]. apply quot_number. apply Z.pow_pos_nonneg; lia.
Qed.

(** ** The first of a list sorted by a comparison of numbers *)

Section best.
Context {A : Type} (lt : A -> A -> bool) (ok : A -> bool).
Context (asym : forall a b, lt a b = true -> lt b a = false).
Context (trans : forall a b c, ok a = true -> ok b = true -> ok c = true -> lt a b = false -> lt b c = false -> lt a c = false).

(** Descending; the elements that are not [ok] come first. *)
Definition ahead (a b : A) : bool := negb (ok a) || (ok b && negb (lt a b)).

Lemma sort_ahead l : Forall (fun a => ok a = true) l -> sort_by (fun a b => negb (lt a b)) l = sort_by ahead l.
Proof.
  assert (forall x s, ok x = true -> Forall (fun a => ok a = true) s -> insert_by (fun a b => negb (lt a b)) x s = insert_by ahead x s) as Hins.
  { intros x s Hx Hs. induction Hs as [|y s Hy Hs IH]; [done|]. cbn [insert_by]. unfold ahead at 1. rewrite Hx, Hy. cbn. by rewrite IH. }
  induction 1 as [|x l Hx Hl IH]; [done|]. cbn [sort_by]. rewrite IH. apply Hins; [done|]. by rewrite sort_by_perm.
Qed.

Lemma sorted_best a l rest :
  Forall (fun a => ok a = true) l -> sort_by (fun a b => negb (lt a b)) l = a :: rest -> Forall (fun b => lt a b = false) l.
Proof using asym trans.
  intros Hl E. rewrite sort_ahead in E by done.
  assert (StronglySorted (fun a b => ahead a b = true) (sort_by ahead l)) as Hs.
  { apply sort_by_sorted.
    - intros x y. unfold ahead. destruct (ok x) eqn:Ex, (ok y) eqn:Ey; cbn; try tauto.
      destruct (lt x y) eqn:Exy; [|tauto]. right. by rewrite (asym _ _ Exy).
    - intros x y z. unfold ahead. destruct (ok x) eqn:Ex, (ok y) eqn:Ey, (ok z) eqn:Ez; cbn; try done.
      rewrite !negb_true_iff. by apply trans. }
  assert (forall b, ok b = true -> lt b b = false) as Hirr by (intros b _; destruct (lt b b) eqn:Eb; [by rewrite (asym _ _ Eb) in Eb|done]).
  rewrite <- (sort_by_perm ahead l) in Hl |- *. rewrite E in *. apply Forall_cons in Hl as [Ha Hrest].
  apply StronglySorted_inv in Hs as [_ Hs]. constructor; [by apply Hirr|].
  apply Forall_forall. intros b Hb. rewrite Forall_forall in Hs, Hrest. specialize (Hs b Hb). unfold ahead in Hs.
  rewrite Ha, (Hrest b Hb) in Hs. cbn in Hs. by rewrite negb_true_iff in Hs.
Qed.
End best.
