(* ===== verification/ModelRouting.v ===== *)
(** Scoring of model candidates (models/routing.py): size, tags and tiers read
    off the model identifier, and the score under routing constraints on
    binary64 numbers. *)

From stdpp Require Import prelude strings list.
From Stdlib Require Import Lia ZArith Ascii.
From S2P Require Import Prelude PyStr PyVal PyFloat PyFloatOps PyRegex RunPolicy.

Module ModelRouting.

Definition SUPPORTED_ROUTE_MODES : list string := ["balanced"; "local_first"; "quality_first"; "coding"; "reasoning"].

Record RoutingConstraints : Type := Constraints {
  rc_mode : string;
  require_stream : bool;
  require_tools : bool;
  (** [routing.get("prefer_local")], compared with [is True] and [is False] *)
  prefer_local : pyval;
  min_params_b : option fvalue;
  max_params_b : option fvalue }.

Record ModelCandidate : Type := Candidate {
  mc_provider : string;
  mc_model : string;
  mc_local : bool;
  mc_installed : bool;
  mc_active : bool;
  mc_supports_stream : bool;
  mc_supports_tools : bool;
  mc_requires_api_key : bool;
  mc_estimated_params_b : option fvalue;
  mc_quality_tier : string;
  mc_speed_tier : string;
  mc_tags : list string;
  mc_source : string;
  mc_metadata : pydict }.

Definition opt_float (o : option fvalue) : pyval := match o with Some f => PyF f | None => PNone end.

(** [ModelCandidate.to_dict] *)
Definition to_dict (c : ModelCandidate) : pydict :=
  [("provider", PStr (mc_provider c)); ("model", PStr (mc_model c)); ("local", PBool (mc_local c));
   ("installed", PBool (mc_installed c)); ("active", PBool (mc_active c));
   ("supports_stream", PBool (mc_supports_stream c)); ("supports_tools", PBool (mc_supports_tools c));
   ("requires_api_key", PBool (mc_requires_api_key c)); ("estimated_params_b", opt_float (mc_estimated_params_b c));
   ("quality_tier", PStr (mc_quality_tier c)); ("speed_tier", PStr (mc_speed_tier c));
   ("tags", PList (map PStr (mc_tags c))); ("source", PStr (mc_source c)); ("metadata", PDict (mc_metadata c))].

Definition normalize_route_mode (value : option string) : string :=
  let mode := lower (strip (str_or (opt_str value) "balanced")) in
  if str_in mode SUPPORTED_ROUTE_MODES then mode else "balanced".

(** ** The size in the identifier *)

(** [\d+(?:\.\d+)?] as a group *)
Definition RNumber : regex :=
  let digits := RCat (RChar is_digit) (RStar (RChar is_digit)) in
  RGroup (RCat digits (ROpt (RCat (RChar (Ascii.eqb ".")) digits))).

(** The leftmost match of a pattern with one group: what the group holds. *)
Fixpoint search_group (r : regex) (prev : option ascii) (s : string) : option string :=
  match ends r (Pos prev s None) with
  | q :: _ => captured q
  | [] => match s with EmptyString => None | String c s' => search_group r (Some c) s' end
  end.

(** The ends of the matches of two patterns in a row, with the groups of both. *)
Definition pair_ends (r1 r2 : regex) (p : pos) : list (string * string) :=
  flat_map (fun q => map (fun u => (opt_str (captured q), opt_str (captured u))) (ends r2 (Pos (before q) (rest q) None)))
    (ends r1 p).

Fixpoint search_pair (r1 r2 : regex) (prev : option ascii) (s : string) : option (string * string) :=
  match pair_ends r1 r2 (Pos prev s None) with
  | gs :: _ => Some gs
  | [] => match s with EmptyString => None | String c s' => search_pair r1 r2 (Some c) s' end
  end.

Definition mix_1 : regex := RCat RNumber (RText "x").
Definition mix_2 : regex := RCat RNumber (RText "b").
Definition billions_re : regex := RSeq [RNumber; RSpaces; RText "b"; RWordBoundary].
Definition millions_re : regex := RSeq [RNumber; RSpaces; RText "m"; RWordBoundary].

Definition estimate_model_size_b (model_id : string) : option fvalue :=
  let text := lower model_id in
  match search_pair mix_1 mix_2 None text with
  | Some (experts, per_expert) =>
      match parse_float experts, parse_float per_expert with
      | Some a, Some b => Some (f_round 4 (f_mul a b))
      | _, _ => None
      end
  | None =>
      match search_group billions_re None text with
      | Some g => f_round 4 <$> parse_float g
      | None =>
          match search_group millions_re None text with
          | Some g => (fun m => f_round 4 (f_div m (FFinite 1000 0))) <$> parse_float g
          | None => None
          end
      end
  end.

(** ** Tags and tiers *)

Definition contains_any : string -> list string -> bool := RunPolicy.contains_any.

Definition coding_tokens : list string := ["coder"; "code"; "codellama"; "starcoder"; "deepseek-coder"].
Definition reasoning_tokens : list string := ["r1"; "qwq"; "reason"; "o1"; "o3"; "sonnet"; "claude"].
Definition vision_tokens : list string := ["vision"; "vl"; "gpt-4o"; "omni"; "image"].
Definition small_tokens : list string := ["tiny"; "mini"; "1b"; "1.5b"; "2b"; "3b"; "4b"].
Definition fast_tokens : list string := ["haiku"; "mini"; "flash"].

Definition tag_if (b : bool) (tag : string) : list string := if b then [tag] else [].

(** [infer_model_tags]; the tags are distinct by construction, so that the
    final [dict.fromkeys] keeps them all *)
Definition infer_model_tags (model_id : string) : list string :=
  let text := lower model_id in
  let tags :=
    tag_if (contains_any text coding_tokens) "coding" ++ tag_if (contains_any text reasoning_tokens) "reasoning"
    ++ tag_if (contains_any text vision_tokens) "vision" ++ tag_if (contains_any text ["instruct"; "chat"]) "instruction"
    ++ tag_if (contains_any text ["4bit"; "q4"]) "quantized" ++ tag_if (contains_any text small_tokens) "compact"
    ++ tag_if (contains_any text fast_tokens) "fast_hint" in
  tags ++ tag_if (negb (str_in "coding" tags) && negb (str_in "reasoning" tags) && negb (str_in "vision" tags)) "general".

Definition num (n : Z) : fvalue := f_int n.

Definition quality_tier_for_model (model_id : string) (estimated_params_b : option fvalue) : string :=
  let text := lower model_id in
  if contains_any text ["gpt-5"; "gpt-4.1"; "claude-3-7"; "claude-3-5-sonnet"; "gemini-2.5"] then "high"
  else match estimated_params_b with
       | None => if contains_any text ["mini"; "haiku"] then "compact" else "medium"
       | Some p => if f_le (num 32) p then "high" else if f_le (num 8) p then "medium" else "compact"
       end.

Definition speed_tier_for_model (local : bool) (estimated_params_b : option fvalue) (tags : list string) : string :=
  if str_in "fast_hint" tags then "fast"
  else match estimated_params_b with
       | None => "medium"
       | Some p =>
           if local && f_le (num 30) p then "slow"
           else if f_le p (num 3) then "fast"
           else if f_le (num 40) p then "slow"
           else "medium"
       end.

(** ** The score *)

(** A decimal literal with one digit after the point. *)
Definition tenths (n : Z) : fvalue := f_quot n 10.

Definition quality_score (tier : string) : fvalue :=
  if String.eqb tier "compact" then tenths 7 else if String.eqb tier "medium" then tenths 13
  else if String.eqb tier "high" then tenths 20 else tenths 10.
Definition speed_score (tier : string) : fvalue :=
  if String.eqb tier "fast" then tenths 18 else if String.eqb tier "medium" then tenths 12
  else if String.eqb tier "slow" then tenths 6 else tenths 10.

(** May the candidate be scored at all? *)
Definition admissible (c : ModelCandidate) (k : RoutingConstraints) : bool :=
  negb (require_stream k && negb (mc_supports_stream c))
  && negb (require_tools k && negb (mc_supports_tools c))
  && negb (match min_params_b k, mc_estimated_params_b c with Some lo, Some p => f_lt p lo | _, _ => false end)
  && negb (match max_params_b k, mc_estimated_params_b c with Some hi, Some p => f_lt hi p | _, _ => false end).

Definition pick (b : bool) (x y : fvalue) : fvalue := if b then x else y.

(** What each rule adds, in the order of the code. *)
Definition contributions (c : ModelCandidate) (k : RoutingConstraints) : list fvalue :=
  [quality_score (mc_quality_tier c); speed_score (mc_speed_tier c);
   pick (mc_active c) (tenths 7) (tenths 0); pick (mc_installed c) (tenths 5) (tenths 0)]
  ++ match prefer_local k with
     | PBool true => [pick (mc_local c) (tenths 20) (tenths (-10))]
     | PBool false => [pick (negb (mc_local c)) (tenths 10) (tenths (-3))]
     | _ => []
     end
  ++ (if String.eqb (rc_mode k) "local_first"
      then [pick (mc_local c) (tenths 30) (tenths (-20)); pick (mc_installed c) (tenths 8) (tenths 0)]
      else if String.eqb (rc_mode k) "quality_first" then
        [if String.eqb (mc_quality_tier c) "high" then tenths 22
         else if String.eqb (mc_quality_tier c) "medium" then tenths 12 else tenths 2]
      else if String.eqb (rc_mode k) "coding" then [pick (str_in "coding" (mc_tags c)) (tenths 25) (tenths (-7))]
      else if String.eqb (rc_mode k) "reasoning" then [pick (str_in "reasoning" (mc_tags c)) (tenths 25) (tenths (-7))]
      else [])
  ++ (if mc_requires_api_key c && String.eqb (mc_source c) "suggested" then [tenths (-5)] else [])
  ++ (if str_in "vision" (mc_tags c) then [tenths (-1)] else []).

Definition score_candidate (c : ModelCandidate) (k : RoutingConstraints) : option fvalue :=
  if admissible c k then Some (f_round 6 (fold_left f_add (contributions c k) (tenths 0))) else None.

End ModelRouting.
