(* ===== verification/ProviderGuards.v ===== *)
(** The guards around calls to model providers (models/model_manager.py): a
    circuit per provider, sliding windows on requests and units of the cloud
    providers, entitlements, and retries.

    Requests of many threads share these; each access under a lock and each
    reading of a clock is one action.  Readings of [time.monotonic()] and the
    durations of the configuration are exact numbers of nanoseconds. *)

From stdpp Require Import prelude strings list.
From Stdlib Require Import Lia ZArith Ascii.
From S2P Require Import Prelude PyStr PyVal PyFloat PyFloatOps Effects PyTime Threads RunPolicy ToolBudget.

(** The providers (models/providers): what each call answers; the first
    argument counts the calls made before. *)
Class ModelProviders : Type := {
  mp_chat : nat -> string -> string -> list pydict -> fvalue -> Z -> res string;
  (** [stream_chat]: the chunks of the stream it makes, the last of them
      perhaps an exception.  Making the stream may raise: the one of [mlx] is
      not a generator and runs the whole chat first. *)
  mp_stream : nat -> string -> string -> list pydict -> fvalue -> Z -> res (list (res string));
  mp_list_models : nat -> string -> res (list pydict);
  mp_capabilities : string -> res pyval;
  mp_suggested : string -> Z -> res pyval;
  (** [getattr(provider, "suggested_models", None)] *)
  mp_suggests : string -> bool }.

Module ProviderGuards.

Definition ns_per_sec : Z := ToolBudget.ns_per_sec.

(** What the code reads of the configuration. *)
Record config : Type := Config {
  registered : list string;
  default_provider : string;
  default_model : string;
  enable_ollama_fallback : bool;
  provider_retry_attempts : Z;
  provider_retry_backoff : Z;
  provider_retry_jitter : Z;
  provider_circuit_failure_threshold : Z;
  provider_circuit_cooldown : Z;
  cloud_rate_window : Z;
  cloud_rate_max_requests : Z;
  cloud_budget_window : Z;
  cloud_budget_max_units : Z }.

(** [_ProviderRuntimeState] *)
Record provider_state : Type := PState {
  failure_count : Z;
  circuit_until_monotonic : option Z;
  latest_failure_started_at : Z }.

Record pin : Type := Pin { pin_provider : string; pin_model : string; pin_reason : string; pin_updated_at : string }.

Record failover_row : Type := FailoverRow {
  fo_timestamp : string;
  fo_session_id : option string;
  fo_provider : string;
  fo_model : string;
  fo_info : ProviderErrorInfo;
  fo_attempt : Z }.

(** The shared state; [m_admitted] lists the requests the windows let through,
    with their time and units, and is read by no operation. *)
Record mm : Type := MM {
  m_states : dict provider_state;
  m_rate : dict (list Z);
  m_budget : dict (list (Z * Z));
  m_pins : dict pin;
  m_failovers : list failover_row;
  m_active : string * string;
  m_settings : dict string;
  m_mono : nat;
  m_clock : nat;
  m_calls : nat;
  m_draws : nat;
  m_admitted : list (string * (Z * Z)) }.

Definition set_states (x : dict provider_state) (m : mm) : mm :=
  MM x (m_rate m) (m_budget m) (m_pins m) (m_failovers m) (m_active m) (m_settings m) (m_mono m) (m_clock m) (m_calls m) (m_draws m) (m_admitted m).
Definition set_windows (r : dict (list Z)) (b : dict (list (Z * Z))) (m : mm) : mm :=
  MM (m_states m) r b (m_pins m) (m_failovers m) (m_active m) (m_settings m) (m_mono m) (m_clock m) (m_calls m) (m_draws m) (m_admitted m).
Definition set_pins (x : dict pin) (m : mm) : mm :=
  MM (m_states m) (m_rate m) (m_budget m) x (m_failovers m) (m_active m) (m_settings m) (m_mono m) (m_clock m) (m_calls m) (m_draws m) (m_admitted m).
Definition set_failovers (x : list failover_row) (m : mm) : mm :=
  MM (m_states m) (m_rate m) (m_budget m) (m_pins m) x (m_active m) (m_settings m) (m_mono m) (m_clock m) (m_calls m) (m_draws m) (m_admitted m).
Definition set_active (x : string * string) (m : mm) : mm :=
  MM (m_states m) (m_rate m) (m_budget m) (m_pins m) (m_failovers m) x (m_settings m) (m_mono m) (m_clock m) (m_calls m) (m_draws m) (m_admitted m).
Definition set_settings (x : dict string) (m : mm) : mm :=
  MM (m_states m) (m_rate m) (m_budget m) (m_pins m) (m_failovers m) (m_active m) x (m_mono m) (m_clock m) (m_calls m) (m_draws m) (m_admitted m).
Definition tick_mono (m : mm) : mm :=
  MM (m_states m) (m_rate m) (m_budget m) (m_pins m) (m_failovers m) (m_active m) (m_settings m) (S (m_mono m)) (m_clock m) (m_calls m) (m_draws m) (m_admitted m).
Definition tick_clock (m : mm) : mm :=
  MM (m_states m) (m_rate m) (m_budget m) (m_pins m) (m_failovers m) (m_active m) (m_settings m) (m_mono m) (S (m_clock m)) (m_calls m) (m_draws m) (m_admitted m).
Definition tick_calls (m : mm) : mm :=
  MM (m_states m) (m_rate m) (m_budget m) (m_pins m) (m_failovers m) (m_active m) (m_settings m) (m_mono m) (m_clock m) (S (m_calls m)) (m_draws m) (m_admitted m).
Definition tick_draws (m : mm) : mm :=
  MM (m_states m) (m_rate m) (m_budget m) (m_pins m) (m_failovers m) (m_active m) (m_settings m) (m_mono m) (m_clock m) (m_calls m) (S (m_draws m)) (m_admitted m).
Definition add_admitted (e : string * (Z * Z)) (m : mm) : mm :=
  MM (m_states m) (m_rate m) (m_budget m) (m_pins m) (m_failovers m) (m_active m) (m_settings m) (m_mono m) (m_clock m) (m_calls m) (m_draws m) (m_admitted m ++ [e]).

(** Nanoseconds as seconds with two digits, rounded half to even. *)
Definition hundredths_text (ns : Z) : string :=
  let h := div_half_even ns 10000000 in str_of_Z (h / 100) +:+ "." +:+ digits 2 (h mod 100).

Definition is_cloud_provider (provider_name : string) : bool := str_in provider_name ["openai"; "openrouter"; "anthropic"].

Section guards.
Context (cfg : config) (monotonic : nat -> Z) (uniform : nat -> Z -> Z).
(** [entitlement_resolver.resolve_provider(user_id, provider)], when there is a resolver. *)
Context (resolver : option (nat -> string -> string -> res pyval)).

Definition now_ns : M mm Z := fun m => (Ok (monotonic (m_mono m)), tick_mono m).

(** ** The circuit of a provider *)

Definition fresh_state : provider_state := PState 0 None 0.

(** [_provider_state_unlocked], which creates the state it does not find *)
Definition state_of (provider_name : string) (m : mm) : provider_state := default fresh_state (d_get provider_name (m_states m)).
Definition put_state (provider_name : string) (st : provider_state) (m : mm) : mm :=
  set_states (d_set provider_name st (m_states m)) m.

(** [_record_provider_success] *)
Definition record_provider_success (provider_name : string) (call_started_at : Z) : M mm unit :=
  modify (fun m =>
    let st := state_of provider_name m in
    put_state provider_name
      (if call_started_at <? latest_failure_started_at st then st else PState 0 None (latest_failure_started_at st)) m).

Definition threshold : Z := Z.max 1 (provider_circuit_failure_threshold cfg).
Definition cooldown : Z := Z.max ns_per_sec (provider_circuit_cooldown cfg).

(** [_record_provider_failure] *)
Definition record_provider_failure (provider_name : string) (call_started_at : Z) : M mm unit :=
  let* st := gets (state_of provider_name) in
  let latest := Z.max (latest_failure_started_at st) call_started_at in
  let failures := failure_count st + 1 in
  if threshold <=? failures then
    let* now := now_ns in
    modify (put_state provider_name (PState failures (Some (now + cooldown)) latest))
  else modify (put_state provider_name (PState failures (circuit_until_monotonic st) latest)).

(** [_is_provider_circuit_open] *)
Definition is_provider_circuit_open (provider_name : string) : M mm bool :=
  let* st := gets (state_of provider_name) in
  modify (put_state provider_name st) ;;;
  match circuit_until_monotonic st with
  | None => ret false
  | Some until =>
      let* now := now_ns in
      if until <=? now then
        modify (put_state provider_name (PState 0 None (latest_failure_started_at st))) ;;;
        ret false
      else ret true
  end.

(** [_provider_cooldown_remaining] *)
Definition provider_cooldown_remaining (provider_name : string) : M mm Z :=
  let* st := gets (state_of provider_name) in
  modify (put_state provider_name st) ;;;
  match circuit_until_monotonic st with
  | None => ret 0
  | Some until =>
      let* now := now_ns in
      let remaining := Z.max 0 (until - now) in
      if remaining <=? 0 then
        modify (put_state provider_name (PState 0 None (latest_failure_started_at st))) ;;;
        ret 0
      else ret remaining
  end.

(** [_provider_failure_count] *)
Definition provider_failure_count (provider_name : string) : M mm Z :=
  let* st := gets (state_of provider_name) in
  modify (put_state provider_name st) ;;;
  ret (failure_count st).

(** ** The windows of the cloud providers *)

(** [_estimate_budget_units] *)
Definition content_chars (item : pydict) : Z :=
  match get "content" item with PNone => 0 | PStr s => str_len s | v => str_len (py_str v) end.
Definition estimate_budget_units (messages : list pydict) (max_tokens : Z) : Z :=
  Z.max 1 (fold_left (fun n item => n + content_chars item) messages 0 + Z.max 1 max_tokens * 4).

(** [_prune_guardrail_deques] *)
Fixpoint drop_before {A} (time : A -> Z) (cutoff : Z) (l : list A) : list A :=
  match l with
  | [] => []
  | x :: l' => if time x <? cutoff then drop_before time cutoff l' else l
  end.

Definition rate_window : Z := Z.max ns_per_sec (cloud_rate_window cfg).
Definition budget_window : Z := Z.max ns_per_sec (cloud_budget_window cfg).
Definition rate_limit : Z := Z.max 1 (cloud_rate_max_requests cfg).
Definition budget_limit : Z := Z.max 1 (cloud_budget_max_units cfg).

Definition rates_at (provider_name : string) (now : Z) (m : mm) : list Z :=
  drop_before (fun t => t) (now - rate_window) (default [] (d_get provider_name (m_rate m))).
Definition units_at (provider_name : string) (now : Z) (m : mm) : list (Z * Z) :=
  drop_before fst (now - budget_window) (default [] (d_get provider_name (m_budget m))).
Definition used_units (records : list (Z * Z)) : Z := fold_left (fun n r => n + snd r) records 0.

Definition store_windows (provider_name : string) (rates : list Z) (units : list (Z * Z)) (m : mm) : mm :=
  set_windows (d_set provider_name rates (m_rate m)) (d_set provider_name units (m_budget m)) m.

(** The part of [_enforce_cloud_guardrails] under the lock; [now] was read
    before. *)
Definition let_through (provider_name : string) (request_units now : Z) : M mm unit :=
  let* rates := gets (rates_at provider_name now) in
  let* units := gets (units_at provider_name now) in
  modify (store_windows provider_name rates units) ;;;
  let rate_used := Z.of_nat (length rates) in
  raise_if (rate_limit <=? rate_used)
    (RuntimeError ("Cloud provider rate limit reached for '" +:+ provider_name +:+ "': " +:+ str_of_Z rate_used +:+ "/"
       +:+ str_of_Z rate_limit +:+ " requests in " +:+ ToolBudget.seconds_text (cloud_rate_window cfg) +:+ "s window.")) ;;;
  let budget_used := used_units units in
  raise_if (budget_limit <? budget_used + request_units)
    (RuntimeError ("Cloud provider budget limit reached for '" +:+ provider_name +:+ "': "
       +:+ str_of_Z (budget_used + request_units) +:+ "/" +:+ str_of_Z budget_limit +:+ " units in "
       +:+ ToolBudget.seconds_text (cloud_budget_window cfg) +:+ "s window.")) ;;;
  modify (fun m => add_admitted (provider_name, (now, request_units))
    (store_windows provider_name (rates ++ [now]) (units ++ [(now, request_units)]) m)).

(** [_enforce_cloud_guardrails] *)
Definition enforce_cloud_guardrails (provider_name : string) (messages : list pydict) (max_tokens : Z) : thread mm unit :=
  if negb (is_cloud_provider provider_name) then Done tt
  else
    let! now := atomic now_ns in
    atomic (let_through provider_name (estimate_budget_units messages max_tokens) now).

(** [_provider_guardrail_status]: requests and units used, when enabled *)
Definition provider_guardrail_status (provider_name : string) : thread mm (option (Z * Z)) :=
  if negb (is_cloud_provider provider_name) then Done None
  else
    let! now := atomic now_ns in
    atomic (let* rates := gets (rates_at provider_name now) in
            let* units := gets (units_at provider_name now) in
            modify (store_windows provider_name rates units) ;;;
            ret (Some (Z.of_nat (length rates), used_units units))).

(** [_provider_guardrail_pressure] *)
Definition provider_guardrail_pressure (provider_name : string) : thread mm fvalue :=
  let! status := provider_guardrail_status provider_name in
  Done (match status with
        | None => FFinite 0 0
        | Some (rate_used, budget_used) =>
            let rate_ratio := f_div (f_int (Z.max 0 rate_used)) (f_int (Z.max 1 (cloud_rate_max_requests cfg))) in
            let budget_ratio := f_div (f_int (Z.max 0 budget_used)) (f_int (Z.max 1 (cloud_budget_max_units cfg))) in
            f_max (FFinite 0 0) (f_min (FFinite 1 0) (f_max rate_ratio budget_ratio))
        end).

Definition cents (n : Z) : fvalue := f_quot n 100.

(** [_provider_guardrail_penalty] *)
Definition provider_guardrail_penalty (provider_name : string) : thread mm fvalue :=
  let! pressure := provider_guardrail_pressure provider_name in
  Done (if f_le (cents 95) pressure then cents 110
        else if f_le (cents 85) pressure then cents 55
        else if f_le (cents 75) pressure then cents 25
        else if f_le (cents 60) pressure then cents 10
        else FFinite 0 0).

(** ** Entitlements *)

(** [list(value or [])] *)
Definition py_list (v : pyval) : res (list pyval) :=
  match py_or v (PList []) with
  | PList l => Ok l
  | PStr s => Ok (map (fun c => PStr (String c "")) (String.list_ascii_of_string s))
  | PDict d => Ok (map PStr (d_keys d))
  | w => Err (TypeError ("'" +:+ type_name w +:+ "' object is not iterable"))
  end.

Definition is_false (v : pyval) : bool := match v with PBool false => true | _ => false end.

(** [_enforce_provider_entitlement] *)
Definition enforce_provider_entitlement (provider_name : string) (user_id : option string) : M mm unit := fun m =>
  if negb (is_cloud_provider provider_name) then (Ok tt, m)
  else match resolver with
  | None => (Ok tt, m)
  | Some resolve =>
      let normalized_user := strip (opt_str user_id) in
      if is_empty normalized_user then
        (Err (RuntimeError ("Provider entitlement check requires user_id for cloud provider '" +:+ provider_name +:+ "'.")), m)
      else
        (match resolve (m_calls m) normalized_user provider_name with
         | Err e => Err e
         | Ok (PDict payload) =>
             let route_policy := as_dict (get "route_policy" payload) in
             let error_contract := as_dict (get "error_contract" payload) in
             let selected_route := str_or (lower (strip (py_str (py_or (get "selected_route" route_policy) (PStr "none"))))) "none" in
             if negb (truthy (get "available" payload)) then
               res_bind (py_list (get "available_routes" route_policy)) (fun routes =>
               Err (RuntimeError ("Provider entitlement denied for '" +:+ provider_name +:+ "' and user '" +:+ normalized_user
                 +:+ "'. error_code=" +:+ strip (py_str (py_or (get "error_code" error_contract) (PStr "provider_access_not_configured")))
                 +:+ " selected_route=" +:+ selected_route +:+ " available_routes=" +:+ py_str (PList routes) +:+ ". "
                 +:+ str_or (norm (get "message" error_contract)) "Create provider session or configure server provider key.")))
             else if match get "feature_flags" payload with PDict flags => is_false (get "chat" flags) | _ => false end then
               Err (RuntimeError ("Provider entitlement denied for '" +:+ provider_name +:+ "' and user '" +:+ normalized_user
                 +:+ "': chat feature is disabled. error_code=provider_chat_disabled selected_route=" +:+ selected_route))
             else Ok tt
         | Ok _ => Err (RuntimeError "Provider entitlement resolver returned invalid payload.")
         end, tick_calls m)
  end.

(** [_before_provider_call] *)
Definition before_provider_call (provider_name : string) (user_id : option string) (messages : list pydict)
    (max_tokens : Z) : thread mm unit :=
  atomic (enforce_provider_entitlement provider_name user_id) ;!
  enforce_cloud_guardrails provider_name messages max_tokens.

(** ** Calls with retries *)

(** [_provider_retry_delay]; sleeping is not an action *)
Definition provider_retry_delay (attempt : Z) : M mm Z := fun m =>
  let base := Z.max 0 (provider_retry_backoff cfg) in
  let jitter := Z.max 0 (provider_retry_jitter cfg) in
  let delay := base * 2 ^ Z.max 0 (attempt - 1) in
  if 0 <? jitter then (Ok (Z.max 0 (delay + uniform (m_draws m) jitter)), tick_draws m) else (Ok (Z.max 0 delay), m).

Definition circuit_open_error (provider_name operation : string) (remaining : Z) : exn :=
  let text := "Provider '" +:+ provider_name +:+ "' circuit is open (cooldown_remaining_sec=" +:+ hundredths_text remaining +:+ ")." in
  ProviderOperationError (ErrorInfo provider_name operation "circuit_open" text text true None).

(** The attempts; [left] more may follow the one being made. *)
Fixpoint attempts {A} (provider_name operation : string) (call : thread mm A) (before_call : thread mm unit)
    (attempt : Z) (left : nat) : thread mm A :=
  let! call_started_at := atomic now_ns in
  t_try (before_call ;!
         let! result := call in
         atomic (record_provider_success provider_name call_started_at) ;!
         Done result)
    (fun exc =>
       let info := RunPolicy.classify_provider_error provider_name operation exc in
       atomic (record_provider_failure provider_name call_started_at) ;!
       match left with
       | O => Failed (ProviderOperationError info)
       | S left' =>
           if negb (ei_retryable info) then Failed (ProviderOperationError info)
           else
             atomic (provider_retry_delay attempt) ;!
             attempts provider_name operation call before_call (attempt + 1) left'
       end)
    Done.

(** [_call_provider_resilient] *)
Definition call_provider_resilient {A} (provider_name operation : string) (call : thread mm A) (before_call : thread mm unit)
    (max_attempts : option Z) : thread mm A :=
  let! open := atomic (is_provider_circuit_open provider_name) in
  if open then
    let! remaining := atomic (provider_cooldown_remaining provider_name) in
    Failed (circuit_open_error provider_name operation remaining)
  else
    let limit := Z.max 1 (default (provider_retry_attempts cfg) max_attempts) in
    attempts provider_name operation call before_call 1 (Z.to_nat (limit - 1)).

End guards.
End ProviderGuards.
