(* ===== verification/ModelManager.v ===== *)
(** Choosing a model and failing over (models/model_manager.py): targets,
    routes, session pins, [chat] and [stream_chat] over the guarded calls of
    [ProviderGuards]. *)

From stdpp Require Import prelude strings list.
From Stdlib Require Import Lia ZArith Ascii.
From S2P Require Import Prelude PyStr PyVal PyFloat PyFloatOps Effects PyTime Threads RunPolicy ModelRouting ProviderGuards.
Import ModelRouting ProviderGuards.

Module ModelManager.

Abbreviation target := (string * string)%type.

Definition target_key (t : target) : string := fst t +:+ ":" +:+ snd t.

(** [_infer_provider_for_model] *)
Definition infer_provider_for_model (model : option string) : option string :=
  let normalized := strip (opt_str model) in
  if is_empty normalized then None
  else
    let lowered := lower normalized in
    if starts_with "mlx-community/" lowered then Some "mlx"
    else if starts_with "claude-" lowered then Some "anthropic"
    else if has_char "/" normalized && (starts_with "openai/" lowered || starts_with "anthropic/" lowered) then Some "openrouter"
    else if existsb (fun p => starts_with p lowered) ["gpt-"; "o1"; "o3"; "o4"] then Some "openai"
    else None.

(** [_unique_targets] *)
Fixpoint unique_from (seen : list string) (targets : list target) : list target :=
  match targets with
  | [] => []
  | t :: targets' =>
      if str_in (target_key t) seen then unique_from seen targets' else t :: unique_from (target_key t :: seen) targets'
  end.
Definition unique_targets (targets : list target) : list target := unique_from [] targets.

Definition to_float_or_none (v : pyval) : option fvalue :=
  match v with PNone => None | _ => match py_float v with Ok f => Some f | Err _ => None end end.
Definition to_int_or_none (v : pyval) : option Z :=
  match v with PNone => None | _ => match py_int v with Ok z => Some z | Err _ => None end end.

(** [_targets_from_route] *)
Definition fallback_of (item : pyval) : list target :=
  match item with
  | PDict d =>
      let p := strip (py_str (get_or "provider" (PStr "") d)) in
      let m := strip (py_str (get_or "model" (PStr "") d)) in
      if is_empty p || is_empty m then [] else [(p, m)]
  | _ => []
  end.
Definition targets_from_route (route : pydict) : res (target * list target) :=
  match get "selected" route with
  | PDict selected =>
      let p := strip (py_str (get_or "provider" (PStr "") selected)) in
      let m := strip (py_str (get_or "model" (PStr "") selected)) in
      if is_empty p || is_empty m then Err (ValueError "Route selected target is incomplete.")
      else Ok ((p, m), flat_map fallback_of (as_list (get "fallbacks" route)))
  | _ => Err (ValueError "Route payload is missing selected target.")
  end.

(** [_route_constraints_dict] *)
Definition route_constraints_dict (k : RoutingConstraints) : pydict :=
  [("mode", PStr (rc_mode k)); ("require_stream", PBool (require_stream k)); ("require_tools", PBool (require_tools k));
   ("prefer_local", prefer_local k); ("min_params_b", opt_float (min_params_b k)); ("max_params_b", opt_float (max_params_b k))].

(** [_candidate_from_model_id] *)
Definition candidate_from_model_id (provider_name model_id source : string)
    (provider_local supports_stream supports_tools requires_api_key active installed : bool) (metadata : pydict) : ModelCandidate :=
  let estimated := estimate_model_size_b model_id in
  let tags := infer_model_tags model_id in
  Candidate provider_name model_id provider_local installed active supports_stream supports_tools requires_api_key estimated
    (quality_tier_for_model model_id estimated) (speed_tier_for_model provider_local estimated tags) tags source metadata.

(** [_normalize_suggested] *)
Definition license_keys : list string :=
  ["license"; "spdx_id"; "license_spdx_id"; "license_source"; "allows_commercial_use"; "allows_derivatives";
   "requires_share_alike"; "restrictions"; "license_restrictions"].
Definition suggested_metadata (raw : pydict) : pydict :=
  fold_left (fun md key => if d_mem key raw && negb (d_mem key md) then d_set key (get key raw) md else md) license_keys
    (as_dict (get "metadata" raw)).
Definition suggested_size (raw : pydict) (model_id : string) : res pydict :=
  match to_int_or_none (get "size_bytes" raw) with
  | Some n => if 0 <? n then Ok [("size_bytes", PInt n)]
              else match estimate_model_size_b model_id with
                   | Some e => res_bind (py_int (PyF (f_mul (f_mul e (f_int 1000000000)) (f_quot 56 100)))) (fun z => Ok [("size_bytes", PInt z)])
                   | None => Ok []
                   end
  | None => match estimate_model_size_b model_id with
            | Some e => res_bind (py_int (PyF (f_mul (f_mul e (f_int 1000000000)) (f_quot 56 100)))) (fun z => Ok [("size_bytes", PInt z)])
            | None => Ok []
            end
  end.
Fixpoint normalize_suggested_from (seen : list string) (items : list pyval) : res (list pydict) :=
  match items with
  | [] => Ok []
  | PDict raw :: items' =>
      let model_id := strip (py_str (get_or "id" (PStr "") raw)) in
      if is_empty model_id || str_in model_id seen then normalize_suggested_from seen items'
      else
        let label := str_or (strip (py_str (get_or "label" (PStr model_id) raw))) model_id in
        let metadata := suggested_metadata raw in
        res_bind (suggested_size raw model_id) (fun size =>
        res_bind (normalize_suggested_from (model_id :: seen) items') (fun rest =>
        Ok (([("id", PStr model_id); ("label", PStr label)]
             ++ (match metadata with [] => [] | _ => [("metadata", PDict metadata)] end) ++ size) :: rest)))
  | _ :: items' => normalize_suggested_from seen items'
  end.
Definition normalize_suggested (items : pyval) : res (list pydict) := normalize_suggested_from [] (as_list items).

(** What an attempt that failed leaves in the answer. *)
Definition failover_event (attempt : Z) (t : target) (info : ProviderErrorInfo) : pydict :=
  [("attempt", PInt attempt); ("provider", PStr (fst t)); ("model", PStr (snd t)); ("error_class", PStr (ei_error_class info));
   ("retryable", PBool (ei_retryable info)); ("message", PStr (ei_message info))].

Record chat_answer (A : Type) : Type := Answer {
  ans_content : A;
  ans_target : target;
  ans_fallback : bool;
  ans_routing : option pydict }.
Arguments Answer {A} _ _ _ _.
Arguments ans_content {A} _.
Arguments ans_target {A} _.
Arguments ans_fallback {A} _.
Arguments ans_routing {A} _.

Section manager.
Context (cfg : config) (monotonic : nat -> Z) (clock : nat -> Z) (uniform : nat -> Z -> Z).
Context (resolver : option (nat -> string -> string -> res pyval)) `{ModelProviders}.

Abbreviation registered_in p := (str_in p (registered cfg)).

(** [database.get_setting(key, fallback) or fallback] *)
Definition setting_or (key fallback : string) : M mm string :=
  gets (fun m => str_or (default fallback (d_get key (m_settings m))) fallback).

Definition utc_now_iso : M mm string := fun m => (Ok (isoformat (clock (m_clock m))), tick_clock m).

(** ** Targets *)

(** [_default_model_for_provider] *)
Definition default_model_for_provider (provider_name : string) : thread mm string :=
  if String.eqb provider_name "openai" then atomic (setting_or "openai_default_model" "gpt-4o-mini")
  else if String.eqb provider_name "anthropic" then atomic (setting_or "anthropic_default_model" "claude-3-5-sonnet-latest")
  else if String.eqb provider_name "openrouter" then atomic (setting_or "openrouter_default_model" "openai/gpt-4o-mini")
  else if String.eqb provider_name "ollama" then atomic (setting_or "ollama_fallback_model" "llama3.2")
  else Done (default_model cfg).

(** [_resolve_target] *)
Definition resolve_target (model provider : option string) : thread mm target :=
  let! active := atomic (gets m_active) in
  let provider_name := str_or (opt_str provider)
    (str_or (opt_str (infer_provider_for_model model)) (str_or (fst active) (default_provider cfg))) in
  let! model_name :=
    (if negb (is_empty (opt_str model)) then Done (opt_str model)
     else if negb (is_empty (opt_str provider)) && negb (String.eqb (opt_str provider) (fst active))
          then default_model_for_provider provider_name
     else Done (str_or (snd active) (default_model cfg))) in
  if negb (registered_in provider_name) then Failed (ValueError ("Unknown provider: " +:+ provider_name))
  else Done (provider_name, model_name).

(** [_fallback_targets] *)
Definition fallback_targets_of (provider_name : string) : thread mm (list target) :=
  if negb (enable_ollama_fallback cfg) then Done []
  else
    let! active := atomic (gets m_active) in
    let ollama := (if registered_in "ollama" then
                     let! model := atomic (setting_or "ollama_fallback_model" "llama3.2") in Done [("ollama", model)]
                   else Done []) in
    if String.eqb provider_name "mlx" then
      let! targets := ollama in Done (unique_targets targets)
    else if is_cloud_provider provider_name then
      let! local_active :=
        (if str_in (fst active) ["mlx"; "ollama"] && registered_in (fst active) then
           let! model := (if is_empty (snd active) then default_model_for_provider (fst active) else Done (snd active)) in
           Done [(fst active, model)]
         else Done []) in
      let! last := ollama in
      Done (unique_targets (local_active ++ (if registered_in "mlx" then [("mlx", default_model cfg)] else []) ++ last))
    else Done [].

(** ** Session pins *)

(** [_get_session_pin] *)
Definition get_session_pin (session_id : option string) : M mm (option pin) :=
  if is_empty (opt_str session_id) then ret None else gets (fun m => d_get (opt_str session_id) (m_pins m)).

(** [_set_session_pin] *)
Definition set_session_pin (session_id : option string) (t : target) (reason : string) : thread mm unit :=
  if is_empty (opt_str session_id) then Done tt
  else
    let! now := atomic utc_now_iso in
    atomic (modify (fun m => set_pins (d_set (opt_str session_id) (Pin (fst t) (snd t) reason now) (m_pins m)) m)).

Definition pin_dict (p : pin) : pydict :=
  [("provider", PStr (pin_provider p)); ("model", PStr (pin_model p)); ("reason", PStr (pin_reason p));
   ("updated_at", PStr (pin_updated_at p))].

(** [_record_failover_event]; the deque keeps 500 rows *)
Definition record_failover_event (session_id : option string) (t : target) (info : ProviderErrorInfo) (attempt : Z) :
    thread mm unit :=
  let! now := atomic utc_now_iso in
  atomic (modify (fun m =>
    let rows := m_failovers m ++ [FailoverRow now session_id (fst t) (snd t) info attempt] in
    set_failovers (drop (length rows - 500) rows) m)).

(** ** Routes *)

(** [provider_capabilities] *)
Definition capabilities_of (provider_name : string) : pydict :=
  match mp_capabilities provider_name with Ok (PDict d) => d | _ => [] end.
Definition cap (provider_name key : string) (fallback : bool) : bool :=
  truthy (get_or key (PBool fallback) (capabilities_of provider_name)).

(** Candidates from the items of one source that were not seen before. *)
Fixpoint new_candidates {A} (provider_name : string) (id_of : A -> string) (make : string -> A -> ModelCandidate)
    (items : list A) (rows : list ModelCandidate) (seen : list string) : list ModelCandidate * list string :=
  match items with
  | [] => (rows, seen)
  | x :: items' =>
      let model_id := id_of x in
      let key := target_key (provider_name, model_id) in
      if is_empty model_id || str_in key seen then new_candidates provider_name id_of make items' rows seen
      else new_candidates provider_name id_of make items' (rows ++ [make model_id x]) (key :: seen)
  end.

Definition item_id (item : pydict) : string := strip (py_str (get_or "id" (PStr "") item)).

(** The candidates of one provider *)
Definition provider_candidates (provider_name : string) (active : target) (include_suggested : bool) (limit : Z)
    (rows : list ModelCandidate) (seen : list string) : thread mm (list ModelCandidate * list string) :=
  let local := cap provider_name "local" false in
  let make := fun source act installed metadata model_id =>
    candidate_from_model_id provider_name model_id source local (cap provider_name "supports_stream" true)
      (cap provider_name "supports_tools" false) (cap provider_name "requires_api_key" false) act installed metadata in
  let! provider_models :=
    t_try (call_provider_resilient cfg monotonic uniform provider_name "list_models"
             (atomic (fun m => (mp_list_models (m_calls m) provider_name, tick_calls m))) (Done tt) None)
      (fun _ => Done []) Done in
  let '(rows, seen) := new_candidates provider_name item_id
    (fun model_id item => make "listed" (truthy (get "active" item) || String.eqb model_id (snd active)) local
                            (as_dict (get "metadata" item)) model_id)
    (take (Z.to_nat (Z.max 1 limit)) provider_models) rows seen in
  let! default_id := default_model_for_provider provider_name in
  let is_active := fun model_id => String.eqb provider_name (fst active) && String.eqb model_id (snd active) in
  let '(rows, seen) := new_candidates provider_name strip
    (fun model_id _ => make "default" (is_active model_id) (local && is_active model_id) [] model_id)
    (default_id :: (if String.eqb provider_name (fst active) && negb (is_empty (snd active)) then [snd active] else [])) rows seen in
  if negb include_suggested || negb (mp_suggests provider_name) then Done (rows, seen)
  else
    let suggested := match res_bind (mp_suggested provider_name limit) normalize_suggested with Ok l => l | Err _ => [] end in
    Done (new_candidates provider_name item_id (fun model_id _ => make "suggested" false false [] model_id)
            (take (Z.to_nat (Z.max 1 limit)) suggested) rows seen).

Fixpoint candidates_of (providers : list string) (active : target) (include_suggested : bool) (limit : Z)
    (rows : list ModelCandidate) (seen : list string) : thread mm (list ModelCandidate) :=
  match providers with
  | [] => Done rows
  | p :: providers' =>
      let! found := provider_candidates p active include_suggested limit rows seen in
      candidates_of providers' active include_suggested limit (fst found) (snd found)
  end.

(** [_build_model_candidates] *)
Definition build_model_candidates (include_suggested : bool) (limit : Z) : thread mm (list ModelCandidate) :=
  let! active := atomic (gets m_active) in
  candidates_of (registered cfg) active include_suggested limit [] [].

(** The candidates with their scores less the penalty of their provider *)
Fixpoint score_all (k : RoutingConstraints) (candidates : list ModelCandidate) : thread mm (list (fvalue * ModelCandidate)) :=
  match candidates with
  | [] => Done []
  | c :: candidates' =>
      match score_candidate c k with
      | None => score_all k candidates'
      | Some score =>
          let! penalty := provider_guardrail_penalty cfg monotonic (mc_provider c) in
          let! rest := score_all k candidates' in
          Done ((f_sub score penalty, c) :: rest)
      end
  end.

(** [(score, active, installed)] below another such key *)
Definition key_lt (a b : fvalue * ModelCandidate) : bool :=
  f_lt (fst a) (fst b)
  || (same_float (fst a) (fst b)
      && ((negb (mc_active (snd a)) && mc_active (snd b))
          || (Bool.eqb (mc_active (snd a)) (mc_active (snd b)) && negb (mc_installed (snd a)) && mc_installed (snd b)))).

Definition scored_dict (score penalty : fvalue) (c : ModelCandidate) : pydict :=
  to_dict c ++ [("score", PyF score); ("guardrail_penalty", PyF penalty)].

(** The fallbacks: at most [left] more, of targets not seen *)
Fixpoint fallback_items (left : nat) (seen : list string) (scored : list (fvalue * ModelCandidate)) : thread mm (list pydict) :=
  match left, scored with
  | O, _ | _, [] => Done []
  | S left', (score, c) :: scored' =>
      let key := target_key (mc_provider c, mc_model c) in
      if str_in key seen then fallback_items left seen scored'
      else
        let! penalty := provider_guardrail_penalty cfg monotonic (mc_provider c) in
        let! rest := fallback_items left' (key :: seen) scored' in
        Done (scored_dict score penalty c :: rest)
  end.

(** [choose_route] *)
Definition choose_route (mode : string) (provider model : option string) (stream tools : bool) (local_pref : pyval)
    (min_b max_b : option fvalue) (include_suggested : bool) (limit_per_provider : Z) : thread mm pydict :=
  let normalized_mode := normalize_route_mode (Some mode) in
  let k := Constraints normalized_mode stream tools local_pref min_b max_b in
  if negb (is_empty (opt_str provider)) || negb (is_empty (opt_str model)) then
    let! t := resolve_target model provider in
    let! fallbacks := fallback_targets_of (fst t) in
    Done [("mode", PStr normalized_mode); ("constraints", PDict (route_constraints_dict k));
          ("selected", PDict [("provider", PStr (fst t)); ("model", PStr (snd t)); ("reason", PStr "explicit_target")]);
          ("fallbacks", PList (map (fun f => PDict [("provider", PStr (fst f)); ("model", PStr (snd f))]) fallbacks));
          ("considered_count", PInt 1)]
  else
    let! candidates := build_model_candidates include_suggested limit_per_provider in
    let! unsorted := score_all k candidates in
    match sort_by (fun a b => negb (key_lt a b)) unsorted with
    | [] => Failed (ValueError "No model candidates satisfy routing constraints.")
    | (selected_score, selected) :: others =>
        let! penalty := provider_guardrail_penalty cfg monotonic (mc_provider selected) in
        let! fallbacks := fallback_items 6 [target_key (mc_provider selected, mc_model selected)] others in
        Done [("mode", PStr normalized_mode); ("constraints", PDict (route_constraints_dict k));
              ("selected", PDict (scored_dict selected_score penalty selected));
              ("fallbacks", PList (map PDict fallbacks));
              ("considered_count", PInt (Z.of_nat (length unsorted)));
              ("top_candidates", PList (map (fun sc => PDict (to_dict (snd sc) ++ [("score", PyF (fst sc))]))
                                          (take 10 ((selected_score, selected) :: others))))]
    end.

(** [_resolve_runtime_targets] *)
Definition requested_mode (routing : option pydict) (fallback : string) : option string :=
  match routing with Some r => Some (py_str (get_or "mode" (PStr fallback) r)) | None => None end.

(** The target, the fallbacks of the route, the payload so far and the reason *)
Definition primary_target (model provider : option string) (routing : option pydict) (session_id : option string)
    (require_stream : bool) : thread mm (target * list target * option pydict * string) :=
  if (match provider with Some _ => true | None => false end) || (match model with Some _ => true | None => false end) then
    let! t := resolve_target model provider in Done (t, [], None, "explicit_target")
  else
    let! pinned := atomic (get_session_pin session_id) in
    match pinned with
    | Some p =>
        let t := (strip (pin_provider p), strip (pin_model p)) in
        if registered_in (fst t) && negb (is_empty (snd t)) then
          Done (t, [], Some [("mode", PStr "session_pin");
                  ("selected", PDict [("provider", PStr (fst t)); ("model", PStr (snd t)); ("reason", PStr "session_pin")]);
                  ("requested_mode", pnone_or_str (requested_mode routing "balanced")); ("session_pin", PDict (pin_dict p));
                  ("fallbacks", PList [])], "session_pin")
        else let! t := resolve_target model provider in Done (t, [], None, "default_target")
    | None =>
        match routing with
        | Some (_ :: _ as r) =>
            let! route := choose_route (py_str (get_or "mode" (PStr "balanced") r)) None None require_stream false
              (get "prefer_local" r) (to_float_or_none (get "min_params_b" r)) (to_float_or_none (get "max_params_b" r))
              (truthy (get "include_suggested" r)) 120 in
            let! parsed := t_lift (targets_from_route route) in
            Done (fst parsed, snd parsed, Some route, "route_selected")
        | _ => let! t := resolve_target model provider in Done (t, [], None, "default_target")
        end
    end.

Definition resolve_runtime_targets (model provider : option string) (routing : option pydict)
    (fallback_targets : option (list target)) (session_id : option string) (require_stream : bool) :
    thread mm (target * list target * pydict) :=
  let! found := primary_target model provider routing session_id require_stream in
  let '(t, routed_fallbacks, payload, reason) := found in
  let payload := match payload with
    | Some p => p
    | None => [("mode", PStr (default "direct" (requested_mode routing "direct")));
               ("selected", PDict [("provider", PStr (fst t)); ("model", PStr (snd t)); ("reason", PStr reason)])]
    end in
  let explicit_model := match model with Some _ => true | None => false end in
  let explicit_local := match provider with Some p => str_in p ["mlx"; "ollama"] | None => true end in
  let! targets :=
    match fallback_targets with
    | Some l => Done l
    | None =>
        match routed_fallbacks with
        | _ :: _ => Done routed_fallbacks
        | [] => if explicit_model && explicit_local then Done [] else fallback_targets_of (fst t)
        end
    end in
  Done (t, targets,
        if d_mem "fallbacks" payload then payload
        else payload ++ [("fallbacks", PList (map (fun f => PDict [("provider", PStr (fst f)); ("model", PStr (snd f))]) targets))]).

(** [_build_route_trace] *)
Definition build_route_trace (route_payload : pydict) (final : target) (fallback_used : bool) (failover_events : list pydict)
    (session_id : option string) : thread mm (option pydict) :=
  let payload := d_set "final" (PDict [("provider", PStr (fst final)); ("model", PStr (snd final)); ("fallback_used", PBool fallback_used)])
    route_payload in
  let payload := match failover_events with [] => payload | _ => d_set "failover_events" (PList (map PDict failover_events)) payload end in
  let! pinned := atomic (get_session_pin session_id) in
  Done (Some (match pinned with Some p => d_set "session_pin" (PDict (pin_dict p)) payload | None => payload end)).

(** ** Failover *)

Definition group_of (error_class primary_provider : string) (pinned : bool) (t : target) : fvalue :=
  let local := str_in (fst t) ["mlx"; "ollama"] in
  if pinned then f_int (-1)
  else if str_in error_class ["rate_limit"; "quota"; "budget_limit"; "auth"; "entitlement"] then
    if local then f_int 0 else f_int 2
  else if str_in error_class ["timeout"; "server"; "network"; "unavailable"; "circuit_open"] then
    let group := if negb (String.eqb (fst t) primary_provider) then f_int 0 else f_int 2 in
    if local then f_sub group (f_quot 2 10) else group
  else if String.eqb error_class "invalid_request" then
    if local then f_int 0 else f_quot 25 10
  else f_int 1.

(** A target with its rank: group, pressure and position *)
Definition ranked : Type := fvalue * fvalue * nat * target.
Definition rank_lt (a b : ranked) : bool :=
  let '(g1, p1, i1, _) := a in let '(g2, p2, i2, _) := b in
  f_lt g1 g2 || (same_float g1 g2 && (f_lt p1 p2 || (same_float p1 p2 && (i1 <? i2)%nat))).

Fixpoint rank_targets (primary : target) (error_class : string) (pinned_key : option string) (idx : nat) (seen : list string)
    (targets : list target) : thread mm (list ranked) :=
  match targets with
  | [] => Done []
  | t :: targets' =>
      let key := target_key t in
      if negb (registered_in (fst t)) || String.eqb key (target_key primary) || str_in key seen
      then rank_targets primary error_class pinned_key (S idx) seen targets'
      else
        let group := group_of error_class (fst primary) (match pinned_key with Some k => String.eqb key k | None => false end) t in
        let! open := atomic (is_provider_circuit_open monotonic (fst t)) in
        let! pressure := provider_guardrail_pressure cfg monotonic (fst t) in
        let! rest := rank_targets primary error_class pinned_key (S idx) (key :: seen) targets' in
        Done ((if open then f_add group (f_quot 25 10) else group, pressure, idx, t) :: rest)
  end.

(** [_prioritize_failover_targets] *)
Definition prioritize_failover_targets (primary : target) (targets : list target) (error_info : ProviderErrorInfo)
    (session_id : option string) : thread mm (list target) :=
  let! pinned := atomic (get_session_pin session_id) in
  let pinned_key :=
    match pinned with
    | Some p =>
        let t := (strip (pin_provider p), strip (pin_model p)) in
        if is_empty (fst t) || is_empty (snd t) then None else Some (target_key t)
    | None => None
    end in
  let! rows := rank_targets primary (ei_error_class error_info) pinned_key 0 [] targets in
  Done (map snd (sort_by (fun a b => negb (rank_lt b a)) rows)).

Section operation.
(** [chat] and [stream_chat] differ in the call and in the texts. *)
Context {A : Type} (operation : string) (call : target -> thread mm A).
Context (session_id : option string) (route_payload : pydict) (primary : target).

(** The attempt at one target and what follows its success *)
Definition attempt_target (t : target) (reason : string) (fallback : bool) (events : list pydict) : thread mm (chat_answer A) :=
  let! content := call t in
  set_session_pin session_id t reason ;!
  let! trace := build_route_trace route_payload t fallback events session_id in
  Done (Answer content t fallback trace).

(** The fallbacks in order; [reason] names the pin of a success at an attempt *)
Fixpoint try_fallbacks (reason : Z -> string) (ordered : list target) (attempt : Z) (events : list pydict)
    (last_error : ProviderErrorInfo) : thread mm (chat_answer A) :=
  match ordered with
  | [] => Failed (ProviderOperationError last_error)
  | t :: ordered' =>
      t_try (attempt_target t (reason attempt) true events)
        (fun exc =>
           let info := RunPolicy.classify_provider_error (fst t) operation exc in
           record_failover_event session_id t info attempt ;!
           try_fallbacks reason ordered' (attempt + 1) (events ++ [failover_event attempt t info]) info)
        Done
  end.

Definition with_failover (targets : list target) (first_reason : string) (reason : ProviderErrorInfo -> Z -> string) :
    thread mm (chat_answer A) :=
  t_try (attempt_target primary first_reason false [])
    (fun exc =>
       let info := RunPolicy.classify_provider_error (fst primary) operation exc in
       record_failover_event session_id primary info 1 ;!
       let! ordered := prioritize_failover_targets primary targets info session_id in
       try_fallbacks (reason info) ordered 2 [failover_event 1 primary info] info)
    Done.
End operation.

Section request.
Context (messages : list pydict) (temperature : fvalue) (max_tokens : Z) (user_id : option string).

(** [_provider_chat] *)
Definition provider_chat (t : target) : thread mm string :=
  call_provider_resilient cfg monotonic uniform (fst t) "chat"
    (atomic (fun m => (mp_chat (m_calls m) (fst t) (snd t) messages temperature max_tokens, tick_calls m)))
    (before_provider_call cfg monotonic resolver (fst t) user_id messages max_tokens) None.

(** [_provider_stream_chat]: the guarded call makes the stream *)
Definition provider_stream_chat (t : target) : thread mm (list (res string)) :=
  call_provider_resilient cfg monotonic uniform (fst t) "stream_chat"
    (atomic (fun m => (mp_stream (m_calls m) (fst t) (snd t) messages temperature max_tokens, tick_calls m)))
    (before_provider_call cfg monotonic resolver (fst t) user_id messages max_tokens) None.

(** [_prime_stream_iterator] and the check for content *)
Definition primed_stream (t : target) : thread mm (list (res string)) :=
  let! chunks := provider_stream_chat t in
  match chunks with
  | [] => Failed (RuntimeError "Empty streaming response")
  | Err e :: _ => Failed e
  | Ok _ :: _ => Done chunks
  end.

Definition chat (model provider : option string) (routing : option pydict) (fallback_targets : option (list target))
    (session_id : option string) : thread mm (chat_answer string) :=
  let! resolved := resolve_runtime_targets model provider routing fallback_targets session_id false in
  let '(primary, targets, route_payload) := resolved in
  with_failover "chat" provider_chat session_id route_payload primary targets "primary_success"
    (fun info _ => "fallback_success:" +:+ ei_error_class info).

Definition stream_chat (model provider : option string) (routing : option pydict) (fallback_targets : option (list target))
    (session_id : option string) : thread mm (chat_answer (list (res string))) :=
  let! resolved := resolve_runtime_targets model provider routing fallback_targets session_id true in
  let '(primary, targets, route_payload) := resolved in
  with_failover "stream_chat" primed_stream session_id route_payload primary targets "stream_success"
    (fun _ attempt => "stream_fallback_success:" +:+ str_of_Z attempt).
End request.
End manager.
End ModelManager.
