(* ===== verification/ProviderGuardFacts.v ===== *)
(** What the guards around model providers promise, over all interleavings of
    requests: the windows of the cloud providers bound what is let through, and
    an open circuit has its reasons and an end. *)

From stdpp Require Import prelude strings list.
From Stdlib Require Import Lia ZArith Ascii.
From S2P Require Import Prelude PyStr PyVal PyFloat PyFloatOps Effects PyTime Threads RunPolicy ModelRouting ProviderGuards ModelManager.
Import ModelRouting ProviderGuards ModelManager.

Module ProviderGuardFacts.

Section guards.
Context (cfg : config) (monotonic : nat -> Z) (mono_le : forall i j, (i <= j)%nat -> monotonic i <= monotonic j).

(** ** The invariant *)

Definition time_of (m : mm) : Z := monotonic (m_mono m).

(** The requests let through for a provider. *)
Definition admitted_of (p : string) (m : mm) : list (Z * Z) :=
  map snd (List.filter (fun e => String.eqb (fst e) p) (m_admitted m)).

Definition circuit_ok (now : Z) (st : provider_state) : Prop :=
  0 <= failure_count st
  /\ match circuit_until_monotonic st with
     | None => failure_count st < threshold cfg
     | Some until => threshold cfg <= failure_count st /\ until <= now + cooldown cfg
     end.

(** A window: what was let through is what left the window and what is in it. *)
Definition window_ok {A} (time : A -> Z) (cutoff : Z) (all records : list A) : Prop :=
  exists dropped, all = dropped ++ records /\ Forall (fun x => time x < cutoff) dropped.

Definition rates_of (p : string) (m : mm) : list Z := default [] (d_get p (m_rate m)).
Definition units_of (p : string) (m : mm) : list (Z * Z) := default [] (d_get p (m_budget m)).

Record guards_ok (m : mm) : Prop := GuardsOk {
  go_circuit : forall p, circuit_ok (time_of m) (state_of p m);
  go_rate : forall p, window_ok (fun t => t) (time_of m - rate_window cfg) (map fst (admitted_of p m)) (rates_of p m);
  go_rate_limit : forall p, Z.of_nat (length (rates_of p m)) <= rate_limit cfg;
  go_budget : forall p, window_ok fst (time_of m - budget_window cfg) (admitted_of p m) (units_of p m);
  go_budget_limit : forall p, used_units (units_of p m) <= budget_limit cfg;
  go_positive : Forall (fun e => 0 <= snd (snd e)) (m_admitted m) }.

Lemma circuit_later t t' st : t <= t' -> circuit_ok t st -> circuit_ok t' st.
Proof. intros Ht [H1 H2]. split; [done|]. destruct (circuit_until_monotonic st); [lia|done]. Qed.

Lemma window_later {A} (time : A -> Z) c c' all records : c <= c' -> window_ok time c all records -> window_ok time c' all records.
Proof. intros Hc (d & -> & Hd). exists d. split; [done|]. eapply Forall_impl; [exact Hd|]. intros x Hx. simpl in *. lia. Qed.

(** Time passes and the guards are not touched. *)
Lemma guards_frame m m' :
  m_states m' = m_states m -> m_rate m' = m_rate m -> m_budget m' = m_budget m -> m_admitted m' = m_admitted m ->
  (m_mono m <= m_mono m')%nat -> guards_ok m -> guards_ok m'.
Proof using mono_le.
  intros E1 E2 E3 E4 Hm [H1 H2 H3 H4 H5 H6]. pose proof (mono_le _ _ Hm) as Ht.
  constructor; [intros p..|by rewrite E4]; unfold state_of, rates_of, units_of, admitted_of in *; rewrite ?E1, ?E2, ?E3, ?E4.
  - by eapply circuit_later.
  - eapply window_later; [|apply H2]. unfold time_of. lia.
  - apply H3.
  - eapply window_later; [|apply H4]. unfold time_of. lia.
  - apply H5.
Qed.

(** ** Steps that keep it *)

Definition quiet {A} (op : M mm A) : Prop :=
  forall s, (m_mono s <= m_mono (op s).2)%nat /\ (guards_ok s -> guards_ok (op s).2).

Lemma quiet_frame {A} (op : M mm A) :
  (forall s, let s' := (op s).2 in m_states s' = m_states s /\ m_rate s' = m_rate s /\ m_budget s' = m_budget s
     /\ m_admitted s' = m_admitted s /\ (m_mono s <= m_mono s')%nat) -> quiet op.
Proof using mono_le. intros H s. destruct (H s) as (H1 & H2 & H3 & H4 & H5). split; [done|]. by apply guards_frame. Qed.

Lemma quiet_ret {A} (a : A) : quiet (ret a).
Proof. by intros s. Qed.
Lemma quiet_gets {A} (f : mm -> A) : quiet (gets f).
Proof. by intros s. Qed.
Lemma quiet_bind {A B} (op : M mm A) (f : A -> M mm B) : quiet op -> (forall a, quiet (f a)) -> quiet (bind op f).
Proof.
  intros Hop Hf s. unfold bind. destruct (Hop s) as [H1 H2]. destruct (op s) as [[a|e] s']; [|done]. cbn in *.
  destruct (Hf a s') as [H3 H4]. split; [lia|auto].
Qed.
Lemma quiet_now : quiet (now_ns monotonic).
Proof using mono_le. apply quiet_frame. intros s. cbn. split_and!; [done..|lia]. Qed.

(** The state of a provider is replaced by a lawful one. *)
Lemma put_state_ok p st m : circuit_ok (time_of m) st -> guards_ok m -> guards_ok (put_state p st m).
Proof.
  intros Hst [H1 H2 H3 H4 H5 H6]. constructor; try done. intros q. unfold state_of, put_state. cbn. rewrite d_get_set.
  destruct (String.eqb p q); [done|apply H1].
Qed.

Lemma fresh_ok t latest : circuit_ok t (PState 0 None latest).
Proof. split; cbn; [lia|]. unfold threshold. lia. Qed.

Lemma quiet_success p started : quiet (record_provider_success p started).
Proof.
  intros s. unfold record_provider_success, modify. cbn [snd]. split; [done|]. intros Hs. apply put_state_ok; [|done].
  destruct (_ <? _); [apply Hs|apply fresh_ok].
Qed.

Lemma quiet_failure p started : quiet (record_provider_failure cfg monotonic p started).
Proof using mono_le.
  intros s. unfold record_provider_failure, bind, gets. destruct (threshold cfg <=? _) eqn:E.
  - unfold now_ns, modify. cbn [snd]. split; [cbn; lia|]. intros Hs. pose proof (go_circuit _ Hs p) as [H1 _].
    assert (guards_ok (tick_mono s)) as Ht by (by apply (quiet_now s)). apply put_state_ok; [|done].
    split; cbn; [lia|]. apply Z.leb_le in E. split; [done|].
    assert (monotonic (m_mono s) <= time_of (tick_mono s)) by (apply mono_le; cbn; lia). lia.
  - unfold modify. cbn [snd]. split; [done|]. intros Hs. pose proof (go_circuit _ Hs p) as [H1 H2]. apply Z.leb_gt in E.
    apply put_state_ok; [|done]. split; cbn; [lia|]. destruct (circuit_until_monotonic (state_of p s)); [lia|done].
Qed.

Lemma quiet_keep p : quiet (let* st := gets (state_of p) in modify (put_state p st)).
Proof. intros s. cbn. split; [done|]. intros Hs. apply put_state_ok; [apply Hs|done]. Qed.

Lemma quiet_reset p latest : quiet (modify (put_state p (PState 0 None latest))).
Proof. intros s. cbn. split; [done|]. intros Hs. apply put_state_ok; [apply fresh_ok|done]. Qed.

(** Reading the state creates it first. *)
Lemma quiet_read {A} p (f : provider_state -> M mm A) :
  (forall st, quiet (f st)) -> quiet (let* st := gets (state_of p) in modify (put_state p st) ;;; f st).
Proof.
  intros Hf s. unfold bind, gets, modify. destruct (Hf (state_of p s) (put_state p (state_of p s) s)) as [H1 H2].
  split; [exact H1|]. intros Hs. apply H2. by apply (quiet_keep p s).
Qed.

Lemma quiet_open p : quiet (is_provider_circuit_open monotonic p).
Proof using mono_le.
  apply quiet_read. intros st. destruct (circuit_until_monotonic st); [|apply quiet_ret].
  apply quiet_bind; [apply quiet_now|intros now]. destruct (_ <=? now); [|apply quiet_ret].
  apply quiet_bind; [apply quiet_reset|intros _; apply quiet_ret].
Qed.
Lemma quiet_remaining p : quiet (provider_cooldown_remaining monotonic p).
Proof using mono_le.
  apply quiet_read. intros st. destruct (circuit_until_monotonic st); [|apply quiet_ret].
  apply quiet_bind; [apply quiet_now|intros now]. cbv zeta. destruct (_ <=? 0); [|apply quiet_ret].
  apply quiet_bind; [apply quiet_reset|intros _; apply quiet_ret].
Qed.

(** ** The windows *)

Lemma window_prune {A} (time : A -> Z) cutoff bound all l :
  cutoff <= bound -> window_ok time bound all l -> window_ok time bound all (drop_before time cutoff l).
Proof.
  intros Hb (d & -> & Hd). revert d Hd. induction l as [|x l IH]; intros d Hd; cbn; [by exists d|].
  destruct (time x <? cutoff) eqn:E; [|by exists d].
  destruct (IH (d ++ [x])) as (d' & E' & Hd').
  - apply Forall_app. split; [done|]. apply Forall_singleton. apply Z.ltb_lt in E. lia.
  - exists d'. split; [|done]. by rewrite <- E', <- app_assoc.
Qed.

Lemma drop_before_le {A} (time : A -> Z) cutoff l : (length (drop_before time cutoff l) <= length l)%nat.
Proof. induction l as [|x l IH]; cbn; [done|]. destruct (_ <? _); cbn; lia. Qed.

Lemma used_units_acc l n : fold_left (fun n (r : Z * Z) => n + snd r) l n = n + used_units l.
Proof.
  unfold used_units. revert n. induction l as [|r l IH]; intros n; cbn; [lia|]. rewrite IH, (IH (0 + snd r)). lia.
Qed.
Lemma used_units_cons r l : used_units (r :: l) = snd r + used_units l.
Proof. unfold used_units at 1. cbn [fold_left]. rewrite used_units_acc. lia. Qed.
Lemma used_units_app l l' : used_units (l ++ l') = used_units l + used_units l'.
Proof. induction l as [|r l IH]; cbn [app]; [done|]. rewrite !used_units_cons, IH. lia. Qed.

(** Windows pruned at a time that is past keep the invariant. *)
Lemma pruned_windows p now m :
  now <= time_of m -> guards_ok m ->
  window_ok (fun t => t) (time_of m - rate_window cfg) (map fst (admitted_of p m)) (rates_at cfg p now m)
  /\ window_ok fst (time_of m - budget_window cfg) (admitted_of p m) (units_at cfg p now m).
Proof.
  intros Hn Hm. pose proof (go_rate _ Hm p) as H2. pose proof (go_budget _ Hm p) as H4. split.
  - destruct H2 as (d & E & Hd). eapply (window_prune _ (now - rate_window cfg)); [lia|]. by exists d.
  - destruct H4 as (d & E & Hd). eapply (window_prune _ (now - budget_window cfg)); [lia|]. by exists d.
Qed.

Lemma used_nonneg l : Forall (fun r : Z * Z => 0 <= snd r) l -> 0 <= used_units l.
Proof. induction 1 as [|r l Hr Hl IH]; [done|]. rewrite used_units_cons. lia. Qed.

Lemma pruned_used cutoff l :
  Forall (fun r : Z * Z => 0 <= snd r) l -> used_units (drop_before fst cutoff l) <= used_units l.
Proof.
  induction 1 as [|r l Hr Hl IH]; [done|]. cbn [drop_before]. destruct (_ <? _); [|done]. rewrite used_units_cons. lia.
Qed.

Lemma admitted_positive p m : guards_ok m -> Forall (fun r => 0 <= snd r) (admitted_of p m).
Proof.
  intros Hm. apply Forall_forall. intros r Hr. unfold admitted_of in Hr. apply list_elem_of_In, in_map_iff in Hr as (e & <- & He).
  apply filter_In in He as [He _]. pose proof (go_positive _ Hm) as Hp. rewrite Forall_forall in Hp. by apply Hp, list_elem_of_In.
Qed.

Lemma units_positive p m : guards_ok m -> Forall (fun r => 0 <= snd r) (units_of p m).
Proof.
  intros Hm. destruct (go_budget _ Hm p) as (d & E & _). pose proof (admitted_positive p m Hm) as H. rewrite E in H.
  by apply Forall_app in H as [_ H].
Qed.

(** New windows of a provider. *)
Lemma store_windows_ok p rates units extra m :
  let m' := MM (m_states m) (d_set p rates (m_rate m)) (d_set p units (m_budget m)) (m_pins m) (m_failovers m) (m_active m)
              (m_settings m) (m_mono m) (m_clock m) (m_calls m) (m_draws m) (m_admitted m ++ map (pair p) extra) in
  window_ok (fun t => t) (time_of m - rate_window cfg) (map fst (admitted_of p m ++ extra)) rates ->
  window_ok fst (time_of m - budget_window cfg) (admitted_of p m ++ extra) units ->
  Z.of_nat (length rates) <= rate_limit cfg -> used_units units <= budget_limit cfg -> Forall (fun r => 0 <= snd r) extra ->
  guards_ok m -> guards_ok m'.
Proof.
  intros m' Hr Hu Lr Lu Hpos [H1 H2 H3 H4 H5 H6].
  assert (forall q, admitted_of q m' = admitted_of q m ++ (if String.eqb p q then extra else [])) as Ha.
  { intros q. unfold admitted_of, m'. cbn [m_admitted]. rewrite List.filter_app, map_app. f_equal.
    clear. destruct (String.eqb p q) eqn:E; induction extra as [|x l IH]; cbn; rewrite ?E; cbn; try done; by rewrite IH. }
  constructor; [intros q..|]; unfold rates_of, units_of, time_of; try (apply H1); cbn [m_rate m_budget m_admitted m_mono m'];
    rewrite ?d_get_set, ?Ha.
  - destruct (String.eqb_spec p q) as [->|]; [done|]. rewrite app_nil_r. apply H2.
  - destruct (String.eqb_spec p q) as [->|]; [done|]. apply H3.
  - destruct (String.eqb_spec p q) as [->|]; [done|]. rewrite app_nil_r. apply H4.
  - destruct (String.eqb_spec p q) as [->|]; [done|]. apply H5.
  - apply Forall_app. split; [done|]. apply Forall_fmap. eapply Forall_impl; [exact Hpos|]. done.
Qed.

(** The windows with a request more or none. *)
Lemma prune_step p now m :
  now <= time_of m -> guards_ok m -> guards_ok (store_windows p (rates_at cfg p now m) (units_at cfg p now m) m).
Proof.
  intros Hn Hm. destruct (pruned_windows p now m Hn Hm) as [Hr Hu].
  pose proof (store_windows_ok p (rates_at cfg p now m) (units_at cfg p now m) [] m) as H. cbv zeta in H.
  rewrite !app_nil_r in H. apply H; try done.
  - pose proof (go_rate_limit _ Hm p). unfold rates_at. pose proof (drop_before_le (fun t => t) (now - rate_window cfg) (rates_of p m)).
    unfold rates_of in *. lia.
  - etrans; [apply pruned_used|apply (go_budget_limit _ Hm p)]. by apply units_positive.
Qed.

Lemma admit_step p units now m :
  0 <= units -> (m_mono m <= m_mono (let_through cfg p units now m).2)%nat
    /\ (now <= time_of m -> guards_ok m -> guards_ok (let_through cfg p units now m).2).
Proof.
  intros Hpos. unfold let_through, bind, gets, raise_if, modify.
  destruct (rate_limit cfg <=? _) eqn:Er; [split; [done|by apply prune_step]|].
  destruct (budget_limit cfg <? _) eqn:Eb; [split; [done|by apply prune_step]|].
  split; [done|]. intros Hn Hm. apply Z.leb_gt in Er. apply Z.ltb_ge in Eb.
  destruct (pruned_windows p now m Hn Hm) as [(d1 & E1 & Hd1) (d2 & E2 & Hd2)].
  assert (guards_ok (store_windows p (rates_at cfg p now m) (units_at cfg p now m) m)) as Hm' by (by apply prune_step).
  pose proof (store_windows_ok p (rates_at cfg p now m ++ [now]) (units_at cfg p now m ++ [(now, units)]) [(now, units)]
    (store_windows p (rates_at cfg p now m) (units_at cfg p now m) m)) as H. cbv zeta in H. apply H; try done.
  - exists d1. split; [|done]. change (admitted_of p (store_windows _ _ _ m)) with (admitted_of p m).
    rewrite map_app, E1, <- app_assoc. done.
  - exists d2. split; [|done]. change (admitted_of p (store_windows _ _ _ m)) with (admitted_of p m).
    by rewrite E2, <- app_assoc.
  - rewrite length_app. cbn. lia.
  - rewrite used_units_app. cbn. lia.
  - by apply Forall_singleton.
Qed.

(** ** Threads

    The label of a thread is the number of clock readings when it last acted:
    what it read then is past. *)
Abbreviation seen_upto := (fun (_ s' : mm) (_ : nat) => m_mono s').
Definition keeps_guards (l : nat) (s s' : mm) : Prop :=
  (m_mono s <= m_mono s')%nat /\ ((l <= m_mono s)%nat -> guards_ok s -> guards_ok s').

Definition guarded {A} (t : thread mm A) : Prop :=
  forall l, wp seen_upto (fun _ => True) keeps_guards l t (fun _ _ => True) (fun _ _ => True).

Lemma guarded_done {A} (a : A) : guarded (Done a).
Proof. done. Qed.
Lemma guarded_failed {A} e : guarded (@Failed mm A e).
Proof. done. Qed.
Lemma guarded_lift {A} (r : res A) : guarded (t_lift r).
Proof. by destruct r. Qed.
Lemma guarded_bind {A B} (t : thread mm A) (k : A -> thread mm B) : guarded t -> (forall a, guarded (k a)) -> guarded (t_bind t k).
Proof. intros Ht Hk l. apply wp_bind. eapply wp_mono; [| |apply Ht]; [|done]. intros l' a _. apply Hk. Qed.
Lemma guarded_try {A B} (t : thread mm A) (h : exn -> thread mm B) (k : A -> thread mm B) :
  guarded t -> (forall e, guarded (h e)) -> (forall a, guarded (k a)) -> guarded (t_try t h k).
Proof.
  intros Ht Hh Hk l. apply wp_try. eapply wp_mono; [| |apply Ht]; [intros l' a _; apply Hk|intros l' e _; apply Hh].
Qed.
Lemma guarded_atomic {A} (op : M mm A) : quiet op -> guarded (atomic op).
Proof.
  intros H l. apply wp_atomic. intros s _. destruct (H s) as [H1 H2]. split; [by split; [|auto]|]. by destruct (op s).1.
Qed.

(** A reading of the clock and an action that uses it. *)
Lemma guarded_timed {A} (op : Z -> M mm A) :
  (forall now s, (m_mono s <= m_mono (op now s).2)%nat /\ (now <= time_of s -> guards_ok s -> guards_ok (op now s).2)) ->
  guarded (let! now := atomic (now_ns monotonic) in atomic (op now)).
Proof using mono_le.
  intros H l. apply wp_bind, wp_atomic. intros s _. cbn [now_ns fst snd]. split.
  - split; [cbn; lia|]. intros _. apply (quiet_now s).
  - apply wp_atomic. intros s2 _. destruct (H (monotonic (m_mono s)) s2) as [H1 H2]. split; [split; [done|]|by destruct (op _ s2).1].
    cbn [tick_mono m_mono]. intros Hle. apply H2. apply mono_le. lia.
Qed.

(** ** The operations are guarded *)

Context (clock : nat -> Z) (uniform : nat -> Z -> Z) (resolver : option (nat -> string -> string -> res pyval)).
Context `{ModelProviders}.

Ltac frame := apply quiet_frame; intros s; cbn; split_and!; (done || lia).
Ltac quiet_op :=
  repeat match goal with
  | |- quiet (gets _) => apply quiet_gets
  | |- quiet (ret _) => apply quiet_ret
  | |- quiet (record_provider_success _ _) => apply quiet_success
  | |- quiet (record_provider_failure _ _ _ _) => apply quiet_failure
  | |- quiet (is_provider_circuit_open _ _) => apply quiet_open
  | |- quiet (provider_cooldown_remaining _ _) => apply quiet_remaining
  | |- quiet (now_ns _) => apply quiet_now
  | |- quiet (setting_or _ _) => apply quiet_gets
  | |- quiet (utc_now_iso _) => frame
  | |- quiet (get_session_pin ?s) => unfold get_session_pin; destruct (is_empty (opt_str s))
  | |- quiet (modify _) => frame
  end.
Ltac guarded_go :=
  repeat match goal with
  | |- guarded (t_bind _ _) => apply guarded_bind; [|intros ?]
  | |- guarded (t_try _ _ _) => apply guarded_try; [|intros ?|intros ?]
  | |- guarded (Done _) => apply guarded_done
  | |- guarded (Failed _) => apply guarded_failed
  | |- guarded (t_lift _) => apply guarded_lift
  | |- guarded (atomic _) => apply guarded_atomic; quiet_op
  | |- guarded (if ?b then _ else _) => destruct b
  | |- guarded (match ?x with _ => _ end) => destruct x
  end.

Lemma quiet_entitlement p user : quiet (enforce_provider_entitlement resolver p user).
Proof using mono_le.
  apply quiet_frame. intros s. unfold enforce_provider_entitlement. destruct (negb _); [done|].
  destruct resolver; [|done]. destruct (is_empty _); done.
Qed.

Lemma guarded_enforce p messages tokens : guarded (enforce_cloud_guardrails cfg monotonic p messages tokens).
Proof using mono_le.
  unfold enforce_cloud_guardrails. destruct (negb _); [done|]. apply guarded_timed. intros now s. apply admit_step.
  unfold estimate_budget_units. lia.
Qed.
Lemma guarded_status p : guarded (provider_guardrail_status cfg monotonic p).
Proof using mono_le.
  unfold provider_guardrail_status. destruct (negb _); [done|]. apply guarded_timed. intros now s. split; [done|].
  intros Hn Hs. by apply prune_step.
Qed.
Lemma guarded_pressure p : guarded (provider_guardrail_pressure cfg monotonic p).
Proof using mono_le. apply guarded_bind; [apply guarded_status|intros ?; apply guarded_done]. Qed.
Lemma guarded_penalty p : guarded (provider_guardrail_penalty cfg monotonic p).
Proof using mono_le. apply guarded_bind; [apply guarded_pressure|intros ?; apply guarded_done]. Qed.
Lemma guarded_before p user messages tokens : guarded (before_provider_call cfg monotonic resolver p user messages tokens).
Proof using mono_le. apply guarded_bind; [apply guarded_atomic, quiet_entitlement|intros _; apply guarded_enforce]. Qed.

Lemma guarded_resilient {A} p op (call : thread mm A) before_call limit :
  guarded call -> guarded before_call -> guarded (call_provider_resilient cfg monotonic uniform p op call before_call limit).
Proof using mono_le.
  intros Hc Hb. unfold call_provider_resilient. apply guarded_bind; [apply guarded_atomic, quiet_open|intros []]; [guarded_go|].
  generalize (Z.to_nat (Z.max 1 (default (provider_retry_attempts cfg) limit) - 1)). generalize 1. intros attempt left. revert attempt.
  induction left as [|left IH]; intros attempt; cbn [attempts]; guarded_go; try done.
  all: try apply IH.
  unfold provider_retry_delay. apply quiet_frame. intros s. destruct (0 <? _); done.
Qed.

Lemma guarded_default p : guarded (default_model_for_provider cfg p).
Proof using mono_le. unfold default_model_for_provider. guarded_go. Qed.
Lemma guarded_resolve model provider : guarded (resolve_target cfg model provider).
Proof using mono_le. unfold resolve_target. guarded_go; apply guarded_default. Qed.
Lemma guarded_fallbacks p : guarded (fallback_targets_of cfg p).
Proof using mono_le. unfold fallback_targets_of. cbv zeta. guarded_go; apply guarded_default. Qed.
Lemma guarded_pin session t reason : guarded (set_session_pin clock session t reason).
Proof using mono_le. unfold set_session_pin. guarded_go. Qed.
Lemma guarded_event session t info attempt : guarded (record_failover_event clock session t info attempt).
Proof using mono_le. unfold record_failover_event. guarded_go. Qed.
Lemma guarded_trace payload t b events session : guarded (build_route_trace payload t b events session).
Proof using mono_le. unfold build_route_trace. cbv zeta. guarded_go. Qed.

Lemma guarded_candidates b limit : guarded (build_model_candidates cfg monotonic uniform b limit).
Proof using mono_le.
  apply guarded_bind; [guarded_go|intros active]. generalize (@nil ModelCandidate). generalize (@nil string).
  induction (registered cfg) as [|p ps IH]; intros seen rows; cbn [candidates_of]; [done|].
  apply guarded_bind; [|intros []; apply IH]. unfold provider_candidates. cbv zeta.
  apply guarded_bind; [apply guarded_try; [apply guarded_resilient; guarded_go; frame|done|done]|intros models].
  destruct (new_candidates _ _ _ _ _ _). apply guarded_bind; [apply guarded_default|intros d].
  destruct (new_candidates _ _ _ _ _ _). guarded_go.
Qed.
Lemma guarded_scores k cs : guarded (score_all cfg monotonic k cs).
Proof using mono_le.
  induction cs as [|c cs IH]; cbn [score_all]; [done|]. destruct (score_candidate c k); [|done].
  apply guarded_bind; [apply guarded_penalty|intros ?]. guarded_go. apply IH.
Qed.
Lemma guarded_items n seen scored : guarded (fallback_items cfg monotonic n seen scored).
Proof using mono_le.
  revert n seen. induction scored as [|[s c] l IH]; intros [|n] seen; cbn [fallback_items]; try done.
  destruct (str_in _ _); [apply IH|]. apply guarded_bind; [apply guarded_penalty|intros ?]. guarded_go. apply IH.
Qed.
Lemma guarded_route mode p m s tl lp lo hi b limit : guarded (choose_route cfg monotonic uniform mode p m s tl lp lo hi b limit).
Proof using mono_le.
  unfold choose_route. cbv zeta. destruct (_ || _).
  - apply guarded_bind; [apply guarded_resolve|intros t]. apply guarded_bind; [apply guarded_fallbacks|intros; done].
  - apply guarded_bind; [apply guarded_candidates|intros cs]. apply guarded_bind; [apply guarded_scores|intros scored].
    destruct (sort_by _ _) as [|[]]; [done|]. apply guarded_bind; [apply guarded_penalty|intros ?].
    apply guarded_bind; [apply guarded_items|done].
Qed.

Lemma guarded_targets model provider routing fallbacks session stream :
  guarded (resolve_runtime_targets cfg monotonic uniform model provider routing fallbacks session stream).
Proof using mono_le.
  apply guarded_bind.
  - unfold primary_target. destruct (_ || _); [apply guarded_bind; [apply guarded_resolve|done]|].
    apply guarded_bind; [guarded_go|intros [q|]].
    + cbv zeta. destruct (_ && _); [done|]. apply guarded_bind; [apply guarded_resolve|done].
    + destruct routing as [[|kv r]|]; try (apply guarded_bind; [apply guarded_resolve|done]).
      apply guarded_bind; [apply guarded_route|intros route]. apply guarded_bind; [apply guarded_lift|done].
  - intros [[[target routed] payload] reason]. apply guarded_bind; [|done].
    destruct fallbacks; [done|]. destruct routed; [|done]. destruct (_ && _); [done|apply guarded_fallbacks].
Qed.

Lemma guarded_prioritize primary targets info session : guarded (prioritize_failover_targets cfg monotonic primary targets info session).
Proof using mono_le.
  apply guarded_bind; [guarded_go|intros pinned]. apply guarded_bind; [|done].
  generalize (@nil string). generalize 0%nat. match goal with |- context [rank_targets _ _ _ _ ?k] => generalize k end. intros key.
  induction targets as [|t ts IH]; intros idx seen; cbn [rank_targets]; [done|]. destruct (_ || _); [apply IH|].
  apply guarded_bind; [apply guarded_atomic, quiet_open|intros ?]. apply guarded_bind; [apply guarded_pressure|intros ?].
  apply guarded_bind; [apply IH|done].
Qed.

Lemma guarded_failover {A} op (call : target -> thread mm A) session payload primary targets first reason :
  (forall t, guarded (call t)) -> guarded (with_failover cfg monotonic clock op call session payload primary targets first reason).
Proof using mono_le.
  intros Hc.
  assert (forall t r b events, guarded (attempt_target clock call session payload t r b events)) as Ha.
  { intros t r b events. unfold attempt_target. apply guarded_bind; [apply Hc|intros c]. apply guarded_bind; [apply guarded_pin|intros ?].
    apply guarded_bind; [apply guarded_trace|done]. }
  unfold with_failover. apply guarded_try; [apply Ha| |done]. intros e. apply guarded_bind; [apply guarded_event|intros _].
  apply guarded_bind; [apply guarded_prioritize|intros ordered]. generalize [failover_event 1 primary (RunPolicy.classify_provider_error (fst primary) op e)].
  generalize 2. generalize (reason (RunPolicy.classify_provider_error (fst primary) op e)). intros name.
  generalize (RunPolicy.classify_provider_error (fst primary) op e).
  induction ordered as [|t ts IH]; intros info attempt events; cbn [try_fallbacks]; [done|].
  apply guarded_try; [apply Ha| |done]. intros e'. apply guarded_bind; [apply guarded_event|intros _; apply IH].
Qed.

Section request.
Context (messages : list pydict) (temperature : fvalue) (max_tokens : Z) (user_id : option string).
Lemma guarded_provider_chat t : guarded (provider_chat cfg monotonic uniform resolver messages temperature max_tokens user_id t).
Proof using mono_le. apply guarded_resilient; [guarded_go; frame|apply guarded_before]. Qed.
Lemma guarded_stream t : guarded (primed_stream cfg monotonic uniform resolver messages temperature max_tokens user_id t).
Proof using mono_le.
  apply guarded_bind; [apply guarded_resilient; [guarded_go; frame|apply guarded_before]|]. intros [|[] ?]; done.
Qed.
Lemma guarded_chat model provider routing fallbacks session :
  guarded (chat cfg monotonic clock uniform resolver messages temperature max_tokens user_id model provider routing fallbacks session).
Proof using mono_le.
  apply guarded_bind; [apply guarded_targets|]. intros [[primary targets] payload]. apply guarded_failover. apply guarded_provider_chat.
Qed.
Lemma guarded_stream_chat model provider routing fallbacks session :
  guarded (stream_chat cfg monotonic clock uniform resolver messages temperature max_tokens user_id model provider routing fallbacks session).
Proof using mono_le.
  apply guarded_bind; [apply guarded_targets|]. intros [[primary targets] payload]. apply guarded_failover. apply guarded_stream.
Qed.
End request.

(** ** The system: any requests at any time *)

Definition dismiss {A} (t : thread mm A) : thread mm unit := t_bind t (fun _ => Done tt).

Inductive request : thread mm unit -> Prop :=
  | ask_chat messages temperature tokens user model provider routing fallbacks session :
      request (dismiss (chat cfg monotonic clock uniform resolver messages temperature tokens user model provider routing fallbacks session))
  | ask_stream messages temperature tokens user model provider routing fallbacks session :
      request (dismiss (stream_chat cfg monotonic clock uniform resolver messages temperature tokens user model provider routing fallbacks session))
  | ask_route mode p m s tl lp lo hi b limit :
      request (dismiss (choose_route cfg monotonic uniform mode p m s tl lp lo hi b limit)).

Definition requests : list (nat * thread mm unit) * mm -> list (nat * thread mm unit) * mm -> Prop :=
  sched seen_upto (fun _ l t => l = 0%nat /\ request t).

Lemma request_guarded t : request t -> guarded t.
Proof using mono_le.
  intros []; apply guarded_bind; try done; [apply guarded_chat|apply guarded_stream_chat|apply guarded_route].
Qed.

Lemma requests_ok m ts m' : guards_ok m -> rtc requests ([], m) (ts, m') -> guards_ok m'.
Proof using mono_le.
  intros Hm Hs.
  pose proof (sound_reachable seen_upto (fun _ l t => l = 0%nat /\ request t) (fun _ => True) keeps_guards
    (fun ls m => guards_ok m /\ Forall (fun l => l <= m_mono m)%nat ls)) as Hsound.
  edestruct Hsound as (_ & [HK _] & _); [..|exact Hs|exact HK]; try done.
  - intros ls i l s s' _ [Hg Hl] Hi [Hle HG]. split.
    + apply HG; [|done]. rewrite Forall_forall in Hl. by apply Hl, list_elem_of_lookup_2 with i.
    + apply Forall_insert; [|done]. eapply Forall_impl; [exact Hl|]. cbn. lia.
  - intros ls s l t [Hg Hl] [-> _]. split; [done|]. apply Forall_app. split; [done|]. apply Forall_singleton. lia.
  - intros s l t [_ Hr]. by apply request_guarded.
Qed.

(** The state after start-up. *)
Definition started (active : target) (settings : dict string) (k : nat) : mm := MM [] [] [] [] [] active settings k 0 0 0 [].
Lemma started_ok active settings k : guards_ok (started active settings k).
Proof.
  constructor; cbn; try constructor; cbn; unfold threshold, rate_limit, budget_limit; try lia; try (by exists []).
Qed.

Lemma filter_map_swap {A B} (g : A -> B) (f : B -> bool) l : List.filter f (map g l) = map g (List.filter (fun x => f (g x)) l).
Proof. induction l as [|x l IH]; cbn; [done|]. destruct (f (g x)); cbn; by rewrite IH. Qed.

(** What lies in a window that ends now is in the record of the window. *)
Lemma window_recent {A} (time : A -> Z) cutoff all records :
  window_ok time cutoff all records ->
  List.filter (fun x => cutoff <=? time x) all = List.filter (fun x => cutoff <=? time x) records.
Proof.
  intros (d & -> & Hd). rewrite List.filter_app. replace (List.filter _ d) with (@nil A); [done|].
  induction Hd as [|x d Hx Hd IH]; cbn; [done|]. destruct (Z.leb_spec cutoff (time x)); [lia|done].
Qed.

Lemma filter_used f l : Forall (fun r : Z * Z => 0 <= snd r) l -> used_units (List.filter f l) <= used_units l.
Proof.
  induction 1 as [|r l Hr Hl IH]; [done|]. cbn [List.filter]. destruct (f r); rewrite !used_units_cons; lia.
Qed.

(** C13. The limits on cloud providers hold however requests interleave: at any
    moment, for any provider, the requests let through during the rate window
    that ends now are at most the limit, and the units let through during the
    budget window at most the budget. *)
Theorem cloud_windows_hold active settings k ts m p :
  rtc requests ([], started active settings k) (ts, m) ->
  let recent window := List.filter (fun e => time_of m - window <=? fst e) (admitted_of p m) in
  Z.of_nat (length (recent (rate_window cfg))) <= rate_limit cfg /\ used_units (recent (budget_window cfg)) <= budget_limit cfg.
Proof using mono_le.
  intros Hs recent. assert (guards_ok m) as Hm by (eapply requests_ok; [apply started_ok|exact Hs]).
  unfold recent. split.
  - pose proof (window_recent _ _ _ _ (go_rate _ Hm p)) as E. apply (f_equal length) in E.
    rewrite filter_map_swap, length_map in E. rewrite E.
    pose proof (go_rate_limit _ Hm p). pose proof (List.filter_length_le (fun t => time_of m - rate_window cfg <=? t) (rates_of p m)). lia.
  - rewrite (window_recent _ _ _ _ (go_budget _ Hm p)). etrans; [apply filter_used; by apply units_positive|apply (go_budget_limit _ Hm p)].
Qed.

(** Circuits open for a reason and for a bounded time, however requests
    interleave: a provider whose circuit is set has failed at least the
    threshold number of times and is retried after the cool-down at the latest;
    one whose circuit is not set has failed less often. *)
Theorem circuits_lawful active settings k ts m p :
  rtc requests ([], started active settings k) (ts, m) ->
  match circuit_until_monotonic (state_of p m) with
  | Some until => threshold cfg <= failure_count (state_of p m) /\ until <= time_of m + cooldown cfg
  | None => failure_count (state_of p m) < threshold cfg
  end.
Proof using mono_le.
  intros Hs. assert (guards_ok m) as Hm by (eapply requests_ok; [apply started_ok|exact Hs]).
  by destruct (go_circuit _ Hm p).
Qed.

End guards.
End ProviderGuardFacts.
