(* ===== verification/ModelFailoverFacts.v ===== *)
(** What failing over promises: every eligible target is tried before a
    request fails, a healthy local provider among them answers it, and a route
    satisfies its constraints.  A stream that fails while it is read counts as
    a success of its provider, and the refusals of a user without access as
    failures of it. *)

From stdpp Require Import prelude strings list.
From Stdlib Require Import Lia ZArith Ascii Sorted.
From S2P Require Import Prelude PyStr PyVal PyFloat PyFloatOps Effects PyTime Threads RunPolicy ModelRouting ProviderGuards ModelManager.
Import ModelRouting ProviderGuards ModelManager.

Module ModelFailoverFacts.

Section manager.
Context (cfg : config) (monotonic : nat -> Z) (clock : nat -> Z) (uniform : nat -> Z -> Z).
Context (resolver : option (nat -> string -> string -> res pyval)) `{ModelProviders}.

(** ** Properties that a request keeps

    [I] depends on the circuits and the log of failovers; a failure may be
    recorded for the providers of [may_fail]. *)
Section keeps.
Context (I : mm -> Prop) (may_fail : string -> Prop).
Context (I_frame : forall s s', m_states s' = m_states s -> m_failovers s' = m_failovers s -> I s -> I s').
Context (I_reset : forall s p latest, I s -> I (put_state p (PState 0 None latest) s)).
Context (I_same : forall s p, I s -> I (put_state p (state_of p s) s)).
Context (I_fail : forall s p st, may_fail p -> I s -> I (put_state p st s)).

Lemma keeps_frame {A} (op : M mm A) :
  (forall s, m_states (op s).2 = m_states s /\ m_failovers (op s).2 = m_failovers s) -> preserves I op.
Proof using I_frame. intros Hop s Hs. destruct (Hop s) as [H1 H2]. destruct (op s) as [[]]; by apply (I_frame s). Qed.

Lemma keeps_success p started : preserves I (record_provider_success p started).
Proof using I_reset I_same. intros s Hs. cbn. destruct (_ <? _); auto. Qed.
Lemma keeps_failure p started : may_fail p -> preserves I (record_provider_failure cfg monotonic p started).
Proof using I_frame I_fail.
  intros Hp s Hs. unfold record_provider_failure, bind, gets. destruct (threshold cfg <=? _); cbn; [|by apply I_fail].
  apply I_fail; [done|]. by apply (I_frame s).
Qed.
Lemma keeps_open p : preserves I (is_provider_circuit_open monotonic p).
Proof using I_frame I_reset I_same.
  intros s Hs. unfold is_provider_circuit_open, bind, gets, modify. destruct (circuit_until_monotonic _); [|by apply I_same].
  cbn. assert (I (tick_mono (put_state p (state_of p s) s))) as Ht by (apply (I_frame (put_state p (state_of p s) s)); [done..|by apply I_same]).
  destruct (_ <=? _); cbn; [by apply I_reset|done].
Qed.
Lemma keeps_remaining p : preserves I (provider_cooldown_remaining monotonic p).
Proof using I_frame I_reset I_same.
  intros s Hs. unfold provider_cooldown_remaining, bind, gets, modify. destruct (circuit_until_monotonic _); [|by apply I_same].
  cbn. assert (I (tick_mono (put_state p (state_of p s) s))) as Ht by (apply (I_frame (put_state p (state_of p s) s)); [done..|by apply I_same]).
  destruct (_ <=? _); cbn; [by apply I_reset|done].
Qed.
Lemma keeps_mono_now : preserves I (now_ns monotonic).
Proof using I_frame. by apply keeps_frame. Qed.
Lemma keeps_delay attempt : preserves I (provider_retry_delay cfg uniform attempt).
Proof using I_frame. apply keeps_frame. intros s. unfold provider_retry_delay. by destruct (0 <? _). Qed.
Lemma keeps_entitlement p user : preserves I (enforce_provider_entitlement resolver p user).
Proof using I_frame.
  apply keeps_frame. intros s. unfold enforce_provider_entitlement. destruct (negb _); [done|]. destruct resolver; [|done].
  by destruct (is_empty _).
Qed.
Lemma keeps_let_through p units now : preserves I (let_through cfg p units now).
Proof using I_frame.
  apply keeps_frame. intros s. unfold let_through, bind, gets, raise_if, modify. destruct (_ <=? _); [done|]. by destruct (_ <? _).
Qed.

Lemma still_enforce p messages tokens : still I (enforce_cloud_guardrails cfg monotonic p messages tokens).
Proof using I_frame.
  unfold enforce_cloud_guardrails. destruct (negb _); [apply still_done|].
  apply still_bind; [apply still_atomic, keeps_mono_now|intros now; apply still_atomic, keeps_let_through].
Qed.
Lemma still_pressure p : still I (provider_guardrail_pressure cfg monotonic p).
Proof using I_frame.
  apply still_bind; [|intros; apply still_done]. unfold provider_guardrail_status. destruct (negb _); [apply still_done|].
  apply still_bind; [apply still_atomic, keeps_mono_now|intros now; apply still_atomic, keeps_frame]. done.
Qed.
Lemma still_before p user messages tokens : still I (before_provider_call cfg monotonic resolver p user messages tokens).
Proof using I_frame. apply still_bind; [apply still_atomic, keeps_entitlement|intros _; apply still_enforce]. Qed.

Lemma still_resilient {A} p op (call : thread mm A) before_call limit :
  may_fail p -> still I call -> still I before_call ->
  still I (call_provider_resilient cfg monotonic uniform p op call before_call limit).
Proof using I_frame I_reset I_same I_fail.
  intros Hp Hc Hb. apply still_bind; [apply still_atomic, keeps_open|intros []].
  { apply still_bind; [apply still_atomic, keeps_remaining|intros; apply still_failed]. }
  cbv zeta. generalize (Z.to_nat (Z.max 1 (default (provider_retry_attempts cfg) limit) - 1)). generalize 1. intros attempt left. revert attempt.
  induction left as [|left IH]; intros attempt; cbn [attempts]; (apply still_bind; [apply still_atomic, keeps_mono_now|intros started]);
    (apply still_try; [|intros e|intros; apply still_done]).
  1,3: apply still_bind; [done|intros _]; apply still_bind; [done|intros r]; apply still_bind; [apply still_atomic, keeps_success|intros; apply still_done].
  1,2: apply still_bind; [by apply still_atomic, keeps_failure|intros _].
  - apply still_failed.
  - destruct (negb _); [apply still_failed|]. apply still_bind; [apply still_atomic, keeps_delay|intros; apply IH].
Qed.

Lemma still_pin session t reason : still I (set_session_pin clock session t reason).
Proof using I_frame.
  unfold set_session_pin. destruct (is_empty _); [apply still_done|].
  apply still_bind; [by apply still_atomic, keeps_frame|intros; by apply still_atomic, keeps_frame].
Qed.
Lemma keeps_get_pin session : preserves I (get_session_pin session).
Proof. unfold get_session_pin. destruct (is_empty _); [apply preserves_ret|apply preserves_gets]. Qed.
Lemma still_trace payload t b events session : still I (build_route_trace payload t b events session).
Proof. apply still_bind; [apply still_atomic, keeps_get_pin|intros; apply still_done]. Qed.

Lemma still_attempt {A} (call : target -> thread mm A) session payload t reason b events :
  still I (call t) -> still I (attempt_target clock call session payload t reason b events).
Proof using I_frame.
  intros Hc. apply still_bind; [done|intros c]. apply still_bind; [apply still_pin|intros _].
  apply still_bind; [apply still_trace|intros; apply still_done].
Qed.

Lemma still_prioritize primary targets info session :
  still I (prioritize_failover_targets cfg monotonic primary targets info session).
Proof using I_frame I_reset I_same.
  apply still_bind; [apply still_atomic, keeps_get_pin|intros pinned]. apply still_bind; [|intros; apply still_done].
  generalize (@nil string). generalize 0%nat. match goal with |- context [rank_targets _ _ _ _ ?k] => generalize k end. intros key.
  induction targets as [|t ts IH]; intros idx seen; cbn [rank_targets]; [apply still_done|]. destruct (_ || _); [apply IH|].
  apply still_bind; [apply still_atomic, keeps_open|intros ?]. apply still_bind; [apply still_pressure|intros ?].
  apply still_bind; [apply IH|intros; apply still_done].
Qed.
End keeps.

(** ** Every eligible target *)

(** The targets that may be tried after the primary one: registered, another
    target, each once. *)
Fixpoint eligible (primary : target) (seen : list string) (targets : list target) : list target :=
  match targets with
  | [] => []
  | t :: targets' =>
      if negb (str_in (fst t) (registered cfg)) || String.eqb (target_key t) (target_key primary) || str_in (target_key t) seen
      then eligible primary seen targets'
      else t :: eligible primary (target_key t :: seen) targets'
  end.

(** A thread that runs alone and cannot raise. *)
Definition returns {A} (t : thread mm A) (Q : A -> Prop) : Prop := forall s, exists a s', run t s = (Ok a, s') /\ Q a.

Lemma returns_done {A} (a : A) (Q : A -> Prop) : Q a -> returns (Done a) Q.
Proof. intros HQ s. by exists a, s. Qed.
Lemma returns_bind {A B} (t : thread mm A) (k : A -> thread mm B) P Q :
  returns t P -> (forall a, P a -> returns (k a) Q) -> returns (t_bind t k) Q.
Proof.
  intros Ht Hk s. destruct (Ht s) as (a & s1 & E & Ha). destruct (Hk a Ha s1) as (b & s2 & E2 & Hb).
  exists b, s2. split; [|done]. rewrite run_bind. unfold bind. by rewrite E.
Qed.
Lemma returns_atomic {A} (op : M mm A) (Q : A -> Prop) : (forall s, exists a s', op s = (Ok a, s') /\ Q a) -> returns (atomic op) Q.
Proof. intros Hop s. rewrite run_atomic. apply Hop. Qed.

Lemma returns_open p : returns (atomic (is_provider_circuit_open monotonic p)) (fun _ => True).
Proof.
  apply returns_atomic. intros s. unfold is_provider_circuit_open, bind, gets, modify. destruct (circuit_until_monotonic _); [|by eexists _, _].
  cbn. destruct (_ <=? _); by eexists _, _.
Qed.
Lemma returns_pressure p : returns (provider_guardrail_pressure cfg monotonic p) (fun _ => True).
Proof.
  eapply (returns_bind _ _ (fun _ => True)); [|intros; by apply returns_done]. unfold provider_guardrail_status.
  destruct (negb _); [by apply returns_done|].
  eapply (returns_bind _ _ (fun _ => True)); [|intros now _]; apply returns_atomic; intros s; by eexists _, _.
Qed.
Lemma returns_get_pin session : returns (atomic (get_session_pin session)) (fun _ => True).
Proof. apply returns_atomic. intros s. unfold get_session_pin. destruct (is_empty _); by eexists _, _. Qed.

Lemma ranks_eligible primary error_class key idx seen targets :
  returns (rank_targets cfg monotonic primary error_class key idx seen targets) (fun rows => map snd rows = eligible primary seen targets).
Proof.
  revert idx seen. induction targets as [|t ts IH]; intros idx seen; cbn [rank_targets eligible]; [by apply returns_done|].
  destruct (_ || _); [apply IH|]. eapply returns_bind; [apply returns_open|intros open _].
  eapply returns_bind; [apply returns_pressure|intros pressure _]. eapply returns_bind; [apply IH|intros rows Hrows].
  apply returns_done. cbn. by rewrite Hrows.
Qed.

(** The order is one of the eligible targets. *)
Lemma prioritize_eligible primary targets info session :
  returns (prioritize_failover_targets cfg monotonic primary targets info session) (fun ordered => ordered ≡ₚ eligible primary [] targets).
Proof.
  eapply returns_bind; [apply returns_get_pin|intros pinned _]. eapply returns_bind; [apply ranks_eligible|intros rows Hrows].
  apply returns_done. rewrite <- Hrows. apply Permutation_map, sort_by_perm.
Qed.

(** ** The attempts and their log *)

Abbreviation failed_attempt := (target * ProviderErrorInfo)%type.

Fixpoint numbered (n : Z) (fails : list failed_attempt) : list (failed_attempt * Z) :=
  match fails with [] => [] | f :: fails' => (f, n) :: numbered (n + 1) fails' end.

(** A deque of 500. *)
Definition push {A} (l : list A) (x : A) : list A := drop (length (l ++ [x]) - 500) (l ++ [x]).

Definition log (m : mm) : list (failed_attempt * Z) :=
  map (fun r => ((fo_provider r, fo_model r, fo_info r), fo_attempt r)) (m_failovers m).

Definition events_of (fails : list (failed_attempt * Z)) : list pydict := map (fun f => failover_event f.2 f.1.1 f.1.2) fails.

Lemma last_cons {A} (x : A) l d : List.last (x :: l) d = List.last l x.
Proof. revert x d. induction l as [|y l IH]; intros x d; [done|]. change (List.last (y :: l) d = List.last (y :: l) x). by rewrite !IH. Qed.

Lemma record_failover_run session t info attempt m :
  exists m', run (record_failover_event clock session t info attempt) m = (Ok tt, m') /\ log m' = push (log m) ((t, info), attempt).
Proof.
  eexists. split; [reflexivity|]. unfold log, push. cbn [m_failovers set_failovers tick_clock].
  rewrite fmap_drop, map_app, !length_app, length_map. by destruct t.
Qed.

Section attempts.
Context {A : Type} (operation : string) (call : target -> thread mm A) (session : option string) (payload : pydict).
(** The call itself records no failover. *)
Context (call_still : forall t l, still (fun m => m_failovers m = l) (call t)).

Lemma still_log t reason b events l : still (fun m => m_failovers m = l) (attempt_target clock call session payload t reason b events).
Proof using call_still. apply (still_attempt (fun m => m_failovers m = l)); [|done]. intros s s' _ E Hs. congruence. Qed.

Lemma attempt_log t reason b events m :
  log (run (attempt_target clock call session payload t reason b events) m).2 = log m.
Proof using call_still.
  pose proof (still_log t reason b events (m_failovers m) m eq_refl) as H1. unfold log.
  destruct (run _ m) as [[a|e] m']; cbn in *; by rewrite H1.
Qed.

Lemma attempt_answer t reason b events m a m' :
  run (attempt_target clock call session payload t reason b events) m = (Ok a, m') ->
  ans_target a = t /\ ans_fallback a = b
  /\ (events <> [] -> exists r, ans_routing a = Some r /\ get "failover_events" r = PList (map PDict events)).
Proof.
  unfold attempt_target. rewrite run_bind. unfold bind at 1. destruct (run (call t) m) as [[c|] m1]; [|done]. cbv beta.
  rewrite run_bind. unfold bind at 1. destruct (run (set_session_pin _ _ _ _) m1) as [[] m2]; [|done]. cbv beta.
  rewrite run_bind. unfold build_route_trace. cbv zeta. unfold bind at 1. rewrite run_bind. unfold bind at 1. rewrite run_atomic.
  destruct (get_session_pin session m2) as [[pinned|] m3]; [|done]. cbn [run]. intros [= <- <-].
  split_and!; [done..|]. intros Hne. eexists. split; [reflexivity|]. destruct events as [|ev evs]; [done|].
  destruct pinned; unfold get; rewrite ?d_get_set_ne by done; by rewrite d_get_set_eq.
Qed.

Lemma fallbacks_run reason ordered attempt events last m :
  events <> [] ->
  let '(r, m') := run (try_fallbacks clock operation call session payload reason ordered attempt events last) m in
  exists fails, log m' = fold_left push (numbered attempt fails) (log m)
    /\ match r with
       | Ok a => (exists rest, map fst fails ++ ans_target a :: rest = ordered) /\ ans_fallback a = true
                 /\ exists route, ans_routing a = Some route
                      /\ get "failover_events" route = PList (map PDict (events ++ events_of (numbered attempt fails)))
       | Err e => map fst fails = ordered /\ e = ProviderOperationError (List.last (map snd fails) last)
       end.
Proof using call_still.
  revert attempt events last m. induction ordered as [|t ts IH]; intros attempt events last m Hne; cbn [try_fallbacks].
  { exists []. done. }
  rewrite run_try. pose proof (attempt_log t (reason attempt) true events m) as Hlog.
  destruct (run (attempt_target _ _ _ _ _ _ _ _) m) as [[a|e] m1] eqn:Ea; cbn [snd] in Hlog.
  - apply attempt_answer in Ea as (Ht & Hf & Hr). cbn [run]. exists []. cbn. rewrite app_nil_r. split; [done|].
    split; [exists ts; by rewrite Ht|]. split; [done|]. by apply Hr.
  - set (info := RunPolicy.classify_provider_error (fst t) operation e). rewrite run_bind.
    destruct (record_failover_run session t info attempt m1) as (m2 & E2 & Hlog2). unfold bind. rewrite E2.
    specialize (IH (attempt + 1) (events ++ [failover_event attempt t info]) info m2).
    destruct (run (try_fallbacks _ _ _ _ _ _ _ _ _ _) m2) as [r m3]. destruct IH as (fails & Hl & Hres); [by destruct events|].
    exists ((t, info) :: fails). split; [cbn; by rewrite Hl, Hlog2, Hlog|]. destruct r as [a|e'].
    + destruct Hres as ([rest Hrest] & Hf & route & Hr & Hg). split; [exists rest; cbn; by rewrite Hrest|]. split; [done|].
      exists route. split; [done|]. rewrite Hg, <- app_assoc. done.
    + destruct Hres as [Hts ->]. cbn [map]. split; [by rewrite <- Hts|]. by rewrite last_cons.
Qed.

(** A request as a whole. *)
Lemma failover_run primary targets first reason m :
  let '(r, m') := run (with_failover cfg monotonic clock operation call session payload primary targets first reason) m in
  exists ordered fails, ordered ≡ₚ eligible primary [] targets /\ log m' = fold_left push (numbered 1 fails) (log m)
    /\ match r with
       | Ok a => (exists rest, map fst fails ++ ans_target a :: rest = primary :: ordered)
                 /\ ans_fallback a = negb (match fails with [] => true | _ => false end)
                 /\ (fails <> [] -> exists route, ans_routing a = Some route
                       /\ get "failover_events" route = PList (map PDict (events_of (numbered 1 fails))))
       | Err e => map fst fails = primary :: ordered
                  /\ exists info, List.last (map (fun f => Some (snd f)) fails) None = Some info /\ e = ProviderOperationError info
       end.
Proof using call_still.
  unfold with_failover. rewrite run_try. pose proof (attempt_log primary first false [] m) as Hlog.
  destruct (run (attempt_target _ _ _ _ _ _ _ _) m) as [[a|e] m1] eqn:Ea; cbn [snd] in Hlog.
  - apply attempt_answer in Ea as (Ht & Hf & _). cbn [run]. exists (eligible primary [] targets), []. cbn.
    split_and!; [done..| |done|done]. eexists. by rewrite Ht.
  - set (info := RunPolicy.classify_provider_error (fst primary) operation e). rewrite run_bind.
    destruct (record_failover_run session primary info 1 m1) as (m2 & E2 & Hlog2). unfold bind at 1. rewrite E2, run_bind. unfold bind.
    destruct (prioritize_eligible primary targets info session m2) as (ordered & m3 & E3 & Hord). rewrite E3.
    assert (m_failovers m3 = m_failovers m2) as Hm3.
    { pose proof (still_prioritize (fun m => m_failovers m = m_failovers m2)) as Hst.
      specialize (Hst ltac:(intros s s' _ E Hs; congruence) ltac:(done) ltac:(done) primary targets info session m2 eq_refl).
      by rewrite E3 in Hst. }
    pose proof (fallbacks_run (reason info) ordered 2 [failover_event 1 primary info] info m3 ltac:(done)) as Hrun.
    destruct (run (try_fallbacks _ _ _ _ _ _ _ _ _ _) m3) as [r m4]. destruct Hrun as (fails & Hl & Hres).
    exists ordered, ((primary, info) :: fails). split; [done|]. split.
    { cbn. rewrite Hl. f_equal. unfold log at 1. rewrite Hm3. fold (log m2). by rewrite Hlog2, Hlog. }
    destruct r as [a|e'].
    + destruct Hres as ([rest Hrest] & Hf & Hroute). split; [exists rest; cbn; by rewrite Hrest|]. split; [done|]. intros _. exact Hroute.
    + destruct Hres as [Hts ->]. cbn [map]. split; [by rewrite <- Hts|]. exists (List.last (map snd fails) info). split; [|done].
      rewrite last_cons. cbn [snd]. generalize info. clear. induction fails as [|f fs IH]; intros i; [done|]. cbn [map]. by rewrite !last_cons, IH.
Qed.
End attempts.

Section request.
Context (messages : list pydict) (temperature : fvalue) (max_tokens : Z) (user : option string).
Abbreviation ask := (provider_chat cfg monotonic uniform resolver messages temperature max_tokens user).

Lemma chat_still t l : still (fun m => m_failovers m = l) (ask t).
Proof.
  apply (still_resilient _ (fun _ => True)); try done; try (intros s s' _ E Hs; congruence).
  - apply still_atomic. intros s Hs. by destruct (mp_chat _ _ _ _ _ _).
  - apply still_before. intros s s' _ E Hs. congruence.
Qed.

(** C14. A chat fails only after every eligible target was tried.  Run on its
    own, with whatever the providers answer: once the primary target and the
    fallbacks are chosen, the attempts go through the primary target and then
    through the fallbacks that are registered and different from it, each once,
    in some order; the answer names the first target that succeeded, with the
    failures before it as its failover events; the chat raises only when all of
    them have failed, with the last error; and exactly the failed attempts are
    recorded, in order. *)
Theorem chat_tries_every_target model provider routing fallbacks session m r m' :
  run (chat cfg monotonic clock uniform resolver messages temperature max_tokens user model provider routing fallbacks session) m = (r, m') ->
  (exists e, run (resolve_runtime_targets cfg monotonic uniform model provider routing fallbacks session false) m = (Err e, m') /\ r = Err e)
  \/ exists primary targets payload m1 ordered fails,
      run (resolve_runtime_targets cfg monotonic uniform model provider routing fallbacks session false) m
        = (Ok (primary, targets, payload), m1)
      /\ ordered ≡ₚ eligible primary [] targets /\ log m' = fold_left push (numbered 1 fails) (log m1)
      /\ match r with
         | Ok a => (exists rest, map fst fails ++ ans_target a :: rest = primary :: ordered)
                   /\ ans_fallback a = negb (match fails with [] => true | _ => false end)
                   /\ (fails <> [] -> exists route, ans_routing a = Some route
                         /\ get "failover_events" route = PList (map PDict (events_of (numbered 1 fails))))
         | Err e => map fst fails = primary :: ordered
                    /\ exists info, List.last (map (fun f => Some (snd f)) fails) None = Some info /\ e = ProviderOperationError info
         end.
Proof.
  unfold chat. rewrite run_bind. unfold bind.
  destruct (run (resolve_runtime_targets _ _ _ _ _ _ _ _ _) m) as [[[[primary targets] payload]|e] m1] eqn:E.
  - intros Hrun. right. pose proof (failover_run "chat" ask session payload chat_still primary targets "primary_success"
      (fun info _ => "fallback_success:" +:+ ei_error_class info) m1) as Hf. rewrite Hrun in Hf. destruct Hf as (ordered & fails & Hf).
    by exists primary, targets, payload, m1, ordered, fails.
  - intros [= <- <-]. left. by exists e.
Qed.

(** ** A healthy local provider *)

Section healthy.
Context (p : string) (p_registered : str_in p (registered cfg) = true) (p_local : is_cloud_provider p = false).
Context (p_answers : forall n model, is_ok (mp_chat n p model messages temperature max_tokens) = true).

Definition closed (m : mm) : Prop := circuit_until_monotonic (state_of p m) = None.

Lemma closed_put q st m : (q = p -> circuit_until_monotonic st = None) -> closed m -> closed (put_state q st m).
Proof.
  intros Hst Hm. unfold closed, state_of, put_state. cbn. rewrite d_get_set. destruct (String.eqb_spec q p) as [->|]; [by apply Hst|done].
Qed.
Lemma closed_frame m m' : m_states m' = m_states m -> m_failovers m' = m_failovers m -> closed m -> closed m'.
Proof. unfold closed, state_of. by intros ->. Qed.
Lemma closed_reset m q latest : closed m -> closed (put_state q (PState 0 None latest) m).
Proof. by apply closed_put. Qed.
Lemma closed_same m q : closed m -> closed (put_state q (state_of q m) m).
Proof. intros Hm. apply closed_put; [|done]. by intros ->. Qed.
Lemma closed_fail m q st : q <> p -> closed m -> closed (put_state q st m).
Proof. intros Hne. by apply closed_put. Qed.

Lemma local_before s : run (before_provider_call cfg monotonic resolver p user messages max_tokens) s = (Ok tt, s).
Proof using p_local.
  unfold before_provider_call. rewrite run_bind. unfold bind. rewrite run_atomic. unfold enforce_provider_entitlement, enforce_cloud_guardrails.
  by rewrite p_local.
Qed.

(** It answers at the first attempt. *)
Lemma healthy_attempts model attempt left m :
  closed m -> exists c m', run (attempts cfg monotonic uniform p "chat"
    (atomic (fun m => (mp_chat (m_calls m) p model messages temperature max_tokens, tick_calls m)))
    (before_provider_call cfg monotonic resolver p user messages max_tokens) attempt left) m = (Ok c, m') /\ closed m'.
Proof using p_local p_answers.
  intros Hm. set (m2 := tick_calls (tick_mono m)). assert (closed m2) as Hm2 by (by apply (closed_frame m)).
  pose proof (p_answers (m_calls (tick_mono m)) model) as Ha.
  destruct (mp_chat (m_calls (tick_mono m)) p model messages temperature max_tokens) as [c|] eqn:Ec; [|done].
  set (st := if monotonic (m_mono m) <? latest_failure_started_at (state_of p m2) then state_of p m2
             else PState 0 None (latest_failure_started_at (state_of p m2))).
  assert (run (attempts cfg monotonic uniform p "chat"
    (atomic (fun m => (mp_chat (m_calls m) p model messages temperature max_tokens, tick_calls m)))
    (before_provider_call cfg monotonic resolver p user messages max_tokens) attempt left) m = (Ok c, put_state p st m2)) as ->.
  { destruct left; cbn [attempts]; rewrite run_bind; unfold bind at 1; rewrite run_atomic; cbn [now_ns]; rewrite run_try, run_bind;
      unfold bind at 1; rewrite local_before, run_bind; unfold bind at 1; rewrite run_atomic, Ec; done. }
  eexists _, _. split; [done|]. unfold st. destruct (_ <? _); [by apply closed_same|by apply closed_reset].
Qed.

Lemma healthy_call model m : closed m -> exists c m', run (ask (p, model)) m = (Ok c, m') /\ closed m'.
Proof using p_local p_answers.
  intros Hm. unfold provider_chat, call_provider_resilient. rewrite run_bind. unfold bind at 1. rewrite run_atomic.
  assert (is_provider_circuit_open monotonic p m = (Ok false, put_state p (state_of p m) m)) as E.
  { unfold is_provider_circuit_open, bind, gets, modify. by rewrite Hm. }
  cbn [fst snd]. rewrite E. cbv zeta. by apply healthy_attempts, closed_same.
Qed.

Lemma healthy_attempt session payload model reason b events m :
  closed m -> exists a m', run (attempt_target clock ask session payload (p, model) reason b events) m = (Ok a, m').
Proof using p_local p_answers.
  intros Hm. destruct (healthy_call model m Hm) as (c & m1 & E & _). unfold attempt_target. rewrite run_bind. unfold bind. rewrite E.
  assert (returns (set_session_pin clock session (p, model) reason) (fun _ => True)) as Hpin.
  { unfold set_session_pin. destruct (is_empty _); [by apply returns_done|].
    eapply (returns_bind _ _ (fun _ => True)); [|intros ? _]; apply returns_atomic; intros s; by eexists _, _. }
  assert (returns (set_session_pin clock session (p, model) reason ;! let! trace := build_route_trace payload (p, model) b events session in
    Done (Answer c (p, model) b trace)) (fun _ => True)) as Hall.
  { eapply returns_bind; [exact Hpin|intros ? _]. eapply (returns_bind _ _ (fun _ => True)); [|intros; by apply returns_done].
    unfold build_route_trace. cbv zeta. eapply returns_bind; [apply returns_get_pin|intros; by apply returns_done]. }
  destruct (Hall m1) as (a & m' & E' & _). eauto.
Qed.

Lemma other_attempt session payload t reason b events m :
  t.1 <> p -> closed m -> closed (run (attempt_target clock ask session payload t reason b events) m).2.
Proof.
  intros Hne Hm. assert (still closed (attempt_target clock ask session payload t reason b events)) as Hst.
  { apply (still_attempt closed closed_frame). apply (still_resilient closed (fun q => q <> p) closed_frame closed_reset closed_same closed_fail); try done.
    - apply still_atomic. apply (keeps_frame closed closed_frame). done.
    - apply (still_before closed closed_frame). }
  specialize (Hst m Hm). by destruct (run _ m) as [[]].
Qed.

Lemma healthy_fallbacks session payload reason ordered attempt events last model m :
  (p, model) ∈ ordered -> closed m ->
  exists a m', run (try_fallbacks clock "chat" ask session payload reason ordered attempt events last) m = (Ok a, m').
Proof using p_local p_answers.
  revert attempt events last m. induction ordered as [|t ts IH]; intros attempt events last m Hin Hm; [by apply elem_of_nil in Hin|].
  cbn [try_fallbacks]. rewrite run_try. destruct (decide (t.1 = p)) as [Hp|Hp].
  - destruct t as [q mo]. cbn in Hp. subst q. destruct (healthy_attempt session payload mo (reason attempt) true events m Hm) as (a & m' & ->).
    by eexists _, _.
  - pose proof (other_attempt session payload t (reason attempt) true events m Hp Hm) as Hc.
    destruct (run (attempt_target _ _ _ _ _ _ _ _) m) as [[a|e] m1]; [by eexists _, _|]. cbn [snd] in Hc. rewrite run_bind. unfold bind.
    set (info := RunPolicy.classify_provider_error (fst t) "chat" e).
    assert (run (record_failover_event clock session t info attempt) m1 = (Ok tt, (run (record_failover_event clock session t info attempt) m1).2)) as -> by reflexivity.
    apply elem_of_cons in Hin as [<-|Hin]; [done|]. apply IH; [done|]. exact Hc.
Qed.

(** C16. A healthy local provider saves the request: if a local provider that
    answers every call is the primary target or an eligible fallback, and its
    circuit is closed when the attempts start, the chat returns an answer,
    whatever the other providers do. *)
Theorem healthy_local_provider_answers model provider routing fallbacks session m primary targets payload m1 mo :
  run (resolve_runtime_targets cfg monotonic uniform model provider routing fallbacks session false) m = (Ok (primary, targets, payload), m1) ->
  circuit_until_monotonic (state_of p m1) = None -> (p, mo) ∈ primary :: eligible primary [] targets ->
  exists a m', run (chat cfg monotonic clock uniform resolver messages temperature max_tokens user model provider routing fallbacks session) m
    = (Ok a, m').
Proof using p_local p_answers.
  intros E Hc Hin. unfold chat. rewrite run_bind. unfold bind. rewrite E. unfold with_failover. rewrite run_try.
  destruct (decide (primary.1 = p)) as [Hp|Hp].
  { destruct primary as [q mo']. cbn in Hp. subst q. destruct (healthy_attempt session payload mo' "primary_success" false [] m1 Hc) as (a & m' & ->).
    by eexists _, _. }
  apply elem_of_cons in Hin as [<-|Hin]; [done|]. pose proof (other_attempt session payload primary "primary_success" false [] m1 Hp Hc) as Hc1.
  destruct (run (attempt_target _ _ _ _ _ _ _ _) m1) as [[a|e] m2]; [by eexists _, _|]. cbn [snd] in Hc1. rewrite run_bind. unfold bind at 1.
  set (info := RunPolicy.classify_provider_error (fst primary) "chat" e).
  assert (run (record_failover_event clock session primary info 1) m2 = (Ok tt, (run (record_failover_event clock session primary info 1) m2).2)) as -> by reflexivity.
  set (m3 := (run _ m2).2). assert (closed m3) as Hm3 by exact Hc1. rewrite run_bind. unfold bind.
  destruct (prioritize_eligible primary targets info session m3) as (ordered & m4 & E4 & Hord).
  pose proof (still_prioritize closed closed_frame closed_reset closed_same primary targets info session m3 Hm3) as Hm4. rewrite E4 in *.
  apply healthy_fallbacks with mo; [by rewrite Hord|done].
Qed.

(** C37. A stream that fails counts as a success of its provider.  Take a local
    provider with a closed circuit, no failure of which began after the present
    reading of the clock, whose [stream_chat] is a generator: making
    the stream returns, without contacting the provider, and the success is
    recorded before the first chunk is asked for.  So whatever the stream then
    does, the failures of the provider are forgotten, and a stream that breaks
    before its first chunk is not counted as a failure. *)
Theorem failing_stream_counts_as_success model m chunks :
  circuit_until_monotonic (state_of p m) = None -> latest_failure_started_at (state_of p m) <= monotonic (m_mono m) ->
  mp_stream (m_calls m) p model messages temperature max_tokens = Ok chunks ->
  let '(r, m') := run (primed_stream cfg monotonic uniform resolver messages temperature max_tokens user (p, model)) m in
  state_of p m' = PState 0 None (latest_failure_started_at (state_of p m))
  /\ r = match chunks with [] => Err (RuntimeError "Empty streaming response") | Err e :: _ => Err e | Ok _ :: _ => Ok chunks end.
Proof using p_local.
  intros Hc Hle Hmade. unfold primed_stream. rewrite run_bind. unfold bind.
  assert (run (provider_stream_chat cfg monotonic uniform resolver messages temperature max_tokens user (p, model)) m
    = (Ok chunks, put_state p (PState 0 None (latest_failure_started_at (state_of p m))) (tick_calls (tick_mono (put_state p (state_of p m) m))))) as ->.
  { unfold provider_stream_chat, call_provider_resilient. rewrite run_bind. unfold bind at 1. rewrite run_atomic.
    assert (is_provider_circuit_open monotonic p m = (Ok false, put_state p (state_of p m) m)) as E.
    { unfold is_provider_circuit_open, bind, gets, modify. by rewrite Hc. }
    cbn [fst snd]. rewrite E. cbv zeta. set (m1 := put_state p (state_of p m) m).
    assert (state_of p (tick_calls (tick_mono m1)) = state_of p m) as Est by (unfold state_of, m1, put_state; cbn; by rewrite d_get_set_eq).
    destruct (Z.to_nat _); cbn [attempts]; rewrite run_bind; unfold bind at 1; rewrite run_atomic; cbn [now_ns]; rewrite run_try, run_bind;
      unfold bind at 1; rewrite local_before, run_bind; unfold bind at 1; rewrite run_atomic; cbn [fst snd];
      change (m_calls (tick_mono m1)) with (m_calls m); rewrite Hmade, run_bind; unfold bind; rewrite run_atomic;
      unfold record_provider_success, modify; rewrite Est; cbn [run]; change (m_mono m1) with (m_mono m);
      (destruct (Z.ltb_spec (monotonic (m_mono m)) (latest_failure_started_at (state_of p m))); [lia|done]). }
  assert (forall s : mm, state_of p (put_state p (PState 0 None (latest_failure_started_at (state_of p m))) s)
    = PState 0 None (latest_failure_started_at (state_of p m))) as Hput by (intros s; unfold state_of, put_state; cbn; by rewrite d_get_set_eq).
  destruct chunks as [|[] ?]; (split; [apply Hput|done]).
Qed.
End healthy.
End request.

(** ** A user who is not entitled *)

Section denied.
Context (p : string) (p_cloud : is_cloud_provider p = true).
Context (resolve : nat -> string -> string -> res pyval) (resolves : resolver = Some resolve).

(** The resolver answers that the provider is not available to the user. *)
Definition denied (user : string) : Prop :=
  strip user <> "" /\ forall n, exists payload, resolve n (strip user) p = Ok (PDict payload) /\ truthy (get "available" payload) = false.

Lemma denied_before user messages max_tokens m :
  denied user -> exists e, run (before_provider_call cfg monotonic resolver p (Some user) messages max_tokens) m = (Err e, tick_calls m).
Proof using p_cloud resolves.
  intros [Hu Hd]. unfold before_provider_call. rewrite run_bind. unfold bind at 1. rewrite run_atomic.
  unfold enforce_provider_entitlement. rewrite p_cloud, resolves. cbn [negb opt_str]. cbv zeta.
  rewrite (proj2 (is_empty_false _) Hu). destruct (Hd (m_calls m)) as (payload & -> & Hp). rewrite Hp. cbn [negb].
  destruct (py_list _); cbn [res_bind]; by eexists.
Qed.

(** Failures are being counted, at least [c] so far; the circuit is open. *)
Definition counting (c : Z) (m : mm) : Prop :=
  circuit_until_monotonic (state_of p m) = None /\ c <= failure_count (state_of p m) < threshold cfg.
Definition shut (m : mm) : Prop :=
  threshold cfg <= failure_count (state_of p m)
  /\ exists k, (k < m_mono m)%nat /\ circuit_until_monotonic (state_of p m) = Some (monotonic k + cooldown cfg).
Definition unsettled (c : Z) (m : mm) : Prop := counting c m \/ shut m.

Lemma state_put st m : state_of p (put_state p st m) = st.
Proof. unfold state_of, put_state. cbn. by rewrite d_get_set_eq. Qed.

Lemma failure_counts started c m : unsettled c m ->
  exists m', record_provider_failure cfg monotonic p started m = (Ok tt, m') /\ unsettled (c + 1) m' /\ m_admitted m' = m_admitted m.
Proof.
  intros Hm. unfold record_provider_failure, bind, gets, now_ns, modify. cbv zeta.
  destruct (Z.leb_spec (threshold cfg) (failure_count (state_of p m) + 1)) as [Hge|Hlt].
  - eexists. split; [reflexivity|]. split; [right|done]. unfold shut. rewrite state_put. cbn. split; [done|].
    exists (m_mono m). split; [cbn; lia|done].
  - eexists. split; [reflexivity|]. split; [left|done]. unfold counting. rewrite state_put. cbn.
    destruct Hm as [[Hc Hn]|[Hn _]]; [|lia]. split; [done|lia].
Qed.

Lemma unsettled_frame c m m' : m_states m' = m_states m -> (m_mono m <= m_mono m')%nat -> unsettled c m -> unsettled c m'.
Proof.
  intros Hs Hk. unfold unsettled, counting, shut, state_of. rewrite Hs. intros [H'|(H' & k & H'' & E)]; [by left|].
  right. split; [done|]. exists k. split; [lia|done].
Qed.

Lemma attempts_denied {A} user messages max_tokens operation (call : thread mm A) attempt left c m :
  denied user -> unsettled c m -> 
  exists e m', run (attempts cfg monotonic uniform p operation call (before_provider_call cfg monotonic resolver p (Some user) messages max_tokens)
                     attempt left) m = (Err e, m')
    /\ unsettled (c + 1) m' /\ m_admitted m' = m_admitted m.
Proof using p_cloud resolves.
  intros Hd. revert attempt c m. induction left as [|left IH]; intros attempt c m Hm; cbn [attempts];
    rewrite run_bind; unfold bind at 1; rewrite run_atomic; cbn [now_ns]; rewrite run_try, run_bind; unfold bind at 1;
    destruct (denied_before user messages max_tokens (tick_mono m) Hd) as [e ->];
    (assert (unsettled c (tick_calls (tick_mono m))) as Hm1 by (eapply unsettled_frame; [..|exact Hm]; [done|cbn; lia]));
    rewrite run_bind; unfold bind at 1; rewrite run_atomic;
    destruct (failure_counts (monotonic (m_mono m)) c _ Hm1) as (m2 & -> & Hm2 & Ha2).
  - by do 2 eexists.
  - destruct (negb _); [by do 2 eexists|]. rewrite run_bind. unfold bind at 1. rewrite run_atomic.
    unfold provider_retry_delay. cbv zeta.
    destruct (_ <? _); cbn [snd].
    + destruct (IH (attempt + 1) (c + 1) (tick_draws m2)) as (e' & m' & E & Hm' & Ha'); [by eapply unsettled_frame; [..|exact Hm2]|].
      exists e', m'. split; [exact E|]. split; [|exact (eq_trans Ha' Ha2)].
      destruct Hm' as [[? ?]|?]; [left; split; [done|lia]|by right].
    + destruct (IH (attempt + 1) (c + 1) m2 Hm2) as (e' & m' & E & Hm' & Ha').
      exists e', m'. split; [exact E|]. split; [|exact (eq_trans Ha' Ha2)].
      destruct Hm' as [[? ?]|?]; [left; split; [done|lia]|by right].
Qed.

(** One refused chat while the circuit is closed. *)
Lemma chat_denied user messages temperature max_tokens model c m :
  denied user -> counting c m ->
  exists e m', run (provider_chat cfg monotonic uniform resolver messages temperature max_tokens (Some user) (p, model)) m = (Err e, m')
    /\ unsettled (c + 1) m' /\ m_admitted m' = m_admitted m.
Proof using p_cloud resolves.
  intros Hd [Hc Hn]. unfold provider_chat, call_provider_resilient. cbn [fst snd]. rewrite run_bind. unfold bind at 1. rewrite run_atomic.
  unfold is_provider_circuit_open, bind at 1, gets, bind at 1, modify. rewrite Hc. cbv zeta. unfold ret.
  assert (unsettled c (put_state p (state_of p m) m)) as Hm by (left; unfold counting; by rewrite state_put).
  destruct (attempts_denied user messages max_tokens "chat"
    (atomic (fun m => (mp_chat (m_calls m) p model messages temperature max_tokens, tick_calls m))) 1
    (Z.to_nat (Z.max 1 (provider_retry_attempts cfg) - 1)) c _ Hd Hm) as (e & m' & E & H1 & H2).
  exists e, m'. split; [exact E|]. split; [exact H1|exact H2].
Qed.

(** Chats while it is open. *)
Lemma chat_shut user messages temperature max_tokens model until m :
  circuit_until_monotonic (state_of p m) = Some until -> monotonic (m_mono m) < until ->
  exists remaining m', run (provider_chat cfg monotonic uniform resolver messages temperature max_tokens user (p, model)) m
    = (Err (circuit_open_error p "chat" remaining), m') /\ m_admitted m' = m_admitted m.
Proof.
  intros Hc Hlt. unfold provider_chat, call_provider_resilient. cbn [fst snd]. rewrite run_bind. unfold bind at 1. rewrite run_atomic.
  unfold is_provider_circuit_open, bind at 1, gets, bind at 1, modify. rewrite Hc. unfold bind at 1, now_ns. cbn [m_mono put_state set_states].
  apply Z.leb_gt in Hlt. rewrite Hlt. unfold ret. rewrite run_bind. unfold bind at 1. rewrite run_atomic.
  unfold provider_cooldown_remaining, bind, gets, modify. change (state_of p (tick_mono ?x)) with (state_of p x). rewrite state_put, Hc.
  unfold now_ns. cbv zeta. destruct (_ <=? 0); cbn; by do 2 eexists.
Qed.

(** C36. The refusals of one user shut a cloud provider for everyone.  The
    entitlement of a user is checked inside the guarded call, and a refusal is
    recorded as a failure of the provider, although the provider is not asked.
    From any state in which the circuit of the provider is closed and its
    failures are below the threshold, at most
    [threshold] chats of a user whom the resolver denies the provider open it:
    none of them has been let through to the provider, the circuit is set a
    cooldown ahead of one of their readings of the clock, and until then every
    chat of any user with this provider, entitled or not, is refused by the
    circuit. *)
Theorem denied_user_opens_circuit mallory messages temperature max_tokens model m :
  denied mallory -> circuit_until_monotonic (state_of p m) = None -> 0 <= failure_count (state_of p m) < threshold cfg ->
  let refused m := (run (provider_chat cfg monotonic uniform resolver messages temperature max_tokens (Some mallory) (p, model)) m).2 in
  exists n k, (n <= Z.to_nat (threshold cfg))%nat /\ (k < m_mono (Nat.iter n refused m))%nat
    /\ threshold cfg <= failure_count (state_of p (Nat.iter n refused m))
    /\ m_admitted (Nat.iter n refused m) = m_admitted m
    /\ circuit_until_monotonic (state_of p (Nat.iter n refused m)) = Some (monotonic k + cooldown cfg)
    /\ forall m' anyone messages' temperature' max_tokens' model',
         state_of p m' = state_of p (Nat.iter n refused m) -> monotonic (m_mono m') < monotonic k + cooldown cfg ->
         exists remaining, (run (provider_chat cfg monotonic uniform resolver messages' temperature' max_tokens' anyone (p, model')) m').1
           = Err (circuit_open_error p "chat" remaining).
Proof using p_cloud resolves.
  intros Hd Hc Hn refused.
  assert (forall j, (exists n, (n <= j)%nat /\ shut (Nat.iter n refused m) /\ m_admitted (Nat.iter n refused m) = m_admitted m)
    \/ counting (Z.of_nat j) (Nat.iter j refused m) /\ m_admitted (Nat.iter j refused m) = m_admitted m) as Hall.
  { induction j as [|j [(n & Hle & Hsh)|[Hco Had]]]; [right; split; [split; [done|cbn; lia]|done]| |].
    - left. exists n. split; [lia|done].
    - destruct (chat_denied mallory messages temperature max_tokens model (Z.of_nat j) (Nat.iter j refused m) Hd Hco) as (e & m' & E & Hm' & Ha').
      assert (Nat.iter (S j) refused m = m') as Hit by exact (f_equal snd E).
      rewrite Had in Ha'. destruct Hm' as [Hm'|Hm']; [right|left; exists (S j)]; rewrite Hit; [|done].
      split; [|done]. by replace (Z.of_nat (S j)) with (Z.of_nat j + 1) by lia. }
  destruct (Hall (Z.to_nat (threshold cfg))) as [(n & Hle & (Hf & k & Hk & Hu) & Had)|[[_ Hlt] _]].
  - exists n, k. split_and!; [done..|]. intros m' anyone messages' temperature' max_tokens' model' Hst Hlt.
    destruct (chat_shut anyone messages' temperature' max_tokens' model' (monotonic k + cooldown cfg) m') as (remaining & m2 & E & _);
      [by rewrite Hst|done|]. exists remaining. by rewrite E.
  - unfold threshold in *. lia.
Qed.
End denied.

End manager.
End ModelFailoverFacts.
