(* ===== verification/ModelRouteFacts.v ===== *)
(** What a route promises: the selected model satisfies the constraints and no
    other candidate that does ranks above it; the fallbacks are at most six
    other targets that satisfy them too; only when none does is there no
    route. *)

From stdpp Require Import prelude strings list.
From Stdlib Require Import Lia ZArith Ascii SpecFloat.
From S2P Require Import Prelude PyStr PyVal PyFloat PyFloatOps PyFloatFacts Effects PyTime Threads RunPolicy ModelRouting ProviderGuards ModelManager ModelFailoverFacts.
Import ModelRouting ProviderGuards ModelManager ModelFailoverFacts.

Module ModelRouteFacts.

(** ** Ranks *)

Abbreviation scored := (fvalue * ModelCandidate)%type.
Definition is_number (x : scored) : bool := negb (is_nan (fst x)).

Lemma key_lt_asym (a b : scored) : key_lt a b = true -> key_lt b a = false.
Proof.
  destruct a as [x a], b as [y b]. unfold key_lt. cbn [fst snd]. destruct (f_lt x y) eqn:Exy.
  - intros _. rewrite (f_lt_asym _ _ Exy). cbn. unfold same_float, f_le. destruct x, y; try done; rewrite Exy; cbn; by rewrite ?andb_false_r.
  - cbn. unfold same_float. rewrite (andb_comm (f_le y x)). destruct (f_le x y) eqn:Ele; [|done]. cbn.
    assert (f_lt y x = false) as -> by (unfold f_le in Ele; destruct x, y; try done; by apply negb_true_iff in Ele).
    cbn. destruct (f_le y x); [|done]. cbn. by destruct (mc_active a), (mc_active b), (mc_installed a), (mc_installed b).
Qed.

Lemma key_lt_trans (a b c : scored) :
  is_number a = true -> is_number b = true -> is_number c = true -> key_lt a b = false -> key_lt b c = false -> key_lt a c = false.
Proof.
  destruct a as [x a], b as [y b], c as [z c]. unfold is_number, key_lt. cbn [fst snd]. rewrite !negb_true_iff. intros Hx Hy Hz.
  rewrite !same_float_numbers, !orb_false_iff by done. intros [Hxy H1] [Hyz H2].
  assert (f_lt x z = false) as Hxz by (by apply (f_lt_trans_neg z y x)). split; [done|]. rewrite Hxz. cbn.
  destruct (f_lt z x) eqn:Hzx; [done|]. cbn.
  assert (f_lt y x = false) as Hyx by (by apply (f_lt_trans_neg x z y)). assert (f_lt z y = false) as Hzy by (by apply (f_lt_trans_neg y x z)).
  rewrite Hxy, Hyx in H1. rewrite Hyz, Hzy in H2. cbn in H1, H2.
  destruct (mc_active a), (mc_active b), (mc_active c), (mc_installed a), (mc_installed b), (mc_installed c); done.
Qed.

Lemma contributions_finite c k : Forall (fun b => finite (to_spec b) = true) (contributions c k).
Proof.
  assert (forall b n1 n2, finite (to_spec (tenths n1)) = true -> finite (to_spec (tenths n2)) = true -> finite (to_spec (pick b (tenths n1) (tenths n2))) = true) as Hpick by (by intros []).
  unfold contributions, quality_score, speed_score. repeat apply Forall_app_2.
  - repeat constructor; try (by apply Hpick); repeat case_match; reflexivity.
  - destruct (prefer_local k) as [|[]| | | | |]; repeat constructor; by apply Hpick.
  - repeat case_match; repeat constructor; by apply Hpick.
  - case_match; by repeat constructor.
  - case_match; by repeat constructor.
Qed.

Lemma score_number c k score : score_candidate c k = Some score -> is_nan score = false.
Proof.
  unfold score_candidate. destruct (admissible c k); [|done]. intros [= <-]. apply f_round_number; [done|]. apply (f_sum_number (contributions c k)); [reflexivity|apply contributions_finite].
Qed.

Definition penalties : list fvalue := [cents 110; cents 55; cents 25; cents 10; FFinite 0 0].
Lemma penalty_finite p : p ∈ penalties -> finite (to_spec p) = true.
Proof. unfold penalties. set_unfold. intros [->|[->|[->|[->|[->|[]]]]]]; reflexivity. Qed.

(** ** The penalty of a provider at a time *)

(** The steps of the penalty in the pressure on the windows. *)
Definition penalty_of (pressure : fvalue) : fvalue :=
  if f_le (cents 95) pressure then cents 110
  else if f_le (cents 85) pressure then cents 55
  else if f_le (cents 75) pressure then cents 25
  else if f_le (cents 60) pressure then cents 10
  else FFinite 0 0.

Lemma penalty_of_elem pressure : penalty_of pressure ∈ penalties.
Proof. unfold penalty_of, penalties. repeat case_match; set_solver. Qed.

Lemma drop_before_twice {A} (time : A -> Z) c1 c2 l :
  c1 <= c2 -> drop_before time c2 (drop_before time c1 l) = drop_before time c2 l.
Proof.
  intros Hc. induction l as [|x l IH]; [done|]. cbn. destruct (Z.ltb_spec (time x) c1) as [Hx|]; [|done].
  rewrite IH. assert ((time x <? c2) = true) as -> by lia. done.
Qed.

Section manager.
Context (cfg : config) (monotonic : nat -> Z) (uniform : nat -> Z -> Z) `{ModelProviders}.

(** The share of its limits a provider has used by a time: none for a local
    one, else the larger of the shares of requests and of units that are still
    in their windows, at most one. *)
Definition pressure_at (m : mm) (provider : string) (now : Z) : fvalue :=
  if is_cloud_provider provider then
    f_max (FFinite 0 0) (f_min (FFinite 1 0)
      (f_max (f_div (f_int (Z.max 0 (Z.of_nat (length (rates_at cfg provider now m))))) (f_int (Z.max 1 (cloud_rate_max_requests cfg))))
             (f_div (f_int (Z.max 0 (used_units (units_at cfg provider now m)))) (f_int (Z.max 1 (cloud_budget_max_units cfg))))))
  else FFinite 0 0.

Definition penalty_at (m : mm) (provider : string) (now : Z) : fvalue := penalty_of (pressure_at m provider now).

(** [m'] is [m] some readings of the clock later: for any later reading the
    windows hold the same. *)
Definition aged (m m' : mm) : Prop :=
  (m_mono m <= m_mono m')%nat
  /\ forall p n, (m_mono m' <= n)%nat ->
       rates_at cfg p (monotonic n) m' = rates_at cfg p (monotonic n) m
       /\ units_at cfg p (monotonic n) m' = units_at cfg p (monotonic n) m.

Lemma aged_refl m : aged m m.
Proof. split; [lia|done]. Qed.
Lemma aged_trans m1 m2 m3 : aged m1 m2 -> aged m2 m3 -> aged m1 m3.
Proof.
  intros [A1 A2] [B1 B2]. split; [lia|]. intros p n Hn. destruct (B2 p n Hn) as [-> ->]. apply A2. lia.
Qed.
Lemma aged_penalty m m' p n : aged m m' -> (m_mono m' <= n)%nat -> penalty_at m' p (monotonic n) = penalty_at m p (monotonic n).
Proof. intros [_ Ha] Hn. unfold penalty_at, pressure_at. by destruct (Ha p n Hn) as [-> ->]. Qed.

(** A penalty that was charged at a reading of the clock between [m] and
    [m']. *)
Definition charged_between (m m' : mm) (provider : string) (penalty : fvalue) : Prop :=
  exists n, (m_mono m <= n <= m_mono m')%nat /\ penalty = penalty_at m provider (monotonic n).

Lemma charged_later m m1 m2 m3 p x : aged m m1 -> aged m2 m3 -> charged_between m1 m2 p x -> charged_between m m3 p x.
Proof.
  intros Ha [Hb _] (n & Hn & ->). exists n. destruct Ha as [Ha Hw]. split; [lia|]. by apply aged_penalty; [split|lia].
Qed.

(** A run that returns, with what it returns and where it ends. *)
Definition ends {A} (t : thread mm A) (m : mm) (Q : A -> mm -> Prop) : Prop :=
  exists a m', run t m = (Ok a, m') /\ aged m m' /\ Q a m'.

Lemma ends_done {A} (a : A) m (Q : A -> mm -> Prop) : Q a m -> ends (Done a) m Q.
Proof. intros HQ. exists a, m. split; [done|]. split; [apply aged_refl|done]. Qed.
Lemma ends_bind {A B} (t : thread mm A) (f : A -> thread mm B) m Q R :
  ends t m Q -> (forall a m', aged m m' -> Q a m' -> ends (f a) m' R) -> ends (t_bind t f) m R.
Proof.
  intros (a & m1 & E & Ha & HQ) Hf. destruct (Hf a m1 Ha HQ) as (b & m2 & E2 & Hb & HR).
  exists b, m2. rewrite run_bind. unfold bind. rewrite E. split; [done|]. split; [by eapply aged_trans|done].
Qed.

Section clock.
Hypothesis Hclock : forall i j, (i <= j)%nat -> monotonic i <= monotonic j.

Lemma pruned_aged p m :
  aged m (store_windows p (rates_at cfg p (monotonic (m_mono m)) m) (units_at cfg p (monotonic (m_mono m)) m) (tick_mono m)).
Proof using Hclock.
  split; [cbn; lia|]. intros q n Hn. cbn in Hn. unfold rates_at, units_at, store_windows, set_windows. cbn [m_rate m_budget tick_mono].
  rewrite !d_get_set. destruct (String.eqb_spec p q) as [<-|]; [|done]. cbn [default].
  assert (monotonic (m_mono m) <= monotonic n) by (apply Hclock; lia). split; apply drop_before_twice; lia.
Qed.

(** What a penalty is read as. *)
Lemma penalty_ends p m : ends (provider_guardrail_penalty cfg monotonic p) m (fun x m' => charged_between m m' p x).
Proof using Hclock.
  unfold provider_guardrail_penalty, provider_guardrail_pressure, provider_guardrail_status, charged_between, penalty_at, pressure_at.
  destruct (is_cloud_provider p) eqn:Ep; cbn [negb].
  - eexists _, _. split; [reflexivity|]. split; [exact (pruned_aged p m)|]. exists (m_mono m). split; [cbn; lia|].
    reflexivity.
  - exists (FFinite 0 0), m. split; [reflexivity|]. split; [apply aged_refl|]. exists (m_mono m). split; [lia|reflexivity].
Qed.
End clock.

Lemma charged_elem m m' p x : charged_between m m' p x -> x ∈ penalties.
Proof. intros (n & _ & ->). apply penalty_of_elem. Qed.

(** ** Candidates and scores *)

Lemma models_return (op : thread mm (list pydict)) : returns (t_try op (fun _ => Done []) Done) (fun _ => True).
Proof. intros s. rewrite run_try. destruct (run op s) as [[l|e] s']; by eexists _, _. Qed.

Lemma default_returns p : returns (default_model_for_provider cfg p) (fun _ => True).
Proof.
  unfold default_model_for_provider. repeat case_match; try (by apply returns_done); apply returns_atomic; intros s; by eexists _, _.
Qed.

Lemma candidates_return providers active suggested limit rows seen :
  returns (candidates_of cfg monotonic uniform providers active suggested limit rows seen) (fun _ => True).
Proof.
  revert rows seen. induction providers as [|p ps IH]; intros rows seen; cbn [candidates_of]; [by apply returns_done|].
  eapply (returns_bind _ _ (fun _ => True)); [|intros; apply IH]. unfold provider_candidates. cbv zeta.
  eapply returns_bind; [apply models_return|intros l _]. destruct (new_candidates _ _ _ _ rows seen) as [rows1 seen1].
  eapply returns_bind; [apply default_returns|intros d _]. destruct (new_candidates _ _ _ _ rows1 seen1) as [rows2 seen2].
  case_match; by apply returns_done.
Qed.

(** The scores: those of the admissible candidates, each less the penalty of
    its provider at a reading of the clock between [m] and [m']. *)
Definition scores_of (m m' : mm) (k : RoutingConstraints) (candidates : list ModelCandidate) (l : list scored) : Prop :=
  map snd l = List.filter (fun c => admissible c k) candidates
  /\ Forall (fun x => exists score penalty, score_candidate (snd x) k = Some score
       /\ charged_between m m' (mc_provider (snd x)) penalty /\ fst x = f_sub score penalty) l.

Lemma scores_later m m1 m2 k candidates l : aged m m1 -> scores_of m1 m2 k candidates l -> forall m3, aged m2 m3 -> scores_of m m3 k candidates l.
Proof.
  intros Ha [Hl Hs] m3 Hb. split; [done|]. eapply Forall_impl; [exact Hs|]. intros x (score & p & H1 & H2 & H3).
  exists score, p. split; [done|]. split; [by eapply charged_later|done].
Qed.

Lemma scores_numbers m m' k candidates l : scores_of m m' k candidates l -> Forall (fun x => is_number x = true) l.
Proof.
  intros [_ Hl]. eapply Forall_impl; [exact Hl|]. intros x (score & p & Hs & Hp & Ex). unfold is_number. rewrite Ex, f_sub_number; [done| |].
  - by eapply score_number.
  - by eapply penalty_finite, charged_elem.
Qed.

(** ** Fallbacks *)

Definition candidate_target (x : scored) : target := (mc_provider (snd x), mc_model (snd x)).

(** A candidate as it is reported, with its penalty read again. *)
Definition reported (m m' : mm) (item : pydict) (x : scored) : Prop :=
  exists penalty, charged_between m m' (mc_provider (snd x)) penalty /\ item = scored_dict (fst x) penalty (snd x).

Lemma reported_later m m1 m2 m3 item x : aged m m1 -> aged m2 m3 -> reported m1 m2 item x -> reported m m3 item x.
Proof. intros Ha Hb (p & Hp & ->). exists p. split; [by eapply charged_later|done]. Qed.

(** At most [left] of the list, as dictionaries, with targets that differ from
    each other and from those seen. *)
Definition picks (m m' : mm) (left : nat) (seen : list string) (l : list scored) (items : list pydict) (picked : list scored) : Prop :=
  Forall2 (reported m m') items picked
  /\ (length picked <= left)%nat /\ picked ⊆ l /\ NoDup (map (fun x => target_key (candidate_target x)) picked)
  /\ Forall (fun x => target_key (candidate_target x) ∉ seen) picked.

Section clocked.
Hypothesis Hclock : forall i j, (i <= j)%nat -> monotonic i <= monotonic j.

Lemma scores_end k candidates m : ends (score_all cfg monotonic k candidates) m (fun l m' => scores_of m m' k candidates l).
Proof using Hclock.
  revert m. induction candidates as [|c cs IH]; intros m; cbn [score_all]; [by apply ends_done|]. unfold scores_of. cbn [List.filter].
  assert (admissible c k = bool_decide (is_Some (score_candidate c k))) as -> by (unfold score_candidate; destruct (admissible c k); done).
  destruct (score_candidate c k) as [score|] eqn:E; [|apply IH]. rewrite bool_decide_eq_true_2 by done.
  eapply ends_bind; [by apply penalty_ends|]. intros p m1 Ha Hp. destruct (IH m1) as (l & m2 & El & Hb & Hl).
  exists ((f_sub score p, c) :: l), m2. rewrite run_bind. unfold bind. rewrite El. split; [done|]. split; [done|].
  destruct (scores_later _ _ _ _ _ _ Ha Hl m2 (aged_refl m2)) as [H1 H2]. cbn. rewrite H1. split; [done|]. constructor; [|done].
  exists score, p. split; [done|]. split; [|done]. by eapply charged_later; [apply aged_refl|exact Hb|].
Qed.

Lemma fallbacks_end left seen l m :
  ends (fallback_items cfg monotonic left seen l) m (fun items m' => exists picked, picks m m' left seen l items picked).
Proof using Hclock.
  clear uniform. assert (forall left seen l m, ends (Done []) m (fun items m' => exists picked, picks m m' left seen l items picked)) as Hnil.
  { intros lf sn l' m'. apply ends_done. exists []. unfold picks. cbn. split_and!; try constructor; [lia|set_solver]. }
  revert left seen m. induction l as [|[score c] l IH]; intros left seen m; destruct left as [|left]; cbn [fallback_items]; try (apply Hnil).
  destruct (str_in _ seen) eqn:Es.
  - destruct (IH (S left) seen m) as (items & s' & E & Ha & picked & H1 & H2 & H3 & H4). exists items, s'. split; [done|]. split; [done|].
    exists picked. split_and!; try done; [set_solver|apply H4..].
  - eapply ends_bind; [by apply penalty_ends|]. intros p m1 Ha Hp.
    destruct (IH left (target_key (mc_provider c, mc_model c) :: seen) m1) as (items & m2 & Ei & Hb & picked & H1 & H2 & H3 & H4 & H5).
    exists (scored_dict score p c :: items), m2. rewrite run_bind. unfold bind. rewrite Ei. split; [done|]. split; [done|].
    exists ((score, c) :: picked). split_and!.
    + constructor; [exists p; split; [by eapply charged_later; [apply aged_refl|exact Hb|]|done]|].
      eapply Forall2_impl; [exact H1|]. intros; by eapply reported_later; [exact Ha|apply aged_refl|].
    + cbn. lia.
    + set_solver.
    + cbn. constructor; [|done]. rewrite list_elem_of_fmap. intros (x & Ex & Hx). rewrite Forall_forall in H5.
      apply (H5 x Hx). rewrite <- Ex. by left.
    + constructor; [by apply str_in_false|]. eapply Forall_impl; [exact H5|]. cbn. intros x Hx Hin. apply Hx. by right.
Qed.

(** C15. A route is the best there is: with no target asked for, choosing a
    route scores exactly the candidates that satisfy the constraints, each less
    the penalty its provider has at a reading of the clock during the call (in
    steps of the share of the cloud limits its windows hold by then, none for a
    local provider); it selects one of them such that none ranks above it by
    score, then being active, then being installed; the fallbacks are at most
    six of the others, all of them different targets, and the penalties it
    reports are those of their providers; and it raises exactly when no
    candidate satisfies the constraints. *)
Theorem route_is_best mode stream tools local_pref lo hi suggested limit m :
  let k := Constraints (normalize_route_mode (Some mode)) stream tools local_pref lo hi in
  let '(r, m') := run (choose_route cfg monotonic uniform mode None None stream tools local_pref lo hi suggested limit) m in
  exists candidates m1 l, run (build_model_candidates cfg monotonic uniform suggested limit) m = (Ok candidates, m1)
    /\ scores_of m1 m' k candidates l
    /\ match r with
       | Err e => List.filter (fun c => admissible c k) candidates = [] /\ e = ValueError "No model candidates satisfy routing constraints."
       | Ok route => exists best selected items picked,
           best ∈ l /\ Forall (fun x => key_lt best x = false) l
           /\ get "selected" route = PDict selected /\ reported m1 m' selected best
           /\ get "fallbacks" route = PList (map PDict items) /\ Forall2 (reported m1 m') items picked
           /\ (length picked <= 6)%nat /\ picked ⊆ l
           /\ NoDup (map (fun x => target_key (candidate_target x)) (best :: picked))
       end.
Proof using Hclock.
  intros k. unfold choose_route. cbn [opt_str default is_empty negb orb]. rewrite run_bind. unfold bind at 1.
  assert (returns (build_model_candidates cfg monotonic uniform suggested limit) (fun _ => True)) as Hc.
  { eapply (returns_bind _ _ (fun _ => True)); [apply returns_atomic; intros s; by eexists _, _|intros; apply candidates_return]. }
  destruct (Hc m) as (candidates & m1 & Ec & _). rewrite Ec. rewrite run_bind. unfold bind at 1.
  destruct (scores_end k candidates m1) as (l & m2 & El & Ha2 & Hl). fold k. rewrite El.
  destruct (sort_by (fun a b => negb (key_lt a b)) l) as [|best others] eqn:Es.
  - exists candidates, m1, l. split; [done|]. split; [done|]. cbn [run]. split; [|done]. destruct Hl as [<- _].
    assert (l = []) as -> by (apply Permutation_nil; by rewrite <- (sort_by_perm (fun a b => negb (key_lt a b)) l), Es). done.
  - pose proof (sorted_best key_lt is_number key_lt_asym key_lt_trans best l others (scores_numbers _ _ _ _ _ Hl) Es) as Hbest.
    assert (l ≡ₚ best :: others) as Hp by (by rewrite <- Es, sort_by_perm). destruct best as [score c].
    rewrite run_bind. unfold bind at 1. destruct (penalty_ends Hclock (mc_provider c) m2) as (pen & m3 & Ep & Ha3 & Hpen). rewrite Ep.
    rewrite run_bind. unfold bind.
    destruct (fallbacks_end 6 [target_key (mc_provider c, mc_model c)] others m3) as (items & m4 & Ei & Ha4 & picked & H1 & H2 & H3 & H4 & H5).
    rewrite Ei. cbn [run]. exists candidates, m1, l. split; [done|].
    split; [exact (scores_later _ _ _ _ _ _ (aged_refl m1) Hl m4 (aged_trans _ _ _ Ha3 Ha4))|].
    exists (score, c), (scored_dict score pen c), items, picked. split_and!; try done.
    + rewrite Hp. by left.
    + exists pen. split; [by eapply charged_later; [exact Ha2|exact Ha4|]|done].
    + eapply Forall2_impl; [exact H1|]. intros. eapply reported_later; [exact (aged_trans _ _ _ Ha2 Ha3)|apply aged_refl|done].
    + intros x Hx. rewrite Hp. right. by apply H3.
    + cbn. constructor; [|done]. rewrite list_elem_of_fmap. intros (x & Ex & Hx). rewrite Forall_forall in H5. apply (H5 x Hx). rewrite <- Ex. by left.
Qed.
End clocked.
End manager.
End ModelRouteFacts.
