(* ===== verification/ModelRaces.v ===== *)
(** The model manager on concrete providers: executions that show the
    hypotheses of its theorems. *)

From stdpp Require Import prelude strings list.
From Stdlib Require Import Lia ZArith Ascii.
From S2P Require Import Prelude PyStr PyVal PyFloat PyFloatOps Effects PyTime Threads RunPolicy RunRaces ModelRouting ProviderGuards ModelManager ProviderGuardFacts ModelFailoverFacts ModelRouteFacts.
Import ModelRouting ProviderGuards ModelManager RunRaces ProviderGuardFacts ModelFailoverFacts ModelRouteFacts.

Module ModelRaces.

(** Local providers answer; so do the cloud providers, or they are down. *)
Definition offered : string -> Z -> res pyval := fun _ _ => Ok (PList []).
Definition listing (n : nat) (p : string) : res (list pydict) := Ok [[("id", PStr (p +:+ "-7b"))]].
Definition capabilities (p : string) : res pyval := Ok (PDict [("local", PBool (negb (is_cloud_provider p)))]).
Definition all_up : ModelProviders := {|
  mp_chat _ _ _ _ _ _ := Ok "hi"; mp_stream _ _ _ _ _ _ := Ok [Ok "hi"];
  mp_list_models := listing; mp_capabilities := capabilities; mp_suggested := offered; mp_suggests _ := true |}.
Definition down : exn := RuntimeError "503 Service Unavailable".
Definition cloud_down : ModelProviders := {|
  mp_chat _ p _ _ _ _ := if is_cloud_provider p then Err down else Ok "hi";
  mp_stream _ p _ _ _ _ := Ok [if is_cloud_provider p then Err down else Ok "hi"];
  mp_list_models := listing; mp_capabilities := capabilities; mp_suggested := offered; mp_suggests _ := true |}.
(** Streams that break before their first chunk. *)
Definition broken_streams : ModelProviders := {|
  mp_chat _ _ _ _ _ _ := Ok "hi"; mp_stream _ _ _ _ _ _ := Ok [Err down];
  mp_list_models := listing; mp_capabilities := capabilities; mp_suggested := offered; mp_suggests _ := true |}.

(** Two requests a minute, three failures. *)
Definition demo : config :=
  Config ["mlx"; "ollama"; "openai"] "mlx" "mlx-community/Qwen2.5-1.5B-Instruct-4bit" true 2 250000000 0 3 20000000000 60000000000 2
    60000000000 100000.
Definition seconds (n : nat) : Z := Z.of_nat n * ns_per_sec.
Definition wall (n : nat) : Z := 1767225600000000 + Z.of_nat n.
Definition steady (n : nat) (jitter : Z) : Z := 0.
Definition hello : list pydict := [[("role", PStr "user"); ("content", PStr "hello")]].

Lemma seconds_le i j : (i <= j)%nat -> seconds i <= seconds j.
Proof. unfold seconds. pose proof (eq_refl : ns_per_sec = 1000000000). lia. Qed.

Abbreviation ask_openai providers resolver user :=
  (@chat demo seconds wall steady resolver providers hello (FFinite 1 0) 100 (Some user) (Some "gpt-4o") (Some "openai") None (Some []) None).

Definition start : mm := started ("openai", "gpt-4o") [] 0.

(** ** Refusals count as failures *)

(** Alice is entitled to the cloud provider; nobody else is. *)
Definition only_alice (n : nat) (user provider : string) : res pyval :=
  Ok (PDict (if String.eqb user "alice" then [("available", PBool true)]
             else [("available", PBool false);
                   ("error_contract", PDict [("error_code", PStr "provider_access_not_configured")])])).

Definition outcome {A} (r : res (chat_answer A)) : string :=
  match r with Ok _ => "answered" | Err (ProviderOperationError info) => ei_error_class info | Err _ => "other" end.

(** Whole requests: alice is answered; after mallory was refused three times
    the circuit of the healthy provider is open and alice is refused. *)
Example refusals_shut_openai :
  let after n := Nat.iter n (fun m => (run (ask_openai all_up (Some only_alice) "mallory") m).2) start in
  let answer user m := outcome (run (ask_openai all_up (Some only_alice) user) m).1 in
  answer "alice" (after 0%nat) = "answered" /\ answer "mallory" (after 0%nat) = "entitlement"
  /\ failure_count (state_of "openai" (after 3%nat)) = 3 /\ answer "alice" (after 3%nat) = "circuit_open".
Proof. split_and!; vm_compute; reflexivity. Qed.

(** ** Witnesses *)

(** Three requests interleaved: each is let start before any is let through. *)
Definition crowd (providers : ModelProviders) : list (nat * thread mm unit) :=
  repeat (0%nat, dismiss (ask_openai providers None "alice")) 3.
Definition crowded (providers : ModelProviders) (ix : list nat) : list (nat * thread mm unit) * mm :=
  drive (fun (_ s : mm) (_ : nat) => m_mono s) ix (crowd providers, start).

Lemma crowd_reached providers ix :
  rtc (@requests demo seconds wall steady None providers) ([], start) ((crowded providers ix).1, (crowded providers ix).2).
Proof.
  rewrite <- surjective_pairing. etrans; [|apply drive_sched]. apply (starts_sched _ _ []).
  repeat constructor.
Qed.

(** Two of the three are let through. *)
Definition two_then_one : list nat := times 8 0 ++ times 8 1 ++ times 40 0 ++ times 40 1 ++ times 40 2.
Lemma cloud_windows_hold_witness :
  let m := (crowded all_up two_then_one).2 in
  length (admitted_of "openai" m) = 2%nat
  /\ Z.of_nat (length (List.filter (fun e => time_of seconds m - rate_window demo <=? fst e) (admitted_of "openai" m))) <= rate_limit demo.
Proof.
  split; [vm_compute; reflexivity|].
  exact (proj1 (@cloud_windows_hold demo seconds seconds_le wall steady None all_up ("openai", "gpt-4o") [] 0 _ (crowded all_up two_then_one).2
    "openai" (crowd_reached all_up two_then_one))).
Defined.

(** A provider that is down, its circuit set. *)
Lemma circuits_lawful_witness :
  let st := state_of "openai" (crowded cloud_down two_then_one).2 in
  circuit_until_monotonic st = Some 29000000000
  /\ match circuit_until_monotonic st with
     | Some until => threshold demo <= failure_count st /\ until <= time_of seconds (crowded cloud_down two_then_one).2 + cooldown demo
     | None => failure_count st < threshold demo
     end.
Proof.
  split; [vm_compute; reflexivity|].
  exact (@circuits_lawful demo seconds seconds_le wall steady None cloud_down ("openai", "gpt-4o") [] 0 _ (crowded cloud_down two_then_one).2
    "openai" (crowd_reached cloud_down two_then_one)).
Defined.

(** The default target with the cloud provider down: a local one answers. *)
Abbreviation fail_over := (@chat demo seconds wall steady None cloud_down hello (FFinite 1 0) 100 (Some "alice") None None None None (Some "s")).
Abbreviation its_targets := (@resolve_runtime_targets demo seconds steady cloud_down None None None None (Some "s") false).

Lemma chat_tries_every_target_witness :
  exists primary targets payload m1 ordered, run its_targets start = (Ok (primary, targets, payload), m1)
    /\ ordered ≡ₚ eligible demo primary [] targets /\ primary = ("openai", "gpt-4o") /\ length ordered = 2%nat.
Proof.
  destruct (@chat_tries_every_target demo seconds wall steady None cloud_down hello (FFinite 1 0) 100 (Some "alice") None None None None (Some "s")
    start (run fail_over start).1 (run fail_over start).2 (surjective_pairing _)) as [(e & E & _)|(primary & targets & payload & m1 & ordered & fails & E & Hp & _)].
  { vm_compute in E. discriminate E. }
  exists primary, targets, payload, m1, ordered. split; [exact E|]. split; [exact Hp|]. apply Permutation_length in Hp. rewrite Hp. clear Hp.
  vm_compute in E. injection E as <- <- <- <-. split; reflexivity.
Defined.

Lemma healthy_local_provider_answers_witness : exists a m', run fail_over start = (Ok a, m').
Proof.
  eapply (@healthy_local_provider_answers demo seconds wall steady None cloud_down hello (FFinite 1 0) 100 (Some "alice") "mlx" eq_refl
    (fun _ _ => eq_refl) None None None None (Some "s") start ("openai", "gpt-4o")
    [("mlx", "mlx-community/Qwen2.5-1.5B-Instruct-4bit"); ("ollama", "llama3.2")] _ _ "mlx-community/Qwen2.5-1.5B-Instruct-4bit").
  - vm_compute. reflexivity.
  - vm_compute. reflexivity.
  - apply list_elem_of_In. right. left. reflexivity.
Defined.

(** Mallory, whom the resolver denies the provider. *)
Lemma mallory_denied : denied "openai" only_alice "mallory".
Proof. split; [vm_compute; discriminate|]. intros n. eexists. split; vm_compute; reflexivity. Qed.

Lemma denied_user_opens_circuit_witness :
  let refused m := (run (@provider_chat demo seconds steady (Some only_alice) all_up hello (FFinite 1 0) 100 (Some "mallory")
                          ("openai", "gpt-4o")) m).2 in
  exists n k, (n <= 3)%nat /\ (k < m_mono (Nat.iter n refused start))%nat
    /\ 3 <= failure_count (state_of "openai" (Nat.iter n refused start)) /\ m_admitted (Nat.iter n refused start) = []
    /\ circuit_until_monotonic (state_of "openai" (Nat.iter n refused start)) = Some (seconds k + 20000000000)
    /\ forall m' anyone messages' temperature' max_tokens' model',
         state_of "openai" m' = state_of "openai" (Nat.iter n refused start) -> seconds (m_mono m') < seconds k + 20000000000 ->
         exists remaining, (run (@provider_chat demo seconds steady (Some only_alice) all_up messages' temperature' max_tokens' anyone
             ("openai", model')) m').1 = Err (circuit_open_error "openai" "chat" remaining).
Proof.
  exact (@denied_user_opens_circuit demo seconds steady (Some only_alice) all_up "openai" eq_refl only_alice eq_refl "mallory" hello
    (FFinite 1 0) 100 "gpt-4o" start mallory_denied eq_refl (conj (Z.le_refl 0) eq_refl)).
Defined.

(** Two failures of a provider are forgotten by a stream that fails. *)
Lemma failing_stream_counts_as_success_witness :
  let m := put_state "ollama" (PState 2 None 0) start in
  let '(r, m') := run (@primed_stream demo seconds steady None broken_streams hello (FFinite 1 0) 100 None ("ollama", "llama3.2")) m in
  state_of "ollama" m' = PState 0 None 0 /\ r = Err down.
Proof.
  exact (@failing_stream_counts_as_success demo seconds steady None broken_streams hello (FFinite 1 0) 100 None "ollama" eq_refl "llama3.2"
    (put_state "ollama" (PState 2 None 0) start) [Err down] eq_refl (Z.le_refl 0) eq_refl).
Defined.

(** A route among the models of the three providers. *)
Abbreviation a_route := (run (@choose_route demo seconds steady all_up "balanced" None None false false PNone None None false 120) start).

Lemma route_is_best_witness :
  is_ok a_route.1 = true
  /\ exists candidates m1 l, run (@build_model_candidates demo seconds steady all_up false 120) start = (Ok candidates, m1)
    /\ scores_of demo seconds m1 a_route.2 (Constraints "balanced" false false PNone None None) candidates l
    /\ forall route, a_route.1 = Ok route ->
       exists best selected, best ∈ l /\ Forall (fun x => key_lt best x = false) l
         /\ get "selected" route = PDict selected /\ reported demo seconds m1 a_route.2 selected best.
Proof.
  split; [vm_compute; reflexivity|].
  pose proof (@route_is_best demo seconds steady all_up seconds_le "balanced" false false PNone None None false 120 start) as H.
  cbv zeta in H. destruct a_route as [r m']. destruct H as (candidates & m1 & l & E & Hl & Hr).
  exists candidates, m1, l. split; [exact E|]. split; [exact Hl|]. cbn [fst]. intros route ->.
  destruct Hr as (best & selected & items & picked & H1 & H2 & H3 & H4 & _). exists best, selected. split_and!; [exact H1|exact H2|exact H3|exact H4].
Defined.
End ModelRaces.
