(* ===== verification/ProviderSessions.v ===== *)
(** Sessions that give a user access to a provider
    (runtime/provider_sessions.py and the table provider_sessions of
    storage/database.py).

    Columns that hold JSON are held as the value.  Each method of the database
    runs under its lock. *)

From stdpp Require Import prelude strings list.
From Stdlib Require Import Lia ZArith Ascii.
From S2P Require Import Prelude PyStr PyVal Effects PyTime PluginPolicy.

Module ProviderSessions.

(** A row of provider_sessions *)
Record session_row : Type := SessionRow {
  se_id : string;
  se_user_id : string;
  se_provider : string;
  se_display_name : option string;
  se_session_type : string;
  se_credential_ref : string;
  se_credential_fingerprint : option string;
  se_scopes : list string;
  se_status : string;
  se_metadata : pydict;
  se_expires_at : option string;
  se_revoked_at : option string;
  se_revoked_reason : option string;
  se_last_used_at : option string;
  se_created_at : string;
  se_updated_at : string }.

(** The table, the settings, and how often the clock and the source of UUIDs
    were read. *)
Record auth_db : Type := AuthDb {
  db_sessions : dict session_row;
  db_settings : dict string;
  db_clock : nat;
  db_uuids : nat }.

Definition set_sessions (x : dict session_row) (s : auth_db) : auth_db := AuthDb x (db_settings s) (db_clock s) (db_uuids s).

Definition SUPPORTED_PROVIDER_SESSION_PROVIDERS : list string := ["openai"; "anthropic"; "openrouter"; "reddit"; "x"].

(** [str(value).strip() if value not in (None, "") else None] *)
Definition strip_opt (v : option string) : option string := match v with None | Some "" => None | Some s => Some (strip s) end.
(** [str(value) if value not in (None, "") else None] *)
Definition text_or_none (v : option string) : pyval := match v with None | Some "" => PNone | Some s => PStr s end.

Definition first_chars (n : nat) (s : string) : string := String.substring 0 n s.
Definition last_chars (n : nat) (s : string) : string := String.substring (String.length s - n) n s.

Definition credential_ref_hint (credential_ref : string) : pyval :=
  if is_empty credential_ref then PNone
  else if str_len credential_ref <=? 8 then PStr "***"
  else PStr (first_chars 6 credential_ref +:+ "..." +:+ last_chars 4 credential_ref).

(** [{str(scope or "").strip().lower() ... if ...}], sorted *)
Definition normalize_scopes (scopes : list string) : list string :=
  sorted_set (map (fun s => lower (strip s)) (List.filter (fun s => negb (is_empty (strip s))) scopes)).

(** [_decode_provider_session_row]: the credential itself is left out *)
Definition decode_provider_session_row (r : session_row) : pydict :=
  [("id", PStr (se_id r)); ("user_id", PStr (se_user_id r)); ("provider", PStr (lower (strip (se_provider r))));
   ("display_name", text_or_none (se_display_name r));
   ("session_type", PStr (norm_lower_or "reference" (PStr (se_session_type r))));
   ("credential_fingerprint", text_or_none (se_credential_fingerprint r));
   ("status", PStr (norm_lower_or "active" (PStr (se_status r))));
   ("expires_at", text_or_none (se_expires_at r)); ("revoked_at", text_or_none (se_revoked_at r));
   ("revoked_reason", text_or_none (se_revoked_reason r)); ("last_used_at", text_or_none (se_last_used_at r));
   ("created_at", text_or_none (Some (se_created_at r))); ("updated_at", text_or_none (Some (se_updated_at r)));
   ("scopes", PList (map (fun s => PStr (lower (strip s))) (List.filter (fun s => negb (is_empty (strip s))) (se_scopes r))));
   ("metadata", PDict (se_metadata r)); ("credential_ref_hint", credential_ref_hint (strip (se_credential_ref r)))].

Section database.
Context (clock : nat -> Z) (uuid : nat -> string) (sha256 : string -> string).

Definition utc_now : M auth_db string := fun s =>
  (Ok (isoformat (clock (db_clock s))), AuthDb (db_sessions s) (db_settings s) (S (db_clock s)) (db_uuids s)).
Definition uuid4 : M auth_db string := fun s =>
  (Ok (uuid (db_uuids s)), AuthDb (db_sessions s) (db_settings s) (db_clock s) (S (db_uuids s))).

(** ** The table *)

(** [str(value or self._utc_now())] *)
Definition or_now (value : string) : M auth_db string := if is_empty value then utc_now else ret value.

Definition create_provider_session (session_id user_id provider credential_ref : string) (credential_fingerprint : option string)
    (scopes : list string) (display_name : option string) (created_at updated_at : string) (expires_at : option string)
    (metadata : pydict) : M auth_db unit :=
  let* created := or_now created_at in
  let* updated := or_now updated_at in
  let* taken := gets (fun s => d_mem (strip session_id) (db_sessions s)) in
  raise_if taken (OtherError "IntegrityError" "UNIQUE constraint failed: provider_sessions.id") ;;;
  modify (fun s => set_sessions (d_set (strip session_id)
    (SessionRow (strip session_id) (strip user_id) (lower (strip provider)) (strip_opt display_name) "reference" (strip credential_ref)
       (strip_opt credential_fingerprint) (normalize_scopes scopes) "active" metadata (strip_opt expires_at) None None None created updated)
    (db_sessions s)) s).

Definition get_provider_session (session_id : string) : M auth_db (option pydict) :=
  if is_empty (strip session_id) then ret None
  else gets (fun s => decode_provider_session_row <$> d_get (strip session_id) (db_sessions s)).

Definition is_revoked (r : session_row) : bool := String.eqb (se_status r) "revoked".

(** The rows of a query, the latest first *)
Definition matching_sessions (user_id provider : option string) (include_revoked : bool) (s : auth_db) : list session_row :=
  sort_by (fun a b => String.leb (se_updated_at b) (se_updated_at a))
    (List.filter (fun r =>
       (is_empty (opt_str user_id) || String.eqb (se_user_id r) (strip (opt_str user_id)))
       && (is_empty (opt_str provider) || String.eqb (se_provider r) (lower (strip (opt_str provider))))
       && (include_revoked || negb (is_revoked r)))
     (d_values (db_sessions s))).

Definition list_provider_sessions (user_id provider : option string) (include_revoked : bool) (limit : Z) : M auth_db (list pydict) :=
  if limit <=? 0 then ret []
  else gets (fun s => map decode_provider_session_row
                        (take (Z.to_nat (Z.max 1 limit)) (matching_sessions user_id provider include_revoked s))).

Definition revoked_row (now : string) (reason : option string) (r : session_row) : session_row :=
  SessionRow (se_id r) (se_user_id r) (se_provider r) (se_display_name r) (se_session_type r) (se_credential_ref r)
    (se_credential_fingerprint r) (se_scopes r) "revoked" (se_metadata r) (se_expires_at r)
    (match se_revoked_at r with None => Some now | t => t end)
    (match reason with None => se_revoked_reason r | Some t => Some t end) (se_last_used_at r) (se_created_at r) now.

Definition revoke_provider_session (session_id : string) (revoked_reason : option string) : M auth_db bool :=
  if is_empty (strip session_id) then ret false
  else
    let* now := utc_now in
    let* found := gets (fun s => d_get (strip session_id) (db_sessions s)) in
    match found with
    | Some r =>
        if is_revoked r then ret false
        else
          modify (fun s => set_sessions (d_set (strip session_id) (revoked_row now (strip_opt revoked_reason) r) (db_sessions s)) s) ;;;
          ret true
    | None => ret false
    end.

Definition touched_row (now : string) (r : session_row) : session_row :=
  SessionRow (se_id r) (se_user_id r) (se_provider r) (se_display_name r) (se_session_type r) (se_credential_ref r)
    (se_credential_fingerprint r) (se_scopes r) (se_status r) (se_metadata r) (se_expires_at r) (se_revoked_at r)
    (se_revoked_reason r) (Some now) (se_created_at r) now.

Definition touch_provider_session (session_id : string) : M auth_db bool :=
  if is_empty (strip session_id) then ret false
  else
    let* now := utc_now in
    let* found := gets (fun s => d_get (strip session_id) (db_sessions s)) in
    match found with
    | Some r =>
        modify (fun s => set_sessions (d_set (strip session_id) (touched_row now r) (db_sessions s)) s) ;;;
        ret true
    | None => ret false
    end.

Definition get_setting (key default_value : string) : M auth_db string := gets (fun s => default default_value (d_get key (db_settings s))).

(** ** [ProviderSessionManager] *)

Definition ValidationError (msg : string) : exn := OtherError "ValidationError" msg.
Definition NotFoundError (msg : string) : exn := OtherError "NotFoundError" msg.
Definition PermissionDeniedError (msg : string) : exn := OtherError "PermissionDeniedError" msg.

Definition normalize_provider (provider : string) : res string :=
  let normalized := lower (strip provider) in
  if str_in normalized SUPPORTED_PROVIDER_SESSION_PROVIDERS then Ok normalized
  else Err (ValidationError ("Unsupported provider. Allowed: " +:+ join ", " SUPPORTED_PROVIDER_SESSION_PROVIDERS)).

Definition credential_fingerprint_of (provider credential_ref : string) : string :=
  first_chars 24 (sha256 (provider +:+ ":" +:+ credential_ref)).

Definition create_session (user_id provider credential_ref : string) (scopes : option (list string))
    (display_name expires_at : option string) (metadata : option pydict) : M auth_db pydict :=
  let normalized_user := strip user_id in
  raise_if (is_empty normalized_user) (ValidationError "user_id is required") ;;;
  let* normalized_provider := lift (normalize_provider provider) in
  let normalized_ref := strip credential_ref in
  raise_if (is_empty normalized_ref) (ValidationError "credential_ref is required") ;;;
  let normalized_scopes := normalize_scopes (default [] scopes) in
  let* session_id := uuid4 in
  let fingerprint := credential_fingerprint_of normalized_provider normalized_ref in
  let* now := utc_now in
  create_provider_session session_id normalized_user normalized_provider normalized_ref (Some fingerprint) normalized_scopes
    (strip_opt display_name) now now (strip_opt expires_at) (default [] metadata) ;;;
  let* created := get_provider_session session_id in
  match created with
  | Some row => ret row
  | None => raise (NotFoundError ("Provider session not found after create: " +:+ session_id))
  end.

Definition list_sessions (user_id : string) (provider : option string) (include_revoked : bool) (limit : Z) : M auth_db (list pydict) :=
  let normalized_user := strip user_id in
  raise_if (is_empty normalized_user) (ValidationError "user_id is required") ;;;
  let* normalized_provider :=
    (if is_empty (opt_str provider) then ret None else let* p := lift (normalize_provider (opt_str provider)) in ret (Some p)) in
  list_provider_sessions (Some normalized_user) normalized_provider include_revoked (Z.max 1 (Z.min limit 500)).

Definition get_session (session_id : string) : M auth_db pydict :=
  let normalized_id := strip session_id in
  raise_if (is_empty normalized_id) (ValidationError "session_id is required") ;;;
  let* item := get_provider_session normalized_id in
  match item with
  | Some row => ret row
  | None => raise (NotFoundError ("Provider session not found: " +:+ normalized_id))
  end.

Definition revoke_session (session_id actor_user_id : string) (is_admin : bool) (reason : option string) : M auth_db pydict :=
  let normalized_id := strip session_id in
  raise_if (is_empty normalized_id) (ValidationError "session_id is required") ;;;
  let normalized_actor := strip actor_user_id in
  raise_if (is_empty normalized_actor) (ValidationError "actor_user_id is required") ;;;
  let* item := get_provider_session normalized_id in
  match item with
  | None => raise (NotFoundError ("Provider session not found: " +:+ normalized_id))
  | Some row =>
      let owner_user_id := norm (get "user_id" row) in
      raise_if (negb is_admin && negb (String.eqb owner_user_id normalized_actor))
        (PermissionDeniedError "Cross-user provider session revoke is not allowed") ;;;
      revoke_provider_session normalized_id (strip_opt reason) ;;;
      let* updated := get_provider_session normalized_id in
      match updated with
      | Some row' => ret row'
      | None => raise (NotFoundError ("Provider session not found after revoke: " +:+ normalized_id))
      end
  end.

End database.
End ProviderSessions.
