(* ===== verification/Entitlements.v ===== *)
(** Who may use which provider (runtime/entitlements.py): the route policy, the
    entitlement of a user for a provider and its diagnostics, over the sessions
    of [ProviderSessions] and the keys of the server. *)

From stdpp Require Import prelude strings list.
From Stdlib Require Import Lia ZArith Ascii.
From S2P Require Import Prelude PyStr PyVal Effects PyTime PluginPolicy ProviderSessions.
Import ProviderSessions.

Module Entitlements.

Definition ENTITLEMENT_ROUTE_POLICY_VERSION : string := "provider_route_policy_v1".
Definition ENTITLEMENT_ERROR_CONTRACT_VERSION : string := "provider_entitlement_error_v1".
Definition ENTITLEMENT_DIAGNOSTICS_VERSION : string := "provider_entitlement_diagnostics_v1".
Definition SERVER_KEY_ROUTE_PROVIDERS : list string := ["openai"; "anthropic"; "openrouter"].

Definition texts (l : list string) : pyval := PList (map PStr l).

(** ** The route *)

Definition preferred_order (provider : string) : list string :=
  "user_session" :: (if str_in provider SERVER_KEY_ROUTE_PROVIDERS then ["server_api_key"] else []).

(** [bool(route_table.get(route, {}).get("available"))] *)
Definition route_available (has_user_session has_server_key : bool) (route : string) : bool :=
  if String.eqb route "user_session" then has_user_session
  else if String.eqb route "server_api_key" then has_server_key
  else false.

(** [_build_route_policy] *)
Definition build_route_policy (provider : string) (session_count : Z) (server_key_available : bool) : pydict :=
  let normalized_provider := lower (strip provider) in
  let supports_server_key := str_in normalized_provider SERVER_KEY_ROUTE_PROVIDERS in
  let has_user_session := 0 <? session_count in
  let has_server_key := server_key_available && supports_server_key in
  let order := preferred_order normalized_provider in
  let available_routes := List.filter (route_available has_user_session has_server_key) order in
  let selected_route := match available_routes with r :: _ => r | [] => "none" end in
  let decision_reason :=
    if String.eqb selected_route "user_session" then
      if has_server_key then "user_session_preferred_over_server_key" else "user_session_only"
    else if String.eqb selected_route "server_api_key" then "server_api_key_selected"
    else "provider_access_missing" in
  [("version", PStr ENTITLEMENT_ROUTE_POLICY_VERSION); ("provider", PStr normalized_provider); ("preferred_order", texts order);
   ("available_routes", texts available_routes); ("selected_route", PStr selected_route); ("fallback_routes", texts (tail available_routes));
   ("decision_reason", PStr decision_reason);
   ("routes", PDict [("user_session", PDict [("configured", PBool has_user_session); ("available", PBool has_user_session)]);
                     ("server_api_key", PDict [("configured", PBool has_server_key); ("available", PBool has_server_key);
                                               ("supported", PBool supports_server_key)])])].

(** [str(route_policy.get("selected_route") or "none").strip().lower() or "none"] *)
Definition route_of (route_policy : pydict) : string := norm_lower_or "none" (get "selected_route" route_policy).

(** [list(v or [])] on the lists that occur here *)
Definition listed (v : pyval) : pyval := PList (as_list v).

Definition action (id title description endpoint method : string) : pyval :=
  PDict [("id", PStr id); ("title", PStr title); ("description", PStr description); ("endpoint", PStr endpoint); ("method", PStr method)].

Definition setup_actions : list pyval :=
  [action "create_provider_session" "Create provider session" "Connect per-user provider access via credential_ref."
     "/auth/providers/sessions" "POST";
   action "configure_server_key" "Configure server API key"
     "Set provider API key on server runtime if shared cloud route is required." "/auth/providers/entitlements" "GET"].

(** [_build_entitlement_error_contract] *)
Definition build_entitlement_error_contract (provider : string) (route_policy : pydict) : pydict :=
  let available_routes := listed (get "available_routes" route_policy) in
  if negb (String.eqb (route_of route_policy) "none") then
    [("version", PStr ENTITLEMENT_ERROR_CONTRACT_VERSION); ("status", PStr "ok"); ("error_type", PNone); ("error_code", PNone);
     ("http_status", PNone); ("message", PNone); ("provider", PStr (lower (strip provider))); ("available_routes", available_routes);
     ("next_actions", PList [])]
  else
    [("version", PStr ENTITLEMENT_ERROR_CONTRACT_VERSION); ("status", PStr "error"); ("error_type", PStr "entitlement_setup_required");
     ("error_code", PStr "provider_access_not_configured"); ("http_status", PInt 403);
     ("message", PStr "Provider access is not configured. Create a provider session or configure a server API key.");
     ("provider", PStr (lower (strip provider))); ("available_routes", available_routes); ("next_actions", PList setup_actions)].

(** [_build_failure_signatures] *)
Definition build_failure_signatures (provider : string) : list pyval :=
  let normalized_provider := lower (strip provider) in
  [PDict [("id", PStr "provider_access_not_configured"); ("error_class", PStr "entitlement"); ("provider", PStr normalized_provider);
          ("http_status", PInt 403);
          ("matchers", texts ["Provider entitlement denied"; "error_code=provider_access_not_configured"; "selected_route=none"]);
          ("hint", PStr "Create provider session or configure server API key.")];
   PDict [("id", PStr "provider_chat_disabled"); ("error_class", PStr "entitlement"); ("provider", PStr normalized_provider);
          ("http_status", PInt 403); ("matchers", texts ["Provider entitlement denied"; "error_code=provider_chat_disabled"]);
          ("hint", PStr "Enable chat feature for selected provider entitlement path.")]].

(** [_build_onboarding_feedback] *)
Definition build_onboarding_feedback (provider : string) (available : bool) (access_mode : string) (session_count : Z)
    (server_key_available : bool) (route_policy error_contract : pydict) : pydict :=
  let reason_codes :=
    if available then
      [if String.eqb access_mode "user_session" then "user_session_active"
       else if String.eqb access_mode "server_api_key" then "server_api_key_available"
       else "provider_access_available"]
    else "missing_provider_access"
         :: (if is_empty (norm (get "error_code" error_contract)) then [] else [norm (get "error_code" error_contract)]) in
  let next_actions :=
    if negb available then
      List.filter is_dict (as_list (get "next_actions" error_contract))
      ++ [action "verify_entitlements" "Verify entitlement" "Re-check provider entitlement after session/key setup."
            "/auth/providers/entitlements" "GET"]
    else if 0 <? session_count then
      [action "session_hygiene" "Maintain session hygiene" "Revoke stale sessions and rotate credential_ref when needed."
         "/auth/providers/sessions/{session_id}/revoke" "POST"]
    else if server_key_available then
      [action "optional_user_passthrough" "Optional user passthrough"
         "Create a user provider session if per-user passthrough or isolation is required." "/auth/providers/sessions" "POST"]
    else [] in
  [("status", PStr (if available then "ready" else "setup_required")); ("reason_codes", texts reason_codes);
   ("next_actions", PList next_actions); ("provider", PStr provider);
   ("route_policy", PDict [("version", PStr (py_str (py_or (get "version" route_policy) (PStr ""))));
                           ("selected_route", PStr (py_str (py_or (get "selected_route" route_policy) (PStr "none"))));
                           ("fallback_routes", listed (get "fallback_routes" route_policy));
                           ("decision_reason", PStr (py_str (py_or (get "decision_reason" route_policy) (PStr ""))))])].

(** ** Diagnostics *)

Definition status_is_revoked (item : pydict) : bool := String.eqb (lower (norm (get "status" item))) "revoked".

(** [_latest_timestamp] *)
Definition timestamps (keys : list string) (rows : list pydict) : list string :=
  List.filter (fun s => negb (is_empty s)) (flat_map (fun row => map (fun key => norm (get key row)) keys) rows).
Definition latest_timestamp (keys : list string) (rows : list pydict) : pyval :=
  match timestamps keys rows with
  | [] => PNone
  | t :: ts => PStr (fold_left (fun best x => if String.ltb best x then x else best) ts t)
  end.

Definition count_reason (counts : dict Z) (item : pydict) : dict Z :=
  let reason := str_or (norm (get "revoked_reason" item)) "unspecified" in
  d_set reason (default 0 (d_get reason counts) + 1) counts.

(** [(-count, reason)] in ascending order *)
Definition reason_le (a b : string * Z) : bool := (snd b <? snd a) || ((snd a =? snd b) && String.leb (fst a) (fst b)).

(** [str(v or "")], and the same with [or None] *)
Definition text_of (v : pyval) : string := py_str (py_or v (PStr "")).
Definition text_or (v : pyval) : pyval := if is_empty (text_of v) then PNone else PStr (text_of v).

Definition sample_of (item : pydict) : pyval :=
  PDict [("id", PStr (text_of (get "id" item))); ("status", PStr (text_of (get "status" item)));
         ("display_name", text_or (get "display_name" item)); ("credential_ref_hint", text_or (get "credential_ref_hint" item));
         ("scopes", listed (get "scopes" item)); ("created_at", text_or (get "created_at" item));
         ("updated_at", text_or (get "updated_at" item)); ("last_used_at", text_or (get "last_used_at" item));
         ("revoked_at", text_or (get "revoked_at" item))].

(** [_build_session_diagnostics_summary] *)
Definition build_session_diagnostics_summary (sessions : list pydict) (selected_route : string) : pydict :=
  let active := List.filter (fun item => negb (status_is_revoked item)) sessions in
  let revoked := List.filter status_is_revoked sessions in
  let reasons := take 10 (sort_by reason_le (fold_left count_reason revoked [])) in
  let scopes_union := sorted_set (List.filter (fun s => negb (is_empty s))
    (flat_map (fun item => map (fun scope => lower (norm scope)) (as_list (get "scopes" item))) active)) in
  [("total_count", PInt (Z.of_nat (length sessions))); ("active_count", PInt (Z.of_nat (length active)));
   ("revoked_count", PInt (Z.of_nat (length revoked))); ("selected_route", PStr (str_or selected_route "none"));
   ("last_active_at", latest_timestamp ["last_used_at"; "updated_at"] active);
   ("last_revoked_at", latest_timestamp ["revoked_at"; "updated_at"] revoked);
   ("active_scopes_union", texts scopes_union);
   ("revoked_reasons", PList (map (fun rc => PDict [("reason", PStr (fst rc)); ("count", PInt (snd rc))]) reasons));
   ("sample", PList (map sample_of (take 5 sessions)))].

Definition check (id : string) (ok : bool) (pass_severity fail_severity pass_code fail_code pass_message fail_message : string)
    (evidence : pydict) : pydict :=
  [("id", PStr id); ("status", PStr (if ok then "pass" else "fail")); ("severity", PStr (if ok then pass_severity else fail_severity));
   ("code", PStr (if ok then pass_code else fail_code)); ("message", PStr (if ok then pass_message else fail_message));
   ("evidence", PDict evidence)].

Definition int_of (v : pyval) : res Z := py_int (py_or v (PInt 0)).

(** [_build_diagnostic_checks] *)
Definition build_diagnostic_checks (provider_payload session_summary : pydict) : res (list pydict) :=
  let route_policy := as_dict (get "route_policy" provider_payload) in
  let error_contract := as_dict (get "error_contract" provider_payload) in
  let feature_flags := as_dict (get "feature_flags" provider_payload) in
  let selected_route := route_of route_policy in
  let available := truthy (get "available" provider_payload) in
  let server_key_available := truthy (get "server_key_available" provider_payload) in
  res_bind (int_of (get "session_count" provider_payload)) (fun session_count =>
  let allowed_models := as_list (get "allowed_models" provider_payload) in
  res_bind (int_of (get "active_count" session_summary)) (fun active_count =>
  let route_ok := negb (String.eqb selected_route "none") in
  let route_consistent :=
    if String.eqb selected_route "user_session" then (0 <? session_count) && (0 <? active_count)
    else if String.eqb selected_route "server_api_key" then server_key_available
    else (session_count <=? 0) && negb server_key_available in
  let chat_enabled := truthy (get "chat" feature_flags) in
  let models_ok := negb available || match allowed_models with [] => false | _ => true end in
  Ok [check "route_selected" route_ok "info" "error" "route_selected"
        (py_str (py_or (get "error_code" error_contract) (PStr "provider_access_not_configured")))
        "Provider route selected successfully." "Provider route is not configured."
        [("selected_route", PStr selected_route); ("available_routes", listed (get "available_routes" route_policy));
         ("decision_reason", PStr (text_of (get "decision_reason" route_policy)))];
      check "route_consistency" route_consistent "warning" "error" "route_state_consistent" "route_state_mismatch"
        "Route state matches entitlement evidence." "Route state is inconsistent with entitlement evidence."
        [("selected_route", PStr selected_route); ("session_count", PInt session_count); ("active_session_count", PInt active_count);
         ("server_key_available", PBool server_key_available)];
      check "chat_feature_enabled" chat_enabled "info" (if available then "error" else "warning") "chat_enabled" "provider_chat_disabled"
        "Chat feature is enabled for selected entitlement route." "Chat feature is disabled or blocked for this entitlement state."
        [("available", PBool available); ("chat_feature", PBool chat_enabled); ("selected_route", PStr selected_route)];
      check "allowed_models_present" models_ok "info" "warning" "allowed_models_present" "allowed_models_missing"
        "Allowed model list is available." "No allowed models found for available entitlement route."
        [("available", PBool available); ("allowed_models_count", PInt (Z.of_nat (length allowed_models)))]])).

Definition check_failed (c : pydict) : bool := String.eqb (text_of (get "status" c)) "fail".

(** [_resolve_diagnostics_status] *)
Definition resolve_diagnostics_status (available : bool) (checks : list pydict) : string :=
  if negb available then "blocked" else if existsb check_failed checks then "degraded" else "ready".

(** ** [EntitlementResolver] *)

Section resolver.
Context (clock : nat -> Z).
(** The configured keys of the server. *)
Context (openai_api_key anthropic_api_key openrouter_api_key : option string).

Definition server_key_available (provider : string) : bool :=
  if String.eqb provider "openai" then negb (is_empty (opt_str openai_api_key))
  else if String.eqb provider "anthropic" then negb (is_empty (opt_str anthropic_api_key))
  else if String.eqb provider "openrouter" then negb (is_empty (opt_str openrouter_api_key))
  else false.

(** [str(self.database.get_setting(key, fallback) or fallback)] *)
Definition default_model_setting (key fallback : string) : M auth_db (list string) :=
  let* value := get_setting key fallback in ret [str_or value fallback].

Definition allowed_models_for (provider : string) : M auth_db (list string) :=
  if String.eqb provider "openai" then default_model_setting "openai_default_model" "gpt-4o-mini"
  else if String.eqb provider "anthropic" then default_model_setting "anthropic_default_model" "claude-3-5-sonnet-latest"
  else if String.eqb provider "openrouter" then default_model_setting "openrouter_default_model" "openai/gpt-4o-mini"
  else ret [].

Definition resolve_provider (user_id provider : string) : M auth_db pydict :=
  let normalized_user := strip user_id in
  let normalized_provider := lower (strip provider) in
  raise_if (negb (str_in normalized_provider SUPPORTED_PROVIDER_SESSION_PROVIDERS)) (ValueError "Unsupported provider") ;;;
  let* sessions := list_provider_sessions (Some normalized_user) (Some normalized_provider) false 50 in
  let session_count := Z.of_nat (length sessions) in
  let has_server_key := server_key_available normalized_provider in
  let route_policy := build_route_policy normalized_provider session_count has_server_key in
  let selected_route := route_of route_policy in
  let available := negb (String.eqb selected_route "none") in
  let access_mode := if str_in selected_route ["user_session"; "server_api_key"] then selected_route else "none" in
  let error_contract := build_entitlement_error_contract normalized_provider route_policy in
  let* allowed_models := allowed_models_for normalized_provider in
  let* checked_at := utc_now clock in
  ret [("provider", PStr normalized_provider); ("user_id", PStr normalized_user); ("available", PBool available);
       ("access_mode", PStr access_mode); ("session_count", PInt session_count); ("server_key_available", PBool has_server_key);
       ("allowed_models", texts allowed_models); ("rate_tier", PStr (if available then "standard" else "none"));
       ("feature_flags", PDict [("chat", PBool available); ("automation_news", PBool available); ("passthrough", PBool (0 <? session_count))]);
       ("route_policy", PDict route_policy); ("error_contract", PDict error_contract);
       ("onboarding", PDict (build_onboarding_feedback normalized_provider available access_mode session_count has_server_key
                               route_policy error_contract));
       ("checked_at", PStr checked_at)].

Fixpoint resolve_each (user_id : string) (providers : list string) : M auth_db (list pydict) :=
  match providers with
  | [] => ret []
  | p :: providers' =>
      let* item := resolve_provider user_id p in
      let* rest := resolve_each user_id providers' in
      ret (item :: rest)
  end.

Definition resolve_all (user_id : string) : M auth_db pydict :=
  let* items := resolve_each user_id SUPPORTED_PROVIDER_SESSION_PROVIDERS in
  let available := map (fun item => get "provider" item) (List.filter (fun item => truthy (get "available" item)) items) in
  let* checked_at := utc_now clock in
  ret [("user_id", PStr (strip user_id)); ("providers", PList (map PDict items)); ("available_providers", PList available);
       ("count", PInt (Z.of_nat (length items))); ("checked_at", PStr checked_at)].

Definition resolve_provider_diagnostics (user_id provider : string) (session_limit : Z) : M auth_db pydict :=
  let* payload := resolve_provider user_id provider in
  let normalized_user := norm (get "user_id" payload) in
  let normalized_provider := lower (norm (get "provider" payload)) in
  let* session_rows := list_provider_sessions (Some normalized_user) (Some normalized_provider) true (Z.max 1 (Z.min session_limit 500)) in
  let route_policy := as_dict (get "route_policy" payload) in
  let selected_route := route_of route_policy in
  let session_summary := build_session_diagnostics_summary session_rows selected_route in
  let* checks := lift (build_diagnostic_checks payload session_summary) in
  let diagnostics_status := resolve_diagnostics_status (truthy (get "available" payload)) checks in
  let failing_checks := List.filter check_failed checks in
  let* session_count := lift (int_of (get "session_count" payload)) in
  let access_mode := PStr (py_str (py_or (get "access_mode" payload) (PStr "none"))) in
  let* checked_at := (if truthy (get "checked_at" payload) then ret (py_str (get "checked_at" payload)) else utc_now clock) in
  ret [("version", PStr ENTITLEMENT_DIAGNOSTICS_VERSION); ("provider", PStr normalized_provider); ("user_id", PStr normalized_user);
       ("status", PStr diagnostics_status);
       ("summary", PDict [("available", PBool (truthy (get "available" payload))); ("access_mode", access_mode);
                          ("selected_route", PStr selected_route);
                          ("error_code", text_or (get "error_code" (as_dict (get "error_contract" payload))));
                          ("checks_total", PInt (Z.of_nat (length checks))); ("checks_failed", PInt (Z.of_nat (length failing_checks)))]);
       ("entitlement", PDict [("available", PBool (truthy (get "available" payload))); ("access_mode", access_mode);
                              ("session_count", PInt session_count); ("server_key_available", PBool (truthy (get "server_key_available" payload)));
                              ("allowed_models", listed (get "allowed_models" payload));
                              ("rate_tier", PStr (py_str (py_or (get "rate_tier" payload) (PStr "none"))));
                              ("feature_flags", PDict (as_dict (get "feature_flags" payload)))]);
       ("route_policy", PDict route_policy); ("error_contract", PDict (as_dict (get "error_contract" payload)));
       ("session_summary", PDict session_summary); ("checks", PList (map PDict checks));
       ("next_actions", listed (get "next_actions" (as_dict (get "onboarding" payload))));
       ("failure_signatures", PList (build_failure_signatures normalized_provider)); ("checked_at", PStr checked_at)].

Fixpoint diagnose_each (user_id : string) (session_limit : Z) (providers : list string) : M auth_db (list pydict) :=
  match providers with
  | [] => ret []
  | p :: providers' =>
      let* item := resolve_provider_diagnostics user_id p session_limit in
      let* rest := diagnose_each user_id session_limit providers' in
      ret (item :: rest)
  end.

Definition count_status (counts : dict Z) (item : pydict) : dict Z :=
  let key := lower (strip (py_str (py_or (get "status" item) (PStr "blocked")))) in
  d_set key (default 0 (d_get key counts) + 1) counts.

Definition resolve_all_diagnostics (user_id : string) (session_limit : Z) : M auth_db pydict :=
  let* items := diagnose_each user_id session_limit SUPPORTED_PROVIDER_SESSION_PROVIDERS in
  let status_counts := fold_left count_status items [("ready", 0); ("degraded", 0); ("blocked", 0)] in
  let* checked_at := utc_now clock in
  ret [("version", PStr ENTITLEMENT_DIAGNOSTICS_VERSION); ("user_id", PStr (strip user_id)); ("items", PList (map PDict items));
       ("count", PInt (Z.of_nat (length items))); ("status_counts", PDict (map (fun kc => (fst kc, PInt (snd kc))) status_counts));
       ("checked_at", PStr checked_at)].

End resolver.
End Entitlements.
