(* ===== verification/EntitlementFacts.v ===== *)
(** What the entitlements of users promise: a request to a cloud provider is
    let through exactly when its user has a session that is not revoked or the
    server has a key; sessions stay with their user and a revoked one stays
    revoked; what the diagnostics report; and that none of this depends on
    when a session expires. *)

From stdpp Require Import prelude strings list.
From Stdlib Require Import Lia ZArith Ascii.
From S2P Require Import Prelude PyStr PyVal Effects PyTime PluginPolicy Threads RunPolicy ProviderGuards ProviderSessions Entitlements.
Import ProviderSessions Entitlements.

Module EntitlementFacts.

(** ** Access *)

(** A session of the user for the provider that is not revoked. *)
Definition has_session (user provider : string) (s : auth_db) : Prop :=
  exists r, r ∈ d_values (db_sessions s) /\ se_user_id r = user /\ se_provider r = provider /\ is_revoked r = false.

Definition live_rows (user provider : string) (s : auth_db) : list session_row :=
  take 50 (matching_sessions (Some user) (Some provider) false s).

Lemma matching_elem user provider include s r :
  stripped user -> user <> "" -> stripped provider -> lower provider = provider -> provider <> "" ->
  r ∈ matching_sessions (Some user) (Some provider) include s
  <-> r ∈ d_values (db_sessions s) /\ se_user_id r = user /\ se_provider r = provider /\ (include = false -> is_revoked r = false).
Proof.
  intros Hu Hu0 Hp Hl Hp0. unfold matching_sessions. rewrite sort_by_elem, !list_elem_of_In, filter_In. cbn [opt_str].
  rewrite Hu, Hp, Hl. destruct user as [|c u]; [done|]. destruct provider as [|d p]; [done|]. cbn [is_empty orb].
  rewrite !andb_true_iff, !String.eqb_eq, orb_true_iff, negb_true_iff. destruct include; intuition congruence.
Qed.

Lemma live_iff user provider s :
  stripped user -> user <> "" -> stripped provider -> lower provider = provider -> provider <> "" ->
  (0 <? Z.of_nat (length (live_rows user provider s))) = true <-> has_session user provider s.
Proof.
  intros Hu Hu0 Hp Hl Hp0. unfold live_rows. rewrite Z.ltb_lt, length_take. split.
  - intros Hlen. destruct (matching_sessions (Some user) (Some provider) false s) as [|r l] eqn:E; [cbn in Hlen; lia|].
    assert (r ∈ matching_sessions (Some user) (Some provider) false s) as Hr by (rewrite E; by left).
    apply matching_elem in Hr as (H1 & H2 & H3 & H4); try done. exists r. auto.
  - intros (r & H1 & H2 & H3 & H4).
    assert (r ∈ matching_sessions (Some user) (Some provider) false s) as Hr by (by apply matching_elem).
    destruct (matching_sessions (Some user) (Some provider) false s); [by apply elem_of_nil in Hr|]. cbn. lia.
Qed.

(** What the resolver answers for a provider with keys: as the session, the
    key and the rest decide. *)
Definition key_providers : list string := SERVER_KEY_ROUTE_PROVIDERS.

Definition route_for (live key : bool) : string := if live then "user_session" else if key then "server_api_key" else "none".

Lemma keyed_route p n key : p ∈ key_providers -> route_of (build_route_policy p n key) = route_for (0 <? n) key.
Proof.
  unfold key_providers, SERVER_KEY_ROUTE_PROVIDERS. set_unfold. intros [->|[->|[->|[]]]]; unfold build_route_policy;
    destruct (0 <? n), key; reflexivity.
Qed.

Section access.
Context (clock : nat -> Z).
Context (openai_api_key anthropic_api_key openrouter_api_key : option string).
Abbreviation has_key p := (server_key_available openai_api_key anthropic_api_key openrouter_api_key p).
Abbreviation resolve := (resolve_provider clock openai_api_key anthropic_api_key openrouter_api_key).


(** The resolver as the model manager calls it, on the database as it is at
    each call. *)
Definition resolver_on (db : nat -> auth_db) (n : nat) (user provider : string) : res pyval :=
  match fst (resolve user provider (db n)) with Ok payload => Ok (PDict payload) | Err e => Err e end.

Lemma key_provider_normal p : p ∈ key_providers -> stripped p /\ lower p = p /\ p <> "".
Proof. unfold key_providers, SERVER_KEY_ROUTE_PROVIDERS. set_unfold. intros [->|[->|[->|[]]]]; by split_and!. Qed.

Lemma resolve_answer user p s :
  p ∈ key_providers -> exists payload s', resolve user p s = (Ok payload, s')
    /\ let live := 0 <? Z.of_nat (length (live_rows (strip user) p s)) in
       get "available" payload = PBool (live || has_key p)
       /\ get "feature_flags" payload = PDict [("chat", PBool (live || has_key p)); ("automation_news", PBool (live || has_key p)); ("passthrough", PBool live)].
Proof.
  intros Hp. destruct (key_provider_normal p Hp) as (Hs & Hl & H0). unfold resolve_provider, bind. rewrite Hs, Hl.
  assert (str_in p SUPPORTED_PROVIDER_SESSION_PROVIDERS = true) as ->.
  { revert Hp. unfold key_providers, SERVER_KEY_ROUTE_PROVIDERS. set_unfold. by intros [->|[->|[->|[]]]]. }
  cbn [negb raise_if ret]. unfold list_provider_sessions. cbn [Z.leb Z.compare gets]. rewrite length_map.
  change (take (Z.to_nat (Z.max 1 50)) (matching_sessions (Some (strip user)) (Some p) false s)) with (live_rows (strip user) p s).
  rewrite (keyed_route p _ _ Hp).
  assert (exists l, allowed_models_for p s = (Ok l, s)) as [l ->].
  { unfold allowed_models_for, default_model_setting, bind, get_setting, gets. repeat case_match; by eexists. }
  cbn [utc_now ret]. eexists _, _. split; [reflexivity|]. cbv zeta. unfold get. cbn [d_get String.eqb Ascii.eqb Bool.eqb].
  destruct (0 <? _), (has_key p); done.
Qed.

Lemma access_iff db provider user m :
  fst (ProviderGuards.enforce_provider_entitlement (Some (resolver_on db)) provider user m) = Ok tt
  <-> ProviderGuards.is_cloud_provider provider = false
      \/ strip (opt_str user) <> ""
         /\ (has_key provider = true \/ has_session (strip (opt_str user)) provider (db (ProviderGuards.m_calls m))).
Proof.
  unfold ProviderGuards.enforce_provider_entitlement. destruct (ProviderGuards.is_cloud_provider provider) eqn:Hc; cbn [negb]; [|by split; [left|]].
  assert (provider ∈ key_providers) as Hp.
  { unfold ProviderGuards.is_cloud_provider in Hc. apply str_in_spec in Hc. unfold key_providers, SERVER_KEY_ROUTE_PROVIDERS. set_solver. }
  destruct (key_provider_normal provider Hp) as (Hs & Hl & H0).
  destruct (strip (opt_str user)) as [|c u] eqn:Eu; cbn [is_empty].
  { split; [done|]. by intros [|[]]. }
  set (s := db (ProviderGuards.m_calls m)). unfold resolver_on. fold s.
  destruct (resolve_answer (String c u) provider s Hp) as (payload & s' & E & Ha & Hf). rewrite E. cbn [fst].
  assert (stripped (String c u)) as Hu by (rewrite <- Eu; apply strip_stripped). rewrite Hu in Ha, Hf. rewrite Ha, Hf.
  pose proof (live_iff (String c u) provider s Hu ltac:(done) Hs Hl H0) as Hlive.
  destruct (0 <? _) eqn:E1; cbn [orb truthy negb].
  - split; [intros _|intros _; reflexivity]. right. split; [done|]. right. by apply Hlive.
  - destruct (has_key provider) eqn:Ek; cbn [truthy negb].
    + split; [intros _|intros _; reflexivity]. right. split; [done|]. by left.
    + split.
      * destruct (ProviderGuards.py_list _); done.
      * intros [|[_ [|Hses]]]; [done..|]. by apply Hlive in Hses.
Qed.

(** C17. Who gets through to a cloud provider: with the entitlement resolver
    that the server installs, the check before a call lets a request pass
    exactly when the provider is not a cloud provider, or the user is named and
    the server has a key for the provider or the user, at that moment, a
    session for it that is not revoked. *)
Theorem cloud_access_iff db provider user m :
  fst (ProviderGuards.enforce_provider_entitlement (Some (resolver_on db)) provider user m) = Ok tt
  <-> ProviderGuards.is_cloud_provider provider = false
      \/ strip (opt_str user) <> ""
         /\ (has_key provider = true \/ has_session (strip (opt_str user)) provider (db (ProviderGuards.m_calls m))).
Proof. apply access_iff. Qed.

(** ** Diagnostics *)

Lemma int_of_int n : int_of (PInt n) = Ok n.
Proof. unfold int_of, py_or, truthy. by destruct (Z.eqb_spec n 0) as [->|]. Qed.

Definition supported (p : string) : Prop := p ∈ SUPPORTED_PROVIDER_SESSION_PROVIDERS.

Lemma supported_normal p : supported p -> stripped p /\ lower p = p /\ p <> "".
Proof. unfold supported, SUPPORTED_PROVIDER_SESSION_PROVIDERS. set_unfold. intros [->|[->|[->|[->|[->|[]]]]]]; by split_and!. Qed.

Lemma supported_route p n : supported p -> route_of (build_route_policy p n (has_key p)) = route_for (0 <? n) (has_key p).
Proof.
  unfold supported, SUPPORTED_PROVIDER_SESSION_PROVIDERS. set_unfold. intros [->|[->|[->|[->|[->|[]]]]]].
  1-3: apply keyed_route; unfold key_providers, SERVER_KEY_ROUTE_PROVIDERS; set_solver.
  1-2: unfold build_route_policy; change (has_key _) with false; by destruct (0 <? n).
Qed.

(** The answer of the resolver, by what the diagnostics read of it. *)
Lemma resolve_fields user p s :
  supported (lower (strip p)) -> exists payload s', resolve user p s = (Ok payload, s') /\ db_sessions s' = db_sessions s
    /\ let P := lower (strip p) in
       let n := Z.of_nat (length (live_rows (strip user) P s)) in
       let yes := (0 <? n) || has_key P in
       get "user_id" payload = PStr (strip user) /\ get "provider" payload = PStr P /\ get "available" payload = PBool yes
       /\ get "session_count" payload = PInt n /\ get "server_key_available" payload = PBool (has_key P)
       /\ (exists models, get "allowed_models" payload = texts models /\ (models = [] <-> P ∉ key_providers))
       /\ get "chat" (as_dict (get "feature_flags" payload)) = PBool yes
       /\ route_of (as_dict (get "route_policy" payload)) = route_for (0 <? n) (has_key P)
       /\ (exists t, get "checked_at" payload = PStr t).
Proof.
  intros Hp. unfold resolve_provider, bind. set (P := lower (strip p)) in *. destruct (supported_normal P Hp) as (HsP & HlP & _).
  assert (str_in P SUPPORTED_PROVIDER_SESSION_PROVIDERS = true) as -> by (by apply str_in_spec).
  cbn [negb raise_if ret]. unfold list_provider_sessions. cbn [Z.leb Z.compare gets]. rewrite length_map.
  change (take (Z.to_nat (Z.max 1 50)) (matching_sessions (Some (strip user)) (Some P) false s)) with (live_rows (strip user) P s).
  assert (exists models, allowed_models_for P s = (Ok models, s) /\ (models = [] <-> P ∉ key_providers)) as (models & -> & Hm).
  { revert Hp. generalize P. unfold supported, SUPPORTED_PROVIDER_SESSION_PROVIDERS. set_unfold. intros ? [->|[->|[->|[->|[->|[]]]]]];
      (eexists; split; [reflexivity|]); unfold key_providers, SERVER_KEY_ROUTE_PROVIDERS; set_solver. }
  cbn [utc_now ret]. eexists _, _. split; [reflexivity|]. split; [done|]. cbv zeta.
  pose proof (supported_route P (Z.of_nat (length (live_rows (strip user) P s))) Hp) as Hroute.
  unfold get. cbn [d_get String.eqb Ascii.eqb Bool.eqb]. rewrite Hroute.
  split_and!; try done; try (by eexists); destruct (0 <? _), (has_key P); done.
Qed.

Abbreviation diagnose := (resolve_provider_diagnostics clock openai_api_key anthropic_api_key openrouter_api_key).

(** The sessions the diagnostics look at: of all sessions of the user for the
    provider, revoked ones too, the latest. *)
Definition looked_at (user provider : string) (limit : Z) (s : auth_db) : list session_row :=
  take (Z.to_nat (Z.max 1 (Z.min limit 500))) (matching_sessions (Some user) (Some provider) true s).

(** What the diagnostics report, for every supported provider: access is
    blocked exactly when the user has no session that is not revoked and the
    server no key; otherwise it is degraded when the user has such a session
    but none is among the sessions looked at, or when the provider is one
    without models; and ready in all other cases. *)
Theorem diagnostics_status_exact user p limit s :
  supported (lower (strip p)) -> exists d s', diagnose user p limit s = (Ok d, s')
    /\ let P := lower (strip p) in
       let live := 0 <? Z.of_nat (length (live_rows (strip user) P s)) in
       let active := List.filter (fun item => negb (status_is_revoked item)) (map decode_provider_session_row (looked_at (strip user) P limit s)) in
       get "status" d = PStr (if negb (live || has_key P) then "blocked"
                              else if (live && (Z.of_nat (length active) <=? 0)) || negb (str_in P key_providers) then "degraded"
                              else "ready").
Proof.
  intros Hp. unfold resolve_provider_diagnostics, bind.
  destruct (resolve_fields user p s Hp) as (payload & s1 & -> & Hs1 & Hu & HP & Ha & Hn & Hk & (models & Hm & Hmodels) & Hchat & Hroute & t & Ht).
  set (P := lower (strip p)) in *. destruct (supported_normal P Hp) as (HsP & HlP & HP0).
  rewrite Hu, HP, norm_str by apply strip_stripped. rewrite norm_str, HlP by done.
  unfold list_provider_sessions. destruct (Z.leb_spec (Z.max 1 (Z.min limit 500)) 0); [lia|]. cbn [gets].
  replace (Z.max 1 (Z.max 1 (Z.min limit 500))) with (Z.max 1 (Z.min limit 500)) by lia.
  assert (matching_sessions (Some (strip user)) (Some P) true s1 = matching_sessions (Some (strip user)) (Some P) true s) as ->.
  { unfold matching_sessions. by rewrite Hs1. }
  fold (looked_at (strip user) P limit s). set (rows := map decode_provider_session_row _).
  unfold build_diagnostic_checks. rewrite Ha, Hn, Hk, Hm, Hchat, Hroute, int_of_int. cbn [res_bind].
  change (get "active_count" (build_session_diagnostics_summary rows (route_for (0 <? Z.of_nat (length (live_rows (strip user) P s))) (has_key P))))
    with (PInt (Z.of_nat (length (List.filter (fun item => negb (status_is_revoked item)) rows)))).
  rewrite int_of_int. cbn [res_bind lift]. cbv zeta. rewrite Ht.
  set (active := Z.of_nat (length (List.filter (fun item => negb (status_is_revoked item)) rows))).
  assert (match as_list (texts models) with [] => false | _ => true end = str_in P key_providers) as Hmok.
  { destruct (str_in P key_providers) eqn:E.
    - apply str_in_spec in E. destruct models; [|done]. by destruct (proj1 Hmodels eq_refl).
    - apply str_in_false in E. by rewrite (proj2 Hmodels E). }
  assert (exists c s2, (if truthy (PStr t) then ret (py_str (PStr t)) else utc_now clock) s1 = (Ok c, s2)) as (c & s2 & ->)
    by (destruct (truthy (PStr t)); by eexists _, _).
  eexists _, _. split; [reflexivity|]. unfold get at 1. cbn [d_get String.eqb Ascii.eqb Bool.eqb]. f_equal. rewrite Hmok.
  unfold resolve_diagnostics_status. cbn [truthy existsb]. unfold check_failed, text_of, check, get. cbn [d_get String.eqb Ascii.eqb Bool.eqb].
  rewrite (Z.leb_antisym 0 active). destruct (0 <? Z.of_nat (length (live_rows (strip user) P s))), (has_key P), (0 <? active), (str_in P key_providers); try done.
Qed.

End access.

(** ** Sessions over time *)

Section sessions.
Context (clock : nat -> Z).

(** The calls that reach the table, from any thread, in any order; sessions are
    created for the users and providers of [new]. *)
Inductive db_call (new : string -> string -> Prop) : M auth_db unit -> Prop :=
  | call_create i u p ref fp scopes name c d e md :
      new (strip u) (lower (strip p)) -> db_call new (create_provider_session clock i u p ref fp scopes name c d e md)
  | call_revoke i reason : db_call new (revoke_provider_session clock i reason ;;; ret tt)
  | call_touch i : db_call new (touch_provider_session clock i ;;; ret tt).

Definition db_step (new : string -> string -> Prop) (s s' : auth_db) : Prop := exists call, db_call new call /\ s' = snd (call s).

(** What a row keeps. *)
Definition same_session (r r' : session_row) : Prop :=
  se_id r' = se_id r /\ se_user_id r' = se_user_id r /\ se_provider r' = se_provider r
  /\ se_credential_ref r' = se_credential_ref r /\ se_scopes r' = se_scopes r
  /\ (is_revoked r = true -> is_revoked r' = true /\ se_revoked_at r' = se_revoked_at r).

Definition keeps_sessions (s s' : auth_db) : Prop :=
  forall i r, d_get i (db_sessions s) = Some r -> exists r', d_get i (db_sessions s') = Some r' /\ same_session r r'.

Lemma same_session_refl r : same_session r r.
Proof. by split_and!. Qed.
Lemma same_session_trans r1 r2 r3 : same_session r1 r2 -> same_session r2 r3 -> same_session r1 r3.
Proof.
  intros (E1 & E2 & E3 & E4 & E5 & E6) (F1 & F2 & F3 & F4 & F5 & F6). split_and!; try congruence.
  intros Hr. destruct (E6 Hr) as [Hr2 Ha]. destruct (F6 Hr2) as [Hr3 Hb]. split; [done|congruence].
Qed.

(** The effect of a call: nothing, a new row, or a change of one row. *)
Inductive effect (new : string -> string -> Prop) (s s' : auth_db) : Prop :=
  | no_effect : db_sessions s' = db_sessions s -> effect new s s'
  | inserts i r : d_get i (db_sessions s) = None -> new (se_user_id r) (se_provider r) ->
      db_sessions s' = d_set i r (db_sessions s) -> effect new s s'
  | updates i r r' : d_get i (db_sessions s) = Some r -> same_session r r' ->
      db_sessions s' = d_set i r' (db_sessions s) -> effect new s s'.

Lemma create_effect new i u p ref fp scopes name c d e md s :
  new (strip u) (lower (strip p)) -> effect new s (snd (create_provider_session clock i u p ref fp scopes name c d e md s)).
Proof.
  intros Hnew. unfold create_provider_session, bind, or_now, gets, raise_if, d_mem.
  destruct (is_empty c), (is_empty d); cbn [utc_now ret fst snd]; cbn [db_sessions];
    (destruct (d_get (strip i) (db_sessions s)) as [r|] eqn:E; [by apply no_effect|]); (eapply inserts; [exact E| |reflexivity]; exact Hnew).
Qed.

Lemma revoke_effect new i reason s : effect new s (snd (revoke_provider_session clock i reason s)).
Proof.
  unfold revoke_provider_session, bind, gets. destruct (is_empty _); [by apply no_effect|]. cbn [utc_now]. cbn [db_sessions].
  destruct (d_get (strip i) (db_sessions s)) as [r|] eqn:E; [|by apply no_effect]. destruct (is_revoked r) eqn:Er; [by apply no_effect|].
  eapply updates; [done| |reflexivity]. split_and!; try done. congruence.
Qed.

Lemma touch_effect new i s : effect new s (snd (touch_provider_session clock i s)).
Proof.
  unfold touch_provider_session, bind, gets. destruct (is_empty _); [by apply no_effect|]. cbn [utc_now]. cbn [db_sessions].
  destruct (d_get (strip i) (db_sessions s)) as [r|] eqn:E; [|by apply no_effect].
  eapply updates; [done| |reflexivity]. by split_and!.
Qed.

Lemma table_call_effect new s s' : db_step new s s' -> effect new s s'.
Proof.
  intros (call & Hcall & ->). destruct Hcall as [i u p ref fp scopes name c d e md Hnew|i reason|i].
  - by apply create_effect.
  - pose proof (revoke_effect new i reason s) as H. unfold bind. by destruct (revoke_provider_session clock i reason s) as [[] ?].
  - pose proof (touch_effect new i s) as H. unfold bind. by destruct (touch_provider_session clock i s) as [[] ?].
Qed.

Lemma effect_keeps new s s' : effect new s s' -> keeps_sessions s s'.
Proof.
  intros [E|i r Hi _ E|i r r' Hi Hr E] j rj Hj; rewrite E, ?d_get_set.
  - exists rj. split; [done|apply same_session_refl].
  - exists rj. destruct (String.eqb_spec i j); [congruence|]. split; [done|apply same_session_refl].
  - destruct (String.eqb_spec i j) as [->|]; [|exists rj; split; [done|apply same_session_refl]].
    exists r'. split; [done|]. congruence.
Qed.

(** Sessions are kept: whatever calls reach the table, a session stays with
    its user, provider and credential, and once it is revoked it stays revoked
    since the same time. *)
Theorem sessions_final s s' i r :
  rtc (db_step (fun _ _ => True)) s s' -> d_get i (db_sessions s) = Some r ->
  exists r', d_get i (db_sessions s') = Some r' /\ same_session r r'.
Proof.
  intros Hs. revert r. induction Hs as [s|s1 s2 s3 H1 _ IH]; intros r Hr; [exists r; split; [done|apply same_session_refl]|].
  destruct (effect_keeps _ _ _ (table_call_effect _ _ _ H1) i r Hr) as (r2 & Hr2 & Hsame). destruct (IH r2 Hr2) as (r3 & Hr3 & Hsame3).
  exists r3. split; [done|]. by eapply same_session_trans.
Qed.

(** No session of the user for the provider grants access. *)
Definition all_revoked (user provider : string) (s : auth_db) : Prop :=
  Forall (fun r => se_user_id r = user -> se_provider r = provider -> is_revoked r = true) (d_values (db_sessions s)).

Lemma values_set {A} (P : A -> Prop) k v (d : dict A) : P v -> Forall P (d_values d) -> Forall P (d_values (d_set k v d)).
Proof.
  intros Hv. induction d as [|[k' v'] d IH]; cbn; [by repeat constructor|]. intros H. apply Forall_cons in H as [H1 H2].
  destruct (String.eqb k k'); constructor; auto.
Qed.

Lemma all_revoked_step user provider s s' :
  db_step (fun u p => ~ (u = user /\ p = provider)) s s' -> all_revoked user provider s -> all_revoked user provider s'.
Proof.
  intros Hstep Hs. apply table_call_effect in Hstep as [E|i r Hi Hnew E|i r r' Hi (E1 & E2 & E3 & _ & _ & E6) E]; unfold all_revoked; rewrite E; [done|..];
    (apply values_set; [|done]).
  - intros Hu Hp. by destruct Hnew.
  - rewrite E2, E3. intros Hu Hp. apply E6. unfold all_revoked in Hs. rewrite Forall_forall in Hs. apply (Hs r); try done.
    apply list_elem_of_fmap. exists (i, r). split; [done|]. by apply d_get_elem.
Qed.

Lemma all_revoked_steps user provider s s' :
  rtc (db_step (fun u p => ~ (u = user /\ p = provider))) s s' -> all_revoked user provider s -> all_revoked user provider s'.
Proof. induction 1 as [|s1 s2 s3 H1 _ IH]; [done|]. intros Hs. by eapply IH, all_revoked_step. Qed.

Lemma no_session user provider s : all_revoked user provider s -> ~ has_session user provider s.
Proof. intros Hs (r & Hr & Hu & Hp & Hrev). unfold all_revoked in Hs. rewrite Forall_forall in Hs. by rewrite (Hs r Hr Hu Hp) in Hrev. Qed.

(** Revoking: a session is revoked only by its owner or an administrator;
    any other attempt raises and changes nothing; the session is then revoked
    and no other session has changed. *)
Theorem revoke_session_outcome id actor is_admin reason s :
  let '(r, s') := revoke_session clock id actor is_admin reason s in
  match d_get (strip id) (db_sessions s) with
  | Some row =>
      if is_empty (strip id) || is_empty (strip actor) then (exists msg, r = Err (ValidationError msg)) /\ s' = s
      else if is_admin || String.eqb (strip (se_user_id row)) (strip actor) then
        exists row', r = Ok (decode_provider_session_row row') /\ d_get (strip id) (db_sessions s') = Some row'
          /\ is_revoked row' = true /\ same_session row row' /\ forall j, j <> strip id -> d_get j (db_sessions s') = d_get j (db_sessions s)
      else r = Err (PermissionDeniedError "Cross-user provider session revoke is not allowed") /\ s' = s
  | None => is_ok r = false /\ s' = s
  end.
Proof.
  unfold revoke_session, bind, raise_if, get_provider_session, gets. pose proof (strip_stripped id) as Hid. unfold stripped in Hid.
  rewrite !Hid. destruct (is_empty (strip id)) eqn:Ei; cbn [orb]; [destruct (d_get _ _); split; try done; by eexists|].
  destruct (is_empty (strip actor)) eqn:Ea; [destruct (d_get _ _); split; try done; by eexists|]. cbn [ret].
  destruct (d_get (strip id) (db_sessions s)) as [row|] eqn:Er; cbn [fmap option_fmap option_map]; [|done].
  change (norm (get "user_id" (decode_provider_session_row row))) with (norm (PStr (se_user_id row))).
  assert (norm (PStr (se_user_id row)) = strip (se_user_id row)) as -> by (by destruct (se_user_id row)).
  destruct (is_admin || String.eqb (strip (se_user_id row)) (strip actor)) eqn:Eo.
  2: { apply orb_false_iff in Eo as [-> ->]. done. }
  assert (negb is_admin && negb (String.eqb (strip (se_user_id row)) (strip actor)) = false) as ->.
  { apply orb_true_iff in Eo as [->| ->]; cbn; [done|apply andb_false_r]. }
  cbn [ret]. unfold revoke_provider_session, bind, gets. rewrite Hid, Ei. cbn [utc_now]. cbn [db_sessions]. rewrite Er.
  destruct (is_revoked row) eqn:Erev; cbn [ret modify].
  - cbn [db_sessions]. rewrite Er. exists row. split_and!; done.
  - cbn [db_sessions set_sessions]. rewrite d_get_set_eq. eexists. split; [reflexivity|]. split; [apply d_get_set_eq|]. split; [reflexivity|].
    split; [by split_and!; try congruence|]. intros j Hj. apply d_get_set_ne. congruence.
Qed.

(** C18. Revocation cuts access: when every session of a user for a cloud
    provider is revoked and the server has no key for it, then, whatever calls
    reach the table, the check before a call refuses the user until a session
    is created for this user and provider. *)
Theorem revoked_user_denied k1 k2 k3 db provider user m s :
  ProviderGuards.is_cloud_provider provider = true -> server_key_available k1 k2 k3 provider = false ->
  all_revoked (strip (opt_str user)) provider s ->
  rtc (db_step (fun u p => ~ (u = strip (opt_str user) /\ p = provider))) s (db (ProviderGuards.m_calls m)) ->
  is_ok (fst (ProviderGuards.enforce_provider_entitlement (Some (resolver_on clock k1 k2 k3 db)) provider user m)) = false.
Proof.
  intros Hc Hk Hs Hsteps. destruct (fst _) as [[]|] eqn:E; [|done]. apply access_iff in E as [E|[_ [E|E]]]; [congruence..|].
  exfalso. revert E. apply no_session. by apply (all_revoked_steps _ _ s).
Qed.
End sessions.

(** ** Expiry *)

Section expiry.
Context (f : session_row -> option string).

(** Other times of expiry for all sessions. *)
Definition with_expiry (r : session_row) : session_row :=
  SessionRow (se_id r) (se_user_id r) (se_provider r) (se_display_name r) (se_session_type r) (se_credential_ref r)
    (se_credential_fingerprint r) (se_scopes r) (se_status r) (se_metadata r) (f r) (se_revoked_at r)
    (se_revoked_reason r) (se_last_used_at r) (se_created_at r) (se_updated_at r).
Definition reexpire (s : auth_db) : auth_db := set_sessions (map (fun kr => (kr.1, with_expiry kr.2)) (db_sessions s)) s.

(** [op] does not look at them. *)
Definition blind {A} (op : M auth_db A) : Prop := forall s, op (reexpire s) = (fst (op s), reexpire (snd (op s))).

(** Rows as the callers see them, but for the time of expiry. *)
Definition alike (d d' : pydict) : Prop := forall k, k <> "expires_at" -> get k d = get k d'.

Lemma sort_by_map {A} (le : A -> A -> bool) (g : A -> A) l :
  (forall a b, le (g a) (g b) = le a b) -> sort_by le (map g l) = map g (sort_by le l).
Proof.
  intros Hg. induction l as [|x l IH]; [done|]. cbn [map sort_by]. rewrite IH. clear IH.
  induction (sort_by le l) as [|y k IH]; [done|]. cbn. rewrite Hg. destruct (le x y); [done|]. cbn. by rewrite IH.
Qed.

Lemma filter_map_same {A} (P : A -> bool) (g : A -> A) l :
  (forall a, P (g a) = P a) -> List.filter P (map g l) = map g (List.filter P l).
Proof. intros Hg. induction l as [|x l IH]; [done|]. cbn. rewrite Hg, IH. by destruct (P x). Qed.

Lemma matching_reexpire u p b s : matching_sessions u p b (reexpire s) = map with_expiry (matching_sessions u p b s).
Proof.
  unfold matching_sessions, reexpire. cbn [db_sessions set_sessions].
  assert (d_values (map (fun kr : string * session_row => (kr.1, with_expiry kr.2)) (db_sessions s)) = map with_expiry (d_values (db_sessions s))) as ->.
  { unfold d_values. rewrite !map_map. done. }
  rewrite filter_map_same by done. by rewrite sort_by_map.
Qed.

Lemma decode_alike r : alike (decode_provider_session_row r) (decode_provider_session_row (with_expiry r)).
Proof.
  intros k Hk. unfold decode_provider_session_row, get, with_expiry. cbn [se_id se_user_id se_provider se_display_name se_session_type
    se_credential_ref se_credential_fingerprint se_scopes se_status se_metadata se_expires_at se_revoked_at se_revoked_reason
    se_last_used_at se_created_at se_updated_at].
  cbn [d_get]. repeat match goal with |- context [String.eqb ?x ?y] => destruct (String.eqb_spec x y); [by subst|] end. done.
Qed.

Lemma alike_filter P rows rows' :
  (forall d d', alike d d' -> P d = P d') -> Forall2 alike rows rows' -> Forall2 alike (List.filter P rows) (List.filter P rows').
Proof. intros HP. induction 1 as [|d d' rows rows' Hd _ IH]; [constructor|]. cbn. rewrite (HP d d' Hd). destruct (P d'); [by constructor|done]. Qed.

Lemma alike_flat_map {B} (g : pydict -> list B) rows rows' :
  (forall d d', alike d d' -> g d = g d') -> Forall2 alike rows rows' -> flat_map g rows = flat_map g rows'.
Proof. intros Hg. induction 1 as [|d d' rows rows' Hd _ IH]; [done|]. cbn. by rewrite (Hg d d' Hd), IH. Qed.

Lemma alike_map {B} (g : pydict -> B) rows rows' :
  (forall d d', alike d d' -> g d = g d') -> Forall2 alike rows rows' -> map g rows = map g rows'.
Proof. intros Hg. induction 1 as [|d d' rows rows' Hd _ IH]; [done|]. cbn. by rewrite (Hg d d' Hd), IH. Qed.

Lemma alike_counts counts rows rows' :
  Forall2 alike rows rows' -> fold_left count_reason rows counts = fold_left count_reason rows' counts.
Proof.
  intros H. revert counts. induction H as [|d d' rows rows' Hd _ IH]; intros counts; [done|]. cbn [fold_left]. rewrite IH.
  unfold count_reason. by rewrite (Hd "revoked_reason").
Qed.

Lemma alike_timestamps keys rows rows' :
  str_in "expires_at" keys = false -> Forall2 alike rows rows' -> latest_timestamp keys rows = latest_timestamp keys rows'.
Proof.
  intros Hk Hr. unfold latest_timestamp, timestamps. erewrite (alike_flat_map _ rows rows'); [done| |done].
  intros d d' Hd. apply map_ext_in. intros k Hin. rewrite (Hd k); [done|]. intros ->. apply str_in_false in Hk.
  apply Hk, list_elem_of_In. exact Hin.
Qed.

Lemma summary_alike rows rows' route :
  Forall2 alike rows rows' -> build_session_diagnostics_summary rows route = build_session_diagnostics_summary rows' route.
Proof.
  intros Hr. unfold build_session_diagnostics_summary. cbv zeta.
  assert (forall d d', alike d d' -> status_is_revoked d = status_is_revoked d') as Hst
    by (intros d d' Hd; unfold status_is_revoked; by rewrite (Hd "status")).
  pose proof (alike_filter status_is_revoked _ _ Hst Hr) as Hrev.
  pose proof (alike_filter (fun item => negb (status_is_revoked item)) _ _ ltac:(intros d d' Hd; cbn; by rewrite (Hst d d' Hd)) Hr) as Hact.
  rewrite (Forall2_length _ _ _ Hr), (Forall2_length _ _ _ Hrev), (Forall2_length _ _ _ Hact).
  rewrite (alike_timestamps ["last_used_at"; "updated_at"] _ _ eq_refl Hact), (alike_timestamps ["revoked_at"; "updated_at"] _ _ eq_refl Hrev).
  rewrite (alike_counts [] _ _ Hrev).
  rewrite (alike_flat_map (fun item => map (fun scope => lower (norm scope)) (as_list (get "scopes" item))) _ _
             ltac:(intros d d' Hd; cbn; by rewrite (Hd "scopes")) Hact).
  rewrite (alike_map sample_of (take 5 rows) (take 5 rows')); [done| |by apply Forall2_take].
  intros d d' Hd. unfold sample_of. by rewrite !(Hd _) by done.
Qed.

Lemma blind_ret {A} (a : A) : blind (ret a).
Proof. by intros s. Qed.
Lemma blind_lift {A} (r : res A) : blind (lift r).
Proof. by intros s. Qed.
Lemma blind_raise_if b e : blind (raise_if b e).
Proof. by intros s; destruct b. Qed.
Lemma blind_bind {A B} (op : M auth_db A) (g : A -> M auth_db B) : blind op -> (forall a, blind (g a)) -> blind (bind op g).
Proof. intros H Hg s. unfold bind. rewrite (H s). destruct (op s) as [[a|e] s']; cbn [fst snd]; [apply Hg|done]. Qed.
Lemma blind_now clock : blind (utc_now clock).
Proof. by intros s. Qed.
Lemma blind_setting key value : blind (get_setting key value).
Proof. by intros s. Qed.

(** The list is read through functions that do not look at the expiry. *)
Lemma blind_list {B} u p b limit (g : list pydict -> M auth_db B) :
  (forall rows rows', Forall2 alike rows rows' -> g rows = g rows') -> (forall rows, blind (g rows)) ->
  blind (bind (list_provider_sessions u p b limit) g).
Proof.
  intros Hg Hb s. unfold list_provider_sessions, bind. destruct (limit <=? 0); cbn [ret gets]; [apply Hb|].
  rewrite matching_reexpire, <- Hb.
  match goal with |- g ?a _ = g ?b _ => assert (Forall2 alike b a) as Hr; [|by rewrite (Hg _ _ Hr)] end.
  rewrite firstn_map. induction (take _ _) as [|r l IH]; cbn; constructor; [apply decode_alike|done].
Qed.

Section resolver.
Context (clock : nat -> Z) (k1 k2 k3 : option string).

Lemma blind_models p : blind (allowed_models_for p).
Proof.
  unfold allowed_models_for, default_model_setting.
  repeat match goal with |- context [if ?b then _ else _] => destruct b end; try apply blind_ret;
    (apply blind_bind; [apply blind_setting|intros; apply blind_ret]).
Qed.

Lemma blind_resolve user p : blind (resolve_provider clock k1 k2 k3 user p).
Proof.
  unfold resolve_provider. cbv zeta. apply blind_bind; [apply blind_raise_if|intros _]. apply blind_list.
  - intros rows rows' Hr. by rewrite (Forall2_length _ _ _ Hr).
  - intros rows. apply blind_bind; [apply blind_models|intros models]. apply blind_bind; [apply blind_now|intros; apply blind_ret].
Qed.

Lemma blind_each user ps : blind (resolve_each clock k1 k2 k3 user ps).
Proof.
  induction ps as [|p ps IH]; [apply blind_ret|]. cbn [resolve_each].
  apply blind_bind; [apply blind_resolve|intros]. apply blind_bind; [exact IH|intros; apply blind_ret].
Qed.

Lemma blind_all user : blind (resolve_all clock k1 k2 k3 user).
Proof.
  unfold resolve_all. apply blind_bind; [apply blind_each|intros]. cbv zeta. apply blind_bind; [apply blind_now|intros; apply blind_ret].
Qed.

Lemma blind_diagnose user p limit : blind (resolve_provider_diagnostics clock k1 k2 k3 user p limit).
Proof.
  unfold resolve_provider_diagnostics. apply blind_bind; [apply blind_resolve|intros payload]. cbv zeta. apply blind_list.
  - intros rows rows' Hr. by rewrite (summary_alike rows rows' _ Hr).
  - intros rows. apply blind_bind; [apply blind_lift|intros checks]. apply blind_bind; [apply blind_lift|intros n].
    apply blind_bind; [destruct (truthy _); [apply blind_ret|apply blind_now]|intros; apply blind_ret].
Qed.

Lemma blind_diagnose_each user limit ps : blind (diagnose_each clock k1 k2 k3 user limit ps).
Proof.
  induction ps as [|p ps IH]; [apply blind_ret|]. cbn [diagnose_each].
  apply blind_bind; [apply blind_diagnose|intros]. apply blind_bind; [exact IH|intros; apply blind_ret].
Qed.

Lemma blind_diagnose_all user limit : blind (resolve_all_diagnostics clock k1 k2 k3 user limit).
Proof.
  unfold resolve_all_diagnostics. apply blind_bind; [apply blind_diagnose_each|intros]. cbv zeta.
  apply blind_bind; [apply blind_now|intros; apply blind_ret].
Qed.

(** C38. An expired session still gives access: the time at which a session
    expires is stored, and neither the resolver nor the diagnostics nor the
    check before a call read it.  Give all sessions any other times of expiry,
    in the past or in the future: the resolver answers the same for every user
    and provider, so do the diagnostics, and the check lets the same requests
    pass. *)
Theorem expired_session_still_entitles db user p limit who provider m s :
  (resolve_provider clock k1 k2 k3 user p (reexpire s)).1 = (resolve_provider clock k1 k2 k3 user p s).1
  /\ (resolve_all clock k1 k2 k3 user (reexpire s)).1 = (resolve_all clock k1 k2 k3 user s).1
  /\ (resolve_provider_diagnostics clock k1 k2 k3 user p limit (reexpire s)).1
       = (resolve_provider_diagnostics clock k1 k2 k3 user p limit s).1
  /\ (resolve_all_diagnostics clock k1 k2 k3 user limit (reexpire s)).1 = (resolve_all_diagnostics clock k1 k2 k3 user limit s).1
  /\ ProviderGuards.enforce_provider_entitlement (Some (resolver_on clock k1 k2 k3 (fun n => reexpire (db n)))) provider who m
       = ProviderGuards.enforce_provider_entitlement (Some (resolver_on clock k1 k2 k3 db)) provider who m.
Proof.
  split_and!; [by rewrite blind_resolve|by rewrite blind_all|by rewrite blind_diagnose|by rewrite blind_diagnose_all|].
  unfold ProviderGuards.enforce_provider_entitlement. destruct (negb _); [done|]. cbv zeta. destruct (is_empty _); [done|].
  unfold resolver_on. by rewrite blind_resolve.
Qed.
End resolver.
End expiry.

(** ** A concrete server *)

Definition minutes (n : nat) : Z := 1767225600000000 + Z.of_nat n * 60000000.
Definition numbered_uuid (n : nat) : string := "s" +:+ str_of_Z (Z.of_nat n).
Definition no_hash (s : string) : string := s.
Definition empty_db : auth_db := AuthDb [] [] 0 0.
Abbreviation new_session user provider expires :=
  (create_session minutes numbered_uuid no_hash user provider "keychain://provider" None None expires None).

(** A session that expired a year before the clock. *)
Example expired_year_ago :
  let db := snd (new_session "alice" "openai" (Some "2025-01-01T00:00:00+00:00") empty_db) in
  map (fun r => (se_expires_at r, se_status r)) (d_values (db_sessions db)) = [(Some "2025-01-01T00:00:00+00:00", "active")]
  /\ isoformat (minutes (db_clock db)) = "2026-01-01T00:01:00+00:00"
  /\ fst (ProviderGuards.enforce_provider_entitlement (Some (resolver_on minutes None None None (fun _ => db))) "openai" (Some "alice")
            (ProviderGuards.MM [] [] [] [] [] ("openai", "gpt-4o") [] 0 0 0 0 [])) = Ok tt.
Proof. split_and!; vm_compute; reflexivity. Qed.

(** Revoked sessions can hide an active one: the diagnostics count active
    sessions among the latest [session_limit] sessions of any status.  A user
    with an active session who creates and revokes another one is reported as
    degraded by diagnostics that look at one session, while two give ready. *)
Theorem revoked_session_hides_active :
  let two := snd ((new_session "alice" "openai" None ;;; new_session "alice" "openai" None) empty_db) in
  let db := snd (revoke_session minutes "s1" "alice" false None two) in
  let status limit := match fst (resolve_provider_diagnostics minutes None None None "alice" "openai" limit db) with
                      | Ok d => get "status" d | Err _ => PNone end in
  has_session "alice" "openai" db /\ status 1 = PStr "degraded" /\ status 2 = PStr "ready".
Proof.
  split_and!; [|vm_compute; reflexivity..]. eexists. split; [apply list_elem_of_In; left; vm_compute; reflexivity|].
  split_and!; vm_compute; reflexivity.
Qed.

(** ** Witnesses *)

Definition one_session : auth_db := snd (new_session "alice" "openai" None empty_db).

Lemma diagnostics_status_exact_witness :
  exists d s', resolve_provider_diagnostics minutes None None None "alice" "OpenAI " 50 one_session = (Ok d, s') /\ get "status" d = PStr "ready".
Proof.
  assert (supported (lower (strip "OpenAI "))) as Hp by (apply list_elem_of_In; left; reflexivity).
  destruct (diagnostics_status_exact minutes None None None "alice" "OpenAI " 50 one_session Hp) as (d & s' & E & Hd).
  exists d, s'. split; [exact E|]. rewrite Hd. vm_compute. reflexivity.
Defined.

Lemma sessions_final_witness :
  exists r', d_get "s0" (db_sessions (snd (touch_provider_session minutes "s0" one_session))) = Some r' /\ se_user_id r' = "alice".
Proof.
  assert (rtc (db_step minutes (fun _ _ => True)) one_session (snd (touch_provider_session minutes "s0" one_session))) as Hs.
  { apply rtc_once. exists (touch_provider_session minutes "s0" ;;; ret tt). split; [constructor|]. vm_compute. reflexivity. }
  destruct (sessions_final minutes one_session _ "s0" _ Hs eq_refl) as (r' & Hr' & _ & Hu & _).
  exists r'. split; [exact Hr'|]. rewrite Hu. vm_compute. reflexivity.
Defined.

Lemma revoked_user_denied_witness :
  let db := snd (revoke_session minutes "s0" "alice" false None one_session) in
  is_ok (fst (ProviderGuards.enforce_provider_entitlement (Some (resolver_on minutes None None None (fun _ => db))) "openai" (Some "alice")
                (ProviderGuards.MM [] [] [] [] [] ("openai", "gpt-4o") [] 0 0 0 0 []))) = false.
Proof.
  apply (revoked_user_denied minutes None None None (fun _ => snd (revoke_session minutes "s0" "alice" false None one_session)) "openai" (Some "alice")
    _ (snd (revoke_session minutes "s0" "alice" false None one_session))); [reflexivity..| |apply rtc_refl].
  vm_compute. repeat constructor.
Defined.
End EntitlementFacts.
