(* ===== verification/MissionPlanner.v ===== *)
(** The mission planner (automation/mission_planner.py): the catalogue of
    templates, the defaults a template supplies, and the plan of a mission on
    [Schedule] and [MissionPolicy]. *)

From stdpp Require Import prelude strings list.
From Stdlib Require Import Lia ZArith Ascii.
From S2P Require Import Prelude PyStr PyVal PyFloat Effects PyTime PluginPolicy Schedule MissionPolicy.
Import Schedule MissionPolicy.

Module MissionPlanner.

Local Notation "'do' x <- m ; k" := (res_bind m (fun x => k))
  (at level 60, x pattern, m at level 60, k at level 200, right associativity).

Definition SUPPORTED_CADENCE_PROFILES : list string := ["hourly"; "daily"; "workday"; "weekly"; "watch_fs"].
Definition MISSION_TEMPLATE_CATALOG_VERSION : string := "mission_template_catalog_v1".

(** ** The catalogue *)

Definition code_health_template : pydict :=
  [("id", PStr "code_health");
   ("catalog_version", PStr MISSION_TEMPLATE_CATALOG_VERSION);
   ("lane", PStr "engineering");
   ("name", PStr "Code Health Sweep");
   ("description", PStr "Run lint/test/dependency checks and return remediation backlog.");
   ("default_message", PStr "Run code health sweep: execute lint/tests, detect flaky or failing areas, summarize root causes, and propose prioritized fixes.");
   ("cadence_profile", PStr "workday");
   ("start_immediately", PBool false);
   ("max_attempts", PInt 3);
   ("budget", PDict [("max_steps", PInt 24); ("max_tool_calls", PInt 40); ("timeout_sec", PInt 900)]);
   ("mission_policy_profile", PStr "balanced");
   ("risk_tags", PList [PStr "quality"; PStr "maintenance"])].

Definition security_audit_template : pydict :=
  [("id", PStr "security_audit");
   ("catalog_version", PStr MISSION_TEMPLATE_CATALOG_VERSION);
   ("lane", PStr "security");
   ("name", PStr "Security Audit");
   ("description", PStr "Review dependency, secrets, and policy posture with explicit risk findings.");
   ("default_message", PStr "Run security audit: scan dependencies/secrets/config, classify risks, and prepare mitigation plan with urgency levels.");
   ("cadence_profile", PStr "weekly");
   ("start_immediately", PBool false);
   ("max_attempts", PInt 4);
   ("budget", PDict [("max_steps", PInt 28); ("max_tool_calls", PInt 48); ("timeout_sec", PInt 1200)]);
   ("mission_policy_profile", PStr "strict");
   ("risk_tags", PList [PStr "security"; PStr "compliance"])].

Definition release_guard_template : pydict :=
  [("id", PStr "release_guard");
   ("catalog_version", PStr MISSION_TEMPLATE_CATALOG_VERSION);
   ("lane", PStr "release");
   ("name", PStr "Release Guard");
   ("description", PStr "Validate release readiness gates and summarize go/no-go blockers.");
   ("default_message", PStr "Run release guard mission: validate quality gates, highlight blockers, and provide go/no-go recommendation with rollback notes.");
   ("cadence_profile", PStr "daily");
   ("start_immediately", PBool false);
   ("max_attempts", PInt 3);
   ("budget", PDict [("max_steps", PInt 22); ("max_tool_calls", PInt 36); ("timeout_sec", PInt 900)]);
   ("mission_policy_profile", PStr "release");
   ("risk_tags", PList [PStr "release"; PStr "reliability"])].

Definition runtime_watchdog_template : pydict :=
  [("id", PStr "runtime_watchdog");
   ("catalog_version", PStr MISSION_TEMPLATE_CATALOG_VERSION);
   ("lane", PStr "monitoring");
   ("name", PStr "Runtime Watchdog");
   ("description", PStr "Continuously watch runtime health and auto-surface incident hints.");
   ("default_message", PStr "Run runtime watchdog mission: inspect health/slo/incidents, detect regressions, and generate actionable recovery checklist.");
   ("cadence_profile", PStr "hourly");
   ("start_immediately", PBool true);
   ("max_attempts", PInt 2);
   ("budget", PDict [("max_steps", PInt 16); ("max_tool_calls", PInt 24); ("timeout_sec", PInt 600)]);
   ("mission_policy_profile", PStr "watchdog");
   ("risk_tags", PList [PStr "ops"; PStr "watchdog"])].

Definition ai_news_daily_template : pydict :=
  [("id", PStr "ai_news_daily");
   ("catalog_version", PStr MISSION_TEMPLATE_CATALOG_VERSION);
   ("lane", PStr "news");
   ("name", PStr "AI News Daily Digest");
   ("description", PStr "Collect, deduplicate, and summarize daily AI news with source-grounded citations.");
   ("default_message", PStr "Run daily AI news mission: collect updates from web, reddit, and x for the last 24 hours; deduplicate overlapping stories by canonical URL; produce a concise digest with source links and confidence markers for each section.");
   ("cadence_profile", PStr "daily");
   ("start_immediately", PBool false);
   ("max_attempts", PInt 3);
   ("budget", PDict [("max_steps", PInt 20); ("max_tool_calls", PInt 36); ("timeout_sec", PInt 900)]);
   ("mission_policy_profile", PStr "balanced");
   ("risk_tags", PList [PStr "news"; PStr "research"]);
   ("schedule_type", PStr "weekly");
   ("schedule", PDict [("byday", PList [PStr "MO"; PStr "TU"; PStr "WE"; PStr "TH"; PStr "FR"; PStr "SA"; PStr "SU"]); ("hour", PInt 9); ("minute", PInt 0)])].

Definition ai_research_brief_daily_template : pydict :=
  [("id", PStr "ai_research_brief_daily");
   ("catalog_version", PStr MISSION_TEMPLATE_CATALOG_VERSION);
   ("lane", PStr "research");
   ("name", PStr "AI Research Brief (Daily)");
   ("description", PStr "Track fresh AI research outputs and summarize practical implications with citations.");
   ("default_message", PStr "Run daily AI research brief mission: collect important new papers, evaluations, and technical reports; cluster by topic, summarize key contributions and limitations, and include direct source links plus recommended follow-up reading.");
   ("cadence_profile", PStr "daily");
   ("start_immediately", PBool false);
   ("max_attempts", PInt 3);
   ("budget", PDict [("max_steps", PInt 24); ("max_tool_calls", PInt 42); ("timeout_sec", PInt 1200)]);
   ("mission_policy_profile", PStr "balanced");
   ("risk_tags", PList [PStr "research"; PStr "analysis"]);
   ("schedule_type", PStr "weekly");
   ("schedule", PDict [("byday", PList [PStr "MO"; PStr "TU"; PStr "WE"; PStr "TH"; PStr "FR"; PStr "SA"; PStr "SU"]); ("hour", PInt 10); ("minute", PInt 0)])].

Definition ai_monitoring_watch_hourly_template : pydict :=
  [("id", PStr "ai_monitoring_watch_hourly");
   ("catalog_version", PStr MISSION_TEMPLATE_CATALOG_VERSION);
   ("lane", PStr "monitoring");
   ("name", PStr "AI Monitoring Watch (Hourly)");
   ("description", PStr "Monitor selected channels for high-signal changes and emit alert-style updates.");
   ("default_message", PStr "Run hourly AI monitoring mission: detect product launches, policy changes, outages, and major updates; prioritize high-signal events, provide concise alerts with links, and suggest immediate next actions.");
   ("cadence_profile", PStr "hourly");
   ("start_immediately", PBool true);
   ("max_attempts", PInt 2);
   ("budget", PDict [("max_steps", PInt 16); ("max_tool_calls", PInt 24); ("timeout_sec", PInt 600)]);
   ("mission_policy_profile", PStr "watchdog");
   ("risk_tags", PList [PStr "monitoring"; PStr "ops"]);
   ("schedule_type", PStr "hourly");
   ("schedule", PDict [("interval_hours", PInt 1); ("minute", PInt 5)])].


Definition MISSION_TEMPLATE_REGISTRY : dict pydict :=
  [("code_health", code_health_template);
   ("security_audit", security_audit_template);
   ("release_guard", release_guard_template);
   ("runtime_watchdog", runtime_watchdog_template);
   ("ai_news_daily", ai_news_daily_template);
   ("ai_research_brief_daily", ai_research_brief_daily_template);
   ("ai_monitoring_watch_hourly", ai_monitoring_watch_hourly_template)].


Definition list_mission_templates : list pydict :=
  map (fun key => default [] (d_get key MISSION_TEMPLATE_REGISTRY)) (sort_strings (d_keys MISSION_TEMPLATE_REGISTRY)).

Definition mission_template_catalog : pydict :=
  let lanes := sorted_set (List.filter (fun s => negb (is_empty s)) (map (fun item => lower (norm (get "lane" item))) list_mission_templates)) in
  [("version", PStr MISSION_TEMPLATE_CATALOG_VERSION); ("template_count", PInt (Z.of_nat (length list_mission_templates)));
   ("lanes", PList (map PStr lanes))].

(** [_resolve_template] *)
Definition resolve_template (template_id : option string) : res (option pydict) :=
  let normalized := lower (strip (opt_str template_id)) in
  if is_empty normalized then Ok None
  else match d_get (replace_c "-" "_" normalized) MISSION_TEMPLATE_REGISTRY with
       | Some selected => Ok (Some selected)
       | None => Err (ValueError ("unsupported mission template: " +:+ opt_str template_id))
       end.

(** [str(template.get(key) or "")] *)
Definition text_field (key : string) (template : pydict) : string := py_str (py_or (get key template) (PStr "")).

(** [_template_view] *)
Definition template_view (template : pydict) : pydict :=
  map (fun key => (key, PStr (text_field key template))) ["id"; "catalog_version"; "lane"; "name"; "description"]
  ++ [("risk_tags", PList (as_list (get "risk_tags" template)))].

(** [_normalize_profile] of the planner *)
Definition normalize_cadence (cadence_profile : option string) : string :=
  let normalized := str_or (lower (strip (str_or (opt_str cadence_profile) "workday"))) "workday" in
  if str_in normalized SUPPORTED_CADENCE_PROFILES then normalized else "workday".

(** ** Applying a template *)

(** What [apply_mission_template] returns *)
Record mission_request : Type := MissionRequest {
  mr_template : option pydict;
  mr_message : string;
  mr_cadence_profile : string;
  mr_start_immediately : bool;
  mr_schedule_type : option string;
  mr_schedule : option pydict;
  mr_interval_sec : option Z;
  mr_max_attempts : option Z;
  mr_budget : pydict;
  mr_mission_policy : policy }.

(** The value given, or the one of the template: [str(v or "").strip()], and
    in lower case where [low] *)
Definition text_or_template (low : string -> string) (given : option string) (key : string) (template : option pydict) : string :=
  let resolved := low (strip (opt_str given)) in
  if is_empty resolved then match template with Some t => low (norm (get key t)) | None => "" end else resolved.

Definition same (s : string) : string := s.

Definition dict_given (d : option pydict) : bool := match d with Some (_ :: _) => true | _ => false end.

(** [bool(schedule_type) or bool(schedule) or (interval_sec is not None)] *)
Definition explicit_schedule (schedule_type : option string) (schedule : option pydict) (interval_sec : option Z) : bool :=
  negb (is_empty (opt_str schedule_type)) || dict_given schedule || match interval_sec with Some _ => true | None => false end.

Definition is_none (v : pyval) : bool := match v with PNone => true | _ => false end.

(** The schedule of the template, when it has one *)
Definition template_schedule (t : pydict) (given : option string * option pydict * option Z) :
    res (option string * option pydict * option Z) :=
  let schedule_type := get "schedule_type" t in
  let schedule := get "schedule" t in
  let interval := get "interval_sec" t in
  if is_none schedule_type && is_none schedule && is_none interval then Ok given
  else
    do seconds <- (if is_none interval then Ok None else do n <- py_int interval; Ok (Some n));
    Ok (if is_none schedule_type then None else Some (strip (py_str schedule_type)),
        match schedule with PDict d => Some d | _ => None end, seconds).

Section planner.
Context (float_repr : fvalue -> string) `{TimeZones}.

Definition apply_mission_template (template_id message cadence_profile : option string) (start_immediately : option bool)
    (schedule_type : option string) (schedule : option pydict) (interval_sec max_attempts : option Z) (budget : option pydict)
    (mission_policy_profile : option string) (mission_policy : option pydict) : res mission_request :=
  do template <- resolve_template template_id;
  let resolved_message := text_or_template same message "default_message" template in
  if is_empty resolved_message then Err (ValueError "message must be non-empty")
  else
    let resolved_cadence := str_or (text_or_template lower cadence_profile "cadence_profile" template) "workday" in
    let resolved_policy_profile := text_or_template lower mission_policy_profile "mission_policy_profile" template in
    do resolved_policy <- resolve_mission_policy_overlay float_repr (PDict (default [] mission_policy))
         (if is_empty resolved_policy_profile then PNone else PStr resolved_policy_profile) PNone;
    let resolved_start := match start_immediately with
      | Some b => b
      | None => match template with Some t => truthy (get "start_immediately" t) | None => false end
      end in
    do resolved_max_attempts <- match max_attempts, template with
      | None, Some t => if is_none (get "max_attempts" t) then Ok None else do n <- py_int (get "max_attempts" t); Ok (Some n)
      | _, _ => Ok max_attempts
      end;
    let template_budget := match template with Some t => as_dict (get "budget" t) | None => [] end in
    let resolved_budget := dict_update template_budget (default [] budget) in
    do resolved_schedule <-
      match template with
      | Some t => if explicit_schedule schedule_type schedule interval_sec then Ok (schedule_type, schedule, interval_sec)
                  else template_schedule t (schedule_type, schedule, interval_sec)
      | None => Ok (schedule_type, schedule, interval_sec)
      end;
    let '(rtype, rschedule, rinterval) := resolved_schedule in
    Ok (MissionRequest (template_view <$> template) resolved_message resolved_cadence resolved_start rtype rschedule rinterval
          resolved_max_attempts resolved_budget resolved_policy).

(** ** The plan *)

Definition weekly_at_nine (days : list string) : pydict :=
  [("byday", PList (map PStr days)); ("hour", PInt 9); ("minute", PInt 0)].

Definition resolve_mission_schedule (cadence_profile schedule_type : option string) (schedule : option pydict)
    (interval_sec : option Z) : res (string * pydict * Z) :=
  if explicit_schedule schedule_type schedule interval_sec then normalize_schedule schedule_type schedule interval_sec
  else
    let profile := normalize_cadence cadence_profile in
    if String.eqb profile "hourly" then
      normalize_schedule (Some "hourly") (Some [("interval_hours", PInt 1); ("minute", PInt 0)]) None
    else if String.eqb profile "daily" then normalize_schedule (Some "weekly") (Some (weekly_at_nine WEEKDAY_CODES)) None
    else if String.eqb profile "weekly" then normalize_schedule (Some "weekly") (Some (weekly_at_nine ["MO"])) None
    else if String.eqb profile "watch_fs" then
      Err (ValueError "watch_fs cadence requires explicit schedule payload with path and poll settings")
    else normalize_schedule (Some "weekly") (Some (weekly_at_nine ["MO"; "TU"; "WE"; "TH"; "FR"])) None.

(** [_build_review_checklist] *)
Definition build_review_checklist (overall_risk schedule_type : string) (requires_review : bool) : list string :=
  ["Verify mission prompt is specific and bounded."; "Confirm target agent tools match mission intent."]
  ++ (if String.eqb schedule_type "watch_fs" then ["Validate watch_fs path/glob to avoid broad filesystem scans."] else [])
  ++ (if requires_review then
        ["Risk level is '" +:+ overall_risk +:+ "': run dry-run output review before enabling immediate scheduling.";
         "Start paused or delayed, then promote after first successful run."]
      else ["Risk level is acceptable for standard scheduler rollout."]).

(** What [build_mission_plan] returns *)
Record mission_plan : Type := MissionPlan {
  pl_agent_id : string;
  pl_user_id : string;
  pl_session_id : option string;
  pl_message : string;
  pl_cadence_profile : string;
  pl_timezone : string;
  pl_schedule_type : string;
  pl_schedule : pydict;
  pl_interval_sec : Z;
  pl_next_run_at : string;
  pl_overall_risk : string;
  pl_requires_review : bool;
  pl_requested_start : bool;
  pl_effective_start : bool;
  pl_review_checklist : list string;
  pl_apply_payload : pydict }.

Definition build_mission_plan (current : Z) (agent_id user_id message : string) (session_id : option string) (timezone_name : string)
    (cadence_profile : option string) (start_immediately : bool) (schedule_type : option string) (schedule : option pydict)
    (interval_sec : option Z) (simulation : pydict) (now_utc : now_arg) : res mission_plan :=
  do normalized_timezone <- validate_timezone (Some timezone_name);
  let normalized_message := strip message in
  if is_empty normalized_message then Err (ValueError "message must be non-empty")
  else
    do resolved <- resolve_mission_schedule cadence_profile schedule_type schedule interval_sec;
    let '(resolved_type, resolved_schedule, resolved_interval) := resolved in
    do next_run_at <- compute_next_run_at current resolved_type resolved_schedule normalized_timezone (AwareNow (resolve_now current now_utc));
    let risk_summary := as_dict (get "risk_summary" simulation) in
    let overall_risk := norm_lower_or "unknown" (get "overall_risk_level" risk_summary) in
    let requires_review := str_in overall_risk ["high"; "critical"; "unknown"] in
    let recommended_start_immediately := start_immediately && negb requires_review in
    Ok (MissionPlan agent_id user_id session_id normalized_message (normalize_cadence cadence_profile) normalized_timezone resolved_type
          resolved_schedule resolved_interval next_run_at overall_risk requires_review start_immediately
          recommended_start_immediately (build_review_checklist overall_risk resolved_type requires_review)
          [("agent_id", PStr agent_id); ("user_id", PStr user_id); ("message", PStr normalized_message);
           ("session_id", pnone_or_str session_id); ("interval_sec", PInt resolved_interval);
           ("schedule_type", PStr resolved_type); ("schedule", PDict resolved_schedule);
           ("timezone", PStr normalized_timezone); ("start_immediately", PBool recommended_start_immediately)]).

End planner.
End MissionPlanner.
