(* ===== verification/MissionPlannerFacts.v ===== *)
(** What the mission planner promises: every template of the catalogue can be
    planned at any time, and a plan holds a schedule the scheduler takes as it
    is and starts at once only at an acceptable risk. *)

From stdpp Require Import prelude strings list.
From Stdlib Require Import Lia ZArith Ascii.
From S2P Require Import Prelude PyStr PyVal PyFloat Effects PyTime Schedule ScheduleFacts MissionPolicy MissionPlanner.
Import Schedule ScheduleFacts MissionPolicy MissionPlanner.

Module MissionPlannerFacts.

Lemma mission_schedule_normal cadence t0 s0 i0 t s n :
  resolve_mission_schedule cadence t0 s0 i0 = Ok (t, s, n) -> normal_form t s n.
Proof. unfold resolve_mission_schedule. repeat case_match; try done; intros E; by eapply normalize_form. Qed.

Lemma zone_fixed `{TimeZones} tz key : validate_timezone (Some tz) = Ok key -> validate_timezone (Some key) = Ok key.
Proof.
  unfold validate_timezone. cbn [opt_str]. destruct (zone_known _) eqn:Ek; [|done]. intros [= <-]. revert Ek.
  set (x := strip (str_or tz "UTC")). assert (strip x = x) as Hx by apply strip_stripped. destruct x as [|c x].
  { change (str_or (strip (str_or (str_or "" "UTC") "UTC")) "UTC") with "UTC". change (str_or "" "UTC") with "UTC". by intros ->. }
  unfold str_or. cbn [is_empty]. rewrite Hx. cbn [is_empty]. by intros ->.
Qed.

(** A template alone gives a request with a message and a schedule. *)
Lemma templates_apply (float_repr : fvalue -> string) id :
  id ∈ d_keys MISSION_TEMPLATE_REGISTRY -> exists r t s n,
    apply_mission_template float_repr (Some id) None None None None None None None None None None = Ok r
    /\ mr_message r <> "" /\ strip (mr_message r) = mr_message r
    /\ resolve_mission_schedule (Some (mr_cadence_profile r)) (mr_schedule_type r) (mr_schedule r) (mr_interval_sec r) = Ok (t, s, n)
    /\ n <= 7 * 24 * 3600.
Proof.
  cbn. set_unfold. intros [->|[->|[->|[->|[->|[->|[->|[]]]]]]]]; eexists _, _, _, _;
    (split; [vm_compute; reflexivity|]); (split; [done|]); (split; [vm_compute; reflexivity|]); (split; [vm_compute; reflexivity|]); lia.
Qed.

Section planner.
Context (float_repr : fvalue -> string) `{HZ : TimeZones} {HL : TimeZoneLaws}.

(** C21. A plan that is made can be applied: its message is not empty; its
    schedule is in normal form, so that the scheduler takes it unchanged; its
    next run is the one the scheduler will compute; it asks to start at once
    exactly when this was requested and the simulated risk is known and neither
    high nor critical; and the payload that applies it carries these values,
    the start included. *)
Theorem mission_plan_lawful current agent user message session tz cadence start t0 s0 i0 simulation now plan :
  build_mission_plan current agent user message session tz cadence start t0 s0 i0 simulation now = Ok plan ->
  pl_message plan <> "" /\ validate_timezone (Some tz) = Ok (pl_timezone plan)
  /\ normal_form (pl_schedule_type plan) (pl_schedule plan) (pl_interval_sec plan)
  /\ (forall i, normalize_schedule (Some (pl_schedule_type plan)) (Some (pl_schedule plan)) i
                = Ok (pl_schedule_type plan, pl_schedule plan, pl_interval_sec plan))
  /\ compute_next_run_at current (pl_schedule_type plan) (pl_schedule plan) (pl_timezone plan) now = Ok (pl_next_run_at plan)
  /\ (pl_effective_start plan = true <->
      start = true /\ ~ pl_overall_risk plan ∈ ["high"; "critical"; "unknown"]
      /\ pl_overall_risk plan = norm_lower_or "unknown" (get "overall_risk_level" (as_dict (get "risk_summary" simulation))))
  /\ pl_apply_payload plan =
       [("agent_id", PStr agent); ("user_id", PStr user); ("message", PStr (pl_message plan)); ("session_id", pnone_or_str session);
        ("interval_sec", PInt (pl_interval_sec plan)); ("schedule_type", PStr (pl_schedule_type plan));
        ("schedule", PDict (pl_schedule plan)); ("timezone", PStr (pl_timezone plan));
        ("start_immediately", PBool (pl_effective_start plan))].
Proof.
  unfold build_mission_plan. destruct (validate_timezone (Some tz)) as [key|] eqn:Ez; [|done]. cbn [res_bind].
  destruct (is_empty (strip message)) eqn:Em; [done|]. destruct (resolve_mission_schedule _ _ _ _) as [[[t s] n]|] eqn:Es; [|done]. cbn [res_bind].
  destruct (compute_next_run_at _ _ _ _ _) as [next|] eqn:En; [|done]. cbn [res_bind]. intros [= <-].
  pose proof (mission_schedule_normal _ _ _ _ _ _ _ Es) as Hn.
  split_and!; cbn [pl_message pl_timezone pl_schedule_type pl_schedule pl_interval_sec pl_next_run_at pl_effective_start pl_overall_risk];
    try done.
  - by destruct (strip message).
  - intros i. by apply normal_form_fixed.
  - rewrite <- str_in_false, andb_true_iff, negb_true_iff. tauto.
Qed.

Lemma plan_message current agent user message session tz cadence start t0 s0 i0 simulation now plan :
  build_mission_plan current agent user message session tz cadence start t0 s0 i0 simulation now = Ok plan -> pl_message plan = strip message.
Proof.
  unfold build_mission_plan. destruct (validate_timezone (Some tz)); [|done]. cbn [res_bind]. destruct (is_empty (strip message)); [done|].
  destruct (resolve_mission_schedule _ _ _ _) as [[[t s] n]|]; [|done]. cbn [res_bind]. destruct (compute_next_run_at _ _ _ _ _); [|done].
  cbn [res_bind]. by intros [= <-].
Qed.

(** The dates for which a run within a week exists. *)
Definition plannable (now : Z) : Prop :=
  (first_day + 3) * us_per_day <= now /\ now + 7 * 24 * 3600 * us_per_sec + 20 * us_per_day < (last_day + 1) * us_per_day.

Lemma plan_returns current agent user message session tz key cadence start t0 s0 i0 simulation now t s n :
  validate_timezone (Some tz) = Ok key ->
  (forall w f, - us_per_day < zone_utcoffset key w f < us_per_day) -> plannable (resolve_now current now) ->
  strip message <> "" -> resolve_mission_schedule cadence t0 s0 i0 = Ok (t, s, n) -> n <= 7 * 24 * 3600 ->
  is_ok (build_mission_plan current agent user message session tz cadence start t0 s0 i0 simulation now) = true.
Proof using HL.
  intros Hz Hoff [Hlo Hhi] Hm Hs Hn. unfold build_mission_plan. rewrite Hz, Hs. cbn [res_bind].
  destruct (strip message) eqn:Em; [done|]. cbn [is_empty]. unfold compute_next_run_at. rewrite (zone_fixed _ _ Hz). cbn [res_bind resolve_now].
  destruct (next_run_exists t s n key (resolve_now current now)) as (u & ->); try done.
  - by eapply mission_schedule_normal.
  - units. nia.
Qed.

(** C20. Every template can be planned: naming a template of the catalogue and
    nothing else is enough for a plan, for any agent, any outcome of the
    simulation, any zone and at any time of the years Python supports but the
    first and the last weeks. *)
Theorem templates_always_plan id current agent user session tz key simulation now :
  id ∈ d_keys MISSION_TEMPLATE_REGISTRY -> validate_timezone (Some tz) = Ok key ->
  (forall w f, - us_per_day < zone_utcoffset key w f < us_per_day) -> plannable (resolve_now current now) ->
  exists r plan, apply_mission_template float_repr (Some id) None None None None None None None None None None = Ok r
    /\ build_mission_plan current agent user (mr_message r) session tz (Some (mr_cadence_profile r)) (mr_start_immediately r)
         (mr_schedule_type r) (mr_schedule r) (mr_interval_sec r) simulation now = Ok plan
    /\ pl_message plan = mr_message r.
Proof using HL.
  intros Hid Hz Hoff Hnow. destruct (templates_apply float_repr id Hid) as (r & t & s & n & Er & Hm & Hms & Es & Hn). exists r.
  pose proof (plan_returns current agent user (mr_message r) session tz key (Some (mr_cadence_profile r)) (mr_start_immediately r)
    (mr_schedule_type r) (mr_schedule r) (mr_interval_sec r) simulation now t s n Hz Hoff Hnow ltac:(congruence) Es Hn) as Hok.
  destruct (build_mission_plan _ _ _ _ _ _ _ _ _ _ _ _ _) as [plan|] eqn:E; [|done]. exists plan. split_and!; [done..|].
  rewrite (plan_message _ _ _ _ _ _ _ _ _ _ _ _ _ _ E). exact Hms.
Qed.
End planner.

(** ** Witnesses *)

Definition utc_only : TimeZones := {| zone_known k := String.eqb k "UTC"; zone_fromutc k t := (t, false); zone_utcoffset k w f := 0 |}.
Lemma utc_laws : @TimeZoneLaws utc_only.
Proof. intros key t. cbn. lia. Qed.

Definition new_year : Z := 1767225600000000.
Abbreviation watchdog := (@build_mission_plan utc_only new_year "a" "u" "watch" None "UTC" (Some "hourly") true None None None
  [("risk_summary", PDict [("overall_risk_level", PStr "low")])] NoNow).

Lemma mission_plan_lawful_witness :
  exists plan, watchdog = Ok plan /\ pl_effective_start plan = true /\ pl_next_run_at plan = "2026-01-01T01:00:00+00:00"
    /\ normal_form (pl_schedule_type plan) (pl_schedule plan) (pl_interval_sec plan).
Proof.
  destruct watchdog as [plan|] eqn:E; [|vm_compute in E; discriminate E]. exists plan. split; [reflexivity|].
  pose proof (@mission_plan_lawful utc_only new_year "a" "u" "watch" None "UTC" (Some "hourly") true None None None
    [("risk_summary", PDict [("overall_risk_level", PStr "low")])] NoNow plan E) as (_ & _ & Hn & _).
  vm_compute in E. injection E as <-. split; [reflexivity|]. split; [reflexivity|exact Hn].
Defined.

Lemma templates_always_plan_witness :
  exists r plan, apply_mission_template (fun _ => "") (Some "security_audit") None None None None None None None None None None = Ok r
    /\ @build_mission_plan utc_only new_year "a" "u" (mr_message r) None "UTC" (Some (mr_cadence_profile r)) (mr_start_immediately r)
         (mr_schedule_type r) (mr_schedule r) (mr_interval_sec r) [] NoNow = Ok plan
    /\ pl_message plan = mr_message r.
Proof.
  apply (@templates_always_plan (fun _ => "") utc_only utc_laws "security_audit" new_year "a" "u" None "UTC" "UTC").
  - apply list_elem_of_In. right. left. reflexivity.
  - reflexivity.
  - intros w f. vm_compute. split; reflexivity.
  - split; vm_compute; congruence.
Defined.
End MissionPlannerFacts.
