(* ===== verification/MemoryStore.v ===== *)
(** The tables of memory (storage/database.py, storage/migrations.py): what was
    said, facts, the profile of a user, working notes, extractions and
    conflicts, and the entries of the vector store.

    Columns that hold JSON are held as the value; [is_active] as a flag.  No
    fact is ever deleted, so that the next identifier is one more than the
    number of rows.  A NaN is bound as NULL, which a REAL NOT NULL column
    refuses. *)

From stdpp Require Import prelude strings list.
From Stdlib Require Import Lia ZArith Ascii.
From S2P Require Import Prelude PyStr PyVal PyFloat PyFloatOps Effects PyTime.

Module MemoryStore.

Record episodic_row : Type := EpisodicRow {
  ep_user_id : string;
  ep_agent_id : option string;
  ep_session_id : option string;
  ep_role : string;
  ep_content : string;
  ep_kind : string;
  ep_confidence : fvalue;
  ep_importance : fvalue;
  ep_fingerprint : option string;
  ep_created_at : string }.

Record semantic_row : Type := SemanticRow {
  sm_id : Z;
  sm_user_id : string;
  sm_text : string;
  sm_metadata : pydict;
  sm_kind : string;
  sm_confidence : fvalue;
  sm_importance : fvalue;
  sm_fingerprint : option string;
  sm_is_active : bool;
  sm_superseded_by : option Z;
  sm_created_at : string }.

Record profile_row : Type := ProfileRow {
  um_user_id : string;
  um_key : string;
  um_value : string;
  um_updated_at : string;
  um_confidence : fvalue;
  um_importance : fvalue;
  um_source : option string }.

Record working_row : Type := WorkingRow {
  wm_user_id : string;
  wm_session_id : string;
  wm_key : string;
  wm_value : string;
  wm_kind : string;
  wm_confidence : fvalue;
  wm_importance : fvalue;
  wm_is_active : bool;
  wm_updated_at : string }.

Record extraction_row : Type := ExtractionRow {
  ex_user_id : string;
  ex_agent_id : option string;
  ex_session_id : option string;
  ex_source_role : string;
  ex_source_text : string;
  ex_extracted : pydict;
  ex_created_at : string }.

Record conflict_row : Type := ConflictRow {
  cf_user_id : string;
  cf_layer : string;
  cf_key : string;
  cf_previous_value : option string;
  cf_incoming_value : option string;
  cf_resolution : string;
  cf_confidence_prev : option fvalue;
  cf_confidence_new : option fvalue;
  cf_created_at : string }.

(** The tables, the vector store, the events sent, and the readings of the
    clock. *)
Record mem : Type := Mem {
  me_episodic : list episodic_row;
  me_semantic : list semantic_row;
  me_profile : list profile_row;
  me_working : list working_row;
  me_extractions : list extraction_row;
  me_conflicts : list conflict_row;
  me_vectors : list (string * pydict);
  me_events : list (string * pydict);
  me_clock : nat }.

Definition set_episodic (x : list episodic_row) (m : mem) : mem :=
  Mem x (me_semantic m) (me_profile m) (me_working m) (me_extractions m) (me_conflicts m) (me_vectors m) (me_events m) (me_clock m).
Definition set_semantic (x : list semantic_row) (m : mem) : mem :=
  Mem (me_episodic m) x (me_profile m) (me_working m) (me_extractions m) (me_conflicts m) (me_vectors m) (me_events m) (me_clock m).
Definition set_profile (x : list profile_row) (m : mem) : mem :=
  Mem (me_episodic m) (me_semantic m) x (me_working m) (me_extractions m) (me_conflicts m) (me_vectors m) (me_events m) (me_clock m).
Definition set_working (x : list working_row) (m : mem) : mem :=
  Mem (me_episodic m) (me_semantic m) (me_profile m) x (me_extractions m) (me_conflicts m) (me_vectors m) (me_events m) (me_clock m).
Definition set_extractions (x : list extraction_row) (m : mem) : mem :=
  Mem (me_episodic m) (me_semantic m) (me_profile m) (me_working m) x (me_conflicts m) (me_vectors m) (me_events m) (me_clock m).
Definition set_conflicts (x : list conflict_row) (m : mem) : mem :=
  Mem (me_episodic m) (me_semantic m) (me_profile m) (me_working m) (me_extractions m) x (me_vectors m) (me_events m) (me_clock m).
Definition set_vectors (x : list (string * pydict)) (m : mem) : mem :=
  Mem (me_episodic m) (me_semantic m) (me_profile m) (me_working m) (me_extractions m) (me_conflicts m) x (me_events m) (me_clock m).
Definition add_memory_event (e : string * pydict) (m : mem) : mem :=
  Mem (me_episodic m) (me_semantic m) (me_profile m) (me_working m) (me_extractions m) (me_conflicts m) (me_vectors m) (me_events m ++ [e])
    (me_clock m).
Definition tick (m : mem) : mem :=
  Mem (me_episodic m) (me_semantic m) (me_profile m) (me_working m) (me_extractions m) (me_conflicts m) (me_vectors m) (me_events m)
    (S (me_clock m)).

Definition not_null (table column : string) (v : fvalue) : M mem unit :=
  raise_if (match v with FNan => true | _ => false end)
    (OtherError "IntegrityError" ("NOT NULL constraint failed: " +:+ table +:+ "." +:+ column)).

(** [LIMIT ?] *)
Definition limited {A} (limit : Z) (l : list A) : list A := if limit <=? 0 then [] else take (Z.to_nat limit) l.

Section database.
Context (clock : nat -> Z).

Definition now_utc : M mem Z := fun m => (Ok (clock (me_clock m)), tick m).
Definition utc_now : M mem string := let* t := now_utc in ret (isoformat t).

(** ** What was said *)

Definition add_episodic_event (user_id : string) (agent_id : option string) (role content : string) (session_id : option string)
    (kind : string) (confidence importance : fvalue) (fingerprint : option string) : M mem unit :=
  let* created := utc_now in
  not_null "episodic_memory" "confidence" confidence ;;;
  not_null "episodic_memory" "importance" importance ;;;
  modify (fun m => set_episodic (me_episodic m ++
    [EpisodicRow user_id agent_id session_id role content kind confidence importance fingerprint created]) m).

(** [ORDER BY id DESC LIMIT ?], then reversed *)
Definition list_episodic_events (user_id : string) (agent_id session_id : option string) (limit : Z) : M mem (list episodic_row) :=
  gets (fun m => rev (limited limit (rev (List.filter (fun r =>
    String.eqb (ep_user_id r) user_id
    && (is_empty (opt_str agent_id) || bool_decide (ep_agent_id r = agent_id))
    && (is_empty (opt_str session_id) || bool_decide (ep_session_id r = session_id))) (me_episodic m))))).

(** ** Facts *)

Definition add_semantic_entry (user_id text : string) (metadata : pydict) (kind : string) (confidence importance : fvalue)
    (fingerprint : option string) : M mem Z :=
  let* created := utc_now in
  not_null "semantic_memory" "confidence" confidence ;;;
  not_null "semantic_memory" "importance" importance ;;;
  let* id := gets (fun m => Z.of_nat (length (me_semantic m)) + 1) in
  modify (fun m => set_semantic (me_semantic m ++
    [SemanticRow id user_id text metadata kind confidence importance fingerprint true None created]) m) ;;;
  ret id.

Definition semantic_matches (user_id : string) (kind : option string) (active_only : bool) (r : semantic_row) : bool :=
  String.eqb (sm_user_id r) user_id && (is_empty (opt_str kind) || String.eqb (sm_kind r) (opt_str kind))
  && (negb active_only || sm_is_active r).

(** [ORDER BY id DESC LIMIT ?] *)
Definition list_semantic_entries (user_id : string) (kind : option string) (active_only : bool) (limit : Z) : M mem (list semantic_row) :=
  gets (fun m => limited limit (rev (List.filter (semantic_matches user_id kind active_only) (me_semantic m)))).

Definition get_semantic_entry (semantic_id : Z) (user_id : option string) : M mem (option semantic_row) :=
  gets (fun m => List.find (fun r => (sm_id r =? semantic_id)
    && (is_empty (opt_str user_id) || String.eqb (sm_user_id r) (opt_str user_id))) (me_semantic m)).

Definition retired_row (superseded_by : option Z) (r : semantic_row) : semantic_row :=
  SemanticRow (sm_id r) (sm_user_id r) (sm_text r) (sm_metadata r) (sm_kind r) (sm_confidence r) (sm_importance r) (sm_fingerprint r)
    false superseded_by (sm_created_at r).

Definition deactivate_semantic_entry (semantic_id : Z) (superseded_by : option Z) : M mem unit :=
  modify (fun m => set_semantic (map (fun r => if sm_id r =? semantic_id then retired_row superseded_by r else r) (me_semantic m)) m).

(** ** The profile *)

Definition profile_is (user_id key : string) (r : profile_row) : bool := String.eqb (um_user_id r) user_id && String.eqb (um_key r) key.

(** [INSERT ... ON CONFLICT(user_id, key) DO UPDATE] *)
Definition upsert_profile (row : profile_row) (rows : list profile_row) : list profile_row :=
  if existsb (profile_is (um_user_id row) (um_key row)) rows
  then map (fun r => if profile_is (um_user_id row) (um_key row) r then row else r) rows
  else rows ++ [row].

Definition set_user_memory (user_id key value : string) (confidence importance : fvalue) (source updated_at : option string) : M mem unit :=
  let* timestamp := (if is_empty (opt_str updated_at) then utc_now else ret (opt_str updated_at)) in
  not_null "user_memory" "confidence" confidence ;;;
  not_null "user_memory" "importance" importance ;;;
  modify (fun m => set_profile (upsert_profile (ProfileRow user_id key value timestamp confidence importance source) (me_profile m)) m).

(** [ORDER BY updated_at DESC] *)
Definition get_user_memory_items (user_id : string) : M mem (list profile_row) :=
  gets (fun m => sort_by (fun a b => String.leb (um_updated_at b) (um_updated_at a))
                   (List.filter (fun r => String.eqb (um_user_id r) user_id) (me_profile m))).

Definition get_user_memory_item (user_id key : string) : M mem (option profile_row) :=
  gets (fun m => List.find (profile_is user_id key) (me_profile m)).

(** ** Working notes *)

Definition working_is (user_id session_id key : string) (r : working_row) : bool :=
  String.eqb (wm_user_id r) user_id && String.eqb (wm_session_id r) session_id && String.eqb (wm_key r) key.

Definition upsert_working_memory (user_id session_id key value kind : string) (confidence importance : fvalue) : M mem unit :=
  let* updated := utc_now in
  not_null "working_memory" "confidence" confidence ;;;
  not_null "working_memory" "importance" importance ;;;
  let row := WorkingRow user_id session_id key value kind confidence importance true updated in
  modify (fun m => set_working
    (if existsb (working_is user_id session_id key) (me_working m)
     then map (fun r => if working_is user_id session_id key r then row else r) (me_working m)
     else me_working m ++ [row]) m).

Definition list_working_memory (user_id : string) (session_id : option string) (limit : Z) : M mem (list working_row) :=
  gets (fun m => limited limit (sort_by (fun a b => String.leb (wm_updated_at b) (wm_updated_at a))
    (List.filter (fun r => String.eqb (wm_user_id r) user_id
       && (is_empty (opt_str session_id) || String.eqb (wm_session_id r) (opt_str session_id)) && wm_is_active r) (me_working m)))).

Definition clear_working_memory_session (user_id session_id : string) : M mem unit :=
  let* updated := utc_now in
  modify (fun m => set_working (map (fun r =>
    if String.eqb (wm_user_id r) user_id && String.eqb (wm_session_id r) session_id
    then WorkingRow (wm_user_id r) (wm_session_id r) (wm_key r) (wm_value r) (wm_kind r) (wm_confidence r) (wm_importance r) false updated
    else r) (me_working m)) m).

(** ** Extractions and conflicts *)

Definition add_extraction_record (user_id : string) (agent_id session_id : option string) (source_role source_text : string)
    (extracted : pydict) : M mem Z :=
  let* created := utc_now in
  modify (fun m => set_extractions (me_extractions m ++
    [ExtractionRow user_id agent_id session_id source_role source_text extracted created]) m) ;;;
  gets (fun m => Z.of_nat (length (me_extractions m))).

Definition list_extraction_records (user_id : string) (limit : Z) : M mem (list extraction_row) :=
  gets (fun m => rev (limited limit (rev (List.filter (fun r => String.eqb (ex_user_id r) user_id) (me_extractions m))))).

Definition add_conflict_record (user_id layer key : string) (previous_value incoming_value : option string) (resolution : string)
    (confidence_prev confidence_new : option fvalue) : M mem Z :=
  let* created := utc_now in
  modify (fun m => set_conflicts (me_conflicts m ++
    [ConflictRow user_id layer key previous_value incoming_value resolution confidence_prev confidence_new created]) m) ;;;
  gets (fun m => Z.of_nat (length (me_conflicts m))).

Definition list_conflict_records (user_id : string) (limit : Z) : M mem (list conflict_row) :=
  gets (fun m => rev (limited limit (rev (List.filter (fun r => String.eqb (cf_user_id r) user_id) (me_conflicts m))))).

(** [TRIM(user_id) != ''] *)
Definition trims_to_nothing (s : string) : bool := is_empty (strip_by (Ascii.eqb " ") s).

(** [UNION] of the users of four tables, [ORDER BY user_id ASC LIMIT ?] *)
Definition list_memory_users (limit : Z) : M mem (list string) :=
  gets (fun m => limited limit (sort_strings (remove_dups (List.filter (fun u => negb (trims_to_nothing u))
    (map ep_user_id (me_episodic m) ++ map sm_user_id (me_semantic m) ++ map um_user_id (me_profile m) ++ map wm_user_id (me_working m)))))).

End database.
End MemoryStore.
