(* ===== verification/MemoryManager.v ===== *)
(** Memory of users (memory/memory_manager.py, semantic_memory.py,
    extraction_service.py, consolidation_worker.py): turns are recorded and
    mined for facts and preferences, contradictions are resolved by confidence, confidence in
    preferences decays with age, and duplicates are consolidated.

    [0.5 ** x] of the platform's C library is a parameter. *)

From stdpp Require Import prelude strings list.
From Stdlib Require Import Lia ZArith Ascii.
From S2P Require Import Prelude PyStr PyVal PyFloat PyFloatOps PyRegex Effects PyTime MemoryStore.
Import MemoryStore.

(** ** Extraction (memory/extraction_service.py): names, preferences and tasks
    that a text mentions, found by three regular expressions *)

Module MemoryExtraction.

Record ExtractionCandidate : Type := Candidate {
  xc_kind : string;
  xc_text : string;
  xc_key : option string;
  xc_value : option string;
  xc_confidence : fvalue }.

Record ExtractionResult : Type := Extraction {
  xr_facts : list ExtractionCandidate;
  xr_preferences : list ExtractionCandidate;
  xr_tasks : list ExtractionCandidate }.

Definition hundredths (n : Z) : fvalue := f_quot n 100.

(** ** The patterns, under [re.I] *)

Definition RSpaces1 : regex := RCat (RChar is_space) RSpaces.

(** [r{1,n}] *)
Fixpoint RUpTo (n : nat) (r : regex) : regex :=
  match n with O => REmpty | S O => r | S n' => RCat r (ROpt (RUpTo n' r)) end.

Definition is_letter (c : ascii) : bool := in_range 65 90 c || in_range 97 122 c.
Definition is_name_char (c : ascii) : bool := is_letter c || is_digit c || Ascii.eqb c "_" || Ascii.eqb c "-" || Ascii.eqb c " ".

(** [[A-Za-z][A-Za-z0-9_\- ]{1,40}] after an introduction *)
Definition name_re : regex :=
  RSeq [RWordBoundary; RAlts [RTextI "my name is"; RTextI "i am"; RTextI "i'm"]; RSpaces1;
        RGroup (RCat (RChar is_letter) (RUpTo 40 (RChar is_name_char)))].

(** [.] *)
Definition not_newline (c : ascii) : bool := negb (Ascii.eqb c "010").
Definition RRest : regex := RGroup (RCat (RChar not_newline) (RStar (RChar not_newline))).

Definition prefer_re : regex :=
  RSeq [RWordBoundary; RAlts [RTextI "i prefer"; RTextI "my favorite"; RTextI "i like"]; RSpaces1; RRest].
Definition task_re : regex :=
  RSeq [RWordBoundary; RAlts [RTextI "todo:"; RTextI "i need to"; RTextI "remind me to"]; RSpaces1; RRest].

(** [re.search] of a pattern: what the group of the first match holds *)
Fixpoint search_captured (accept : pos -> bool) (r : regex) (prev : option ascii) (s : string) : option string :=
  match List.find accept (ends r (Pos prev s None)) with
  | Some q => captured q
  | None => match s with EmptyString => None | String c s' => search_captured accept r (Some c) s' end
  end.

(** [$] at the end of a pattern: the end of the text or of its last line *)
Definition at_end (q : pos) : bool := String.eqb (rest q) "" || String.eqb (rest q) (String "010" "").
Definition anywhere (q : pos) : bool := true.

(** [.strip(" .,!?:;")] *)
Definition punctuation (c : ascii) : bool := existsb (Ascii.eqb c) [" "%char; "."%char; ","%char; "!"%char; "?"%char; ":"%char; ";"%char].

Definition extract (text : string) : ExtractionResult :=
  let normalized := strip text in
  let lowered := lower normalized in
  let facts := match search_captured anywhere name_re None normalized with
    | Some g => let value := strip g in [Candidate "fact" ("user_name=" +:+ value) (Some "name") (Some value) (hundredths 75)]
    | None => []
    end in
  let preferences := match search_captured at_end prefer_re None normalized with
    | Some g => let value := strip_by punctuation g in
                [Candidate "preference" ("preference=" +:+ value) (Some "preference") (Some value) (hundredths 70)]
    | None => []
    end in
  let tasks := match search_captured at_end task_re None lowered with
    | Some g => let task := strip_by punctuation g in [Candidate "task" task None (Some task) (hundredths 70)]
    | None => []
    end in
  Extraction facts preferences tasks.

End MemoryExtraction.
Import MemoryExtraction.

Module MemoryManager.

(** What the constructor keeps *)
Record settings : Type := Settings {
  has_working_memory : bool;
  has_telemetry : bool;
  profile_decay_enabled : bool;
  profile_decay_half_life_days : fvalue;
  profile_decay_floor : fvalue;
  profile_decay_min_delta : fvalue }.

Definition zero : fvalue := FFinite 0 0.
Definition unit_float : fvalue := FFinite 1 0.

Definition init_settings (working telemetry enabled : bool) (half_life floor min_delta : fvalue) : settings :=
  Settings working telemetry enabled (f_max unit_float half_life) (f_max zero (f_min unit_float floor)) (f_max zero min_delta).

Definition opt_pyfloat (o : option fvalue) : pyval := match o with Some f => PyF f | None => PNone end.
Definition pint (n : nat) : pyval := PInt (Z.of_nat n).

(** ** Reading a fact *)

(** The text after the first ["="] *)
Fixpoint after_equals (s : string) : option string :=
  match s with EmptyString => None | String c s' => if Ascii.eqb c "=" then Some s' else after_equals s' end.

(** [_fact_value_from_entry] *)
Definition fact_value_from_entry (r : semantic_row) : option string :=
  match get "fact_value" (sm_metadata r) with
  | PNone => match after_equals (sm_text r) with
             | Some t => Some (strip t)
             | None => if is_empty (sm_text r) then None else Some (sm_text r)
             end
  | v => Some (py_str v)
  end.

(** [str(metadata.get(key, "")).strip().lower()] *)
Definition metadata_word (key : string) (r : semantic_row) : string := lower (strip (py_str (get_or key (PStr "") (sm_metadata r)))).

(** [_semantic_group_key] *)
Definition semantic_group_key (r : semantic_row) : string :=
  let fact_key := metadata_word "fact_key" r in
  if negb (is_empty fact_key) then "fact:" +:+ fact_key
  else
    let fingerprint := metadata_word "fingerprint" r in
    if negb (is_empty fingerprint) then "fp:" +:+ fingerprint
    else
      let text := lower (strip (sm_text r)) in
      if negb (is_empty text) then "text:" +:+ String.substring 0 120 text else "id:" +:+ str_of_Z (sm_id r).

(** [_semantic_value_key] *)
Definition semantic_value_key (r : semantic_row) : string :=
  match get "fact_value" (sm_metadata r) with
  | PNone => "text:" +:+ String.substring 0 160 (lower (strip (sm_text r)))
  | v => "value:" +:+ lower (strip (py_str v))
  end.

(** [grouped.setdefault(key, []).append(item)] over a list *)
Definition group_by {A} (key : A -> string) (items : list A) : dict (list A) :=
  fold_left (fun groups x => d_set (key x) (default [] (d_get (key x) groups) ++ [x]) groups) items [].

(** [(score, confidence, importance, created_at, id)] *)
Definition rank : Type := fvalue * fvalue * fvalue * string * Z.
Definition rank_lt (a b : rank) : bool :=
  let '(s1, c1, i1, t1, n1) := a in let '(s2, c2, i2, t2, n2) := b in
  f_lt s1 s2 || (same_float s1 s2 && (f_lt c1 c2 || (same_float c1 c2 && (f_lt i1 i2 || (same_float i1 i2 &&
    (String.ltb t1 t2 || (String.eqb t1 t2 && (n1 <? n2)))))))).

Definition us_per_second : Z := 1000000.
(** [timedelta.total_seconds()] of a number of microseconds *)
Definition total_seconds (us : Z) : fvalue := f_quot us us_per_second.
Definition seconds_per_day : fvalue := FFinite 86400 0.

(** [_parse_iso_datetime] on the times the database writes *)
Definition parse_time (value : string) : option Z :=
  let raw := strip value in
  if is_empty raw then None
  else fromisoformat (match String.get (String.length raw - 1) raw with
                      | Some "Z"%char => String.substring 0 (String.length raw - 1) raw +:+ "+00:00"
                      | _ => raw
                      end).

Section manager.
Context (clock : nat -> Z) (sha256 : string -> string) (half_power : fvalue -> fvalue) (cfg : settings).

(** [_emit] *)
Definition emit (event_type : string) (payload : pydict) : M mem unit :=
  when (has_telemetry cfg) (modify (add_memory_event (event_type, payload))).

(** [_fingerprint] *)
Definition fingerprint (text : string) : string := sha256 (lower (strip text)).

(** ** [SemanticMemory.add] *)

Definition semantic_add (user_id text : string) (metadata : pydict) (kind : string) (confidence importance : fvalue) (fp : option string) :
    M mem Z :=
  let entry_metadata := d_set "user_id" (PStr user_id) metadata in
  let* semantic_id := add_semantic_entry clock user_id text entry_metadata kind confidence importance fp in
  modify (fun m => set_vectors (me_vectors m ++ [(text,
    d_set "fingerprint" (pnone_or_str fp) (d_set "importance" (PyF importance) (d_set "confidence" (PyF confidence)
      (d_set "kind" (PStr kind) (d_set "semantic_id" (PInt semantic_id) entry_metadata)))))]) m) ;;;
  ret semantic_id.

(** [_record_conflict] *)
Definition record_conflict (user_id layer key : string) (previous_value incoming_value : option string) (resolution : string)
    (confidence_prev confidence_new : option fvalue) : M mem unit :=
  add_conflict_record clock user_id layer key previous_value incoming_value resolution confidence_prev confidence_new ;;;
  emit "memory_conflict"
    [("user_id", PStr user_id); ("layer", PStr layer); ("key", PStr key); ("resolution", PStr resolution);
     ("confidence_prev", opt_pyfloat confidence_prev); ("confidence_new", opt_pyfloat confidence_new)].

(** ** Decay *)

Definition sensitivity_of (source : option string) : fvalue :=
  let normalized := lower (strip (opt_str source)) in
  if starts_with "extraction:" normalized then hundredths 135
  else if substr_in "user_preference" normalized || substr_in "manual" normalized then hundredths 60
  else if starts_with "system:" normalized then hundredths 85
  else unit_float.

(** [max(0.0, min(1.0, v))] *)
Definition clamp01 (v : fvalue) : fvalue := f_max zero (f_min unit_float v).

(** The days since a time *)
Definition age_days (timestamp : Z) : M mem fvalue :=
  let* now := now_utc clock in
  ret (f_max zero (f_div (total_seconds (now - timestamp)) seconds_per_day)).

(** [_profile_decay_metrics]: effective confidence, factor and age *)
Definition profile_decay_metrics (confidence : fvalue) (updated_at : string) (source : option string) : M mem (fvalue * fvalue * fvalue) :=
  let base := clamp01 confidence in
  if negb (profile_decay_enabled cfg) then ret (base, unit_float, zero)
  else match parse_time updated_at with
  | None => ret (base, unit_float, zero)
  | Some timestamp =>
      let* age := age_days timestamp in
      let effective_half_life := f_max unit_float (f_div (profile_decay_half_life_days cfg) (sensitivity_of source)) in
      let decay_factor := half_power (f_div age effective_half_life) in
      let floor_value := f_min base (profile_decay_floor cfg) in
      let effective := f_max floor_value (f_mul base decay_factor) in
      ret (clamp01 effective, clamp01 decay_factor, age)
  end.

(** ** Preferences *)

Definition set_user_preference (user_id key value : string) (confidence importance : fvalue) (source : string) : M mem string :=
  let* previous := get_user_memory_item user_id key in
  match previous with
  | None =>
      set_user_memory clock user_id key value confidence importance (Some source) None ;;;
      ret "created"
  | Some p =>
      let* metrics := profile_decay_metrics (um_confidence p) (um_updated_at p) (um_source p) in
      let previous_effective := fst (fst metrics) in
      if String.eqb (um_value p) value then
        when (f_lt (f_add previous_effective (hundredths 1)) confidence)
          (set_user_memory clock user_id key value (f_max confidence (um_confidence p)) importance (Some source) None) ;;;
        ret "same_value"
      else if f_lt (f_add confidence (hundredths 5)) previous_effective then
        record_conflict user_id "profile" key (Some (um_value p)) (Some value) "kept_previous_higher_confidence"
          (Some previous_effective) (Some confidence) ;;;
        ret "kept_previous_higher_confidence"
      else
        set_user_memory clock user_id key value confidence importance (Some source) None ;;;
        record_conflict user_id "profile" key (Some (um_value p)) (Some value) "incoming_overwrites_previous"
          (Some previous_effective) (Some confidence) ;;;
        ret "incoming_overwrites_previous"
  end.

(** ** Facts *)

(** [_latest_fact_by_key]: among the latest 200 *)
Definition latest_fact_by_key (user_id fact_key : string) : M mem (option semantic_row) :=
  let* items := list_semantic_entries user_id (Some "fact") true 200 in
  ret (List.find (fun r => String.eqb (py_str (get_or "fact_key" (PStr "") (sm_metadata r))) fact_key) items).

(** [_upsert_fact_candidate] of a fact that has a value *)
Definition upsert_fact_candidate (user_id : string) (agent_id : option string) (source_role : string) (fact : ExtractionCandidate) : M mem Z :=
  let metadata := [("agent_id", pnone_or_str agent_id); ("source_role", PStr source_role); ("fact_key", pnone_or_str (xc_key fact));
                   ("fact_value", pnone_or_str (xc_value fact))] in
  let add md := semantic_add user_id (xc_text fact) md "fact" (xc_confidence fact) (hundredths 70) (Some (fingerprint (xc_text fact))) in
  let* previous := (if is_empty (opt_str (xc_key fact)) then ret None else latest_fact_by_key user_id (opt_str (xc_key fact))) in
  match previous with
  | None => add metadata
  | Some p =>
      let previous_value := fact_value_from_entry p in
      let supersede :=
        (let* semantic_id := add (d_set "supersedes" (PInt (sm_id p)) metadata) in
         deactivate_semantic_entry (sm_id p) (Some semantic_id) ;;;
         ret semantic_id) in
      if bool_decide (previous_value = xc_value fact) then
        if f_le (xc_confidence fact) (sm_confidence p) then ret (sm_id p) else supersede
      else if f_lt (f_add (xc_confidence fact) (hundredths 5)) (sm_confidence p) then
        record_conflict user_id "semantic" (opt_str (xc_key fact)) previous_value (xc_value fact) "kept_previous_higher_confidence"
          (Some (sm_confidence p)) (Some (xc_confidence fact)) ;;;
        ret (sm_id p)
      else
        let* semantic_id := supersede in
        record_conflict user_id "semantic" (opt_str (xc_key fact)) previous_value (xc_value fact) "incoming_overwrites_previous"
          (Some (sm_confidence p)) (Some (xc_confidence fact)) ;;;
        ret semantic_id
  end.

Definition remember_fact (user_id text : string) (metadata : option pydict) : M mem Z :=
  semantic_add user_id text (default [] metadata) "fact" (hundredths 70) (hundredths 60) (Some (fingerprint text)).

(** ** Turns *)

Definition candidate_dict (c : ExtractionCandidate) : pyval :=
  PDict [("kind", PStr (xc_kind c)); ("text", PStr (xc_text c)); ("key", pnone_or_str (xc_key c)); ("value", pnone_or_str (xc_value c));
         ("confidence", PyF (xc_confidence c))].
Definition extraction_dict (x : ExtractionResult) : pydict :=
  [("facts", PList (map candidate_dict (xr_facts x))); ("preferences", PList (map candidate_dict (xr_preferences x)));
   ("tasks", PList (map candidate_dict (xr_tasks x)))].

Fixpoint put_tasks (user_id session_id : string) (index : nat) (tasks : list ExtractionCandidate) : M mem unit :=
  match tasks with
  | [] => ret tt
  | t :: tasks' =>
      when (negb (is_empty (opt_str (xc_value t))))
        (upsert_working_memory clock user_id session_id
           ("task_" +:+ str_of_Z (Z.of_nat index) +:+ "_" +:+ String.substring 0 10 (fingerprint (opt_str (xc_value t))))
           (opt_str (xc_value t)) "task_hint" (xc_confidence t) (hundredths 80)) ;;;
      put_tasks user_id session_id (S index) tasks'
  end.

Definition in_session (session_id : option string) : bool := has_working_memory cfg && negb (is_empty (opt_str session_id)).

(** [_apply_extraction] *)
Definition apply_extraction (user_id : string) (agent_id session_id : option string) (source_role source_text : string)
    (x : ExtractionResult) : M mem unit :=
  when (existsb (fun kv => truthy (snd kv)) (extraction_dict x))
    (add_extraction_record clock user_id agent_id session_id source_role source_text (extraction_dict x) ;;;
     emit "memory_extract"
       [("user_id", PStr user_id); ("agent_id", pnone_or_str agent_id); ("session_id", pnone_or_str session_id);
        ("source_role", PStr source_role); ("facts", pint (length (xr_facts x))); ("preferences", pint (length (xr_preferences x)));
        ("tasks", pint (length (xr_tasks x)))]) ;;;
  for_each (xr_facts x) (fun fact =>
    when (negb (is_empty (opt_str (xc_value fact)))) (upsert_fact_candidate user_id agent_id source_role fact ;;; ret tt)) ;;;
  for_each (xr_preferences x) (fun p =>
    when (negb (is_empty (opt_str (xc_key p))) && negb (is_empty (opt_str (xc_value p))))
      (set_user_preference user_id (opt_str (xc_key p)) (opt_str (xc_value p)) (xc_confidence p) (hundredths 80)
         ("extraction:" +:+ source_role) ;;; ret tt)) ;;;
  when (in_session session_id) (put_tasks user_id (opt_str session_id) 0 (xr_tasks x)).

Definition ingest_turn (role note : string) (confidence importance note_importance : fvalue) (user_id : string)
    (agent_id session_id : option string) (content : string) : M mem ExtractionResult :=
  add_episodic_event clock user_id agent_id role content session_id "interaction" confidence importance (Some (fingerprint content)) ;;;
  when (in_session session_id)
    (upsert_working_memory clock user_id (opt_str session_id) note content "recent_turn" confidence note_importance) ;;;
  let extracted := extract content in
  apply_extraction user_id agent_id session_id role content extracted ;;;
  ret extracted.

Definition ingest_user_turn : string -> option string -> option string -> string -> M mem ExtractionResult :=
  ingest_turn "user" "last_user_message" unit_float (hundredths 80) (hundredths 90).
Definition ingest_assistant_turn : string -> option string -> option string -> string -> M mem ExtractionResult :=
  ingest_turn "assistant" "last_assistant_message" (hundredths 95) (hundredths 60) (hundredths 70).

Definition add_interaction (user_id : string) (agent_id : option string) (role content : string) (session_id : option string) : M mem unit :=
  if String.eqb role "user" then ingest_user_turn user_id agent_id session_id content ;;; ret tt
  else if String.eqb role "assistant" then ingest_assistant_turn user_id agent_id session_id content ;;; ret tt
  else add_episodic_event clock user_id agent_id role content session_id "interaction" (hundredths 80) (hundredths 50)
         (Some (fingerprint content)).

(** ** Consolidation *)

(** [_semantic_recency_score] *)
Definition semantic_recency_score (created_at : string) : M mem fvalue :=
  match parse_time created_at with
  | None => ret (hundredths 50)
  | Some timestamp =>
      let* age := age_days timestamp in
      ret (f_div unit_float (f_add unit_float (f_div age (FFinite 7 0))))
  end.

(** [_semantic_rank_key] *)
Definition semantic_rank_key (r : semantic_row) : M mem rank :=
  let* recency := semantic_recency_score (sm_created_at r) in
  let score := f_add (f_add (f_mul (hundredths 55) (sm_confidence r)) (f_mul (hundredths 25) (sm_importance r))) (f_mul (hundredths 20) recency) in
  ret (score, sm_confidence r, sm_importance r, sm_created_at r, sm_id r).

Fixpoint rank_all (items : list semantic_row) : M mem (list (rank * semantic_row)) :=
  match items with
  | [] => ret []
  | r :: items' =>
      let* k := semantic_rank_key r in
      let* rest := rank_all items' in
      ret ((k, r) :: rest)
  end.

(** [sorted(items, key=self._semantic_rank_key, reverse=True)] *)
Definition ranked (items : list semantic_row) : M mem (list semantic_row) :=
  let* keyed := rank_all items in
  ret (map snd (sort_by (fun a b => negb (rank_lt (fst a) (fst b))) keyed)).

(** One entry gives way to another; did it? *)
Definition retire (user_id group_key resolution : string) (winner loser : semantic_row) : M mem bool :=
  if (sm_id loser <=? 0) || (sm_id loser =? sm_id winner) then ret false
  else
    deactivate_semantic_entry (sm_id loser) (if 0 <? sm_id winner then Some (sm_id winner) else None) ;;;
    record_conflict user_id "semantic" group_key (fact_value_from_entry loser) (fact_value_from_entry winner) resolution
      (Some (sm_confidence loser)) (Some (sm_confidence winner)) ;;;
    ret true.

Fixpoint retire_all (user_id group_key resolution : string) (winner : semantic_row) (losers : list semantic_row) : M mem Z :=
  match losers with
  | [] => ret 0
  | r :: losers' =>
      let* did := retire user_id group_key resolution winner r in
      let* more := retire_all user_id group_key resolution winner losers' in
      ret ((if did then 1 else 0) + more)
  end.

(** The entries with one value: the best of them, and how many gave way *)
Fixpoint value_winners (user_id group_key : string) (value_groups : list (list semantic_row)) : M mem (list semantic_row * Z) :=
  match value_groups with
  | [] => ret ([], 0)
  | items :: groups' =>
      let* order := ranked items in
      match order with
      | [] => value_winners user_id group_key groups'
      | winner :: redundant =>
          let* n := retire_all user_id group_key "consolidated_redundant_value" winner redundant in
          let* more := value_winners user_id group_key groups' in
          ret (winner :: fst more, n + snd more)
      end
  end.

(** A group of two or more: how many gave way, and how many of them for a
    better entry with the same value *)
Definition consolidate_group (user_id group_key : string) (items : list semantic_row) : M mem (Z * Z) :=
  let* found := value_winners user_id group_key (d_values (group_by semantic_value_key items)) in
  let* order := ranked (fst found) in
  match order with
  | [] => ret (snd found, snd found)
  | winner :: losers =>
      let* n := retire_all user_id group_key "consolidated_duplicate" winner losers in
      ret (snd found + n, snd found)
  end.

Fixpoint consolidate_groups (user_id : string) (groups : dict (list semantic_row)) : M mem (Z * Z * Z) :=
  match groups with
  | [] => ret (0, 0, 0)
  | (key, items) :: groups' =>
      if (length items <=? 1)%nat then consolidate_groups user_id groups'
      else
        let* here := consolidate_group user_id key items in
        let* more := consolidate_groups user_id groups' in
        let '(duplicates, deactivated, redundant) := more in
        ret (duplicates + 1, fst here + deactivated, snd here + redundant)
  end.

(** The profile entries whose confidence has decayed: how many, and by how
    much in all *)
Fixpoint decayed_profile (items : list profile_row) (candidates : Z) (total : fvalue) : M mem (Z * fvalue) :=
  match items with
  | [] => ret (candidates, total)
  | p :: items' =>
      let* metrics := profile_decay_metrics (um_confidence p) (um_updated_at p) (um_source p) in
      let delta := f_max zero (f_sub (um_confidence p) (fst (fst metrics))) in
      if f_le (profile_decay_min_delta cfg) delta then decayed_profile items' (candidates + 1) (f_add total delta)
      else decayed_profile items' candidates total
  end.

Record summary : Type := Summary {
  su_user_id : string;
  su_session_id : option string;
  su_consolidated_at : string;
  su_semantic_scanned : Z;
  su_semantic_groups : Z;
  su_semantic_groups_with_duplicates : Z;
  su_semantic_deactivated : Z;
  su_semantic_redundant_value_deactivated : Z;
  su_working_items_scanned : Z;
  su_profile_items_scanned : Z;
  su_profile_decay_candidates : Z;
  su_profile_decay_avg_delta : fvalue;
  su_conflicts_recorded : Z }.

Definition consolidate_user_memory (user_id : string) (session_id : option string) (semantic_limit : Z) : M mem summary :=
  let limit := Z.max 10 (Z.min semantic_limit 5000) in
  let* items := list_semantic_entries user_id (Some "fact") true limit in
  let grouped := group_by semantic_group_key items in
  let* counts := consolidate_groups user_id grouped in
  let '(duplicates, deactivated, redundant) := counts in
  let* working := (if in_session session_id then list_working_memory user_id session_id 128 else ret []) in
  let* profile := get_user_memory_items user_id in
  let* decay := decayed_profile profile 0 zero in
  let average := if 0 <? fst decay then f_round 6 (f_div (snd decay) (f_int (fst decay))) else zero in
  let* at_time := utc_now clock in
  emit "memory_consolidate"
    [("user_id", PStr user_id); ("session_id", pnone_or_str session_id); ("semantic_scanned", pint (length items));
     ("semantic_deactivated", PInt deactivated); ("semantic_redundant_value_deactivated", PInt redundant);
     ("profile_items_scanned", pint (length profile)); ("profile_decay_candidates", PInt (fst decay));
     ("conflicts_recorded", PInt deactivated)] ;;;
  ret (Summary user_id session_id at_time (Z.of_nat (length items)) (Z.of_nat (length grouped)) duplicates deactivated redundant
         (Z.of_nat (length working)) (Z.of_nat (length profile)) (fst decay) average deactivated).

(** ** The consolidation worker *)

Record worker_totals : Type := Totals {
  to_users_seen : Z;
  to_users_processed : Z;
  to_semantic_deactivated : Z;
  to_conflicts_recorded : Z;
  to_profile_decay_candidates : Z }.

Fixpoint consolidate_users (semantic_limit : Z) (users : list string) (t : worker_totals) : M mem worker_totals :=
  match users with
  | [] => ret t
  | u :: users' =>
      let* done_ := try_except (let* s := consolidate_user_memory u None semantic_limit in ret (Some s)) (fun _ => ret None) in
      consolidate_users semantic_limit users'
        (match done_ with
         | Some s => Totals (to_users_seen t) (to_users_processed t + 1) (to_semantic_deactivated t + su_semantic_deactivated s)
                       (to_conflicts_recorded t + su_conflicts_recorded s)
                       (to_profile_decay_candidates t + su_profile_decay_candidates s)
         | None => t
         end)
  end.

(** [MemoryConsolidationWorker.run_once] with the limits its constructor
    keeps *)
Definition run_once (semantic_limit max_users_per_tick : Z) : M mem worker_totals :=
  let* users := list_memory_users (Z.max 1 max_users_per_tick) in
  let* t := consolidate_users (Z.max 100 semantic_limit) users (Totals (Z.of_nat (length users)) 0 0 0 0) in
  emit "memory_consolidation_tick"
    [("users_seen", PInt (to_users_seen t)); ("users_processed", PInt (to_users_processed t));
     ("semantic_deactivated_total", PInt (to_semantic_deactivated t)); ("conflicts_recorded_total", PInt (to_conflicts_recorded t));
     ("profile_decay_candidates_total", PInt (to_profile_decay_candidates t))] ;;;
  ret t.

End manager.
End MemoryManager.
