(* ===== verification/MemoryFacts.v ===== *)
(** Consolidation of facts: whatever was said before, one entry of each group
    stays, the others name an entry of their group that replaced them, and
    nothing outside the scanned entries changes. *)

From stdpp Require Import prelude strings list.
From Stdlib Require Import Lia ZArith Ascii.
From S2P Require Import Prelude PyStr PyVal PyFloat PyFloatOps Effects PyTime MemoryStore MemoryManager.
Import MemoryStore MemoryExtraction MemoryManager.

Module MemoryFacts.

(** ** Grouping *)

Section grouping.
Context {A : Type} (key : A -> string).

Definition of_key (k : string) (x : A) : bool := String.eqb (key x) k.

(** Grouping is the partition by key. *)
Lemma group_by_get items k :
  d_get k (group_by key items) = match List.filter (of_key k) items with [] => None | l => Some l end.
Proof.
  unfold group_by. induction items as [|x items IH] using rev_ind; [done|].
  rewrite fold_left_app, List.filter_app. simpl. rewrite d_get_set. unfold of_key at 2.
  destruct (String.eqb_spec (key x) k) as [<-|Hk].
  - rewrite IH. destruct (List.filter (of_key (key x)) items); done.
  - by rewrite app_nil_r.
Qed.

Lemma group_by_keys_NoDup items : NoDup (d_keys (group_by key items)).
Proof.
  unfold group_by. induction items as [|x items IH] using rev_ind; [constructor|].
  rewrite fold_left_app. simpl. by apply d_set_NoDup.
Qed.

Lemma group_by_elem items k l : (k, l) ∈ group_by key items -> l = List.filter (of_key k) items /\ l <> [].
Proof.
  intros H. apply (d_elem_get _ _ _ (group_by_keys_NoDup items)) in H. rewrite group_by_get in H.
  destruct (List.filter (of_key k) items); by simplify_eq.
Qed.

Lemma group_by_has items x :
  x ∈ items -> (key x, List.filter (of_key (key x)) items) ∈ group_by key items.
Proof.
  intros H. apply d_get_elem. rewrite group_by_get.
  assert (x ∈ List.filter (of_key (key x)) items) as Hx.
  { apply list_elem_of_In, List.filter_In. split; [by apply list_elem_of_In|apply String.eqb_refl]. }
  destruct (List.filter (of_key (key x)) items); [by apply elem_of_nil in Hx|done].
Qed.

Lemma d_set_perm k (x : A) (d : dict (list A)) :
  concat (d_values (d_set k (default [] (d_get k d) ++ [x]) d)) ≡ₚ x :: concat (d_values d).
Proof.
  induction d as [|[k' l] d IH]; simpl; [done|].
  destruct (String.eqb k k'); simpl; [rewrite <- app_assoc; symmetry; apply Permutation_middle|].
  rewrite IH. symmetry. apply Permutation_middle.
Qed.

Lemma group_by_perm items : concat (d_values (group_by key items)) ≡ₚ items.
Proof.
  unfold group_by. induction items as [|x items IH] using rev_ind; [done|].
  rewrite fold_left_app. simpl. rewrite d_set_perm, IH. by rewrite Permutation_app_comm.
Qed.

Lemma group_by_nonempty items : Forall (fun l => l <> []) (d_values (group_by key items)).
Proof.
  apply Forall_forall. intros l Hl. apply list_elem_of_fmap in Hl as ([k l'] & -> & H).
  by apply group_by_elem in H as [_ H].
Qed.
End grouping.

(** ** Retirements *)

(** A retirement names the entry and the one that replaces it. *)
Abbreviation retirement := (Z * Z)%type.

Definition retire_row (plan : list retirement) (r : semantic_row) : semantic_row :=
  fold_left (fun r p => if sm_id r =? fst p then retired_row (Some (snd p)) r else r) plan r.

(** What a run did to the facts and to the log of conflicts. *)
Definition did (plan : list retirement) (m m' : mem) : Prop :=
  me_semantic m' = map (retire_row plan) (me_semantic m)
  /\ length (me_conflicts m') = (length (me_conflicts m) + length plan)%nat
  /\ me_profile m' = me_profile m /\ me_working m' = me_working m.

Lemma did_nothing m m' :
  me_semantic m' = me_semantic m -> me_conflicts m' = me_conflicts m -> me_profile m' = me_profile m ->
  me_working m' = me_working m -> did [] m m'.
Proof. intros H1 H2 H3 H4. unfold did. rewrite H1, H2, H3, H4, map_id. simpl. auto with lia. Qed.

Lemma did_app p q m1 m2 m3 : did p m1 m2 -> did q m2 m3 -> did (p ++ q) m1 m3.
Proof.
  intros (A1 & A2 & A3 & A4) (B1 & B2 & B3 & B4). unfold did. rewrite B1, B2, B3, B4, A1, A2, A3, A4, map_map, length_app.
  split_and!; [|lia|done|done]. apply map_ext. intros r. unfold retire_row. by rewrite fold_left_app.
Qed.

Lemma retire_row_id plan r : sm_id (retire_row plan r) = sm_id r.
Proof. unfold retire_row. revert r. induction plan as [|p plan IH]; intros r; [done|]. simpl. rewrite IH. by destruct (_ =? _). Qed.

Lemma retire_row_not plan r : sm_id r ∉ plan.*1 -> retire_row plan r = r.
Proof.
  unfold retire_row. induction plan as [|[l w] plan IH]; intros H; [done|]. simpl in *. apply not_elem_of_cons in H as [H1 H2].
  destruct (Z.eqb_spec (sm_id r) l); [done|]. by apply IH.
Qed.

Lemma retire_row_in plan r w :
  NoDup plan.*1 -> (sm_id r, w) ∈ plan -> retire_row plan r = retired_row (Some w) r.
Proof.
  unfold retire_row. induction plan as [|[l v] plan IH]; intros Hn H; [by apply elem_of_nil in H|].
  simpl in *. apply NoDup_cons in Hn as [Hl Hn]. apply elem_of_cons in H as [H|H].
  - simplify_eq/=. rewrite Z.eqb_refl. by apply (retire_row_not plan (retired_row (Some v) r)).
  - destruct (Z.eqb_spec (sm_id r) l) as [<-|]; [|by apply IH].
    destruct Hl. apply list_elem_of_fmap. by exists (sm_id r, w).
Qed.

(** ** Runs that do not raise *)

Definition finishes {A} (c : M mem A) (m : mem) (Q : A -> mem -> Prop) : Prop :=
  match c m with (Ok a, m') => Q a m' | (Err _, _) => False end.

Lemma finishes_bind {A B} (c : M mem A) (f : A -> M mem B) m Q' Q :
  finishes c m Q' -> (forall a m', Q' a m' -> finishes (f a) m' Q) -> finishes (bind c f) m Q.
Proof. unfold finishes, bind. intros H1 H2. destruct (c m) as [[a|] m']; [by apply H2|done]. Qed.

Lemma finishes_conseq {A} (c : M mem A) m (Q Q' : A -> mem -> Prop) :
  finishes c m Q' -> (forall a m', Q' a m' -> Q a m') -> finishes c m Q.
Proof. unfold finishes. intros H1 H2. destruct (c m) as [[a|] m']; [by apply H2|done]. Qed.

Lemma finishes_ret {A} (a : A) m (Q : A -> mem -> Prop) : Q a m -> finishes (ret a) m Q.
Proof. done. Qed.

Lemma finishes_run {A} (c : M mem A) m Q : finishes c m Q -> exists a m', c m = (Ok a, m') /\ Q a m'.
Proof. unfold finishes. destruct (c m) as [[a|] m'] eqn:E; [by eexists _, _|done]. Qed.

(** A run that only reads the tables. *)
Definition reads {A} (c : M mem A) : Prop := forall m, finishes c m (fun _ m' => did [] m m').

Lemma did_refl m : did [] m m.
Proof. by apply did_nothing. Qed.
Lemma did_trans m1 m2 m3 : did [] m1 m2 -> did [] m2 m3 -> did [] m1 m3.
Proof. apply did_app. Qed.
Lemma reads_ret {A} (a : A) : reads (ret a).
Proof. intros m. apply did_refl. Qed.
Lemma reads_gets {A} (f : mem -> A) : reads (gets f).
Proof. intros m. apply did_refl. Qed.
Lemma reads_bind {A B} (c : M mem A) (f : A -> M mem B) : reads c -> (forall a, reads (f a)) -> reads (bind c f).
Proof.
  intros Hc Hf m. eapply finishes_bind; [apply Hc|]. intros a m' H.
  eapply finishes_conseq; [apply Hf|]. intros b m'' H'. exact (did_trans m m' m'' H H').
Qed.
Lemma reads_clock clock : reads (now_utc clock).
Proof. intros m. by apply did_nothing. Qed.

Create HintDb memory.
#[export] Hint Resolve reads_ret reads_gets reads_bind reads_clock did_refl : memory.
#[export] Hint Extern 1 (reads (match ?x with _ => _ end)) => destruct x : memory.

Section consolidation.
Context (clock : nat -> Z) (half_power : fvalue -> fvalue) (cfg : settings).

Lemma reads_age t : reads (age_days clock t).
Proof. unfold age_days. auto with memory. Qed.

Lemma reads_rank_key r : reads (semantic_rank_key clock r).
Proof. unfold semantic_rank_key, semantic_recency_score. pose proof reads_age. auto 8 with memory. Qed.

Lemma reads_decay c u s : reads (profile_decay_metrics clock half_power cfg c u s).
Proof. unfold profile_decay_metrics. pose proof reads_age. auto 8 with memory. Qed.

Lemma reads_emit event payload : reads (emit cfg event payload).
Proof. unfold emit, when. intros m. destruct (has_telemetry cfg); by apply did_nothing. Qed.

Lemma reads_decayed_profile items n total : reads (decayed_profile clock half_power cfg items n total).
Proof.
  revert n total. induction items as [|p items IH]; intros n total; [apply reads_ret|].
  apply reads_bind; [apply reads_decay|]. intros a. cbn zeta. case_match; apply IH.
Qed.

Lemma rank_all_done items m :
  finishes (rank_all clock items) m (fun keyed m' => map snd keyed = items /\ did [] m m').
Proof.
  revert m. induction items as [|r items IH]; intros m; [by split; [|apply did_refl]|].
  eapply finishes_bind; [apply reads_rank_key|]. intros k m1 H1.
  eapply finishes_bind; [apply IH|]. intros rest m2 [<- H2].
  apply finishes_ret. split; [done|]. exact (did_trans m m1 m2 H1 H2).
Qed.

(** Ranking orders the entries and changes nothing. *)
Lemma ranked_done items m :
  finishes (ranked clock items) m (fun order m' => order ≡ₚ items /\ did [] m m').
Proof.
  eapply finishes_bind; [apply rank_all_done|]. intros keyed m1 [<- H1]. apply finishes_ret.
  split; [|done]. apply Permutation_map, sort_by_perm.
Qed.

Lemma retire_done user_id group_key resolution winner loser m :
  0 < sm_id loser -> 0 < sm_id winner -> sm_id loser <> sm_id winner ->
  finishes (retire clock cfg user_id group_key resolution winner loser) m
    (fun b m' => b = true /\ did [(sm_id loser, sm_id winner)] m m').
Proof.
  intros Hl Hw Hd. unfold retire. rewrite (proj2 (Z.leb_gt _ _)), (proj2 (Z.eqb_neq _ _)), (proj2 (Z.ltb_lt _ _)) by done.
  simpl. unfold finishes, record_conflict, emit, when. unfold bind, modify, gets, ret; simpl.
  destruct (has_telemetry cfg); simpl; (split; [done|]); unfold did; simpl; rewrite length_app; simpl; split_and!; done || lia.
Qed.

Lemma retire_all_done user_id group_key resolution winner losers m :
  0 < sm_id winner -> Forall (fun r => 0 < sm_id r /\ sm_id r <> sm_id winner) losers ->
  finishes (retire_all clock cfg user_id group_key resolution winner losers) m
    (fun n m' => n = Z.of_nat (length losers) /\ did (map (fun r => (sm_id r, sm_id winner)) losers) m m').
Proof.
  intros Hw. revert m. induction losers as [|r losers IH]; intros m Hl; [by split; [|apply did_refl]|].
  apply Forall_cons in Hl as [[H1 H2] Hl].
  eapply finishes_bind; [by apply retire_done|]. intros b m1 [-> D1].
  eapply finishes_bind; [by apply IH|]. intros n m2 [-> D2].
  apply finishes_ret. split; [simpl; lia|]. by apply (did_app [_] _ m m1 m2).
Qed.
(** Entries with distinct identifiers that count from one. *)
Abbreviation ids := (map sm_id).
Definition numbered (l : list Z) : Prop := NoDup l /\ Forall (fun n => 0 < n) l.

Lemma numbered_perm l l' : l ≡ₚ l' -> numbered l -> numbered l'.
Proof. intros H [H1 H2]. split; [by rewrite <- H|by rewrite <- H]. Qed.
Lemma numbered_app l l' : numbered (l ++ l') -> numbered l /\ numbered l'.
Proof. intros [H1 H2]. apply NoDup_app in H1 as (A & _ & B). apply Forall_app in H2 as [C D]. done. Qed.

Lemma plan_losers (w : semantic_row) losers : (map (fun r => (sm_id r, sm_id w)) losers).*1 = ids losers.
Proof. induction losers as [|r losers IH]; [done|]. cbn. f_equal. exact IH. Qed.

(** The best of some entries replaces the others. *)
Lemma best_done user_id group_key resolution winner losers m :
  numbered (ids (winner :: losers)) ->
  finishes (retire_all clock cfg user_id group_key resolution winner losers) m
    (fun n m' => exists plan, did plan m m' /\ n = Z.of_nat (length plan) /\ plan.*1 = ids losers /\
       (forall p, p ∈ plan -> snd p = sm_id winner)).
Proof.
  intros [H1 H2]. simpl in *. apply NoDup_cons in H1 as [H1 _]. apply Forall_cons in H2 as [H2 H3].
  eapply finishes_conseq.
  - apply retire_all_done; [done|]. apply Forall_forall. intros r Hr.
    assert (sm_id r ∈ ids losers) as Hin by (apply list_elem_of_fmap; eauto).
    split; [by eapply Forall_forall in H3|]. intros E. by rewrite E in Hin.
  - intros n m' [-> D]. eexists. split; [done|]. rewrite length_map, plan_losers. split_and!; [done..|].
    intros p Hp. by apply list_elem_of_fmap in Hp as (r & -> & _).
Qed.

Lemma value_winners_done user_id group_key groups m :
  Forall (fun l => l <> []) groups -> numbered (ids (concat groups)) ->
  finishes (value_winners clock cfg user_id group_key groups) m
    (fun found m' => exists plan, did plan m m' /\ snd found = Z.of_nat (length plan) /\
       ids (fst found) ++ plan.*1 ≡ₚ ids (concat groups) /\ (forall p, p ∈ plan -> snd p ∈ ids (concat groups)) /\
       length (fst found) = length groups).
Proof.
  revert m. induction groups as [|items groups IH]; intros m Hne Hn.
  { exists []. split_and!; [apply did_refl|done|done|by intros p ?%elem_of_nil|done]. }
  apply Forall_cons in Hne as [Hi Hne]. simpl in Hn. rewrite map_app in Hn. apply numbered_app in Hn as [Hn1 Hn2].
  eapply finishes_bind; [apply ranked_done|]. intros order m1 [Ho D1]. cbn beta.
  destruct order as [|winner redundant]; [by apply Permutation_nil in Ho|].
  pose proof (Permutation_map sm_id Ho) as Hio.
  eapply finishes_bind; [apply best_done; by eapply numbered_perm; [symmetry|]|]. intros n m2 (p1 & D2 & -> & E1 & W1). cbn beta.
  eapply finishes_bind; [by apply IH|]. intros more m3 (p2 & D3 & E2 & P2 & W2 & L2).
  assert (ids (concat (items :: groups)) ≡ₚ sm_id winner :: ids redundant ++ ids (fst more) ++ p2.*1) as Hall.
  { change (concat (items :: groups)) with (items ++ concat groups). by rewrite map_app, <- Hio, <- P2. }
  apply finishes_ret. exists (p1 ++ p2). split_and!.
  - apply (did_app p1 p2 m m2 m3); [|done]. exact (did_app [] p1 m m1 m2 D1 D2).
  - rewrite length_app, Nat2Z.inj_add. cbn [snd]. lia.
  - rewrite Hall, fmap_app, E1. cbn. constructor. rewrite !app_assoc. apply Permutation_app_tail, Permutation_app_comm.
  - intros p [Hp|Hp]%elem_of_app; rewrite Hall; [rewrite (W1 p Hp); left|]. apply W2 in Hp. rewrite <- P2 in Hp.
    right. apply elem_of_app. by right.
  - cbn. by rewrite L2.
Qed.

(** One group: one entry stays, the others name an entry of the group. *)
Lemma consolidate_group_done user_id group_key items m :
  items <> [] -> numbered (ids items) ->
  finishes (consolidate_group clock cfg user_id group_key items) m
    (fun counts m' => exists w plan, did plan m m' /\ fst counts = Z.of_nat (length plan) /\
       w :: plan.*1 ≡ₚ ids items /\ (forall p, p ∈ plan -> snd p ∈ ids items)).
Proof.
  intros Hi Hn. pose proof (group_by_perm semantic_value_key items) as Hp. pose proof (Permutation_map sm_id Hp) as Hpi.
  eapply finishes_bind.
  { apply value_winners_done; [apply group_by_nonempty|]. by eapply numbered_perm; [symmetry|]. }
  intros [ws n] m1 (p1 & D1 & E1 & P1 & W1 & L1). cbn [fst snd] in *. rewrite Hpi in P1.
  eapply finishes_bind; [apply ranked_done|]. intros order m2 [Ho D2]. cbn beta.
  pose proof (Permutation_map sm_id Ho) as Hio.
  destruct order as [|winner losers].
  { apply Permutation_nil in Ho as ->. destruct (d_values (group_by semantic_value_key items)) eqn:E; [|done].
    simpl in Hp. by apply Permutation_nil in Hp. }
  eapply finishes_bind.
  { apply best_done. eapply numbered_perm; [symmetry; exact Hio|]. eapply numbered_perm in Hn; [|symmetry; exact P1].
    by apply numbered_app in Hn as [Hn _]. }
  intros k m3 (p2 & D3 & -> & E2 & W2). apply finishes_ret. exists (sm_id winner), (p1 ++ p2). split_and!.
  - apply (did_app p1 p2 m m1 m3); [done|]. exact (did_app [] p2 m1 m2 m3 D2 D3).
  - simpl. rewrite length_app, E1. lia.
  - rewrite fmap_app, E2, <- P1, <- Hio. simpl. constructor. apply Permutation_app_comm.
  - intros p [Hp'|Hp']%elem_of_app; [apply W1 in Hp'; by rewrite Hpi in Hp'|]. rewrite (W2 p Hp'), <- P1, <- Hio. by left.
Qed.
(** What becomes of a group: the entry that stays and the retirements. *)
Definition settles (items : list semantic_row) (out : Z * list retirement) : Prop :=
  fst out :: (snd out).*1 ≡ₚ ids items /\ (forall p, p ∈ snd out -> snd p ∈ ids items).

Lemma consolidate_groups_done user_id (groups : dict (list semantic_row)) m :
  Forall (fun l => l <> []) (d_values groups) -> numbered (ids (concat (d_values groups))) ->
  finishes (consolidate_groups clock cfg user_id groups) m
    (fun counts m' => exists plans, Forall2 settles (d_values groups) plans /\ did (concat plans.*2) m m' /\
       snd (fst counts) = Z.of_nat (length (concat plans.*2))).
Proof.
  revert m. induction groups as [|[key items] groups IH]; intros m Hne Hn.
  { exists []. split_and!; [constructor|apply did_refl|done]. }
  change (d_values ((key, items) :: groups)) with (items :: d_values groups) in *. cbn [concat] in Hn. rewrite map_app in Hn.
  apply Forall_cons in Hne as [Hi Hne]. apply numbered_app in Hn as [Hn1 Hn2]. cbn [consolidate_groups].
  destruct (Nat.leb_spec (length items) 1) as [Hl|Hl].
  - eapply finishes_conseq; [by apply IH|]. intros counts m' (plans & F & D & E). destruct items as [|r [|]]; [done| |simpl in Hl; lia].
    exists ((sm_id r, []) :: plans). split_and!; [|done..]. constructor; [|done]. split; [done|]. by intros p ?%elem_of_nil.
  - eapply finishes_bind; [by apply consolidate_group_done|]. intros here m1 (w & p1 & D1 & E1 & P1 & W1). cbn beta.
    eapply finishes_bind; [by apply IH|]. intros [[d n] k] m2 (plans & F & D2 & E2). cbn [fst snd] in E2. cbn beta iota.
    apply finishes_ret. exists ((w, p1) :: plans). split_and!.
    + by constructor.
    + exact (did_app p1 (concat plans.*2) m m1 m2 D1 D2).
    + change (concat (((w, p1) :: plans).*2)) with (p1 ++ concat plans.*2). rewrite length_app. cbn [fst snd]. lia.
Qed.

(** Each entry of the groups stays or is retired, and none is both. *)
Lemma settled_perm groups plans :
  Forall2 settles groups plans -> plans.*1 ++ (concat plans.*2).*1 ≡ₚ ids (concat groups).
Proof.
  induction 1 as [|items [w p] groups plans [P _] _ IH]; [done|]. cbn [fst snd] in P.
  change (concat (items :: groups)) with (items ++ concat groups). change (concat ((w, p) :: plans).*2) with (p ++ concat plans.*2).
  change (((w, p) :: plans).*1) with (w :: plans.*1). rewrite (map_app sm_id), <- IH, <- P, fmap_app.
  cbn [app]. constructor. rewrite !app_assoc. apply Permutation_app_tail, Permutation_app_comm.
Qed.
End consolidation.

(** ** The table of facts *)

(** The identifier of a fact is its place in the table. *)
Definition table_wf (rows : list semantic_row) : Prop := forall i r, rows !! i = Some r -> sm_id r = Z.of_nat i + 1.

Lemma table_wf_inj rows r r' : table_wf rows -> r ∈ rows -> r' ∈ rows -> sm_id r = sm_id r' -> r = r'.
Proof.
  intros H (i & Hi)%list_elem_of_lookup (j & Hj)%list_elem_of_lookup E. pose proof (H i r Hi). pose proof (H j r' Hj).
  assert (i = j) as -> by lia. congruence.
Qed.

Lemma table_wf_numbered rows : table_wf rows -> numbered (map sm_id rows).
Proof.
  intros H. split.
  - apply NoDup_alt. intros i j n Hi Hj. apply list_lookup_fmap_Some in Hi as (r & -> & Hi). apply list_lookup_fmap_Some in Hj as (r' & E & Hj).
    pose proof (H i r Hi). pose proof (H j r' Hj). lia.
  - apply Forall_forall. intros n (r & -> & (i & Hi)%list_elem_of_lookup)%list_elem_of_fmap. pose proof (H i r Hi). lia.
Qed.

(** The entries a consolidation looks at. *)
Definition scanned (user_id : string) (semantic_limit : Z) (rows : list semantic_row) : list semantic_row :=
  limited (Z.max 10 (Z.min semantic_limit 5000)) (rev (List.filter (semantic_matches user_id (Some "fact") true) rows)).

Lemma numbered_submseteq l l' : l ⊆+ l' -> numbered l' -> numbered l.
Proof. intros (k & H)%submseteq_Permutation Hn. eapply numbered_perm in Hn; [|exact H]. by apply numbered_app in Hn as [Hn _]. Qed.

Lemma filter_sublist {A} (f : A -> bool) l : List.filter f l `sublist_of` l.
Proof. induction l as [|x l IH]; simpl; [constructor|]. destruct (f x); by constructor. Qed.

Lemma scanned_submseteq user_id limit rows : scanned user_id limit rows ⊆+ rows.
Proof.
  unfold scanned, limited. case_match; [apply submseteq_nil_l|]. etransitivity; [apply sublist_submseteq, sublist_take|].
  rewrite <- Permutation_rev. apply sublist_submseteq, filter_sublist.
Qed.

Lemma scanned_numbered user_id limit rows : table_wf rows -> numbered (map sm_id (scanned user_id limit rows)).
Proof.
  intros H. apply (numbered_submseteq _ (map sm_id rows)); [|by apply table_wf_numbered].
  apply fmap_submseteq, scanned_submseteq.
Qed.

Lemma scanned_active user_id limit rows r : r ∈ scanned user_id limit rows -> r ∈ rows /\ sm_is_active r = true.
Proof.
  intros H. split; [by eapply elem_of_submseteq; [|apply scanned_submseteq]|]. unfold scanned, limited in H.
  case_match; [by apply elem_of_nil in H|]. apply elem_of_take in H as (i & H & _). apply list_elem_of_lookup_2 in H.
  apply list_elem_of_In, in_rev, List.filter_In in H as [_ H]. unfold semantic_matches in H. by destruct (sm_is_active r); [|rewrite andb_false_r in H].
Qed.

Abbreviation grouped_facts sc := (group_by semantic_group_key sc).

(** A consolidation settles the groups of the scanned entries. *)
Lemma consolidate_done clock half_power cfg user_id session_id limit m :
  table_wf (me_semantic m) ->
  finishes (consolidate_user_memory clock half_power cfg user_id session_id limit) m
    (fun su m' => exists plans, let sc := scanned user_id limit (me_semantic m) in
       Forall2 settles (d_values (grouped_facts sc)) plans /\ did (concat plans.*2) m m'
       /\ su_semantic_scanned su = Z.of_nat (length sc) /\ su_semantic_groups su = Z.of_nat (length (grouped_facts sc))
       /\ su_semantic_deactivated su = Z.of_nat (length (concat plans.*2))).
Proof.
  intros Hwf. unfold consolidate_user_memory. cbn zeta.
  eapply finishes_bind with (Q' := fun items m1 => items = scanned user_id limit (me_semantic m) /\ m1 = m); [done|].
  intros items m1 [-> ->].
  eapply finishes_bind.
  { apply consolidate_groups_done; [apply group_by_nonempty|]. eapply numbered_perm; [|by apply scanned_numbered].
    symmetry. apply Permutation_map, group_by_perm. }
  intros [[dup n] red] m1 (plans & F & D & E). cbn [fst snd] in E.
  eapply finishes_bind with (Q' := fun _ m' => did [] m1 m').
  { destruct (in_session cfg session_id); apply did_refl. }
  intros working m2 D2. cbn beta in D2. eapply finishes_bind; [apply reads_gets|]. intros profile m3 D3.
  eapply finishes_bind; [apply reads_decayed_profile|]. intros decay m4 D4.
  eapply finishes_bind; [apply reads_bind; [apply reads_clock|intros ?; apply reads_ret]|]. intros at_time m5 D5.
  eapply finishes_bind; [apply reads_emit|]. intros [] m6 D6. apply finishes_ret. exists plans. cbn [su_semantic_scanned su_semantic_groups su_semantic_deactivated].
  split_and!; [done| |done..]. rewrite <- (app_nil_r (concat plans.*2)). eapply did_app; [exact D|].
  eapply did_trans; [exact D2|]. eapply did_trans; [exact D3|]. eapply did_trans; [exact D4|]. eapply did_trans; [exact D5|exact D6].
Qed.

Section settled.
Context {sc rows : list semantic_row} {plans : list (Z * list retirement)}.
Hypothesis Hwf : table_wf rows.
Hypothesis Hsc : sc ⊆+ rows.
Hypothesis Hset : Forall2 settles (d_values (grouped_facts sc)) plans.
Abbreviation retired := (concat plans.*2).

Lemma settled_ids : plans.*1 ++ retired.*1 ≡ₚ map sm_id sc.
Proof using Hset. rewrite (settled_perm _ _ Hset). apply Permutation_map, group_by_perm. Qed.

Lemma settled_NoDup : NoDup (plans.*1 ++ retired.*1).
Proof using Hwf Hsc Hset. rewrite settled_ids. eapply (numbered_submseteq _ (map sm_id rows)); [by apply fmap_submseteq|by apply table_wf_numbered]. Qed.

Lemma settled_elem r r' : r ∈ sc -> r' ∈ sc -> sm_id r = sm_id r' -> r = r'.
Proof using Hwf Hsc. intros H1 H2. apply (table_wf_inj rows r r' Hwf); by eapply elem_of_submseteq. Qed.

Lemma of_group r r' : r' ∈ List.filter (of_key semantic_group_key (semantic_group_key r)) sc ->
  r' ∈ sc /\ semantic_group_key r' = semantic_group_key r.
Proof. intros [H1 H2]%list_elem_of_In%List.filter_In. split; [by apply list_elem_of_In|by apply String.eqb_eq]. Qed.

(** The group of an entry and what becomes of it. *)
Lemma settled_group r : r ∈ sc -> exists out, out ∈ plans /\
  settles (List.filter (of_key semantic_group_key (semantic_group_key r)) sc) out.
Proof using Hset.
  intros Hr. pose proof (group_by_has semantic_group_key sc r Hr) as Hg.
  assert (List.filter (of_key semantic_group_key (semantic_group_key r)) sc ∈ d_values (grouped_facts sc)) as Hv
    by (apply list_elem_of_fmap; by eexists (_, _)).
  apply list_elem_of_lookup in Hv as (i & Hi). destruct (Forall2_lookup_l _ _ _ _ _ Hset Hi) as (out & Ho & Hs).
  exists out. split; [by eapply list_elem_of_lookup_2|done].
Qed.

Lemma group_member r : r ∈ sc -> sm_id r ∈ map sm_id (List.filter (of_key semantic_group_key (semantic_group_key r)) sc).
Proof.
  intros Hr. apply list_elem_of_fmap. exists r. split; [done|].
  apply list_elem_of_In, List.filter_In. split; [by apply list_elem_of_In|apply String.eqb_refl].
Qed.

(** An entry stays exactly when it is the one its group keeps. *)
Lemma settled_stays out r :
  r ∈ sc -> out ∈ plans -> settles (List.filter (of_key semantic_group_key (semantic_group_key r)) sc) out ->
  sm_id r ∉ retired.*1 <-> sm_id r = fst out.
Proof using Hwf Hsc Hset.
  intros Hr Ho [Hp _]. pose proof settled_NoDup as Hn. apply NoDup_app in Hn as (_ & Hd & _). split.
  - intros H. pose proof (group_member r Hr) as Hm. rewrite <- Hp in Hm. apply elem_of_cons in Hm as [->|Hm]; [done|].
    destruct H. apply list_elem_of_fmap in Hm as (p & -> & Hpl). apply list_elem_of_fmap. exists p. split; [done|].
    apply list_elem_of_In, in_concat. exists (snd out). split; [|by apply list_elem_of_In].
    apply list_elem_of_In, list_elem_of_fmap. eauto.
  - intros ->. apply Hd. apply list_elem_of_fmap. eauto.
Qed.

Lemma settled_retired r : r ∈ sc -> sm_id r ∈ retired.*1 ->
  exists v, v ∈ sc /\ semantic_group_key v = semantic_group_key r /\ retire_row retired r = retired_row (Some (sm_id v)) r.
Proof using Hwf Hsc Hset.
  intros Hr Hin. destruct (settled_group r Hr) as (out & Ho & Hs). pose proof (settled_stays out r Hr Ho Hs) as Hst.
  destruct Hs as [Hp Hw]. pose proof (group_member r Hr) as Hm. rewrite <- Hp in Hm.
  apply elem_of_cons in Hm as [E|Hm]; [by apply Hst in E|]. apply list_elem_of_fmap in Hm as ([l v] & El & Hpl). simpl in El. subst l.
  pose proof (Hw _ Hpl) as Hv. simpl in Hv. apply list_elem_of_fmap in Hv as (vr & -> & Hv). apply of_group in Hv as [Hv Hk].
  exists vr. split_and!; [done..|]. apply retire_row_in; [pose proof settled_NoDup as Hn; by apply NoDup_app in Hn as (_ & _ & Hn)|].
  apply list_elem_of_In, in_concat. exists (snd out). split; [|by apply list_elem_of_In].
  apply list_elem_of_In, list_elem_of_fmap. eauto.
Qed.

Lemma settled_count : (length retired + length (grouped_facts sc) = length sc)%nat.
Proof using Hset.
  pose proof (Permutation_length settled_ids) as H. rewrite length_app, !length_fmap in H.
  pose proof (Forall2_length _ _ _ Hset) as L. unfold d_values in L. rewrite length_fmap in L. lia.
Qed.
End settled.

(** ** Histories of the memory *)

(** What the rest of the program asks of the memory. *)
Inductive memory_call : Type :=
  | Interaction (user_id : string) (agent_id : option string) (role content : string) (session_id : option string)
  | Remember (user_id text : string) (metadata : option pydict)
  | Prefer (user_id key value : string) (confidence importance : fvalue) (source : string)
  | Consolidate (user_id : string) (session_id : option string) (semantic_limit : Z)
  | WorkerTick (semantic_limit max_users_per_tick : Z).

Definition empty_mem : mem := Mem [] [] [] [] [] [] [] [] 0.

Section histories.
Context (clock : nat -> Z) (sha256 : string -> string) (half_power : fvalue -> fvalue) (cfg : settings).

Definition call (c : memory_call) : M mem unit :=
  match c with
  | Interaction u a r t s => add_interaction clock sha256 half_power cfg u a r t s
  | Remember u t md => remember_fact clock sha256 u t md ;;; ret tt
  | Prefer u k v c i s => set_user_preference clock half_power cfg u k v c i s ;;; ret tt
  | Consolidate u s l => consolidate_user_memory clock half_power cfg u s l ;;; ret tt
  | WorkerTick l n => run_once clock half_power cfg l n ;;; ret tt
  end.

(** The memory after a sequence of calls. *)
Definition after (calls : list memory_call) : mem := fold_left (fun m c => snd (call c m)) calls empty_mem.

Inductive facts_wf (m : mem) : Prop := FactsWf : table_wf (me_semantic m) -> facts_wf m.

Lemma facts_table m : facts_wf m -> table_wf (me_semantic m).
Proof. by intros [H]. Qed.

Lemma add_semantic_entry_wf u t md k c i f : preserves facts_wf (add_semantic_entry clock u t md k c i f).
Proof.
  unfold add_semantic_entry, utc_now, not_null. intros m Hm. unfold bind, now_utc, raise_if, raise, ret, gets, modify. cbn.
  apply facts_table in Hm. destruct c; cbn; try (by constructor); destruct i; cbn; try (by constructor).
  all: constructor; intros n r; unfold tick, set_semantic; cbn [me_semantic]; rewrite lookup_snoc_Some;
    intros [[_ H]|[-> <-]]; [exact (Hm n r H)|cbn; lia].
Qed.

Lemma table_wf_map f rows : (forall r, sm_id (f r) = sm_id r) -> table_wf rows -> table_wf (map f rows).
Proof. intros Hf H i r Hi. apply list_lookup_fmap_Some in Hi as (r0 & -> & Hi). rewrite Hf. by apply H. Qed.

Lemma deactivate_wf id by_ : preserves facts_wf (deactivate_semantic_entry id by_).
Proof. apply preserves_modify. intros m [Hm]. constructor. apply table_wf_map; [|done]. intros r. by destruct (_ =? _). Qed.

Lemma now_wf : preserves facts_wf (now_utc clock).
Proof. intros m [Hm]. constructor. exact Hm. Qed.

Ltac keeps_facts := repeat match goal with
  | H : facts_wf ?m |- facts_wf _ => constructor; exact (facts_table m H)
  | |- preserves _ (add_semantic_entry _ _ _ _ _ _ _ _) => apply add_semantic_entry_wf
  | |- preserves _ (deactivate_semantic_entry _ _) => apply deactivate_wf
  | |- preserves _ (now_utc _) => apply now_wf
  | |- preserves _ (bind _ _) => apply preserves_bind; [|intros ?]
  | |- preserves _ (ret _) => apply preserves_ret
  | |- preserves _ (gets _) => apply preserves_gets
  | |- preserves _ (modify _) => apply preserves_modify; intros ? ?
  | |- preserves _ (raise_if _ _) => apply preserves_raise_if
  | |- preserves _ (when _ _) => apply preserves_when
  | |- preserves _ (for_each _ _) => apply preserves_for_each; intros ?
  | |- preserves _ (try_except _ _) => apply preserves_try; [|intros ?]
  | |- preserves _ (if ?b then _ else _) => destruct b
  | |- preserves _ (match ?x with _ => _ end) => destruct x
  | IH : context [preserves] |- preserves _ _ => apply IH
  end.

Lemma emit_wf e p : preserves facts_wf (emit cfg e p).
Proof. unfold emit. keeps_facts. Qed.
Lemma decay_wf c u s : preserves facts_wf (profile_decay_metrics clock half_power cfg c u s).
Proof. unfold profile_decay_metrics, age_days. keeps_facts. Qed.
Lemma set_user_memory_wf u k v c i s t : preserves facts_wf (set_user_memory clock u k v c i s t).
Proof. unfold set_user_memory, utc_now, not_null. keeps_facts. Qed.
Lemma record_conflict_wf u l k p i r c c' : preserves facts_wf (record_conflict clock cfg u l k p i r c c').
Proof. unfold record_conflict, add_conflict_record, utc_now. keeps_facts. apply emit_wf. Qed.
Lemma semantic_add_wf u t md k c i f : preserves facts_wf (semantic_add clock u t md k c i f).
Proof. unfold semantic_add. keeps_facts. Qed.
Lemma upsert_working_wf u s k v kd c i : preserves facts_wf (upsert_working_memory clock u s k v kd c i).
Proof. unfold upsert_working_memory, utc_now, not_null. keeps_facts. Qed.

Ltac keeps_memory := repeat match goal with
  | |- preserves _ (emit _ _ _) => apply emit_wf
  | |- preserves _ (profile_decay_metrics _ _ _ _ _ _) => apply decay_wf
  | |- preserves _ (set_user_memory _ _ _ _ _ _ _ _) => apply set_user_memory_wf
  | |- preserves _ (record_conflict _ _ _ _ _ _ _ _ _ _) => apply record_conflict_wf
  | |- preserves _ (semantic_add _ _ _ _ _ _ _ _) => apply semantic_add_wf
  | |- preserves _ (upsert_working_memory _ _ _ _ _ _ _ _) => apply upsert_working_wf
  | |- _ => progress keeps_facts
  end.

Lemma set_user_preference_wf u k v c i s : preserves facts_wf (set_user_preference clock half_power cfg u k v c i s).
Proof. unfold set_user_preference, get_user_memory_item. keeps_memory. Qed.

Lemma upsert_fact_wf u a r f : preserves facts_wf (upsert_fact_candidate clock sha256 cfg u a r f).
Proof. unfold upsert_fact_candidate, latest_fact_by_key, list_semantic_entries. cbn zeta. keeps_memory. Qed.

Lemma put_tasks_wf u s n tasks : preserves facts_wf (put_tasks clock sha256 u s n tasks).
Proof. revert n. induction tasks as [|t tasks IH]; intros n; cbn [put_tasks]; keeps_memory. Qed.

Lemma ingest_turn_wf r note c i ni u a s t : preserves facts_wf (ingest_turn clock sha256 half_power cfg r note c i ni u a s t).
Proof.
  unfold ingest_turn, apply_extraction, add_episodic_event, add_extraction_record, utc_now, not_null. cbn zeta.
  keeps_memory; first [apply upsert_fact_wf | apply set_user_preference_wf | apply put_tasks_wf].
Qed.

Lemma retire_all_wf u g res w losers : preserves facts_wf (retire_all clock cfg u g res w losers).
Proof. induction losers as [|r losers IH]; cbn [retire_all]; unfold retire; keeps_memory. Qed.

Lemma ranked_wf items : preserves facts_wf (ranked clock items).
Proof.
  unfold ranked. keeps_memory. induction items as [|r items IH]; cbn [rank_all];
    unfold semantic_rank_key, semantic_recency_score, age_days; keeps_memory.
Qed.

Lemma value_winners_wf u g groups : preserves facts_wf (value_winners clock cfg u g groups).
Proof. induction groups as [|l groups IH]; cbn [value_winners]; keeps_memory; first [apply ranked_wf | apply retire_all_wf]. Qed.

Lemma consolidate_groups_wf u groups : preserves facts_wf (consolidate_groups clock cfg u groups).
Proof.
  induction groups as [|[k l] groups IH]; cbn [consolidate_groups]; unfold consolidate_group;
    keeps_memory; first [apply ranked_wf | apply retire_all_wf | apply value_winners_wf].
Qed.

Lemma consolidate_wf u s l : preserves facts_wf (consolidate_user_memory clock half_power cfg u s l).
Proof.
  unfold consolidate_user_memory, list_semantic_entries, list_working_memory, get_user_memory_items, utc_now. cbn zeta.
  keeps_memory; [apply consolidate_groups_wf|]. generalize 0 zero. induction a1 as [|p items IH]; intros n t; cbn [decayed_profile]; keeps_memory.
Qed.

Lemma run_once_wf l n : preserves facts_wf (run_once clock half_power cfg l n).
Proof.
  unfold run_once, list_memory_users. keeps_memory. generalize (Totals (Z.of_nat (length a)) 0 0 0 0).
  induction a as [|u users IH]; intros t; cbn [consolidate_users]; keeps_memory; apply consolidate_wf.
Qed.

Lemma call_wf c : preserves facts_wf (call c).
Proof.
  destruct c; cbn [call]; unfold add_interaction, ingest_user_turn, ingest_assistant_turn, remember_fact, add_episodic_event, utc_now, not_null;
    keeps_memory; first [apply ingest_turn_wf | apply set_user_preference_wf | apply consolidate_wf | apply run_once_wf].
Qed.

(** Whatever the history, the identifiers of the facts are their places. *)
Lemma after_wf calls : table_wf (me_semantic (after calls)).
Proof.
  unfold after. apply facts_table. assert (facts_wf empty_mem) as H by (constructor; intros i r Hi; by destruct i). revert H. generalize empty_mem.
  induction calls as [|c calls IH]; intros m H; [done|]. apply IH, (preserves_run facts_wf); [apply call_wf|done].
Qed.
End histories.

Section outcomes.
Context (clock : nat -> Z) (sha256 : string -> string) (half_power : fvalue -> fvalue) (cfg : settings).

(** An entry of a scanned group is still in the table, unchanged, exactly
    when its group keeps it. *)
Lemma kept_unchanged rows sc plans r :
  table_wf rows -> sc ⊆+ rows -> Forall2 settles (d_values (grouped_facts sc)) plans -> r ∈ sc -> sm_is_active r = true ->
  r ∈ map (retire_row (concat plans.*2)) rows <-> sm_id r ∉ (concat plans.*2).*1.
Proof.
  intros Hwf Hsub Hset Hr Ha. assert (r ∈ rows) as Hin by (by eapply elem_of_submseteq). split.
  - intros (r0 & E & H0)%list_elem_of_fmap Hret. assert (sm_id r = sm_id r0) as Ei by (by rewrite E, retire_row_id).
    apply (table_wf_inj rows r r0 Hwf Hin H0) in Ei as <-.
    destruct (settled_retired Hwf Hsub Hset r Hr Hret) as (v & _ & _ & E'). rewrite E' in E. by rewrite E in Ha.
  - intros H. apply list_elem_of_fmap. exists r. split; [by rewrite retire_row_not|done].
Qed.

(** C19. After any history of turns, remembered facts, preferences and
    consolidations, [consolidate_user_memory] returns, and of the entries it
    scans exactly one of each group ([_semantic_group_key]) stays as it was;
    every other one is deactivated and names an entry of its own group that
    replaces it; every entry it does not scan is unchanged; and it reports and
    logs one conflict for each entry it deactivated, which are as many as there
    are entries beyond one per group. *)
Theorem consolidation_keeps_one calls user_id session_id semantic_limit :
  let m := after clock sha256 half_power cfg calls in
  let sc := scanned user_id semantic_limit (me_semantic m) in
  let groups := group_by semantic_group_key sc in
  exists su m', consolidate_user_memory clock half_power cfg user_id session_id semantic_limit m = (Ok su, m') /\
    (forall r, r ∈ sc -> exists w, w ∈ sc /\ semantic_group_key w = semantic_group_key r /\ w ∈ me_semantic m' /\
       forall w', w' ∈ sc -> semantic_group_key w' = semantic_group_key r -> w' ∈ me_semantic m' -> w' = w) /\
    (forall i r, me_semantic m !! i = Some r -> r ∈ sc ->
       me_semantic m' !! i = Some r \/
       exists v, v ∈ sc /\ semantic_group_key v = semantic_group_key r /\ me_semantic m' !! i = Some (retired_row (Some (sm_id v)) r)) /\
    (forall i r, me_semantic m !! i = Some r -> r ∉ sc -> me_semantic m' !! i = Some r) /\
    su_semantic_deactivated su = Z.of_nat (length sc) - Z.of_nat (length groups) /\
    Z.of_nat (length (me_conflicts m')) = Z.of_nat (length (me_conflicts m)) + su_semantic_deactivated su.
Proof.
  intros m sc groups. pose proof (after_wf clock sha256 half_power cfg calls : table_wf (me_semantic m)) as Hwf.
  pose proof (scanned_submseteq user_id semantic_limit (me_semantic m) : sc ⊆+ me_semantic m) as Hsub.
  destruct (finishes_run _ _ _ (consolidate_done clock half_power cfg user_id session_id semantic_limit m Hwf))
    as (su & m' & Hrun & plans & Hset & (Hrows & Hconf & _) & Hscan & Hgroups & Hdeact).
  change (scanned user_id semantic_limit (me_semantic m)) with sc in Hset, Hscan, Hgroups. exists su, m'. split; [done|]. rewrite Hrows.
  assert (forall r, r ∈ sc -> r ∈ map (retire_row (concat plans.*2)) (me_semantic m) <-> sm_id r ∉ (concat plans.*2).*1) as Hkept.
  { intros r Hr. apply (kept_unchanged _ sc); [done..|]. by apply scanned_active in Hr as [_ ?]. }
  split_and!.
  - intros r Hr. destruct (settled_group Hset r Hr) as (out & Ho & Hs).
    assert (fst out ∈ map sm_id (List.filter (of_key semantic_group_key (semantic_group_key r)) sc)) as Hw
      by (destruct Hs as [<- _]; left).
    apply list_elem_of_fmap in Hw as (w & Ew & Hw). apply of_group in Hw as [Hw Hk].
    assert (forall w', w' ∈ sc -> semantic_group_key w' = semantic_group_key r ->
              w' ∈ map (retire_row (concat plans.*2)) (me_semantic m) <-> sm_id w' = fst out) as Hstay.
    { intros w' Hw' Hk'. rewrite (Hkept w' Hw'). apply (settled_stays Hwf Hsub Hset out w' Hw' Ho). by rewrite Hk'. }
    exists w. split_and!; [done..|by apply Hstay|]. intros w' Hw' Hk' Hin. apply Hstay in Hin; [|done..].
    apply (settled_elem Hwf Hsub w' w Hw' Hw). congruence.
  - intros i r Hi Hr. rewrite list_lookup_fmap, Hi. cbn [fmap option_fmap option_map].
    destruct (decide (sm_id r ∈ (concat plans.*2).*1)) as [Hin|Hout]; [right|left; by rewrite retire_row_not].
    destruct (settled_retired Hwf Hsub Hset r Hr Hin) as (v & Hv & Hk & ->). by exists v.
  - intros i r Hi Hr. rewrite list_lookup_fmap, Hi. cbn [fmap option_fmap option_map]. rewrite retire_row_not; [done|].
    intros Hin. assert (sm_id r ∈ map sm_id sc) as (r' & E & Hr')%list_elem_of_fmap.
    { rewrite <- (settled_ids Hset). apply elem_of_app. by right. }
    destruct Hr. apply (table_wf_inj _ r r' Hwf) in E as ->; [done|by eapply list_elem_of_lookup_2|by eapply elem_of_submseteq].
  - pose proof (settled_count Hset) as Hc. subst groups. lia.
  - rewrite Hconf, Hdeact. lia.
Qed.
(** What the executor remembers of an agent's answer. *)
Definition response_metadata (agent_id : string) : pydict := [("agent_id", PStr agent_id); ("kind", PStr "response")].

Definition response_row (id : Z) (user_id agent_id text : string) (created : Z) : semantic_row :=
  SemanticRow id user_id text (d_set "user_id" (PStr user_id) (response_metadata agent_id)) "fact" (hundredths 70) (hundredths 60)
    (Some (fingerprint sha256 text)) true None (isoformat created).

Definition two_answers (user_id agent_id t1 t2 : string) : list memory_call :=
  [Remember user_id t1 (Some (response_metadata agent_id)); Remember user_id t2 (Some (response_metadata agent_id))].

Lemma two_answers_rows user_id agent_id t1 t2 :
  me_semantic (after clock sha256 half_power cfg (two_answers user_id agent_id t1 t2)) =
  [response_row 1 user_id agent_id t1 (clock 0); response_row 2 user_id agent_id t2 (clock 1)].
Proof. reflexivity. Qed.

Lemma response_group id user_id agent_id text created :
  lower (strip text) <> "" ->
  semantic_group_key (response_row id user_id agent_id text created) = "text:" +:+ String.substring 0 120 (lower (strip text)).
Proof. intros H. unfold semantic_group_key, metadata_word. cbn -[lower strip String.substring String.append]. by destruct (lower (strip text)). Qed.

Lemma two_answers_scanned user_id agent_id t1 t2 limit :
  scanned user_id limit [response_row 1 user_id agent_id t1 (clock 0); response_row 2 user_id agent_id t2 (clock 1)] =
  [response_row 2 user_id agent_id t2 (clock 1); response_row 1 user_id agent_id t1 (clock 0)].
Proof.
  unfold scanned. cbn [List.filter semantic_matches sm_user_id response_row]. unfold semantic_matches. cbn -[limited Z.max].
  rewrite String.eqb_refl. cbn -[limited Z.max]. unfold limited. rewrite (proj2 (Z.leb_gt _ _)) by lia. apply take_ge. simpl. lia.
Qed.

(** C39. Finding: two answers of an agent whose texts agree in their first 120
    characters, however they go on and whatever their fingerprints, are one
    group, and a consolidation deactivates one of them as a duplicate. *)
Theorem answers_sharing_start_collapse user_id agent_id t1 t2 session_id limit :
  lower (strip t1) <> "" -> lower (strip t2) <> "" ->
  String.substring 0 120 (lower (strip t1)) = String.substring 0 120 (lower (strip t2)) ->
  exists su m', consolidate_user_memory clock half_power cfg user_id session_id limit
                  (after clock sha256 half_power cfg (two_answers user_id agent_id t1 t2)) = (Ok su, m') /\
    length (me_semantic m') = 2%nat /\ length (List.filter sm_is_active (me_semantic m')) = 1%nat.
Proof.
  intros H1 H2 H12. set (m := after clock sha256 half_power cfg (two_answers user_id agent_id t1 t2)).
  pose proof (after_wf clock sha256 half_power cfg (two_answers user_id agent_id t1 t2)) as Hwf.
  destruct (finishes_run _ _ _ (consolidate_done clock half_power cfg user_id session_id limit m Hwf))
    as (su & m' & Hrun & plans & Hset & (Hrows & _) & _). exists su, m'. split; [done|]. rewrite Hrows, length_map. subst m.
  rewrite two_answers_rows, two_answers_scanned in *. split; [done|].
  pose proof (settled_ids Hset) as Hids. pose proof (settled_count Hset) as Hc.
  assert (length (group_by semantic_group_key [response_row 2 user_id agent_id t2 (clock 1); response_row 1 user_id agent_id t1 (clock 0)])
          = 1%nat) as Hg.
  { unfold group_by. cbn [fold_left]. rewrite !response_group, H12 by done. cbn -[String.append]. by rewrite String.eqb_refl. }
  rewrite Hg in Hc. cbn in Hc. destruct (concat plans.*2) as [|[l v] [|]] eqn:E; cbn in Hc; [lia| |lia].
  assert (l ∈ [2; 1]) as Hl.
  { change [2; 1] with (map sm_id [response_row 2 user_id agent_id t2 (clock 1); response_row 1 user_id agent_id t1 (clock 0)]).
    rewrite <- Hids. apply elem_of_app. right. left. }
  apply elem_of_cons in Hl as [->|[->|Hl]%elem_of_cons]; [done..|by apply elem_of_nil in Hl].
Qed.
End outcomes.

Definition wall_clock (n : nat) : Z := 1700000000000000 + Z.of_nat n.
Definition plain_settings : settings := init_settings true true true (FFinite 30 0) (hundredths 20) (hundredths 5).
Definition boilerplate : string :=
  "Agent Scout response: Here is the daily digest you asked for, compiled from the configured sources and checked twice today: ".

Lemma answers_sharing_start_collapse_witness :
  exists su m', consolidate_user_memory wall_clock (fun _ => FFinite 1 0) plain_settings "u" None 1000
                  (after wall_clock (fun s => s) (fun _ => FFinite 1 0) plain_settings
                     (two_answers "u" "scout" (boilerplate +:+ "rates rose.") (boilerplate +:+ "rates fell."))) = (Ok su, m') /\
    length (me_semantic m') = 2%nat /\ length (List.filter sm_is_active (me_semantic m')) = 1%nat.
Proof.
  apply (answers_sharing_start_collapse wall_clock (fun s => s) (fun _ => FFinite 1 0) plain_settings
           "u" "scout" (boilerplate +:+ "rates rose.") (boilerplate +:+ "rates fell.") None 1000).
  - vm_compute. discriminate.
  - vm_compute. discriminate.
  - vm_compute. reflexivity.
Defined.

(** ** Preferences *)

Lemma find_upsert_same row rows :
  List.find (profile_is (um_user_id row) (um_key row)) (upsert_profile row rows) = Some row.
Proof.
  assert (profile_is (um_user_id row) (um_key row) row = true) as Hr by (unfold profile_is; by rewrite !String.eqb_refl).
  unfold upsert_profile. destruct (existsb _ rows) eqn:E.
  - induction rows as [|r rows IH]; [done|]. cbn in E |- *. destruct (profile_is _ _ r) eqn:Er; cbn; [by rewrite Hr|]. rewrite Er. by apply IH.
  - induction rows as [|r rows IH]; cbn in *; [by rewrite Hr|]. apply orb_false_iff in E as [-> E]. by apply IH.
Qed.

Lemma find_upsert_other row rows user_id key :
  (user_id, key) <> (um_user_id row, um_key row) ->
  List.find (profile_is user_id key) (upsert_profile row rows) = List.find (profile_is user_id key) rows.
Proof.
  intros Hne.
  assert (forall r, profile_is (um_user_id row) (um_key row) r = true -> profile_is user_id key r = false) as Hd.
  { unfold profile_is. intros r [->%String.eqb_eq ->%String.eqb_eq]%andb_true_iff. destruct (String.eqb_spec (um_user_id row) user_id) as [E1|]; [|done].
    destruct (String.eqb_spec (um_key row) key) as [E2|]; [|done]. by rewrite E1, E2 in Hne. }
  assert (profile_is user_id key row = false) as Hr by (apply Hd; unfold profile_is; by rewrite !String.eqb_refl).
  unfold upsert_profile. destruct (existsb _ rows) eqn:E; clear E.
  - induction rows as [|r rows IH]; [done|]. cbn. destruct (profile_is (um_user_id row) _ r) eqn:Er.
    + rewrite Hr, (Hd r Er). apply IH.
    + destruct (profile_is user_id key r); [done|apply IH].
  - induction rows as [|r rows IH]; cbn; [by rewrite Hr|]. destruct (profile_is user_id key r); [done|apply IH].
Qed.

Definition is_nan (f : fvalue) : bool := match f with FNan => true | _ => false end.

Section preferences.
Context (clock : nat -> Z) (half_power : fvalue -> fvalue) (cfg : settings).

(** What storing a preference does. *)
Lemma set_user_memory_done user_id key value confidence importance source m :
  is_nan confidence = false -> is_nan importance = false ->
  finishes (set_user_memory clock user_id key value confidence importance source None) m (fun _ m' =>
    me_conflicts m' = me_conflicts m /\
    exists at_, me_profile m' = upsert_profile (ProfileRow user_id key value at_ confidence importance source) (me_profile m)).
Proof. intros H1 H2. unfold finishes. destruct confidence; try done; destruct importance; try done; cbn; by eauto. Qed.

Lemma record_conflict_done user_id layer key prev inc res c c' m :
  finishes (record_conflict clock cfg user_id layer key prev inc res c c') m (fun _ m' =>
    me_profile m' = me_profile m /\
    exists at_, me_conflicts m' = me_conflicts m ++ [ConflictRow user_id layer key prev inc res c c' at_]).
Proof. unfold finishes, record_conflict, emit, when. destruct (has_telemetry cfg); cbn; by eauto. Qed.
Lemma reads_decay_tables c u s m :
  finishes (profile_decay_metrics clock half_power cfg c u s) m (fun _ m' => me_profile m' = me_profile m /\ me_conflicts m' = me_conflicts m).
Proof.
  unfold profile_decay_metrics. destruct (negb _); [done|]. destruct (parse_time u); done.
Qed.

(** C22. When a preference contradicts the one that is stored, the incoming
    value is stored unless the stored confidence, decayed with its age, beats
    the incoming one by more than 0.05; either way the call returns what it did,
    one record with both values, the resolution and both confidences is added to
    the log, and no other preference changes. *)
Theorem contradiction_resolved user_id key value confidence importance source m p :
  is_nan confidence = false -> is_nan importance = false ->
  List.find (profile_is user_id key) (me_profile m) = Some p -> um_value p <> value ->
  exists metrics m1 answer m',
    profile_decay_metrics clock half_power cfg (um_confidence p) (um_updated_at p) (um_source p) m = (Ok metrics, m1) /\
    set_user_preference clock half_power cfg user_id key value confidence importance source m = (Ok answer, m') /\
    let effective := fst (fst metrics) in
    let wins := negb (f_lt (f_add confidence (hundredths 5)) effective) in
    answer = (if wins then "incoming_overwrites_previous" else "kept_previous_higher_confidence") /\
    (exists at_, List.find (profile_is user_id key) (me_profile m') =
       Some (if wins then ProfileRow user_id key value at_ confidence importance (Some source) else p)) /\
    (exists at_, me_conflicts m' = me_conflicts m ++
       [ConflictRow user_id "profile" key (Some (um_value p)) (Some value) answer (Some effective) (Some confidence) at_]) /\
    (forall u k, (u, k) <> (user_id, key) -> List.find (profile_is u k) (me_profile m') = List.find (profile_is u k) (me_profile m)).
Proof.
  intros Hc Hi Hp Hv.
  destruct (finishes_run _ _ _ (reads_decay_tables (um_confidence p) (um_updated_at p) (um_source p) m))
    as (metrics & m1 & Hm & Hprof & Hconf).
  exists metrics, m1. unfold set_user_preference, get_user_memory_item. unfold bind at 1, gets. rewrite Hp. unfold bind at 1. rewrite Hm.
  cbn zeta. rewrite (proj2 (String.eqb_neq _ _) Hv). destruct (f_lt _ _); cbn [negb].
  - destruct (finishes_run _ _ _ (record_conflict_done user_id "profile" key (Some (um_value p)) (Some value)
      "kept_previous_higher_confidence" (Some (fst (fst metrics))) (Some confidence) m1)) as ([] & m2 & Hr & Hp2 & at_ & Hc2).
    eexists _, m2. unfold bind. rewrite Hr, Hp2, Hc2, Hprof, Hconf. split_and!; by eauto.
  - destruct (finishes_run _ _ _ (set_user_memory_done user_id key value confidence importance (Some source) m1 Hc Hi))
      as ([] & m2 & Hs & Hc2 & at_ & Hp2).
    destruct (finishes_run _ _ _ (record_conflict_done user_id "profile" key (Some (um_value p)) (Some value)
      "incoming_overwrites_previous" (Some (fst (fst metrics))) (Some confidence) m2)) as ([] & m3 & Hr & Hp3 & at' & Hc3).
    eexists _, m3. unfold bind. rewrite Hs, Hr, Hp3, Hp2, Hc3, Hc2, Hprof, Hconf. split_and!; [done..| |by eauto|].
    + exists at_. exact (find_upsert_same (ProfileRow user_id key value at_ confidence importance (Some source)) _).
    + intros u k Hne. exact (find_upsert_other (ProfileRow user_id key value at_ confidence importance (Some source)) _ u k Hne).
Qed.
End preferences.

(** A preference of a week ago, said again with another value. *)
Definition old_preference : profile_row :=
  ProfileRow "u" "preference" "tea" (isoformat (wall_clock 0 - 7 * 86400000000)) (hundredths 90) (hundredths 80) (Some "extraction:user").

Lemma contradiction_resolved_witness :
  exists metrics m1 answer m',
    profile_decay_metrics wall_clock (fun _ => hundredths 70) plain_settings (hundredths 90)
      (um_updated_at old_preference) (Some "extraction:user") (set_profile [old_preference] empty_mem) = (Ok metrics, m1) /\
    set_user_preference wall_clock (fun _ => hundredths 70) plain_settings "u" "preference" "coffee" (hundredths 70) (hundredths 80)
      "extraction:user" (set_profile [old_preference] empty_mem) = (Ok answer, m') /\
    answer = "incoming_overwrites_previous".
Proof.
  destruct (contradiction_resolved wall_clock (fun _ => hundredths 70) plain_settings "u" "preference" "coffee" (hundredths 70)
              (hundredths 80) "extraction:user" (set_profile [old_preference] empty_mem) old_preference)
    as (metrics & m1 & answer & m' & H1 & H2 & H3 & _).
  - vm_compute. reflexivity.
  - vm_compute. reflexivity.
  - vm_compute. reflexivity.
  - vm_compute. discriminate.
  - exists metrics, m1, answer, m'. split; [exact H1|]. split; [exact H2|]. rewrite H3. clear H2 H3.
    vm_compute in H1. injection H1 as <- _. vm_compute. reflexivity.
Defined.

End MemoryFacts.
